(* ===== verification/_CoqProject ===== *)
-Q . S2P
Prelude.v
KernelH.v
Util.v
Memory.v
Varargs.v
Heap.v
Proc.v
Sched.v
Iface.v
Service.v
Elf.v
Core.v
Ipc.v
Storage.v
Ports.v
Atapi.v
Console.v
ConsoleText.v
ConsolePrint.v
ConsoleFb.v
UString.v
UAlloc.v
UFormat.v
UStdlib.v
UStubs.v
IsoFs.v
Vfs.v
VfsTree.v
Mount.v
Syscall.v
FdTable.v
Kernel.v
CallErrors.v
Files.v
Usys.v
UStdio.v
UMemStream.v
UPrograms.v
Protection.v
Interrupts.v
Keep.v
User.v
KernelCalls.v
UKernel.v
UProgSpec.v
UServices.v
UKernelSvc.v
UStdioTest.v
UProgDemo.v
USvcDemo.v
Exec.v
Boot.v
Platform.v
Shell.v
Demo.v
