(* ===== verification/Prelude.v ===== *)
(** * SLOP OS: a verification library for the kernel and its programs

    SLOP OS is a 32-bit kernel without paging ([src/kernel]) and a set of
    programs with a small C library ([src/user]).  Kernel and programs share one
    flat memory; a program enters the kernel with [int 0x80]; the only interrupt
    that matters is the timer, which switches the current task.  This library
    models both sides, joins them at the system call, and proves what each part
    promises to the next.

    ** The parts and their files

    Foundations.  [Prelude]: machine integers ([u32], [s32], [+u], [-u]),
    generic lemmas, tactics, and tables of slots ([Table]).  [KernelH]: the
    structures of kernel.h.  [Util]: util.c, strings as lists of bytes up to
    their NUL ([cstr]).  [Memory]: the flat memory, a function from addresses to
    bytes.  [Varargs]: arguments of variadic functions.

    The kernel.  [Heap]: heap.c.  [Proc]: proc.c.  [Sched]: the tables and the
    scheduler of task.c.  [Service]: service.c.  [Elf]: elf.c.  [Ipc]: ipc.c.
    [Iface] and [Core] state, as classes, what these call on one another
    ([ProcOps], [TaskOps]) and what they rely on ([ProcLaws], [TaskLaws]), and
    prove it.  [Storage], [IsoFs]: storage.c, and the ISO 9660 reader and the
    mount table of fs.c.  [Vfs], [VfsTree]: vfs.c, its operations and the theory
    of its tree; [Mount] connects the two file systems.  [Ports]: port input and
    output as an interface, and serial.c; [Atapi]: atapi.c against a drive that
    follows the protocol.  [Console], [ConsoleText], [ConsolePrint],
    [ConsoleFb]: console.c, then its text, what it prints and its pixels.
    [Protection]: protection.c.  [Interrupts]: interrupts.c.  [Syscall]:
    syscall.c, over a record [kernel] that holds the state of all components;
    [FdTable], [Kernel] and [Files] are the theory of the open files, of one
    system call, and of files as a program sees them; [CallErrors]: the calls
    that are refused.  [User]: the stub of syscall_stubs.asm and a run of a
    program in ring 3; [KernelCalls]: the whole stub, and the calls that the
    kernel itself makes; [Keep]: what lasts while programs run.  [Exec]: exec.c
    and the runner of task.c.  [Boot]: kmain.c.  [Platform]: platform.c and
    panic.c, what they print through the console.  [Shell]: shell.c and the loop
    in which the machine stays.  [Demo]: a small machine on which the theorems
    are used.

    The programs.  [UString], [UAlloc], [UFormat], [UStdlib]: compat_string.c,
    slop_alloc.c, the formatted output of compat_stdio.c and slop_stdio.c,
    compat_stdlib.c.  [UStubs]: compat_regex.c and compat_locale.c.  [Usys]:
    sys.h and slop_io.h over the class [UserOs], with [UserOsLaws], what a
    program may rely on.  [UStdio]: slop_stdio.c.  [UMemStream]: its in-memory
    streams.  [UPrograms]: every program, and compat_unistd.c.  [UKernel]: the
    kernel satisfies [UserOsLaws].  [UProgSpec], [UStdioTest]: what the programs
    do.  [UServices]: the programs that exchange messages and ask for names and
    memory, over a second class [OsServices] with [ServiceLaws]; [UKernelSvc]:
    the kernel satisfies them.  [UProgDemo], [USvcDemo]: they run on the small
    machine.

    ** How state and operations correspond to the code

    A function keeps its name.  The static variables of a C file are a record
    that its functions take and return; a pointer into an array or a tree is an
    index or an address; an output parameter is a second result; a function that
    fails in C returns what C returns, an [option] where C returns a pointer.
    [option] also stands for a call that does not come back (a program that
    never ends, a panic) and for what C gives no meaning.  Text that the kernel
    prints is in [k_out] in the order of printing.  A loop of the source is a
    function of its own, on the list it walks or with a number of turns.

    ** What is proved

    - The kernel as a whole: from the boot on, every state the shell loop can
      reach keeps the invariants of all components ([Shell]); every system call
      with any arguments keeps them and changes memory only where it may
      ([Kernel]); running a program leaves the tables as they were, whatever the
      program does ([Exec], [Files]).
    - Refinement: the process table, the name service, open files, the console's
      text, the line editor, the CD driver and the in-memory streams implement
      abstract specifications; the kernel implements the machine the programs
      are written for ([UKernel], [UKernelSvc]).
    - Function and round trips: writing a file and reading it back, at the
      level of the tree ([VfsTree]), of descriptors ([Files]), and of a program
      that uses the C library ([UStdioTest]); a message a program sends to itself
      ([UServices]); file reads from a disc image;
      message queues; suspending and resuming a program; numbers and formats.
    - Errors: every argument a system call cannot use has its error number, and
      a refused call changes nothing ([CallErrors]); after an exception the
      screen shows the whole report, whatever was on it ([Platform]).
    - Progress: the scheduler runs every ready task; directory walks and [cat]
      end.
    - Bounds: heap blocks and the blocks of [malloc] are apart; a driver writes
      only into its buffer; 32-bit wrap-around is followed everywhere and either
      shown harmless ([kmalloc_exact]) or shown to be a defect
      ([elf_plan_wraps], [iso_extent_wraps], [slop_malloc_wraps],
      [double_capacity_stuck]).  Other defects: [fd_leak], [kernel_recv_lost],
      [resume_next_lowest].

    ** Turns and fuel

    Each loop that is not structural has a number of turns that its theorems
    show to be enough: splitting a command line, one more than its length;
    walking the siblings of a directory, the number of nodes; doubling a
    capacity, 33, after which it has either reached the request or become 0; the
    walk of a disc directory, one turn for each byte of the extent; a poll of a
    device, the limit of the code itself; printing a number, the size of its
    digit buffer; formatting, two more than the length of the format; the length
    of a program's string, the size of the window for images; writing [n] bytes,
    [n + 1].  The endless loops (the shell, [cat], [sysinfod]) take the number of
    turns as an argument or are step relations.

    ** Parameters

    [Linker]: where the kernel, the stacks and the copies of images are.
    [MountFs] and its laws: the mounted file system, whose instance is the disc
    of [Mount].  [Ports], [DriveLaws], [SerialLaws]: the hardware;
    [Cpu] with [CpuLaws]: the flags and [cpuid] of the processor; [CursorQuiet]:
    moving the cursor sends nothing.  [Programs]:
    the code of the programs that the kernel runs, as the events it can see,
    where Exec.v and Shell.v run them.  [UserArena], [UserPlaces], [ProgPlaces],
    [ProtPlaces]: where compiler and linker put variables and constants.
    [UserOs]: the machine below a program, whose instance is the kernel.  Each
    has a concrete instance on which the theorems are used.

    ** What is not modelled

    - Without paging a program can store anywhere.  The model follows programs
      that store into their own image and stack; the others have no result.
    - The entry code, the mode switches and the interrupt stubs in assembly save
      and load registers; of them only the system call stub is modelled.  The
      timer interrupts a program, or comes between two operations of the kernel,
      not inside one.
    - The commands that halt or reboot do not come back: they end a run of the
      shell.  What they do before is in [Platform].  For the shell and the
      programs the listing of [systeminfo] is one event of the output; its text
      is [Platform]'s.
    - Colours of the shell. *)
From Stdlib Require Export ZArith Lia.
From stdpp Require Export base gmap list strings numbers.

#[export] Set Default Proof Using "Type".

(** ** Machine integers

    The kernel is 32-bit: [u32] is [unsigned int], [int] is two's complement.
    A machine integer is a [Z] and every operation that can leave the range is
    followed by one of these truncations. *)

#[global] Arguments Z.eqb : simpl never.
#[global] Arguments Z.ltb : simpl never.
#[global] Arguments Z.leb : simpl never.
#[global] Arguments Z.add : simpl never.
#[global] Arguments Z.sub : simpl never.
#[global] Arguments Z.mul : simpl never.
#[global] Arguments Z.modulo : simpl never.
#[global] Arguments Z.div : simpl never.

Declare Scope slop_scope.
Delimit Scope slop_scope with slop.

Local Open Scope Z_scope.

Definition W32 : Z := 4294967296.
Definition INT_MAX : Z := 2147483647.

Definition u8 (z : Z) : Z := z `mod` 256.
Definition u16 (z : Z) : Z := z `mod` 65536.
Definition u32 (z : Z) : Z := z `mod` 4294967296.
Definition s32 (z : Z) : Z :=
  if u32 z <=? INT_MAX then u32 z else u32 z - 4294967296.

Notation "a +u b" := (u32 (a + b)) (at level 50, left associativity) : slop_scope.
Notation "a -u b" := (u32 (a - b)) (at level 50, left associativity) : slop_scope.
Notation "a *u b" := (u32 (a * b)) (at level 40, left associativity) : slop_scope.

Definition is_u32 (z : Z) : Prop := 0 <= z < 4294967296.
Definition is_byte (z : Z) : Prop := 0 <= z < 256.
#[export] Instance is_u32_dec z : Decision (is_u32 z).
Proof. unfold is_u32. apply _. Defined.
#[export] Instance is_byte_dec z : Decision (is_byte z).
Proof. unfold is_byte. apply _. Defined.

Create HintDb slop.
Create Rewrite HintDb slop.

Lemma u32_range z : 0 <= u32 z < 4294967296.
Proof. unfold u32. apply Z.mod_pos_bound. lia. Qed.

Lemma u32_small z : 0 <= z < 4294967296 -> u32 z = z.
Proof. unfold u32. apply Z.mod_small. Qed.

Lemma u32_u32 z : u32 (u32 z) = u32 z.
Proof. apply u32_small, u32_range. Qed.

Lemma u32_add_l a b : u32 (u32 a + b) = u32 (a + b).
Proof. unfold u32. by rewrite Zplus_mod_idemp_l. Qed.

Lemma u32_add_r a b : u32 (a + u32 b) = u32 (a + b).
Proof. unfold u32. by rewrite Zplus_mod_idemp_r. Qed.

(** A 32-bit sum either is the exact sum or lost exactly one carry. *)
Lemma u32_add_cases a b :
  0 <= a < 4294967296 -> 0 <= b < 4294967296 ->
  (a + b < 4294967296 /\ u32 (a + b) = a + b) \/
  (4294967296 <= a + b /\ u32 (a + b) = a + b - 4294967296).
Proof.
  intros Ha Hb. destruct (Z.lt_ge_cases (a + b) 4294967296).
  - left. split; [done|]. apply u32_small. lia.
  - right. split; [done|]. unfold u32.
    symmetry. apply (Z.mod_unique _ _ 1); lia.
Qed.

(** The overflow test [end < start] of the C code is exact. *)
Lemma u32_wrap_test a b :
  0 <= a < 4294967296 -> 0 <= b < 4294967296 ->
  (u32 (a + b) <? a) = (4294967296 <=? a + b).
Proof.
  intros Ha Hb. destruct (u32_add_cases a b Ha Hb) as [[? ->]|[? ->]];
    [rewrite (proj2 (Z.leb_gt _ _)), (proj2 (Z.ltb_ge _ _)) by lia
    |rewrite (proj2 (Z.leb_le _ _)), (proj2 (Z.ltb_lt _ _)) by lia]; done.
Qed.

Lemma s32_small z : 0 <= z <= INT_MAX -> s32 z = z.
Proof.
  intros H. unfold s32. rewrite u32_small by (unfold INT_MAX in *; lia).
  by rewrite (proj2 (Z.leb_le _ _)) by lia.
Qed.

(** [x & ~(2^k - 1)]: the masking of the alignment code. *)
Lemma land_lnot_mask x k :
  0 <= x < 4294967296 -> 0 <= k <= 32 ->
  Z.land x (u32 (Z.lnot (2 ^ k - 1))) = x - x `mod` 2 ^ k.
Proof.
  intros Hx Hk. unfold u32. change 4294967296 with (2 ^ 32).
  rewrite <- Z.land_ones by lia.
  rewrite (Z.land_comm (Z.lnot _)), Z.land_assoc, Z.land_ones by lia.
  rewrite Z.mod_small by (change (2 ^ 32) with 4294967296; lia).
  replace (2 ^ k - 1) with (Z.ones k) by (rewrite Z.ones_equiv; lia).
  rewrite <- Z.ldiff_land, Z.ldiff_ones_r, Z.shiftr_div_pow2, Z.shiftl_mul_pow2 by lia.
  pose proof (Z.div_mod x (2 ^ k) ltac:(apply Z.pow_nonzero; lia)). lia.
Qed.

(** ** Boolean case analysis on the tests of the code *)

(** Linear arithmetic with division and remainder by constants. *)
Ltac mlia := Z.to_euclidean_division_equations; lia.

Ltac zify_bool :=
  repeat match goal with
  | H : (_ =? _) = true |- _ => apply Z.eqb_eq in H
  | H : (_ =? _) = false |- _ => apply Z.eqb_neq in H
  | H : (_ <? _) = true |- _ => apply Z.ltb_lt in H
  | H : (_ <? _) = false |- _ => apply Z.ltb_ge in H
  | H : (_ <=? _) = true |- _ => apply Z.leb_le in H
  | H : (_ <=? _) = false |- _ => apply Z.leb_gt in H
  | H : (_ && _) = true |- _ => apply andb_true_iff in H as [??]
  | H : (_ || _) = false |- _ => apply orb_false_iff in H as [??]
  | H : negb _ = true |- _ => apply negb_true_iff in H
  | H : negb _ = false |- _ => apply negb_false_iff in H
  end.

(** Split on the guard of the next [if] of the goal (or of a hypothesis). *)
Ltac split_if :=
  match goal with
  | |- context [if ?b then _ else _] =>
      lazymatch type of b with bool => destruct b eqn:? end
  | H : context [if ?b then _ else _] |- _ =>
      lazymatch type of b with bool => destruct b eqn:? end
  end; zify_bool.

Ltac case_opt :=
  match goal with
  | |- context [match ?o with Some _ => _ | None => _ end] => destruct o eqn:?
  | H : context [match ?o with Some _ => _ | None => _ end] |- _ => destruct o eqn:?
  end.

(** ** First free/matching slot of a fixed table

    Every table of the kernel is scanned with
    [for (i = 0; i < MAX; ++i) if (cond) return i; return -1]. *)

Fixpoint first_slot {A} (p : A -> bool) (l : list A) : option nat :=
  match l with
  | [] => None
  | x :: l' => if p x then Some O else S <$> first_slot p l'
  end.

Section first_slot.
Context {A : Type}.
Implicit Types (p : A -> bool) (l : list A).

Lemma first_slot_Some p l i :
  first_slot p l = Some i <->
  (exists x, l !! i = Some x /\ p x = true) /\
  (forall j y, (j < i)%nat -> l !! j = Some y -> p y = false).
Proof.
  revert i. induction l as [|x l IH]; intros i; cbn.
  - split; [done|]. by intros [(?&?&?) _].
  - destruct (p x) eqn:Hp.
    + split.
      * intros [= <-]. split; [by exists x|]. intros; lia.
      * intros [_ H]. destruct i as [|i]; [done|].
        specialize (H 0%nat x ltac:(lia) eq_refl). congruence.
    + rewrite fmap_Some. split.
      * intros (k & Hk & ->). apply IH in Hk as [(y & Hy & Hpy) Hmin].
        split; [by exists y|]. intros [|j] z Hj Hz; [by simplify_eq/=; eauto|].
        apply (Hmin j); [lia|done].
      * intros [(y & Hy & Hpy) Hmin]. destruct i as [|i]; [simplify_eq/=; congruence|].
        exists i. split; [|done]. apply IH. split; [by exists y|].
        intros j z Hj Hz. apply (Hmin (S j)); [lia|done].
Qed.

Lemma first_slot_None p l :
  first_slot p l = None <-> forall i x, l !! i = Some x -> p x = false.
Proof.
  induction l as [|x l IH]; cbn; [done|].
  destruct (p x) eqn:Hp.
  - split; [done|]. intros H. specialize (H 0%nat x eq_refl). congruence.
  - rewrite fmap_None, IH. split.
    + intros H [|i] y Hy; [by simplify_eq/=; eauto|by apply (H i)].
    + intros H i y Hy. by apply (H (S i)).
Qed.

Lemma first_slot_lookup p l i :
  first_slot p l = Some i -> exists x, l !! i = Some x /\ p x = true.
Proof. by intros [? _]%first_slot_Some. Qed.

Lemma first_slot_lt p l i : first_slot p l = Some i -> (i < length l)%nat.
Proof. intros (x & Hx & _)%first_slot_lookup. by apply lookup_lt_Some in Hx. Qed.

(** When only one entry can match, the scan finds it. *)
Lemma first_slot_unique p l i x :
  l !! i = Some x -> p x = true ->
  (forall j y, l !! j = Some y -> p y = true -> j = i) ->
  first_slot p l = Some i.
Proof.
  intros Hi Hp Hu. apply first_slot_Some. split; [by exists x|].
  intros j y Hj Hy. destruct (p y) eqn:E; [|done].
  specialize (Hu j y Hy E). lia.
Qed.

Lemma first_slot_ext p q l :
  (forall i x, l !! i = Some x -> p x = q x) -> first_slot p l = first_slot q l.
Proof.
  induction l as [|x l IH]; intros H; cbn; [done|].
  rewrite (H 0%nat x eq_refl), IH; [done|].
  intros i y Hy. by apply (H (S i)).
Qed.

End first_slot.

(** ** Counting the live entries of a table *)

Fixpoint count_if {A} (p : A -> bool) (l : list A) : Z :=
  match l with
  | [] => 0
  | x :: l' => (if p x then 1 else 0) + count_if p l'
  end.

Section count_if.
Context {A : Type}.
Implicit Types (p : A -> bool) (l : list A).

Lemma count_if_bound p l : 0 <= count_if p l <= Z.of_nat (length l).
Proof. induction l as [|x l IH]; cbn [count_if length]; [lia|]. destruct (p x); lia. Qed.

Lemma count_if_insert p l i x y :
  l !! i = Some x ->
  count_if p (<[i:=y]> l) =
    count_if p l - (if p x then 1 else 0) + (if p y then 1 else 0).
Proof.
  revert i. induction l as [|z l IH]; intros [|i] Hi; simplify_eq/=; [lia|].
  rewrite (IH i Hi). lia.
Qed.

Lemma count_if_pos p l i x : l !! i = Some x -> p x = true -> 0 < count_if p l.
Proof.
  revert i. induction l as [|z l IH]; intros [|i] Hi Hp; simplify_eq/=.
  - rewrite Hp. pose proof (count_if_bound p l). lia.
  - specialize (IH i Hi Hp). destruct (p z); lia.
Qed.

Lemma count_if_full p l :
  count_if p l = Z.of_nat (length l) <-> first_slot (fun x => negb (p x)) l = None.
Proof.
  induction l as [|x l IH]; cbn [count_if length first_slot]; [done|].
  pose proof (count_if_bound p l). destruct (p x); cbn [negb].
  - rewrite fmap_None, <- IH. lia.
  - split; [lia|done].
Qed.

End count_if.

(** [alter] at a known slot is [<[i:=_]>]: one rule for all field updates. *)
Lemma alter_known {A} (f : A -> A) (l : list A) i x :
  l !! i = Some x -> alter f i l = <[i:=f x]> l.
Proof.
  revert i. induction l as [|y l IH]; intros [|i] H; simplify_eq/=; [done|].
  f_equal. by apply IH.
Qed.

#[export] Hint Resolve u32_range : slop.
#[export] Hint Rewrite @length_insert @length_alter @length_replicate @length_app
  @length_take @length_drop @length_fmap : slop.
#[export] Hint Rewrite u32_u32 u32_add_l u32_add_r : slop.

(** ** Keyed tables

    The process, task, mailbox, waiter and service tables are all fixed arrays
    of slots, each free or holding one key.  [Table A K] is what such a table
    promises: which slots are live, their key, and the test the C code scans
    with. *)

Class Table (A K : Type) := {
  live : A -> bool;
  key : A -> K;
  hit : K -> A -> bool;
  hit_spec : forall k x, hit k x = true <-> live x = true /\ key x = k
}.

Section table.
Context {A K : Type} `{Table A K}.
Implicit Types (l : list A) (k : K) (x y : A).

(** No key is held by two live slots. *)
Definition uniq_keys l : Prop :=
  forall i j x y, l !! i = Some x -> l !! j = Some y ->
    live x = true -> live y = true -> key x = key y -> i = j.

(** The slot's content for a key: the abstract map a table stands for. *)
Definition entry_of l k : option A := first_slot (hit k) l ≫= fun i => l !! i.

(** [y] may be put at slot [i]: its key is held by no other live slot. *)
Definition key_free_but l i y : Prop :=
  live y = true -> forall j z, j <> i -> l !! j = Some z -> live z = true -> key z <> key y.

Lemma hit_false k x : hit k x = false <-> ~ (live x = true /\ key x = k).
Proof. rewrite <- hit_spec. by destruct (hit k x). Qed.

Lemma find_Some l k i x :
  uniq_keys l -> l !! i = Some x -> live x = true -> key x = k ->
  first_slot (hit k) l = Some i.
Proof.
  intros Hu Hi Hl Hk. apply (first_slot_unique _ _ _ x); [done|by apply hit_spec|].
  intros j y Hj [Hly Hky]%hit_spec. apply (Hu j i y x); congruence.
Qed.

Lemma find_inv l k i :
  first_slot (hit k) l = Some i ->
  exists x, l !! i = Some x /\ live x = true /\ key x = k.
Proof. intros (x & Hx & [??]%hit_spec)%first_slot_lookup. by exists x. Qed.

Lemma find_None l k :
  first_slot (hit k) l = None <->
  forall i x, l !! i = Some x -> live x = true -> key x <> k.
Proof.
  rewrite first_slot_None. split.
  - intros Hn i x Hx Hl Hk. specialize (Hn i x Hx).
    apply hit_false in Hn. by apply Hn.
  - intros Hn i x Hx. apply hit_false. intros [? ?]. by apply (Hn i x).
Qed.

Lemma entry_of_Some l k x :
  uniq_keys l ->
  entry_of l k = Some x <-> exists i, l !! i = Some x /\ live x = true /\ key x = k.
Proof.
  intros Hu. unfold entry_of. split.
  - intros (i & Hf & Hi)%bind_Some. apply find_inv in Hf as (y & Hy & ? & ?).
    simplify_eq. by exists i.
  - intros (i & Hi & Hl & Hk). by rewrite (find_Some l k i x).
Qed.

Lemma entry_of_None l k : entry_of l k = None <-> first_slot (hit k) l = None.
Proof.
  unfold entry_of. split; [|by intros ->].
  destruct (first_slot _ l) as [i|] eqn:E; [|done].
  apply find_inv in E as (x & Hx & _). cbn. congruence.
Qed.

Lemma uniq_insert l i y :
  uniq_keys l -> key_free_but l i y -> uniq_keys (<[i:=y]> l).
Proof.
  intros Hu Hf a b u v Ha Hb Hlu Hlv Hk.
  apply list_lookup_insert_Some in Ha as [(-> & -> & ?)|[? Ha]];
    apply list_lookup_insert_Some in Hb as [(-> & -> & ?)|[? Hb]]; [done| | |].
  - destruct (Hf Hlu b v); done.
  - destruct (Hf Hlv a u); done.
  - by apply (Hu a b u v).
Qed.

(** One write to a table, seen through the map. *)
Lemma entry_of_insert l i x y k :
  uniq_keys l -> l !! i = Some x -> key_free_but l i y ->
  entry_of (<[i:=y]> l) k =
    if hit k y then Some y else if hit k x then None else entry_of l k.
Proof.
  intros Hu Hi Hf.
  pose proof (uniq_insert l i y Hu Hf) as Hu'.
  pose proof (lookup_lt_Some _ _ _ Hi) as Hlt.
  destruct (hit k y) eqn:Ey.
  { apply entry_of_Some; [done|]. exists i. apply hit_spec in Ey as [??].
    split; [|done]. by apply list_lookup_insert_eq. }
  apply hit_false in Ey.
  destruct (hit k x) eqn:Ex.
  - apply hit_spec in Ex as [Hlx Hkx]. apply entry_of_None, find_None.
    intros j z Hj Hlz Hkz.
    apply list_lookup_insert_Some in Hj as [(<- & <- & _)|[Hne Hj]]; [by apply Ey|].
    apply Hne. apply (Hu i j x z); congruence.
  - apply hit_false in Ex.
    destruct (entry_of l k) as [z|] eqn:Ez.
    + apply entry_of_Some in Ez as (j & Hj & ? & ?); [|done].
      apply entry_of_Some; [done|]. exists j. split; [|done].
      rewrite list_lookup_insert_ne; [done|]. intros ->. simplify_eq. by apply Ex.
    + apply entry_of_None in Ez. apply entry_of_None, find_None.
      rewrite find_None in Ez. intros j z Hj Hlz Hkz.
      apply list_lookup_insert_Some in Hj as [(<- & <- & _)|[Hne Hj]]; [by apply Ey|].
      by apply (Ez j z).
Qed.

(** Freeing a slot, or writing to it without changing its key, is always
    allowed. *)
Lemma key_free_dead l i y : live y = false -> key_free_but l i y.
Proof. intros Hd Hl. congruence. Qed.

Lemma key_free_same l i x y :
  uniq_keys l -> l !! i = Some x -> live x = true -> key y = key x ->
  key_free_but l i y.
Proof.
  intros Hu Hi Hl Hk _ j z Hne Hj Hlz Hkz. apply Hne.
  apply (Hu j i z x); congruence.
Qed.

Lemma key_free_fresh l i y :
  entry_of l (key y) = None -> key_free_but l i y.
Proof.
  intros Hn Hl j z _ Hj Hlz. apply entry_of_None in Hn.
  rewrite find_None in Hn. by apply (Hn j z).
Qed.

End table.

(** The finite map a keyed table stands for. *)
Section table_map.
Context {A K : Type} `{Table A K} `{Countable K}.
Implicit Types (l : list A) (k : K).

Definition table_map l : gmap K A :=
  foldr (fun x m => if live x then <[key x := x]> m else m) ∅ l.

Lemma entry_of_cons x l k :
  entry_of (x :: l) k = if hit k x then Some x else entry_of l k.
Proof.
  unfold entry_of. cbn. destruct (hit k x); [done|].
  by destruct (first_slot (hit k) l).
Qed.

Lemma table_map_cons x l :
  table_map (x :: l) = if live x then <[key x := x]> (table_map l) else table_map l.
Proof. done. Qed.

Lemma table_map_lookup l k : table_map l !! k = entry_of l k.
Proof.
  induction l as [|x l IH]; [apply lookup_empty|].
  rewrite entry_of_cons, table_map_cons. destruct (hit k x) eqn:E.
  - apply hit_spec in E as [-> <-]. apply lookup_insert_eq.
  - apply hit_false in E. destruct (live x); [|done].
    rewrite lookup_insert_ne; [done|]. intros Hk. by apply E.
Qed.

Lemma table_map_size l :
  uniq_keys l -> Z.of_nat (size (table_map l)) = count_if live l.
Proof.
  induction l as [|x l IH]; intros Hu; cbn [count_if]; [done|].
  rewrite table_map_cons.
  assert (uniq_keys l) as Hu'.
  { intros i j y z Hi Hj Hy Hz Hk. specialize (Hu (S i) (S j) y z Hi Hj Hy Hz Hk). lia. }
  destruct (live x) eqn:E; [|by rewrite IH by done].
  rewrite map_size_insert_None; [rewrite <- IH by done; lia|].
  rewrite table_map_lookup. destruct (entry_of l (key x)) as [y|] eqn:Ey; [|done].
  apply entry_of_Some in Ey as (i & Hi & Hl & Hk); [|done].
  by specialize (Hu 0%nat (S i) x y eq_refl Hi E Hl (eq_sym Hk)).
Qed.

Lemma table_map_insert l i x y :
  uniq_keys l -> l !! i = Some x -> key_free_but l i y ->
  table_map (<[i:=y]> l) =
    (if live y then <[key y := y]> else id)
      ((if live x then delete (key x) else id) (table_map l)).
Proof.
  intros Hu Hi Hf. apply map_eq. intros k.
  rewrite table_map_lookup, (entry_of_insert l i x y) by done.
  destruct (hit k y) eqn:Ey.
  - apply hit_spec in Ey as [-> <-]. by rewrite lookup_insert_eq.
  - apply hit_false in Ey.
    assert ((if live y then <[key y:=y]> else id)
              ((if live x then delete (key x) else id) (table_map l)) !! k =
            (if live x then delete (key x) else id) (table_map l) !! k) as ->.
    { destruct (live y); [|done]. rewrite lookup_insert_ne; [done|].
      intros Hk. by apply Ey. }
    destruct (hit k x) eqn:Ex.
    + apply hit_spec in Ex as [-> <-]. by rewrite lookup_delete_eq.
    + apply hit_false in Ex. rewrite <- table_map_lookup.
      destruct (live x); [|done]. rewrite lookup_delete_ne; [done|].
      intros Hk. by apply Ex.
Qed.

End table_map.
