(* ===== verification/KernelH.v ===== *)
(** * KernelH: the data types of [src/kernel/kernel.h]

    The structures, enumerations and constants the kernel's C files share.
    A fixed [char name[N]] array is the list of its [N] bytes; a pointer is its
    32-bit address, the null pointer being [0]; an [int] used as a truth value
    is a [bool]. *)
From S2P Require Import Prelude.
Local Open Scope Z_scope.

Definition MULTIBOOT_MAGIC : Z := 0x2BADB002.

(** The fields of [struct multiboot_info] that the modelled code reads. *)
Record multiboot_info := {
  flags : Z;
  mem_lower : Z;
  mem_upper : Z;
  framebuffer_addr : Z;
  framebuffer_pitch : Z;
  framebuffer_width : Z;
  framebuffer_height : Z;
  framebuffer_bpp : Z;
  framebuffer_type : Z;
  framebuffer_color_info : list Z
}.

(** What a loader passes that leaves the screen in text mode. *)
Definition text_mode_mbi (lower upper : Z) : multiboot_info := {|
  flags := 1; mem_lower := lower; mem_upper := upper;
  framebuffer_addr := 0; framebuffer_pitch := 0; framebuffer_width := 0;
  framebuffer_height := 0; framebuffer_bpp := 0; framebuffer_type := 0;
  framebuffer_color_info := [] |}.

Inductive console_target := CONSOLE_VGA | CONSOLE_SERIAL | CONSOLE_BOTH.

Record ipc_message := {
  src_pid : Z;
  dst_pid : Z;
  type : Z;
  arg1 : Z;
  arg2 : Z;
  arg3 : Z;
  arg4 : Z
}.

Definition ipc_message_zero : ipc_message := {|
  src_pid := 0; dst_pid := 0; type := 0;
  arg1 := 0; arg2 := 0; arg3 := 0; arg4 := 0 |}.

(** The registers saved at a yield or a block. *)
Record user_context := {
  edi : Z; esi : Z; ebp : Z; esp_dummy : Z;
  ebx : Z; edx : Z; ecx : Z; eax : Z;
  eip : Z; cs : Z; eflags : Z; user_esp : Z; user_ss : Z
}.

Definition user_context_zero : user_context := {|
  edi := 0; esi := 0; ebp := 0; esp_dummy := 0;
  ebx := 0; edx := 0; ecx := 0; eax := 0;
  eip := 0; cs := 0; eflags := 0; user_esp := 0; user_ss := 0 |}.

Definition set_eax (v : Z) (c : user_context) : user_context := {|
  edi := edi c; esi := esi c; ebp := ebp c; esp_dummy := esp_dummy c;
  ebx := ebx c; edx := edx c; ecx := ecx c; eax := v;
  eip := eip c; cs := cs c; eflags := eflags c;
  user_esp := user_esp c; user_ss := user_ss c |}.

Inductive exec_stop_reason :=
  EXEC_STOP_NONE | EXEC_STOP_YIELDED | EXEC_STOP_EXITED | EXEC_STOP_BLOCKED.

Definition EXEC_MAX_SEGMENTS : Z := 8.

Record exec_segment := {
  file_offset : Z;
  file_size : Z;
  mem_size : Z;
  vaddr : Z;
  seg_flags : Z
}.

Record exec_load_plan := {
  plan_valid : bool;
  plan_entry : Z;
  plan_image_base : Z;
  plan_image_size : Z;
  segments : list exec_segment
}.

Inductive task_state :=
  TASK_UNUSED | TASK_READY | TASK_RUNNING | TASK_BLOCKED | TASK_ZOMBIE.
#[export] Instance task_state_eq_dec : EqDecision task_state.
Proof. solve_decision. Defined.

Record task_info := {
  ti_pid : Z;
  ti_ppid : Z;
  ti_state : task_state;
  runtime_ticks : Z;
  ti_name : list Z
}.

Inductive proc_state :=
  PROC_UNUSED | PROC_READY | PROC_RUNNING | PROC_BLOCKED | PROC_ZOMBIE.
#[export] Instance proc_state_eq_dec : EqDecision proc_state.
Proof. solve_decision. Defined.

Record process_info := {
  pi_pid : Z;
  pi_ppid : Z;
  pi_state : proc_state;
  exit_code : Z;
  pi_name : list Z
}.

Record proc_image := {
  loaded : bool;
  entry : Z;
  image_base : Z;
  image_size : Z;
  user_stack_base : Z;
  user_stack_size : Z;
  img_cwd : Z;
  output : console_target;
  context_valid : bool;
  context : user_context
}.

Record user_stat := { st_mode : Z; st_size : Z }.

Record mem_info := {
  mem_total_kib : Z;
  mem_used_kib : Z;
  mem_free_kib : Z;
  mem_shared_kib : Z;
  mem_buff_cache_kib : Z;
  mem_available_kib : Z;
  swap_total_kib : Z;
  swap_used_kib : Z;
  swap_free_kib : Z
}.

(** Field assignments [x->f = v]. *)
Definition set_pi_state (s : proc_state) (p : process_info) : process_info := {|
  pi_pid := pi_pid p; pi_ppid := pi_ppid p; pi_state := s;
  exit_code := exit_code p; pi_name := pi_name p |}.

Definition set_exit_code (c : Z) (p : process_info) : process_info := {|
  pi_pid := pi_pid p; pi_ppid := pi_ppid p; pi_state := pi_state p;
  exit_code := c; pi_name := pi_name p |}.

Definition set_ti_state (s : task_state) (t : task_info) : task_info := {|
  ti_pid := ti_pid t; ti_ppid := ti_ppid t; ti_state := s;
  runtime_ticks := runtime_ticks t; ti_name := ti_name t |}.

Definition set_runtime_ticks (n : Z) (t : task_info) : task_info := {|
  ti_pid := ti_pid t; ti_ppid := ti_ppid t; ti_state := ti_state t;
  runtime_ticks := n; ti_name := ti_name t |}.

Definition set_context (c : user_context) (i : proc_image) : proc_image := {|
  loaded := loaded i; entry := entry i; image_base := image_base i;
  image_size := image_size i; user_stack_base := user_stack_base i;
  user_stack_size := user_stack_size i; img_cwd := img_cwd i;
  output := output i; context_valid := context_valid i; context := c |}.
