(* ===== verification/Util.v ===== *)
(** * Util: the string routines of [src/kernel/util.c]

    A [const char *] is the list of the bytes from the pointer to the end of
    its object; reading at or past the end of the list gives the terminating
    NUL ([chr]).  A [char *] destination is the list of the bytes of the
    buffer: a write past its end makes the list longer, so that
    [length (f dst) = length dst] says that [f] stays inside the buffer. *)
From Stdlib Require Import Ascii.
From Stdlib Require String.
From S2P Require Import Prelude.
Local Open Scope Z_scope.

(** A string literal of the C source. *)
Definition lit (s : string) : list Z :=
  map (fun c => Z.of_nat (nat_of_ascii c)) (String.list_ascii_of_string s).

(** A message of the C source that ends with a newline. *)
Definition line (s : string) : list Z := lit s ++ [10].

(** [*s] *)
Definition chr (s : list Z) : Z := hd 0 s.

(** The characters of a C string: those before the first NUL. *)
Fixpoint cstr (s : list Z) : list Z :=
  match s with
  | [] => []
  | c :: s' => if c =? 0 then [] else c :: cstr s'
  end.

Fixpoint str_eq (a b : list Z) : bool :=
  match a, b with
  | x :: a', y :: b' =>
      if negb (x =? 0) && negb (y =? 0)
      then if negb (x =? y) then false else str_eq a' b'
      else x =? y
  | _, _ => chr a =? chr b
  end.

Fixpoint str_cmp (a b : list Z) : Z :=
  match a, b with
  | x :: a', y :: b' =>
      if negb (x =? 0) && negb (y =? 0) && (x =? y)
      then str_cmp a' b'
      else u8 x - u8 y
  | _, _ => u8 (chr a) - u8 (chr b)
  end.

Fixpoint str_startswith (s prefix : list Z) : bool :=
  match prefix with
  | [] => true
  | p :: prefix' =>
      if p =? 0 then true
      else if negb (chr s =? p) then false
      else str_startswith (tl s) prefix'
  end.

Fixpoint str_len (s : list Z) : Z :=
  match s with
  | [] => 0
  | c :: s' => if c =? 0 then 0 else 1 + str_len s'
  end.

(** [*dst++ = c] and the rest of the buffer. *)
Fixpoint str_copy_loop (dst src : list Z) (size : Z) : list Z :=
  match src with
  | c :: src' =>
      if negb (c =? 0) && (1 <? size)
      then c :: str_copy_loop (tl dst) src' (size - 1)
      else 0 :: tl dst
  | [] => 0 :: tl dst
  end.

Definition str_copy (dst src : list Z) (size : Z) : list Z :=
  if size =? 0 then dst else str_copy_loop dst src size.

(** [parse_u32_dec(s, &ok)]: the value and the final [ok]. *)
Fixpoint parse_u32_loop (s : list Z) (value : Z) : Z * bool :=
  match s with
  | [] => (value, true)
  | c :: s' =>
      if c =? 0 then (value, true)
      else if (c <? 48) || (57 <? c) then (0, false)
      else parse_u32_loop s' (u32 (u32 (value * 10) + u32 (c - 48)))
  end.

Definition parse_u32_dec (s : list Z) : Z * bool :=
  if chr s =? 0 then (0, false) else parse_u32_loop s 0.

(** The decimal digits a kernel or user print routine pushes into its buffer,
    least significant first: [while (value > 0 && i < n) buf[i++] = ...]. *)
Fixpoint dec_digits_rev (n : nat) (value : Z) : list Z :=
  match n with
  | O => []
  | S n' => if 0 <? value
            then u8 (48 + value `mod` 10) :: dec_digits_rev n' (value / 10)
            else []
  end.

(** [console_print_u32_dec]: the characters sent to the console. *)
Definition console_print_u32_dec (value : Z) : list Z :=
  if value =? 0 then [48] else rev (dec_digits_rev 10 value).

(** The loop that steps over slashes. *)
Fixpoint skip_slashes (p : list Z) : list Z :=
  match p with
  | c :: p' => if c =? 47 then skip_slashes p' else p
  | [] => []
  end.

(** ** Lemmas *)

Definition no_nul (s : list Z) : Prop := Forall (fun c => c <> 0) s.

Lemma cstr_no_nul s : no_nul (cstr s).
Proof.
  induction s as [|c s IH]; cbn; [constructor|].
  split_if; [constructor|]. by constructor.
Qed.

Lemma cstr_id s : no_nul s -> cstr s = s.
Proof.
  induction 1 as [|c s Hc _ IH]; cbn; [done|].
  split_if; [done|]. by rewrite IH.
Qed.

Lemma cstr_app_nul s t : no_nul s -> cstr (s ++ 0 :: t) = s.
Proof.
  induction 1 as [|c s Hc _ IH]; cbn; [done|].
  split_if; [done|]. by rewrite IH.
Qed.

Lemma cstr_cstr s : cstr (cstr s) = cstr s.
Proof. apply cstr_id, cstr_no_nul. Qed.

Lemma str_len_spec s : str_len s = Z.of_nat (length (cstr s)).
Proof. induction s as [|c s IH]; cbn; [done|]. split_if; cbn [length]; lia. Qed.

Lemma cstr_nil s : cstr s = [] <-> chr s = 0.
Proof. destruct s as [|c s]; cbn; [done|]. by split_if. Qed.

Lemma str_eq_spec a b : str_eq a b = true <-> cstr a = cstr b.
Proof.
  revert b. induction a as [|x a IH]; intros [|y b]; cbn.
  - done.
  - destruct (y =? 0) eqn:E; zify_bool; subst; [done|].
    rewrite (proj2 (Z.eqb_neq 0 y)) by lia. done.
  - destruct (x =? 0) eqn:E; zify_bool; subst; done.
  - destruct (x =? 0) eqn:Ex, (y =? 0) eqn:Ey; cbn [negb andb]; zify_bool; subst.
    + done.
    + rewrite (proj2 (Z.eqb_neq 0 y)) by lia. done.
    + rewrite (proj2 (Z.eqb_neq x 0)) by lia. done.
    + destruct (x =? y) eqn:E; cbn [negb]; zify_bool; subst.
      * rewrite IH. split; congruence.
      * split; [done|congruence].
Qed.

Lemma str_eq_refl a : str_eq a a = true.
Proof. by apply str_eq_spec. Qed.

Lemma str_eq_cstr a b : str_eq a b = bool_decide (cstr a = cstr b).
Proof.
  destruct (str_eq a b) eqn:E.
  - apply str_eq_spec in E. by rewrite bool_decide_true.
  - rewrite bool_decide_false; [done|]. intros H%str_eq_spec. congruence.
Qed.

Lemma str_startswith_spec s p :
  str_startswith s p = true <-> cstr p `prefix_of` cstr s.
Proof.
  revert s. induction p as [|c p IH]; intros s; cbn.
  - split; [intros _; apply prefix_nil|done].
  - destruct (c =? 0) eqn:E0; zify_bool; subst.
    { split; [intros _; apply prefix_nil|done]. }
    destruct s as [|x s]; cbn.
    + rewrite (proj2 (Z.eqb_neq 0 c)) by lia. cbn. split; [done|].
      by intros ?%prefix_nil_not.
    + destruct (x =? c) eqn:E; zify_bool; cbn [negb].
      * subst. rewrite (proj2 (Z.eqb_neq c 0)) by lia. rewrite IH.
        split; [apply prefix_cons|apply prefix_cons_inv_2].
      * split; [done|]. destruct (x =? 0); [by intros ?%prefix_nil_not|].
        intros ?%prefix_cons_inv_1. congruence.
Qed.

(** [str_copy] fills exactly a prefix of the buffer, always terminates it and
    never writes past [size]. *)
Lemma str_copy_loop_shape dst src size :
  1 <= size <= Z.of_nat (length dst) ->
  str_copy_loop dst src size =
    take (Z.to_nat (size - 1)) (cstr src) ++ 0 ::
    drop (S (length (take (Z.to_nat (size - 1)) (cstr src)))) dst.
Proof.
  revert dst size. induction src as [|c src IH]; intros dst size Hs; cbn [str_copy_loop cstr].
  - rewrite take_nil. destruct dst; cbn in *; [lia|done].
  - destruct (c =? 0) eqn:Ec; zify_bool; cbn [negb andb].
    { rewrite take_nil. destruct dst; cbn in *; [lia|done]. }
    destruct (1 <? size) eqn:Es; zify_bool.
    + destruct dst as [|d dst]; cbn [length tl] in *; [lia|].
      rewrite IH by lia.
      replace (Z.to_nat (size - 1)) with (S (Z.to_nat (size - 1 - 1))) by lia.
      done.
    + replace (Z.to_nat (size - 1)) with 0%nat by lia.
      destruct dst; cbn in *; [lia|done].
Qed.

Lemma no_nul_take n s : no_nul s -> no_nul (take n s).
Proof. apply Forall_take. Qed.

Lemma str_copy_length dst src size :
  0 <= size <= Z.of_nat (length dst) ->
  length (str_copy dst src size) = length dst.
Proof.
  intros H. unfold str_copy. split_if; [done|].
  rewrite str_copy_loop_shape by lia.
  rewrite length_app. cbn [length]. rewrite length_drop, !length_take. lia.
Qed.

Lemma str_copy_cstr dst src size :
  1 <= size <= Z.of_nat (length dst) ->
  cstr (str_copy dst src size) = take (Z.to_nat (size - 1)) (cstr src).
Proof.
  intros H. unfold str_copy. split_if; [lia|].
  rewrite str_copy_loop_shape by lia.
  apply cstr_app_nul, no_nul_take, cstr_no_nul.
Qed.

(** A name that fits is stored unchanged. *)
Lemma str_copy_fits dst src size :
  str_len src < size <= Z.of_nat (length dst) ->
  cstr (str_copy dst src size) = cstr src.
Proof.
  rewrite str_len_spec. intros H.
  rewrite str_copy_cstr by lia. apply take_ge. lia.
Qed.

(** Writing a string into fresh memory. *)
Lemma str_copy_fresh src size :
  1 <= size -> cstr (str_copy [] src size) = take (Z.to_nat (size - 1)) (cstr src).
Proof.
  unfold str_copy. intros H. rewrite (proj2 (Z.eqb_neq size 0)) by lia.
  revert size H. induction src as [|c src IH]; intros size H; cbn; [by rewrite take_nil|].
  destruct (c =? 0) eqn:Ec; zify_bool; cbn; [by rewrite take_nil|].
  destruct (1 <? size) eqn:Es; zify_bool; cbn.
  - rewrite (proj2 (Z.eqb_neq c 0)) by lia. rewrite IH by lia.
    replace (Z.to_nat (size - 1)) with (S (Z.to_nat (size - 1 - 1))) by lia. done.
  - replace (Z.to_nat (size - 1)) with 0%nat by lia. done.
Qed.

(** ** Decimal numbers *)

Definition is_digit (c : Z) : Prop := 48 <= c <= 57.

Definition dec_value (s : list Z) : Z :=
  fold_left (fun v c => v * 10 + (c - 48)) s 0.

Lemma dec_value_snoc s c : dec_value (s ++ [c]) = dec_value s * 10 + (c - 48).
Proof. unfold dec_value. by rewrite fold_left_app. Qed.

Lemma parse_u32_loop_digits s v :
  Forall is_digit (cstr s) ->
  parse_u32_loop s (u32 v) =
    (u32 (fold_left (fun v c => v * 10 + (c - 48)) (cstr s) v), true).
Proof.
  revert v. induction s as [|c s IH]; intros v H; cbn in *; [done|].
  destruct (c =? 0) eqn:E0; [done|]. zify_bool.
  apply Forall_cons_iff in H as [Hc Hs]. unfold is_digit in Hc.
  rewrite (proj2 (Z.ltb_ge c 48)), (proj2 (Z.ltb_ge 57 c)) by lia. cbn [orb fold_left].
  rewrite <- IH by done. f_equal.
  rewrite u32_add_l, u32_add_r. unfold u32.
  rewrite (Zplus_mod (_ * 10)), Zmult_mod_idemp_l, <- Zplus_mod. done.
Qed.

Lemma parse_u32_loop_bad s v :
  ~ Forall is_digit (cstr s) -> parse_u32_loop s v = (0, false).
Proof.
  revert v. induction s as [|c s IH]; intros v H; cbn in *.
  { destruct H. constructor. }
  destruct (c =? 0) eqn:E0; zify_bool; [destruct H; constructor|].
  destruct (c <? 48) eqn:E1; zify_bool; cbn [orb]; [done|].
  destruct (57 <? c) eqn:E2; zify_bool; [done|].
  apply IH. intros Hs. apply H. constructor; [|done]. split; lia.
Qed.

(** The parser accepts exactly the non-empty digit strings and returns their
    value modulo 2^32: there is no overflow check. *)
Lemma parse_u32_dec_ok s :
  cstr s <> [] -> Forall is_digit (cstr s) ->
  parse_u32_dec s = (u32 (dec_value (cstr s)), true).
Proof.
  intros Hne Hd. unfold parse_u32_dec.
  destruct (chr s =? 0) eqn:E; zify_bool; [by apply cstr_nil in E|].
  apply (parse_u32_loop_digits s 0 Hd).
Qed.

Lemma parse_u32_dec_bad s :
  cstr s = [] \/ ~ Forall is_digit (cstr s) -> parse_u32_dec s = (0, false).
Proof.
  unfold parse_u32_dec. intros [H|H].
  - apply cstr_nil in H. by rewrite H.
  - split_if; [done|]. by apply parse_u32_loop_bad.
Qed.

Lemma dec_digits_digit n v : 0 <= v -> Forall is_digit (dec_digits_rev n v).
Proof.
  revert v. induction n as [|n IH]; intros v Hv; cbn; [constructor|].
  split_if; [|constructor]. constructor.
  - pose proof (Z.mod_pos_bound v 10 ltac:(lia)). unfold is_digit, u8.
    rewrite Z.mod_small by lia. lia.
  - apply IH. apply Z.div_pos; lia.
Qed.

Lemma dec_digits_value n v :
  0 <= v < 10 ^ Z.of_nat n -> dec_value (rev (dec_digits_rev n v)) = v.
Proof.
  revert v. induction n as [|n IH]; intros v Hv; cbn [dec_digits_rev rev].
  - change (10 ^ Z.of_nat 0) with 1 in Hv. cbn. lia.
  - destruct (0 <? v) eqn:E; zify_bool; [|cbn; lia].
    cbn [rev]. rewrite dec_value_snoc, IH.
    + pose proof (Z.mod_pos_bound v 10 ltac:(lia)). unfold u8.
      rewrite (Z.mod_small (48 + _)) by lia.
      rewrite (Z.div_mod v 10) at 3 by lia. lia.
    + rewrite Nat2Z.inj_succ, Z.pow_succ_r in Hv by lia.
      split; [apply Z.div_pos; lia|]. apply Z.div_lt_upper_bound; lia.
Qed.

Lemma console_print_u32_dec_digits v :
  0 <= v -> Forall is_digit (console_print_u32_dec v).
Proof.
  intros Hv. unfold console_print_u32_dec. split_if.
  - by repeat constructor.
  - apply Forall_rev. by apply dec_digits_digit.
Qed.

Lemma digits_no_nul s : Forall is_digit s -> no_nul s.
Proof. apply Forall_impl. unfold is_digit. lia. Qed.

Lemma console_print_u32_dec_value v :
  is_u32 v -> dec_value (console_print_u32_dec v) = v.
Proof.
  unfold is_u32. intros Hv. unfold console_print_u32_dec. split_if; [by subst|].
  apply dec_digits_value. change (10 ^ Z.of_nat 10) with 10000000000. lia.
Qed.

Lemma console_print_u32_dec_nonempty v :
  0 <= v -> console_print_u32_dec v <> [].
Proof.
  intros Hv. unfold console_print_u32_dec. split_if; [done|].
  cbn [dec_digits_rev]. rewrite (proj2 (Z.ltb_lt 0 v)) by lia.
  cbn [rev]. by intros [_ ?]%app_nil.
Qed.

(** ** Theorems *)

(** printing a 32-bit number in decimal and parsing the printed characters
    gives the number back; what is printed is a non-empty string of decimal
    digits, and every string with a character that is not one is refused. *)
Theorem decimal_round_trip v rest :
  is_u32 v ->
  Forall is_digit (console_print_u32_dec v) /\
  parse_u32_dec (console_print_u32_dec v ++ 0 :: rest) = (v, true) /\
  forall bad, no_nul bad -> ~ Forall is_digit bad -> parse_u32_dec (bad ++ 0 :: rest) = (0, false).
Proof.
  intros Hv. assert (0 <= v) as Hv0 by (unfold is_u32 in Hv; lia).
  pose proof (console_print_u32_dec_digits v Hv0) as Hd.
  pose proof (digits_no_nul _ Hd) as Hn.
  split_and!; [done| |].
  - rewrite parse_u32_dec_ok; rewrite ?(cstr_app_nul _ rest Hn); [|by apply console_print_u32_dec_nonempty|done].
    by rewrite console_print_u32_dec_value, u32_small by done.
  - intros bad Hnb Hb. apply parse_u32_dec_bad. right. by rewrite cstr_app_nul.
Qed.

Lemma decimal_round_trip_witness :
  parse_u32_dec (console_print_u32_dec 4294967295 ++ 0 :: [7]) = (4294967295, true).
Proof. apply (decimal_round_trip 4294967295 [7]). by vm_compute. Defined.

(** [str_copy(dst, src, size)] never writes outside the first [size] bytes
    of [dst], leaves a terminated string there that is the longest prefix of
    [src] of at most [size - 1] characters, and [str_eq], [str_startswith] and
    [str_len] then see that prefix. *)
Theorem str_copy_bounded dst src size :
  0 < size <= Z.of_nat (length dst) ->
  length (str_copy dst src size) = length dst /\
  drop (Z.to_nat size) (str_copy dst src size) = drop (Z.to_nat size) dst /\
  cstr (str_copy dst src size) = take (Z.to_nat (size - 1)) (cstr src) /\
  str_len (str_copy dst src size) = Z.min (size - 1) (str_len src) /\
  str_startswith src (str_copy dst src size) = true /\
  (str_eq (str_copy dst src size) src = true <-> str_len src < size).
Proof.
  intros Hs. pose proof (str_copy_cstr dst src size ltac:(lia)) as Hc.
  assert (str_len (str_copy dst src size) = Z.min (size - 1) (str_len src)) as Hl.
  { rewrite !str_len_spec, Hc, length_take. lia. }
  split_and!; [apply str_copy_length; lia| |done|done| |].
  - unfold str_copy. rewrite (proj2 (Z.eqb_neq size 0)) by lia.
    rewrite str_copy_loop_shape by lia.
    set (t := take _ (cstr src)).
    assert (length t <= Z.to_nat (size - 1))%nat by (unfold t; rewrite length_take; lia).
    rewrite drop_app, drop_ge by lia.
    replace (Z.to_nat size - length t)%nat with (S (Z.to_nat (size - 1) - length t)) by lia.
    cbn [drop app]. rewrite drop_drop. f_equal. lia.
  - apply str_startswith_spec. rewrite Hc. apply prefix_take.
  - rewrite str_eq_spec. split.
    + intros He. rewrite str_len_spec, He, <- str_len_spec in Hl. lia.
    + intros Hlt. apply str_copy_fits. lia.
Qed.

Lemma str_copy_bounded_witness :
  cstr (str_copy (replicate 4 255) (lit "kmain") 4) = lit "kma".
Proof. apply (str_copy_bounded (replicate 4 255) (lit "kmain") 4). vm_compute. split; [reflexivity|discriminate]. Defined.
