(* ===== verification/Memory.v ===== *)
(** * Memory: the flat physical memory the kernel and the programs share

    There is no paging: a pointer is a 32-bit physical address and every byte
    of memory is reachable from it.  A memory is the function from addresses to
    bytes; [load] and [store] are the byte accesses of the C code, with the
    address computed modulo 2^32.  The loops of the C code that fill or copy
    memory are recursive functions over these accesses. *)
From S2P Require Import Prelude.
Local Open Scope Z_scope.

Definition mem : Type := Z -> Z.

Definition mem_empty : mem := fun _ => 0.

Definition load (m : mem) (a : Z) : Z := m (u32 a).

Definition store (m : mem) (a v : Z) : mem :=
  fun x => if x =? u32 a then u8 v else m x.

(** [for (i = 0; i < n; ++i) dst[i] = src[i]] with [src] a C object. *)
Fixpoint store_bytes (m : mem) (a : Z) (l : list Z) : mem :=
  match l with
  | [] => m
  | b :: l' => store_bytes (store m a b) (a + 1) l'
  end.

(** The same loop with [dst] a C object, starting from [src = a]. *)
Fixpoint load_bytes (m : mem) (a : Z) (n : nat) : list Z :=
  match n with
  | O => []
  | S n' => load m a :: load_bytes m (a + 1) n'
  end.

(** The same loop with both in memory, one byte at a time and forwards. *)
Fixpoint copy_loop (n : nat) (m : mem) (dst src : Z) : mem :=
  match n with
  | O => m
  | S n' => copy_loop n' (store m dst (load m src)) (dst + 1) (src + 1)
  end.

Definition load_u16 (m : mem) (a : Z) : Z :=
  Z.lor (load m a) (Z.shiftl (load m (a + 1)) 8).

Definition load_u32 (m : mem) (a : Z) : Z :=
  Z.lor (Z.lor (Z.lor (load m a) (Z.shiftl (load m (a + 1)) 8))
               (Z.shiftl (load m (a + 2)) 16))
        (Z.shiftl (load m (a + 3)) 24).

(** The four bytes of a 32-bit word, least significant first. *)
Definition le32 (v : Z) : list Z :=
  [v `mod` 256; (v / 256) `mod` 256; (v / 65536) `mod` 256; (v / 16777216) `mod` 256].

Definition store_u32 (m : mem) (a v : Z) : mem := store_bytes m a (le32 v).

(** The words [ws] stored one after the other from address [a]. *)
Fixpoint store_words (m : mem) (a : Z) (ws : list Z) : mem :=
  match ws with
  | [] => m
  | w :: ws' => store_words (store_u32 m a w) (a + 4) ws'
  end.

(** [mem_zero] of util.c: whole words while four bytes are left, then bytes.
    The fuel is the size, one unit for each pass of a loop. *)
Fixpoint mem_zero_words (fuel : nat) (m : mem) (a size : Z) : mem * Z * Z :=
  match fuel with
  | O => (m, a, size)
  | S f => if 4 <=? size
           then mem_zero_words f (store_u32 m a 0) (a + 4) (size - 4)
           else (m, a, size)
  end.

Fixpoint mem_zero_bytes (fuel : nat) (m : mem) (a size : Z) : mem :=
  match fuel with
  | O => m
  | S f => if 0 <? size
           then mem_zero_bytes f (store m a 0) (a + 1) (size - 1)
           else m
  end.

Definition mem_zero (m : mem) (dst size : Z) : mem :=
  let '(m1, bytes, size1) := mem_zero_words (Z.to_nat size) m dst size in
  mem_zero_bytes (Z.to_nat size1) m1 bytes size1.

(** ** Lemmas *)

(** A range that does not wrap around the end of the address space. *)
Definition fits (a n : Z) : Prop := 0 <= a /\ a + n <= 4294967296.

Definition in_range (a n x : Z) : bool := (a <=? x) && (x <? a + n).

Lemma in_range_spec a n x : in_range a n x = true <-> a <= x < a + n.
Proof. unfold in_range. rewrite andb_true_iff, Z.leb_le, Z.ltb_lt. lia. Qed.

Lemma in_range_false a n x : in_range a n x = false <-> ~ a <= x < a + n.
Proof. rewrite <- in_range_spec. by destruct (in_range a n x). Qed.

Lemma store_bytes_out m a l x :
  fits a (Z.of_nat (length l)) -> ~ a <= x < a + Z.of_nat (length l) ->
  store_bytes m a l x = m x.
Proof.
  revert m a. induction l as [|b l IH]; intros m a [Ha Hf] Hx; cbn [store_bytes length] in *; [done|].
  rewrite IH; [|split; lia|lia]. unfold store.
  rewrite u32_small by lia. split_if; [lia|done].
Qed.

Lemma store_bytes_in m a l i b :
  fits a (Z.of_nat (length l)) -> l !! i = Some b ->
  store_bytes m a l (a + Z.of_nat i) = u8 b.
Proof.
  revert m a i. induction l as [|c l IH]; intros m a i [Ha Hf] Hi; [done|].
  cbn [store_bytes length] in *. destruct i as [|i]; cbn in Hi.
  - injection Hi as ->. rewrite store_bytes_out by (unfold fits; lia).
    unfold store. rewrite u32_small by lia. split_if; [done|lia].
  - replace (a + Z.of_nat (S i)) with (a + 1 + Z.of_nat i) by lia.
    apply IH; [split; lia|done].
Qed.

Lemma load_bytes_length m a n : length (load_bytes m a n) = n.
Proof. revert a. induction n; intros a; cbn; [done|]. by rewrite IHn. Qed.

Lemma load_bytes_lookup m a n i :
  (i < n)%nat -> load_bytes m a n !! i = Some (load m (a + Z.of_nat i)).
Proof.
  revert a i. induction n as [|n IH]; intros a [|i] Hi; [lia|lia| |]; cbn.
  - by rewrite Z.add_0_r.
  - rewrite IH by lia. do 2 f_equal. lia.
Qed.

Lemma load_bytes_ext m m' a n :
  fits a (Z.of_nat n) -> (forall x, a <= x < a + Z.of_nat n -> m x = m' x) ->
  load_bytes m a n = load_bytes m' a n.
Proof.
  revert a. induction n as [|n IH]; intros a [Ha Hf] H; cbn; [done|].
  f_equal.
  - unfold load. rewrite u32_small by lia. apply H. lia.
  - apply IH; [split; lia|]. intros x Hx. apply H. lia.
Qed.

Definition all_bytes (l : list Z) : Prop := Forall is_byte l.

Lemma u8_byte b : is_byte b -> u8 b = b.
Proof. unfold is_byte, u8. apply Z.mod_small. Qed.

(** What is stored is what is loaded back. *)
Lemma load_store_bytes m a l :
  fits a (Z.of_nat (length l)) -> all_bytes l ->
  load_bytes (store_bytes m a l) a (length l) = l.
Proof.
  intros Hf Hb. apply list_eq. intros i.
  destruct (l !! i) as [b|] eqn:Hi.
  - pose proof (lookup_lt_Some _ _ _ Hi).
    rewrite load_bytes_lookup by done. f_equal. unfold load.
    destruct Hf. rewrite u32_small by lia.
    rewrite (store_bytes_in _ _ _ _ b) by (done || by split).
    apply u8_byte. by eapply Forall_lookup_1.
  - apply lookup_ge_None. rewrite load_bytes_length. by apply lookup_ge_None.
Qed.

Lemma load_store_bytes_other m a l b n :
  fits a (Z.of_nat (length l)) -> fits b (Z.of_nat n) ->
  (b + Z.of_nat n <= a \/ a + Z.of_nat (length l) <= b) ->
  load_bytes (store_bytes m a l) b n = load_bytes m b n.
Proof.
  intros Ha Hb Hd. apply load_bytes_ext; [done|].
  intros x Hx. apply store_bytes_out; [done|lia].
Qed.

(** A forward copy between disjoint ranges copies the bytes. *)
Lemma copy_loop_spec n m dst src :
  fits dst (Z.of_nat n) -> fits src (Z.of_nat n) ->
  (src + Z.of_nat n <= dst \/ dst + Z.of_nat n <= src) ->
  forall x, copy_loop n m dst src x =
    if in_range dst (Z.of_nat n) x then u8 (m (src + (x - dst))) else m x.
Proof.
  revert m dst src.
  induction n as [|n IH]; intros m dst src [Hd1 Hd2] [Hs1 Hs2] Hdis x; cbn [copy_loop].
  - destruct (in_range dst (Z.of_nat 0) x) eqn:E; [|done].
    apply in_range_spec in E. lia.
  - rewrite IH by (unfold fits; lia). unfold store at 2, load.
    rewrite (u32_small dst), (u32_small src) by lia.
    destruct (in_range (dst + 1) (Z.of_nat n) x) eqn:E1;
      destruct (in_range dst (Z.of_nat (S n)) x) eqn:E2;
      rewrite ?in_range_spec, ?in_range_false in *; try lia.
    + unfold store. rewrite u32_small by lia. split_if; [lia|].
      do 2 f_equal. lia.
    + split_if; [|lia]. subst. do 2 f_equal. lia.
    + split_if; [lia|done].
Qed.

Lemma copy_loop_in n m dst src x :
  fits dst (Z.of_nat n) -> fits src (Z.of_nat n) ->
  (src + Z.of_nat n <= dst \/ dst + Z.of_nat n <= src) ->
  dst <= x < dst + Z.of_nat n -> copy_loop n m dst src x = u8 (m (src + (x - dst))).
Proof.
  intros. rewrite copy_loop_spec by done. by rewrite (proj2 (in_range_spec _ _ _)).
Qed.

Lemma copy_loop_out n m dst src x :
  fits dst (Z.of_nat n) -> fits src (Z.of_nat n) ->
  (src + Z.of_nat n <= dst \/ dst + Z.of_nat n <= src) ->
  ~ dst <= x < dst + Z.of_nat n -> copy_loop n m dst src x = m x.
Proof.
  intros. rewrite copy_loop_spec by done. by rewrite (proj2 (in_range_false _ _ _)).
Qed.

Lemma mem_zero_words_spec fuel m a size :
  0 <= size <= Z.of_nat fuel -> fits a size ->
  exists m' k, mem_zero_words fuel m a size = (m', a + k, size - k) /\
    0 <= k /\ 0 <= size - k < 4 /\
    forall x, m' x = if in_range a k x then 0 else m x.
Proof.
  revert m a size. induction fuel as [|f IH]; intros m a size Hs [Ha Hf]; cbn [mem_zero_words].
  - exists m, 0. rewrite Z.add_0_r, Z.sub_0_r. repeat split; try lia.
    intros x. destruct (in_range a 0 x) eqn:E; [|done]. apply in_range_spec in E. lia.
  - destruct (4 <=? size) eqn:E; zify_bool.
    + destruct (IH (store_u32 m a 0) (a + 4) (size - 4)) as (m' & k & Heq & Hk1 & Hk2 & Hx).
      { lia. } { split; lia. }
      exists m', (k + 4). rewrite Heq. split; [f_equal; [f_equal|]; lia|].
      repeat split; try lia. intros x. rewrite Hx.
      destruct (in_range (a + 4) k x) eqn:E1; destruct (in_range a (k + 4) x) eqn:E2;
        rewrite ?in_range_spec, ?in_range_false in *; try lia.
      * change (store_u32 m a 0) with (store_bytes m a [0; 0; 0; 0]).
        assert (exists i, (i < 4)%nat /\ x = a + Z.of_nat i) as (i & Hi & ->).
        { exists (Z.to_nat (x - a)). lia. }
        apply (store_bytes_in m a [0;0;0;0] i 0); [cbn; split; lia|].
        by do 4 (destruct i as [|i]; [done|]); lia.
      * apply (store_bytes_out m a [0;0;0;0]); cbn; [split|]; lia.
    + exists m, 0. rewrite Z.add_0_r, Z.sub_0_r. repeat split; try lia.
      intros x. destruct (in_range a 0 x) eqn:E1; [|done]. apply in_range_spec in E1. lia.
Qed.

Lemma mem_zero_bytes_spec fuel m a size :
  0 <= size <= Z.of_nat fuel -> fits a size ->
  forall x, mem_zero_bytes fuel m a size x = if in_range a size x then 0 else m x.
Proof.
  revert m a size. induction fuel as [|f IH]; intros m a size Hs [Ha Hf] x; cbn [mem_zero_bytes].
  - destruct (in_range a size x) eqn:E; [|done]. apply in_range_spec in E. lia.
  - destruct (0 <? size) eqn:E; zify_bool.
    + rewrite IH by (unfold fits; lia). unfold store. rewrite u32_small by lia.
      destruct (in_range (a + 1) (size - 1) x) eqn:E1; destruct (in_range a size x) eqn:E2;
        rewrite ?in_range_spec, ?in_range_false in *; try lia; try done;
        split_if; try lia; done.
    + destruct (in_range a size x) eqn:E1; [|done]. apply in_range_spec in E1. lia.
Qed.

(** [mem_zero] clears exactly the [size] bytes at [dst]. *)
Lemma mem_zero_spec m dst size :
  0 <= size -> fits dst size ->
  forall x, mem_zero m dst size x = if in_range dst size x then 0 else m x.
Proof.
  intros Hs [Hd Hf] x. unfold mem_zero.
  destruct (mem_zero_words_spec (Z.to_nat size) m dst size)
    as (m' & k & -> & Hk1 & Hk2 & Hx); [lia|split; lia|].
  rewrite mem_zero_bytes_spec by (unfold fits; lia). rewrite Hx.
  destruct (in_range (dst + k) (size - k) x) eqn:E1;
    destruct (in_range dst k x) eqn:E2; destruct (in_range dst size x) eqn:E3;
    rewrite ?in_range_spec, ?in_range_false in *; try lia; done.
Qed.

(** ** Contents of a range *)

Definition bytes_at (m : mem) (a : Z) (l : list Z) : Prop :=
  forall i b, l !! i = Some b -> m (a + Z.of_nat i) = b.

(** [m'] agrees with [m] outside [n] bytes from [a]. *)
Definition same_outside (a n : Z) (m m' : mem) : Prop :=
  forall x, ~ a <= x < a + n -> m' x = m x.

Lemma same_outside_refl a n m : same_outside a n m m.
Proof. by intros x _. Qed.

Lemma same_outside_trans a n b k c q m m' m'' :
  same_outside b k m m' -> same_outside c q m' m'' ->
  a <= b -> b + k <= a + n -> a <= c -> c + q <= a + n ->
  same_outside a n m m''.
Proof. intros H1 H2 ? ? ? ? x Hx. rewrite H2 by lia. apply H1. lia. Qed.

Lemma same_outside_store m a l :
  fits a (Z.of_nat (length l)) -> same_outside a (Z.of_nat (length l)) m (store_bytes m a l).
Proof. intros Hf x Hx. by apply store_bytes_out. Qed.

Lemma bytes_at_store m a l :
  fits a (Z.of_nat (length l)) -> all_bytes l -> bytes_at (store_bytes m a l) a l.
Proof.
  intros Hf Hb i b Hi. rewrite (store_bytes_in _ _ _ _ b) by done.
  apply u8_byte. by apply (Forall_lookup_1 _ _ _ _ Hb Hi).
Qed.

Lemma bytes_at_frame m m' a l b n :
  bytes_at m a l -> same_outside b n m m' ->
  (a + Z.of_nat (length l) <= b \/ b + n <= a) -> bytes_at m' a l.
Proof.
  intros Hm Hs Hd i v Hi. pose proof (lookup_lt_Some _ _ _ Hi).
  rewrite Hs by lia. by apply Hm.
Qed.

Lemma bytes_at_load m a l :
  fits a (Z.of_nat (length l)) -> bytes_at m a l -> load_bytes m a (length l) = l.
Proof.
  intros [Ha Hf] Hb. apply list_eq. intros i. destruct (l !! i) as [b|] eqn:Hi.
  - pose proof (lookup_lt_Some _ _ _ Hi). rewrite load_bytes_lookup by done.
    unfold load. rewrite u32_small by lia. f_equal. by apply Hb.
  - apply lookup_ge_None. rewrite load_bytes_length. by apply lookup_ge_None.
Qed.

Lemma bytes_at_app m a l1 l2 :
  bytes_at m a (l1 ++ l2) <-> bytes_at m a l1 /\ bytes_at m (a + Z.of_nat (length l1)) l2.
Proof.
  split.
  - intros H. split; intros i b Hi.
    + apply H. by apply lookup_app_l_Some.
    + replace (a + Z.of_nat (length l1) + Z.of_nat i) with (a + Z.of_nat (length l1 + i)) by lia.
      apply H. rewrite lookup_app_r by lia. by replace (length l1 + i - length l1)%nat with i by lia.
  - intros [H1 H2] i b [Hi|[Hl Hi]]%lookup_app_Some; [by apply H1|].
    replace (a + Z.of_nat i) with (a + Z.of_nat (length l1) + Z.of_nat (i - length l1)) by lia.
    by apply H2.
Qed.

(** ** Little-endian words *)

Lemma lor_shiftl_add a b k :
  0 <= k -> 0 <= a < 2 ^ k -> Z.lor a (Z.shiftl b k) = a + b * 2 ^ k.
Proof.
  intros Hk Ha. rewrite <- Z.shiftl_mul_pow2 by done.
  pose proof (Z.add_lor_land a (Z.shiftl b k)) as Hs.
  assert (Z.land a (Z.shiftl b k) = 0) as Hz; [|lia].
  apply Z.bits_inj'. intros n Hn. rewrite Z.land_spec, Z.bits_0.
  destruct (Z.lt_ge_cases n k).
  - rewrite Z.shiftl_spec_low by done. apply andb_false_r.
  - destruct (Z.eq_dec a 0) as [-> |]; [by rewrite Z.bits_0|].
    rewrite (Z.bits_above_log2 a n); [done|lia|].
    apply Z.lt_le_trans with k; [|done]. apply Z.log2_lt_pow2; lia.
Qed.

Lemma le32_bytes v : all_bytes (le32 v).
Proof.
  unfold le32. repeat constructor; unfold is_byte; try apply Z.mod_pos_bound; lia.
Qed.

Lemma load_u32_bytes_at m a v :
  fits a 4 -> is_u32 v -> bytes_at m a (le32 v) -> load_u32 m a = v.
Proof.
  intros [Ha Hf] Hv Hb. unfold is_u32 in Hv.
  pose proof (Hb 0%nat _ eq_refl) as H0. pose proof (Hb 1%nat _ eq_refl) as H1.
  pose proof (Hb 2%nat _ eq_refl) as H2. pose proof (Hb 3%nat _ eq_refl) as H3.
  change (Z.of_nat 0) with 0 in H0. change (Z.of_nat 1) with 1 in H1.
  change (Z.of_nat 2) with 2 in H2. change (Z.of_nat 3) with 3 in H3.
  rewrite Z.add_0_r in H0.
  unfold load_u32, load. rewrite !u32_small by lia. rewrite H0, H1, H2, H3.
  rewrite (lor_shiftl_add _ _ 8) by mlia. change (2 ^ 8) with 256.
  rewrite (lor_shiftl_add _ _ 16) by (change (2 ^ 16) with 65536; mlia). change (2 ^ 16) with 65536.
  rewrite (lor_shiftl_add _ _ 24) by (change (2 ^ 24) with 16777216; mlia). change (2 ^ 24) with 16777216.
  mlia.
Qed.

Lemma store_bytes_app m a l1 l2 :
  store_bytes m a (l1 ++ l2) =
    store_bytes (store_bytes m a l1) (a + Z.of_nat (length l1)) l2.
Proof.
  revert m a. induction l1 as [|b l1 IH]; intros m a; cbn [store_bytes app length].
  - by rewrite Z.add_0_r.
  - rewrite IH. f_equal. lia.
Qed.

(** The bytes of a run of words. *)
Definition words_bytes (ws : list Z) : list Z := concat (map le32 ws).

Lemma words_bytes_length ws : length (words_bytes ws) = (4 * length ws)%nat.
Proof.
  induction ws as [|w ws IH]; [done|].
  change (words_bytes (w :: ws)) with (le32 w ++ words_bytes ws).
  rewrite length_app, IH. cbn [le32 length]. lia.
Qed.

Lemma words_bytes_byte ws : all_bytes (words_bytes ws).
Proof. induction ws as [|w ws IH]; [constructor|]. apply Forall_app_2; [apply le32_bytes|done]. Qed.

Lemma store_words_eq m a ws : store_words m a ws = store_bytes m a (words_bytes ws).
Proof.
  revert m a. induction ws as [|w ws IH]; intros m a; [done|].
  change (words_bytes (w :: ws)) with (le32 w ++ words_bytes ws).
  rewrite store_bytes_app. cbn [store_words]. rewrite IH. done.
Qed.

Lemma words_at_lookup m a ws i w :
  fits a (4 * Z.of_nat (length ws)) -> Forall is_u32 ws ->
  bytes_at m a (words_bytes ws) -> ws !! i = Some w ->
  load_u32 m (a + 4 * Z.of_nat i) = w.
Proof.
  revert a i. induction ws as [|v ws IH]; intros a i [Ha Hf] Hu Hb Hi; [done|].
  apply Forall_cons_iff in Hu as [Hv Hu]. cbn [length] in Hf.
  change (words_bytes (v :: ws)) with (le32 v ++ words_bytes ws) in Hb.
  apply bytes_at_app in Hb as [Hb1 Hb2].
  destruct i as [|i]; cbn in Hi; simplify_eq.
  - replace (a + 4 * Z.of_nat 0) with a by lia.
    apply load_u32_bytes_at; [split; lia|done|done].
  - replace (a + 4 * Z.of_nat (S i)) with ((a + 4) + 4 * Z.of_nat i) by lia.
    apply IH; [split; lia|done|exact Hb2|done].
Qed.

(** ** Memories whose cells are bytes *)

Definition mem_ok (m : mem) : Prop := forall x, is_byte (m x).

Lemma u8_is_byte v : is_byte (u8 v).
Proof. unfold u8, is_byte. apply Z.mod_pos_bound. lia. Qed.

Lemma store_ok m a v : mem_ok m -> mem_ok (store m a v).
Proof. intros Hm x. unfold store. split_if; [apply u8_is_byte|apply Hm]. Qed.

Lemma store_bytes_ok m a l : mem_ok m -> mem_ok (store_bytes m a l).
Proof. revert m a. induction l as [|b l IH]; intros m a Hm; [done|]. by apply IH, store_ok. Qed.

Lemma copy_loop_ok n m d s : mem_ok m -> mem_ok (copy_loop n m d s).
Proof. revert m d s. induction n as [|n IH]; intros m d s Hm; [done|]. by apply IH, store_ok. Qed.

Lemma load_byte m a : mem_ok m -> is_byte (load m a).
Proof. intros Hm. apply Hm. Qed.

Lemma load_bytes_byte m a n : mem_ok m -> all_bytes (load_bytes m a n).
Proof.
  intros Hm. revert a. induction n as [|n IH]; intros a; cbn; [constructor|].
  constructor; [apply Hm|apply IH].
Qed.

Lemma load_u16_range m a : mem_ok m -> 0 <= load_u16 m a < 65536.
Proof.
  intros Hm. pose proof (load_byte m a Hm) as H0. pose proof (load_byte m (a + 1) Hm) as H1.
  unfold is_byte in *. unfold load_u16.
  rewrite (lor_shiftl_add _ _ 8) by (change (2 ^ 8) with 256; lia).
  change (2 ^ 8) with 256. lia.
Qed.

Lemma load_u32_range m a : mem_ok m -> is_u32 (load_u32 m a).
Proof.
  intros Hm. pose proof (load_byte m a Hm) as H0. pose proof (load_byte m (a + 1) Hm) as H1.
  pose proof (load_byte m (a + 2) Hm) as H2. pose proof (load_byte m (a + 3) Hm) as H3.
  unfold is_byte, is_u32 in *. unfold load_u32.
  rewrite (lor_shiftl_add _ _ 8) by (change (2 ^ 8) with 256; lia). change (2 ^ 8) with 256.
  rewrite (lor_shiftl_add _ _ 16) by (change (2 ^ 16) with 65536; lia). change (2 ^ 16) with 65536.
  rewrite (lor_shiftl_add _ _ 24) by (change (2 ^ 24) with 16777216; lia). change (2 ^ 24) with 16777216.
  lia.
Qed.

#[export] Hint Resolve load_u32_range load_byte load_bytes_byte store_bytes_ok copy_loop_ok store_ok
  : slop.
