(* ===== verification/Varargs.v ===== *)
(** * Varargs: the arguments of variadic functions

    The variable arguments of the print functions, of the kernel and of the C
    library, are a list; taking one that is not there, or that has the wrong
    type, has no result.  Also the decimal texts that these functions share. *)
From S2P Require Import Prelude Util.
Local Open Scope Z_scope.
Local Open Scope slop_scope.

(** An argument of a variadic call: a 32-bit integer, or a string pointer. *)
Inductive va :=
  | VInt (v : Z)
  | VStr (s : option (list Z)).

Definition va_int (args : list va) : option (Z * list va) :=
  match args with VInt v :: rest => Some (v, rest) | _ => None end.
Definition va_str (args : list va) : option (option (list Z) * list va) :=
  match args with VStr s :: rest => Some (s, rest) | _ => None end.

(** What is printed for a null string. *)
Definition or_null (s : option (list Z)) : list Z :=
  match s with Some s => s | None => lit "(null)" end.

(** ** Decimal numbers *)

Lemma dec_digits_enough n v :
  0 <= v < 10 ^ Z.of_nat n -> forall k, dec_digits_rev (n + k) v = dec_digits_rev n v.
Proof.
  revert v. induction n as [|n IH]; intros v Hv k; cbn [Nat.add].
  - change (10 ^ Z.of_nat 0) with 1 in Hv. assert (v = 0) as -> by lia. by destruct k.
  - cbn [dec_digits_rev]. destruct (0 <? v) eqn:E; zify_bool; [|done]. f_equal. apply IH.
    rewrite Nat2Z.inj_succ, Z.pow_succ_r in Hv by lia.
    split; [apply Z.div_pos; lia|]. apply Z.div_lt_upper_bound; lia.
Qed.

(** The sixteen digits a user buffer has room for are enough. *)
Lemma dec_digits_16 v : is_u32 v -> dec_digits_rev 16 v = dec_digits_rev 10 v.
Proof.
  intros Hv. unfold is_u32 in Hv. change 16%nat with (10 + 6)%nat. apply dec_digits_enough.
  change (10 ^ Z.of_nat 10) with 10000000000. lia.
Qed.

Lemma dec_digits_length n v : (length (dec_digits_rev n v) <= n)%nat.
Proof.
  revert v. induction n as [|n IH]; intros v; cbn; [lia|]. destruct (0 <? v); cbn; [|lia].
  specialize (IH (v / 10)). lia.
Qed.

(** The text of an unsigned and of a signed number. *)
Definition u32_text (v : Z) : list Z := console_print_u32_dec v.
Definition s32_text (v : Z) : list Z := if v <? 0 then 45 :: u32_text (- v) else u32_text v.

Lemma u32_text_length v : 0 <= v -> (1 <= length (u32_text v) <= 10)%nat.
Proof.
  intros Hv. unfold u32_text. split.
  - destruct (console_print_u32_dec v) eqn:E; [|cbn; lia].
    by apply console_print_u32_dec_nonempty in E.
  - unfold console_print_u32_dec. destruct (v =? 0); [cbn; lia|].
    rewrite length_rev. apply dec_digits_length.
Qed.

Lemma s32_text_length v : (1 <= length (s32_text v) <= 11)%nat.
Proof.
  unfold s32_text. destruct (v <? 0) eqn:E; zify_bool; cbn [length].
  - pose proof (u32_text_length (- v)). lia.
  - pose proof (u32_text_length v). lia.
Qed.

Lemma s32_range z : - 2147483648 <= s32 z <= 2147483647.
Proof. unfold s32, INT_MAX. pose proof (u32_range z). destruct (u32 z <=? 2147483647) eqn:E; zify_bool; lia. Qed.
