(* ===== verification/Heap.v ===== *)
(** * Heap: the kernel heap of [src/kernel/heap.c]

    A watermark allocator: blocks are never freed, [h_current] only grows.
    The main results: 32-bit wrap-around never changes a decision
    ([kmalloc_exact]), the blocks of any run of allocations are aligned,
    disjoint and inside the heap ([heap_blocks_disjoint]). *)
From S2P Require Import Prelude KernelH Memory.
Local Open Scope Z_scope.
Local Open Scope slop_scope.

Definition USER_IMAGE_RESERVED_BASE : Z := 0x00300000.

Record heap_state := {
  h_start : Z;
  h_current : Z;
  h_limit : Z;
  h_ready : bool
}.

Definition align_up (value alignment : Z) : Z :=
  let mask := alignment -u 1 in
  Z.land (value +u mask) (u32 (Z.lnot mask)).

(** [heap_init(mbi, magic)]; [kernel_end] is the address the linker gives
    [_kernel_end], and [None] is a null [mbi]. *)
Definition heap_init (kernel_end : Z) (mbi : option multiboot_info) (magic : Z) : heap_state :=
  let heap_start := align_up kernel_end 16 in
  let off := {| h_start := heap_start; h_current := heap_start;
                h_limit := heap_start; h_ready := false |} in
  match mbi with
  | Some mbi =>
      if (magic =? MULTIBOOT_MAGIC) && negb (Z.land (flags mbi) 1 =? 0) then
        let heap_limit := 0x00100000 +u (mem_upper mbi *u 1024) in
        let heap_limit := align_up heap_limit 16 in
        let heap_limit := if USER_IMAGE_RESERVED_BASE <? heap_limit
                          then USER_IMAGE_RESERVED_BASE else heap_limit in
        if heap_start <? heap_limit
        then {| h_start := heap_start; h_current := heap_start;
                h_limit := heap_limit; h_ready := true |}
        else off
      else off
  | None => off
  end.

(** [kmalloc(size)]: the new heap and the address, [0] when it fails. *)
Definition kmalloc (h : heap_state) (size : Z) : heap_state * Z :=
  if negb (h_ready h) || (size =? 0) then (h, 0)
  else
    let start := align_up (h_current h) 16 in
    let end_ := start +u size in
    if (end_ <? start) || (h_limit h <? end_) then (h, 0)
    else ({| h_start := h_start h; h_current := align_up end_ 16;
             h_limit := h_limit h; h_ready := h_ready h |}, start).

Definition kcalloc (h : heap_state) (m : mem) (size : Z) : heap_state * mem * Z :=
  let '(h1, ptr) := kmalloc h size in
  if negb (ptr =? 0) then (h1, mem_zero m ptr size, ptr) else (h1, m, ptr).

Definition heap_bytes_total (h : heap_state) : Z := h_limit h -u h_start h.
Definition heap_bytes_used (h : heap_state) : Z := h_current h -u h_start h.
Definition heap_bytes_free (h : heap_state) : Z := h_limit h -u h_current h.
Definition heap_is_ready (h : heap_state) : bool := h_ready h.

(** A run of allocations and the blocks [(address, size)] it was granted. *)
Fixpoint kmalloc_seq (h : heap_state) (sizes : list Z) : heap_state * list (Z * Z) :=
  match sizes with
  | [] => (h, [])
  | n :: sizes' =>
      let '(h1, p) := kmalloc h n in
      let '(h2, bs) := kmalloc_seq h1 sizes' in
      (h2, if p =? 0 then bs else (p, n) :: bs)
  end.

(** ** Invariant *)

Record heap_inv (h : heap_state) : Prop := {
  hi_start : 0 < h_start h;
  hi_current : h_start h <= h_current h <= h_limit h;
  hi_limit : h_limit h < 4294967296;
  hi_ready : h_ready h = true -> h_limit h <= USER_IMAGE_RESERVED_BASE;
  hi_cur_aligned : h_current h `mod` 16 = 0;
  hi_lim_aligned : h_limit h `mod` 16 = 0
}.

Lemma align_up_eq v : align_up v 16 = u32 (v + 15) - u32 (v + 15) `mod` 16.
Proof.
  unfold align_up. change (16 -u 1) with (2 ^ 4 - 1).
  by rewrite land_lnot_mask by (apply u32_range || lia).
Qed.

Lemma align_up_16 v :
  0 <= v -> v + 15 < 4294967296 ->
  align_up v 16 = v + 15 - (v + 15) `mod` 16.
Proof. intros Hv Hw. by rewrite align_up_eq, u32_small by lia. Qed.

Lemma align_up_spec v :
  0 <= v -> v + 15 < 4294967296 ->
  v <= align_up v 16 <= v + 15 /\ align_up v 16 `mod` 16 = 0 /\
  forall w, v <= w -> w `mod` 16 = 0 -> align_up v 16 <= w.
Proof. intros Hv Hw. rewrite align_up_16 by done. repeat split; intros; mlia. Qed.

Lemma align_up_mod v : align_up v 16 `mod` 16 = 0 /\ 0 <= align_up v 16 < 4294967296.
Proof. rewrite align_up_eq. pose proof (u32_range (v + 15)). mlia. Qed.

Lemma align_up_id v : 0 <= v -> v + 15 < 4294967296 -> v `mod` 16 = 0 -> align_up v 16 = v.
Proof. intros. rewrite align_up_16 by done. mlia. Qed.

Lemma heap_init_inv kernel_end mbi magic :
  0 < kernel_end -> kernel_end + 15 < 4294967296 ->
  heap_inv (heap_init kernel_end mbi magic).
Proof.
  intros Hk Hw. unfold heap_init.
  destruct (align_up_spec kernel_end) as (Hs1 & Hs2 & _); [lia..|].
  destruct mbi as [mbi|]; [|constructor; cbn; done || lia].
  destruct ((magic =? _) && _); [|constructor; cbn; done || lia].
  pose proof (u32_range (1048576 + u32 (mem_upper mbi * 1024))).
  destruct (align_up_mod (1048576 +u (mem_upper mbi *u 1024))) as [Hm Hr].
  set (l := align_up (1048576 +u (mem_upper mbi *u 1024)) 16) in *.
  unfold USER_IMAGE_RESERVED_BASE.
  destruct (3145728 <? l) eqn:E1; zify_bool; split_if; constructor; cbn; unfold USER_IMAGE_RESERVED_BASE; done || lia.
Qed.

Lemma heap_init_current kernel_end mbi magic :
  h_current (heap_init kernel_end mbi magic) = align_up kernel_end 16.
Proof.
  unfold heap_init. cbv zeta. set (a := align_up kernel_end 16).
  destruct mbi as [mbi|]; [|reflexivity].
  destruct (_ && _); [|reflexivity]. by destruct (a <? _).
Qed.

(** Without a memory map nothing is ever granted. *)
Lemma kmalloc_seq_off h sizes :
  h_ready h = false -> kmalloc_seq h sizes = (h, []).
Proof.
  intros Hr. induction sizes as [|n sizes IH]; cbn; [done|].
  unfold kmalloc. rewrite Hr. cbn. by rewrite IH.
Qed.

(** The whole behaviour of [kmalloc], in exact arithmetic. *)
Definition kmalloc_fits (h : heap_state) (size : Z) : bool :=
  h_ready h && negb (size =? 0) && (h_current h + size <=? h_limit h).

Lemma kmalloc_exact h size :
  heap_inv h -> is_u32 size ->
  kmalloc h size =
    if kmalloc_fits h size
    then ({| h_start := h_start h;
             h_current := align_up (h_current h + size) 16;
             h_limit := h_limit h; h_ready := h_ready h |}, h_current h)
    else (h, 0).
Proof.
  intros [? ? ? Hr Hc Hl] Hs. unfold is_u32 in Hs. unfold kmalloc, kmalloc_fits.
  destruct (h_ready h) eqn:Er; cbn [negb orb andb]; [|done].
  specialize (Hr eq_refl). unfold USER_IMAGE_RESERVED_BASE in Hr.
  destruct (size =? 0) eqn:E0; cbn [negb andb]; [done|]. zify_bool.
  rewrite align_up_id by lia.
  rewrite u32_wrap_test by lia.
  destruct (u32_add_cases (h_current h) size) as [[? ->]|[? ->]]; [lia..| |].
  - rewrite (proj2 (Z.leb_gt _ _)) by lia. cbn [orb].
    rewrite Z.ltb_antisym. by destruct (_ <=? _).
  - rewrite (proj2 (Z.leb_le _ _)) by lia. cbn [orb].
    by rewrite (proj2 (Z.leb_gt _ _)) by lia.
Qed.

Lemma kmalloc_inv h size :
  heap_inv h -> is_u32 size -> heap_inv (fst (kmalloc h size)).
Proof.
  intros Hi Hs. rewrite kmalloc_exact by done.
  destruct (kmalloc_fits h size) eqn:E; [|done].
  unfold kmalloc_fits in E. zify_bool.
  destruct Hi as [? ? ? Hr Hc Hl]. unfold is_u32, USER_IMAGE_RESERVED_BASE in *.
  specialize (Hr ltac:(done)).
  destruct (align_up_spec (h_current h + size)) as (Ha1 & Ha2 & Ha3); [lia..|].
  specialize (Ha3 (h_limit h) ltac:(lia) Hl).
  constructor; cbn; unfold USER_IMAGE_RESERVED_BASE; intros; try done; lia.
Qed.

(** What a client may rely on after a successful allocation. *)
Lemma kmalloc_Some h size h' p :
  heap_inv h -> is_u32 size -> kmalloc h size = (h', p) -> p <> 0 ->
  heap_inv h' /\ p = h_current h /\ 0 < size /\ p + size <= h_current h' /\
  h_current h' <= h_limit h' /\ h_limit h' = h_limit h /\ h_start h' = h_start h /\
  h_limit h <= USER_IMAGE_RESERVED_BASE /\ h_ready h' = true.
Proof.
  intros Hi Hs Hk Hp.
  assert (heap_inv h') as Hi' by (replace h' with (fst (kmalloc h size)) by (by rewrite Hk); by apply kmalloc_inv).
  rewrite kmalloc_exact in Hk by done.
  destruct (kmalloc_fits h size) eqn:E; [|by simplify_eq].
  unfold kmalloc_fits in E. injection Hk as <- <-. zify_bool.
  destruct Hi as [? ? ? Hr Hc Hl]. specialize (Hr ltac:(done)).
  unfold is_u32, USER_IMAGE_RESERVED_BASE in *.
  destruct (align_up_spec (h_current h + size)) as (Ha1 & Ha2 & Ha3); [lia..|].
  specialize (Ha3 (h_limit h) ltac:(lia) Hl). cbn. repeat split; try done; try lia.
  all: apply Hi'.
Qed.

Lemma kmalloc_None h size h' :
  heap_inv h -> is_u32 size -> kmalloc h size = (h', 0) -> h' = h.
Proof.
  intros Hi Hs Hk. rewrite kmalloc_exact in Hk by done.
  destruct (kmalloc_fits h size); simplify_eq; [|done].
  destruct Hi. lia.
Qed.

(** A later state of the same heap. *)
Record heap_ext (h h' : heap_state) : Prop := {
  he_start : h_start h' = h_start h;
  he_limit : h_limit h' = h_limit h;
  he_ready : h_ready h' = h_ready h;
  he_current : h_current h <= h_current h'
}.

#[export] Instance heap_ext_preorder : PreOrder heap_ext.
Proof.
  split; [by constructor|]. intros h1 h2 h3 [? ? ? ?] [? ? ? ?]. constructor; [congruence..|lia].
Qed.

Lemma kmalloc_ext h size h' p :
  heap_inv h -> is_u32 size -> kmalloc h size = (h', p) -> heap_ext h h'.
Proof.
  intros Hi Hs Hk. pose proof Hk as Hk'. rewrite kmalloc_exact in Hk by done.
  destruct (kmalloc_fits h size) eqn:Ef; [|simplify_eq; reflexivity].
  destruct (kmalloc_Some h size h' p Hi Hs Hk') as (_ & ? & ? & ? & ? & ? & ? & _ & Hr).
  { destruct Hi. simplify_eq. lia. }
  unfold kmalloc_fits in Ef. zify_bool. constructor; [done|done|congruence|lia].
Qed.

(** An operation that may allocate and writes only to what it allocates. *)
Record mem_step (h : heap_state) (m : mem) (h' : heap_state) (m' : mem) : Prop := {
  ms_ext : heap_ext h h';
  ms_same : forall x, ~ h_current h <= x < h_current h' -> m' x = m x;
  ms_ok : mem_ok m -> mem_ok m'
}.

Lemma mem_step_refl h m : mem_step h m h m.
Proof. by constructor. Qed.

Lemma mem_step_trans h1 m1 h2 m2 h3 m3 :
  mem_step h1 m1 h2 m2 -> mem_step h2 m2 h3 m3 -> mem_step h1 m1 h3 m3.
Proof.
  intros [[? ? ? Hc1] Hs1 Hb1] [[? ? ? Hc2] Hs2 Hb2]. constructor; [|intros x Hx|by auto].
  - constructor; [congruence..|lia].
  - rewrite Hs2, Hs1 by lia. done.
Qed.

Lemma mem_step_old h m h' m' x : mem_step h m h' m' -> x < h_current h -> m' x = m x.
Proof. intros Hst Hx. apply (ms_same _ _ _ _ Hst). lia. Qed.

(** Writing to a block that [kmalloc] just returned. *)
Lemma kmalloc_step h m size h' p m' :
  heap_inv h -> is_u32 size -> kmalloc h size = (h', p) -> p <> 0 ->
  same_outside p size m m' -> (mem_ok m -> mem_ok m') -> mem_step h m h' m'.
Proof.
  intros Hi Hs Hk Hp Hm Hok.
  destruct (kmalloc_Some _ _ _ _ Hi Hs Hk Hp) as (_ & -> & ? & ? & _).
  constructor; [by apply (kmalloc_ext _ _ _ _ Hi Hs Hk)|intros x Hx; apply Hm; lia|done].
Qed.

(** Brings the inequalities of the heaps at hand to [lia]. *)
Ltac heap_facts :=
  repeat match goal with
  | H : mem_step ?h _ ?h' _ |- _ =>
      lazymatch goal with
      | _ : heap_ext h h' |- _ => fail
      | _ => pose proof (ms_ext _ _ _ _ H)
      end
  | H : heap_ext ?h ?h' |- _ =>
      lazymatch goal with
      | _ : h_current h <= h_current h' |- _ => fail
      | _ => pose proof (he_current _ _ H); pose proof (he_start _ _ H)
      end
  end.

Lemma kmalloc_seq_spec h sizes h' bs :
  heap_inv h -> Forall is_u32 sizes -> kmalloc_seq h sizes = (h', bs) ->
  heap_inv h' /\ h_current h <= h_current h' /\ h_limit h' = h_limit h /\
  (forall i p n, bs !! i = Some (p, n) ->
     h_current h <= p /\ 0 < n /\ p + n <= h_current h' /\ p `mod` 16 = 0) /\
  (forall i j p n q k, (i < j)%nat -> bs !! i = Some (p, n) -> bs !! j = Some (q, k) ->
     p + n <= q).
Proof.
  revert h h' bs. induction sizes as [|n sizes IH]; intros h h' bs Hi Hs Hk; cbn in Hk.
  { simplify_eq. split_and!; [done|lia|done|done|done]. }
  apply Forall_cons_iff in Hs as [Hn Hs].
  destruct (kmalloc h n) as [h1 p] eqn:E1.
  destruct (kmalloc_seq h1 sizes) as [h2 bs2] eqn:E2.
  destruct (p =? 0) eqn:Ep; zify_bool; simplify_eq.
  - apply kmalloc_None in E1 as ->; [|done..]. by apply IH.
  - pose proof (hi_cur_aligned _ Hi).
    destruct (kmalloc_Some _ _ _ _ Hi Hn E1 Ep) as (Hi1 & -> & ? & ? & ? & ? & ? & ? & ?).
    destruct (IH _ _ _ Hi1 Hs E2) as (? & ? & ? & Hb & Hd).
    split_and!; [done|lia|lia| |].
    + intros [|i] q k Hik; simplify_eq/=; [lia|].
      specialize (Hb _ _ _ Hik). lia.
    + intros [|i] [|j] q k q' k' Hij Hq Hq'; simplify_eq/=; try lia.
      * specialize (Hb _ _ _ Hq'). lia.
      * apply (Hd i j q k q' k'); [lia|done..].
Qed.

#[export] Hint Resolve kmalloc_inv heap_init_inv : slop.

(** ** Theorems *)

(** C19: from [heap_init] on any memory map, the blocks that any run of
    [kmalloc] calls returns are 16-byte aligned, lie between the end of the
    kernel and the reserved user area, and are pairwise disjoint; the counters
    add up; 32-bit wrap-around never changes a decision, since a call succeeds
    exactly when the exact (unbounded) sum fits. *)
Theorem heap_blocks_disjoint kernel_end mbi magic sizes h' bs :
  0 < kernel_end -> kernel_end + 15 < 4294967296 -> Forall is_u32 sizes ->
  kmalloc_seq (heap_init kernel_end mbi magic) sizes = (h', bs) ->
  (forall i p n, bs !! i = Some (p, n) ->
     p `mod` 16 = 0 /\ 0 < n /\ kernel_end <= p /\ p + n <= USER_IMAGE_RESERVED_BASE) /\
  (forall i j p n q k, (i < j)%nat -> bs !! i = Some (p, n) -> bs !! j = Some (q, k) ->
     p + n <= q) /\
  heap_bytes_used h' + heap_bytes_free h' = heap_bytes_total h' /\
  (forall n, is_u32 n -> snd (kmalloc h' n) <> 0 <-> kmalloc_fits h' n = true).
Proof.
  intros Hk Hw Hs E. set (h := heap_init kernel_end mbi magic) in *.
  pose proof (heap_init_inv kernel_end mbi magic Hk Hw) as Hi. fold h in Hi.
  destruct (kmalloc_seq_spec _ _ _ _ Hi Hs E) as (Hi' & Hc & Hl & Hb & Hd).
  assert (kernel_end <= h_current h) as Hst.
  { destruct (align_up_spec kernel_end) as (? & _); [lia..|].
    unfold h. rewrite heap_init_current. lia. }
  assert (h_limit h <= USER_IMAGE_RESERVED_BASE \/ bs = []) as Hlim.
  { destruct (h_ready h) eqn:Er; [left; by apply hi_ready|]. right.
    rewrite kmalloc_seq_off in E by done. by simplify_eq. }
  split_and!.
  - intros i p n Hp. specialize (Hb _ _ _ Hp). destruct Hlim as [? | ->]; [|done].
    destruct Hi'. lia.
  - exact Hd.
  - destruct Hi'. unfold heap_bytes_used, heap_bytes_free, heap_bytes_total.
    rewrite !u32_small; lia.
  - intros n Hn. rewrite kmalloc_exact by done.
    destruct (kmalloc_fits h' n); cbn; [|done]. destruct Hi'. split; [done|lia].
Qed.

Definition heap_64m : heap_state :=
  heap_init 0x00180001 (Some (text_mode_mbi 640 65536))
            MULTIBOOT_MAGIC.

Lemma heap_blocks_disjoint_witness :
  snd (kmalloc_seq heap_64m [5; 4294967295; 0; 4096]) = [(0x00180010, 5); (0x00180020, 4096)] /\
  (forall n, is_u32 n ->
     snd (kmalloc (fst (kmalloc_seq heap_64m [5; 4294967295; 0; 4096])) n) <> 0 <->
     kmalloc_fits (fst (kmalloc_seq heap_64m [5; 4294967295; 0; 4096])) n = true).
Proof.
  split; [vm_compute; reflexivity|].
  eapply (heap_blocks_disjoint 0x00180001
    (Some (text_mode_mbi 640 65536))
    MULTIBOOT_MAGIC [5; 4294967295; 0; 4096]).
  - lia.
  - lia.
  - repeat constructor; unfold is_u32; lia.
  - apply surjective_pairing.
Defined.
