(* ===== verification/Proc.v ===== *)
(** * Proc: the process table of [src/kernel/proc.c]

    Thirty-two slots, each with a process and its program image.  The table
    implements a finite map from pids to processes ([proc_table_refines]): pids
    are given out in order, and a slot is used again only after its process was
    waited for or reaped. *)
From S2P Require Import Prelude KernelH Util.
Local Open Scope Z_scope.

Definition MAX_PROCS : nat := 32.

Record proc_st := {
  procs : list process_info;
  images : list proc_image;
  used : Z;
  next_pid : Z
}.

Definition find_slot_by_pid (ps : proc_st) (pid : Z) : option nat :=
  first_slot (fun p => negb (bool_decide (pi_state p = PROC_UNUSED)) && (pi_pid p =? pid))
             (procs ps).

Definition alloc_slot (ps : proc_st) : option nat :=
  first_slot (fun p => bool_decide (pi_state p = PROC_UNUSED)) (procs ps).

(** The image fields written when a slot is created or recycled. *)
Definition image_reset : proc_image := {|
  loaded := false; entry := 0; image_base := 0; image_size := 0;
  user_stack_base := 0; user_stack_size := 0; img_cwd := 0;
  output := CONSOLE_VGA; context_valid := false; context := user_context_zero |}.

(** The process fields written when a slot is recycled. *)
Definition proc_reset (p : process_info) : process_info := {|
  pi_pid := -1; pi_ppid := -1; pi_state := PROC_UNUSED;
  exit_code := 0; pi_name := 0 :: tl (pi_name p) |}.

(** [proc_init], from the boot-time contents [ps0] of the arrays. *)
Definition proc_init (ps0 : proc_st) : proc_st :=
  let ps := {| procs := map proc_reset (procs ps0);
               images := map (fun _ => image_reset) (images ps0);
               used := 0; next_pid := 1 |} in
  match alloc_slot ps with
  | Some slot =>
      {| procs := alter (fun p => {| pi_pid := 0; pi_ppid := -1;
                                     pi_state := PROC_RUNNING; exit_code := 0;
                                     pi_name := str_copy (pi_name p) (lit "kmain") 16 |})
                        slot (procs ps);
         images := images ps; used := 1; next_pid := next_pid ps |}
  | None => ps
  end.

Definition proc_spawn_kernel (ps : proc_st) (name : option (list Z)) (ppid : Z)
    : proc_st * Z :=
  match alloc_slot ps with
  | None => (ps, -1)
  | Some slot =>
      let pid := next_pid ps in
      ({| procs := alter (fun p => {| pi_pid := pid; pi_ppid := ppid;
                                      pi_state := PROC_READY; exit_code := 0;
                                      pi_name := str_copy (pi_name p)
                                        (default (lit "kproc") name) 16 |})
                         slot (procs ps);
          images := <[slot := image_reset]> (images ps);
          used := u32 (used ps + 1);
          next_pid := s32 (pid + 1) |}, pid)
  end.

Definition proc_exit (ps : proc_st) (pid code : Z) : proc_st * bool :=
  match find_slot_by_pid ps pid with
  | None => (ps, false)
  | Some slot =>
      ({| procs := alter (fun p => set_exit_code code (set_pi_state PROC_ZOMBIE p))
                         slot (procs ps);
          images := images ps; used := used ps; next_pid := next_pid ps |}, true)
  end.

(** The common end of [proc_wait] and [proc_reap_pid]. *)
Definition proc_recycle (ps : proc_st) (slot : nat) : proc_st := {|
  procs := alter proc_reset slot (procs ps);
  images := <[slot := image_reset]> (images ps);
  used := if 0 <? used ps then used ps - 1 else used ps;
  next_pid := next_pid ps |}.

(** [proc_wait(ppid, &child_pid, &exit_code)]: the two out parameters when a
    zombie child was found. *)
Definition proc_wait (ps : proc_st) (ppid : Z) : proc_st * option (Z * Z) :=
  match first_slot (fun p => bool_decide (pi_state p = PROC_ZOMBIE) && (pi_ppid p =? ppid))
                   (procs ps) with
  | Some i =>
      match procs ps !! i with
      | Some p => (proc_recycle ps i, Some (pi_pid p, exit_code p))
      | None => (ps, None)
      end
  | None => (ps, None)
  end.

Definition proc_set_state (ps : proc_st) (pid : Z) (state : proc_state) : proc_st :=
  match find_slot_by_pid ps pid with
  | None => ps
  | Some slot =>
      {| procs := alter (set_pi_state state) slot (procs ps);
         images := images ps; used := used ps; next_pid := next_pid ps |}
  end.

Definition proc_state_of (ps : proc_st) (pid : Z) : proc_state :=
  match find_slot_by_pid ps pid with
  | None => PROC_UNUSED
  | Some slot => match procs ps !! slot with
                 | Some p => pi_state p
                 | None => PROC_UNUSED
                 end
  end.

Definition proc_state_name (state : proc_state) : list Z :=
  match state with
  | PROC_RUNNING => lit "RUN"
  | PROC_READY => lit "RDY"
  | PROC_BLOCKED => lit "BLK"
  | PROC_ZOMBIE => lit "ZMB"
  | PROC_UNUSED => lit "UNK"
  end.

Definition proc_count (ps : proc_st) : Z := used ps.

Definition proc_bind_image (ps : proc_st) (pid : Z) (image : proc_image) : proc_st * bool :=
  match find_slot_by_pid ps pid with
  | None => (ps, false)
  | Some slot =>
      ({| procs := procs ps; images := <[slot := image]> (images ps);
          used := used ps; next_pid := next_pid ps |}, true)
  end.

Definition proc_get_image (ps : proc_st) (pid : Z) : option proc_image :=
  slot ← find_slot_by_pid ps pid; images ps !! slot.

(** [proc_reap_pid(pid, &exit_code)]. *)
Definition proc_reap_pid (ps : proc_st) (pid : Z) : proc_st * option Z :=
  match find_slot_by_pid ps pid with
  | None => (ps, None)
  | Some slot =>
      match procs ps !! slot with
      | Some p => if negb (bool_decide (pi_state p = PROC_ZOMBIE)) then (ps, None)
                  else (proc_recycle ps slot, Some (exit_code p))
      | None => (ps, None)
      end
  end.

(** ** The table as a map from pids *)

#[export] Instance proc_table : Table process_info Z.
Proof.
  refine {| live p := negb (bool_decide (pi_state p = PROC_UNUSED));
            key := pi_pid;
            hit pid p := negb (bool_decide (pi_state p = PROC_UNUSED)) && (pi_pid p =? pid) |}.
  intros k x. by rewrite andb_true_iff, Z.eqb_eq.
Defined.

Definition proc_map (ps : proc_st) : gmap Z process_info := table_map (procs ps).

Record proc_inv (ps : proc_st) : Prop := {
  pv_procs : length (procs ps) = MAX_PROCS;
  pv_images : length (images ps) = MAX_PROCS;
  pv_names : Forall (fun p => length (pi_name p) = 16%nat) (procs ps);
  pv_uniq : uniq_keys (procs ps);
  pv_pids : forall i p, procs ps !! i = Some p -> live p = true ->
              0 <= pi_pid p < next_pid ps;
  pv_used : used ps = count_if live (procs ps);
  pv_next : 0 < next_pid ps <= INT_MAX
}.

(** The operations of the table, and the effect each must have on the map. *)
Inductive proc_op :=
  | PSpawn (name : option (list Z)) (ppid : Z)
  | PExit (pid code : Z)
  | PSetState (pid : Z) (state : proc_state)
  | PBind (pid : Z) (image : proc_image)
  | PReap (pid : Z)
  | PWait (ppid : Z).

Inductive proc_res :=
  | RPid (pid : Z)
  | RBool (b : bool)
  | RVoid
  | RReap (code : option Z)
  | RWait (child : option (Z * Z)).

Definition proc_do (op : proc_op) (ps : proc_st) : proc_st * proc_res :=
  match op with
  | PSpawn name ppid => let '(ps', pid) := proc_spawn_kernel ps name ppid in (ps', RPid pid)
  | PExit pid code => let '(ps', b) := proc_exit ps pid code in (ps', RBool b)
  | PSetState pid state => (proc_set_state ps pid state, RVoid)
  | PBind pid image => let '(ps', b) := proc_bind_image ps pid image in (ps', RBool b)
  | PReap pid => let '(ps', r) := proc_reap_pid ps pid in (ps', RReap r)
  | PWait ppid => let '(ps', r) := proc_wait ps ppid in (ps', RWait r)
  end.

(** The abstract specification: a finite map from pids to live entries. *)
Inductive proc_spec (m : gmap Z process_info)
    : proc_op -> gmap Z process_info -> proc_res -> Prop :=
  | spec_spawn name ppid pid e :
      m !! pid = None -> 0 < pid ->
      pi_pid e = pid -> pi_ppid e = ppid -> pi_state e = PROC_READY -> exit_code e = 0 ->
      cstr (pi_name e) = take 15 (cstr (default (lit "kproc") name)) ->
      proc_spec m (PSpawn name ppid) (<[pid := e]> m) (RPid pid)
  | spec_spawn_full name ppid :
      size m = MAX_PROCS -> proc_spec m (PSpawn name ppid) m (RPid (-1))
  | spec_exit pid code e :
      m !! pid = Some e ->
      proc_spec m (PExit pid code)
        (<[pid := set_exit_code code (set_pi_state PROC_ZOMBIE e)]> m) (RBool true)
  | spec_exit_none pid code :
      m !! pid = None -> proc_spec m (PExit pid code) m (RBool false)
  | spec_set_state pid state e :
      m !! pid = Some e ->
      proc_spec m (PSetState pid state) (<[pid := set_pi_state state e]> m) RVoid
  | spec_set_state_none pid state :
      m !! pid = None -> proc_spec m (PSetState pid state) m RVoid
  | spec_bind pid image :
      proc_spec m (PBind pid image) m (RBool (bool_decide (is_Some (m !! pid))))
  | spec_reap pid e :
      m !! pid = Some e -> pi_state e = PROC_ZOMBIE ->
      proc_spec m (PReap pid) (delete pid m) (RReap (Some (exit_code e)))
  | spec_reap_not pid :
      (forall e, m !! pid = Some e -> pi_state e <> PROC_ZOMBIE) ->
      proc_spec m (PReap pid) m (RReap None)
  | spec_wait ppid pid e :
      m !! pid = Some e -> pi_state e = PROC_ZOMBIE -> pi_ppid e = ppid ->
      proc_spec m (PWait ppid) (delete pid m) (RWait (Some (pid, exit_code e)))
  | spec_wait_none ppid :
      (forall pid e, m !! pid = Some e -> pi_ppid e = ppid -> pi_state e <> PROC_ZOMBIE) ->
      proc_spec m (PWait ppid) m (RWait None).

(** Callers never set the UNUSED state directly, and a kernel does not run long
    enough to exhaust the positive pids. *)
Definition proc_op_ok (op : proc_op) (ps : proc_st) : Prop :=
  match op with
  | PSpawn _ _ => next_pid ps < INT_MAX
  | PSetState _ state => state <> PROC_UNUSED
  | _ => True
  end.

Section proc_lemmas.
Implicit Types (ps : proc_st).

Lemma find_slot_hit ps pid : find_slot_by_pid ps pid = first_slot (hit pid) (procs ps).
Proof. done. Qed.

(** A found slot, with its entry in the map. *)
Lemma find_slot_inv ps pid slot :
  find_slot_by_pid ps pid = Some slot ->
  exists p, procs ps !! slot = Some p /\ live p = true /\ pi_pid p = pid /\
    proc_map ps !! pid = Some p.
Proof.
  intros Hf. pose proof Hf as Hf'.
  rewrite find_slot_hit in Hf. apply find_inv in Hf as (p & Hp & Hl & Hk).
  exists p. split_and!; [done..|]. unfold proc_map. rewrite table_map_lookup.
  unfold entry_of. rewrite <- find_slot_hit, Hf'. done.
Qed.

Lemma find_slot_none ps pid : find_slot_by_pid ps pid = None <-> proc_map ps !! pid = None.
Proof. unfold proc_map. by rewrite table_map_lookup, entry_of_None. Qed.

(** One slot rewritten in place: the state of the invariant and of the map. *)
Lemma proc_update_inv ps slot p q img u :
  proc_inv ps -> procs ps !! slot = Some p -> live p = true ->
  length (pi_name q) = 16%nat ->
  (live q = true -> pi_pid q = pi_pid p) ->
  length img = MAX_PROCS ->
  u = used ps - (if live q then 0 else 1) ->
  proc_inv {| procs := <[slot := q]> (procs ps); images := img;
              used := u; next_pid := next_pid ps |} /\
  table_map (<[slot := q]> (procs ps)) =
    if live q then <[pi_pid p := q]> (proc_map ps) else delete (pi_pid p) (proc_map ps).
Proof.
  intros [? ? Hn Hu Hp Hc ?] Hs Hl Hq Hk Hi ->.
  assert (key_free_but (procs ps) slot q) as Hf.
  { destruct (live q) eqn:Eq; [|by apply key_free_dead].
    apply (key_free_same _ _ p); try done. by apply Hk. }
  split.
  - constructor; cbn [procs images used next_pid]; try done.
    + by rewrite length_insert.
    + by apply Forall_insert.
    + by apply uniq_insert.
    + intros i r Hr Hlr. apply list_lookup_insert_Some in Hr as [(<- & <- & _)|[_ Hr]].
      * rewrite Hk by done. by apply (Hp slot).
      * by apply (Hp i).
    + rewrite (count_if_insert _ _ _ p) by done. rewrite Hl, Hc. destruct (live q); lia.
  - rewrite (table_map_insert _ _ p) by done. rewrite Hl. unfold proc_map.
    destruct (live q); [|done]. cbn [key proc_table]. rewrite Hk by done.
    by rewrite insert_delete_eq.
Qed.

(** A free slot taken by a fresh pid. *)
Lemma proc_fresh_inv ps slot p q :
  proc_inv ps -> procs ps !! slot = Some p -> live p = false ->
  length (pi_name q) = 16%nat -> live q = true -> pi_pid q = next_pid ps ->
  next_pid ps < INT_MAX ->
  proc_inv {| procs := <[slot := q]> (procs ps);
              images := <[slot := image_reset]> (images ps);
              used := u32 (used ps + 1); next_pid := s32 (next_pid ps + 1) |} /\
  table_map (<[slot := q]> (procs ps)) = <[next_pid ps := q]> (proc_map ps) /\
  proc_map ps !! next_pid ps = None.
Proof.
  intros [Hlen ? Hn Hu Hp Hc Hnx] Hs Hl Hq Hlq Hk Hmax.
  assert (proc_map ps !! next_pid ps = None) as Hnone.
  { unfold proc_map. rewrite table_map_lookup. apply entry_of_None, find_None.
    intros i x Hx Hlx Hkx. specialize (Hp i x Hx Hlx). cbn in Hkx. lia. }
  assert (key_free_but (procs ps) slot q) as Hf.
  { apply key_free_fresh. cbn [key proc_table]. rewrite Hk.
    by rewrite <- table_map_lookup. }
  split_and!.
  - constructor; cbn [procs images used next_pid]; try done.
    + by rewrite length_insert.
    + by rewrite length_insert.
    + by apply Forall_insert.
    + by apply uniq_insert.
    + rewrite s32_small by lia. intros i r Hr Hlr.
      apply list_lookup_insert_Some in Hr as [(<- & <- & _)|[_ Hr]]; [lia|].
      specialize (Hp i r Hr Hlr). lia.
    + rewrite (count_if_insert _ _ _ p) by done. rewrite Hl, Hlq, Hc.
      pose proof (count_if_bound live (procs ps)) as Hb. rewrite Hlen in Hb.
      change (Z.of_nat MAX_PROCS) with 32 in Hb.
      rewrite u32_small; lia.
    + rewrite s32_small by lia. lia.
  - rewrite (table_map_insert _ _ p) by done. rewrite Hl, Hlq. unfold proc_map.
    cbn [key proc_table]. by rewrite Hk.
  - done.
Qed.

Lemma alloc_slot_inv ps slot :
  alloc_slot ps = Some slot -> exists p, procs ps !! slot = Some p /\ live p = false.
Proof.
  intros (p & Hp & Hu)%first_slot_lookup. exists p. split; [done|]. cbn. by rewrite Hu.
Qed.

Lemma alloc_slot_full ps :
  proc_inv ps -> alloc_slot ps = None <-> size (proc_map ps) = MAX_PROCS.
Proof.
  intros Hi. pose proof (table_map_size _ (pv_uniq _ Hi)) as Hsz.
  unfold alloc_slot. erewrite first_slot_ext.
  2:{ intros i x _. instantiate (1 := fun x => negb (live x)). cbn. by rewrite negb_involutive. }
  rewrite <- count_if_full, <- Hsz, (pv_procs _ Hi). unfold proc_map. lia.
Qed.

Lemma name_length ps slot p : proc_inv ps -> procs ps !! slot = Some p -> length (pi_name p) = 16%nat.
Proof. intros Hi Hp. exact (Forall_lookup_1 _ _ _ _ (pv_names _ Hi) Hp). Qed.

Lemma recycle_name_length ps slot p :
  proc_inv ps -> procs ps !! slot = Some p -> length (pi_name (proc_reset p)) = 16%nat.
Proof.
  intros Hi Hp. pose proof (name_length _ _ _ Hi Hp) as Hl. cbn.
  destruct (pi_name p); cbn in *; lia.
Qed.

Lemma proc_recycle_spec ps slot p :
  proc_inv ps -> procs ps !! slot = Some p -> live p = true ->
  proc_inv (proc_recycle ps slot) /\
  proc_map (proc_recycle ps slot) = delete (pi_pid p) (proc_map ps).
Proof.
  intros Hi Hp Hl. unfold proc_recycle. rewrite (alter_known _ _ _ _ Hp).
  pose proof (count_if_pos live _ _ _ Hp Hl) as Hpos. rewrite <- (pv_used _ Hi) in Hpos.
  rewrite (proj2 (Z.ltb_lt _ _) Hpos).
  apply (proc_update_inv ps slot p (proc_reset p)); try done.
  - by apply (recycle_name_length ps slot).
  - rewrite length_insert. apply Hi.
Qed.

Ltac at_slot Hf p :=
  let Hp := fresh "Hp" in let Hl := fresh "Hl" in
  let Hk := fresh "Hk" in let Hm := fresh "Hm" in
  destruct (find_slot_inv _ _ _ Hf) as (p & Hp & Hl & Hk & Hm).

(** The write of a live slot that keeps its pid, as every operation does it. *)
Lemma proc_alter_spec ps slot p f :
  proc_inv ps -> procs ps !! slot = Some p -> live p = true -> live (f p) = true ->
  pi_pid (f p) = pi_pid p -> pi_name (f p) = pi_name p ->
  let ps' := {| procs := alter f slot (procs ps); images := images ps;
                used := used ps; next_pid := next_pid ps |} in
  proc_inv ps' /\ proc_map ps' = <[pi_pid p := f p]> (proc_map ps).
Proof.
  intros Hi Hp Hl Hlf Hk Hn. cbv zeta.
  rewrite (alter_known _ _ _ _ Hp).
  destruct (proc_update_inv ps slot p (f p) (images ps) (used ps)) as [? Hm]; try done.
  - rewrite Hn. by apply (name_length ps slot).
  - apply Hi.
  - rewrite Hlf. lia.
  - split; [done|]. unfold proc_map at 1. cbn [procs]. by rewrite Hm, Hlf.
Qed.

Lemma proc_do_refines op ps ps' r :
  proc_inv ps -> proc_op_ok op ps -> proc_do op ps = (ps', r) ->
  proc_inv ps' /\ proc_spec (proc_map ps) op (proc_map ps') r.
Proof.
  intros Hi Hok Hdo. destruct op as [name ppid|pid code|pid state|pid image|pid|ppid]; cbn in *.
  - unfold proc_spawn_kernel in Hdo. destruct (alloc_slot ps) as [slot|] eqn:Ha; simplify_eq.
    + destruct (alloc_slot_inv _ _ Ha) as (p & Hp & Hl). rewrite (alter_known _ _ _ _ Hp).
      pose proof (name_length _ _ _ Hi Hp) as Hlen.
      edestruct (proc_fresh_inv ps slot p) as (? & Hm & Hnone); [done..| | | | |split; [done|]];
        try done; [cbn; rewrite str_copy_length; lia|].
      unfold proc_map at 2. cbn [procs]. rewrite Hm.
      constructor; try done; [apply Hi|]. cbn. rewrite str_copy_cstr by lia. done.
    + split; [done|]. constructor. by apply alloc_slot_full.
  - unfold proc_exit in Hdo. destruct (find_slot_by_pid ps pid) as [slot|] eqn:Hf; simplify_eq.
    + at_slot Hf p.
      destruct (proc_alter_spec ps slot p (fun p => set_exit_code code (set_pi_state PROC_ZOMBIE p)))
        as [? Hm']; try done.
      split; [done|]. rewrite Hm', Hk. by constructor.
    + split; [done|]. constructor. by apply find_slot_none.
  - unfold proc_set_state in Hdo. destruct (find_slot_by_pid ps pid) as [slot|] eqn:Hf; simplify_eq.
    + at_slot Hf p.
      destruct (proc_alter_spec ps slot p (set_pi_state state)) as [? Hm']; try done.
      { cbn. by rewrite bool_decide_false. }
      split; [done|]. rewrite Hm', Hk. by constructor.
    + split; [done|]. constructor. by apply find_slot_none.
  - unfold proc_bind_image in Hdo. destruct (find_slot_by_pid ps pid) as [slot|] eqn:Hf; simplify_eq.
    + at_slot Hf p. split.
      * destruct Hi. constructor; try done. cbn. by rewrite length_insert.
      * replace true with (bool_decide (is_Some (proc_map ps !! pid))); [constructor|].
        rewrite Hm. by apply bool_decide_true.
    + split; [done|]. apply find_slot_none in Hf.
      replace false with (bool_decide (is_Some (proc_map ps' !! pid))); [constructor|].
      rewrite Hf. apply bool_decide_false. by intros [? ?].
  - unfold proc_reap_pid in Hdo. destruct (find_slot_by_pid ps pid) as [slot|] eqn:Hf; simplify_eq.
    + at_slot Hf p. rewrite Hp in Hdo. case_bool_decide as Hz; cbn in Hdo; simplify_eq.
      * destruct (proc_recycle_spec ps slot p) as [? Hm']; try done.
        split; [done|]. rewrite Hm'. by constructor.
      * split; [done|]. constructor. intros e He. congruence.
    + split; [done|]. constructor. apply find_slot_none in Hf. congruence.
  - unfold proc_wait in Hdo. destruct (first_slot _ (procs ps)) as [slot|] eqn:Hf; simplify_eq.
    + apply first_slot_lookup in Hf as (p & Hp & Hz). rewrite Hp in Hdo. simplify_eq.
      apply andb_true_iff in Hz as [Hz%bool_decide_eq_true Hpp%Z.eqb_eq].
      assert (live p = true) as Hl by (cbn; rewrite bool_decide_false by congruence; done).
      destruct (proc_recycle_spec ps slot p) as [? Hm']; try done.
      split; [done|]. rewrite Hm'. constructor; try done. unfold proc_map.
      rewrite table_map_lookup. apply entry_of_Some; [apply Hi|]. by exists slot.
    + split; [done|]. constructor. intros pid e He Hpp Hz. unfold proc_map in He.
      rewrite table_map_lookup in He. apply entry_of_Some in He as (i & Hp & _); [|apply Hi].
      rewrite first_slot_None in Hf. specialize (Hf i e Hp).
      rewrite bool_decide_true, (proj2 (Z.eqb_eq _ _) Hpp) in Hf by done. done.
Qed.

End proc_lemmas.

(** ** Runs of the table from boot *)

(** The arrays before [proc_init]: any contents, the sizes of the declarations. *)
Definition proc_boot (ps0 : proc_st) : Prop :=
  length (procs ps0) = MAX_PROCS /\ length (images ps0) = MAX_PROCS /\
  Forall (fun p => length (pi_name p) = 16%nat) (procs ps0).

Inductive proc_reach (ps0 : proc_st) : proc_st -> Prop :=
  | reach_init : proc_reach ps0 (proc_init ps0)
  | reach_step ps op :
      proc_reach ps0 ps -> proc_op_ok op ps -> proc_reach ps0 (fst (proc_do op ps)).

(** The pids that the spawns of a run return. *)
Fixpoint spawned (ops : list proc_op) (ps : proc_st) : list Z :=
  match ops with
  | [] => []
  | op :: ops' =>
      let '(ps', r) := proc_do op ps in
      match r with
      | RPid pid => if pid <? 0 then spawned ops' ps' else pid :: spawned ops' ps'
      | _ => spawned ops' ps'
      end
  end.

Fixpoint run_ok (ops : list proc_op) (ps : proc_st) : Prop :=
  match ops with
  | [] => True
  | op :: ops' => proc_op_ok op ps /\ run_ok ops' (fst (proc_do op ps))
  end.

Lemma proc_init_inv ps0 : proc_boot ps0 -> proc_inv (proc_init ps0).
Proof.
  intros (Hl & Hi & Hn). unfold proc_init.
  destruct (procs ps0) as [|p0 l] eqn:E; [done|].
  apply Forall_cons_iff in Hn as [Hn0 Hn].
  set (q := {| pi_pid := 0; pi_ppid := -1; pi_state := PROC_RUNNING; exit_code := 0;
               pi_name := str_copy (pi_name (proc_reset p0)) (lit "kmain") 16 |}).
  assert (alloc_slot {| procs := map proc_reset (p0 :: l);
     images := map (fun _ => image_reset) (images ps0); used := 0; next_pid := 1 |} = Some 0%nat) as ->
    by reflexivity.
  change (alter _ 0%nat (procs _)) with (q :: map proc_reset l).
  assert (forall i r, map proc_reset l !! i = Some r -> live r = false) as Hdead.
  { intros i r Hr. rewrite list_lookup_fmap in Hr. apply fmap_Some in Hr as (? & _ & ->). done. }
  assert (forall i r, (q :: map proc_reset l) !! i = Some r -> live r = true -> i = 0%nat /\ r = q) as Hq.
  { intros [|i] r Hr Hlr; simplify_eq/=; [done|]. apply Hdead in Hr. cbn in *. congruence. }
  constructor; cbn [procs images used next_pid].
  - cbn [length] in *. rewrite length_map. done.
  - by rewrite length_map.
  - assert (forall p, length (pi_name p) = 16%nat -> length (pi_name (proc_reset p)) = 16%nat) as Hr.
    { intros p Hp. cbn. destruct (pi_name p); cbn in *; lia. }
    constructor.
    + cbn [pi_name q]. rewrite str_copy_length; rewrite (Hr _ Hn0); lia.
    + apply Forall_map. revert Hn. by apply Forall_impl.
  - intros i j x y Hx Hy Hlx Hly _.
    apply Hq in Hx as [-> _]; [|done]. by apply Hq in Hy as [-> _].
  - intros i p Hp Hlp. apply Hq in Hp as [_ ->]; [|done]. cbn. lia.
  - cbn [count_if]. change (live q) with true.
    assert (count_if live (map proc_reset l) = 0) as ->; [|done].
    clear. induction l as [|x l IH]; [done|]. cbn [map count_if]. rewrite IH. done.
  - unfold INT_MAX. lia.
Qed.

Lemma proc_reach_inv ps0 ps : proc_boot ps0 -> proc_reach ps0 ps -> proc_inv ps.
Proof.
  intros Hb. induction 1 as [|ps op _ IH Hok]; [by apply proc_init_inv|].
  destruct (proc_do op ps) as [ps' r] eqn:E.
  by apply (proc_do_refines op ps ps' r).
Qed.

Lemma proc_do_next_pid op ps ps' r :
  proc_inv ps -> proc_op_ok op ps -> proc_do op ps = (ps', r) ->
  next_pid ps <= next_pid ps' /\
  forall pid, r = RPid pid -> pid < 0 \/ (pid = next_pid ps /\ next_pid ps' = pid + 1).
Proof.
  intros Hi Hok Hdo. pose proof (pv_next _ Hi).
  destruct op; cbn in *.
  - unfold proc_spawn_kernel in Hdo. destruct (alloc_slot ps); simplify_eq; cbn.
    + rewrite s32_small by lia. split; [lia|]. intros pid [= <-]. by right.
    + split; [done|]. intros pid [= <-]. left. lia.
  - unfold proc_exit in Hdo. case_opt; simplify_eq; cbn; (split; [lia|done]).
  - unfold proc_set_state in Hdo. case_opt; simplify_eq; cbn; (split; [lia|done]).
  - unfold proc_bind_image in Hdo. case_opt; simplify_eq; cbn; (split; [lia|done]).
  - unfold proc_reap_pid in Hdo. repeat case_opt; try split_if; simplify_eq; cbn; (split; [lia|done]).
  - unfold proc_wait in Hdo. repeat case_opt; simplify_eq; cbn; (split; [lia|done]).
Qed.

Lemma spawned_bound ops ps :
  proc_inv ps -> run_ok ops ps ->
  Forall (fun pid => next_pid ps <= pid) (spawned ops ps) /\ NoDup (spawned ops ps).
Proof.
  revert ps. induction ops as [|op ops IH]; intros ps Hi Hok; cbn; [by split; constructor|].
  destruct Hok as [Hok Hrun]. destruct (proc_do op ps) as [ps' r] eqn:E. cbn in Hrun.
  destruct (proc_do_refines _ _ _ _ Hi Hok E) as [Hi' _].
  destruct (proc_do_next_pid _ _ _ _ Hi Hok E) as [Hle Hr].
  destruct (IH _ Hi' Hrun) as [Hb Hnd].
  assert (Forall (fun pid => next_pid ps <= pid) (spawned ops ps')) as Hb'.
  { revert Hb. apply Forall_impl. lia. }
  destruct r as [pid| | | |]; try done.
  destruct (pid <? 0) eqn:En; zify_bool; [done|].
  destruct (Hr pid eq_refl) as [?|[-> Hn]]; [lia|].
  split; [by constructor|]. constructor; [|done].
  intros Hin%list_elem_of_In. rewrite Forall_forall in Hb. specialize (Hb _ Hin). lia.
Qed.

(** ** Theorems *)

(** The array before boot used in the witnesses. *)
Definition proc_boot_zero : proc_st := {|
  procs := replicate 32 {| pi_pid := 0; pi_ppid := 0; pi_state := PROC_UNUSED;
                           exit_code := 0; pi_name := replicate 16 0 |};
  images := replicate 32 image_reset; used := 0; next_pid := 0 |}.

Lemma proc_boot_zero_ok : proc_boot proc_boot_zero.
Proof. split_and!; [done..|]. by repeat constructor. Qed.

(** C16: every operation of the process table (spawn, exit, set_state,
    bind_image, reap, wait), run in any reachable state, keeps the table well
    formed and does to the map from pids to live entries exactly what the
    specification [proc_spec] says, with the specified result, on success and
    on failure. *)
Theorem proc_table_refines ps0 ps op :
  proc_boot ps0 -> proc_reach ps0 ps -> proc_op_ok op ps ->
  proc_inv (fst (proc_do op ps)) /\
  proc_spec (proc_map ps) op (proc_map (fst (proc_do op ps))) (snd (proc_do op ps)).
Proof.
  intros Hb Hr Hok. apply proc_do_refines; [by apply (proc_reach_inv ps0)|done|].
  by destruct (proc_do op ps).
Qed.

Lemma proc_table_refines_witness :
  proc_inv (fst (proc_do (PReap 1) (fst (proc_do (PExit 1 7)
    (fst (proc_do (PSpawn None 0) (proc_init proc_boot_zero))))))) /\
  snd (proc_do (PReap 1) (fst (proc_do (PExit 1 7)
    (fst (proc_do (PSpawn None 0) (proc_init proc_boot_zero)))))) = RReap (Some 7).
Proof.
  split; [|vm_compute; reflexivity].
  apply (proc_table_refines proc_boot_zero).
  - exact proc_boot_zero_ok.
  - apply reach_step; [apply reach_step; [apply reach_init|]|]; vm_compute; done.
  - exact I.
Defined.

(** a pid is never given twice: the pids returned by the spawns of any run
    from boot are pairwise distinct, whatever was reaped in between. *)
Theorem proc_pids_never_reused ps0 ops :
  proc_boot ps0 -> run_ok ops (proc_init ps0) -> NoDup (spawned ops (proc_init ps0)).
Proof. intros Hb Hok. apply spawned_bound; [by apply proc_init_inv|done]. Qed.

Lemma proc_pids_never_reused_witness :
  NoDup (spawned [PSpawn None 0; PExit 1 0; PReap 1; PSpawn None 0] (proc_init proc_boot_zero)) /\
  spawned [PSpawn None 0; PExit 1 0; PReap 1; PSpawn None 0] (proc_init proc_boot_zero) = [1; 2].
Proof.
  split; [|vm_compute; reflexivity].
  apply (proc_pids_never_reused proc_boot_zero).
  - exact proc_boot_zero_ok.
  - vm_compute. done.
Defined.
