(* ===== verification/Sched.v ===== *)
(** * Sched: the task table and the round-robin scheduler of [src/kernel/task.c]

    [sched] holds the static variables of task.c and, in [sprocs], the process
    table that task.c updates through proc.c's functions.  [current_index] is
    [None] for [-1].  The timer interrupt is the operation
    [scheduler_on_timer_tick], which may run between any two others. *)
From S2P Require Import Prelude KernelH Util Proc.
Local Open Scope Z_scope.

Definition MAX_TASKS : nat := 32.
Definition SCHED_TIMESLICE_TICKS : Z := 4.

Record sched := {
  tasks : list task_info;
  tasks_used : Z;
  current_index : option nat;
  switches : Z;
  slice_ticks : Z;
  sprocs : proc_st
}.

Definition with_tasks (l : list task_info) (st : sched) : sched := {|
  tasks := l; tasks_used := tasks_used st; current_index := current_index st;
  switches := switches st; slice_ticks := slice_ticks st; sprocs := sprocs st |}.

Definition with_current (c : option nat) (st : sched) : sched := {|
  tasks := tasks st; tasks_used := tasks_used st; current_index := c;
  switches := switches st; slice_ticks := slice_ticks st; sprocs := sprocs st |}.

Definition with_slice (n : Z) (st : sched) : sched := {|
  tasks := tasks st; tasks_used := tasks_used st; current_index := current_index st;
  switches := switches st; slice_ticks := n; sprocs := sprocs st |}.

Definition with_procs (ps : proc_st) (st : sched) : sched := {|
  tasks := tasks st; tasks_used := tasks_used st; current_index := current_index st;
  switches := switches st; slice_ticks := slice_ticks st; sprocs := ps |}.

Definition with_used (n : Z) (st : sched) : sched := {|
  tasks := tasks st; tasks_used := n; current_index := current_index st;
  switches := switches st; slice_ticks := slice_ticks st; sprocs := sprocs st |}.

Definition with_switches (n : Z) (st : sched) : sched := {|
  tasks := tasks st; tasks_used := tasks_used st; current_index := current_index st;
  switches := n; slice_ticks := slice_ticks st; sprocs := sprocs st |}.

(** [tasks[slot].state = s] *)
Definition put_state (slot : nat) (s : task_state) (st : sched) : sched :=
  with_tasks (alter (set_ti_state s) slot (tasks st)) st.

(** [proc_set_state(pid, s)] *)
Definition put_proc (pid : Z) (s : proc_state) (st : sched) : sched :=
  with_procs (proc_set_state (sprocs st) pid s) st.

Definition is_state (s : task_state) (t : task_info) : bool :=
  bool_decide (ti_state t = s).

Definition task_alloc_slot (st : sched) : option nat :=
  first_slot (fun t => is_state TASK_UNUSED t || is_state TASK_ZOMBIE t) (tasks st).

Definition task_find_slot_by_pid (st : sched) (pid : Z) : option nat :=
  first_slot (fun t => negb (is_state TASK_UNUSED t) && (ti_pid t =? pid)) (tasks st).

(** The block [if (current_index >= 0 && current_index != slot &&
    tasks[current_index].state == TASK_RUNNING) {...}] of
    [task_return_to_kernel_main] and [task_set_state]. *)
Definition demote_current (slot : nat) (st : sched) : sched :=
  match current_index st with
  | None => st
  | Some c =>
      match tasks st !! c with
      | Some t =>
          if negb (Nat.eqb c slot) && is_state TASK_RUNNING t
          then put_state c TASK_READY (put_proc (ti_pid t) PROC_READY st)
          else st
      | None => st
      end
  end.

Definition task_return_to_kernel_main (st : sched) : sched :=
  match task_find_slot_by_pid st 0 with
  | None => with_current None st
  | Some kernel_slot =>
      let st := demote_current kernel_slot st in
      let st := with_current (Some kernel_slot) st in
      let st := put_state kernel_slot TASK_RUNNING st in
      let st := match tasks st !! kernel_slot with
                | Some t => put_proc (ti_pid t) PROC_RUNNING st
                | None => st
                end in
      with_slice 0 st
  end.

Definition task_state_name (state : task_state) : list Z :=
  match state with
  | TASK_RUNNING => lit "RUN"
  | TASK_READY => lit "RDY"
  | TASK_BLOCKED => lit "BLK"
  | TASK_ZOMBIE => lit "ZMB"
  | TASK_UNUSED => lit "UNK"
  end.

Definition task_reset (t : task_info) : task_info := {|
  ti_pid := 0; ti_ppid := -1; ti_state := TASK_UNUSED; runtime_ticks := 0;
  ti_name := 0 :: tl (ti_name t) |}.

(** [tasking_init], from the boot-time contents [st0] of the variables. *)
Definition tasking_init (st0 : sched) : sched :=
  let st := {| tasks := map task_reset (tasks st0); tasks_used := 0;
               current_index := current_index st0; switches := 0;
               slice_ticks := 0; sprocs := sprocs st0 |} in
  let st := with_current (task_alloc_slot st) st in
  match current_index st with
  | Some c =>
      with_used 1 (with_tasks
        (alter (fun t => {| ti_pid := 0; ti_ppid := -1; ti_state := TASK_RUNNING;
                            runtime_ticks := 0;
                            ti_name := str_copy (ti_name t) (lit "kmain") 16 |})
               c (tasks st)) st)
  | None => st
  end.

(** [task_spawn_kernel] and [task_spawn_user] differ in the default name. *)
Definition task_spawn (dflt : list Z) (st : sched) (name : option (list Z)) (ppid : Z)
    : sched * Z :=
  match task_alloc_slot st with
  | None => (st, -1)
  | Some slot =>
      let '(ps, pid) := proc_spawn_kernel (sprocs st) name ppid in
      if pid <? 0 then (with_procs ps st, -1)
      else
        (with_used (u32 (tasks_used st + 1)) (with_procs ps (with_tasks
           (alter (fun t => {| ti_pid := pid; ti_ppid := ppid; ti_state := TASK_READY;
                               runtime_ticks := 0;
                               ti_name := str_copy (ti_name t) (default dflt name) 16 |})
                  slot (tasks st)) st)), pid)
  end.

Definition task_spawn_kernel := task_spawn (lit "kproc").
Definition task_spawn_user := task_spawn (lit "uproc").

Definition task_set_state (st : sched) (pid : Z) (state : task_state) : sched :=
  match task_find_slot_by_pid st pid with
  | None => st
  | Some slot =>
      let st := if bool_decide (state = TASK_RUNNING) then demote_current slot st else st in
      let st := put_state slot state st in
      if bool_decide (state = TASK_RUNNING)
      then put_proc pid PROC_RUNNING (with_slice 0 (with_current (Some slot) st))
      else st
  end.

Definition task_reap_pid (st : sched) (pid : Z) : sched * bool :=
  match task_find_slot_by_pid st pid with
  | None => (st, false)
  | Some slot =>
      let st := with_tasks (alter task_reset slot (tasks st)) st in
      let st := if 0 <? tasks_used st then with_used (tasks_used st - 1) st else st in
      let st := if bool_decide (current_index st = Some slot)
                then task_return_to_kernel_main st else st in
      (st, true)
  end.

(** [for (n = 1; n < MAX_TASKS; ++n) { next = (current_index + n) % MAX_TASKS;
    if (tasks[next].state == TASK_READY) ... break; }]: the slot found. *)
Fixpoint pick_next (l : list task_info) (cur n : nat) (fuel : nat) : option nat :=
  match fuel with
  | O => None
  | S f =>
      let next := ((cur + n) `mod` MAX_TASKS)%nat in
      match l !! next with
      | Some t => if is_state TASK_READY t then Some next else pick_next l cur (S n) f
      | None => pick_next l cur (S n) f
      end
  end.

Definition scheduler_on_timer_tick (st : sched) : sched :=
  match current_index st with
  | None => st
  | Some c =>
      match tasks st !! c with
      | None => st
      | Some t =>
          let st :=
            if is_state TASK_RUNNING t
            then with_slice (u32 (slice_ticks st + 1))
                   (with_tasks (alter (fun t => set_runtime_ticks (u32 (runtime_ticks t + 1)) t)
                                      c (tasks st)) st)
            else st in
          if tasks_used st <=? 1 then st
          else if slice_ticks st <? SCHED_TIMESLICE_TICKS then st
          else
            match pick_next (tasks st) c 1 (MAX_TASKS - 1) with
            | None => st
            | Some next =>
                let old_pid := ti_pid t in
                let new_pid := match tasks st !! next with Some t' => ti_pid t' | None => 0 end in
                let st := put_state c TASK_READY st in
                let st := put_state next TASK_RUNNING st in
                let st := with_current (Some next) st in
                let st := put_proc old_pid PROC_READY st in
                let st := put_proc new_pid PROC_RUNNING st in
                with_switches (u32 (switches st + 1)) (with_slice 0 st)
            end
      end
  end.

Definition task_current_pid (st : sched) : Z :=
  match current_index st with
  | None => -1
  | Some c => match tasks st !! c with Some t => ti_pid t | None => -1 end
  end.

Definition task_count (st : sched) : Z := tasks_used st.
Definition scheduler_switch_count (st : sched) : Z := switches st.

(** [task_list(target)]: the characters printed. *)
Definition task_list_line (st : sched) (i : nat) (t : task_info) : list Z :=
  if is_state TASK_UNUSED t then []
  else
    (if bool_decide (current_index st = Some i) then lit "*   " else lit "    ") ++
    console_print_u32_dec (u32 (ti_pid t)) ++ lit "    " ++
    (if ti_ppid t <? 0 then lit "-1" else console_print_u32_dec (u32 (ti_ppid t))) ++
    lit "   " ++ task_state_name (ti_state t) ++ lit " " ++
    proc_state_name (proc_state_of (sprocs st) (ti_pid t)) ++ lit "    " ++
    console_print_u32_dec (runtime_ticks t) ++ lit "    " ++
    cstr (ti_name t) ++ [10].

Definition task_list (st : sched) : list Z :=
  lit "CUR PID  PPID TSK PRC TICKS NAME" ++ [10] ++
  concat (imap (task_list_line st) (tasks st)).

(** ** Invariant *)

#[export] Instance task_table : Table task_info Z.
Proof.
  refine {| live t := negb (is_state TASK_UNUSED t);
            key := ti_pid;
            hit pid t := negb (is_state TASK_UNUSED t) && (ti_pid t =? pid) |}.
  intros k x. by rewrite andb_true_iff, Z.eqb_eq.
Defined.

Definition live_at (st : sched) (i : nat) : Prop :=
  exists t, tasks st !! i = Some t /\ ti_state t <> TASK_UNUSED.

(** The tables are well formed; slot 0 is the kernel's own task. *)
Record sched_wf (st : sched) : Prop := {
  sv_len : length (tasks st) = MAX_TASKS;
  sv_names : Forall (fun t => length (ti_name t) = 16%nat) (tasks st);
  sv_uniq : uniq_keys (tasks st);
  sv_pids : forall i t, tasks st !! i = Some t -> ti_state t <> TASK_UNUSED ->
              0 <= ti_pid t < next_pid (sprocs st);
  sv_kernel : exists t, tasks st !! 0%nat = Some t /\ ti_pid t = 0 /\
                ti_state t <> TASK_UNUSED /\ ti_state t <> TASK_ZOMBIE;
  sv_current : exists c, current_index st = Some c /\ live_at st c;
  sv_procs : proc_inv (sprocs st)
}.

(** The running task is the current one. *)
Definition only_current_runs (st : sched) : Prop :=
  forall i t, tasks st !! i = Some t -> ti_state t = TASK_RUNNING ->
    current_index st = Some i.

Definition sched_inv (st : sched) : Prop := sched_wf st /\ only_current_runs st.

Lemma live_task t : live t = true <-> ti_state t <> TASK_UNUSED.
Proof.
  cbn. unfold is_state. rewrite negb_true_iff, bool_decide_eq_false. done.
Qed.

(** Storing a live task with the same pid in a live slot. *)
Lemma put_task_wf st i t t' c :
  sched_wf st -> tasks st !! i = Some t -> ti_state t <> TASK_UNUSED ->
  ti_state t' <> TASK_UNUSED -> ti_pid t' = ti_pid t -> length (ti_name t') = 16%nat ->
  (i = 0%nat -> ti_state t' <> TASK_ZOMBIE) ->
  (c = current_index st \/ c = Some i) ->
  sched_wf (with_current c (with_tasks (<[i := t']> (tasks st)) st)).
Proof.
  intros [Hl Hn Hu Hp Hk Hc Hps] Hi Hlv Hlv' Hpid Hname Hz Hcur.
  pose proof (lookup_lt_Some _ _ _ Hi) as Hlt.
  constructor; cbn [tasks with_tasks with_current current_index sprocs].
  - by rewrite length_insert.
  - by apply Forall_insert.
  - apply uniq_insert; [done|]. apply (key_free_same _ _ t); try done.
    by apply live_task.
  - intros j u Hj Hlu. apply list_lookup_insert_Some in Hj as [(<- & <- & _)|[_ Hj]].
    + rewrite Hpid. by apply (Hp i).
    + by apply (Hp j).
  - destruct Hk as (k & Hk0 & Hk1 & Hk2 & Hk3).
    destruct (decide (i = 0%nat)) as [->|Hne].
    + exists t'. rewrite list_lookup_insert_eq by done. simplify_eq.
      split_and!; [done|congruence|done|by apply Hz].
    + exists k. by rewrite list_lookup_insert_ne.
  - destruct Hcur as [-> | ->].
    + destruct Hc as (c0 & Hc & u & Hu0 & Hu1). exists c0. split; [done|].
      unfold live_at. cbn [tasks with_tasks with_current].
      destruct (decide (i = c0)) as [->|Hne].
      * exists t'. by rewrite list_lookup_insert_eq.
      * exists u. by rewrite list_lookup_insert_ne.
    + exists i. split; [done|]. exists t'. cbn. by rewrite list_lookup_insert_eq.
  - done.
Qed.

Lemma with_current_same st : with_current (current_index st) st = st.
Proof. by destruct st. Qed.

Lemma put_state_wf st i t s :
  sched_wf st -> tasks st !! i = Some t -> ti_state t <> TASK_UNUSED ->
  s <> TASK_UNUSED -> (i = 0%nat -> s <> TASK_ZOMBIE) ->
  sched_wf (put_state i s st).
Proof.
  intros Hw Hi Hl Hs Hz. unfold put_state. rewrite (alter_known _ _ _ _ Hi).
  rewrite <- (with_current_same (with_tasks _ _)).
  apply (put_task_wf st i t); try done; [|by left].
  exact (Forall_lookup_1 _ _ _ _ (sv_names _ Hw) Hi).
Qed.

Lemma proc_set_state_inv ps pid s :
  proc_inv ps -> s <> PROC_UNUSED ->
  proc_inv (proc_set_state ps pid s) /\ next_pid (proc_set_state ps pid s) = next_pid ps.
Proof.
  intros Hi Hs. split.
  - by apply (proc_do_refines (PSetState pid s) ps _ RVoid).
  - unfold proc_set_state. by case_opt.
Qed.

Lemma put_proc_wf st pid s :
  sched_wf st -> s <> PROC_UNUSED -> sched_wf (put_proc pid s st).
Proof.
  intros [? ? ? Hp ? ? Hps] Hs.
  destruct (proc_set_state_inv _ pid s Hps Hs) as [Hi Hn].
  constructor; cbn; try done. rewrite Hn. done.
Qed.

Lemma find_task_inv st pid slot :
  task_find_slot_by_pid st pid = Some slot ->
  exists t, tasks st !! slot = Some t /\ ti_state t <> TASK_UNUSED /\ ti_pid t = pid.
Proof.
  intros Hf. change (first_slot (hit pid) (tasks st) = Some slot) in Hf.
  apply find_inv in Hf as (t & Ht & Hl & Hk). exists t.
  split_and!; [done|by apply live_task|done].
Qed.

Lemma find_kernel st : sched_wf st -> task_find_slot_by_pid st 0 = Some 0%nat.
Proof.
  intros Hw. destruct (sv_kernel _ Hw) as (t & Ht & Hp & Hl & _).
  change (first_slot (hit 0) (tasks st) = Some 0%nat).
  apply (find_Some _ _ _ t); [apply Hw|done|by apply live_task|done].
Qed.

Lemma is_state_true s t : is_state s t = true <-> ti_state t = s.
Proof. unfold is_state. apply bool_decide_eq_true. Qed.

Lemma is_state_false s t : is_state s t = false <-> ti_state t <> s.
Proof. unfold is_state. apply bool_decide_eq_false. Qed.

(** After the current task is demoted only the kept slot may be running. *)
Lemma demote_current_spec slot st :
  sched_inv st ->
  sched_wf (demote_current slot st) /\
  (forall i t, tasks (demote_current slot st) !! i = Some t ->
     ti_state t = TASK_RUNNING -> i = slot) /\
  current_index (demote_current slot st) = current_index st /\
  (forall i t, tasks st !! i = Some t -> exists t',
     tasks (demote_current slot st) !! i = Some t' /\
     (ti_state t <> TASK_UNUSED -> ti_state t' <> TASK_UNUSED) /\ ti_pid t' = ti_pid t /\
     (i = slot -> t' = t)).
Proof.
  intros [Hw Hr]. destruct (sv_current _ Hw) as (c & Hc & t & Ht & Hlt).
  unfold demote_current. rewrite Hc, Ht.
  destruct (negb (Nat.eqb c slot) && is_state TASK_RUNNING t) eqn:E.
  - apply andb_true_iff in E as [Hne%negb_true_iff%Nat.eqb_neq Hrun].
    split_and!; [| |done|].
    + apply (put_state_wf _ _ t); try done. by apply put_proc_wf.
    + intros i u Hi Hu. unfold put_state in Hi. cbn in Hi.
      rewrite (alter_known _ _ _ _ Ht) in Hi.
      apply list_lookup_insert_Some in Hi as [(<- & <- & _)|[Hci Hi]]; [done|].
      specialize (Hr i u Hi Hu). congruence.
    + intros i u Hi. unfold put_state. cbn. rewrite (alter_known _ _ _ _ Ht).
      destruct (decide (c = i)) as [<-|Hci].
      * exists (set_ti_state TASK_READY t). simplify_eq.
        rewrite list_lookup_insert_eq by (by eapply lookup_lt_Some). done.
      * exists u. by rewrite list_lookup_insert_ne.
  - split_and!; [done| |done|].
    + intros i u Hi Hu. specialize (Hr i u Hi Hu). simplify_eq.
      apply andb_false_iff in E as [E|E].
      * by apply negb_false_iff, Nat.eqb_eq in E.
      * by apply is_state_false in E.
    + intros i u Hi. by exists u.
Qed.

(** Making a live slot the running current task, once no other slot runs. *)
Lemma promote_inv st slot t :
  sched_wf st -> tasks st !! slot = Some t -> ti_state t <> TASK_UNUSED ->
  (forall i u, tasks st !! i = Some u -> ti_state u = TASK_RUNNING -> i = slot) ->
  sched_inv (with_current (Some slot) (put_state slot TASK_RUNNING st)).
Proof.
  intros Hw Ht Hl Hr. unfold put_state. rewrite (alter_known _ _ _ _ Ht). split.
  - apply (put_task_wf st slot t); try done; [|by right].
    exact (Forall_lookup_1 _ _ _ _ (sv_names _ Hw) Ht).
  - intros i u Hi Hu. cbn in *. apply list_lookup_insert_Some in Hi as [(<- & _)|[_ Hi]]; [done|].
    by rewrite (Hr i u Hi Hu).
Qed.

Lemma put_proc_inv st pid s :
  sched_inv st -> s <> PROC_UNUSED -> sched_inv (put_proc pid s st).
Proof. intros [Hw Hr] Hs. split; [by apply put_proc_wf|done]. Qed.

Lemma with_slice_inv st n : sched_inv st -> sched_inv (with_slice n st).
Proof. intros [[] Hr]. split; [|done]. by constructor. Qed.

Lemma with_switches_inv st n : sched_inv st -> sched_inv (with_switches n st).
Proof. intros [[] Hr]. split; [|done]. by constructor. Qed.

Lemma with_used_inv st n : sched_inv st -> sched_inv (with_used n st).
Proof. intros [[] Hr]. split; [|done]. by constructor. Qed.

(** ** Every operation preserves the invariant *)

(** The sequence [demote; current_index = slot; state = RUNNING] of
    [task_return_to_kernel_main] and of [task_set_state(.., TASK_RUNNING)]. *)
Lemma switch_to_inv st slot t :
  sched_inv st -> tasks st !! slot = Some t -> ti_state t <> TASK_UNUSED ->
  sched_inv (with_current (Some slot) (put_state slot TASK_RUNNING (demote_current slot st))).
Proof.
  intros Hi Ht Hl. destruct (demote_current_spec slot st Hi) as (Hw & Hr & _ & Hk).
  destruct (Hk _ _ Ht) as (t' & Ht' & Hl' & _ & _).
  apply (promote_inv _ _ t'); try done. by apply Hl'.
Qed.

Lemma return_to_kernel_inv st : sched_inv st -> sched_inv (task_return_to_kernel_main st).
Proof.
  intros Hi. unfold task_return_to_kernel_main. rewrite (find_kernel st) by apply Hi.
  destruct (sv_kernel _ (proj1 Hi)) as (t & Ht & _ & Hl & _).
  pose proof (switch_to_inv st 0 t Hi Ht Hl) as Hi'.
  change (put_state 0 TASK_RUNNING (with_current (Some 0%nat) (demote_current 0 st)))
    with (with_current (Some 0%nat) (put_state 0 TASK_RUNNING (demote_current 0 st))).
  apply with_slice_inv. case_opt; [|done]. by apply put_proc_inv.
Qed.

Lemma task_set_state_inv st pid s :
  sched_inv st -> s <> TASK_UNUSED -> (pid = 0 -> s <> TASK_ZOMBIE) ->
  sched_inv (task_set_state st pid s).
Proof.
  intros Hi Hs Hz. unfold task_set_state.
  destruct (task_find_slot_by_pid st pid) as [slot|] eqn:Hf; [|done].
  destruct (find_task_inv _ _ _ Hf) as (t & Ht & Hl & Hp).
  case_bool_decide as Hrun.
  - subst s. apply put_proc_inv; [|done].
    change (with_slice 0 (with_current (Some slot) (put_state slot TASK_RUNNING (demote_current slot st))))
      with (with_slice 0 ((with_current (Some slot) (put_state slot TASK_RUNNING (demote_current slot st))))).
    apply with_slice_inv. by apply (switch_to_inv st slot t).
  - destruct Hi as [Hw Hr]. split.
    + apply (put_state_wf _ _ t); try done. intros ->. apply Hz.
      destruct (sv_kernel _ Hw) as (k & Hk & Hkp & _). congruence.
    + intros i u Hiu Hu. unfold put_state in Hiu. cbn in Hiu.
      rewrite (alter_known _ _ _ _ Ht) in Hiu.
      apply list_lookup_insert_Some in Hiu as [(<- & <- & _)|[_ Hiu]]; [done|].
      by apply (Hr i u).
Qed.

Lemma task_reap_inv st pid :
  sched_inv st -> 0 < pid -> sched_inv (fst (task_reap_pid st pid)).
Proof.
  intros Hi Hpid. unfold task_reap_pid.
  destruct (task_find_slot_by_pid st pid) as [slot|] eqn:Hf; [|done].
  destruct (find_task_inv _ _ _ Hf) as (t & Ht & Hl & Hp).
  set (st1 := with_tasks (alter task_reset slot (tasks st)) st).
  set (st2 := if 0 <? tasks_used st1 then with_used (tasks_used st1 - 1) st1 else st1).
  assert (forall P : sched -> Prop, (forall n s, P s -> P (with_used n s)) -> P st1 -> P st2) as Hst2.
  { intros P HP H1. unfold st2. split_if; [by apply HP|done]. }
  assert (current_index st2 = current_index st) as Hcur.
  { unfold st2. by split_if. }
  assert (tasks st2 = <[slot := task_reset t]> (tasks st)) as Htasks.
  { unfold st2, st1. rewrite (alter_known _ _ _ _ Ht). by split_if. }
  assert (sprocs st2 = sprocs st) as Hprocs by (unfold st2; by split_if).
  destruct Hi as [[Hlen Hn Hu Hps Hk Hc Hpi] Hr].
  destruct Hk as (k & Hk0 & Hk1 & Hk2 & Hk3).
  assert (slot <> 0%nat) as Hs0 by (intros ->; simplify_eq; lia).
  (* what holds whether or not the reaped task was the current one *)
  assert (forall c, live_at st2 c -> sched_wf (with_current (Some c) st2)) as Hwf.
  { intros c Hcl. constructor; cbn [tasks with_current sprocs current_index]; rewrite ?Htasks, ?Hprocs.
    - by rewrite length_insert.
    - apply Forall_insert; [done|]. pose proof (Forall_lookup_1 _ _ _ _ Hn Ht) as Hnl.
      cbn in *. destruct (ti_name t); cbn in *; lia.
    - apply uniq_insert; [done|]. by apply key_free_dead.
    - intros i u Hiu Hlu. apply list_lookup_insert_Some in Hiu as [(<- & <- & _)|[_ Hiu]]; [done|].
      by apply (Hps i).
    - exists k. by rewrite list_lookup_insert_ne.
    - exists c. split; [done|]. exact Hcl.
    - done. }
  assert (forall i u, tasks st2 !! i = Some u -> ti_state u = TASK_RUNNING ->
            current_index st = Some i /\ i <> slot) as Hr2.
  { intros i u Hiu Hus. rewrite Htasks in Hiu.
    apply list_lookup_insert_Some in Hiu as [(<- & <- & _)|[Hne Hiu]]; [done|].
    split; [by apply (Hr i u)|done]. }
  destruct Hc as (c & Hc & u & Hcu & Hlu).
  rewrite Hcur, Hc. cbn [fst]. case_bool_decide as Hcs.
  - injection Hcs as ->.
    assert (task_find_slot_by_pid st2 0 = Some 0%nat) as Hfk.
    { change (first_slot (hit 0) (tasks st2) = Some 0%nat). rewrite Htasks.
      apply (find_Some _ _ _ k); [|by rewrite list_lookup_insert_ne|by apply live_task|done].
      apply uniq_insert; [done|]. by apply key_free_dead. }
    assert (tasks st2 !! 0%nat = Some k) as Hk2' by (by rewrite Htasks, list_lookup_insert_ne).
    unfold task_return_to_kernel_main. rewrite Hfk.
    assert (demote_current 0 st2 = st2) as ->.
    { unfold demote_current. rewrite Hcur, Hc, Htasks, list_lookup_insert_eq by (by eapply lookup_lt_Some).
      cbn. by rewrite andb_false_r. }
    apply with_slice_inv.
    assert (sched_inv (put_state 0 TASK_RUNNING (with_current (Some 0%nat) st2))) as Hi'.
    { apply (promote_inv (with_current (Some 0%nat) st2) 0 k); try done.
      - apply Hwf. by exists k.
      - intros i v Hiv Hvs. destruct (Hr2 i v Hiv Hvs). congruence. }
    case_opt; [|done]. by apply put_proc_inv.
  - assert (slot <> c) as Hne by congruence.
    rewrite <- (with_current_same st2), Hcur, Hc. split.
    + apply Hwf. exists u. rewrite Htasks. by rewrite list_lookup_insert_ne.
    + intros i v Hiv Hvs. destruct (Hr2 i v Hiv Hvs). cbn. congruence.
Qed.

Lemma task_alloc_inv st slot :
  task_alloc_slot st = Some slot ->
  exists t, tasks st !! slot = Some t /\ (ti_state t = TASK_UNUSED \/ ti_state t = TASK_ZOMBIE).
Proof.
  intros (t & Ht & Hs)%first_slot_lookup. exists t. split; [done|].
  apply orb_true_iff in Hs as [Hs|Hs]; apply is_state_true in Hs; auto.
Qed.

Lemma proc_spawn_inv ps name ppid ps' pid :
  proc_inv ps -> next_pid ps < INT_MAX -> proc_spawn_kernel ps name ppid = (ps', pid) ->
  proc_inv ps' /\ next_pid ps <= next_pid ps' /\
  (pid < 0 \/ pid = next_pid ps /\ next_pid ps' = pid + 1).
Proof.
  intros Hi Hn Hsp.
  assert (proc_do (PSpawn name ppid) ps = (ps', RPid pid)) as Hdo by (cbn; by rewrite Hsp).
  destruct (proc_do_refines (PSpawn name ppid) _ _ _ Hi Hn Hdo) as [Hi' _].
  destruct (proc_do_next_pid (PSpawn name ppid) _ _ _ Hi Hn Hdo) as [Hle Hr].
  split_and!; [done|done|]. by apply Hr.
Qed.

Lemma with_procs_inv st ps :
  sched_inv st -> proc_inv ps -> next_pid (sprocs st) <= next_pid ps ->
  sched_inv (with_procs ps st).
Proof.
  intros [[? ? ? Hp ? ? ?] Hr] Hi Hle. split; [|done]. constructor; cbn; try done.
  intros i t Ht Hl. specialize (Hp i t Ht Hl). lia.
Qed.

Lemma task_spawn_inv dflt st name ppid :
  sched_inv st -> next_pid (sprocs st) < INT_MAX ->
  sched_inv (fst (task_spawn dflt st name ppid)).
Proof.
  intros Hi Hn. unfold task_spawn.
  destruct (task_alloc_slot st) as [slot|] eqn:Ha; [|done].
  destruct (task_alloc_inv _ _ Ha) as (t & Ht & Hts).
  destruct (proc_spawn_kernel _ _ _) as [ps pid] eqn:Hsp.
  destruct (proc_spawn_inv _ _ _ _ _ (sv_procs _ (proj1 Hi)) Hn Hsp) as (Hpi & Hle & Hpid).
  destruct (pid <? 0) eqn:En; zify_bool; cbn [fst]; [by apply with_procs_inv|].
  destruct Hpid as [?|[-> Hnx]]; [lia|].
  destruct Hi as [[Hlen Hnm Hu Hps Hk Hc Hpr] Hr].
  destruct Hk as (k & Hk0 & Hk1 & Hk2 & Hk3).
  assert (slot <> 0%nat) as Hs0 by (intros ->; destruct Hts; congruence).
  apply with_used_inv. rewrite (alter_known _ _ _ _ Ht).
  set (t' := {| ti_pid := next_pid (sprocs st); ti_ppid := ppid; ti_state := TASK_READY;
                runtime_ticks := 0;
                ti_name := str_copy (ti_name t) (default dflt name) 16 |}).
  assert (forall j u, <[slot := t']> (tasks st) !! j = Some u ->
            u = t' /\ j = slot \/ j <> slot /\ tasks st !! j = Some u) as Hcase.
  { intros j u Hj. apply list_lookup_insert_Some in Hj as [(<- & <- & _)|[Hne Hj]]; auto. }
  split; [constructor; cbn [tasks with_procs with_tasks current_index sprocs]|].
  - by rewrite length_insert.
  - apply Forall_insert; [done|]. pose proof (Forall_lookup_1 _ _ _ _ Hnm Ht) as Hl. cbn in Hl.
    cbn. rewrite str_copy_length; lia.
  - apply uniq_insert; [done|]. apply key_free_fresh, entry_of_None, find_None.
    intros i u Hiu Hlu%live_task. specialize (Hps i u Hiu Hlu). cbn. lia.
  - intros j u [[-> ->]|[_ Hj]]%Hcase Hlu; [cbn; lia|].
    specialize (Hps j u Hj Hlu). lia.
  - exists k. by rewrite list_lookup_insert_ne.
  - destruct Hc as (c & Hc & u & Hcu & Hlu). exists c. split; [done|].
    unfold live_at. cbn [tasks with_procs with_tasks].
    destruct (decide (slot = c)) as [->|Hne].
    + exists t'. rewrite list_lookup_insert_eq by (by eapply lookup_lt_Some). done.
    + exists u. by rewrite list_lookup_insert_ne.
  - done.
  - intros j u [[-> ->]|[_ Hj]]%Hcase Hru; [done|]. by apply (Hr j u).
Qed.

Lemma pick_next_spec l cur n fuel next :
  pick_next l cur n fuel = Some next ->
  exists k t, (k < fuel)%nat /\ next = ((cur + (n + k)) `mod` MAX_TASKS)%nat /\
    l !! next = Some t /\ ti_state t = TASK_READY /\
    (forall j u, (j < k)%nat -> l !! ((cur + (n + j)) `mod` MAX_TASKS)%nat = Some u ->
       ti_state u <> TASK_READY).
Proof.
  revert n. induction fuel as [|f IH]; intros n H; cbn [pick_next] in H; [done|].
  assert (forall o, o = None \/ (exists t, o = Some t /\ is_state TASK_READY t = false) ->
            l !! ((cur + n) `mod` MAX_TASKS)%nat = o ->
            pick_next l cur (S n) f = Some next ->
            exists k t, (k < S f)%nat /\ next = ((cur + (n + k)) `mod` MAX_TASKS)%nat /\
              l !! next = Some t /\ ti_state t = TASK_READY /\
              (forall j u, (j < k)%nat -> l !! ((cur + (n + j)) `mod` MAX_TASKS)%nat = Some u ->
                 ti_state u <> TASK_READY)) as Hstep.
  { intros o Ho Hl (k & t & Hk & -> & Ht & Hs & Hmin)%IH. exists (S k), t.
    replace (n + S k)%nat with (S n + k)%nat by lia. split_and!; [lia|done..|].
    intros [|j] u Hj Hu.
    - rewrite Nat.add_0_r, Hl in Hu. destruct Ho as [->|(u' & -> & Hu')]; [done|].
      simplify_eq. by apply is_state_false in Hu'.
    - replace (n + S j)%nat with (S n + j)%nat in Hu by lia. apply (Hmin j); [lia|done]. }
  destruct (l !! ((cur + n) `mod` MAX_TASKS)%nat) as [t|] eqn:Ht; [|by apply (Hstep None); auto].
  destruct (is_state TASK_READY t) eqn:Er; [|apply (Hstep (Some t)); eauto].
  injection H as <-. exists 0%nat, t. rewrite Nat.add_0_r.
  split_and!; [lia|done|done|by apply is_state_true|lia].
Qed.

(** A READY slot other than the current one is always found. *)
Lemma pick_next_complete l cur n fuel k t :
  (k < fuel)%nat -> l !! ((cur + (n + k)) `mod` MAX_TASKS)%nat = Some t ->
  ti_state t = TASK_READY -> exists next, pick_next l cur n fuel = Some next.
Proof.
  revert n k. induction fuel as [|f IH]; intros n k Hk Ht Hs; [lia|]. cbn [pick_next].
  destruct k as [|k].
  - rewrite Nat.add_0_r in Ht. rewrite Ht.
    rewrite (proj2 (is_state_true _ _) Hs). eauto.
  - replace (n + S k)%nat with (S n + k)%nat in Ht by lia.
    destruct (l !! ((cur + n) `mod` MAX_TASKS)%nat) as [u|];
      [destruct (is_state TASK_READY u); [eauto|]|]; apply (IH (S n) k); done || lia.
Qed.

(** The accounting half of the tick leaves the invariant alone. *)
Lemma tick_account_inv st c t :
  sched_inv st -> tasks st !! c = Some t ->
  sched_inv (with_tasks (alter (fun t => set_runtime_ticks (u32 (runtime_ticks t + 1)) t) c (tasks st)) st).
Proof.
  intros [Hw Hr] Ht. rewrite (alter_known _ _ _ _ Ht).
  set (t' := set_runtime_ticks _ t).
  assert (forall j u, <[c := t']> (tasks st) !! j = Some u ->
            exists u', tasks st !! j = Some u' /\ ti_state u' = ti_state u) as Hcase.
  { intros j u Hj. apply list_lookup_insert_Some in Hj as [(<- & <- & _)|[Hne Hj]]; eauto. }
  split; [|intros j u (u' & Hu' & Hs)%Hcase Hru; apply (Hr j u'); congruence].
  destruct (decide (ti_state t = TASK_UNUSED)) as [Hun|Hl].
  - destruct Hw as [Hlen Hnm Hu Hps Hk Hc Hpr].
    destruct Hk as (k & Hk0 & Hk1 & Hk2 & Hk3). destruct Hc as (d & Hd & u & Hu0 & Hu1).
    constructor; cbn; try done.
    + by rewrite length_insert.
    + apply Forall_insert; [done|]. exact (Forall_lookup_1 _ _ _ _ Hnm Ht).
    + apply uniq_insert; [done|]. apply key_free_dead. cbn. unfold is_state. cbn.
      by rewrite bool_decide_true.
    + intros i v Hiv Hlv. apply list_lookup_insert_Some in Hiv as [(<- & <- & _)|[_ Hiv]]; [done|].
      by apply (Hps i).
    + exists k. rewrite list_lookup_insert_ne; [done|]. intros ->. congruence.
    + exists d. split; [done|]. exists u. cbn. rewrite list_lookup_insert_ne; [done|].
      intros ->. congruence.
  - rewrite <- (with_current_same (with_tasks _ _)).
    apply (put_task_wf st c t); try done; [|intros ->|by left].
    + exact (Forall_lookup_1 _ _ _ _ (sv_names _ Hw) Ht).
    + destruct (sv_kernel _ Hw) as (k & Hk & _ & _ & Hz). cbn. congruence.
Qed.

Lemma tick_inv st : sched_inv st -> sched_inv (scheduler_on_timer_tick st).
Proof.
  intros Hi. destruct (sv_current _ (proj1 Hi)) as (c & Hc & t & Ht & Hl).
  unfold scheduler_on_timer_tick. rewrite Hc, Ht.
  set (st1 := if is_state TASK_RUNNING t then _ else st).
  assert (sched_inv st1 /\ current_index st1 = Some c /\
          exists t1, tasks st1 !! c = Some t1 /\ ti_state t1 <> TASK_UNUSED) as (Hi1 & Hc1 & t1 & Ht1 & Hl1).
  { unfold st1. destruct (is_state TASK_RUNNING t); [|by split_and!; [..|exists t]].
    split_and!; [by apply with_slice_inv, (tick_account_inv st c t)|done|].
    cbn. rewrite (alter_known _ _ _ _ Ht). eexists.
    rewrite list_lookup_insert_eq by (by eapply lookup_lt_Some). done. }
  split_if; [done|]. split_if; [done|].
  destruct (pick_next _ _ _ _) as [next|] eqn:Hp; [|done].
  destruct (pick_next_spec _ _ _ _ _ Hp) as (k & tn & _ & _ & Hn & Hs & _).
  apply with_switches_inv, with_slice_inv.
  apply put_proc_inv; [|done]. apply put_proc_inv; [|done].
  assert (next <> c \/ next = c) as [Hne| ->] by lia; clear Hp.
  - apply (promote_inv (put_state c TASK_READY st1) next tn); try congruence.
    + apply (put_state_wf _ _ t1); try done. apply Hi1.
    + unfold put_state. cbn. rewrite (alter_known _ _ _ _ Ht1). by rewrite list_lookup_insert_ne.
    + intros i u Hiu Hu. unfold put_state in Hiu. cbn in Hiu. rewrite (alter_known _ _ _ _ Ht1) in Hiu.
      apply list_lookup_insert_Some in Hiu as [(<- & <- & _)|[Hci Hiu]]; [done|].
      pose proof (proj2 Hi1 i u Hiu Hu). congruence.
  - apply (promote_inv (put_state c TASK_READY st1) c (set_ti_state TASK_READY t1)); try done.
    + apply (put_state_wf _ _ t1); try done. apply Hi1.
    + unfold put_state. cbn. rewrite (alter_known _ _ _ _ Ht1).
      by rewrite list_lookup_insert_eq by (by eapply lookup_lt_Some).
    + intros i u Hiu Hu. unfold put_state in Hiu. cbn in Hiu. rewrite (alter_known _ _ _ _ Ht1) in Hiu.
      apply list_lookup_insert_Some in Hiu as [(<- & <- & _)|[Hci Hiu]]; [done|].
      pose proof (proj2 Hi1 i u Hiu Hu). congruence.
Qed.

(** ** The timer tick as a function on task states *)

Definition states (st : sched) : list task_state := map ti_state (tasks st).

Lemma states_lookup st i : states st !! i = ti_state <$> tasks st !! i.
Proof. apply list_lookup_fmap. Qed.

Lemma states_alter (f : task_info -> task_info) l i t :
  l !! i = Some t -> map ti_state (alter f i l) = <[i := ti_state (f t)]> (map ti_state l).
Proof. intros Ht. rewrite (alter_known _ _ _ _ Ht). apply list_fmap_insert. Qed.

Lemma states_put_state st i t s :
  tasks st !! i = Some t -> states (put_state i s st) = <[i := s]> (states st).
Proof. intros Ht. unfold states, put_state. cbn. by rewrite (states_alter _ _ _ t). Qed.

Lemma pick_next_ext l l' cur n fuel :
  map ti_state l = map ti_state l' -> pick_next l cur n fuel = pick_next l' cur n fuel.
Proof.
  intros Hm. revert n. induction fuel as [|f IH]; intros n; cbn [pick_next]; [done|].
  assert (ti_state <$> l !! ((cur + n) `mod` MAX_TASKS)%nat =
          ti_state <$> l' !! ((cur + n) `mod` MAX_TASKS)%nat) as Hl
    by (rewrite <- !list_lookup_fmap; exact (f_equal (fun x => x !! _) Hm)).
  rewrite (IH (S n)).
  destruct (l !! _), (l' !! _); cbn in Hl; try done.
  injection Hl as Hl. unfold is_state. by rewrite Hl.
Qed.

(** The three outcomes of a tick in a running kernel. *)
Inductive tick_outcome (st st' : sched) (c : nat) : Prop :=
  | tick_continue :
      (tasks_used st <= 1 \/ u32 (slice_ticks st + 1) < SCHED_TIMESLICE_TICKS \/
       pick_next (tasks st) c 1 (MAX_TASKS - 1) = None) ->
      states st' = states st -> current_index st' = Some c ->
      slice_ticks st' = u32 (slice_ticks st + 1) -> switches st' = switches st ->
      tick_outcome st st' c
  | tick_switch next :
      1 < tasks_used st -> SCHED_TIMESLICE_TICKS <= u32 (slice_ticks st + 1) ->
      pick_next (tasks st) c 1 (MAX_TASKS - 1) = Some next -> next <> c ->
      states st' = <[next := TASK_RUNNING]> (<[c := TASK_READY]> (states st)) ->
      current_index st' = Some next -> slice_ticks st' = 0 ->
      switches st' = u32 (switches st + 1) ->
      tick_outcome st st' c.

Lemma tick_outcome_spec st c t :
  current_index st = Some c -> tasks st !! c = Some t -> ti_state t = TASK_RUNNING ->
  tick_outcome st (scheduler_on_timer_tick st) c /\
  tasks_used (scheduler_on_timer_tick st) = tasks_used st.
Proof.
  intros Hc Ht Hr. unfold scheduler_on_timer_tick. rewrite Hc, Ht.
  rewrite (proj2 (is_state_true _ _) Hr).
  set (st1 := with_slice _ _).
  assert (states st1 = states st) as Hst1.
  { unfold st1, states. cbn. rewrite (states_alter _ _ _ t) by done. cbn.
    apply list_insert_id. by rewrite list_lookup_fmap, Ht. }
  rewrite (pick_next_ext (tasks st1) (tasks st)) by exact Hst1.
  change (tasks_used st1) with (tasks_used st).
  change (slice_ticks st1) with (u32 (slice_ticks st + 1)).
  destruct (tasks_used st <=? 1) eqn:E1; zify_bool.
  { split; [|done]. constructor; auto. }
  destruct (u32 (slice_ticks st + 1) <? SCHED_TIMESLICE_TICKS) eqn:E2; zify_bool.
  { split; [|done]. constructor; auto. }
  destruct (pick_next (tasks st) c 1 (MAX_TASKS - 1)) as [next|] eqn:Hp.
  2:{ split; [|done]. constructor; auto. }
  destruct (pick_next_spec _ _ _ _ _ Hp) as (k & tn & _ & _ & Hn & Hs & _).
  assert (next <> c) as Hne by congruence.
  assert (exists t1, tasks st1 !! c = Some t1) as (t1 & Ht1).
  { apply lookup_lt_is_Some. unfold st1. cbn. rewrite length_alter. by eapply lookup_lt_Some. }
  assert (tasks st1 !! next = Some tn) as Hn1.
  { unfold st1. cbn. rewrite (alter_known _ _ _ _ Ht). by rewrite list_lookup_insert_ne. }
  split; [|done].
  apply (tick_switch _ _ _ next); try done.
  change (states (put_state next TASK_RUNNING (put_state c TASK_READY st1)) =
    <[next := TASK_RUNNING]> (<[c := TASK_READY]> (states st))).
  assert (tasks (put_state c TASK_READY st1) !! next = Some tn) as Hn2.
  { unfold put_state. cbn [tasks with_tasks]. rewrite (alter_known _ _ _ _ Ht1).
    by rewrite list_lookup_insert_ne. }
  by rewrite (states_put_state _ next tn), (states_put_state _ c t1), Hst1.
Qed.

Fixpoint ticks (n : nat) (st : sched) : sched :=
  match n with
  | O => st
  | S n' => ticks n' (scheduler_on_timer_tick st)
  end.

Lemma ticks_add n m st : ticks (n + m) st = ticks m (ticks n st).
Proof. revert st. induction n as [|n IH]; intros st; [done|apply IH]. Qed.

(** [runs_at st c]: slot [c] is current and running, and the slice counter is
    below its wrap-around. *)
Record runs_at (st : sched) (c : nat) : Prop := {
  ra_len : length (tasks st) = MAX_TASKS;
  ra_cur : current_index st = Some c;
  ra_run : states st !! c = Some TASK_RUNNING;
  ra_used : 1 < tasks_used st;
  ra_slice : 0 <= slice_ticks st < 4294967295
}.

Lemma runs_at_task st c : runs_at st c ->
  exists t, tasks st !! c = Some t /\ ti_state t = TASK_RUNNING.
Proof.
  intros Hr. pose proof (ra_run _ _ Hr) as H. rewrite states_lookup in H.
  apply fmap_Some in H as (t & Ht & Hs). by exists t.
Qed.

Lemma states_length st : length (states st) = length (tasks st).
Proof. apply length_map. Qed.

(** The slot [k + 1] places after [c], in cyclic order. *)
Definition after (c k : nat) : nat := ((c + (1 + k)) `mod` MAX_TASKS)%nat.

(** One tick of a running kernel in which the [k0]-th slot after the current
    one is READY: it goes on, or it switches to the nearest READY slot. *)
Lemma tick_runs st c k0 :
  runs_at st c -> (k0 < MAX_TASKS - 1)%nat -> states st !! after c k0 = Some TASK_READY ->
  let st' := scheduler_on_timer_tick st in
  (slice_ticks st + 1 < SCHED_TIMESLICE_TICKS /\ runs_at st' c /\ states st' = states st /\
     slice_ticks st' = slice_ticks st + 1) \/
  (exists k, (k <= k0)%nat /\ runs_at st' (after c k) /\ after c k <> c /\
     states st' = (<[after c k := TASK_RUNNING]> (<[c := TASK_READY]> (states st)))).
Proof.
  intros Hr Hk0 Hs0 st'.
  destruct (runs_at_task _ _ Hr) as (t & Ht & Hs).
  destruct (tick_outcome_spec st c t (ra_cur _ _ Hr) Ht Hs) as [Ho Hu].
  pose proof (ra_slice _ _ Hr). pose proof (ra_used _ _ Hr).
  rewrite states_lookup in Hs0. apply fmap_Some in Hs0 as (t0 & Ht0 & Hs0). symmetry in Hs0.
  assert (length (tasks st') = MAX_TASKS) as Hlen.
  { rewrite <- states_length. destruct Ho as [_ Hst _ _ _|? _ _ _ _ Hst _ _ _];
      unfold st'; rewrite Hst, ?length_insert, states_length; apply Hr. }
  destruct Ho as [Hwhy Hst Hc Hsl' Hsw|next _ Hsl Hp Hne Hst Hc Hsl' Hsw].
  - left. rewrite u32_small in * by lia.
    destruct Hwhy as [?|[Hsl|Hp]]; [lia| |].
    + split_and!; [done| |done|done].
      constructor; [done|done| |unfold st'; lia|unfold st', SCHED_TIMESLICE_TICKS in *; lia].
      unfold st'. rewrite Hst. apply Hr.
    + destruct (pick_next_complete (tasks st) c 1 (MAX_TASKS - 1) k0 t0 Hk0 Ht0 Hs0). congruence.
  - right. destruct (pick_next_spec _ _ _ _ _ Hp) as (k & tn & Hk & -> & Hn & Hsn & Hmin).
    exists k. split_and!; [|constructor|done|done].
    + destruct (decide (k <= k0)%nat); [done|]. by destruct (Hmin k0 t0 ltac:(lia) Ht0).
    + done.
    + done.
    + unfold st'. rewrite Hst, list_lookup_insert_eq; [done|].
      rewrite length_insert, states_length. by eapply lookup_lt_Some.
    + unfold st'. lia.
    + unfold st'. lia.
Qed.

(** At most four ticks lead to the next switch. *)
Lemma ticks_until_switch m st c k0 :
  Z.of_nat m = Z.max 0 (3 - slice_ticks st) ->
  runs_at st c -> (k0 < MAX_TASKS - 1)%nat -> states st !! after c k0 = Some TASK_READY ->
  exists n k, (1 <= n <= S m)%nat /\ (k <= k0)%nat /\
    runs_at (ticks n st) (after c k) /\ after c k <> c /\
    states (ticks n st) = <[after c k := TASK_RUNNING]> (<[c := TASK_READY]> (states st)).
Proof.
  revert st. induction m as [|m IH]; intros st Hm Hr Hk0 Hs0;
    destruct (tick_runs st c k0 Hr Hk0 Hs0) as [(Hlt & Hr' & Hst & Hsl)|(k & Hk & Hfin)];
    try (exists 1%nat, k; split; [lia|]; split; [done|exact Hfin]).
  - unfold SCHED_TIMESLICE_TICKS in Hlt. lia.
  - rewrite <- Hst in Hs0.
    destruct (IH (scheduler_on_timer_tick st)) as (n & k & Hn & Hk & Hfin); [lia|done..|].
    exists (S n), k. rewrite Hst in Hfin. split; [lia|]. by split.
Qed.

Lemma after_after c k k0 :
  (c < MAX_TASKS)%nat -> (k < k0)%nat -> (k0 < MAX_TASKS - 1)%nat ->
  after (after c k) (k0 - k - 1) = after c k0.
Proof.
  intros Hc Hk Hk0. unfold after.
  rewrite Nat.Div0.add_mod_idemp_l. f_equal. lia.
Qed.

(** Round-robin fairness: a READY slot at cyclic distance [k0 + 1] runs after at
    most [4 * (k0 + 1)] ticks. *)
Lemma ticks_reach k0 st c :
  runs_at st c -> (k0 < MAX_TASKS - 1)%nat -> states st !! after c k0 = Some TASK_READY ->
  exists n, (n <= 4 * (k0 + 1))%nat /\ runs_at (ticks n st) (after c k0).
Proof.
  revert st c. induction k0 as [k0 IH] using lt_wf_ind; intros st c Hr Hk0 Hs0.
  pose proof (ra_slice _ _ Hr).
  destruct (ticks_until_switch (Z.to_nat (Z.max 0 (3 - slice_ticks st))) st c k0)
    as (n & k & Hn & Hk & Hr' & Hne & Hst); [lia|done..|].
  destruct (decide (k = k0)) as [->|Hkk]; [exists n; split; [lia|done]|].
  assert (c < MAX_TASKS)%nat as Hc.
  { destruct (runs_at_task _ _ Hr) as (t & Ht & _). apply lookup_lt_Some in Ht.
    by rewrite (ra_len _ _ Hr) in Ht. }
  assert (after (after c k) (k0 - k - 1) = after c k0) as Haf by (apply after_after; lia).
  destruct (IH (k0 - k - 1)%nat ltac:(lia) (ticks n st) (after c k)) as (n' & Hn' & Hr2);
    [done|lia| |].
  { rewrite Haf, Hst.
    assert (after c k <> after c k0) as H1.
    { unfold after. intros E. assert (c + (1 + k) < 2 * MAX_TASKS)%nat by (unfold MAX_TASKS in *; lia).
      revert E. unfold MAX_TASKS in *. clear -Hc Hk Hk0 Hkk. intros E.
      pose proof (Nat.div_mod_eq (c + (1 + k)) 32). pose proof (Nat.div_mod_eq (c + (1 + k0)) 32).
      lia. }
    assert (c <> after c k0) as H2.
    { unfold after, MAX_TASKS in *. clear -Hc Hk0. intros E.
      pose proof (Nat.div_mod_eq (c + (1 + k0)) 32). lia. }
    by rewrite !list_lookup_insert_ne. }
  exists (n + n')%nat. rewrite ticks_add. rewrite <- Haf. split; [lia|done].
Qed.

(** ** Runs of the scheduler *)

Inductive sched_op :=
  | SSpawnKernel (name : option (list Z)) (ppid : Z)
  | SSpawnUser (name : option (list Z)) (ppid : Z)
  | STick
  | SReturnToKernel
  | SSetState (pid : Z) (state : task_state)
  | SReap (pid : Z)
  | SProc (op : proc_op).

Definition sched_do (op : sched_op) (st : sched) : sched :=
  match op with
  | SSpawnKernel name ppid => fst (task_spawn_kernel st name ppid)
  | SSpawnUser name ppid => fst (task_spawn_user st name ppid)
  | STick => scheduler_on_timer_tick st
  | SReturnToKernel => task_return_to_kernel_main st
  | SSetState pid state => task_set_state st pid state
  | SReap pid => fst (task_reap_pid st pid)
  | SProc op => with_procs (fst (proc_do op (sprocs st))) st
  end.

(** What the callers respect: the kernel task is neither reaped nor made a
    zombie, UNUSED is never assigned, pids do not run out. *)
Definition sched_op_ok (op : sched_op) (st : sched) : Prop :=
  match op with
  | SSpawnKernel _ _ | SSpawnUser _ _ => next_pid (sprocs st) < INT_MAX
  | SSetState pid state => 0 < pid /\ state <> TASK_UNUSED
  | SReap pid => 0 < pid
  | SProc op => proc_op_ok op (sprocs st)
  | _ => True
  end.

Definition sched_boot (st0 : sched) : Prop :=
  length (tasks st0) = MAX_TASKS /\
  Forall (fun t => length (ti_name t) = 16%nat) (tasks st0) /\
  exists ps0, proc_boot ps0 /\ sprocs st0 = proc_init ps0.

Inductive sched_reach (st0 : sched) : sched -> Prop :=
  | sreach_init : sched_reach st0 (tasking_init st0)
  | sreach_step st op :
      sched_reach st0 st -> sched_op_ok op st -> sched_reach st0 (sched_do op st).

Lemma tasking_init_inv st0 : sched_boot st0 -> sched_inv (tasking_init st0).
Proof.
  intros (Hl & Hn & ps0 & Hb & Hps). unfold tasking_init.
  destruct (tasks st0) as [|t0 l] eqn:E; [done|].
  apply Forall_cons_iff in Hn as [Hn0 Hn].
  set (q := {| ti_pid := 0; ti_ppid := -1; ti_state := TASK_RUNNING; runtime_ticks := 0;
               ti_name := str_copy (ti_name (task_reset t0)) (lit "kmain") 16 |}).
  assert (forall i u, (q :: map task_reset l) !! i = Some u -> ti_state u <> TASK_UNUSED ->
            i = 0%nat /\ u = q) as Hq.
  { intros [|i] u Hi Hu; simplify_eq/=; [done|].
    rewrite list_lookup_fmap in Hi. apply fmap_Some in Hi as (? & _ & ->). done. }
  assert (forall t, length (ti_name t) = 16%nat -> length (ti_name (task_reset t)) = 16%nat) as Hr.
  { intros t Ht. cbn. destruct (ti_name t); cbn in *; lia. }
  set (st := {| tasks := q :: map task_reset l; tasks_used := 1; current_index := Some 0%nat;
                switches := 0; slice_ticks := 0; sprocs := sprocs st0 |}).
  match goal with |- sched_inv ?x => change x with st end.
  split; [constructor; cbn [tasks st current_index sprocs]|].
  - cbn [length] in *. by rewrite length_map.
  - constructor.
    + cbn [ti_name q]. rewrite str_copy_length; rewrite (Hr _ Hn0); lia.
    + apply Forall_map. revert Hn. by apply Forall_impl.
  - intros i j x y Hx Hy Hlx%live_task Hly%live_task _.
    apply Hq in Hx as [-> _]; [|done]. by apply Hq in Hy as [-> _].
  - intros i u Hu Hlu. apply Hq in Hu as [_ ->]; [|done]. cbn.
    rewrite Hps. pose proof (pv_next _ (proc_init_inv _ Hb)). lia.
  - by exists q.
  - exists 0%nat. split; [done|]. by exists q.
  - rewrite Hps. by apply proc_init_inv.
  - intros i u Hu Hru. apply Hq in Hu as [-> _]; [done|congruence].
Qed.

Lemma sched_do_inv op st : sched_inv st -> sched_op_ok op st -> sched_inv (sched_do op st).
Proof.
  intros Hi Hok. destruct op as [name ppid|name ppid| | |pid s|pid|op]; cbn in *.
  - by apply task_spawn_inv.
  - by apply task_spawn_inv.
  - by apply tick_inv.
  - by apply return_to_kernel_inv.
  - apply task_set_state_inv; [done|apply Hok|lia].
  - by apply task_reap_inv.
  - pose proof (sv_procs _ (proj1 Hi)) as Hp. destruct (proc_do op (sprocs st)) as [ps r] eqn:E.
    apply with_procs_inv; [done|..].
    + by apply (proc_do_refines op (sprocs st) ps r).
    + by apply (proc_do_next_pid op (sprocs st) ps r).
Qed.

Lemma sched_reach_inv st0 st : sched_boot st0 -> sched_reach st0 st -> sched_inv st.
Proof.
  intros Hb. induction 1; [by apply tasking_init_inv|by apply sched_do_inv].
Qed.

Lemma after_exists c i :
  (c < MAX_TASKS)%nat -> (i < MAX_TASKS)%nat -> i <> c ->
  exists k, (k < MAX_TASKS - 1)%nat /\ after c k = i.
Proof.
  unfold after, MAX_TASKS. intros Hc Hi Hne.
  exists ((i + 31 - c) `mod` 32)%nat.
  pose proof (Nat.div_mod_eq (i + 31 - c) 32). pose proof (Nat.mod_upper_bound (i + 31 - c) 32).
  pose proof (Nat.div_mod_eq (c + (1 + (i + 31 - c) `mod` 32)) 32).
  pose proof (Nat.mod_upper_bound (c + (1 + (i + 31 - c) `mod` 32)) 32). lia.
Qed.

(** The variables before boot used in the witnesses, and the state in which
    kmain has spawned its two shell tasks. *)
Definition sched_boot_zero : sched := {|
  tasks := replicate 32 {| ti_pid := 0; ti_ppid := 0; ti_state := TASK_UNUSED;
                           runtime_ticks := 0; ti_name := replicate 16 0 |};
  tasks_used := 0; current_index := None; switches := 0; slice_ticks := 0;
  sprocs := proc_init proc_boot_zero |}.

Lemma sched_boot_zero_ok : sched_boot sched_boot_zero.
Proof.
  split; [done|]. split; [by repeat constructor|].
  exists proc_boot_zero. split; [exact proc_boot_zero_ok|done].
Qed.

Definition kmain_tasks : sched :=
  sched_do (SSpawnKernel (Some (lit "shell-serial")) 0)
    (sched_do (SSpawnKernel (Some (lit "shell-vga")) 0) (tasking_init sched_boot_zero)).

Lemma kmain_tasks_reach : sched_reach sched_boot_zero kmain_tasks.
Proof. do 2 (apply sreach_step; [|vm_compute; done]). apply sreach_init. Qed.

(** ** Theorems *)

(** C17: in every state reachable by spawns, timer ticks, state changes, reaps,
    returns to the kernel and process-table operations, in any order, at most
    one task is RUNNING and it is the current one; the current index is always
    a live slot; live pids are pairwise distinct; slot 0 stays the kernel's. *)
Theorem sched_reachable_inv st0 st :
  sched_boot st0 -> sched_reach st0 st ->
  sched_wf st /\
  (forall i j t u, tasks st !! i = Some t -> tasks st !! j = Some u ->
     ti_state t = TASK_RUNNING -> ti_state u = TASK_RUNNING -> i = j) /\
  (forall i t, tasks st !! i = Some t -> ti_state t = TASK_RUNNING ->
     current_index st = Some i /\ task_current_pid st = ti_pid t).
Proof.
  intros Hb Hr. destruct (sched_reach_inv _ _ Hb Hr) as [Hw Ho].
  split_and!; [done| |].
  - intros i j t u Hi Hj Ht Hu. pose proof (Ho i t Hi Ht). pose proof (Ho j u Hj Hu). congruence.
  - intros i t Hi Ht. pose proof (Ho i t Hi Ht) as Hc. split; [done|].
    unfold task_current_pid. by rewrite Hc, Hi.
Qed.

Lemma sched_reachable_inv_witness :
  sched_wf (sched_do STick kmain_tasks) /\
  task_current_pid (sched_do STick kmain_tasks) = 0.
Proof.
  destruct (sched_reachable_inv sched_boot_zero (sched_do STick kmain_tasks)) as (H & _ & _).
  - exact sched_boot_zero_ok.
  - apply sreach_step; [exact kmain_tasks_reach|exact I].
  - split; [exact H|vm_compute; reflexivity].
Defined.



(** the tick, exactly. With a running current task [c], a tick keeps every
    task state and the current task, only counting the tick, unless more than
    one task is counted, the four-tick slice is over and some other task is
    READY; then it switches to the nearest READY task after [c] in cyclic
    order, [c] becomes READY, and the slice counter restarts. *)
Theorem tick_exact st c t :
  current_index st = Some c -> tasks st !! c = Some t -> ti_state t = TASK_RUNNING ->
  tick_outcome st (scheduler_on_timer_tick st) c /\
  (forall next, pick_next (tasks st) c 1 (MAX_TASKS - 1) = Some next ->
     exists k u, (k < 31)%nat /\ next = after c k /\
       tasks st !! next = Some u /\ ti_state u = TASK_READY /\
       forall j v, (j < k)%nat -> tasks st !! after c j = Some v -> ti_state v <> TASK_READY).
Proof.
  intros Hc Ht Hr. split; [by apply (tick_outcome_spec st c t)|].
  intros next Hp. apply (pick_next_spec _ _ _ _ _ Hp).
Qed.

Lemma tick_exact_witness :
  tick_outcome (ticks 3 kmain_tasks) (scheduler_on_timer_tick (ticks 3 kmain_tasks)) 0 /\
  task_current_pid (ticks 4 kmain_tasks) = 1.
Proof.
  split; [|vm_compute; reflexivity].
  refine (proj1 (tick_exact (ticks 3 kmain_tasks) 0
    (default (task_reset (hd (task_reset {| ti_pid := 0; ti_ppid := 0; ti_state := TASK_UNUSED;
        runtime_ticks := 0; ti_name := [] |}) [])) (tasks (ticks 3 kmain_tasks) !! 0%nat)) _ _ _)).
  - vm_compute. reflexivity.
  - vm_compute. reflexivity.
  - vm_compute. reflexivity.
Defined.

(** the live-task counter drifts. A zombie slot that has not been reaped is
    handed out again by the next spawn, which still increments [tasks_used]:
    in a reachable state the counter exceeds the number of live slots. *)
Theorem tasks_used_overcounts :
  exists st, sched_reach sched_boot_zero st /\
    tasks_used st = 3 /\ count_if live (tasks st) = 2.
Proof.
  exists (sched_do (SSpawnUser None 0)
           (sched_do (SSetState 1 TASK_ZOMBIE)
             (sched_do (SSpawnUser None 0) (tasking_init sched_boot_zero)))).
  split; [|split; vm_compute; reflexivity].
  do 3 (apply sreach_step; [|vm_compute; done]). apply sreach_init.
Qed.
