(* ===== verification/Iface.v ===== *)
(** * Iface: what the components promise to one another

    The services, the ELF loader and the message queues do not look into the
    process table: they call [proc_state_of], [proc_get_image],
    [proc_bind_image], [proc_set_state] and [task_set_state].  [ProcOps] names
    these calls, [ProcLaws] states what their callers rely on, and the
    instances discharge the laws for the process table of Proc.v and for the
    scheduler of Sched.v, which contains that table. *)
From S2P Require Import Prelude KernelH Util Proc Sched.
Local Open Scope Z_scope.

Class ProcOps (S : Type) := {
  state_of : S -> Z -> proc_state;
  image_of : S -> Z -> option proc_image;
  bind_image : S -> Z -> proc_image -> S * bool;
  set_pstate : S -> Z -> proc_state -> S
}.

Class ProcLaws (S : Type) `{ProcOps S} := {
  ok : S -> Prop;
  image_live s pid : ok s -> is_Some (image_of s pid) <-> state_of s pid <> PROC_UNUSED;
  bind_ok s pid i : ok s -> ok (fst (bind_image s pid i));
  bind_result s pid i :
    ok s -> snd (bind_image s pid i) = bool_decide (state_of s pid <> PROC_UNUSED);
  bind_state s pid i q : ok s -> state_of (fst (bind_image s pid i)) q = state_of s q;
  bind_image_of s pid i q :
    ok s -> state_of s pid <> PROC_UNUSED ->
    image_of (fst (bind_image s pid i)) q = if decide (q = pid) then Some i else image_of s q;
  set_ok s pid st : ok s -> st <> PROC_UNUSED -> ok (set_pstate s pid st);
  set_state s pid st q :
    ok s -> st <> PROC_UNUSED -> state_of s pid <> PROC_UNUSED ->
    state_of (set_pstate s pid st) q = if decide (q = pid) then st else state_of s q;
  set_image s pid st q :
    ok s -> st <> PROC_UNUSED -> image_of (set_pstate s pid st) q = image_of s q
}.

#[export] Instance proc_st_ops : ProcOps proc_st := {
  state_of := proc_state_of;
  image_of := proc_get_image;
  bind_image := proc_bind_image;
  set_pstate := proc_set_state
}.

Section proc_st_laws.
Implicit Types (ps : proc_st).

Lemma proc_state_of_map ps pid :
  proc_state_of ps pid = from_option pi_state PROC_UNUSED (proc_map ps !! pid).
Proof.
  unfold proc_state_of. destruct (find_slot_by_pid ps pid) as [slot|] eqn:Hf.
  - apply find_slot_inv in Hf as (p & Hp & _ & _ & ->). by rewrite Hp.
  - apply find_slot_none in Hf. by rewrite Hf.
Qed.

Lemma find_slot_live ps pid :
  is_Some (find_slot_by_pid ps pid) <-> proc_state_of ps pid <> PROC_UNUSED.
Proof.
  unfold proc_state_of. split.
  - intros [slot Hf]. rewrite Hf. apply find_slot_inv in Hf as (p & -> & Hl & _).
    cbn in Hl. by destruct (pi_state p).
  - by destruct (find_slot_by_pid ps pid) as [slot|].
Qed.

Lemma find_slot_bind ps pid i q :
  find_slot_by_pid (fst (proc_bind_image ps pid i)) q = find_slot_by_pid ps q.
Proof. unfold proc_bind_image. by destruct (find_slot_by_pid ps pid). Qed.

(** An entry that stays alive under its pid is found as before. *)
Lemma find_slot_put ps im n np slot p y q :
  procs ps !! slot = Some p -> live p = true -> live y = true -> pi_pid y = pi_pid p ->
  find_slot_by_pid {| procs := <[slot := y]> (procs ps); images := im; used := n; next_pid := np |} q =
  find_slot_by_pid ps q.
Proof.
  intros Hp Hl Hy Hk. unfold find_slot_by_pid. cbn [procs]. cbn in Hl, Hy.
  revert slot Hp. induction (procs ps) as [|x l IH]; intros [|slot] Hp; simplify_eq/=.
  - by rewrite Hl, Hy, Hk.
  - by rewrite (IH slot).
Qed.

Lemma find_slot_set ps pid st q :
  st <> PROC_UNUSED -> find_slot_by_pid (proc_set_state ps pid st) q = find_slot_by_pid ps q.
Proof.
  intros Hst. unfold proc_set_state. destruct (find_slot_by_pid ps pid) as [slot|] eqn:Hf; [|done].
  apply find_slot_inv in Hf as (p & Hp & Hl & _). rewrite (alter_known _ _ _ _ Hp).
  apply (find_slot_put _ _ _ _ _ p); try done. cbn. by rewrite bool_decide_false.
Qed.

Lemma find_slot_exit ps pid code q :
  find_slot_by_pid (fst (proc_exit ps pid code)) q = find_slot_by_pid ps q.
Proof.
  unfold proc_exit. destruct (find_slot_by_pid ps pid) as [slot|] eqn:Hf; [|done].
  apply find_slot_inv in Hf as (p & Hp & Hl & _). rewrite (alter_known _ _ _ _ Hp).
  by apply (find_slot_put _ _ _ _ _ p).
Qed.

(** Two pids that are found in the same slot are the same pid. *)
Lemma find_slot_inj ps pid q slot :
  find_slot_by_pid ps pid = Some slot -> find_slot_by_pid ps q = Some slot -> pid = q.
Proof.
  intros (p & Hp & _ & <- & _)%find_slot_inv (p' & Hp' & _ & <- & _)%find_slot_inv. congruence.
Qed.

#[export] Instance proc_st_laws : ProcLaws proc_st.
Proof.
  refine {| ok := proc_inv |}; cbn [state_of image_of bind_image set_pstate proc_st_ops].
  - intros ps pid Hi. rewrite <- find_slot_live. unfold proc_get_image.
    destruct (find_slot_by_pid ps pid) as [slot|] eqn:Hf; cbn; [|done].
    split; [by eexists|]. intros _. apply lookup_lt_is_Some.
    apply find_slot_inv in Hf as (p & Hp & _). apply lookup_lt_Some in Hp.
    destruct Hi. lia.
  - intros ps pid i Hi. destruct (proc_bind_image ps pid i) eqn:E.
    eapply (proc_do_refines (PBind pid i)); [done|done|cbn; by rewrite E].
  - intros ps pid i _. pose proof (find_slot_live ps pid) as Hl. unfold proc_bind_image.
    destruct (find_slot_by_pid ps pid) as [slot|]; cbn; symmetry.
    + apply bool_decide_true, Hl. by eexists.
    + apply bool_decide_false. intros Hn%Hl. by destruct Hn.
  - intros ps pid i q _. unfold proc_state_of. rewrite find_slot_bind.
    unfold proc_bind_image. by destruct (find_slot_by_pid ps pid).
  - intros ps pid i q Hi [slot Hf]%find_slot_live. unfold proc_get_image.
    rewrite find_slot_bind. unfold proc_bind_image. rewrite Hf. cbn [fst images].
    assert (slot < length (images ps))%nat as Hlt.
    { apply find_slot_inv in Hf as (p & Hp & _). apply lookup_lt_Some in Hp. destruct Hi. lia. }
    destruct (decide (q = pid)) as [-> |Hne].
    + rewrite Hf. cbn. by apply list_lookup_insert_eq.
    + destruct (find_slot_by_pid ps q) as [slot'|] eqn:Hq; cbn; [|done].
      apply list_lookup_insert_ne. intros ->. apply Hne. by apply (find_slot_inj ps q pid slot').
  - intros ps pid st Hi Hst. by apply (proc_do_refines (PSetState pid st) ps _ RVoid).
  - intros ps pid st q Hi Hst [slot Hf]%find_slot_live. unfold proc_state_of.
    rewrite find_slot_set by done. unfold proc_set_state. rewrite Hf. cbn [procs].
    apply find_slot_inv in Hf as Hf'. destruct Hf' as (p & Hp & _).
    rewrite (alter_known _ _ _ _ Hp). pose proof (lookup_lt_Some _ _ _ Hp) as Hlt.
    destruct (decide (q = pid)) as [-> |Hne].
    + rewrite Hf. by rewrite list_lookup_insert_eq.
    + destruct (find_slot_by_pid ps q) as [slot'|] eqn:Hq; [|done].
      rewrite list_lookup_insert_ne; [done|]. intros ->. apply Hne. by apply (find_slot_inj ps q pid slot').
  - intros ps pid st q Hi Hst. unfold proc_get_image. rewrite find_slot_set by done.
    unfold proc_set_state. by destruct (find_slot_by_pid ps pid).
Defined.

End proc_st_laws.
