(* ===== verification/Service.v ===== *)
(** * Service: the name service of [src/kernel/service.c]

    Names are registered for pids in a table of sixteen slots.  A lookup skips
    and frees the slots whose process no longer exists, so what the table
    means depends on the process table: [svc_view] is the map from names to
    live pids that a lookup can observe. *)
From S2P Require Import Prelude KernelH Util Proc Iface.
Local Open Scope Z_scope.

Definition MAX_SERVICES : nat := 16.
Definition SERVICE_NAME_MAX : Z := 15.

Record service_entry := {
  svc_used : bool;
  svc_pid : Z;
  svc_name : list Z
}.

(** [used = 0; pid = -1; name[0] = 0]. *)
Definition service_clear (e : service_entry) : service_entry :=
  {| svc_used := false; svc_pid := -1; svc_name := 0 :: tl (svc_name e) |}.

Definition service_init (sv : list service_entry) : list service_entry :=
  map service_clear sv.

(** The character test of the loop over the name. *)
Definition name_char_ok (c : Z) : bool :=
  ((97 <=? c) && (c <=? 122)) || ((65 <=? c) && (c <=? 90)) ||
  ((48 <=? c) && (c <=? 57)) || (c =? 45) || (c =? 95).

(** [for (i = 0; name[i] != 0; ++i) ...]: [false] is the early [return 0]. *)
Fixpoint name_ok (name : list Z) (i : Z) : bool :=
  match name with
  | [] => true
  | c :: name' =>
      if c =? 0 then true
      else if SERVICE_NAME_MAX <=? i then false
      else if negb (name_char_ok c) then false
      else name_ok name' (i + 1)
  end.

(** The scan of [service_register]: the slot that already has the name, which
    is returned as soon as it is met, or else the first free slot. *)
Fixpoint register_scan (sv : list service_entry) (name : list Z) (i : nat)
    (free_slot : option nat) : nat + option nat :=
  match sv with
  | [] => inr free_slot
  | e :: sv' =>
      if svc_used e
      then if str_eq (svc_name e) name then inl i
           else register_scan sv' name (S i) free_slot
      else register_scan sv' name (S i)
             (match free_slot with None => Some i | Some _ => free_slot end)
  end.

Section service.
Context {P : Type} `{ProcOps P}.

Definition service_register (ps : P) (sv : list service_entry) (name : option (list Z)) (pid : Z)
    : list service_entry * bool :=
  match name with
  | None => (sv, false)
  | Some name =>
      if (chr name =? 0) || (pid <? 0) || bool_decide (state_of ps pid = PROC_UNUSED)
      then (sv, false)
      else if negb (name_ok name 0) then (sv, false)
      else match register_scan sv name 0 None with
           | inl i =>
               (alter (fun e => {| svc_used := svc_used e; svc_pid := pid;
                                   svc_name := svc_name e |}) i sv, true)
           | inr None => (sv, false)
           | inr (Some i) =>
               (alter (fun e => {| svc_used := true; svc_pid := pid;
                                   svc_name := str_copy (svc_name e) name (SERVICE_NAME_MAX + 1) |})
                      i sv, true)
           end
  end.

(** The loop of [service_lookup]: the table it leaves and the pid. *)
Fixpoint lookup_scan (ps : P) (sv : list service_entry) (name : list Z)
    : list service_entry * Z :=
  match sv with
  | [] => ([], -1)
  | e :: sv' =>
      if negb (svc_used e) then
        let '(r, v) := lookup_scan ps sv' name in (e :: r, v)
      else if bool_decide (state_of ps (svc_pid e) = PROC_UNUSED) then
        let '(r, v) := lookup_scan ps sv' name in (service_clear e :: r, v)
      else if str_eq (svc_name e) name then (e :: sv', svc_pid e)
      else let '(r, v) := lookup_scan ps sv' name in (e :: r, v)
  end.

Definition service_lookup (ps : P) (sv : list service_entry) (name : option (list Z))
    : list service_entry * Z :=
  match name with
  | None => (sv, -1)
  | Some name => if chr name =? 0 then (sv, -1) else lookup_scan ps sv name
  end.

End service.

(** ** The table as a map *)

#[export] Instance service_table : Table service_entry (list Z).
Proof.
  refine {| live := svc_used; key e := cstr (svc_name e);
            hit k e := svc_used e && bool_decide (cstr (svc_name e) = k) |}.
  intros k x. by rewrite andb_true_iff, bool_decide_eq_true.
Defined.

Definition svc_map (sv : list service_entry) : gmap (list Z) service_entry := table_map sv.

Record svc_inv (sv : list service_entry) : Prop := {
  si_len : length sv = MAX_SERVICES;
  si_uniq : uniq_keys sv;
  si_names : Forall (fun e => length (svc_name e) = 16%nat) sv;
  si_valid : forall i e, sv !! i = Some e -> svc_used e = true ->
    cstr (svc_name e) <> [] /\ name_ok (svc_name e) 0 = true /\ 0 <= svc_pid e
}.

Lemma name_ok_spec name i :
  0 <= i ->
  name_ok name i = true <->
  Forall (fun c => name_char_ok c = true) (cstr name) /\
  (cstr name = [] \/ i + str_len name <= SERVICE_NAME_MAX).
Proof.
  revert i. induction name as [|c name IH]; intros i Hi; cbn [name_ok cstr str_len].
  { split; [intros _; split; [constructor|by left]|done]. }
  destruct (c =? 0); zify_bool.
  { split; [intros _; split; [constructor|by left]|done]. }
  pose proof (str_len_spec name) as Hl.
  destruct (SERVICE_NAME_MAX <=? i) eqn:E; zify_bool.
  { split; [done|]. intros [_ [?|?]]; [done|]. lia. }
  destruct (name_char_ok c) eqn:Ec; cbn [negb].
  - rewrite IH by lia. rewrite Forall_cons_iff. split.
    + intros [? [Hn|?]]; (split; [done|]); right; [rewrite Hl, Hn; cbn|]; lia.
    + intros [[_ ?] [?|?]]; [done|]. split; [done|]. right. lia.
  - split; [done|]. intros [Hf _]. apply Forall_cons_iff in Hf as [? _]. congruence.
Qed.

Lemma name_ok_len name : name_ok name 0 = true -> str_len name <= SERVICE_NAME_MAX.
Proof.
  intros [_ [Hn|?]]%name_ok_spec; [|lia|lia].
  rewrite str_len_spec, Hn. unfold SERVICE_NAME_MAX. cbn. lia.
Qed.

Lemma name_ok_ext a b : cstr a = cstr b -> name_ok a 0 = name_ok b 0.
Proof.
  intros Hab. apply eq_true_iff_eq. rewrite !name_ok_spec by done.
  by rewrite !str_len_spec, Hab.
Qed.

(** What the register scan finds. *)
Lemma register_scan_spec sv name i free :
  match register_scan sv name i free with
  | inl j => exists k e, j = (i + k)%nat /\ sv !! k = Some e /\ svc_used e = true /\
               cstr (svc_name e) = cstr name
  | inr r => (forall k e, sv !! k = Some e -> svc_used e = true ->
                cstr (svc_name e) <> cstr name) /\
             (r = match free with
                  | Some f => Some f
                  | None => Nat.add i <$> first_slot (fun e => negb (svc_used e)) sv
                  end)
  end.
Proof.
  revert i free. induction sv as [|e sv IH]; intros i free; cbn.
  { split; [done|]. by destruct free. }
  destruct (svc_used e) eqn:Eu; cbn [negb].
  - destruct (str_eq (svc_name e) name) eqn:Es.
    + exists 0%nat, e. rewrite Nat.add_0_r. by apply str_eq_spec in Es.
    + specialize (IH (S i) free). destruct (register_scan sv name (S i) free) as [j|r].
      * destruct IH as (k & e' & -> & ? & ? & ?). exists (S k), e'. split; [lia|done].
      * destruct IH as [Hn ->]. split.
        -- intros [|k] e' Hk Hu; cbn in Hk; [|by apply (Hn k)].
           injection Hk as <-. intros Hc%str_eq_spec. congruence.
        -- destruct free; [done|]. destruct (first_slot _ sv); cbn; [|done]. f_equal. lia.
  - specialize (IH (S i) (match free with None => Some i | Some _ => free end)).
    destruct (register_scan sv name (S i) _) as [j|r].
    + destruct IH as (k & e' & -> & ? & ? & ?). exists (S k), e'. split; [lia|done].
    + destruct IH as [Hn ->]. split.
      * intros [|k] e' Hk Hu; cbn in Hk; [congruence|by apply (Hn k)].
      * destruct free; cbn; [done|]. f_equal. lia.
Qed.

Section service_lemmas.
Context {P : Type} `{ProcOps P}.
Implicit Types (ps : P) (sv : list service_entry).

(** The pid that a lookup of [name] may answer: registered and alive. *)
Definition svc_view ps sv (name : list Z) : option Z :=
  e ← svc_map sv !! cstr name;
  if bool_decide (state_of ps (svc_pid e) = PROC_UNUSED) then None else Some (svc_pid e).

Lemma svc_map_lookup sv k : svc_map sv !! k = entry_of sv k.
Proof. apply table_map_lookup. Qed.

Lemma svc_map_Some sv k e :
  svc_inv sv ->
  svc_map sv !! k = Some e <-> exists i, sv !! i = Some e /\ svc_used e = true /\ cstr (svc_name e) = k.
Proof. intros Hi. rewrite svc_map_lookup. exact (entry_of_Some sv k e (si_uniq _ Hi)). Qed.

(** The purge of one lookup, as a relation on slots. *)
Lemma lookup_scan_slots ps sv name :
  Forall2 (fun e e' => e' = e \/
             (e' = service_clear e /\ svc_used e = true /\ state_of ps (svc_pid e) = PROC_UNUSED))
          sv (fst (lookup_scan ps sv name)).
Proof.
  induction sv as [|e sv IH]; cbn; [constructor|].
  destruct (svc_used e) eqn:Eu; cbn [negb].
  - case_bool_decide as Hs.
    + destruct (lookup_scan ps sv name). constructor; [by right|done].
    + destruct (str_eq _ _).
      * constructor; [by left|]. clear. induction sv; constructor; [by left|done].
      * destruct (lookup_scan ps sv name). constructor; [by left|done].
  - destruct (lookup_scan ps sv name). constructor; [by left|done].
Qed.

Lemma service_clear_inv sv sv' ps :
  svc_inv sv ->
  Forall2 (fun e e' => e' = e \/
             (e' = service_clear e /\ svc_used e = true /\ state_of ps (svc_pid e) = PROC_UNUSED))
          sv sv' ->
  svc_inv sv'.
Proof.
  intros [Hl Hu Hn Hv] Hf.
  assert (forall i e', sv' !! i = Some e' -> svc_used e' = true -> sv !! i = Some e') as Hback.
  { intros i e' Hi Hlive. destruct (Forall2_lookup_r _ _ _ _ _ Hf Hi) as (e & He & [-> |(-> & _ & _)]); done. }
  constructor.
  - apply Forall2_length in Hf. lia.
  - intros i j x y Hx Hy Hlx Hly. apply (Hu i j x y); eauto.
  - apply Forall_lookup_2. intros i e' Hi.
    destruct (Forall2_lookup_r _ _ _ _ _ Hf Hi) as (e & He & Hc).
    pose proof (Forall_lookup_1 _ _ _ _ Hn He) as Hlen. cbn in Hlen.
    destruct Hc as [-> |(-> & _ & _)]; [done|]. cbn. by destruct (svc_name e).
  - intros i e Hi Hlive. apply (Hv i); eauto.
Qed.

(** Freeing dead slots does not change the view. *)
Lemma purge_view sv sv' ps name :
  svc_inv sv ->
  Forall2 (fun e e' => e' = e \/
             (e' = service_clear e /\ svc_used e = true /\ state_of ps (svc_pid e) = PROC_UNUSED))
          sv sv' ->
  svc_view ps sv' name = svc_view ps sv name.
Proof.
  intros Hi Hf. pose proof (service_clear_inv _ _ _ Hi Hf) as Hi'.
  unfold svc_view. destruct (svc_map sv' !! cstr name) as [e|] eqn:E'; cbn.
  - apply svc_map_Some in E' as (i & He & Hu & Hk); [|done].
    assert (svc_map sv !! cstr name = Some e) as ->; [|done].
    apply svc_map_Some; [done|]. exists i.
    destruct (Forall2_lookup_r _ _ _ _ _ Hf He) as (e0 & He0 & [-> |(-> & _ & _)]); done.
  - destruct (svc_map sv !! cstr name) as [e|] eqn:E; cbn; [|done].
    apply svc_map_Some in E as (i & He & Hu & Hk); [|done].
    destruct (Forall2_lookup_l _ _ _ _ _ Hf He) as (e' & He' & [-> |(_ & _ & Hd)]).
    + assert (svc_map sv' !! cstr name = Some e) as Hs.
      { apply svc_map_Some; [done|]. by exists i. }
      congruence.
    + by rewrite bool_decide_true.
Qed.

Lemma lookup_scan_result ps sv name :
  svc_inv sv ->
  snd (lookup_scan ps sv name) = default (-1) (svc_view ps sv name).
Proof.
  intros [_ Hu _ _]. unfold svc_view. rewrite svc_map_lookup. revert Hu.
  induction sv as [|e sv IH]; intros Hu; [done|].
  rewrite entry_of_cons. cbn [lookup_scan hit service_table].
  assert (uniq_keys sv) as Hu'.
  { intros i j x y Hi Hj Hx Hy Hk. specialize (Hu (S i) (S j) x y Hi Hj Hx Hy Hk). lia. }
  specialize (IH Hu').
  destruct (svc_used e) eqn:Eu; cbn [negb andb].
  - destruct (decide (cstr (svc_name e) = cstr name)) as [En|En].
    + rewrite str_eq_cstr, (bool_decide_true (cstr _ = _)) by done. cbn [mbind option_bind]. case_bool_decide as Hs; cbn; [|done].
      destruct (lookup_scan ps sv name) as [r v]. cbn in *. rewrite IH.
      destruct (entry_of sv (cstr name)) as [e'|] eqn:Ee; [|done].
      apply entry_of_Some in Ee as (i & Hi & Hl & Hk); [|done].
      exfalso. specialize (Hu 0%nat (S i) e e' eq_refl Hi Eu Hl).
      cbn [key service_table] in *. rewrite En, Hk in Hu. by specialize (Hu eq_refl).
    + rewrite str_eq_cstr, (bool_decide_false (cstr _ = _)) by done.
      case_bool_decide; destruct (lookup_scan ps sv name); done.
  - by destruct (lookup_scan ps sv name).
Qed.

(** Registration writes one slot. *)
Lemma svc_put sv i x y :
  svc_inv sv -> sv !! i = Some x -> key_free_but sv i y -> svc_used y = true ->
  cstr (svc_name y) <> [] -> name_ok (svc_name y) 0 = true -> 0 <= svc_pid y ->
  length (svc_name y) = 16%nat -> (svc_used x = true -> cstr (svc_name x) = cstr (svc_name y)) ->
  svc_inv (<[i := y]> sv) /\ svc_map (<[i := y]> sv) = <[cstr (svc_name y) := y]> (svc_map sv).
Proof.
  intros [Hl Hu Hn Hv] Hx Hf Hy ? ? ? ? Hk. split.
  - constructor.
    + by rewrite length_insert.
    + by apply uniq_insert.
    + by apply Forall_insert.
    + intros j e Hj He. apply list_lookup_insert_Some in Hj as [(<- & <- & _)|[_ Hj]]; [done|].
      by apply (Hv j).
  - unfold svc_map. rewrite (table_map_insert _ _ x) by done.
    cbn [live key service_table]. rewrite Hy.
    destruct (svc_used x); [|done]. rewrite Hk by done. by rewrite insert_delete_eq.
Qed.

(** When [service_register] accepts, and what it then does. *)
Definition register_valid ps (name : list Z) (pid : Z) : Prop :=
  cstr name <> [] /\ str_len name <= SERVICE_NAME_MAX /\
  Forall (fun c => name_char_ok c = true) (cstr name) /\
  0 <= pid /\ state_of ps pid <> PROC_UNUSED.

Lemma register_guard ps name pid :
  (chr name =? 0) || (pid <? 0) || bool_decide (state_of ps pid = PROC_UNUSED) = false /\
  name_ok name 0 = true <-> register_valid ps name pid.
Proof.
  unfold register_valid. rewrite !orb_false_iff, bool_decide_eq_false, Z.eqb_neq, Z.ltb_ge.
  rewrite name_ok_spec, cstr_nil by done. intuition; done || lia.
Qed.

End service_lemmas.

Section service_register.
Context {P : Type} `{ProcOps P}.
Implicit Types (ps : P) (sv : list service_entry).

Lemma service_register_ok ps sv name pid :
  svc_inv sv -> register_valid ps name pid ->
  (is_Some (svc_map sv !! cstr name) \/ (size (svc_map sv) < MAX_SERVICES)%nat) ->
  exists e sv', service_register ps sv (Some name) pid = (sv', true) /\ svc_inv sv' /\
    svc_map sv' = <[cstr name := e]> (svc_map sv) /\ svc_pid e = pid.
Proof.
  intros Hi Hok Hroom. destruct (proj2 (register_guard ps name pid) Hok) as [Hg Hn].
  unfold service_register. rewrite Hg, Hn. cbn [negb].
  pose proof (register_scan_spec sv name 0 None) as Hs.
  destruct Hok as (Hne & Hlen & Hch & Hpid & _).
  destruct (register_scan sv name 0 None) as [i|[i|]].
  - destruct Hs as (k & e & -> & He & Hu & Hk). cbn [Nat.add].
    rewrite (alter_known _ _ _ _ He).
    eexists _, _. split; [reflexivity|]. rewrite <- Hk.
    pose proof (Forall_lookup_1 _ _ _ _ (si_names _ Hi) He).
    edestruct (svc_put sv k e) as [? Hm]; [done|done| | | | | | | |split; [done|split; [exact Hm|done]]];
      cbn [svc_used svc_pid svc_name]; try done; try congruence.
    + by apply (key_free_same _ _ e); [apply Hi| | |].
    + by apply (si_valid _ Hi k e).
  - destruct Hs as [Hno Hf]. symmetry in Hf.
    destruct (first_slot _ sv) as [i'|] eqn:Efs; [|done]. cbn in Hf.
    injection Hf as ->. apply first_slot_lookup in Efs as (e & He & Hfree).
    rewrite (alter_known _ _ _ _ He). apply negb_true_iff in Hfree.
    pose proof (Forall_lookup_1 _ _ _ _ (si_names _ Hi) He) as Hl16. cbn in Hl16.
    assert (cstr (str_copy (svc_name e) name (SERVICE_NAME_MAX + 1)) = cstr name) as Hc.
    { apply str_copy_fits. unfold SERVICE_NAME_MAX in *. lia. }
    eexists _, _. split; [reflexivity|]. rewrite <- Hc.
    edestruct (svc_put sv i e) as [? Hm]; [done|done| | | | | | | |split; [done|split; [exact Hm|done]]];
      cbn [svc_used svc_pid svc_name]; try done; try congruence.
    + apply key_free_fresh. cbn [key service_table svc_name]. rewrite Hc.
      apply entry_of_None, find_None. intros j z Hj Hz. by apply (Hno j).
    + by rewrite (name_ok_ext _ _ Hc).
    + rewrite str_copy_length; unfold SERVICE_NAME_MAX; lia.
  - exfalso. destruct Hs as [Hno Hf]. symmetry in Hf. apply fmap_None in Hf.
    destruct Hroom as [[e He]|Hsz].
    + apply svc_map_Some in He as (i & He & Hu & Hk); [|done]. by apply (Hno i e).
    + change (first_slot (fun x => negb (live x)) sv = None) in Hf.
      apply count_if_full in Hf. rewrite <- table_map_size in Hf by apply Hi.
      rewrite (si_len _ Hi) in Hf. unfold svc_map in Hsz. lia.
Qed.

Lemma service_register_fail ps sv name pid :
  svc_inv sv ->
  ~ (register_valid ps name pid /\
     (is_Some (svc_map sv !! cstr name) \/ (size (svc_map sv) < MAX_SERVICES)%nat)) ->
  service_register ps sv (Some name) pid = (sv, false).
Proof.
  intros Hi Hno. unfold service_register.
  destruct ((chr name =? 0) || _ || _) eqn:Eg; [done|].
  destruct (name_ok name 0) eqn:En; cbn [negb]; [|done].
  assert (register_valid ps name pid) as Hok by (by apply register_guard).
  pose proof (register_scan_spec sv name 0 None) as Hs.
  destruct (register_scan sv name 0 None) as [i|[i|]]; [| |done]; exfalso; apply Hno; (split; [done|]).
  - destruct Hs as (k & e & _ & He & Hu & Hk). left. exists e.
    apply svc_map_Some; [done|]. by exists k.
  - right. destruct Hs as [_ Hf]. destruct (first_slot _ sv) eqn:Efs; [|done].
    pose proof (table_map_size sv (si_uniq _ Hi)) as Hsz. fold (svc_map sv) in Hsz.
    pose proof (count_if_bound live sv) as Hb. pose proof (count_if_full live sv) as [Hfull _].
    rewrite (si_len _ Hi) in *.
    destruct (decide (count_if live sv = Z.of_nat MAX_SERVICES)) as [E|E]; [|lia].
    specialize (Hfull E). cbn [live service_table] in Hfull. congruence.
Qed.

(** Both operations keep the table well formed. *)
Lemma service_register_inv ps sv name pid sv' b :
  svc_inv sv -> service_register ps sv (Some name) pid = (sv', b) -> svc_inv sv'.
Proof.
  intros Hi Hr.
  destruct (decide (register_valid ps name pid /\
    (is_Some (svc_map sv !! cstr name) \/ (size (svc_map sv) < MAX_SERVICES)%nat))) as [[Hv Hroom]|Hno].
  - destruct (service_register_ok ps sv name pid Hi Hv Hroom) as (? & ? & Heq & ? & _). rewrite Heq in Hr. by simplify_eq.
  - rewrite (service_register_fail ps sv name pid Hi Hno) in Hr. by simplify_eq.
Qed.

Lemma service_lookup_inv ps sv name sv' v :
  svc_inv sv -> service_lookup ps sv (Some name) = (sv', v) -> svc_inv sv'.
Proof.
  intros Hi. unfold service_lookup. destruct (chr name =? 0); intros Hl; [by simplify_eq|].
  pose proof (lookup_scan_slots ps sv name) as Hf. rewrite Hl in Hf.
  by apply (service_clear_inv sv _ ps).
Qed.

End service_register.

(** ** Theorems *)

Section service_thms.
Context {P : Type} `{ProcOps P}.

(** What a registration and a lookup do to the answers. *)
Lemma service_view_laws (ps : P) sv name pid :
  svc_inv sv ->
  (forall sv' b, service_register ps sv (Some name) pid = (sv', b) ->
     svc_inv sv' /\
     (b = true <-> register_valid ps name pid /\
        (is_Some (svc_map sv !! cstr name) \/ (size (svc_map sv) < MAX_SERVICES)%nat)) /\
     (b = false -> sv' = sv) /\
     (b = true -> forall other, svc_view ps sv' other =
        if decide (cstr other = cstr name) then Some pid else svc_view ps sv other)) /\
  (forall sv' v, service_lookup ps sv (Some name) = (sv', v) ->
     svc_inv sv' /\
     v = (if decide (cstr name = []) then -1 else default (-1) (svc_view ps sv name)) /\
     forall other, svc_view ps sv' other = svc_view ps sv other).
Proof.
  intros Hi. split.
  - intros sv' b Hr.
    destruct (decide (register_valid ps name pid /\
      (is_Some (svc_map sv !! cstr name) \/ (size (svc_map sv) < MAX_SERVICES)%nat))) as [[Hv Hroom]|Hno].
    + destruct (service_register_ok ps sv name pid Hi Hv Hroom) as (e & sv2 & Heq & Hi2 & Hm & Hp).
      rewrite Heq in Hr. simplify_eq. split; [done|split; [done|split; [done|]]].
      intros _ other. unfold svc_view. rewrite Hm. case_decide as Ho.
      * rewrite Ho, lookup_insert_eq. cbn. rewrite bool_decide_false; [done|]. apply Hv.
      * by rewrite lookup_insert_ne by done.
    + rewrite (service_register_fail ps sv name pid Hi Hno) in Hr. simplify_eq.
      split; [done|split; [|done]]. by split.
  - intros sv' v Hl. unfold service_lookup in Hl. case_decide as Hn.
    + apply cstr_nil in Hn. rewrite Hn, Z.eqb_refl in Hl. simplify_eq. done.
    + rewrite (proj2 (Z.eqb_neq _ _)) in Hl by (by rewrite <- cstr_nil).
      pose proof (lookup_scan_slots ps sv name) as Hf.
      pose proof (lookup_scan_result ps sv name Hi) as Hres.
      rewrite Hl in Hf, Hres. cbn in Hf, Hres. split_and!; [|done|].
      * by apply (service_clear_inv sv _ ps).
      * intros other. by apply purge_view.
Qed.

(** C22: the name service implements a map from names to pids.  In a well-formed
    table, [service_register] succeeds exactly when the name is 1 to 15 of the
    allowed characters, the pid exists and the name is known or a slot is free;
    it then binds that name only.  [service_lookup] answers the bound pid while
    that process exists and [-1] otherwise; the slots it frees on the way never
    change what any lookup answers.  Both keep the table well formed. *)
Theorem service_refines_map (ps : P) sv name pid :
  svc_inv sv ->
  (forall sv' b, service_register ps sv (Some name) pid = (sv', b) ->
     svc_inv sv' /\
     (b = true <-> register_valid ps name pid /\
        (is_Some (svc_map sv !! cstr name) \/ (size (svc_map sv) < MAX_SERVICES)%nat)) /\
     (b = false -> sv' = sv) /\
     (b = true -> forall other, svc_view ps sv' other =
        if decide (cstr other = cstr name) then Some pid else svc_view ps sv other)) /\
  (forall sv' v, service_lookup ps sv (Some name) = (sv', v) ->
     svc_inv sv' /\
     v = (if decide (cstr name = []) then -1 else default (-1) (svc_view ps sv name)) /\
     forall other, svc_view ps sv' other = svc_view ps sv other).
Proof. apply service_view_laws. Qed.

End service_thms.

Definition service_boot : list service_entry :=
  service_init (replicate 16 {| svc_used := false; svc_pid := 0; svc_name := replicate 16 0 |}).

Lemma service_init_inv sv :
  length sv = MAX_SERVICES -> Forall (fun e => length (svc_name e) = 16%nat) sv ->
  svc_inv (service_init sv).
Proof.
  intros Hl Hn. unfold service_init.
  assert (forall i e, map service_clear sv !! i = Some e -> svc_used e = false) as Hd.
  { intros i e He. rewrite list_lookup_fmap in He. by apply fmap_Some in He as (? & _ & ->). }
  constructor.
  - by rewrite length_map.
  - intros i j x y Hx _ Hlx. apply Hd in Hx. cbn in *. congruence.
  - apply Forall_map. revert Hn. apply Forall_impl. intros e He. cbn. by destruct (svc_name e).
  - intros i e He. apply Hd in He. congruence.
Qed.

Lemma service_refines_map_witness :
  exists sv', service_register (proc_init proc_boot_zero) service_boot (Some (lit "vfs")) 0 = (sv', true) /\
    svc_inv sv' /\ svc_view (proc_init proc_boot_zero) sv' (lit "vfs") = Some 0.
Proof.
  eexists. split; [vm_compute; reflexivity|].
  destruct (service_refines_map (proc_init proc_boot_zero) service_boot (lit "vfs") 0) as [Hr _].
  - apply service_init_inv; [reflexivity|]. by repeat constructor.
  - destruct (Hr _ true eq_refl) as (Hi & _ & _ & Hv). split; [exact Hi|].
    rewrite (Hv eq_refl). reflexivity.
Defined.
