(* ===== verification/Elf.v ===== *)
(** * Elf: the program loader of [src/kernel/elf.c]

    Programs are linked to run at one fixed window of physical memory
    ([ELF_USER_IMAGE_BASE], [ELF_USER_IMAGE_MAX] bytes); eight processes share
    it, each with a shadow copy in [user_images] and a stack in [user_stacks].
    Both arrays live in the flat memory, at addresses that the linker chooses
    (parameters of the section); the shadow copies are reached by address as
    well, so an index past a copy is an access to its neighbour, as in C.

    A function of elf.c that prints a message and returns 0 yields [inl msg];
    where it returns 1 it yields [inr] of what it stored through its out
    parameter.  What memory it changed before failing is part of the result. *)
From S2P Require Import Prelude KernelH Util Memory Proc Iface.
Local Open Scope Z_scope.
Local Open Scope slop_scope.

Definition ELF_USER_IMAGE_MAX : Z := 131072.
Definition ELF_USER_IMAGE_BASE : Z := 0x00300000.
Definition ELF_PROC_SLOTS : nat := 8.
Definition ELF_STACK_SIZE : Z := 4096.
Definition ELF_ARG_MAX : Z := 16.
Definition sizeof_ehdr : Z := 52.
Definition sizeof_phdr : Z := 32.

Definition elf_result (A : Type) : Type := list Z + A.

(** ** The file header: [struct elf32_ehdr], [struct elf32_phdr] *)

Record elf32_ehdr := {
  e_ident : list Z;
  e_type : Z; e_machine : Z; e_version : Z; e_entry : Z;
  e_phoff : Z; e_phentsize : Z; e_phnum : Z
}.

Record elf32_phdr := {
  p_type : Z; p_offset : Z; p_vaddr : Z; p_filesz : Z; p_memsz : Z; p_flags : Z
}.

(** The packed structures, read from memory field by field. *)
Definition read_ehdr (m : mem) (a : Z) : elf32_ehdr := {|
  e_ident := load_bytes m a 16;
  e_type := load_u16 m (a + 16); e_machine := load_u16 m (a + 18);
  e_version := load_u32 m (a + 20); e_entry := load_u32 m (a + 24);
  e_phoff := load_u32 m (a + 28); e_phentsize := load_u16 m (a + 42);
  e_phnum := load_u16 m (a + 44) |}.

Definition read_phdr (m : mem) (a : Z) : elf32_phdr := {|
  p_type := load_u32 m a; p_offset := load_u32 m (a + 4);
  p_vaddr := load_u32 m (a + 8); p_filesz := load_u32 m (a + 16);
  p_memsz := load_u32 m (a + 20); p_flags := load_u32 m (a + 24) |}.

Definition ident (eh : elf32_ehdr) (i : nat) : Z := nth i (e_ident eh) 0.

Definition elf_validate_header (eh : elf32_ehdr) (size : Z) : elf_result unit :=
  if size <? sizeof_ehdr then inl (line "run: ELF too small")
  else if negb (ident eh 0 =? 0x7F) || negb (ident eh 1 =? 69) ||
          negb (ident eh 2 =? 76) || negb (ident eh 3 =? 70)
  then inl (line "run: bad ELF magic")
  else if negb (ident eh 4 =? 1) || negb (ident eh 5 =? 1) || negb (ident eh 6 =? 1)
  then inl (line "run: unsupported ELF class/data/version")
  else if negb (e_type eh =? 2) || negb (e_machine eh =? 3) || negb (e_version eh =? 1)
  then inl (line "run: unsupported ELF type/machine/version")
  else if negb (e_phentsize eh =? sizeof_phdr) || (e_phnum eh =? 0)
  then inl (line "run: missing/invalid program headers")
  else if size <? (e_phoff eh +u (e_phnum eh *u e_phentsize eh))
  then inl (line "run: ELF headers out of range")
  else inr tt.

Definition PT_LOAD : Z := 1.

(** One pass of the loop over the program headers: the segments so far and
    [min_vaddr], [max_end]. *)
Record plan_acc := { pa_segs : list exec_segment; pa_min : Z; pa_max : Z }.

Definition plan_step (size : Z) (p : elf32_phdr) (acc : plan_acc) : elf_result plan_acc :=
  if negb (p_type p =? PT_LOAD) then inr acc
  else if (p_memsz p <? p_filesz p) || (size <? (p_offset p +u p_filesz p))
  then inl (line "run: invalid PT_LOAD segment")
  else if EXEC_MAX_SEGMENTS <=? Z.of_nat (length (pa_segs acc))
  then inl (line "run: too many load segments")
  else inr {|
    pa_segs := pa_segs acc ++
      [{| file_offset := p_offset p; file_size := p_filesz p;
          mem_size := p_memsz p; vaddr := p_vaddr p; seg_flags := p_flags p |}];
    pa_min := if p_vaddr p <? pa_min acc then p_vaddr p else pa_min acc;
    pa_max := if pa_max acc <? (p_vaddr p +u p_memsz p)
              then p_vaddr p +u p_memsz p else pa_max acc |}.

(** [for (i = 0; i < e_phnum; ++i)]: [n] headers are left, the next at [ph]. *)
Fixpoint plan_loop (m : mem) (size ph : Z) (n : nat) (acc : plan_acc) : elf_result plan_acc :=
  match n with
  | O => inr acc
  | S n' => match plan_step size (read_phdr m ph) acc with
            | inl e => inl e
            | inr acc' => plan_loop m size (ph + sizeof_phdr) n' acc'
            end
  end.

(** [elf_prepare_load_plan_from_vfs]; [file] is what [vfs_read_file] found. *)
Definition elf_prepare_load_plan (m : mem) (file : option (Z * Z)) : elf_result exec_load_plan :=
  match file with
  | None => inl (line "run: file not found")
  | Some (data, size) =>
      if data =? 0 then inl (line "run: file not found")
      else
        let eh := read_ehdr m data in
        match elf_validate_header eh size with
        | inl e => inl e
        | inr _ =>
            match plan_loop m size (data + e_phoff eh) (Z.to_nat (e_phnum eh))
                    {| pa_segs := []; pa_min := 0xFFFFFFFF; pa_max := 0 |} with
            | inl e => inl e
            | inr acc =>
                if (Z.of_nat (length (pa_segs acc)) =? 0) || (pa_max acc <=? pa_min acc)
                then inl (line "run: no loadable segments")
                else if (pa_min acc <? ELF_USER_IMAGE_BASE) ||
                        ((ELF_USER_IMAGE_BASE +u ELF_USER_IMAGE_MAX) <? pa_max acc)
                then inl (line "run: image outside reserved user range")
                else if ELF_USER_IMAGE_MAX <? (pa_max acc -u pa_min acc)
                then inl (line "run: image too large for user buffer")
                else inr {| plan_valid := true; plan_entry := e_entry eh;
                            plan_image_base := pa_min acc;
                            plan_image_size := pa_max acc -u pa_min acc;
                            segments := pa_segs acc |}
            end
        end
  end.

(** ** Image slots *)

Record elf_st := {
  slot_owner_pid : list Z;
  slots_initialized : bool
}.

Definition elf_slots_init_once (es : elf_st) : elf_st :=
  if slots_initialized es then es
  else {| slot_owner_pid := map (fun _ => -1) (slot_owner_pid es); slots_initialized := true |}.

Section elf.
Context {P : Type} `{ProcOps P}.
(** The addresses of the arrays [user_stacks] and [user_images]. *)
Context (user_stacks user_images : Z).

Definition stack_addr (slot : nat) : Z := user_stacks + Z.of_nat slot * ELF_STACK_SIZE.
Definition shadow_addr (slot : nat) : Z := user_images + Z.of_nat slot * ELF_USER_IMAGE_MAX.

Definition elf_slot_for_pid (ps : P) (es : elf_st) (pid : Z) : elf_st * option nat :=
  let es := elf_slots_init_once es in
  match first_slot (fun o => o =? pid) (slot_owner_pid es) with
  | Some i => (es, Some i)
  | None =>
      match first_slot (fun o => (o <? 0) || bool_decide (state_of ps o = PROC_UNUSED))
                       (slot_owner_pid es) with
      | Some i => ({| slot_owner_pid := <[i := pid]> (slot_owner_pid es);
                      slots_initialized := slots_initialized es |}, Some i)
      | None => (es, None)
      end
  end.

(** The window test shared by load, snapshot and resume. *)
Definition outside_window (base size : Z) : bool :=
  (base <? ELF_USER_IMAGE_BASE) ||
  ((ELF_USER_IMAGE_BASE +u ELF_USER_IMAGE_MAX) <? (base +u size)).

(** ** Loading *)

Fixpoint load_segments (m : mem) (segs : list exec_segment) (file_data fsize : Z)
    : mem * elf_result unit :=
  match segs with
  | [] => (m, inr tt)
  | seg :: segs' =>
      if fsize <? (file_offset seg +u file_size seg)
      then (m, inl (line "run: segment file range out of bounds"))
      else load_segments
             (copy_loop (Z.to_nat (file_size seg)) m (vaddr seg) (file_data + file_offset seg))
             segs' file_data fsize
  end.

Definition elf_load_from_plan (ps : P) (es : elf_st) (m : mem) (pid : Z)
    (plan : exec_load_plan) (file_data fsize : Z) : elf_st * mem * elf_result proc_image :=
  if negb (plan_valid plan) || (file_data =? 0) || (pid <? 0)
  then (es, m, inl (line "run: invalid load plan"))
  else if outside_window (plan_image_base plan) (plan_image_size plan)
  then (es, m, inl (line "run: image outside reserved user range"))
  else
    match elf_slot_for_pid ps es pid with
    | (es, None) => (es, m, inl (line "run: no free process image slots"))
    | (es, Some slot) =>
        let m := mem_zero m ELF_USER_IMAGE_BASE ELF_USER_IMAGE_MAX in
        match load_segments m (segments plan) file_data fsize with
        | (m, inl e) => (es, m, inl e)
        | (m, inr _) =>
            (es, m, inr {|
               loaded := true; entry := plan_entry plan;
               image_base := plan_image_base plan; image_size := plan_image_size plan;
               user_stack_base := stack_addr slot; user_stack_size := ELF_STACK_SIZE;
               img_cwd := 0; output := CONSOLE_VGA;
               context_valid := false; context := user_context_zero |})
        end
    end.

(** ** Starting a program *)

(** [argv[i]], a null pointer counting as the empty string. *)
Definition arg_string (argv : list (option (list Z))) (i : nat) : list Z :=
  match argv !! i with
  | Some (Some s) => s
  | _ => []
  end.

(** [for (i = argc - 1; i >= 0; --i)]: [n] strings are left to push; [addrs]
    is the filled end of [argv_user]. *)
Fixpoint push_args (m : mem) (image : proc_image) (argv : list (option (list Z)))
    (n : nat) (user_sp : Z) (addrs : list Z) : mem * elf_result (Z * list Z) :=
  match n with
  | O => (m, inr (user_sp, addrs))
  | S i =>
      let src := arg_string argv i in
      let len := str_len src +u 1 in
      if (user_stack_size image -u 64) <? len
      then (m, inl (line "run: argument too long"))
      else if user_sp <? (user_stack_base image +u len +u 16)
      then (m, inl (line "run: arguments exceed user stack"))
      else
        let user_sp := user_sp -u len in
        let m := store_bytes m user_sp (cstr src ++ [0]) in
        push_args m image argv i user_sp (user_sp :: addrs)
  end.

(** [argc] after the two clamps. *)
Definition clamp_argc (argc : Z) : Z :=
  let argc := if argc <? 0 then 0 else argc in
  if ELF_ARG_MAX <? argc then ELF_ARG_MAX else argc.

(** [elf_execute_image] up to the call of [enter_user_mode], which gets the
    entry point and the stack pointer returned here. *)
Definition elf_execute_prepare (m : mem) (image : proc_image) (pid argc : Z)
    (argv : list (option (list Z))) : mem * elf_result (Z * Z) :=
  if negb (loaded image) || (pid <? 0) then (m, inl (line "run: no loaded image"))
  else if (entry image <? image_base image) ||
          ((image_base image +u image_size image) <=? entry image)
  then (m, inl (line "run: entry outside loaded image"))
  else if user_stack_size image <? 64 then (m, inl (line "run: invalid user stack"))
  else
    let argc := clamp_argc argc in
    match push_args m image argv (Z.to_nat argc)
            (user_stack_base image +u user_stack_size image) [] with
    | (m, inl e) => (m, inl e)
    | (m, inr (user_sp, argv_user)) =>
        let user_sp := Z.land user_sp (u32 (Z.lnot 3)) in
        if user_sp <? (user_stack_base image +u (u32 (argc + 1) *u 4) +u 8)
        then (m, inl (line "run: argument table exceeds user stack"))
        else
          let user_sp := user_sp -u (u32 (argc + 1) *u 4) in
          let argv_table_addr := user_sp in
          let m := store_words m argv_table_addr (argv_user ++ [0]) in
          if user_sp <? (user_stack_base image +u 8)
          then (m, inl (line "run: argument header exceeds user stack"))
          else
            let user_sp := user_sp -u 8 in
            let m := store_words m user_sp [u32 argc; argv_table_addr] in
            (m, inr (entry image, user_sp))
    end.

(** ** Suspending and resuming *)

Definition elf_snapshot_image (ps : P) (es : elf_st) (m : mem) (pid : Z) (image : proc_image)
    : elf_st * mem * bool :=
  if (pid <? 0) || negb (loaded image) then (es, m, false)
  else if outside_window (image_base image) (image_size image) then (es, m, false)
  else
    match elf_slot_for_pid ps es pid with
    | (es, None) => (es, m, false)
    | (es, Some slot) =>
        (es, copy_loop (Z.to_nat (image_size image)) m (shadow_addr slot) (image_base image), true)
    end.

(** [elf_resume_image] up to the call of [resume_user_mode], which gets the
    saved registers returned here. *)
Definition elf_resume_prepare (ps : P) (es : elf_st) (m : mem) (image : proc_image) (pid : Z)
    : elf_st * mem * elf_result user_context :=
  if negb (loaded image) || negb (context_valid image) || (pid <? 0)
  then (es, m, inl (line "run: no resumable image"))
  else if outside_window (image_base image) (image_size image)
  then (es, m, inl (line "run: image outside reserved user range"))
  else
    match elf_slot_for_pid ps es pid with
    | (es, None) => (es, m, inl (line "run: no process image slot"))
    | (es, Some slot) =>
        let m := mem_zero m ELF_USER_IMAGE_BASE ELF_USER_IMAGE_MAX in
        (es, copy_loop (Z.to_nat (image_size image)) m (image_base image) (shadow_addr slot),
         inr (context image))
    end.

(** [elf_write_to_task_memory(pid, dst, src, len)] with [src] the bytes. *)
Definition elf_write_to_task_memory (ps : P) (es : elf_st) (m : mem) (pid dst : Z) (src : list Z)
    : elf_st * mem * bool :=
  let len := Z.of_nat (length src) in
  if (pid <? 0) || (len =? 0) then (es, m, false)
  else
    match image_of ps pid with
    | None => (es, m, false)
    | Some image =>
        if negb (loaded image) then (es, m, false)
        else
          match elf_slot_for_pid ps es pid with
          | (es, None) => (es, m, false)
          | (es, Some slot) =>
              if (image_base image <=? dst) && (dst <=? (dst +u len)) &&
                 ((dst +u len) <=? (image_base image +u image_size image))
              then (es, store_bytes m (shadow_addr slot + (dst -u image_base image)) src, true)
              else if (user_stack_base image <=? dst) && (dst <=? (dst +u len)) &&
                      ((dst +u len) <=? (user_stack_base image +u user_stack_size image))
              then (es, store_bytes m dst src, true)
              else (es, m, false)
          end
    end.

End elf.

(** ** The load plan *)

(** What the plan checks of a segment: bounds that hold up to one 32-bit
    wrap-around. *)
Record seg_checked (size base stop : Z) (s : exec_segment) : Prop := {
  sc_file : file_size s <= mem_size s;
  sc_offset : u32 (file_offset s + file_size s) <= size;
  sc_base : base <= vaddr s;
  sc_stop : u32 (vaddr s + mem_size s) <= stop;
  sc_ranges : is_u32 (file_offset s) /\ is_u32 (file_size s) /\ is_u32 (mem_size s) /\ is_u32 (vaddr s)
}.

(** The bounds without the wrap-around. *)
Record seg_inside (size base stop : Z) (s : exec_segment) : Prop := {
  si_file : 0 <= file_offset s /\ 0 <= file_size s <= mem_size s;
  si_offset : file_offset s + file_size s <= size;
  si_base : base <= vaddr s;
  si_stop : vaddr s + mem_size s <= stop
}.

Lemma seg_checked_inside size base stop s :
  seg_checked size base stop s ->
  file_offset s + file_size s < 4294967296 -> vaddr s + mem_size s < 4294967296 ->
  seg_inside size base stop s.
Proof.
  intros [? Ho ? Hv (? & ? & ? & ?)] ? ?. unfold is_u32 in *.
  rewrite u32_small in Ho, Hv by lia. constructor; lia.
Qed.

Lemma plan_step_inv size p acc acc' :
  is_u32 (p_offset p) -> is_u32 (p_filesz p) -> is_u32 (p_memsz p) -> is_u32 (p_vaddr p) ->
  Forall (seg_checked size (pa_min acc) (pa_max acc)) (pa_segs acc) ->
  Z.of_nat (length (pa_segs acc)) <= EXEC_MAX_SEGMENTS -> 0 <= pa_min acc -> pa_max acc < 4294967296 ->
  plan_step size p acc = inr acc' ->
  Forall (seg_checked size (pa_min acc') (pa_max acc')) (pa_segs acc') /\
  Z.of_nat (length (pa_segs acc')) <= EXEC_MAX_SEGMENTS /\
  0 <= pa_min acc' /\ pa_max acc' < 4294967296.
Proof.
  intros Ho Hf Hm Hv Hall Hlen Hmin Hmax. unfold plan_step.
  destruct (negb _); [by intros [= <-]|].
  destruct (_ || _) eqn:E1; [done|]. zify_bool.
  destruct (EXEC_MAX_SEGMENTS <=? _) eqn:E2; [done|]. zify_bool.
  intros [= <-]. cbn [pa_segs pa_min pa_max].
  pose proof (u32_range (p_vaddr p + p_memsz p)).
  set (mn := if p_vaddr p <? pa_min acc then _ else _).
  set (mx := if pa_max acc <? _ then _ else _).
  assert (mn <= pa_min acc /\ mn <= p_vaddr p /\ 0 <= mn) as (? & ? & ?).
  { unfold mn, is_u32 in *. split_if; lia. }
  assert (pa_max acc <= mx /\ u32 (p_vaddr p + p_memsz p) <= mx /\ mx < 4294967296) as (? & ? & ?).
  { unfold mx. split_if; lia. }
  split; [|rewrite length_app; cbn [length]; lia].
  apply Forall_app_2.
  - revert Hall. apply Forall_impl. intros s []. constructor; done || lia.
  - constructor; [|constructor]. constructor; cbn; done || lia.
Qed.

Lemma plan_loop_inv m size n ph acc acc' :
  mem_ok m ->
  Forall (seg_checked size (pa_min acc) (pa_max acc)) (pa_segs acc) ->
  Z.of_nat (length (pa_segs acc)) <= EXEC_MAX_SEGMENTS -> 0 <= pa_min acc -> pa_max acc < 4294967296 ->
  plan_loop m size ph n acc = inr acc' ->
  Forall (seg_checked size (pa_min acc') (pa_max acc')) (pa_segs acc') /\
  Z.of_nat (length (pa_segs acc')) <= EXEC_MAX_SEGMENTS /\
  0 <= pa_min acc' /\ pa_max acc' < 4294967296.
Proof.
  intros Hm. revert ph acc. induction n as [|n IH]; intros ph acc Hall Hlen Hmin Hmax; cbn [plan_loop].
  { by intros [= <-]. }
  destruct (plan_step size (read_phdr m ph) acc) as [e|acc1] eqn:E; [done|].
  apply plan_step_inv in E as (? & ? & ? & ?); [by apply IH|cbn; auto with slop..].
Qed.

Lemma elf_plan_checked m data size plan :
  mem_ok m -> elf_prepare_load_plan m (Some (data, size)) = inr plan ->
  plan_valid plan = true /\ data <> 0 /\ 0 < plan_image_size plan /\
  1 <= Z.of_nat (length (segments plan)) <= EXEC_MAX_SEGMENTS /\
  ELF_USER_IMAGE_BASE <= plan_image_base plan /\
  plan_image_base plan + plan_image_size plan <= ELF_USER_IMAGE_BASE + ELF_USER_IMAGE_MAX /\
  Forall (seg_checked size (plan_image_base plan) (plan_image_base plan + plan_image_size plan))
         (segments plan).
Proof.
  intros Hm. unfold elf_prepare_load_plan.
  destruct (data =? 0) eqn:E0; [done|]. destruct (elf_validate_header _ _); [done|].
  destruct (plan_loop _ _ _ _ _) as [|acc] eqn:El; [done|].
  apply plan_loop_inv in El as (Hall & Hlen & Hmin & Hmax); [|done|constructor|done..].
  change (ELF_USER_IMAGE_BASE +u ELF_USER_IMAGE_MAX) with (ELF_USER_IMAGE_BASE + ELF_USER_IMAGE_MAX).
  destruct (_ || (pa_max acc <=? pa_min acc)) eqn:E1; [done|].
  destruct (_ || (_ <? pa_max acc)) eqn:E2; [done|].
  destruct (ELF_USER_IMAGE_MAX <? _) eqn:E3; [done|]. zify_bool.
  intros [= <-]. cbn [plan_valid plan_image_base plan_image_size segments].
  unfold ELF_USER_IMAGE_BASE, ELF_USER_IMAGE_MAX in *.
  rewrite (u32_small (pa_max acc - pa_min acc)) by lia.
  replace (pa_min acc + (pa_max acc - pa_min acc)) with (pa_max acc) by lia.
  split_and!; try done; try lia.
Qed.

(** ** Loading the segments *)

(** The byte of the program at address [x]: the last segment that covers [x]
    provides it, and what no segment covers is zero. *)
Definition segs_byte (m : mem) (file_data : Z) (segs : list exec_segment) (b0 : Z) (x : Z) : Z :=
  fold_left (fun b s => if in_range (vaddr s) (file_size s) x
                        then m (file_data + file_offset s + (x - vaddr s)) else b) segs b0.

(** The file's bytes do not lie in the window programs are loaded at. *)
Definition file_outside (file_data fsize : Z) : Prop :=
  0 <= file_data /\ file_data + fsize < 4294967296 /\
  (file_data + fsize <= ELF_USER_IMAGE_BASE \/
   ELF_USER_IMAGE_BASE + ELF_USER_IMAGE_MAX <= file_data).

Definition window (x : Z) : bool := in_range ELF_USER_IMAGE_BASE ELF_USER_IMAGE_MAX x.

Lemma segs_byte_cons m fd s segs b x :
  segs_byte m fd (s :: segs) b x =
    segs_byte m fd segs (if in_range (vaddr s) (file_size s) x
                         then m (fd + file_offset s + (x - vaddr s)) else b) x.
Proof. done. Qed.

Lemma segs_byte_ext m m' fd fsize segs b x :
  Forall (seg_inside fsize ELF_USER_IMAGE_BASE (ELF_USER_IMAGE_BASE + ELF_USER_IMAGE_MAX)) segs ->
  (forall y, fd <= y < fd + fsize -> m y = m' y) ->
  segs_byte m fd segs b x = segs_byte m' fd segs b x.
Proof.
  intros Hs Hm. revert b. induction Hs as [|s segs [? ? ? ?] _ IH]; intros b; [done|].
  rewrite !segs_byte_cons, IH.
  destruct (in_range (vaddr s) (file_size s) x) eqn:E; [|done].
  apply in_range_spec in E. f_equal. apply Hm. lia.
Qed.

Lemma load_segments_spec m segs fd fsize :
  mem_ok m -> file_outside fd fsize ->
  Forall (seg_inside fsize ELF_USER_IMAGE_BASE (ELF_USER_IMAGE_BASE + ELF_USER_IMAGE_MAX)) segs ->
  exists m', load_segments m segs fd fsize = (m', inr tt) /\
    forall x, m' x = segs_byte m fd segs (m x) x.
Proof.
  intros Hm (Hf0 & Hf1 & Hf2) Hs. revert m Hm.
  induction Hs as [|s segs [[? ?] Ho Hb Hst] Hs IH]; intros m Hm; cbn [load_segments].
  { by exists m. }
  unfold ELF_USER_IMAGE_BASE, ELF_USER_IMAGE_MAX in *.
  rewrite u32_small by lia. rewrite (proj2 (Z.ltb_ge _ _)) by lia.
  set (m1 := copy_loop (Z.to_nat (file_size s)) m (vaddr s) (fd + file_offset s)).
  assert (forall x, m1 x = if in_range (vaddr s) (file_size s) x
            then m (fd + file_offset s + (x - vaddr s)) else m x) as Hm1.
  { intros x. unfold m1. rewrite copy_loop_spec by (unfold fits; lia).
    rewrite Z2Nat.id by lia. destruct (in_range _ _ x); [|done]. apply u8_byte, Hm. }
  destruct (IH m1) as (m' & -> & Hx); [unfold m1; auto with slop|].
  exists m'. split; [done|]. intros x. rewrite Hx, segs_byte_cons, Hm1.
  apply (segs_byte_ext _ _ _ fsize); [done|]. intros y Hy. rewrite Hm1.
  destruct (in_range (vaddr s) (file_size s) y) eqn:E; [|done].
  apply in_range_spec in E. lia.
Qed.

(** ** Slots *)

Section slots.
Context {P : Type} `{ProcOps P}.
Implicit Types (ps : P) (es : elf_st).

(** The owners the code sees: all free before the first use. *)
Definition owners es : list Z := slot_owner_pid (elf_slots_init_once es).

(** No process owns two slots. *)
Record slots_ok es : Prop := {
  so_len : length (owners es) = ELF_PROC_SLOTS;
  so_uniq : forall i j o, 0 <= o -> owners es !! i = Some o -> owners es !! j = Some o -> i = j
}.

Lemma owners_init es : owners (elf_slots_init_once es) = owners es.
Proof. unfold owners, elf_slots_init_once. by destruct (slots_initialized es) eqn:E; rewrite ?E. Qed.

Lemma slots_ok_ext es es' : owners es' = owners es -> slots_ok es -> slots_ok es'.
Proof. intros E [? ?]. constructor; by rewrite E. Qed.

(** The owner table after a call, and the slot it gives. *)
Lemma elf_slot_spec ps es pid es' r :
  slots_ok es -> 0 <= pid -> elf_slot_for_pid ps es pid = (es', r) ->
  slots_ok es' /\
  match r with
  | Some i => owners es' = <[i := pid]> (owners es) /\ (i < ELF_PROC_SLOTS)%nat /\
              (owners es !! i = Some pid \/
               exists o, owners es !! i = Some o /\ (o < 0 \/ state_of ps o = PROC_UNUSED))
  | None => owners es' = owners es /\
            forall i o, owners es !! i = Some o -> o <> pid /\ 0 <= o /\ state_of ps o <> PROC_UNUSED
  end.
Proof.
  intros Hok Hp. unfold elf_slot_for_pid. fold (owners es).
  destruct (first_slot (fun o => o =? pid) (owners es)) as [i|] eqn:E1.
  { intros [= <- <-]. pose proof (first_slot_lt _ _ _ E1) as Hlt.
    apply first_slot_lookup in E1 as (o & Ho & Heq). zify_bool. subst o.
    split; [by apply (slots_ok_ext es), Hok; apply owners_init|].
    rewrite owners_init, list_insert_id by done. split_and!; [done| |by left].
    by rewrite <- (so_len _ Hok). }
  assert (forall i o, owners es !! i = Some o -> o <> pid) as Hno.
  { intros i o Ho. pose proof (proj1 (first_slot_None _ _) E1 i o Ho) as Hne. cbn in Hne. by zify_bool. }
  destruct (first_slot (fun o => (o <? 0) || _) (owners es)) as [i|] eqn:E2.
  - intros [= <- <-]. pose proof (first_slot_lt _ _ _ E2) as Hlt.
    apply first_slot_lookup in E2 as (o & Ho & Hfree).
    assert (owners {| slot_owner_pid := <[i:=pid]> (owners es);
              slots_initialized := slots_initialized (elf_slots_init_once es) |}
            = <[i:=pid]> (owners es)) as Hown.
    { unfold owners, elf_slots_init_once. destruct (slots_initialized es) eqn:E; cbn; by rewrite ?E. }
    split.
    + constructor; rewrite Hown; [by rewrite length_insert, (so_len _ Hok)|].
      intros a b q Hq Ha Hb.
      apply list_lookup_insert_Some in Ha as [(<- & <- & _)|[Hia Ha]];
        apply list_lookup_insert_Some in Hb as [(<- & Hpq & _)|[Hib Hb]];
        [done|by apply Hno in Hb|subst; by apply Hno in Ha|by apply (so_uniq _ Hok a b q)].
    + split_and!; [done|by rewrite <- (so_len _ Hok)|]. right. exists o. split; [done|].
      apply orb_true_iff in Hfree as [Hlt0|Hd]; zify_bool; [by left|].
      right. by apply bool_decide_eq_true in Hd.
  - intros [= <- <-]. split; [by apply (slots_ok_ext es), Hok; apply owners_init|].
    split; [apply owners_init|]. intros i o Ho.
    pose proof (proj1 (first_slot_None _ _) E2 i o Ho) as Hf. cbn in Hf. zify_bool.
    split_and!; [by apply (Hno i)|done|].
    by eapply bool_decide_eq_false_1.
Qed.

End slots.

(** ** Where the arrays are *)

(** What the linker script guarantees: the two arrays are below the program
    window and do not overlap. *)
Record layout (user_stacks user_images : Z) : Prop := {
  ly_stacks : 0 < user_stacks;
  ly_images : 0 < user_images;
  ly_stacks_end : user_stacks + 8 * ELF_STACK_SIZE <= ELF_USER_IMAGE_BASE;
  ly_images_end : user_images + 8 * ELF_USER_IMAGE_MAX <= ELF_USER_IMAGE_BASE;
  ly_disjoint : user_stacks + 8 * ELF_STACK_SIZE <= user_images \/
                user_images + 8 * ELF_USER_IMAGE_MAX <= user_stacks
}.

(** An image that [elf_load_from_plan] can have produced. *)
Record image_ok (user_stacks : Z) (image : proc_image) : Prop := {
  io_loaded : loaded image = true;
  io_base : ELF_USER_IMAGE_BASE <= image_base image;
  io_size : 0 <= image_size image;
  io_end : image_base image + image_size image <= ELF_USER_IMAGE_BASE + ELF_USER_IMAGE_MAX;
  io_stack : exists slot, (slot < ELF_PROC_SLOTS)%nat /\
               user_stack_base image = stack_addr user_stacks slot;
  io_stack_size : user_stack_size image = ELF_STACK_SIZE
}.

Lemma outside_window_exact base size :
  ELF_USER_IMAGE_BASE <= base -> 0 <= size -> base + size < 4294967296 ->
  outside_window base size = (ELF_USER_IMAGE_BASE + ELF_USER_IMAGE_MAX <? base + size).
Proof.
  intros. unfold outside_window.
  change (ELF_USER_IMAGE_BASE +u ELF_USER_IMAGE_MAX) with (ELF_USER_IMAGE_BASE + ELF_USER_IMAGE_MAX).
  unfold ELF_USER_IMAGE_BASE in *.
  rewrite (proj2 (Z.ltb_ge base _)), u32_small by lia. done.
Qed.

Lemma image_ok_window user_stacks image :
  image_ok user_stacks image -> outside_window (image_base image) (image_size image) = false.
Proof.
  intros [_ ? ? He _ _]. unfold ELF_USER_IMAGE_BASE, ELF_USER_IMAGE_MAX in *.
  by rewrite outside_window_exact; unfold ELF_USER_IMAGE_BASE, ELF_USER_IMAGE_MAX; lia.
Qed.

Lemma window_zero m x :
  mem_zero m ELF_USER_IMAGE_BASE ELF_USER_IMAGE_MAX x = if window x then 0 else m x.
Proof. rewrite mem_zero_spec; [done|done|]. by vm_compute. Qed.

Lemma window_spec x :
  window x = true <-> ELF_USER_IMAGE_BASE <= x < ELF_USER_IMAGE_BASE + ELF_USER_IMAGE_MAX.
Proof. apply in_range_spec. Qed.

Section windows.
Context {P : Type} `{ProcOps P}.
Context (user_stacks user_images : Z).
Hypothesis Hlayout : layout user_stacks user_images.
Implicit Types (ps : P) (es : elf_st).

Lemma stack_addr_range slot :
  (slot < ELF_PROC_SLOTS)%nat ->
  0 < stack_addr user_stacks slot /\
  stack_addr user_stacks slot + ELF_STACK_SIZE <= ELF_USER_IMAGE_BASE.
Proof using Hlayout.
  intros Hs. destruct Hlayout. unfold stack_addr, ELF_PROC_SLOTS, ELF_STACK_SIZE in *. lia.
Qed.

Lemma shadow_addr_range slot :
  (slot < ELF_PROC_SLOTS)%nat ->
  0 < shadow_addr user_images slot /\
  shadow_addr user_images slot + ELF_USER_IMAGE_MAX <= ELF_USER_IMAGE_BASE.
Proof using Hlayout.
  intros Hs. destruct Hlayout. unfold shadow_addr, ELF_PROC_SLOTS, ELF_USER_IMAGE_MAX in *. lia.
Qed.

(** Loading a plan whose segments do not wrap. *)
Lemma elf_load_spec ps es m pid plan fd fsize es' slot :
  mem_ok m -> plan_valid plan = true -> 0 <= pid -> fd <> 0 -> file_outside fd fsize ->
  ELF_USER_IMAGE_BASE <= plan_image_base plan -> 0 <= plan_image_size plan ->
  plan_image_base plan + plan_image_size plan <= ELF_USER_IMAGE_BASE + ELF_USER_IMAGE_MAX ->
  Forall (seg_inside fsize ELF_USER_IMAGE_BASE (ELF_USER_IMAGE_BASE + ELF_USER_IMAGE_MAX)) (segments plan) ->
  elf_slot_for_pid ps es pid = (es', Some slot) -> (slot < ELF_PROC_SLOTS)%nat ->
  exists m' image,
    elf_load_from_plan user_stacks ps es m pid plan fd fsize = (es', m', inr image) /\
    image_ok user_stacks image /\ entry image = plan_entry plan /\
    image_base image = plan_image_base plan /\ image_size image = plan_image_size plan /\
    user_stack_base image = stack_addr user_stacks slot /\ context_valid image = false /\
    forall x, m' x = if window x then segs_byte m fd (segments plan) 0 x else m x.
Proof using Hlayout.
  intros Hm Hv Hp Hfd Hfo Hb Hsz Hend Hsegs Hslot Hlt. unfold elf_load_from_plan.
  rewrite Hv, (proj2 (Z.eqb_neq fd 0) Hfd), (proj2 (Z.ltb_ge pid 0) Hp). cbn [negb orb].
  assert (outside_window (plan_image_base plan) (plan_image_size plan) = false) as ->.
  { unfold ELF_USER_IMAGE_BASE, ELF_USER_IMAGE_MAX in *.
    by rewrite outside_window_exact; unfold ELF_USER_IMAGE_BASE, ELF_USER_IMAGE_MAX; lia. }
  rewrite Hslot.
  set (m0 := mem_zero m ELF_USER_IMAGE_BASE ELF_USER_IMAGE_MAX).
  assert (mem_ok m0) as Hm0.
  { intros x. unfold m0. rewrite window_zero. destruct (window x); [done|apply Hm]. }
  destruct (load_segments_spec m0 (segments plan) fd fsize Hm0 Hfo Hsegs) as (m' & -> & Hx).
  eexists m', _. split; [reflexivity|]. cbn.
  split_and!; try done; [constructor; cbn; try done; by exists slot|].
  intros x. rewrite Hx. rewrite (segs_byte_ext m0 m fd fsize _ _ _ Hsegs).
  2:{ intros y Hy. unfold m0. rewrite window_zero.
      destruct (window y) eqn:Ew; [apply window_spec in Ew; destruct Hfo; lia|done]. }
  unfold m0. rewrite window_zero. destruct (window x) eqn:Ew; [done|].
  clear -Hsegs Ew. generalize (m x). induction Hsegs as [|s segs [[? ?] ? ? ?] _ IH]; intros b; [done|].
  rewrite segs_byte_cons. destruct (in_range (vaddr s) (file_size s) x) eqn:E; [|apply IH].
  apply in_range_spec in E. assert (window x = true) by (apply window_spec; lia). congruence.
Qed.

(** Snapshot: the shadow copy of the owner's slot gets the program's bytes. *)
Lemma elf_snapshot_spec ps es m pid image es' slot :
  mem_ok m -> 0 <= pid -> image_ok user_stacks image ->
  elf_slot_for_pid ps es pid = (es', Some slot) -> (slot < ELF_PROC_SLOTS)%nat ->
  exists m', elf_snapshot_image user_images ps es m pid image = (es', m', true) /\ mem_ok m' /\
    forall x, m' x = if in_range (shadow_addr user_images slot) (image_size image) x
                     then m (image_base image + (x - shadow_addr user_images slot)) else m x.
Proof using Hlayout.
  intros Hm Hp Hio Hslot Hlt. unfold elf_snapshot_image.
  rewrite (io_loaded _ _ Hio), (proj2 (Z.ltb_ge pid 0) Hp), (image_ok_window _ _ Hio), Hslot. cbn [negb orb].
  eexists. split; [reflexivity|]. split; [auto with slop|]. intros x.
  destruct (shadow_addr_range slot Hlt). destruct Hio.
  unfold ELF_USER_IMAGE_BASE, ELF_USER_IMAGE_MAX in *.
  rewrite copy_loop_spec by (unfold fits; lia). rewrite Z2Nat.id by lia.
  destruct (in_range _ _ x); [|done]. apply u8_byte, Hm.
Qed.

(** Resume: the window gets the shadow copy back, the rest of it is zero. *)
Lemma elf_resume_spec ps es m pid image es' slot :
  mem_ok m -> 0 <= pid -> image_ok user_stacks image -> context_valid image = true ->
  elf_slot_for_pid ps es pid = (es', Some slot) -> (slot < ELF_PROC_SLOTS)%nat ->
  exists m', elf_resume_prepare user_images ps es m image pid = (es', m', inr (context image)) /\
    forall x, m' x = if in_range (image_base image) (image_size image) x
                     then m (shadow_addr user_images slot + (x - image_base image))
                     else if window x then 0 else m x.
Proof using Hlayout.
  intros Hm Hp Hio Hc Hslot Hlt. unfold elf_resume_prepare.
  rewrite (io_loaded _ _ Hio), Hc, (proj2 (Z.ltb_ge pid 0) Hp), (image_ok_window _ _ Hio), Hslot. cbn [negb orb].
  eexists. split; [reflexivity|]. intros x.
  destruct (shadow_addr_range slot Hlt). destruct Hio.
  unfold ELF_USER_IMAGE_BASE, ELF_USER_IMAGE_MAX in *.
  rewrite copy_loop_spec by (unfold fits; lia). rewrite Z2Nat.id by lia.
  change 3145728 with ELF_USER_IMAGE_BASE. change 131072 with ELF_USER_IMAGE_MAX.
  destruct (in_range _ _ x) eqn:Er; [|apply window_zero]. apply in_range_spec in Er.
  rewrite window_zero.
  match goal with |- context [window ?a] => assert (window a = false) as -> end; [|apply u8_byte, Hm].
  apply in_range_false. unfold ELF_USER_IMAGE_BASE, ELF_USER_IMAGE_MAX. lia.
Qed.

End windows.

(** ** The initial stack *)

(** The strings of an argument vector are bytes and shorter than the address
    space. *)
Definition args_ok (argv : list (option (list Z))) : Prop :=
  forall i, all_bytes (cstr (arg_string argv i)) /\
            str_len (arg_string argv i) + 1 < 4294967296.

(** The bytes the first [n] strings take, with their terminators. *)
Fixpoint args_total (argv : list (option (list Z))) (n : nat) : Z :=
  match n with
  | O => 0
  | S i => args_total argv i + (str_len (arg_string argv i) + 1)
  end.

Lemma args_total_pos argv n : 0 <= args_total argv n.
Proof.
  induction n as [|n IH]; cbn [args_total]; [lia|].
  rewrite str_len_spec. lia.
Qed.

(** What a stack of [top - base] bytes holds after pushing [n] strings. *)
Record pushed (m m' : mem) (argv : list (option (list Z))) (n : nat) (top sp : Z)
    (new : list Z) : Prop := {
  pu_len : length new = n;
  pu_sp : sp = top - args_total argv n;
  pu_frame : same_outside sp (top - sp) m m';
  pu_strings : forall i a, new !! i = Some a ->
    sp <= a /\ a + str_len (arg_string argv i) + 1 <= top /\
    bytes_at m' a (cstr (arg_string argv i) ++ [0])
}.

Lemma arg_bytes_length argv i :
  Z.of_nat (length (cstr (arg_string argv i) ++ [0])) = str_len (arg_string argv i) + 1.
Proof. rewrite length_app, str_len_spec. cbn [length]. lia. Qed.

Lemma push_args_spec image argv n m sp addrs m' r :
  args_ok argv ->
  0 < user_stack_base image -> 64 <= user_stack_size image ->
  user_stack_base image + user_stack_size image < 4294967296 ->
  user_stack_base image <= sp <= user_stack_base image + user_stack_size image ->
  push_args m image argv n sp addrs = (m', r) ->
  same_outside (user_stack_base image) (sp - user_stack_base image) m m' /\
  (sp - args_total argv n >= user_stack_base image + 16 ->
   args_total argv n <= user_stack_size image - 64 -> exists x, r = inr x) /\
  match r with
  | inl _ => True
  | inr (sp', addrs') => exists new, addrs' = new ++ addrs /\
      user_stack_base image <= sp' /\ pushed m m' argv n sp sp' new
  end.
Proof.
  intros Ha Hb Hsz Hw. revert m sp addrs m' r.
  induction n as [|n IH]; intros m sp addrs m' r Hsp; cbn [push_args].
  { intros [= <- <-]. split; [apply same_outside_refl|]. split; [by eexists|].
    exists []. split_and!; [done|lia|]. constructor; cbn; [done|lia|apply same_outside_refl|done]. }
  destruct (Ha n) as [Hbytes Hlen]. pose proof (arg_bytes_length argv n) as Hal.
  set (src := arg_string argv n) in *. assert (0 <= str_len src) by (rewrite str_len_spec; lia).
  rewrite (u32_small (str_len src + 1)), (u32_small (user_stack_size image - 64)) by lia.
  pose proof (args_total_pos argv n). cbn [args_total]. fold src.
  destruct (_ <? str_len src + 1) eqn:E1; zify_bool.
  { intros [= <- <-]. split; [apply same_outside_refl|]. split; [lia|done]. }
  rewrite (u32_small (user_stack_base image + _)), u32_small by lia.
  destruct (sp <? _) eqn:E2; zify_bool.
  { intros [= <- <-]. split; [apply same_outside_refl|]. split; [lia|done]. }
  rewrite (u32_small (sp - _)) by lia.
  set (sp1 := sp - (str_len src + 1)).
  set (m1 := store_bytes m sp1 (cstr src ++ [0])).
  assert (same_outside sp1 (sp - sp1) m m1) as Hm1.
  { replace (sp - sp1) with (Z.of_nat (length (cstr src ++ [0]))) by lia.
    apply same_outside_store. split; lia. }
  intros Hpush. destruct (IH m1 sp1 (sp1 :: addrs) m' r) as (Hfr & Hok & Hres); [lia|done|].
  split.
  { eapply (same_outside_trans _ _ sp1 (sp - sp1) (user_stack_base image) (sp1 - user_stack_base image));
      [exact Hm1|exact Hfr|lia..]. }
  split; [intros; apply Hok; lia|].
  destruct r as [e|[sp' addrs']]; [done|].
  destruct Hres as (new & -> & Hge & [Hl Hsp' Hf Hs]).
  exists (new ++ [sp1]). rewrite <- app_assoc. split_and!; [done|done|].
  pose proof (args_total_pos argv n).
  constructor.
  - rewrite length_app, Hl. cbn. lia.
  - cbn [args_total]. fold src. lia.
  - eapply (same_outside_trans _ _ sp1 (sp - sp1) sp' (sp1 - sp')); [exact Hm1|exact Hf|lia..].
  - intros i a [Hi|[Hil Hi]]%lookup_app_Some.
    + destruct (Hs i a Hi) as (? & ? & ?). split_and!; [done|lia|done].
    + apply list_lookup_singleton_Some in Hi as [Hi0 <-].
      replace i with n by lia. fold src. split_and!; [lia|lia|].
      apply (bytes_at_frame m1 _ _ _ sp' (sp1 - sp')); [|exact Hf|right; lia].
      apply bytes_at_store; [split; lia|]. apply Forall_app_2; [exact Hbytes|].
      by repeat constructor.
Qed.

Lemma clamp_argc_range argc : 0 <= clamp_argc argc <= ELF_ARG_MAX.
Proof. unfold clamp_argc, ELF_ARG_MAX. repeat split_if; lia. Qed.

(** What the program finds at its stack pointer. *)
Record stack_frame (m : mem) (image : proc_image) (argv : list (option (list Z)))
    (argc sp : Z) : Prop := {
  sf_aligned : sp `mod` 4 = 0;
  sf_above : user_stack_base image <= sp;
  sf_argc : load_u32 m sp = argc;
  sf_argv : load_u32 m (sp + 4) = sp + 8;
  sf_null : load_u32 m (sp + 8 + 4 * argc) = 0;
  sf_strings : forall i, Z.of_nat i < argc -> exists a,
    load_u32 m (sp + 8 + 4 * Z.of_nat i) = a /\ sp < a /\
    a + str_len (arg_string argv i) + 1 <= user_stack_base image + user_stack_size image /\
    bytes_at m a (cstr (arg_string argv i) ++ [0])
}.

(** The argument table and the header below the strings. *)
Lemma stack_tables m m1 image argv argc top sp addrs :
  0 <= argc <= ELF_ARG_MAX -> 0 < user_stack_base image ->
  top = user_stack_base image + user_stack_size image -> top < 4294967296 ->
  pushed m m1 argv (Z.to_nat argc) top sp addrs ->
  user_stack_base image + 4 * (argc + 1) + 8 <= sp - sp `mod` 4 ->
  let tab := sp - sp `mod` 4 - 4 * (argc + 1) in
  let m' := store_words (store_words m1 tab (addrs ++ [0])) (tab - 8) [argc; tab] in
  stack_frame m' image argv argc (tab - 8) /\
  same_outside (tab - 8) (sp - (tab - 8)) m1 m'.
Proof.
  intros Hargc Hb -> Hw [Hl Hspv Hf Hs] Hroom tab m'. unfold ELF_ARG_MAX in Hargc.
  pose proof (args_total_pos argv (Z.to_nat argc)).
  assert (0 <= sp `mod` 4 < 4) as Hmod by (apply Z.mod_pos_bound; lia).
  assert (Z.of_nat (length addrs) = argc) as Hla by lia.
  assert (fits tab (Z.of_nat (length (words_bytes (addrs ++ [0]))))) as Hft.
  { rewrite words_bytes_length, length_app. cbn [length]. split; lia. }
  assert (fits (tab - 8) (Z.of_nat (length (words_bytes [argc; tab])))) as Hfh.
  { rewrite words_bytes_length. cbn [length]. split; lia. }
  set (m2 := store_words m1 tab (addrs ++ [0])) in *.
  assert (bytes_at m2 tab (words_bytes (addrs ++ [0]))) as Htab.
  { unfold m2. rewrite store_words_eq. by apply bytes_at_store, words_bytes_byte. }
  assert (same_outside tab (sp - tab) m1 m2) as Hm2.
  { intros x Hx. unfold m2. rewrite store_words_eq. apply store_bytes_out; [done|].
    rewrite words_bytes_length, length_app. cbn [length]. lia. }
  assert (same_outside (tab - 8) 8 m2 m') as Hm'.
  { intros x Hx. unfold m'. rewrite store_words_eq. apply store_bytes_out; [done|exact Hx]. }
  assert (bytes_at m' (tab - 8) (words_bytes [argc; tab])) as Hhdr.
  { unfold m'. rewrite store_words_eq. by apply bytes_at_store, words_bytes_byte. }
  assert (bytes_at m' tab (words_bytes (addrs ++ [0]))) as Htab'.
  { apply (bytes_at_frame m2 _ _ _ (tab - 8) 8); [done|done|right; lia]. }
  assert (same_outside (tab - 8) (sp - (tab - 8)) m1 m') as Hall.
  { eapply (same_outside_trans _ _ tab (sp - tab) (tab - 8) 8); [done|done|lia..]. }
  split; [|done].
  assert (Forall is_u32 [argc; tab]) as Hu by (repeat constructor; unfold is_u32; lia).
  assert (Forall is_u32 (addrs ++ [0])) as Hua.
  { apply Forall_app_2; [|by repeat constructor]. apply Forall_lookup_2. intros i a Hi.
    destruct (Hs i a Hi) as (? & ? & _). unfold is_u32.
    assert (0 <= str_len (arg_string argv i)) by (rewrite str_len_spec; lia). lia. }
  assert (fits (tab - 8) (4 * Z.of_nat (length [argc; tab]))) as Hfh4 by (cbn [length]; split; lia).
  assert (fits tab (4 * Z.of_nat (length (addrs ++ [0])))) as Hft4.
  { rewrite length_app. cbn [length]. split; lia. }
  constructor.
  - assert (tab = 4 * (sp / 4) - 4 * (argc + 1)) as ->.
    { unfold tab. pose proof (Z.div_mod sp 4 ltac:(lia)). lia. }
    mlia.
  - lia.
  - pose proof (words_at_lookup m' (tab - 8) [argc; tab] 0 argc Hfh4 Hu Hhdr eq_refl) as Hw0.
    by rewrite Z.mul_0_r, Z.add_0_r in Hw0.
  - pose proof (words_at_lookup m' (tab - 8) [argc; tab] 1 tab Hfh4 Hu Hhdr eq_refl) as Hw1.
    replace (tab - 8 + 4) with (tab - 8 + 4 * Z.of_nat 1) by lia. lia.
  - replace (tab - 8 + 8 + 4 * argc) with (tab + 4 * Z.of_nat (length addrs)) by lia.
    apply (words_at_lookup m' tab (addrs ++ [0])); [done..|].
    by rewrite lookup_app_r, Nat.sub_diag by lia.
  - intros i Hi. assert (i < length addrs)%nat as Hlt by lia.
    apply lookup_lt_is_Some in Hlt as [a Ha]. destruct (Hs i a Ha) as (Ha1 & Ha2 & Ha3).
    exists a. split_and!; [|lia|lia|].
    + replace (tab - 8 + 8) with tab by lia.
      apply (words_at_lookup m' tab (addrs ++ [0])); [done..|]. by apply lookup_app_l_Some.
    + apply (bytes_at_frame m1 _ _ _ (tab - 8) (sp - (tab - 8))); [done|done|right; lia].
Qed.

Lemma elf_execute_prepare_spec user_stacks user_images m image pid argc argv m' r :
  layout user_stacks user_images -> image_ok user_stacks image -> args_ok argv -> 0 <= pid ->
  elf_execute_prepare m image pid argc argv = (m', r) ->
  same_outside (user_stack_base image) (user_stack_size image) m m' /\
  (image_base image <= entry image < image_base image + image_size image ->
   args_total argv (Z.to_nat (clamp_argc argc)) <= ELF_STACK_SIZE - 128 -> exists x, r = inr x) /\
  match r with
  | inl _ => True
  | inr (eip, sp) =>
      eip = entry image /\ image_base image <= eip < image_base image + image_size image /\
      stack_frame m' image argv (clamp_argc argc) sp
  end.
Proof.
  intros Hly Hio Ha Hp. unfold elf_execute_prepare.
  destruct (io_stack _ _ Hio) as (slot & Hslot & Hbase).
  pose proof (stack_addr_range _ _ Hly slot Hslot) as [Hb0 Hb1]. rewrite <- Hbase in Hb0, Hb1.
  pose proof (io_stack_size _ _ Hio) as Hsz. destruct Hio as [Hld Hb Hz He _ _].
  rewrite Hld, (proj2 (Z.ltb_ge pid 0) Hp). cbn [negb orb].
  unfold ELF_USER_IMAGE_BASE, ELF_USER_IMAGE_MAX, ELF_STACK_SIZE in *.
  rewrite (u32_small (image_base image + image_size image)) by lia.
  destruct (_ || (_ <=? entry image)) eqn:E1.
  { intros [= <- <-]. split; [apply same_outside_refl|]. split; [|done].
    intros ? _. apply orb_true_iff in E1 as [E1|E1]; zify_bool; lia. }
  destruct (user_stack_size image <? 64) eqn:E2; zify_bool; [lia|].
  pose proof (clamp_argc_range argc) as Hc. unfold ELF_ARG_MAX in Hc.
  set (n := clamp_argc argc) in *.
  rewrite (u32_small (user_stack_base image + user_stack_size image)) by lia.
  destruct (push_args _ _ _ _ _ _) as [m1 [e|[sp addrs]]] eqn:Ep;
    eapply push_args_spec in Ep as (Hfr & Hok & Hres); try done; try lia.
  { intros [= <- <-]. split; [|split; [|done]].
    - intros x Hx. apply Hfr. lia.
    - intros _ Ht. destruct Hok; [lia..|done]. }
  destruct Hres as (new & -> & Hge & Hpu). rewrite app_nil_r.
  pose proof (pu_sp _ _ _ _ _ _ _ Hpu) as Hsp. pose proof (args_total_pos argv (Z.to_nat n)).
  change (u32 (Z.lnot 3)) with (u32 (Z.lnot (2 ^ 2 - 1))).
  rewrite land_lnot_mask by lia. change (2 ^ 2) with 4.
  assert (0 <= sp `mod` 4 < 4) as Hmod by (apply Z.mod_pos_bound; lia).
  rewrite (u32_small (n + 1)), (u32_small ((n + 1) * 4)), (u32_small (user_stack_base image + _)), u32_small by lia.
  destruct (_ <? _ + 8) eqn:E3; zify_bool.
  { intros [= <- <-]. split; [intros x Hx; apply Hfr; lia|]. split; [intros _ Ht; lia|done]. }
  rewrite (u32_small (sp - sp `mod` 4 - _)), (u32_small (user_stack_base image + 8)) by lia.
  destruct (_ <? user_stack_base image + 8) eqn:E4; zify_bool; [lia|].
  rewrite (u32_small (_ - 8)), (u32_small n) by lia.
  intros [= <- <-].
  replace ((n + 1) * 4) with (4 * (n + 1)) by lia.
  destruct (stack_tables m m1 image argv n _ sp new Hc Hb0 eq_refl ltac:(lia) Hpu ltac:(lia)) as [Hsf Hso].
  split; [|split; [by eexists|]].
  - eapply (same_outside_trans _ _ (user_stack_base image) (user_stack_size image) _ _ m m1 _);
      [intros x Hx; apply Hfr; lia|exact Hso|lia..].
  - split_and!; [done|lia|lia|exact Hsf].
Qed.

(** ** Writing into another task *)

Section write.
Context {P : Type} `{ProcOps P}.
Context (user_stacks user_images : Z).
Hypothesis Hlayout : layout user_stacks user_images.
Implicit Types (ps : P) (es : elf_st).

(** The address a task's bytes at [dst] are kept at while it does not run: its
    shadow copy for the image, the place itself for the stack. *)
Definition task_place (image : proc_image) (slot : nat) (dst len : Z) : option Z :=
  if (image_base image <=? dst) && (dst + len <=? image_base image + image_size image)
  then Some (shadow_addr user_images slot + (dst - image_base image))
  else if (user_stack_base image <=? dst) &&
          (dst + len <=? user_stack_base image + user_stack_size image)
  then Some dst else None.

Lemma task_place_range image slot dst len a :
  image_ok user_stacks image -> (slot < ELF_PROC_SLOTS)%nat -> 0 < len ->
  task_place image slot dst len = Some a ->
  fits a len /\
  ((shadow_addr user_images slot <= a /\ a + len <= shadow_addr user_images slot + ELF_USER_IMAGE_MAX) \/
   (user_stack_base image <= a /\ a + len <= user_stack_base image + ELF_STACK_SIZE)).
Proof using Hlayout.
  intros Hio Hs Hl. unfold task_place.
  destruct (shadow_addr_range _ _ Hlayout slot Hs) as [? ?].
  destruct (io_stack _ _ Hio) as (k & Hk & Hbase).
  pose proof (stack_addr_range _ _ Hlayout k Hk) as [? ?]. rewrite <- Hbase in *.
  destruct Hio as [_ ? ? ? _ Hsz]. unfold fits, ELF_USER_IMAGE_BASE, ELF_USER_IMAGE_MAX, ELF_STACK_SIZE in *.
  repeat split_if; intros [= <-]; lia.
Qed.

Lemma elf_write_spec ps es m pid dst src es1 slot image :
  0 <= pid -> is_u32 dst -> 0 < Z.of_nat (length src) < 4294967296 ->
  image_of ps pid = Some image -> image_ok user_stacks image ->
  elf_slot_for_pid ps es pid = (es1, Some slot) -> (slot < ELF_PROC_SLOTS)%nat ->
  elf_write_to_task_memory user_images ps es m pid dst src =
    match task_place image slot dst (Z.of_nat (length src)) with
    | Some a => (es1, store_bytes m a src, true)
    | None => (es1, m, false)
    end.
Proof using Hlayout.
  intros Hp Hd Hl Him Hio Hslot Hlt. unfold elf_write_to_task_memory, task_place.
  rewrite (proj2 (Z.ltb_ge pid 0) Hp), (proj2 (Z.eqb_neq _ 0)) by lia.
  cbn [orb]. rewrite Him, (io_loaded _ _ Hio), Hslot. cbn [negb].
  set (len := Z.of_nat (length src)) in *.
  destruct (io_stack _ _ Hio) as (k & Hk & Hbase).
  pose proof (stack_addr_range _ _ Hlayout k Hk) as [? ?]. rewrite <- Hbase in *.
  destruct Hio as [_ ? ? ? _ Hsz].
  unfold ELF_USER_IMAGE_BASE, ELF_USER_IMAGE_MAX, ELF_STACK_SIZE in *.
  rewrite (u32_small (image_base image + _)), (u32_small (user_stack_base image + _)) by lia.
  assert ((dst <=? u32 (dst + len)) = (dst + len <? 4294967296)) as Hw.
  { pose proof (u32_wrap_test dst len ltac:(done) ltac:(lia)). lia. }
  rewrite Hw. unfold is_u32 in Hd.
  destruct (Z.lt_ge_cases (dst + len) 4294967296) as [Hsm|Hbig].
  - rewrite (proj2 (Z.ltb_lt _ _)), !andb_true_r, (u32_small (dst + len)) by lia.
    destruct ((image_base image <=? dst) && _) eqn:E1; zify_bool.
    + by rewrite u32_small by lia.
    + by destruct ((user_stack_base image <=? dst) && _).
  - rewrite (proj2 (Z.ltb_ge _ _)), !andb_false_r by lia. cbn [andb].
    rewrite (proj2 (Z.leb_gt (dst + len) (image_base image + _))), andb_false_r by lia.
    by rewrite (proj2 (Z.leb_gt (dst + len) (user_stack_base image + _))), andb_false_r by lia.
Qed.

End write.

(** ** Theorems *)

(** a load plan that the loader accepts keeps the program inside the
    reserved window and each segment inside the file and the window, provided
    the 32-bit sums of that segment do not wrap around: the image lies in the
    window whatever the file contains, a plan has one to eight segments, and
    every segment either is inside or has a sum of at least 2^32. *)
Theorem elf_plan_bounds m data size plan :
  mem_ok m -> elf_prepare_load_plan m (Some (data, size)) = inr plan ->
  plan_valid plan = true /\ 0 < plan_image_size plan /\
  1 <= Z.of_nat (length (segments plan)) <= EXEC_MAX_SEGMENTS /\
  ELF_USER_IMAGE_BASE <= plan_image_base plan /\
  plan_image_base plan + plan_image_size plan <= ELF_USER_IMAGE_BASE + ELF_USER_IMAGE_MAX /\
  forall i s, segments plan !! i = Some s ->
    seg_inside size (plan_image_base plan) (plan_image_base plan + plan_image_size plan) s \/
    4294967296 <= file_offset s + file_size s \/ 4294967296 <= vaddr s + mem_size s.
Proof.
  intros Hm Hp. destruct (elf_plan_checked _ _ _ _ Hm Hp) as (? & _ & ? & ? & ? & ? & Hs).
  split_and!; try done; try lia. intros i s Hi.
  pose proof (Forall_lookup_1 _ _ _ _ Hs Hi) as Hc.
  destruct (Z.lt_ge_cases (file_offset s + file_size s) 4294967296); [|right; left; lia].
  destruct (Z.lt_ge_cases (vaddr s + mem_size s) 4294967296); [|right; right; lia].
  left. by apply seg_checked_inside.
Qed.

(** A small program file: one [PT_LOAD] header of the given size and place. *)
Definition elf_file (phnum : Z) (phs : list Z) : list Z :=
  [0x7F; 69; 76; 70; 1; 1; 1; 0; 0; 0; 0; 0; 0; 0; 0; 0; 2; 0; 3; 0] ++
  words_bytes [1; 0x00300000; 52; 0; 0] ++
  [52; 0; 32; 0; phnum; 0; 0; 0; 0; 0; 0; 0] ++ words_bytes phs.

Definition elf_file_mem (l : list Z) : mem := store_bytes mem_empty 4096 l.

Lemma elf_file_mem_ok l : mem_ok (elf_file_mem l).
Proof. apply store_bytes_ok. intros x. unfold is_byte, mem_empty. lia. Qed.

Definition good_elf : list Z := elf_file 1 [1; 0; 0x00300000; 0; 84; 200; 5; 4096].

Lemma elf_plan_bounds_witness :
  exists plan, elf_prepare_load_plan (elf_file_mem good_elf) (Some (4096, 84)) = inr plan /\
    plan_image_base plan + plan_image_size plan <= ELF_USER_IMAGE_BASE + ELF_USER_IMAGE_MAX.
Proof.
  eexists. split; [vm_compute; reflexivity|].
  eapply (elf_plan_bounds (elf_file_mem good_elf) 4096 84).
  - apply elf_file_mem_ok.
  - vm_compute. reflexivity.
Defined.

(** The wrap-around is reachable: a 116-byte file whose second segment starts
    16 bytes before the end of the window, has 32 bytes of file data and a
    memory size of 2^32 - 1. *)
Definition wrap_elf : list Z :=
  elf_file 2 ([1; 0; 0x00300000; 0; 84; 0x20000; 5; 4096] ++
              [1; 0; 0x0031FFF0; 0; 32; 0xFFFFFFFF; 5; 4096]).

Definition wrap_seg : exec_segment := {|
  file_offset := 0; file_size := 32; mem_size := 0xFFFFFFFF; vaddr := 0x0031FFF0; seg_flags := 5 |}.

Definition wrap_plan : exec_load_plan := {|
  plan_valid := true; plan_entry := 0x00300000; plan_image_base := 0x00300000;
  plan_image_size := 0x20000;
  segments := [{| file_offset := 0; file_size := 84; mem_size := 0x20000;
                  vaddr := 0x00300000; seg_flags := 5 |}; wrap_seg] |}.

(** What [elf_load_from_plan] makes of [wrap_plan] in a fresh system. *)
Definition wrap_loaded : mem :=
  snd (fst (elf_load_from_plan 0x20000 (proc_init proc_boot_zero)
              {| slot_owner_pid := replicate 8 0; slots_initialized := false |}
              (elf_file_mem wrap_elf) 0 wrap_plan 4096 116)).

(** the bounds check of the load plan is defeated by 32-bit wrap-around:
    the plan of [wrap_elf] is accepted, although its second segment ends
    outside the window, and the loader then overwrites the memory behind the
    window (here the byte right behind the window, which was 0, gets a byte of
    the file). *)
Theorem elf_plan_wraps :
  elf_prepare_load_plan (elf_file_mem wrap_elf) (Some (4096, 116)) = inr wrap_plan /\
  ELF_USER_IMAGE_BASE + ELF_USER_IMAGE_MAX < vaddr wrap_seg + file_size wrap_seg /\
  elf_file_mem wrap_elf (ELF_USER_IMAGE_BASE + ELF_USER_IMAGE_MAX) = 0 /\
  wrap_loaded (ELF_USER_IMAGE_BASE + ELF_USER_IMAGE_MAX) = 2.
Proof.
  split_and!; [vm_compute; reflexivity..|].
  assert (wrap_loaded = copy_loop 32 (copy_loop 84
            (mem_zero (elf_file_mem wrap_elf) ELF_USER_IMAGE_BASE ELF_USER_IMAGE_MAX)
            0x00300000 4096) 0x0031FFF0 4096) as ->.
  { unfold wrap_loaded. cbv -[mem_zero copy_loop elf_file_mem]. reflexivity. }
  change (ELF_USER_IMAGE_BASE + ELF_USER_IMAGE_MAX) with 0x00320000.
  rewrite copy_loop_in by (unfold fits; lia).
  rewrite copy_loop_out by (unfold fits; lia).
  rewrite window_zero. vm_compute. reflexivity.
Qed.

Section elf_slots.
Context {P : Type} `{ProcOps P}.
Implicit Types (ps : P) (es : elf_st).

Lemma elf_slot_owned ps es pid slot :
  slots_ok es -> 0 <= pid -> owners es !! slot = Some pid ->
  exists es', elf_slot_for_pid ps es pid = (es', Some slot) /\ owners es' = owners es.
Proof.
  intros Hok Hp Hs. unfold elf_slot_for_pid. fold (owners es).
  rewrite (first_slot_unique _ _ slot pid); [|done|apply Z.eqb_refl|].
  - eexists. split; [done|]. apply owners_init.
  - intros j y Hj Hy. zify_bool. subst y. by apply (so_uniq _ Hok j slot pid).
Qed.

(** an image slot belongs to one process for as long as that process
    exists.  A call either gives the process the one slot it owns, or a slot
    whose owner does not exist any more, and leaves the slots of all others as
    they were; it fails only when eight other existing processes own the
    eight slots. *)
Theorem elf_slots_exclusive ps es pid es' r :
  slots_ok es -> 0 <= pid -> elf_slot_for_pid ps es pid = (es', r) ->
  slots_ok es' /\
  (forall i q, owners es !! i = Some q -> 0 <= q -> state_of ps q <> PROC_UNUSED ->
     owners es' !! i = Some q) /\
  match r with
  | Some i => (i < ELF_PROC_SLOTS)%nat /\ owners es' !! i = Some pid
  | None => owners es' = owners es /\
      forall i o, owners es !! i = Some o -> o <> pid /\ 0 <= o /\ state_of ps o <> PROC_UNUSED
  end.
Proof.
  intros Hok Hp Hs. destruct (elf_slot_spec _ _ _ _ _ Hok Hp Hs) as [Hok' Hr].
  split; [done|]. destruct r as [i|].
  - destruct Hr as (Ho & Hi & Hwas). split.
    + intros j q Hj Hq Hl. rewrite Ho. destruct (decide (i = j)) as [-> |].
      * destruct Hwas as [Heq|(o & Heq & Hd)]; simplify_eq; [|destruct Hd; [lia|done]].
        apply list_lookup_insert_eq. by rewrite (so_len _ Hok).
      * by rewrite list_lookup_insert_ne.
    + split; [done|]. rewrite Ho. apply list_lookup_insert_eq. by rewrite (so_len _ Hok).
  - destruct Hr as [Ho Hall]. split; [by rewrite Ho|]. by split.
Qed.

End elf_slots.

Definition slots_boot : elf_st := {| slot_owner_pid := replicate 8 0; slots_initialized := false |}.

Lemma slots_boot_ok : slots_ok slots_boot.
Proof.
  constructor; [done|]. intros i j o Ho Hi. exfalso.
  apply list_elem_of_lookup_2 in Hi. cbn in Hi. set_unfold in Hi. lia.
Qed.

Lemma elf_slots_exclusive_witness :
  owners (fst (elf_slot_for_pid (proc_init proc_boot_zero) slots_boot 3)) !! 0%nat = Some 3.
Proof.
  apply (elf_slots_exclusive (proc_init proc_boot_zero) slots_boot 3 _ (Some 0%nat)).
  - exact slots_boot_ok.
  - lia.
  - vm_compute. reflexivity.
Defined.

Section elf_thms.
Context {P : Type} `{ProcOps P}.
Implicit Types (ps : P) (es : elf_st).

(** loading a program fills the window with exactly the program: every
    byte of the window is the file's byte that the last covering segment names,
    or zero, and no byte outside the window changes.  It succeeds whenever a
    slot can be had, and the process image it yields is the plan's, with the
    stack of that slot. *)
Theorem elf_load_exact user_stacks user_images ps es m pid plan fd fsize es' slot :
  layout user_stacks user_images -> slots_ok es ->
  mem_ok m -> plan_valid plan = true -> 0 <= pid -> fd <> 0 -> file_outside fd fsize ->
  ELF_USER_IMAGE_BASE <= plan_image_base plan -> 0 <= plan_image_size plan ->
  plan_image_base plan + plan_image_size plan <= ELF_USER_IMAGE_BASE + ELF_USER_IMAGE_MAX ->
  Forall (seg_inside fsize ELF_USER_IMAGE_BASE (ELF_USER_IMAGE_BASE + ELF_USER_IMAGE_MAX)) (segments plan) ->
  elf_slot_for_pid ps es pid = (es', Some slot) ->
  exists m' image,
    elf_load_from_plan user_stacks ps es m pid plan fd fsize = (es', m', inr image) /\
    image_ok user_stacks image /\ entry image = plan_entry plan /\
    image_base image = plan_image_base plan /\ image_size image = plan_image_size plan /\
    user_stack_base image = stack_addr user_stacks slot /\ context_valid image = false /\
    forall x, m' x = if window x then segs_byte m fd (segments plan) 0 x else m x.
Proof.
  intros Hly Hok Hm Hv Hp Hfd Hfo Hb Hsz He Hs Hslot.
  destruct (elf_slot_spec _ _ _ _ _ Hok Hp Hslot) as [_ (_ & Hlt & _)].
  by apply (elf_load_spec _ user_images Hly ps es m pid plan fd fsize es' slot).
Qed.

(** a suspended program resumes with the memory it had.  After a
    successful snapshot, whatever else runs in the window and whatever else is
    written to memory, as long as the shadow copy and its owner are left alone,
    resuming puts back every byte of the image, clears the rest of the window
    and changes nothing else; it hands over the saved registers. *)
Theorem elf_suspend_resume user_stacks user_images ps es m pid image es1 m1 :
  layout user_stacks user_images -> slots_ok es -> mem_ok m -> 0 <= pid ->
  image_ok user_stacks image ->
  elf_snapshot_image user_images ps es m pid image = (es1, m1, true) ->
  exists slot, owners es1 !! slot = Some pid /\
    (forall x, ~ shadow_addr user_images slot <= x < shadow_addr user_images slot + image_size image ->
       m1 x = m x) /\
    forall ps2 es2 m2 image2,
      slots_ok es2 -> owners es2 !! slot = Some pid -> mem_ok m2 ->
      (forall x, shadow_addr user_images slot <= x < shadow_addr user_images slot + image_size image ->
         m2 x = m1 x) ->
      image_ok user_stacks image2 -> context_valid image2 = true ->
      image_base image2 = image_base image -> image_size image2 = image_size image ->
      exists es3 m3, elf_resume_prepare user_images ps2 es2 m2 image2 pid = (es3, m3, inr (context image2)) /\
        forall x, m3 x = if in_range (image_base image) (image_size image) x then m x
                         else if window x then 0 else m2 x.
Proof.
  intros Hly Hok Hm Hp Hio Hsnap.
  destruct (elf_slot_for_pid ps es pid) as [es1' [slot|]] eqn:Hslot.
  2:{ unfold elf_snapshot_image in Hsnap.
      rewrite (io_loaded _ _ Hio), (proj2 (Z.ltb_ge pid 0) Hp), (image_ok_window _ _ Hio), Hslot in Hsnap.
      by cbn in Hsnap. }
  destruct (elf_slot_spec _ _ _ _ _ Hok Hp Hslot) as [_ (Ho & Hlt & _)].
  destruct (elf_snapshot_spec _ _ Hly ps es m pid image es1' slot) as (m1' & Hs & _ & Hx); [done..|].
  rewrite Hsnap in Hs. simplify_eq. exists slot. split_and!.
  - rewrite Ho. apply list_lookup_insert_eq. by rewrite (so_len _ Hok).
  - intros x Hn. rewrite Hx. by rewrite (proj2 (in_range_false _ _ _)).
  - intros ps2 es2 m2 image2 Hok2 Ho2 Hm2 Hag Hio2 Hc2 Hb2 Hz2.
    destruct (elf_slot_owned ps2 es2 pid slot Hok2 Hp Ho2) as (es3 & Hslot2 & _).
    destruct (elf_resume_spec _ _ Hly ps2 es2 m2 pid image2 es3 slot) as (m3 & -> & Hx3); [done..|].
    exists es3, m3. split; [done|]. intros x. rewrite Hx3, Hb2, Hz2.
    destruct (in_range (image_base image) (image_size image) x) eqn:E; [|done].
    apply in_range_spec in E. rewrite Hag by lia. rewrite Hx.
    rewrite (proj2 (in_range_spec _ _ _)) by lia. f_equal. lia.
Qed.

(** C21: writing into another task's memory ([elf_write_to_task_memory]) never
    leaves that task: it succeeds exactly when the range lies, without
    wrap-around, in the task's image or in its stack and the task has a slot,
    and then changes exactly those bytes, in the shadow copy of the slot or in
    the stack. *)
Theorem elf_write_confined user_stacks user_images ps es m pid dst src image es' m' b :
  layout user_stacks user_images -> slots_ok es -> 0 <= pid -> is_u32 dst ->
  0 < Z.of_nat (length src) < 4294967296 -> all_bytes src ->
  image_of ps pid = Some image -> image_ok user_stacks image ->
  elf_write_to_task_memory user_images ps es m pid dst src = (es', m', b) ->
  slots_ok es' /\
  if b then exists slot a, owners es' !! slot = Some pid /\
         task_place user_images image slot dst (Z.of_nat (length src)) = Some a /\
         bytes_at m' a src /\ same_outside a (Z.of_nat (length src)) m m'
  else m' = m /\
       (snd (elf_slot_for_pid ps es pid) = None \/
        forall slot, task_place user_images image slot dst (Z.of_nat (length src)) = None).
Proof.
  intros Hly Hok Hp Hd Hl Hb Him Hio Hw.
  destruct (elf_slot_for_pid ps es pid) as [es1 [slot|]] eqn:Hslot;
    destruct (elf_slot_spec _ _ _ _ _ Hok Hp Hslot) as [Hok1 Hr].
  - destruct Hr as (Ho & Hlt & _).
    rewrite (elf_write_spec _ _ Hly ps es m pid dst src es1 slot image) in Hw by done.
    destruct (task_place user_images image slot dst (Z.of_nat (length src))) as [a|] eqn:Ep; simplify_eq.
    + split; [done|]. exists slot, a.
      destruct (task_place_range _ _ Hly image slot dst _ a Hio Hlt (proj1 Hl) Ep) as [Hf _].
      split_and!; [|done|by apply bytes_at_store|by apply same_outside_store].
      rewrite Ho. apply list_lookup_insert_eq. by rewrite (so_len _ Hok).
    + split; [done|]. split; [done|]. right. intros k. revert Ep. unfold task_place.
      by repeat split_if.
  - unfold elf_write_to_task_memory in Hw. cbv zeta in Hw.
    rewrite (proj2 (Z.ltb_ge pid 0)), (proj2 (Z.eqb_neq (Z.of_nat (length src)) 0)) in Hw by lia.
    rewrite Him, (io_loaded _ _ Hio), Hslot in Hw.
    cbn in Hw. simplify_eq. split; [done|]. split; [done|]. by left.
Qed.

End elf_thms.

(** C20: when a program is started, its stack holds its arguments: the stack
    pointer is word aligned and inside the stack, points to [argc] and to the
    address of [argv], each [argv[i]] is the address of a terminated copy of
    the i-th string, [argv[argc]] is null, and no memory outside the stack
    changed.  A start never fails for lack of room while the strings take at
    most 3968 bytes, and a program never starts outside its image. *)
Theorem elf_stack_layout user_stacks user_images m image pid argc argv m' r :
  layout user_stacks user_images -> image_ok user_stacks image -> args_ok argv -> 0 <= pid ->
  elf_execute_prepare m image pid argc argv = (m', r) ->
  same_outside (user_stack_base image) (user_stack_size image) m m' /\
  (image_base image <= entry image < image_base image + image_size image ->
   args_total argv (Z.to_nat (clamp_argc argc)) <= ELF_STACK_SIZE - 128 -> exists x, r = inr x) /\
  match r with
  | inl _ => True
  | inr (eip, sp) =>
      eip = entry image /\ image_base image <= eip < image_base image + image_size image /\
      stack_frame m' image argv (clamp_argc argc) sp
  end.
Proof. apply elf_execute_prepare_spec. Qed.

(** ** Witnesses: a small program in a small layout *)

Definition demo_stacks : Z := 0x20000.
Definition demo_images : Z := 0x30000.

Lemma demo_layout : layout demo_stacks demo_images.
Proof.
  unfold demo_stacks, demo_images.
  constructor; unfold ELF_STACK_SIZE, ELF_USER_IMAGE_MAX, ELF_USER_IMAGE_BASE; lia.
Qed.

Definition good_plan : exec_load_plan := {|
  plan_valid := true; plan_entry := 0x00300000; plan_image_base := 0x00300000;
  plan_image_size := 200;
  segments := [{| file_offset := 0; file_size := 84; mem_size := 200;
                  vaddr := 0x00300000; seg_flags := 5 |}] |}.

Definition demo_image : proc_image := {|
  loaded := true; entry := 0x00300000; image_base := 0x00300000; image_size := 200;
  user_stack_base := demo_stacks; user_stack_size := 4096; img_cwd := 0;
  output := CONSOLE_VGA; context_valid := true; context := set_eax 7 user_context_zero |}.

Lemma demo_image_ok : image_ok demo_stacks demo_image.
Proof.
  constructor; [reflexivity|vm_compute; discriminate..| |reflexivity].
  exists 0%nat. unfold ELF_PROC_SLOTS. split; [lia|reflexivity].
Qed.

Definition demo_procs : proc_st :=
  fst (proc_bind_image (fst (proc_spawn_kernel (proc_init proc_boot_zero) None 0)) 1 demo_image).

Lemma elf_load_exact_witness :
  elf_prepare_load_plan (elf_file_mem good_elf) (Some (4096, 84)) = inr good_plan /\
  exists m' image,
    elf_load_from_plan demo_stacks demo_procs slots_boot (elf_file_mem good_elf) 1 good_plan 4096 84
      = (fst (elf_slot_for_pid demo_procs slots_boot 1), m', inr image) /\
    m' 0x00300001 = 69 /\ m' 0x00300060 = 0.
Proof.
  split; [vm_compute; reflexivity|].
  destruct (elf_load_exact demo_stacks demo_images demo_procs slots_boot (elf_file_mem good_elf)
              1 good_plan 4096 84 (fst (elf_slot_for_pid demo_procs slots_boot 1)) 0)
    as (m' & image & Hl & _ & _ & _ & _ & _ & _ & Hx).
  - exact demo_layout.
  - exact slots_boot_ok.
  - apply elf_file_mem_ok.
  - reflexivity.
  - lia.
  - lia.
  - unfold file_outside, ELF_USER_IMAGE_BASE. lia.
  - vm_compute. discriminate.
  - vm_compute. discriminate.
  - vm_compute. discriminate.
  - constructor; [|constructor]. constructor; cbn; unfold ELF_USER_IMAGE_BASE, ELF_USER_IMAGE_MAX; lia.
  - vm_compute. reflexivity.
  - exists m', image. split; [exact Hl|]. split; rewrite Hx; vm_compute; reflexivity.
Defined.

Lemma elf_suspend_resume_witness :
  exists es1 m1, elf_snapshot_image demo_images demo_procs slots_boot
                   (elf_file_mem good_elf) 1 demo_image = (es1, m1, true) /\
  exists slot, owners es1 !! slot = Some 1.
Proof.
  destruct (elf_snapshot_spec demo_stacks demo_images demo_layout demo_procs slots_boot
              (elf_file_mem good_elf) 1 demo_image (fst (elf_slot_for_pid demo_procs slots_boot 1)) 0)
    as (m1 & E & _).
  { apply elf_file_mem_ok. }
  { lia. }
  { exact demo_image_ok. }
  { vm_compute. reflexivity. }
  { unfold ELF_PROC_SLOTS. lia. }
  set (es1 := fst (elf_slot_for_pid demo_procs slots_boot 1)) in *.
  exists es1, m1. split; [exact E|].
  destruct (elf_suspend_resume demo_stacks demo_images demo_procs slots_boot
              (elf_file_mem good_elf) 1 demo_image es1 m1) as (slot & Ho & _).
  - exact demo_layout.
  - exact slots_boot_ok.
  - apply elf_file_mem_ok.
  - lia.
  - exact demo_image_ok.
  - exact E.
  - exists slot. exact Ho.
Defined.

Lemma elf_write_confined_witness :
  exists es' m', elf_write_to_task_memory demo_images demo_procs slots_boot mem_empty 1
                   (demo_stacks + 4088) [1; 2; 3; 4; 5; 6; 7; 8] = (es', m', true) /\ slots_ok es'.
Proof.
  eexists _, _. split; [vm_compute; reflexivity|].
  eapply (elf_write_confined demo_stacks demo_images demo_procs slots_boot mem_empty 1
           (demo_stacks + 4088) [1; 2; 3; 4; 5; 6; 7; 8] demo_image).
  - exact demo_layout.
  - exact slots_boot_ok.
  - lia.
  - unfold is_u32, demo_stacks. lia.
  - cbn [length]. lia.
  - repeat constructor; unfold is_byte; lia.
  - vm_compute. reflexivity.
  - exact demo_image_ok.
  - vm_compute. reflexivity.
Defined.

Definition demo_argv : list (option (list Z)) := [Some (lit "echo"); Some (lit "hi"); None].

Definition demo_start : mem * elf_result (Z * Z) :=
  elf_execute_prepare mem_empty demo_image 1 3 demo_argv.

Lemma elf_stack_layout_witness :
  snd demo_start = inr (0x00300000, demo_stacks + 4096 - 36) /\
  stack_frame (fst demo_start) demo_image demo_argv 3 (demo_stacks + 4096 - 36).
Proof.
  assert (snd demo_start = inr (0x00300000, demo_stacks + 4096 - 36)) as E by (vm_compute; reflexivity).
  split; [exact E|].
  destruct (elf_stack_layout demo_stacks demo_images mem_empty demo_image 1 3 demo_argv
              (fst demo_start) (snd demo_start)) as (_ & _ & Hsf).
  - exact demo_layout.
  - exact demo_image_ok.
  - intros [|[|[|i]]]; (split; [repeat constructor; unfold is_byte; lia|vm_compute; reflexivity]).
  - lia.
  - apply surjective_pairing.
  - rewrite E in Hsf. exact (proj2 (proj2 Hsf)).
Defined.
