(* ===== verification/Core.v ===== *)
(** * Core: tasks, processes, images and memory together

    [core] joins the state that the message queues and the system calls share:
    the task and process tables (Sched.v, Proc.v), the image slots (Elf.v) and
    the memory (Memory.v).  [TaskOps] names what the message queues call on it,
    [TaskLaws] states what delivering a message relies on, and the last section
    proves these laws for [core].

    [Linker] is what the linker script decides: where the arrays and the kernel
    itself are. *)
From S2P Require Import Prelude KernelH Util Memory Proc Sched Iface Elf.
Local Open Scope Z_scope.

Class Linker := {
  user_stacks : Z;
  user_images : Z;
  kernel_start : Z;
  kernel_end : Z;
  linker_layout : layout user_stacks user_images;
  linker_kernel : 0 < kernel_start <= kernel_end /\ kernel_end + 15 < 4294967296;
  (** the arrays are part of the kernel image *)
  linker_arrays : user_stacks + 8 * ELF_STACK_SIZE <= kernel_end /\
                  user_images + 8 * ELF_USER_IMAGE_MAX <= kernel_end
}.

(** ** The interface of the message queues *)

Class TaskOps (S : Type) `{ProcOps S} := {
  (** [elf_write_to_task_memory] *)
  write_task : S -> Z -> Z -> list Z -> S * bool;
  (** [task_set_state] *)
  set_tstate : S -> Z -> task_state -> S
}.

(** [image.context.eax = 0; proc_bind_image; task_set_state(READY);
    proc_set_state(READY)]: how a blocked receiver is woken. *)
Definition wake {S} `{TaskOps S} (s : S) (pid : Z) (image : proc_image) : S :=
  let s := fst (bind_image s pid (set_context (set_eax 0 (context image)) image)) in
  let s := set_tstate s pid TASK_READY in
  set_pstate s pid PROC_READY.

Class TaskLaws (S : Type) `{TaskOps S} := {
  task_ok : S -> Prop;
  (** the bytes the task will see at an address of its own when it runs *)
  read_task : S -> Z -> Z -> nat -> option (list Z);
  write_task_ok s pid dst l s' b :
    task_ok s -> 0 <= pid -> is_u32 dst -> 0 < Z.of_nat (length l) < 4294967296 ->
    all_bytes l -> write_task s pid dst l = (s', b) ->
    task_ok s' /\ (forall q, state_of s' q = state_of s q) /\
    (forall q, image_of s' q = image_of s q) /\
    (b = true -> read_task s' pid dst (length l) = Some l);
  wake_ok s pid image :
    task_ok s -> 0 <= pid -> image_of s pid = Some image -> loaded image = true ->
    let s' := wake s pid image in
    task_ok s' /\ state_of s' pid = PROC_READY /\
    (forall q, q <> pid -> state_of s' q = state_of s q) /\
    image_of s' pid = Some (set_context (set_eax 0 (context image)) image) /\
    (forall q, q <> pid -> image_of s' q = image_of s q) /\
    (forall q a n, read_task s' q a n = read_task s q a n)
}.

(** ** The implementation *)

Record core := {
  c_sched : sched;
  c_elf : elf_st;
  c_mem : mem
}.

Definition c_procs (c : core) : proc_st := sprocs (c_sched c).

Definition with_c_procs (ps : proc_st) (c : core) : core :=
  {| c_sched := with_procs ps (c_sched c); c_elf := c_elf c; c_mem := c_mem c |}.
Definition with_c_sched (st : sched) (c : core) : core :=
  {| c_sched := st; c_elf := c_elf c; c_mem := c_mem c |}.
Definition with_c_mem (m : mem) (c : core) : core :=
  {| c_sched := c_sched c; c_elf := c_elf c; c_mem := m |}.
Definition with_c_elf (es : elf_st) (m : mem) (c : core) : core :=
  {| c_sched := c_sched c; c_elf := es; c_mem := m |}.

#[export] Instance core_proc_ops : ProcOps core := {
  state_of c pid := proc_state_of (c_procs c) pid;
  image_of c pid := proc_get_image (c_procs c) pid;
  bind_image c pid i := let '(ps, b) := proc_bind_image (c_procs c) pid i in (with_c_procs ps c, b);
  set_pstate c pid st := with_c_procs (proc_set_state (c_procs c) pid st) c
}.

#[export] Instance core_task_ops `{Linker} : TaskOps core := {
  write_task c pid dst l :=
    let '(es, m, b) := elf_write_to_task_memory user_images (c_procs c) (c_elf c) (c_mem c) pid dst l in
    (with_c_elf es m c, b);
  set_tstate c pid st := with_c_sched (task_set_state (c_sched c) pid st) c
}.

Section core.
Context `{Linker}.
Implicit Types (c : core).

(** Every loaded image came from the loader. *)
Definition images_ok (ps : proc_st) : Prop :=
  forall pid i, proc_get_image ps pid = Some i -> loaded i = true -> image_ok user_stacks i.

Record core_ok c : Prop := {
  ck_procs : proc_inv (c_procs c);
  ck_slots : slots_ok (c_elf c);
  ck_images : images_ok (c_procs c)
}.

Definition core_read c (pid dst : Z) (n : nat) : option (list Z) :=
  image ← proc_get_image (c_procs c) pid;
  slot ← first_slot (fun o => o =? pid) (owners (c_elf c));
  a ← task_place user_images image slot dst (Z.of_nat n);
  Some (load_bytes (c_mem c) a n).

Lemma owner_slot es pid slot :
  slots_ok es -> 0 <= pid -> owners es !! slot = Some pid ->
  first_slot (fun o => o =? pid) (owners es) = Some slot.
Proof.
  intros Hok Hp Hs. apply (first_slot_unique _ _ slot pid); [done|apply Z.eqb_refl|].
  intros j y Hj Hy. zify_bool. subst y. by apply (so_uniq _ Hok j slot pid).
Qed.

Lemma task_place_ext i j slot dst len :
  image_base i = image_base j -> image_size i = image_size j ->
  user_stack_base i = user_stack_base j -> user_stack_size i = user_stack_size j ->
  task_place user_images i slot dst len = task_place user_images j slot dst len.
Proof. intros E1 E2 E3 E4. unfold task_place. by rewrite E1, E2, E3, E4. Qed.

Lemma core_write_ok c pid dst l c' b :
  core_ok c -> 0 <= pid -> is_u32 dst -> 0 < Z.of_nat (length l) < 4294967296 ->
  all_bytes l -> write_task c pid dst l = (c', b) ->
  core_ok c' /\ (forall q, state_of c' q = state_of c q) /\
  (forall q, image_of c' q = image_of c q) /\
  (b = true -> core_read c' pid dst (length l) = Some l).
Proof.
  intros Hok Hp Hd Hl Hb Hw. cbn [write_task core_task_ops] in Hw.
  destruct (elf_write_to_task_memory _ _ _ _ _ _ _) as [[es m] b'] eqn:E. simplify_eq.
  assert (slots_ok es -> core_ok (with_c_elf es m c)) as Hk.
  { intros ?. destruct Hok. by constructor. }
  assert (0 <> Z.of_nat (length l)) by lia.
  destruct (proc_get_image (c_procs c) pid) as [i|] eqn:Ei.
  2:{ unfold elf_write_to_task_memory in E. cbn [image_of proc_st_ops] in E.
      rewrite Ei in E. cbn [negb] in E. destruct (_ || _); simplify_eq; split; [apply Hk, Hok|by split_and!|apply Hk, Hok|by split_and!]. }
  destruct (loaded i) eqn:El.
  2:{ unfold elf_write_to_task_memory in E. cbn [image_of proc_st_ops] in E.
      rewrite Ei, El in E. cbn [negb] in E. destruct (_ || _); simplify_eq; split; [apply Hk, Hok|by split_and!|apply Hk, Hok|by split_and!]. }
  pose proof (ck_images _ Hok pid i Ei El) as Hio.
  destruct (elf_slot_for_pid (c_procs c) (c_elf c) pid) as [es1 [slot|]] eqn:Hslot;
    destruct (elf_slot_spec _ _ _ _ _ (ck_slots _ Hok) Hp Hslot) as [Hok1 Hr].
  2:{ unfold elf_write_to_task_memory in E. cbn [image_of proc_st_ops] in E.
      rewrite Ei, El, Hslot in E. cbn [negb] in E. destruct (_ || _); simplify_eq; split; [apply Hk, Hok|by split_and!|by apply Hk|by split_and!]. }
  destruct Hr as (Ho & Hlt & _).
  rewrite (elf_write_spec _ _ linker_layout (c_procs c) (c_elf c) (c_mem c) pid dst l es1 slot i) in E by done.
  destruct (task_place user_images i slot dst (Z.of_nat (length l))) as [a|] eqn:Ep; simplify_eq;
    (split; [by apply Hk|]); (split; [done|]); (split; [done|]); [|done].
  intros _. unfold core_read.
  match goal with |- context [proc_get_image ?ps pid] => change ps with (c_procs c) end.
  cbn [with_c_elf c_elf c_mem].
  rewrite Ei. cbn [mbind option_bind]. rewrite (owner_slot _ _ slot Hok1 Hp).
  2:{ rewrite Ho. apply list_lookup_insert_eq. by rewrite (so_len _ (ck_slots _ Hok)). }
  cbn [mbind option_bind]. rewrite Ep. cbn [mbind option_bind]. f_equal.
  destruct (task_place_range _ _ linker_layout i slot dst _ a Hio Hlt (proj1 Hl) Ep) as [Hf _].
  by apply load_store_bytes.
Qed.

Lemma task_ready_procs st pid : sprocs (task_set_state st pid TASK_READY) = sprocs st.
Proof. unfold task_set_state. by destruct (task_find_slot_by_pid st pid). Qed.

Lemma core_wake_ok c pid image :
  core_ok c -> 0 <= pid -> image_of c pid = Some image -> loaded image = true ->
  let c' := wake c pid image in
  core_ok c' /\ state_of c' pid = PROC_READY /\
  (forall q, q <> pid -> state_of c' q = state_of c q) /\
  image_of c' pid = Some (set_context (set_eax 0 (context image)) image) /\
  (forall q, q <> pid -> image_of c' q = image_of c q) /\
  (forall q a n, core_read c' q a n = core_read c q a n).
Proof.
  intros [Hps Hsl Him] Hp Hi Hl. cbn [image_of core_proc_ops] in Hi.
  set (i' := set_context (set_eax 0 (context image)) image).
  assert (proc_state_of (c_procs c) pid <> PROC_UNUSED) as Hlive.
  { apply (@image_live proc_st _ proc_st_laws (c_procs c) pid Hps). cbn. by eexists. }
  set (ps1 := fst (proc_bind_image (c_procs c) pid i')).
  set (ps2 := proc_set_state ps1 pid PROC_READY).
  assert (proc_inv ps1) as H1 by (exact (@bind_ok proc_st _ proc_st_laws (c_procs c) pid i' Hps)).
  assert (proc_inv ps2) as H2 by (by apply (@set_ok proc_st _ proc_st_laws ps1 pid PROC_READY)).
  assert (proc_state_of ps1 pid <> PROC_UNUSED) as Hl1.
  { intros E. apply Hlive. rewrite <- E. symmetry. exact (@bind_state proc_st _ proc_st_laws (c_procs c) pid i' pid Hps). }
  assert (forall q, proc_get_image ps2 q = if decide (q = pid) then Some i' else proc_get_image (c_procs c) q) as Hgi.
  { intros q. etransitivity; [exact (@set_image proc_st _ proc_st_laws ps1 pid PROC_READY q H1 ltac:(done))|].
    exact (@bind_image_of proc_st _ proc_st_laws (c_procs c) pid i' q Hps Hlive). }
  assert (forall q, proc_state_of ps2 q = if decide (q = pid) then PROC_READY else proc_state_of (c_procs c) q) as Hgs.
  { intros q. etransitivity; [exact (@set_state proc_st _ proc_st_laws ps1 pid PROC_READY q H1 ltac:(done) Hl1)|].
    destruct (decide (q = pid)); [done|]. exact (@bind_state proc_st _ proc_st_laws (c_procs c) pid i' q Hps). }
  assert (c_procs (wake c pid image) = ps2) as Hc.
  { unfold wake. cbn [bind_image set_tstate set_pstate core_proc_ops core_task_ops].
    fold i'. unfold ps2, ps1. destruct (proc_bind_image (c_procs c) pid i') as [ps b].
    unfold c_procs. cbn. by rewrite task_ready_procs. }
  assert (c_elf (wake c pid image) = c_elf c /\ c_mem (wake c pid image) = c_mem c) as [He Hm].
  { unfold wake. cbn [bind_image set_tstate set_pstate core_proc_ops core_task_ops].
    by destruct (proc_bind_image _ _ _). }
  cbn [state_of image_of core_proc_ops]. rewrite Hc.
  split; [constructor; rewrite ?Hc, ?He; try done|].
  { intros q i Hq Hld. rewrite Hgi in Hq. case_decide; [|by apply (Him q)].
    simplify_eq. destruct (Him pid image Hi Hl). by constructor. }
  split; [rewrite Hgs; by rewrite decide_True|].
  split; [intros q Hq; rewrite Hgs; by rewrite decide_False|].
  split; [rewrite Hgi; by rewrite decide_True|].
  split; [intros q Hq; rewrite Hgi; by rewrite decide_False|].
  intros q a n. unfold core_read. rewrite Hc, Hgi, He, Hm. case_decide as Hq; [|done].
  subst q. rewrite Hi. cbn [mbind option_bind].
  destruct (first_slot _ _) as [slot|]; [|done]. cbn [mbind option_bind].
  by rewrite (task_place_ext i' image).
Qed.

(** Which bytes a write into a task can change. *)
Lemma core_write_mem c pid dst l c' b :
  core_ok c -> 0 <= pid -> is_u32 dst -> 0 < Z.of_nat (length l) < 4294967296 ->
  write_task c pid dst l = (c', b) ->
  (mem_ok (c_mem c) -> mem_ok (c_mem c')) /\
  (forall x, c_mem c' x = c_mem c x \/
     exists image slot a, proc_get_image (c_procs c) pid = Some image /\ loaded image = true /\
       (slot < ELF_PROC_SLOTS)%nat /\
       task_place user_images image slot dst (Z.of_nat (length l)) = Some a /\
       a <= x < a + Z.of_nat (length l)).
Proof.
  intros Hok Hp Hd Hl. cbn [write_task core_task_ops].
  destruct (elf_write_to_task_memory _ _ _ _ _ _ _) as [[es m] b'] eqn:E. intros [= <- <-].
  cbn [c_mem with_c_elf]. unfold elf_write_to_task_memory in E. cbn [image_of proc_st_ops] in E.
  destruct (proc_get_image (c_procs c) pid) as [i|] eqn:Ei.
  2:{ destruct (_ || _); injection E as <- <- <-; (split; [done|intros x; by left]). }
  destruct (loaded i) eqn:El.
  2:{ destruct (_ || _); injection E as <- <- <-; (split; [done|intros x; by left]). }
  pose proof (ck_images _ Hok pid i Ei El) as Hio.
  destruct (elf_slot_for_pid (c_procs c) (c_elf c) pid) as [es1 [slot|]] eqn:Hslot;
    destruct (elf_slot_spec _ _ _ _ _ (ck_slots _ Hok) Hp Hslot) as [Hok1 Hr].
  2:{ cbn [negb] in E. destruct (_ || _); injection E as <- <- <-; (split; [done|intros x; by left]). }
  destruct Hr as (_ & Hlt & _).
  pose proof (elf_write_spec _ _ linker_layout (c_procs c) (c_elf c) (c_mem c) pid dst l es1 slot i
    Hp Hd Hl Ei Hio Hslot Hlt) as Hw.
  unfold elf_write_to_task_memory in Hw. cbn [image_of proc_st_ops] in Hw.
  rewrite Ei, El, Hslot in Hw. rewrite Hw in E.
  destruct (task_place user_images i slot dst (Z.of_nat (length l))) as [a|] eqn:Ep; simplify_eq.
  2:{ split; [done|intros x; by left]. }
  destruct (task_place_range _ _ linker_layout i slot dst _ a Hio Hlt (proj1 Hl) Ep) as [Hf _].
  split; [by apply store_bytes_ok|]. intros x.
  destruct (decide (a <= x < a + Z.of_nat (length l))) as [Hx|Hx].
  - right. by exists i, slot, a.
  - left. by apply store_bytes_out.
Qed.

(** Waking changes no memory. *)
Lemma core_wake_mem c pid image : c_mem (wake c pid image) = c_mem c.
Proof.
  unfold wake. cbn [bind_image set_tstate set_pstate core_proc_ops core_task_ops].
  by destruct (proc_bind_image _ _ _).
Qed.

(** A process that exits. *)
Lemma core_exit_ok c pid code :
  core_ok c -> core_ok (with_c_procs (fst (proc_exit (c_procs c) pid code)) c).
Proof.
  intros [Hp Hs Hi]. destruct (proc_exit (c_procs c) pid code) as [ps b] eqn:E.
  destruct (proc_do_refines (PExit pid code) (c_procs c) ps (RBool b) Hp I) as [Hp' _].
  { cbn. by rewrite E. }
  constructor; [done|done|]. intros q i. cbn [fst c_procs with_c_procs with_procs sprocs c_sched].
  assert (proc_get_image ps q = proc_get_image (c_procs c) q) as Hsame.
  { pose proof (find_slot_exit (c_procs c) pid code q) as Hf. rewrite E in Hf. cbn [fst] in Hf.
    unfold proc_get_image. rewrite Hf. unfold proc_exit in E.
    by destruct (find_slot_by_pid (c_procs c) pid); simplify_eq. }
  intros Hq. apply (Hi q i). by rewrite <- Hsame.
Qed.

#[export] Instance core_task_laws : TaskLaws core := {
  task_ok := core_ok;
  read_task := core_read;
  write_task_ok := core_write_ok;
  wake_ok := core_wake_ok
}.

End core.

(** A concrete layout, for the witnesses of the files above. *)
Definition demo_linker : Linker.
Proof.
  refine {| user_stacks := demo_stacks; user_images := demo_images;
            kernel_start := 0x100000; kernel_end := 0x180001;
            linker_layout := demo_layout |}; [lia|done].
Defined.
