(* ===== verification/Ipc.v ===== *)
(** * Ipc: the message queues of [src/kernel/ipc.c]

    One mailbox of one message per receiving process, and a table of the
    processes that are blocked waiting for a message.  The functions are
    written against the interface [TaskOps] of Core.v; [S] is the state it
    works on.  The callers of ipc.c pass the address of a local message, so a
    message is a value here. *)
From S2P Require Import Prelude KernelH Util Memory Proc Sched Iface Elf Core.
Local Open Scope Z_scope.

Definition IPC_MAILBOX_MAX : nat := 32.

Record ipc_mailbox := {
  mb_used : bool;
  mb_pid : Z;
  has_message : bool;
  message : ipc_message
}.

Record ipc_waiter := {
  active : bool;
  w_pid : Z;
  user_msg_ptr : Z
}.

Record ipc_st := {
  mailboxes : list ipc_mailbox;
  waiters : list ipc_waiter
}.

Definition with_mailboxes (l : list ipc_mailbox) (q : ipc_st) : ipc_st :=
  {| mailboxes := l; waiters := waiters q |}.
Definition with_waiters (l : list ipc_waiter) (q : ipc_st) : ipc_st :=
  {| mailboxes := mailboxes q; waiters := l |}.

Definition waiter_free : ipc_waiter := {| active := false; w_pid := -1; user_msg_ptr := 0 |}.

Definition ipc_find_slot (q : ipc_st) (pid : Z) : option nat :=
  first_slot (fun b => mb_used b && (mb_pid b =? pid)) (mailboxes q).

Definition ipc_alloc_slot (q : ipc_st) (pid : Z) : ipc_st * option nat :=
  match first_slot (fun b => negb (mb_used b)) (mailboxes q) with
  | Some i => (with_mailboxes (alter (fun b => {| mb_used := true; mb_pid := pid;
                 has_message := false; message := message b |}) i (mailboxes q)) q, Some i)
  | None => (q, None)
  end.

Definition ipc_init (q : ipc_st) : ipc_st := {|
  mailboxes := map (fun _ => {| mb_used := false; mb_pid := -1; has_message := false;
                                message := ipc_message_zero |}) (mailboxes q);
  waiters := map (fun _ => waiter_free) (waiters q) |}.

Definition ipc_find_waiter (q : ipc_st) (pid : Z) : option nat :=
  first_slot (fun w => active w && (w_pid w =? pid)) (waiters q).

Definition ipc_alloc_waiter (q : ipc_st) (pid : Z) : ipc_st * option nat :=
  match first_slot (fun w => negb (active w)) (waiters q) with
  | Some i => (with_waiters (<[i := {| active := true; w_pid := pid; user_msg_ptr := 0 |}]>
                               (waiters q)) q, Some i)
  | None => (q, None)
  end.

(** [delivered = *msg] with the sender and the receiver stamped in. *)
Definition stamp (src dst : Z) (msg : ipc_message) : ipc_message := {|
  src_pid := src; dst_pid := dst; type := type msg;
  arg1 := arg1 msg; arg2 := arg2 msg; arg3 := arg3 msg; arg4 := arg4 msg |}.

(** The 28 bytes of a [struct ipc_message]. *)
Definition msg_words (msg : ipc_message) : list Z :=
  [u32 (src_pid msg); u32 (dst_pid msg); type msg; arg1 msg; arg2 msg; arg3 msg; arg4 msg].
Definition msg_bytes (msg : ipc_message) : list Z := words_bytes (msg_words msg).

Section ipc.
Context {S : Type} `{TaskOps S}.

Definition ipc_block_recv (s : S) (q : ipc_st) (dst_pid user_ptr : Z) : ipc_st * bool :=
  if (dst_pid <? 0) || bool_decide (state_of s dst_pid = PROC_UNUSED) then (q, false)
  else
    let '(q, slot) := match ipc_find_waiter q dst_pid with
                      | Some slot => (q, Some slot)
                      | None => ipc_alloc_waiter q dst_pid
                      end in
    match slot with
    | None => (q, false)
    | Some slot =>
        (with_waiters (alter (fun w => {| active := active w; w_pid := w_pid w;
                                          user_msg_ptr := user_ptr |}) slot (waiters q)) q, true)
    end.

Definition ipc_unblock_deliver (s : S) (q : ipc_st) (dst_pid : Z) (msg : ipc_message)
    : S * ipc_st * bool :=
  if dst_pid <? 0 then (s, q, false)
  else
    match ipc_find_waiter q dst_pid with
    | None => (s, q, false)
    | Some slot =>
        let clear := with_waiters (<[slot := waiter_free]> (waiters q)) q in
        if bool_decide (state_of s dst_pid = PROC_UNUSED) then (s, clear, false)
        else
          let ptr := from_option user_msg_ptr 0 (waiters q !! slot) in
          let '(s, written) := write_task s dst_pid ptr (msg_bytes msg) in
          if negb written then (s, q, false)
          else
            match image_of s dst_pid with
            | None => (s, q, false)
            | Some image =>
                if negb (loaded image) || negb (context_valid image) then (s, q, false)
                else (wake s dst_pid image, clear, true)
            end
    end.

Definition ipc_send (s : S) (q : ipc_st) (src dst : Z) (msg : ipc_message) : S * ipc_st * bool :=
  if (dst <? 0) || bool_decide (state_of s dst = PROC_UNUSED) then (s, q, false)
  else
    let delivered := stamp src dst msg in
    let '(s, q, done) := ipc_unblock_deliver s q dst delivered in
    if (done : bool) then (s, q, true)
    else
      let '(q, slot) := match ipc_find_slot q dst with
                        | Some slot => (q, Some slot)
                        | None => ipc_alloc_slot q dst
                        end in
      match slot with
      | None => (s, q, false)
      | Some slot =>
          if from_option has_message false (mailboxes q !! slot) then (s, q, false)
          else (s, with_mailboxes (alter (fun b => {| mb_used := mb_used b; mb_pid := mb_pid b;
                     has_message := true; message := delivered |}) slot (mailboxes q)) q, true)
      end.

Definition ipc_reply := ipc_send.

End ipc.

Definition ipc_recv (q : ipc_st) (dst : Z) : ipc_st * option ipc_message :=
  if dst <? 0 then (q, None)
  else
    match ipc_find_slot q dst with
    | None => (q, None)
    | Some slot =>
        match mailboxes q !! slot with
        | Some b =>
            if negb (has_message b) then (q, None)
            else (with_mailboxes (<[slot := {| mb_used := mb_used b; mb_pid := mb_pid b;
                    has_message := false; message := ipc_message_zero |}]> (mailboxes q)) q,
                  Some (message b))
        | None => (q, None)
        end
    end.

(** ** The tables as maps *)

#[export] Instance mailbox_table : Table ipc_mailbox Z.
Proof.
  refine {| live := mb_used; key := mb_pid; hit pid b := mb_used b && (mb_pid b =? pid) |}.
  intros k x. by rewrite andb_true_iff, Z.eqb_eq.
Defined.

#[export] Instance waiter_table : Table ipc_waiter Z.
Proof.
  refine {| live := active; key := w_pid; hit pid w := active w && (w_pid w =? pid) |}.
  intros k x. by rewrite andb_true_iff, Z.eqb_eq.
Defined.

Record ipc_inv (q : ipc_st) : Prop := {
  iv_mlen : length (mailboxes q) = IPC_MAILBOX_MAX;
  iv_wlen : length (waiters q) = IPC_MAILBOX_MAX;
  iv_muniq : uniq_keys (mailboxes q);
  iv_wuniq : uniq_keys (waiters q);
  iv_ptrs : Forall (fun w => is_u32 (user_msg_ptr w)) (waiters q)
}.

(** The message a process would receive, and where it waits for one. *)
Definition pending (q : ipc_st) (pid : Z) : option ipc_message :=
  b ← entry_of (mailboxes q) pid; if has_message b then Some (message b) else None.
Definition waiting (q : ipc_st) (pid : Z) : option Z :=
  user_msg_ptr <$> entry_of (waiters q) pid.

(** A mailbox exists for [pid], or can be made. *)
Definition mailbox_room (q : ipc_st) (pid : Z) : bool :=
  bool_decide (is_Some (ipc_find_slot q pid)) ||
  bool_decide (is_Some (first_slot (fun b => negb (mb_used b)) (mailboxes q))).

(** The state with the mailbox of [pid] made if it was missing. *)
Definition open_mailbox (q : ipc_st) (pid : Z) : ipc_st * option nat :=
  match ipc_find_slot q pid with
  | Some slot => (q, Some slot)
  | None => ipc_alloc_slot q pid
  end.

Definition open_waiter (q : ipc_st) (pid : Z) : ipc_st * option nat :=
  match ipc_find_waiter q pid with
  | Some slot => (q, Some slot)
  | None => ipc_alloc_waiter q pid
  end.

Lemma find_slot_entry q pid slot :
  ipc_find_slot q pid = Some slot ->
  exists b, mailboxes q !! slot = Some b /\ mb_used b = true /\ mb_pid b = pid /\
    entry_of (mailboxes q) pid = Some b.
Proof.
  intros Hf. change (first_slot (hit pid) (mailboxes q) = Some slot) in Hf.
  pose proof (find_inv _ _ _ Hf) as (b & Hb & Hu & Hk). exists b.
  split_and!; [done..|]. unfold entry_of. by rewrite Hf.
Qed.

Lemma find_waiter_entry q pid slot :
  ipc_find_waiter q pid = Some slot ->
  exists w, waiters q !! slot = Some w /\ active w = true /\ w_pid w = pid /\
    entry_of (waiters q) pid = Some w.
Proof.
  intros Hf. change (first_slot (hit pid) (waiters q) = Some slot) in Hf.
  pose proof (find_inv _ _ _ Hf) as (b & Hb & Hu & Hk). exists b.
  split_and!; [done..|]. unfold entry_of. by rewrite Hf.
Qed.

Lemma find_mailbox_none q pid : ipc_find_slot q pid = None <-> entry_of (mailboxes q) pid = None.
Proof. by rewrite entry_of_None. Qed.

Lemma find_waiter_none q pid : ipc_find_waiter q pid = None <-> waiting q pid = None.
Proof. unfold waiting. by rewrite fmap_None, entry_of_None. Qed.

(** One write to the mailbox table. *)
Lemma mailbox_put q slot x y :
  ipc_inv q -> mailboxes q !! slot = Some x -> key_free_but (mailboxes q) slot y ->
  ipc_inv (with_mailboxes (<[slot := y]> (mailboxes q)) q) /\
  (forall p, pending (with_mailboxes (<[slot := y]> (mailboxes q)) q) p =
     if hit p y then (if has_message y then Some (message y) else None)
     else if hit p x then None else pending q p) /\
  (forall p, waiting (with_mailboxes (<[slot := y]> (mailboxes q)) q) p = waiting q p).
Proof.
  intros [? ? Hu ? ?] Hx Hf. split_and!; [|intros p; unfold pending; cbn [mailboxes with_mailboxes]|done].
  - constructor; cbn [mailboxes waiters with_mailboxes]; [by rewrite length_insert|done|by apply uniq_insert|done|done].
  - rewrite (entry_of_insert _ _ x y) by done. by destruct (hit p y), (hit p x).
Qed.

Lemma waiter_put q slot x y :
  ipc_inv q -> waiters q !! slot = Some x -> key_free_but (waiters q) slot y ->
  is_u32 (user_msg_ptr y) ->
  ipc_inv (with_waiters (<[slot := y]> (waiters q)) q) /\
  (forall p, pending (with_waiters (<[slot := y]> (waiters q)) q) p = pending q p) /\
  (forall p, waiting (with_waiters (<[slot := y]> (waiters q)) q) p =
     if hit p y then Some (user_msg_ptr y) else if hit p x then None else waiting q p).
Proof.
  intros [? ? ? Hu ?] Hx Hf Hy. split_and!; [|done|intros p; unfold waiting; cbn [waiters with_waiters]].
  - constructor; cbn [mailboxes waiters with_waiters]; [done|by rewrite length_insert|done|by apply uniq_insert|by apply Forall_insert].
  - rewrite (entry_of_insert _ _ x y) by done. by destruct (hit p y), (hit p x).
Qed.

(** Opening a mailbox changes neither what is pending nor who waits. *)
Lemma open_mailbox_spec q pid q' r :
  ipc_inv q -> open_mailbox q pid = (q', r) ->
  ipc_inv q' /\ (forall p, pending q' p = pending q p) /\ (forall p, waiting q' p = waiting q p) /\
  match r with
  | Some slot => mailbox_room q pid = true /\
      exists b, mailboxes q' !! slot = Some b /\ mb_used b = true /\ mb_pid b = pid /\
        pending q pid = if has_message b then Some (message b) else None
  | None => mailbox_room q pid = false /\ q' = q
  end.
Proof.
  intros Hi. unfold open_mailbox, mailbox_room.
  destruct (ipc_find_slot q pid) as [slot|] eqn:Ef.
  { intros [= <- <-]. destruct (find_slot_entry _ _ _ Ef) as (b & Hb & Hu & Hk & He).
    rewrite bool_decide_true by (by eexists). split_and!; try done.
    exists b. split_and!; try done. unfold pending. by rewrite He. }
  rewrite (bool_decide_false (is_Some None)) by (by intros [? ?]). cbn [orb].
  unfold ipc_alloc_slot. destruct (first_slot _ (mailboxes q)) as [slot|] eqn:Ea.
  2:{ intros [= <- <-]. rewrite bool_decide_false by (by intros [? ?]). by split_and!. }
  intros [= <- <-]. rewrite bool_decide_true by (by eexists).
  apply first_slot_lookup in Ea as (x & Hx & Hfree). apply negb_true_iff in Hfree.
  rewrite (alter_known _ _ _ _ Hx).
  set (y := {| mb_used := true; mb_pid := pid; has_message := false; message := message x |}).
  pose proof (proj1 (find_mailbox_none _ _) Ef) as Hnone.
  destruct (mailbox_put q slot x y) as (Hi' & Hp & Hw); [done|done|by apply key_free_fresh|].
  assert (pending q pid = None) as Hpn by (unfold pending; by rewrite Hnone).
  split_and!; try done.
  - intros p. rewrite Hp. cbn [hit mailbox_table mb_used mb_pid y has_message andb]. rewrite Hfree. cbn [andb].
    destruct (pid =? p) eqn:E; zify_bool; [subst; done|done].
  - exists y. split_and!; try done. cbn [with_mailboxes mailboxes].
    apply list_lookup_insert_eq. by apply lookup_lt_Some in Hx.
Qed.

(** ** Operations *)

(** [ipc_recv] takes the pending message, once. *)
Lemma ipc_recv_spec q dst q' r :
  ipc_inv q -> ipc_recv q dst = (q', r) ->
  ipc_inv q' /\ r = (if dst <? 0 then None else pending q dst) /\
  (forall p, waiting q' p = waiting q p) /\
  (forall p, pending q' p = if decide (p = dst /\ 0 <= dst) then None else pending q p).
Proof.
  intros Hi. unfold ipc_recv. destruct (dst <? 0) eqn:E0; zify_bool.
  { intros [= <- <-]. split_and!; try done. intros p. by rewrite decide_False by lia. }
  destruct (ipc_find_slot q dst) as [slot|] eqn:Ef.
  2:{ intros [= <- <-]. pose proof (proj1 (find_mailbox_none _ _) Ef) as Hn.
      assert (pending q dst = None) as Hpn by (unfold pending; by rewrite Hn).
      split_and!; try done. intros p. case_decide as Hd; [|done]. by destruct Hd as [-> _]. }
  destruct (find_slot_entry _ _ _ Ef) as (b & Hb & Hu & Hk & He).
  assert (pending q dst = if has_message b then Some (message b) else None) as Hpd
    by (unfold pending; by rewrite He).
  rewrite Hb. destruct (has_message b) eqn:Em; cbn [negb].
  2:{ intros [= <- <-]. split_and!; try done. intros p. case_decide as Hd; [|done]. by destruct Hd as [-> _]. }
  intros [= <- <-].
  set (y := {| mb_used := mb_used b; mb_pid := mb_pid b; has_message := false; message := ipc_message_zero |}).
  destruct (mailbox_put q slot b y) as (Hi' & Hp & Hw); [done|done|by apply (key_free_same _ _ b); [apply Hi| | |]|].
  split_and!; try done. intros p. rewrite Hp. cbn [hit mailbox_table mb_used mb_pid y has_message].
  rewrite Hu, Hk. cbn [andb]. destruct (dst =? p) eqn:E; zify_bool.
  - subst p. by rewrite decide_True by lia.
  - rewrite decide_False by lia. done.
Qed.

Section ipc_lemmas.
Context {S : Type} `{TaskLaws S}.
Implicit Types (s : S) (q : ipc_st).

(** [ipc_block_recv] records where the process waits. *)
Lemma ipc_block_recv_spec s q dst ptr q' b :
  ipc_inv q -> is_u32 ptr -> ipc_block_recv s q dst ptr = (q', b) ->
  ipc_inv q' /\ (forall p, pending q' p = pending q p) /\
  (forall p, waiting q' p = if b && bool_decide (p = dst) then Some ptr else waiting q p) /\
  (b = true -> 0 <= dst /\ state_of s dst <> PROC_UNUSED) /\
  (0 <= dst -> state_of s dst <> PROC_UNUSED ->
   b = bool_decide (is_Some (waiting q dst)) ||
       bool_decide (is_Some (first_slot (fun w => negb (active w)) (waiters q)))).
Proof.
  intros Hi Hptr. unfold ipc_block_recv.
  destruct (dst <? 0) eqn:E0; zify_bool; cbn [orb].
  { intros [= <- <-]. split_and!; try done. lia. }
  case_bool_decide as Hd.
  { intros [= <- <-]. by split_and!. }
  destruct (ipc_find_waiter q dst) as [slot|] eqn:Ef.
  - intros [= <- <-]. destruct (find_waiter_entry _ _ _ Ef) as (w & Hw & Ha & Hk & He).
    rewrite (alter_known _ _ _ _ Hw).
    set (y := {| active := active w; w_pid := w_pid w; user_msg_ptr := ptr |}).
    destruct (waiter_put q slot w y) as (? & ? & Hwt); [done|done|by apply (key_free_same _ _ w); [apply Hi| | |]|done|].
    split_and!; try done.
    + intros p. rewrite Hwt. cbn [hit waiter_table active w_pid y user_msg_ptr]. rewrite Ha, Hk. cbn [andb].
      rewrite (bool_decide_ext (p = dst) (dst = p)) by done.
      destruct (dst =? p) eqn:E; zify_bool; [by rewrite bool_decide_true|by rewrite bool_decide_false].
    + intros _ _. rewrite bool_decide_true; [done|]. unfold waiting. rewrite He. by eexists.
  - pose proof (proj1 (find_waiter_none _ _) Ef) as Hn.
    rewrite (bool_decide_false (is_Some (waiting q dst))) by (rewrite Hn; by intros [? ?]). cbn [orb].
    unfold ipc_alloc_waiter. destruct (first_slot _ (waiters q)) as [slot|] eqn:Ea.
    2:{ intros [= <- <-]. by split_and!. }
    intros [= <- <-]. apply first_slot_lookup in Ea as (x & Hx & Hfree). apply negb_true_iff in Hfree.
    cbn [waiters with_waiters].
    set (y := {| active := true; w_pid := dst; user_msg_ptr := ptr |}).
    rewrite (alter_known _ _ _ {| active := true; w_pid := dst; user_msg_ptr := 0 |})
      by (apply list_lookup_insert_eq; by apply lookup_lt_Some in Hx).
    cbn [active w_pid]. fold y. rewrite list_insert_insert_eq.
    destruct (waiter_put q slot x y) as (? & ? & Hwt); [done|done| |done|].
    { apply key_free_fresh. unfold waiting in Hn. by apply fmap_None in Hn. }
    split_and!; try done.
    intros p. change (with_waiters (<[slot:=y]> (waiters q)) (with_waiters _ q))
      with (with_waiters (<[slot:=y]> (waiters q)) q). rewrite Hwt.
    cbn [hit waiter_table active w_pid y user_msg_ptr]. rewrite Hfree. cbn [andb].
    rewrite (bool_decide_ext (p = dst) (dst = p)) by done.
    destruct (dst =? p) eqn:E; zify_bool; [by rewrite bool_decide_true|by rewrite bool_decide_false].
Qed.

(** Clearing a waiter's slot. *)
Lemma clear_waiter q slot w :
  ipc_inv q -> waiters q !! slot = Some w -> active w = true ->
  let q' := with_waiters (<[slot := waiter_free]> (waiters q)) q in
  ipc_inv q' /\ (forall p, pending q' p = pending q p) /\
  (forall p, waiting q' p = if decide (p = w_pid w) then None else waiting q p).
Proof.
  intros Hi Hw Ha. destruct (waiter_put q slot w waiter_free) as (? & ? & Hwt); [done|done| |done|].
  { by apply key_free_dead. }
  split_and!; try done. intros p. cbn zeta. rewrite Hwt. cbn [hit waiter_table waiter_free active].
  rewrite Ha. cbn [andb]. destruct (w_pid w =? p) eqn:E; zify_bool.
  - by rewrite decide_True.
  - by rewrite decide_False.
Qed.

(** What a send may do. *)
Inductive send_outcome s q (src dst : Z) (msg : ipc_message) s' q' : bool -> Prop :=
  | send_dead :
      (dst < 0 \/ state_of s dst = PROC_UNUSED) -> s' = s -> q' = q ->
      send_outcome s q src dst msg s' q' false
  | send_deliver ptr :
      waiting q dst = Some ptr ->
      read_task s' dst ptr 28 = Some (msg_bytes (stamp src dst msg)) ->
      state_of s' dst = PROC_READY ->
      (exists i i', image_of s dst = Some i /\ image_of s' dst = Some i' /\
         context i' = set_eax 0 (context i)) ->
      (forall p, p <> dst -> state_of s' p = state_of s p /\ image_of s' p = image_of s p) ->
      (forall p, pending q' p = pending q p) ->
      (forall p, waiting q' p = if decide (p = dst) then None else waiting q p) ->
      send_outcome s q src dst msg s' q' true
  | send_queue :
      pending q dst = None ->
      (forall p, state_of s' p = state_of s p /\ image_of s' p = image_of s p) ->
      (forall p, pending q' p = if decide (p = dst) then Some (stamp src dst msg) else pending q p) ->
      (forall p, waiting q' p = waiting q p) ->
      send_outcome s q src dst msg s' q' true
  | send_fail :
      ((exists m, pending q dst = Some m) \/ mailbox_room q dst = false) ->
      (forall p, state_of s' p = state_of s p /\ image_of s' p = image_of s p) ->
      (forall p, pending q' p = pending q p) -> (forall p, waiting q' p = waiting q p) ->
      send_outcome s q src dst msg s' q' false.

Lemma ipc_unblock_deliver_spec s q dst msg s' q' b :
  task_ok s -> ipc_inv q -> 0 <= dst -> state_of s dst <> PROC_UNUSED ->
  ipc_unblock_deliver s q dst msg = (s', q', b) ->
  task_ok s' /\ ipc_inv q' /\
  if b then exists ptr, waiting q dst = Some ptr /\
      read_task s' dst ptr 28 = Some (msg_bytes msg) /\ state_of s' dst = PROC_READY /\
      (exists i i', image_of s dst = Some i /\ image_of s' dst = Some i' /\
         context i' = set_eax 0 (context i)) /\
      (forall p, p <> dst -> state_of s' p = state_of s p /\ image_of s' p = image_of s p) /\
      (forall p, pending q' p = pending q p) /\
      (forall p, waiting q' p = if decide (p = dst) then None else waiting q p)
  else q' = q /\ forall p, state_of s' p = state_of s p /\ image_of s' p = image_of s p.
Proof.
  intros Hs Hi Hp Hd. unfold ipc_unblock_deliver.
  rewrite (proj2 (Z.ltb_ge dst 0)) by done.
  destruct (ipc_find_waiter q dst) as [slot|] eqn:Ef; [|intros [= <- <- <-]; by split_and!].
  rewrite bool_decide_false by done.
  destruct (find_waiter_entry _ _ _ Ef) as (w & Hw & Ha & Hk & He). rewrite Hw. cbn [from_option].
  assert (waiting q dst = Some (user_msg_ptr w)) as Hwait by (unfold waiting; by rewrite He).
  destruct (write_task s dst (user_msg_ptr w) (msg_bytes msg)) as [s1 wr] eqn:Ew.
  assert (length (msg_bytes msg) = 28%nat) as Hlen by (unfold msg_bytes; by rewrite words_bytes_length).
  destruct (write_task_ok _ _ _ _ _ _ Hs Hp (Forall_lookup_1 _ _ _ _ (iv_ptrs _ Hi) Hw)
              ltac:(rewrite Hlen; lia) (words_bytes_byte _) Ew) as (Hs1 & Hst & Him & Hrd).
  assert (forall p, state_of s1 p = state_of s p /\ image_of s1 p = image_of s p) as Hsame by done.
  destruct wr; cbn [negb]; [|intros [= <- <- <-]; by split_and!].
  destruct (image_of s1 dst) as [i|] eqn:Ei; [|intros [= <- <- <-]; by split_and!].
  destruct (loaded i) eqn:El; cbn [negb orb]; [|intros [= <- <- <-]; by split_and!].
  destruct (context_valid i); cbn [negb]; [|intros [= <- <- <-]; by split_and!].
  intros [= <- <- <-].
  destruct (wake_ok s1 dst i Hs1 Hp Ei El) as (Hs2 & Hst2 & Hst2' & Him2 & Him2' & Hrd2).
  destruct (clear_waiter q slot w Hi Hw Ha) as (Hi' & Hpe & Hwa). rewrite Hk in Hwa.
  split_and!; try done. exists (user_msg_ptr w). split_and!; try done.
  - rewrite Hrd2, <- Hlen. by apply Hrd.
  - exists i, (set_context (set_eax 0 (context i)) i). split_and!; [by rewrite <- Him|done|done].
  - intros p Hne. by rewrite Hst2', Him2', Hst, Him.
Qed.

Lemma ipc_send_spec s q src dst msg s' q' b :
  task_ok s -> ipc_inv q -> ipc_send s q src dst msg = (s', q', b) ->
  task_ok s' /\ ipc_inv q' /\ send_outcome s q src dst msg s' q' b.
Proof.
  intros Hs Hi. unfold ipc_send.
  destruct (dst <? 0) eqn:E0; zify_bool; cbn [orb].
  { intros [= <- <- <-]. split_and!; try done. constructor; [by left|done|done]. }
  case_bool_decide as Hd.
  { intros [= <- <- <-]. split_and!; try done. constructor; [by right|done|done]. }
  destruct (ipc_unblock_deliver s q dst (stamp src dst msg)) as [[s1 q1] d] eqn:Ed.
  destruct (ipc_unblock_deliver_spec _ _ _ _ _ _ _ Hs Hi E0 Hd Ed) as (Hs1 & Hi1 & Hres).
  destruct d.
  { intros [= <- <- <-]. destruct Hres as (ptr & ? & ? & ? & ? & ? & ? & ?).
    split_and!; try done. by apply (send_deliver _ _ _ _ _ _ _ ptr). }
  destruct Hres as [-> Hsame]. fold (open_mailbox q dst).
  destruct (open_mailbox q dst) as [q2 r] eqn:Eo.
  destruct (open_mailbox_spec _ _ _ _ Hi Eo) as (Hi2 & Hpe & Hwa & Hr).
  destruct r as [slot|].
  2:{ destruct Hr as [Hroom ->]. intros [= <- <- <-]. split_and!; try done. apply send_fail; auto. }
  destruct Hr as (_ & x & Hx & Hu & Hk & Hpend). rewrite Hx. cbn [from_option].
  destruct (has_message x) eqn:Em.
  { intros [= <- <- <-]. split_and!; try done. apply send_fail; try done. left. by eexists. }
  intros [= <- <- <-]. rewrite (alter_known _ _ _ _ Hx).
  set (y := {| mb_used := mb_used x; mb_pid := mb_pid x; has_message := true; message := stamp src dst msg |}).
  destruct (mailbox_put q2 slot x y) as (Hi3 & Hp3 & Hw3);
    [done|done|by apply (key_free_same _ _ x); [apply Hi2| | |]|].
  split_and!; try done. apply send_queue; try done.
  intros p. rewrite Hp3. cbn [hit mailbox_table mb_used mb_pid y has_message message].
  rewrite Hu, Hk. cbn [andb]. destruct (dst =? p) eqn:E; zify_bool.
  - by rewrite decide_True.
  - rewrite decide_False by done. apply Hpe.
Qed.

End ipc_lemmas.

Lemma ipc_init_inv q :
  length (mailboxes q) = IPC_MAILBOX_MAX -> length (waiters q) = IPC_MAILBOX_MAX ->
  ipc_inv (ipc_init q).
Proof.
  intros Hm Hw. unfold ipc_init. constructor; cbn [mailboxes waiters].
  - by rewrite length_map.
  - by rewrite length_map.
  - intros i j x y Hx _ Hl _. rewrite list_lookup_fmap in Hx.
    by apply fmap_Some in Hx as (? & _ & ->).
  - intros i j x y Hx _ Hl _. rewrite list_lookup_fmap in Hx.
    by apply fmap_Some in Hx as (? & _ & ->).
  - apply Forall_map. apply Forall_true. intros w. unfold is_u32. cbn. lia.
Qed.

(** ** Runs of the queues *)

(** An operation of any process, in whatever state the rest of the system is. *)
Inductive ipc_op (S : Type) :=
  | ISend (s : S) (src dst : Z) (msg : ipc_message)
  | IRecv (dst : Z)
  | IBlock (s : S) (dst ptr : Z).
Arguments ISend {S}. Arguments IRecv {S}. Arguments IBlock {S}.

Section ipc_thms.
Context {S : Type} `{TaskLaws S}.
Implicit Types (s : S) (q : ipc_st).

Definition ipc_do (op : ipc_op S) q : ipc_st :=
  match op with
  | ISend s src dst msg => snd (fst (ipc_send s q src dst msg))
  | IRecv dst => fst (ipc_recv q dst)
  | IBlock s dst ptr => fst (ipc_block_recv s q dst ptr)
  end.

Definition ipc_run (ops : list (ipc_op S)) q : ipc_st := fold_left (fun q op => ipc_do op q) ops q.

(** The owner of a mailbox slot. *)
Definition mailbox_pids q : list (option Z) :=
  map (fun b => if mb_used b then Some (mb_pid b) else None) (mailboxes q).

Lemma mailbox_pids_insert q slot x y :
  mailboxes q !! slot = Some x -> mb_used x = mb_used y -> mb_pid x = mb_pid y ->
  map (fun b => if mb_used b then Some (mb_pid b) else None) (<[slot := y]> (mailboxes q)) = mailbox_pids q.
Proof.
  intros Hx Hu Hk. unfold mailbox_pids. rewrite list_fmap_insert. apply list_insert_id.
  rewrite list_lookup_fmap, Hx. cbn. by rewrite Hu, Hk.
Qed.

Lemma mailbox_pids_full_alloc q :
  (forall i, mailbox_pids q !! i <> Some None) ->
  first_slot (fun b => negb (mb_used b)) (mailboxes q) = None.
Proof.
  intros Hf. apply first_slot_None. intros i b Hb. specialize (Hf i).
  unfold mailbox_pids in Hf. rewrite list_lookup_fmap, Hb in Hf. cbn in Hf.
  by destruct (mb_used b).
Qed.

Lemma deliver_mailboxes s q dst msg :
  mailboxes (snd (fst (ipc_unblock_deliver s q dst msg))) = mailboxes q.
Proof.
  unfold ipc_unblock_deliver. destruct (dst <? 0); [done|].
  destruct (ipc_find_waiter q dst); [|done]. case_bool_decide; [done|].
  destruct (write_task _ _ _ _) as [s1 wr]. destruct (negb wr); [done|].
  destruct (image_of s1 dst); [|done]. by destruct (_ || _).
Qed.

Lemma ipc_do_full q op :
  (forall i, mailbox_pids q !! i <> Some None) -> mailbox_pids (ipc_do op q) = mailbox_pids q.
Proof.
  intros Hf. destruct op as [s src dst msg|dst|s dst ptr]; cbn [ipc_do].
  - unfold ipc_send. destruct (_ || _); [done|].
    pose proof (deliver_mailboxes s q dst (stamp src dst msg)) as Hm.
    destruct (ipc_unblock_deliver _ _ _ _) as [[s1 q1] d]. cbn [fst snd] in Hm.
    assert (mailbox_pids q1 = mailbox_pids q) as Hmp by (unfold mailbox_pids; by rewrite Hm).
    destruct d; [done|].
    destruct (ipc_find_slot q1 dst) as [slot|] eqn:Ef.
    + destruct (find_slot_entry _ _ _ Ef) as (b & Hb & _). rewrite Hb. cbn [from_option].
      destruct (has_message b); [done|]. cbn [fst snd]. rewrite (alter_known _ _ _ _ Hb).
      rewrite <- Hmp. unfold mailbox_pids at 1. cbn [mailboxes with_mailboxes].
      by apply (mailbox_pids_insert _ _ b).
    + unfold ipc_alloc_slot. rewrite (mailbox_pids_full_alloc q1) by (by rewrite Hmp). done.
  - unfold ipc_recv. destruct (dst <? 0); [done|].
    destruct (ipc_find_slot q dst) as [slot|] eqn:Ef; [|done].
    destruct (find_slot_entry _ _ _ Ef) as (b & Hb & _). rewrite Hb.
    destruct (has_message b); [|done]. cbn. unfold mailbox_pids at 1. cbn [mailboxes with_mailboxes].
    by apply (mailbox_pids_insert _ _ b).
  - unfold ipc_block_recv. destruct (_ || _); [done|].
    destruct (ipc_find_waiter q dst); [done|].
    unfold ipc_alloc_waiter. by destruct (first_slot _ (waiters q)).
Qed.


(** a message that is queued is received, once, by its receiver only, with
    the sender stamped in by the kernel, whatever pid the sender had written in
    it; until then further sends to that process fail and leave it in place. *)
Theorem ipc_queue_round_trip s q src dst msg s1 q1 :
  task_ok s -> ipc_inv q -> waiting q dst = None ->
  ipc_send s q src dst msg = (s1, q1, true) ->
  (forall src2 msg2, snd (ipc_send s1 q1 src2 dst msg2) = false /\
     pending (snd (fst (ipc_send s1 q1 src2 dst msg2))) dst = pending q1 dst) /\
  (forall p, p <> dst -> snd (ipc_recv q1 p) = snd (ipc_recv q p)) /\
  exists q2, ipc_recv q1 dst = (q2, Some (stamp src dst msg)) /\ snd (ipc_recv q2 dst) = None.
Proof.
  intros Hs Hi Hw Hsend. destruct (ipc_send_spec _ _ _ _ _ _ _ _ Hs Hi Hsend) as (Hs1 & Hi1 & Ho).
  inversion Ho as [|ptr Hptr| Hnone Hst Hpe Hwa|]; [congruence|].
  assert (0 <= dst) as Hd.
  { unfold ipc_send in Hsend. destruct (dst <? 0) eqn:E; [|by zify_bool]. by simplify_eq. }
  assert (pending q1 dst = Some (stamp src dst msg)) as Hp1 by (by rewrite Hpe, decide_True).
  assert (waiting q1 dst = None) as Hw1 by (by rewrite Hwa).
  split; [|split].
  - intros src2 msg2. destruct (ipc_send s1 q1 src2 dst msg2) as [[s2 q2] b2] eqn:E2.
    destruct (ipc_send_spec _ _ _ _ _ _ _ _ Hs1 Hi1 E2) as (_ & _ & Ho2). cbn [fst snd].
    inversion Ho2; subst; (split; [done || congruence|]); congruence.
  - intros p Hne. destruct (ipc_recv q1 p) as [qa ra] eqn:Ea. destruct (ipc_recv q p) as [qb rb] eqn:Eb.
    destruct (ipc_recv_spec _ _ _ _ Hi1 Ea) as (_ & -> & _).
    destruct (ipc_recv_spec _ _ _ _ Hi Eb) as (_ & -> & _). cbn [snd].
    by rewrite Hpe, decide_False.
  - destruct (ipc_recv q1 dst) as [q2 r] eqn:Er.
    destruct (ipc_recv_spec _ _ _ _ Hi1 Er) as (Hi2 & -> & _ & Hp2).
    exists q2. rewrite (proj2 (Z.ltb_ge dst 0)) by done. split; [by rewrite Hp1|].
    destruct (ipc_recv q2 dst) as [q3 r3] eqn:Er3.
    destruct (ipc_recv_spec _ _ _ _ Hi2 Er3) as (_ & -> & _). cbn [snd].
    rewrite (proj2 (Z.ltb_ge dst 0)) by done. rewrite Hp2. by rewrite decide_True.
Qed.

(** a mailbox is never given back: once each of the 32 mailboxes has been
    used, no operation of any process in any state of the system frees one, so
    that from then on every send to a process without a mailbox that is not
    blocked in a receive fails, even when the owners of all the mailboxes are
    gone. *)
Theorem ipc_mailboxes_never_freed q ops s src dst msg :
  (forall i, mailbox_pids q !! i <> Some None) ->
  Some dst ∉ mailbox_pids q ->
  waiting (ipc_run ops q) dst = None ->
  mailbox_pids (ipc_run ops q) = mailbox_pids q /\
  snd (ipc_send s (ipc_run ops q) src dst msg) = false.
Proof.
  intros Hf Hd Hw.
  assert (mailbox_pids (ipc_run ops q) = mailbox_pids q) as Hr.
  { clear Hw. revert q Hf Hd. induction ops as [|op ops IH]; intros q Hf Hd; [done|].
    cbn [ipc_run fold_left]. pose proof (ipc_do_full q op Hf) as Ho.
    etransitivity; [apply IH; by rewrite Ho|done]. }
  split; [done|]. set (q' := ipc_run ops q) in *.
  unfold ipc_send. destruct (_ || _); [done|]. unfold ipc_unblock_deliver.
  destruct (dst <? 0); apply find_waiter_none in Hw; rewrite ?Hw;
    (destruct (ipc_find_slot q' dst) as [slot|] eqn:Ef;
      [exfalso; destruct (find_slot_entry _ _ _ Ef) as (b & Hb & Hu & Hk & _); apply Hd;
       rewrite <- Hr; unfold mailbox_pids; apply list_elem_of_lookup; exists slot;
       rewrite list_lookup_fmap, Hb; cbn; by rewrite Hu, Hk|]);
    unfold ipc_alloc_slot; rewrite (mailbox_pids_full_alloc q') by (by rewrite Hr); done.
Qed.

End ipc_thms.

(** ** Witnesses *)

Definition demo_core : core := {|
  c_sched := with_procs demo_procs (fst (task_spawn_user kmain_tasks None 0));
  c_elf := slots_boot; c_mem := mem_empty |}.

Definition ipc_boot : ipc_st :=
  ipc_init {| mailboxes := replicate 32 {| mb_used := true; mb_pid := 9; has_message := true;
                                           message := ipc_message_zero |};
              waiters := replicate 32 waiter_free |}.

Definition demo_msg : ipc_message := {|
  src_pid := 99; dst_pid := 1; type := 5; arg1 := 10; arg2 := 20; arg3 := 30; arg4 := 40 |}.

Lemma demo_procs_inv : proc_inv demo_procs.
Proof.
  unfold demo_procs.
  apply (proc_do_refines (PBind 1 demo_image) (fst (proc_spawn_kernel (proc_init proc_boot_zero) None 0)) _
           (RBool true)); [|done|vm_compute; reflexivity].
  apply (proc_do_refines (PSpawn None 0) (proc_init proc_boot_zero) _ (RPid 1));
    [|by vm_compute|vm_compute; reflexivity].
  apply proc_init_inv, proc_boot_zero_ok.
Qed.

Lemma demo_core_ok : @core_ok demo_linker demo_core.
Proof.
  constructor.
  - exact demo_procs_inv.
  - exact slots_boot_ok.
  - intros pid i Hi Hl. unfold proc_get_image in Hi.
    apply bind_Some in Hi as (slot & _ & Hi).
    assert (images (c_procs demo_core) = <[1%nat := demo_image]> (replicate 32 image_reset)) as E
      by (vm_compute; reflexivity).
    rewrite E in Hi. apply list_lookup_insert_Some in Hi as [(_ & <- & _)|[_ Hi]].
    + exact demo_image_ok.
    + apply lookup_replicate in Hi as [-> _]. done.
Qed.

Lemma ipc_boot_inv : ipc_inv ipc_boot.
Proof. by apply ipc_init_inv. Qed.

(** A process blocks on its stack, then gets a message there. *)
Definition demo_blocked : ipc_st :=
  fst (@ipc_block_recv core _ demo_core ipc_boot 1 (demo_stacks + 64)).


Lemma ipc_queue_round_trip_witness :
  exists q1 q2,
    @ipc_send core _ (@core_task_ops demo_linker) demo_core ipc_boot 0 1 demo_msg = (demo_core, q1, true) /\
    ipc_recv q1 1 = (q2, Some (stamp 0 1 demo_msg)) /\ snd (ipc_recv q2 1) = None.
Proof.
  assert (exists q1, @ipc_send core _ (@core_task_ops demo_linker) demo_core ipc_boot 0 1 demo_msg
            = (demo_core, q1, true)) as [q1 E] by (eexists; vm_compute; reflexivity).
  exists q1.
  destruct (ipc_queue_round_trip (H1 := @core_task_laws demo_linker) demo_core ipc_boot 0 1 demo_msg
              demo_core q1) as (_ & _ & q2 & Hr & Hn).
  - exact demo_core_ok.
  - exact ipc_boot_inv.
  - reflexivity.
  - exact E.
  - exists q2. split; [exact E|]. split; [exact Hr|exact Hn].
Defined.

(** Thirty-two processes, one after the other: each is created, is sent a
    message, receives it, exits and is reaped. *)
Fixpoint mailbox_leak (n : nat) (ps : proc_st) (q : ipc_st) : proc_st * ipc_st :=
  match n with
  | O => (ps, q)
  | S n' =>
      let '(ps, pid) := proc_spawn_kernel ps None 0 in
      let c := with_c_procs ps demo_core in
      let q := snd (fst (@ipc_send core _ (@core_task_ops demo_linker) c q 0 pid demo_msg)) in
      let q := fst (ipc_recv q pid) in
      let ps := fst (proc_exit ps pid 0) in
      let ps := fst (proc_reap_pid ps pid) in
      mailbox_leak n' ps q
  end.

Definition leaked : proc_st * ipc_st := mailbox_leak 32 (proc_init proc_boot_zero) ipc_boot.

(** No process is left, and a new one cannot be sent a message. *)
Lemma ipc_mailboxes_never_freed_witness :
  used (fst leaked) = 1 /\
  snd (@ipc_send core _ (@core_task_ops demo_linker)
         (with_c_procs (fst (proc_spawn_kernel (fst leaked) None 0)) demo_core)
         (ipc_run (S := core) (H0 := @core_task_ops demo_linker) [IRecv 5] (snd leaked))
         0 33 demo_msg) = false.
Proof.
  split; [vm_compute; reflexivity|].
  assert (mailbox_pids (snd leaked) = map (fun n => Some (Z.of_nat n)) (seq 1 32)) as E
    by (vm_compute; reflexivity).
  apply (ipc_mailboxes_never_freed (snd leaked) [IRecv 5]).
  - rewrite E. intros i Hi. rewrite list_lookup_fmap in Hi.
    by apply fmap_Some in Hi as (n & _ & Hn).
  - rewrite E. apply (bool_decide_unpack _). vm_compute. exact I.
  - vm_compute. reflexivity.
Defined.
