(* ===== verification/Storage.v ===== *)
(** * Storage: the block devices of [src/kernel/storage.c]

    A device's [read] callback is driver code that talks to the hardware; it is
    a function from the sector number to the bytes read, or [None] when the
    driver reports a failure.  The media are read-only, so that it has no
    state.  The only driver is that of Atapi.v, which shows that a drive that
    follows its protocol is read this way. *)
From S2P Require Import Prelude KernelH Util.
Local Open Scope Z_scope.

Definition MAX_BLOCK_DEVICES : Z := 8.

(** [read(ctx, lba, count, out)]: the bytes stored through [out]. *)
Definition block_read_fn : Type := Z -> Z -> option (list Z).

Record block_device := {
  dev_id : Z;
  dev_name : list Z;
  sector_size : Z;
  dev_read : block_read_fn
}.

(** [devices[0 .. device_count - 1]]; the counter is the length. *)
Abbreviation device_table := (list block_device).

(** [copy_name]: what is stored in the destination. *)
Fixpoint copy_name (dst src : list Z) (max_chars : Z) : list Z :=
  if max_chars =? 0 then dst
  else match src with
       | c :: src' =>
           if negb (c =? 0) && (1 <? max_chars)
           then c :: copy_name (tl dst) src' (max_chars - 1)
           else 0 :: tl dst
       | [] => 0 :: tl dst
       end.

Definition storage_register_device (devs : device_table) (slot_name : list Z)
    (name : option (list Z)) (ssize : Z) (read : option block_read_fn) : device_table * Z :=
  match name, read with
  | Some name, Some read =>
      if (ssize =? 0) || (MAX_BLOCK_DEVICES <=? Z.of_nat (length devs)) then (devs, -1)
      else
        let id := Z.of_nat (length devs) in
        (devs ++ [{| dev_id := id; dev_name := copy_name slot_name name 16;
                     sector_size := ssize; dev_read := read |}], id)
  | _, _ => (devs, -1)
  end.

Definition storage_get_device (devs : device_table) (id : Z) : option block_device :=
  if (id <? 0) || (Z.of_nat (length devs) <=? id) then None else devs !! Z.to_nat id.

Definition storage_find_device (devs : device_table) (name : list Z) : option block_device :=
  i ← first_slot (fun d => str_eq (dev_name d) name) devs; devs !! i.

Definition storage_read (devs : device_table) (device_id lba count : Z) : option (list Z) :=
  match storage_get_device devs device_id with
  | Some dev => if count =? 0 then None else dev_read dev lba count
  | None => None
  end.

Definition storage_device_count (devs : device_table) : Z := Z.of_nat (length devs).

(** ** The table *)

(** Ids are positions, names are terminated. *)
Definition devices_ok (devs : device_table) : Prop :=
  Z.of_nat (length devs) <= MAX_BLOCK_DEVICES /\
  forall i d, devs !! i = Some d -> dev_id d = Z.of_nat i.

Lemma copy_name_str dst src n :
  1 <= n -> copy_name dst src n = str_copy_loop dst src n.
Proof.
  revert dst n. induction src as [|c src IH]; intros dst n Hn; cbn [copy_name str_copy_loop];
    rewrite (proj2 (Z.eqb_neq n 0)) by lia; [done|].
  destruct (negb (c =? 0)); cbn [andb]; [|done].
  destruct (1 <? n) eqn:E; zify_bool; [|done]. by rewrite IH by lia.
Qed.

Lemma storage_get_spec devs id d :
  storage_get_device devs id = Some d <-> 0 <= id /\ devs !! Z.to_nat id = Some d.
Proof.
  unfold storage_get_device. destruct (id <? 0) eqn:E1; zify_bool; cbn [orb]; [split; [done|lia]|].
  destruct (Z.of_nat (length devs) <=? id) eqn:E2; zify_bool; [|by split; [|intros [_ ?]]].
  split; [done|]. intros [_ Hl]. apply lookup_lt_Some in Hl. lia.
Qed.

Lemma storage_register_ok devs slot_name name ssize read devs' id :
  devices_ok devs -> length slot_name = 16%nat ->
  storage_register_device devs slot_name (Some name) ssize (Some read) = (devs', id) ->
  devices_ok devs' /\
  (if decide (ssize <> 0 /\ Z.of_nat (length devs) < MAX_BLOCK_DEVICES)
   then id = Z.of_nat (length devs) /\
     exists d, storage_get_device devs' id = Some d /\ dev_read d = read /\ dev_id d = id /\
       cstr (dev_name d) = take 15 (cstr name) /\ sector_size d = ssize
   else id = -1 /\ devs' = devs) /\
  forall i d, storage_get_device devs i = Some d -> storage_get_device devs' i = Some d.
Proof.
  intros [Hlen Hids] Hn. unfold storage_register_device.
  destruct (ssize =? 0) eqn:E1; zify_bool; cbn [orb].
  { intros [= <- <-]. rewrite decide_False by (by intros [? _]). split_and!; done. }
  destruct (MAX_BLOCK_DEVICES <=? _) eqn:E2; zify_bool.
  { intros [= <- <-]. rewrite decide_False by lia. split_and!; done. }
  intros [= <- <-]. rewrite decide_True by done.
  set (d := {| dev_id := Z.of_nat (length devs); dev_name := copy_name slot_name name 16;
               sector_size := ssize; dev_read := read |}).
  split_and!.
  - split; [rewrite length_app; cbn [length]; lia|].
    intros i x [Hx|[Hi Hx]]%lookup_app_Some; [by apply Hids|].
    apply list_lookup_singleton_Some in Hx as [Hi0 <-]. cbn. lia.
  - done.
  - exists d. split_and!; try done.
    + apply storage_get_spec. split; [lia|]. rewrite Nat2Z.id, lookup_app_r, Nat.sub_diag by lia. done.
    + cbn [dev_name d]. rewrite copy_name_str by lia.
      replace (str_copy_loop slot_name name 16) with (str_copy slot_name name 16) by done.
      rewrite str_copy_cstr by lia. done.
  - intros i x (Hi & Hx)%storage_get_spec. apply storage_get_spec. split; [done|].
    by apply lookup_app_l_Some.
Qed.

(** ** Theorem *)

(** a registered device keeps its id and stays reachable by it: an id is
    the position in the table, registration refuses a full table or a zero
    sector size and otherwise gives the next id, and reading from the id runs
    that device's own driver, now and after any later registration. *)
Theorem storage_register_reads devs slot_name name ssize read devs' id :
  devices_ok devs -> length slot_name = 16%nat ->
  storage_register_device devs slot_name (Some name) ssize (Some read) = (devs', id) -> id <> -1 ->
  devices_ok devs' /\ id = Z.of_nat (length devs) /\
  (forall lba count, count <> 0 -> storage_read devs' id lba count = read lba count) /\
  (forall old lba count, is_Some (storage_get_device devs old) ->
     storage_read devs' old lba count = storage_read devs old lba count).
Proof.
  intros Hok Hn Hr Hid.
  destruct (storage_register_ok _ _ _ _ _ _ _ Hok Hn Hr) as (Hok' & Hc & Hkeep).
  case_decide as Hd; [|by destruct Hc].
  destruct Hc as (Heq & d & Hg & Hrd & _). split_and!; try done.
  - intros lba count Hcnt. unfold storage_read. rewrite Hg, (proj2 (Z.eqb_neq count 0)) by done.
    by rewrite Hrd.
  - intros old lba count [x Hx]. unfold storage_read. by rewrite Hx, (Hkeep _ _ Hx).
Qed.

Lemma storage_register_reads_witness :
  storage_read (fst (storage_register_device [] (replicate 16 0) (Some (lit "cd0")) 2048
                       (Some (fun lba count => Some [lba; count])))) 0 16 1 = Some [16; 1].
Proof.
  eapply (storage_register_reads [] (replicate 16 0) (lit "cd0") 2048
            (fun lba count => Some [lba; count])).
  - split; [vm_compute; discriminate|]. intros i d Hd. done.
  - reflexivity.
  - reflexivity.
  - lia.
  - lia.
Defined.
