(* ===== verification/Ports.v ===== *)
(** * Ports: port input and output, and the serial line of [src/kernel/arch/i386/serial.c]

    [inb], [outb], [inw] and [outw] of platform.c are single instructions: what
    they do is the hardware's business.  [Ports] names them for a type [D] of
    states of the hardware; reading a port may change that state too.

    [poll] is the loop the drivers share: read a status port, at most a given
    number of times, until it says that the device is ready.  [answers] states
    that the device becomes ready in time, in a state with a given property. *)
From S2P Require Import Prelude KernelH Util Memory.
Local Open Scope Z_scope.
Local Open Scope slop_scope.

Class Ports (D : Type) := {
  inb : D -> Z -> D * Z;
  outb : D -> Z -> Z -> D;
  inw : D -> Z -> D * Z;
  outw : D -> Z -> Z -> D
}.

(** Ports that nobody listens to. *)
#[local] Instance no_ports : Ports unit :=
  { inb _ _ := (tt, 0xFF); outb _ _ _ := tt; inw _ _ := (tt, 0xFFFF); outw _ _ _ := tt }.

Section poll.
Context {D : Type} `{!Ports D}.

(** [while (timeout-- > 0) { s = inb(port); if (..) return ..; } return 0;] *)
Fixpoint poll (timeout : nat) (port : Z) (stop : Z -> option bool) (d : D) : D * bool :=
  match timeout with
  | O => (d, false)
  | S n => let '(d', s) := inb d port in
           match stop s with Some b => (d', b) | None => poll n port stop d' end
  end.

Inductive answers (port : Z) (stop : Z -> option bool) (P : D -> Prop) : nat -> D -> Prop :=
| answers_now n d d' s :
    inb d port = (d', s) -> stop s = Some true -> P d' -> answers port stop P (S n) d
| answers_later n d d' s :
    inb d port = (d', s) -> stop s = None -> answers port stop P n d' ->
    answers port stop P (S n) d.

Lemma answers_poll port stop P n d :
  answers port stop P n d -> exists d', poll n port stop d = (d', true) /\ P d'.
Proof.
  induction 1 as [n d d' s Hi Hs HP|n d d' s Hi Hs _ IH]; cbn [poll]; rewrite Hi, Hs; eauto.
Qed.

(** A poll that succeeds has read a status that says so. *)
Lemma poll_true n port stop d d' :
  poll n port stop d = (d', true) ->
  exists d0 s, inb d0 port = (d', s) /\ stop s = Some true.
Proof.
  revert d. induction n as [|n IH]; intros d; cbn [poll]; [done|].
  destruct (inb d port) as [d1 s] eqn:Hi. destruct (stop s) as [[]|] eqn:Hs; [|done|apply IH].
  intros [= <-]. eauto.
Qed.

(** What reading the status keeps, polling keeps. *)
Lemma poll_keeps (P : D -> Prop) n port stop d :
  (forall d, P d -> P (fst (inb d port))) -> P d -> P (fst (poll n port stop d)).
Proof.
  intros Hk. revert d. induction n as [|n IH]; intros d Hd; cbn [poll]; [done|].
  specialize (Hk d Hd). destruct (inb d port) as [d1 s]. destruct (stop s); [done|]. by apply IH.
Qed.

(** A device that never says stop uses up the time. *)
Lemma poll_never (P : D -> Prop) n port stop d :
  (forall d, P d -> P (fst (inb d port)) /\ stop (snd (inb d port)) <> Some true) ->
  P d -> snd (poll n port stop d) = false.
Proof.
  intros Hk. revert d. induction n as [|n IH]; intros d Hd; cbn [poll]; [done|].
  destruct (Hk d Hd) as [Hk1 Hk2]. destruct (inb d port) as [d1 s]; cbn [fst snd] in *.
  destruct (stop s) as [[]|]; [done|done|by apply IH].
Qed.

End poll.

(** ** The serial line *)

Definition COM1_PORT : Z := 0x3F8.
Definition SERIAL_TX_SPIN_MAX : nat := Z.to_nat 100000.

Section serial.
Context {D : Type} `{!Ports D}.

(** A loop of [serial_transmit_empty], left when the spins are used up. *)
Definition transmit_empty (status : Z) : option bool :=
  if negb (Z.land status 0x20 =? 0) then Some true else None.

Definition serial_data_ready (d : D) : D * bool :=
  let '(d, s) := inb d (COM1_PORT + 5) in (d, negb (Z.land s 0x01 =? 0)).

(** [serial_init]; it also sets [serial_ready]. *)
Definition serial_init (d : D) : D * bool :=
  let d := outb d (COM1_PORT + 1) 0x00 in
  let d := outb d (COM1_PORT + 3) 0x80 in
  let d := outb d (COM1_PORT + 0) 0x03 in
  let d := outb d (COM1_PORT + 1) 0x00 in
  let d := outb d (COM1_PORT + 3) 0x03 in
  let d := outb d (COM1_PORT + 2) 0xC7 in
  let d := outb d (COM1_PORT + 4) 0x0B in
  (d, true).

Definition serial_is_ready (serial_ready : bool) : bool := serial_ready.

(** The loop and the write of [serial_putchar]. *)
Definition serial_send (d : D) (c : Z) : D :=
  let '(d, ok) := poll SERIAL_TX_SPIN_MAX (COM1_PORT + 5) transmit_empty d in
  if ok then outb d COM1_PORT (u8 c) else d.

(** The call [serial_putchar('\r')] inside, being ready and not of a line
    feed, is its [serial_send]. *)
Definition serial_putchar (serial_ready : bool) (d : D) (c : Z) : D :=
  if negb serial_ready then d
  else
    let d := if c =? 10 then serial_send d 13 else d in
    serial_send d c.

Fixpoint serial_print (serial_ready : bool) (d : D) (s : list Z) : D :=
  match s with
  | c :: s' => if c =? 0 then d else serial_print serial_ready (serial_putchar serial_ready d c) s'
  | [] => d
  end.

(** The character stored through [out], if any. *)
Definition serial_try_read_char (serial_ready : bool) (d : D) : D * option Z :=
  if negb serial_ready then (d, None)
  else
    let '(d, ready) := serial_data_ready d in
    if negb ready then (d, None)
    else let '(d, c) := inb d COM1_PORT in (d, Some c).

End serial.

(** What the serial driver relies on.  [sent d l]: the line has transmitted
    or holds the bytes [l]; [room d l]: moreover it can take one more. *)
Class SerialLine (D : Type) := {
  sent : D -> list Z -> Prop;
  room : D -> list Z -> Prop
}.

Class SerialLaws (D : Type) `{!Ports D} `{!SerialLine D} : Prop := {
  line_empties d l :
    sent d l ->
    answers (COM1_PORT + 5) transmit_empty (fun d' => room d' l) SERIAL_TX_SPIN_MAX d;
  line_takes d l c : room d l -> is_byte c -> sent (outb d COM1_PORT c) (l ++ [c])
}.

(** A line of text as the other side sees it. *)
Definition with_returns (s : list Z) : list Z :=
  s ≫= fun c => if c =? 10 then [13; 10] else [c].

Section serial_theorems.
Context {D : Type} `{!Ports D} `{!SerialLine D} `{!SerialLaws D}.

Lemma serial_send_sent d l c : sent d l -> is_byte c -> sent (serial_send d c) (l ++ [c]).
Proof using All.
  intros Hl Hc. unfold serial_send.
  destruct (answers_poll _ _ _ _ _ (line_empties d l Hl)) as (d' & -> & Hr).
  rewrite u8_byte by done. by apply line_takes.
Qed.

Lemma serial_putchar_sent d l c :
  sent d l -> is_byte c -> sent (serial_putchar true d c) (l ++ with_returns [c]).
Proof using All.
  intros Hl Hc. unfold serial_putchar, with_returns. cbn [negb mbind list_bind app].
  destruct (c =? 10) eqn:E; zify_bool; cbn [app]; [|by apply serial_send_sent].
  subst c. change [13; 10] with ([13] ++ [10]). rewrite app_assoc.
  apply serial_send_sent; [|done]. by apply serial_send_sent.
Qed.

(** the serial line carries what is printed: every byte of the string up to
    its terminator, in order, with a carriage return before each line feed.  A
    line that takes the next byte within the spins the driver allows loses
    none. *)
Theorem serial_print_sent d l s :
  sent d l -> Forall is_byte s ->
  sent (serial_print true d s) (l ++ with_returns (cstr s)).
Proof using All.
  revert d l. induction s as [|c s IH]; intros d l Hl Hs; cbn [serial_print cstr].
  { by rewrite app_nil_r. }
  apply Forall_cons_iff in Hs as [Hc Hs].
  destruct (c =? 0); [by rewrite app_nil_r|].
  change (with_returns (c :: cstr s)) with ((if c =? 10 then [13; 10] else [c]) ++ with_returns (cstr s)).
  rewrite app_assoc. apply IH; [|done].
  pose proof (serial_putchar_sent d l c Hl Hc) as H.
  unfold with_returns in H. cbn [mbind list_bind] in H. by rewrite app_nil_r in H.
Qed.

End serial_theorems.

(** Before [serial_init] nothing is sent, and nothing read. *)
Lemma serial_off {D} `{!Ports D} (d : D) s :
  serial_print false d s = d /\ serial_try_read_char false d = (d, None).
Proof.
  split; [|done]. induction s as [|c s IH]; [done|]. cbn. by destruct (c =? 0).
Qed.

(** A transmitter that is never empty costs time, not the kernel: the call
    returns, and the byte is dropped. *)
Lemma serial_send_stuck {D} `{!Ports D} (P : D -> Prop) d c :
  (forall d, P d -> P (fst (inb d (COM1_PORT + 5))) /\
     transmit_empty (snd (inb d (COM1_PORT + 5))) <> Some true) ->
  P d -> P (serial_send d c).
Proof.
  intros Hk Hd. unfold serial_send.
  pose proof (poll_never P SERIAL_TX_SPIN_MAX (COM1_PORT + 5) transmit_empty d Hk Hd) as Hn.
  pose proof (poll_keeps P SERIAL_TX_SPIN_MAX (COM1_PORT + 5) transmit_empty d
                (fun d Hd => proj1 (Hk d Hd)) Hd) as Hp.
  destruct (poll _ _ _ d) as [d' ok]. cbn in Hn, Hp. by subst ok.
Qed.

(** ** A line that needs two looks at its status before each byte *)

Record slow_line := { line_out : list Z; line_wait : nat }.

#[local] Instance slow_ports : Ports slow_line := {
  inb d p := match line_wait d with
             | O => (d, 0x20)
             | S n => ({| line_out := line_out d; line_wait := n |}, 0)
             end;
  outb d p c := if p =? COM1_PORT then {| line_out := line_out d ++ [c]; line_wait := 2 |} else d;
  inw d p := (d, 0);
  outw d p c := d
}.

#[local] Instance slow_serial : SerialLine slow_line := {
  sent d l := line_out d = l /\ (line_wait d <= 2)%nat;
  room d l := line_out d = l
}.

Lemma slow_answers n m l :
  (n < m)%nat ->
  answers (COM1_PORT + 5) transmit_empty (fun d => room d l) m {| line_out := l; line_wait := n |}.
Proof.
  revert m. induction n as [|n IH]; intros [|m] Hm; try lia.
  - by eapply answers_now.
  - eapply answers_later; [done|done|]. apply IH. lia.
Qed.

#[local] Instance slow_laws : SerialLaws slow_line.
Proof.
  split.
  - intros [o n] l [<- Hn]; cbn in Hn. apply slow_answers. unfold SERIAL_TX_SPIN_MAX. lia.
  - intros [o n] l c <- Hc. split; [done|exact (le_n 2)].
Qed.

Lemma serial_print_sent_witness :
  sent (serial_print true {| line_out := []; line_wait := 0 |} (lit "ok" ++ [10; 0; 7]))
    [111; 107; 13; 10].
Proof.
  apply (serial_print_sent {| line_out := []; line_wait := 0 |} [] (lit "ok" ++ [10; 0; 7])).
  - split; [reflexivity|]. cbn. lia.
  - vm_compute. repeat constructor; discriminate.
Defined.
