(* ===== verification/Atapi.v ===== *)
(** * Atapi: the CD driver of [src/kernel/atapi.c]

    The driver talks to the drive through its ports (Ports.v); [D] is the state
    of the hardware.  [Drive] and [DriveLaws] say what a drive does that follows
    the ATA packet protocol: it is idle, or takes the words of a packet, or has
    words to give.  For such a drive a read returns the sectors of the disc
    whatever state the drive is in, which is why Storage.v and the components
    above it may take a device for a function of the sector number. *)
From S2P Require Import Prelude KernelH Util Memory Storage Ports.
Local Open Scope Z_scope.
Local Open Scope slop_scope.

Definition ATA_PRIMARY_IO : Z := 0x1F0.
Definition ATA_PRIMARY_CTRL : Z := 0x3F6.
Definition ATA_SECONDARY_IO : Z := 0x170.
Definition ATA_SECONDARY_CTRL : Z := 0x376.

Definition ATA_REG_DATA : Z := 0.
Definition ATA_REG_FEATURES : Z := 1.
Definition ATA_REG_SECCOUNT0 : Z := 2.
Definition ATA_REG_LBA0 : Z := 3.
Definition ATA_REG_LBA1 : Z := 4.
Definition ATA_REG_LBA2 : Z := 5.
Definition ATA_REG_HDDEVSEL : Z := 6.
Definition ATA_REG_COMMAND : Z := 7.
Definition ATA_REG_STATUS : Z := 7.

Definition ATA_SR_ERR : Z := 0x01.
Definition ATA_SR_DRQ : Z := 0x08.
Definition ATA_SR_DF : Z := 0x20.
Definition ATA_SR_BSY : Z := 0x80.

Definition ATA_CMD_IDENTIFY : Z := 0xEC.
Definition ATA_CMD_IDENTIFY_PACKET : Z := 0xA1.
Definition ATA_CMD_PACKET : Z := 0xA0.

Definition ATAPI_SIG_LBA1 : Z := 0x14.
Definition ATAPI_SIG_LBA2 : Z := 0xEB.
Definition ATAPI_SECTOR_SIZE : Z := 2048.

(** The timeout of every wait. *)
Definition ATA_TIMEOUT : nat := Z.to_nat 200000.

Record atapi_device := {
  io_base : Z;
  ctrl_base : Z;
  slave : Z
}.

Definition not_busy (s : Z) : option bool :=
  if Z.land s ATA_SR_BSY =? 0 then Some true else None.

Definition data_request (s : Z) : option bool :=
  if Z.land s ATA_SR_BSY =? 0 then
    if negb (Z.land s ATA_SR_DRQ =? 0) then Some true
    else if negb (Z.land s (Z.lor ATA_SR_ERR ATA_SR_DF) =? 0) then Some false
    else None
  else None.

Section driver.
Context {D : Type} `{!Ports D}.

Definition ata_io_wait (ctrl_base : Z) (d : D) : D :=
  let d := fst (inb d (u16 (ctrl_base + 0))) in
  let d := fst (inb d (u16 (ctrl_base + 0))) in
  let d := fst (inb d (u16 (ctrl_base + 0))) in
  fst (inb d (u16 (ctrl_base + 0))).

Definition ata_wait_not_busy (io_base : Z) (timeout : nat) (d : D) : D * bool :=
  poll timeout (u16 (io_base + ATA_REG_STATUS)) not_busy d.

Definition ata_wait_drq (io_base : Z) (timeout : nat) (d : D) : D * bool :=
  poll timeout (u16 (io_base + ATA_REG_STATUS)) data_request d.

Definition ata_select_drive (io_base slave : Z) (d : D) : D :=
  outb d (u16 (io_base + ATA_REG_HDDEVSEL)) (u8 (Z.lor 0xA0 (if slave =? 0 then 0 else 0x10))).

(** [n] words read and dropped. *)
Fixpoint drop_words (n : nat) (io_base : Z) (d : D) : D :=
  match n with
  | O => d
  | S n' => drop_words n' io_base (fst (inw d (u16 (io_base + ATA_REG_DATA))))
  end.

Definition atapi_identify (io_base ctrl_base slave : Z) (d : D) : D * bool :=
  let d := ata_select_drive io_base slave d in
  let d := ata_io_wait ctrl_base d in
  let d := outb d (u16 (io_base + ATA_REG_SECCOUNT0)) 0 in
  let d := outb d (u16 (io_base + ATA_REG_LBA0)) 0 in
  let d := outb d (u16 (io_base + ATA_REG_LBA1)) 0 in
  let d := outb d (u16 (io_base + ATA_REG_LBA2)) 0 in
  let d := outb d (u16 (io_base + ATA_REG_COMMAND)) ATA_CMD_IDENTIFY in
  let '(d, s) := inb d (u16 (io_base + ATA_REG_STATUS)) in
  if s =? 0 then (d, false)
  else
    let '(d, ok) := ata_wait_not_busy io_base ATA_TIMEOUT d in
    if negb ok then (d, false)
    else
      let '(d, lba1) := inb d (u16 (io_base + ATA_REG_LBA1)) in
      let '(d, lba2) := inb d (u16 (io_base + ATA_REG_LBA2)) in
      if negb (lba1 =? ATAPI_SIG_LBA1) || negb (lba2 =? ATAPI_SIG_LBA2) then (d, false)
      else
        let d := outb d (u16 (io_base + ATA_REG_COMMAND)) ATA_CMD_IDENTIFY_PACKET in
        let '(d, ok) := ata_wait_drq io_base ATA_TIMEOUT d in
        if negb ok then (d, false)
        else (drop_words 256 io_base d, true).

(** The packet of a read of one sector. *)
Definition read_packet (cur_lba : Z) : list Z :=
  let packet := replicate 12 0 in
  let packet := <[0%nat := 0xA8]> packet in
  let packet := <[2%nat := Z.land (Z.shiftr cur_lba 24) 0xFF]> packet in
  let packet := <[3%nat := Z.land (Z.shiftr cur_lba 16) 0xFF]> packet in
  let packet := <[4%nat := Z.land (Z.shiftr cur_lba 8) 0xFF]> packet in
  let packet := <[5%nat := Z.land cur_lba 0xFF]> packet in
  <[9%nat := 1]> packet.

(** [for (i ..; i < 6; ++i)]: word [i] of the packet, [n] words to go. *)
Fixpoint write_packet (n i : nat) (dev : atapi_device) (packet : list Z) (d : D) : D :=
  match n with
  | O => d
  | S n' =>
      let w := u16 (Z.lor (nth (i * 2) packet 0) (Z.shiftl (nth (i * 2 + 1) packet 0) 8)) in
      write_packet n' (S i) dev packet (outw d (u16 (io_base dev + ATA_REG_DATA)) w)
  end.

(** [for (i ..; i < ATAPI_SECTOR_SIZE / 2; ++i)], [n] words to go. *)
Fixpoint read_words (n : nat) (i block : Z) (dev : atapi_device) (d : D) (m : mem) (dst : Z)
    : D * mem :=
  match n with
  | O => (d, m)
  | S n' =>
      let '(d, w) := inw d (u16 (io_base dev + ATA_REG_DATA)) in
      let m := store m (dst + ((block *u ATAPI_SECTOR_SIZE) +u (i *u 2))) (Z.land w 0xFF) in
      let m := store m (dst + (((block *u ATAPI_SECTOR_SIZE) +u (i *u 2)) +u 1))
                 (Z.land (Z.shiftr w 8) 0xFF) in
      read_words n' (i +u 1) block dev d m dst
  end.

(** One turn of the loop over the blocks. *)
Definition read_block (dev : atapi_device) (lba block : Z) (d : D) (m : mem) (dst : Z)
    : D * mem * bool :=
  let cur_lba := lba +u block in
  let d := ata_select_drive (io_base dev) (slave dev) d in
  let d := ata_io_wait (ctrl_base dev) d in
  let '(d, ok) := ata_wait_not_busy (io_base dev) ATA_TIMEOUT d in
  if negb ok then (d, m, false)
  else
    let d := outb d (u16 (io_base dev + ATA_REG_FEATURES)) 0 in
    let d := outb d (u16 (io_base dev + ATA_REG_LBA1)) (u8 (Z.land ATAPI_SECTOR_SIZE 0xFF)) in
    let d := outb d (u16 (io_base dev + ATA_REG_LBA2))
               (u8 (Z.land (Z.shiftr ATAPI_SECTOR_SIZE 8) 0xFF)) in
    let d := outb d (u16 (io_base dev + ATA_REG_COMMAND)) ATA_CMD_PACKET in
    let '(d, ok) := ata_wait_drq (io_base dev) ATA_TIMEOUT d in
    if negb ok then (d, m, false)
    else
      let d := write_packet 6 0 dev (read_packet cur_lba) d in
      let '(d, ok) := ata_wait_drq (io_base dev) ATA_TIMEOUT d in
      if negb ok then (d, m, false)
      else
        let '(d, m) := read_words (Z.to_nat (ATAPI_SECTOR_SIZE / 2)) 0 block dev d m dst in
        let '(d, ok) := ata_wait_not_busy (io_base dev) ATA_TIMEOUT d in
        if negb ok then (d, m, false)
        else
          let '(d, s) := inb d (u16 (io_base dev + ATA_REG_STATUS)) in
          if negb (Z.land s (Z.lor ATA_SR_ERR ATA_SR_DF) =? 0) then (d, m, false)
          else (d, m, true).

(** The loop from [block] on, [n] blocks to go. *)
Fixpoint read_loop (n : nat) (block : Z) (dev : atapi_device) (lba : Z) (d : D) (m : mem) (dst : Z)
    : D * mem * bool :=
  match n with
  | O => (d, m, true)
  | S n' =>
      let '(d, m, ok) := read_block dev lba block d m dst in
      if ok then read_loop n' (block +u 1) dev lba d m dst else (d, m, false)
  end.

(** [ctx] is the device, [out_buf] an address. *)
Definition atapi_read_blocks (ctx : option atapi_device) (lba count out_buf : Z) (d : D) (m : mem)
    : D * mem * bool :=
  match ctx with
  | Some dev =>
      if (out_buf =? 0) || (count =? 0) then (d, m, false)
      else read_loop (Z.to_nat count) 0 dev lba d m out_buf
  | None => (d, m, false)
  end.

Definition candidates : list atapi_device := [
  {| io_base := ATA_PRIMARY_IO; ctrl_base := ATA_PRIMARY_CTRL; slave := 0 |};
  {| io_base := ATA_PRIMARY_IO; ctrl_base := ATA_PRIMARY_CTRL; slave := 1 |};
  {| io_base := ATA_SECONDARY_IO; ctrl_base := ATA_SECONDARY_CTRL; slave := 0 |};
  {| io_base := ATA_SECONDARY_IO; ctrl_base := ATA_SECONDARY_CTRL; slave := 1 |}].

(** What the callback registered for [dev] stores through its [out] argument,
    with the drive in state [d]; the address of the buffer plays no part. *)
Definition driver_read (dev : atapi_device) (d : D) : block_read_fn := fun lba count =>
  let '(_, m, ok) := atapi_read_blocks (Some dev) lba count ATAPI_SECTOR_SIZE d mem_empty in
  if ok then Some (load_bytes m ATAPI_SECTOR_SIZE (Z.to_nat (count * ATAPI_SECTOR_SIZE))) else None.

(** The loop over the candidates; [cd0_dev] is the one that was found. *)
Fixpoint probe_loop (cands : list atapi_device) (devs : device_table) (slot_name : list Z) (d : D)
    : D * option atapi_device * device_table * bool :=
  match cands with
  | [] => (d, None, devs, false)
  | c :: cands' =>
      let '(d, ok) := atapi_identify (io_base c) (ctrl_base c) (slave c) d in
      if ok then
        let '(devs, id) := storage_register_device devs slot_name (Some (lit "cd0"))
                             ATAPI_SECTOR_SIZE (Some (driver_read c d)) in
        (d, Some c, devs, 0 <=? id)
      else probe_loop cands' devs slot_name d
  end.

Definition atapi_probe_and_register (devs : device_table) (slot_name : list Z) (d : D)
    : D * option atapi_device * device_table * bool :=
  probe_loop candidates devs slot_name d.

End driver.

(** ** Drives *)

(** The 16-bit words of a list of bytes, low byte first. *)
Fixpoint words_of (l : list Z) : list Z :=
  match l with
  | a :: b :: l' => (a + 256 * b) :: words_of l'
  | _ => []
  end.

(** READ(12) of one sector: the operation code, the sector's number and the
    number of sectors with the high byte first. *)
Definition read12 (lba : Z) : list Z :=
  [0xA8; 0] ++ rev (le32 lba) ++ rev (le32 1) ++ [0; 0].

(** [drive_idle d]: no command in progress.  [taking d ws]: a packet command was
    given, with at most 2048 bytes to a transfer, and the words [ws] of the
    packet arrived.  [giving d ws]: the words [ws] are still to be read. *)
Class Drive (D : Type) := {
  drive_idle : D -> Prop;
  taking : D -> list Z -> Prop;
  giving : D -> list Z -> Prop
}.

(** A drive at the ports of [dev], with a disc of [sectors] sectors in it. *)
Class DriveLaws (D : Type) `{!Ports D} `{!Drive D} (dev : atapi_device) (sectors : Z)
    (sector : Z -> list Z) : Prop := {
  sector_bytes lba :
    0 <= lba < sectors -> length (sector lba) = 2048%nat /\ all_bytes (sector lba);
  idle_select d :
    drive_idle d ->
    drive_idle (outb d (u16 (io_base dev + 6)) (if slave dev =? 0 then 0xA0 else 0xB0));
  idle_alt_status d : drive_idle d -> drive_idle (fst (inb d (u16 (ctrl_base dev))));
  idle_answers d :
    drive_idle d -> answers (u16 (io_base dev + 7)) not_busy drive_idle ATA_TIMEOUT d;
  packet_answers d :
    drive_idle d ->
    answers (u16 (io_base dev + 7)) data_request (fun d' => taking d' []) ATA_TIMEOUT
      (outb (outb (outb (outb d (u16 (io_base dev + 1)) 0)
         (u16 (io_base dev + 4)) 0) (u16 (io_base dev + 5)) 8) (u16 (io_base dev + 7)) 0xA0);
  packet_takes d ws w :
    taking d ws -> (length ws < 5)%nat -> taking (outw d (u16 (io_base dev)) w) (ws ++ [w]);
  read_answers d ws w lba :
    taking d ws -> ws ++ [w] = words_of (read12 lba) -> 0 <= lba < sectors ->
    answers (u16 (io_base dev + 7)) data_request (fun d' => giving d' (words_of (sector lba)))
      ATA_TIMEOUT (outw d (u16 (io_base dev)) w);
  data_given d w ws :
    giving d (w :: ws) -> exists d', inw d (u16 (io_base dev)) = (d', w) /\ giving d' ws;
  read_ends d :
    giving d [] ->
    answers (u16 (io_base dev + 7)) not_busy
      (fun d' => exists d'' s, inb d' (u16 (io_base dev + 7)) = (d'', s) /\
         Z.land s 0x21 = 0 /\ drive_idle d'') ATA_TIMEOUT d
}.

(** ** The packet *)

Lemma land_ff x : Z.land x 0xFF = x `mod` 256.
Proof. change 0xFF with (Z.ones 8). by rewrite Z.land_ones by lia. Qed.

Lemma read_packet_read12 lba : is_u32 lba -> read_packet lba = read12 lba.
Proof.
  intros Hl. unfold is_u32 in Hl. unfold read_packet, read12, le32. cbn.
  rewrite !land_ff, !Z.shiftr_div_pow2 by lia.
  change (2 ^ 24) with 16777216; change (2 ^ 16) with 65536; change (2 ^ 8) with 256. done.
Qed.

Lemma byte_pair a b : is_byte a -> is_byte b -> u16 (Z.lor a (Z.shiftl b 8)) = a + 256 * b.
Proof.
  unfold is_byte. intros Ha Hb.
  rewrite lor_shiftl_add by (change (2 ^ 8) with 256; lia).
  change (2 ^ 8) with 256. unfold u16. rewrite Z.mod_small by lia. lia.
Qed.

Lemma pair_low a b : is_byte a -> is_byte b -> Z.land (a + 256 * b) 0xFF = a.
Proof. unfold is_byte. intros Ha Hb. rewrite land_ff. mlia. Qed.

Lemma pair_high a b :
  is_byte a -> is_byte b -> Z.land (Z.shiftr (a + 256 * b) 8) 0xFF = b.
Proof.
  unfold is_byte. intros Ha Hb. rewrite land_ff, Z.shiftr_div_pow2 by lia.
  change (2 ^ 8) with 256. mlia.
Qed.

Lemma read12_bytes lba : all_bytes (read12 lba).
Proof.
  pose proof (le32_bytes lba) as Hl. pose proof (le32_bytes 1) as H1.
  unfold read12, all_bytes in *.
  apply Forall_app_2; [by repeat constructor|]. apply Forall_app_2; [by apply Forall_rev|].
  apply Forall_app_2; [by apply Forall_rev|]. by repeat constructor.
Qed.

(** ** Memory *)

Section any_drive.
Context {D : Type} `{!Ports D}.
Implicit Types (d : D) (m : mem).

Lemma block_offset block i :
  0 <= block -> 0 <= i < 1024 -> 2048 * (block + 1) <= 4294967296 ->
  (block *u ATAPI_SECTOR_SIZE) +u (i *u 2) = 2048 * block + 2 * i /\
  ((block *u ATAPI_SECTOR_SIZE) +u (i *u 2)) +u 1 = 2048 * block + 2 * i + 1.
Proof.
  intros Hb Hi Hf. unfold ATAPI_SECTOR_SIZE.
  rewrite (u32_small (block * 2048)), (u32_small (i * 2)) by lia.
  rewrite (u32_small (block * 2048 + i * 2)), u32_small by lia. lia.
Qed.

(** The words read are stored as their bytes. *)
Lemma read_words_spec dev block dst n i d m d' m' :
  0 <= block -> 0 <= i -> i + Z.of_nat n <= 1024 -> fits dst (2048 * (block + 1)) ->
  read_words n i block dev d m dst = (d', m') ->
  same_outside (dst + 2048 * block + 2 * i) (2 * Z.of_nat n) m m'.
Proof.
  revert i d m. induction n as [|n IH]; intros i d m Hb Hi Hn [Hd Hf]; cbn [read_words].
  { intros [= _ <-]. apply same_outside_refl. }
  destruct (inw d _) as [d1 w].
  destruct (block_offset block i) as [Ho1 Ho2]; [lia..|].
  rewrite Ho2, Ho1. rewrite (u32_small (i + 1)) by lia. intros Hr.
  apply IH in Hr; [|lia|lia|lia|by split].
  intros x Hx. rewrite Hr by lia. unfold store. rewrite !u32_small by lia.
  repeat (split_if; [zify_bool; lia|]). done.
Qed.

Lemma read_block_outside dev lba block d m dst d' m' ok :
  0 <= block -> fits dst (2048 * (block + 1)) ->
  read_block dev lba block d m dst = (d', m', ok) ->
  same_outside (dst + 2048 * block) 2048 m m'.
Proof.
  intros Hb Hf. unfold read_block.
  destruct (ata_wait_not_busy _ _ _) as [d1 []]; cbn [negb];
    [|intros [= _ <- _]; apply same_outside_refl].
  destruct (ata_wait_drq _ _ _) as [d2 []]; cbn [negb];
    [|intros [= _ <- _]; apply same_outside_refl].
  destruct (ata_wait_drq _ _ _) as [d3 []]; cbn [negb];
    [|intros [= _ <- _]; apply same_outside_refl].
  destruct (read_words _ _ _ _ _ _ _) as [d4 m4] eqn:Hw.
  apply read_words_spec in Hw; [|done|lia|done|done].
  replace (dst + 2048 * block + 2 * 0) with (dst + 2048 * block) in Hw by lia.
  change (2 * Z.of_nat (Z.to_nat (ATAPI_SECTOR_SIZE / 2))) with 2048 in Hw.
  destruct (ata_wait_not_busy _ _ _) as [d5 []]; cbn [negb]; [|by intros [= _ <- _]].
  destruct (inb d5 _) as [d6 s]. by destruct (negb _); intros [= _ <- _].
Qed.

Lemma read_loop_outside dev lba dst n block d m d' m' ok :
  0 <= block -> fits dst (2048 * (block + Z.of_nat n)) ->
  read_loop n block dev lba d m dst = (d', m', ok) ->
  same_outside (dst + 2048 * block) (2048 * Z.of_nat n) m m'.
Proof.
  revert block d m. induction n as [|n IH]; intros block d m Hb [Hd Hf]; cbn [read_loop].
  { intros [= _ <- _]. apply same_outside_refl. }
  destruct (read_block _ _ _ _ _ _) as [[d1 m1] ok1] eqn:Hr.
  apply read_block_outside in Hr; [|done|split; lia].
  rewrite (u32_small (block + 1)) by lia.
  assert (same_outside (dst + 2048 * block) (2048 * Z.of_nat (S n)) m m1) as H1.
  { intros x Hx. apply Hr. lia. }
  destruct ok1; [|by intros [= _ <- _]]. intros Hl.
  apply IH in Hl; [|lia|split; lia].
  intros x Hx. rewrite Hl by lia. by apply H1.
Qed.

(** C37: whatever the hardware answers, a read of [count] sectors returns, and
    stores nothing outside the [count * 2048] bytes of its buffer; what it
    leaves there when it fails is any part of them. *)
Theorem atapi_read_inside ctx lba count out_buf d m d' m' ok :
  0 <= count -> fits out_buf (count * 2048) ->
  atapi_read_blocks ctx lba count out_buf d m = (d', m', ok) ->
  same_outside out_buf (count * 2048) m m' /\ (ok = true -> count <> 0 /\ out_buf <> 0).
Proof.
  intros Hc Hf. unfold atapi_read_blocks. destruct ctx as [dev|].
  - destruct (out_buf =? 0) eqn:E1; zify_bool; cbn [orb].
    { intros [= _ <- <-]. split; [apply same_outside_refl|done]. }
    destruct (count =? 0) eqn:E2; zify_bool.
    { intros [= _ <- <-]. split; [apply same_outside_refl|done]. }
    intros Hr. split; [|done].
    apply read_loop_outside in Hr; [|lia|].
    + intros x Hx. apply Hr. lia.
    + destruct Hf. split; lia.
  - intros [= _ <- <-]. split; [apply same_outside_refl|done].
Qed.

End any_drive.

(** ** A drive that follows the protocol *)

Lemma words_of_lookup_length l : Z.of_nat (length (words_of l)) = Z.of_nat (length l) / 2.
Proof.
  enough (forall n l, (length l <= n)%nat ->
    Z.of_nat (length (words_of l)) = Z.of_nat (length l) / 2) as H by by eapply H.
  induction n as [|n IH]; intros [|a [|b k]] Hk; cbn [length words_of] in *; try done; [lia|].
  rewrite !Nat2Z.inj_succ, IH by lia. mlia.
Qed.

Section lawful_drive.
Context {D : Type} `{!Ports D} `{!Drive D} (dev : atapi_device) (sectors : Z)
        (sector : Z -> list Z) `{!DriveLaws D dev sectors sector}.
Implicit Types (d : D) (m : mem).

Lemma io_wait_idle d : drive_idle d -> drive_idle (ata_io_wait (ctrl_base dev) d).
Proof using All.
  intros Hd. unfold ata_io_wait. rewrite Z.add_0_r. by do 4 apply idle_alt_status.
Qed.

Lemma select_idle d : drive_idle d -> drive_idle (ata_select_drive (io_base dev) (slave dev) d).
Proof using All.
  intros Hd. apply idle_select in Hd. unfold ata_select_drive. by destruct (slave dev =? 0).
Qed.

(** The six words of the packet, the last of which starts the transfer. *)
Lemma write_packet_answers d lba :
  taking d [] -> 0 <= lba < sectors -> is_u32 lba ->
  answers (u16 (io_base dev + 7)) data_request (fun d' => giving d' (words_of (sector lba)))
    ATA_TIMEOUT (write_packet 6 0 dev (read_packet lba) d).
Proof using All.
  intros Hd Hl Hu. rewrite read_packet_read12 by done.
  pose proof (read12_bytes lba) as Hb.
  assert (length (read12 lba) = 12%nat) as Hlen by done.
  destruct (read12 lba) as [|p0 [|p1 [|p2 [|p3 [|p4 [|p5 [|p6 [|p7 [|p8 [|p9 [|p10 [|p11
    [|]]]]]]]]]]]]] eqn:Hp; try discriminate Hlen.
  unfold all_bytes in Hb. rewrite !Forall_cons_iff in Hb. destruct_and! Hb.
  cbn [write_packet nth Nat.mul Nat.add]. unfold ATA_REG_DATA. rewrite Z.add_0_r.
  rewrite !byte_pair by done.
  set (w0 := p0 + _). set (w1 := p2 + _). set (w2 := p4 + _). set (w3 := p6 + _).
  set (w4 := p8 + _). set (w5 := p10 + _).
  apply (read_answers _ [w0; w1; w2; w3; w4] w5 lba); [|by rewrite Hp|done].
  apply (packet_takes _ [w0; w1; w2; w3]); [|cbn; lia].
  apply (packet_takes _ [w0; w1; w2]); [|cbn; lia].
  apply (packet_takes _ [w0; w1]); [|cbn; lia].
  apply (packet_takes _ [w0]); [|cbn; lia].
  apply (packet_takes _ []); [done|cbn; lia].
Qed.

(** The data phase stores the bytes of the sector. *)
Lemma read_words_given block dst bytes : forall n i d m,
  length bytes = (2 * n)%nat -> all_bytes bytes ->
  0 <= block -> 0 <= i -> i + Z.of_nat n <= 1024 -> fits dst (2048 * (block + 1)) ->
  giving d (words_of bytes) ->
  exists d', read_words n i block dev d m dst =
    (d', store_bytes m (dst + 2048 * block + 2 * i) bytes) /\ giving d' [].
Proof using All.
  intros n. revert bytes.
  induction n as [|n IH]; intros bytes i d m Hlen Hb Hblk Hi Hn Hf Hd.
  { destruct bytes; [|done]. by exists d. }
  destruct bytes as [|a [|b l]]; cbn [length] in Hlen; try lia.
  unfold all_bytes in Hb. rewrite !Forall_cons_iff in Hb. destruct Hb as (Ha & Hb & Hl).
  cbn [words_of] in Hd. apply data_given in Hd as (d1 & Hw & Hd). unfold all_bytes in IH.
  cbn [read_words]. unfold ATA_REG_DATA. rewrite Z.add_0_r, Hw, pair_low, pair_high by done.
  destruct (block_offset block i) as [Ho1 Ho2]; [lia|lia|destruct Hf; lia|].
  rewrite Ho2, Ho1, (u32_small (i + 1)) by lia.
  destruct (IH l (i + 1) d1 (store (store m (dst + (2048 * block + 2 * i)) a)
              (dst + (2048 * block + 2 * i + 1)) b)) as (d' & Hr & Hd'); try done; try lia.
  exists d'. split; [|done]. rewrite Hr. cbn [store_bytes].
  by repeat (f_equal; try lia).
Qed.

(** One turn of the loop reads one sector. *)
Lemma read_block_sector lba block d m dst :
  drive_idle d -> 0 <= block -> is_u32 (lba + block) -> 0 <= lba + block < sectors ->
  fits dst (2048 * (block + 1)) ->
  exists d', read_block dev lba block d m dst =
    (d', store_bytes m (dst + 2048 * block) (sector (lba + block)), true) /\ drive_idle d'.
Proof using All.
  intros Hd Hb Hu Hs Hf. unfold read_block. rewrite (u32_small (lba + block)) by exact Hu.
  unfold ata_wait_not_busy, ata_wait_drq, ATA_REG_STATUS, ATA_REG_COMMAND.
  apply select_idle, io_wait_idle in Hd.
  apply idle_answers, answers_poll in Hd as (d1 & -> & Hd). cbn [negb].
  apply packet_answers, answers_poll in Hd as (d2 & Hp & Hd).
  unfold ATA_REG_FEATURES, ATA_REG_LBA1, ATA_REG_LBA2.
  change (u8 (Z.land ATAPI_SECTOR_SIZE 255)) with 0.
  change (u8 (Z.land (Z.shiftr ATAPI_SECTOR_SIZE 8) 255)) with 8.
  unfold ATA_CMD_PACKET. rewrite Hp. cbn [negb].
  apply (write_packet_answers _ (lba + block)) in Hd; [|done|done].
  apply answers_poll in Hd as (d3 & -> & Hd). cbn [negb].
  destruct (sector_bytes _ Hs) as [Hlen Hby].
  destruct (read_words_given block dst (sector (lba + block))
              (Z.to_nat (ATAPI_SECTOR_SIZE / 2)) 0 d3 m) as (d4 & -> & Hd4); try done.
  replace (dst + 2048 * block + 2 * 0) with (dst + 2048 * block) by lia.
  apply read_ends, answers_poll in Hd4 as (d5 & -> & d6 & s & -> & Hz & Hi). cbn [negb].
  change (Z.lor ATA_SR_ERR ATA_SR_DF) with 0x21. rewrite Hz. by exists d6.
Qed.

(** [count] sectors from [lba] on, as the disc has them. *)
Definition disc_bytes (lba count : Z) : list Z := seqZ lba count ≫= sector.

Lemma disc_bytes_cons lba n :
  disc_bytes lba (Z.of_nat (S n)) = sector lba ++ disc_bytes (lba + 1) (Z.of_nat n).
Proof using Type.
  unfold disc_bytes. rewrite seqZ_cons by lia.
  replace (Z.pred (Z.of_nat (S n))) with (Z.of_nat n) by lia.
  by replace (Z.succ lba) with (lba + 1) by lia.
Qed.

Lemma disc_bytes_spec lba n :
  0 <= lba -> lba + Z.of_nat n <= sectors ->
  Z.of_nat (length (disc_bytes lba (Z.of_nat n))) = 2048 * Z.of_nat n /\
  all_bytes (disc_bytes lba (Z.of_nat n)).
Proof using All.
  revert lba. induction n as [|n IH]; intros lba Hl Hn; [split; [reflexivity|constructor]|].
  rewrite disc_bytes_cons, length_app.
  destruct (sector_bytes lba) as [Hlen Hb]; [lia|].
  destruct (IH (lba + 1)) as [Hlen' Hb']; [lia..|]. split; [lia|]. by apply Forall_app_2.
Qed.

Lemma read_loop_sectors lba dst n block d m :
  drive_idle d -> 0 <= lba -> 0 <= block -> lba + block + Z.of_nat n <= sectors ->
  sectors <= 4294967296 -> fits dst (2048 * (block + Z.of_nat n)) ->
  exists d', read_loop n block dev lba d m dst =
    (d', store_bytes m (dst + 2048 * block) (disc_bytes (lba + block) (Z.of_nat n)), true) /\
    drive_idle d'.
Proof using All.
  revert block d m. induction n as [|n IH]; intros block d m Hd Hl Hb Hn Hs [Hf1 Hf2].
  { by exists d. }
  cbn [read_loop].
  destruct (read_block_sector lba block d m dst) as (d1 & -> & Hd1);
    [done|done|split; lia|lia|split; lia|].
  rewrite (u32_small (block + 1)) by lia.
  destruct (IH (block + 1) d1 (store_bytes m (dst + 2048 * block) (sector (lba + block))))
    as (d' & -> & Hd'); [done|lia|lia|lia|lia|split; lia|].
  exists d'. split; [|done]. rewrite disc_bytes_cons, store_bytes_app.
  destruct (sector_bytes (lba + block)) as [-> _]; [lia|].
  by repeat (f_equal; try lia).
Qed.

(** A whole read, in memory. *)
Lemma read_blocks_sectors lba count out_buf d m :
  drive_idle d -> 0 <= lba -> 0 < count -> lba + count <= sectors -> sectors <= 4294967296 ->
  out_buf <> 0 -> fits out_buf (2048 * count) ->
  exists d', atapi_read_blocks (Some dev) lba count out_buf d m =
    (d', store_bytes m out_buf (disc_bytes lba count), true) /\ drive_idle d'.
Proof using All.
  intros Hd Hl Hc Hn Hs Ho Hf. unfold atapi_read_blocks.
  rewrite (proj2 (Z.eqb_neq out_buf 0)), (proj2 (Z.eqb_neq count 0)) by lia. cbn [orb].
  destruct (read_loop_sectors lba out_buf (Z.to_nat count) 0 d m) as (d' & -> & Hd');
    [done|done|done|lia|done|by rewrite Z.add_0_l, Z2Nat.id by lia|].
  exists d'. by rewrite Z.mul_0_r, !Z.add_0_r, Z2Nat.id by lia.
Qed.

(** reading [count] sectors from a drive that follows the protocol stores
    exactly the bytes of those sectors in the buffer and leaves the drive ready
    for the next command: the packet names the sector, the words arrive in
    order, and every wait ends in time. *)
Theorem atapi_read_sectors lba count out_buf d m :
  drive_idle d -> 0 <= lba -> 0 < count -> lba + count <= sectors -> sectors <= 4294967296 ->
  out_buf <> 0 -> fits out_buf (2048 * count) ->
  exists d', atapi_read_blocks (Some dev) lba count out_buf d m =
    (d', store_bytes m out_buf (disc_bytes lba count), true) /\ drive_idle d'.
Proof using All. apply read_blocks_sectors. Qed.

(** The callback that storage.c keeps for the drive is the disc, whatever
    command came before. *)
Lemma driver_read_disc d lba count :
  drive_idle d -> 0 <= lba -> 0 < count -> lba + count <= sectors ->
  sectors <= 4294967296 -> ATAPI_SECTOR_SIZE * (count + 1) <= 4294967296 ->
  driver_read dev d lba count = Some (disc_bytes lba count).
Proof using All.
  intros Hd Hl Hc Hn Hs Hf. unfold ATAPI_SECTOR_SIZE in Hf. unfold driver_read.
  destruct (read_blocks_sectors lba count ATAPI_SECTOR_SIZE d mem_empty)
    as (d' & -> & _); try done; [by unfold ATAPI_SECTOR_SIZE; split; lia|].
  destruct (disc_bytes_spec lba (Z.to_nat count)) as [Hlen Hb]; [lia..|].
  rewrite Z2Nat.id in Hlen, Hb by lia. f_equal.
  replace (Z.to_nat (count * ATAPI_SECTOR_SIZE)) with (length (disc_bytes lba count))
    by (unfold ATAPI_SECTOR_SIZE; lia).
  apply load_store_bytes; [|done]. rewrite Hlen. unfold ATAPI_SECTOR_SIZE. split; lia.
Qed.

End lawful_drive.

(** ** The probe *)

Section probe.
Context {D : Type} `{!Ports D}.

(** Ports with nothing behind them read as all ones. *)
Definition floating (P : D -> Prop) : Prop :=
  forall d, P d ->
    (forall p, P (fst (inb d p)) /\ snd (inb d p) = 0xFF) /\ (forall p v, P (outb d p v)).

Lemma identify_floating P io ctrl sl d :
  floating P -> P d ->
  exists d', atapi_identify io ctrl sl d = (d', false) /\ P d'.
Proof.
  intros HP Hd. unfold atapi_identify, ata_select_drive, ata_io_wait.
  assert (forall d p v, P d -> P (outb d p v)) as Ho by (intros; by apply HP).
  assert (forall d p, P d -> P (fst (inb d p))) as Hi by (intros; by apply HP).
  set (d1 := outb _ (u16 (io + ATA_REG_COMMAND)) ATA_CMD_IDENTIFY).
  assert (P d1) as Hd1 by (do 5 apply Ho; do 4 apply Hi; by apply Ho).
  clearbody d1. destruct (proj1 (HP d1 Hd1) (u16 (io + ATA_REG_STATUS))) as [Hd2 Hs].
  destruct (inb d1 _) as [d2 s]; cbn [fst snd] in *; subst s. change (0xFF =? 0) with false.
  cbn iota. unfold ata_wait_not_busy.
  pose proof (poll_never P ATA_TIMEOUT (u16 (io + ATA_REG_STATUS)) not_busy d2) as Hn.
  pose proof (poll_keeps P ATA_TIMEOUT (u16 (io + ATA_REG_STATUS)) not_busy d2) as Hk.
  destruct (poll _ _ _ d2) as [d3 ok]; cbn [fst snd] in *.
  rewrite Hn; [|intros d0 Hd0; destruct (proj1 (HP d0 Hd0) (u16 (io + ATA_REG_STATUS))) as [? ->];
               by split|done].
  exists d3. split; [done|]. apply Hk; [|done]. intros d0 Hd0. by apply Hi.
Qed.

(** a machine without drives boots: when nothing answers behind the
    ports, each of the four places is given up in time, no device is registered
    and the probe reports failure. *)
Theorem atapi_probe_none P devs slot_name d :
  floating P -> P d ->
  exists d', atapi_probe_and_register devs slot_name d = (d', None, devs, false) /\ P d'.
Proof.
  intros HP. unfold atapi_probe_and_register. revert d.
  induction candidates as [|c cands IH]; intros d Hd; cbn [probe_loop]; [by exists d|].
  destruct (identify_floating P (io_base c) (ctrl_base c) (slave c) d HP Hd) as (d1 & -> & Hd1).
  by apply IH.
Qed.

(** A successful probe registered the drive that identified itself. *)
Lemma probe_loop_spec cands devs slot_name d d' dev devs' :
  probe_loop cands devs slot_name d = (d', Some dev, devs', true) ->
  In dev cands /\
  exists id, storage_register_device devs slot_name (Some (lit "cd0")) ATAPI_SECTOR_SIZE
               (Some (driver_read dev d')) = (devs', id) /\ 0 <= id.
Proof.
  revert d. induction cands as [|c cands IH]; intros d; cbn [probe_loop]; [done|].
  destruct (atapi_identify _ _ _ d) as [d1 []].
  - destruct (storage_register_device _ _ _ _ (Some (driver_read c d1))) as [devs1 id] eqn:Hr.
    intros [= <- <- <- Hid%Z.leb_le]. split; [by left|]. by exists id.
  - intros Hp. destruct (IH d1 Hp) as [Hin Hid]. split; [by right|done].
Qed.

End probe.

(** C36: the CD as the rest of the kernel sees it: when the probe succeeds, the
    drive it found has the next device id, and reading sectors through that id
    gives the bytes of the disc, whenever it is done: the storage layer may
    treat the drive as a function of the sector number. *)
Theorem atapi_probe_disc {D} `{!Ports D} `{!Drive D} dev sectors sector
    `{!DriveLaws D dev sectors sector} devs slot_name d d' devs' lba count :
  devices_ok devs -> length slot_name = 16%nat ->
  atapi_probe_and_register devs slot_name d = (d', Some dev, devs', true) -> drive_idle d' ->
  0 <= lba -> 0 < count -> lba + count <= sectors -> sectors <= 4294967296 ->
  ATAPI_SECTOR_SIZE * (count + 1) <= 4294967296 ->
  devices_ok devs' /\
  storage_read devs' (Z.of_nat (length devs)) lba count = Some (disc_bytes sector lba count) /\
  (forall d1, drive_idle d1 -> driver_read dev d1 lba count = driver_read dev d' lba count).
Proof.
  intros Hok Hn Hp Hd Hl Hc Hs Hs2 Hf.
  apply probe_loop_spec in Hp as (_ & id & Hr & Hid).
  pose proof (storage_register_ok _ _ _ _ _ _ _ Hok Hn Hr) as (Hok' & Hcase & _).
  case_decide as Hdec; [|lia]. destruct Hcase as (-> & x & Hg & Hx & _).
  split_and!; [done| |].
  - unfold storage_read. rewrite Hg, (proj2 (Z.eqb_neq count 0)) by lia. rewrite Hx.
    by apply (driver_read_disc dev sectors sector).
  - intros d1 Hd1. by rewrite !(driver_read_disc dev sectors sector) by done.
Qed.

(** ** A concrete drive: the master of the second channel *)

Inductive cd_phase :=
  | Ready (status : Z)
  | Packet (ws : list Z)
  | Words (ws : list Z).

Record cd_drive := {
  cd_sel : Z;
  cd_lo : Z;
  cd_hi : Z;
  cd_busy : nat;
  cd_ph : cd_phase
}.

Definition cd_sector (lba : Z) : list Z := [u8 lba; 67; 68] ++ replicate 2045 (u8 (lba * 3)).
Definition cd_sectors : Z := 4.
Definition cd_place : atapi_device :=
  {| io_base := ATA_SECONDARY_IO; ctrl_base := ATA_SECONDARY_CTRL; slave := 0 |}.

Definition cd_set (busy : nat) (ph : cd_phase) (d : cd_drive) : cd_drive :=
  {| cd_sel := cd_sel d; cd_lo := cd_lo d; cd_hi := cd_hi d; cd_busy := busy; cd_ph := ph |}.

Definition cd_status (ph : cd_phase) : Z :=
  match ph with Ready s => s | Packet _ => 0x48 | Words [] => 0x40 | Words _ => 0x48 end.

Definition cd_command (c : Z) (d : cd_drive) : cd_drive :=
  if c =? 0xEC then {| cd_sel := cd_sel d; cd_lo := 0x14; cd_hi := 0xEB; cd_busy := 2;
                       cd_ph := Ready 0x41 |}
  else if c =? 0xA1 then cd_set 2 (Words (replicate 256 0x8580)) d
  else if (c =? 0xA0) && (cd_lo d + 256 * cd_hi d =? 2048) then cd_set 3 (Packet []) d
  else cd_set 1 (Ready 0x41) d.

Definition cd_outb (d : cd_drive) (p v : Z) : cd_drive :=
  if p =? 0x176 then {| cd_sel := v; cd_lo := cd_lo d; cd_hi := cd_hi d; cd_busy := cd_busy d;
                        cd_ph := cd_ph d |}
  else if p =? 0x174 then {| cd_sel := cd_sel d; cd_lo := v; cd_hi := cd_hi d;
                             cd_busy := cd_busy d; cd_ph := cd_ph d |}
  else if p =? 0x175 then {| cd_sel := cd_sel d; cd_lo := cd_lo d; cd_hi := v;
                             cd_busy := cd_busy d; cd_ph := cd_ph d |}
  else if (p =? 0x177) && (cd_sel d =? 0xA0) then cd_command v d
  else d.

Definition cd_inb (d : cd_drive) (p : Z) : cd_drive * Z :=
  if negb (cd_sel d =? 0xA0) then (d, 0)
  else if p =? 0x177 then
    match cd_busy d with
    | O => (d, cd_status (cd_ph d))
    | S n => (cd_set n (cd_ph d) d, 0x80)
    end
  else if p =? 0x174 then (d, cd_lo d)
  else if p =? 0x175 then (d, cd_hi d)
  else (d, 0).

Definition cd_inw (d : cd_drive) (p : Z) : cd_drive * Z :=
  match cd_ph d with
  | Words (w :: ws) => (cd_set (match ws with [] => 1 | _ => 0 end) (Words ws) d, w)
  | _ => (d, 0)
  end.

(** The sector number is in bytes 2 to 5 of the packet. *)
Definition cd_packet (ws : list Z) : cd_phase :=
  match ws with
  | [0xA8; w1; w2; 0; 256; 0] =>
      Words (words_of (cd_sector (w1 `mod` 256 * 16777216 + w1 / 256 * 65536 +
                                  w2 `mod` 256 * 256 + w2 / 256)))
  | _ => Ready 0x41
  end.

Definition cd_outw (d : cd_drive) (p w : Z) : cd_drive :=
  match cd_ph d with
  | Packet ws => if (length ws <? 5)%nat then cd_set (cd_busy d) (Packet (ws ++ [w])) d
                 else cd_set 3 (cd_packet (ws ++ [w])) d
  | _ => d
  end.

#[local] Existing Instance no_ports.

#[export] Instance cd_ports : Ports cd_drive :=
  { inb := cd_inb; outb := cd_outb; inw := cd_inw; outw := cd_outw }.

#[export] Instance cd_states : Drive cd_drive := {
  drive_idle d := cd_sel d = 0xA0 /\ (cd_busy d <= 3)%nat /\
                  (cd_ph d = Words [] \/ exists s, cd_ph d = Ready s /\ Z.land s 0x80 = 0);
  taking d ws := cd_sel d = 0xA0 /\ cd_ph d = Packet ws;
  giving d ws := cd_sel d = 0xA0 /\ cd_ph d = Words ws /\ (cd_busy d <= 3)%nat
}.

(** A busy drive shows it, then its status. *)
Lemma cd_answers stop (P : cd_drive -> Prop) n d :
  cd_sel d = 0xA0 -> stop 0x80 = None -> stop (cd_status (cd_ph d)) = Some true ->
  P (cd_set 0 (cd_ph d) d) -> (cd_busy d < n)%nat -> answers 0x177 stop P n d.
Proof.
  destruct d as [sel lo hi b ph]. cbn. intros -> Hb Hs HP. revert n.
  induction b as [|b IH]; intros [|n] Hn; try lia.
  - by eapply answers_now.
  - eapply answers_later; [done|done|]. apply IH; [done|lia].
Qed.

#[export] Instance cd_laws : DriveLaws cd_drive cd_place cd_sectors cd_sector.
Proof.
  assert (3 < ATA_TIMEOUT)%nat as Ht by (unfold ATA_TIMEOUT; lia).
  split.
  - intros lba _. unfold cd_sector. split; [done|]. apply Forall_app_2.
    + repeat constructor; try done; apply u8_is_byte.
    + apply Forall_replicate, u8_is_byte.
  - intros d (Hs & Hb & Hp). by split.
  - intros d (Hs & Hb & Hp). cbn. unfold cd_inb. rewrite Hs. by split.
  - intros d (Hs & Hb & Hp). apply cd_answers; [done|done| |by split; [|split; [cbn; lia|]]|].
    + destruct Hp as [-> | (s & -> & Hz)]; [done|]. unfold not_busy. cbn [cd_status].
      unfold ATA_SR_BSY. by rewrite Hz.
    + lia.
  - intros d (Hs & Hb & Hp).
    set (d1 := cd_set 3 (Packet []) {| cd_sel := 0xA0; cd_lo := 0; cd_hi := 8;
                                       cd_busy := cd_busy d; cd_ph := cd_ph d |}).
    replace (outb _ _ 0xA0) with d1.
    + apply cd_answers; [done|done|done|done|]. change (3 < ATA_TIMEOUT)%nat. lia.
    + destruct d as [sel lo hi b ph]. cbn in Hs. subst sel. reflexivity.
  - intros d ws w [Hs Hp] Hl. cbn. unfold cd_outw. rewrite Hp.
    rewrite (proj2 (Nat.ltb_lt _ _)) by done. by split.
  - intros d ws w lba [Hs Hp] Hw Hl.
    assert (length ws = 5%nat) as Hlen.
    { apply (f_equal length) in Hw. rewrite length_app in Hw. cbn in Hw. lia. }
    assert (outw d (u16 (io_base cd_place)) w = cd_set 3 (Words (words_of (cd_sector lba))) d) as ->.
    { cbn. unfold cd_outw. rewrite Hp, Hw, Hlen. cbn [Nat.ltb Nat.leb]. f_equal.
      unfold cd_sectors in Hl.
      assert (lba = 0 \/ lba = 1 \/ lba = 2 \/ lba = 3) as [-> | [-> | [-> | ->]]] by lia;
        reflexivity. }
    apply cd_answers; [done|done|done| |change (3 < ATA_TIMEOUT)%nat; lia].
    split; [done|]. split; [done|]. cbn. lia.
  - intros d w ws (Hs & Hp & Hb). eexists. cbn. unfold cd_inw. rewrite Hp. split; [done|].
    split; [done|]. split; [done|]. cbn. destruct ws; lia.
  - intros d (Hs & Hp & Hb). apply cd_answers; [done|done|by rewrite Hp| |lia].
    exists (cd_set 0 (cd_ph d) d), 0x40. cbn. unfold cd_inb. cbn. rewrite Hs. cbn.
    rewrite Hp. split; [done|]. split; [done|]. split; [done|]. split; [lia|by left].
Qed.

(** Before it is first used. *)
Definition cd_fresh : cd_drive :=
  {| cd_sel := 0; cd_lo := 0; cd_hi := 0; cd_busy := 0; cd_ph := Ready 0x40 |}.
Definition cd_idle : cd_drive :=
  {| cd_sel := 0xA0; cd_lo := 0; cd_hi := 0; cd_busy := 3; cd_ph := Ready 0x40 |}.

Lemma cd_idle_ok : drive_idle cd_idle.
Proof. split; [done|]. split; [cbn; lia|]. right. by exists 0x40. Qed.

Definition cd_probe : cd_drive * option atapi_device * device_table * bool :=
  atapi_probe_and_register [] (replicate 16 0) cd_fresh.

Lemma cd_probe_found : snd (fst (fst cd_probe)) = Some cd_place /\ snd cd_probe = true.
Proof. vm_compute. by split. Qed.

Lemma cd_probe_state :
  fst (fst (fst cd_probe)) = {| cd_sel := 0xA0; cd_lo := 0x14; cd_hi := 0xEB; cd_busy := 1;
                                cd_ph := Words [] |}.
Proof. vm_compute. reflexivity. Qed.

Lemma cd_probe_eq :
  cd_probe = (fst (fst (fst cd_probe)), Some cd_place, snd (fst cd_probe), true).
Proof.
  destruct cd_probe_found as [H1 H2]. destruct cd_probe as [[[d dev] devs] ok].
  cbn in *. by rewrite H1, H2.
Qed.

Lemma atapi_read_inside_witness :
  same_outside 5000 (1 * 2048) mem_empty
    (snd (fst (atapi_read_blocks (Some cd_place) 9 1 5000 cd_idle mem_empty))).
Proof.
  destruct (atapi_read_blocks (Some cd_place) 9 1 5000 cd_idle mem_empty) as [[d m] ok] eqn:E.
  apply (atapi_read_inside (Some cd_place) 9 1 5000 cd_idle mem_empty d m ok); [lia| |done].
  split; lia.
Defined.

Lemma atapi_read_sectors_witness :
  exists d', atapi_read_blocks (Some cd_place) 1 2 4096 cd_idle mem_empty =
    (d', store_bytes mem_empty 4096 (disc_bytes cd_sector 1 2), true) /\ drive_idle d'.
Proof.
  apply (atapi_read_sectors cd_place cd_sectors cd_sector 1 2 4096 cd_idle mem_empty);
    [apply cd_idle_ok|unfold cd_sectors; lia..|split; lia].
Defined.

Lemma atapi_probe_none_witness :
  exists d', atapi_probe_and_register [] (replicate 16 0) tt = (d', None, [], false) /\ d' = tt.
Proof.
  apply (atapi_probe_none (fun u => u = tt) [] (replicate 16 0) tt); [|done].
  intros [] _. by split.
Defined.

Lemma atapi_probe_disc_witness :
  devices_ok (snd (fst cd_probe)) /\
  storage_read (snd (fst cd_probe)) 0 3 1 = Some (disc_bytes cd_sector 3 1) /\
  forall d1, drive_idle d1 ->
    driver_read cd_place d1 3 1 = driver_read cd_place (fst (fst (fst cd_probe))) 3 1.
Proof.
  apply (atapi_probe_disc cd_place cd_sectors cd_sector [] (replicate 16 0) cd_fresh
           (fst (fst (fst cd_probe))) (snd (fst cd_probe)) 3 1).
  - split; [vm_compute; discriminate|]. intros i d Hd. done.
  - reflexivity.
  - apply cd_probe_eq.
  - rewrite cd_probe_state. split; [done|]. split; [cbn; lia|by left].
  - lia.
  - lia.
  - unfold cd_sectors. lia.
  - unfold cd_sectors. lia.
  - unfold ATAPI_SECTOR_SIZE. lia.
Defined.
