(* ===== verification/Console.v ===== *)
(** * Console: the text console of [src/kernel/console.c]

    The console keeps what is on the screen in three arrays (character,
    foreground and background colour of each cell) and shows it either in the
    VGA text memory at 0xB8000 or, drawn with a built-in font, in a frame
    buffer.  Both are addresses in the flat memory ([vmem]).  The cursor of the
    VGA hardware and the serial line are reached through ports (Ports.v).

    A text index outside the arrays is outside the model: [set_cell] does
    nothing there.  ConsoleText.v shows that it does not happen. *)
From S2P Require Import Prelude KernelH Util Memory Varargs Ports.
Local Open Scope Z_scope.
Local Open Scope slop_scope.

Definition VGA_COLS : Z := 80.
Definition VGA_ROWS : Z := 25.
Definition FONT_W : Z := 8.
Definition CELL_H : Z := 16.
Definition MAX_CONSOLE_COLS : Z := 120.
Definition MAX_CONSOLE_ROWS : Z := 60.
Definition vga : Z := 0xB8000.

Inductive display_backend := DISPLAY_VGA_TEXT | DISPLAY_FRAMEBUFFER.

Record framebuffer_info := {
  base : Z;
  pitch : Z;
  width : Z;
  height : Z;
  bpp : Z;
  fb_type : Z;
  red_pos : Z;
  red_mask : Z;
  green_pos : Z;
  green_mask : Z;
  blue_pos : Z;
  blue_mask : Z
}.

(** The static variables of the text part. *)
Record term := {
  cursor_row : Z;
  cursor_col : Z;
  text_rows : Z;
  text_cols : Z;
  text_chars : list Z;
  text_fg : list Z;
  text_bg : list Z;
  current_fg : Z;
  current_bg : Z
}.

Definition with_cursor (r c : Z) (t : term) : term := {|
  cursor_row := r; cursor_col := c; text_rows := text_rows t; text_cols := text_cols t;
  text_chars := text_chars t; text_fg := text_fg t; text_bg := text_bg t;
  current_fg := current_fg t; current_bg := current_bg t |}.
Definition with_size (rows cols : Z) (t : term) : term := {|
  cursor_row := cursor_row t; cursor_col := cursor_col t; text_rows := rows; text_cols := cols;
  text_chars := text_chars t; text_fg := text_fg t; text_bg := text_bg t;
  current_fg := current_fg t; current_bg := current_bg t |}.
Definition with_color (fg bg : Z) (t : term) : term := {|
  cursor_row := cursor_row t; cursor_col := cursor_col t; text_rows := text_rows t;
  text_cols := text_cols t; text_chars := text_chars t; text_fg := text_fg t;
  text_bg := text_bg t; current_fg := fg; current_bg := bg |}.

(** [text_chars[idx] = ch; text_fg[idx] = fg; text_bg[idx] = bg;] *)
Definition set_cell (idx ch fg bg : Z) (t : term) : term := {|
  cursor_row := cursor_row t; cursor_col := cursor_col t; text_rows := text_rows t;
  text_cols := text_cols t; text_chars := <[Z.to_nat idx := ch]> (text_chars t);
  text_fg := <[Z.to_nat idx := fg]> (text_fg t); text_bg := <[Z.to_nat idx := bg]> (text_bg t);
  current_fg := current_fg t; current_bg := current_bg t |}.

Definition char_at (t : term) (idx : Z) : Z := nth (Z.to_nat idx) (text_chars t) 0.
Definition fg_at (t : term) (idx : Z) : Z := nth (Z.to_nat idx) (text_fg t) 0.
Definition bg_at (t : term) (idx : Z) : Z := nth (Z.to_nat idx) (text_bg t) 0.

(** A blank in the current colours. *)
Definition blank_cell (idx : Z) (t : term) : term :=
  set_cell idx 32 (current_fg t) (current_bg t) t.

Definition text_index (t : term) (row col : Z) : Z := (row *u text_cols t) +u col.

(** ** The font *)

Definition palette : list Z := [
  0x000000; 0x0000AA; 0x00AA00; 0x00AAAA; 0xAA0000; 0xAA00AA; 0xAA5500; 0xAAAAAA;
  0x555555; 0x5555FF; 0x55FF55; 0x55FFFF; 0xFF5555; 0xFF55FF; 0xFFFF55; 0xFFFFFF].

Definition glyph_space : list Z := [0; 0; 0; 0; 0; 0; 0].
Definition glyph_unknown : list Z := [14; 17; 1; 2; 4; 0; 4].
Definition glyph_dash : list Z := [0; 0; 0; 31; 0; 0; 0].
Definition glyph_dot : list Z := [0; 0; 0; 0; 0; 12; 12].
Definition glyph_slash : list Z := [1; 2; 4; 8; 16; 0; 0].
Definition glyph_colon : list Z := [0; 12; 12; 0; 12; 12; 0].
Definition glyph_semicolon : list Z := [0; 12; 12; 0; 12; 12; 8].
Definition glyph_quote : list Z := [12; 12; 8; 0; 0; 0; 0].
Definition glyph_dquote : list Z := [10; 10; 0; 0; 0; 0; 0].
Definition glyph_lparen : list Z := [2; 4; 8; 8; 8; 4; 2].
Definition glyph_rparen : list Z := [8; 4; 2; 2; 2; 4; 8].
Definition glyph_lbracket : list Z := [14; 8; 8; 8; 8; 8; 14].
Definition glyph_rbracket : list Z := [14; 2; 2; 2; 2; 2; 14].
Definition glyph_gt : list Z := [16; 8; 4; 2; 4; 8; 16].
Definition glyph_lt : list Z := [1; 2; 4; 8; 4; 2; 1].
Definition glyph_eq : list Z := [0; 0; 31; 0; 31; 0; 0].
Definition glyph_plus : list Z := [0; 4; 4; 31; 4; 4; 0].
Definition glyph_underscore : list Z := [0; 0; 0; 0; 0; 0; 31].

Definition glyph_digits : list (list Z) := [
  [14; 17; 19; 21; 25; 17; 14];
  [4; 12; 4; 4; 4; 4; 14];
  [14; 17; 1; 2; 4; 8; 31];
  [30; 1; 1; 14; 1; 1; 30];
  [2; 6; 10; 18; 31; 2; 2];
  [31; 16; 16; 30; 1; 1; 30];
  [6; 8; 16; 30; 17; 17; 14];
  [31; 1; 2; 4; 8; 8; 8];
  [14; 17; 17; 14; 17; 17; 14];
  [14; 17; 17; 15; 1; 2; 28]].

Definition glyph_upper : list (list Z) := [
  [14; 17; 17; 31; 17; 17; 17];
  [30; 17; 17; 30; 17; 17; 30];
  [14; 17; 16; 16; 16; 17; 14];
  [30; 17; 17; 17; 17; 17; 30];
  [31; 16; 16; 30; 16; 16; 31];
  [31; 16; 16; 30; 16; 16; 16];
  [14; 17; 16; 16; 19; 17; 15];
  [17; 17; 17; 31; 17; 17; 17];
  [14; 4; 4; 4; 4; 4; 14];
  [1; 1; 1; 1; 17; 17; 14];
  [17; 18; 20; 24; 20; 18; 17];
  [16; 16; 16; 16; 16; 16; 31];
  [17; 27; 21; 21; 17; 17; 17];
  [17; 17; 25; 21; 19; 17; 17];
  [14; 17; 17; 17; 17; 17; 14];
  [30; 17; 17; 30; 16; 16; 16];
  [14; 17; 17; 17; 21; 18; 13];
  [30; 17; 17; 30; 20; 18; 17];
  [15; 16; 16; 14; 1; 1; 30];
  [31; 4; 4; 4; 4; 4; 4];
  [17; 17; 17; 17; 17; 17; 14];
  [17; 17; 17; 17; 17; 10; 4];
  [17; 17; 17; 21; 21; 21; 10];
  [17; 17; 10; 4; 10; 17; 17];
  [17; 17; 10; 4; 4; 4; 4];
  [31; 1; 2; 4; 8; 16; 31]].

Definition glyph_for_char (c : Z) : list Z :=
  if (48 <=? c) && (c <=? 57) then nth (Z.to_nat (c - 48)) glyph_digits []
  else if (65 <=? c) && (c <=? 90) then nth (Z.to_nat (c - 65)) glyph_upper []
  else if (97 <=? c) && (c <=? 122) then nth (Z.to_nat (c - 97)) glyph_upper []
  else match c with
  | 32 => glyph_space
  | 45 => glyph_dash
  | 46 => glyph_dot
  | 47 => glyph_slash
  | 58 => glyph_colon
  | 59 => glyph_semicolon
  | 39 => glyph_quote
  | 34 => glyph_dquote
  | 40 => glyph_lparen
  | 41 => glyph_rparen
  | 91 => glyph_lbracket
  | 93 => glyph_rbracket
  | 62 => glyph_gt
  | 60 => glyph_lt
  | 61 => glyph_eq
  | 43 => glyph_plus
  | 95 => glyph_underscore
  | _ => glyph_unknown
  end.

(** ** Drawing in the frame buffer *)

Definition rgb_scale (value bits : Z) : Z :=
  if 8 <=? bits then value else u8 (Z.shiftr value (8 - bits)).

(** The positions come from the loader; they are less than 32. *)
Definition fb_pack_color (fb : framebuffer_info) (color : Z) : Z :=
  let rgb := nth (Z.to_nat (Z.land color 0x0F)) palette 0 in
  let r := u8 (Z.land (Z.shiftr rgb 16) 0xFF) in
  let g := u8 (Z.land (Z.shiftr rgb 8) 0xFF) in
  let b := u8 (Z.land rgb 0xFF) in
  Z.lor (Z.lor (u32 (Z.shiftl (rgb_scale r (red_mask fb)) (red_pos fb)))
               (u32 (Z.shiftl (rgb_scale g (green_mask fb)) (green_pos fb))))
        (u32 (Z.shiftl (rgb_scale b (blue_mask fb)) (blue_pos fb))).

(** The stores of [put_pixel] and [fb_fill_rect] through the pixel's address. *)
Definition store_pixel (fb : framebuffer_info) (p packed : Z) (m : mem) : mem :=
  if bpp fb =? 32 then
    let m := store m p (u8 (Z.land packed 0xFF)) in
    let m := store m (p + 1) (u8 (Z.land (Z.shiftr packed 8) 0xFF)) in
    let m := store m (p + 2) (u8 (Z.land (Z.shiftr packed 16) 0xFF)) in
    store m (p + 3) (u8 (Z.land (Z.shiftr packed 24) 0xFF))
  else if bpp fb =? 24 then
    let m := store m p (u8 (Z.land packed 0xFF)) in
    let m := store m (p + 1) (u8 (Z.land (Z.shiftr packed 8) 0xFF)) in
    store m (p + 2) (u8 (Z.land (Z.shiftr packed 16) 0xFF))
  else m.

Definition put_pixel (fb : framebuffer_info) (x y color : Z) (m : mem) : mem :=
  if (width fb <=? x) || (height fb <=? y) then m
  else
    let packed := fb_pack_color fb color in
    let pixel := base fb + (y *u pitch fb) + (x *u (bpp fb / 8)) in
    store_pixel fb pixel packed m.

(** The inner loop of [fb_fill_rect] from [col] on, [n] columns to go. *)
Fixpoint fill_cols (n : nat) (col : Z) (fb : framebuffer_info) (x row_ptr packed : Z) (m : mem) : mem :=
  match n with
  | O => m
  | S n' =>
      if width fb <=? x +u col then m
      else
        let p := row_ptr + (col *u (bpp fb / 8)) in
        fill_cols n' (col +u 1) fb x row_ptr packed (store_pixel fb p packed m)
  end.

Fixpoint fill_rows (n : nat) (row : Z) (fb : framebuffer_info) (x y w packed : Z) (m : mem) : mem :=
  match n with
  | O => m
  | S n' =>
      let py := y +u row in
      if height fb <=? py then m
      else
        let row_ptr := base fb + (py *u pitch fb) + (x *u (bpp fb / 8)) in
        fill_rows n' (row +u 1) fb x y w packed
          (fill_cols (Z.to_nat w) 0 fb x row_ptr packed m)
  end.

Definition fb_fill_rect (fb : framebuffer_info) (x y w h color : Z) (m : mem) : mem :=
  fill_rows (Z.to_nat h) 0 fb x y w (fb_pack_color fb color) m.

(** One row of a glyph, from pixel [j] on. *)
Fixpoint draw_bits (n : nat) (j : Z) (fb : framebuffer_info) (x y i bits fg : Z) (m : mem) : mem :=
  match n with
  | O => m
  | S n' =>
      let m := if negb (Z.land bits (Z.shiftl 1 (4 - j)) =? 0)
               then put_pixel fb ((x +u 1) +u j) ((y +u 4) +u i) fg m else m in
      draw_bits n' (j + 1) fb x y i bits fg m
  end.

Fixpoint draw_glyph (n : nat) (i : Z) (fb : framebuffer_info) (glyph : list Z) (x y fg : Z) (m : mem) : mem :=
  match n with
  | O => m
  | S n' =>
      draw_glyph n' (i + 1) fb glyph x y fg
        (draw_bits 5 0 fb x y i (nth (Z.to_nat i) glyph 0) fg m)
  end.

Definition fb_draw_cell (fb : framebuffer_info) (t : term) (row col : Z) (cursor_visible : bool)
    (m : mem) : mem :=
  let x := col *u FONT_W in
  let y := row *u CELL_H in
  let idx := text_index t row col in
  let fg := fg_at t idx in
  let bg := bg_at t idx in
  let c := char_at t idx in
  let m := fb_fill_rect fb x y FONT_W CELL_H bg m in
  let m := draw_glyph 7 0 fb (glyph_for_char c) x y fg m in
  if cursor_visible then fb_fill_rect fb x ((y +u CELL_H) -u 2) FONT_W 2 fg m else m.

Fixpoint redraw_cols (n : nat) (col : Z) (fb : framebuffer_info) (t : term) (row : Z) (m : mem) : mem :=
  match n with
  | O => m
  | S n' => redraw_cols n' (col + 1) fb t row
              (fb_draw_cell fb t row col ((row =? cursor_row t) && (col =? cursor_col t)) m)
  end.

Fixpoint redraw_rows (n : nat) (row : Z) (fb : framebuffer_info) (t : term) (m : mem) : mem :=
  match n with
  | O => m
  | S n' => redraw_rows n' (row + 1) fb t (redraw_cols (Z.to_nat (text_cols t)) 0 fb t row m)
  end.

Definition fb_redraw_all (fb : framebuffer_info) (t : term) (m : mem) : mem :=
  redraw_rows (Z.to_nat (text_rows t)) 0 fb t m.

(** ** VGA text memory *)

Definition store_u16 (m : mem) (a v : Z) : mem := store_bytes m a [v; Z.shiftr v 8].

Definition to_vga_attr (fg bg : Z) : Z :=
  u8 (Z.lor (u32 (Z.shiftl (Z.land bg 0x0F) 4)) (Z.land fg 0x0F)).

(** [vga[i] = ((u16)to_vga_attr(fg, bg) << 8) | (u8)c] *)
Definition vga_set (i fg bg c : Z) (m : mem) : mem :=
  store_u16 m (vga + 2 * i) (Z.lor (Z.shiftl (to_vga_attr fg bg) 8) (u8 c)).

Fixpoint vga_fill (n : nat) (i fg bg : Z) (m : mem) : mem :=
  match n with
  | O => m
  | S n' => vga_fill n' (i + 1) fg bg (vga_set i fg bg 32 m)
  end.

Fixpoint vga_copy_cols (n : nat) (col : Z) (t : term) (row : Z) (m : mem) : mem :=
  match n with
  | O => m
  | S n' =>
      let idx := text_index t row col in
      vga_copy_cols n' (col + 1) t row
        (vga_set (row * VGA_COLS + col) (fg_at t idx) (bg_at t idx) (char_at t idx) m)
  end.

Fixpoint vga_copy_rows (n : nat) (row : Z) (t : term) (m : mem) : mem :=
  match n with
  | O => m
  | S n' => vga_copy_rows n' (row + 1) t (vga_copy_cols (Z.to_nat (text_cols t)) 0 t row m)
  end.

(** ** The text buffer *)

Fixpoint clear_cells (n : nat) (i : Z) (t : term) : term :=
  match n with
  | O => t
  | S n' => clear_cells n' (i + 1) (blank_cell i t)
  end.

Fixpoint scroll_cols (n : nat) (col row : Z) (t : term) : term :=
  match n with
  | O => t
  | S n' =>
      let src := text_index t row col in
      let dst := text_index t (u16 (row - 1)) col in
      scroll_cols n' (col + 1) row (set_cell dst (char_at t src) (fg_at t src) (bg_at t src) t)
  end.

Fixpoint scroll_rows (n : nat) (row : Z) (t : term) : term :=
  match n with
  | O => t
  | S n' => scroll_rows n' (row + 1) (scroll_cols (Z.to_nat (text_cols t)) 0 row t)
  end.

Fixpoint blank_row (n : nat) (col : Z) (t : term) : term :=
  match n with
  | O => t
  | S n' => blank_row n' (col + 1) (blank_cell (text_index t (u16 (text_rows t - 1)) col) t)
  end.

(** The text of [term_scroll_if_needed], when it scrolls. *)
Definition scroll_text (t : term) : term :=
  let t := scroll_rows (Z.to_nat (text_rows t - 1)) 1 t in
  let t := blank_row (Z.to_nat (text_cols t)) 0 t in
  with_cursor (u16 (text_rows t - 1)) (cursor_col t) t.

(** ** The console *)

Record console (D : Type) := {
  tm : term;
  backend : display_backend;
  fb : framebuffer_info;
  vmem : mem;
  hw : D;
  serial_ready : bool
}.
Arguments tm {_}.
Arguments backend {_}.
Arguments fb {_}.
Arguments vmem {_}.
Arguments hw {_}.
Arguments serial_ready {_}.

Section console.
Context {D : Type} `{!Ports D}.

Definition with_tm (t : term) (s : console D) : console D := {|
  tm := t; backend := backend s; fb := fb s; vmem := vmem s; hw := hw s;
  serial_ready := serial_ready s |}.
Definition with_vmem (m : mem) (s : console D) : console D := {|
  tm := tm s; backend := backend s; fb := fb s; vmem := m; hw := hw s;
  serial_ready := serial_ready s |}.
Definition with_hw (d : D) (s : console D) : console D := {|
  tm := tm s; backend := backend s; fb := fb s; vmem := vmem s; hw := d;
  serial_ready := serial_ready s |}.
Definition with_backend (b : display_backend) (s : console D) : console D := {|
  tm := tm s; backend := b; fb := fb s; vmem := vmem s; hw := hw s;
  serial_ready := serial_ready s |}.
Definition with_fb (f : framebuffer_info) (s : console D) : console D := {|
  tm := tm s; backend := backend s; fb := f; vmem := vmem s; hw := hw s;
  serial_ready := serial_ready s |}.

Definition framebuffer (s : console D) : bool :=
  match backend s with DISPLAY_FRAMEBUFFER => true | DISPLAY_VGA_TEXT => false end.

Definition term_enable_hw_cursor (start stop : Z) (d : D) : D :=
  let d := outb d 0x3D4 0x0A in
  let '(d, v) := inb d 0x3D5 in
  let d := outb d 0x3D5 (u8 (Z.lor (Z.land v 0xC0) start)) in
  let d := outb d 0x3D4 0x0B in
  let '(d, v) := inb d 0x3D5 in
  outb d 0x3D5 (u8 (Z.lor (Z.land v 0xE0) stop)).

Definition term_update_hw_cursor (s : console D) : console D :=
  let pos := u16 (cursor_row (tm s) * VGA_COLS + cursor_col (tm s)) in
  let d := outb (hw s) 0x3D4 0x0F in
  let d := outb d 0x3D5 (u8 (Z.land pos 0xFF)) in
  let d := outb d 0x3D4 0x0E in
  with_hw (outb d 0x3D5 (u8 (Z.land (Z.shiftr pos 8) 0xFF))) s.

(** [if (cursor_row < text_rows && cursor_col < text_cols) fb_draw_cell(..)] *)
Definition draw_at_cursor (visible : bool) (s : console D) : console D :=
  let t := tm s in
  if (cursor_row t <? text_rows t) && (cursor_col t <? text_cols t)
  then with_vmem (fb_draw_cell (fb s) t (cursor_row t) (cursor_col t) visible (vmem s)) s
  else s.

Definition fb_set_cursor (new_row new_col : Z) (s : console D) : console D :=
  let s := draw_at_cursor false s in
  let s := with_tm (with_cursor new_row new_col (tm s)) s in
  draw_at_cursor true s.

Definition term_init (s : console D) : console D :=
  let s := with_backend DISPLAY_VGA_TEXT s in
  let t := with_color 7 0 (with_cursor 0 0 (with_size VGA_ROWS VGA_COLS (tm s))) in
  let s := with_tm t s in
  let s := with_hw (term_enable_hw_cursor 14 15 (hw s)) s in
  term_update_hw_cursor s.

(** The colour information is an array of six bytes. *)
Definition loader_fb (mbi : multiboot_info) : framebuffer_info :=
  let info i := nth i (framebuffer_color_info mbi) 0 in {|
  base := u32 (framebuffer_addr mbi);
  pitch := framebuffer_pitch mbi;
  width := framebuffer_width mbi;
  height := framebuffer_height mbi;
  bpp := framebuffer_bpp mbi;
  fb_type := framebuffer_type mbi;
  red_pos := info 0%nat; red_mask := info 1%nat;
  green_pos := info 2%nat; green_mask := info 3%nat;
  blue_pos := info 4%nat; blue_mask := info 5%nat |}.

Definition term_init_with_multiboot (mbi : option multiboot_info) (magic : Z) (s : console D)
    : console D :=
  let s := term_init s in
  match mbi with
  | Some mbi =>
      if negb (magic =? MULTIBOOT_MAGIC) || (Z.land (flags mbi) (Z.shiftl 1 12) =? 0) then s
      else if negb (framebuffer_type mbi =? 1) then s
      else if negb (framebuffer_bpp mbi =? 24) && negb (framebuffer_bpp mbi =? 32) then s
      else
        let s := with_fb (loader_fb mbi) s in
        if (width (fb s) <? FONT_W) || (height (fb s) <? CELL_H) then s
        else
          let cols := u16 (width (fb s) / FONT_W) in
          let rows := u16 (height (fb s) / CELL_H) in
          let cols := if MAX_CONSOLE_COLS <? cols then MAX_CONSOLE_COLS else cols in
          let rows := if MAX_CONSOLE_ROWS <? rows then MAX_CONSOLE_ROWS else rows in
          with_backend DISPLAY_FRAMEBUFFER
            (with_tm (with_cursor 0 0 (with_size rows cols (tm s))) s)
  | None => s
  end.

Definition term_set_color (fg bg : Z) (s : console D) : console D :=
  with_tm (with_color (Z.land fg 0x0F) (Z.land bg 0x0F) (tm s)) s.

Definition term_get_color (s : console D) : Z * Z := (current_fg (tm s), current_bg (tm s)).

Definition console_has_framebuffer (s : console D) : bool := framebuffer s.

Definition console_width (s : console D) : Z :=
  if framebuffer s then width (fb s) else VGA_COLS.
Definition console_height (s : console D) : Z :=
  if framebuffer s then height (fb s) else VGA_ROWS.

Definition term_clear (s : console D) : console D :=
  let t := tm s in
  let s := with_tm (clear_cells (Z.to_nat (text_cols t *u text_rows t)) 0 t) s in
  let t := tm s in
  let s :=
    if framebuffer s
    then with_vmem (fb_fill_rect (fb s) 0 0 (width (fb s)) (height (fb s)) (current_bg t) (vmem s)) s
    else with_vmem (vga_fill (Z.to_nat (VGA_COLS * VGA_ROWS)) 0 (current_fg t) (current_bg t)
                      (vmem s)) s in
  let s := with_tm (with_cursor 0 0 (tm s)) s in
  if framebuffer s then with_vmem (fb_redraw_all (fb s) (tm s) (vmem s)) s
  else term_update_hw_cursor s.

Definition term_scroll_if_needed (s : console D) : console D :=
  let t := tm s in
  if cursor_row t <? text_rows t then s
  else
    let s := with_tm (scroll_text t) s in
    if framebuffer s then with_vmem (fb_redraw_all (fb s) (tm s) (vmem s)) s
    else with_vmem (vga_copy_rows (Z.to_nat (text_rows (tm s))) 0 (tm s) (vmem s)) s.

(** [++cursor_row; term_scroll_if_needed();] with the column set before. *)
Definition next_row (s : console D) : console D :=
  let t := tm s in
  term_scroll_if_needed (with_tm (with_cursor (u16 (cursor_row t + 1)) 0 t) s).

Definition write_newline (s : console D) : console D :=
  let s := if framebuffer s then draw_at_cursor false s else s in
  let s := next_row s in
  if framebuffer s then draw_at_cursor true s else term_update_hw_cursor s.

Definition write_return (s : console D) : console D :=
  let s := if framebuffer s then draw_at_cursor false s else s in
  let s := with_tm (with_cursor (cursor_row (tm s)) 0 (tm s)) s in
  if framebuffer s then draw_at_cursor true s else term_update_hw_cursor s.

Definition write_backspace (s : console D) : console D :=
  let t := tm s in
  if 0 <? cursor_col t then
    let t := with_cursor (cursor_row t) (u16 (cursor_col t - 1)) t in
    let t := blank_cell (text_index t (cursor_row t) (cursor_col t)) t in
    let s := with_tm t s in
    if framebuffer s
    then with_vmem (fb_draw_cell (fb s) t (cursor_row t) (cursor_col t) true (vmem s)) s
    else term_update_hw_cursor
           (with_vmem (vga_set (cursor_row t * VGA_COLS + cursor_col t)
                         (current_fg t) (current_bg t) 32 (vmem s)) s)
  else s.

Definition write_plain (c : Z) (s : console D) : console D :=
  let t := tm s in
  let t := set_cell (text_index t (cursor_row t) (cursor_col t)) c (current_fg t) (current_bg t) t in
  let s := with_tm t s in
  let s :=
    if framebuffer s
    then with_vmem (fb_draw_cell (fb s) t (cursor_row t) (cursor_col t) false (vmem s)) s
    else with_vmem (vga_set (cursor_row t * VGA_COLS + cursor_col t)
                      (current_fg t) (current_bg t) c (vmem s)) s in
  let s := with_tm (with_cursor (cursor_row t) (u16 (cursor_col t + 1)) (tm s)) s in
  let s := if text_cols (tm s) <=? cursor_col (tm s) then next_row s else s in
  if framebuffer s then fb_set_cursor (cursor_row (tm s)) (cursor_col (tm s)) s
  else term_update_hw_cursor s.

Definition write_local_char (c : Z) (s : console D) : console D :=
  if c =? 10 then write_newline s
  else if c =? 13 then write_return s
  else if c =? 8 then write_backspace s
  else write_plain c s.

Definition to_vga (target : console_target) : bool :=
  match target with CONSOLE_SERIAL => false | _ => true end.
Definition to_serial (target : console_target) : bool :=
  match target with CONSOLE_VGA => false | _ => true end.

Definition console_putchar (target : console_target) (s : console D) (c : Z) : console D :=
  let s := if to_vga target then write_local_char c s else s in
  if to_serial target && serial_is_ready (serial_ready s)
  then with_hw (serial_putchar (serial_ready s) (hw s) c) s else s.

Definition term_putchar (s : console D) (c : Z) : console D := console_putchar CONSOLE_BOTH s c.

Fixpoint console_print (target : console_target) (s : console D) (str : list Z) : console D :=
  match str with
  | c :: str' => if c =? 0 then s else console_print target (console_putchar target s c) str'
  | [] => s
  end.

Definition term_print (s : console D) (str : list Z) : console D := console_print CONSOLE_BOTH s str.

(** The characters of the buffer, the last one stored first. *)
Fixpoint put_reversed (target : console_target) (n : nat) (buf : list Z) (s : console D) : console D :=
  match n with
  | O => s
  | S i => put_reversed target i buf (console_putchar target s (nth i buf 0))
  end.

Definition console_print_u32_dec (target : console_target) (s : console D) (value : Z) : console D :=
  if value =? 0 then console_putchar target s 48
  else let buf := dec_digits_rev 10 value in put_reversed target (length buf) buf s.

Definition term_print_u32_dec (s : console D) (value : Z) : console D :=
  console_print_u32_dec CONSOLE_BOTH s value.

Definition console_print_hex_nibble (target : console_target) (s : console D) (value : Z) : console D :=
  let value := Z.land value 0x0F in
  if value <? 10 then console_putchar target s (48 + value)
  else console_putchar target s (65 + (value - 10)).

(** [for (shift = 28; shift >= 0; shift -= 4)], [n] digits to go. *)
Fixpoint put_nibbles (n : nat) (target : console_target) (value : Z) (s : console D) : console D :=
  match n with
  | O => s
  | S i => put_nibbles i target value
             (console_print_hex_nibble target s
                (u8 (Z.land (Z.shiftr value (4 * Z.of_nat i)) 0x0F)))
  end.

Definition console_print_hex_u32 (target : console_target) (s : console D) (value : Z) : console D :=
  put_nibbles 8 target value (console_print target s (lit "0x")).

Definition term_print_hex_u32 (s : console D) (value : Z) : console D :=
  console_print_hex_u32 CONSOLE_BOTH s value.

End console.

(** ** Formatted output *)

Section vprintf.
Context {D : Type} `{!Ports D}.

Fixpoint console_vprintf (target : console_target) (s : console D) (fmt : list Z) (args : list va)
    : option (console D) :=
  match fmt with
  | [] => Some s
  | c :: fmt =>
      if c =? 0 then Some s
      else if negb (c =? 37) then console_vprintf target (console_putchar target s c) fmt args
      else match fmt with
      | [] => Some s
      | d :: fmt =>
          if d =? 0 then Some s
          else if d =? 37 then console_vprintf target (console_putchar target s 37) fmt args
          else if d =? 99 then
            '(v, args) ← va_int args;
            console_vprintf target (console_putchar target s (u8 v)) fmt args
          else if d =? 115 then
            '(str, args) ← va_str args;
            console_vprintf target (console_print target s (or_null str)) fmt args
          else if d =? 117 then
            '(v, args) ← va_int args;
            console_vprintf target (console_print_u32_dec target s (u32 v)) fmt args
          else if d =? 120 then
            '(v, args) ← va_int args;
            console_vprintf target (console_print_hex_u32 target s (u32 v)) fmt args
          else
            console_vprintf target (console_putchar target (console_putchar target s 37) d) fmt args
      end
  end.

Definition term_vprintf (s : console D) (fmt : list Z) (args : list va) : option (console D) :=
  console_vprintf CONSOLE_BOTH s fmt args.
Definition console_printf (target : console_target) (s : console D) (fmt : list Z) (args : list va)
    : option (console D) :=
  console_vprintf target s fmt args.
Definition term_printf (s : console D) (fmt : list Z) (args : list va) : option (console D) :=
  console_vprintf CONSOLE_BOTH s fmt args.

End vprintf.
