(* ===== verification/ConsoleText.v ===== *)
(** * ConsoleText: the text on the screen

    [screen] is what a person at the console sees: a grid of cells and a
    cursor.  [screen_put] says what a character does to it.  The arrays of
    console.c implement it (Console.v), and in text mode the VGA memory shows
    what the arrays hold, after every character. *)
From S2P Require Import Prelude KernelH Util Memory Ports Console.
Local Open Scope Z_scope.
Local Open Scope slop_scope.

(** ** The screen *)

Definition cell : Type := Z * Z * Z.

Record screen := {
  s_cell : Z -> Z -> cell;
  s_row : Z;
  s_col : Z
}.

Section screen.
Context (rows cols : Z).

(** Where the next line starts; a full screen loses its top row. *)
Definition screen_newline (blank : cell) (s : screen) : screen :=
  if s_row s + 1 <? rows
  then {| s_cell := s_cell s; s_row := s_row s + 1; s_col := 0 |}
  else {| s_cell r c := if r =? rows - 1 then blank else s_cell s (r + 1) c;
          s_row := rows - 1; s_col := 0 |}.

Definition screen_write (r c : Z) (x : cell) (s : screen) : Z -> Z -> cell :=
  fun r' c' => if (r' =? r) && (c' =? c) then x else s_cell s r' c'.

Definition screen_put (fg bg ch : Z) (s : screen) : screen :=
  let blank := (32, fg, bg) in
  if ch =? 10 then screen_newline blank s
  else if ch =? 13 then {| s_cell := s_cell s; s_row := s_row s; s_col := 0 |}
  else if ch =? 8 then
    if 0 <? s_col s
    then {| s_cell := screen_write (s_row s) (s_col s - 1) blank s;
            s_row := s_row s; s_col := s_col s - 1 |}
    else s
  else
    let s' := {| s_cell := screen_write (s_row s) (s_col s) (ch, fg, bg) s;
                 s_row := s_row s; s_col := s_col s + 1 |} in
    if s_col s' <? cols then s' else screen_newline blank s'.

End screen.

(** ** The arrays *)

Definition TEXT_CELLS : Z := MAX_CONSOLE_COLS * MAX_CONSOLE_ROWS.

Definition cell_at (t : term) (idx : Z) : cell := (char_at t idx, fg_at t idx, bg_at t idx).
Definition cell_of (t : term) (r c : Z) : cell := cell_at t (text_index t r c).
Definition blank_of (t : term) : cell := (32, current_fg t, current_bg t).

Definition sized (t : term) : Prop :=
  Z.of_nat (length (text_chars t)) = TEXT_CELLS /\
  Z.of_nat (length (text_fg t)) = TEXT_CELLS /\ Z.of_nat (length (text_bg t)) = TEXT_CELLS.

(** Everything but the cells. *)
Definition geometry (t : term) : Z * Z * Z * Z * Z * Z :=
  (cursor_row t, cursor_col t, text_rows t, text_cols t, current_fg t, current_bg t).

Definition grid_ok (t : term) : Prop :=
  sized t /\ 1 <= text_rows t <= MAX_CONSOLE_ROWS /\ 1 <= text_cols t <= MAX_CONSOLE_COLS.

Definition term_ok (t : term) : Prop :=
  grid_ok t /\ 0 <= cursor_row t < text_rows t /\ 0 <= cursor_col t < text_cols t.

Definition in_grid (t : term) (r c : Z) : Prop := 0 <= r < text_rows t /\ 0 <= c < text_cols t.

(** The arrays hold the screen [s]. *)
Definition shows (t : term) (s : screen) : Prop :=
  s_row s = cursor_row t /\ s_col s = cursor_col t /\
  forall r c, in_grid t r c -> cell_of t r c = s_cell s r c.

Lemma text_index_eq t r c :
  grid_ok t -> in_grid t r c ->
  text_index t r c = r * text_cols t + c /\ 0 <= r * text_cols t + c < TEXT_CELLS.
Proof.
  intros (_ & Hr & Hc) [H1 H2]. unfold TEXT_CELLS, MAX_CONSOLE_COLS, MAX_CONSOLE_ROWS in *.
  assert (0 <= r * text_cols t + c < 7200) as Hb by nia. unfold text_index.
  rewrite (u32_small (r * text_cols t)), u32_small by nia. lia.
Qed.

(** Different cells have different places. *)
Lemma text_index_inj t r c r' c' :
  grid_ok t -> in_grid t r c -> in_grid t r' c' ->
  (text_index t r c =? text_index t r' c') = (r =? r') && (c =? c').
Proof.
  intros Hg H1 H2. destruct (text_index_eq t r c Hg H1) as [-> _].
  destruct (text_index_eq t r' c' Hg H2) as [-> _]. destruct H1, H2.
  apply Bool.eq_iff_eq_true. rewrite andb_true_iff, !Z.eqb_eq. split; [|by intros [-> ->]].
  intros Heq. assert (r = r') by nia. subst. lia.
Qed.

Lemma nth_insert (l : list Z) i j x :
  (i < length l)%nat -> nth j (<[i := x]> l) 0 = if (j =? i)%nat then x else nth j l 0.
Proof.
  intros Hi. rewrite !nth_lookup. destruct (Nat.eqb_spec j i) as [->|Hj].
  - by rewrite list_lookup_insert_eq.
  - by rewrite list_lookup_insert_ne.
Qed.

Lemma set_cell_sized i ch f b t : sized t -> sized (set_cell i ch f b t).
Proof. unfold sized. cbn. by rewrite !length_insert. Qed.

Lemma cell_set_cell t i ch f b j :
  sized t -> 0 <= i < TEXT_CELLS -> 0 <= j ->
  cell_at (set_cell i ch f b t) j = if j =? i then (ch, f, b) else cell_at t j.
Proof.
  intros (H1 & H2 & H3) Hi Hj. unfold cell_at, char_at, fg_at, bg_at. cbn.
  rewrite !nth_insert by lia.
  destruct (j =? i) eqn:E; zify_bool.
  - subst. by rewrite Nat.eqb_refl.
  - by rewrite (proj2 (Nat.eqb_neq _ _)) by lia.
Qed.

(** Writing the cell in row [r] and column [c]. *)
Lemma cell_of_set t r c ch f b r' c' :
  grid_ok t -> in_grid t r c -> in_grid t r' c' ->
  cell_of (set_cell (text_index t r c) ch f b t) r' c' =
    if (r' =? r) && (c' =? c) then (ch, f, b) else cell_of t r' c'.
Proof.
  intros Hg H1 H2. unfold cell_of. change (text_index (set_cell _ _ _ _ t) r' c') with (text_index t r' c').
  destruct (text_index_eq t r c Hg H1) as [E1 B1]. destruct (text_index_eq t r' c' Hg H2) as [E2 B2].
  rewrite cell_set_cell by (try apply Hg; lia). by rewrite text_index_inj.
Qed.

(** Operations that only change cells. *)
Definition cells_only (t t' : term) : Prop :=
  geometry t' = geometry t /\ (grid_ok t -> grid_ok t').

Lemma cells_only_refl t : cells_only t t.
Proof. by split. Qed.

Lemma cells_only_trans t1 t2 t3 : cells_only t1 t2 -> cells_only t2 t3 -> cells_only t1 t3.
Proof. intros [E1 G1] [E2 G2]. split; [congruence|auto]. Qed.

Lemma cells_only_set i ch f b t : cells_only t (set_cell i ch f b t).
Proof. split; [done|]. intros (Hs & Hr & Hc). split; [by apply set_cell_sized|by split]. Qed.

Lemma cells_only_geom t t' :
  cells_only t t' ->
  cursor_row t' = cursor_row t /\ cursor_col t' = cursor_col t /\ text_rows t' = text_rows t /\
  text_cols t' = text_cols t /\ current_fg t' = current_fg t /\ current_bg t' = current_bg t.
Proof. unfold cells_only, geometry. intros [[= ] _]. done. Qed.

Lemma cells_only_index t t' r c : cells_only t t' -> text_index t' r c = text_index t r c.
Proof. intros H. apply cells_only_geom in H as (_ & _ & _ & H & _). unfold text_index. by rewrite H. Qed.

Lemma cells_only_in t t' r c : cells_only t t' -> in_grid t' r c <-> in_grid t r c.
Proof. intros H. apply cells_only_geom in H as (_ & _ & H1 & H2 & _). unfold in_grid. by rewrite H1, H2. Qed.

(** ** Scrolling *)

Lemma scroll_cols_spec n col row t r c :
  grid_ok t -> 1 <= row < text_rows t -> 0 <= col -> col + Z.of_nat n <= text_cols t ->
  in_grid t r c ->
  cells_only t (scroll_cols n col row t) /\
  cell_of (scroll_cols n col row t) r c =
    if (r =? row - 1) && (col <=? c) && (c <? col + Z.of_nat n) then cell_of t row c
    else cell_of t r c.
Proof.
  intros Hg Hrow. revert col t Hg Hrow. induction n as [|n IH]; intros col t Hg Hrow Hcol Hn Hin;
    cbn [scroll_cols].
  { split; [apply cells_only_refl|].
    destruct (col <=? c) eqn:E1, (c <? col + Z.of_nat 0) eqn:E2; zify_bool; rewrite ?andb_false_r;
      cbn [andb]; try done; lia. }
  assert (u16 (row - 1) = row - 1) as Hu.
  { destruct Hg as (_ & Hr & _). unfold MAX_CONSOLE_ROWS in Hr. unfold u16. apply Z.mod_small. lia. }
  rewrite Hu.
  set (t1 := set_cell _ _ _ _ t).
  assert (cells_only t t1) as Ht1 by apply cells_only_set.
  pose proof (cells_only_geom _ _ Ht1) as (_ & _ & Er & Ec & _).
  assert (in_grid t row col) as Hi1 by (split; lia).
  assert (in_grid t (row - 1) col) as Hi2 by (split; lia).
  destruct (IH (col + 1) t1) as [Hc Hv]; [by apply Ht1|by rewrite Er|lia|lia|by apply Hin|].
  split; [by eapply cells_only_trans|]. rewrite Hv.
  assert (forall r' c', in_grid t r' c' -> cell_of t1 r' c' =
            if (r' =? row - 1) && (c' =? col) then cell_of t row col else cell_of t r' c') as Hset.
  { intros r' c' H'. by apply (cell_of_set t (row - 1) col). }
  rewrite !Hset by (try done; split; lia || apply Hin).
  rewrite (proj2 (Z.eqb_neq row (row - 1))) by lia. cbn [andb].
  destruct (r =? row - 1) eqn:E; cbn [andb]; [|done]. zify_bool. subst.
  destruct (col <=? c) eqn:E1, (c =? col) eqn:E2, (col + 1 <=? c) eqn:E3,
    (c <? col + 1 + Z.of_nat n) eqn:E4, (c <? col + Z.of_nat (S n)) eqn:E5;
    zify_bool; cbn [andb]; subst; try done; lia.
Qed.

Lemma scroll_rows_spec n row t r c :
  grid_ok t -> 1 <= row -> row + Z.of_nat n <= text_rows t -> in_grid t r c ->
  cells_only t (scroll_rows n row t) /\
  cell_of (scroll_rows n row t) r c =
    if (row - 1 <=? r) && (r <? row - 1 + Z.of_nat n) then cell_of t (r + 1) c else cell_of t r c.
Proof.
  revert row t. induction n as [|n IH]; intros row t Hg Hrow Hn Hin; cbn [scroll_rows].
  { split; [apply cells_only_refl|].
    destruct (row - 1 <=? r) eqn:E1, (r <? row - 1 + Z.of_nat 0) eqn:E2; zify_bool; cbn [andb];
      try done; lia. }
  set (t1 := scroll_cols _ _ _ t).
  assert (forall r' c', in_grid t r' c' -> cells_only t t1 /\ cell_of t1 r' c' =
            if (r' =? row - 1) then cell_of t row c' else cell_of t r' c') as Hone.
  { intros r' c' [H1 H2].
    destruct (scroll_cols_spec (Z.to_nat (text_cols t)) 0 row t r' c') as [Ha Hb];
      try done; try lia.
    split; [done|]. unfold t1. rewrite Hb.
    rewrite (proj2 (Z.leb_le 0 c')), (proj2 (Z.ltb_lt c' (0 + _))) by lia.
    by rewrite !andb_true_r. }
  destruct (Hone r c Hin) as [Ht1 Hrc].
  pose proof (cells_only_geom _ _ Ht1) as (_ & _ & Er & Ec & _).
  destruct (IH (row + 1) t1) as [Hc Hv]; [by apply Ht1|lia|lia|by apply (cells_only_in t t1)|].
  split; [by eapply cells_only_trans|]. rewrite Hv, Hrc. destruct Hin as [Hr Hcc].
  replace (row + 1 - 1) with row by lia.
  destruct (row <=? r) eqn:E1, (r =? row - 1) eqn:E2, (r <? row + Z.of_nat n) eqn:E3,
    (row - 1 <=? r) eqn:E4, (r <? row - 1 + Z.of_nat (S n)) eqn:E5;
    zify_bool; cbn [andb]; subst; try done; try lia.
  - destruct (Hone (r + 1) c) as [_ ->]; [split; lia|].
    by rewrite (proj2 (Z.eqb_neq (r + 1) (row - 1))) by lia.
  - by replace (row - 1 + 1) with row by lia.
Qed.

Lemma blank_row_spec n col t r c :
  grid_ok t -> 0 <= col -> col + Z.of_nat n <= text_cols t -> in_grid t r c ->
  cells_only t (blank_row n col t) /\
  cell_of (blank_row n col t) r c =
    if (r =? text_rows t - 1) && (col <=? c) && (c <? col + Z.of_nat n) then blank_of t
    else cell_of t r c.
Proof.
  revert col t. induction n as [|n IH]; intros col t Hg Hcol Hn Hin; cbn [blank_row].
  { split; [apply cells_only_refl|].
    destruct (col <=? c) eqn:E1, (c <? col + Z.of_nat 0) eqn:E2; zify_bool; rewrite ?andb_false_r;
      cbn [andb]; try done; lia. }
  assert (u16 (text_rows t - 1) = text_rows t - 1) as Hu.
  { destruct Hg as (_ & Hr & _). unfold MAX_CONSOLE_ROWS in Hr. unfold u16. apply Z.mod_small. lia. }
  rewrite Hu. unfold blank_cell. set (t1 := set_cell _ _ _ _ t).
  assert (cells_only t t1) as Ht1 by apply cells_only_set.
  pose proof (cells_only_geom _ _ Ht1) as (_ & _ & Er & Ec & Ef & Eb).
  destruct (IH (col + 1) t1) as [Hc Hv]; [by apply Ht1|lia|lia|by apply Hin|].
  split; [by eapply cells_only_trans|]. rewrite Hv. unfold blank_of. rewrite Er, Ef, Eb.
  destruct Hg as (Hs & Hr & Hcc).
  assert (cell_of t1 r c = if (r =? text_rows t - 1) && (c =? col) then blank_of t
                           else cell_of t r c) as ->.
  { apply (cell_of_set t (text_rows t - 1) col); [done|split; lia|done]. }
  unfold blank_of.
  destruct (r =? text_rows t - 1) eqn:E; cbn [andb]; [|done]. zify_bool. subst.
  destruct (col <=? c) eqn:E1, (c =? col) eqn:E2, (col + 1 <=? c) eqn:E3,
    (c <? col + 1 + Z.of_nat n) eqn:E4, (c <? col + Z.of_nat (S n)) eqn:E5;
    zify_bool; cbn [andb]; subst; try done; lia.
Qed.

Lemma scroll_text_spec t r c :
  grid_ok t -> in_grid t r c ->
  cell_of (scroll_text t) r c = if r =? text_rows t - 1 then blank_of t else cell_of t (r + 1) c.
Proof.
  intros Hg Hin. destruct Hg as (Hs & Hr & Hc). unfold scroll_text.
  destruct (scroll_rows_spec (Z.to_nat (text_rows t - 1)) 1 t r c) as [H1 E1]; [by split|lia|lia|done|].
  set (t1 := scroll_rows _ _ t) in *.
  pose proof (cells_only_geom _ _ H1) as (_ & _ & Er & Ec & Ef & Eb).
  destruct (blank_row_spec (Z.to_nat (text_cols t1)) 0 t1 r c) as [H2 E2];
    [by apply H1|lia|lia|by apply (cells_only_in t t1)|].
  change (cell_of (with_cursor _ _ ?x) r c) with (cell_of x r c).
  rewrite E2, E1, Er, Ec. unfold blank_of. rewrite Ef, Eb. destruct Hin as [Hin1 Hin2].
  rewrite (proj2 (Z.leb_le 0 c)), (proj2 (Z.ltb_lt c (0 + _))) by lia. rewrite !andb_true_r.
  destruct (r =? text_rows t - 1) eqn:E; [done|]. zify_bool.
  rewrite (proj2 (Z.leb_le (1 - 1) r)), (proj2 (Z.ltb_lt r (1 - 1 + _))) by lia. done.
Qed.

Lemma scroll_text_geometry t :
  grid_ok t ->
  grid_ok (scroll_text t) /\ cursor_row (scroll_text t) = text_rows t - 1 /\
  cursor_col (scroll_text t) = cursor_col t /\ text_rows (scroll_text t) = text_rows t /\
  text_cols (scroll_text t) = text_cols t /\ current_fg (scroll_text t) = current_fg t /\
  current_bg (scroll_text t) = current_bg t.
Proof.
  intros Hg. destruct Hg as (Hs & Hr & Hc). unfold scroll_text.
  assert (in_grid t 0 0) as Hin by (split; lia).
  destruct (scroll_rows_spec (Z.to_nat (text_rows t - 1)) 1 t 0 0) as [H1 _]; [by split|lia|lia|done|].
  set (t1 := scroll_rows _ _ t) in *.
  pose proof (cells_only_geom _ _ H1) as (_ & _ & Er & Ec & _).
  destruct (blank_row_spec (Z.to_nat (text_cols t1)) 0 t1 0 0) as [H2 _];
    [by apply H1|lia|lia|by apply (cells_only_in t t1)|].
  pose proof (cells_only_trans _ _ _ H1 H2) as H3. set (t2 := blank_row _ _ t1) in *.
  pose proof (cells_only_geom _ _ H3) as (_ & Ecc & Er3 & Ec3 & Ef & Eb).
  assert (u16 (text_rows t2 - 1) = text_rows t - 1) as Hu.
  { rewrite Er3. unfold MAX_CONSOLE_ROWS in Hr. unfold u16. apply Z.mod_small. lia. }
  split; [by apply (proj2 H3)|]. done.
Qed.

(** ** One character *)

(** The text part of [next_row] and of [write_local_char]. *)
Definition next_row_text (t : term) : term :=
  let t := with_cursor (u16 (cursor_row t + 1)) 0 t in
  if cursor_row t <? text_rows t then t else scroll_text t.

Definition put_text (c : Z) (t : term) : term :=
  if c =? 10 then next_row_text t
  else if c =? 13 then with_cursor (cursor_row t) 0 t
  else if c =? 8 then
    if 0 <? cursor_col t then
      let t := with_cursor (cursor_row t) (u16 (cursor_col t - 1)) t in
      blank_cell (text_index t (cursor_row t) (cursor_col t)) t
    else t
  else
    let t := set_cell (text_index t (cursor_row t) (cursor_col t)) c (current_fg t) (current_bg t) t in
    let t := with_cursor (cursor_row t) (u16 (cursor_col t + 1)) t in
    if text_cols t <=? cursor_col t then next_row_text t else t.

Section console_text.
Context {D : Type} `{!Ports D}.
Implicit Types s : console D.

Lemma tm_draw_at_cursor b s : tm (draw_at_cursor b s) = tm s.
Proof. unfold draw_at_cursor. by destruct (_ && _). Qed.

Lemma backend_draw_at_cursor b s : backend (draw_at_cursor b s) = backend s.
Proof. unfold draw_at_cursor. by destruct (_ && _). Qed.

Lemma framebuffer_draw b s : framebuffer (draw_at_cursor b s) = framebuffer s.
Proof. unfold framebuffer. by rewrite backend_draw_at_cursor. Qed.

Lemma tm_next_row s : tm (next_row s) = next_row_text (tm s).
Proof.
  unfold next_row, term_scroll_if_needed, next_row_text. cbn [tm with_tm].
  destruct (_ <? _); [done|]. by destruct (framebuffer _).
Qed.

Lemma backend_next_row s : backend (next_row s) = backend s.
Proof.
  unfold next_row, term_scroll_if_needed. destruct (_ <? _); [done|]. by destruct (framebuffer _).
Qed.

Lemma fb_next_row s : framebuffer (next_row s) = framebuffer s.
Proof. unfold framebuffer. by rewrite backend_next_row. Qed.

(** Drawing does not touch the text. *)
Lemma tm_write_local_char c s :
  tm (write_local_char c s) = put_text c (tm s) /\ backend (write_local_char c s) = backend s.
Proof.
  unfold write_local_char, put_text, write_newline, write_return, write_backspace, write_plain.
  destruct (c =? 10); [|destruct (c =? 13); [|destruct (c =? 8)]].
  - destruct (framebuffer s) eqn:E; rewrite fb_next_row, ?framebuffer_draw, E.
    + by rewrite tm_draw_at_cursor, backend_draw_at_cursor, tm_next_row, backend_next_row,
        tm_draw_at_cursor, backend_draw_at_cursor.
    + cbn. by rewrite tm_next_row, backend_next_row.
  - destruct (framebuffer s) eqn:E;
      change (framebuffer (with_tm ?t ?x)) with (framebuffer x);
      rewrite ?framebuffer_draw, E, ?tm_draw_at_cursor, ?backend_draw_at_cursor; cbn;
      by rewrite ?tm_draw_at_cursor, ?backend_draw_at_cursor.
  - destruct (0 <? cursor_col (tm s)); [|done].
    change (framebuffer (with_tm ?t ?x)) with (framebuffer x). by destruct (framebuffer s).
  - set (s2 := if framebuffer _ then with_vmem _ _ else with_vmem _ _).
    assert (tm s2 = set_cell (text_index (tm s) (cursor_row (tm s)) (cursor_col (tm s))) c
                      (current_fg (tm s)) (current_bg (tm s)) (tm s) /\ backend s2 = backend s)
      as [Et Eb] by (unfold s2; by destruct (framebuffer _)).
    set (t1 := set_cell _ _ _ _ _) in *. clearbody s2. rewrite Et.
    set (s3 := if _ <=? _ then next_row _ else _).
    assert (tm s3 = (let t := with_cursor (cursor_row t1) (u16 (cursor_col t1 + 1)) t1 in
                     if text_cols t <=? cursor_col t then next_row_text t else t) /\
            backend s3 = backend s) as [Et3 Eb3].
    { unfold s3. cbn [tm with_tm]. destruct (_ <=? _); [|by cbn].
      by rewrite tm_next_row, backend_next_row. }
    cbv zeta in *. rewrite <- Et3, <- Eb3. destruct (framebuffer s3); [|done].
    unfold fb_set_cursor. rewrite tm_draw_at_cursor, backend_draw_at_cursor. cbn.
    rewrite tm_draw_at_cursor, backend_draw_at_cursor. split; [|done]. by destruct (tm s3).
Qed.

End console_text.

Lemma next_row_shows t s :
  grid_ok t -> 0 <= cursor_row t < text_rows t -> s_row s = cursor_row t ->
  (forall r c, in_grid t r c -> cell_of t r c = s_cell s r c) ->
  term_ok (next_row_text t) /\
  shows (next_row_text t) (screen_newline (text_rows t) (blank_of t) s).
Proof.
  intros Hg Hrow Hs Hcells. unfold next_row_text, screen_newline. rewrite Hs.
  destruct Hg as (Hsz & Hr & Hc). unfold MAX_CONSOLE_ROWS in Hr.
  assert (u16 (cursor_row t + 1) = cursor_row t + 1) as Hu by (unfold u16; apply Z.mod_small; lia).
  rewrite Hu. cbn [cursor_row with_cursor text_rows].
  destruct (cursor_row t + 1 <? text_rows t) eqn:E; zify_bool.
  - split; [split; [by split|cbn; lia]|]. by split_and!.
  - set (t1 := with_cursor _ _ t).
    assert (grid_ok t1) as Hg1 by by split.
    destruct (scroll_text_geometry t1 Hg1) as (Hg' & E1 & E2 & E3 & E4 & E5 & E6).
    split.
    + split; [done|]. rewrite E1, E2, E3, E4. cbn. lia.
    + split; [by rewrite E1|]. split; [by rewrite E2|].
      intros r c Hin. assert (in_grid t1 r c) as Hin1 by (unfold in_grid; by rewrite <- E3, <- E4).
      rewrite (scroll_text_spec t1) by done. cbn. destruct (r =? text_rows t - 1) eqn:Er; [done|].
      zify_bool. destruct Hin1. apply Hcells. cbn in *. split; [lia|done].
Qed.

(** One character, on the text alone. *)
Lemma put_text_shows t s c :
  term_ok t -> shows t s ->
  term_ok (put_text c t) /\
  shows (put_text c t)
    (screen_put (text_rows t) (text_cols t) (current_fg t) (current_bg t) c s).
Proof.
  intros [Hg [Hr Hc]] (Hsr & Hsc & Hcells). unfold put_text, screen_put.
  destruct (c =? 10); [by apply next_row_shows|].
  destruct (c =? 13). { split; [split; [done|cbn; destruct Hg; lia]|by split_and!]. }
  pose proof Hg as (Hsz & Hgr & Hgc). unfold MAX_CONSOLE_COLS in Hgc.
  destruct (c =? 8).
  - rewrite Hsc. destruct (0 <? cursor_col t) eqn:E; zify_bool; [|by split].
    assert (u16 (cursor_col t - 1) = cursor_col t - 1) as Hu by (unfold u16; apply Z.mod_small; lia).
    rewrite Hu. cbn [cursor_row cursor_col with_cursor].
    set (t1 := with_cursor _ _ t). unfold blank_cell.
    split; [split; [|cbn; lia]|].
    + by apply (cells_only_set _ _ _ _ t1).
    + split_and!; [done|done|]. intros r k Hin. cbn [s_cell]. unfold screen_write. rewrite Hsr.
      rewrite (cell_of_set t1 (cursor_row t) (cursor_col t - 1)) by (done || (split; cbn; lia)).
      by destruct (_ && _); [|apply Hcells].
  - cbn [s_col s_row]. rewrite Hsc, Hsr.
    assert (u16 (cursor_col t + 1) = cursor_col t + 1) as Hu by (unfold u16; apply Z.mod_small; lia).
    set (t1 := set_cell _ _ _ _ t).
    assert (cells_only t t1) as Ht1 by apply cells_only_set.
    assert (forall r k, in_grid t r k -> cell_of t1 r k =
              screen_write (cursor_row t) (cursor_col t) (c, current_fg t, current_bg t) s r k) as Hnew.
    { intros r k Hin. unfold t1, screen_write. rewrite (cell_of_set t) by (done || by split).
      by destruct (_ && _); [|apply Hcells]. }
    change (cursor_col t1) with (cursor_col t). rewrite Hu. cbn [cursor_col with_cursor text_cols].
    change (text_cols t1) with (text_cols t). change (cursor_row t1) with (cursor_row t).
    rewrite Z.leb_antisym. destruct (cursor_col t + 1 <? text_cols t) eqn:E; zify_bool; cbn [negb].
    + split; [split; [by apply Ht1|cbn; lia]|]. by split_and!.
    + apply (next_row_shows (with_cursor (cursor_row t) (cursor_col t + 1) t1)); [by apply Ht1|done|done|].
      by intros r k Hin; apply Hnew.
Qed.

(** C34: every character the console prints does to the text what it does to a
    screen: it is put at the cursor in the current colours, a line that is full
    or ended goes on in the next row, the last row makes the screen scroll by
    one and leaves a blank row, a carriage return goes to the first column and
    a backspace blanks the cell before; the cursor never leaves the screen and
    the arrays are never indexed outside. *)
Theorem console_screen {D} `{!Ports D} (st : console D) s c :
  term_ok (tm st) -> shows (tm st) s ->
  term_ok (tm (write_local_char c st)) /\
  shows (tm (write_local_char c st))
    (screen_put (text_rows (tm st)) (text_cols (tm st)) (current_fg (tm st)) (current_bg (tm st)) c s).
Proof. destruct (tm_write_local_char c st) as [-> _]. apply put_text_shows. Qed.

(** Size and colours stay. *)
Definition same_look (t t' : term) : Prop :=
  text_rows t' = text_rows t /\ text_cols t' = text_cols t /\
  current_fg t' = current_fg t /\ current_bg t' = current_bg t.

Lemma next_row_look t : grid_ok t -> same_look t (next_row_text t).
Proof.
  intros Hg. unfold next_row_text. destruct (_ <? _); [done|].
  assert (grid_ok (with_cursor (u16 (cursor_row t + 1)) 0 t)) as Hg1 by done.
  by destruct (scroll_text_geometry _ Hg1) as (_ & _ & _ & H).
Qed.

Lemma put_text_look c t : grid_ok t -> same_look t (put_text c t).
Proof.
  intros Hg. unfold put_text. destruct (c =? 10); [by apply next_row_look|].
  destruct (c =? 13); [done|]. destruct (c =? 8); [by destruct (_ <? _)|].
  set (t1 := set_cell _ _ _ _ t).
  destruct (_ <=? _); [|done].
  apply (next_row_look (with_cursor (cursor_row t1) (u16 (cursor_col t1 + 1)) t1)).
  by apply (cells_only_set _ _ _ _ t).
Qed.

(** ** The VGA memory *)

Definition vga_word (x : cell) : Z :=
  let '(ch, fg, bg) := x in Z.lor (Z.shiftl (to_vga_attr fg bg) 8) (u8 ch).

Definition vga_at (m : mem) (i : Z) : Z := load_u16 m (vga + 2 * i).

(** Text mode, with the arrays shown. *)
Definition vga_shows (m : mem) (t : term) : Prop :=
  forall r c, in_grid t r c -> vga_at m (r * VGA_COLS + c) = vga_word (cell_of t r c).

Definition vga_sized (t : term) : Prop := text_rows t = VGA_ROWS /\ text_cols t = VGA_COLS.

(** Only the 4000 bytes of the screen change. *)
Definition vga_only (m m' : mem) : Prop := same_outside vga 4000 m m'.

Lemma vga_word_range x : 0 <= vga_word x < 65536.
Proof.
  destruct x as [[ch fg] bg]. unfold vga_word, to_vga_attr.
  rewrite Z.lor_comm, lor_shiftl_add by (try lia; apply u8_is_byte).
  pose proof (u8_is_byte ch). pose proof (u8_is_byte (Z.lor (u32 (Z.shiftl (Z.land bg 15) 4)) (Z.land fg 15))).
  unfold is_byte in *. change (2 ^ 8) with 256. lia.
Qed.

Lemma store_u16_out m a v b :
  fits a 2 -> 0 <= b -> b + 2 <= a \/ a + 2 <= b -> b + 1 < 4294967296 ->
  load_u16 (store_u16 m a v) b = load_u16 m b.
Proof.
  intros Hf Hb Hd Hb2. unfold load_u16, load, store_u16.
  rewrite !u32_small by lia. by rewrite !store_bytes_out by (cbn; lia || done).
Qed.

Lemma store_u16_in m a v :
  fits a 2 -> 0 <= v < 65536 -> load_u16 (store_u16 m a v) a = v.
Proof.
  intros [Hf Hf2] Hv. unfold load_u16, load, store_u16. rewrite !u32_small by lia.
  pose proof (store_bytes_in m a [v; Z.shiftr v 8] 0 v) as H0.
  pose proof (store_bytes_in m a [v; Z.shiftr v 8] 1 (Z.shiftr v 8)) as H1.
  cbn [length] in H0, H1. rewrite Z.add_0_r in H0. rewrite H0 by (done || by split).
  change (Z.of_nat 1) with 1 in H1. rewrite H1 by (done || by split).
  rewrite lor_shiftl_add by (try lia; apply u8_is_byte). unfold u8.
  rewrite Z.shiftr_div_pow2 by lia. change (2 ^ 8) with 256. mlia.
Qed.

Lemma vga_set_at i fg bg c m j :
  0 <= i < 2000 -> 0 <= j < 2000 ->
  vga_at (vga_set i fg bg c m) j = if j =? i then vga_word (c, fg, bg) else vga_at m j.
Proof.
  intros Hi Hj. unfold vga_at, vga_set. destruct (j =? i) eqn:E; zify_bool.
  - subst. apply store_u16_in; [unfold vga; split; lia|apply (vga_word_range (c, fg, bg))].
  - apply store_u16_out; unfold vga; [split; lia|lia..].
Qed.

Lemma vga_set_only i fg bg c m : 0 <= i < 2000 -> vga_only m (vga_set i fg bg c m).
Proof.
  intros Hi x Hx. unfold vga_set, store_u16. apply store_bytes_out; cbn [length]; unfold vga in *.
  - split; lia.
  - lia.
Qed.

Lemma vga_only_trans m1 m2 m3 : vga_only m1 m2 -> vga_only m2 m3 -> vga_only m1 m3.
Proof. intros H1 H2 x Hx. by rewrite H2, H1. Qed.

Lemma vga_fill_spec n i fg bg m :
  0 <= i -> i + Z.of_nat n <= 2000 ->
  vga_only m (vga_fill n i fg bg m) /\
  forall j, 0 <= j < 2000 -> vga_at (vga_fill n i fg bg m) j =
    if (i <=? j) && (j <? i + Z.of_nat n) then vga_word (32, fg, bg) else vga_at m j.
Proof.
  revert i m. induction n as [|n IH]; intros i m Hi Hn; cbn [vga_fill].
  { split; [by intros x|]. intros j Hj.
    destruct (i <=? j) eqn:E1, (j <? i + Z.of_nat 0) eqn:E2; zify_bool; cbn [andb]; try done; lia. }
  destruct (IH (i + 1) (vga_set i fg bg 32 m)) as [Ho Ha]; [lia|lia|].
  split; [eapply vga_only_trans; [|exact Ho]; apply vga_set_only; lia|].
  intros j Hj. rewrite Ha, vga_set_at by lia.
  destruct (i + 1 <=? j) eqn:E1, (j <? i + 1 + Z.of_nat n) eqn:E2, (i <=? j) eqn:E3,
    (j <? i + Z.of_nat (S n)) eqn:E4, (j =? i) eqn:E5; zify_bool; cbn [andb]; try done; lia.
Qed.

Lemma vga_copy_cols_spec n col t row m :
  vga_sized t -> 0 <= row < VGA_ROWS -> 0 <= col -> col + Z.of_nat n <= VGA_COLS ->
  vga_only m (vga_copy_cols n col t row m) /\
  forall r c, in_grid t r c ->
    vga_at (vga_copy_cols n col t row m) (r * VGA_COLS + c) =
      if (r =? row) && (col <=? c) && (c <? col + Z.of_nat n) then vga_word (cell_of t row c)
      else vga_at m (r * VGA_COLS + c).
Proof.
  intros [Hs1 Hs2] Hrow. revert col m. induction n as [|n IH]; intros col m Hcol Hn; cbn [vga_copy_cols].
  { split; [by intros x|]. intros r c Hin.
    destruct (col <=? c) eqn:E1, (c <? col + Z.of_nat 0) eqn:E2; zify_bool; rewrite ?andb_false_r;
      cbn [andb]; try done; lia. }
  set (m1 := vga_set _ _ _ _ m). unfold VGA_ROWS, VGA_COLS in *.
  destruct (IH (col + 1) m1) as [Ho Ha]; [lia|lia|].
  split; [eapply vga_only_trans; [|exact Ho]; apply vga_set_only; lia|].
  intros r c Hin. rewrite Ha by done. destruct Hin as [Hr Hc]. rewrite Hs1 in Hr. rewrite Hs2 in Hc.
  unfold m1. rewrite vga_set_at by lia.
  change (vga_word (char_at t (text_index t row col), fg_at t (text_index t row col),
            bg_at t (text_index t row col))) with (vga_word (cell_of t row col)).
  destruct (r =? row) eqn:E0, (col + 1 <=? c) eqn:E1, (c <? col + 1 + Z.of_nat n) eqn:E2,
    (col <=? c) eqn:E3, (c <? col + Z.of_nat (S n)) eqn:E4, (r * 80 + c =? row * 80 + col) eqn:E5;
    zify_bool; cbn [andb]; try done; try lia.
  subst. assert (c = col) as -> by lia. done.
Qed.

Lemma vga_copy_rows_spec n row t m :
  vga_sized t -> 0 <= row -> row + Z.of_nat n <= VGA_ROWS ->
  vga_only m (vga_copy_rows n row t m) /\
  forall r c, in_grid t r c ->
    vga_at (vga_copy_rows n row t m) (r * VGA_COLS + c) =
      if (row <=? r) && (r <? row + Z.of_nat n) then vga_word (cell_of t r c)
      else vga_at m (r * VGA_COLS + c).
Proof.
  intros Hs. revert row m. induction n as [|n IH]; intros row m Hrow Hn; cbn [vga_copy_rows].
  { split; [by intros x|]. intros r c Hin.
    destruct (row <=? r) eqn:E1, (r <? row + Z.of_nat 0) eqn:E2; zify_bool; cbn [andb]; try done; lia. }
  destruct (vga_copy_cols_spec (Z.to_nat (text_cols t)) 0 t row m) as [Ho1 Ha1];
    [done|lia|lia|by destruct Hs as [_ ->]|].
  destruct (IH (row + 1) (vga_copy_cols (Z.to_nat (text_cols t)) 0 t row m)) as [Ho Ha]; [lia|lia|].
  split; [by eapply vga_only_trans|].
  intros r c Hin. rewrite Ha, Ha1 by done. destruct Hin as [Hr Hc].
  rewrite (proj2 (Z.leb_le 0 c)), (proj2 (Z.ltb_lt c (0 + _))), !andb_true_r by lia.
  destruct (r =? row) eqn:E0, (row + 1 <=? r) eqn:E1, (r <? row + 1 + Z.of_nat n) eqn:E2,
    (row <=? r) eqn:E3, (r <? row + Z.of_nat (S n)) eqn:E4; zify_bool; cbn [andb]; subst; try done; lia.
Qed.

(** ** Text mode *)

(** The console in text mode, with the screen memory in step. *)
Definition text_console {D} (st : console D) : Prop :=
  backend st = DISPLAY_VGA_TEXT /\ vga_sized (tm st) /\ term_ok (tm st) /\
  vga_shows (vmem st) (tm st).

Section text_mode.
Context {D : Type} `{!Ports D}.
Implicit Types st : console D.

Lemma text_backend st : backend st = DISPLAY_VGA_TEXT -> framebuffer st = false.
Proof. unfold framebuffer. by intros ->. Qed.

Lemma next_row_vga st :
  backend st = DISPLAY_VGA_TEXT -> vga_sized (tm st) -> grid_ok (tm st) ->
  vga_shows (vmem st) (tm st) ->
  vga_shows (vmem (next_row st)) (tm (next_row st)) /\ vga_only (vmem st) (vmem (next_row st)).
Proof.
  intros Hb Hv Hg Hs. unfold next_row, term_scroll_if_needed. cbn [tm with_tm].
  set (t1 := with_cursor _ 0 (tm st)). destruct (cursor_row t1 <? text_rows t1).
  { split; [exact Hs|by intros x]. }
  rewrite (text_backend (with_tm (scroll_text t1) (with_tm t1 st))) by exact Hb. cbn.
  assert (vga_sized (scroll_text t1)) as Hv1.
  { assert (grid_ok t1) as Hg1 by done.
    destruct (scroll_text_geometry t1 Hg1) as (_ & _ & _ & E1 & E2 & _). unfold vga_sized.
    by rewrite E1, E2. }
  destruct (vga_copy_rows_spec (Z.to_nat (text_rows (scroll_text t1))) 0 (scroll_text t1) (vmem st))
    as [Ho Ha]; [done|lia|destruct Hv1 as [-> _]; unfold VGA_ROWS; lia|].
  split; [|done]. intros r c Hin. rewrite Ha by done. destruct Hin as [Hr Hc].
  by rewrite (proj2 (Z.leb_le 0 r)), (proj2 (Z.ltb_lt r (0 + _))) by lia.
Qed.

(** Writing one cell in both places keeps them in step. *)
Lemma vga_set_shows m t ch r c :
  vga_sized t -> grid_ok t -> in_grid t r c -> vga_shows m t ->
  let t' := set_cell (text_index t r c) ch (current_fg t) (current_bg t) t in
  let m' := vga_set (r * VGA_COLS + c) (current_fg t) (current_bg t) ch m in
  vga_shows m' t' /\ vga_only m m'.
Proof.
  intros [Hv1 Hv2] Hg Hin Hs t' m'. pose proof Hin as [Hr Hc]. rewrite Hv1 in Hr. rewrite Hv2 in Hc.
  unfold VGA_ROWS, VGA_COLS in *.
  split; [|by apply vga_set_only; lia].
  intros r' c' Hin'. assert (in_grid t r' c') as Hin2 by exact Hin'.
  unfold t'. rewrite cell_of_set by done. unfold m'. pose proof Hin2 as [Hr' Hc'].
  rewrite Hv1 in Hr'. rewrite Hv2 in Hc'. unfold VGA_COLS in *. rewrite vga_set_at by lia.
  destruct (r' =? r) eqn:E1, (c' =? c) eqn:E2, (r' * 80 + c' =? r * 80 + c) eqn:E3;
    zify_bool; cbn [andb]; try done; try lia; by apply Hs.
Qed.

(** in text mode the VGA memory shows the text: after any character every
    cell's word there holds the character and the colours that the arrays
    have for it, and no other memory of the machine is written. *)
Theorem vga_in_step st c :
  text_console st ->
  text_console (write_local_char c st) /\ vga_only (vmem st) (vmem (write_local_char c st)).
Proof.
  intros (Hb & Hv & Hok & Hs). pose proof Hok as [Hg [Hr Hc]].
  destruct (tm_write_local_char c st) as [Et Eb].
  assert (term_ok (tm (write_local_char c st))) as Hok'.
  { rewrite Et. by apply (put_text_shows (tm st) {| s_cell := cell_of (tm st);
      s_row := cursor_row (tm st); s_col := cursor_col (tm st) |}). }
  assert (vga_sized (tm (write_local_char c st))) as Hv'.
  { rewrite Et. destruct (put_text_look c (tm st) Hg) as (E1 & E2 & _). unfold vga_sized.
    by rewrite E1, E2. }
  enough (vga_shows (vmem (write_local_char c st)) (tm (write_local_char c st)) /\
          vga_only (vmem st) (vmem (write_local_char c st))) as [? ?]
    by (split; [split_and!|]; try done; congruence).
  clear Et Eb Hok' Hv'.
  unfold write_local_char, write_newline, write_return, write_backspace, write_plain.
  pose proof (text_backend st Hb) as Hf. rewrite Hf.
  destruct (c =? 10).
  { rewrite fb_next_row, Hf. by apply next_row_vga. }
  destruct (c =? 13).
  { change (framebuffer (with_tm ?t st)) with (framebuffer st). rewrite Hf.
    split; [exact Hs|by intros x]. }
  destruct (c =? 8).
  - destruct (0 <? cursor_col (tm st)) eqn:E; zify_bool; [|by split; [exact Hs|intros x]].
    change (framebuffer (with_tm ?t st)) with (framebuffer st). rewrite Hf.
    destruct Hg as (Hsz & Hgr & Hgc). unfold MAX_CONSOLE_COLS in Hgc.
    assert (u16 (cursor_col (tm st) - 1) = cursor_col (tm st) - 1) as Hu
      by (unfold u16; apply Z.mod_small; lia).
    rewrite Hu. set (t1 := with_cursor _ _ (tm st)).
    apply (vga_set_shows (vmem st) t1 32 (cursor_row (tm st)) (cursor_col (tm st) - 1));
      [done|done|split; cbn; lia|exact Hs].
  - change (framebuffer (with_tm ?t st)) with (framebuffer st). rewrite Hf.
    destruct (vga_set_shows (vmem st) (tm st) c (cursor_row (tm st)) (cursor_col (tm st)))
      as [Hs1 Ho1]; [done|done|by split|done|].
    set (t1 := set_cell _ _ _ _ _) in *. cbn [tm with_tm with_vmem].
    set (t2 := with_cursor _ _ t1).
    set (s2 := with_tm t2 _).
    set (s3 := if _ <=? _ then next_row s2 else s2).
    assert (framebuffer s3 = false) as -> by (unfold s3; destruct (_ <=? _); [by rewrite fb_next_row|done]).
    change (vga_shows (vmem s3) (tm s3) /\ vga_only (vmem st) (vmem s3)).
    unfold s3. destruct (_ <=? _); [|by split].
    destruct (next_row_vga s2) as [Hs2 Ho2]; [done|done|by apply (cells_only_set _ _ _ _ (tm st))|exact Hs1|].
    split; [done|]. by eapply vga_only_trans.
Qed.

End text_mode.

(** ** Clearing *)

Lemma clear_cells_spec n i t j :
  sized t -> 0 <= i -> i + Z.of_nat n <= TEXT_CELLS -> 0 <= j ->
  cells_only t (clear_cells n i t) /\
  cell_at (clear_cells n i t) j =
    if (i <=? j) && (j <? i + Z.of_nat n) then blank_of t else cell_at t j.
Proof.
  revert i t. induction n as [|n IH]; intros i t Hs Hi Hn Hj; cbn [clear_cells].
  { split; [apply cells_only_refl|].
    destruct (i <=? j) eqn:E1, (j <? i + Z.of_nat 0) eqn:E2; zify_bool; cbn [andb]; try done; lia. }
  destruct (IH (i + 1) (blank_cell i t)) as [Hc Hv]; [by apply set_cell_sized|lia|lia|lia|].
  split; [by eapply cells_only_trans; [apply cells_only_set|]|].
  rewrite Hv. unfold blank_cell at 2. rewrite cell_set_cell by (done || lia).
  destruct (i + 1 <=? j) eqn:E1, (j <? i + 1 + Z.of_nat n) eqn:E2, (i <=? j) eqn:E3,
    (j <? i + Z.of_nat (S n)) eqn:E4, (j =? i) eqn:E5; zify_bool; cbn [andb]; try done; lia.
Qed.

Definition blank_screen (t : term) : screen :=
  {| s_cell _ _ := blank_of t; s_row := 0; s_col := 0 |}.

Section clear.
Context {D : Type} `{!Ports D}.
Implicit Types st : console D.

Lemma tm_term_clear st :
  tm (term_clear st) =
    with_cursor 0 0 (clear_cells (Z.to_nat (text_cols (tm st) *u text_rows (tm st))) 0 (tm st)) /\
  backend (term_clear st) = backend st.
Proof.
  unfold term_clear. change (framebuffer (with_tm ?t st)) with (framebuffer st).
  destruct (framebuffer st) eqn:E.
  - change (framebuffer (with_tm ?t (with_vmem ?m (with_tm ?u st)))) with (framebuffer st).
    by rewrite E.
  - change (framebuffer (with_tm ?t (with_vmem ?m (with_tm ?u st)))) with (framebuffer st).
    by rewrite E.
Qed.

(** Whatever was in the arrays, clearing gives a blank screen. *)
Lemma term_clear_shows st :
  grid_ok (tm st) ->
  term_ok (tm (term_clear st)) /\ shows (tm (term_clear st)) (blank_screen (tm st)) /\
  same_look (tm st) (tm (term_clear st)).
Proof.
  intros Hg. destruct (tm_term_clear st) as [-> _]. set (t := tm st) in *. clearbody t.
  pose proof Hg as (Hs & Hr & Hc). unfold MAX_CONSOLE_ROWS, MAX_CONSOLE_COLS in *.
  rewrite u32_small by nia. set (n := Z.to_nat _).
  assert (Z.of_nat n = text_cols t * text_rows t /\ Z.of_nat n <= TEXT_CELLS) as [Hn Hn2].
  { unfold n, TEXT_CELLS, MAX_CONSOLE_ROWS, MAX_CONSOLE_COLS. nia. }
  destruct (clear_cells_spec n 0 t 0) as [Hco _]; [done|lia|lia|lia|].
  pose proof (cells_only_geom _ _ Hco) as (E1 & E2 & E3 & E4 & E5 & E6).
  split; [|split].
  - split; [by apply Hco|]. cbn. lia.
  - split_and!; [done|done|]. intros r c Hin.
    change (in_grid (with_cursor 0 0 ?x) r c) with (in_grid x r c) in Hin.
    apply (cells_only_in _ _ r c Hco) in Hin.
    change (cell_at (clear_cells n 0 t) (text_index (clear_cells n 0 t) r c) = blank_of t).
    rewrite (cells_only_index _ _ _ _ Hco). destruct (text_index_eq t r c Hg Hin) as [-> Hb].
    destruct Hin as [Hir Hic].
    destruct (clear_cells_spec n 0 t (r * text_cols t + c)) as [_ ->]; [done|lia|lia|lia|].
    rewrite (proj2 (Z.leb_le 0 _)), (proj2 (Z.ltb_lt _ (0 + _))) by nia. done.
  - done.
Qed.

Lemma term_clear_text st :
  backend st = DISPLAY_VGA_TEXT -> vga_sized (tm st) -> sized (tm st) ->
  text_console (term_clear st) /\ vga_only (vmem st) (vmem (term_clear st)).
Proof.
  intros Hb [Hv1 Hv2] Hsz.
  assert (grid_ok (tm st)) as Hg.
  { split; [done|]. rewrite Hv1, Hv2. by split. }
  destruct (term_clear_shows st Hg) as (Hok & (_ & _ & Hsh) & (L1 & L2 & L3 & L4)).
  destruct (tm_term_clear st) as [Et Eb].
  assert (vmem (term_clear st) =
    vga_fill (Z.to_nat (VGA_COLS * VGA_ROWS)) 0 (current_fg (tm st)) (current_bg (tm st)) (vmem st)) as Em.
  { unfold term_clear. change (framebuffer (with_tm ?t st)) with (framebuffer st).
    rewrite (text_backend st Hb).
    change (framebuffer (with_tm ?t (with_vmem ?m (with_tm ?u st)))) with (framebuffer st).
    rewrite (text_backend st Hb). cbn [vmem with_vmem with_tm term_update_hw_cursor with_hw tm].
    destruct (clear_cells_spec (Z.to_nat (text_cols (tm st) *u text_rows (tm st))) 0 (tm st) 0)
      as [Hco _]; [done|lia|rewrite Hv1, Hv2; vm_compute; discriminate|lia|].
    pose proof (cells_only_geom _ _ Hco) as (_ & _ & _ & _ & E5 & E6). by rewrite E5, E6. }
  destruct (vga_fill_spec (Z.to_nat (VGA_COLS * VGA_ROWS)) 0 (current_fg (tm st))
              (current_bg (tm st)) (vmem st)) as [Ho Ha]; [lia|vm_compute; discriminate|].
  rewrite Em. split; [|done]. split_and!; [congruence|by split; congruence|apply Hok..|].
  intros r c Hin. rewrite Em, Hsh by done. destruct Hin as [Hr Hc].
  rewrite L1, Hv1 in Hr. rewrite L2, Hv2 in Hc. unfold VGA_ROWS, VGA_COLS in *.
  rewrite Ha by lia. rewrite (proj2 (Z.leb_le 0 _)), (proj2 (Z.ltb_lt _ (0 + _))) by lia. done.
Qed.

(** What the kernel asks of its console. *)
Inductive console_op :=
  | Putchar (target : console_target) (c : Z)
  | SetColor (fg bg : Z)
  | ClearScreen.

Definition console_do (st : console D) (op : console_op) : console D :=
  match op with
  | Putchar target c => console_putchar target st c
  | SetColor f b => term_set_color f b st
  | ClearScreen => term_clear st
  end.

Lemma console_putchar_parts target st c :
  tm (console_putchar target st c) = (if to_vga target then put_text c (tm st) else tm st) /\
  vmem (console_putchar target st c) =
    (if to_vga target then vmem (write_local_char c st) else vmem st) /\
  backend (console_putchar target st c) = backend st /\
  fb (console_putchar target st c) = (if to_vga target then fb (write_local_char c st) else fb st).
Proof.
  unfold console_putchar. destruct (tm_write_local_char c st) as [Et Eb].
  destruct (to_vga target); destruct (_ && _); cbn; by rewrite ?Et, ?Eb.
Qed.

(** whatever is printed, in whatever colours, to whichever outputs: from a
    cleared screen in text mode on, the arrays stay well formed, the cursor
    stays on the screen, the VGA memory shows the text, and nothing but the
    4000 bytes of the screen is written. *)
Theorem console_run_in_step st ops :
  backend st = DISPLAY_VGA_TEXT -> vga_sized (tm st) -> sized (tm st) ->
  let st' := fold_left console_do ops (term_clear st) in
  text_console st' /\ vga_only (vmem st) (vmem st').
Proof.
  intros Hb Hv Hsz. destruct (term_clear_text st Hb Hv Hsz) as [Ht Ho].
  revert Ht Ho. generalize (term_clear st). induction ops as [|op ops IH]; intros st1 Ht Ho; [by split|].
  cbn [fold_left]. enough (text_console (console_do st1 op) /\
    vga_only (vmem st1) (vmem (console_do st1 op))) as [H1 H2]
    by (apply IH; [done|by eapply vga_only_trans]).
  destruct op as [target c|f b|]; cbn [console_do].
  - destruct (console_putchar_parts target st1 c) as (E1 & E2 & E3 & _).
    unfold text_console. rewrite E1, E2, E3. destruct (to_vga target); [|by split; [|intros x]].
    destruct (vga_in_step st1 c Ht) as [(H1 & H2) H3].
    destruct (tm_write_local_char c st1) as [<- _]. split; [|done]. split; [by apply Ht|done].
  - split; [|by intros x]. exact Ht.
  - destruct Ht as (H1 & H2 & [[H3 _] _] & _). by apply term_clear_text.
Qed.

End clear.

(** ** A console before boot *)

Definition raw_term : term := {|
  cursor_row := 0; cursor_col := 0; text_rows := VGA_ROWS; text_cols := VGA_COLS;
  text_chars := replicate (Z.to_nat TEXT_CELLS) 0; text_fg := replicate (Z.to_nat TEXT_CELLS) 0;
  text_bg := replicate (Z.to_nat TEXT_CELLS) 0; current_fg := 7; current_bg := 0 |}.

Definition raw_fb : framebuffer_info := {|
  base := 0; pitch := 0; width := 0; height := 0; bpp := 0; fb_type := 0;
  red_pos := 0; red_mask := 0; green_pos := 0; green_mask := 0; blue_pos := 0; blue_mask := 0 |}.

Definition raw_console : console unit := {|
  tm := raw_term; backend := DISPLAY_VGA_TEXT; fb := raw_fb; vmem := mem_empty; hw := tt;
  serial_ready := false |}.

#[local] Existing Instance no_ports.

Lemma raw_sized : sized raw_term.
Proof. by split_and!. Qed.

Lemma raw_grid : grid_ok raw_term.
Proof. split; [apply raw_sized|]. split; vm_compute; by split. Qed.

Lemma console_screen_witness :
  shows (tm (write_local_char 65 (term_clear raw_console)))
    (screen_put 25 80 7 0 65 (blank_screen raw_term)).
Proof.
  destruct (term_clear_shows raw_console raw_grid) as (Hok & Hs & E1 & E2 & E3 & E4).
  pose proof (console_screen (term_clear raw_console) (blank_screen raw_term) 65 Hok Hs) as [_ H].
  rewrite E1, E2, E3, E4 in H. exact H.
Defined.

Lemma console_run_in_step_witness :
  text_console (fold_left console_do [Putchar CONSOLE_BOTH 72; Putchar CONSOLE_VGA 10; ClearScreen]
                  (term_clear raw_console)).
Proof.
  apply (console_run_in_step raw_console [Putchar CONSOLE_BOTH 72; Putchar CONSOLE_VGA 10; ClearScreen]).
  - reflexivity.
  - split; reflexivity.
  - exact raw_sized.
Defined.
