(* ===== verification/ConsolePrint.v ===== *)
(** * ConsolePrint: what the print functions of console.c send

    Each print function sends characters one after the other; this file says
    which.  A format string is a list of pieces, plain characters and
    conversions ([pieces]), and [console_vprintf] sends the text of each. *)
From S2P Require Import Prelude KernelH Util Memory Varargs Ports Console ConsoleText.
Local Open Scope Z_scope.
Local Open Scope slop_scope.

(** ** The texts *)

Definition hex_digit (v : Z) : Z := if v <? 10 then 48 + v else 55 + v.

(** Eight digits, the most significant first. *)
Definition hex_text (value : Z) : list Z :=
  lit "0x" ++ map (fun i => hex_digit ((value / 16 ^ i) `mod` 16)) [7; 6; 5; 4; 3; 2; 1; 0].

(** What a reader makes of a hexadecimal digit. *)
Definition hex_digit_value (c : Z) : Z := if c <? 58 then c - 48 else c - 55.

Definition hex_value (s : list Z) : Z :=
  fold_left (fun acc c => acc * 16 + hex_digit_value c) s 0.

Inductive piece :=
  | Plain (c : Z)
  | Conv (d : Z).

(** The pieces of a format; [Conv] holds the letter after the percent sign.  A
    percent sign at the end is dropped. *)
Fixpoint pieces (fmt : list Z) : list piece :=
  match fmt with
  | [] => []
  | c :: fmt' =>
      if negb (c =? 37) then Plain c :: pieces fmt'
      else match fmt' with
           | [] => []
           | d :: fmt'' => Conv d :: pieces fmt''
           end
  end.

(** The text of a piece and the arguments it leaves. *)
Definition piece_text (p : piece) (args : list va) : option (list Z * list va) :=
  match p with
  | Plain c => Some ([c], args)
  | Conv d =>
      if d =? 37 then Some ([37], args)
      else if d =? 99 then '(v, args) ← va_int args; Some ([u8 v], args)
      else if d =? 115 then '(s, args) ← va_str args; Some (cstr (or_null s), args)
      else if d =? 117 then '(v, args) ← va_int args; Some (Util.console_print_u32_dec (u32 v), args)
      else if d =? 120 then '(v, args) ← va_int args; Some (hex_text (u32 v), args)
      else Some ([37; d], args)
  end.

Fixpoint render (ps : list piece) (args : list va) : option (list Z) :=
  match ps with
  | [] => Some []
  | p :: ps => '(text, args) ← piece_text p args; rest ← render ps args; Some (text ++ rest)
  end.

Create HintDb text_bytes.

Section printing.
Context {D : Type} `{!Ports D}.
Implicit Types st : console D.

Definition put_all (target : console_target) (st : console D) (l : list Z) : console D :=
  fold_left (console_putchar target) l st.

Lemma put_all_app target st l1 l2 :
  put_all target st (l1 ++ l2) = put_all target (put_all target st l1) l2.
Proof. apply fold_left_app. Qed.

Lemma console_print_put target st str :
  console_print target st str = put_all target st (cstr str).
Proof.
  revert st. induction str as [|c str IH]; intros st; cbn; [done|].
  destruct (c =? 0); [done|]. apply IH.
Qed.

Lemma put_reversed_rev target buf : forall n st,
  (n <= length buf)%nat -> put_reversed target n buf st = put_all target st (rev (take n buf)).
Proof.
  induction n as [|n IH]; intros st Hn; [done|]. cbn [put_reversed].
  destruct (lookup_lt_is_Some_2 buf n) as [x Hx]; [lia|].
  rewrite IH by lia. rewrite (take_S_r _ _ x) by done. rewrite rev_app_distr. cbn [rev app].
  rewrite nth_lookup, Hx. done.
Qed.

Lemma print_u32_put target st v :
  console_print_u32_dec target st v = put_all target st (Util.console_print_u32_dec v).
Proof.
  unfold console_print_u32_dec, Util.console_print_u32_dec. destruct (v =? 0); [done|].
  rewrite put_reversed_rev by done. by rewrite firstn_all.
Qed.

Lemma hex_nibble_put target st v :
  0 <= v < 16 -> console_print_hex_nibble target st v = put_all target st [hex_digit v].
Proof.
  intros Hv. unfold console_print_hex_nibble, hex_digit.
  change 0x0F with (Z.ones 4). rewrite Z.land_ones by lia. change (2 ^ 4) with 16.
  rewrite Z.mod_small by lia. destruct (v <? 10); [done|].
  by replace (65 + (v - 10)) with (55 + v) by lia.
Qed.

Lemma put_nibbles_put n target st v :
  0 <= v ->
  put_nibbles n target v st =
    put_all target st (map (fun i => hex_digit ((v / 16 ^ Z.of_nat i) `mod` 16)) (rev (seq 0 n))).
Proof.
  intros Hv. revert st. induction n as [|n IH]; intros st; [done|]. cbn [put_nibbles].
  rewrite seq_S, rev_app_distr. cbn [rev app map Nat.add]. rewrite IH.
  change (put_all target st (?x :: ?l)) with (put_all target (put_all target st [x]) l).
  assert (u8 (Z.land (Z.shiftr v (4 * Z.of_nat n)) 0x0F) = (v / 16 ^ Z.of_nat n) `mod` 16) as ->.
  { change 0x0F with (Z.ones 4). rewrite Z.land_ones, Z.shiftr_div_pow2 by lia.
    change (2 ^ 4) with 16. rewrite Z.pow_mul_r by lia. change (2 ^ 4) with 16.
    unfold u8. apply Z.mod_small. mlia. }
  by rewrite hex_nibble_put by mlia.
Qed.

Lemma print_hex_put target st v :
  0 <= v -> console_print_hex_u32 target st v = put_all target st (hex_text v).
Proof.
  intros Hv. unfold console_print_hex_u32, hex_text.
  rewrite put_nibbles_put, console_print_put, put_all_app by done. done.
Qed.

(** The text of a format. *)
Lemma vprintf_put target st fmt args :
  console_vprintf target st fmt args = put_all target st <$> render (pieces (cstr fmt)) args.
Proof.
  enough (forall n fmt st args, (length fmt <= n)%nat ->
    console_vprintf target st fmt args = put_all target st <$> render (pieces (cstr fmt)) args)
    as H by by eapply H.
  clear. induction n as [|n IH]; intros [|c fmt] st args Hn; cbn [length] in Hn; try done; [lia|].
  cbn [console_vprintf cstr]. destruct (c =? 0) eqn:E0; [done|]. zify_bool. cbn [pieces].
  destruct (c =? 37) eqn:E1; cbn [negb].
  - destruct fmt as [|d fmt]; [done|]. cbn [length cstr] in *.
    destruct (d =? 0) eqn:Ed; [done|]. cbn [render piece_text].
    destruct (d =? 37); [|destruct (d =? 99); [|destruct (d =? 115); [|destruct (d =? 117);
      [|destruct (d =? 120)]]]].
    2-5: destruct args as [|[v|s] args]; cbn [va_int va_str mbind option_bind]; try done.
    all: rewrite ?console_print_put, ?print_u32_put, ?print_hex_put by apply u32_range.
    all: rewrite IH by lia; cbn [mbind option_bind].
    all: destruct (render (pieces (cstr fmt)) args); cbn [mbind option_bind fmap option_fmap option_map];
      [|done].
    all: by rewrite put_all_app.
  - cbn [render piece_text]. rewrite IH by lia. cbn. by destruct (render _ _).
Qed.

(** formatted output sends the text of the format's pieces, in order, each
    conversion taking its own argument: [%c], [%s] (with a text for a null
    pointer), [%u], [%x] and [%%]; any other letter is sent as it is after its
    percent sign, and a percent sign at the end is dropped. *)
Theorem console_vprintf_renders target st fmt args :
  console_vprintf target st fmt args = put_all target st <$> render (pieces (cstr fmt)) args.
Proof. apply vprintf_put. Qed.

End printing.

(** ** Texts are bytes *)

Lemma lit_bytes s : all_bytes (lit s).
Proof.
  unfold lit. apply Forall_forall. intros x (a & <- & _)%in_map_iff.
  unfold is_byte. pose proof (Ascii.nat_ascii_bounded a). lia.
Qed.
Lemma bytes_line s : all_bytes (line s).
Proof. apply Forall_app. split; [apply lit_bytes|by repeat constructor]. Qed.
Lemma dec_bytes v : all_bytes (Util.console_print_u32_dec v).
Proof.
  unfold Util.console_print_u32_dec. destruct (v =? 0); [by repeat constructor|].
  apply Forall_rev. generalize 10%nat. intros n. revert v. induction n as [|n IH]; intros v; cbn; [constructor|].
  destruct (0 <? v); constructor; [apply u8_is_byte|apply IH].
Qed.
Lemma hex_digit_byte v : 0 <= v < 16 -> is_byte (hex_digit v).
Proof. unfold hex_digit, is_byte. destruct (v <? 10); lia. Qed.
Lemma hex_bytes v : 0 <= v -> all_bytes (hex_text v).
Proof.
  intros Hv. apply Forall_app. split; [apply lit_bytes|]. apply Forall_forall.
  intros x (i & <- & _)%in_map_iff. apply hex_digit_byte, Z.mod_pos_bound. lia.
Qed.
Lemma cstr_bytes s : all_bytes s -> all_bytes (cstr s).
Proof. induction 1 as [|c s Hc _ IH]; cbn; [constructor|]. destruct (c =? 0); by constructor. Qed.

Lemma app_bytes s1 s2 : all_bytes s1 -> all_bytes s2 -> all_bytes (s1 ++ s2).
Proof. intros. by apply Forall_app. Qed.
Lemma newline_bytes : all_bytes [10].
Proof. by repeat constructor. Qed.
Lemma empty_bytes : all_bytes [].
Proof. constructor. Qed.

#[export] Hint Resolve lit_bytes bytes_line dec_bytes hex_bytes cstr_bytes app_bytes newline_bytes empty_bytes : text_bytes.

(** A text put together from such pieces, by cases. *)
Ltac text_pieces :=
  repeat first [apply app_bytes | solve [auto with text_bytes] | case_match].

(** ** A text on the screen and on the line *)

(** What a text does to a screen of [rows] rows and [cols] columns. *)
Definition screen_text (rows cols fg bg : Z) (text : list Z) (s : screen) : screen :=
  fold_left (fun s c => screen_put rows cols fg bg c s) text s.

Section put_all.
Context {D : Type} `{!Ports D}.
Implicit Types st : console D.

Lemma putchar_screen st c : tm (console_putchar CONSOLE_BOTH st c) = put_text c (tm st).
Proof.
  unfold console_putchar. cbn [to_vga to_serial andb].
  destruct (tm_write_local_char c st) as [<- _]. by destruct (serial_is_ready _).
Qed.

Lemma put_all_screen st s l :
  term_ok (tm st) -> shows (tm st) s ->
  let st' := put_all CONSOLE_BOTH st l in
  term_ok (tm st') /\ same_look (tm st) (tm st') /\
  shows (tm st')
    (screen_text (text_rows (tm st)) (text_cols (tm st)) (current_fg (tm st)) (current_bg (tm st)) l s).
Proof.
  revert st s. induction l as [|c l IH]; intros st s Hok Hs; [by split_and!|]. cbn.
  destruct (put_text_shows (tm st) s c Hok Hs) as [Hok1 Hs1].
  destruct (put_text_look c (tm st) (proj1 Hok)) as (E1 & E2 & E3 & E4).
  rewrite <- (putchar_screen st c) in *.
  destruct (IH _ _ Hok1 Hs1) as (Hok2 & (F1 & F2 & F3 & F4) & Hs2).
  split; [done|]. rewrite E1, E2, E3, E4 in *. by split.
Qed.

(** A character goes through [draw_at_cursor] and [next_row], which leave the
    ports, the serial line and the mode alone. *)
Definition outside st : D * bool * framebuffer_info := (hw st, serial_ready st, fb st).

Lemma outside_draw b st : outside (draw_at_cursor b st) = outside st.
Proof. unfold draw_at_cursor. by destruct (_ && _). Qed.

Lemma outside_next_row st : outside (next_row st) = outside st.
Proof. unfold next_row, term_scroll_if_needed. destruct (_ <? _); [done|]. by destruct (framebuffer _). Qed.

(** What is left to the hardware is moving the cursor, in text mode. *)
Lemma local_char_outside c st :
  outside (write_local_char c st) = outside st \/
  exists st1, outside st1 = outside st /\ outside (write_local_char c st) = outside (term_update_hw_cursor st1).
Proof.
  unfold write_local_char, write_newline, write_return, write_backspace, write_plain, fb_set_cursor.
  repeat case_match; try (left; reflexivity).
  all: first [ left; repeat first [rewrite outside_draw | rewrite outside_next_row
                                  | progress change (outside (with_tm ?t ?s)) with (outside s)
                                  | progress change (outside (with_vmem ?m ?s)) with (outside s)]; reflexivity
             | right; eexists; split; [|reflexivity];
               repeat first [rewrite outside_draw | rewrite outside_next_row
                            | progress change (outside (with_tm ?t ?s)) with (outside s)
                            | progress change (outside (with_vmem ?m ?s)) with (outside s)]; reflexivity ].
Qed.

Lemma local_char_rest c st :
  serial_ready (write_local_char c st) = serial_ready st /\ fb (write_local_char c st) = fb st.
Proof.
  destruct (local_char_outside c st) as [[= _ -> ->]|(st1 & [= _ Hr Hf] & [= _ -> ->])]; [done|].
  cbn. by rewrite Hr, Hf.
Qed.

(** Printing does not change the mode. *)
Definition same_mode st st' : Prop := backend st' = backend st /\ fb st' = fb st.

Lemma put_all_mode target st l : same_mode st (put_all target st l).
Proof.
  revert st. induction l as [|c l IH]; intros st; [by split|].
  change (put_all target st (c :: l)) with (put_all target (console_putchar target st c) l).
  destruct (IH (console_putchar target st c)) as [Hb1 Hf1].
  destruct (console_putchar_parts target st c) as (_ & _ & Hb & Hf).
  destruct (local_char_rest c st) as [_ Hf']. split; [congruence|].
  rewrite Hf1, Hf. by destruct (to_vga target).
Qed.

(** The registers of the cursor are not those of the serial line. *)
Class CursorQuiet `{!SerialLine D} : Prop :=
  cursor_quiet d l p v : p = 0x3D4 \/ p = 0x3D5 -> sent d l -> sent (outb d p v) l.

Context `{!SerialLine D} `{!SerialLaws D} `{!CursorQuiet}.

Lemma cursor_sent st l : sent (hw st) l -> sent (hw (term_update_hw_cursor st)) l.
Proof using All. intros Hl. cbn. repeat (apply cursor_quiet; [auto|]). done. Qed.

Lemma local_char_sent st c l : sent (hw st) l -> sent (hw (write_local_char c st)) l.
Proof using All.
  intros Hl. destruct (local_char_outside c st) as [[= -> _ _]|(st1 & [= Hh _ _] & [= -> _ _])]; [done|].
  apply cursor_sent. by rewrite Hh.
Qed.

(** Both the screen and the line get the text. *)
Lemma put_all_sent st l s :
  serial_ready st = true -> sent (hw st) l -> Forall is_byte s ->
  let st' := put_all CONSOLE_BOTH st s in
  serial_ready st' = true /\ sent (hw st') (l ++ with_returns s).
Proof using All.
  revert st l. induction s as [|c s IH]; intros st l Hr Hl Hs; cbn.
  { split; [done|]. unfold with_returns. cbn. by rewrite app_nil_r. }
  apply Forall_cons_iff in Hs as [Hc Hs]. rewrite <- (app_nil_r [c]) at 1.
  assert (serial_ready (write_local_char c st) = true) as Hr1 by by rewrite (proj1 (local_char_rest c st)).
  unfold console_putchar. cbn [to_vga to_serial andb]. rewrite Hr1. cbn [serial_is_ready].
  unfold with_returns. cbn [mbind list_bind]. rewrite app_assoc.
  apply IH; [done| |done]. cbn [hw with_hw].
  pose proof (serial_putchar_sent _ _ c (local_char_sent st c l Hl) Hc) as Hs1.
  unfold with_returns in Hs1. cbn [mbind list_bind] in Hs1. by rewrite app_nil_r in Hs1.
Qed.

End put_all.

(** A printed number can be read back. *)
Lemma hex_value_text v : is_u32 v -> hex_value (drop 2 (hex_text v)) = v.
Proof.
  intros Hv. unfold is_u32 in Hv. unfold hex_text, hex_value. cbn [drop map app fold_left].
  assert (forall d, 0 <= d < 16 -> hex_digit_value (hex_digit d) = d) as Hd.
  { intros d H. unfold hex_digit, hex_digit_value. destruct (d <? 10) eqn:E; zify_bool.
    - rewrite (proj2 (Z.ltb_lt _ _)) by lia. lia.
    - rewrite (proj2 (Z.ltb_ge _ _)) by lia. lia. }
  change (drop 2 (lit "0x" ++ ?l)) with l. cbn [fold_left].
  rewrite !Hd by mlia.
  change (16 ^ 7) with 268435456. change (16 ^ 6) with 16777216. change (16 ^ 5) with 1048576.
  change (16 ^ 4) with 65536. change (16 ^ 3) with 4096. change (16 ^ 2) with 256.
  change (16 ^ 1) with 16. change (16 ^ 0) with 1. mlia.
Qed.

(** The same through [%x], among other text. *)
Lemma printf_hex_text {D} `{!Ports D} target (st : console D) v :
  is_u32 v ->
  exists text, console_printf target st (lit "%x") [VInt v] = Some (put_all target st text) /\
    hex_value (drop 2 text) = v.
Proof.
  intros Hv. exists (hex_text (u32 v)). unfold console_printf. rewrite vprintf_put.
  split; [|rewrite u32_small by exact Hv; by apply hex_value_text].
  change (pieces (cstr (lit "%x"))) with [Conv 120]. cbn [render piece_text va_int mbind option_bind].
  change (120 =? 37) with false. change (120 =? 99) with false. change (120 =? 115) with false.
  change (120 =? 117) with false. change (120 =? 120) with true. cbn iota.
  cbn [mbind option_bind fmap option_fmap option_map]. by rewrite app_nil_r.
Qed.
