(* ===== verification/ConsoleFb.v ===== *)
(** * ConsoleFb: the text in a frame buffer

    Which pixels the drawing functions of console.c change, and that the frame
    buffer shows the text and the cursor after every character, although only
    the cells that a character concerns are drawn again.  A backspace is the
    exception: it leaves a second cursor behind ([backspace_ghost]). *)
From S2P Require Import Prelude KernelH Util Memory Ports Console ConsoleText.
Local Open Scope Z_scope.
Local Open Scope slop_scope.

(** ** Pixels *)

(** What [term_init_with_multiboot] checks, and what a loader that describes a
    real frame buffer guarantees. *)
Record fb_ok (f : framebuffer_info) : Prop := {
  fo_bpp : bpp f = 24 \/ bpp f = 32;
  fo_width : FONT_W <= width f;
  fo_height : CELL_H <= height f;
  fo_pitch : bpp f / 8 * width f <= pitch f;
  fo_base : 0 <= base f;
  fo_fits : base f + pitch f * height f <= 4294967296
}.

Definition pixel_size (f : framebuffer_info) : Z := bpp f / 8.

Definition pixel_address (f : framebuffer_info) (x y : Z) : Z :=
  base f + y * pitch f + x * pixel_size f.

(** The bytes of a pixel. *)
Definition pixel (f : framebuffer_info) (m : mem) (x y : Z) : list Z :=
  load_bytes m (pixel_address f x y) (Z.to_nat (pixel_size f)).

Definition packed_bytes (f : framebuffer_info) (packed : Z) : list Z :=
  take (Z.to_nat (pixel_size f))
    [u8 packed; u8 (Z.shiftr packed 8); u8 (Z.shiftr packed 16); u8 (Z.shiftr packed 24)].

Definition color_bytes (f : framebuffer_info) (color : Z) : list Z :=
  packed_bytes f (fb_pack_color f color).

Definition on_screen (f : framebuffer_info) (x y : Z) : Prop := 0 <= x < width f /\ 0 <= y < height f.

(** Only the frame buffer changes. *)
Definition fb_only (f : framebuffer_info) (m m' : mem) : Prop :=
  same_outside (base f) (pitch f * height f) m m'.

(** [m'] is [m] with the pixels painted that [pic] gives bytes for. *)
Definition paints (f : framebuffer_info) (pic : Z -> Z -> option (list Z)) (m m' : mem) : Prop :=
  fb_only f m m' /\
  forall x y, on_screen f x y -> pixel f m' x y = default (pixel f m x y) (pic x y).

Definition no_paint : Z -> Z -> option (list Z) := fun _ _ => None.
Definition over (p2 p1 : Z -> Z -> option (list Z)) : Z -> Z -> option (list Z) :=
  fun x y => match p2 x y with Some b => Some b | None => p1 x y end.

Section drawing.
Context (f : framebuffer_info) (Hf : fb_ok f).

Lemma pixel_size_cases : (bpp f = 24 /\ pixel_size f = 3) \/ (bpp f = 32 /\ pixel_size f = 4).
Proof using Hf. unfold pixel_size. destruct (fo_bpp f Hf) as [-> | ->]; [left|right]; done. Qed.

Lemma pixel_pitch : pixel_size f * width f <= pitch f.
Proof using Hf. apply Hf. Qed.

Lemma pixel_fits x y :
  on_screen f x y ->
  base f <= pixel_address f x y /\
  pixel_address f x y + pixel_size f <= base f + pitch f * height f.
Proof using Hf.
  intros [Hx Hy]. pose proof pixel_pitch as Hp. unfold pixel_address.
  destruct pixel_size_cases as [[_ E]|[_ E]]; rewrite E in *; nia.
Qed.

Lemma pixel_disjoint x y x' y' :
  on_screen f x y -> on_screen f x' y' -> (x, y) <> (x', y') ->
  pixel_address f x y + pixel_size f <= pixel_address f x' y' \/
  pixel_address f x' y' + pixel_size f <= pixel_address f x y.
Proof using Hf.
  intros [Hx Hy] [Hx' Hy'] Hne. pose proof pixel_pitch as Hp. unfold pixel_address.
  assert (0 < pixel_size f) as Hpos by (destruct pixel_size_cases as [[_ ->]|[_ ->]]; lia).
  assert (forall a, 0 <= a < width f -> 0 <= a * pixel_size f /\
            a * pixel_size f + pixel_size f <= pitch f) as Hrow by (intros a Ha; split; nia).
  pose proof (Hrow x Hx). pose proof (Hrow x' Hx').
  assert (forall a b, a < b -> a * pitch f + pitch f <= b * pitch f) as Hcol by (intros a b Hab; nia).
  destruct (Z.lt_trichotomy y y') as [Hlt|[->|Hlt]].
  - left. specialize (Hcol y y' Hlt). lia.
  - destruct (Z.lt_trichotomy x x') as [?|[->|?]]; [left; nia|done|right; nia].
  - right. specialize (Hcol y' y Hlt). lia.
Qed.

Lemma packed_length p : Z.of_nat (length (packed_bytes f p)) = pixel_size f.
Proof using Hf.
  unfold packed_bytes. destruct pixel_size_cases as [[_ ->]|[_ ->]]; done.
Qed.

Lemma packed_all_bytes p : all_bytes (packed_bytes f p).
Proof.
  apply Forall_take. repeat constructor; apply u8_is_byte.
Qed.

Lemma store_pixel_bytes a p m : store_pixel f a p m = store_bytes m a (packed_bytes f p).
Proof using Hf.
  assert (forall v, u8 (Z.land v 255) = u8 v) as Hu.
  { intros v. unfold u8. change 255 with (Z.ones 8). rewrite Z.land_ones by lia.
    change (2 ^ 8) with 256. by rewrite Z.mod_mod. }
  unfold store_pixel, packed_bytes. rewrite !Hu.
  destruct pixel_size_cases as [[-> ->]|[-> ->]].
  - change (24 =? 32) with false. change (24 =? 24) with true.
    change (Z.to_nat 3) with 3%nat. cbn. by replace (a + 1 + 1) with (a + 2) by lia.
  - change (32 =? 32) with true. change (Z.to_nat 4) with 4%nat. cbn.
    replace (a + 1 + 1) with (a + 2) by lia. by replace (a + 2 + 1) with (a + 3) by lia.
Qed.

(** The picture of one pixel. *)
Definition dot (x y : Z) (b : list Z) : Z -> Z -> option (list Z) :=
  fun x' y' => if (x' =? x) && (y' =? y) then Some b else None.

Lemma store_pixel_paints x y p m :
  on_screen f x y ->
  paints f (dot x y (packed_bytes f p)) m (store_pixel f (pixel_address f x y) p m).
Proof using Hf.
  intros Hxy. rewrite store_pixel_bytes. pose proof (pixel_fits x y Hxy) as Hb.
  pose proof (packed_length p) as Hlen. pose proof (fo_fits f Hf) as Hfit. pose proof (fo_base f Hf).
  assert (fits (pixel_address f x y) (Z.of_nat (length (packed_bytes f p)))) as Hfi by (split; lia).
  split.
  - intros a Ha. apply store_bytes_out; [done|]. lia.
  - intros x' y' Hxy'. unfold dot, pixel.
    destruct ((x' =? x) && (y' =? y)) eqn:E; cbn [default].
    + zify_bool. subst. rewrite <- Hlen, Nat2Z.id. apply load_store_bytes; [done|].
      apply packed_all_bytes.
    + pose proof (pixel_fits x' y' Hxy') as Hb'.
      assert ((x, y) <> (x', y')) as Hne.
      { intros [= -> ->]. by rewrite !Z.eqb_refl in E. }
      destruct (pixel_disjoint x y x' y' Hxy Hxy' Hne) as [Hd|Hd];
        apply load_store_bytes_other; try done; try (split; lia); lia.
Qed.

Lemma paints_refl m : paints f no_paint m m.
Proof. by split. Qed.

Lemma paints_over p1 p2 m1 m2 m3 :
  paints f p1 m1 m2 -> paints f p2 m2 m3 -> paints f (over p2 p1) m1 m3.
Proof.
  intros [H1 H2] [H3 H4]. split; [intros x Hx; by rewrite H3, H1|].
  intros x y Hxy. rewrite H4, H2 by done. unfold over. by destruct (p2 x y).
Qed.

(** Only the screen matters. *)
Lemma paints_ext p1 p2 m m' :
  (forall x y, on_screen f x y -> p1 x y = p2 x y) -> paints f p1 m m' -> paints f p2 m m'.
Proof. intros He [H1 H2]. split; [done|]. intros x y Hxy. by rewrite H2, He. Qed.

(** ** Rectangles *)

Definition box (x y w h : Z) (b : list Z) : Z -> Z -> option (list Z) :=
  fun x' y' => if (x <=? x') && (x' <? x + w) && (y <=? y') && (y' <? y + h) then Some b else None.

Lemma address_u32 x y :
  on_screen f x y ->
  y *u pitch f = y * pitch f /\ x *u (bpp f / 8) = x * pixel_size f.
Proof using Hf.
  intros [Hx Hy]. pose proof pixel_pitch as Hp. pose proof (fo_fits f Hf). pose proof (fo_base f Hf).
  pose proof (fo_width f Hf). unfold FONT_W in *. fold (pixel_size f).
  destruct pixel_size_cases as [[_ E]|[_ E]]; rewrite E in *; rewrite !u32_small by nia; done.
Qed.

Lemma screen_small : width f < 4294967296 /\ height f < 4294967296.
Proof using Hf.
  pose proof pixel_pitch as Hp. pose proof (fo_fits f Hf). pose proof (fo_base f Hf).
  pose proof (fo_width f Hf). pose proof (fo_height f Hf). unfold FONT_W, CELL_H in *.
  destruct pixel_size_cases as [[_ E]|[_ E]]; rewrite E in *; nia.
Qed.

Lemma fill_cols_paints n col x y p m :
  0 <= x -> 0 <= col -> x + col + Z.of_nat n <= width f -> 0 <= y < height f ->
  paints f (box (x + col) y (Z.of_nat n) 1 (packed_bytes f p)) m
    (fill_cols n col f x (base f + y * pitch f + x * pixel_size f) p m).
Proof using Hf.
  destruct screen_small as [Hw Hh].
  revert col m. induction n as [|n IH]; intros col m Hx Hcol Hn Hy; cbn [fill_cols].
  { eapply paints_ext; [|apply paints_refl]. intros x' y' _. unfold box, no_paint.
    destruct (x + col <=? x') eqn:E1, (x' <? x + col + Z.of_nat 0) eqn:E2; zify_bool; cbn [andb];
      try done; lia. }
  rewrite (u32_small (x + col)) by lia. rewrite (proj2 (Z.leb_gt _ _)) by lia.
  rewrite (u32_small (col + 1)) by lia.
  destruct (address_u32 col y) as [_ ->]; [split; lia|].
  replace (base f + y * pitch f + x * pixel_size f + col * pixel_size f)
    with (pixel_address f (x + col) y) by (unfold pixel_address; lia).
  pose proof (store_pixel_paints (x + col) y p m) as H1.
  eapply paints_ext; [|eapply paints_over; [apply H1; split; lia|apply IH; lia]].
  intros x' y' _. unfold over, box, dot.
  destruct (x + (col + 1) <=? x') eqn:E1, (x' <? x + (col + 1) + Z.of_nat n) eqn:E2,
    (y <=? y') eqn:E3, (y' <? y + 1) eqn:E4, (x' =? x + col) eqn:E5, (y' =? y) eqn:E6,
    (x + col <=? x') eqn:E7, (x' <? x + col + Z.of_nat (S n)) eqn:E8;
    zify_bool; cbn [andb]; try done; lia.
Qed.

Lemma fill_rows_paints n row x y w p m :
  0 <= x -> 0 <= y -> 0 <= row -> 1 <= w -> x + w <= width f -> y + row + Z.of_nat n <= height f ->
  paints f (box x (y + row) w (Z.of_nat n) (packed_bytes f p)) m (fill_rows n row f x y w p m).
Proof using Hf.
  destruct screen_small as [Hw Hh].
  revert row m. induction n as [|n IH]; intros row m Hx Hy Hrow Hw1 Hw2 Hn; cbn [fill_rows].
  { eapply paints_ext; [|apply paints_refl]. intros x' y' _. unfold box, no_paint.
    destruct (y + row <=? y') eqn:E1, (y' <? y + row + Z.of_nat 0) eqn:E2; zify_bool;
      rewrite ?andb_false_r; cbn [andb]; try done; lia. }
  rewrite (u32_small (y + row)) by lia. rewrite (proj2 (Z.leb_gt _ _)) by lia.
  destruct (address_u32 x (y + row)) as [-> ->]; [split; lia|].
  pose proof (fill_cols_paints (Z.to_nat w) 0 x (y + row) p m) as H1.
  destruct (decide (n = 0%nat)) as [->|Hn0].
  - cbn [fill_rows]. eapply paints_ext; [|apply H1; lia]. intros x' y' _. unfold box.
    rewrite Z.add_0_r, Z2Nat.id by lia. done.
  - rewrite (u32_small (row + 1)) by lia.
    eapply paints_ext; [|eapply paints_over; [apply H1; lia|apply IH; lia]].
    intros x' y' _. unfold over, box. rewrite Z.add_0_r, Z2Nat.id by lia.
    destruct (x <=? x') eqn:E1, (x' <? x + w) eqn:E2, (y + (row + 1) <=? y') eqn:E3,
      (y' <? y + (row + 1) + Z.of_nat n) eqn:E4, (y + row <=? y') eqn:E5,
      (y' <? y + row + 1) eqn:E6, (y' <? y + row + Z.of_nat (S n)) eqn:E7;
      zify_bool; cbn [andb]; try done; lia.
Qed.

(** A rectangle inside the screen is filled, and nothing else. *)
Lemma fb_fill_rect_paints x y w h color m :
  0 <= x -> 0 <= y -> 1 <= w -> 0 <= h -> x + w <= width f -> y + h <= height f ->
  paints f (box x y w h (color_bytes f color)) m (fb_fill_rect f x y w h color m).
Proof using Hf.
  intros Hx Hy Hw Hh Hw2 Hh2. unfold fb_fill_rect, color_bytes.
  pose proof (fill_rows_paints (Z.to_nat h) 0 x y w (fb_pack_color f color) m) as H.
  rewrite Z.add_0_r, Z2Nat.id in H by lia. apply H; lia.
Qed.

(** ** Cells *)

Lemma put_pixel_paints x y color m :
  on_screen f x y -> paints f (dot x y (color_bytes f color)) m (put_pixel f x y color m).
Proof using Hf.
  intros Hxy. pose proof Hxy as [Hx Hy]. unfold put_pixel.
  rewrite (proj2 (Z.leb_gt _ _)) by lia. rewrite (proj2 (Z.leb_gt _ _)) by lia. cbn [orb].
  destruct (address_u32 x y Hxy) as [-> ->]. by apply store_pixel_paints.
Qed.

(** Pixel [j] of a row of a glyph. *)
Definition glyph_bit (bits j : Z) : bool := negb (Z.land bits (Z.shiftl 1 (4 - j)) =? 0).

Definition row_picture (x y bits i j n : Z) (b : list Z) : Z -> Z -> option (list Z) :=
  fun x' y' => if (y' =? y + 4 + i) && (x + 1 + j <=? x') && (x' <? x + 1 + j + n) &&
                  glyph_bit bits (x' - x - 1) then Some b else None.

Lemma draw_bits_paints n j x y i bits fg m :
  0 <= x -> x + FONT_W <= width f -> 0 <= y -> y + CELL_H <= height f ->
  0 <= i < 7 -> 0 <= j -> j + Z.of_nat n <= 5 ->
  paints f (row_picture x y bits i j (Z.of_nat n) (color_bytes f fg)) m
    (draw_bits n j f x y i bits fg m).
Proof using Hf.
  unfold FONT_W, CELL_H. destruct screen_small as [Hw Hh]. intros Hx Hx2 Hy Hy2 Hi. revert j m.
  induction n as [|n IH]; intros j m Hj Hn; cbn [draw_bits].
  { eapply paints_ext; [|apply paints_refl]. intros x' y' _. unfold row_picture, no_paint.
    destruct (x + 1 + j <=? x') eqn:E1, (x' <? x + 1 + j + Z.of_nat 0) eqn:E2; zify_bool;
      rewrite ?andb_false_r; cbn [andb]; try done; lia. }
  fold (glyph_bit bits j).
  assert (((x +u 1) +u j) = x + 1 + j /\ ((y +u 4) +u i) = y + 4 + i) as [-> ->].
  { rewrite (u32_small (x + 1)), (u32_small (y + 4)) by lia. by rewrite !u32_small by lia. }
  set (m1 := if glyph_bit bits j then _ else m).
  assert (paints f (if glyph_bit bits j then dot (x + 1 + j) (y + 4 + i) (color_bytes f fg)
                    else no_paint) m m1) as H1.
  { unfold m1. destruct (glyph_bit bits j); [|apply paints_refl]. apply put_pixel_paints. split; lia. }
  eapply paints_ext; [|eapply paints_over; [apply H1|apply IH; lia]].
  intros x' y' _. unfold over, row_picture.
  assert ((if glyph_bit bits j then dot (x + 1 + j) (y + 4 + i) (color_bytes f fg) else no_paint) x' y' =
          if (x' =? x + 1 + j) && (y' =? y + 4 + i) && glyph_bit bits (x' - x - 1)
          then Some (color_bytes f fg) else None) as ->.
  { unfold dot, no_paint. destruct (x' =? x + 1 + j) eqn:E; zify_bool.
    - subst. replace (x + 1 + j - x - 1) with j by lia.
      destruct (glyph_bit bits j); rewrite ?Z.eqb_refl, ?andb_true_r, ?andb_false_r; done.
    - destruct (glyph_bit bits j); [|done]. by rewrite (proj2 (Z.eqb_neq _ _)). }
  destruct (glyph_bit bits (x' - x - 1)); rewrite ?andb_false_r; cbn [andb]; [|done].
  rewrite !andb_true_r.
  destruct (y' =? y + 4 + i) eqn:E1, (x + 1 + (j + 1) <=? x') eqn:E2,
    (x' <? x + 1 + (j + 1) + Z.of_nat n) eqn:E3, (x + 1 + j <=? x') eqn:E4,
    (x' <? x + 1 + j + Z.of_nat (S n)) eqn:E5, (x' =? x + 1 + j) eqn:E6;
    zify_bool; cbn [andb]; try done; lia.
Qed.

Definition glyph_row (glyph : list Z) (i : Z) : Z := nth (Z.to_nat i) glyph 0.

Definition rows_picture (x y i n : Z) (glyph : list Z) (b : list Z) : Z -> Z -> option (list Z) :=
  fun x' y' => if (y + 4 + i <=? y') && (y' <? y + 4 + i + n) && (x + 1 <=? x') && (x' <? x + 6) &&
                  glyph_bit (glyph_row glyph (y' - y - 4)) (x' - x - 1) then Some b else None.

Lemma draw_glyph_paints n i glyph x y fg m :
  0 <= x -> x + FONT_W <= width f -> 0 <= y -> y + CELL_H <= height f ->
  0 <= i -> i + Z.of_nat n <= 7 ->
  paints f (rows_picture x y i (Z.of_nat n) glyph (color_bytes f fg)) m
    (draw_glyph n i f glyph x y fg m).
Proof using Hf.
  intros Hx Hx2 Hy Hy2. revert i m.
  induction n as [|n IH]; intros i m Hi Hn; cbn [draw_glyph].
  { eapply paints_ext; [|apply paints_refl]. intros x' y' _. unfold rows_picture, no_paint.
    destruct (y + 4 + i <=? y') eqn:E1, (y' <? y + 4 + i + Z.of_nat 0) eqn:E2; zify_bool;
      cbn [andb]; try done; lia. }
  fold (glyph_row glyph i).
  eapply paints_ext; [|eapply paints_over;
    [apply (draw_bits_paints 5 0 x y i (glyph_row glyph i) fg); try done; lia|apply IH; lia]].
  intros x' y' _. unfold over, rows_picture, row_picture.
  destruct (y' =? y + 4 + i) eqn:E; zify_bool; cbn [andb].
  - subst. replace (y + 4 + i - y - 4) with i by lia.
    rewrite (proj2 (Z.leb_gt (y + 4 + (i + 1)) _)) by lia. cbn [andb].
    rewrite (proj2 (Z.leb_le (y + 4 + i) _)), (proj2 (Z.ltb_lt _ (y + 4 + i + _))) by lia. cbn [andb].
    replace (x + 1 + 0) with (x + 1) by lia. by replace (x + 1 + Z.of_nat 5) with (x + 6) by lia.
  - destruct (y + 4 + (i + 1) <=? y') eqn:E1, (y' <? y + 4 + (i + 1) + Z.of_nat n) eqn:E2,
      (y + 4 + i <=? y') eqn:E3, (y' <? y + 4 + i + Z.of_nat (S n)) eqn:E4;
      zify_bool; cbn [andb]; try done; try lia. by destruct (_ && _).
Qed.

(** The colour of a pixel of a cell: the cursor is a bar of two rows at the
    bottom, in the foreground colour. *)
Definition cell_color (x : cell) (cursor : bool) (dx dy : Z) : Z :=
  let '(ch, fg, bg) := x in
  if cursor && (14 <=? dy) then fg
  else if (4 <=? dy) && (dy <? 11) && (1 <=? dx) && (dx <? 6) &&
          glyph_bit (glyph_row (glyph_for_char ch) (dy - 4)) (dx - 1) then fg
  else bg.

(** The cell in row [r] and column [c] of the frame buffer shows [x]. *)
Definition cell_shown (m : mem) (r c : Z) (x : cell) (cursor : bool) : Prop :=
  forall dx dy, 0 <= dx < FONT_W -> 0 <= dy < CELL_H ->
    pixel f m (c * FONT_W + dx) (r * CELL_H + dy) = color_bytes f (cell_color x cursor dx dy).

Definition grid_fits (t : term) : Prop :=
  text_cols t * FONT_W <= width f /\ text_rows t * CELL_H <= height f.

(** Drawing a cell shows it and leaves every other cell alone. *)
Lemma fb_draw_cell_shown t r c cursor m :
  grid_fits t -> in_grid t r c ->
  let m' := fb_draw_cell f t r c cursor m in
  fb_only f m m' /\ cell_shown m' r c (cell_of t r c) cursor /\
  forall r' c' x b, in_grid t r' c' -> (r', c') <> (r, c) ->
    cell_shown m r' c' x b -> cell_shown m' r' c' x b.
Proof using Hf.
  intros [Hg1 Hg2] [Hr Hc]. destruct screen_small as [Hw Hh]. unfold fb_draw_cell.
  unfold FONT_W, CELL_H in *.
  rewrite (u32_small (c * 8)), (u32_small (r * 16)) by lia.
  rewrite (u32_small (r * 16 + 16)) by lia. rewrite (u32_small (r * 16 + 16 - 2)) by lia.
  unfold cell_of, cell_at. set (idx := text_index t r c). set (fg := fg_at t idx).
  set (bg := bg_at t idx). set (ch := char_at t idx).
  set (m1 := fb_fill_rect _ _ _ _ _ bg m).
  assert (paints f (box (c * 8) (r * 16) 8 16 (color_bytes f bg)) m m1) as H1
    by (apply fb_fill_rect_paints; lia).
  set (m2 := draw_glyph _ _ _ _ _ _ _ m1).
  assert (paints f (rows_picture (c * 8) (r * 16) 0 7 (glyph_for_char ch) (color_bytes f fg)) m1 m2) as H2
    by (apply draw_glyph_paints; unfold FONT_W, CELL_H; lia).
  set (m3 := if cursor then _ else m2).
  assert (paints f (if cursor then box (c * 8) (r * 16 + 16 - 2) 8 2 (color_bytes f fg) else no_paint)
            m2 m3) as H3.
  { unfold m3. destruct cursor; [apply fb_fill_rect_paints; lia|apply paints_refl]. }
  destruct (paints_over _ _ _ _ _ (paints_over _ _ _ _ _ H1 H2) H3) as [Ho Hp].
  clearbody m3. clear H1 H2 H3 m1 m2. split; [done|]. split.
  - intros dx dy Hdx Hdy. unfold FONT_W, CELL_H in *. rewrite Hp by (split; nia).
    unfold over, rows_picture, box, cell_color.
    replace (c * 8 + dx - c * 8 - 1) with (dx - 1) by lia.
    replace (r * 16 + dy - r * 16 - 4) with (dy - 4) by lia.
    set (gb := glyph_bit _ _).
    rewrite !(Z.add_comm (c * 8)), !(Z.add_comm (r * 16)) in *.
    assert ((if cursor then fun x' y' : Z => if (c * 8 <=? x') && (x' <? 8 + c * 8) &&
                (16 + r * 16 - 2 <=? y') && (y' <? 16 + r * 16 - 2 + 2) then Some (color_bytes f fg) else None
             else no_paint) (dx + c * 8) (dy + r * 16) =
            if cursor && (14 <=? dy) then Some (color_bytes f fg) else None) as ->.
    { destruct cursor; [|done]. cbn [andb].
      destruct (c * 8 <=? dx + c * 8) eqn:E1, (dx + c * 8 <? 8 + c * 8) eqn:E2,
        (16 + r * 16 - 2 <=? dy + r * 16) eqn:E3, (dy + r * 16 <? 16 + r * 16 - 2 + 2) eqn:E4,
        (14 <=? dy) eqn:E5; zify_bool; cbn [andb]; try done; lia. }
    destruct (cursor && (14 <=? dy)); [done|].
    rewrite (proj2 (Z.leb_le (c * 8) _)), (proj2 (Z.ltb_lt _ (8 + c * 8))),
      (proj2 (Z.leb_le (r * 16) _)), (proj2 (Z.ltb_lt _ (16 + r * 16))) by lia. cbn [andb].
    destruct (4 + r * 16 + 0 <=? dy + r * 16) eqn:E1, (dy + r * 16 <? 4 + r * 16 + 0 + 7) eqn:E2,
      (1 + c * 8 <=? dx + c * 8) eqn:E3, (dx + c * 8 <? 6 + c * 8) eqn:E4,
      (4 <=? dy) eqn:E5, (dy <? 11) eqn:E6, (1 <=? dx) eqn:E7, (dx <? 6) eqn:E8;
      zify_bool; cbn [andb]; try done; try lia. by destruct gb.
  - intros r' c' x b [Hr' Hc'] Hne Hold dx dy Hdx Hdy. unfold FONT_W, CELL_H in *.
    rewrite Hp by (split; nia). rewrite <- Hold by done.
    assert (r' <> r \/ c' <> c) as Hd.
    { destruct (Z.eq_dec r' r) as [->|]; [|by left]. right. congruence. }
    unfold over, rows_picture, box, no_paint.
    assert ((c * 8 <=? c' * 8 + dx) && (c' * 8 + dx <? c * 8 + 8) && (r * 16 <=? r' * 16 + dy) &&
            (r' * 16 + dy <? r * 16 + 16) = false) as Hout.
    { apply not_true_iff_false. rewrite !andb_true_iff, !Z.leb_le, !Z.ltb_lt. lia. }
    rewrite Hout.
    assert ((r * 16 + 4 + 0 <=? r' * 16 + dy) && (r' * 16 + dy <? r * 16 + 4 + 0 + 7) &&
            (c * 8 + 1 <=? c' * 8 + dx) && (c' * 8 + dx <? c * 8 + 6) = false) as ->.
    { apply not_true_iff_false. rewrite !andb_true_iff, !Z.leb_le, !Z.ltb_lt. lia. }
    assert ((c * 8 <=? c' * 8 + dx) && (c' * 8 + dx <? c * 8 + 8) && (r * 16 + 16 - 2 <=? r' * 16 + dy) &&
            (r' * 16 + dy <? r * 16 + 16 - 2 + 2) = false) as Hcur.
    { apply not_true_iff_false. rewrite !andb_true_iff, !Z.leb_le, !Z.ltb_lt. lia. }
    cbn [andb]. destruct cursor; [by rewrite Hcur|done].
Qed.

End drawing.

(** ** The whole screen *)

Definition at_cursor (t : term) (r c : Z) : bool := (r =? cursor_row t) && (c =? cursor_col t).

(** Every cell is shown: with the cursor where it is, or without a cursor, or
    so for all cells but the cursor's. *)
Definition cells_shown (f : framebuffer_info) (m : mem) (t : term) : Prop :=
  forall r c, in_grid t r c -> cell_shown f m r c (cell_of t r c) (at_cursor t r c).
Definition no_cursor (f : framebuffer_info) (m : mem) (t : term) : Prop :=
  forall r c, in_grid t r c -> cell_shown f m r c (cell_of t r c) false.
Definition but_cursor (f : framebuffer_info) (m : mem) (t : term) : Prop :=
  forall r c, in_grid t r c -> at_cursor t r c = false -> cell_shown f m r c (cell_of t r c) false.

Lemma shown_but_cursor f m t : cells_shown f m t -> but_cursor f m t.
Proof. intros H r c Hin E. specialize (H r c Hin). by rewrite E in H. Qed.

Lemma no_cursor_but f m t : no_cursor f m t -> but_cursor f m t.
Proof. intros H r c Hin _. by apply H. Qed.

Lemma fb_only_refl f m : fb_only f m m.
Proof. by intros x Hx. Qed.
Lemma fb_only_trans f m1 m2 m3 : fb_only f m1 m2 -> fb_only f m2 m3 -> fb_only f m1 m3.
Proof. intros H1 H2 x Hx. by rewrite H2, H1. Qed.
#[export] Hint Resolve fb_only_refl : slop.

Lemma redraw_cols_shown f t row n col m :
  fb_ok f -> grid_fits f t -> 0 <= row < text_rows t -> 0 <= col -> col + Z.of_nat n <= text_cols t ->
  let m' := redraw_cols n col f t row m in
  fb_only f m m' /\
  forall r c, in_grid t r c ->
    (r = row /\ col <= c < col + Z.of_nat n) \/ cell_shown f m r c (cell_of t r c) (at_cursor t r c) ->
    cell_shown f m' r c (cell_of t r c) (at_cursor t r c).
Proof.
  intros Hf Hg Hrow. revert col m. induction n as [|n IH]; intros col m Hcol Hn; cbn [redraw_cols].
  { split; [apply fb_only_refl|]. intros r c Hin [?|?]; [lia|done]. }
  set (m1 := fb_draw_cell _ _ _ _ _ m).
  destruct (fb_draw_cell_shown f Hf t row col (at_cursor t row col) m Hg) as (Ho & Hd & Hk); [split; lia|].
  destruct (IH (col + 1) m1) as [Ho2 Hs]; [lia|lia|].
  split; [by eapply fb_only_trans|]. intros r c Hin Hc. apply Hs; [done|].
  destruct (decide ((r, c) = (row, col))) as [[= -> ->]|Hne]; [by right|].
  destruct Hc as [[-> Hc]|Hc]; [left; split; [done|]|right; by apply Hk].
  assert (c <> col) by congruence. lia.
Qed.

Lemma redraw_rows_shown f t n row m :
  fb_ok f -> grid_fits f t -> grid_ok t -> 0 <= row -> row + Z.of_nat n <= text_rows t ->
  let m' := redraw_rows n row f t m in
  fb_only f m m' /\
  forall r c, in_grid t r c ->
    row <= r < row + Z.of_nat n \/ cell_shown f m r c (cell_of t r c) (at_cursor t r c) ->
    cell_shown f m' r c (cell_of t r c) (at_cursor t r c).
Proof.
  intros Hf Hg Hok. revert row m. induction n as [|n IH]; intros row m Hrow Hn; cbn [redraw_rows].
  { split; [apply fb_only_refl|]. intros r c Hin [?|?]; [lia|done]. }
  destruct Hok as (Hsz & Hr & Hcl).
  destruct (redraw_cols_shown f t row (Z.to_nat (text_cols t)) 0 m) as [Ho1 Hs1]; try done; try lia.
  set (m1 := redraw_cols _ _ _ _ _ m) in *.
  destruct (IH (row + 1) m1) as [Ho2 Hs2]; [lia|lia|].
  split; [by eapply fb_only_trans|]. intros r c Hin Hc. apply Hs2; [done|].
  destruct (decide (r = row)) as [->|Hne].
  - right. apply Hs1; [done|]. left. destruct Hin. lia.
  - destruct Hc as [Hc|Hc]; [left; lia|]. right. apply Hs1; [done|by right].
Qed.

(** Whatever was in the frame buffer, redrawing shows the text. *)
Lemma fb_redraw_all_shown f t m :
  fb_ok f -> grid_fits f t -> grid_ok t ->
  fb_only f m (fb_redraw_all f t m) /\ cells_shown f (fb_redraw_all f t m) t.
Proof.
  intros Hf Hg Hok. pose proof Hok as (_ & Hr & _).
  destruct (redraw_rows_shown f t (Z.to_nat (text_rows t)) 0 m) as [Ho Hs]; try done; try lia.
  split; [done|]. intros r c Hin. apply Hs; [done|]. left. destruct Hin. lia.
Qed.

(** The console in graphics mode, with the frame buffer in step. *)
Definition fb_console {D} (st : console D) : Prop :=
  backend st = DISPLAY_FRAMEBUFFER /\ fb_ok (fb st) /\ grid_fits (fb st) (tm st) /\
  term_ok (tm st) /\ cells_shown (fb st) (vmem st) (tm st).

Section console_fb.
Context {D : Type} `{!Ports D}.
Implicit Types st : console D.

(** [st'] differs from [st] in the memory of the frame buffer only. *)
Definition redrawn (st st' : console D) : Prop :=
  tm st' = tm st /\ backend st' = backend st /\ fb st' = fb st /\ fb_only (fb st) (vmem st) (vmem st').

Lemma fb_backend st : backend st = DISPLAY_FRAMEBUFFER -> framebuffer st = true.
Proof. unfold framebuffer. by intros ->. Qed.

Lemma draw_cursor_shown b st :
  fb_ok (fb st) -> grid_fits (fb st) (tm st) -> term_ok (tm st) ->
  but_cursor (fb st) (vmem st) (tm st) ->
  redrawn st (draw_at_cursor b st) /\
  (if b then cells_shown (fb st) (vmem (draw_at_cursor b st)) (tm st)
   else no_cursor (fb st) (vmem (draw_at_cursor b st)) (tm st)).
Proof.
  intros Hf Hg [Hok [Hr Hc]] Hb. unfold draw_at_cursor.
  rewrite (proj2 (Z.ltb_lt _ _)), (proj2 (Z.ltb_lt _ _)) by lia. cbn [andb].
  destruct (fb_draw_cell_shown (fb st) Hf (tm st) (cursor_row (tm st)) (cursor_col (tm st)) b (vmem st))
    as (Ho & Hd & Hk); [done|by split|].
  split; [by split_and!|].
  assert (forall r c, in_grid (tm st) r c -> cell_shown (fb st)
            (fb_draw_cell (fb st) (tm st) (cursor_row (tm st)) (cursor_col (tm st)) b (vmem st))
            r c (cell_of (tm st) r c) (at_cursor (tm st) r c && b)) as Hall.
  { intros r c Hin. destruct (at_cursor (tm st) r c) eqn:E; cbn [andb].
    - unfold at_cursor in E. zify_bool. by subst.
    - apply Hk; [done| |by apply Hb]. intros [= -> ->]. unfold at_cursor in E.
      by rewrite !Z.eqb_refl in E. }
  destruct b; intros r c Hin; specialize (Hall r c Hin); cbn [vmem with_vmem].
  - by rewrite andb_true_r in Hall.
  - by rewrite andb_false_r in Hall.
Qed.

Lemma grid_fits_look f t t' : same_look t t' -> grid_fits f t -> grid_fits f t'.
Proof. unfold grid_fits. by intros (-> & -> & _). Qed.

(** The next row, from a screen drawn without cursor. *)
Lemma next_row_fb st :
  backend st = DISPLAY_FRAMEBUFFER -> fb_ok (fb st) -> grid_fits (fb st) (tm st) ->
  grid_ok (tm st) -> 0 <= cursor_row (tm st) < text_rows (tm st) ->
  no_cursor (fb st) (vmem st) (tm st) ->
  fb (next_row st) = fb st /\ fb_only (fb st) (vmem st) (vmem (next_row st)) /\
  but_cursor (fb st) (vmem (next_row st)) (tm (next_row st)).
Proof.
  intros Hb Hf Hg Hok Hrow Hn. pose proof (next_row_look (tm st) Hok) as Hlook.
  rewrite tm_next_row. unfold next_row, term_scroll_if_needed. cbn [tm with_tm].
  unfold next_row_text in *. set (t1 := with_cursor _ 0 (tm st)) in *.
  destruct (cursor_row t1 <? text_rows t1).
  - split_and!; [done|by intros x|]. apply no_cursor_but. exact Hn.
  - change (framebuffer (with_tm _ (with_tm t1 st))) with (framebuffer st).
    rewrite (fb_backend st Hb). cbn [fb vmem with_vmem with_tm tm].
    assert (grid_ok t1) as Hg1 by done.
    destruct (fb_redraw_all_shown (fb st) (scroll_text t1) (vmem st)) as [Ho Hs]; [done| | |].
    + by apply (grid_fits_look _ (tm st)).
    + by apply (scroll_text_geometry t1 Hg1).
    + split_and!; [done|done|]. by apply shown_but_cursor.
Qed.

Lemma fb_console_next st :
  backend st = DISPLAY_FRAMEBUFFER -> fb_ok (fb st) -> grid_fits (fb st) (tm st) ->
  term_ok (tm st) -> but_cursor (fb st) (vmem st) (tm st) ->
  fb_console (draw_at_cursor true st) /\ fb (draw_at_cursor true st) = fb st /\
  fb_only (fb st) (vmem st) (vmem (draw_at_cursor true st)).
Proof.
  intros Hb Hf Hg Ht Hbut. destruct (draw_cursor_shown true st Hf Hg Ht Hbut) as [(E1 & E2 & E3 & E4) Hs].
  split; [|done]. unfold fb_console. rewrite E1, E2, E3. by split_and!.
Qed.

Lemma fb_next_row_console st :
  backend st = DISPLAY_FRAMEBUFFER -> fb_ok (fb st) -> grid_fits (fb st) (tm st) ->
  grid_ok (tm st) -> 0 <= cursor_row (tm st) < text_rows (tm st) ->
  no_cursor (fb st) (vmem st) (tm st) ->
  let st' := next_row st in
  backend st' = DISPLAY_FRAMEBUFFER /\ fb st' = fb st /\ grid_fits (fb st) (tm st') /\
  term_ok (tm st') /\ but_cursor (fb st) (vmem st') (tm st') /\ fb_only (fb st) (vmem st) (vmem st').
Proof.
  intros Hb Hf Hg Hok Hrow Hn st'. destruct (next_row_fb st Hb Hf Hg Hok Hrow Hn) as (E1 & E2 & E3).
  split_and!; try done.
  - unfold st'. by rewrite backend_next_row.
  - unfold st'. rewrite tm_next_row. eapply grid_fits_look; [|done]. by apply next_row_look.
  - unfold st'. rewrite tm_next_row.
    by apply (next_row_shows (tm st) {| s_cell := cell_of (tm st); s_row := cursor_row (tm st);
                                        s_col := cursor_col (tm st) |}).
Qed.

(** The character is drawn in its cell, without cursor. *)
Lemma write_cell_fb st c :
  fb_console st ->
  let t := tm st in
  let t1 := set_cell (text_index t (cursor_row t) (cursor_col t)) c (current_fg t) (current_bg t) t in
  let m1 := fb_draw_cell (fb st) t1 (cursor_row t) (cursor_col t) false (vmem st) in
  no_cursor (fb st) m1 t1 /\ fb_only (fb st) (vmem st) m1 /\ cells_only t t1.
Proof.
  intros (Hb & Hf & Hg & [Hok [Hr Hc]] & Hs) t t1 m1.
  assert (cells_only t t1) as Ht1 by apply cells_only_set.
  destruct (fb_draw_cell_shown (fb st) Hf t1 (cursor_row t) (cursor_col t) false (vmem st))
    as (Ho & Hd & Hk); [exact Hg|by split|].
  split; [|done]. intros r k Hin.
  destruct (decide ((r, k) = (cursor_row t, cursor_col t))) as [[= -> ->]|Hne]; [done|].
  apply Hk; [done|done|]. unfold t1. rewrite (cell_of_set t) by (done || by split).
  assert (at_cursor (tm st) r k = false) as E.
  { apply not_true_iff_false. unfold at_cursor. rewrite andb_true_iff, !Z.eqb_eq.
    intros [-> ->]. done. }
  change ((r =? cursor_row t) && (k =? cursor_col t)) with (at_cursor (tm st) r k). rewrite E.
  specialize (Hs r k Hin). by rewrite E in Hs.
Qed.

(** The three characters that do not rub out, one lemma each. *)
Definition in_step (st st' : console D) : Prop :=
  fb_console st' /\ fb_only (fb st) (vmem st) (vmem st').

Lemma write_newline_in_step st : fb_console st -> in_step st (write_newline st).
Proof.
  intros Hst. pose proof Hst as (Hb & Hf & Hg & Ht & Hs). pose proof Ht as [Hok [Hr Hc]].
  pose proof (fb_backend st Hb) as Hfb.
  destruct (draw_cursor_shown false st Hf Hg Ht (shown_but_cursor _ _ _ Hs)) as [(E1 & E2 & E3 & E4) Hn].
  unfold in_step, write_newline. rewrite Hfb.
  set (s1 := draw_at_cursor false st) in *.
  assert (framebuffer s1 = true) as Hfb1 by (unfold s1; by rewrite framebuffer_draw).
  rewrite !fb_next_row, !Hfb1.
  destruct (fb_next_row_console s1) as (H1 & H2 & H3 & H4 & H5 & H6);
    [congruence|rewrite ?E1, ?E3; done..|].
  rewrite E3 in *.
  destruct (fb_console_next (next_row s1)) as (H7 & H8 & H9); [done|rewrite ?H2; done..|].
  split; [done|]. rewrite H2 in H9. eapply fb_only_trans; [exact E4|]. by eapply fb_only_trans.
Qed.

Lemma write_return_in_step st : fb_console st -> in_step st (write_return st).
Proof.
  intros Hst. pose proof Hst as (Hb & Hf & Hg & Ht & Hs). pose proof Ht as [Hok [Hr Hc]].
  pose proof (fb_backend st Hb) as Hfb.
  destruct (draw_cursor_shown false st Hf Hg Ht (shown_but_cursor _ _ _ Hs)) as [(E1 & E2 & E3 & E4) Hn].
  unfold in_step, write_return. rewrite Hfb.
  set (s1 := draw_at_cursor false st) in *.
  assert (framebuffer s1 = true) as Hfb1 by (unfold s1; by rewrite framebuffer_draw).
  change (framebuffer (with_tm ?t s1)) with (framebuffer s1). rewrite !Hfb1.
  set (s2 := with_tm _ s1).
  destruct (fb_console_next s2) as (H7 & H8 & H9).
  * exact (eq_trans E2 Hb).
  * change (fb_ok (fb s1)). by rewrite E3.
  * change (grid_fits (fb s1) (with_cursor (cursor_row (tm s1)) 0 (tm s1))). by rewrite E3, E1.
  * change (term_ok (with_cursor (cursor_row (tm s1)) 0 (tm s1))). rewrite E1.
    split; [done|]. cbn. destruct Hok as (_ & _ & ?). lia.
  * change (but_cursor (fb s1) (vmem s1) (with_cursor (cursor_row (tm s1)) 0 (tm s1))).
    rewrite E3, E1. apply no_cursor_but. exact Hn.
  * split; [done|]. eapply fb_only_trans; [exact E4|]. rewrite <- E3. exact H9.
Qed.

Lemma write_plain_in_step st c : fb_console st -> in_step st (write_plain c st).
Proof.
  intros Hst. pose proof Hst as (Hb & Hf & Hg & Ht & Hs). pose proof Ht as [Hok [Hr Hc]].
  pose proof (fb_backend st Hb) as Hfb.
  unfold in_step, write_plain.
  change (framebuffer (with_tm ?t st)) with (framebuffer st). rewrite Hfb.
  destruct (write_cell_fb st c Hst) as (Hn1 & Ho1 & Ht1).
  set (t1 := set_cell _ _ _ _ _) in *.
  set (m1 := fb_draw_cell _ _ _ _ _ _) in *.
  change (cursor_row t1) with (cursor_row (tm st)). change (cursor_col t1) with (cursor_col (tm st)).
  change (fb (with_tm t1 st)) with (fb st). change (vmem (with_tm t1 st)) with (vmem st).
  fold m1. cbn [tm with_tm with_vmem].
  set (t2 := with_cursor _ _ t1). set (s2 := with_tm t2 _).
  set (s3 := if _ <=? _ then next_row s2 else s2).
  destruct Hok as (Hsz & Hgr & Hgc). unfold MAX_CONSOLE_COLS in Hgc.
  assert (cursor_col t2 = cursor_col (tm st) + 1) as Ecol.
  { unfold t2. cbn. unfold u16. apply Z.mod_small. lia. }
  assert (grid_ok t1) as Hgt1 by (apply Ht1; split; [done|by split]).
  assert (backend s3 = DISPLAY_FRAMEBUFFER /\ fb s3 = fb st /\ grid_fits (fb st) (tm s3) /\
          term_ok (tm s3) /\ but_cursor (fb st) (vmem s3) (tm s3) /\
          fb_only (fb st) (vmem st) (vmem s3)) as (H1 & H2 & H3 & H4 & H5 & H6).
  { unfold s3. change (text_cols t2) with (text_cols (tm st)). rewrite Ecol.
    destruct (text_cols (tm st) <=? cursor_col (tm st) + 1) eqn:E; zify_bool.
    - destruct (fb_next_row_console s2) as (H1 & H2 & H3 & H4 & H5 & H6); try done.
      split_and!; try done. by eapply fb_only_trans.
    - split_and!; try done.
      + change (tm s2) with t2. split; [done|]. rewrite Ecol.
        change (text_cols t2) with (text_cols (tm st)). cbn. lia.
      + apply no_cursor_but. exact Hn1. }
  assert (framebuffer s3 = true) as -> by by apply fb_backend.
  unfold fb_set_cursor.
  destruct (draw_cursor_shown false s3) as [(F1 & F2 & F3 & F4) Fn]; [by rewrite H2|by rewrite H2|done|by rewrite H2|].
  set (s4 := draw_at_cursor false s3) in *.
  set (s5 := with_tm _ s4).
  assert (tm s5 = tm s3) as E5 by (unfold s5; cbn; rewrite F1; by destruct (tm s3)).
  destruct (fb_console_next s5) as (H7 & H8 & H9).
  * exact (eq_trans F2 H1).
  * change (fb_ok (fb s4)). by rewrite F3, H2.
  * rewrite E5. change (fb s5) with (fb s4). by rewrite F3, H2.
  * by rewrite E5.
  * rewrite E5. change (fb s5) with (fb s4). change (vmem s5) with (vmem s4). rewrite F3, H2.
    rewrite H2 in Fn. by apply no_cursor_but.
  * split; [done|]. eapply fb_only_trans; [exact H6|]. rewrite <- H2.
    eapply fb_only_trans; [exact F4|]. rewrite <- F3. exact H9.
Qed.


(** A backspace draws the cell before, with the cursor, and leaves the old
    cursor on the screen: two cells show one. *)
Lemma backspace_ghost st :
  fb_console st -> 0 < cursor_col (tm st) ->
  let st' := write_local_char 8 st in
  cursor_row (tm st') = cursor_row (tm st) /\ cursor_col (tm st') = cursor_col (tm st) - 1 /\
  cell_shown (fb st) (vmem st') (cursor_row (tm st)) (cursor_col (tm st) - 1)
    (blank_of (tm st)) true /\
  cell_shown (fb st) (vmem st') (cursor_row (tm st)) (cursor_col (tm st))
    (cell_of (tm st') (cursor_row (tm st)) (cursor_col (tm st))) true.
Proof.
  intros (Hb & Hf & Hg & [Hok [Hr Hc]] & Hs) Hpos st'. unfold st', write_local_char, write_backspace.
  change (8 =? 10) with false. change (8 =? 13) with false. change (8 =? 8) with true. cbn iota.
  rewrite (proj2 (Z.ltb_lt _ _)) by done.
  change (framebuffer (with_tm ?t st)) with (framebuffer st). rewrite (fb_backend st Hb).
  set (t0 := with_cursor _ _ (tm st)).
  destruct Hok as (Hsz & Hgr & Hgc). unfold MAX_CONSOLE_COLS in Hgc.
  assert (cursor_col t0 = cursor_col (tm st) - 1) as Ecol.
  { unfold t0. cbn. unfold u16. apply Z.mod_small. lia. }
  rewrite Ecol. change (cursor_row t0) with (cursor_row (tm st)). unfold blank_cell.
  set (r := cursor_row (tm st)) in *. set (c := cursor_col (tm st)) in *.
  set (t1 := set_cell _ _ _ _ t0).
  change (cursor_row t1) with r. change (cursor_col t1) with (cursor_col t0). rewrite Ecol.
  cbn [tm vmem with_vmem with_tm fb].
  destruct (fb_draw_cell_shown (fb st) Hf t1 r (c - 1) true (vmem st)) as (Ho & Hd & Hk);
    [done|split; cbn; lia|].
  assert (forall r' c', in_grid (tm st) r' c' -> cell_of t1 r' c' =
            if (r' =? r) && (c' =? c - 1) then blank_of (tm st) else cell_of (tm st) r' c') as Hset.
  { intros r' c' H'. apply (cell_of_set t0 r (c - 1)); [by split; [|split]|split; cbn; lia|exact H']. }
  split_and!; [done|done| |].
  - assert (cell_of t1 r (c - 1) = blank_of (tm st)) as E.
    { rewrite Hset by (split; lia). by rewrite !Z.eqb_refl. }
    by rewrite <- E.
  - apply Hk; [split; cbn; lia|intros [=]; lia|].
    rewrite Hset by (split; lia). rewrite (proj2 (Z.eqb_neq c (c - 1))), andb_false_r by lia.
    specialize (Hs r c). unfold at_cursor in Hs. fold r c in Hs.
    rewrite !Z.eqb_refl in Hs. apply Hs. split; lia.
Qed.

(** Clearing the screen starts it, whatever the memory held. *)
Lemma term_clear_fb st :
  backend st = DISPLAY_FRAMEBUFFER -> fb_ok (fb st) -> grid_fits (fb st) (tm st) -> grid_ok (tm st) ->
  fb_console (term_clear st) /\ fb (term_clear st) = fb st /\
  fb_only (fb st) (vmem st) (vmem (term_clear st)).
Proof.
  intros Hb Hf Hg Hok. destruct (term_clear_shows st Hok) as (Hok' & _ & Hlook).
  destruct (tm_term_clear st) as [Et Eb].
  assert (fb (term_clear st) = fb st /\ vmem (term_clear st) =
    fb_redraw_all (fb st) (tm (term_clear st))
      (fb_fill_rect (fb st) 0 0 (width (fb st)) (height (fb st))
         (current_bg (clear_cells (Z.to_nat (text_cols (tm st) *u text_rows (tm st))) 0 (tm st)))
         (vmem st))) as [Ef Em].
  { rewrite Et. unfold term_clear. change (framebuffer (with_tm ?t st)) with (framebuffer st).
    rewrite (fb_backend st Hb).
    change (framebuffer (with_tm ?t (with_vmem ?m (with_tm ?u st)))) with (framebuffer st).
    by rewrite (fb_backend st Hb). }
  pose proof (fo_width _ Hf) as Hw. pose proof (fo_height _ Hf) as Hh. unfold FONT_W, CELL_H in *.
  destruct (fb_fill_rect_paints (fb st) Hf 0 0 (width (fb st)) (height (fb st))
    (current_bg (clear_cells (Z.to_nat (text_cols (tm st) *u text_rows (tm st))) 0 (tm st)))
    (vmem st)) as [Ho1 _]; try lia.
  destruct (fb_redraw_all_shown (fb st) (tm (term_clear st))
    (fb_fill_rect (fb st) 0 0 (width (fb st)) (height (fb st))
         (current_bg (clear_cells (Z.to_nat (text_cols (tm st) *u text_rows (tm st))) 0 (tm st)))
         (vmem st))) as [Ho2 Hs]; [done|by eapply grid_fits_look|by apply Hok'|].
  split; [|split; [done|]].
  - unfold fb_console. rewrite Ef, Em, Eb. split_and!; try done. by eapply grid_fits_look.
  - rewrite Em. by eapply fb_only_trans.
Qed.

(** What [term_init_with_multiboot] sets up fits the frame buffer. *)
Lemma init_grid mbi magic st :
  let st' := term_init_with_multiboot mbi magic st in
  sized (tm st) -> (forall m, mbi = Some m -> framebuffer_width m < 524288 /\ framebuffer_height m < 1048576) ->
  grid_ok (tm st') /\
  match backend st' with
  | DISPLAY_VGA_TEXT => vga_sized (tm st')
  | DISPLAY_FRAMEBUFFER => grid_fits (fb st') (tm st')
  end.
Proof.
  intros st' Hsz Hsmall. unfold st', term_init_with_multiboot.
  assert (grid_ok (tm (term_init st)) /\ vga_sized (tm (term_init st)) /\
          backend (term_init st) = DISPLAY_VGA_TEXT /\ sized (tm (term_init st))) as (Hg & Hv & Hb & Hsz1).
  { split; [split; [exact Hsz|by split]|]. by split_and!. }
  set (s1 := term_init st) in *. destruct mbi as [m|]; [|by rewrite Hb].
  destruct (_ || _); [by rewrite Hb|]. destruct (negb _); [by rewrite Hb|].
  destruct (_ && _); [by rewrite Hb|].
  set (s2 := with_fb (loader_fb m) s1).
  destruct (_ || _) eqn:E; [change (backend s2) with (backend s1); by rewrite Hb|]. zify_bool.
  change (width (fb s2)) with (framebuffer_width m) in *.
  change (height (fb s2)) with (framebuffer_height m) in *.
  destruct (Hsmall m eq_refl) as [Hsw Hsh]. unfold FONT_W, CELL_H, MAX_CONSOLE_COLS, MAX_CONSOLE_ROWS in *.
  assert (u16 (framebuffer_width m / 8) = framebuffer_width m / 8) as ->
    by (unfold u16; apply Z.mod_small; mlia).
  assert (u16 (framebuffer_height m / 16) = framebuffer_height m / 16) as ->
    by (unfold u16; apply Z.mod_small; mlia).
  set (cols := if 120 <? _ then 120 else _). set (rows := if 60 <? _ then 60 else _).
  assert (1 <= cols <= 120 /\ cols * 8 <= framebuffer_width m) as [Hc1 Hc2].
  { unfold cols. destruct (120 <? _) eqn:E1; zify_bool; mlia. }
  assert (1 <= rows <= 60 /\ rows * 16 <= framebuffer_height m) as [Hr1 Hr2].
  { unfold rows. destruct (60 <? _) eqn:E1; zify_bool; mlia. }
  split; [|by split]. split; [exact Hsz1|].
  change (1 <= rows <= 60 /\ 1 <= cols <= 120). lia.
Qed.

End console_fb.

(** ** A small frame buffer: one row of two cells *)

Definition small_fb : framebuffer_info := {|
  base := 0xE0000000; pitch := 64; width := 16; height := 16; bpp := 32; fb_type := 1;
  red_pos := 16; red_mask := 8; green_pos := 8; green_mask := 8; blue_pos := 0; blue_mask := 8 |}.

#[local] Existing Instance no_ports.

Definition small_console : console unit := {|
  tm := with_size 1 2 raw_term; backend := DISPLAY_FRAMEBUFFER; fb := small_fb; vmem := mem_empty;
  hw := tt; serial_ready := false |}.

Lemma small_fb_console : fb_console (term_clear small_console) /\ fb (term_clear small_console) = small_fb.
Proof.
  destruct (term_clear_fb small_console) as (H1 & H2 & _).
  - done.
  - split; try (vm_compute; discriminate). by right.
  - split; vm_compute; discriminate.
  - split; [exact raw_sized|]. split; vm_compute; by split.
  - by split.
Qed.

