(* ===== verification/UString.v ===== *)
(** * UString: [string.h] and [ctype.h] of the programs' C library

    [src/user/external/sloplib/compat_string.c] and [include/ctype.h].  The
    [mem..] functions work on the flat memory (Memory.v), where their ranges may
    overlap; the [str..] functions are functions of the bytes of their strings,
    with the conventions of Util.v.  A pointer into a string is the offset of
    the character, the null pointer is [None]. *)
From S2P Require Import Prelude KernelH Util Memory.
Local Open Scope Z_scope.
Local Open Scope slop_scope.

(** ** Memory *)

Definition memcpy (m : mem) (dst src : Z) (n : nat) : mem := copy_loop n m dst src.

(** [for (i = n; i > 0; --i) dst[i - 1] = src[i - 1];] *)
Fixpoint copy_down (n : nat) (m : mem) (dst src : Z) : mem :=
  match n with
  | O => m
  | S i => copy_down i (store m (dst + Z.of_nat i) (load m (src + Z.of_nat i))) dst src
  end.

Definition memmove (m : mem) (dst src : Z) (n : nat) : mem :=
  if dst =? src then m
  else if dst <? src then memcpy m dst src n
  else copy_down n m dst src.

Fixpoint memset (m : mem) (dst ch : Z) (n : nat) : mem :=
  match n with
  | O => m
  | S n' => memset (store m dst ch) (dst + 1) ch n'
  end.

Fixpoint memcmp (m : mem) (a b : Z) (n : nat) : Z :=
  match n with
  | O => 0
  | S n' => if negb (load m a =? load m b) then load m a - load m b
            else memcmp m (a + 1) (b + 1) n'
  end.

(** The address found. *)
Fixpoint memchr (m : mem) (s c : Z) (n : nat) : option Z :=
  match n with
  | O => None
  | S n' => if load m s =? u8 c then Some s else memchr m (s + 1) c n'
  end.

(** ** Strings *)

(** A null pointer has length 0. *)
Definition strlen (s : option (list Z)) : Z := match s with Some s => str_len s | None => 0 end.

Fixpoint strcmp (a b : list Z) : Z :=
  match a, b with
  | x :: a', y :: b' =>
      if negb (x =? 0) && negb (y =? 0) && (x =? y) then strcmp a' b' else u8 x - u8 y
  | _, _ => u8 (chr a) - u8 (chr b)
  end.

(** [n] characters to go. *)
Fixpoint strncmp (a b : list Z) (n : nat) : Z :=
  match n with
  | O => 0
  | S n' =>
      if negb (chr a =? 0) && negb (chr b =? 0) && (chr a =? chr b) then strncmp (tl a) (tl b) n'
      else u8 (chr a) - u8 (chr b)
  end.

Fixpoint strcpy (dst src : list Z) : list Z :=
  match src with
  | c :: src' => if c =? 0 then 0 :: tl dst else c :: strcpy (tl dst) src'
  | [] => 0 :: tl dst
  end.

(** [n] bytes to go; both loops. *)
Fixpoint strncpy (dst src : list Z) (n : nat) : list Z :=
  match n with
  | O => dst
  | S n' => if chr src =? 0 then 0 :: strncpy (tl dst) [] n'
            else chr src :: strncpy (tl dst) (tl src) n'
  end.

(** Past the characters of [dst], [src] is copied with its terminator. *)
Definition strcat (dst src : list Z) : list Z :=
  let i := Z.to_nat (str_len dst) in take i dst ++ strcpy (drop i dst) src.

Fixpoint strchr (s : list Z) (c : Z) : option nat :=
  match s with
  | x :: s' => if x =? 0 then if u8 c =? 0 then Some O else None
               else if x =? u8 c then Some O else S <$> strchr s' c
  | [] => if u8 c =? 0 then Some O else None
  end.

(** The scan of [strrchr] at offset [i], with the last match so far; the end
    of the string and the match. *)
Fixpoint strrchr_scan (s : list Z) (c : Z) (i : nat) (last : option nat) : nat * option nat :=
  match s with
  | x :: s' => if x =? 0 then (i, last)
               else strrchr_scan s' c (S i) (if x =? u8 c then Some i else last)
  | [] => (i, last)
  end.

Definition strrchr (s : list Z) (c : Z) : option nat :=
  let '(stop, last) := strrchr_scan s c 0 None in if u8 c =? 0 then Some stop else last.

Definition strerror (errnum : Z) : list Z :=
  match errnum with
  | 2 => lit "No such file or directory"
  | 5 => lit "I/O error"
  | 12 => lit "Out of memory"
  | 22 => lit "Invalid argument"
  | 34 => lit "Result out of range"
  | _ => lit "Error"
  end.

(** ** Characters *)

Definition isdigit (c : Z) : bool := (48 <=? c) && (c <=? 57).
Definition isspace (c : Z) : bool :=
  (c =? 32) || (c =? 9) || (c =? 10) || (c =? 13) || (c =? 12) || (c =? 11).
Definition isalpha (c : Z) : bool := ((97 <=? c) && (c <=? 122)) || ((65 <=? c) && (c <=? 90)).
Definition isalnum (c : Z) : bool := isalpha c || isdigit c.
Definition tolower (c : Z) : Z := if (65 <=? c) && (c <=? 90) then c - 65 + 97 else c.
Definition toupper (c : Z) : Z := if (97 <=? c) && (c <=? 122) then c - 97 + 65 else c.

(** ** Copies *)

(** What a copy of [n] bytes does to the byte at [x]. *)
Definition copied (m : mem) (dst src : Z) (n : nat) (x : Z) : Z :=
  if in_range dst (Z.of_nat n) x then u8 (m (src + (x - dst))) else m x.

Lemma copy_up_spec n m dst src :
  fits dst (Z.of_nat n) -> fits src (Z.of_nat n) -> dst < src ->
  forall x, copy_loop n m dst src x = copied m dst src n x.
Proof.
  revert m dst src. induction n as [|n IH]; intros m dst src [Hd1 Hd2] [Hs1 Hs2] Hlt x; cbn [copy_loop].
  { unfold copied, in_range. rewrite Z.add_0_r. destruct (dst <=? x) eqn:E1, (x <? dst) eqn:E2; zify_bool; done || lia. }
  rewrite IH by (try split; lia). unfold copied, in_range, store, load.
  rewrite !u32_small by lia.
  destruct (dst + 1 <=? x) eqn:E1, (x <? dst + 1 + Z.of_nat n) eqn:E2, (dst <=? x) eqn:E3,
    (x <? dst + Z.of_nat (S n)) eqn:E4; zify_bool; cbn [andb]; try lia.
  - rewrite (proj2 (Z.eqb_neq _ _)) by lia. f_equal. f_equal. lia.
  - by rewrite (proj2 (Z.eqb_neq _ _)) by lia.
  - assert (x = dst) as -> by lia. rewrite Z.eqb_refl. f_equal. f_equal. lia.
  - by rewrite (proj2 (Z.eqb_neq _ _)) by lia.
Qed.

Lemma copy_down_spec n m dst src :
  fits dst (Z.of_nat n) -> fits src (Z.of_nat n) -> src < dst ->
  forall x, copy_down n m dst src x = copied m dst src n x.
Proof.
  revert m. induction n as [|n IH]; intros m [Hd1 Hd2] [Hs1 Hs2] Hlt x; cbn [copy_down].
  { unfold copied, in_range. rewrite Z.add_0_r. destruct (dst <=? x) eqn:E1, (x <? dst) eqn:E2; zify_bool; done || lia. }
  rewrite IH by (try split; lia). unfold copied, in_range, store, load.
  rewrite !u32_small by lia.
  destruct (dst <=? x) eqn:E1, (x <? dst + Z.of_nat n) eqn:E2, (x <? dst + Z.of_nat (S n)) eqn:E3;
    zify_bool; cbn [andb]; try lia.
  - by rewrite (proj2 (Z.eqb_neq _ _)) by lia.
  - assert (x = dst + Z.of_nat n) as -> by lia. rewrite Z.eqb_refl. f_equal. f_equal. lia.
  - by rewrite (proj2 (Z.eqb_neq _ _)) by lia.
  - by rewrite (proj2 (Z.eqb_neq _ _)) by lia.
Qed.

(** moving memory works for any two ranges, overlapping or not: afterwards the
    destination holds the bytes the source held before, and no other byte has
    changed. *)
Theorem memmove_exact m dst src n :
  mem_ok m -> fits dst (Z.of_nat n) -> fits src (Z.of_nat n) ->
  load_bytes (memmove m dst src n) dst n = load_bytes m src n /\
  same_outside dst (Z.of_nat n) m (memmove m dst src n).
Proof.
  intros Hm Hd Hs.
  assert (forall x, memmove m dst src n x = copied m dst src n x) as Hc.
  { intros x. unfold memmove, memcpy. destruct (dst =? src) eqn:E; zify_bool.
    - subst. unfold copied. destruct (in_range _ _ _); [|done].
      replace (src + (x - src)) with x by lia. by rewrite u8_byte.
    - destruct (dst <? src) eqn:E2; zify_bool; [by apply copy_up_spec|].
      apply copy_down_spec; try done. lia. }
  split.
  - apply list_eq. intros i. destruct (decide (i < n)%nat) as [Hi|Hi].
    + rewrite !load_bytes_lookup by done. f_equal. destruct Hd, Hs. unfold load.
      rewrite !u32_small by lia. rewrite Hc. unfold copied, in_range.
      rewrite (proj2 (Z.leb_le _ _)), (proj2 (Z.ltb_lt _ _)) by lia. cbn [andb].
      rewrite u8_byte by apply Hm. f_equal. lia.
    + rewrite !lookup_ge_None_2; rewrite ?load_bytes_length; done || lia.
  - intros x Hx. rewrite Hc. unfold copied. by rewrite (proj2 (in_range_false _ _ _)).
Qed.

Lemma memset_spec n m dst ch :
  fits dst (Z.of_nat n) ->
  forall x, memset m dst ch n x = if in_range dst (Z.of_nat n) x then u8 ch else m x.
Proof.
  revert m dst. induction n as [|n IH]; intros m dst [Hd1 Hd2] x; cbn [memset].
  { unfold in_range. rewrite Z.add_0_r. destruct (dst <=? x) eqn:E1, (x <? dst) eqn:E2; zify_bool; done || lia. }
  rewrite IH by (split; lia). unfold in_range, store. rewrite u32_small by lia.
  destruct (dst + 1 <=? x) eqn:E1, (x <? dst + 1 + Z.of_nat n) eqn:E2, (dst <=? x) eqn:E3,
    (x <? dst + Z.of_nat (S n)) eqn:E4, (x =? dst) eqn:E5; zify_bool; cbn [andb]; done || lia.
Qed.

(** ** Comparison *)

(** The order of a dictionary. *)
Inductive before : list Z -> list Z -> Prop :=
  | before_nil y b : before [] (y :: b)
  | before_head x y a b : x < y -> before (x :: a) (y :: b)
  | before_tail x a b : before a b -> before (x :: a) (x :: b).

Lemma strcmp_nil_l b : strcmp [] b = - u8 (chr b).
Proof. by destruct b. Qed.
Lemma strcmp_nil_r a : strcmp a [] = u8 (chr a).
Proof. destruct a; [done|]. cbn. change (u8 0) with 0. lia. Qed.

Lemma strcmp_cons x a y b :
  is_byte x -> is_byte y ->
  strcmp (x :: a) (y :: b) =
    if (x =? 0) || (y =? 0) || negb (x =? y) then x - y else strcmp a b.
Proof.
  intros Hx Hy. cbn [strcmp chr hd]. rewrite !u8_byte by done.
  by destruct (x =? 0), (y =? 0), (x =? y).
Qed.

(** comparing strings orders them like a dictionary, and is zero for equal
    ones only: the characters up to the first terminator decide, as unsigned
    bytes; exchanging the arguments changes the sign; and [strncmp] compares
    the first [n] characters. *)
Theorem strcmp_order a b n :
  all_bytes a -> all_bytes b ->
  (strcmp a b < 0 <-> before (cstr a) (cstr b)) /\
  (strcmp a b = 0 <-> cstr a = cstr b) /\
  strcmp b a = - strcmp a b /\
  strncmp a b n = strcmp (take n a) (take n b).
Proof.
  intros Ha Hb. split; [|split; [|split]].
  - revert b Hb. induction a as [|x a IH]; intros b Hb.
    + rewrite strcmp_nil_l. destruct b as [|y b]; [split; [done|inversion 1]|].
      apply Forall_cons_iff in Hb as [Hy Hb]. cbn. rewrite u8_byte by done. unfold is_byte in Hy.
      destruct (y =? 0) eqn:E; zify_bool; [subst; split; [done|inversion 1]|].
      split; [constructor|lia].
    + apply Forall_cons_iff in Ha as [Hx Ha]. destruct b as [|y b].
      { rewrite strcmp_nil_r. cbn. rewrite u8_byte by done. unfold is_byte in Hx.
        split; [lia|]. destruct (x =? 0); inversion 1. }
      apply Forall_cons_iff in Hb as [Hy Hb]. rewrite strcmp_cons by done. cbn [cstr].
      unfold is_byte in *.
      destruct (x =? 0) eqn:E1, (y =? 0) eqn:E2, (x =? y) eqn:E3; zify_bool; cbn [orb negb];
        subst; try lia; try (split; [lia|inversion 1; lia]);
        try (split; [intros; constructor; lia|intros H; inversion H; subst; lia]).
      rewrite IH by done. split; [by constructor|]. intros H; inversion H; subst; [lia|done].
  - revert b Hb. induction a as [|x a IH]; intros b Hb.
    + rewrite strcmp_nil_l. destruct b as [|y b]; [done|].
      apply Forall_cons_iff in Hb as [Hy Hb]. cbn. rewrite u8_byte by done.
      destruct (y =? 0) eqn:E; zify_bool; [by subst|]. split; [lia|done].
    + apply Forall_cons_iff in Ha as [Hx Ha]. destruct b as [|y b].
      { rewrite strcmp_nil_r. cbn. rewrite u8_byte by done. by destruct (x =? 0) eqn:E; zify_bool. }
      apply Forall_cons_iff in Hb as [Hy Hb]. rewrite strcmp_cons by done. cbn [cstr].
      destruct (x =? 0) eqn:E1, (y =? 0) eqn:E2, (x =? y) eqn:E3; zify_bool; cbn [orb negb];
        subst; try lia; try (split; [lia|congruence]); try (by split).
      rewrite IH by done. split; congruence.
  - revert b Hb. induction a as [|x a IH]; intros b Hb.
    + rewrite strcmp_nil_l, strcmp_nil_r. lia.
    + apply Forall_cons_iff in Ha as [Hx Ha]. destruct b as [|y b];
        [by rewrite strcmp_nil_l, strcmp_nil_r|].
      apply Forall_cons_iff in Hb as [Hy Hb]. rewrite !strcmp_cons by done.
      rewrite (Z.eqb_sym y x), (orb_comm (y =? 0)). destruct (_ || _); [lia|by apply IH].
  - clear Ha Hb. revert a b. induction n as [|n IH]; intros a b; [done|]. cbn [strncmp].
    destruct a as [|x a]; [by destruct b|]. destruct b as [|y b].
    { cbn. by rewrite andb_false_r. }
    cbn [chr hd tl take strcmp]. by destruct (_ && _); [apply IH|].
Qed.

Lemma strcmp_order_witness :
  (strcmp (lit "abc") (lit "abd" ++ [0; 9]) < 0 <-> before (lit "abc") (lit "abd")) /\
  strncmp (lit "abc") (lit "abd" ++ [0; 9]) 2 = 0.
Proof.
  destruct (strcmp_order (lit "abc") (lit "abd" ++ [0; 9]) 2) as (H1 & _ & _ & H2).
  - vm_compute. repeat constructor; discriminate.
  - vm_compute. repeat constructor; discriminate.
  - split; [exact H1|]. rewrite H2. reflexivity.
Defined.

Lemma memmove_exact_witness :
  load_bytes (memmove (store_bytes mem_empty 100 [1; 2; 3; 4]) 101 100 4) 101 4 = [1; 2; 3; 4].
Proof.
  destruct (memmove_exact (store_bytes mem_empty 100 [1; 2; 3; 4]) 101 100 4) as [H _].
  - apply store_bytes_ok. intros x. by vm_compute.
  - split; lia.
  - split; lia.
  - rewrite H. reflexivity.
Defined.

(** ** Building strings *)

Lemma strcpy_cstr dst src :
  cstr (strcpy dst src) = cstr src /\
  ((length (cstr src) < length dst)%nat -> length (strcpy dst src) = length dst).
Proof.
  revert dst. induction src as [|c src IH]; intros dst; cbn [strcpy cstr].
  - split; [done|]. destruct dst; cbn; lia.
  - destruct (c =? 0) eqn:E; zify_bool.
    + subst. split; [done|]. destruct dst; cbn; lia.
    + cbn [cstr length]. rewrite (proj2 (Z.eqb_neq c 0)) by done.
      destruct (IH (tl dst)) as [H1 H2]. split; [by rewrite H1|].
      destruct dst as [|d dst]; cbn [length tl] in *; [lia|]. intros H. f_equal. apply H2. lia.
Qed.

Lemma cstr_app_no_nul s t : no_nul s -> cstr (s ++ t) = s ++ cstr t.
Proof.
  induction 1 as [|c s Hc _ IH]; [done|]. cbn. rewrite (proj2 (Z.eqb_neq c 0)) by done. by rewrite IH.
Qed.

Lemma take_cstr s : take (Z.to_nat (str_len s)) s = cstr s.
Proof.
  rewrite str_len_spec, Nat2Z.id. induction s as [|c s IH]; cbn; [done|].
  destruct (c =? 0); [done|]. cbn. by rewrite IH.
Qed.

(** [strcat] appends, inside its buffer when the result fits. *)
Lemma strcat_cstr dst src :
  cstr (strcat dst src) = cstr dst ++ cstr src /\
  ((length (cstr dst) + length (cstr src) < length dst)%nat ->
   length (strcat dst src) = length dst).
Proof.
  unfold strcat. rewrite take_cstr. set (i := Z.to_nat (str_len dst)).
  assert (i = length (cstr dst)) as Hi by (unfold i; by rewrite str_len_spec, Nat2Z.id).
  destruct (strcpy_cstr (drop i dst) src) as [H1 H2].
  rewrite cstr_app_no_nul by apply cstr_no_nul. split; [by rewrite H1|].
  intros H. rewrite length_app, H2 by (rewrite length_drop; lia). rewrite length_drop. lia.
Qed.

(** [strncpy] writes exactly [n] bytes: the string, cut at [n], and zeros. *)
Lemma strncpy_exact dst src n :
  (n <= length dst)%nat ->
  strncpy dst src n = take n (cstr src ++ replicate n 0) ++ drop n dst.
Proof.
  revert dst src. induction n as [|n IH]; intros dst src Hn; cbn [strncpy]; [done|].
  destruct dst as [|d dst]; cbn [length] in Hn; [lia|]. cbn [tl].
  destruct src as [|c src]; cbn [chr hd tl cstr].
  - change (0 =? 0) with true. cbn. by rewrite IH by lia.
  - destruct (c =? 0) eqn:E.
    + cbn. by rewrite IH by lia.
    + rewrite IH by lia. cbn [app take drop]. f_equal. f_equal.
      change (replicate (S n) 0) with (0 :: replicate n 0).
      rewrite (replicate_cons_app n), app_assoc. symmetry. apply take_app_le.
      rewrite length_app, length_replicate. lia.
Qed.

(** ** Searching *)

(** [strchr] finds the first character, the terminator included. *)
Lemma strchr_first s c i :
  strchr s c = Some i <->
  (cstr s ++ [0]) !! i = Some (u8 c) /\ forall j, (j < i)%nat -> (cstr s ++ [0]) !! j <> Some (u8 c).
Proof.
  assert (forall i, (if u8 c =? 0 then Some O else None) = Some i <->
            [0] !! i = Some (u8 c) /\ forall j, (j < i)%nat -> [0] !! j <> Some (u8 c)) as Hend.
  { intros k. destruct (u8 c =? 0) eqn:E; zify_bool.
    - rewrite E. split; [intros [= <-]; split; [done|lia]|]. intros [H _].
      destruct k as [|k]; [done|]. cbn in H. by destruct k.
    - split; [done|]. intros [H _]. destruct k as [|[|k]]; cbn in H; congruence. }
  revert i. induction s as [|x s IH]; intros i; cbn [strchr cstr]; [apply Hend|].
  destruct (x =? 0); [apply Hend|]. cbn [app].
  destruct (x =? u8 c) eqn:E; zify_bool.
  - subst. split; [intros [= <-]; split; [done|lia]|]. intros [_ H]. destruct i as [|i]; [done|].
    exfalso. by apply (H 0%nat); [lia|].
  - rewrite fmap_Some. split.
    + intros (k & Hk & ->). apply IH in Hk as [H1 H2]. split; [done|].
      intros [|j] Hj; cbn; [congruence|]. apply H2. lia.
    + intros [H1 H2]. destruct i as [|i]; cbn in H1; [congruence|]. exists i. split; [|done].
      apply IH. split; [done|]. intros j Hj. apply (H2 (S j)). lia.
Qed.
