(* ===== verification/UAlloc.v ===== *)
(** * UAlloc: [malloc] of the programs' C library, [slop_alloc.c]

    A watermark allocator over a static array of 32 KiB.  Each block has a
    header of four bytes with its size; freeing does nothing.  The array and
    what is in it live in the flat memory, at an address [slop_alloc_arena] that
    the linker of the program chooses; a null pointer is 0. *)
From S2P Require Import Prelude KernelH Util Memory UString.
Local Open Scope Z_scope.
Local Open Scope slop_scope.

Definition SLOP_ALLOC_ARENA_SIZE : Z := 32 * 1024.

Class UserArena := {
  slop_alloc_arena : Z;
  arena_fits : 0 < slop_alloc_arena /\ slop_alloc_arena + SLOP_ALLOC_ARENA_SIZE + 8 <= 4294967296
}.

(** [slop_alloc_used], and the memory. *)
Record ualloc := { slop_alloc_used : Z; amem : mem }.

Definition slop_align_up (value : Z) : Z := Z.land (value +u 7) (u32 (Z.lnot 7)).

Section alloc.
Context `{UserArena}.

Definition slop_malloc (s : ualloc) (size : Z) : ualloc * Z :=
  if size =? 0 then (s, 0)
  else
    let total := slop_align_up (4 +u size) in
    let start := slop_align_up (slop_alloc_used s) in
    if SLOP_ALLOC_ARENA_SIZE <? start +u total then (s, 0)
    else
      let hdr := slop_alloc_arena + start in
      ({| slop_alloc_used := start +u total; amem := store_u32 (amem s) hdr size |}, hdr + 4).

Definition slop_free (s : ualloc) (ptr : Z) : ualloc := s.

Definition slop_realloc (s : ualloc) (ptr size : Z) : ualloc * Z :=
  if ptr =? 0 then slop_malloc s size
  else if size =? 0 then (slop_free s ptr, 0)
  else
    let hdr_size := load_u32 (amem s) (ptr - 4) in
    if size <=? hdr_size then (s, ptr)
    else
      let '(s, new_ptr) := slop_malloc s size in
      if new_ptr =? 0 then (s, 0)
      else
        let copy_size := load_u32 (amem s) (ptr - 4) in
        let copy_size := if size <? copy_size then size else copy_size in
        ({| slop_alloc_used := slop_alloc_used s;
            amem := memcpy (amem s) new_ptr ptr (Z.to_nat copy_size) |}, new_ptr).

(** The names of stdlib.h. *)
Definition malloc (s : ualloc) (size : Z) : ualloc * Z := slop_malloc s size.
Definition realloc (s : ualloc) (ptr size : Z) : ualloc * Z := slop_realloc s ptr size.
Definition free (s : ualloc) (ptr : Z) : ualloc := slop_free s ptr.

(** ** Arithmetic *)

Lemma slop_align_up_eq v : slop_align_up v = (v +u 7) - (v +u 7) `mod` 8.
Proof.
  unfold slop_align_up. change 7 with (2 ^ 3 - 1) at 2. rewrite land_lnot_mask; [done| |lia].
  apply u32_range.
Qed.

Lemma slop_align_up_spec v :
  0 <= v -> v + 7 < 4294967296 ->
  slop_align_up v `mod` 8 = 0 /\ v <= slop_align_up v < v + 8.
Proof. intros Hv Hw. rewrite slop_align_up_eq, u32_small by lia. mlia. Qed.

Lemma slop_align_up_id v : 0 <= v -> v + 7 < 4294967296 -> v `mod` 8 = 0 -> slop_align_up v = v.
Proof. intros Hv Hw Hm. rewrite slop_align_up_eq, u32_small by lia. mlia. Qed.

(** The block that a request of [size] bytes takes, when no sum wraps around. *)
Definition small_request (size : Z) : Prop := 0 <= size <= 4294967296 - 32780.
Definition block_total (size : Z) : Z := slop_align_up (4 + size).

Lemma block_total_spec size :
  small_request size -> block_total size `mod` 8 = 0 /\ 4 + size <= block_total size < size + 12.
Proof.
  intros Hs. unfold small_request, block_total in *.
  destruct (slop_align_up_spec (4 + size)) as [H1 H2]; [lia|lia|]. split; [done|lia].
Qed.

(** ** The invariant *)

(** [blocks] are those handed out, the newest first, as pointer and size;
    [top] is the first byte after them. *)
Fixpoint blocks_below (top : Z) (blocks : list (Z * Z)) : Prop :=
  match blocks with
  | [] => slop_alloc_arena <= top
  | (p, n) :: rest => 0 < n /\ p + n <= top /\ (p - slop_alloc_arena) `mod` 8 = 4 /\ blocks_below (p - 4) rest
  end.

Record alloc_inv (s : ualloc) (blocks : list (Z * Z)) : Prop := {
  ai_used : 0 <= slop_alloc_used s <= SLOP_ALLOC_ARENA_SIZE;
  ai_aligned : slop_alloc_used s `mod` 8 = 0;
  ai_blocks : blocks_below (slop_alloc_arena + slop_alloc_used s) blocks;
  ai_headers : forall p n, In (p, n) blocks -> bytes_at (amem s) (p - 4) (le32 n) /\ is_u32 n
}.

Lemma blocks_below_low top blocks : blocks_below top blocks -> slop_alloc_arena <= top.
Proof.
  revert top. induction blocks as [|[q k] l IH]; intros top; [done|].
  intros (? & ? & _ & Hr). apply IH in Hr. lia.
Qed.

Lemma blocks_below_up top top' blocks : blocks_below top blocks -> top <= top' -> blocks_below top' blocks.
Proof. destruct blocks as [|[q k] l]; cbn; [lia|]. intros (? & ? & ? & ?) ?. split_and!; done || lia. Qed.

Lemma blocks_below_in top blocks p n :
  blocks_below top blocks -> In (p, n) blocks ->
  0 < n /\ slop_alloc_arena + 4 <= p /\ p + n <= top /\ (p - slop_alloc_arena) `mod` 8 = 4.
Proof.
  revert top. induction blocks as [|[q k] rest IH]; intros top Hb Hin; [done|].
  destruct Hb as (H1 & H2 & H3 & H4). destruct Hin as [[= -> ->]|Hin].
  - apply blocks_below_low in H4. split_and!; done || lia.
  - destruct (IH _ H4 Hin) as (? & ? & ? & ?). split_and!; done || lia.
Qed.

(** Blocks do not touch each other, nor each other's headers. *)
Lemma blocks_below_apart top blocks i j p n q k :
  blocks_below top blocks -> (i < j)%nat -> blocks !! i = Some (p, n) -> blocks !! j = Some (q, k) ->
  q + k <= p - 4.
Proof.
  revert top i j. induction blocks as [|[r l] rest IH]; intros top i j Hb Hij Hi Hj; [done|].
  destruct Hb as (H1 & H2 & H3 & H4). destruct j as [|j]; [lia|]. cbn in Hj.
  destruct i as [|i]; cbn in Hi.
  - injection Hi as -> ->. apply (blocks_below_in (p - 4) rest q k); [done|].
    apply list_elem_of_In. by eapply list_elem_of_lookup_2.
  - apply (IH _ i j H4); [lia|done|done].
Qed.

(** ** The operations *)

Lemma slop_malloc_spec s blocks size :
  alloc_inv s blocks -> small_request size ->
  let '(s', p) := slop_malloc s size in
  if (size =? 0) || (SLOP_ALLOC_ARENA_SIZE <? slop_alloc_used s + block_total size)
  then s' = s /\ p = 0
  else p = slop_alloc_arena + slop_alloc_used s + 4 /\ alloc_inv s' ((p, size) :: blocks) /\
       same_outside (p - 4) 4 (amem s) (amem s') /\ p + size <= slop_alloc_arena + slop_alloc_used s'.
Proof.
  intros [Hu Ha Hb Hh] Hs. unfold slop_malloc. destruct (size =? 0) eqn:E0; [done|]. zify_bool.
  pose proof arena_fits as [Hf1 Hf2]. destruct (block_total_spec size Hs) as [Ht1 Ht2].
  pose proof Hs as Hs'. unfold small_request in Hs'. unfold SLOP_ALLOC_ARENA_SIZE in *.
  rewrite (u32_small (4 + size)) by lia. fold (block_total size).
  rewrite slop_align_up_id by (done || lia). cbn [orb].
  rewrite u32_small by lia.
  destruct (32 * 1024 <? slop_alloc_used s + block_total size) eqn:E; zify_bool; [done|].
  set (p := slop_alloc_arena + slop_alloc_used s + 4).
  replace (slop_alloc_arena + slop_alloc_used s) with (p - 4) in * by (unfold p; lia).
  assert (fits (p - 4) (Z.of_nat (length (le32 size)))) as Hfit by (cbn; unfold p; split; lia).
  split; [lia|]. split; [|split].
  - constructor; cbn [slop_alloc_used amem].
    + unfold SLOP_ALLOC_ARENA_SIZE. lia.
    + mlia.
    + split_and!; [lia|unfold p; lia|unfold p; mlia|done].
    + intros q n [[= <- <-]|Hin].
      * split; [|unfold is_u32; lia]. by apply bytes_at_store; [|apply le32_bytes].
      * destruct (Hh q n Hin) as [Hq Hn]. split; [|done].
        destruct (blocks_below_in _ _ _ _ Hb Hin) as (? & ? & ? & ?).
        apply (bytes_at_frame (amem s) _ (q - 4) (le32 n) (p - 4) 4); [done| |left; cbn; lia].
        by apply (same_outside_store (amem s) (p - 4) (le32 size)).
  - by apply (same_outside_store (amem s) (p - 4) (le32 size)).
  - cbn. unfold p. lia.
Qed.

Lemma block_header s blocks p n :
  alloc_inv s blocks -> In (p, n) blocks -> load_u32 (amem s) (p - 4) = n.
Proof.
  intros [Hu Ha Hb Hh] Hin. destruct (Hh p n Hin) as [Hb4 Hn].
  destruct (blocks_below_in _ _ _ _ Hb Hin) as (? & ? & ? & ?). pose proof arena_fits.
  apply load_u32_bytes_at; [|done|done]. unfold SLOP_ALLOC_ARENA_SIZE in *. split; lia.
Qed.

(** The program may write what it wants inside its blocks. *)
Lemma alloc_inv_write s blocks p n m' :
  alloc_inv s blocks -> In (p, n) blocks -> same_outside p n (amem s) m' ->
  alloc_inv {| slop_alloc_used := slop_alloc_used s; amem := m' |} blocks.
Proof.
  intros [Hu Ha Hb Hh] Hin Hm. constructor; cbn; try done. intros q k Hq.
  destruct (Hh q k Hq) as [Hb4 Hk]. split; [|done].
  apply (bytes_at_frame (amem s) _ (q - 4) (le32 k) p n); [done|done|].
  change (Z.of_nat (length (le32 k))) with 4.
  apply list_elem_of_In, list_elem_of_lookup_1 in Hin as [i Hi].
  apply list_elem_of_In, list_elem_of_lookup_1 in Hq as [j Hj].
  pose proof Hi as Hi'. pose proof Hj as Hj'.
  apply list_elem_of_lookup_2, list_elem_of_In in Hi', Hj'.
  pose proof (blocks_below_in _ _ _ _ Hb Hi'). pose proof (blocks_below_in _ _ _ _ Hb Hj').
  destruct (Nat.lt_trichotomy i j) as [Hij|[->|Hij]].
  - pose proof (blocks_below_apart _ _ _ _ _ _ _ _ Hb Hij Hi Hj). lia.
  - rewrite Hi in Hj. injection Hj as -> ->. lia.
  - pose proof (blocks_below_apart _ _ _ _ _ _ _ _ Hb Hij Hj Hi). lia.
Qed.

(** Growing a block copies it; the old one stays as it is. *)
Lemma slop_realloc_spec s blocks p n size :
  alloc_inv s blocks -> In (p, n) blocks -> small_request size -> 0 < size ->
  let '(s', q) := slop_realloc s p size in
  if size <=? n then s' = s /\ q = p
  else if SLOP_ALLOC_ARENA_SIZE <? slop_alloc_used s + block_total size
  then s' = s /\ q = 0
  else q = slop_alloc_arena + slop_alloc_used s + 4 /\ alloc_inv s' ((q, size) :: blocks) /\
       (mem_ok (amem s) -> load_bytes (amem s') q (Z.to_nat n) = load_bytes (amem s) p (Z.to_nat n)) /\
       same_outside (q - 4) (4 + size) (amem s) (amem s').
Proof.
  intros Hinv Hin Hs Hpos. unfold slop_realloc. pose proof arena_fits as [Hf1 Hf2].
  destruct (blocks_below_in _ _ _ _ (ai_blocks _ _ Hinv) Hin) as (H1 & H2 & H3 & _).
  rewrite (proj2 (Z.eqb_neq p 0)), (proj2 (Z.eqb_neq size 0)) by lia.
  rewrite (block_header s blocks p n) by done. destruct (size <=? n) eqn:E; zify_bool; [done|].
  pose proof (slop_malloc_spec s blocks size Hinv Hs) as Hm.
  destruct (slop_malloc s size) as [s1 q]. rewrite (proj2 (Z.eqb_neq size 0)) in Hm by lia.
  cbn [orb] in Hm. pose proof (ai_used _ _ Hinv) as Hu.
  destruct (SLOP_ALLOC_ARENA_SIZE <? _) eqn:E2; zify_bool.
  { destruct Hm as [-> ->]. done. }
  destruct Hm as (Hq & Hinv1 & Hout & Htop). rewrite (proj2 (Z.eqb_neq q 0)) by lia.
  rewrite (block_header s1 ((q, size) :: blocks) p n) by (done || by right).
  rewrite (proj2 (Z.ltb_ge size n)) by lia.
  pose proof (ai_used _ _ Hinv1) as Hu1. unfold SLOP_ALLOC_ARENA_SIZE in *.
  assert (fits q (Z.of_nat (Z.to_nat n)) /\ fits p (Z.of_nat (Z.to_nat n))) as [Hfq Hfp].
  { rewrite Z2Nat.id by lia. split; split; lia. }
  assert (forall x, copy_loop (Z.to_nat n) (amem s1) q p x =
            if in_range q (Z.of_nat (Z.to_nat n)) x then u8 (amem s1 (p + (x - q))) else amem s1 x) as Hc.
  { apply copy_loop_spec; [done|done|]. rewrite Z2Nat.id by lia. left. lia. }
  assert (same_outside q size (amem s1) (copy_loop (Z.to_nat n) (amem s1) q p)) as Ho2.
  { intros x Hx. rewrite Hc, (proj2 (in_range_false _ _ _)); [done|lia]. }
  split; [done|]. split; [|split].
  - eapply alloc_inv_write; [exact Hinv1|by left|exact Ho2].
  - intros Hok. cbn [amem]. apply list_eq. intros i. destruct (decide (i < Z.to_nat n)%nat) as [Hi|Hi].
    + rewrite !load_bytes_lookup by done. f_equal. destruct Hfq, Hfp. unfold load, memcpy.
      rewrite !u32_small by lia. rewrite Hc, (proj2 (in_range_spec _ _ _)) by lia.
      replace (p + (q + Z.of_nat i - q)) with (p + Z.of_nat i) by lia.
      rewrite Hout by lia. apply u8_byte, Hok.
    + rewrite !lookup_ge_None_2; rewrite ?load_bytes_length; done || lia.
  - intros x Hx. cbn [amem]. unfold memcpy. rewrite Ho2 by lia. apply Hout. lia.
Qed.

(** ** A program's use of the allocator *)

(** The calls a program makes, and its writes inside its blocks. *)
Inductive alloc_run : ualloc -> list (Z * Z) -> Prop :=
  | run_start m : alloc_run {| slop_alloc_used := 0; amem := m |} []
  | run_malloc s blocks size s' p :
      alloc_run s blocks -> small_request size -> slop_malloc s size = (s', p) ->
      alloc_run s' (if p =? 0 then blocks else (p, size) :: blocks)
  | run_realloc s blocks p n size s' q :
      alloc_run s blocks -> In (p, n) blocks -> small_request size -> 0 < size ->
      slop_realloc s p size = (s', q) ->
      alloc_run s' (if (q =? 0) || (q =? p) then blocks else (q, size) :: blocks)
  | run_free s blocks p : alloc_run s blocks -> alloc_run (slop_free s p) blocks
  | run_write s blocks p n m' :
      alloc_run s blocks -> In (p, n) blocks -> same_outside p n (amem s) m' ->
      alloc_run {| slop_alloc_used := slop_alloc_used s; amem := m' |} blocks.

Lemma alloc_run_inv s blocks : alloc_run s blocks -> alloc_inv s blocks.
Proof.
  pose proof arena_fits as [Hf1 Hf2].
  induction 1 as [m|s blocks size s' p Hr IH Hs Hm|s blocks p n size s' q Hr IH Hin Hs Hpos Hm|
                  s blocks p Hr IH|s blocks p n m' Hr IH Hin Ho].
  - constructor; cbn; try done; unfold SLOP_ALLOC_ARENA_SIZE; lia.
  - pose proof (slop_malloc_spec s blocks size IH Hs) as Hx. rewrite Hm in Hx.
    destruct (_ || _); [by destruct Hx as [-> ->]|]. destruct Hx as (Hp & Hi & _).
    pose proof (ai_used _ _ IH). rewrite (proj2 (Z.eqb_neq p 0)) by lia. done.
  - pose proof (slop_realloc_spec s blocks p n size IH Hin Hs Hpos) as Hx. rewrite Hm in Hx.
    destruct (size <=? n). { destruct Hx as [-> ->]. by rewrite Z.eqb_refl, orb_true_r. }
    destruct (_ <? _); [by destruct Hx as [-> ->]|]. destruct Hx as (Hq & Hi & _).
    pose proof (ai_used _ _ IH). rewrite (proj2 (Z.eqb_neq q 0)) by lia.
    destruct (blocks_below_in _ _ _ _ (ai_blocks _ _ IH) Hin) as (H1 & H2 & H3 & _).
    rewrite (proj2 (Z.eqb_neq q p)) by lia. done.
  - done.
  - by eapply alloc_inv_write.
Qed.


(** A larger request wraps around: it is granted, although the arena is 32 KiB,
    and can move [slop_alloc_used] back, so that later blocks overlap earlier
    ones. *)
Lemma slop_malloc_wraps s :
  slop_alloc_used s = 4096 ->
  snd (slop_malloc s 4294963196) = slop_alloc_arena + 4100 /\
  slop_alloc_used (fst (slop_malloc s 4294963196)) = 0.
Proof.
  intros Hu. unfold slop_malloc. rewrite Hu.
  change (4294963196 =? 0) with false. change (slop_align_up 4096) with 4096.
  change (4096 +u slop_align_up (4 +u 4294963196)) with 0.
  change (SLOP_ALLOC_ARENA_SIZE <? 0) with false. cbn. split; [lia|done].
Qed.

End alloc.

(** ** An arena *)

#[local] Instance demo_arena : UserArena.
Proof. refine {| slop_alloc_arena := 0x00410000 |}. split; vm_compute; congruence. Defined.

Definition demo_alloc : ualloc := {| slop_alloc_used := 0; amem := mem_empty |}.

