(* ===== verification/UFormat.v ===== *)
(** * UFormat: formatted output of the programs' C library

    [vsnprintf] of [src/user/external/sloplib/compat_stdio.c] writes into a
    buffer of the caller, [slop_vfprintf] of [slop_stdio.c] into a buffer of 512
    bytes on its stack.  Both know the same conversions.  What they should
    produce is [urender]. *)
From S2P Require Import Prelude KernelH Util Varargs.
Local Open Scope Z_scope.
Local Open Scope slop_scope.

(** ** [vsnprintf] *)

(** The buffer and [off]. *)
Definition sn_state : Type := list Z * Z.

Definition append_char (size : Z) (s : sn_state) (ch : Z) : sn_state :=
  let '(buf, off) := s in
  (if off +u 1 <? size then <[Z.to_nat off := ch]> buf else buf, off +u 1).

(** [while (n > 0) append_char(.., tmp[--n]);] *)
Fixpoint append_reversed (size : Z) (n : nat) (tmp : list Z) (s : sn_state) : sn_state :=
  match n with
  | O => s
  | S i => append_reversed size i tmp (append_char size s (nth i tmp 0))
  end.

Definition append_u32 (size : Z) (s : sn_state) (value : Z) : sn_state :=
  if value =? 0 then append_char size s 48
  else let tmp := dec_digits_rev 16 value in append_reversed size (length tmp) tmp s.

Definition append_s32 (size : Z) (s : sn_state) (value : Z) : sn_state :=
  if value <? 0 then append_u32 size (append_char size s 45) (u32 (- (value + 1)) +u 1)
  else append_u32 size s (u32 value).

Fixpoint append_str (size : Z) (s : sn_state) (str : list Z) : sn_state :=
  match str with
  | c :: str' => if c =? 0 then s else append_str size (append_char size s c) str'
  | [] => s
  end.

(** [while (fmt[i] != '\0')]; every turn takes a character or is the last but
    one, so that [length fmt + 2] turns are enough ([vsnprintf_exact]). *)
Fixpoint vsnprintf_loop (n : nat) (size : Z) (s : sn_state) (fmt : list Z) (args : list va)
    : option sn_state :=
  match n with
  | O => None
  | S n =>
      if chr fmt =? 0 then Some s
      else if negb (chr fmt =? 37) then
        vsnprintf_loop n size (append_char size s (chr fmt)) (tl fmt) args
      else
        let fmt := tl fmt in
        let d := chr fmt in
        if d =? 37 then vsnprintf_loop n size (append_char size s 37) (tl fmt) args
        else if (d =? 108) && (chr (tl fmt) =? 117) then
          '(v, args) ← va_int args;
          vsnprintf_loop n size (append_u32 size s (u32 v)) (tl (tl fmt)) args
        else if d =? 115 then
          '(str, args) ← va_str args;
          vsnprintf_loop n size (append_str size s (or_null str)) (tl fmt) args
        else if d =? 100 then
          '(v, args) ← va_int args;
          vsnprintf_loop n size (append_s32 size s (s32 v)) (tl fmt) args
        else if d =? 117 then
          '(v, args) ← va_int args;
          vsnprintf_loop n size (append_u32 size s (u32 v)) (tl fmt) args
        else if d =? 99 then
          '(v, args) ← va_int args;
          vsnprintf_loop n size (append_char size s (u8 v)) (tl fmt) args
        else
          let s := append_char size s 37 in
          if negb (d =? 0) then vsnprintf_loop n size (append_char size s d) (tl fmt) args
          else vsnprintf_loop n size s fmt args
  end.

(** The buffer afterwards and the value returned. *)
Definition vsnprintf (buf : option (list Z)) (size : Z) (fmt : option (list Z)) (args : list va)
    : option (option (list Z) * Z) :=
  match buf, fmt with
  | Some buf, Some fmt =>
      if size =? 0 then Some (Some buf, -1)
      else
        '(buf, off) ← vsnprintf_loop (length fmt + 2) size (buf, 0) fmt args;
        Some (Some (<[Z.to_nat (if off <? size then off else size -u 1) := 0]> buf), s32 off)
  | _, _ => Some (buf, -1)
  end.

Definition snprintf := vsnprintf.

(** ** [slop_vfprintf] *)

(** [out[0 .. off - 1]] is a list: characters are only ever appended, and a
    write past the end of [out] makes the list longer than the buffer. *)
Definition OUT_SIZE : Z := 512.

Fixpoint slop_reversed (n : nat) (tmp : list Z) (out : list Z) : list Z :=
  match n with
  | O => out
  | S i => slop_reversed i tmp (out ++ [nth i tmp 0])
  end.

Definition slop_write_u32_dec (out : list Z) (value : Z) : list Z :=
  if value =? 0 then out ++ [48]
  else let tmp := dec_digits_rev 16 value in slop_reversed (length tmp) tmp out.

Definition slop_write_s32_dec (out : list Z) (value : Z) : list Z :=
  if value <? 0 then slop_write_u32_dec (out ++ [45]) (u32 (- (value + 1)) +u 1)
  else slop_write_u32_dec out (u32 value).

(** [while (s[j] != '\0' && off + 1 < sizeof(out))] *)
Fixpoint slop_put_str (out str : list Z) : list Z :=
  match str with
  | c :: str' => if negb (c =? 0) && (Z.of_nat (length out) + 1 <? OUT_SIZE)
                 then slop_put_str (out ++ [c]) str' else out
  | [] => out
  end.

Fixpoint slop_format_loop (n : nat) (out fmt : list Z) (args : list va) : option (list Z) :=
  match n with
  | O => None
  | S n =>
      if (chr fmt =? 0) || negb (Z.of_nat (length out) + 2 <? OUT_SIZE) then Some out
      else if negb (chr fmt =? 37) then slop_format_loop n (out ++ [chr fmt]) (tl fmt) args
      else
        let fmt := tl fmt in
        let d := chr fmt in
        if d =? 37 then slop_format_loop n (out ++ [37]) (tl fmt) args
        else if (d =? 108) && (chr (tl fmt) =? 117) then
          '(v, args) ← va_int args;
          slop_format_loop n (slop_write_u32_dec out (u32 v)) (tl (tl fmt)) args
        else if d =? 115 then
          '(str, args) ← va_str args;
          slop_format_loop n (slop_put_str out (or_null str)) (tl fmt) args
        else if d =? 100 then
          '(v, args) ← va_int args;
          slop_format_loop n (slop_write_s32_dec out (s32 v)) (tl fmt) args
        else if d =? 117 then
          '(v, args) ← va_int args;
          slop_format_loop n (slop_write_u32_dec out (u32 v)) (tl fmt) args
        else if d =? 99 then
          '(v, args) ← va_int args;
          slop_format_loop n (out ++ [u8 v]) (tl fmt) args
        else
          let out := out ++ [37] in
          if negb (d =? 0) && (Z.of_nat (length out) + 1 <? OUT_SIZE)
          then slop_format_loop n (out ++ [d]) (tl fmt) args
          else slop_format_loop n out fmt args
  end.

(** What [slop_vfprintf] puts into [out] before it writes it. *)
Definition slop_format (fmt : list Z) (args : list va) : option (list Z) :=
  slop_format_loop (length fmt + 2) [] fmt args.

(** ** The texts *)

Inductive upiece :=
  | UPlain (c : Z)
  | UConv (d : Z).

Definition is_conv (d : Z) : bool := (d =? 115) || (d =? 100) || (d =? 117) || (d =? 99).

Definition conv_pieces (d : Z) : list upiece :=
  if is_conv d then [UConv d] else [UPlain 37; UPlain d].

(** The pieces of a format without its terminator. *)
Fixpoint upieces (fmt : list Z) : list upiece :=
  match fmt with
  | [] => []
  | c :: fmt1 =>
      if negb (c =? 37) then UPlain c :: upieces fmt1
      else match fmt1 with
      | [] => [UPlain 37]
      | d :: fmt2 =>
          if d =? 37 then UPlain 37 :: upieces fmt2
          else match fmt2 with
          | [] => conv_pieces d
          | e :: fmt3 =>
              if (d =? 108) && (e =? 117) then UConv 117 :: upieces fmt3
              else conv_pieces d ++ upieces fmt2
          end
      end
  end.

Definition upiece_text (p : upiece) (args : list va) : option (list Z * list va) :=
  match p with
  | UPlain c => Some ([c], args)
  | UConv d =>
      if d =? 115 then '(s, args) ← va_str args; Some (cstr (or_null s), args)
      else if d =? 100 then '(v, args) ← va_int args; Some (s32_text (s32 v), args)
      else if d =? 117 then '(v, args) ← va_int args; Some (u32_text (u32 v), args)
      else '(v, args) ← va_int args; Some ([u8 v], args)
  end.

Fixpoint urender (ps : list upiece) (args : list va) : option (list Z) :=
  match ps with
  | [] => Some []
  | p :: ps => '(text, args) ← upiece_text p args; rest ← urender ps args; Some (text ++ rest)
  end.

(** The text that a format and its arguments stand for. *)
Definition format_text (fmt : list Z) (args : list va) : option (list Z) :=
  urender (upieces (cstr fmt)) args.

(** ** The loops work piece by piece *)

Section pieces.
Context {S : Type}.

(** [put] appends a piece, [full] stops before the next one. *)
Fixpoint put_pieces (put : upiece -> list va -> S -> option (S * list va)) (full : S -> bool)
    (ps : list upiece) (args : list va) (s : S) : option S :=
  match ps with
  | [] => Some s
  | p :: ps => if full s then Some s
               else '(s, args) ← put p args s; put_pieces put full ps args s
  end.

End pieces.

Definition sn_piece (size : Z) (p : upiece) (args : list va) (s : sn_state)
    : option (sn_state * list va) :=
  match p with
  | UPlain c => Some (append_char size s c, args)
  | UConv d =>
      if d =? 115 then '(str, args) ← va_str args; Some (append_str size s (or_null str), args)
      else if d =? 100 then '(v, args) ← va_int args; Some (append_s32 size s (s32 v), args)
      else if d =? 117 then '(v, args) ← va_int args; Some (append_u32 size s (u32 v), args)
      else '(v, args) ← va_int args; Some (append_char size s (u8 v), args)
  end.

(** What the next turn of a loop over [fmt] finds. *)
Inductive format_step : list Z -> list upiece -> list Z -> Prop :=
  | step_plain c fmt : c <> 0 -> c <> 37 -> format_step (c :: fmt) [UPlain c] fmt
  | step_percent fmt : format_step (37 :: 37 :: fmt) [UPlain 37] fmt
  | step_long fmt : format_step (37 :: 108 :: 117 :: fmt) [UConv 117] fmt
  | step_conv d fmt : is_conv d = true -> format_step (37 :: d :: fmt) [UConv d] fmt
  | step_other d fmt :
      is_conv d = false -> d <> 37 -> d <> 0 -> (d <> 108 \/ chr fmt <> 117) ->
      format_step (37 :: d :: fmt) [UPlain 37; UPlain d] fmt
  | step_last fmt : chr fmt = 0 -> format_step (37 :: fmt) [UPlain 37] [].

Lemma format_step_total fmt :
  chr fmt <> 0 -> exists ps rest, format_step fmt ps rest.
Proof.
  destruct fmt as [|c fmt]; [done|]. cbn. intros Hc.
  destruct (decide (c = 37)) as [->|Hn]; [|by exists [UPlain c], fmt; constructor].
  destruct (decide (chr fmt = 0)) as [Hz|Hz]; [by exists [UPlain 37], []; constructor|].
  destruct fmt as [|d fmt]; [done|]. cbn in Hz.
  destruct (decide (d = 37)) as [->|H37]; [by eexists _, fmt; constructor|].
  destruct (is_conv d) eqn:Ec; [by eexists _, fmt; constructor|].
  destruct (decide (d = 108)) as [->|H108]; [|by eexists _, fmt; apply step_other; auto].
  destruct fmt as [|e fmt]; [by eexists _, []; apply step_other; auto|].
  destruct (decide (e = 117)) as [->|H117]; [by eexists _, fmt; constructor|].
  eexists _, (e :: fmt). apply step_other; auto.
Qed.

Lemma format_step_pieces fmt ps rest :
  format_step fmt ps rest ->
  upieces (cstr fmt) = ps ++ upieces (cstr rest) /\ (length rest < length fmt)%nat.
Proof.
  inversion 1; subst; cbn [length]; split; try lia.
  - cbn [cstr]. rewrite (proj2 (Z.eqb_neq c 0)) by done. cbn [upieces].
    by rewrite (proj2 (Z.eqb_neq c 37)).
  - done.
  - done.
  - assert (d <> 0 /\ d <> 37 /\ d <> 108) as (Hd0 & Hd1 & Hd2).
    { split_and!; intros ->; discriminate. }
    cbn [cstr]. change (37 =? 0) with false. rewrite (proj2 (Z.eqb_neq d 0)) by done.
    cbn [upieces]. change (37 =? 37) with true. cbn [negb].
    rewrite (proj2 (Z.eqb_neq d 37)), (proj2 (Z.eqb_neq d 108)) by done. cbn [andb].
    unfold conv_pieces. rewrite H0. by destruct (cstr rest).
  - cbn [cstr]. change (37 =? 0) with false. rewrite (proj2 (Z.eqb_neq d 0)) by done.
    cbn [upieces]. change (37 =? 37) with true. cbn [negb].
    rewrite (proj2 (Z.eqb_neq d 37)) by done.
    unfold conv_pieces. rewrite H0. destruct rest as [|e rest]; [done|]. cbn [cstr chr hd] in *.
    destruct (e =? 0) eqn:Ee; [done|].
    destruct ((d =? 108) && (e =? 117)) eqn:E; [|done]. zify_bool. lia.
  - cbn [cstr]. change (37 =? 0) with false. cbn iota.
    destruct fmt0 as [|d fmt0]; [done|]. cbn in H0. subst d. done.
Qed.

Lemma put_pieces_app {S} put full ps qs args (s : S) :
  (forall s', full s' = false) ->
  put_pieces put full (ps ++ qs) args s =
    match ps with
    | [] => put_pieces put full qs args s
    | p :: ps => '(s, args) ← put p args s; put_pieces put full (ps ++ qs) args s
    end.
Proof. intros Hf. destruct ps as [|p ps]; [done|]. cbn. by rewrite Hf. Qed.

Lemma vsnprintf_loop_pieces n size s fmt args :
  (length fmt + 1 < n)%nat ->
  vsnprintf_loop n size s fmt args =
    put_pieces (sn_piece size) (fun _ => false) (upieces (cstr fmt)) args s.
Proof.
  revert s fmt args. induction n as [|n IH]; intros s fmt args Hn; [lia|]. cbn [vsnprintf_loop].
  destruct (chr fmt =? 0) eqn:E0; zify_bool.
  { apply cstr_nil in E0. by rewrite E0. }
  destruct (format_step_total fmt E0) as (ps & rest & Hst).
  destruct (format_step_pieces _ _ _ Hst) as [-> Hlen].
  assert (forall s args, vsnprintf_loop n size s rest args =
    put_pieces (sn_piece size) (fun _ => false) (upieces (cstr rest)) args s) as IHr
    by (intros; apply IH; lia).
  inversion Hst; subst; cbn [chr hd tl] in *.
  - rewrite (proj2 (Z.eqb_neq c 37)) by done. cbn [negb app put_pieces sn_piece mbind option_bind].
    apply IHr.
  - change (37 =? 37) with true. cbn [negb app put_pieces sn_piece mbind option_bind]. apply IHr.
  - change (37 =? 37) with true. change (108 =? 37) with false. change (108 =? 108) with true.
    change (117 =? 117) with true. cbn [negb andb app put_pieces sn_piece].
    change (117 =? 115) with false. change (117 =? 100) with false. change (117 =? 117) with true.
    cbn iota. destruct (va_int args) as [[v args']|]; cbn [mbind option_bind]; [apply IHr|done].
  - change (37 =? 37) with true. cbn [negb].
    assert (d <> 0 /\ d <> 37 /\ d <> 108) as (Hd0 & Hd1 & Hd2).
    { split_and!; intros ->; discriminate. }
    rewrite (proj2 (Z.eqb_neq d 37)), (proj2 (Z.eqb_neq d 108)) by done.
    cbn [andb app put_pieces sn_piece]. unfold is_conv in H.
    destruct (d =? 115).
    { destruct (va_str args) as [[v args']|]; cbn [mbind option_bind]; [apply IHr|done]. }
    destruct (va_int args) as [[v args']|]; cbn [mbind option_bind].
    + destruct (d =? 100); [apply IHr|]. destruct (d =? 117); [apply IHr|].
      destruct (d =? 99); [apply IHr|done].
    + destruct (d =? 100); [done|]. destruct (d =? 117); [done|]. destruct (d =? 99); done.
  - change (37 =? 37) with true. cbn [negb].
    rewrite (proj2 (Z.eqb_neq d 37)), (proj2 (Z.eqb_neq d 0)) by done.
    assert ((d =? 108) && (chr rest =? 117) = false) as ->.
    { apply not_true_iff_false. rewrite andb_true_iff, !Z.eqb_eq. lia. }
    unfold is_conv in H. apply orb_false_iff in H as [[[-> ->]%orb_false_iff ->]%orb_false_iff ->].
    cbn [negb app put_pieces sn_piece mbind option_bind]. apply IHr.
  - change (37 =? 37) with true. cbn [negb].
    rewrite H. change (0 =? 37) with false. change (0 =? 108) with false. change (0 =? 115) with false.
    change (0 =? 100) with false. change (0 =? 117) with false. change (0 =? 99) with false.
    change (0 =? 0) with true. cbn [andb negb]. rewrite IH by (cbn in Hn; lia).
    apply cstr_nil in H. rewrite H. done.
Qed.

(** ** The buffer of [vsnprintf] *)

Definition sn_all (size : Z) (l : list Z) (s : sn_state) : sn_state := fold_left (append_char size) l s.

Lemma sn_all_app size l1 l2 s : sn_all size (l1 ++ l2) s = sn_all size l2 (sn_all size l1 s).
Proof. apply fold_left_app. Qed.

Lemma append_reversed_all size tmp : forall n s,
  (n <= length tmp)%nat -> append_reversed size n tmp s = sn_all size (rev (take n tmp)) s.
Proof.
  induction n as [|n IH]; intros s Hn; [done|]. cbn [append_reversed].
  destruct (lookup_lt_is_Some_2 tmp n) as [x Hx]; [lia|].
  rewrite IH by lia. rewrite (take_S_r _ _ x) by done. rewrite rev_app_distr. cbn [rev app].
  rewrite nth_lookup, Hx. done.
Qed.

Lemma append_u32_all size s v : is_u32 v -> append_u32 size s v = sn_all size (u32_text v) s.
Proof.
  intros Hv. unfold append_u32, u32_text, console_print_u32_dec. destruct (v =? 0); [done|].
  rewrite append_reversed_all, firstn_all by done. by rewrite dec_digits_16.
Qed.

Lemma neg_magnitude v :
  -2147483648 <= v < 0 -> (u32 (- (v + 1)) +u 1) = - v.
Proof. intros Hv. rewrite (u32_small (- (v + 1))), u32_small by lia. lia. Qed.

Lemma append_s32_all size s v :
  -2147483648 <= v <= 2147483647 -> append_s32 size s v = sn_all size (s32_text v) s.
Proof.
  intros Hv. unfold append_s32, s32_text. destruct (v <? 0) eqn:E; zify_bool.
  - rewrite neg_magnitude by lia. rewrite append_u32_all by (unfold is_u32; lia). done.
  - rewrite u32_small by lia. apply append_u32_all. unfold is_u32. lia.
Qed.

Lemma append_str_all size s str : append_str size s str = sn_all size (cstr str) s.
Proof.
  revert s. induction str as [|c str IH]; intros s; cbn; [done|]. destruct (c =? 0); [done|]. apply IH.
Qed.

Lemma sn_piece_text size p args s :
  sn_piece size p args s = '(t, args) ← upiece_text p args; Some (sn_all size t s, args).
Proof.
  destruct p as [c|d]; [done|]. unfold sn_piece, upiece_text.
  destruct (d =? 115).
  { destruct (va_str args) as [[x a]|]; cbn [mbind option_bind]; [|done]. by rewrite append_str_all. }
  destruct (va_int args) as [[v a]|]; cbn [mbind option_bind].
  - destruct (d =? 100); [rewrite append_s32_all; [done|apply s32_range]|].
    destruct (d =? 117); [rewrite append_u32_all; [done|apply u32_range]|]. done.
  - by destruct (d =? 100), (d =? 117).
Qed.

Lemma sn_pieces_text size ps args s :
  put_pieces (sn_piece size) (fun _ => false) ps args s =
    text ← urender ps args; Some (sn_all size text s).
Proof.
  revert args s. induction ps as [|p ps IH]; intros args s; [done|].
  cbn [put_pieces urender]. rewrite sn_piece_text.
  destruct (upiece_text p args) as [[t a]|]; cbn [mbind option_bind]; [|done].
  rewrite IH. destruct (urender ps a) as [r|]; cbn [mbind option_bind]; [|done].
  by rewrite sn_all_app.
Qed.

(** [text] was appended to the buffer [buf0]. *)
Definition holds (buf0 : list Z) (size : Z) (text : list Z) (s : sn_state) : Prop :=
  let kept := take (Z.to_nat (size - 1)) text in
  s = (kept ++ drop (length kept) buf0, Z.of_nat (length text)).

Lemma append_char_holds buf0 size text s ch :
  1 <= size <= Z.of_nat (length buf0) -> Z.of_nat (length text) + 1 < 4294967296 ->
  holds buf0 size text s -> holds buf0 size (text ++ [ch]) (append_char size s ch).
Proof.
  intros Hs Ht ->. unfold holds, append_char. rewrite u32_small by lia. rewrite Nat2Z.id.
  set (k := Z.to_nat (size - 1)).
  assert (Z.of_nat (length (text ++ [ch])) = Z.of_nat (length text) + 1) as ->
    by (rewrite length_app; cbn; lia).
  f_equal. destruct (Z.of_nat (length text) + 1 <? size) eqn:E; zify_bool.
  - rewrite (take_ge text) by lia. rewrite (take_ge (text ++ [ch])) by (rewrite length_app; cbn; lia).
    rewrite insert_app_r_alt by lia. rewrite Nat.sub_diag, length_app. cbn [length].
    rewrite <- app_assoc. f_equal. rewrite Nat.add_1_r.
    destruct (lookup_lt_is_Some_2 buf0 (length text)) as [x Hx]; [lia|].
    by rewrite (drop_S buf0 x _ Hx).
  - rewrite take_app_le by lia. done.
Qed.

Lemma sn_all_holds buf0 size l : forall text s,
  1 <= size <= Z.of_nat (length buf0) -> Z.of_nat (length (text ++ l)) < 4294967295 ->
  holds buf0 size text s -> holds buf0 size (text ++ l) (sn_all size l s).
Proof.
  induction l as [|c l IH]; intros text s Hs Ht Hh; [by rewrite app_nil_r|].
  replace (text ++ c :: l) with ((text ++ [c]) ++ l) by by rewrite <- app_assoc.
  cbn [sn_all fold_left]. apply IH; [done|by rewrite <- app_assoc|].
  rewrite length_app in Ht. cbn in Ht. apply append_char_holds; [done|lia|done].
Qed.

(** C40: formatting into a buffer: the buffer gets the text that the format stands
    for, cut to the room there is and always terminated, no byte outside the
    first [size] is written, and the length of the whole text is returned. *)
Theorem vsnprintf_exact buf size fmt args text :
  1 <= size <= Z.of_nat (length buf) -> format_text fmt args = Some text ->
  Z.of_nat (length text) < 4294967295 ->
  let kept := take (Z.to_nat (size - 1)) text in
  vsnprintf (Some buf) size (Some fmt) args =
    Some (Some (kept ++ 0 :: drop (S (length kept)) buf), s32 (Z.of_nat (length text))) /\
  (length kept < Z.to_nat size)%nat /\
  length (kept ++ 0 :: drop (S (length kept)) buf) = length buf.
Proof.
  intros Hs Hf Ht kept. unfold format_text in Hf.
  assert (length kept = Nat.min (Z.to_nat (size - 1)) (length text)) as Hk by apply length_take.
  split; [|split; [lia|rewrite length_app; cbn [length]; rewrite length_drop; lia]].
  unfold vsnprintf. rewrite (proj2 (Z.eqb_neq size 0)) by lia.
  rewrite vsnprintf_loop_pieces by lia. rewrite sn_pieces_text, Hf. cbn [mbind option_bind].
  pose proof (sn_all_holds buf size text [] (buf, 0) Hs Ht) as Hh. cbn [app] in Hh.
  rewrite Hh by (unfold holds; by rewrite take_nil).
  cbn [mbind option_bind]. fold kept. do 3 f_equal.
  assert (Z.to_nat (if Z.of_nat (length text) <? size then Z.of_nat (length text) else size -u 1)
          = length kept) as ->.
  { rewrite Hk. destruct (Z.of_nat (length text) <? size) eqn:E; zify_bool; [lia|].
    rewrite Nat.min_l by lia. unfold u32.
    destruct (Z.le_gt_cases size 4294967296); [rewrite Z.mod_small by lia; lia|].
    lia. }
  rewrite insert_app_r_alt by done. rewrite Nat.sub_diag. f_equal.
  destruct (lookup_lt_is_Some_2 buf (length kept)) as [x Hx]; [lia|].
  by rewrite (drop_S buf x _ Hx).
Qed.

Lemma vsnprintf_exact_witness :
  vsnprintf (Some (replicate 8 7)) 6 (Some (lit "a%d%%%s" ++ [0])) [VInt (-12); VStr (Some (lit "xyz"))] =
    Some (Some ([97; 45; 49; 50; 37; 0] ++ [7; 7]), 8).
Proof.
  destruct (vsnprintf_exact (replicate 8 7) 6 (lit "a%d%%%s" ++ [0])
              [VInt (-12); VStr (Some (lit "xyz"))] [97; 45; 49; 50; 37; 120; 121; 122]) as [H _].
  - cbn. lia.
  - reflexivity.
  - cbn. lia.
  - rewrite H. reflexivity.
Defined.

(** ** The stack buffer of [slop_vfprintf] *)

Lemma slop_reversed_app tmp : forall n out,
  (n <= length tmp)%nat -> slop_reversed n tmp out = out ++ rev (take n tmp).
Proof.
  induction n as [|n IH]; intros out Hn; [by rewrite app_nil_r|]. cbn [slop_reversed].
  destruct (lookup_lt_is_Some_2 tmp n) as [x Hx]; [lia|].
  rewrite IH by lia. rewrite (take_S_r _ _ x) by done. rewrite rev_app_distr. cbn [rev app].
  rewrite nth_lookup, Hx, <- app_assoc. done.
Qed.

Lemma slop_write_u32_app out v : is_u32 v -> slop_write_u32_dec out v = out ++ u32_text v.
Proof.
  intros Hv. unfold slop_write_u32_dec, u32_text, console_print_u32_dec. destruct (v =? 0); [done|].
  rewrite slop_reversed_app, firstn_all by done. by rewrite dec_digits_16.
Qed.

Lemma slop_write_s32_app out v :
  -2147483648 <= v <= 2147483647 -> slop_write_s32_dec out v = out ++ s32_text v.
Proof.
  intros Hv. unfold slop_write_s32_dec, s32_text. destruct (v <? 0) eqn:E; zify_bool.
  - rewrite neg_magnitude by lia. rewrite slop_write_u32_app by (unfold is_u32; lia).
    by rewrite <- app_assoc.
  - rewrite u32_small by lia. apply slop_write_u32_app. unfold is_u32. lia.
Qed.

(** A string is cut where the buffer has room for the terminator only. *)
Lemma slop_put_str_app out str :
  (length out <= 511)%nat -> slop_put_str out str = out ++ take (511 - length out) (cstr str).
Proof.
  revert out. induction str as [|c str IH]; intros out Ho; cbn [slop_put_str cstr].
  { by rewrite take_nil, app_nil_r. }
  destruct (c =? 0); cbn [negb andb]; [by rewrite take_nil, app_nil_r|].
  unfold OUT_SIZE. destruct (Z.of_nat (length out) + 1 <? 512) eqn:E; zify_bool.
  - rewrite IH by (rewrite length_app; cbn; lia). rewrite length_app. cbn [length].
    replace (511 - length out)%nat with (S (511 - (length out + 1))) by lia.
    cbn [take]. by rewrite <- app_assoc.
  - replace (511 - length out)%nat with 0%nat by lia. by rewrite app_nil_r.
Qed.

(** The rest of the format after a turn, when it is not [rest]. *)
Definition after_turn (fmt rest : list Z) : list Z :=
  match fmt with
  | 37 :: r => if chr r =? 0 then r else rest
  | _ => rest
  end.

(** One turn of the loop, when there is room. *)
Lemma slop_turn n out fmt args ps rest :
  format_step fmt ps rest -> (length out <= 509)%nat ->
  slop_format_loop (S n) out fmt args =
    match ps with
    | [UConv d] =>
        if d =? 115 then
          '(s, args) ← va_str args;
          slop_format_loop n (out ++ take (511 - length out) (cstr (or_null s))) rest args
        else '(t, args) ← upiece_text (UConv d) args; slop_format_loop n (out ++ t) rest args
    | [UPlain c] => slop_format_loop n (out ++ [c]) (after_turn fmt rest) args
    | _ => slop_format_loop n (out ++ [37; chr (tl fmt)]) rest args
    end.
Proof.
  intros Hst Ho. cbn [slop_format_loop]. unfold OUT_SIZE.
  rewrite (proj2 (Z.ltb_lt (Z.of_nat (length out) + 2) 512)) by lia. cbn [negb].
  inversion Hst; subst; cbn [chr hd tl].
  - rewrite (proj2 (Z.eqb_neq c 0)), (proj2 (Z.eqb_neq c 37)) by done. cbn [orb negb]. unfold after_turn.
    destruct c as [|c|c]; try done. by do 6 (destruct c as [c|c|]; try done).
  - done.
  - change (37 =? 0) with false. change (37 =? 37) with true. change (108 =? 37) with false.
    change (108 =? 108) with true. change (117 =? 117) with true. change (117 =? 115) with false.
    cbn [orb negb andb upiece_text]. change (117 =? 115) with false. change (117 =? 100) with false.
    change (117 =? 117) with true. cbn iota.
    destruct (va_int args) as [[v a]|]; cbn [mbind option_bind]; [|done].
    by rewrite slop_write_u32_app by apply u32_range.
  - change (37 =? 0) with false. change (37 =? 37) with true. cbn [orb negb].
    assert (d <> 0 /\ d <> 37 /\ d <> 108) as (Hd0 & Hd1 & Hd2).
    { split_and!; intros ->; discriminate. }
    rewrite (proj2 (Z.eqb_neq d 37)), (proj2 (Z.eqb_neq d 108)) by done. cbn [andb upiece_text].
    unfold is_conv in H. destruct (d =? 115).
    { destruct (va_str args) as [[x a]|]; cbn [mbind option_bind]; [|done].
      by rewrite slop_put_str_app by lia. }
    destruct (va_int args) as [[v a]|]; cbn [mbind option_bind].
    + destruct (d =? 100); [by rewrite slop_write_s32_app by apply s32_range|].
      destruct (d =? 117); [by rewrite slop_write_u32_app by apply u32_range|].
      by destruct (d =? 99).
    + by destruct (d =? 100), (d =? 117), (d =? 99).
  - change (37 =? 0) with false. change (37 =? 37) with true. cbn [orb negb].
    rewrite (proj2 (Z.eqb_neq d 37)), (proj2 (Z.eqb_neq d 0)) by done.
    assert ((d =? 108) && (chr rest =? 117) = false) as ->.
    { apply not_true_iff_false. rewrite andb_true_iff, !Z.eqb_eq. lia. }
    unfold is_conv in H. apply orb_false_iff in H as [[[-> ->]%orb_false_iff ->]%orb_false_iff ->].
    cbn [negb andb]. rewrite length_app. cbn [length].
    rewrite (proj2 (Z.ltb_lt _ 512)) by lia. by rewrite <- app_assoc.
  - change (37 =? 0) with false. change (37 =? 37) with true. cbn [orb negb].
    rewrite H. change (0 =? 37) with false. change (0 =? 108) with false. change (0 =? 115) with false.
    change (0 =? 100) with false. change (0 =? 117) with false. change (0 =? 99) with false.
    unfold after_turn. rewrite H. done.
Qed.

Lemma after_turn_ok fmt c rest :
  format_step fmt [UPlain c] rest ->
  cstr (after_turn fmt rest) = cstr rest /\ (length (after_turn fmt rest) < length fmt)%nat.
Proof.
  intros Hst. pose proof (format_step_pieces _ _ _ Hst) as [_ Hlen].
  inversion Hst; subst; unfold after_turn.
  - destruct c as [|c|c]; try done. by do 6 (destruct c as [c|c|]; try done).
  - done.
  - rewrite H1. change (0 =? 0) with true. cbn iota. split; [|cbn; lia]. by rewrite (proj2 (cstr_nil _)).
Qed.

(** Running out of room stops the loop. *)
Lemma slop_format_full n out fmt args :
  (510 <= length out)%nat -> slop_format_loop (S n) out fmt args = Some out.
Proof.
  intros Ho. cbn [slop_format_loop]. unfold OUT_SIZE.
  rewrite (proj2 (Z.ltb_ge (Z.of_nat (length out) + 2) 512)) by lia. by rewrite orb_true_r.
Qed.

Lemma slop_format_loop_exact n out fmt args r :
  (length fmt + 1 < n)%nat -> urender (upieces (cstr fmt)) args = Some r ->
  (length out + length r <= 510)%nat -> slop_format_loop n out fmt args = Some (out ++ r).
Proof.
  revert out fmt args r. induction n as [|n IH]; intros out fmt args r Hn Hr Hlen; [lia|].
  destruct (decide (510 <= length out)%nat) as [Hfull|Hfree].
  { rewrite slop_format_full by done. destruct r; [by rewrite app_nil_r|cbn in Hlen; lia]. }
  destruct (decide (chr fmt = 0)) as [Hz|Hz].
  { apply cstr_nil in Hz as Hz'. rewrite Hz' in Hr. injection Hr as <-.
    cbn [slop_format_loop]. rewrite Hz. by rewrite app_nil_r. }
  destruct (format_step_total fmt Hz) as (ps & rest & Hst).
  destruct (format_step_pieces _ _ _ Hst) as [Hp Hl]. rewrite Hp in Hr.
  rewrite (slop_turn n out fmt args ps rest) by (done || lia).
  inversion Hst; subst ps; subst; cbn [app urender upiece_text mbind option_bind] in Hr.
  - destruct (urender (upieces (cstr rest)) args) as [r'|] eqn:E; [|done]. injection Hr as <-.
    destruct (after_turn_ok _ _ _ Hst) as [Ea Hla]. cbn [length] in *.
    rewrite (IH _ _ _ r'); [by rewrite <- app_assoc|lia|by rewrite Ea|].
    rewrite length_app. cbn. lia.
  - destruct (urender (upieces (cstr rest)) args) as [r'|] eqn:E; [|done]. injection Hr as <-.
    destruct (after_turn_ok _ _ _ Hst) as [Ea Hla]. cbn [length] in *.
    rewrite (IH _ _ _ r'); [by rewrite <- app_assoc|lia|by rewrite Ea|].
    rewrite length_app. cbn. lia.
  - cbn [upiece_text]. change (117 =? 115) with false in *. change (117 =? 100) with false in *.
    change (117 =? 117) with true in *. cbn iota in *.
    destruct (va_int args) as [[v a]|]; [|done]. cbn [mbind option_bind] in *.
    destruct (urender (upieces (cstr rest)) a) as [r'|] eqn:E; [|done]. injection Hr as <-.
    cbn [length] in *. rewrite length_app in Hlen.
    rewrite (IH _ _ _ r'); [by rewrite <- app_assoc|lia|done|rewrite length_app; lia].
  - destruct (d =? 115) eqn:E115.
    + destruct (va_str args) as [[x a]|] eqn:Ev; [|done]. cbn [mbind option_bind] in *.
      destruct (urender (upieces (cstr rest)) a) as [r'|] eqn:E; [|done]. injection Hr as <-.
      rewrite length_app in Hlen. cbn [length] in *.
      rewrite take_ge by lia.
      rewrite (IH _ _ _ r'); [by rewrite <- app_assoc|lia|done|rewrite length_app; lia].
    + cbn [upiece_text]. rewrite E115.
      assert (exists t a r', (if d =? 100 then '(v, args0) ← va_int args; Some (s32_text (s32 v), args0)
              else if d =? 117 then '(v, args0) ← va_int args; Some (u32_text (u32 v), args0)
              else '(v, args0) ← va_int args; Some ([u8 v], args0)) = Some (t, a) /\
              urender (upieces (cstr rest)) a = Some r' /\ r = t ++ r') as (t & a & r' & Et & E & ->).
      { destruct (if d =? 100 then _ else _) as [[t a]|]; [|done]. cbn [mbind option_bind] in Hr.
        destruct (urender (upieces (cstr rest)) a) as [r'|] eqn:E; [|done]. injection Hr as <-.
        by exists t, a, r'. }
      rewrite Et. cbn [mbind option_bind]. rewrite length_app in Hlen. cbn [length] in *.
      rewrite (IH _ _ _ r'); [by rewrite <- app_assoc|lia|done|rewrite length_app; lia].
  - destruct (urender (upieces (cstr rest)) args) as [r'|] eqn:E; [|done].
    cbn [mbind option_bind] in Hr. injection Hr as <-. cbn [length chr tl hd] in *.
    rewrite (IH _ _ _ r'); [by rewrite <- app_assoc|lia|done|rewrite length_app; cbn; lia].
  - injection Hr as <-. destruct (after_turn_ok _ _ _ Hst) as [Ea Hla]. cbn [length] in *.
    rewrite (IH _ _ _ []); [by rewrite app_nil_r|lia| |rewrite length_app; cbn; lia].
    by rewrite Ea.
Qed.

Lemma slop_format_bound n out fmt args o :
  (length out <= 520)%nat -> slop_format_loop n out fmt args = Some o -> (length o <= 520)%nat.
Proof.
  revert out fmt args. induction n as [|n IH]; intros out fmt args Ho; [done|].
  destruct (decide (510 <= length out)%nat) as [Hfull|Hfree].
  { rewrite slop_format_full by done. by intros [= <-]. }
  destruct (decide (chr fmt = 0)) as [Hz|Hz].
  { cbn [slop_format_loop]. rewrite Hz. by intros [= <-]. }
  destruct (format_step_total fmt Hz) as (ps & rest & Hst).
  rewrite (slop_turn n out fmt args ps rest) by (done || lia).
  assert (forall t f a, (length t <= 11)%nat -> slop_format_loop n (out ++ t) f a = Some o ->
            (length o <= 520)%nat) as Hnext.
  { intros t f a Ht. apply IH. rewrite length_app. lia. }
  destruct ps as [|[c|d] [|q ps]]; try (apply Hnext; cbn; lia).
  destruct (d =? 115) eqn:E115.
  - destruct (va_str args) as [[x a]|]; cbn [mbind option_bind]; [|done].
    apply IH. rewrite length_app, length_take. lia.
  - cbn [upiece_text]. rewrite E115. destruct (va_int args) as [[v a]|]; cbn [mbind option_bind].
    + destruct (d =? 100); cbn [mbind option_bind]; [apply Hnext, s32_text_length|].
      destruct (d =? 117); cbn [mbind option_bind]; [|apply Hnext; cbn; lia].
      apply Hnext. pose proof (u32_text_length (u32 v)). pose proof (u32_range v). lia.
    + by destruct (d =? 100), (d =? 117).
Qed.

(** formatting for a stream: a text of at most 510 characters is written out
    exactly; a longer one is cut, and then up to 520 characters and a
    terminator go to the 512 bytes of the stack buffer. *)
Theorem slop_format_exact fmt args text :
  format_text fmt args = Some text ->
  ((length text <= 510)%nat -> slop_format fmt args = Some text) /\
  (forall o, slop_format fmt args = Some o -> (length o <= 520)%nat).
Proof.
  intros Hf. split.
  - intros Ht. unfold slop_format. rewrite (slop_format_loop_exact _ _ _ _ text); done || lia.
  - intros o. apply slop_format_bound. cbn. lia.
Qed.

Lemma slop_format_exact_witness :
  slop_format (lit "%s=%lu") [VStr None; VInt (-1)] = Some (lit "(null)=4294967295") /\
  forall o, slop_format (lit "%s=%lu") [VStr None; VInt (-1)] = Some o -> (length o <= 520)%nat.
Proof.
  destruct (slop_format_exact (lit "%s=%lu") [VStr None; VInt (-1)] (lit "(null)=4294967295")) as [H1 H2].
  - reflexivity.
  - split; [|exact H2]. apply H1. vm_compute. lia.
Defined.

(** The buffer is not large enough: after 509 characters there is room for a
    conversion of one character, and a number may take eleven; nine bytes of
    the stack behind the buffer are overwritten, the last with a zero. *)
Lemma slop_format_overflows :
  exists out, slop_format (replicate 509 120 ++ lit "%d") [VInt (-2147483648)] = Some out /\
    Z.of_nat (length out) = OUT_SIZE + 8.
Proof. eexists. split; [vm_compute; reflexivity|reflexivity]. Qed.
