(* ===== verification/UStdlib.v ===== *)
(** * UStdlib: [stdlib.h] of the programs' C library

    [src/user/external/sloplib/compat_stdlib.c], less the allocator (UAlloc.v)
    and [exit] (Usys.v), which is a system call.  A string is the list of its bytes;
    [strtol] returns the value, the offset it stores through [endptr], and the
    value of [errno]. *)
From S2P Require Import Prelude KernelH Util Varargs UString.
Local Open Scope Z_scope.
Local Open Scope slop_scope.

Definition ENOENT : Z := 2.
Definition EINVAL : Z := 22.
Definition ERANGE : Z := 34.
Definition LONG_MAX : Z := 2147483647.

Definition str_eq_c (a b : list Z) : bool := strcmp a b =? 0.

Definition getenv (name : option (list Z)) : option (list Z) :=
  match name with
  | None => None
  | Some name => if str_eq_c name (lit "TMPDIR") then Some (lit "/tmp")
                 else if str_eq_c name (lit "HOME") then Some (lit "/")
                 else None
  end.

(** The first loop, over white space: the characters stepped over. *)
Fixpoint skip_space (p : list Z) : nat :=
  match p with
  | c :: p' => if (c =? 32) || (c =? 9) || (c =? 10) || (c =? 13) then S (skip_space p') else O
  | [] => O
  end.

(** The loop over the digits of a number that is too large. *)
Fixpoint skip_digits (p : list Z) : nat :=
  match p with
  | c :: p' => if (48 <=? c) && (c <=? 57) then S (skip_digits p') else O
  | [] => O
  end.

(** The loop over the digits: the value, the digits passed, [errno] and [any]. *)
Fixpoint strtol_loop (p : list Z) (base value : Z) (n : nat) (any : bool) : Z * nat * Z * bool :=
  match p with
  | c :: p' =>
      if (48 <=? c) && (c <=? 57) then
        let digit := c - 48 in
        if base <=? digit then (value, n, 0, any)
        else if Z.quot (LONG_MAX - digit) base <? value
        then (LONG_MAX, (n + skip_digits p)%nat, ERANGE, true)
        else strtol_loop p' base (value * base + digit) (S n) true
      else (value, n, 0, any)
  | [] => (value, n, 0, any)
  end.

Definition strtol (nptr : option (list Z)) (base : Z) : Z * nat * Z :=
  match nptr with
  | None => (0, O, EINVAL)
  | Some s =>
      if negb (base =? 0) && negb (base =? 10) then (0, O, EINVAL)
      else
        let i := skip_space s in
        let p := drop i s in
        let neg := chr p =? 45 in
        let j := if (chr p =? 43) || (chr p =? 45) then S i else i in
        let base := if base =? 0 then 10 else base in
        let '(value, n, err, any) := strtol_loop (drop j s) base 0 0 false in
        if negb any then (0, O, err)
        else (if neg then - value else value, (j + n)%nat, err)
  end.

(** [system] has no shell to run. *)
Definition system (cmd : list Z) : Z * Z := (-1, EINVAL).

(** ** Reading numbers *)

Lemma skip_digits_all ds rest :
  Forall is_digit ds -> ~ is_digit (chr rest) -> skip_digits (ds ++ rest) = length ds.
Proof.
  intros Hd Hr. induction Hd as [|c ds Hc _ IH]; cbn [app skip_digits length].
  - destruct rest as [|c rest]; [done|]. cbn. cbn in Hr. unfold is_digit in Hr.
    destruct (48 <=? c) eqn:E1, (c <=? 57) eqn:E2; zify_bool; cbn [andb]; done || lia.
  - unfold is_digit in Hc. rewrite (proj2 (Z.leb_le 48 c)), (proj2 (Z.leb_le c 57)) by lia.
    cbn [andb]. by rewrite IH.
Qed.

(** The value of digits read after [acc]. *)
Definition dec_from (acc : Z) (ds : list Z) : Z := fold_left (fun a c => a * 10 + (c - 48)) ds acc.

Lemma dec_from_value ds : dec_from 0 ds = dec_value ds.
Proof. reflexivity. Qed.

Lemma dec_from_low ds acc : Forall is_digit ds -> 0 <= acc -> acc <= dec_from acc ds.
Proof.
  intros Hd. revert acc. induction Hd as [|c ds Hc _ IH]; intros acc Ha; cbn; [lia|].
  unfold is_digit in Hc. specialize (IH (acc * 10 + (c - 48))). unfold dec_from in *. lia.
Qed.

Lemma strtol_loop_digits ds rest acc n any :
  Forall is_digit ds -> ~ is_digit (chr rest) -> 0 <= acc <= LONG_MAX ->
  strtol_loop (ds ++ rest) 10 acc n any =
    if dec_from acc ds <=? LONG_MAX
    then (dec_from acc ds, (n + length ds)%nat, 0, any || negb (bool_decide (ds = [])))
    else (LONG_MAX, (n + length ds)%nat, ERANGE, true).
Proof.
  intros Hd Hr. revert acc n any.
  induction Hd as [|c ds Hc Hds IH]; intros acc n any Hacc; cbn [app strtol_loop].
  - change (dec_from acc []) with acc. rewrite (proj2 (Z.leb_le _ _)) by lia.
    rewrite bool_decide_true by done. cbn [negb length]. rewrite orb_false_r, Nat.add_0_r.
    destruct rest as [|c rest]; [done|]. cbn in Hr. unfold is_digit in Hr. cbn [strtol_loop].
    destruct (48 <=? c) eqn:E1, (c <=? 57) eqn:E2; zify_bool; cbn [andb]; done || lia.
  - pose proof Hc as Hc'. unfold is_digit in Hc'. unfold LONG_MAX in *.
    rewrite (proj2 (Z.leb_le 48 c)), (proj2 (Z.leb_le c 57)) by lia. cbn [andb].
    rewrite (proj2 (Z.leb_gt 10 (c - 48))) by lia. rewrite Z.quot_div_nonneg by lia.
    change (dec_from acc (c :: ds)) with (dec_from (acc * 10 + (c - 48)) ds).
    rewrite bool_decide_false by done. cbn [negb length]. rewrite orb_true_r.
    destruct ((2147483647 - (c - 48)) / 10 <? acc) eqn:E; zify_bool.
    + pose proof (dec_from_low ds (acc * 10 + (c - 48)) Hds) as Hlow.
      rewrite (proj2 (Z.leb_gt _ _)) by mlia.
      change (c :: ds ++ rest) with ((c :: ds) ++ rest).
      by rewrite skip_digits_all by (done || by constructor).
    + rewrite IH by mlia. cbn [orb]. by replace (S n + length ds)%nat with (n + S (length ds))%nat by lia.
Qed.

Lemma skip_space_none s : (chr s <> 32 /\ chr s <> 9 /\ chr s <> 10 /\ chr s <> 13) -> skip_space s = O.
Proof.
  destruct s as [|c s]; [done|]. cbn. intros (H1 & H2 & H3 & H4).
  by rewrite !(proj2 (Z.eqb_neq c _)) by done.
Qed.

Lemma skip_space_some blanks s :
  Forall (fun c => c = 32 \/ c = 9 \/ c = 10 \/ c = 13) blanks ->
  (chr s <> 32 /\ chr s <> 9 /\ chr s <> 10 /\ chr s <> 13) ->
  skip_space (blanks ++ s) = length blanks.
Proof.
  intros Hb Hs. induction Hb as [|c blanks Hc _ IH]; [by apply skip_space_none|].
  cbn [app skip_space length]. rewrite IH.
  by destruct Hc as [-> | [-> | [-> | ->]]].
Qed.

(** reading back a number that was printed in decimal, after any white space
    and before anything but a digit, gives the number, no error, and the place
    where it ends; a number that does not fit gives the largest one and
    [ERANGE], with the end after all its digits. *)
Theorem strtol_reads blanks v rest :
  Forall (fun c => c = 32 \/ c = 9 \/ c = 10 \/ c = 13) blanks -> ~ is_digit (chr rest) ->
  - 4294967295 <= v <= 4294967295 ->
  strtol (Some (blanks ++ s32_text v ++ rest)) 10 =
    if Z.abs v <=? LONG_MAX then (v, (length blanks + length (s32_text v))%nat, 0)
    else (if v <? 0 then - LONG_MAX else LONG_MAX, (length blanks + length (s32_text v))%nat, ERANGE).
Proof.
  intros Hb Hr Hv. unfold strtol. change (10 =? 0) with false. change (10 =? 10) with true.
  cbn [negb andb].
  assert (exists d ds, u32_text (Z.abs v) = d :: ds /\ Forall is_digit (d :: ds) /\
            dec_value (d :: ds) = Z.abs v) as (d & ds & Et & Hd & Hval).
  { destruct (u32_text (Z.abs v)) as [|d ds] eqn:E.
    - by apply console_print_u32_dec_nonempty in E; [|lia].
    - exists d, ds. rewrite <- E. split_and!; [done|apply console_print_u32_dec_digits; lia|].
      apply console_print_u32_dec_value. unfold is_u32. lia. }
  assert (s32_text v = if v <? 0 then 45 :: d :: ds else d :: ds) as Es.
  { unfold s32_text. destruct (v <? 0) eqn:E; zify_bool; rewrite <- Et.
    - by replace (Z.abs v) with (- v) by lia.
    - by replace (Z.abs v) with v by lia. }
  assert (is_digit d) as Hd1 by by apply Forall_cons_iff in Hd as [? _].
  unfold is_digit in Hd1.
  rewrite skip_space_some; [|done|rewrite Es; destruct (v <? 0); cbn; lia].
  rewrite drop_app_length. rewrite Es.
  pose proof (strtol_loop_digits (d :: ds) rest 0 0 false Hd Hr) as Hloop.
  rewrite dec_from_value, Hval, bool_decide_false in Hloop by done. cbn [orb negb Nat.add] in Hloop.
  destruct (v <? 0) eqn:E; zify_bool; cbn [app chr hd].
  - change (45 =? 43) with false. change (45 =? 45) with true. cbn [orb].
    replace (drop (S (length blanks)) (blanks ++ 45 :: d :: ds ++ rest)) with ((d :: ds) ++ rest)
      by (rewrite drop_app_ge by lia; by replace (S (length blanks) - length blanks)%nat with 1%nat by lia).
    rewrite Hloop by (unfold LONG_MAX; lia).
    destruct (Z.abs v <=? LONG_MAX); cbn [negb length]; do 2 f_equal; lia.
  - rewrite (proj2 (Z.eqb_neq d 43)), (proj2 (Z.eqb_neq d 45)) by lia. cbn [orb].
    rewrite drop_app_length. change (d :: ds ++ rest) with ((d :: ds) ++ rest).
    rewrite Hloop by (unfold LONG_MAX; lia).
    destruct (Z.abs v <=? LONG_MAX); cbn [negb length]; do 2 f_equal; lia.
Qed.

Lemma strtol_reads_witness :
  strtol (Some ([32; 9] ++ s32_text (-2147483647) ++ [44])) 10 = (-2147483647, 13%nat, 0).
Proof.
  apply (strtol_reads [32; 9] (-2147483647) [44]).
  - apply Forall_cons; [by left|]. apply Forall_cons; [by right; left|done].
  - unfold is_digit. cbn. lia.
  - lia.
Defined.

(** The smallest [long] is not read: the C library should return it, without
    an error. *)
Lemma strtol_long_min : strtol (Some (s32_text (-2147483648))) 10 = (-2147483647, 11%nat, ERANGE).
Proof. vm_compute. reflexivity. Qed.
