(* ===== verification/UStubs.v ===== *)
(** * UStubs: [regex.h] and [locale.h] of the programs' C library

    [src/user/external/sloplib/compat_regex.c] and [compat_locale.c], which
    programs from elsewhere are linked with: no expression compiles or matches,
    and there is one locale.  A [regex_t] is its one word, in the flat memory; a
    null pointer is 0.  What a routine does not look at is not an argument. *)
From S2P Require Import Prelude KernelH Util Memory UString.
Local Open Scope Z_scope.
Local Open Scope slop_scope.

(** ** [compat_regex.c] *)

Definition regcomp (m : mem) (preg : Z) : mem * Z :=
  (if negb (preg =? 0) then store_words m preg [0] else m, 1).

Definition regexec : Z := 1.

Definition regex_msg : list Z := lit "regex unsupported" ++ [0].

(** The loop of [regerror] from [i] on, where the text that is left is [msg]:
    the memory, and the [i] it ends with. *)
Fixpoint regerror_loop (msg : list Z) (m : mem) (errbuf errbuf_size i : Z) : mem * Z :=
  match msg with
  | c :: msg =>
      if (i +u 1 <? errbuf_size) && negb (c =? 0)
      then regerror_loop msg (store m (errbuf + i) c) errbuf errbuf_size (i +u 1)
      else (m, i)
  | [] => (m, i)
  end.

Definition regerror (m : mem) (errbuf errbuf_size : Z) : mem * Z :=
  let len := strlen (Some regex_msg) in
  if negb (errbuf =? 0) && (0 <? errbuf_size)
  then let '(m, i) := regerror_loop regex_msg m errbuf errbuf_size 0 in (store m (errbuf + i) 0, len)
  else (m, len).

Definition regfree (m : mem) : mem := m.

(** ** [compat_locale.c] *)

(** The string it points to. *)
Definition setlocale : list Z := lit "C".

(** ** What they promise *)

(** The loop stores what fits before the terminator. *)
Lemma regerror_loop_stores text : forall m errbuf size i,
  Forall (fun c => c <> 0) text -> 0 <= i -> i + Z.of_nat (length text) + 1 < 4294967296 ->
  i < size ->
  let n := Nat.min (length text) (Z.to_nat (size - i - 1)) in
  regerror_loop (text ++ [0]) m errbuf size i =
    (store_bytes m (errbuf + i) (take n text), i + Z.of_nat n).
Proof.
  induction text as [|c text IH]; intros m errbuf size i Hz Hi Hb Hs; cbn [app regerror_loop].
  { rewrite andb_false_r. cbn. f_equal. lia. }
  apply Forall_cons_iff in Hz as [Hc Hz]. cbn [length] in *. rewrite (u32_small (i + 1)) by lia.
  rewrite (proj2 (Z.eqb_neq c 0)), andb_true_r by done.
  destruct (i + 1 <? size) eqn:E; zify_bool.
  - rewrite IH by (done || lia).
    replace (Z.to_nat (size - i - 1)) with (S (Z.to_nat (size - (i + 1) - 1))) by lia.
    cbn [Nat.min take store_bytes]. f_equal; [|lia]. by rewrite Z.add_assoc.
  - replace (Z.to_nat (size - i - 1)) with 0%nat by lia. rewrite Nat.min_0_r. cbn. f_equal. lia.
Qed.

(** [regerror] cuts its message to the buffer, with a terminator, writes nothing
    else, and returns the length of the whole message, so that a caller sees
    that it was cut. *)
Theorem regerror_cut m errbuf size :
  errbuf <> 0 -> 0 < size -> fits errbuf size ->
  let text := take (Z.to_nat (size - 1)) (lit "regex unsupported") in
  snd (regerror m errbuf size) = 17 /\
  bytes_at (fst (regerror m errbuf size)) errbuf (text ++ [0]) /\
  forall x, ~ errbuf <= x < errbuf + size -> fst (regerror m errbuf size) x = m x.
Proof.
  intros He Hs Hf text. unfold regerror.
  rewrite (proj2 (Z.eqb_neq errbuf 0)), (proj2 (Z.ltb_lt 0 size)) by done. cbn [negb andb].
  set (msg := lit "regex unsupported") in *. change regex_msg with (msg ++ [0]).
  assert (Forall (fun c => c <> 0) msg) as Hz by (repeat constructor; discriminate).
  rewrite regerror_loop_stores; [|done|lia|cbn; lia|done].
  replace (size - 0 - 1) with (size - 1) by lia. rewrite Z.add_0_r, Z.add_0_l.
  set (j := Z.to_nat (size - 1)) in *.
  assert (take (Nat.min (length msg) j) msg = text) as -> by (rewrite Nat.min_comm, <- take_take, firstn_all; reflexivity).
  assert (Nat.min (length msg) j = length text) as -> by (unfold text; rewrite length_take; lia).
  assert (length text <= j)%nat as Hlen by (unfold text; rewrite length_take; lia).
  change (store ?m' ?a 0) with (store_bytes m' a [0]). rewrite <- store_bytes_app.
  assert (Z.of_nat (length (text ++ [0])) <= size) as Hn.
  { rewrite length_app. cbn [length]. lia. }
  destruct Hf as [Hf1 Hf2]. split_and!; [done| |].
  - apply bytes_at_store; [split; lia|]. apply Forall_app. split; [|by repeat constructor].
    apply Forall_take. repeat constructor; vm_compute; discriminate.
  - intros x Hx. apply store_bytes_out; [split; lia|lia].
Qed.

Lemma regerror_cut_witness :
  load_bytes (fst (regerror (fun _ => 0) 0x300000 6)) 0x300000 6 = lit "regex" ++ [0].
Proof.
  destruct (regerror_cut (fun _ => 0) 0x300000 6) as (_ & Hb & _);
    [discriminate|reflexivity|split; discriminate|].
  apply (bytes_at_load _ 0x300000 (lit "regex" ++ [0])); [split; discriminate|exact Hb].
Defined.
