(* ===== verification/IsoFs.v ===== *)
(** * IsoFs: the mount table and the ISO 9660 reader of [src/kernel/fs.c]

    A directory record is the list of the bytes from its first one on.  The
    sector buffer [iso_sector_scratch] is followed in memory by bytes that the
    linker chooses; [after] stands for them, so that a read past the end of the
    buffer has the value the machine would give it. *)
From S2P Require Import Prelude KernelH Util Memory Heap Storage.
Local Open Scope Z_scope.
Local Open Scope slop_scope.

Definition MAX_MOUNTS : nat := 8.
Definition ISO_SECTOR_SIZE : Z := 2048.
Definition ISO_FILE_MAX : Z := 2 * 1024 * 1024.
Definition FS_DIRENT_NAME_MAX : Z := 63.

Record iso_dir_loc := { extent_lba : Z; loc_size : Z; loc_flags : Z }.

(** [p[i]] *)
Definition byte_at (p : list Z) (i : Z) : Z := nth (Z.to_nat i) p 0.

Definition read_u32_le (p : list Z) : Z :=
  Z.lor (Z.lor (Z.lor (byte_at p 0) (Z.shiftl (byte_at p 1) 8))
               (Z.shiftl (byte_at p 2) 16)) (Z.shiftl (byte_at p 3) 24).

Definition from (p : list Z) (i : Z) : list Z := drop (Z.to_nat i) p.

Definition ascii_lower (c : Z) : Z :=
  if (65 <=? c) && (c <=? 90) then c - 65 + 97 else c.

(** ** Names *)

Definition iso_system_use_offset (name_len : Z) : Z :=
  let offset := 33 +u name_len in
  if Z.land name_len 1 =? 0 then offset +u 1 else offset.

Fixpoint names_match_casefold (a b : list Z) : bool :=
  match a, b with
  | x :: a', y :: b' =>
      if negb (x =? 0) && negb (y =? 0)
      then if negb (ascii_lower x =? ascii_lower y) then false
           else names_match_casefold a' b'
      else (x =? 0) && (y =? 0)
  | _, _ => (chr a =? 0) && (chr b =? 0)
  end.

(** [for (i = 5; i < entry_len; ++i) out[out_len++] = ...], stopping when the
    buffer is full. *)
Fixpoint rr_copy (bytes out : list Z) (out_size : Z) : list Z :=
  match bytes with
  | [] => out
  | c :: bytes' =>
      if out_size <=? Z.of_nat (length out) + 1 then out
      else rr_copy bytes' (out ++ [ascii_lower c]) out_size
  end.

(** The loop over the system use entries, from [off]; [out] is what the buffer
    holds so far.  An entry takes at least four bytes, so that [rec_len] passes
    are enough. *)
Fixpoint rr_loop (fuel : nat) (rec : list Z) (rec_len off out_size : Z) (out : list Z)
    : option (list Z) :=
  match fuel with
  | O => None
  | S f =>
      if off + 4 <=? rec_len then
        let entry := from rec off in
        let entry_len := byte_at entry 2 in
        if (entry_len <? 4) || (rec_len <? off + entry_len) then None
        else if (byte_at entry 0 =? 78) && (byte_at entry 1 =? 77) && (5 <=? entry_len) then
          let flags := byte_at entry 4 in
          if negb (Z.land flags 6 =? 0) then None
          else
            let out := rr_copy (take (Z.to_nat (entry_len - 5)) (from entry 5)) out out_size in
            if (Z.land flags 1 =? 0) && (0 <? Z.of_nat (length out)) then Some out
            else rr_loop f rec rec_len (off + entry_len) out_size out
        else rr_loop f rec rec_len (off + entry_len) out_size out
      else None
  end.

(** The name found, without the terminator the code puts behind it. *)
Definition iso_try_read_rock_ridge_name (rec : list Z) (rec_len name_len out_size : Z)
    : option (list Z) :=
  if out_size =? 0 then None
  else
    let off := iso_system_use_offset name_len in
    if rec_len <=? off then None
    else rr_loop (S (Z.to_nat rec_len)) rec rec_len off out_size [].

(** The common start of [iso_name_matches] and [iso_name_copy]: the name up to
    its version suffix, without a final dot. *)
Fixpoint name_until_semicolon (name : list Z) : list Z :=
  match name with
  | [] => []
  | c :: name' => if c =? 59 then [] else c :: name_until_semicolon name'
  end.

Definition effective_name (name : list Z) : list Z :=
  let n := name_until_semicolon name in
  if (0 <? Z.of_nat (length n)) && (byte_at n (Z.of_nat (length n) - 1) =? 46)
  then take (length n - 1) n else n.

Fixpoint match_effective (name component : list Z) : bool :=
  match name with
  | [] => chr component =? 0
  | c :: name' =>
      let a := ascii_lower c in
      let b := ascii_lower (chr component) in
      if (b =? 0) || negb (a =? b) then false
      else match_effective name' (tl component)
  end.

Definition iso_name_matches (rec_name component : list Z) : bool :=
  match_effective (effective_name rec_name) component.

(** What the buffer then holds, without the terminator. *)
Definition iso_name_copy (rec_name : list Z) (out_size : Z) : list Z :=
  if out_size =? 0 then []
  else map ascii_lower (take (Z.to_nat (out_size - 1)) (effective_name rec_name)).

(** The name field of a record: [name_len] bytes from offset 33. *)
Definition rec_name (rec : list Z) : list Z := take (Z.to_nat (byte_at rec 32)) (from rec 33).
Definition rec_len (rec : list Z) : Z := byte_at rec 0.

Definition iso_record_name_matches (rec component : list Z) : bool :=
  match iso_try_read_rock_ridge_name rec (rec_len rec) (byte_at rec 32) (FS_DIRENT_NAME_MAX + 1) with
  | Some rr => names_match_casefold rr component
  | None => iso_name_matches (rec_name rec) component
  end.

(** The characters copied, up to the first NUL: what the callers use. *)
Definition iso_record_name_copy (rec : list Z) (out_size : Z) : list Z :=
  match iso_try_read_rock_ridge_name rec (rec_len rec) (byte_at rec 32) out_size with
  | Some rr => cstr rr
  | None => cstr (iso_name_copy (rec_name rec) out_size)
  end.

(** [!(name_len == 1 && (rec_name[0] == 0 || rec_name[0] == 1))]: not the
    entries for the directory itself and its parent. *)
Definition is_named (rec : list Z) : bool :=
  negb ((byte_at rec 32 =? 1) && ((byte_at rec 33 =? 0) || (byte_at rec 33 =? 1))).

Definition rec_loc (rec : list Z) : iso_dir_loc := {|
  extent_lba := read_u32_le (from rec 2);
  loc_size := read_u32_le (from rec 10);
  loc_flags := byte_at rec 25 |}.

Definition is_dir (l : iso_dir_loc) : bool := negb (Z.land (loc_flags l) 2 =? 0).

Definition iso_extent_valid (lba size_bytes volume_sectors : Z) : bool :=
  let sectors := (size_bytes +u (ISO_SECTOR_SIZE - 1)) / ISO_SECTOR_SIZE in
  if volume_sectors =? 0 then false
  else if volume_sectors <=? lba then false
  else if sectors =? 0 then true
  else if (lba +u sectors) <? lba then false
  else (lba +u sectors) <=? volume_sectors.

Section iso.
(** The block devices and the bytes behind the sector buffer. *)
Context (devs : device_table) (after : list Z).

(** A sector of the device in the scratch buffer, with what follows it. *)
Definition read_sector (device_id lba : Z) : option (list Z) :=
  (fun s => s ++ after) <$> storage_read devs device_id lba 1.

Definition iso_read_pvd_root (device_id : Z) : option (iso_dir_loc * Z) :=
  sector ← read_sector device_id 16;
  if negb (byte_at sector 0 =? 1) || negb (byte_at sector 6 =? 1) ||
     negb (byte_at sector 1 =? 67) || negb (byte_at sector 2 =? 68) ||
     negb (byte_at sector 3 =? 48) || negb (byte_at sector 4 =? 48) ||
     negb (byte_at sector 5 =? 49)
  then None
  else
    let volume_sectors := read_u32_le (from sector 80) in
    let root := from sector 156 in
    if byte_at root 0 <? 34 then None else Some (rec_loc root, volume_sectors).

(** One record of the loop [while (offset < dir->size)] that
    [iso_find_child], [iso_list_dir] and [iso_list_dir_entries] share: [inl
    false] is their [return 0], [inl true] the end of the directory, [inr] the
    next offset with the record met there, if the sector was not at its end. *)
Definition dir_step (device_id : Z) (dir : iso_dir_loc) (offset : Z)
    : bool + (Z * option (list Z)) :=
  if loc_size dir <=? offset then inl true
  else
    let sec_off := offset `mod` ISO_SECTOR_SIZE in
    match read_sector device_id (extent_lba dir +u (offset / ISO_SECTOR_SIZE)) with
    | None => inl false
    | Some sector =>
        let len := byte_at sector sec_off in
        if len =? 0 then inr (u32 ((offset / ISO_SECTOR_SIZE + 1) * ISO_SECTOR_SIZE), None)
        else if (ISO_SECTOR_SIZE <? sec_off + len) || (len <? 34) then inl false
        else inr (offset +u len, Some (from sector sec_off))
    end.

Fixpoint find_child_loop (fuel : nat) (device_id : Z) (dir : iso_dir_loc) (name : list Z) (offset : Z)
    : option iso_dir_loc :=
  match fuel with
  | O => None
  | S f =>
      match dir_step device_id dir offset with
      | inl _ => None
      | inr (offset', Some rec) =>
          if is_named rec && iso_record_name_matches rec name then Some (rec_loc rec)
          else find_child_loop f device_id dir name offset'
      | inr (offset', None) => find_child_loop f device_id dir name offset'
      end
  end.

(** An offset grows by at least one in a pass. *)
Definition dir_fuel (dir : iso_dir_loc) : nat := S (Z.to_nat (loc_size dir)).

Definition iso_find_child (device_id : Z) (dir : iso_dir_loc) (name : list Z) : option iso_dir_loc :=
  find_child_loop (dir_fuel dir) device_id dir name 0.

(** What [fs_print_list_entry] prints, without the colours. *)
Definition fs_print_list_entry (name : list Z) (isdir : bool) : list Z :=
  name ++ (if isdir then lit "/" else []) ++ [10].

Fixpoint list_dir_loop (fuel : nat) (device_id : Z) (dir : iso_dir_loc) (offset : Z) (printed : list Z)
    : list Z * bool :=
  match fuel with
  | O => (printed, false)
  | S f =>
      match dir_step device_id dir offset with
      | inl ok => (printed, ok)
      | inr (offset', Some rec) =>
          list_dir_loop f device_id dir offset'
            (if is_named rec
             then printed ++ fs_print_list_entry (iso_record_name_copy rec 64) (is_dir (rec_loc rec))
             else printed)
      | inr (offset', None) => list_dir_loop f device_id dir offset' printed
      end
  end.

Definition iso_list_dir (device_id : Z) (dir : iso_dir_loc) : list Z * bool :=
  list_dir_loop (dir_fuel dir) device_id dir 0 [].

Fixpoint list_entries_loop (fuel : nat) (device_id : Z) (dir : iso_dir_loc) (max_entries offset : Z)
    (entries : list (list Z * bool)) : option (list (list Z * bool)) :=
  match fuel with
  | O => None
  | S f =>
      match dir_step device_id dir offset with
      | inl ok => if (ok : bool) then Some entries else None
      | inr (offset', Some rec) =>
          list_entries_loop f device_id dir max_entries offset'
            (if is_named rec && (Z.of_nat (length entries) <? max_entries)
             then entries ++ [(iso_record_name_copy rec (FS_DIRENT_NAME_MAX + 1), is_dir (rec_loc rec))]
             else entries)
      | inr (offset', None) => list_entries_loop f device_id dir max_entries offset' entries
      end
  end.

Definition iso_list_dir_entries (device_id : Z) (dir : iso_dir_loc) (max_entries : Z)
    : option (list (list Z * bool)) :=
  list_entries_loop (dir_fuel dir) device_id dir max_entries 0 [].

(** ** Paths *)

(** The loop over the path of [iso_read_file_alloc] and [iso_resolve_path]:
    the directory reached, the last component and [have_component]. *)
Fixpoint iso_walk (device_id volume_sectors : Z) (p : list Z) (cur : iso_dir_loc)
    (comp : list Z) (have : bool) : option (iso_dir_loc * list Z * bool) :=
  match p with
  | [] => Some (cur, comp, have)
  | c :: p' =>
      if c =? 0 then Some (cur, comp, have)
      else if c =? 47 then
        if Z.of_nat (length comp) =? 0
        then iso_walk device_id volume_sectors p' cur comp have
        else
          match iso_find_child device_id cur comp with
          | None => None
          | Some child =>
              if negb (is_dir child) then None
              else if negb (iso_extent_valid (extent_lba child) (loc_size child) volume_sectors)
              then None
              else iso_walk device_id volume_sectors p' child [] true
          end
      else if 64 <=? Z.of_nat (length comp) + 1 then None
      else iso_walk device_id volume_sectors p' cur (comp ++ [c]) true
  end.

(** The copy of the file's sectors into the buffer: [copied] bytes are there. *)
Fixpoint copy_sectors (fuel : nat) (m : mem) (device_id lba buf total copied : Z) : mem * bool :=
  match fuel with
  | O => (m, false)
  | S f =>
      if copied <? total then
        let chunk := if ISO_SECTOR_SIZE <? total - copied then ISO_SECTOR_SIZE else total - copied in
        match read_sector device_id (lba +u (copied / ISO_SECTOR_SIZE)) with
        | None => (m, false)
        | Some sector =>
            copy_sectors f (store_bytes m (buf + copied) (take (Z.to_nat chunk) sector))
              device_id lba buf total (copied + chunk)
        end
      else (m, true)
  end.

(** [iso_read_file_alloc]: the address and the size of the copy. *)
Definition iso_read_file_alloc (h : heap_state) (m : mem) (device_id : Z) (path : list Z)
    : heap_state * mem * option (Z * Z) :=
  let p := skip_slashes path in
  if chr p =? 0 then (h, m, None)
  else
    match iso_read_pvd_root device_id with
    | None => (h, m, None)
    | Some (cur, volume_sectors) =>
        if negb (iso_extent_valid (extent_lba cur) (loc_size cur) volume_sectors) then (h, m, None)
        else
          match iso_walk device_id volume_sectors p cur [] false with
          | None => (h, m, None)
          | Some (cur, comp, have) =>
              if negb have || (Z.of_nat (length comp) =? 0) then (h, m, None)
              else
                match iso_find_child device_id cur comp with
                | None => (h, m, None)
                | Some child =>
                    if is_dir child then (h, m, None)
                    else if negb (iso_extent_valid (extent_lba child) (loc_size child) volume_sectors)
                    then (h, m, None)
                    else if ISO_FILE_MAX <? loc_size child then (h, m, None)
                    else
                      let '(h, buf) := kmalloc h (loc_size child +u 1) in
                      if buf =? 0 then (h, m, None)
                      else
                        let total := loc_size child in
                        let '(m, ok) := copy_sectors (S (Z.to_nat total)) m device_id
                                          (extent_lba child) buf total 0 in
                        if negb ok then (h, m, None)
                        else (h, store m (buf + total) 0, Some (buf, total))
                end
          end
    end.

Definition iso_resolve_path (device_id : Z) (path : list Z) : option (iso_dir_loc * bool) :=
  let p := skip_slashes path in
  match iso_read_pvd_root device_id with
  | None => None
  | Some (cur, volume_sectors) =>
      if negb (iso_extent_valid (extent_lba cur) (loc_size cur) volume_sectors) then None
      else if chr p =? 0 then Some (cur, true)
      else
        match iso_walk device_id volume_sectors p cur [] false with
        | None => None
        | Some (cur, comp, have) =>
            if negb have || (Z.of_nat (length comp) =? 0) then Some (cur, true)
            else
              match iso_find_child device_id cur comp with
              | None => None
              | Some child =>
                  if negb (iso_extent_valid (extent_lba child) (loc_size child) volume_sectors)
                  then None
                  else Some (child, is_dir child)
              end
        end
  end.

Definition iso_ops_list_dir (device_id : Z) (path : option (list Z)) : list Z * bool :=
  match iso_resolve_path device_id (default (lit "/") path) with
  | Some (loc, true) => iso_list_dir device_id loc
  | _ => ([], false)
  end.

Definition iso_ops_path_is_dir (device_id : Z) (path : option (list Z)) : bool :=
  match iso_resolve_path device_id (default (lit "/") path) with
  | Some (_, d) => d
  | None => false
  end.

Definition iso_ops_list_dir_entries (device_id : Z) (path : option (list Z)) (max_entries : Z)
    : option (list (list Z * bool)) :=
  match iso_resolve_path device_id (default (lit "/") path) with
  | Some (loc, true) => iso_list_dir_entries device_id loc max_entries
  | _ => None
  end.

(** ** Mounts *)

Inductive fs_ops := iso9660_ops.

Record mount_entry := {
  mt_used : bool;
  mt_path : list Z;
  mt_fs_name : list Z;
  mt_device_id : Z;
  mt_ops : option fs_ops
}.

Record mount_table := { mounts : list mount_entry; mounts_used : Z }.

Definition fs_ops_for_name (fs_name : list Z) : option fs_ops :=
  if str_eq fs_name (lit "iso9660") then Some iso9660_ops else None.

Definition is_known_fs (fs_name : list Z) : bool :=
  str_eq fs_name (lit "memfs") || bool_decide (is_Some (fs_ops_for_name fs_name)).

Definition mounts_reset (mt : mount_table) : mount_table := {|
  mounts := map (fun e => {| mt_used := false; mt_path := 0 :: tl (mt_path e);
                             mt_fs_name := 0 :: tl (mt_fs_name e); mt_device_id := -1;
                             mt_ops := None |}) (mounts mt);
  mounts_used := 0 |}.

Definition find_mount (mt : mount_table) (path : list Z) : option mount_entry :=
  let l := take (Z.to_nat (mounts_used mt)) (mounts mt) in
  i ← first_slot (fun e => mt_used e && str_eq (mt_path e) path) l; l !! i.

Definition fs_mount (mt : mount_table) (path fs_name : list Z) (device_id : Z)
    : mount_table * bool :=
  let ops := fs_ops_for_name fs_name in
  if (Z.of_nat MAX_MOUNTS <=? mounts_used mt) || negb (is_known_fs fs_name) then (mt, false)
  else if negb (chr path =? 47) then (mt, false)
  else if negb (str_eq fs_name (lit "memfs")) &&
          negb (bool_decide (is_Some (storage_get_device devs device_id)))
  then (mt, false)
  else
    ({| mounts := alter (fun e => {| mt_used := true;
                                     mt_path := str_copy (mt_path e) path 16;
                                     mt_fs_name := str_copy (mt_fs_name e) fs_name 16;
                                     mt_device_id := device_id; mt_ops := ops |})
                        (Z.to_nat (mounts_used mt)) (mounts mt);
        mounts_used := mounts_used mt + 1 |}, true).

Definition fs_mount_count (mt : mount_table) : Z := mounts_used mt.

(** What [fs_print_mounts] prints. *)
Definition print_mount (m : mount_entry) : list Z :=
  cstr (mt_fs_name m) ++ lit " on " ++ cstr (mt_path m) ++
  (if 0 <=? mt_device_id m
   then lit " dev=" ++ match storage_get_device devs (mt_device_id m) with
                       | Some dev => cstr (dev_name dev)
                       | None => lit "unknown"
                       end
   else []) ++ [10].

Definition fs_print_mounts (mt : mount_table) : list Z :=
  if mounts_used mt =? 0 then line "(no mounts)"
  else concat (map print_mount (take (Z.to_nat (mounts_used mt)) (mounts mt))).

(** The mount that serves a path, when it has a device and operations. *)
Definition mounted_iso (mt : mount_table) (mount_path : list Z) : option Z :=
  match find_mount mt mount_path with
  | Some m => if mt_device_id m <? 0 then None
              else match mt_ops m with
                   | Some iso9660_ops => Some (mt_device_id m)
                   | None => None
                   end
  | None => None
  end.

Definition fs_read_file_from_mount (mt : mount_table) (h : heap_state) (m : mem)
    (mount_path path : list Z) : heap_state * mem * option (Z * Z) :=
  match mounted_iso mt mount_path with
  | Some device_id => iso_read_file_alloc h m device_id path
  | None => (h, m, None)
  end.

Definition fs_list_dir_from_mount (mt : mount_table) (mount_path : list Z) (path : option (list Z))
    : list Z * bool :=
  match mounted_iso mt mount_path with
  | Some device_id => iso_ops_list_dir device_id path
  | None => ([], false)
  end.

Definition fs_path_is_dir_from_mount (mt : mount_table) (mount_path : list Z) (path : option (list Z))
    : bool :=
  match mounted_iso mt mount_path with
  | Some device_id => iso_ops_path_is_dir device_id path
  | None => false
  end.

Definition fs_list_dir_entries_from_mount (mt : mount_table) (mount_path : list Z)
    (path : option (list Z)) (max_entries : Z) : option (list (list Z * bool)) :=
  if max_entries =? 0 then None
  else
    match mounted_iso mt mount_path with
    | Some device_id => iso_ops_list_dir_entries device_id path max_entries
    | None => None
    end.

Definition fs_init (mt : mount_table) : mount_table :=
  let mt := mounts_reset mt in
  let mt := fst (fs_mount mt (lit "/") (lit "memfs") (-1)) in
  match storage_find_device devs (lit "cd0") with
  | Some cd0 => fst (fs_mount mt (lit "/mount/cdrom") (lit "iso9660") (dev_id cd0))
  | None => mt
  end.

End iso.

(** ** Names: what is listed is what is found *)

Lemma names_match_self a : names_match_casefold a (cstr a) = true.
Proof.
  induction a as [|c a IH]; cbn; [done|]. destruct (c =? 0) eqn:E; zify_bool; subst; [done|].
  cbn. rewrite (proj2 (Z.eqb_neq c 0)) by done. cbn [negb andb]. by rewrite Z.eqb_refl.
Qed.

Lemma ascii_lower_idem c : ascii_lower (ascii_lower c) = ascii_lower c.
Proof. unfold ascii_lower. repeat split_if; lia. Qed.

Lemma ascii_lower_zero c : ascii_lower c = 0 <-> c = 0.
Proof. unfold ascii_lower. split_if; lia. Qed.

(** A name of the kind without Rock Ridge that fits the buffers. *)
Definition plain_name_ok (rec : list Z) : Prop :=
  no_nul (effective_name (rec_name rec)) /\
  Z.of_nat (length (effective_name (rec_name rec))) <= FS_DIRENT_NAME_MAX.

Lemma match_effective_self n :
  no_nul n -> match_effective n (map ascii_lower n) = true.
Proof.
  induction 1 as [|c n Hc _ IH]; cbn; [done|]. rewrite ascii_lower_idem.
  rewrite (proj2 (Z.eqb_neq (ascii_lower c) 0)) by (by rewrite ascii_lower_zero).
  rewrite Z.eqb_refl. done.
Qed.

Lemma record_name_found rec :
  plain_name_ok rec ->
  iso_record_name_matches rec (iso_record_name_copy rec (FS_DIRENT_NAME_MAX + 1)) = true.
Proof.
  intros [Hn Hl]. unfold iso_record_name_matches, iso_record_name_copy.
  destruct (iso_try_read_rock_ridge_name _ _ _ _) as [rr|]; [apply names_match_self|].
  unfold iso_name_matches, iso_name_copy, FS_DIRENT_NAME_MAX in *.
  rewrite take_ge by lia. cbn [Z.eqb]. change (63 + 1 =? 0) with false. cbv iota.
  rewrite cstr_id; [by apply match_effective_self|].
  apply Forall_map. revert Hn. apply Forall_impl. intros c Hc. cbn. by rewrite ascii_lower_zero.
Qed.

(** ** Directories *)

Section iso_lemmas.
Context (devs : device_table) (after : list Z).

(** A device that gives whole sectors. *)
Definition device_ok (device_id : Z) : Prop :=
  forall lba s, storage_read devs device_id lba 1 = Some s ->
    Z.of_nat (length s) = ISO_SECTOR_SIZE /\ all_bytes s.

Lemma dir_step_progress device_id dir offset offset' r :
  0 <= offset -> loc_size dir <= 4294967296 - ISO_SECTOR_SIZE ->
  dir_step devs after device_id dir offset = inr (offset', r) -> offset < offset'.
Proof.
  intros Ho Hs. unfold dir_step, ISO_SECTOR_SIZE in *.
  destruct (_ <=? offset) eqn:E0; [done|]. destruct (read_sector _ _ _ _) as [sector|]; [|done].
  destruct (_ =? 0) eqn:E1; zify_bool.
  - intros [= <- <-]. rewrite u32_small; mlia.
  - destruct (_ || _) eqn:E2; [done|]. zify_bool. intros [= <- <-].
    pose proof (Z.mod_pos_bound offset 2048 ltac:(lia)). rewrite u32_small; mlia.
Qed.

Lemma nth_byte p i : all_bytes p -> 0 <= byte_at p i.
Proof.
  intros Hp. unfold byte_at. destruct (decide (Z.to_nat i < length p)%nat) as [Hl|Hl].
  - apply lookup_lt_is_Some in Hl as [b Hb]. rewrite (nth_lookup_Some _ _ _ _ Hb).
    pose proof (Forall_lookup_1 _ _ _ _ Hp Hb) as Hx. unfold is_byte in Hx. lia.
  - rewrite nth_overflow; lia.
Qed.

Lemma read_u32_le_nonneg p : all_bytes p -> 0 <= read_u32_le p.
Proof.
  intros Hp. unfold read_u32_le.
  repeat (apply Z.lor_nonneg; split); try apply Z.shiftl_nonneg; by apply nth_byte.
Qed.

Lemma find_child_size fuel device_id dir name offset child :
  device_ok device_id -> all_bytes after ->
  find_child_loop devs after fuel device_id dir name offset = Some child -> 0 <= loc_size child.
Proof.
  intros Hdev Ha. revert offset. induction fuel as [|f IH]; intros offset; cbn [find_child_loop]; [done|].
  destruct (dir_step devs after device_id dir offset) as [b|[o' [rec|]]] eqn:E; [done| |apply IH].
  destruct (_ && _); [|apply IH]. intros [= <-]. cbn [loc_size rec_loc].
  apply read_u32_le_nonneg. unfold from at 1. apply Forall_drop.
  unfold dir_step in E. destruct (_ <=? offset); [done|]. unfold read_sector in E.
  destruct (storage_read _ _ _ _) as [s|] eqn:Es; cbn in E; [|done].
  destruct (_ =? 0); [done|]. destruct (_ || _); [done|]. injection E as _ <-.
  apply Forall_drop, Forall_app_2; [|done]. by apply (Hdev _ _ Es).
Qed.

(** More fuel never changes a result. *)
Lemma find_child_fuel device_id dir name f g offset :
  0 <= offset -> loc_size dir <= 4294967296 - ISO_SECTOR_SIZE ->
  loc_size dir - offset < Z.of_nat f -> (f <= g)%nat -> 0 < Z.of_nat f ->
  find_child_loop devs after g device_id dir name offset =
  find_child_loop devs after f device_id dir name offset.
Proof.
  intros Ho Hs. revert g offset Ho. induction f as [|f IH]; intros g offset Ho Hm Hle Hp; [lia|].
  destruct g as [|g]; [lia|]. cbn [find_child_loop].
  destruct (dir_step devs after device_id dir offset) as [b|[o' r]] eqn:E; [done|].
  pose proof (dir_step_progress _ _ _ _ _ Ho Hs E).
  assert (offset < loc_size dir) as Hlt.
  { unfold dir_step in E. destruct (_ <=? offset) eqn:E0; [done|]. by zify_bool. }
  destruct r as [rec|]; [destruct (_ && _); [done|]|]; apply IH; lia.
Qed.

Lemma list_entries_fuel device_id dir max f g offset acc :
  0 <= offset -> loc_size dir <= 4294967296 - ISO_SECTOR_SIZE ->
  loc_size dir - offset < Z.of_nat f -> (f <= g)%nat -> 0 < Z.of_nat f ->
  list_entries_loop devs after g device_id dir max offset acc =
  list_entries_loop devs after f device_id dir max offset acc.
Proof.
  intros Ho Hs. revert g offset acc Ho. induction f as [|f IH]; intros g offset acc Ho Hm Hle Hp; [lia|].
  destruct g as [|g]; [lia|]. cbn [list_entries_loop].
  destruct (dir_step devs after device_id dir offset) as [b|[o' r]] eqn:E; [done|].
  pose proof (dir_step_progress _ _ _ _ _ Ho Hs E).
  assert (offset < loc_size dir) as Hlt.
  { unfold dir_step in E. destruct (_ <=? offset) eqn:E0; [done|]. by zify_bool. }
  destruct r as [rec|]; apply IH; lia.
Qed.

(** The offsets at which the loops look for a record. *)
Inductive dir_visits (device_id : Z) (dir : iso_dir_loc) : Z -> Prop :=
  | visit_start : dir_visits device_id dir 0
  | visit_next o o' r :
      dir_visits device_id dir o -> dir_step devs after device_id dir o = inr (o', r) ->
      dir_visits device_id dir o'.

(** Every name in the directory fits the buffers. *)
Definition dir_names_ok (device_id : Z) (dir : iso_dir_loc) : Prop :=
  forall o o' rec, dir_visits device_id dir o ->
    dir_step devs after device_id dir o = inr (o', Some rec) ->
    is_named rec = true -> plain_name_ok rec.

(** Every listed entry is found by its name. *)
Lemma listed_found device_id dir max fuel offset acc entries :
  dir_names_ok device_id dir -> dir_visits device_id dir offset ->
  list_entries_loop devs after fuel device_id dir max offset acc = Some entries ->
  forall e, e ∈ entries ->
    e ∈ acc \/ is_Some (find_child_loop devs after fuel device_id dir (fst e) offset).
Proof.
  intros Hn. revert offset acc. induction fuel as [|f IH]; intros offset acc Hv Hl e He; [done|].
  cbn [list_entries_loop find_child_loop] in *.
  destruct (dir_step devs after device_id dir offset) as [b|[o' [rec|]]] eqn:E.
  - destruct b; [|done]. injection Hl as <-. by left.
  - pose proof (visit_next _ _ _ _ _ Hv E) as Hv'. destruct (IH _ _ Hv' Hl e He) as [Hin|[l Hf]].
    + destruct (is_named rec && _) eqn:En; [|by left]. zify_bool.
      apply elem_of_app in Hin as [Hin|Hin]; [by left|]. right.
      apply list_elem_of_singleton in Hin as ->. cbn [fst].
      destruct (is_named rec) eqn:Eis; [|done].
      rewrite record_name_found by (by apply (Hn offset o')). by eexists.
    + right. destruct (is_named rec && iso_record_name_matches rec e.1); [by eexists|by exists l].
  - pose proof (visit_next _ _ _ _ _ Hv E) as Hv'.
    destruct (IH _ _ Hv' Hl e He) as [Hin|[l Hf]]; [by left|]. right. by exists l.
Qed.

(** ** Reading a file *)

(** The [i]-th byte of a file that starts at sector [lba]. *)
Definition file_byte (device_id lba i : Z) : option Z :=
  s ← storage_read devs device_id (lba +u (i / ISO_SECTOR_SIZE)) 1;
  s !! Z.to_nat (i `mod` ISO_SECTOR_SIZE).

Lemma copy_sectors_spec fuel m device_id lba buf total copied m' ok :
  device_ok device_id -> 0 < buf -> buf + total < 4294967296 ->
  0 <= copied <= total -> (copied = total \/ copied `mod` ISO_SECTOR_SIZE = 0) ->
  copy_sectors devs after fuel m device_id lba buf total copied = (m', ok) ->
  same_outside (buf + copied) (total - copied) m m' /\ (mem_ok m -> mem_ok m') /\
  (ok = true -> forall i, copied <= i < total ->
     exists b, file_byte device_id lba i = Some b /\ m' (buf + i) = b).
Proof.
  intros Hdev Hb Hw. revert m copied. induction fuel as [|f IH]; intros m copied Hc Hal; cbn [copy_sectors].
  { intros [= <- <-]. by split_and!; [apply same_outside_refl|..]. }
  destruct (copied <? total) eqn:E0; zify_bool.
  2:{ intros [= <- <-]. split_and!; [apply same_outside_refl|done|]. intros _ i Hi. lia. }
  unfold read_sector. destruct (storage_read devs device_id (lba +u (copied / ISO_SECTOR_SIZE)) 1) as [s|] eqn:Es; cbn.
  2:{ intros [= <- <-]. by split_and!; [apply same_outside_refl|..]. }
  destruct (Hdev _ _ Es) as [Hslen Hsb].
  set (chunk := if ISO_SECTOR_SIZE <? total - copied then ISO_SECTOR_SIZE else total - copied).
  assert (0 < chunk <= ISO_SECTOR_SIZE /\ copied + chunk <= total /\
          (chunk = ISO_SECTOR_SIZE \/ copied + chunk = total)) as (Hch & Hct & Hor).
  { unfold chunk, ISO_SECTOR_SIZE in *. split_if; lia. }
  assert (copied `mod` ISO_SECTOR_SIZE = 0) as Hal0 by (destruct Hal; [lia|done]).
  rewrite take_app_le by lia.
  set (l := take (Z.to_nat chunk) s).
  assert (Z.of_nat (length l) = chunk) as Hll by (unfold l; rewrite length_take; lia).
  set (m1 := store_bytes m (buf + copied) l). intros Hrec.
  assert (fits (buf + copied) (Z.of_nat (length l))) as Hfits by (split; lia).
  destruct (IH m1 (copied + chunk)) as (Hfr & Hmok & Hok); [lia| |done|].
  { destruct Hor as [Hor|Hor]; [right|by left]. rewrite Hor. unfold ISO_SECTOR_SIZE in *. mlia. }
  assert (same_outside (buf + copied) chunk m m1) as Hm1.
  { intros x Hx. apply store_bytes_out; [done|lia]. }
  split; [|split; [intros Hm; by apply Hmok, store_bytes_ok|]].
  - eapply (same_outside_trans _ _ (buf + copied) chunk (buf + (copied + chunk)) (total - (copied + chunk)));
      [exact Hm1|exact Hfr|lia..].
  - intros Hok1 i Hi. destruct (Z.lt_ge_cases i (copied + chunk)) as [Hlt|Hge].
    2:{ apply Hok; [done|lia]. }
    assert (i / ISO_SECTOR_SIZE = copied / ISO_SECTOR_SIZE /\ i `mod` ISO_SECTOR_SIZE = i - copied) as [Hd Hmo].
    { unfold ISO_SECTOR_SIZE in *. mlia. }
    destruct (lookup_lt_is_Some_2 s (Z.to_nat (i - copied))) as [b Hbs]; [lia|].
    exists b. split.
    + unfold file_byte. rewrite Hd, Es. cbn. by rewrite Hmo.
    + rewrite Hfr by lia. replace (buf + i) with (buf + copied + Z.of_nat (Z.to_nat (i - copied))) by lia.
      unfold m1. rewrite (store_bytes_in _ _ _ _ b); [apply u8_byte; by apply (Forall_lookup_1 _ _ _ _ Hsb Hbs)|done|].
      unfold l. by rewrite lookup_take_lt by lia.
Qed.

(** Enough fuel: the copy of a readable file completes. *)
Lemma copy_sectors_total fuel m device_id lba buf total copied :
  0 <= copied <= total -> total - copied < Z.of_nat fuel ->
  (forall i, copied <= i < total -> is_Some (storage_read devs device_id (lba +u (i / ISO_SECTOR_SIZE)) 1)) ->
  snd (copy_sectors devs after fuel m device_id lba buf total copied) = true.
Proof.
  revert m copied. induction fuel as [|f IH]; intros m copied Hc Hf Hr; cbn [copy_sectors].
  { lia. }
  destruct (copied <? total) eqn:E0; zify_bool; [|done].
  unfold read_sector. destruct (Hr copied) as [s ->]; [lia|]. cbn.
  unfold ISO_SECTOR_SIZE in *. split_if; apply IH; try lia; intros i Hi; apply Hr; lia.
Qed.

(** What a read does to the heap and the memory, whatever its outcome. *)
Lemma read_alloc_spec h m device_id path h' m' r :
  heap_inv h -> device_ok device_id -> all_bytes after ->
  iso_read_file_alloc devs after h m device_id path = (h', m', r) ->
  heap_inv h' /\ mem_step h m h' m' /\
  match r with
  | None => True
  | Some (buf, size) => 0 <= size /\ exists child,
      loc_size child = size /\ is_dir child = false /\ 0 < buf /\
      h_current h <= buf /\ buf + size + 1 <= h_current h' /\
      same_outside buf (size + 1) m m' /\ m' (buf + size) = 0 /\
      forall i, 0 <= i < size -> file_byte device_id (extent_lba child) i = Some (m' (buf + i))
  end.
Proof.
  intros Hi Hdev Ha. unfold iso_read_file_alloc.
  pose proof (mem_step_refl h m) as Hrefl.
  destruct (chr _ =? 0); [by intros [= <- <- <-]|].
  destruct (iso_read_pvd_root _ _ _) as [[cur vol]|]; [|by intros [= <- <- <-]].
  destruct (negb (iso_extent_valid _ _ _)); [by intros [= <- <- <-]|].
  destruct (iso_walk _ _ _ _ _ _ _) as [[[cur' comp] have]|]; [|by intros [= <- <- <-]].
  destruct (_ || _); [by intros [= <- <- <-]|].
  destruct (iso_find_child _ _ _ _ _) as [child|] eqn:Ec; [|by intros [= <- <- <-]].
  destruct (is_dir child) eqn:Ed; [by intros [= <- <- <-]|].
  destruct (negb (iso_extent_valid _ _ _)) eqn:Ev; [by intros [= <- <- <-]|].
  destruct (ISO_FILE_MAX <? loc_size child) eqn:Em; zify_bool; [by intros [= <- <- <-]|].
  destruct (kmalloc h _) as [h1 buf] eqn:Ek.
  assert (is_u32 (u32 (loc_size child + 1))) as Hu by apply u32_range.
  destruct (buf =? 0) eqn:Eb; zify_bool.
  { subst buf. apply kmalloc_None in Ek as ->; [|done..]. by intros [= <- <- <-]. }
  destruct (kmalloc_Some _ _ _ _ Hi Hu Ek Eb) as (Hi1 & Hbuf & Hpos & Hend & Hlim & Hl2 & _ & Hl3 & _).
  pose proof (hi_start _ Hi). pose proof (hi_current _ Hi).
  unfold USER_IMAGE_RESERVED_BASE, ISO_FILE_MAX in *.
  assert (0 <= loc_size child) as Hsz by (exact (find_child_size _ _ _ _ _ _ Hdev Ha Ec)).
  rewrite (u32_small (loc_size child + 1)) in * by lia.
  destruct (copy_sectors _ _ _ _ _ _ _ _ _) as [m1 ok] eqn:Ecs.
  apply copy_sectors_spec in Ecs as (Hfr & Hmok & Hok); [|done|lia|lia|lia|by right].
  rewrite Z.add_0_r, Z.sub_0_r in Hfr.
  destruct ok; cbn [negb]; intros [= <- <- <-].
  + assert (same_outside buf (loc_size child + 1) m (store m1 (buf + loc_size child) 0)) as Hso.
    { intros x Hx. unfold store. rewrite u32_small by lia. split_if; [lia|]. apply Hfr. lia. }
    split_and!; [done|apply (kmalloc_step _ _ _ _ _ _ Hi Hu Ek Eb Hso); auto using store_ok|done|].
    exists child. split_and!; try done; try lia.
    * unfold store. rewrite u32_small, Z.eqb_refl by lia. done.
    * intros i Hi0. destruct (Hok eq_refl i) as (b & Hb & Hmb); [lia|].
      rewrite Hb. f_equal. unfold store. rewrite u32_small by lia. split_if; [lia|done].
  + split_and!; [done| |done]. apply (kmalloc_step _ _ _ _ _ _ Hi Hu Ek Eb); [|done].
    intros x Hx. apply Hfr. lia.
Qed.

End iso_lemmas.

(** ** Theorems *)

Section iso_thms.
Context (devs : device_table) (after : list Z).



End iso_thms.

(** ** A small disc *)

Definition pad (n : nat) (l : list Z) : list Z := l ++ replicate (n - length l) 0.

Definition dir_record (len lba size fl : Z) (name : list Z) : list Z :=
  [len; 0] ++ le32 lba ++ [0; 0; 0; 0] ++ le32 size ++ [0; 0; 0; 0] ++ replicate 7 0 ++
  [fl; 0; 0; 0; 0; 0; 0] ++ [Z.of_nat (length name)] ++ name.

Definition demo_pvd : list Z :=
  pad 2048 (pad 156 (pad 80 ([1] ++ lit "CD001" ++ [1]) ++ le32 30) ++ dir_record 34 20 2048 2 [0]).
Definition demo_root : list Z :=
  pad 2048 (dir_record 34 20 2048 2 [0] ++ dir_record 34 20 2048 2 [1] ++
            dir_record 44 22 5 0 (lit "HELLO.TXT;1") ++ dir_record 36 21 2048 2 (lit "BIN")).

Definition demo_disc : block_read_fn := fun lba _ =>
  if lba =? 16 then Some demo_pvd
  else if lba =? 20 then Some demo_root
  else if lba =? 22 then Some (pad 2048 (lit "hello"))
  else None.

Definition demo_devs : device_table :=
  fst (storage_register_device [] (replicate 16 0) (Some (lit "cd0")) 2048 (Some demo_disc)).

Lemma byte_list l : forallb (fun b => (0 <=? b) && (b <? 256)) l = true -> all_bytes l.
Proof.
  intros H. apply Forall_forall. intros b Hb. apply (proj1 (forallb_forall _ _) H) in Hb.
  zify_bool. split; lia.
Qed.

Lemma demo_device_ok : device_ok demo_devs 0.
Proof.
  intros lba s Hs. change (demo_disc lba 1 = Some s) in Hs. unfold demo_disc in Hs.
  repeat (destruct (lba =? _); [injection Hs as <-;
    split; [vm_compute; reflexivity|apply byte_list; vm_compute; reflexivity]|]).
  done.
Qed.

Definition demo_root_loc : iso_dir_loc := {| extent_lba := 20; loc_size := 2048; loc_flags := 2 |}.

Lemma demo_visits o :
  dir_visits demo_devs [] 0 demo_root_loc o -> o ∈ [0; 34; 68; 112; 148; 2048].
Proof.
  induction 1 as [|o o' r _ IH Hs]; [set_solver|].
  repeat (apply elem_of_cons in IH as [-> |IH]; [vm_compute in Hs; simplify_eq; set_solver|]).
  by apply not_elem_of_nil in IH.
Qed.

Lemma demo_names_ok : dir_names_ok demo_devs [] 0 demo_root_loc.
Proof.
  intros o o' rec Hv%demo_visits Hs Hn.
  repeat (apply elem_of_cons in Hv as [-> |Hv];
    [vm_compute in Hs; simplify_eq; vm_compute in Hn;
     first [discriminate Hn | split; [apply (bool_decide_unpack _)|]; vm_compute; done]|]).
  by apply not_elem_of_nil in Hv.
Qed.



(** the extent check accepts every size within 2047 bytes of 2^32,
    wherever the extent starts on the volume: rounding such a size up to whole
    sectors wraps around to zero sectors, although the extent would take more
    than two million. *)
Theorem iso_extent_wraps lba size volume_sectors :
  4294967296 - 2047 <= size < 4294967296 -> 0 <= lba < volume_sectors ->
  iso_extent_valid lba size volume_sectors = true /\ 2097151 <= size / ISO_SECTOR_SIZE.
Proof.
  intros Hs Hl. unfold iso_extent_valid, ISO_SECTOR_SIZE. cbn [Z.eqb].
  destruct (u32_add_cases size (2048 - 1)) as [[? _]|[_ ->]]; [lia..|].
  replace ((size + (2048 - 1) - 4294967296) / 2048) with 0 by mlia.
  rewrite (proj2 (Z.eqb_neq volume_sectors 0)), (proj2 (Z.leb_gt volume_sectors lba)) by lia.
  split; [done|mlia].
Qed.

Lemma iso_extent_wraps_witness : iso_extent_valid 20 4294967295 30 = true.
Proof. apply (iso_extent_wraps 20 4294967295 30); lia. Defined.

(** A directory sector whose last record, of 34 bytes, ends with the sector
    and says that its name has two bytes. *)
Definition overread_root : list Z :=
  concat (replicate 7 (pad 255 (dir_record 255 0 0 2 [0]))) ++
  pad 229 (dir_record 229 0 0 2 [0]) ++
  take 34 (dir_record 34 22 5 0 [65; 66]).

Definition overread_devs : device_table :=
  fst (storage_register_device [] (replicate 16 0) (Some (lit "cd0")) 2048
         (Some (fun _ _ => Some overread_root))).

(** the length of a record's name is not checked against the record: the
    name of a record at the end of a sector is compared with the memory behind
    the sector buffer, so that the same disc has or has not a file of a given
    name depending on what lies there. *)
Theorem iso_name_overread :
  length overread_root = Z.to_nat ISO_SECTOR_SIZE /\
  iso_find_child overread_devs (lit "b") 0 demo_root_loc (lit "ab") =
    Some {| extent_lba := 22; loc_size := 5; loc_flags := 0 |} /\
  iso_find_child overread_devs (lit "c") 0 demo_root_loc (lit "ab") = None.
Proof. split_and!; vm_compute; reflexivity. Qed.

(** ** Mounting *)

Lemma mounts_reset_ok mt :
  length (mounts mt) = MAX_MOUNTS ->
  Forall (fun e => length (mt_path e) = 16%nat /\ length (mt_fs_name e) = 16%nat) (mounts mt) ->
  length (mounts (mounts_reset mt)) = MAX_MOUNTS /\
  Forall (fun e => length (mt_path e) = 16%nat /\ length (mt_fs_name e) = 16%nat) (mounts (mounts_reset mt)).
Proof.
  intros Hl Hn. cbn [mounts mounts_reset]. split; [by rewrite length_map|].
  apply Forall_map. revert Hn. apply Forall_impl. intros e [Hp Hf]. cbn.
  destruct (mt_path e), (mt_fs_name e); cbn in *; lia.
Qed.

Record mounts_ok (mt : mount_table) : Prop := {
  mk_len : length (mounts mt) = MAX_MOUNTS;
  mk_used : 0 <= mounts_used mt <= Z.of_nat MAX_MOUNTS;
  mk_bufs : Forall (fun e => length (mt_path e) = 16%nat /\ length (mt_fs_name e) = 16%nat) (mounts mt)
}.

Lemma fs_mount_spec devs mt path fs_name device_id mt' b :
  mounts_ok mt -> fs_mount devs mt path fs_name device_id = (mt', b) ->
  mounts_ok mt' /\
  (if b then exists e, mounts mt' !! Z.to_nat (mounts_used mt) = Some e /\
       mounts_used mt' = mounts_used mt + 1 /\ mt_used e = true /\
       cstr (mt_path e) = take 15 (cstr path) /\ mt_device_id e = device_id /\
       mt_ops e = fs_ops_for_name fs_name
   else mt' = mt) /\
  take (Z.to_nat (mounts_used mt)) (mounts mt') = take (Z.to_nat (mounts_used mt)) (mounts mt).
Proof.
  intros [Hl Hu Hb]. unfold fs_mount.
  destruct (_ || _) eqn:E1; [by intros [= <- <-]|]. zify_bool.
  destruct (negb (chr path =? 47)); [by intros [= <- <-]|].
  destruct (_ && _); [by intros [= <- <-]|].
  destruct (lookup_lt_is_Some_2 (mounts mt) (Z.to_nat (mounts_used mt))) as [e He]; [lia|].
  rewrite (alter_known _ _ _ _ He).
  intros [= <- <-]. cbn [mounts mounts_used].
  destruct (Forall_lookup_1 _ _ _ _ Hb He) as [Hp Hf].
  split_and!.
  - constructor; cbn [mounts mounts_used]; [by rewrite length_insert|lia|].
    apply Forall_insert; [done|]. cbn. rewrite !str_copy_length; lia.
  - eexists. split; [apply list_lookup_insert_eq; by apply lookup_lt_Some in He|].
    cbn. split_and!; try done. rewrite str_copy_cstr by lia. done.
  - by rewrite take_insert_ge.
Qed.

Lemma fs_mount_true devs mt path fs_name device_id mt' b :
  mounts_used mt < Z.of_nat MAX_MOUNTS -> is_known_fs fs_name = true -> chr path = 47 ->
  str_eq fs_name (lit "memfs") = true \/ is_Some (storage_get_device devs device_id) ->
  fs_mount devs mt path fs_name device_id = (mt', b) -> b = true.
Proof.
  intros Hu Hk Hc Hd. unfold fs_mount.
  rewrite (proj2 (Z.leb_gt _ _)), Hk, Hc, Z.eqb_refl by done. cbn [negb orb].
  destruct Hd as [-> |Hd]; [by intros [= _ <-]|].
  rewrite (bool_decide_true _ Hd), andb_false_r. by intros [= _ <-].
Qed.

Lemma find_device_ok devs name d :
  devices_ok devs -> storage_find_device devs name = Some d ->
  0 <= dev_id d /\ storage_get_device devs (dev_id d) = Some d.
Proof.
  intros [Hl Hids]. unfold storage_find_device. intros (i & _ & Hi)%bind_Some.
  pose proof (Hids _ _ Hi) as Hid. split; [lia|]. apply storage_get_spec. split; [lia|].
  by rewrite Hid, Nat2Z.id.
Qed.

(** after [fs_init] the disc is served at "/mount/cdrom" exactly when a
    device named "cd0" was registered, from that device; "/" is served by no
    operations of fs.c, and the counter says how many mounts there are. *)
Theorem fs_init_mounts devs mt :
  devices_ok devs -> length (mounts mt) = MAX_MOUNTS ->
  Forall (fun e => length (mt_path e) = 16%nat /\ length (mt_fs_name e) = 16%nat) (mounts mt) ->
  let mt' := fs_init devs mt in
  mounts_ok mt' /\
  mounted_iso mt' (lit "/mount/cdrom") = dev_id <$> storage_find_device devs (lit "cd0") /\
  mounted_iso mt' (lit "/") = None /\
  fs_mount_count mt' = match storage_find_device devs (lit "cd0") with Some _ => 2 | None => 1 end.
Proof.
  intros Hd Hl Hb. unfold fs_init. cbv zeta.
  destruct (mounts_reset_ok mt Hl Hb) as [Hl0 Hb0].
  assert (mounts_ok (mounts_reset mt)) as Hok0.
  { constructor; [done|cbn [mounts_used mounts_reset]; unfold MAX_MOUNTS; lia|done]. }
  assert (Forall (fun e => mt_used e = false) (mounts (mounts_reset mt))) as Hfree.
  { cbn [mounts mounts_reset]. apply Forall_map. by apply Forall_true. }
  destruct (fs_mount devs (mounts_reset mt) (lit "/") (lit "memfs") (-1)) as [mt1 b1] eqn:E1.
  pose proof (fs_mount_spec _ _ _ _ _ _ _ Hok0 E1) as (Hok1 & Hr1 & _).
  assert (b1 = true) as ->.
  { apply fs_mount_true in E1; [done|done|done|done|by left]. }
  destruct Hr1 as (e1 & He1 & Hu1 & Hue1 & Hp1 & Hd1 & Ho1). cbn [fst].
  change (mounts_used (mounts_reset mt)) with 0 in *. change (Z.to_nat 0) with 0%nat in *.
  assert (forall path, mounted_iso mt1 path = None) as Hnone.
  { intros path. unfold mounted_iso, find_mount. rewrite Hu1.
    destruct (mounts mt1) as [|x l]; [done|]. cbn in He1. simplify_eq.
    change (Z.to_nat (0 + 1)) with 1%nat. cbn [take first_slot]. rewrite take_0.
    destruct (_ && _); cbn; [|done]. by rewrite Hd1. }
  destruct (storage_find_device devs (lit "cd0")) as [d|] eqn:Ef; cbn [fmap option_fmap option_map].
  2:{ split_and!; try done. }
  destruct (find_device_ok _ _ _ Hd Ef) as [Hid Hget].
  destruct (fs_mount devs mt1 (lit "/mount/cdrom") (lit "iso9660") (dev_id d)) as [mt2 b2] eqn:E2.
  pose proof (fs_mount_spec _ _ _ _ _ _ _ Hok1 E2) as (Hok2 & Hr2 & Hk2).
  assert (b2 = true) as ->.
  { apply fs_mount_true in E2; [done|by rewrite Hu1|done|done|right; by eexists]. }
  destruct Hr2 as (e2 & He2 & Hu2 & Hue2 & Hp2 & Hd2 & Ho2). cbn [fst].
  rewrite Hu1 in *. change (Z.to_nat (0 + 1)) with 1%nat in *.
  destruct (mounts mt1) as [|x1 l1] eqn:Em1; [done|]. cbn in He1. simplify_eq.
  destruct (mounts mt2) as [|x2 [|y2 l2]] eqn:Em2; [done|done|].
  cbn in He2, Hk2. simplify_eq.
  assert (forall path, find_mount mt2 path =
     if str_eq (mt_path e1) path then Some e1 else if str_eq (mt_path e2) path then Some e2 else None) as Hfm.
  { intros path. unfold find_mount. rewrite Hu2, Em2. change (Z.to_nat (0 + 1 + 1)) with 2%nat.
    cbn [take first_slot]. rewrite Hue1, Hue2, take_0. cbn [andb].
    destruct (str_eq (mt_path e1) path); cbn; [done|]. by destruct (str_eq (mt_path e2) path). }
  assert (forall path, str_eq (mt_path e1) path = bool_decide (lit "/" = cstr path)) as Hs1.
  { intros path. by rewrite str_eq_cstr, Hp1. }
  assert (forall path, str_eq (mt_path e2) path = bool_decide (lit "/mount/cdrom" = cstr path)) as Hs2.
  { intros path. by rewrite str_eq_cstr, Hp2. }
  split_and!; [done| | |unfold fs_mount_count; by rewrite Hu2].
  - unfold mounted_iso. rewrite Hfm, Hs1, Hs2.
    rewrite bool_decide_false, bool_decide_true by done. rewrite Hd2.
    rewrite (proj2 (Z.ltb_ge _ _)) by done. by rewrite Ho2.
  - unfold mounted_iso. rewrite Hfm, Hs1. rewrite bool_decide_true by done. by rewrite Hd1.
Qed.

Definition mounts_boot : mount_table := {|
  mounts := replicate 8 {| mt_used := true; mt_path := replicate 16 1; mt_fs_name := replicate 16 1;
                           mt_device_id := 5; mt_ops := None |}; mounts_used := 3 |}.

Definition demo_mounts : mount_table := fs_init demo_devs mounts_boot.

Lemma demo_devices_ok : devices_ok demo_devs.
Proof.
  split; [vm_compute; discriminate|]. intros [|i] d Hi; [by injection Hi as <-|done].
Qed.

Lemma fs_init_mounts_witness :
  mounts_ok demo_mounts /\ mounted_iso demo_mounts (lit "/mount/cdrom") = Some 0.
Proof.
  destruct (fs_init_mounts demo_devs mounts_boot) as (Hok & Hc & _).
  - exact demo_devices_ok.
  - reflexivity.
  - repeat constructor.
  - split; [exact Hok|exact Hc].
Defined.
