(* ===== verification/Vfs.v ===== *)
(** * Vfs: the in-memory file tree of [src/kernel/vfs.c]

    Nodes are blocks of the kernel heap; [nodes] maps the address of each node
    to its fields, and a null pointer is address 0.  File contents are heap
    blocks too, in the flat memory.  A loop that follows [next_sibling] gets the
    number of nodes as fuel, which is enough for the acyclic lists of the
    invariant [vfs_inv].

    The disc mounted at "/mount/cdrom" (and aliased at "/bin") is reached
    through the interface [MountFs], which fs.c implements (IsoFs.v). *)
From S2P Require Import Prelude KernelH Util Memory Heap Storage IsoFs.
Local Open Scope Z_scope.
Local Open Scope slop_scope.

Definition VFS_NAME_MAX : Z := 31.
Definition VFS_PATH_MAX : Z := 128.
Definition VFS_NODE_DIR : Z := 1.
Definition VFS_NODE_FILE : Z := 2.
Definition sizeof_node : Z := 56.

(** ** The mounted file system *)

Class MountFs := {
  (** [fs_path_is_dir_from_mount] *)
  fs_is_dir : list Z -> list Z -> bool;
  (** [fs_read_file_from_mount] *)
  fs_read : heap_state -> mem -> list Z -> list Z -> heap_state * mem * option (Z * Z);
  (** [fs_list_dir_from_mount]: what it prints *)
  fs_list : list Z -> list Z -> list Z * bool;
  (** [fs_print_mounts]: what it prints *)
  fs_mounts : list Z
}.

(** A read allocates its buffer and changes no memory that was in use. *)
Class MountFsLaws `{MountFs} := {
  fs_read_ok h m mount path h' m' r :
    heap_inv h -> fs_read h m mount path = (h', m', r) ->
    heap_inv h' /\ mem_step h m h' m' /\
    forall data size, r = Some (data, size) ->
      h_current h <= data /\ 0 <= size /\ data + size + 1 <= h_current h' /\ m' (data + size) = 0
}.

Record vfs_node := {
  vn_name : list Z;
  vn_type : Z;
  parent : Z;
  first_child : Z;
  next_sibling : Z;
  data : Z;
  size_ : Z
}.

Record vfs := {
  nodes : gmap Z vfs_node;
  vfs_root_node : Z;
  vheap : heap_state;
  vmem : mem
}.

Definition with_nodes (ns : gmap Z vfs_node) (v : vfs) : vfs :=
  {| nodes := ns; vfs_root_node := vfs_root_node v; vheap := vheap v; vmem := vmem v |}.
Definition with_heap (h : heap_state) (m : mem) (v : vfs) : vfs :=
  {| nodes := nodes v; vfs_root_node := vfs_root_node v; vheap := h; vmem := m |}.
Definition with_root (r : Z) (v : vfs) : vfs :=
  {| nodes := nodes v; vfs_root_node := r; vheap := vheap v; vmem := vmem v |}.

Definition set_first_child (a : Z) (n : vfs_node) : vfs_node := {|
  vn_name := vn_name n; vn_type := vn_type n; parent := parent n; first_child := a;
  next_sibling := next_sibling n; data := data n; size_ := size_ n |}.
Definition set_data (a s : Z) (n : vfs_node) : vfs_node := {|
  vn_name := vn_name n; vn_type := vn_type n; parent := parent n; first_child := first_child n;
  next_sibling := next_sibling n; data := a; size_ := s |}.

Definition CDROM_MOUNT : list Z := lit "/mount/cdrom".
Definition BIN_ALIAS : list Z := lit "/bin".

(** ** Paths *)

(** [path] is the string; the result is [*out_subpath] when it returns 1. *)
Definition vfs_is_cdrom_mount_path (path : list Z) : option (list Z) :=
  if negb (chr path =? 47) then None
  else if negb (str_startswith path CDROM_MOUNT) then None
  else if byte_at path 12 =? 0 then Some (lit "/")
  else if negb (byte_at path 12 =? 47) then None
  else Some (from path 12).

Definition vfs_is_bin_alias_path (path : list Z) : option (list Z) :=
  if negb (chr path =? 47) then None
  else if negb (str_startswith path BIN_ALIAS) then None
  else if byte_at path 4 =? 0 then Some (lit "/bin")
  else if negb (byte_at path 4 =? 47) then None
  else Some path.

(** [while (s[i] != 0 && i + 1 < out_size) out[i++] = s[i]]: what [out] holds
    then, and whether the string was copied to its end. *)
Fixpoint join_copy (s out : list Z) (out_size : Z) : list Z * bool :=
  match s with
  | [] => (out, true)
  | c :: s' => if c =? 0 then (out, true)
               else if Z.of_nat (length out) + 1 <? out_size
               then join_copy s' (out ++ [c]) out_size
               else (out, false)
  end.

(** [vfs_path_join]: the joined string when it returns 1. *)
Definition vfs_path_join (out_size : Z) (base rel : list Z) : option (list Z) :=
  if out_size =? 0 then None
  else
    let '(out, all) := join_copy base [] out_size in
    if negb all then None
    else
      let sep := (0 <? Z.of_nat (length out)) &&
                 negb (byte_at out (Z.of_nat (length out) - 1) =? 47) in
      if sep && (out_size <=? Z.of_nat (length out) + 1) then None
      else
        let out := if sep then out ++ [47] else out in
        let '(out, all) := join_copy rel out out_size in
        if negb all then None else Some out.

(** One component: [None] when it does not fit [size]. *)
Fixpoint take_component (p name : list Z) (size : Z) : option (list Z * list Z) :=
  match p with
  | [] => Some (name, [])
  | c :: p' =>
      if (c =? 0) || (c =? 47) then Some (name, p)
      else if size <=? Z.of_nat (length name) + 1 then None
      else take_component p' (name ++ [c]) size
  end.

Inductive component_status :=
  | comp_end
  | comp_too_long
  | comp_ok (name rest : list Z).

Definition vfs_next_component (path : list Z) (size : Z) : component_status :=
  let p := skip_slashes path in
  if chr p =? 0 then comp_end
  else match take_component p [] size with
       | None => comp_too_long
       | Some (name, rest) => comp_ok name rest
       end.

(** The index of the last '/' of a string. *)
Fixpoint last_slash (p : list Z) (i : nat) (last : option nat) : option nat :=
  match p with
  | [] => last
  | c :: p' => if c =? 0 then last
               else last_slash p' (S i) (if c =? 47 then Some i else last)
  end.

(** [vfs_split_parent]: the two strings when it returns 1. *)
Definition vfs_split_parent (path : list Z) (parent_size name_size : Z) : option (list Z * list Z) :=
  if chr path =? 0 then None
  else
    match last_slash path 0 None with
    | None =>
        let name := cstr (str_copy [] path name_size) in
        if negb (chr name =? 0) then Some ([], name) else None
    | Some last =>
        let parent_len := Z.of_nat last in
        if negb (parent_len =? 0) && (parent_size <? parent_len + 1) then None
        else
          let parent_path := if parent_len =? 0 then lit "/" else take last path in
          let rest := drop (S last) path in
          if name_size <? str_len rest + 1 then None
          else
            let name := cstr rest in
            if (chr name =? 0) || str_eq name (lit ".") || str_eq name (lit "..") then None
            else Some (parent_path, name)
    end.

(** ** Nodes *)

Definition node_at (v : vfs) (a : Z) : option vfs_node := nodes v !! a.

Definition vfs_alloc_node (v : vfs) (name : list Z) (type par : Z) : vfs * Z :=
  let '(h, m, node) := kcalloc (vheap v) (vmem v) sizeof_node in
  let v := with_heap h m v in
  if node =? 0 then (v, 0)
  else
    let next := if par =? 0 then 0 else from_option first_child 0 (node_at v par) in
    let n := {| vn_name := str_copy (replicate 32 0) name 32; vn_type := type; parent := par;
                first_child := 0; next_sibling := next; data := 0; size_ := 0 |} in
    let ns := <[node := n]> (nodes v) in
    (with_nodes (if par =? 0 then ns else alter (set_first_child node) par ns) v, node).

Fixpoint find_child_from (fuel : nat) (v : vfs) (child : Z) (name : list Z) : Z :=
  match fuel with
  | O => 0
  | S f =>
      if child =? 0 then 0
      else match node_at v child with
           | None => 0
           | Some n => if str_eq (vn_name n) name then child
                       else find_child_from f v (next_sibling n) name
           end
  end.

Definition sibling_fuel (v : vfs) : nat := S (size (nodes v)).

Definition vfs_find_child (v : vfs) (dir : Z) (name : list Z) : Z :=
  let child := if dir =? 0 then 0 else from_option first_child 0 (node_at v dir) in
  find_child_from (sibling_fuel v) v child name.

Definition vfs_dir_has_child_named (v : vfs) (dir : Z) (name : list Z) : bool :=
  negb (vfs_find_child v dir name =? 0).

(** The loop [for (;;)] of [vfs_resolve_from]; a pass takes at least one
    character of the path. *)
Fixpoint resolve_loop (fuel : nat) (v : vfs) (node : Z) (path : list Z) : Z :=
  match fuel with
  | O => 0
  | S f =>
      match vfs_next_component path (VFS_NAME_MAX + 1) with
      | comp_end => node
      | comp_too_long => 0
      | comp_ok component rest =>
          if str_eq component (lit ".") then resolve_loop f v node rest
          else if str_eq component (lit "..") then
            let p := from_option parent 0 (node_at v node) in
            resolve_loop f v (if negb (p =? 0) then p else node) rest
          else
            let node := vfs_find_child v node component in
            if node =? 0 then 0 else resolve_loop f v node rest
      end
  end.

Definition vfs_resolve_from (v : vfs) (cwd : Z) (path : list Z) : Z :=
  if chr path =? 0 then cwd
  else
    let node := if chr path =? 47 then vfs_root_node v else cwd in
    let path := skip_slashes path in
    if chr path =? 0 then node
    else resolve_loop (S (length path)) v node path.

Definition vfs_resolve (v : vfs) (path : list Z) : Z := vfs_resolve_from v (vfs_root_node v) path.

Definition is_type (v : vfs) (a t : Z) : bool := from_option vn_type 0 (node_at v a) =? t.

(** The loop of [vfs_ensure_dir_abs]: every component is found or created. *)
Fixpoint ensure_loop (fuel : nat) (v : vfs) (node : Z) (p : list Z) : vfs * bool :=
  match fuel with
  | O => (v, false)
  | S f =>
      if chr p =? 0 then (v, true)
      else
        match take_component p [] (VFS_NAME_MAX + 1) with
        | None => (v, false)
        | Some (comp, rest) =>
            let rest := skip_slashes rest in
            let child := vfs_find_child v node comp in
            let '(v, child) := if child =? 0 then vfs_alloc_node v comp VFS_NODE_DIR node
                               else (v, child) in
            if child =? 0 then (v, false)
            else if negb (is_type v child VFS_NODE_DIR) then (v, false)
            else ensure_loop f v child rest
        end
  end.

Definition vfs_ensure_dir_abs (v : vfs) (abs_path : list Z) : vfs * bool :=
  if negb (chr abs_path =? 47) then (v, false)
  else ensure_loop (S (length abs_path)) v (vfs_root_node v) (skip_slashes abs_path).

(** ** The path of a directory *)

(** [while (node && node != root && count < 16) parts[count++] = ...]. *)
Fixpoint collect_parts (n : nat) (v : vfs) (node : Z) : list (list Z) :=
  match n with
  | O => []
  | S n' =>
      if (node =? 0) || (node =? vfs_root_node v) then []
      else match node_at v node with
           | None => []
           | Some nd => cstr (vn_name nd) :: collect_parts n' v (parent nd)
           end
  end.

(** The loop that writes the names, outermost first, from [parts]. *)
Fixpoint write_parts (parts : list (list Z)) (remaining : Z) (out : list Z) : list Z :=
  match parts with
  | [] => out
  | part :: parts' =>
      let len := Z.of_nat (length part) in
      if remaining <? len +u 1 then out
      else
        let out := out ++ part in
        let remaining := remaining -u len in
        match parts' with
        | [] => out
        | _ => write_parts parts' (remaining -u 1) (out ++ [47])
        end
  end.

(** [vfs_get_cwd_path]: all the bytes written from [buf] on. *)
Definition vfs_get_cwd_path (v : vfs) (cwd size : Z) : list Z :=
  if size =? 0 then []
  else if cwd =? vfs_root_node v then str_copy [] (lit "/") size
  else
    let parts := collect_parts 16 v cwd in
    let '(out, remaining) := if 1 <? size then ([47], size - 1) else ([], size) in
    write_parts (rev parts) remaining out ++ [0].

(** [check] after it was made absolute, if that was possible. *)
Definition abs_check (v : vfs) (cwd : Z) (path : list Z) : list Z :=
  if negb (chr path =? 47)
  then default path (vfs_path_join VFS_PATH_MAX (vfs_get_cwd_path v cwd VFS_PATH_MAX) path)
  else path.

Definition on_mount (path : list Z) : bool :=
  bool_decide (is_Some (vfs_is_bin_alias_path path)) ||
  bool_decide (is_Some (vfs_is_cdrom_mount_path path)).

(** [parent = ( *parent_path == 0) ? cwd : vfs_resolve_from(cwd, parent_path)] *)
Definition parent_of (v : vfs) (cwd : Z) (parent_path : list Z) : Z :=
  if chr parent_path =? 0 then cwd else vfs_resolve_from v cwd parent_path.

(** ** Operations *)

Definition vfs_make_dir (v : vfs) (cwd : Z) (path : list Z) : vfs * bool :=
  if on_mount (abs_check v cwd path) then (v, false)
  else
    match vfs_split_parent path VFS_PATH_MAX (VFS_NAME_MAX + 1) with
    | None => (v, false)
    | Some (parent_path, name) =>
        let par := parent_of v cwd parent_path in
        if (par =? 0) || negb (is_type v par VFS_NODE_DIR) || negb (vfs_find_child v par name =? 0)
        then (v, false)
        else let '(v, n) := vfs_alloc_node v name VFS_NODE_DIR par in (v, negb (n =? 0))
    end.

Definition vfs_touch (v : vfs) (cwd : Z) (path : list Z) : vfs * bool :=
  if on_mount (abs_check v cwd path) then (v, false)
  else
    match vfs_split_parent path VFS_PATH_MAX (VFS_NAME_MAX + 1) with
    | None => (v, false)
    | Some (parent_path, name) =>
        let par := parent_of v cwd parent_path in
        if (par =? 0) || negb (is_type v par VFS_NODE_DIR) then (v, false)
        else
          let node := vfs_find_child v par name in
          if negb (node =? 0) then (v, is_type v node VFS_NODE_FILE)
          else let '(v, n) := vfs_alloc_node v name VFS_NODE_FILE par in (v, negb (n =? 0))
    end.

(** [node->data = copy; node->size = size]. *)
Definition put_data (v : vfs) (node copy sz : Z) : vfs :=
  with_nodes (alter (set_data copy sz) node (nodes v)) v.

(** [vfs_write_file(cwd, path, data, size)], [bytes] being the [size] bytes at
    [data]. *)
Definition vfs_write_file (v : vfs) (cwd : Z) (path bytes : list Z) : vfs * bool :=
  let size := Z.of_nat (length bytes) in
  if on_mount (abs_check v cwd path) then (v, false)
  else
    match vfs_touch v cwd path with
    | (v, false) => (v, false)
    | (v, true) =>
        let node := vfs_resolve_from v cwd path in
        if node =? 0 then (v, false)
        else
          let '(h, copy) := kmalloc (vheap v) (size +u 1) in
          let v := with_heap h (vmem v) v in
          if copy =? 0 then (v, false)
          else
            let m := store (store_bytes (vmem v) copy bytes) (copy + size) 0 in
            (put_data (with_heap h m v) node copy size, true)
    end.

(** [vfs_write_seed_file(path, data)]. *)
Definition vfs_write_seed_file (v : vfs) (path text : list Z) : vfs * bool :=
  let size := str_len text in
  match vfs_touch v (vfs_root_node v) path with
  | (v, false) => (v, false)
  | (v, true) =>
      let file := vfs_resolve v path in
      if file =? 0 then (v, false)
      else
        let '(h, copy) := kmalloc (vheap v) (size +u 1) in
        let v := with_heap h (vmem v) v in
        if copy =? 0 then (v, false)
        else (put_data (with_heap h (store_bytes (vmem v) copy (cstr text ++ [0])) v) file copy size, true)
  end.

Definition vfs_init (v : vfs) : vfs :=
  if negb (vfs_root_node v =? 0) then v
  else
    let '(v, root) := vfs_alloc_node v [] VFS_NODE_DIR 0 in
    let v := with_root root v in
    let v := fst (vfs_make_dir v root (lit "/bin")) in
    let v := fst (vfs_make_dir v root (lit "/docs")) in
    let v := fst (vfs_make_dir v root (lit "/mount")) in
    let v := fst (vfs_make_dir v root (lit "/mount/cdrom")) in
    let v := fst (vfs_make_dir v root (lit "/tmp")) in
    let v := fst (vfs_write_seed_file v (lit "/docs/readme.txt")
               (line "SLOP in-memory VFS" ++ line "This is not a disk-backed filesystem yet.")) in
    fst (vfs_write_seed_file v (lit "/docs/roadmap.txt")
           (line "Next: more memory management, a better VFS, and real userland.")).

Section mounted.
Context `{MountFs}.

(** The two branches of [vfs_change_dir] for paths of the disc: the directory
    entered, when the path is one. *)
Definition enter_mounted (v : vfs) (check subpath : list Z) : option (vfs * option Z) :=
  if fs_is_dir CDROM_MOUNT subpath then
    Some (match vfs_ensure_dir_abs v check with
          | (v, false) => (v, None)
          | (v, true) =>
              let node := vfs_resolve v check in
              if (node =? 0) || negb (is_type v node VFS_NODE_DIR) then (v, None) else (v, Some node)
          end)
  else None.

(** [vfs_change_dir(&cwd, path)]: the new [cwd] when it returns 1. *)
Definition vfs_change_dir (v : vfs) (cwd : Z) (path : list Z) : vfs * option Z :=
  let plain := let node := vfs_resolve_from v cwd path in
               if (node =? 0) || negb (is_type v node VFS_NODE_DIR) then (v, None) else (v, Some node) in
  if chr path =? 0 then plain
  else
    let check := abs_check v cwd path in
    match (sub ← vfs_is_cdrom_mount_path check; enter_mounted v check sub) with
    | Some r => r
    | None =>
        match (sub ← vfs_is_bin_alias_path check; enter_mounted v check sub) with
        | Some r => r
        | None => plain
        end
    end.

(** The entries printed by the loop of [vfs_list]. *)
Fixpoint list_children (fuel : nat) (v : vfs) (child : Z) : list Z :=
  match fuel with
  | O => []
  | S f =>
      if child =? 0 then []
      else match node_at v child with
           | None => []
           | Some n => fs_print_list_entry (cstr (vn_name n)) (vn_type n =? VFS_NODE_DIR) ++
                       list_children f v (next_sibling n)
           end
  end.

(** [vfs_list(cwd, path, target)]: what it prints. *)
Definition vfs_list (v : vfs) (cwd : Z) (path : option (list Z)) : list Z :=
  let mount_check :=
    match path with
    | None => vfs_get_cwd_path v cwd VFS_PATH_MAX
    | Some p => if chr p =? 0 then vfs_get_cwd_path v cwd VFS_PATH_MAX else abs_check v cwd p
    end in
  let mounted sub := let '(printed, ok) := fs_list CDROM_MOUNT sub in
                     printed ++ (if (ok : bool) then [] else line "ls: no such directory") in
  match vfs_is_cdrom_mount_path mount_check with
  | Some sub => mounted sub
  | None =>
      match vfs_is_bin_alias_path mount_check with
      | Some sub => mounted sub
      | None =>
          let node := vfs_resolve_from v cwd (default [] path) in
          if (node =? 0) || negb (is_type v node VFS_NODE_DIR) then line "ls: no such directory"
          else
            list_children (sibling_fuel v) v (from_option first_child 0 (node_at v node)) ++
            (if (node =? vfs_root_node v) && fs_is_dir CDROM_MOUNT (lit "/bin") &&
                negb (vfs_dir_has_child_named v node (lit "bin"))
             then fs_print_list_entry (lit "bin") true else [])
      end
  end.

(** [vfs_read_file(cwd, path, &data, &size)]. *)
Definition vfs_read_file (v : vfs) (cwd : Z) (path : list Z) : vfs * option (Z * Z) :=
  let check := abs_check v cwd path in
  let mounted sub := let '(h, m, r) := fs_read (vheap v) (vmem v) CDROM_MOUNT sub in
                     (with_heap h m v, r) in
  match vfs_is_cdrom_mount_path check with
  | Some sub => mounted sub
  | None =>
      match vfs_is_bin_alias_path check with
      | Some sub => mounted sub
      | None =>
          let node := vfs_resolve_from v cwd path in
          match node_at v node with
          | Some n => if (node =? 0) || negb (vn_type n =? VFS_NODE_FILE) then (v, None)
                      else (v, Some (data n, size_ n))
          | None => (v, None)
          end
      end
  end.

Definition stat_zero : user_stat := {| st_mode := 0; st_size := 0 |}.
Definition S_IFDIR : Z := 16384.
Definition S_IFREG : Z := 32768.

(** [vfs_stat(cwd, path, st)]: what is stored through [st], and the result. *)
Definition vfs_stat (v : vfs) (cwd : Z) (path : list Z) : vfs * user_stat * bool :=
  if chr path =? 0 then
    let node := if cwd =? 0 then vfs_root_node v else cwd in
    if node =? 0 then (v, stat_zero, false)
    else (v, {| st_mode := S_IFDIR; st_size := 0 |}, true)
  else
    let check := abs_check v cwd path in
    let mounted sub :=
      if fs_is_dir CDROM_MOUNT sub then (v, {| st_mode := S_IFDIR; st_size := 0 |}, true)
      else let '(h, m, r) := fs_read (vheap v) (vmem v) CDROM_MOUNT sub in
           match r with
           | Some (_, size) => (with_heap h m v, {| st_mode := S_IFREG; st_size := size |}, true)
           | None => (with_heap h m v, stat_zero, false)
           end in
    match vfs_is_cdrom_mount_path check with
    | Some sub => mounted sub
    | None =>
        match vfs_is_bin_alias_path check with
        | Some sub => mounted sub
        | None =>
            let node := vfs_resolve_from v cwd path in
            match node_at v node with
            | Some n =>
                if node =? 0 then (v, stat_zero, false)
                else if vn_type n =? VFS_NODE_DIR then (v, {| st_mode := S_IFDIR; st_size := 0 |}, true)
                else if vn_type n =? VFS_NODE_FILE then (v, {| st_mode := S_IFREG; st_size := size_ n |}, true)
                else (v, stat_zero, false)
            | None => (v, stat_zero, false)
            end
        end
    end.

End mounted.
