(* ===== verification/VfsTree.v ===== *)
(** * VfsTree: the invariant and the theorems of the file tree (Vfs.v)

    The sibling lists of the nodes are described by [chain], the tree by
    [vfs_inv].  Path resolution is related to a walk over the list of the path's
    components ([components], [walk]), for which the theorems are proved. *)
From S2P Require Import Prelude KernelH Util Memory Heap Storage IsoFs Vfs.
Local Open Scope Z_scope.
Local Open Scope slop_scope.

(** ** Sibling lists *)

Inductive chain (ns : gmap Z vfs_node) : Z -> list Z -> Prop :=
  | chain_nil : chain ns 0 []
  | chain_cons a n l :
      a <> 0 -> ns !! a = Some n -> chain ns (next_sibling n) l -> chain ns a (a :: l).

Lemma chain_det ns x l l' : chain ns x l -> chain ns x l' -> l = l'.
Proof.
  intros Hc. revert l'. induction Hc as [|a n l Ha Hn Hc IH]; intros l' H; inversion H; simplify_eq; [done|].
  f_equal. by apply IH.
Qed.

Lemma chain_ext ns ns' x l :
  (forall c n, c ∈ l -> ns !! c = Some n ->
     exists n', ns' !! c = Some n' /\ next_sibling n' = next_sibling n) ->
  chain ns x l -> chain ns' x l.
Proof.
  intros He Hc. induction Hc as [|a n l Ha Hn Hc IH]; [constructor|].
  destruct (He a n) as (n' & Hn' & Hs); [apply elem_of_cons; by left|done|].
  apply (chain_cons _ _ n'); [done|done|]. rewrite Hs. apply IH.
  intros c m Hin. apply He. apply elem_of_cons. by right.
Qed.

Lemma chain_elem ns x l c : chain ns x l -> c ∈ l -> c <> 0 /\ is_Some (ns !! c).
Proof.
  induction 1 as [|a n l Ha Hn Hc IH]; intros Hin; [by apply not_elem_of_nil in Hin|].
  apply elem_of_cons in Hin as [-> |Hin]; [split; [done|by exists n]|by apply IH].
Qed.

(** A list without repetitions of nodes is no longer than the node map. *)
Lemma chain_length ns x l : chain ns x l -> NoDup l -> (length l <= size ns)%nat.
Proof.
  intros Hc Hnd. rewrite <- (size_list_to_set (C := gset Z) l Hnd).
  rewrite <- size_dom. apply subseteq_size.
  intros c Hin. apply elem_of_list_to_set in Hin. apply elem_of_dom.
  by apply (chain_elem _ _ _ _ Hc).
Qed.

(** ** The tree *)

(** [a] is [k] levels below the root. *)
Inductive depth (v : vfs) : Z -> nat -> Prop :=
  | depth_root : depth v (vfs_root_node v) 0
  | depth_step a n k :
      a <> vfs_root_node v -> node_at v a = Some n -> depth v (parent n) k -> depth v a (S k).

(** [c] is the child called [nm] of [a]. *)
Definition child (v : vfs) (a : Z) (nm : list Z) (c : Z) : Prop :=
  exists n, node_at v c = Some n /\ parent n = a /\ cstr (vn_name n) = nm.

Record node_ok (v : vfs) (a : Z) (n : vfs_node) : Prop := {
  no_type : vn_type n = VFS_NODE_DIR \/ vn_type n = VFS_NODE_FILE;
  no_addr : 0 < a /\ a + sizeof_node <= h_current (vheap v);
  no_name : length (vn_name n) = 32%nat /\ str_len (vn_name n) <= VFS_NAME_MAX /\ (47 ∉ cstr (vn_name n));
  no_data : 0 <= size_ n /\
    (data n = 0 /\ size_ n = 0 \/
     h_start (vheap v) <= data n /\ data n + size_ n + 1 <= h_current (vheap v) /\ vmem v (data n + size_ n) = 0);
  no_kids : exists l, chain (nodes v) (first_child n) l /\ NoDup l /\
    forall c, c ∈ l <-> exists nc, node_at v c = Some nc /\ parent nc = a;
  no_parent : a <> vfs_root_node v -> cstr (vn_name n) <> [] /\
    exists np, node_at v (parent n) = Some np /\ vn_type np = VFS_NODE_DIR;
  no_depth : exists k, depth v a k
}.

Record vfs_inv (v : vfs) : Prop := {
  vi_heap : heap_inv (vheap v);
  vi_root : exists n, node_at v (vfs_root_node v) = Some n /\ vn_type n = VFS_NODE_DIR /\ parent n = 0;
  vi_node : forall a n, node_at v a = Some n -> node_ok v a n;
  vi_distinct : forall a nm c d, a <> 0 -> child v a nm c -> child v a nm d -> c = d
}.

Definition is_dir_node (v : vfs) (a : Z) : Prop :=
  exists n, node_at v a = Some n /\ vn_type n = VFS_NODE_DIR.

Lemma node_nonzero v a n : vfs_inv v -> node_at v a = Some n -> a <> 0.
Proof. intros Hi Hn. destruct (no_addr _ _ _ (vi_node _ Hi _ _ Hn)). lia. Qed.

Lemma is_type_dir v a : is_type v a VFS_NODE_DIR = true <-> is_dir_node v a.
Proof.
  unfold is_type, is_dir_node. destruct (node_at v a) as [n|]; cbn [from_option].
  - rewrite Z.eqb_eq. split; [by exists n|]. by intros (? & [= <-] & ?).
  - split; [done|]. by intros (? & ? & _).
Qed.

Lemma find_child_chain v name fuel x l :
  chain (nodes v) x l -> (length l < fuel)%nat ->
  let c := find_child_from fuel v x name in
  (c = 0 -> forall d n, d ∈ l -> node_at v d = Some n -> cstr (vn_name n) <> cstr name) /\
  (c <> 0 -> c ∈ l /\ exists n, node_at v c = Some n /\ cstr (vn_name n) = cstr name).
Proof.
  intros Hc. revert fuel. induction Hc as [|a n l Ha Hn Hc IH]; intros [|f] Hf; try (cbn in Hf; lia).
  - cbn. split; [|done]. intros _ d n Hd. by apply not_elem_of_nil in Hd.
  - cbn [find_child_from]. rewrite (proj2 (Z.eqb_neq a 0)) by done.
    change (node_at v a) with (nodes v !! a). rewrite Hn. cbn [length] in Hf.
    destruct (str_eq (vn_name n) name) eqn:E.
    + apply str_eq_spec in E. split; [done|]. intros _.
      split; [apply elem_of_cons; by left|by exists n].
    + destruct (IH f ltac:(lia)) as [H0 H1]. split.
      * intros Hz d m Hd Hm. apply elem_of_cons in Hd as [-> |Hd]; [|by apply (H0 Hz d m)].
        change (node_at v a) with (nodes v !! a) in Hm. simplify_eq.
        intros Hs%str_eq_spec. congruence.
      * intros Hnz. destruct (H1 Hnz) as [Hin Hx]. split; [apply elem_of_cons; by right|done].
Qed.

(** [vfs_find_child] finds the child of that name. *)
Lemma find_child_spec v a n name :
  vfs_inv v -> node_at v a = Some n ->
  (forall c, child v a (cstr name) c -> vfs_find_child v a name = c) /\
  (vfs_find_child v a name <> 0 -> child v a (cstr name) (vfs_find_child v a name)).
Proof.
  intros Hi Hn. pose proof (node_nonzero _ _ _ Hi Hn) as Ha.
  destruct (no_kids _ _ _ (vi_node _ Hi _ _ Hn)) as (l & Hch & Hnd & Hl).
  unfold vfs_find_child. rewrite (proj2 (Z.eqb_neq a 0)), Hn by done. cbn [from_option].
  pose proof (chain_length _ _ _ Hch Hnd) as Hlen.
  destruct (find_child_chain v name (sibling_fuel v) _ _ Hch) as [H0 H1]; [unfold sibling_fuel; lia|].
  set (r := find_child_from _ _ _ _) in *.
  assert (r <> 0 -> child v a (cstr name) r) as Hr.
  { intros Hz. destruct (H1 Hz) as [Hin (nc & Hnc & Hnm)].
    apply Hl in Hin as (nc' & Hnc' & Hp). exists nc. simplify_eq. done. }
  split; [|done]. intros c Hc. destruct (Z.eq_dec r 0) as [Hz|Hz].
  - exfalso. destruct Hc as (nc & Hnc & Hp & Hnm). apply (H0 Hz c nc); [|done|done].
    apply Hl. by exists nc.
  - apply (vi_distinct _ Hi a (cstr name)); [done|by apply Hr|done].
Qed.

Lemma find_child_none v a n name :
  vfs_inv v -> node_at v a = Some n ->
  vfs_find_child v a name = 0 <-> (forall c, ~ child v a (cstr name) c).
Proof.
  intros Hi Hn. destruct (find_child_spec v a n name Hi Hn) as [H1 H2]. split.
  - intros Hz c Hc. pose proof (H1 c Hc) as Hf. destruct Hc as (nc & Hnc & _).
    apply (node_nonzero _ _ _ Hi) in Hnc. lia.
  - intros Hno. destruct (Z.eq_dec (vfs_find_child v a name) 0) as [|Hz]; [done|].
    by apply H2, Hno in Hz.
Qed.

Lemma find_child_node v a n name :
  vfs_inv v -> node_at v a = Some n -> vfs_find_child v a name <> 0 ->
  is_Some (node_at v (vfs_find_child v a name)).
Proof.
  intros Hi Hn Hz. destruct (proj2 (find_child_spec v a n name Hi Hn) Hz) as (nc & Hnc & _).
  by exists nc.
Qed.

(** ** Growth *)

(** [v'] has all nodes of [v], with their names, types and places. *)
Record grows (v v' : vfs) : Prop := {
  gr_root : vfs_root_node v' = vfs_root_node v;
  gr_node : forall a n, node_at v a = Some n -> exists n', node_at v' a = Some n' /\
    vn_name n' = vn_name n /\ vn_type n' = vn_type n /\ parent n' = parent n
}.

Lemma grows_refl v : grows v v.
Proof. constructor; [done|]. intros a n Hn. by exists n. Qed.

Lemma grows_trans u v w : grows u v -> grows v w -> grows u w.
Proof.
  intros [Hr1 Hn1] [Hr2 Hn2]. constructor; [congruence|].
  intros a n (n1 & Hn & ? & ? & ?)%Hn1. apply Hn2 in Hn as (n2 & ? & ? & ? & ?).
  exists n2. split_and!; congruence.
Qed.

Lemma grows_child v v' a nm c : grows v v' -> child v a nm c -> child v' a nm c.
Proof.
  intros Hg (n & Hn & Hp & Hm). apply (gr_node _ _ Hg) in Hn as (n' & ? & He & ? & ?).
  exists n'. split_and!; congruence.
Qed.

Lemma grows_dir v v' a : grows v v' -> is_dir_node v a -> is_dir_node v' a.
Proof.
  intros Hg (n & Hn & Ht). apply (gr_node _ _ Hg) in Hn as (n' & ? & _ & ? & _).
  exists n'. split; congruence.
Qed.

Lemma grows_depth v v' a k : grows v v' -> depth v a k -> depth v' a k.
Proof.
  intros Hg. induction 1 as [|a n k Ha Hn _ IH].
  - rewrite <- (gr_root _ _ Hg). constructor.
  - destruct (gr_node _ _ Hg _ _ Hn) as (n' & Hn' & _ & _ & Hp).
    apply (depth_step _ _ n'); [by rewrite (gr_root _ _ Hg)|done|by rewrite Hp].
Qed.

(** The contents of a node are what they were, none, or in new memory. *)
Definition data_fresh (v v' : vfs) : Prop :=
  forall c n', node_at v' c = Some n' ->
    data n' = 0 \/ h_current (vheap v) <= data n' \/
    exists n, node_at v c = Some n /\ data n' = data n /\ size_ n' = size_ n.

Lemma data_fresh_refl v v' : nodes v' = nodes v -> data_fresh v v'.
Proof. intros He c n' Hn. right. right. exists n'. unfold node_at in *. by rewrite <- He. Qed.

Lemma data_fresh_trans u v w :
  h_current (vheap u) <= h_current (vheap v) -> data_fresh u v -> data_fresh v w -> data_fresh u w.
Proof.
  intros Hc H1 H2 c n' [?|[?|(n & Hn & -> & ->)]]%H2; [by left|right; left; lia|by apply H1].
Qed.

(** A change of the heap and of memory that was free. *)
Lemma with_heap_inv v h m :
  vfs_inv v -> heap_inv h -> mem_step (vheap v) (vmem v) h m ->
  vfs_inv (with_heap h m v) /\ grows v (with_heap h m v).
Proof.
  intros Hi Hh Hst. heap_facts. assert (grows v (with_heap h m v)) as Hg.
  { constructor; [done|]. intros a n Hn. by exists n. }
  split; [|done]. constructor; [done|apply Hi| |apply Hi].
  intros a n Hn. destruct (vi_node _ Hi a n Hn) as [? [? ?] ? Hd Hk ? [k Hk']].
  constructor; cbn [vheap with_heap vmem]; [done|lia|done| |done|done|].
  - destruct Hd as [? [?|(? & ? & ?)]]; (split; [done|]); [by left|right].
    split_and!; [lia|lia|by rewrite (mem_step_old _ _ _ _ _ Hst) by lia].
  - exists k. by apply (grows_depth v).
Qed.

(** New contents of a node. *)
Lemma put_data_inv v a n copy sz :
  vfs_inv v -> node_at v a = Some n -> 0 <= sz -> h_start (vheap v) <= copy ->
  copy + sz + 1 <= h_current (vheap v) -> vmem v (copy + sz) = 0 ->
  vfs_inv (put_data v a copy sz) /\ grows v (put_data v a copy sz) /\
  node_at (put_data v a copy sz) a = Some (set_data copy sz n).
Proof.
  intros Hi Hn Hsz Hc Hend Hz. unfold put_data.
  assert (forall b, node_at (with_nodes (alter (set_data copy sz) a (nodes v)) v) b =
            (if decide (b = a) then set_data copy sz else id) <$> node_at v b) as Hat.
  { intros b. unfold node_at. cbn [nodes with_nodes]. destruct (decide (b = a)) as [-> |Hne].
    - apply lookup_alter_eq.
    - rewrite lookup_alter_ne by done. by destruct (nodes v !! b). }
  assert (grows v (with_nodes (alter (set_data copy sz) a (nodes v)) v)) as Hg.
  { constructor; [done|]. intros b m Hm. rewrite Hat, Hm. eexists. split; [reflexivity|].
    by destruct (decide (b = a)). }
  split; [|split; [done|by rewrite Hat, Hn, decide_True]].
  assert (forall b m, node_at (with_nodes (alter (set_data copy sz) a (nodes v)) v) b = Some m ->
    exists m0, node_at v b = Some m0 /\ vn_name m = vn_name m0 /\ vn_type m = vn_type m0 /\
      parent m = parent m0 /\ first_child m = first_child m0 /\ next_sibling m = next_sibling m0 /\
      ((data m = data m0 /\ size_ m = size_ m0) \/ (data m = copy /\ size_ m = sz))) as Hback.
  { intros b m Hm. rewrite Hat in Hm. destruct (node_at v b) as [m0|] eqn:Em; [|done].
    cbn in Hm. injection Hm as <-. exists m0.
    destruct (decide (b = a)); cbn; split_and!; try done; [by right|by left]. }
  constructor.
  - apply Hi.
  - destruct (vi_root _ Hi) as (r & Hr & Ht & Hp).
    destruct (gr_node _ _ Hg _ _ Hr) as (r' & Hr' & _ & Ht' & Hp').
    exists r'. split_and!; [done|congruence|congruence].
  - intros b m (m0 & Hm0 & En & Et & Ep & Ef & Es & Ed)%Hback.
    destruct (vi_node _ Hi b m0 Hm0) as [? ? ? Hd (l & Hl & Hnd & Hlc) Hpar [k Hk]].
    constructor; rewrite ?Et, ?En, ?Ep; [done|done|done| | | |].
    + destruct Ed as [[-> ->]|[-> ->]]; [exact Hd|]. split; [done|right; by split_and!].
    + exists l. rewrite Ef. split_and!; [|done|].
      * apply (chain_ext (nodes v)); [|done]. intros c x Hc0 Hx.
        pose proof (Hat c) as Hatc. change (node_at v c) with (nodes v !! c) in Hatc.
        rewrite Hx in Hatc. eexists. split; [exact Hatc|]. by destruct (decide (c = a)).
      * intros c. rewrite Hlc. split.
        -- intros (nc & Hnc & Hpc). destruct (gr_node _ _ Hg _ _ Hnc) as (nc' & ? & _ & _ & ?).
           exists nc'. split; congruence.
        -- intros (nc & (nc0 & ? & _ & _ & ? & _)%Hback & Hpc). exists nc0. split; congruence.
    + intros Hb. destruct (Hpar Hb) as [? Hd']. split; [done|]. by apply (grows_dir v).
    + exists k. by apply (grows_depth v).
  - intros b nm c d Hb (nc & (c0 & ? & ? & _ & ? & _)%Hback & ? & ?) (nd & (d0 & ? & ? & _ & ? & _)%Hback & ? & ?).
    apply (vi_distinct _ Hi b nm); [done|exists c0|exists d0]; split_and!; congruence.
Qed.

(** ** A new node *)

Lemma kcalloc_spec h m size h' m' p :
  heap_inv h -> is_u32 size -> kcalloc h m size = (h', m', p) ->
  heap_inv h' /\ mem_step h m h' m' /\
  (p = 0 -> h' = h /\ m' = m) /\
  (p <> 0 -> p = h_current h /\ 0 < p /\ p + size <= h_current h' /\
     forall x, p <= x < p + size -> m' x = 0).
Proof.
  intros Hi Hs. unfold kcalloc. destruct (kmalloc h size) as [h1 q] eqn:Ek.
  destruct (q =? 0) eqn:Eq; zify_bool; cbn [negb]; intros [= <- <- <-].
  - subst q. apply kmalloc_None in Ek as ->; [|done..]. split_and!; [done|apply mem_step_refl|done|done].
  - destruct (kmalloc_Some _ _ _ _ Hi Hs Ek Eq) as (Hi1 & Hp & Hpos & Hend & Hlim & Hl2 & _ & Hl3 & _).
    pose proof (hi_start _ Hi). pose proof (hi_current _ Hi).
    unfold USER_IMAGE_RESERVED_BASE in *.
    assert (forall x, mem_zero m q size x = if in_range q size x then 0 else m x) as Hz.
    { apply mem_zero_spec; [lia|]. split; lia. }
    split_and!; [done| |done|intros _; split_and!; [done|lia|lia|]].
    + apply (kmalloc_step _ _ _ _ _ _ Hi Hs Ek Eq).
      * intros x Hx. rewrite Hz. by rewrite (proj2 (in_range_false q size x)) by lia.
      * intros Hm x. rewrite Hz. destruct (in_range _ _ _); [by vm_compute|apply Hm].
    + intros x Hx. rewrite Hz. by rewrite (proj2 (in_range_spec q size x)) by lia.
Qed.

(** The state after an allocation that succeeded. *)
Definition new_node (name : list Z) (t par next : Z) : vfs_node := {|
  vn_name := str_copy (replicate 32 0) name 32; vn_type := t; parent := par;
  first_child := 0; next_sibling := next; data := 0; size_ := 0 |}.

Definition link_node (v : vfs) (c : Z) (name : list Z) (t par : Z) (np : vfs_node) : vfs :=
  with_nodes (<[par := set_first_child c np]> (<[c := new_node name t par (first_child np)]> (nodes v))) v.

Section link.
Context (v : vfs) (c : Z) (name : list Z) (t par : Z) (np : vfs_node).
Hypothesis Hi : vfs_inv v.
Hypothesis Hnp : node_at v par = Some np.
Hypothesis Hdir : vn_type np = VFS_NODE_DIR.
Hypothesis Ht : t = VFS_NODE_DIR \/ t = VFS_NODE_FILE.
Hypothesis Hname : 1 <= str_len name <= VFS_NAME_MAX.
Hypothesis Hslash : 47 ∉ cstr name.
Hypothesis Hfree : forall d, ~ child v par (cstr name) d.
Hypothesis Hc : 0 < c /\ c + sizeof_node <= h_current (vheap v).
Hypothesis Hnew : node_at v c = None.

Let v' := link_node v c name t par np.
Let nn := new_node name t par (first_child np).

Lemma link_ne : c <> par.
Proof using All. intros ->. congruence. Qed.

Lemma link_at b :
  node_at v' b = if decide (b = par) then Some (set_first_child c np)
                 else if decide (b = c) then Some nn else node_at v b.
Proof using All.
  unfold v', link_node, node_at. cbn [nodes with_nodes]. rewrite lookup_insert.
  destruct (decide (par = b)) as [-> |]; [by rewrite decide_True|].
  rewrite decide_False by done. rewrite lookup_insert.
  destruct (decide (c = b)) as [-> |]; [by rewrite decide_True|]. by rewrite decide_False by done.
Qed.

Lemma link_back b m :
  node_at v' b = Some m -> (b = c /\ m = nn) \/
  exists m0, node_at v b = Some m0 /\ vn_name m = vn_name m0 /\ vn_type m = vn_type m0 /\
    parent m = parent m0 /\ next_sibling m = next_sibling m0 /\ data m = data m0 /\ size_ m = size_ m0 /\
    (b <> par -> first_child m = first_child m0).
Proof using All.
  rewrite link_at. destruct (decide (b = par)) as [-> |Hb].
  - intros [= <-]. right. exists np. by split_and!.
  - destruct (decide (b = c)) as [-> |]; intros Hm; [injection Hm as <-; by left|].
    right. exists m. by split_and!.
Qed.

Lemma link_grows : grows v v'.
Proof using All.
  constructor; [done|]. intros b m Hm. rewrite link_at.
  destruct (decide (b = par)) as [-> |Hb]; [simplify_eq; by eexists|].
  rewrite decide_False by congruence. by exists m.
Qed.

Lemma link_name : cstr (vn_name nn) = cstr name /\ length (vn_name nn) = 32%nat.
Proof using All.
  unfold nn, new_node. cbn [vn_name]. unfold VFS_NAME_MAX in Hname. split.
  - apply str_copy_fits. rewrite length_replicate. lia.
  - rewrite str_copy_length; rewrite ?length_replicate; lia.
Qed.

Lemma link_child : child v' par (cstr name) c.
Proof using All.
  exists nn. rewrite link_at, decide_False, decide_True by (done || apply link_ne).
  split_and!; [done|done|apply link_name].
Qed.

(** The sibling list of an old node other than the parent is unchanged. *)
Lemma link_chain x l : chain (nodes v) x l -> chain (nodes v') x l.
Proof using All.
  apply chain_ext. intros d m _ Hm.
  pose proof (link_at d) as Hd. unfold node_at in Hd.
  destruct (decide (d = par)) as [-> |]; [|destruct (decide (d = c)) as [-> |]].
  - exists (set_first_child c np). split; [done|]. unfold node_at in Hnp. by simplify_eq.
  - unfold node_at in Hnew. congruence.
  - exists m. split; [by rewrite Hd|done].
Qed.

Lemma link_kids b m :
  node_at v' b = Some m ->
  exists l, chain (nodes v') (first_child m) l /\ NoDup l /\
    forall d, d ∈ l <-> exists nd, node_at v' d = Some nd /\ parent nd = b.
Proof using All.
  intros Hm. destruct (link_back _ _ Hm) as [[-> ->]|(m0 & Hm0 & _ & _ & _ & _ & _ & _ & Hfc)].
  - exists []. split_and!; [constructor|constructor|]. intros d. split; [by intros ?%not_elem_of_nil|].
    intros (nd & Hnd & Hp). exfalso. destruct (link_back _ _ Hnd) as [[-> ->]|(d0 & Hd0 & _ & _ & Hpd & _)].
    + by apply link_ne.
    + rewrite Hp in Hpd. destruct (decide (d = vfs_root_node v)) as [-> |Hr].
      * destruct (vi_root _ Hi) as (r & Hr & _ & Hr0). rewrite Hd0 in Hr. simplify_eq. lia.
      * destruct (no_parent _ _ _ (vi_node _ Hi _ _ Hd0) Hr) as (_ & q & Hq & _). congruence.
  - destruct (no_kids _ _ _ (vi_node _ Hi _ _ Hm0)) as (l & Hch & Hnd & Hl).
    assert (forall d, d <> c -> (exists nd, node_at v' d = Some nd /\ parent nd = b) <-> d ∈ l) as Hold.
    { intros d Hdc. rewrite Hl. split.
      - intros (nd & [[-> _]|(d0 & ? & _ & _ & ? & _)]%link_back & Hp); [done|].
        exists d0. split; congruence.
      - intros (nd & Hd & Hp). destruct (gr_node _ _ link_grows _ _ Hd) as (nd' & ? & _ & _ & ?).
        exists nd'. split; congruence. }
    assert (c ∉ l) as Hcl.
    { intros Hin. apply Hl in Hin as (? & ? & _). congruence. }
    destruct (decide (b = par)) as [-> |Hb].
    + simplify_eq. rewrite link_at, decide_True in Hm by done. injection Hm as <-.
      exists (c :: l). split_and!.
      * cbn [first_child set_first_child]. apply (chain_cons _ _ nn); [lia| |].
        -- change (node_at v' c = Some nn). rewrite link_at.
           by rewrite decide_False, decide_True by (done || apply link_ne).
        -- by apply link_chain.
      * by constructor.
      * intros d. rewrite elem_of_cons. destruct (decide (d = c)) as [-> |Hdc].
        -- split; [|by left]. intros _. destruct link_child as (x & ? & ? & _). by exists x.
        -- rewrite <- Hold by done. split; [by intros [?|?]|by right].
    + exists l. rewrite Hfc by done. split_and!; [by apply link_chain|done|].
      intros d. destruct (decide (d = c)) as [-> |Hdc]; [|by rewrite Hold].
      split; [done|]. intros (nd & Hd & Hp). exfalso.
      rewrite link_at, decide_False, decide_True in Hd by (done || apply link_ne).
      injection Hd as <-. by apply Hb.
Qed.

Lemma link_depth : exists k, depth v' c (S k).
Proof using All.
  destruct (no_depth _ _ _ (vi_node _ Hi _ _ Hnp)) as [k Hk]. exists k.
  apply (depth_step _ _ nn).
  - intros Hr. cbn in Hr. destruct (vi_root _ Hi) as (r & Hr' & _). unfold v', link_node in Hr.
    cbn in Hr. congruence.
  - rewrite link_at. by rewrite decide_False, decide_True by (done || apply link_ne).
  - cbn. apply (grows_depth v); [apply link_grows|done].
Qed.

Lemma link_inv : vfs_inv v'.
Proof using All.
  constructor.
  - apply Hi.
  - destruct (vi_root _ Hi) as (r & Hr & Htr & Hpr).
    destruct (gr_node _ _ link_grows _ _ Hr) as (r' & ? & _ & ? & ?). exists r'.
    split_and!; [done|congruence|congruence].
  - intros b m Hm. destruct (link_back _ _ Hm) as [[-> ->]|(m0 & Hm0 & En & Et & Ep & Es & Ed & Ez & _)].
    + destruct link_name as [Hcn Hln]. constructor.
      * exact Ht.
      * exact Hc.
      * rewrite str_len_spec, Hcn, <- str_len_spec. split_and!; [done|lia|done].
      * split; [done|]. by left.
      * by apply link_kids.
      * intros _. split; [rewrite Hcn; intros Hn; rewrite str_len_spec, Hn in Hname; cbn in Hname; lia|].
        cbn [parent nn new_node]. apply (grows_dir v); [apply link_grows|by exists np].
      * destruct link_depth as [k Hk]. by exists (S k).
    + destruct (vi_node _ Hi b m0 Hm0) as [? ? ? Hd ? Hpar [k Hk]].
      constructor; rewrite ?Et, ?En, ?Ep, ?Ed, ?Ez; [done|done|done|done|by apply link_kids| |].
      * intros Hb. destruct (Hpar Hb) as [? Hd']. split; [done|].
        apply (grows_dir v); [apply link_grows|exact Hd'].
      * exists k. apply (grows_depth v); [apply link_grows|done].
  - intros b nm x y Hb (nx & Hx & Hpx & Hnx) (ny & Hy & Hpy & Hny).
    destruct link_name as [Hcn _].
    destruct (link_back _ _ Hx) as [[-> ->]|(x0 & Hx0 & ? & _ & ? & _)];
      destruct (link_back _ _ Hy) as [[-> ->]|(y0 & Hy0 & ? & _ & ? & _)]; [done| | |].
    + exfalso. cbn [parent nn new_node] in Hpx. subst b. apply (Hfree y).
      exists y0. split_and!; congruence.
    + exfalso. cbn [parent nn new_node] in Hpy. subst b. apply (Hfree x).
      exists x0. split_and!; congruence.
    + apply (vi_distinct _ Hi b nm); [done|exists x0|exists y0]; split_and!; congruence.
Qed.

End link.

Lemma alloc_node_spec v name t par np v' c :
  vfs_inv v -> node_at v par = Some np -> vn_type np = VFS_NODE_DIR ->
  t = VFS_NODE_DIR \/ t = VFS_NODE_FILE -> 1 <= str_len name <= VFS_NAME_MAX -> 47 ∉ cstr name ->
  (forall d, ~ child v par (cstr name) d) ->
  vfs_alloc_node v name t par = (v', c) ->
  vfs_inv v' /\ grows v v' /\
  (c = 0 -> v' = v) /\
  (c <> 0 -> child v' par (cstr name) c /\ node_at v c = None /\
     exists n, node_at v' c = Some n /\ vn_type n = t /\ data n = 0 /\ size_ n = 0) /\
  (forall b n, node_at v b = Some n -> exists n', node_at v' b = Some n' /\
     data n' = data n /\ size_ n' = size_ n) /\
  mem_step (vheap v) (vmem v) (vheap v') (vmem v') /\ data_fresh v v'.
Proof.
  intros Hi Hnp Hdir Ht Hname Hslash Hfree. unfold vfs_alloc_node.
  destruct (kcalloc (vheap v) (vmem v) sizeof_node) as [[h m] p] eqn:Ek.
  assert (is_u32 sizeof_node) as Hsz by (unfold is_u32, sizeof_node; lia).
  destruct (kcalloc_spec _ _ _ _ _ _ (vi_heap _ Hi) Hsz Ek) as (Hh & Hms & Hz & Hnz).
  destruct (p =? 0) eqn:Ep; zify_bool.
  - intros [= <- <-]. destruct (Hz Ep) as [-> ->].
    assert (with_heap (vheap v) (vmem v) v = v) as -> by (by destruct v).
    split_and!; try done; [apply grows_refl| |by apply data_fresh_refl]. intros b n Hn. by exists n.
  - destruct (Hnz Ep) as (Hp & Hpos & Hend & _). rewrite (proj2 (Z.eqb_neq par 0)) by
      (by apply (node_nonzero v par np)).
    destruct (with_heap_inv v h m Hi Hh Hms) as [Hi1 Hg1].
    set (v1 := with_heap h m v) in *.
    change (node_at v1 par) with (node_at v par). rewrite Hnp. cbn [from_option].
    fold (new_node name t par (first_child np)).
    assert (node_at v p = None) as Hnew.
    { destruct (node_at v p) as [x|] eqn:Ex; [|done]. exfalso.
      destruct (no_addr _ _ _ (vi_node _ Hi _ _ Ex)). unfold sizeof_node in *. lia. }
    assert (alter (set_first_child p) par (<[p:=new_node name t par (first_child np)]> (nodes v1)) =
            <[par := set_first_child p np]> (<[p:=new_node name t par (first_child np)]> (nodes v1))) as ->.
    { apply map_eq. intros b. destruct (decide (b = par)) as [-> |Hb].
      - rewrite lookup_alter_eq, lookup_insert_eq. rewrite lookup_insert_ne by congruence.
        change (nodes v1 !! par) with (node_at v par). by rewrite Hnp.
      - by rewrite lookup_alter_ne, (lookup_insert_ne _ par) by done. }
    fold (link_node v1 p name t par np).
    intros [= <- <-].
    assert (node_at v1 p = None) as Hnew1 by done.
    assert (0 < p /\ p + sizeof_node <= h_current (vheap v1)) as Hpa by (cbn; lia).
    split_and!.
    + apply link_inv; done.
    + apply (grows_trans v v1); [done|]. by apply link_grows.
    + done.
    + intros _. split_and!; [apply link_child; done|done|].
      exists (new_node name t par (first_child np)). split_and!; try done.
      rewrite link_at by done. by rewrite decide_False, decide_True by congruence.
    + intros b n Hn. rewrite link_at by done. destruct (decide (b = par)) as [-> |Hb]; [simplify_eq; by eexists|].
      rewrite decide_False by congruence. by exists n.
    + done.
    + intros b m' Hm'. destruct (link_back v1 p name t par np) with b m' as [[-> ->]|(m0 & Hm0 & _ & _ & _ & _ & ? & ? & _)];
        try done; [by left|]. right. right. by exists m0.
Qed.

(** ** Components of a path *)

Definition flush (cur : list Z) (l : list (list Z)) : list (list Z) :=
  match cur with [] => l | _ => cur :: l end.

Fixpoint split_comps (p cur : list Z) : list (list Z) :=
  match p with
  | [] => flush cur []
  | c :: p' => if c =? 0 then flush cur []
               else if c =? 47 then flush cur (split_comps p' [])
               else split_comps p' (cur ++ [c])
  end.

(** The components of a path: the names between its slashes. *)
Definition components (p : list Z) : list (list Z) := split_comps p [].

Lemma components_skip p : components (skip_slashes p) = components p.
Proof.
  unfold components. induction p as [|c p IH]; [done|]. cbn [skip_slashes].
  destruct (c =? 47) eqn:E; [|done]. rewrite IH. cbn [split_comps]. zify_bool. subst.
  by rewrite (proj2 (Z.eqb_neq 47 0)) by lia.
Qed.

Lemma skip_slashes_length p : (length (skip_slashes p) <= length p)%nat.
Proof. induction p as [|c p IH]; cbn; [lia|]. destruct (c =? 47); cbn; lia. Qed.

Lemma skip_slashes_chr p : chr (skip_slashes p) <> 47.
Proof.
  induction p as [|c p IH]; cbn; [done|]. destruct (c =? 47) eqn:E; [done|]. by zify_bool.
Qed.

Lemma flush_nonempty cur l : cur <> [] -> flush cur l = cur :: l.
Proof. by destruct cur. Qed.

Lemma split_comps_head p cur :
  cur <> [] -> exists nm l, split_comps p cur = nm :: l /\ (length cur <= length nm)%nat.
Proof.
  revert cur. induction p as [|c p IH]; intros cur Hc; cbn [split_comps].
  - exists cur, []. split; [by apply flush_nonempty|done].
  - destruct (c =? 0); [exists cur, []; split; [by apply flush_nonempty|done]|].
    destruct (c =? 47); [eexists cur, _; split; [by apply flush_nonempty|done]|].
    destruct (IH (cur ++ [c])) as (nm & l & -> & Hl); [by destruct cur|].
    exists nm, l. split; [done|]. rewrite length_app in Hl. lia.
Qed.

Lemma take_component_spec p name size :
  match take_component p name size with
  | Some (nm, rest) =>
      split_comps p name = flush nm (split_comps rest []) /\ (length rest <= length p)%nat /\
      (Z.of_nat (length name) < size -> Z.of_nat (length nm) < size) /\
      (length name <= length nm)%nat /\
      (name <> [] \/ (chr p <> 0 /\ chr p <> 47) -> nm <> [])
  | None => exists nm l, split_comps p name = nm :: l /\ size <= Z.of_nat (length nm)
  end.
Proof.
  revert name. induction p as [|c p IH]; intros name; cbn [take_component split_comps].
  - split_and!; [done|done|done|done|]. by intros [?|[? _]].
  - destruct (c =? 0) eqn:E0; zify_bool; cbn [orb].
    { subst c. split_and!; [done|done|done|done|]. by intros [?|[? _]]. }
    destruct (c =? 47) eqn:E1; zify_bool.
    { subst c. split_and!; [done|done|done|done|]. by intros [?|[_ ?]]. }
    destruct (size <=? _) eqn:E2; zify_bool.
    { destruct (split_comps_head p (name ++ [c])) as (nm & l & -> & Hl); [by destruct name|].
      exists nm, l. rewrite length_app in Hl. cbn [length] in Hl. split; [done|lia]. }
    specialize (IH (name ++ [c])). destruct (take_component p (name ++ [c]) size) as [[nm rest]|]; [|done].
    destruct IH as (? & ? & Hs & Hl & Hn). rewrite length_app in *. cbn [length] in *.
    split_and!; [done|lia|intros; apply Hs; lia|lia|].
    intros _. apply Hn. left. by destruct name.
Qed.

(** What [vfs_next_component] yields. *)
Lemma next_component_spec path :
  match vfs_next_component path (VFS_NAME_MAX + 1) with
  | comp_end => components path = []
  | comp_too_long => exists nm l, components path = nm :: l /\ VFS_NAME_MAX < Z.of_nat (length nm)
  | comp_ok nm rest => components path = nm :: components rest /\ nm <> [] /\
      Z.of_nat (length nm) <= VFS_NAME_MAX /\ (length rest < length path)%nat
  end.
Proof.
  unfold vfs_next_component. pose proof (components_skip path) as Hs.
  pose proof (skip_slashes_chr path) as Hc. pose proof (skip_slashes_length path) as Hl.
  destruct (chr (skip_slashes path) =? 0) eqn:E0; zify_bool.
  - rewrite <- Hs. unfold components. destruct (skip_slashes path) as [|c p]; [done|].
    cbn in E0. subst c. done.
  - pose proof (take_component_spec (skip_slashes path) [] (VFS_NAME_MAX + 1)) as Ht.
    unfold VFS_NAME_MAX in *.
    destruct (skip_slashes path) as [|c p] eqn:Esk; [done|]. cbn [chr hd] in E0, Hc.
    destruct (take_component (c :: p) [] (31 + 1)) as [[nm rest]|] eqn:Et.
    + destruct Ht as (He & Hle & Hsz & _ & Hne). rewrite <- Hs. unfold components at 1. rewrite He.
      assert (nm <> []) as Hnm by (apply Hne; by right).
      split_and!; [by apply flush_nonempty|done|specialize (Hsz ltac:(cbn; lia)); lia|].
      cbn [take_component] in Et. rewrite (proj2 (Z.eqb_neq c 0)), (proj2 (Z.eqb_neq c 47)) in Et by done.
      cbn [orb length] in Et. rewrite (proj2 (Z.leb_gt _ _)) in Et by (cbn; lia).
      pose proof (take_component_spec p ([] ++ [c]) (31 + 1)) as Ht2. rewrite Et in Ht2.
      destruct Ht2 as (_ & Hr & _). cbn [length] in Hl. lia.
    + destruct Ht as (nm & l & He & Hsz). exists nm, l. rewrite <- Hs. split; [done|lia].
Qed.

(** ** Walking the components *)

Definition dot : list Z := lit ".".
Definition dotdot : list Z := lit "..".

Definition step_comp (v : vfs) (node : Z) (nm : list Z) : Z :=
  if VFS_NAME_MAX <? Z.of_nat (length nm) then 0
  else if str_eq nm dot then node
  else if str_eq nm dotdot then
    let p := from_option parent 0 (node_at v node) in if negb (p =? 0) then p else node
  else vfs_find_child v node nm.

Fixpoint walk (v : vfs) (node : Z) (l : list (list Z)) : Z :=
  match l with
  | [] => node
  | nm :: l' => let n := step_comp v node nm in if n =? 0 then 0 else walk v n l'
  end.

Lemma walk_app v node l1 l2 :
  walk v node (l1 ++ l2) = if walk v node l1 =? 0 then (match l1 with [] => walk v node l2 | _ => 0 end)
                           else walk v (walk v node l1) l2.
Proof.
  revert node. induction l1 as [|nm l1 IH]; intros node; cbn [app walk].
  - destruct (node =? 0) eqn:E; done.
  - destruct (step_comp v node nm =? 0) eqn:E; [done|].
    rewrite IH. destruct (walk v (step_comp v node nm) l1 =? 0) eqn:E2; [|done].
    destruct l1; [|done]. cbn in E2. by rewrite E2 in E.
Qed.

Lemma resolve_loop_walk fuel v node path :
  node <> 0 -> (length path < fuel)%nat -> resolve_loop fuel v node path = walk v node (components path).
Proof.
  revert node path. induction fuel as [|f IH]; intros node path Hn Hf; [lia|].
  cbn [resolve_loop]. pose proof (next_component_spec path) as Hs.
  destruct (vfs_next_component path (VFS_NAME_MAX + 1)) as [| |nm rest].
  - by rewrite Hs.
  - destruct Hs as (nm & l & -> & Hl). cbn [walk]. unfold step_comp.
    by rewrite (proj2 (Z.ltb_lt _ _)) by done.
  - destruct Hs as (-> & Hne & Hl & Hlen). cbn [walk]. unfold step_comp at 1 2.
    rewrite (proj2 (Z.ltb_ge VFS_NAME_MAX _)) by done. fold dot dotdot.
    destruct (str_eq nm dot).
    { rewrite (proj2 (Z.eqb_neq node 0)) by done. apply IH; [done|lia]. }
    destruct (str_eq nm dotdot).
    { destruct (from_option parent 0 (node_at v node) =? 0) eqn:Ep; cbn [negb].
      - rewrite (proj2 (Z.eqb_neq node 0)) by done. apply IH; [done|lia].
      - rewrite Ep. zify_bool. apply IH; [done|lia]. }
    destruct (vfs_find_child v node nm =? 0) eqn:Ef; [done|]. zify_bool. apply IH; [done|lia].
Qed.

Definition start_of (v : vfs) (cwd : Z) (path : list Z) : Z :=
  if chr path =? 47 then vfs_root_node v else cwd.

Lemma components_nil path : chr (skip_slashes path) = 0 -> components path = [].
Proof.
  intros H. rewrite <- components_skip. unfold components.
  destruct (skip_slashes path) as [|c p]; [done|]. cbn in H. by subst c.
Qed.

(** Path resolution is a walk. *)
Lemma resolve_walk v cwd path :
  vfs_root_node v <> 0 -> cwd <> 0 ->
  vfs_resolve_from v cwd path = walk v (start_of v cwd path) (components path).
Proof.
  intros Hr Hc. unfold vfs_resolve_from, start_of.
  destruct (chr path =? 0) eqn:E0; zify_bool.
  - assert (components path = []) as ->.
    { apply components_nil. destruct path as [|c p]; [done|]. cbn in E0. subst c. done. }
    rewrite E0. done.
  - set (node := if chr path =? 47 then _ else _).
    assert (node <> 0) as Hn by (unfold node; by destruct (chr path =? 47)).
    destruct (chr (skip_slashes path) =? 0) eqn:E1; zify_bool.
    + by rewrite (components_nil path).
    + rewrite resolve_loop_walk by (done || (pose proof (skip_slashes_length path); lia)).
      by rewrite components_skip.
Qed.

Lemma step_node v a nm :
  vfs_inv v -> is_Some (node_at v a) -> step_comp v a nm <> 0 -> is_Some (node_at v (step_comp v a nm)).
Proof.
  intros Hi [n Hn]. unfold step_comp.
  destruct (_ <? _); [done|]. destruct (str_eq nm dot); [intros _; by exists n|].
  destruct (str_eq nm dotdot).
  - rewrite Hn. cbn [from_option]. destruct (parent n =? 0) eqn:Ep; cbn [negb]; [intros _; by exists n|].
    zify_bool. intros _. destruct (decide (a = vfs_root_node v)) as [-> |Hr].
    + destruct (vi_root _ Hi) as (r & Hr & _ & Hp). simplify_eq.
    + destruct (no_parent _ _ _ (vi_node _ Hi _ _ Hn) Hr) as (_ & p & Hp & _). by exists p.
  - intros Hf. by apply (find_child_node v a n).
Qed.

Lemma walk_node v a l :
  vfs_inv v -> is_Some (node_at v a) -> walk v a l <> 0 -> is_Some (node_at v (walk v a l)).
Proof.
  intros Hi. revert a. induction l as [|nm l IH]; intros a Ha; cbn [walk]; [done|].
  destruct (step_comp v a nm =? 0) eqn:E; [done|]. zify_bool. apply IH. by apply step_node.
Qed.

(** What could be reached before a change can be reached after it. *)
Lemma step_grows v v' a nm b :
  vfs_inv v -> vfs_inv v' -> grows v v' -> is_Some (node_at v a) ->
  step_comp v a nm = b -> b <> 0 -> step_comp v' a nm = b.
Proof.
  intros Hi Hi' Hg [n Hn] Hs Hb. destruct (gr_node _ _ Hg _ _ Hn) as (n' & Hn' & _ & _ & Hp).
  unfold step_comp in *. destruct (_ <? _); [done|]. destruct (str_eq nm dot); [done|].
  destruct (str_eq nm dotdot).
  - rewrite Hn in Hs. rewrite Hn'. cbn [from_option] in *. by rewrite Hp.
  - subst b. apply (proj2 (find_child_spec v a n nm Hi Hn)) in Hb.
    apply (find_child_spec v' a n' nm Hi' Hn'). by apply (grows_child v).
Qed.

Lemma walk_grows v v' a l b :
  vfs_inv v -> vfs_inv v' -> grows v v' -> is_Some (node_at v a) ->
  walk v a l = b -> b <> 0 -> walk v' a l = b.
Proof.
  intros Hi Hi' Hg. revert a. induction l as [|nm l IH]; intros a Ha; cbn [walk]; [done|].
  destruct (step_comp v a nm =? 0) eqn:E; [by intros <-|]. zify_bool. intros Hw Hb.
  rewrite (step_grows v v' a nm (step_comp v a nm)) by done.
  rewrite (proj2 (Z.eqb_neq _ 0)) by done. apply IH; [by apply step_node|done|done].
Qed.

(** ** Splitting off the last component *)

Lemma split_comps_cstr p cur : split_comps (cstr p) cur = split_comps p cur.
Proof.
  revert cur. induction p as [|c p IH]; intros cur; cbn [cstr split_comps]; [done|].
  destruct (c =? 0) eqn:E0; [done|]. cbn [split_comps]. rewrite E0.
  destruct (c =? 47); by rewrite IH.
Qed.

Lemma split_comps_slash pre post cur :
  no_nul pre -> split_comps (pre ++ 47 :: post) cur = split_comps pre cur ++ split_comps post [].
Proof.
  intros Hp. revert cur. induction Hp as [|c pre Hc _ IH]; intros cur; cbn [app split_comps].
  - rewrite (proj2 (Z.eqb_neq 47 0)) by done. cbn. by destruct cur.
  - rewrite (proj2 (Z.eqb_neq c 0)) by done. destruct (c =? 47); [|apply IH].
    rewrite IH. by destruct cur.
Qed.

Lemma split_comps_plain p cur :
  47 ∉ cstr p -> split_comps p cur = flush (cur ++ cstr p) [].
Proof.
  revert cur. induction p as [|c p IH]; intros cur; cbn [cstr split_comps].
  { intros _. by rewrite app_nil_r. }
  destruct (c =? 0) eqn:E0; [intros _; by rewrite app_nil_r|].
  intros Hn. rewrite not_elem_of_cons in Hn. destruct Hn as [Hc Hn].
  rewrite (proj2 (Z.eqb_neq c 47)) by done. rewrite IH by done. by rewrite <- app_assoc.
Qed.

Lemma last_slash_spec p i last :
  (last_slash p i last = last /\ 47 ∉ cstr p) \/
  exists k, last_slash p i last = Some (i + k)%nat /\ cstr p !! k = Some 47 /\ 47 ∉ drop (S k) (cstr p).
Proof.
  revert i last. induction p as [|c p IH]; intros i last; cbn [last_slash cstr].
  { left. split; [done|]. by intros ?%not_elem_of_nil. }
  destruct (c =? 0) eqn:E0.
  { left. split; [done|]. by intros ?%not_elem_of_nil. }
  destruct (IH (S i) (if c =? 47 then Some i else last)) as [[He Hn]|(k & He & Hk & Hn)].
  - rewrite He. destruct (c =? 47) eqn:E1; zify_bool.
    + right. exists 0%nat. rewrite Nat.add_0_r. subst c. by split_and!.
    + left. split; [done|]. rewrite not_elem_of_cons. split; [congruence|done].
  - right. exists (S k). rewrite He. split_and!; try done. f_equal. lia.
Qed.

(** A string cut at one of its characters. *)
Lemma cstr_split p k c :
  cstr p !! k = Some c ->
  exists pre post, p = pre ++ c :: post /\ length pre = k /\ no_nul pre /\
    cstr p = pre ++ c :: cstr post.
Proof.
  revert k. induction p as [|x p IH]; intros k; cbn [cstr]; [done|].
  destruct (x =? 0) eqn:E0; [done|]. zify_bool. destruct k as [|k]; cbn.
  - intros [= ->]. exists [], p. split_and!; [done|done|constructor|done].
  - intros (pre & post & -> & <- & Hn & ->)%IH. exists (x :: pre), post.
    split_and!; [done|done|by constructor|done].
Qed.

(** A path that the code splits the way it resolves it: with a slash, or a
    name that fits a node and is not a dot name. *)
Definition plain_path (path : list Z) : Prop :=
  47 ∈ cstr path \/
  (cstr path <> dot /\ cstr path <> dotdot /\ Z.of_nat (length (cstr path)) <= VFS_NAME_MAX).

Record split_ok (path pp name : list Z) : Prop := {
  sp_comps : components path = components pp ++ [name];
  sp_name : cstr name = name /\ name <> dot /\ name <> dotdot;
  sp_parent : forall v cwd, vfs_root_node v <> 0 -> cwd <> 0 ->
    parent_of v cwd pp = walk v (start_of v cwd path) (components pp)
}.

Lemma split_parent_spec path pp name :
  vfs_split_parent path VFS_PATH_MAX (VFS_NAME_MAX + 1) = Some (pp, name) ->
  1 <= str_len name <= VFS_NAME_MAX /\ (47 ∉ cstr name) /\ (plain_path path -> split_ok path pp name).
Proof.
  unfold vfs_split_parent. destruct (chr path =? 0) eqn:E0; [done|]. zify_bool.
  destruct (last_slash_spec path 0 None) as [[-> Hns]|(k & -> & Hk & Hns)].
  - rewrite str_copy_fresh by (unfold VFS_NAME_MAX; lia). replace (Z.to_nat _) with 31%nat by done.
    destruct (chr (take 31 (cstr path)) =? 0) eqn:E1; [done|]. intros [= <- <-]. zify_bool.
    assert (cstr (take 31 (cstr path)) = take 31 (cstr path)) as Hcs by apply cstr_id, no_nul_take, cstr_no_nul.
    rewrite str_len_spec, Hcs. unfold VFS_NAME_MAX.
    split.
    { rewrite length_take. destruct (take 31 (cstr path)) eqn:Et; [done|].
      apply (f_equal length) in Et. rewrite length_take in Et. cbn [length] in Et. lia. }
    split; [intros Hin; apply Hns; by apply elem_of_take in Hin as (? & ?%list_elem_of_lookup_2 & _)|].
    intros [Hin|(Hd & Hdd & Hlen)]; [done|]. unfold VFS_NAME_MAX in Hlen.
    rewrite take_ge in * by lia. constructor.
    + unfold components. rewrite (split_comps_plain path []) by done. cbn [app].
      by rewrite flush_nonempty by (by rewrite cstr_nil).
    + done.
    + intros v cwd Hr Hc. unfold start_of. cbn.
      destruct (chr path =? 47) eqn:E2; [|done]. zify_bool. exfalso. apply Hns.
      destruct path as [|c p]; [done|]. cbn in E2. subst c. cbn. apply elem_of_cons. by left.
  - cbn [Nat.add].
    destruct (cstr_split path k 47 Hk) as (pre & post & Hpath & Hlp & Hnn & Hcs).
    assert (take k path = pre) as Htk by (rewrite Hpath, <- Hlp; apply take_app_length).
    assert (drop (S k) path = post) as Hdr.
    { rewrite Hpath, drop_app, Hlp, drop_ge by lia. by replace (S k - k)%nat with 1%nat by lia. }
    assert (47 ∉ cstr post) as Hrest.
    { revert Hns. rewrite Hcs, drop_app, Hlp, drop_ge by lia.
      by replace (S k - k)%nat with 1%nat by lia. }
    rewrite Htk, Hdr.
    destruct (negb (Z.of_nat k =? 0) && _) eqn:E1; [done|].
    destruct (VFS_NAME_MAX + 1 <? _) eqn:E2; [done|]. zify_bool.
    set (nm := cstr post) in *.
    destruct ((chr nm =? 0) || _ || _) eqn:E3; [done|]. zify_bool.
    assert (cstr nm = nm) as Hcn by apply cstr_cstr.
    assert (nm <> []) as Hnm by (intros Hz; by rewrite Hz in *).
    assert (nm <> dot /\ nm <> dotdot) as [Hd Hdd].
    { split; intros Hz.
      - assert (str_eq nm (lit ".") = true) by (by rewrite Hz). congruence.
      - assert (str_eq nm (lit "..") = true) by (by rewrite Hz). congruence. }
    intros [= <- <-]. split.
    { rewrite (str_len_spec nm), Hcn. rewrite str_len_spec in E2. fold nm in E2. unfold VFS_NAME_MAX in *.
      destruct nm; [done|]. cbn [length] in *. lia. }
    split; [by rewrite Hcn|].
    intros _. assert (components pre ++ [nm] = components path) as Hcomp.
    { rewrite Hpath. unfold components. rewrite split_comps_slash by done. f_equal.
      rewrite split_comps_plain by done. cbn [app]. fold nm. by rewrite flush_nonempty. }
    constructor.
    + destruct (Z.of_nat k =? 0) eqn:Ek; zify_bool; [|done].
      destruct pre; [|cbn in Hlp; lia]. by rewrite <- Hcomp.
    + done.
    + intros v cwd Hr Hc. unfold parent_of, start_of.
      destruct (Z.of_nat k =? 0) eqn:Ek; zify_bool.
      * destruct pre; [|cbn in Hlp; lia]. by rewrite Hpath.
      * assert (chr pre = chr path) as Hch.
        { rewrite Hpath. destruct pre; [cbn in Hlp; lia|done]. }
        rewrite Hch, (proj2 (Z.eqb_neq (chr path) 0)) by done.
        rewrite resolve_walk by done. unfold start_of. by rewrite Hch.
Qed.

(** ** The operations *)

(** What every operation on the tree keeps. *)
Record vfs_step (v v' : vfs) : Prop := {
  vs_inv : vfs_inv v';
  vs_grows : grows v v';
  vs_data : forall b n, node_at v b = Some n -> exists n', node_at v' b = Some n' /\
              data n' = data n /\ size_ n' = size_ n;
  vs_mem : mem_step (vheap v) (vmem v) (vheap v') (vmem v');
  vs_fresh : data_fresh v v'
}.

Lemma vfs_step_refl v : vfs_inv v -> vfs_step v v.
Proof. intros Hi. constructor; [done|apply grows_refl| |apply mem_step_refl|by apply data_fresh_refl]. intros b n Hn. by exists n. Qed.

Lemma root_nonzero v : vfs_inv v -> vfs_root_node v <> 0.
Proof. intros Hi. destruct (vi_root _ Hi) as (n & Hn & _). by apply (node_nonzero v _ n). Qed.

Lemma root_node v : vfs_inv v -> is_Some (node_at v (vfs_root_node v)).
Proof. intros Hi. destruct (vi_root _ Hi) as (n & Hn & _). by exists n. Qed.

Lemma start_node v cwd path :
  vfs_inv v -> is_Some (node_at v cwd) -> is_Some (node_at v (start_of v cwd path)).
Proof. intros Hi Hc. unfold start_of. destruct (_ =? _); [by apply root_node|done]. Qed.

Lemma resolve_node v cwd path :
  vfs_inv v -> is_Some (node_at v cwd) -> vfs_resolve_from v cwd path <> 0 ->
  is_Some (node_at v (vfs_resolve_from v cwd path)).
Proof.
  intros Hi [n Hn]. rewrite resolve_walk by (by apply root_nonzero || by apply (node_nonzero v _ n)).
  apply walk_node; [done|]. apply start_node; [done|by exists n].
Qed.

Lemma parent_of_node v cwd pp :
  vfs_inv v -> is_Some (node_at v cwd) -> parent_of v cwd pp <> 0 ->
  is_Some (node_at v (parent_of v cwd pp)).
Proof. intros Hi Hc. unfold parent_of. destruct (_ =? 0); [done|by apply resolve_node]. Qed.

Lemma resolve_grows v v' cwd path :
  vfs_inv v -> vfs_inv v' -> grows v v' -> is_Some (node_at v cwd) ->
  vfs_resolve_from v cwd path <> 0 -> vfs_resolve_from v' cwd path = vfs_resolve_from v cwd path.
Proof.
  intros Hi Hi' Hg Hc. pose proof Hc as [n Hn]. pose proof (node_nonzero v _ n Hi Hn) as Hcz.
  pose proof (root_nonzero v Hi) as Hr.
  rewrite !resolve_walk by (done || by rewrite (gr_root _ _ Hg)). intros Hw.
  assert (start_of v' cwd path = start_of v cwd path) as ->.
  { unfold start_of. by rewrite (gr_root _ _ Hg). }
  apply (walk_grows v); try done. by apply start_node.
Qed.

(** The last component of a path leads to the child of that name. *)
Lemma resolve_last v cwd path pp name c :
  vfs_inv v -> is_Some (node_at v cwd) -> split_ok path pp name -> str_len name <= VFS_NAME_MAX ->
  parent_of v cwd pp <> 0 -> child v (parent_of v cwd pp) name c ->
  vfs_resolve_from v cwd path = c.
Proof.
  intros Hi Hc [Hcomp (Hcn & Hd & Hdd) Hpar] Hlen Hp Hch. pose proof Hc as [n Hn].
  pose proof (node_nonzero v _ n Hi Hn) as Hcz. pose proof (root_nonzero v Hi) as Hr.
  destruct (parent_of_node v cwd pp Hi Hc Hp) as [np Hnp].
  rewrite resolve_walk by done. rewrite Hcomp, walk_app.
  rewrite <- Hpar by done. rewrite (proj2 (Z.eqb_neq _ 0)) by done.
  cbn [walk]. unfold step_comp. rewrite str_len_spec, Hcn in Hlen.
  rewrite (proj2 (Z.ltb_ge _ _)) by done.
  rewrite !str_eq_cstr, Hcn. rewrite !bool_decide_false by done.
  rewrite (proj1 (find_child_spec v _ np name Hi Hnp) c) by (by rewrite Hcn).
  destruct (c =? 0) eqn:E; zify_bool; congruence.
Qed.

Lemma alloc_step v name t par v' c :
  vfs_inv v -> is_dir_node v par -> t = VFS_NODE_DIR \/ t = VFS_NODE_FILE ->
  1 <= str_len name <= VFS_NAME_MAX -> 47 ∉ cstr name -> vfs_find_child v par name = 0 ->
  vfs_alloc_node v name t par = (v', c) ->
  vfs_step v v' /\
  (c = 0 -> v' = v) /\
  (c <> 0 -> child v' par (cstr name) c /\ node_at v c = None /\
     exists n, node_at v' c = Some n /\ vn_type n = t /\ data n = 0 /\ size_ n = 0).
Proof.
  intros Hi (np & Hnp & Hdir) Ht Hname Hslash Hfree Hal.
  destruct (alloc_node_spec v name t par np v' c) as (? & ? & ? & ? & ? & ? & ?); try done.
  { by apply (find_child_none v par np). }
Qed.

(** A created child is what its path resolves to afterwards. *)
Lemma created_resolves v v' cwd path pp name c :
  vfs_inv v -> vfs_step v v' -> is_Some (node_at v cwd) -> split_ok path pp name ->
  str_len name <= VFS_NAME_MAX -> parent_of v cwd pp <> 0 ->
  child v' (parent_of v cwd pp) (cstr name) c -> vfs_resolve_from v' cwd path = c.
Proof.
  intros Hi Hst Hc Hsp Hlen Hp Hch. assert (cstr name = name) as Hcn by apply Hsp.
  assert (parent_of v' cwd pp = parent_of v cwd pp) as Hpar'.
  { unfold parent_of in *. destruct (chr pp =? 0) eqn:E; [done|].
    apply resolve_grows; [done|apply Hst|apply Hst|done|done]. }
  assert (is_Some (node_at v' cwd)) as Hc1.
  { destruct Hc as [x Hx]. destruct (vs_data _ _ Hst _ _ Hx) as (x' & ? & _). by exists x'. }
  apply (resolve_last _ _ _ pp name); try done; [apply Hst|by rewrite Hpar'|].
  rewrite Hpar', <- Hcn. done.
Qed.

Lemma make_dir_spec v cwd path v' b :
  vfs_inv v -> is_Some (node_at v cwd) -> vfs_make_dir v cwd path = (v', b) ->
  vfs_step v v' /\ (b = false -> v' = v) /\
  (b = true -> plain_path path ->
     vfs_resolve_from v cwd path = 0 /\
     exists n, node_at v' (vfs_resolve_from v' cwd path) = Some n /\ vn_type n = VFS_NODE_DIR).
Proof.
  intros Hi Hc. unfold vfs_make_dir. destruct (on_mount _).
  { intros [= <- <-]. split; [by apply vfs_step_refl|done]. }
  destruct (vfs_split_parent _ _ _) as [[pp name]|] eqn:Esp.
  2:{ intros [= <- <-]. split; [by apply vfs_step_refl|done]. }
  destruct (split_parent_spec _ _ _ Esp) as (Hname & Hslash & Hsplit).
  set (par := parent_of v cwd pp).
  destruct ((par =? 0) || _ || _) eqn:Eg.
  { intros [= <- <-]. split; [by apply vfs_step_refl|done]. }
  zify_bool. match goal with H : is_type _ _ _ = true |- _ => apply is_type_dir in H as Hdir end.
  destruct (vfs_alloc_node v name VFS_NODE_DIR par) as [v1 c] eqn:Eal. intros [= <- <-].
  destruct (alloc_step v name VFS_NODE_DIR par v1 c) as (Hst & Hz & Hnz); try done; [by left|].
  split; [done|]. destruct (c =? 0) eqn:Ec; zify_bool; cbn [negb].
  { split; [by intros _; apply Hz|done]. }
  split; [done|]. intros _ Hpl. specialize (Hsplit Hpl). destruct (Hnz Ec) as (Hch & _ & n & Hn & Ht & _).
  assert (cstr name = name) as Hcn by apply Hsplit. split.
  - destruct (Z.eq_dec (vfs_resolve_from v cwd path) 0) as [|Hr]; [done|]. exfalso.
    destruct Hdir as (np & Hnp & _).
    pose proof Hc as [x Hx]. pose proof (node_nonzero v _ x Hi Hx) as Hcz. pose proof (root_nonzero v Hi) as Hrz.
    revert Hr. rewrite resolve_walk by done. rewrite (sp_comps _ _ _ Hsplit), walk_app.
    rewrite <- (sp_parent _ _ _ Hsplit) by done. fold par.
    rewrite (proj2 (Z.eqb_neq par 0)) by done. cbn [walk]. unfold step_comp.
    destruct (sp_name _ _ _ Hsplit) as (_ & Hd & Hdd).
    rewrite !str_eq_cstr, Hcn, !bool_decide_false by done.
    destruct (_ <? _); [done|].
    match goal with H : vfs_find_child v par name = 0 |- _ => rewrite H end. done.
  - exists n. split; [|done]. by rewrite (created_resolves v v1 cwd path pp name c) by (done || lia).
Qed.

Lemma touch_spec v cwd path v' b :
  vfs_inv v -> is_Some (node_at v cwd) -> vfs_touch v cwd path = (v', b) ->
  vfs_step v v' /\ (b = false -> v' = v) /\
  (b = true -> plain_path path ->
     exists n, node_at v' (vfs_resolve_from v' cwd path) = Some n /\ vn_type n = VFS_NODE_FILE).
Proof.
  intros Hi Hc. unfold vfs_touch. destruct (on_mount _).
  { intros [= <- <-]. split; [by apply vfs_step_refl|done]. }
  destruct (vfs_split_parent _ _ _) as [[pp name]|] eqn:Esp.
  2:{ intros [= <- <-]. split; [by apply vfs_step_refl|done]. }
  destruct (split_parent_spec _ _ _ Esp) as (Hname & Hslash & Hsplit).
  set (par := parent_of v cwd pp).
  destruct ((par =? 0) || _) eqn:Eg.
  { intros [= <- <-]. split; [by apply vfs_step_refl|done]. }
  zify_bool. match goal with H : is_type _ _ _ = true |- _ => apply is_type_dir in H as Hdir end.
  destruct (vfs_find_child v par name =? 0) eqn:Ef; zify_bool; cbn [negb].
  - destruct (vfs_alloc_node v name VFS_NODE_FILE par) as [v1 c] eqn:Eal. intros [= <- <-].
    destruct (alloc_step v name VFS_NODE_FILE par v1 c) as (Hst & Hz & Hnz); try done; [by right|].
    split; [done|]. destruct (c =? 0) eqn:Ec; zify_bool; cbn [negb].
    { split; [by intros _; apply Hz|done]. }
    split; [done|]. intros _ Hpl. specialize (Hsplit Hpl). destruct (Hnz Ec) as (Hch & _ & n & Hn & Ht & _).
    exists n. split; [|done]. by rewrite (created_resolves v v1 cwd path pp name c) by (done || lia).
  - intros [= <- <-]. split; [by apply vfs_step_refl|]. split; [done|].
    intros Hty Hpl. specialize (Hsplit Hpl). destruct Hdir as (np & Hnp & _).
    pose proof (proj2 (find_child_spec v par np name Hi Hnp) Ef) as Hch.
    assert (cstr name = name) as Hcn by apply Hsplit. rewrite Hcn in Hch.
    rewrite (resolve_last v cwd path pp name _ Hi Hc Hsplit ltac:(lia)) by done.
    unfold is_type in Hty. destruct (node_at v (vfs_find_child v par name)) as [n|] eqn:En; [|done].
    exists n. cbn in Hty. by zify_bool.
Qed.

(** ** The path of the current directory *)

Lemma collect_parts_grows k v v' a :
  vfs_inv v -> grows v v' -> a = 0 \/ is_Some (node_at v a) ->
  collect_parts k v' a = collect_parts k v a.
Proof.
  intros Hi Hg. revert a. induction k as [|k IH]; intros a Ha; [done|].
  cbn [collect_parts]. rewrite (gr_root _ _ Hg).
  destruct (a =? 0) eqn:E0; [done|]. destruct (a =? vfs_root_node v) eqn:Er; [done|]. zify_bool. cbn [orb].
  destruct Ha as [|[n Hn]]; [done|]. destruct (gr_node _ _ Hg _ _ Hn) as (n' & -> & -> & _ & ->).
  rewrite Hn. f_equal. apply IH. right.
  destruct (no_parent _ _ _ (vi_node _ Hi _ _ Hn) Er) as (_ & np & ? & _). by exists np.
Qed.

Lemma cwd_path_grows v v' cwd size :
  vfs_inv v -> grows v v' -> is_Some (node_at v cwd) ->
  vfs_get_cwd_path v' cwd size = vfs_get_cwd_path v cwd size.
Proof.
  intros Hi Hg Hc. unfold vfs_get_cwd_path. rewrite (gr_root _ _ Hg).
  by rewrite (collect_parts_grows _ v v') by (done || by right).
Qed.

Lemma abs_check_grows v v' cwd path :
  vfs_inv v -> grows v v' -> is_Some (node_at v cwd) ->
  abs_check v' cwd path = abs_check v cwd path.
Proof. intros Hi Hg Hc. unfold abs_check. by rewrite (cwd_path_grows v v'). Qed.

(** ** Writing a file *)

Lemma grows_node v v' a : grows v v' -> is_Some (node_at v a) -> is_Some (node_at v' a).
Proof. intros Hg [n Hn]. destruct (gr_node _ _ Hg _ _ Hn) as (n' & ? & _). by exists n'. Qed.

(** The copy of the bytes and the update of the node: the part of
    [vfs_write_file] that follows [vfs_touch]. *)
Lemma fill_node_spec v node n bytes h copy :
  let size := Z.of_nat (length bytes) in
  vfs_inv v -> node_at v node = Some n -> is_u32 size -> all_bytes bytes ->
  kmalloc (vheap v) (size +u 1) = (h, copy) -> copy <> 0 ->
  let v' := put_data (with_heap h (store (store_bytes (vmem v) copy bytes) (copy + size) 0) v) node copy size in
  vfs_inv v' /\ grows v v' /\ node_at v' node = Some (set_data copy size n) /\
  load_bytes (vmem v') copy (length bytes) = bytes /\
  mem_step (vheap v) (vmem v) (vheap v') (vmem v') /\
  (forall b nb, b <> node -> node_at v b = Some nb -> node_at v' b = Some nb) /\ data_fresh v v' /\
  h_current (vheap v) <= copy.
Proof.
  intros size Hi Hn Hs Hb Hk Hz.
  assert (is_u32 (size +u 1)) as Hs1 by apply u32_range.
  destruct (kmalloc_Some _ _ _ _ (vi_heap _ Hi) Hs1 Hk Hz) as (Hi' & Hp & Hpos & Hend & Hl & Hl' & Hst & Hres & _).
  pose proof (hi_start _ (vi_heap _ Hi)). pose proof (hi_current _ (vi_heap _ Hi)).
  unfold USER_IMAGE_RESERVED_BASE in *. unfold is_u32 in *.
  destruct (u32_add_cases size 1) as [[? He]|[? He]]; [lia..| |rewrite He in *; lia].
  rewrite He in *.
  assert (fits copy (Z.of_nat (length bytes))) as Hf by (split; lia).
  assert (fits copy (Z.of_nat (length (bytes ++ [0])))) as Hf1 by (rewrite length_app; cbn; split; lia).
  set (m := store (store_bytes (vmem v) copy bytes) (copy + size) 0).
  assert (mem_step (vheap v) (vmem v) h m) as Hm.
  { apply (kmalloc_step _ _ _ _ _ _ (vi_heap _ Hi) Hs1 Hk Hz); [|intros Hok; by apply store_ok, store_bytes_ok].
    intros x Hx. unfold m, store. rewrite u32_small by lia. split_if; [lia|].
    apply store_bytes_out; [done|lia]. }
  destruct (with_heap_inv v h m Hi Hi' Hm) as [Hi1 Hg1].
  assert (m (copy + size) = 0) as Hend0.
  { unfold m, store. rewrite u32_small by lia. by split_if. }
  destruct (put_data_inv (with_heap h m v) node n copy size) as (Hi2 & Hg2 & Hat); try done; [cbn [vheap with_heap]; lia..|].
  split_and!; [done|by eapply grows_trans|done| |done| | |lia].
  - cbn [vmem put_data with_nodes with_heap]. transitivity (load_bytes (store_bytes (vmem v) copy bytes) copy (length bytes)).
    + apply load_bytes_ext; [done|]. intros x Hx. unfold m, store. rewrite u32_small by lia. split_if; [lia|done].
    + by apply load_store_bytes.
  - intros b nb Hbn Hnb. unfold put_data, node_at. cbn [nodes with_nodes with_heap].
    by rewrite lookup_alter_ne by done.
  - intros b nb. unfold put_data, node_at. cbn [nodes with_nodes with_heap].
    destruct (decide (b = node)) as [-> |Hne].
    + unfold node_at in Hn. rewrite lookup_alter_eq, Hn. intros [= <-]. right. left. cbn. lia.
    + rewrite lookup_alter_ne by done. intros Hnb. right. right. by exists nb.
Qed.

(** The text of a path of the given components. *)
Fixpoint path_of (parts : list (list Z)) : list Z :=
  match parts with [] => [] | p :: parts' => 47 :: p ++ path_of parts' end.

Definition good_name (p : list Z) : Prop :=
  p <> [] /\ no_nul p /\ (47 ∉ p) /\ Z.of_nat (length p) <= VFS_NAME_MAX.

(** The names between a node and the root lead back to the node. *)
Lemma collect_parts_walk v a k m :
  vfs_inv v -> is_Some (node_at v a) -> depth v a k -> (k <= m)%nat ->
  let parts := collect_parts m v a in
  length parts = k /\ Forall good_name parts /\
  (Forall (fun p => p <> dot /\ p <> dotdot) parts -> walk v (vfs_root_node v) (rev parts) = a).
Proof.
  intros Hi. revert a k. induction m as [|m IH]; intros a k [n Hn] Hd Hk.
  - inversion Hd; subst; [|lia]. split_and!; [done|constructor|done].
  - pose proof (node_nonzero v a n Hi Hn) as Hz. cbn [collect_parts].
    rewrite (proj2 (Z.eqb_neq a 0)) by done. cbn [orb].
    inversion Hd as [|? n' k' Hr Hn' Hd']; subst.
    { rewrite Z.eqb_refl. split_and!; [done|constructor|done]. }
    simplify_eq. rewrite (proj2 (Z.eqb_neq a _)), Hn by done.
    destruct (no_parent _ _ _ (vi_node _ Hi _ _ Hn) Hr) as (Hne & np & Hnp & _).
    destruct (no_name _ _ _ (vi_node _ Hi _ _ Hn)) as (_ & Hlen & Hsl).
    destruct (IH (parent n) k') as (Hl & Hf & Hw); [by exists np|done|lia|].
    cbn [length rev]. split_and!; [by rewrite Hl| |].
    + constructor; [|done]. split_and!; [done|apply cstr_no_nul|done|by rewrite <- str_len_spec].
    + intros Hdots. apply Forall_cons_1 in Hdots as [[Hdt Hdd] Hdots]. rewrite walk_app, Hw by done.
      rewrite (proj2 (Z.eqb_neq (parent n) 0)) by (by apply (node_nonzero v _ np)).
      cbn [walk]. unfold step_comp. rewrite <- str_len_spec, (proj2 (Z.ltb_ge _ _)) by done.
      rewrite !str_eq_cstr, !bool_decide_false by (by rewrite cstr_cstr).
      assert (child v (parent n) (cstr (cstr (vn_name n))) a) as Hch by (exists n; by rewrite cstr_cstr).
      rewrite (proj1 (find_child_spec v _ np _ Hi Hnp) a Hch).
      by rewrite (proj2 (Z.eqb_neq a 0)).
Qed.

Lemma write_parts_fits parts remaining out :
  parts <> [] -> Forall good_name parts ->
  Z.of_nat (length (path_of parts)) <= remaining < 4294967296 ->
  write_parts parts remaining (out ++ [47]) = out ++ path_of parts.
Proof.
  revert remaining out. induction parts as [|p parts IH]; intros remaining out Hne Hf Hr; [done|].
  apply Forall_cons_1 in Hf as [(_ & _ & _ & Hp) Hf]. unfold VFS_NAME_MAX in Hp.
  cbn [write_parts path_of] in *. cbn [length] in Hr. rewrite length_app in Hr. rewrite u32_small by lia.
  rewrite (proj2 (Z.ltb_ge _ _)) by lia. destruct parts as [|q parts'] eqn:Ep.
  - cbn [path_of]. by rewrite app_nil_r, <- app_assoc.
  - rewrite <- Ep in *.
    assert (1 <= Z.of_nat (length (path_of parts))) by (rewrite Ep; cbn; lia).
    rewrite (u32_small (remaining - _)), u32_small by lia.
    rewrite IH by (done || lia || by rewrite Ep). by rewrite <- !app_assoc.
Qed.

Lemma split_comps_name p rest :
  good_name p -> chr rest = 47 \/ chr rest = 0 ->
  split_comps (p ++ rest) [] = p :: split_comps rest [].
Proof.
  intros (Hp & Hnn & Hs & _) [Hr|Hr].
  - destruct rest as [|c rest]; [done|]. cbn in Hr. subst c.
    rewrite split_comps_slash by done. rewrite split_comps_plain by (by rewrite cstr_id).
    rewrite cstr_id by done. cbn [app]. by rewrite flush_nonempty.
  - assert (cstr (p ++ rest) = p) as Hc.
    { destruct rest as [|c rest]; [by rewrite app_nil_r; apply cstr_id|]. cbn in Hr. subst c. by apply cstr_app_nul. }
    rewrite split_comps_plain by (by rewrite Hc). rewrite Hc. cbn [app]. rewrite flush_nonempty by done.
    destruct rest as [|c rest]; [done|]. cbn in Hr. by subst c.
Qed.

Lemma components_path_of parts :
  Forall good_name parts -> components (path_of parts ++ [0]) = parts.
Proof.
  unfold components. induction 1 as [|p parts Hp _ IH]; [done|].
  cbn [path_of app split_comps]. change (47 =? 0) with false. change (47 =? 47) with true. cbn [flush].
  rewrite <- app_assoc, split_comps_name, IH; [done|done|].
  destruct parts; [by right|by left].
Qed.


Section ops.
Context `{!MountFs}.

Lemma write_file_spec v cwd path bytes v' b :
  vfs_inv v -> is_Some (node_at v cwd) -> is_u32 (Z.of_nat (length bytes)) -> all_bytes bytes ->
  vfs_write_file v cwd path bytes = (v', b) ->
  vfs_inv v' /\ grows v v' /\ mem_step (vheap v) (vmem v) (vheap v') (vmem v') /\ data_fresh v v' /\
  (b = true -> on_mount (abs_check v cwd path) = false /\
     exists r n, r <> 0 /\ vfs_resolve_from v' cwd path = r /\ node_at v' r = Some n /\
       (plain_path path -> vn_type n = VFS_NODE_FILE) /\
       size_ n = Z.of_nat (length bytes) /\ h_current (vheap v) <= data n /\
       load_bytes (vmem v') (data n) (length bytes) = bytes /\
       forall c nc, c <> r -> node_at v c = Some nc -> exists nc', node_at v' c = Some nc' /\
         data nc' = data nc /\ size_ nc' = size_ nc).
Proof.
  intros Hi Hc Hs Hb. unfold vfs_write_file.
  destruct (on_mount _); [by intros [= <- <-]; split_and!; try done; [apply grows_refl|by apply data_fresh_refl]|].
  destruct (vfs_touch v cwd path) as [v1 b1] eqn:Et.
  destruct (touch_spec v cwd path v1 b1 Hi Hc Et) as ([Hi1 Hg1 Hd1 Hm1 Hf1] & _ & Htype). heap_facts.
  destruct b1; [|by intros [= <- <-]].
  destruct (vfs_resolve_from v1 cwd path =? 0) eqn:Er; [by intros [= <- <-]|]. zify_bool.
  destruct (kmalloc (vheap v1) _) as [h copy] eqn:Ek.
  destruct (copy =? 0) eqn:Ec; zify_bool; intros [= <- <-].
  { subst copy. apply kmalloc_None in Ek as ->; [|apply Hi1|apply u32_range].
    destruct (with_heap_inv v1 (vheap v1) (vmem v1) Hi1 (vi_heap _ Hi1) (mem_step_refl _ _)) as [Hi2 Hg2].
    split_and!; try done; by eapply grows_trans. }
  pose proof (grows_node _ _ _ Hg1 Hc) as Hc1.
  destruct (resolve_node v1 cwd path Hi1 Hc1 Er) as [n Hn].
  destruct (fill_node_spec v1 _ n bytes h copy Hi1 Hn Hs Hb Ek Ec)
    as (Hi2 & Hg2 & Hat & Hl & Hm & Hoth & Hf2 & Hcp). heap_facts.
  set (v2 := put_data _ _ _ _) in *.
  split; [done|]. split; [by eapply grows_trans|]. split; [exact (mem_step_trans _ _ _ _ _ _ Hm1 Hm)|].
  split; [by apply (data_fresh_trans _ v1)|].
  intros _. split; [done|]. exists (vfs_resolve_from v1 cwd path), (set_data copy (Z.of_nat (length bytes)) n).
  split_and!; try done.
  - by apply resolve_grows.
  - intros Hpl. destruct (Htype eq_refl Hpl) as (n' & Hn' & Ht). by simplify_eq.
  - cbn [data set_data]. lia.
  - intros c nc Hne Hnc. destruct (Hd1 _ _ Hnc) as (nc1 & Hnc1 & Hdata & Hsz).
    exists nc1. split; [by apply Hoth|done].
Qed.

(** Reading a path back after it was written. *)
Lemma written_read v cwd path bytes v' :
  vfs_inv v -> is_Some (node_at v cwd) -> plain_path path ->
  is_u32 (Z.of_nat (length bytes)) -> all_bytes bytes ->
  vfs_write_file v cwd path bytes = (v', true) ->
  exists n, node_at v' (vfs_resolve_from v' cwd path) = Some n /\
    vfs_read_file v' cwd path = (v', Some (data n, Z.of_nat (length bytes))) /\
    load_bytes (vmem v') (data n) (length bytes) = bytes /\
    size_ n = Z.of_nat (length bytes) /\ h_current (vheap v) <= data n /\
    (forall c nc, c <> vfs_resolve_from v' cwd path -> node_at v c = Some nc ->
       exists nc', node_at v' c = Some nc' /\ data nc' = data nc /\ size_ nc' = size_ nc).
Proof.
  intros Hi Hc Hpl Hs Hb Hw.
  destruct (write_file_spec _ _ _ _ _ _ Hi Hc Hs Hb Hw) as (Hi' & Hg & _ & _ & Ht).
  destruct (Ht eq_refl) as (Hmnt & r & n & Hr0 & Hr & Hn & Hty & Hsz & Hlo & Hl & Hoth).
  specialize (Hty Hpl). exists n. subst r. split_and!; try done.
  unfold vfs_read_file. rewrite (abs_check_grows v v') by done.
  unfold on_mount in Hmnt. apply orb_false_iff in Hmnt as [Hb1%bool_decide_eq_false Hb2%bool_decide_eq_false].
  destruct (vfs_is_cdrom_mount_path _) as [s|]; [exfalso; by apply Hb2|].
  destruct (vfs_is_bin_alias_path _) as [s|]; [exfalso; by apply Hb1|].
  rewrite Hn. rewrite (proj2 (Z.eqb_neq _ 0)) by done. rewrite Hty. cbn. by rewrite Hsz.
Qed.

(** What stands behind the terminator of a path does not matter. *)
Lemma cstr_nth p n : (n <= length (cstr p))%nat -> nth n (cstr p) 0 = nth n p 0.
Proof.
  revert n. induction p as [|c p IH]; intros n Hn; cbn [cstr] in *; [done|].
  destruct (c =? 0) eqn:E; zify_bool; cbn [length] in Hn.
  - assert (n = 0%nat) as -> by lia. cbn. by subst.
  - destruct n as [|n]; [done|]. cbn. apply IH. lia.
Qed.

Lemma chr_cstr p : chr (cstr p) = chr p.
Proof. destruct p as [|c p]; cbn [cstr chr hd]; [done|]. destruct (c =? 0) eqn:E; zify_bool; by subst. Qed.

Lemma not_mounted_cstr path : on_mount path = false -> on_mount (cstr path) = false.
Proof.
  pose proof (chr_cstr path) as Hc.
  assert (forall p, str_startswith (cstr path) p = str_startswith path p) as Hs.
  { intros p. apply eq_true_iff_eq. by rewrite !str_startswith_spec, cstr_cstr. }
  assert (forall p, str_startswith path p = true -> byte_at (cstr path) (Z.of_nat (length (cstr p))) =
            byte_at path (Z.of_nat (length (cstr p)))) as Hb.
  { intros p Hp%str_startswith_spec%prefix_length. unfold byte_at. rewrite Nat2Z.id. by apply cstr_nth. }
  unfold on_mount, vfs_is_bin_alias_path, vfs_is_cdrom_mount_path. rewrite Hc, !Hs.
  destruct (negb (chr path =? 47)); [done|].
  pose proof (Hb BIN_ALIAS) as H1. pose proof (Hb CDROM_MOUNT) as H2.
  change (Z.of_nat (length (cstr BIN_ALIAS))) with 4 in H1.
  change (Z.of_nat (length (cstr CDROM_MOUNT))) with 12 in H2.
  destruct (str_startswith path BIN_ALIAS); cbn [negb] in *; [rewrite H1 by done|];
    (destruct (str_startswith path CDROM_MOUNT); cbn [negb] in *; [rewrite H2 by done|]);
    intros Hm; repeat case_match; try done; by rewrite ?bool_decide_eq_true_2, ?orb_true_r in Hm by (by eexists).
Qed.

Lemma read_file_cstr v cwd path :
  vfs_root_node v <> 0 -> cwd <> 0 -> chr path = 47 -> on_mount path = false -> vfs_read_file v cwd path = vfs_read_file v cwd (cstr path).
Proof.
  intros Hroot Hcwd Hc Hm. pose proof (not_mounted_cstr path Hm) as Hm2.
  assert (chr (cstr path) = 47) as Hc2 by (by rewrite chr_cstr).
  assert (forall p, on_mount p = false -> vfs_is_cdrom_mount_path p = None /\ vfs_is_bin_alias_path p = None) as Hno.
  { intros p. unfold on_mount. intros [Hb1%bool_decide_eq_false Hb2%bool_decide_eq_false]%orb_false_iff.
    by rewrite <- !eq_None_not_Some in *. }
  destruct (Hno _ Hm) as [E1 E2], (Hno _ Hm2) as [E3 E4].
  unfold vfs_read_file, abs_check. rewrite Hc, Hc2. change (47 =? 47) with true. cbn [negb].
  rewrite E1, E2, E3, E4.
  assert (vfs_resolve_from v cwd (cstr path) = vfs_resolve_from v cwd path) as ->; [|done].
  rewrite !resolve_walk by done. unfold components, start_of. by rewrite split_comps_cstr, Hc, Hc2.
Qed.



(** ** The other operations *)

Lemma vfs_step_trans u v w : vfs_step u v -> vfs_step v w -> vfs_step u w.
Proof.
  intros [Hi1 Hg1 Hd1 Hm1 Hf1] [Hi2 Hg2 Hd2 Hm2 Hf2]. heap_facts.
  constructor; [done|by eapply grows_trans| |exact (mem_step_trans _ _ _ _ _ _ Hm1 Hm2)|by apply (data_fresh_trans _ v)].
  - intros b n (n1 & Hn1 & ? & ?)%Hd1. apply Hd2 in Hn1 as (n2 & ? & ? & ?).
    exists n2. split_and!; congruence.
Qed.

Lemma take_component_clean p name size nm rest :
  take_component p name size = Some (nm, rest) -> no_nul name -> 47 ∉ name ->
  no_nul nm /\ 47 ∉ nm.
Proof.
  revert name. induction p as [|c p IH]; intros name; cbn [take_component]; [by intros [= <- <-]|].
  destruct (c =? 0) eqn:E0; cbn [orb]; [by intros [= <- <-]|].
  destruct (c =? 47) eqn:E1; [by intros [= <- <-]|]. zify_bool.
  destruct (_ <=? _); [done|]. intros Ht Hn Hs. apply (IH _ Ht).
  - by apply Forall_app_2; [|constructor; [done|constructor]].
  - rewrite not_elem_of_app, list_elem_of_singleton. split; [done|congruence].
Qed.

(** [vfs_ensure_dir_abs] only adds directories. *)
Lemma ensure_loop_step fuel v node p v' b :
  vfs_inv v -> is_dir_node v node -> chr p <> 47 ->
  ensure_loop fuel v node p = (v', b) -> vfs_step v v'.
Proof.
  revert v node p. induction fuel as [|f IH]; intros v node p Hi Hd Hp; cbn [ensure_loop].
  { intros [= <- <-]. by apply vfs_step_refl. }
  destruct (chr p =? 0) eqn:E0; [intros [= <- <-]; by apply vfs_step_refl|]. zify_bool.
  pose proof (take_component_spec p [] (VFS_NAME_MAX + 1)) as Hts.
  destruct (take_component p [] (VFS_NAME_MAX + 1)) as [[comp rest]|] eqn:Et;
    [|intros [= <- <-]; by apply vfs_step_refl].
  destruct (take_component_clean _ _ _ _ _ Et) as [Hnn Hs]; [constructor|by apply not_elem_of_nil|].
  assert (cstr comp = comp) as Hcc by (by apply cstr_id).
  assert (1 <= str_len comp <= VFS_NAME_MAX) as Hlen.
  { rewrite str_len_spec, Hcc. destruct Hts as (_ & _ & Hsz & _ & Hne). unfold VFS_NAME_MAX in *.
    specialize (Hne (or_intror (conj E0 Hp))). specialize (Hsz ltac:(cbn; lia)).
    destruct comp; [done|]. cbn [length] in *. lia. }
  destruct (vfs_find_child v node comp =? 0) eqn:Ef; zify_bool.
  - destruct (vfs_alloc_node v comp VFS_NODE_DIR node) as [v1 c] eqn:Eal.
    destruct (alloc_step v comp VFS_NODE_DIR node v1 c) as (Hst & _ & _); try done; [by left|by rewrite Hcc|].
    destruct (c =? 0) eqn:Ec; [by intros [= <- <-]|].
    destruct (is_type v1 c VFS_NODE_DIR) eqn:Ety; cbn [negb]; [|by intros [= <- <-]].
    intros He. apply (vfs_step_trans _ v1); [done|].
    apply (IH _ c _ ltac:(apply Hst) ltac:(by apply is_type_dir) ltac:(apply skip_slashes_chr) He).
  - rewrite (proj2 (Z.eqb_neq _ 0)) by done.
    destruct (is_type v _ VFS_NODE_DIR) eqn:Ety; cbn [negb]; [|intros [= <- <-]; by apply vfs_step_refl].
    intros He. apply (IH _ _ _ Hi ltac:(by apply is_type_dir) ltac:(apply skip_slashes_chr) He).
Qed.

Lemma root_dir v : vfs_inv v -> is_dir_node v (vfs_root_node v).
Proof. intros Hi. destruct (vi_root _ Hi) as (n & ? & ? & _). by exists n. Qed.

Lemma ensure_dir_step v p v' b :
  vfs_inv v -> vfs_ensure_dir_abs v p = (v', b) -> vfs_step v v'.
Proof.
  intros Hi. unfold vfs_ensure_dir_abs. destruct (negb _); [intros [= <- <-]; by apply vfs_step_refl|].
  apply ensure_loop_step; [done|by apply root_dir|apply skip_slashes_chr].
Qed.

Lemma enter_mounted_step v check sub v' r :
  vfs_inv v -> enter_mounted v check sub = Some (v', r) ->
  vfs_step v v' /\ forall c, r = Some c -> is_dir_node v' c.
Proof.
  intros Hi. unfold enter_mounted. destruct (fs_is_dir _ _); [|done].
  destruct (vfs_ensure_dir_abs v check) as [v1 [|]] eqn:Ee; apply ensure_dir_step in Ee; try done.
  - destruct (_ || negb (is_type v1 _ _)) eqn:E; [by intros [= <- <-]|]. zify_bool.
    intros [= <- <-]. split; [done|]. intros c [= <-]. by apply is_type_dir.
  - by intros [= <- <-].
Qed.

(** [vfs_change_dir] enters directories only. *)
Lemma change_dir_step v cwd path v' r :
  vfs_inv v -> vfs_change_dir v cwd path = (v', r) ->
  vfs_step v v' /\ forall c, r = Some c -> is_dir_node v' c.
Proof.
  intros Hi. unfold vfs_change_dir.
  set (plain := if _ || negb (is_type v _ _) then _ else _).
  assert (plain = (v', r) -> vfs_step v v' /\ forall c, r = Some c -> is_dir_node v' c) as Hplain.
  { unfold plain. destruct (_ || negb (is_type v _ _)) eqn:E; intros [= <- <-]; (split; [by apply vfs_step_refl|]); [done|].
    zify_bool. intros c [= <-]. by apply is_type_dir. }
  destruct (chr path =? 0); [done|]. cbv zeta.
  destruct (vfs_is_cdrom_mount_path _) as [s|]; cbn [mbind option_bind].
  - destruct (enter_mounted v _ s) as [[v1 r1]|] eqn:Ee.
    { intros [= <- <-]. by eapply enter_mounted_step. }
    destruct (vfs_is_bin_alias_path _) as [s2|]; cbn [mbind option_bind]; [|done].
    destruct (enter_mounted v _ s2) as [[v1 r1]|] eqn:Ee2; [|done].
    intros [= <- <-]. by eapply enter_mounted_step.
  - destruct (vfs_is_bin_alias_path _) as [s2|]; cbn [mbind option_bind]; [|done].
    destruct (enter_mounted v _ s2) as [[v1 r1]|] eqn:Ee2; [|done].
    intros [= <- <-]. by eapply enter_mounted_step.
Qed.

Context `{!MountFsLaws}.

Lemma fs_read_step v mount path h m r :
  vfs_inv v -> fs_read (vheap v) (vmem v) mount path = (h, m, r) -> vfs_step v (with_heap h m v).
Proof using All.
  intros Hi Hr. destruct (fs_read_ok _ _ _ _ _ _ _ (vi_heap _ Hi) Hr) as (Hh & Hm & _).
  destruct (with_heap_inv v h m Hi Hh Hm) as [Hi' Hg]. constructor; try done; [|by apply data_fresh_refl].
  intros b n Hn. by exists n.
Qed.

Lemma read_file_step v cwd path v' r :
  vfs_inv v -> vfs_read_file v cwd path = (v', r) -> vfs_step v v'.
Proof using All.
  intros Hi. unfold vfs_read_file.
  destruct (vfs_is_cdrom_mount_path _) as [s|]; [|destruct (vfs_is_bin_alias_path _) as [s|]].
  1, 2: destruct (fs_read _ _ _ s) as [[h m] r'] eqn:E; intros [= <- <-]; by eapply fs_read_step.
  destruct (node_at v _) as [n|]; [destruct (_ || _)|]; intros [= <- <-]; by apply vfs_step_refl.
Qed.

Lemma stat_step v cwd path v' st b :
  vfs_inv v -> vfs_stat v cwd path = (v', st, b) -> vfs_step v v'.
Proof using All.
  intros Hi. unfold vfs_stat. pose proof (vfs_step_refl v Hi) as Hrefl.
  destruct (chr path =? 0); [destruct (_ =? 0); by intros [= <- <- <-]|]. cbv zeta.
  destruct (vfs_is_cdrom_mount_path _) as [s|]; [|destruct (vfs_is_bin_alias_path _) as [s|]].
  1, 2: destruct (fs_is_dir _ s); [by intros [= <- <- <-]|];
    destruct (fs_read _ _ _ s) as [[h m] [[d sz]|]] eqn:E; intros [= <- <- <-]; by eapply fs_read_step.
  destruct (node_at v _) as [n|]; [|by intros [= <- <- <-]].
  destruct (_ =? 0); [by intros [= <- <- <-]|]. destruct (_ =? VFS_NODE_DIR); [by intros [= <- <- <-]|].
  destruct (_ =? VFS_NODE_FILE); by intros [= <- <- <-].
Qed.

(** ** Runs of operations *)

(** One call of an operation by the shell or a system call: the tree and the
    current directory, before and after. *)
Inductive vfs_call : vfs * Z -> vfs * Z -> Prop :=
  | call_make_dir v cwd path v' b :
      vfs_make_dir v cwd path = (v', b) -> vfs_call (v, cwd) (v', cwd)
  | call_touch v cwd path v' b :
      vfs_touch v cwd path = (v', b) -> vfs_call (v, cwd) (v', cwd)
  | call_write v cwd path bytes v' b :
      is_u32 (Z.of_nat (length bytes)) -> all_bytes bytes ->
      vfs_write_file v cwd path bytes = (v', b) -> vfs_call (v, cwd) (v', cwd)
  | call_read v cwd path v' r :
      vfs_read_file v cwd path = (v', r) -> vfs_call (v, cwd) (v', cwd)
  | call_stat v cwd path v' st b :
      vfs_stat v cwd path = (v', st, b) -> vfs_call (v, cwd) (v', cwd)
  | call_change_dir v cwd path v' r :
      vfs_change_dir v cwd path = (v', r) -> vfs_call (v, cwd) (v', default cwd r).

Lemma vfs_call_inv v cwd v' cwd' :
  vfs_inv v -> is_dir_node v cwd -> vfs_call (v, cwd) (v', cwd') ->
  vfs_inv v' /\ is_dir_node v' cwd' /\ grows v v' /\
  mem_step (vheap v) (vmem v) (vheap v') (vmem v').
Proof using All.
  intros Hi Hd Hcall.
  assert (is_Some (node_at v cwd)) as Hc by (destruct Hd as (n & ? & _); by exists n).
  assert (forall v'', vfs_step v v'' -> vfs_inv v'' /\ is_dir_node v'' cwd /\ grows v v'' /\
    mem_step (vheap v) (vmem v) (vheap v'') (vmem v'')) as Hst.
  { intros v'' [? ? ? ? ?]. split_and!; try done. by apply (grows_dir v). }
  inversion Hcall; subst.
  - apply Hst. by eapply make_dir_spec.
  - apply Hst. by eapply touch_spec.
  - destruct (write_file_spec v cwd' path bytes v' b) as (? & ? & ? & _); try done.
    split_and!; try done. by apply (grows_dir v).
  - apply Hst. by eapply read_file_step.
  - apply Hst. by eapply stat_step.
  - destruct (change_dir_step v cwd path v' r) as [Hs Hr]; try done.
    destruct (Hst _ Hs) as (? & ? & ? & ?). split_and!; try done.
    destruct r as [c|]; [by apply Hr|done].
Qed.

Lemma vfs_run_ok v cwd v' cwd' :
  vfs_inv v -> is_dir_node v cwd -> rtc vfs_call (v, cwd) (v', cwd') ->
  vfs_inv v' /\ is_dir_node v' cwd' /\ grows v v'.
Proof using All.
  intros Hi Hd Hrun. remember (v, cwd) as s eqn:Es. remember (v', cwd') as s' eqn:Es'.
  revert v cwd Es Hi Hd. induction Hrun as [|x [v1 cwd1] z Hc _ IH]; intros v cwd Es Hi Hd.
  - subst. simplify_eq. split_and!; [done|done|apply grows_refl].
  - subst. destruct (vfs_call_inv _ _ _ _ Hi Hd Hc) as (Hi1 & Hd1 & Hg1 & _).
    destruct (IH eq_refl v1 cwd1 eq_refl Hi1 Hd1) as (? & ? & ?).
    split_and!; [done|done|by eapply grows_trans].
Qed.

(** C27: Any run of file operations keeps the tree well formed: every node has a
    parent directory and a path from the root, its children are on a duplicate
    free list, no two children of a directory have the same name, and the
    current directory is a directory.  No run removes, renames or moves a node:
    a path that resolved before resolves to the same node after. *)
Theorem vfs_run_inv v cwd v' cwd' :
  vfs_inv v -> is_dir_node v cwd -> rtc vfs_call (v, cwd) (v', cwd') ->
  vfs_inv v' /\ is_dir_node v' cwd' /\ grows v v' /\
  (forall dir path, is_Some (node_at v dir) -> vfs_resolve_from v dir path <> 0 ->
     vfs_resolve_from v' dir path = vfs_resolve_from v dir path).
Proof using All.
  intros Hi Hd Hrun. destruct (vfs_run_ok _ _ _ _ Hi Hd Hrun) as (Hi' & Hd' & Hg).
  split_and!; [done|done|done|]. intros dir path Hdir Hr. by apply resolve_grows.
Qed.

End ops.

(** ** Initialisation *)

Definition vfs_blank (h : heap_state) (m : mem) : vfs :=
  {| nodes := ∅; vfs_root_node := 0; vheap := h; vmem := m |}.

Lemma seed_file_inv v path text v' b :
  vfs_inv v -> is_u32 (str_len text) -> vfs_write_seed_file v path text = (v', b) ->
  vfs_inv v' /\ grows v v' /\ mem_step (vheap v) (vmem v) (vheap v') (vmem v').
Proof.
  intros Hi Ht. unfold vfs_write_seed_file.
  destruct (vfs_touch v (vfs_root_node v) path) as [v1 b1] eqn:Et.
  destruct (touch_spec v _ path v1 b1 Hi (root_node v Hi) Et) as ([Hi1 Hg1 _ Hm1 _] & _ & _).
  destruct b1; [|by intros [= <- <-]].
  destruct (vfs_resolve v1 path =? 0) eqn:Er; [by intros [= <- <-]|]. zify_bool.
  destruct (kmalloc (vheap v1) _) as [h copy] eqn:Ek.
  destruct (copy =? 0) eqn:Ec; zify_bool; intros [= <- <-].
  { subst copy. apply kmalloc_None in Ek as ->; [|apply Hi1|apply u32_range].
    destruct (with_heap_inv v1 (vheap v1) (vmem v1) Hi1 (vi_heap _ Hi1) (mem_step_refl _ _)) as [Hi2 Hg2].
    split_and!; [done|by eapply grows_trans|done]. }
  destruct (resolve_node v1 (vfs_root_node v1) path Hi1 (root_node v1 Hi1) Er) as [n Hn].
  destruct (kmalloc_Some _ _ _ _ (vi_heap _ Hi1) (u32_range _) Ek Ec) as (Hh & Hp & Hpos & Hend & Hl & Hl' & Hls & Hres & _).
  pose proof (hi_start _ (vi_heap _ Hi1)). pose proof (hi_current _ (vi_heap _ Hi1)).
  unfold USER_IMAGE_RESERVED_BASE in *.
  pose proof (fun m' => kmalloc_step _ (vmem v1) _ _ _ m' (vi_heap _ Hi1) (u32_range _) Ek Ec) as Hst.
  unfold is_u32 in Ht. set (sz := str_len text) in *.
  destruct (u32_add_cases sz 1) as [[? He]|[? He]]; [lia..| |rewrite He in *; lia]. rewrite He in *.
  assert (Z.of_nat (length (cstr text ++ [0])) = sz + 1) as Hlen.
  { unfold sz. rewrite length_app, str_len_spec. cbn. lia. }
  assert (fits copy (Z.of_nat (length (cstr text ++ [0])))) as Hf by (rewrite Hlen; split; lia).
  assert (store_bytes (vmem v1) copy (cstr text ++ [0]) (copy + sz) = 0) as Hend0.
  { assert ((cstr text ++ [0]) !! length (cstr text) = Some 0) as Hlast by (by apply list_lookup_middle).
    pose proof (store_bytes_in (vmem v1) copy _ _ _ Hf Hlast) as Hin.
    rewrite length_app in Hlen. cbn [length] in Hlen.
    by replace (copy + Z.of_nat (length (cstr text))) with (copy + sz) in Hin by lia. }
  destruct (with_heap_inv v1 h (store_bytes (vmem v1) copy (cstr text ++ [0])) Hi1 Hh) as [Hi2 Hg2].
  { apply Hst; [|intros Hok; by apply store_bytes_ok]. intros x Hx. apply store_bytes_out; [done|lia]. }
  change (with_heap h (store_bytes (vmem (with_heap h (vmem v1) v1)) copy (cstr text ++ [0])) (with_heap h (vmem v1) v1))
    with (with_heap h (store_bytes (vmem v1) copy (cstr text ++ [0])) v1).
  destruct (put_data_inv _ _ n copy sz Hi2 Hn) as (Hi3 & Hg3 & _); [lia|cbn [vheap with_heap]; lia..|done|].
  split_and!; [done|by eapply grows_trans; [|eapply grows_trans]|].
  apply (mem_step_trans _ _ _ _ _ _ Hm1), Hst; [|intros Hok; by apply store_bytes_ok].
  intros x Hx. cbn [vmem put_data with_nodes with_heap]. apply store_bytes_out; [done|lia].
Qed.

(** The root alone. *)
Lemma root_alloc_inv h m v r :
  heap_inv h -> kmalloc_fits h sizeof_node = true ->
  vfs_alloc_node (vfs_blank h m) [] VFS_NODE_DIR 0 = (v, r) ->
  r = h_current h /\ mem_step h m (vheap v) (vmem v) /\ vfs_inv (with_root r v).
Proof.
  intros Hi Hfit. unfold vfs_alloc_node. cbn [vheap vmem vfs_blank].
  destruct (kcalloc h m sizeof_node) as [[h1 m1] p] eqn:Ek.
  assert (is_u32 sizeof_node) as Hsz by (unfold is_u32, sizeof_node; lia).
  pose proof Ek as Ek'. unfold kcalloc in Ek'. rewrite kmalloc_exact, Hfit in Ek' by done.
  pose proof (hi_start _ Hi). pose proof (hi_current _ Hi).
  rewrite (proj2 (Z.eqb_neq (h_current h) 0)) in Ek' by lia. cbn [negb] in Ek'. injection Ek' as _ _ Hp.
  destruct (kcalloc_spec _ _ _ _ _ _ Hi Hsz Ek) as (Hh & Hms & _ & Hnz).
  destruct (Hnz ltac:(lia)) as (_ & Hpos & Hend & _).
  rewrite (proj2 (Z.eqb_neq p 0)) by lia. change (0 =? 0) with true. cbv iota.
  intros [= <- <-]. split; [done|]. split; [done|].
  set (n := {| vn_name := _; vn_type := _; parent := _; first_child := _; next_sibling := _; data := _; size_ := _ |}).
  assert (forall b x, node_at (with_root p (with_nodes (<[p:=n]> ∅) (with_heap h1 m1 (vfs_blank h m)))) b = Some x ->
            b = p /\ x = n) as Hat.
  { intros b x. unfold node_at. cbn [nodes with_root with_nodes]. rewrite lookup_insert.
    destruct (decide (p = b)) as [-> |]; [by intros [= <-]|by rewrite lookup_empty]. }
  constructor.
  - done.
  - exists n. split_and!; [apply lookup_insert_eq|done|done].
  - intros b x [-> ->]%Hat. constructor.
    + by left.
    + cbn. lia.
    + vm_compute. split_and!; [done|done|apply not_elem_of_nil].
    + split; [done|by left].
    + exists []. split_and!; [constructor|constructor|]. intros c. split; [by intros ?%not_elem_of_nil|].
      intros (nc & [-> ->]%Hat & Hpar). cbn in Hpar. lia.
    + done.
    + exists 0%nat. constructor.
  - intros b nm c d Hb (x & [-> ->]%Hat & _) (y & [-> ->]%Hat & _). done.
Qed.

(** What [vfs_init] makes, and where it writes. *)
Lemma vfs_init_ok h m :
  heap_inv h -> kmalloc_fits h sizeof_node = true ->
  let v := vfs_init (vfs_blank h m) in
  vfs_inv v /\ vfs_root_node v = h_current h /\ mem_step h m (vheap v) (vmem v).
Proof.
  intros Hi Hfit v. unfold vfs_init in v. cbn [vfs_root_node vfs_blank] in v.
  change (negb (0 =? 0)) with false in v. cbv iota in v.
  destruct (vfs_alloc_node (vfs_blank h m) [] VFS_NODE_DIR 0) as [v0 r] eqn:Er.
  destruct (root_alloc_inv h m v0 r Hi Hfit Er) as (Hr & Hm0 & Hi0).
  set (ok := fun w => vfs_inv w /\ vfs_root_node w = r /\ mem_step h m (vheap w) (vmem w)).
  assert (forall w p, ok w -> ok (fst (vfs_make_dir w r p))) as Hmk.
  { intros w p (Hw & Hwr & Hm). destruct (vfs_make_dir w r p) as [w' b] eqn:E.
    assert (is_Some (node_at w r)) as Hn by (rewrite <- Hwr; by apply root_node).
    destruct (make_dir_spec w r p w' b Hw Hn E) as ([? [Hg _] _ Hm' _] & _).
    split; [done|]. cbn [fst]. split; [congruence|exact (mem_step_trans _ _ _ _ _ _ Hm Hm')]. }
  assert (forall w p t, is_u32 (str_len t) -> ok w -> ok (fst (vfs_write_seed_file w p t))) as Hsd.
  { intros w p t Ht (Hw & Hwr & Hm). destruct (vfs_write_seed_file w p t) as [w' b] eqn:E.
    destruct (seed_file_inv w p t w' b Hw Ht E) as (? & [Hg _] & Hm').
    split; [done|]. cbn [fst]. split; [congruence|exact (mem_step_trans _ _ _ _ _ _ Hm Hm')]. }
  assert (ok v) as (Hv & Hvr & Hm).
  { unfold v. repeat first [apply Hsd; [by vm_compute|] | apply Hmk]. by split. }
  split_and!; [done|congruence|done].
Qed.

(** [vfs_init] on a heap with room for one node gives a well formed tree,
    whatever of the rest still fits, writes only to memory the heap had free,
    and a second call does nothing. *)
Theorem vfs_init_inv h m :
  heap_inv h -> kmalloc_fits h sizeof_node = true ->
  let v := vfs_init (vfs_blank h m) in
  vfs_inv v /\ vfs_root_node v = h_current h /\ is_dir_node v (vfs_root_node v) /\ vfs_init v = v /\
  forall x, ~ h_current h <= x < h_current (vheap v) -> vmem v x = m x.
Proof.
  intros Hi Hfit v. destruct (vfs_init_ok h m Hi Hfit) as (Hv & Hr & Hm). fold v in Hv, Hr, Hm.
  split_and!; [done|done|by apply root_dir| |apply Hm].
  pose proof (root_nonzero v Hv). unfold vfs_init. by rewrite (proj2 (Z.eqb_neq (vfs_root_node v) 0)).
Qed.

(** ** Theorems on directories and paths *)

Lemma alloc_node_fits v name t par v' c :
  heap_inv (vheap v) -> vfs_alloc_node v name t par = (v', c) ->
  c <> 0 <-> kmalloc_fits (vheap v) sizeof_node = true.
Proof.
  intros Hi. unfold vfs_alloc_node, kcalloc.
  rewrite kmalloc_exact by (done || (unfold is_u32, sizeof_node; lia)).
  pose proof (hi_start _ Hi). pose proof (hi_current _ Hi).
  destruct (kmalloc_fits (vheap v) sizeof_node).
  - rewrite (proj2 (Z.eqb_neq (h_current (vheap v)) 0)) by lia. cbn [negb].
    rewrite (proj2 (Z.eqb_neq (h_current (vheap v)) 0)) by lia. intros [= <- <-]. split; [done|lia].
  - change (0 =? 0) with true. cbn. intros [= <- <-]. done.
Qed.

(** [vfs_make_dir] succeeds exactly when the path is not on the disc, splits
    into a directory that exists and a name that is free there, and the heap has
    room for a node.  It then adds one empty directory, which the path resolves
    to and did not before; otherwise it changes nothing. *)
Theorem vfs_make_dir_correct v cwd path v' b :
  vfs_inv v -> is_Some (node_at v cwd) -> vfs_make_dir v cwd path = (v', b) ->
  (b = true <->
     on_mount (abs_check v cwd path) = false /\
     exists pp name, vfs_split_parent path VFS_PATH_MAX (VFS_NAME_MAX + 1) = Some (pp, name) /\
       is_dir_node v (parent_of v cwd pp) /\ vfs_find_child v (parent_of v cwd pp) name = 0 /\
       kmalloc_fits (vheap v) sizeof_node = true) /\
  (b = false -> v' = v) /\ vfs_inv v' /\ grows v v' /\
  (b = true -> plain_path path ->
     vfs_resolve_from v cwd path = 0 /\
     exists n, node_at v' (vfs_resolve_from v' cwd path) = Some n /\ vn_type n = VFS_NODE_DIR).
Proof.
  intros Hi Hc Hmk. destruct (make_dir_spec v cwd path v' b Hi Hc Hmk) as ([? ? _ _ _] & ? & ?).
  split; [|done]. revert Hmk. unfold vfs_make_dir.
  destruct (on_mount _); [intros [= _ <-]; split; [done|by intros [? _]]|].
  destruct (vfs_split_parent _ _ _) as [[pp name]|] eqn:Esp.
  2:{ intros [= _ <-]. split; [done|]. by intros (_ & ? & ? & ? & _). }
  destruct (is_type v (parent_of v cwd pp) VFS_NODE_DIR) eqn:Ety; cbn [negb]; rewrite ?orb_true_r; cbn [orb].
  2:{ intros [= _ <-]. split; [done|]. intros (_ & pp' & name' & [= <- <-] & Hd & _).
      apply is_type_dir in Hd. congruence. }
  apply is_type_dir in Ety as Hd.
  assert (parent_of v cwd pp <> 0) as Hpz by (destruct Hd as (np & Hnp & _); exact (node_nonzero _ _ _ Hi Hnp)).
  rewrite (proj2 (Z.eqb_neq _ 0)) by done. cbn [orb].
  destruct (vfs_find_child v (parent_of v cwd pp) name =? 0) eqn:Ef; zify_bool; cbn [negb].
  2:{ intros [= _ <-]. split; [done|]. intros (_ & pp' & name' & [= <- <-] & _ & ? & _). done. }
  destruct (vfs_alloc_node _ _ _ _) as [v1 c] eqn:Eal.
  pose proof (alloc_node_fits _ _ _ _ _ _ (vi_heap _ Hi) Eal) as Hfit.
  intros [= _ <-]. rewrite negb_true_iff, Z.eqb_neq, Hfit. split.
  - intros Hf. split; [done|]. by exists pp, name.
  - by intros (_ & pp' & name' & [= <- <-] & _ & _ & ?).
Qed.

Lemma write_parts_length parts remaining out :
  Forall (fun p => Z.of_nat (length p) <= VFS_NAME_MAX) parts -> 0 <= remaining < 4294967296 ->
  Z.of_nat (length (write_parts parts remaining out)) <= Z.of_nat (length out) + remaining.
Proof.
  unfold VFS_NAME_MAX. revert remaining out. induction parts as [|p parts IH]; intros remaining out Hf Hr; cbn [write_parts]; [lia|].
  apply Forall_cons_1 in Hf as [Hp Hf]. rewrite u32_small by lia.
  destruct (remaining <? _) eqn:E; zify_bool; [lia|].
  destruct parts as [|q parts'] eqn:Ep; [rewrite length_app; lia|]. rewrite <- Ep in *.
  rewrite (u32_small (remaining - _)), u32_small by lia.
  etransitivity; [apply IH; [done|lia]|]. rewrite !length_app. cbn [length]. lia.
Qed.

Lemma collect_parts_short v a m :
  vfs_inv v -> Forall (fun p => Z.of_nat (length p) <= VFS_NAME_MAX) (collect_parts m v a).
Proof.
  intros Hi. revert a. induction m as [|m IH]; intros a; cbn [collect_parts]; [constructor|].
  destruct (_ || _); [constructor|]. destruct (node_at v a) as [n|] eqn:En; [|constructor].
  constructor; [|done]. rewrite <- str_len_spec. by apply (no_name _ _ _ (vi_node _ Hi _ _ En)).
Qed.

(** [vfs_get_cwd_path] writes at most one byte past its buffer, whatever the
    directory. *)
Lemma cwd_path_bound v cwd size :
  vfs_inv v -> 0 <= size < 4294967296 -> cwd <> vfs_root_node v ->
  Z.of_nat (length (vfs_get_cwd_path v cwd size)) <= size + (if size =? 0 then 0 else 1).
Proof.
  intros Hi Hs Hr. unfold vfs_get_cwd_path. destruct (size =? 0) eqn:E0; zify_bool; [cbn; lia|].
  rewrite (proj2 (Z.eqb_neq cwd _)) by done.
  assert (Forall (fun p => Z.of_nat (length p) <= VFS_NAME_MAX) (rev (collect_parts 16 v cwd))) as Hf
    by (apply Forall_rev, collect_parts_short, Hi).
  destruct (1 <? size) eqn:E1; zify_bool; rewrite length_app; cbn [length].
  - pose proof (write_parts_length _ (size - 1) [47] Hf ltac:(lia)). cbn [length] in *. lia.
  - pose proof (write_parts_length _ size [] Hf ltac:(lia)). cbn [length] in *. lia.
Qed.

(** A file name of ".." reaches [vfs_touch] unchecked, because a path without a
    slash is not compared with the dot names.  [vfs_write_file] then creates a
    file called "..", resolves ".." to the parent directory, and puts the bytes
    into that directory's node; it reports success, and reading the same path
    back fails. *)
Theorem vfs_write_dotdot `{MountFs} v cwd bytes v' :
  vfs_inv v -> is_dir_node v cwd -> is_u32 (Z.of_nat (length bytes)) -> all_bytes bytes ->
  vfs_write_file v cwd dotdot bytes = (v', true) ->
  exists r n, vfs_resolve_from v' cwd dotdot = r /\ node_at v' r = Some n /\
    vn_type n = VFS_NODE_DIR /\ size_ n = Z.of_nat (length bytes) /\
    vfs_read_file v' cwd dotdot = (v', None).
Proof.
  intros Hi Hd Hs Hb Hw. assert (is_Some (node_at v cwd)) as Hc by (destruct Hd as (x & ? & _); by exists x).
  destruct (write_file_spec v cwd dotdot bytes v' true Hi Hc Hs Hb Hw) as (Hi' & Hg & _ & _ & Ht).
  destruct (Ht eq_refl) as (Hmnt & r & n & Hr0 & Hr & Hn & _ & Hsz & _).
  assert (is_dir_node v' r) as (n' & Hn' & Hty).
  { apply (grows_dir v v') in Hd as (x & Hx & Hxd); [|done]. revert Hr.
    pose proof (node_nonzero v' cwd x Hi' Hx).
    rewrite resolve_walk by (done || by apply root_nonzero).
    change (start_of v' cwd dotdot) with cwd. change (components dotdot) with [dotdot].
    cbn [walk]. unfold step_comp. change (VFS_NAME_MAX <? _) with false.
    change (str_eq dotdot dot) with false. change (str_eq dotdot dotdot) with true. cbv iota.
    rewrite Hx. cbn [from_option]. destruct (parent x =? 0) eqn:Ep; cbn [negb]; zify_bool.
    - rewrite (proj2 (Z.eqb_neq cwd 0)) by done. intros <-. by exists x.
    - rewrite (proj2 (Z.eqb_neq (parent x) 0)) by done. intros <-.
      destruct (decide (cwd = vfs_root_node v')) as [-> |Hne].
      + destruct (vi_root _ Hi') as (y & Hy & _ & ?). simplify_eq.
      + apply (no_parent _ _ _ (vi_node _ Hi' _ _ Hx) Hne). }
  rewrite Hn in Hn'. injection Hn' as <-. exists r, n. split_and!; try done.
  unfold vfs_read_file. rewrite (abs_check_grows v v') by done.
  unfold on_mount in Hmnt. apply orb_false_iff in Hmnt as [Hb1%bool_decide_eq_false Hb2%bool_decide_eq_false].
  destruct (vfs_is_cdrom_mount_path _) as [s|]; [exfalso; by apply Hb2|].
  destruct (vfs_is_bin_alias_path _) as [s|]; [exfalso; by apply Hb1|].
  rewrite Hr, Hn, Hty. by rewrite orb_true_r.
Qed.

(** ** Concrete runs *)

(** No disc: every lookup in it fails. *)
#[local] Instance no_mount : MountFs := {|
  fs_is_dir := fun _ _ => false;
  fs_read := fun h m _ _ => (h, m, None);
  fs_list := fun _ _ => ([], false);
  fs_mounts := line "(no mounts)"
|}.

#[local] Instance no_mount_laws : MountFsLaws.
Proof. constructor. intros h m mnt p h' m' r Hi [= <- <- <-]. by split_and!. Qed.

Definition demo_vfs : vfs := vfs_init (vfs_blank heap_64m (fun _ => 0)).

Lemma heap_64m_inv : heap_inv heap_64m.
Proof. apply heap_init_inv; lia. Qed.

Lemma demo_vfs_ok : vfs_inv demo_vfs /\ is_dir_node demo_vfs (vfs_root_node demo_vfs).
Proof.
  destruct (vfs_init_ok heap_64m (fun _ => 0)) as (Hv & _); [apply heap_64m_inv|by vm_compute|].
  split; [exact Hv|by apply root_dir].
Qed.

Lemma demo_root_node : is_Some (node_at demo_vfs (vfs_root_node demo_vfs)).
Proof. apply root_node, demo_vfs_ok. Qed.

(** What the shell's "mkdir NAME; cd NAME" does for a list of names. *)
Fixpoint mkdir_cd (v : vfs) (cwd : Z) (names : list (list Z)) : vfs * Z :=
  match names with
  | [] => (v, cwd)
  | nm :: names' =>
      let v := fst (vfs_make_dir v cwd nm) in
      let '(v, r) := vfs_change_dir v cwd nm in mkdir_cd v (default cwd r) names'
  end.

Lemma mkdir_cd_run v cwd names : rtc vfs_call (v, cwd) (mkdir_cd v cwd names).
Proof.
  revert v cwd. induction names as [|nm names IH]; intros v cwd; [done|]. cbn [mkdir_cd].
  destruct (vfs_make_dir v cwd nm) as [v1 b] eqn:E1. cbn [fst].
  destruct (vfs_change_dir v1 cwd nm) as [v2 r] eqn:E2.
  eapply rtc_l; [by eapply call_make_dir|]. eapply rtc_l; [by eapply call_change_dir|]. apply IH.
Qed.

(** Names whose path leaves no room for the last one in 128 bytes, and names
    for a tree deeper than the 16 the function collects. *)
Definition long_names : list (list Z) :=
  [replicate 31 97; replicate 31 97; replicate 31 97; replicate 30 97; lit "b"].
Definition deep_names : list (list Z) := map (fun c => [c]) (map (fun k => 97 + Z.of_nat k) (seq 0 17)).

(** [vfs_get_cwd_path] writes one byte past its 128-byte buffer for a directory
    that "mkdir" and "cd" reach, and gives a directory 17 levels deep a path that
    leaves out the outermost directory and leads nowhere. *)
Theorem vfs_cwd_path_defects :
  (let '(v, cwd) := mkdir_cd demo_vfs (vfs_root_node demo_vfs) long_names in
   vfs_inv v /\ is_dir_node v cwd /\
   length (vfs_get_cwd_path v cwd VFS_PATH_MAX) = 129%nat) /\
  (let '(v, cwd) := mkdir_cd demo_vfs (vfs_root_node demo_vfs) deep_names in
   vfs_inv v /\ is_dir_node v cwd /\
   vfs_get_cwd_path v cwd VFS_PATH_MAX = path_of (drop 1 deep_names) ++ [0] /\
   vfs_resolve_from v cwd (vfs_get_cwd_path v cwd VFS_PATH_MAX) = 0).
Proof.
  destruct demo_vfs_ok as [Hi Hd]. split.
  - pose proof (mkdir_cd_run demo_vfs (vfs_root_node demo_vfs) long_names) as Hrun.
    assert (length (vfs_get_cwd_path (fst (mkdir_cd demo_vfs (vfs_root_node demo_vfs) long_names))
              (snd (mkdir_cd demo_vfs (vfs_root_node demo_vfs) long_names)) VFS_PATH_MAX) = 129%nat) as Hl
      by (vm_compute; reflexivity).
    destruct (mkdir_cd _ _ _) as [v cwd]. destruct (vfs_run_ok _ _ _ _ Hi Hd Hrun) as (? & ? & _). done.
  - pose proof (mkdir_cd_run demo_vfs (vfs_root_node demo_vfs) deep_names) as Hrun.
    assert (vfs_get_cwd_path (fst (mkdir_cd demo_vfs (vfs_root_node demo_vfs) deep_names))
              (snd (mkdir_cd demo_vfs (vfs_root_node demo_vfs) deep_names)) VFS_PATH_MAX =
            path_of (drop 1 deep_names) ++ [0]) as Hl by (vm_compute; reflexivity).
    assert (vfs_resolve_from (fst (mkdir_cd demo_vfs (vfs_root_node demo_vfs) deep_names))
              (snd (mkdir_cd demo_vfs (vfs_root_node demo_vfs) deep_names))
              (path_of (drop 1 deep_names) ++ [0]) = 0) as Hr by (vm_compute; reflexivity).
    destruct (mkdir_cd _ _ _) as [v cwd]. destruct (vfs_run_ok _ _ _ _ Hi Hd Hrun) as (? & ? & _).
    cbn [fst snd] in *. rewrite Hl. done.
Qed.

(** What [vfs_init] leaves on a 64 MB machine: the three directories and the two
    texts.  The calls for "/bin" and "/mount/cdrom" are refused by the guard of
    [vfs_make_dir] and have no effect. *)
Theorem vfs_init_seeds :
  let v := demo_vfs in
  Forall (fun p => is_type v (vfs_resolve v p) VFS_NODE_DIR = true) [lit "/docs"; lit "/mount"; lit "/tmp"] /\
  Forall (fun p => vfs_resolve v p = 0) [lit "/bin"; lit "/mount/cdrom"] /\
  (exists a n, vfs_read_file v (vfs_root_node v) (lit "/docs/readme.txt") = (v, Some (a, n)) /\
     load_bytes (vmem v) a (Z.to_nat n) =
       line "SLOP in-memory VFS" ++ line "This is not a disk-backed filesystem yet.").
Proof.
  cbv zeta. split; [|split].
  - repeat constructor; vm_compute; reflexivity.
  - repeat constructor; vm_compute; reflexivity.
  - assert (forall v p, vfs_is_cdrom_mount_path (abs_check v (vfs_root_node v) p) = None ->
      vfs_is_bin_alias_path (abs_check v (vfs_root_node v) p) = None ->
      forall n, node_at v (vfs_resolve v p) = Some n ->
      negb (vfs_resolve v p =? 0) && (vn_type n =? VFS_NODE_FILE) = true ->
      vfs_read_file v (vfs_root_node v) p = (v, Some (data n, size_ n))) as Hread.
    { intros v p H1 H2 n Hn Ht. unfold vfs_read_file. rewrite H1, H2.
      change (vfs_resolve_from v (vfs_root_node v) p) with (vfs_resolve v p). rewrite Hn.
      apply andb_true_iff in Ht as [Ha Hb]. apply negb_true_iff in Ha. by rewrite Ha, Hb. }
    destruct (node_at demo_vfs (vfs_resolve demo_vfs (lit "/docs/readme.txt"))) as [n|] eqn:E;
      [|by vm_compute in E].
    exists (data n), (size_ n). split.
    + apply Hread; [by vm_compute|by vm_compute|done|].
      vm_compute in E. injection E as <-. by vm_compute.
    + vm_compute in E. injection E as <-. by vm_compute.
Qed.

(** ** Witnesses *)

Lemma pair_snd {A B} (p : A * B) b : snd p = b -> p = (fst p, b).
Proof. by destruct p; cbn; intros ->. Qed.


Lemma vfs_run_inv_witness :
  vfs_inv (fst (mkdir_cd demo_vfs (vfs_root_node demo_vfs) [lit "a"; lit ".."; lit "b"])).
Proof.
  pose proof (mkdir_cd_run demo_vfs (vfs_root_node demo_vfs) [lit "a"; lit ".."; lit "b"]) as Hrun.
  rewrite (surjective_pairing (mkdir_cd _ _ _)) in Hrun.
  exact (proj1 (vfs_run_inv _ _ _ _ (proj1 demo_vfs_ok) (proj2 demo_vfs_ok) Hrun)).
Defined.

Lemma vfs_init_inv_witness : vfs_inv (vfs_init (vfs_blank heap_64m (fun _ => 0))).
Proof. refine (proj1 (vfs_init_inv heap_64m (fun _ => 0) heap_64m_inv _)). vm_compute. reflexivity. Defined.

Lemma vfs_make_dir_correct_witness :
  snd (vfs_make_dir demo_vfs (vfs_root_node demo_vfs) (lit "/tmp/a")) = true /\
  vfs_resolve_from demo_vfs (vfs_root_node demo_vfs) (lit "/tmp/a") = 0.
Proof.
  assert (snd (vfs_make_dir demo_vfs (vfs_root_node demo_vfs) (lit "/tmp/a")) = true) as Hw
    by (vm_compute; reflexivity).
  split; [exact Hw|]. apply pair_snd in Hw.
  assert (plain_path (lit "/tmp/a")) as Hp by (left; apply (bool_decide_unpack (47 ∈ cstr (lit "/tmp/a"))); vm_compute; exact I).
  destruct (vfs_make_dir_correct _ _ _ _ _ (proj1 demo_vfs_ok) demo_root_node Hw) as (_ & _ & _ & _ & Ht).
  exact (proj1 (Ht eq_refl Hp)).
Defined.


Lemma vfs_write_dotdot_witness :
  let root := vfs_root_node demo_vfs in
  let cwd := vfs_resolve demo_vfs (lit "/tmp") in
  let v' := fst (vfs_write_file demo_vfs cwd dotdot (lit "hi")) in
  is_type demo_vfs root VFS_NODE_DIR = true /\ vfs_resolve_from v' cwd dotdot = root /\
  from_option size_ 0 (node_at v' root) = 2.
Proof.
  cbv zeta. split; [vm_compute; reflexivity|].
  set (cwd := vfs_resolve demo_vfs (lit "/tmp")).
  assert (snd (vfs_write_file demo_vfs cwd dotdot (lit "hi")) = true) as Hw by (vm_compute; reflexivity).
  apply pair_snd in Hw.
  assert (all_bytes (lit "hi")) as Hb by (change (lit "hi") with [104; 105]; repeat (constructor; [unfold is_byte; lia|]); constructor).
  assert (is_u32 (Z.of_nat (length (lit "hi")))) as Hu by (change (length (lit "hi")) with 2%nat; unfold is_u32; lia).
  assert (is_dir_node demo_vfs cwd) as Hc by (apply is_type_dir; vm_compute; reflexivity).
  destruct (vfs_write_dotdot _ _ _ _ (proj1 demo_vfs_ok) Hc Hu Hb Hw) as (r & n & Hr & Hn & _ & Hsz & _).
  assert (r = vfs_root_node demo_vfs) as He by (rewrite <- Hr; vm_compute; reflexivity).
  subst r. split; [exact He|]. rewrite <- He, Hn. exact Hsz.
Defined.
