(* ===== verification/Mount.v ===== *)
(** * Mount: the disc of fs.c as the mounted file system of vfs.c

    The instances that connect IsoFs.v to the interface of Vfs.v, and what a
    file read through the mount point or its alias returns. *)
From S2P Require Import Prelude KernelH Util Memory Heap Storage IsoFs Vfs VfsTree.
Local Open Scope Z_scope.
Local Open Scope slop_scope.

Section disc.
Context (devs : device_table) (after : list Z) (mt : mount_table).

#[export] Instance disc_mount : MountFs := {|
  fs_is_dir := fun mount path => fs_path_is_dir_from_mount devs after mt mount (Some path);
  fs_read := fun h m mount path => fs_read_file_from_mount devs after mt h m mount path;
  fs_list := fun mount path => fs_list_dir_from_mount devs after mt mount (Some path);
  fs_mounts := fs_print_mounts devs mt
|}.

(** Every mounted device gives whole sectors. *)
Definition mounts_readable : Prop :=
  all_bytes after /\ forall path d, mounted_iso mt path = Some d -> device_ok devs d.

Lemma disc_mount_laws : mounts_readable -> @MountFsLaws disc_mount.
Proof.
  intros [Ha Hd]. constructor. intros h m mount path h' m' r Hi. cbn [fs_read disc_mount].
  unfold fs_read_file_from_mount. destruct (mounted_iso mt mount) as [d|] eqn:E.
  - intros Hr. destruct (read_alloc_spec devs after h m d path h' m' r Hi (Hd _ _ E) Ha Hr)
      as (? & ? & Ht). split_and!; [done|done|].
    intros a sz ->. destruct Ht as (? & c & _ & _ & _ & ? & ? & _ & ? & _). done.
  - intros [= <- <- <-]. split_and!; [done|apply mem_step_refl|done].
Qed.

(** The paths served by the disc, and what follows the mount point in them. *)
Inductive on_disc : list Z -> list Z -> Prop :=
  | on_disc_mount rest : chr rest = 47 -> on_disc (CDROM_MOUNT ++ rest) rest
  | on_disc_bin rest : chr rest = 47 -> on_disc (BIN_ALIAS ++ rest) (BIN_ALIAS ++ rest).

Lemma on_disc_mounted path sub :
  on_disc path sub ->
  on_mount path = true /\ chr path = 47 /\
  match vfs_is_cdrom_mount_path path with
  | Some s => s = sub
  | None => vfs_is_bin_alias_path path = Some sub
  end.
Proof.
  intros [rest Hr|rest Hr]; destruct rest as [|c rest]; try done; cbn in Hr; subst c; done.
Qed.


End disc.

(** ** Witness: "/mount/cdrom/hello.txt" of the small disc *)

Lemma demo_mounts_readable : mounts_readable demo_devs [] demo_mounts.
Proof.
  split; [constructor|]. intros path d. unfold mounted_iso, find_mount.
  destruct (first_slot _ _) as [i|] eqn:E; cbn [mbind option_bind]; [|done].
  apply first_slot_lookup in E as (e & He & _). rewrite He.
  destruct i as [|[|i]]; vm_compute in He; [..|done]; injection He as <-; cbn.
  - done.
  - intros [= <-]. apply demo_device_ok.
Qed.

Definition disc_vfs : vfs := vfs_init (vfs_blank heap_64m mem_empty).

