(* ===== verification/Syscall.v ===== *)
(** * Syscall: the system calls of [src/kernel/syscall.c]

    [kernel] is the whole state a system call can reach: the tasks, processes,
    images and memory ([core]), the message queues, the services, the file tree
    and the heap, the table of open files and what the entry code of ring 3
    remembers ([ring3_active], [ring3_current_pid]).  The file tree of Vfs.v
    shares the memory of [core] ([vfs_of], [with_vfs]).

    [k_keys] are the characters the keyboard is going to deliver, [k_out] what
    was printed.  A call that waits for more characters than come does not
    return: its result is [None]. *)
From S2P Require Import Prelude KernelH Util Memory Heap Proc Sched Iface Service Elf Core Ipc Storage IsoFs Vfs.
Local Open Scope Z_scope.
Local Open Scope slop_scope.

Definition SYSCALL_WRITE_MAX : Z := 1024.
Definition ERR_BADF : Z := -9.
Definition ERR_AGAIN : Z := -11.
Definition ERR_FAULT : Z := -14.
Definition ERR_INVAL : Z := -22.
Definition ERR_NFILE : Z := -24.
Definition ERR_BLOCKED : Z := -512.

Definition O_ACCMODE : Z := 0x3.
Definition O_WRONLY : Z := 0x1.
Definition O_RDWR : Z := 0x2.
Definition O_CREAT : Z := 0x40.
Definition O_TRUNC : Z := 0x200.
Definition O_APPEND : Z := 0x400.

Definition FD_MAX : nat := 16.

Record fd_entry := {
  fd_used : bool;
  fd_pid : Z;
  readable : bool;
  writable : bool;
  fd_data : Z;
  fd_size : Z;
  fd_offset : Z;
  fd_path : list Z;
  write_buf : Z;
  write_size : Z;
  write_capacity : Z;
  dirty : bool
}.

(** What went to the console; [Clear] is [term_clear]. *)
Inductive out_event :=
  | Text (target : console_target) (text : list Z)
  | Clear
  | Systeminfo (mbi : multiboot_info) (magic : Z).

Record kernel := {
  k_core : core;
  k_ipc : ipc_st;
  k_services : list service_entry;
  k_nodes : gmap Z vfs_node;
  k_root : Z;
  k_heap : heap_state;
  fd_table : list fd_entry;
  user_cwd : Z;
  user_boot_mbi : option multiboot_info;
  user_boot_magic : Z;
  ring3_active : bool;
  ring3_current_pid : Z;
  k_keys : list Z;
  k_out : list out_event
}.

Definition k_mem (k : kernel) : mem := c_mem (k_core k).

Definition with_core (c : core) (k : kernel) : kernel := {|
  k_core := c; k_ipc := k_ipc k; k_services := k_services k; k_nodes := k_nodes k;
  k_root := k_root k; k_heap := k_heap k; fd_table := fd_table k; user_cwd := user_cwd k;
  user_boot_mbi := user_boot_mbi k; user_boot_magic := user_boot_magic k;
  ring3_active := ring3_active k; ring3_current_pid := ring3_current_pid k;
  k_keys := k_keys k; k_out := k_out k |}.
Definition with_mem (m : mem) (k : kernel) : kernel := with_core (with_c_mem m (k_core k)) k.
Definition with_ipc (q : ipc_st) (k : kernel) : kernel := {|
  k_core := k_core k; k_ipc := q; k_services := k_services k; k_nodes := k_nodes k;
  k_root := k_root k; k_heap := k_heap k; fd_table := fd_table k; user_cwd := user_cwd k;
  user_boot_mbi := user_boot_mbi k; user_boot_magic := user_boot_magic k;
  ring3_active := ring3_active k; ring3_current_pid := ring3_current_pid k;
  k_keys := k_keys k; k_out := k_out k |}.
Definition with_services (sv : list service_entry) (k : kernel) : kernel := {|
  k_core := k_core k; k_ipc := k_ipc k; k_services := sv; k_nodes := k_nodes k;
  k_root := k_root k; k_heap := k_heap k; fd_table := fd_table k; user_cwd := user_cwd k;
  user_boot_mbi := user_boot_mbi k; user_boot_magic := user_boot_magic k;
  ring3_active := ring3_active k; ring3_current_pid := ring3_current_pid k;
  k_keys := k_keys k; k_out := k_out k |}.
Definition with_fds (l : list fd_entry) (k : kernel) : kernel := {|
  k_core := k_core k; k_ipc := k_ipc k; k_services := k_services k; k_nodes := k_nodes k;
  k_root := k_root k; k_heap := k_heap k; fd_table := l; user_cwd := user_cwd k;
  user_boot_mbi := user_boot_mbi k; user_boot_magic := user_boot_magic k;
  ring3_active := ring3_active k; ring3_current_pid := ring3_current_pid k;
  k_keys := k_keys k; k_out := k_out k |}.
Definition with_io (keys : list Z) (out : list out_event) (k : kernel) : kernel := {|
  k_core := k_core k; k_ipc := k_ipc k; k_services := k_services k; k_nodes := k_nodes k;
  k_root := k_root k; k_heap := k_heap k; fd_table := fd_table k; user_cwd := user_cwd k;
  user_boot_mbi := user_boot_mbi k; user_boot_magic := user_boot_magic k;
  ring3_active := ring3_active k; ring3_current_pid := ring3_current_pid k;
  k_keys := keys; k_out := out |}.

(** The file tree as Vfs.v sees it. *)
Definition vfs_of (k : kernel) : vfs := {|
  nodes := k_nodes k; vfs_root_node := k_root k; vheap := k_heap k; vmem := k_mem k |}.
Definition with_vfs (v : vfs) (k : kernel) : kernel := {|
  k_core := with_c_mem (vmem v) (k_core k); k_ipc := k_ipc k; k_services := k_services k;
  k_nodes := nodes v; k_root := vfs_root_node v; k_heap := vheap v; fd_table := fd_table k;
  user_cwd := user_cwd k; user_boot_mbi := user_boot_mbi k; user_boot_magic := user_boot_magic k;
  ring3_active := ring3_active k; ring3_current_pid := ring3_current_pid k;
  k_keys := k_keys k; k_out := k_out k |}.

Definition syscall_set_user_cwd (cwd : Z) (k : kernel) : kernel := {|
  k_core := k_core k; k_ipc := k_ipc k; k_services := k_services k; k_nodes := k_nodes k;
  k_root := k_root k; k_heap := k_heap k; fd_table := fd_table k; user_cwd := cwd;
  user_boot_mbi := user_boot_mbi k; user_boot_magic := user_boot_magic k;
  ring3_active := ring3_active k; ring3_current_pid := ring3_current_pid k;
  k_keys := k_keys k; k_out := k_out k |}.
Definition syscall_set_bootinfo (mbi : option multiboot_info) (magic : Z) (k : kernel) : kernel := {|
  k_core := k_core k; k_ipc := k_ipc k; k_services := k_services k; k_nodes := k_nodes k;
  k_root := k_root k; k_heap := k_heap k; fd_table := fd_table k; user_cwd := user_cwd k;
  user_boot_mbi := mbi; user_boot_magic := magic;
  ring3_active := ring3_active k; ring3_current_pid := ring3_current_pid k;
  k_keys := k_keys k; k_out := k_out k |}.

Definition print (t : console_target) (text : list Z) (k : kernel) : kernel :=
  with_io (k_keys k) (k_out k ++ [Text t text]) k.

(** [(int)ring3_current_pid] *)
Definition k_pid (k : kernel) : Z := s32 (ring3_current_pid k).
(** [user_cwd ? user_cwd : vfs_root()] *)
Definition cwd_or_root (k : kernel) : Z := if user_cwd k =? 0 then k_root k else user_cwd k.

(** ** The saved registers of a program that stops *)

(** [frame] are the 13 words at [frame_base]; [None] is the null pointer. *)
Definition syscall_save_yield_context (k : kernel) (frame : option (list Z)) : kernel :=
  match frame with
  | None => k
  | Some frame =>
      let pid := k_pid k in
      match proc_get_image (c_procs (k_core k)) pid with
      | Some image =>
          if (pid <=? 0) || negb (loaded image) then k
          else
            let f i := nth i frame 0 in
            let c := {| edi := f 0%nat; esi := f 1%nat; ebp := f 2%nat; esp_dummy := f 3%nat;
                        ebx := f 4%nat; edx := f 5%nat; ecx := f 6%nat; eax := 0;
                        eip := f 8%nat; cs := f 9%nat; eflags := f 10%nat;
                        user_esp := f 11%nat; user_ss := f 12%nat |} in
            let image := {| loaded := loaded image; entry := entry image;
                            image_base := image_base image; image_size := image_size image;
                            user_stack_base := user_stack_base image;
                            user_stack_size := user_stack_size image; img_cwd := img_cwd image;
                            output := output image; context_valid := true; context := c |} in
            with_core (fst (bind_image (k_core k) pid image)) k
      | None => k
      end
  end.

(** ** Pointers from programs *)

Definition range_contains (base size ptr len : Z) : bool :=
  if size =? 0 then false
  else if ptr <? base then false
  else if len =? 0 then ptr <? (base +u size)
  else
    let end_ := ptr +u len in
    if end_ <? ptr then false else end_ <=? (base +u size).

Definition validate_user_ptr (k : kernel) (ptr len : Z) : bool :=
  if negb (ring3_active k) then true
  else
    let pid := k_pid k in
    match proc_get_image (c_procs (k_core k)) pid with
    | Some image =>
        if (pid <=? 0) || negb (loaded image) then false
        else range_contains (image_base image) (image_size image) ptr len ||
             range_contains (user_stack_base image) (user_stack_size image) ptr len
    | None => false
    end.

(** The loop of [copy_user_cstr], [n] characters being left: the string, with
    its terminator. *)
Fixpoint copy_chars (k : kernel) (ptr : Z) (n : nat) : option (list Z) :=
  match n with
  | O => Some [0]
  | S n' =>
      if negb (validate_user_ptr k ptr 1) then None
      else
        let c := load (k_mem k) ptr in
        if c =? 0 then Some [0] else cons c <$> copy_chars k (ptr +u 1) n'
  end.

Definition copy_user_cstr (k : kernel) (user_ptr dst_size : Z) : option (list Z) :=
  if (user_ptr =? 0) || (dst_size =? 0) then None
  else copy_chars k user_ptr (Z.to_nat (dst_size - 1)).

(** [make_abs_path(cwd, path, out, out_size)]: the string in [out]. *)
Definition make_abs_path (k : kernel) (cwd : Z) (path : list Z) (out_size : Z) : option (list Z) :=
  if out_size =? 0 then None
  else if chr path =? 47 then Some (cstr (str_copy [] path out_size))
  else vfs_path_join out_size
         (vfs_get_cwd_path (vfs_of k) (if cwd =? 0 then k_root k else cwd) 128) path.

(** ** The table of open files *)

Definition fd_alloc_slot (fds : list fd_entry) : option nat :=
  (fun i => (3 + i)%nat) <$> first_slot (fun e => negb (fd_used e)) (drop 3 fds).

Definition fd_lookup (fds : list fd_entry) (fd pid : Z) : option nat :=
  if (fd <? 3) || (Z.of_nat FD_MAX <=? fd) then None
  else
    e ← fds !! Z.to_nat fd;
    if negb (fd_used e) || negb (fd_pid e =? pid) then None else Some (Z.to_nat fd).

Definition fd_reset (e : fd_entry) : fd_entry := {|
  fd_used := false; fd_pid := -1; readable := false; writable := false;
  fd_data := 0; fd_size := 0; fd_offset := 0;
  fd_path := match fd_path e with _ :: p => 0 :: p | [] => [] end;
  write_buf := 0; write_size := 0; write_capacity := 0; dirty := false |}.

Definition fd_reset_slot (fds : list fd_entry) (slot : nat) : list fd_entry :=
  if (FD_MAX <=? slot)%nat then fds else alter fd_reset slot fds.

(** The doubling loop of [fd_ensure_write_capacity]; 33 passes are enough. *)
Fixpoint grow_capacity (fuel : nat) (capacity needed : Z) : option Z :=
  match fuel with
  | O => None
  | S f =>
      if capacity <? needed then
        if 0x7FFFFFFF <? capacity then None else grow_capacity f (capacity *u 2) needed
      else Some capacity
  end.

Definition set_buffer (buf capacity : Z) (e : fd_entry) : fd_entry := {|
  fd_used := fd_used e; fd_pid := fd_pid e; readable := readable e; writable := writable e;
  fd_data := fd_data e; fd_size := fd_size e; fd_offset := fd_offset e; fd_path := fd_path e;
  write_buf := buf; write_size := write_size e; write_capacity := capacity; dirty := dirty e |}.

(** [None] when it returns 0. *)
Definition fd_ensure_write_capacity (h : heap_state) (m : mem) (e : fd_entry) (needed : Z)
    : option (heap_state * mem * fd_entry) :=
  if needed <=? write_capacity e then Some (h, m, e)
  else
    let capacity := if write_capacity e =? 0 then 256 else write_capacity e in
    match grow_capacity 33 capacity needed with
    | None => None
    | Some capacity =>
        let '(h, new_buf) := kmalloc h capacity in
        if new_buf =? 0 then None
        else
          let n := Z.to_nat (write_size e) in
          let m := if write_buf e =? 0 then store_bytes m new_buf (replicate n 0)
                   else copy_loop n m new_buf (write_buf e) in
          Some (h, m, set_buffer new_buf capacity e)
    end.

Definition set_offset (o : Z) (e : fd_entry) : fd_entry := {|
  fd_used := fd_used e; fd_pid := fd_pid e; readable := readable e; writable := writable e;
  fd_data := fd_data e; fd_size := fd_size e; fd_offset := o; fd_path := fd_path e;
  write_buf := write_buf e; write_size := write_size e; write_capacity := write_capacity e;
  dirty := dirty e |}.

Definition with_heap_mem (h : heap_state) (m : mem) (k : kernel) : kernel :=
  with_vfs (with_heap h m (vfs_of k)) k.

(** ** The calls *)

(** The wait for the keyboard: one character after the other up to a newline. *)
Fixpoint read_keys (n : nat) (keys : list Z) (m : mem) (buf i : Z) : option (list Z * mem * Z) :=
  match n with
  | O => Some (keys, m, i)
  | S n' =>
      match keys with
      | [] => None
      | c :: keys =>
          let m := store m (buf +u i) c in
          if c =? 10 then Some (keys, m, i +u 1) else read_keys n' keys m buf (i +u 1)
      end
  end.

Definition ksys_read (k : kernel) (fd buf len : Z) : option (kernel * Z) :=
  if fd =? 0 then
    if (buf =? 0) || negb (validate_user_ptr k buf (if len =? 0 then 1 else len))
    then Some (k, ERR_FAULT)
    else
      '(keys, m, n) ← read_keys (Z.to_nat len) (k_keys k) (k_mem k) buf 0;
      Some (with_mem m (with_io keys (k_out k) k), s32 n)
  else
    if negb (validate_user_ptr k buf (if len =? 0 then 1 else len)) then Some (k, ERR_FAULT)
    else
      match fd_lookup (fd_table k) fd (k_pid k) with
      | None => Some (k, ERR_BADF)
      | Some slot =>
          match fd_table k !! slot with
          | None => Some (k, ERR_BADF)
          | Some e =>
              if negb (readable e) then Some (k, ERR_BADF)
              else
                let '(src, size) := if negb (write_buf e =? 0) then (write_buf e, write_size e)
                                    else (fd_data e, fd_size e) in
                if size <=? fd_offset e then Some (k, 0)
                else
                  let n := Z.min len (size - fd_offset e) in
                  let m := copy_loop (Z.to_nat n) (k_mem k) buf (src + fd_offset e) in
                  Some (with_mem m
                          (with_fds (<[slot := set_offset (fd_offset e + n) e]> (fd_table k)) k), s32 n)
          end
      end.

(** The part of [ksys_write] after [fd_ensure_write_capacity]. *)
Definition fd_append (m : mem) (e : fd_entry) (buf len : Z) : mem * fd_entry :=
  let m := if write_size e <? fd_offset e
           then store_bytes m (write_buf e + write_size e)
                  (replicate (Z.to_nat (fd_offset e - write_size e)) 0)
           else m in
  let m := copy_loop (Z.to_nat len) m (write_buf e + fd_offset e) buf in
  let offset := fd_offset e +u len in
  let size := if write_size e <? offset then offset else write_size e in
  let m := store m (write_buf e + size) 0 in
  (m, {| fd_used := fd_used e; fd_pid := fd_pid e; readable := readable e; writable := writable e;
         fd_data := write_buf e; fd_size := size; fd_offset := offset; fd_path := fd_path e;
         write_buf := write_buf e; write_size := size; write_capacity := write_capacity e;
         dirty := true |}).

Definition ksys_write (k : kernel) (fd buf len : Z) : kernel * Z :=
  if buf =? 0 then (k, ERR_BADF)
  else if negb (validate_user_ptr k buf (if len =? 0 then 1 else len)) then (k, ERR_FAULT)
  else if (fd =? 1) || (fd =? 2) then
    let len := if SYSCALL_WRITE_MAX <? len then SYSCALL_WRITE_MAX else len in
    (print CONSOLE_VGA (load_bytes (k_mem k) buf (Z.to_nat len)) k, s32 len)
  else
    match fd_lookup (fd_table k) fd (k_pid k) with
    | None => (k, ERR_BADF)
    | Some slot =>
        match fd_table k !! slot with
        | None => (k, ERR_BADF)
        | Some e =>
            if negb (writable e) then (k, ERR_BADF)
            else
              let needed := fd_offset e +u len in
              if needed <? fd_offset e then (k, ERR_INVAL)
              else
                match fd_ensure_write_capacity (k_heap k) (k_mem k) e (needed +u 1) with
                | None => (k, ERR_INVAL)
                | Some (h, m, e) =>
                    let '(m, e) := fd_append m e buf len in
                    (with_fds (<[slot := e]> (fd_table k)) (with_heap_mem h m k), s32 len)
                end
        end
    end.

Section calls.
Context `{Linker} `{MountFs}.

(** The entry [ksys_open] fills before it makes a buffer. *)
Definition fd_open (e : fd_entry) (pid : Z) (want_read want_write : bool) (data size flags : Z)
    (path : list Z) : fd_entry := {|
  fd_used := true; fd_pid := pid; readable := want_read; writable := want_write;
  fd_data := data; fd_size := size;
  fd_offset := if negb (Z.land flags O_APPEND =? 0) then size else 0;
  fd_path := str_copy (fd_path (fd_reset e)) path 128;
  write_buf := 0; write_size := 0; write_capacity := 0; dirty := false |}.

(** The buffer of a file that is opened for writing. *)
Definition fd_fill (m : mem) (e : fd_entry) (data size : Z) (trunc : bool) : mem * fd_entry :=
  let m := copy_loop (Z.to_nat size) m (write_buf e) data in
  let m := store m (write_buf e + size) 0 in
  (m, {| fd_used := fd_used e; fd_pid := fd_pid e; readable := readable e; writable := writable e;
         fd_data := write_buf e; fd_size := size; fd_offset := if trunc then 0 else fd_offset e;
         fd_path := fd_path e; write_buf := write_buf e; write_size := size;
         write_capacity := write_capacity e; dirty := trunc || dirty e |}).

Definition ksys_open (k : kernel) (path flags : Z) : kernel * Z :=
  let access := Z.land flags O_ACCMODE in
  let want_write := (access =? O_WRONLY) || (access =? O_RDWR) in
  let want_read := negb (access =? O_WRONLY) in
  if path =? 0 then (k, ERR_INVAL)
  else
    match copy_user_cstr k path 128 with
    | None => (k, ERR_FAULT)
    | Some kpath =>
        match make_abs_path k (cwd_or_root k) kpath 128 with
        | None => (k, ERR_INVAL)
        | Some full_path =>
            let '(v, touched) :=
              if negb (Z.land flags O_CREAT =? 0) then vfs_touch (vfs_of k) (cwd_or_root k) full_path
              else (vfs_of k, true) in
            let k := with_vfs v k in
            if negb touched then (k, ERR_INVAL)
            else
              let '(v, r) := vfs_read_file (vfs_of k) (cwd_or_root k) full_path in
              let k := with_vfs v k in
              match r with
              | None => (k, ERR_INVAL)
              | Some (data, size) =>
                  match fd_alloc_slot (fd_table k) with
                  | None => (k, ERR_NFILE)
                  | Some slot =>
                      match fd_table k !! slot with
                      | None => (k, ERR_NFILE)
                      | Some e0 =>
                          let e := fd_open e0 (k_pid k) want_read want_write data size flags full_path in
                          if negb want_write then
                            (with_fds (<[slot := e]> (fd_table k)) k, Z.of_nat slot)
                          else
                            let trunc := negb (Z.land flags O_TRUNC =? 0) in
                            let initial_size := if trunc then 0 else size in
                            match fd_ensure_write_capacity (k_heap k) (k_mem k) e (initial_size +u 1) with
                            | None => (with_fds (<[slot := fd_reset e]> (fd_table k)) k, ERR_INVAL)
                            | Some (h, m, e) =>
                                let '(m, e) := fd_fill m e data initial_size trunc in
                                (with_fds (<[slot := e]> (fd_table k)) (with_heap_mem h m k), Z.of_nat slot)
                            end
                      end
                  end
              end
        end
    end.

Definition ksys_close (k : kernel) (fd : Z) : kernel * Z :=
  match fd_lookup (fd_table k) fd (k_pid k) with
  | None => (k, ERR_BADF)
  | Some slot =>
      match fd_table k !! slot with
      | None => (k, ERR_BADF)
      | Some e =>
          let '(v, written) :=
            if writable e && dirty e
            then vfs_write_file (vfs_of k) (cwd_or_root k) (fd_path e)
                   (if negb (write_buf e =? 0)
                    then load_bytes (k_mem k) (write_buf e) (Z.to_nat (write_size e))
                    else replicate (Z.to_nat (write_size e)) 0)
            else (vfs_of k, true) in
          let k := with_vfs v k in
          if negb written then (k, ERR_INVAL)
          else (with_fds (fd_reset_slot (fd_table k) slot) k, 0)
      end
  end.

Definition ksys_getpid (k : kernel) : Z :=
  if ring3_active k && (0 <? ring3_current_pid k) then k_pid k
  else task_current_pid (c_sched (k_core k)).

Definition ksys_mkdir (k : kernel) (path : Z) : kernel * Z :=
  if path =? 0 then (k, ERR_INVAL)
  else
    match copy_user_cstr k path 128 with
    | None => (k, ERR_FAULT)
    | Some kpath =>
        let '(v, ok) := vfs_make_dir (vfs_of k) (cwd_or_root k) kpath in
        (with_vfs v k, if ok then 0 else ERR_INVAL)
    end.

Definition ksys_getcwd (k : kernel) (buf len : Z) : kernel * Z :=
  if (buf =? 0) || (len =? 0) then (k, ERR_INVAL)
  else if negb (validate_user_ptr k buf len) then (k, ERR_FAULT)
  else
    let path := vfs_get_cwd_path (vfs_of k) (cwd_or_root k) 128 in
    let n := str_len path in
    if len <? n +u 1 then (k, ERR_INVAL)
    else (with_mem (store_bytes (k_mem k) buf (cstr path ++ [0])) k, s32 n).

Definition ksys_list (k : kernel) (path : Z) : kernel * Z :=
  if path =? 0 then (print CONSOLE_VGA (vfs_list (vfs_of k) (cwd_or_root k) None) k, 0)
  else
    match copy_user_cstr k path 128 with
    | None => (k, ERR_FAULT)
    | Some kpath => (print CONSOLE_VGA (vfs_list (vfs_of k) (cwd_or_root k) (Some kpath)) k, 0)
    end.

Definition ksys_systeminfo (k : kernel) : kernel * Z :=
  match user_boot_mbi k with
  | Some mbi =>
      if negb (user_boot_magic k =? MULTIBOOT_MAGIC)
      then (print CONSOLE_VGA (line "systeminfo: boot info unavailable") k, ERR_INVAL)
      else (with_io (k_keys k) (k_out k ++ [Systeminfo mbi (user_boot_magic k)]) k, 0)
  | None => (print CONSOLE_VGA (line "systeminfo: boot info unavailable") k, ERR_INVAL)
  end.

Definition ksys_ps (k : kernel) : kernel * Z :=
  (print CONSOLE_VGA (task_list (c_sched (k_core k))) k, 0).

(** The numbers [ksys_meminfo] computes. *)
Definition meminfo_of (h : heap_state) (mbi : option multiboot_info) (magic : Z) : mem_info :=
  let kernel_bytes := kernel_end -u kernel_start in
  let total_kib := match mbi with
                   | Some mbi => if (magic =? MULTIBOOT_MAGIC) && negb (Z.land (flags mbi) 1 =? 0)
                                 then mem_lower mbi +u mem_upper mbi else 0
                   | None => 0
                   end in
  let '(used_bytes, free_bytes) :=
    if heap_is_ready h then (kernel_bytes +u heap_bytes_used h, heap_bytes_free h)
    else (kernel_bytes,
          if 1024 <? total_kib then
            let total_bytes := total_kib *u 1024 in
            if kernel_bytes <? total_bytes then total_bytes -u kernel_bytes else 0
          else 0) in
  let used_kib := (used_bytes +u 1023) / 1024 in
  let free_kib := if used_kib <? total_kib then total_kib - used_kib else 0 in
  let available_kib := free_bytes / 1024 in
  {| mem_total_kib := total_kib; mem_used_kib := used_kib; mem_free_kib := free_kib;
     mem_shared_kib := 0; mem_buff_cache_kib := 0;
     mem_available_kib := if free_kib <? available_kib then free_kib else available_kib;
     swap_total_kib := 0; swap_used_kib := 0; swap_free_kib := 0 |}.

Definition mem_info_words (i : mem_info) : list Z :=
  [mem_total_kib i; mem_used_kib i; mem_free_kib i; mem_shared_kib i; mem_buff_cache_kib i;
   mem_available_kib i; swap_total_kib i; swap_used_kib i; swap_free_kib i].

Definition ksys_meminfo (k : kernel) (info : Z) : kernel * Z :=
  if (info =? 0) || negb (validate_user_ptr k info 36) then (k, ERR_FAULT)
  else
    (with_mem (store_words (k_mem k) info
       (mem_info_words (meminfo_of (k_heap k) (user_boot_mbi k) (user_boot_magic k)))) k, 0).

(** [kmsg = *msg] *)
Definition read_msg (m : mem) (a : Z) : ipc_message := {|
  src_pid := s32 (load_u32 m a); dst_pid := s32 (load_u32 m (a + 4)); type := load_u32 m (a + 8);
  arg1 := load_u32 m (a + 12); arg2 := load_u32 m (a + 16); arg3 := load_u32 m (a + 20);
  arg4 := load_u32 m (a + 24) |}.

Definition ksys_ipc_send (k : kernel) (msg : Z) : kernel * Z :=
  if (msg =? 0) || negb (validate_user_ptr k msg 28) then (k, ERR_FAULT)
  else
    let kmsg := read_msg (k_mem k) msg in
    let '(c, q, ok) := ipc_send (k_core k) (k_ipc k) (k_pid k) (dst_pid kmsg) kmsg in
    (with_ipc q (with_core c k), if (ok : bool) then 0 else ERR_AGAIN).

Definition ksys_ipc_recv (k : kernel) (msg : Z) : kernel * Z :=
  if (msg =? 0) || negb (validate_user_ptr k msg 28) then (k, ERR_FAULT)
  else
    match ipc_recv (k_ipc k) (k_pid k) with
    | (q, None) =>
        let '(q, ok) := ipc_block_recv (k_core k) q (k_pid k) msg in
        (with_ipc q k, if (ok : bool) then ERR_BLOCKED else ERR_AGAIN)
    | (q, Some kmsg) =>
        (with_mem (store_words (k_mem k) msg (msg_words kmsg)) (with_ipc q k), 0)
    end.

Definition ksys_ipc_reply (k : kernel) (msg : Z) : kernel * Z :=
  if (msg =? 0) || negb (validate_user_ptr k msg 28) then (k, ERR_FAULT)
  else
    let kmsg := read_msg (k_mem k) msg in
    let '(c, q, ok) := ipc_reply (k_core k) (k_ipc k) (k_pid k) (dst_pid kmsg) kmsg in
    (with_ipc q (with_core c k), if (ok : bool) then 0 else ERR_AGAIN).

Definition ksys_yield : Z := 0.

Definition ksys_service_register (k : kernel) (name : Z) : kernel * Z :=
  if name =? 0 then (k, ERR_INVAL)
  else
    match copy_user_cstr k name 32 with
    | None => (k, ERR_FAULT)
    | Some kname =>
        let '(sv, ok) := service_register (k_core k) (k_services k) (Some kname) (k_pid k) in
        (with_services sv k, if (ok : bool) then 0 else ERR_INVAL)
    end.

Definition ksys_service_lookup (k : kernel) (name : Z) : kernel * Z :=
  if name =? 0 then (k, ERR_INVAL)
  else
    match copy_user_cstr k name 32 with
    | None => (k, ERR_FAULT)
    | Some kname =>
        let '(sv, pid) := service_lookup (k_core k) (k_services k) (Some kname) in
        (with_services sv k, if pid <? 0 then ERR_INVAL else pid)
    end.

Definition store_stat (m : mem) (st : Z) (s : user_stat) : mem :=
  store_words m st [st_mode s; st_size s].

Definition ksys_stat (k : kernel) (path st : Z) : kernel * Z :=
  if (path =? 0) || (st =? 0) then (k, ERR_INVAL)
  else if negb (validate_user_ptr k st 8) then (k, ERR_FAULT)
  else
    match copy_user_cstr k path 128 with
    | None => (k, ERR_FAULT)
    | Some kpath =>
        let '(v, s, ok) := vfs_stat (vfs_of k) (cwd_or_root k) kpath in
        let k := with_vfs v k in
        (with_mem (store_stat (k_mem k) st s) k, if (ok : bool) then 0 else ERR_INVAL)
    end.

Definition S_IFCHR : Z := 8192.

Definition ksys_fstat (k : kernel) (fd st : Z) : kernel * Z :=
  if st =? 0 then (k, ERR_INVAL)
  else if negb (validate_user_ptr k st 8) then (k, ERR_FAULT)
  else if (0 <=? fd) && (fd <=? 2) then
    (with_mem (store_stat (k_mem k) st {| st_mode := S_IFCHR; st_size := 0 |}) k, 0)
  else
    match e ← fd_lookup (fd_table k) fd (k_pid k); fd_table k !! e with
    | None => (k, ERR_BADF)
    | Some e =>
        let size := if negb (write_buf e =? 0) then write_size e else fd_size e in
        (with_mem (store_stat (k_mem k) st {| st_mode := S_IFREG; st_size := size |}) k, 0)
    end.

(** A number with its sign, as [ksys_exit] prints it. *)
Definition signed_dec (n : Z) : list Z :=
  if n <? 0 then lit "-" ++ console_print_u32_dec (u32 (- n)) else console_print_u32_dec (u32 n).

Definition ksys_exit (k : kernel) (code : Z) : kernel :=
  let pid := task_current_pid (c_sched (k_core k)) in
  let k := if 0 <? pid
           then with_core (with_c_procs (fst (proc_exit (c_procs (k_core k)) pid code)) (k_core k)) k
           else k in
  print CONSOLE_BOTH (lit "process " ++ signed_dec pid ++ lit " exited with code " ++
                      signed_dec code ++ [10]) k.

(** ** The dispatcher *)

Definition syscall_entry (k : kernel) (num a1 a2 a3 : Z) : option (kernel * Z) :=
  if num =? 0 then ksys_read k (s32 a1) a2 a3
  else Some (
    if num =? 1 then ksys_write k (s32 a1) a2 a3
    else if num =? 2 then ksys_open k a1 a2
    else if num =? 3 then ksys_close k (s32 a1)
    else if num =? 20 then (k, ksys_getpid k)
    else if num =? 83 then ksys_mkdir k a1
    else if num =? 183 then ksys_getcwd k a1 a2
    else if num =? 60 then (ksys_exit k (s32 a1), 0)
    else if num =? 241 then ksys_list k a1
    else if num =? 242 then ksys_systeminfo k
    else if num =? 243 then ksys_ps k
    else if num =? 244 then ksys_meminfo k a1
    else if num =? 245 then ksys_ipc_send k a1
    else if num =? 246 then ksys_ipc_recv k a1
    else if num =? 247 then ksys_ipc_reply k a1
    else if num =? 248 then (k, ksys_yield)
    else if num =? 249 then ksys_service_register k a1
    else if num =? 250 then ksys_service_lookup k a1
    else if num =? 251 then ksys_stat k a1 a2
    else if num =? 252 then ksys_fstat k (s32 a1) a2
    else if num =? 240 then (k, 0)
    else (k, -1)).

End calls.
