(* ===== verification/FdTable.v ===== *)
(** * FdTable: the invariant of the table of open files (Syscall.v)

    Every open file has its bytes in the heap: a file open for writing owns a
    buffer, a file open for reading points at the contents of a node, or at a
    copy read from the disc.  A write buffer overlaps neither the bytes of
    another open file nor the contents of a node ([fds_inv]). *)
From S2P Require Import Prelude KernelH Util Memory Heap Proc Sched Iface Service Elf Core Ipc Storage IsoFs Vfs VfsTree Syscall.
Local Open Scope Z_scope.
Local Open Scope slop_scope.

Definition apart (a n b k : Z) : Prop := a + n <= b \/ b + k <= a.

(** The bytes an open file uses. *)
Definition fd_block (e : fd_entry) : Z * Z :=
  if writable e then (write_buf e, write_capacity e) else (fd_data e, fd_size e + 1).

Definition block_in (h : heap_state) (a n : Z) : Prop := h_start h <= a /\ a + n <= h_current h.

Record fd_ok (h : heap_state) (e : fd_entry) : Prop := {
  fo_path : length (fd_path e) = 128%nat;
  fo_offset : fd_used e = true -> 0 <= fd_offset e <= fd_size e;
  fo_write : fd_used e = true -> writable e = true ->
    block_in h (write_buf e) (write_capacity e) /\ 0 <= write_size e < write_capacity e /\
    fd_data e = write_buf e /\ fd_size e = write_size e;
  fo_read : fd_used e = true -> writable e = false ->
    write_buf e = 0 /\ dirty e = false /\
    (fd_data e = 0 /\ fd_size e = 0 \/ block_in h (fd_data e) (fd_size e + 1))
}.

(** The block [(a, n)] does not meet the write buffers, that of entry [i] apart. *)
Definition clear_of (fds : list fd_entry) (i : nat) (a n : Z) : Prop :=
  forall j e, j <> i -> fds !! j = Some e -> fd_used e = true -> writable e = true ->
    apart (write_buf e) (write_capacity e) a n.

Record fds_inv (v : vfs) (fds : list fd_entry) : Prop := {
  fi_len : length fds = FD_MAX;
  fi_ok : Forall (fd_ok (vheap v)) fds;
  fi_fds : forall i e, fds !! i = Some e -> fd_used e = true ->
    clear_of fds i (fst (fd_block e)) (snd (fd_block e));
  fi_nodes : forall i e c n, fds !! i = Some e -> fd_used e = true -> writable e = true ->
    node_at v c = Some n -> apart (write_buf e) (write_capacity e) (data n) (size_ n + 1)
}.

Lemma block_in_ext h h' a n : heap_ext h h' -> block_in h a n -> block_in h' a n.
Proof. intros Hx [? ?]. heap_facts. split; lia. Qed.

Lemma fd_ok_ext h h' e : heap_ext h h' -> fd_ok h e -> fd_ok h' e.
Proof.
  intros Hx [Hp Ho Hw Hr]. constructor; [done|done| |].
  - intros Hu Hwr. destruct (Hw Hu Hwr) as (? & ? & ? & ?).
    split_and!; try done; try lia. by eapply block_in_ext.
  - intros Hu Hwr. destruct (Hr Hu Hwr) as (? & ? & [?|?]); split_and!; try done; [by left|right].
    by eapply block_in_ext.
Qed.

(** Steps of the file tree leave the table alone. *)
Lemma fds_step v v' fds :
  fds_inv v fds -> vfs_inv v' -> heap_ext (vheap v) (vheap v') -> data_fresh v v' -> fds_inv v' fds.
Proof.
  intros [Hl Hok Hf Hn] Hi' Hx Hd. constructor; [done| |done|].
  - revert Hok. apply Forall_impl. intros e. by apply fd_ok_ext.
  - intros i e c n He Hu Hw Hc.
    destruct (fo_write _ _ (Forall_lookup_1 _ _ _ _ Hok He) Hu Hw) as ([Hs Hend] & ? & _).
    destruct (no_data _ _ _ (vi_node _ Hi' _ _ Hc)) as [? Hdata].
    pose proof (hi_start _ (vi_heap _ Hi')). heap_facts.
    destruct (Hd _ _ Hc) as [Hz0|[Hge|(n0 & Hn0 & -> & ->)]].
    + right. destruct Hdata as [[? ?]|[? ?]]; lia.
    + left. lia.
    + by apply (Hn i e c n0).
Qed.

(** A new entry in a slot. *)
Lemma fds_put v fds i e :
  fds_inv v fds -> fd_ok (vheap v) e ->
  (fd_used e = true -> clear_of fds i (fst (fd_block e)) (snd (fd_block e))) ->
  (fd_used e = true -> writable e = true ->
     (forall j e', j <> i -> fds !! j = Some e' -> fd_used e' = true ->
        apart (write_buf e) (write_capacity e) (fst (fd_block e')) (snd (fd_block e'))) /\
     (forall c n, node_at v c = Some n ->
        apart (write_buf e) (write_capacity e) (data n) (size_ n + 1))) ->
  fds_inv v (<[i := e]> fds).
Proof.
  intros [Hl Hok Hf Hn] He Hcl Hap. constructor.
  - by rewrite length_insert.
  - by apply Forall_insert.
  - intros j e1 H1 Hu1. apply list_lookup_insert_Some in H1 as [(<- & <- & _)|[Hne H1]].
    + intros k e2 Hk H2. rewrite list_lookup_insert_ne in H2 by done. by apply (Hcl Hu1 k).
    + intros k e2 Hk H2 Hu2 Hw2.
      apply list_lookup_insert_Some in H2 as [(<- & <- & _)|[Hne2 H2]]; [|by apply (Hf j e1 H1 Hu1 k)].
      destruct (Hap Hu2 Hw2) as [Hap1 _]. by apply (Hap1 j e1).
  - intros j e1 c n H1 Hu1 Hw1 Hc. apply list_lookup_insert_Some in H1 as [(<- & <- & _)|[Hne H1]].
    + by apply (proj2 (Hap Hu1 Hw1) c n).
    + by apply (Hn j e1 c n).
Qed.

(** An entry that is closed. *)
Lemma fds_close v fds i e : fds_inv v fds -> fd_ok (vheap v) e -> fd_used e = false ->
  fds_inv v (<[i := e]> fds).
Proof. intros Hf He Hu. apply fds_put; [done|done|by rewrite Hu..]. Qed.

(** An entry that keeps its block. *)
Lemma fds_same_block v fds i e e' :
  fds_inv v fds -> fds !! i = Some e -> fd_used e = true -> fd_ok (vheap v) e' ->
  fd_block e' = fd_block e -> writable e' = writable e ->
  fds_inv v (<[i := e']> fds).
Proof.
  intros Hf He Hu Hok Hb Hw. apply fds_put; [done|done| |].
  - intros _. rewrite Hb. by apply (fi_fds _ _ Hf i).
  - intros _ Hw'. rewrite Hw in Hw'.
    assert (write_buf e' = write_buf e /\ write_capacity e' = write_capacity e) as [-> ->].
    { unfold fd_block in Hb. rewrite Hw, Hw' in Hb. by injection Hb. }
    split.
    + intros j e2 Hj H2 Hu2. by apply (fi_fds _ _ Hf j e2 H2 Hu2 i).
    + intros c n Hc. by apply (fi_nodes _ _ Hf i e c n).
Qed.

(** An entry whose block was just allocated: [v0] is the tree before. *)
Lemma fds_fresh v0 v fds i e :
  fds_inv v0 fds -> fds_inv v fds -> vfs_inv v0 -> nodes v = nodes v0 -> fd_ok (vheap v) e ->
  h_current (vheap v0) <= fst (fd_block e) -> fds_inv v (<[i := e]> fds).
Proof.
  intros Hf0 Hf Hi0 Hnodes He Hnew.
  pose proof (hi_start _ (vi_heap _ Hi0)). pose proof (hi_current _ (vi_heap _ Hi0)).
  apply fds_put; [done|done| |].
  - intros Hu j e2 Hj H2 Hu2 Hw2.
    destruct (fo_write _ _ (Forall_lookup_1 _ _ _ _ (fi_ok _ _ Hf0) H2) Hu2 Hw2) as ([? ?] & _).
    left. lia.
  - intros Hu Hw. unfold fd_block in Hnew. rewrite Hw in Hnew. cbn [fst] in Hnew. split.
    + intros j e2 Hj H2 Hu2. right. unfold fd_block.
      pose proof (Forall_lookup_1 _ _ _ _ (fi_ok _ _ Hf0) H2) as Hok2.
      destruct (writable e2) eqn:Hw2; cbn [fst snd].
      * destruct (fo_write _ _ Hok2 Hu2 Hw2) as ([? ?] & _). lia.
      * destruct (fo_read _ _ Hok2 Hu2 Hw2) as (_ & _ & [[-> ->]|[? ?]]); lia.
    + intros c n Hc. right. unfold node_at in Hc. rewrite Hnodes in Hc.
      destruct (no_data _ _ _ (vi_node _ Hi0 c n Hc)) as [? [[-> ->]|(? & ? & _)]]; lia.
Qed.

(** ** The growing buffer *)

Lemma grow_capacity_spec fuel capacity needed :
  0 < capacity < 4294967296 -> is_u32 needed -> 4294967296 <= capacity * 2 ^ Z.of_nat fuel ->
  match grow_capacity (S fuel) capacity needed with
  | Some c => needed <= c < 4294967296 /\ capacity <= c /\ (c = capacity \/ c < 2 * needed)
  | None => 2147483648 < needed
  end.
Proof.
  revert capacity. induction fuel as [|f IH]; intros capacity Hc Hn Hf; [cbn in Hf; lia|].
  unfold is_u32 in *. change (grow_capacity (S (S f)) capacity needed) with
    (if capacity <? needed then if 0x7FFFFFFF <? capacity then None
     else grow_capacity (S f) (capacity *u 2) needed else Some capacity).
  destruct (capacity <? needed) eqn:E1; zify_bool; [|lia].
  destruct (2147483647 <? capacity) eqn:E2; zify_bool; [lia|].
  rewrite u32_small by lia. specialize (IH (capacity * 2)).
  rewrite Nat2Z.inj_succ, Z.pow_succ_r in Hf by lia.
  destruct (grow_capacity (S f) (capacity * 2) needed) as [c|]; [|apply IH; lia].
  destruct IH as (? & ? & ?); [lia..|]. lia.
Qed.

(** What [fd_ensure_write_capacity] gives when it succeeds. *)
Lemma ensure_spec h m e needed h' m' e' :
  heap_inv h -> mem_ok m -> is_u32 needed ->
  (write_capacity e = 0 /\ write_size e = 0 /\ write_buf e = 0 \/
   block_in h (write_buf e) (write_capacity e) /\ 0 <= write_size e < write_capacity e) ->
  fd_ensure_write_capacity h m e needed = Some (h', m', e') ->
  heap_inv h' /\ mem_step h m h' m' /\ needed <= write_capacity e' < 4294967296 /\
  e' = set_buffer (write_buf e') (write_capacity e') e /\
  (write_size e < write_capacity e' \/ needed = 0) /\
  (e' = e /\ h' = h /\ m' = m \/
   h_current h <= write_buf e' /\ write_buf e' + write_capacity e' <= h_current h' /\
   load_bytes m' (write_buf e') (Z.to_nat (write_size e)) = load_bytes m (write_buf e) (Z.to_nat (write_size e))).
Proof.
  intros Hi Hm Hn Hbuf. unfold fd_ensure_write_capacity.
  pose proof (hi_start _ Hi). pose proof (hi_current _ Hi). pose proof (hi_limit _ Hi).
  destruct (needed <=? write_capacity e) eqn:E0; zify_bool.
  { intros [= <- <- <-]. unfold is_u32 in *.
    split_and!; try done; [destruct Hbuf as [(? & ? & _)|[[? ?] ?]]; lia|by destruct e| |by left].
    destruct Hbuf as [(? & ? & _)|[_ ?]]; [right|left]; lia. }
  set (cap0 := if write_capacity e =? 0 then 256 else write_capacity e).
  assert (0 < cap0 < 4294967296 /\ write_size e < cap0 /\ 0 <= write_size e) as (Hc0 & Hws & Hws0).
  { unfold cap0. destruct Hbuf as [(-> & -> & _)|[[? ?] ?]]; [by cbn|].
    rewrite (proj2 (Z.eqb_neq _ 0)) by lia. lia. }
  pose proof (grow_capacity_spec 32 cap0 needed Hc0 Hn ltac:(change (2 ^ Z.of_nat 32) with 4294967296; lia)) as Hg.
  destruct (grow_capacity 33 cap0 needed) as [cap|]; [|done].
  destruct Hg as (Hcap & Hle & _). destruct (kmalloc h cap) as [h1 p] eqn:Ek.
  destruct (p =? 0) eqn:Ep; zify_bool; [done|]. intros [= <- <- <-].
  assert (is_u32 cap) as Hcu by (unfold is_u32 in *; lia).
  destruct (kmalloc_Some _ _ _ _ Hi Hcu Ek Ep) as (Hi1 & Hp & ? & Hend & ? & ? & ? & ? & _).
  cbn [write_buf write_capacity set_buffer write_size].
  set (n := Z.to_nat (write_size e)).
  set (m1 := if write_buf e =? 0 then _ else _).
  assert (fits p (Z.of_nat n)) as Hfp by (split; lia).
  assert (same_outside p cap m m1 /\ (mem_ok m -> mem_ok m1) /\
          load_bytes m1 p n = load_bytes m (write_buf e) n) as (Hso & Hmo & Hl).
  { unfold m1. destruct Hbuf as [(_ & Hz & ->)|[[Hb1 Hb2] Hb3]].
    - unfold n. rewrite Hz. by split_and!.
    - rewrite (proj2 (Z.eqb_neq _ 0)) by lia.
      assert (fits (write_buf e) (Z.of_nat n)) as Hfb by (split; lia).
      assert (write_buf e + Z.of_nat n <= p \/ p + Z.of_nat n <= write_buf e) as Hdis by lia.
      split_and!.
      + intros x Hx. apply copy_loop_out; [done|done|done|lia].
      + apply copy_loop_ok.
      + apply list_eq. intros i. destruct (decide (i < n)%nat) as [Hlt|Hge].
        * rewrite !load_bytes_lookup by done. f_equal. unfold load. rewrite !u32_small by lia.
          rewrite copy_loop_in by (done || lia). rewrite u8_byte by apply Hm. f_equal. lia.
        * rewrite !(proj2 (lookup_ge_None _ _)) by (rewrite load_bytes_length; lia). done. }
  split_and!; try done; try lia.
  - by apply (kmalloc_step _ _ _ _ _ _ Hi Hcu Ek Ep).
  - right. split_and!; [lia|lia|done].
Qed.

(** ** Filling and extending a buffer *)

Lemma load_bytes_add m a n k :
  load_bytes m a (n + k) = load_bytes m a n ++ load_bytes m (a + Z.of_nat n) k.
Proof.
  revert a. induction n as [|n IH]; intros a; cbn [load_bytes Nat.add app].
  - by rewrite Z.add_0_r.
  - rewrite IH. do 2 f_equal. f_equal. lia.
Qed.

(** A copy of [n] bytes between ranges that do not meet. *)
Lemma copy_loop_bytes n m dst src :
  mem_ok m -> fits dst (Z.of_nat n) -> fits src (Z.of_nat n) ->
  (src + Z.of_nat n <= dst \/ dst + Z.of_nat n <= src) ->
  load_bytes (copy_loop n m dst src) dst n = load_bytes m src n.
Proof.
  intros Hm [Hd1 Hd2] [Hs1 Hs2] Hdis. apply list_eq. intros i.
  destruct (decide (i < n)%nat) as [Hlt|Hge].
  - rewrite !load_bytes_lookup by done. f_equal. unfold load. rewrite !u32_small by lia.
    rewrite copy_loop_in by (done || lia). rewrite u8_byte by apply Hm. f_equal. lia.
  - rewrite !(proj2 (lookup_ge_None _ _)) by (rewrite load_bytes_length; lia). done.
Qed.

(** [fd_append] writes the bytes at the offset, inside the buffer. *)
Lemma append_spec h m e buf len m' e' :
  heap_inv h -> mem_ok m -> block_in h (write_buf e) (write_capacity e) ->
  0 <= fd_offset e <= write_size e -> 0 <= len -> fd_offset e + len < write_capacity e ->
  write_size e < write_capacity e ->
  fits buf len -> apart (write_buf e) (write_capacity e) buf len ->
  fd_append m e buf len = (m', e') ->
  let size := Z.max (write_size e) (fd_offset e + len) in
  same_outside (write_buf e) (write_capacity e) m m' /\ mem_ok m' /\
  e' = {| fd_used := fd_used e; fd_pid := fd_pid e; readable := readable e; writable := writable e;
          fd_data := write_buf e; fd_size := size; fd_offset := fd_offset e + len;
          fd_path := fd_path e; write_buf := write_buf e; write_size := size;
          write_capacity := write_capacity e; dirty := true |} /\
  (forall i, 0 <= i < size -> m' (write_buf e + i) =
     if in_range (fd_offset e) len i then m (buf + (i - fd_offset e)) else m (write_buf e + i)) /\
  m' (write_buf e + size) = 0.
Proof.
  intros Hi Hm [Hb1 Hb2] Ho Hl Hoc Hws Hf Hap. unfold fd_append.
  pose proof (hi_start _ Hi). pose proof (hi_current _ Hi). pose proof (hi_limit _ Hi).
  rewrite (proj2 (Z.ltb_ge (write_size e) (fd_offset e))) by lia.
  rewrite (u32_small (fd_offset e + len)) by lia.
  assert ((if write_size e <? fd_offset e + len then fd_offset e + len else write_size e) =
          Z.max (write_size e) (fd_offset e + len)) as -> by (split_if; lia).
  intros [= <- <-]. set (size := Z.max _ _). cbv zeta.
  set (n := Z.to_nat len). assert (Z.of_nat n = len) as Hn by lia.
  set (m1 := copy_loop n m (write_buf e + fd_offset e) buf).
  assert (forall x, m1 x = if in_range (write_buf e + fd_offset e) len x
            then m (buf + (x - (write_buf e + fd_offset e))) else m x) as Hm1.
  { intros x. unfold m1. rewrite copy_loop_spec; rewrite ?Hn; [|split; lia|done|destruct Hap; [right|left]; lia].
    destruct (in_range _ _ _); [by rewrite u8_byte by apply Hm|done]. }
  assert (forall x, store m1 (write_buf e + size) 0 x =
            if x =? write_buf e + size then 0 else m1 x) as Hst.
  { intros x. unfold store. by rewrite u32_small by lia. }
  split_and!.
  - intros x Hx. rewrite Hst, Hm1. rewrite (proj2 (Z.eqb_neq _ _)) by lia.
    by rewrite (proj2 (in_range_false _ _ _)) by lia.
  - apply store_ok, copy_loop_ok, Hm.
  - done.
  - intros i Hir. rewrite Hst, Hm1, (proj2 (Z.eqb_neq _ _)) by lia.
    unfold in_range. destruct ((fd_offset e <=? i) && _) eqn:E; zify_bool.
    + rewrite (proj2 (Z.leb_le _ _)), (proj2 (Z.ltb_lt _ _)) by lia. cbn. f_equal. lia.
    + rewrite (proj2 (andb_false_iff _ _)); [done|].
      apply andb_false_iff in E as [E|E]; zify_bool; [left|right]; lia.
  - by rewrite Hst, Z.eqb_refl.
Qed.

(** [fd_fill] copies the contents of the file into the new buffer. *)
Lemma fill_spec h m e data size trunc m' e' :
  heap_inv h -> mem_ok m -> block_in h (write_buf e) (write_capacity e) ->
  0 <= size < write_capacity e -> fits data size -> apart (write_buf e) (write_capacity e) data size ->
  fd_fill m e data size trunc = (m', e') ->
  same_outside (write_buf e) (write_capacity e) m m' /\ mem_ok m' /\
  e' = {| fd_used := fd_used e; fd_pid := fd_pid e; readable := readable e; writable := writable e;
          fd_data := write_buf e; fd_size := size; fd_offset := if trunc then 0 else fd_offset e;
          fd_path := fd_path e; write_buf := write_buf e; write_size := size;
          write_capacity := write_capacity e; dirty := trunc || dirty e |} /\
  load_bytes m' (write_buf e) (Z.to_nat size) = load_bytes m data (Z.to_nat size).
Proof.
  intros Hi Hm [Hb1 Hb2] Hs Hf Hap. unfold fd_fill. intros [= <- <-].
  pose proof (hi_start _ Hi). pose proof (hi_current _ Hi). pose proof (hi_limit _ Hi).
  set (n := Z.to_nat size). assert (Z.of_nat n = size) as Hn by lia.
  assert (fits (write_buf e) (Z.of_nat n)) as Hfw by (split; lia).
  assert (data + Z.of_nat n <= write_buf e \/ write_buf e + Z.of_nat n <= data) as Hdis
    by (destruct Hap; [right|left]; lia).
  rewrite <- Hn in Hf. split_and!; [| |done|].
  - intros x Hx. unfold store. rewrite u32_small by lia. split_if; [lia|].
    apply copy_loop_out; [done|done|done|lia].
  - apply store_ok, copy_loop_ok, Hm.
  - transitivity (load_bytes (copy_loop n m (write_buf e) data) (write_buf e) n).
    + apply load_bytes_ext; [done|]. intros x Hx. unfold store. rewrite u32_small by lia. split_if; [lia|done].
    + by apply copy_loop_bytes.
Qed.

(** ** Writing into the middle of a file *)

(** [old] with [bs] in place of the bytes from [o] on. *)
Definition splice (o : nat) (bs old : list Z) : list Z :=
  take o old ++ bs ++ drop (o + length bs) old.

Lemma splice_length o bs old :
  (o <= length old)%nat -> length (splice o bs old) = Nat.max (length old) (o + length bs).
Proof. intros Ho. unfold splice. rewrite !length_app, length_take, length_drop. lia. Qed.

Lemma splice_lookup o bs old i :
  (o <= length old)%nat ->
  splice o bs old !! i =
    if (o <=? i)%nat && (i <? o + length bs)%nat then bs !! (i - o)%nat else old !! i.
Proof.
  intros Ho. unfold splice.
  destruct (Nat.leb_spec o i) as [Hoi|Hoi]; cbn [andb].
  - rewrite lookup_app_r by (rewrite length_take; lia). rewrite length_take, Nat.min_l by lia.
    destruct (Nat.ltb_spec i (o + length bs)) as [Hi|Hi].
    + by rewrite lookup_app_l by lia.
    + rewrite lookup_app_r, lookup_drop by lia. f_equal. lia.
  - rewrite lookup_app_l by (rewrite length_take; lia). by rewrite lookup_take_lt by lia.
Qed.

Lemma bytes_splice m m' a old off len buf size :
  0 <= off <= Z.of_nat (length old) -> 0 <= len -> fits a size -> fits buf len -> mem_ok m ->
  size = Z.max (Z.of_nat (length old)) (off + len) -> load_bytes m a (length old) = old ->
  (forall i, 0 <= i < size -> m' (a + i) = if in_range off len i then m (buf + (i - off)) else m (a + i)) ->
  load_bytes m' a (Z.to_nat size) = splice (Z.to_nat off) (load_bytes m buf (Z.to_nat len)) old.
Proof.
  intros Ho Hl [Ha1 Ha2] [Hb1 Hb2] Hm Hs Hold Hat. apply list_eq. intros i.
  rewrite splice_lookup, load_bytes_length by lia.
  destruct (decide (i < Z.to_nat size)%nat) as [Hi|Hi].
  2:{ rewrite (proj2 (lookup_ge_None _ _)) by (rewrite load_bytes_length; lia).
      symmetry. destruct (_ && _) eqn:E; [apply andb_true_iff in E as [E1%Nat.leb_le E2%Nat.ltb_lt]; lia|].
      apply lookup_ge_None_2. lia. }
  rewrite load_bytes_lookup by done. unfold load. rewrite u32_small, Hat by lia.
  unfold in_range. destruct (Nat.leb_spec (Z.to_nat off) i), (Nat.ltb_spec i (Z.to_nat off + Z.to_nat len));
    cbn [andb].
  - rewrite load_bytes_lookup by lia. unfold load. rewrite u32_small by lia.
    rewrite (proj2 (Z.leb_le _ _)), (proj2 (Z.ltb_lt _ _)) by lia. cbn [andb]. do 2 f_equal. lia.
  - rewrite (proj2 (Z.ltb_ge (Z.of_nat i) _)), andb_false_r by lia.
    rewrite <- Hold, load_bytes_lookup by lia. unfold load. by rewrite u32_small by lia.
  - rewrite (proj2 (Z.leb_gt _ (Z.of_nat i))) by lia. cbn [andb].
    rewrite <- Hold, load_bytes_lookup by lia. unfold load. by rewrite u32_small by lia.
  - rewrite (proj2 (Z.leb_gt _ (Z.of_nat i))) by lia. cbn [andb].
    rewrite <- Hold, load_bytes_lookup by lia. unfold load. by rewrite u32_small by lia.
Qed.
