(* ===== verification/Kernel.v ===== *)
(** * Kernel: what every system call keeps, and what it may change

    [kernel_inv] puts the invariants of the components together, with the
    separation between them: programs, the copies of suspended programs and the
    heap are in different parts of memory.  [call_ok] says what a call of a
    running program may change; each handler of Syscall.v is shown to stay
    within it. *)
From S2P Require Import Prelude KernelH Util Memory Heap Proc Sched Iface Service Elf Core Ipc Storage IsoFs Vfs VfsTree Syscall FdTable.
Local Open Scope Z_scope.
Local Open Scope slop_scope.

(** ** Pointers from programs *)

Section pointers.
Context `{Linker}.
Implicit Types (k : kernel).

Definition in_image (image : proc_image) (a n : Z) : Prop :=
  image_base image <= a /\ a + n <= image_base image + image_size image.
Definition in_stack (image : proc_image) (a n : Z) : Prop :=
  user_stack_base image <= a /\ a + n <= user_stack_base image + user_stack_size image.

Lemma range_contains_exact base size ptr len :
  0 <= base -> 0 <= size -> base + size < 4294967296 -> is_u32 ptr -> is_u32 len ->
  range_contains base size ptr len = true <->
  base <= ptr /\ ptr + Z.max 1 len <= base + size.
Proof.
  intros Hb Hs Hw Hp Hl. unfold range_contains, is_u32 in *. rewrite (u32_small (base + size)) by lia.
  destruct (size =? 0) eqn:E0; zify_bool; [split; [done|lia]|].
  destruct (ptr <? base) eqn:E1; zify_bool; [split; [done|lia]|].
  destruct (len =? 0) eqn:E2; zify_bool; [rewrite Z.ltb_lt; lia|].
  destruct (u32_add_cases ptr len) as [[? ->]|[? ->]]; [lia..| |].
  - rewrite (proj2 (Z.ltb_ge _ _)), Z.leb_le by lia. lia.
  - rewrite (proj2 (Z.ltb_lt _ _)) by lia. split; [done|lia].
Qed.

(** A program's image and stack are below the heap or above it. *)
Lemma image_ranges image :
  image_ok user_stacks image ->
  0 <= image_base image /\ 0 <= image_size image /\ image_base image + image_size image < 4294967296 /\
  0 <= user_stack_base image /\ 0 <= user_stack_size image /\
  user_stack_base image + user_stack_size image <= kernel_end /\
  USER_IMAGE_RESERVED_BASE <= image_base image /\
  image_size image <= ELF_USER_IMAGE_MAX /\ user_stack_size image <= ELF_USER_IMAGE_MAX.
Proof.
  intros [_ Hb Hs He (slot & Hslot & Hst) Hsz].
  pose proof linker_layout as Hly. pose proof linker_arrays as [Ha _]. pose proof linker_kernel as [_ Hk].
  pose proof (stack_addr_range _ _ Hly slot Hslot) as [? ?].
  unfold stack_addr, ELF_STACK_SIZE, ELF_PROC_SLOTS, ELF_USER_IMAGE_BASE, ELF_USER_IMAGE_MAX, USER_IMAGE_RESERVED_BASE in *.
  lia.
Qed.

(** What [validate_user_ptr] accepts from a running program. *)
Lemma validate_spec k ptr len :
  core_ok (k_core k) -> ring3_active k = true -> is_u32 ptr -> is_u32 len ->
  validate_user_ptr k ptr len = true <->
  0 < k_pid k /\ exists image, proc_get_image (c_procs (k_core k)) (k_pid k) = Some image /\
    loaded image = true /\ (in_image image ptr (Z.max 1 len) \/ in_stack image ptr (Z.max 1 len)).
Proof.
  intros Hc Hr Hp Hl. unfold validate_user_ptr. rewrite Hr. cbn [negb].
  destruct (proc_get_image _ _) as [image|] eqn:Ei; [|split; [done|by intros (_ & ? & ? & _)]].
  destruct (k_pid k <=? 0) eqn:E0; zify_bool; cbn [orb]; [split; [done|lia]|].
  destruct (loaded image) eqn:El; cbn [negb]; [|split; [done|intros (_ & ? & ? & ? & _); simplify_eq; congruence]].
  pose proof (ck_images _ Hc _ _ Ei El) as Hio. destruct (image_ranges _ Hio) as (? & ? & ? & ? & ? & ? & ? & ? & ?).
  pose proof linker_kernel as [_ ?].
  rewrite orb_true_iff, !range_contains_exact by (done || lia). split.
  - intros Hor. split; [done|]. exists image. split_and!; try done.
  - intros (_ & i & Hi & _ & Hor). simplify_eq. done.
Qed.

(** The bytes of the running program. *)
Definition user_byte k (x : Z) : Prop :=
  exists image, proc_get_image (c_procs (k_core k)) (k_pid k) = Some image /\ loaded image = true /\
    (in_image image x 1 \/ in_stack image x 1).

Lemma validate_range k ptr len :
  core_ok (k_core k) -> ring3_active k = true -> is_u32 ptr -> is_u32 len ->
  validate_user_ptr k ptr len = true ->
  fits ptr (Z.max 1 len) /\ (forall x, ptr <= x < ptr + Z.max 1 len -> user_byte k x) /\
  (ptr + Z.max 1 len <= kernel_end \/ USER_IMAGE_RESERVED_BASE <= ptr) /\
  Z.max 1 len <= ELF_USER_IMAGE_MAX.
Proof.
  intros Hc Hr Hp Hl Hv. apply validate_spec in Hv as (_ & image & Hi & Hld & Hor); [|done..].
  pose proof (ck_images _ Hc _ _ Hi Hld) as Hio. destruct (image_ranges _ Hio) as (? & ? & ? & ? & ? & ? & ? & ? & ?).
  pose proof linker_kernel as [_ ?]. unfold in_image, in_stack, is_u32 in *.
  split_and!; [split; lia| |lia|lia].
  intros x Hx. exists image. split_and!; [done|done|]. unfold in_image, in_stack. destruct Hor; [left|right]; lia.
Qed.

(** ** The messages of blocked programs *)

(** The bytes where a blocked receiver waits for its message. *)
Definition mail_byte k (x : Z) : Prop :=
  exists dst ptr image slot a, waiting (k_ipc k) dst = Some ptr /\
    proc_get_image (c_procs (k_core k)) dst = Some image /\ loaded image = true /\
    (slot < ELF_PROC_SLOTS)%nat /\ task_place user_images image slot ptr 28 = Some a /\ a <= x < a + 28.

(** ** The invariant *)

Record kernel_inv k : Prop := {
  ki_core : core_ok (k_core k);
  ki_ipc : ipc_inv (k_ipc k);
  ki_services : svc_inv (k_services k);
  ki_vfs : vfs_inv (vfs_of k);
  ki_fds : fds_inv (vfs_of k) (fd_table k);
  ki_cwd : user_cwd k = 0 \/ is_dir_node (vfs_of k) (user_cwd k);
  ki_heap : kernel_end <= h_start (k_heap k);
  ki_limit : h_limit (k_heap k) <= USER_IMAGE_RESERVED_BASE;
  ki_mem : mem_ok (k_mem k)
}.

(** A byte of the write buffer of an open file of the running program. *)
Definition buf_byte k (x : Z) : Prop :=
  exists i e, fd_table k !! i = Some e /\ fd_used e = true /\ fd_pid e = k_pid k /\
    writable e = true /\ write_buf e <= x < write_buf e + write_capacity e.

(** What a call of the running program may change. *)
Record call_ok k k' : Prop := {
  co_inv : kernel_inv k';
  co_mem : forall x, k_mem k' x = k_mem k x \/ user_byte k x \/ buf_byte k x \/ mail_byte k x \/
             h_current (k_heap k) <= x < h_current (k_heap k');
  co_fds : forall i e, fd_table k !! i = Some e -> fd_used e = true -> fd_pid e <> k_pid k ->
             fd_table k' !! i = Some e;
  co_heap : heap_ext (k_heap k) (k_heap k');
  co_tree : grows (vfs_of k) (vfs_of k');
  co_ring : ring3_active k' = ring3_active k /\ ring3_current_pid k' = ring3_current_pid k /\
            user_cwd k' = user_cwd k
}.

Lemma call_ok_refl k : kernel_inv k -> call_ok k k.
Proof. intros Hi. constructor; try done; [by left|apply grows_refl]. Qed.

(** ** Building blocks *)

(** A change of memory that keeps the terminators of the nodes' contents. *)
Lemma vfs_set_mem v m :
  vfs_inv v ->
  (forall c n, node_at v c = Some n -> data n <> 0 -> m (data n + size_ n) = vmem v (data n + size_ n)) ->
  vfs_inv (with_heap (vheap v) m v).
Proof.
  intros Hi Hm. assert (grows v (with_heap (vheap v) m v)) as Hg.
  { constructor; [done|]. intros a n Hn. by exists n. }
  constructor; [exact (vi_heap _ Hi)|exact (vi_root _ Hi)| |exact (vi_distinct _ Hi)].
  intros a n Hn. destruct (vi_node _ Hi a n Hn) as [? ? ? Hd ? ? [d Hdep]].
  pose proof (hi_start _ (vi_heap _ Hi)).
  constructor; try done; [|exists d; by apply (grows_depth v)].
  destruct Hd as [? [?|(? & ? & Hz)]]; (split; [done|]); [by left|right].
  split_and!; [done|done|]. cbn [vmem with_heap]. rewrite (Hm a n Hn); [done|lia].
Qed.

Lemma fds_inv_nodes v v' fds :
  nodes v' = nodes v -> vheap v' = vheap v -> fds_inv v fds -> fds_inv v' fds.
Proof.
  intros Hn Hh [? Hok ? Hnd]. constructor; [done|by rewrite Hh|done|].
  intros i e c n He Hu Hw Hc. unfold node_at in Hc. rewrite Hn in Hc. by apply (Hnd i e c n).
Qed.

Lemma with_mem_vfs m k : vfs_of (with_mem m k) = with_heap (k_heap k) m (vfs_of k).
Proof. done. Qed.

(** A change of memory outside the heap. *)
Lemma set_mem_inv k m :
  kernel_inv k -> mem_ok m -> (forall x, h_start (k_heap k) <= x < h_current (k_heap k) -> m x = k_mem k x) ->
  kernel_inv (with_mem m k).
Proof.
  intros [Hc ? ? Hv Hf ? ? ? ?] Hok Hm. constructor; try done.
  - destruct Hc. by constructor.
  - rewrite with_mem_vfs. apply (vfs_set_mem (vfs_of k) m Hv). intros c n Hn Hd. apply Hm.
    destruct (no_data _ _ _ (vi_node _ Hv _ _ Hn)) as [? [[? ?]|(? & ? & _)]]; [done|].
    cbn [vheap vfs_of] in *. lia.
  - by apply (fds_inv_nodes (vfs_of k)).
Qed.

(** Writing to the memory of the running program. *)
Lemma user_store_ok k ptr len m :
  kernel_inv k -> ring3_active k = true -> is_u32 ptr -> is_u32 len ->
  validate_user_ptr k ptr len = true -> same_outside ptr (Z.max 1 len) (k_mem k) m -> mem_ok m ->
  call_ok k (with_mem m k).
Proof.
  intros Hi Hr Hp Hl Hv Hm Hok.
  destruct (validate_range k ptr len (ki_core _ Hi) Hr Hp Hl Hv) as (Hf & Hub & Hwhere & _).
  pose proof (ki_heap _ Hi). pose proof (ki_limit _ Hi). pose proof (hi_current _ (vi_heap _ (ki_vfs _ Hi))) as Hcur.
  cbn [vheap vfs_of] in Hcur. unfold USER_IMAGE_RESERVED_BASE in *.
  constructor; try done.
  - apply set_mem_inv; [done|done|]. intros x Hx. apply Hm. lia.
  - intros x. destruct (decide (ptr <= x < ptr + Z.max 1 len)) as [Hx|Hx].
    + right. left. by apply Hub.
    + left. by apply Hm.
  - constructor; [done|]. intros a n Hn. by exists n.
Qed.

(** A step of the file tree. *)
Lemma vfs_step_ok k v :
  kernel_inv k -> vfs_inv v -> grows (vfs_of k) v ->
  mem_step (k_heap k) (k_mem k) (vheap v) (vmem v) -> data_fresh (vfs_of k) v ->
  call_ok k (with_vfs v k).
Proof.
  intros [Hc ? ? Hv Hf Hcwd Hh Hlim Hok] Hi Hg Hst Hd. pose proof (ms_ext _ _ _ _ Hst) as [He1 He2 He3 He4].
  assert (vfs_of (with_vfs v k) = v) as Heq by (by destruct v).
  constructor; try done.
  - constructor; try done; rewrite ?Heq; try done.
    + destruct Hc. by constructor.
    + by apply (fds_step (vfs_of k)).
    + destruct Hcwd as [?|?]; [by left|right]. by apply (grows_dir (vfs_of k)).
    + cbn [k_heap with_vfs]. lia.
    + cbn [k_heap with_vfs]. lia.
    + by apply Hst.
  - intros x. destruct (decide (h_current (k_heap k) <= x < h_current (vheap v))) as [Hx|Hx].
    + by do 4 right.
    + left. by apply Hst.
  - by rewrite Heq.
Qed.

Lemma vfs_step_call k v : kernel_inv k -> vfs_step (vfs_of k) v -> call_ok k (with_vfs v k).
Proof. intros Hi [? ? ? ? ?]. by apply vfs_step_ok. Qed.

(** One call after another, when the first only touched the tree. *)
Lemma call_ok_trans k k1 k2 :
  c_procs (k_core k1) = c_procs (k_core k) -> k_ipc k1 = k_ipc k -> fd_table k1 = fd_table k ->
  call_ok k k1 -> call_ok k1 k2 -> call_ok k k2.
Proof.
  intros Hps Hq Hfd [_ Hm1 _ Hh1 Ht1 (Hr1 & Hp1 & Hcwd1)] [Hi2 Hm2 Hf2 Hh2 Ht2 (Hr2 & Hp2 & Hcwd2)].
  assert (k_pid k1 = k_pid k) as Hpid by (unfold k_pid; by rewrite Hp1).
  pose proof (he_current _ _ Hh1). pose proof (he_current _ _ Hh2).
  constructor; [done| | |by etransitivity|by eapply grows_trans|split_and!; congruence].
  - intros x. destruct (Hm2 x) as [Hx|[Hx|[Hx|[Hx|Hx]]]].
    + rewrite Hx. destruct (Hm1 x) as [?|[?|[?|[?|?]]]]; auto. do 4 right. lia.
    + right. left. unfold user_byte in *. by rewrite Hps, Hpid in Hx.
    + do 2 right. left. unfold buf_byte in *. by rewrite Hfd, Hpid in Hx.
    + do 3 right. left. unfold mail_byte in *. by rewrite Hps, Hq in Hx.
    + do 4 right. lia.
  - intros i e He Hu Hp. apply Hf2; [by rewrite Hfd|done|by rewrite Hpid].
Qed.

(** Changes that keep tree, heap, memory and open files. *)
Lemma quiet_ok k k' :
  kernel_inv k -> core_ok (k_core k') -> ipc_inv (k_ipc k') -> svc_inv (k_services k') ->
  vfs_of k' = vfs_of k -> fd_table k' = fd_table k -> ring3_active k' = ring3_active k ->
  ring3_current_pid k' = ring3_current_pid k -> user_cwd k' = user_cwd k -> call_ok k k'.
Proof.
  intros Hi Hc Hq Hs Hv Hf Hr Hp Hcwd.
  assert (k_heap k' = k_heap k) as Hh by (change (vheap (vfs_of k') = vheap (vfs_of k)); by rewrite Hv).
  assert (k_mem k' = k_mem k) as Hm by (change (vmem (vfs_of k') = vmem (vfs_of k)); by rewrite Hv).
  destruct Hi. constructor; [constructor| | | | |]; rewrite ?Hv, ?Hf, ?Hr, ?Hp, ?Hcwd, ?Hh, ?Hm; try done.
  - intros x. by left.
  - apply grows_refl.
Qed.

(** The directory the calls start from. *)
Lemma cwd_or_root_dir k : kernel_inv k -> is_dir_node (vfs_of k) (cwd_or_root k).
Proof.
  intros Hi. unfold cwd_or_root. destruct (user_cwd k =? 0) eqn:E; [by apply root_dir, Hi|].
  zify_bool. by destruct (ki_cwd _ Hi).
Qed.

Lemma cwd_or_root_node k : kernel_inv k -> is_Some (node_at (vfs_of k) (cwd_or_root k)).
Proof. intros Hi. destruct (cwd_or_root_dir k Hi) as (n & ? & _). by exists n. Qed.

(** ** Open files *)

Lemma fd_lookup_spec fds fd pid slot :
  fd_lookup fds fd pid = Some slot ->
  (slot < FD_MAX)%nat /\ exists e, fds !! slot = Some e /\ fd_used e = true /\ fd_pid e = pid.
Proof.
  unfold fd_lookup. destruct (_ || _) eqn:E0; [done|]. zify_bool.
  destruct (fds !! Z.to_nat fd) as [e|] eqn:Ee; cbn; [|done].
  destruct (_ || _) eqn:E1; [done|]. zify_bool. intros [= <-]. unfold FD_MAX in *.
  split; [lia|]. by exists e.
Qed.

Lemma fd_alloc_spec fds slot :
  fd_alloc_slot fds = Some slot -> exists e, fds !! slot = Some e /\ fd_used e = false.
Proof.
  unfold fd_alloc_slot. intros (i & Hi & ->)%fmap_Some. apply first_slot_lookup in Hi as (e & He & Hu).
  exists e. cbn beta. rewrite lookup_drop in He. split; [exact He|by apply negb_true_iff].
Qed.

(** A free entry is found. *)
Lemma fd_alloc_free fds i e :
  (3 <= i)%nat -> fds !! i = Some e -> fd_used e = false -> is_Some (fd_alloc_slot fds).
Proof.
  intros Hi He Hu. unfold fd_alloc_slot. apply fmap_is_Some.
  destruct (first_slot _ (drop 3 fds)) eqn:Ef; [by eexists|]. exfalso.
  pose proof (proj1 (first_slot_None _ _) Ef) as Hno.
  specialize (Hno (i - 3)%nat e). rewrite lookup_drop in Hno.
  replace (3 + (i - 3))%nat with i in Hno by lia. specialize (Hno He). by rewrite Hu in Hno.
Qed.

(** The running program may change its own entries and free ones. *)
Definition own_slot k (slot : nat) : Prop :=
  exists e, fd_table k !! slot = Some e /\ (fd_used e = false \/ fd_pid e = k_pid k).

Lemma own_slot_other k slot e' i e :
  own_slot k slot -> fd_table k !! i = Some e -> fd_used e = true -> fd_pid e <> k_pid k ->
  <[slot := e']> (fd_table k) !! i = Some e.
Proof.
  intros (e0 & He0 & Hor) He Hu Hp. rewrite list_lookup_insert_ne; [done|].
  intros ->. simplify_eq. destruct Hor; congruence.
Qed.

(** A change of one entry. *)
Lemma fd_put_ok k slot e :
  kernel_inv k -> own_slot k slot -> fds_inv (vfs_of k) (<[slot := e]> (fd_table k)) ->
  call_ok k (with_fds (<[slot := e]> (fd_table k)) k).
Proof.
  intros Hi Hown Hf. destruct Hi. constructor; try done.
  - by constructor.
  - intros i e0 H0 Hu Hp. by apply own_slot_other.
  - apply grows_refl.
Qed.

(** A change of an entry that writes its buffer, which may be new. *)
Lemma fd_store_ok k slot e h m m2 e2 :
  kernel_inv k -> fd_table k !! slot = Some e -> fd_used e = false \/ fd_pid e = k_pid k ->
  heap_inv h -> mem_step (k_heap k) (k_mem k) h m -> mem_ok m2 ->
  same_outside (write_buf e2) (write_capacity e2) m m2 ->
  fd_ok h e2 -> fd_used e2 = true -> writable e2 = true ->
  (fd_used e = true /\ writable e = true /\ write_buf e2 = write_buf e /\ write_capacity e2 = write_capacity e) \/
    h_current (k_heap k) <= write_buf e2 ->
  call_ok k (with_fds (<[slot := e2]> (fd_table k)) (with_heap_mem h m2 k)).
Proof.
  intros Hi He Hown Hh Hst Hok2 Hso Hok Hu Hw Hblk. pose proof (ki_vfs _ Hi) as Hv.
  destruct (with_heap_inv (vfs_of k) h m Hv Hh Hst) as [Hv1 Hg1].
  pose proof (ms_ext _ _ _ _ Hst) as Hext. pose proof (he_current _ _ Hext).
  destruct (fo_write _ _ Hok Hu Hw) as ([Hb1 Hb2] & Hsz & _).
  set (v1 := with_heap h m (vfs_of k)) in *. set (v2 := with_heap h m2 (vfs_of k)).
  assert (forall c n, node_at v1 c = Some n -> data n <> 0 ->
            apart (write_buf e2) (write_capacity e2) (data n) (size_ n + 1)) as Hnodes.
  { intros c n Hc Hd. destruct Hblk as [(Hue & Hwe & -> & ->)|Hnew].
    - by apply (fi_nodes _ _ (ki_fds _ Hi) slot e c n).
    - right. destruct (no_data _ _ _ (vi_node _ Hv c n Hc)) as [? [[? ?]|(? & ? & _)]]; [done|].
      cbn [vheap vfs_of] in *. lia. }
  assert (vfs_inv v2) as Hv2.
  { apply (vfs_set_mem v1 m2 Hv1). intros c n Hc Hd. apply Hso.
    destruct (no_data _ _ _ (vi_node _ Hv1 c n Hc)) as [? _]. destruct (Hnodes c n Hc Hd); lia. }
  assert (fds_inv v2 (fd_table k)) as Hf1.
  { apply (fds_step (vfs_of k)); [apply Hi|done|done|by apply data_fresh_refl]. }
  assert (fds_inv v2 (<[slot := e2]> (fd_table k))) as Hf2.
  { destruct Hblk as [(Hue & Hwe & Hbe & Hce)|Hnew].
    - apply (fds_same_block _ _ _ e); try done; [|congruence].
      unfold fd_block. by rewrite Hw, Hwe, Hbe, Hce.
    - apply (fds_fresh (vfs_of k)); try done; [apply Hi|]. unfold fd_block. by rewrite Hw. }
  destruct Hi as [Hc ? ? _ _ Hcwd Hks Hkl Hkm].
  assert (vfs_of (with_fds (<[slot := e2]> (fd_table k)) (with_heap_mem h m2 k)) = v2) as Heq by done.
  constructor; try done.
  - constructor; rewrite ?Heq; try done; cbn [k_heap with_fds with_heap_mem with_vfs v2 vheap with_heap].
    + destruct Hc. by constructor.
    + rewrite (he_start _ _ Hext). done.
    + rewrite (he_limit _ _ Hext). done.
  - intros x. cbn [k_heap with_fds with_heap_mem with_vfs vheap with_heap].
    change (k_mem (with_fds _ _) x) with (m2 x).
    destruct (decide (write_buf e2 <= x < write_buf e2 + write_capacity e2)) as [Hx|Hx].
    + destruct Hblk as [(Hue & Hwe & Hbe & Hce)|Hnew]; [|do 4 right; lia].
      do 2 right. left. exists slot, e. destruct Hown; [congruence|]. rewrite <- Hbe, <- Hce. done.
    + rewrite Hso by done. destruct (decide (h_current (k_heap k) <= x < h_current h)).
      * by do 4 right.
      * left. by apply Hst.
  - intros i e0 He0 Hu0 Hp0. apply own_slot_other; [by exists e|done..].
  - rewrite Heq. destruct Hg1. by constructor.
Qed.

(** ** Reading *)

(** A block of the heap does not meet the memory of programs. *)
Lemma heap_user_apart k h ptr len a n :
  kernel_inv k -> ring3_active k = true -> is_u32 ptr -> is_u32 len ->
  validate_user_ptr k ptr len = true -> heap_inv h -> heap_ext (k_heap k) h -> block_in h a n ->
  0 <= n -> apart a n ptr (Z.max 1 len) /\ fits a n.
Proof.
  intros Hi Hr Hp Hl Hv Hh Hx [? ?] Hn.
  destruct (validate_range k ptr len (ki_core _ Hi) Hr Hp Hl Hv) as ([? ?] & _ & Hwhere & _).
  pose proof (ki_heap _ Hi). pose proof (ki_limit _ Hi).
  pose proof (he_limit _ _ Hx). pose proof (he_start _ _ Hx).
  pose proof (hi_start _ Hh). pose proof (hi_current _ Hh). pose proof (hi_limit _ Hh).
  unfold apart, fits, USER_IMAGE_RESERVED_BASE in *. lia.
Qed.

Lemma max1_u32 n : is_u32 n -> Z.max 1 (if n =? 0 then 1 else n) = Z.max 1 n.
Proof. unfold is_u32. split_if; lia. Qed.

Lemma max1_is_u32 n : is_u32 n -> is_u32 (if n =? 0 then 1 else n).
Proof. unfold is_u32. split_if; lia. Qed.

(** The characters of the keyboard stay in the buffer. *)
Lemma read_keys_spec n keys m buf i keys' m' j :
  0 <= buf -> 0 <= i -> buf + i + Z.of_nat n <= 4294967296 -> i + Z.of_nat n < 4294967296 ->
  read_keys n keys m buf i = Some (keys', m', j) ->
  i <= j <= i + Z.of_nat n /\ (mem_ok m -> mem_ok m') /\
  (forall x, ~ buf + i <= x < buf + j -> m' x = m x) /\
  exists got, keys = got ++ keys' /\ Z.of_nat (length got) = j - i /\
    load_bytes m' (buf + i) (Z.to_nat (j - i)) = map u8 got /\
    (10 ∈ removelast got -> False).
Proof.
  intros Hb. revert keys m i. induction n as [|n IH]; intros keys m i Hi Hf Hn; cbn [read_keys].
  { intros [= <- <- <-]. split_and!; [lia|lia|done|done|]. exists []. rewrite Z.sub_diag.
    split_and!; [done|done|done|]. cbn. by intros ?%elem_of_nil. }
  destruct keys as [|c keys]; [done|]. rewrite (u32_small (buf + i)), (u32_small (i + 1)) by lia.
  assert (forall x, x <> buf + i -> store m (buf + i) c x = m x) as Hst.
  { intros x Hx. unfold store. rewrite u32_small by lia. by rewrite (proj2 (Z.eqb_neq _ _)). }
  assert (store m (buf + i) c (buf + i) = u8 c) as Hat.
  { unfold store. by rewrite u32_small, Z.eqb_refl by lia. }
  destruct (c =? 10) eqn:Ec.
  { intros [= <- <- <-]. split_and!; [lia|lia|apply store_ok|intros x Hx; apply Hst; lia|].
    exists [c]. replace (i + 1 - i) with 1 by lia. split_and!; [done|done| |cbn; by intros ?%elem_of_nil].
    change (Z.to_nat 1) with 1%nat. cbn [load_bytes]. unfold load. rewrite u32_small by lia. by rewrite Hat. }
  intros Hk. destruct (IH _ _ (i + 1) ltac:(lia) ltac:(lia) ltac:(lia) Hk) as (Hj & Hok & Hout & got & Hgot & Hlen & Hl & Hno).
  split_and!; [lia|lia|intros ?; by apply Hok, store_ok|intros x Hx; rewrite Hout by lia; apply Hst; lia|].
  exists (c :: got). split_and!; [by rewrite Hgot|cbn; lia| |].
  - replace (Z.to_nat (j - i)) with (S (Z.to_nat (j - (i + 1)))) by lia. cbn [load_bytes map].
    f_equal; [|rewrite <- Hl; f_equal; lia]. unfold load. rewrite u32_small by lia.
    rewrite Hout by lia. exact Hat.
  - destruct got as [|g got]; [cbn; by intros ?%elem_of_nil|].
    change (removelast (c :: g :: got)) with (c :: removelast (g :: got)).
    intros [? | ?]%elem_of_cons; [by zify_bool|by apply Hno].
Qed.

(** The bytes a read of an open file gives, and where they come from. *)
Definition fd_source (e : fd_entry) : Z * Z :=
  if negb (write_buf e =? 0) then (write_buf e, write_size e) else (fd_data e, fd_size e).

Lemma fd_source_size h e :
  heap_inv h -> fd_ok h e -> fd_used e = true ->
  snd (fd_source e) = fd_size e /\ fst (fd_source e) = fd_data e /\ 0 <= fd_offset e <= fd_size e /\
  (0 < fd_size e -> block_in h (fd_data e) (fd_size e + 1)).
Proof.
  intros Hi He Hu. unfold fd_source. pose proof (fo_offset _ _ He Hu). pose proof (hi_start _ Hi).
  destruct (writable e) eqn:Hw.
  - destruct (fo_write _ _ He Hu Hw) as ([? ?] & ? & -> & Hs). rewrite Hs in *.
    rewrite (proj2 (Z.eqb_neq _ 0)) by lia. cbn. split_and!; try done; [lia..|]. intros _. split; lia.
  - destruct (fo_read _ _ He Hu Hw) as (-> & _ & Hd). cbn. split_and!; try done; [lia..|].
    intros ?. destruct Hd as [?|?]; [lia|done].
Qed.

Lemma set_offset_ok h e o : fd_ok h e -> 0 <= o <= fd_size e -> fd_ok h (set_offset o e).
Proof. intros [? ? ? ?] Ho. by constructor. Qed.

Lemma read_call k fd buf len k' r :
  kernel_inv k -> ring3_active k = true -> is_u32 buf -> is_u32 len ->
  ksys_read k fd buf len = Some (k', r) -> call_ok k k'.
Proof.
  intros Hi Hr Hb Hl. unfold ksys_read.
  pose proof (max1_is_u32 len Hl) as Hl1. pose proof (max1_u32 len Hl) as Hmax.
  set (vlen := if len =? 0 then 1 else len) in *.
  pose proof (call_ok_refl k Hi) as Hrefl.
  destruct (fd =? 0).
  - destruct (buf =? 0); cbn [orb]; [by intros [= <- <-]|].
    destruct (validate_user_ptr k buf vlen) eqn:Hv; cbn [negb]; [|by intros [= <- <-]].
    destruct (validate_range k buf vlen (ki_core _ Hi) Hr Hb Hl1 Hv) as ([Hf1 Hf2] & _ & _ & _).
    destruct (read_keys _ _ _ _ _) as [[[keys m] n]|] eqn:Ek; cbn [mbind option_bind]; [|done].
    intros [= <- <-]. unfold is_u32 in *.
    destruct (read_keys_spec (Z.to_nat len) (k_keys k) (k_mem k) buf 0 keys m n Hf1 ltac:(lia) ltac:(lia) ltac:(lia) Ek) as (Hn & Hok & Hout & _).
    assert (call_ok k (with_mem m k)) as Hc.
    { apply (user_store_ok k buf vlen); try done; [|apply Hok, Hi].
      intros x Hx. apply Hout. lia. }
    destruct Hc as [[] ? ? ? ? ?]. by constructor.
  - destruct (validate_user_ptr k buf vlen) eqn:Hv; cbn [negb]; [|by intros [= <- <-]].
    destruct (fd_lookup _ _ _) as [slot|] eqn:El; [|by intros [= <- <-]].
    destruct (fd_lookup_spec _ _ _ _ El) as (Hslot & e & He & Hu & Hpid). rewrite He.
    destruct (readable e); cbn [negb]; [|by intros [= <- <-]]. fold (fd_source e).
    pose proof (Forall_lookup_1 _ _ _ _ (fi_ok _ _ (ki_fds _ Hi)) He) as Hok.
    destruct (fd_source_size _ e (vi_heap _ (ki_vfs _ Hi)) Hok Hu) as (Hsz & Hsrc & Ho & Hblk).
    destruct (fd_source e) as [src size]. cbn [fst snd] in Hsz, Hsrc. subst src size.
    destruct (fd_size e <=? fd_offset e) eqn:Ele; zify_bool; [by intros [= <- <-]|].
    intros [= <- <-]. set (n := Z.min len (fd_size e - fd_offset e)).
    destruct (validate_range k buf vlen (ki_core _ Hi) Hr Hb Hl1 Hv) as (Hf & _ & _ & _).
    destruct (heap_user_apart k (k_heap k) buf vlen (fd_data e) (fd_size e + 1)) as [Hap [Hf1 Hf2]];
      try done; [apply (vi_heap _ (ki_vfs _ Hi))|apply Hblk; lia|lia|].
    rewrite Hmax in *. unfold apart, fits, is_u32 in *.
    set (m := copy_loop _ _ _ _).
    assert (call_ok k (with_mem m k)) as Hc.
    { apply (user_store_ok k buf vlen); try done; [|by apply copy_loop_ok, Hi].
      intros x Hx. apply copy_loop_out; [split; lia|split; lia|lia|lia]. }
    apply (call_ok_trans k (with_mem m k)); try done.
    apply (fd_put_ok (with_mem m k) slot (set_offset (fd_offset e + n) e)); [by apply Hc| |].
    + exists e. split; [done|by right].
    + apply (fds_same_block _ _ _ e); try done; [apply Hc|]. apply set_offset_ok; [done|lia].
Qed.

(** ** Writing *)

Lemma with_fds_order fds h m k : with_fds fds (with_heap_mem h m k) = with_heap_mem h m (with_fds fds k).
Proof. done. Qed.

Lemma print_call k t text : kernel_inv k -> call_ok k (print t text k).
Proof. intros Hi. by apply quiet_ok; try done; destruct Hi. Qed.

(** The bytes of an open file. *)
Definition fd_bytes k (e : fd_entry) : list Z := load_bytes (k_mem k) (fd_data e) (Z.to_nat (fd_size e)).

(** A write to an open file: [bs] went into the file of entry [e], which is now [e2]. *)
Record write_effect k (slot : nat) (e : fd_entry) (bs : list Z) k' (e2 : fd_entry) : Prop := {
  we_call : call_ok k k';
  we_fds : fd_table k' = <[slot := e2]> (fd_table k);
  we_entry : fd_used e2 = true /\ fd_pid e2 = fd_pid e /\ readable e2 = readable e /\
             writable e2 = true /\ fd_path e2 = fd_path e /\ dirty e2 = true;
  we_size : fd_size e2 = Z.max (fd_size e) (fd_offset e + Z.of_nat (length bs)) /\
            fd_offset e2 = fd_offset e + Z.of_nat (length bs);
  we_bytes : fd_bytes k' e2 = splice (Z.to_nat (fd_offset e)) bs (fd_bytes k e);
  we_mem : forall x, k_mem k' x = k_mem k x \/
             write_buf e <= x < write_buf e + write_capacity e \/
             h_current (k_heap k) <= x < h_limit (k_heap k);
  we_nodes : k_nodes k' = k_nodes k
}.

(** [fd_append] after [fd_ensure_write_capacity]. *)
Lemma append_effect k slot e buf len h m e1 m2 e2 :
  kernel_inv k -> fd_table k !! slot = Some e -> fd_used e = true -> fd_pid e = k_pid k ->
  writable e = true -> 0 <= len -> fits buf len -> apart (h_start (k_heap k)) (h_limit (k_heap k) - h_start (k_heap k)) buf len ->
  fd_offset e + len + 1 < 4294967296 ->
  fd_ensure_write_capacity (k_heap k) (k_mem k) e (fd_offset e + len + 1) = Some (h, m, e1) ->
  fd_append m e1 buf len = (m2, e2) ->
  write_effect k slot e (load_bytes (k_mem k) buf (Z.to_nat len))
    (with_fds (<[slot := e2]> (fd_table k)) (with_heap_mem h m2 k)) e2.
Proof.
  intros Hi He Hu Hpid Hw Hlen Hf Hap Hwr Ee Ea.
  pose proof (vi_heap _ (ki_vfs _ Hi)) as Hh0. cbn [vheap vfs_of] in Hh0.
  pose proof (Forall_lookup_1 _ _ _ _ (fi_ok _ _ (ki_fds _ Hi)) He) as Hok.
  pose proof (fo_offset _ _ Hok Hu) as Ho.
  destruct (fo_write _ _ Hok Hu Hw) as ([Hbl1 Hbl2] & Hws & Hd & Hsz). cbn [vheap vfs_of] in Hbl1, Hbl2.
  pose proof (hi_current _ Hh0). pose proof (hi_start _ Hh0). pose proof (hi_limit _ Hh0).
  destruct (ensure_spec (k_heap k) (k_mem k) e (fd_offset e + len + 1) h m e1 Hh0 (ki_mem _ Hi) ltac:(unfold is_u32; lia)
              (or_intror (conj (conj Hbl1 Hbl2) Hws)) Ee) as (Hh1 & Hst & Hcap & He1 & Hws1 & Hcase).
  pose proof (ms_ext _ _ _ _ Hst) as Hx. pose proof (he_start _ _ Hx). pose proof (he_limit _ _ Hx).
  pose proof (he_current _ _ Hx). pose proof (hi_current _ Hh1).
  assert (block_in h (write_buf e1) (write_capacity e1)) as Hblk
    by (destruct Hcase as [(-> & -> & _)|(? & ? & _)]; split; lia).
  assert (fd_offset e1 = fd_offset e /\ write_size e1 = write_size e /\ fd_used e1 = fd_used e /\
          writable e1 = writable e /\ fd_path e1 = fd_path e /\ fd_pid e1 = fd_pid e /\
          readable e1 = readable e) as (Ho1 & Hw1 & Hu1 & Hwr1 & Hp1 & Hpid1 & Hr1)
    by (rewrite He1; by split_and!).
  destruct (append_spec h m e1 buf len m2 e2 Hh1) as (Hso & Hmok & -> & Hat & _); try done;
    [by apply Hst, Hi|lia|lia|lia|destruct Hblk; unfold apart in *; lia|].
  assert (load_bytes m (write_buf e1) (length (fd_bytes k e)) = fd_bytes k e) as Hold.
  { unfold fd_bytes. rewrite load_bytes_length, Hd, Hsz.
    destruct Hcase as [(-> & _ & ->)|(_ & _ & Hl)]; [done|exact Hl]. }
  assert (load_bytes m buf (Z.to_nat len) = load_bytes (k_mem k) buf (Z.to_nat len)) as Hsrc.
  { apply load_bytes_ext; [destruct Hf; split; lia|]. intros x Hxr. apply Hst. unfold apart in *. lia. }
  split.
  - apply (fd_store_ok k slot e h m m2); try done; try (by right);
      cbn [fd_path fd_used fd_offset fd_size writable write_buf write_size write_capacity fd_data].
    + constructor; cbn [fd_path fd_used fd_offset fd_size writable write_buf write_size write_capacity fd_data];
        rewrite ?Hp1, ?Hwr1, ?Hw; try done; [by apply Hok|lia|].
      intros _ _. split_and!; try done; try lia; apply Hblk.
    + by rewrite Hu1.
    + by rewrite Hwr1.
    + destruct Hcase as [(-> & _)|(? & _)]; [by left|right; lia].
  - done.
  - cbn. rewrite Hu1, Hwr1. by split_and!.
  - cbn [fd_size fd_offset]. rewrite load_bytes_length, Hw1, Ho1. lia.
  - rewrite <- Hsrc, <- Ho1. unfold fd_bytes at 1. cbn [fd_data fd_size].
    assert (Z.of_nat (length (fd_bytes k e)) = write_size e) as Hlb
      by (unfold fd_bytes; rewrite load_bytes_length; lia).
    apply (bytes_splice m);
      [lia|done|destruct Hblk; split; lia|done|by apply Hst, Hi|by rewrite Hlb, Hw1|done|done].
  - intros x. change (k_mem (with_fds _ _) x) with (m2 x).
    destruct Hcase as [(-> & -> & ->)|(? & ? & _)].
    + destruct (decide (write_buf e <= x < write_buf e + write_capacity e)); [auto|]. left. by apply Hso.
    + destruct (decide (h_current (k_heap k) <= x < h_limit (k_heap k))); [auto|]. left.
      rewrite Hso by lia. apply Hst. lia.
  - done.
Qed.

(** The check of the buffer, and what it means for the heap. *)
Lemma user_buffer k buf len :
  kernel_inv k -> ring3_active k = true -> is_u32 buf -> is_u32 len ->
  validate_user_ptr k buf (if len =? 0 then 1 else len) = true ->
  fits buf len /\ len <= ELF_USER_IMAGE_MAX /\
  apart (h_start (k_heap k)) (h_limit (k_heap k) - h_start (k_heap k)) buf len.
Proof.
  intros Hi Hr Hb Hl Hv. pose proof (max1_u32 len Hl) as Hmax.
  destruct (validate_range _ _ _ (ki_core _ Hi) Hr Hb (max1_is_u32 len Hl) Hv) as ([Hf1 Hf2] & _ & Hwh & Hmx).
  pose proof (ki_heap _ Hi). pose proof (ki_limit _ Hi). rewrite Hmax in *.
  unfold fits, apart, is_u32 in *. lia.
Qed.

(** Writing to a file the program opened for writing. *)
Lemma write_open_spec k fd buf len slot e :
  kernel_inv k -> ring3_active k = true -> is_u32 buf -> is_u32 len -> buf <> 0 ->
  validate_user_ptr k buf (if len =? 0 then 1 else len) = true ->
  fd_lookup (fd_table k) fd (k_pid k) = Some slot -> fd_table k !! slot = Some e -> writable e = true ->
  ksys_write k fd buf len = (k, ERR_INVAL) \/
  exists k' e2, ksys_write k fd buf len = (k', len) /\
    write_effect k slot e (load_bytes (k_mem k) buf (Z.to_nat len)) k' e2.
Proof.
  intros Hi Hr Hb Hl Hbz Hv Hs He Hw. unfold ksys_write.
  destruct (user_buffer k buf len Hi Hr Hb Hl Hv) as (Hf & Hmx & Hap).
  rewrite (proj2 (Z.eqb_neq buf 0)), Hv, Hs, He, Hw by done. cbn [negb].
  destruct (fd_lookup_spec _ _ _ _ Hs) as (Hslot & e' & He' & Hu & Hpid). rewrite He in He'. injection He' as <-.
  assert ((fd =? 1) || (fd =? 2) = false) as ->.
  { unfold fd_lookup in Hs. destruct (_ || _) eqn:E in Hs; [done|]. zify_bool. lia. }
  pose proof (vi_heap _ (ki_vfs _ Hi)) as Hh0. cbn [vheap vfs_of] in Hh0.
  pose proof (Forall_lookup_1 _ _ _ _ (fi_ok _ _ (ki_fds _ Hi)) He) as Hok.
  pose proof (fo_offset _ _ Hok Hu) as Ho.
  destruct (fo_write _ _ Hok Hu Hw) as ([Hbl1 Hbl2] & Hws & Hd & Hsz). cbn [vheap vfs_of] in Hbl1, Hbl2.
  pose proof (ki_limit _ Hi). pose proof (hi_current _ Hh0). pose proof (hi_start _ Hh0).
  unfold is_u32, ELF_USER_IMAGE_MAX, USER_IMAGE_RESERVED_BASE in *.
  rewrite (u32_small (fd_offset e + len)), u32_small by lia.
  destruct (_ <? fd_offset e) eqn:Ewr; [by left|].
  destruct (fd_ensure_write_capacity _ _ _ _) as [[[h m] e1]|] eqn:Ee; [right|by left].
  destruct (fd_append m e1 buf len) as [m2 e2] eqn:Ea. rewrite s32_small by (unfold INT_MAX; lia).
  eexists _, e2. split; [done|]. apply (append_effect k slot e buf len h m e1 m2 e2); try done; lia.
Qed.

Lemma write_call k fd buf len :
  kernel_inv k -> ring3_active k = true -> is_u32 buf -> is_u32 len ->
  call_ok k (fst (ksys_write k fd buf len)).
Proof.
  intros Hi Hr Hb Hl. pose proof (call_ok_refl k Hi) as Hrefl.
  destruct (decide (buf = 0)) as [-> |Hbz]; [done|].
  destruct (validate_user_ptr k buf (if len =? 0 then 1 else len)) eqn:Hv.
  2:{ unfold ksys_write. by rewrite (proj2 (Z.eqb_neq buf 0)), Hv by done. }
  destruct (fd_lookup (fd_table k) fd (k_pid k)) as [slot|] eqn:El.
  - destruct (fd_lookup_spec _ _ _ _ El) as (_ & e & He & _).
    destruct (writable e) eqn:Hw.
    + destruct (write_open_spec k fd buf len slot e) as [-> |(k' & e2 & -> & Heff)]; try done. apply Heff.
    + unfold ksys_write. rewrite (proj2 (Z.eqb_neq buf 0)), Hv, El, He, Hw by done. cbn [negb].
      destruct (_ || _); [by apply print_call|done].
  - unfold ksys_write. rewrite (proj2 (Z.eqb_neq buf 0)), Hv, El by done. cbn [negb].
    destruct (_ || _); [by apply print_call|done].
Qed.

(** ** Opening and closing *)

Lemma vfs_of_with v k : vfs_of (with_vfs v k) = v.
Proof. by destruct v. Qed.

Lemma fd_reset_ok h e : length (fd_path e) = 128%nat -> fd_ok h (fd_reset e).
Proof. intros Hl. constructor; try done. cbn. by destruct (fd_path e). Qed.

Context `{MountFsLaws}.

(** The block of a file that was read: a node's, or one made for the copy. *)
Lemma read_file_block v cwd path v' d size :
  vfs_inv v -> vfs_read_file v cwd path = (v', Some (d, size)) ->
  0 <= size /\ (d = 0 /\ size = 0 \/ block_in (vheap v') d (size + 1)) /\
  ((exists c n, node_at v' c = Some n /\ data n = d /\ size_ n = size) \/ h_current (vheap v) <= d).
Proof using All.
  intros Hi. unfold vfs_read_file.
  assert (forall s h m, fs_read (vheap v) (vmem v) CDROM_MOUNT s = (h, m, Some (d, size)) ->
    0 <= size /\ (d = 0 /\ size = 0 \/ block_in h d (size + 1)) /\
    ((exists c n, node_at (with_heap h m v) c = Some n /\ data n = d /\ size_ n = size) \/
     h_current (vheap v) <= d)) as Hfs.
  { intros s h m Hr. destruct (fs_read_ok _ _ _ _ _ _ _ (vi_heap _ Hi) Hr) as (Hh & Hst & Hd).
    destruct (Hd _ _ eq_refl) as (? & ? & ? & _). heap_facts.
    pose proof (hi_current _ (vi_heap _ Hi)).
    split; [done|]. split; [|by right]. right. split; lia. }
  destruct (vfs_is_cdrom_mount_path _) as [s|]; [|destruct (vfs_is_bin_alias_path _) as [s|]].
  1, 2: destruct (fs_read _ _ _ s) as [[h m] r'] eqn:E; intros [= <- ->]; by apply (Hfs s).
  set (c := vfs_resolve_from v cwd path).
  destruct (node_at v c) as [n|] eqn:En; [|done]. destruct (_ || _); [done|]. intros [= <- <- <-].
  destruct (no_data _ _ _ (vi_node _ Hi _ _ En)) as [? Hd].
  split; [done|]. split; [|left; by exists c, n].
  destruct Hd as [?|(? & ? & _)]; [by left|right]. split; lia.
Qed.

(** Where no write buffer is. *)
Lemma read_block_clear k v d size slot :
  kernel_inv k -> vfs_inv v -> fds_inv v (fd_table k) -> heap_ext (k_heap k) (vheap v) ->
  0 <= size -> (d = 0 /\ size = 0 \/ block_in (vheap v) d (size + 1)) ->
  ((exists c n, node_at v c = Some n /\ data n = d /\ size_ n = size) \/ h_current (k_heap k) <= d) ->
  clear_of (fd_table k) slot d (size + 1).
Proof using.
  intros Hi Hv Hf Hx Hs Hb Hor j e Hj He Hu Hw.
  destruct (fo_write _ _ (Forall_lookup_1 _ _ _ _ (fi_ok _ _ (ki_fds _ Hi)) He) Hu Hw) as ([? ?] & ? & _).
  cbn [vheap vfs_of] in *. destruct Hor as [(c & n & Hn & <- & <-)|Hge].
  - by apply (fi_nodes _ _ Hf j e c n).
  - left. lia.
Qed.

Lemma fd_open_path e pid rd wr d size flags path :
  length (fd_path e) = 128%nat -> length (fd_path (fd_open e pid rd wr d size flags path)) = 128%nat.
Proof using.
  intros Hl. assert (length (fd_path (fd_reset e)) = 128%nat) as Hr by (cbn; by destruct (fd_path e)).
  cbn [fd_path fd_open]. rewrite str_copy_length; rewrite Hr; lia.
Qed.

(** The offset a file is opened at. *)
Lemma fd_open_offset e pid rd wr d size flags path :
  0 <= size -> 0 <= fd_offset (fd_open e pid rd wr d size flags path) <= size.
Proof using. intros ?. cbn. split_if; lia. Qed.

(** An opened file that has no write buffer yet. *)
Lemma open_read_call k2 slot e0 wr rd d size flags path :
  kernel_inv k2 -> fd_table k2 !! slot = Some e0 -> fd_used e0 = false -> wr = false -> 0 <= size ->
  (d = 0 /\ size = 0 \/ block_in (k_heap k2) d (size + 1)) ->
  clear_of (fd_table k2) slot d (size + 1) ->
  call_ok k2 (with_fds (<[slot := fd_open e0 (k_pid k2) rd wr d size flags path]> (fd_table k2)) k2).
Proof using.
  intros Hi He Hu -> Hs Hb Hcl. pose proof (ki_fds _ Hi) as Hf.
  apply fd_put_ok; [done|exists e0; split; [done|by left]|].
  apply fds_put; [done| |intros _; exact Hcl|done].
  constructor; [apply fd_open_path, (Forall_lookup_1 _ _ _ _ (fi_ok _ _ Hf) He)|intros _; by apply fd_open_offset|done|].
  intros _ _. by split_and!.
Qed.

(** The buffer of a file opened for writing. *)
Lemma open_write_call k2 slot e0 rd d size flags path trunc h m e1 m2 e2 :
  let isize := if trunc : bool then 0 else size in
  kernel_inv k2 -> fd_table k2 !! slot = Some e0 -> fd_used e0 = false -> 0 <= size ->
  (d = 0 /\ size = 0 \/ block_in (k_heap k2) d (size + 1)) ->
  fd_ensure_write_capacity (k_heap k2) (k_mem k2) (fd_open e0 (k_pid k2) rd true d size flags path)
    (isize +u 1) = Some (h, m, e1) ->
  fd_fill m e1 d isize trunc = (m2, e2) ->
  call_ok k2 (with_fds (<[slot := e2]> (fd_table k2)) (with_heap_mem h m2 k2)) /\
  (fd_used e2 = true /\ fd_pid e2 = k_pid k2 /\ readable e2 = rd /\ writable e2 = true /\
   fd_size e2 = isize /\
   (fd_offset e2 = if trunc then 0 else if negb (Z.land flags O_APPEND =? 0) then size else 0) /\
   dirty e2 = trunc /\ fd_path e2 = str_copy (fd_path (fd_reset e0)) path 128) /\
  load_bytes m2 (fd_data e2) (Z.to_nat isize) = load_bytes (k_mem k2) d (Z.to_nat isize) /\
  (forall x, ~ h_current (k_heap k2) <= x < h_limit (k_heap k2) -> m2 x = k_mem k2 x).
Proof using.
  intros isize Hi He Hu Hs Hb Hen Hfill. set (e := fd_open _ _ _ _ _ _ _ _) in *.
  pose proof (fd_open_path e0 (k_pid k2) rd true d size flags path
    (fo_path _ _ (Forall_lookup_1 _ _ _ _ (fi_ok _ _ (ki_fds _ Hi)) He))) as Hpath.
  pose proof (fd_open_offset e0 (k_pid k2) rd true d size flags path Hs) as Hoff. fold e in Hpath, Hoff.
  pose proof (vi_heap _ (ki_vfs _ Hi)) as Hh0. cbn [vheap vfs_of] in Hh0.
  pose proof (ki_limit _ Hi). pose proof (hi_current _ Hh0). pose proof (hi_start _ Hh0).
  unfold USER_IMAGE_RESERVED_BASE in *.
  assert (0 <= isize <= size /\ size + 1 < 4294967296 /\ 0 <= d /\ d + size <= h_current (k_heap k2)) as (His & Hwr & Hd0 & Hdm).
  { unfold isize. destruct Hb as [[-> ->]|[? ?]]; destruct trunc; lia. }
  rewrite (u32_small (isize + 1)) in Hen by lia.
  destruct (ensure_spec (k_heap k2) (k_mem k2) e (isize + 1) h m e1 Hh0 (ki_mem _ Hi)
              ltac:(unfold is_u32; lia) ltac:(by left) Hen) as (Hh1 & Hst & Hcap & He1 & _ & Hcase).
  destruct Hcase as [(-> & _)|(Hnew & Hend & _)]; [change (write_capacity e) with 0 in Hcap; lia|].
  assert (block_in h (write_buf e1) (write_capacity e1)) as Hblk.
  { pose proof (ms_ext _ _ _ _ Hst) as Hx. pose proof (he_start _ _ Hx). split; lia. }
  destruct (fill_spec h m e1 d isize trunc m2 e2 Hh1) as (Hso & Hmok & -> & Hl);
    [by apply Hst, Hi|done|lia|split; lia|right; lia|exact Hfill|].
  assert (fd_used e1 = true /\ writable e1 = true /\ fd_path e1 = fd_path e /\ fd_offset e1 = fd_offset e)
    as (Hu1 & Hw1 & Hp1 & Ho1) by (rewrite He1; by split_and!).
  split.
  - apply (fd_store_ok k2 slot e0 h m m2); try done; [by left| |by right].
    constructor; cbn [fd_path fd_used fd_offset fd_size writable write_buf write_size write_capacity fd_data];
      rewrite ?Hu1, ?Hw1, ?Hp1, ?Ho1; try done.
    + intros _. unfold isize in *. destruct trunc; lia.
    + intros _ _. split_and!; try done; lia.
  - split; [rewrite He1; cbn; split_and!; try done; by rewrite orb_false_r|]. split.
    + cbn [fd_data]. rewrite Hl. apply load_bytes_ext; [split; lia|]. intros x Hx. apply Hst. lia.
    + pose proof (hi_current _ Hh1). pose proof (he_limit _ _ (ms_ext _ _ _ _ Hst)).
      intros x Hx. rewrite Hso by lia. apply Hst. lia.
Qed.

(** A call whose first part is a step of the tree. *)
Lemma after_step k v k' :
  kernel_inv k -> vfs_step (vfs_of k) v ->
  (kernel_inv (with_vfs v k) -> call_ok (with_vfs v k) k') -> call_ok k k'.
Proof using.
  intros Hi Hs Hk. pose proof (vfs_step_call k v Hi Hs) as Hc.
  apply (call_ok_trans k (with_vfs v k)); try done. apply Hk, Hc.
Qed.

Lemma open_call k path flags : kernel_inv k -> call_ok k (fst (ksys_open k path flags)).
Proof using All.
  intros Hi. unfold ksys_open. pose proof (call_ok_refl k Hi) as Hrefl.
  set (rd := negb (Z.land flags O_ACCMODE =? O_WRONLY)).
  set (wr := _ || _). destruct (path =? 0); [done|].
  destruct (copy_user_cstr k path 128) as [kp|]; [|done].
  destruct (make_abs_path _ _ kp 128) as [fp|]; [|done].
  destruct (if negb (Z.land flags O_CREAT =? 0) then _ else _) as [v1 touched] eqn:Et.
  assert (vfs_step (vfs_of k) v1) as Hs1.
  { destruct (negb _) in Et; [|injection Et as <- _; apply vfs_step_refl, Hi].
    by apply (touch_spec _ _ _ _ _ (ki_vfs _ Hi) (cwd_or_root_node k Hi) Et). }
  destruct touched; cbn [negb]; [|by apply vfs_step_call].
  apply (after_step k v1); [done|done|]. intros Hi1. set (k1 := with_vfs v1 k) in *.
  destruct (vfs_read_file _ _ fp) as [v2 r] eqn:Er. cbv zeta.
  pose proof (read_file_step _ _ _ _ _ (ki_vfs _ Hi1) Er) as Hs2.
  destruct r as [[d size]|]; [|by apply vfs_step_call].
  destruct (read_file_block _ _ _ _ _ _ (ki_vfs _ Hi1) Er) as (Hsz & Hb & Hor).
  apply (after_step k1 v2); [done|done|]. intros Hi2. set (k2 := with_vfs v2 k1) in *.
  pose proof (call_ok_refl k2 Hi2) as Hrefl2.
  destruct (fd_alloc_slot (fd_table k2)) as [slot|] eqn:Ea; [|done].
  destruct (fd_alloc_spec _ _ Ea) as (e0 & He0 & Hu0). rewrite He0.
  change (vheap v2) with (k_heap k2) in Hb.
  assert (clear_of (fd_table k2) slot d (size + 1)) as Hcl.
  { apply (read_block_clear k1 v2); try done; [by apply Hs2| |apply Hs2].
    pose proof (ki_fds _ Hi2) as Hf. change (fd_table k2) with (fd_table k1) in Hf.
    unfold k2 in Hf. by rewrite vfs_of_with in Hf. }
  destruct wr eqn:Ewr; cbn [negb]; [|by apply open_read_call].
  set (trunc := negb (Z.land flags O_TRUNC =? 0)).
  destruct (fd_ensure_write_capacity _ _ _ _) as [[[h m] e1]|] eqn:Ee.
  - destruct (fd_fill m e1 d _ _) as [m2 e2] eqn:Ef. cbn [fst].
    by apply (open_write_call k2 slot e0 rd d size flags fp trunc h m e1 m2 e2).
  - cbn [fst]. pose proof (ki_fds _ Hi2) as Hf. apply fd_put_ok; [done|exists e0; split; [done|by left]|].
    apply fds_close; [done| |done].
    by apply fd_reset_ok, fd_open_path, (Forall_lookup_1 _ _ _ _ (fi_ok _ _ Hf) He0).
Qed.

Lemma close_call k fd : kernel_inv k -> call_ok k (fst (ksys_close k fd)).
Proof using All.
  intros Hi. unfold ksys_close. pose proof (call_ok_refl k Hi) as Hrefl.
  destruct (fd_lookup _ _ _) as [slot|] eqn:El; [|done].
  destruct (fd_lookup_spec _ _ _ _ El) as (Hslot & e & He & Hu & Hpid). rewrite He.
  destruct (if writable e && _ then _ else _) as [v b] eqn:Ew.
  pose proof (ki_vfs _ Hi) as Hv. pose proof (vi_heap _ Hv) as Hh. cbn [vheap vfs_of] in Hh.
  assert (call_ok k (with_vfs v k)) as Hc.
  { destruct (writable e && dirty e) eqn:Ewd in Ew; [|injection Ew as <- _; by apply vfs_step_call, vfs_step_refl].
    apply andb_true_iff in Ewd as [Hw _].
    destruct (fo_write _ _ (Forall_lookup_1 _ _ _ _ (fi_ok _ _ (ki_fds _ Hi)) He) Hu Hw) as ([? ?] & ? & _).
    cbn [vheap vfs_of] in *. pose proof (hi_current _ Hh). pose proof (hi_start _ Hh). pose proof (ki_limit _ Hi).
    unfold USER_IMAGE_RESERVED_BASE in *. rewrite (proj2 (Z.eqb_neq (write_buf e) 0)) in Ew by lia. cbn [negb] in Ew.
    assert (is_u32 (Z.of_nat (length (load_bytes (k_mem k) (write_buf e) (Z.to_nat (write_size e))))))
      as Hlen by (unfold is_u32; rewrite load_bytes_length; lia).
    destruct (write_file_spec _ _ _ _ _ _ Hv (cwd_or_root_node k Hi) Hlen
                (load_bytes_byte _ _ _ (ki_mem _ Hi)) Ew) as (? & ? & ? & ? & _).
    by apply vfs_step_ok. }
  destruct b; cbn [negb fst]; [|done].
  apply (call_ok_trans k (with_vfs v k)); try done.
  unfold fd_reset_slot. rewrite (proj2 (Nat.leb_gt _ _)) by done.
  rewrite (alter_known _ _ _ _ He).
  pose proof (ki_fds _ (co_inv _ _ Hc)) as Hf.
  apply (fd_put_ok (with_vfs v k)); [apply Hc|exists e; split; [done|by right]|].
  apply fds_close; [done| |done]. apply fd_reset_ok, (Forall_lookup_1 _ _ _ _ (fi_ok _ _ Hf) He).
Qed.

(** ** The calls that return a record to the program *)

Lemma user_bytes_ok k ptr len l :
  kernel_inv k -> ring3_active k = true -> is_u32 ptr -> is_u32 len ->
  validate_user_ptr k ptr len = true -> Z.of_nat (length l) <= Z.max 1 len ->
  call_ok k (with_mem (store_bytes (k_mem k) ptr l) k).
Proof using.
  intros Hi Hr Hp Hl Hv Hlen.
  destruct (validate_range k ptr len (ki_core _ Hi) Hr Hp Hl Hv) as ([? ?] & _).
  apply (user_store_ok k ptr len); try done.
  - intros x Hx. apply store_bytes_out; [split|]; lia.
  - apply store_bytes_ok, Hi.
Qed.

Lemma user_words_ok k ptr len ws :
  kernel_inv k -> ring3_active k = true -> is_u32 ptr -> is_u32 len ->
  validate_user_ptr k ptr len = true -> Z.of_nat (4 * length ws) <= Z.max 1 len ->
  call_ok k (with_mem (store_words (k_mem k) ptr ws) k).
Proof using.
  intros Hi Hr Hp Hl Hv Hlen. rewrite store_words_eq.
  apply (user_bytes_ok k ptr len); try done. by rewrite words_bytes_length.
Qed.

Lemma cstr_length s : (length (cstr s) <= length s)%nat.
Proof using. induction s as [|c s IH]; cbn; [lia|]. destruct (c =? 0); cbn; lia. Qed.

Lemma cwd_path_len v cwd : vfs_inv v -> str_len (vfs_get_cwd_path v cwd 128) <= 129.
Proof using.
  intros Hi. rewrite str_len_spec. pose proof (cstr_length (vfs_get_cwd_path v cwd 128)).
  destruct (decide (cwd = vfs_root_node v)) as [-> |Hne].
  - unfold vfs_get_cwd_path. rewrite Z.eqb_refl. by vm_compute.
  - pose proof (cwd_path_bound v cwd 128 Hi ltac:(lia) Hne) as Hb.
    change (if 128 =? 0 then 0 else 1) with 1 in Hb. lia.
Qed.

Lemma getcwd_call k buf len :
  kernel_inv k -> ring3_active k = true -> is_u32 buf -> is_u32 len ->
  call_ok k (fst (ksys_getcwd k buf len)).
Proof using.
  intros Hi Hr Hb Hl. unfold ksys_getcwd. pose proof (call_ok_refl k Hi) as Hrefl.
  destruct (_ || _); [done|]. destruct (validate_user_ptr k buf len) eqn:Hv; cbn [negb]; [|done].
  set (path := vfs_get_cwd_path _ _ _). cbv zeta.
  pose proof (cwd_path_len (vfs_of k) (cwd_or_root k) (ki_vfs _ Hi)) as Hn. fold path in Hn.
  rewrite u32_small by (rewrite str_len_spec in *; lia).
  destruct (len <? str_len path + 1) eqn:El; zify_bool; [done|]. cbn [fst].
  apply (user_bytes_ok k buf len); try done.
  rewrite length_app. cbn [length]. rewrite str_len_spec in El. lia.
Qed.

Lemma meminfo_call k info :
  kernel_inv k -> ring3_active k = true -> is_u32 info -> call_ok k (fst (ksys_meminfo k info)).
Proof using.
  intros Hi Hr Hb. unfold ksys_meminfo. pose proof (call_ok_refl k Hi) as Hrefl.
  destruct (info =? 0); cbn [orb]; [done|].
  destruct (validate_user_ptr k info 36) eqn:Hv; cbn [negb]; [|done].
  by apply (user_words_ok k info 36).
Qed.

Lemma fstat_call k fd st :
  kernel_inv k -> ring3_active k = true -> is_u32 st -> call_ok k (fst (ksys_fstat k fd st)).
Proof using.
  intros Hi Hr Hb. unfold ksys_fstat. pose proof (call_ok_refl k Hi) as Hrefl.
  destruct (st =? 0); [done|].
  destruct (validate_user_ptr k st 8) eqn:Hv; cbn [negb]; [|done].
  destruct (_ && _); [by apply (user_words_ok k st 8)|].
  destruct (e ← fd_lookup _ _ _; _) as [e|]; [|done]. by apply (user_words_ok k st 8).
Qed.

Lemma stat_call k path st :
  kernel_inv k -> ring3_active k = true -> is_u32 st -> call_ok k (fst (ksys_stat k path st)).
Proof using All.
  intros Hi Hr Hb. unfold ksys_stat. pose proof (call_ok_refl k Hi) as Hrefl.
  destruct (_ || _); [done|].
  destruct (validate_user_ptr k st 8) eqn:Hv; cbn [negb]; [|done].
  destruct (copy_user_cstr _ _ _) as [kp|]; [|done].
  destruct (vfs_stat _ _ _) as [[v s] b] eqn:Es. cbn [fst].
  apply (after_step k v); [done|by eapply stat_step; [apply Hi|]|]. intros Hi1.
  by apply (user_words_ok (with_vfs v k) st 8).
Qed.

Lemma mkdir_call k path : kernel_inv k -> call_ok k (fst (ksys_mkdir k path)).
Proof using.
  intros Hi. unfold ksys_mkdir. pose proof (call_ok_refl k Hi) as Hrefl.
  destruct (path =? 0); [done|]. destruct (copy_user_cstr _ _ _) as [kp|]; [|done].
  destruct (vfs_make_dir _ _ _) as [v b] eqn:Em. cbn [fst].
  apply vfs_step_call; [done|].
  apply (make_dir_spec _ _ _ _ _ (ki_vfs _ Hi) (cwd_or_root_node k Hi) Em).
Qed.

(** ** Printing, services and exit *)

Lemma list_call k path : kernel_inv k -> call_ok k (fst (ksys_list k path)).
Proof using.
  intros Hi. unfold ksys_list. destruct (path =? 0); [by apply print_call|].
  destruct (copy_user_cstr _ _ _); [by apply print_call|by apply call_ok_refl].
Qed.

Lemma systeminfo_call k : kernel_inv k -> call_ok k (fst (ksys_systeminfo k)).
Proof using.
  intros Hi. unfold ksys_systeminfo. destruct (user_boot_mbi k); [|by apply print_call].
  destruct (negb _); [by apply print_call|]. by apply quiet_ok; try done; destruct Hi.
Qed.

Lemma services_ok k sv : kernel_inv k -> svc_inv sv -> call_ok k (with_services sv k).
Proof using. intros Hi Hs. by apply quiet_ok; try done; destruct Hi. Qed.

Lemma register_call k name : kernel_inv k -> call_ok k (fst (ksys_service_register k name)).
Proof using.
  intros Hi. unfold ksys_service_register. pose proof (call_ok_refl k Hi) as Hrefl.
  destruct (name =? 0); [done|]. destruct (copy_user_cstr _ _ _) as [kn|]; [|done].
  destruct (service_register _ _ _ _) as [sv b] eqn:Es. cbn [fst].
  apply services_ok; [done|]. by eapply service_register_inv; [apply Hi|].
Qed.

Lemma lookup_call k name : kernel_inv k -> call_ok k (fst (ksys_service_lookup k name)).
Proof using.
  intros Hi. unfold ksys_service_lookup. pose proof (call_ok_refl k Hi) as Hrefl.
  destruct (name =? 0); [done|]. destruct (copy_user_cstr _ _ _) as [kn|]; [|done].
  destruct (service_lookup _ _ _) as [sv pid] eqn:Es. cbn [fst].
  apply services_ok; [done|]. by eapply service_lookup_inv; [apply Hi|].
Qed.

Lemma exit_call k code : kernel_inv k -> call_ok k (ksys_exit k code).
Proof using.
  intros Hi. unfold ksys_exit. destruct (0 <? _).
  - apply quiet_ok; try done; try (by destruct Hi). apply core_exit_ok, Hi.
  - by apply print_call.
Qed.

(** ** Messages *)

Lemma msg_bytes_length msg : length (msg_bytes msg) = 28%nat.
Proof using. unfold msg_bytes. by rewrite words_bytes_length. Qed.

(** A send writes only where the receiver waits for its message. *)
Lemma deliver_mem (c : core) q dst msg :
  core_ok c -> ipc_inv q -> 0 <= dst ->
  let c' := fst (fst (ipc_unblock_deliver c q dst msg)) in
  (mem_ok (c_mem c) -> mem_ok (c_mem c')) /\
  forall x, c_mem c' x = c_mem c x \/
    exists ptr image slot a, waiting q dst = Some ptr /\
      proc_get_image (c_procs c) dst = Some image /\ loaded image = true /\
      (slot < ELF_PROC_SLOTS)%nat /\ task_place user_images image slot ptr 28 = Some a /\ a <= x < a + 28.
Proof using.
  intros Hc Hq Hd. unfold ipc_unblock_deliver. rewrite (proj2 (Z.ltb_ge dst 0)) by done.
  destruct (ipc_find_waiter q dst) as [slot|] eqn:Ef; [|split; [done|by left]].
  case_bool_decide; [split; [done|by left]|].
  destruct (find_waiter_entry _ _ _ Ef) as (w & Hw & _ & _ & He). rewrite Hw. cbn [from_option].
  assert (waiting q dst = Some (user_msg_ptr w)) as Hwait by (unfold waiting; by rewrite He).
  destruct (write_task c dst (user_msg_ptr w) (msg_bytes msg)) as [c1 wr] eqn:Ew.
  pose proof (msg_bytes_length msg) as Hlen.
  destruct (core_write_mem _ _ _ _ _ _ Hc Hd (Forall_lookup_1 _ _ _ _ (iv_ptrs _ Hq) Hw)
              ltac:(rewrite Hlen; lia) Ew) as [Hok Hm].
  assert ((mem_ok (c_mem c) -> mem_ok (c_mem c1)) /\ forall x, c_mem c1 x = c_mem c x \/
    exists ptr image slot a, waiting q dst = Some ptr /\
      proc_get_image (c_procs c) dst = Some image /\ loaded image = true /\
      (slot < ELF_PROC_SLOTS)%nat /\ task_place user_images image slot ptr 28 = Some a /\ a <= x < a + 28)
    as Hres.
  { split; [done|]. intros x. destruct (Hm x) as [?|(image & sl & a & ? & ? & ? & ? & ?)]; [by left|right].
    rewrite Hlen in *. by exists (user_msg_ptr w), image, sl, a. }
  destruct wr; cbn [negb fst]; [|done].
  destruct (image_of c1 dst) as [i|]; [|done]. destruct (_ || _); [done|].
  cbn [fst]. by rewrite core_wake_mem.
Qed.

Lemma send_mem (c : core) q src dst msg c' q' b :
  core_ok c -> ipc_inv q -> ipc_send c q src dst msg = (c', q', b) ->
  (mem_ok (c_mem c) -> mem_ok (c_mem c')) /\
  forall x, c_mem c' x = c_mem c x \/
    exists ptr image slot a, waiting q dst = Some ptr /\
      proc_get_image (c_procs c) dst = Some image /\ loaded image = true /\
      (slot < ELF_PROC_SLOTS)%nat /\ task_place user_images image slot ptr 28 = Some a /\ a <= x < a + 28.
Proof using.
  intros Hc Hq. unfold ipc_send.
  destruct (dst <? 0) eqn:E0; zify_bool; cbn [orb];
    [intros [= <- <- <-]; split; [done|by left]|].
  case_bool_decide; [intros [= <- <- <-]; split; [done|by left]|].
  pose proof (deliver_mem c q dst (stamp src dst msg) Hc Hq E0) as Hm. cbv zeta in Hm.
  destruct (ipc_unblock_deliver _ _ _ _) as [[c1 q1] d]. cbn [fst] in Hm.
  destruct d; [by intros [= <- _ _]|].
  destruct (match ipc_find_slot q1 dst with Some slot => _ | None => _ end) as [q2 [slot|]];
    [destruct (from_option _ _ _)|]; by intros [= <- _ _].
Qed.

(** What a send changes is below the heap. *)
Lemma send_call k dst msg c q b :
  kernel_inv k -> ipc_send (k_core k) (k_ipc k) (k_pid k) dst msg = (c, q, b) ->
  call_ok k (with_ipc q (with_core c k)).
Proof using.
  intros Hi Hs. destruct (@ipc_send_spec core _ _ core_task_laws _ _ _ _ _ _ _ _ (ki_core _ Hi) (ki_ipc _ Hi) Hs)
    as (Hc & Hq & _).
  destruct (send_mem _ _ _ _ _ _ _ _ (ki_core _ Hi) (ki_ipc _ Hi) Hs) as [Hok Hm].
  pose proof linker_layout as Hly. pose proof linker_arrays as [Ha1 Ha2]. pose proof (ki_heap _ Hi).
  assert (forall x, c_mem c x = k_mem k x \/ (mail_byte k x /\ x < h_start (k_heap k))) as Hmail.
  { intros x. destruct (Hm x) as [?|(ptr & image & slot & a & Hw & Him & Hld & Hslot & Hp & Hx)]; [by left|].
    right. split; [by exists dst, ptr, image, slot, a|].
    pose proof (ck_images _ (ki_core _ Hi) _ _ Him Hld) as Hio.
    destruct (task_place_range _ _ Hly image slot ptr 28 a Hio Hslot ltac:(lia) Hp) as [_ Hr].
    pose proof (shadow_addr_range _ _ Hly slot Hslot). destruct (image_ranges _ Hio) as (_ & _ & _ & _ & _ & Hst & _).
    rewrite (io_stack_size _ _ Hio) in Hst.
    unfold shadow_addr, ELF_USER_IMAGE_MAX, ELF_PROC_SLOTS, ELF_STACK_SIZE in *. lia. }
  assert (kernel_inv (with_mem (c_mem c) k)) as Hi1.
  { apply set_mem_inv; [done|apply Hok, Hi|]. intros x Hx. destruct (Hmail x) as [?|[_ ?]]; [done|lia]. }
  destruct Hi1. constructor; try done.
  - intros x. destruct (Hmail x) as [?|[? _]]; auto.
  - constructor; [done|]. intros a n Hn. by exists n.
Qed.

Lemma ipc_send_call k msg : kernel_inv k -> call_ok k (fst (ksys_ipc_send k msg)).
Proof using.
  intros Hi. unfold ksys_ipc_send. destruct (_ || _); [by apply call_ok_refl|].
  destruct (ipc_send _ _ _ _ _) as [[c q] b] eqn:Es. by eapply send_call.
Qed.

Lemma ipc_reply_call k msg : kernel_inv k -> call_ok k (fst (ksys_ipc_reply k msg)).
Proof using. exact (ipc_send_call k msg). Qed.

Lemma ipc_recv_call k msg :
  kernel_inv k -> ring3_active k = true -> is_u32 msg -> call_ok k (fst (ksys_ipc_recv k msg)).
Proof using.
  intros Hi Hr Hu. unfold ksys_ipc_recv. pose proof (call_ok_refl k Hi) as Hrefl.
  destruct (msg =? 0); cbn [orb]; [done|].
  destruct (validate_user_ptr k msg 28) eqn:Hv; cbn [negb]; [|done].
  destruct (ipc_recv (k_ipc k) (k_pid k)) as [q r] eqn:Er.
  destruct (ipc_recv_spec _ _ _ _ (ki_ipc _ Hi) Er) as (Hq & _).
  destruct r as [kmsg|].
  - assert (call_ok k (with_mem (store_words (k_mem k) msg (msg_words kmsg)) k)) as Hc
      by by apply (user_words_ok k msg 28).
    destruct Hc as [[] ? ? ? ? ?]. by constructor.
  - destruct (ipc_block_recv _ _ _ _) as [q' b] eqn:Eb. cbn [fst].
    destruct (ipc_block_recv_spec _ _ _ _ _ _ Hq Hu Eb) as (Hq' & _).
    by apply quiet_ok; try done; destruct Hi.
Qed.

(** ** Every call *)

(** The next number of the dispatcher. *)
Ltac next_call handler :=
  match goal with |- call_ok _ (fst (if ?b then _ else _)) => destruct b; [by apply handler|] end.

Lemma syscall_ok k num a1 a2 a3 k' r :
  kernel_inv k -> ring3_active k = true -> is_u32 a1 -> is_u32 a2 -> is_u32 a3 ->
  syscall_entry k num a1 a2 a3 = Some (k', r) -> call_ok k k'.
Proof using All.
  intros Hi Hr Ha1 Ha2 Ha3. unfold syscall_entry.
  destruct (num =? 0); [by apply read_call|]. intros [= He]. pose proof (f_equal fst He) as Hk'.
  cbn [fst] in Hk'. rewrite <- Hk'. clear He Hk'.
  next_call write_call. next_call open_call. next_call close_call. next_call call_ok_refl.
  next_call mkdir_call. next_call getcwd_call. next_call exit_call. next_call list_call.
  next_call systeminfo_call. next_call print_call. next_call meminfo_call. next_call ipc_send_call.
  next_call ipc_recv_call. next_call ipc_reply_call. next_call call_ok_refl. next_call register_call.
  next_call lookup_call. next_call stat_call. next_call fstat_call. next_call call_ok_refl.
  by apply call_ok_refl.
Qed.

(** C2: Whatever number and arguments a program passes to int 0x80, the call
    keeps every component's invariant, and it changes memory only in four
    places: the program's own image and stack, the write buffers of its own
    open files, the message buffers of processes that wait for one, and heap
    memory that was free before.  The open files of other processes are
    untouched, no node of the file tree moves, and no block of the heap is taken
    back. *)
Theorem kernel_call_safe k num a1 a2 a3 k' r :
  kernel_inv k -> ring3_active k = true -> is_u32 a1 -> is_u32 a2 -> is_u32 a3 ->
  syscall_entry k num a1 a2 a3 = Some (k', r) -> call_ok k k'.
Proof using All. intros Hi Hr Ha1 Ha2 Ha3 Hs. exact (syscall_ok _ _ _ _ _ _ _ Hi Hr Ha1 Ha2 Ha3 Hs). Qed.


End pointers.

(** ** A kernel with one running program *)

Definition fd_boot : fd_entry := {|
  fd_used := false; fd_pid := 0; readable := false; writable := false; fd_data := 0; fd_size := 0;
  fd_offset := 0; fd_path := replicate 128 0; write_buf := 0; write_size := 0; write_capacity := 0;
  dirty := false |}.

(** The program has the path "/f" and the bytes "hi" in its image. *)
Definition demo_user : list Z := lit "/f" ++ [0] ++ lit "hi".

Definition demo_at (v : vfs) (m : mem) : kernel := {|
  k_core := with_c_mem m demo_core; k_ipc := ipc_boot; k_services := service_boot; k_nodes := nodes v;
  k_root := vfs_root_node v; k_heap := vheap v; fd_table := replicate 16 fd_boot;
  user_cwd := 0; user_boot_mbi := None; user_boot_magic := 0; ring3_active := true;
  ring3_current_pid := 1; k_keys := []; k_out := [] |}.

Lemma demo_at_mem v m m' : demo_at v m' = with_mem m' (demo_at v m).
Proof. reflexivity. Qed.

Lemma demo_at_vfs v : vfs_of (demo_at v (vmem v)) = v.
Proof. by destruct v. Qed.

Definition demo_kernel : kernel := demo_at demo_vfs (store_bytes (vmem demo_vfs) 0x300000 demo_user).

Lemma fds_boot_inv v : fds_inv v (replicate 16 fd_boot).
Proof.
  constructor; [done| | |].
  - apply Forall_replicate. by constructor.
  - intros i e He Hu. apply lookup_replicate in He as [-> _]. done.
  - intros i e c n He Hu. apply lookup_replicate in He as [-> _]. done.
Qed.

Lemma demo_at_inv v :
  vfs_inv v -> mem_step heap_64m (fun _ => 0) (vheap v) (vmem v) ->
  kernel_inv (H := demo_linker) (demo_at v (vmem v)).
Proof.
  intros Hv Hst. pose proof demo_core_ok as [? ? ?]. pose proof (ms_ext _ _ _ _ Hst) as Hx.
  constructor; rewrite ?demo_at_vfs.
  - by constructor.
  - exact ipc_boot_inv.
  - by apply service_init_inv; [|apply Forall_replicate].
  - done.
  - apply fds_boot_inv.
  - by left.
  - change (0x180001 <= h_start (vheap v)). rewrite (he_start _ _ Hx). by vm_compute.
  - change (h_limit (vheap v) <= USER_IMAGE_RESERVED_BASE). rewrite (he_limit _ _ Hx). by vm_compute.
  - apply Hst. intros x. unfold is_byte. lia.
Qed.

Lemma demo_user_inv v :
  kernel_inv (H := demo_linker) (demo_at v (vmem v)) ->
  kernel_inv (H := demo_linker) (demo_at v (store_bytes (vmem v) 0x300000 demo_user)).
Proof.
  intros Hi. rewrite (demo_at_mem v (vmem v)).
  apply set_mem_inv; [exact Hi|apply store_bytes_ok, (ki_mem _ Hi)|].
  intros x Hx. apply store_bytes_out; [split; vm_compute; discriminate|].
  pose proof (ki_limit _ Hi) as Hl. pose proof (hi_current _ (vi_heap _ (ki_vfs _ Hi))) as Hc.
  cbn [vheap vfs_of] in Hc. unfold USER_IMAGE_RESERVED_BASE in Hl. lia.
Qed.

Lemma demo_kernel_inv : kernel_inv (H := demo_linker) demo_kernel.
Proof.
  apply demo_user_inv, demo_at_inv; [apply demo_vfs_ok|].
  apply (vfs_init_ok heap_64m (fun _ => 0)); [apply heap_64m_inv|by vm_compute].
Qed.

#[local] Existing Instances no_mount no_mount_laws.

(** The program makes and opens "/f" for reading and writing. *)
Definition demo_opened : kernel := fst (ksys_open demo_kernel 0x300000 0x42).

Lemma demo_opened_inv : kernel_inv (H := demo_linker) demo_opened.
Proof. exact (co_inv _ _ (open_call (H := demo_linker) demo_kernel 0x300000 0x42 demo_kernel_inv)). Qed.

Lemma syscall_open `{Linker} `{MountFs} k a1 a2 a3 :
  syscall_entry k 2 a1 a2 a3 = Some (ksys_open k a1 a2).
Proof. reflexivity. Qed.

Lemma kernel_call_safe_witness :
  exists k', @syscall_entry demo_linker no_mount demo_kernel 2 0x300000 0x42 0 = Some (k', 3) /\
    call_ok (H := demo_linker) demo_kernel k'.
Proof.
  assert (snd (ksys_open demo_kernel 0x300000 0x42) = 3) as Hr by (vm_compute; reflexivity).
  pose proof (@syscall_open demo_linker no_mount demo_kernel 0x300000 0x42 0) as He.
  destruct (ksys_open demo_kernel 0x300000 0x42) as [k' r]. cbn [snd] in Hr. rewrite Hr in He.
  exists k'. split; [exact He|].
  apply (kernel_call_safe (H := demo_linker) demo_kernel 2 0x300000 0x42 0 k' 3 demo_kernel_inv eq_refl);
    [unfold is_u32; lia..|exact He].
Defined.
