(* ===== verification/CallErrors.v ===== *)
(** * CallErrors: system calls that are refused

    What a program gets for an argument the kernel cannot use, and that such a
    call leaves no trace. *)
From S2P Require Import Prelude KernelH Util Memory Heap Proc Sched Iface Service Elf Core Ipc Storage IsoFs Vfs VfsTree Syscall FdTable Kernel.
Local Open Scope Z_scope.
Local Open Scope slop_scope.

Section errors.
Context `{Linker} `{MountFs}.

(** [n] bytes at [a] are not the program's. *)
Definition foreign (k : kernel) (a n : Z) : Prop := validate_user_ptr k a n = false.

(** A string of at most [n] characters that leaves the program's memory before
    its end. *)
Definition runs_out (k : kernel) (a : Z) (n : nat) : Prop :=
  exists i, (i < n)%nat /\ foreign k (u32 (a + Z.of_nat i)) 1 /\
    forall j, (j < i)%nat -> load (k_mem k) (u32 (a + Z.of_nat j)) <> 0.

(** A number that is no open file of the program. *)
Definition not_open (k : kernel) (fd : Z) : Prop := fd_lookup (fd_table k) fd (k_pid k) = None.

(** The numbers of the calls. *)
Definition known : list Z :=
  [0; 1; 2; 3; 20; 60; 83; 183; 240; 241; 242; 243; 244; 245; 246; 247; 248; 249; 250; 251; 252].

(** [refused k num a1 a2 a3 e]: the call has an argument that [e] stands for. *)
Inductive refused (k : kernel) : Z -> Z -> Z -> Z -> Z -> Prop :=
| bad_number num a1 a2 a3 : num ∉ known -> refused k num a1 a2 a3 (-1)
| read_null a1 a3 : s32 a1 = 0 -> refused k 0 a1 0 a3 ERR_FAULT
| read_foreign a1 a2 a3 : foreign k a2 (Z.max 1 a3) -> refused k 0 a1 a2 a3 ERR_FAULT
| read_closed a1 a2 a3 : s32 a1 <> 0 -> ~ foreign k a2 (Z.max 1 a3) -> not_open k (s32 a1) ->
    refused k 0 a1 a2 a3 ERR_BADF
| write_null a1 a3 : refused k 1 a1 0 a3 ERR_BADF
| write_foreign a1 a2 a3 : a2 <> 0 -> foreign k a2 (Z.max 1 a3) -> refused k 1 a1 a2 a3 ERR_FAULT
| write_closed a1 a2 a3 : s32 a1 <> 1 -> s32 a1 <> 2 -> ~ foreign k a2 (Z.max 1 a3) -> not_open k (s32 a1) ->
    refused k 1 a1 a2 a3 ERR_BADF
| close_closed a1 a2 a3 : not_open k (s32 a1) -> refused k 3 a1 a2 a3 ERR_BADF
| string_null num a2 a3 : num = 2 \/ num = 83 \/ num = 249 \/ num = 250 \/ num = 251 ->
    refused k num 0 a2 a3 ERR_INVAL
| path_foreign num a1 a2 a3 : num = 2 \/ num = 83 \/ num = 241 -> a1 <> 0 -> runs_out k a1 127 ->
    refused k num a1 a2 a3 ERR_FAULT
| name_foreign num a1 a2 a3 : num = 249 \/ num = 250 -> a1 <> 0 -> runs_out k a1 31 ->
    refused k num a1 a2 a3 ERR_FAULT
| stat_path_foreign a1 a2 a3 : a1 <> 0 -> a2 <> 0 -> runs_out k a1 127 -> refused k 251 a1 a2 a3 ERR_FAULT
| getcwd_null a1 a2 a3 : a1 = 0 \/ a2 = 0 -> refused k 183 a1 a2 a3 ERR_INVAL
| getcwd_foreign a1 a2 a3 : a1 <> 0 -> a2 <> 0 -> foreign k a1 a2 -> refused k 183 a1 a2 a3 ERR_FAULT
| meminfo_foreign a1 a2 a3 : a1 = 0 \/ foreign k a1 36 -> refused k 244 a1 a2 a3 ERR_FAULT
| message_foreign num a1 a2 a3 : num = 245 \/ num = 246 \/ num = 247 -> a1 = 0 \/ foreign k a1 28 ->
    refused k num a1 a2 a3 ERR_FAULT
| stat_null a1 a3 : refused k 251 a1 0 a3 ERR_INVAL
| fstat_null a1 a3 : refused k 252 a1 0 a3 ERR_INVAL
| stat_foreign a1 a2 a3 : a1 <> 0 -> a2 <> 0 -> foreign k a2 8 -> refused k 251 a1 a2 a3 ERR_FAULT
| fstat_foreign a1 a2 a3 : a2 <> 0 -> foreign k a2 8 -> refused k 252 a1 a2 a3 ERR_FAULT
| fstat_closed a1 a2 a3 : a2 <> 0 -> ~ foreign k a2 8 -> ~ (0 <= s32 a1 <= 2) -> not_open k (s32 a1) ->
    refused k 252 a1 a2 a3 ERR_BADF.

Lemma copy_chars_fault k a n : is_u32 a -> runs_out k a n -> copy_chars k a n = None.
Proof using.
  revert a. induction n as [|n IH]; intros a Ha (i & Hi & Hf & Hj); [lia|]. cbn [copy_chars].
  destruct i as [|i].
  { unfold foreign in Hf. rewrite Z.add_0_r, u32_small in Hf by done. by rewrite Hf. }
  destruct (validate_user_ptr k a 1); cbn [negb]; [|done].
  pose proof (Hj 0%nat ltac:(lia)) as H0'. rewrite Z.add_0_r, u32_small in H0' by done.
  rewrite (proj2 (Z.eqb_neq _ 0)) by done.
  rewrite IH; [done|apply u32_range|]. exists i. split; [lia|].
  assert (forall j, u32 (a +u 1 + Z.of_nat j) = u32 (a + Z.of_nat (S j))) as E.
  { intros j. rewrite u32_add_l. f_equal. lia. }
  rewrite E. split; [done|]. intros j Hj'. rewrite E. apply Hj. lia.
Qed.

Lemma copy_user_fault k a n :
  is_u32 a -> a <> 0 -> runs_out k a (Z.to_nat (n - 1)) -> n <> 0 -> copy_user_cstr k a n = None.
Proof using.
  intros Ha H0' Hr Hn. unfold copy_user_cstr. rewrite !(proj2 (Z.eqb_neq _ 0)) by done. cbn [orb].
  by apply copy_chars_fault.
Qed.

Lemma copy_path_fault k a : is_u32 a -> a <> 0 -> runs_out k a 127 -> copy_user_cstr k a 128 = None.
Proof using. intros. by apply copy_user_fault. Qed.
Lemma copy_name_fault k a : is_u32 a -> a <> 0 -> runs_out k a 31 -> copy_user_cstr k a 32 = None.
Proof using. intros. by apply copy_user_fault. Qed.

Lemma some_byte n : is_u32 n -> (if n =? 0 then 1 else n) = Z.max 1 n.
Proof using. unfold is_u32. intros Hn. destruct (n =? 0) eqn:E; zify_bool; lia. Qed.

Lemma not_foreign k a n : ~ foreign k a n -> validate_user_ptr k a n = true.
Proof using. unfold foreign. by destruct (validate_user_ptr k a n). Qed.

Ltac each_number :=
  repeat match goal with
  | Ho : _ \/ _ |- _ => destruct Ho as [Ho|Ho]
  | Ho : ?x = _ :> Z |- _ => subst x
  end.

(** Runs a call with the number given, with what is known of its arguments. *)
Ltac run_call :=
  unfold syscall_entry; cbv beta iota delta [Z.eqb Pos.eqb];
  unfold ksys_read, ksys_write, ksys_open, ksys_close, ksys_mkdir, ksys_getcwd, ksys_list, ksys_meminfo,
    ksys_ipc_send, ksys_ipc_recv, ksys_ipc_reply, ksys_service_register, ksys_service_lookup, ksys_stat,
    ksys_fstat;
  rewrite ?some_byte, ?copy_path_fault, ?copy_name_fault by done;
  repeat match goal with
  | Hf : validate_user_ptr _ _ _ = _ |- _ => rewrite Hf; clear Hf
  | Hf : fd_lookup _ _ _ = _ |- _ => rewrite Hf; clear Hf
  | Hf : s32 _ = _ |- _ => rewrite Hf; clear Hf
  end;
  cbn [negb orb andb];
  rewrite ?(proj2 (Z.eqb_neq _ _)) by done; cbn [negb orb andb]; rewrite ?orb_true_r; try done.

(** The call is refused, and nothing changes. *)
Lemma refused_call k num a1 a2 a3 e :
  is_u32 a1 -> is_u32 a2 -> is_u32 a3 -> refused k num a1 a2 a3 e ->
  syscall_entry k num a1 a2 a3 = Some (k, e).
Proof using.
  intros H1 H2 H3. destruct 1; unfold not_open, foreign in *;
    repeat match goal with
    | Hf : ~ validate_user_ptr _ _ _ = false |- _ => apply not_foreign in Hf
    end.
  2-21: each_number; run_call.
  - unfold known in *. rewrite !not_elem_of_cons in *. destruct_and!. unfold syscall_entry.
    by rewrite !(proj2 (Z.eqb_neq num _)) by done.
  - by case_match.
  - destruct (a2 =? 0); [done|]. by rewrite !(proj2 (Z.eqb_neq (s32 a1) _)) by done.
  - by case_match.
  - destruct ((0 <=? s32 a1) && (s32 a1 <=? 2)) eqn:E; [|done]. zify_bool. lia.
Qed.

(** ** The answers that mean a refusal *)

Definition refusal (r : Z) : Prop := r = ERR_FAULT \/ r = ERR_BADF.

Lemma read_keys_count n : forall keys m buf i keys' m' r,
  read_keys n keys m buf i = Some (keys', m', r) -> 0 <= i -> i + Z.of_nat n < 4294967296 ->
  i <= r <= i + Z.of_nat n.
Proof using.
  induction n as [|n IH]; intros keys m buf i keys' m' r Hr Hi Hn; cbn [read_keys] in Hr; [simplify_eq; lia|].
  destruct keys as [|c keys]; [done|]. rewrite (u32_small (i + 1)) in Hr by lia.
  destruct (c =? 10); [simplify_eq; lia|]. apply IH in Hr; lia.
Qed.

(** A count is no refusal. *)
Lemma count_small n : 0 <= n <= INT_MAX -> ~ refusal (s32 n).
Proof using. intros Hn. rewrite s32_small by done. unfold refusal, ERR_FAULT, ERR_BADF. lia. Qed.

Section running.
Context (k : kernel) (Hi : kernel_inv k) (Hr : ring3_active k = true).

Lemma valid_len a n : is_u32 a -> is_u32 n -> validate_user_ptr k a (if n =? 0 then 1 else n) = true -> 0 <= n <= INT_MAX.
Proof using All.
  intros Ha Hn Hv. rewrite some_byte in Hv by done. assert (is_u32 (Z.max 1 n)) as Hm by (unfold is_u32 in *; lia).
  destruct (validate_range k a _ (ki_core _ Hi) Hr Ha Hm Hv) as (_ & _ & _ & Hmx).
  unfold is_u32, INT_MAX, ELF_USER_IMAGE_MAX in *. lia.
Qed.

Lemma read_refusal fd a n k' r :
  is_u32 a -> is_u32 n -> ksys_read k fd a n = Some (k', r) -> refusal r -> k' = k.
Proof using All.
  intros Ha Hn. unfold ksys_read. intros Hc Hrf.
  destruct (fd =? 0).
  - destruct (_ || negb _) eqn:E; [by simplify_eq|]. apply orb_false_iff in E as [_ E]. apply negb_false_iff in E.
    pose proof (valid_len a n Ha Hn E).
    destruct (read_keys _ _ _ _ _) as [[[keys m] c]|] eqn:Ek; [|done]. cbn in Hc. simplify_eq.
    apply read_keys_count in Ek; [|lia|unfold INT_MAX in *; lia]. exfalso. eapply count_small; [|exact Hrf]. lia.
  - destruct (validate_user_ptr k a _) eqn:E; cbn [negb] in Hc; [|by simplify_eq].
    pose proof (valid_len a n Ha Hn E).
    repeat (case_match; simplify_eq; try done). all: exfalso.
    all: first [by destruct Hrf | eapply count_small; [|exact Hrf]; zify_bool; lia].
Qed.

(** A result that cannot be one of the two numbers. *)
Ltac not_refused :=
  exfalso; first [match goal with Hrf : refusal _ |- _ => by destruct Hrf end
                 | unfold refusal, ERR_FAULT, ERR_BADF, ERR_INVAL, ERR_AGAIN, ERR_NFILE in *; zify_bool; lia].

(** Every way through a handler ends with the kernel as it was, or with another
    answer. *)
Ltac no_trace :=
  simplify_eq/=; try done; repeat (case_match; simplify_eq/=; try done); try not_refused.

Lemma write_refusal fd a n :
  is_u32 a -> is_u32 n -> let '(k', r) := ksys_write k fd a n in refusal r -> k' = k.
Proof using All.
  intros Ha Hn. unfold ksys_write. destruct (a =? 0); [done|].
  destruct (validate_user_ptr k a _) eqn:E; cbn [negb]; [|done].
  pose proof (valid_len a n Ha Hn E).
  destruct ((fd =? 1) || (fd =? 2)).
  { intros Hrf. exfalso. eapply count_small; [|exact Hrf].
    destruct (SYSCALL_WRITE_MAX <? n) eqn:El; zify_bool; unfold SYSCALL_WRITE_MAX, INT_MAX in *; lia. }
  repeat (case_match; simplify_eq/=; try done). all: intros Hrf; exfalso.
  all: first [by destruct Hrf | eapply count_small; [|exact Hrf]; lia].
Qed.

Lemma open_refusal a fl : let '(k', r) := ksys_open k a fl in refusal r -> k' = k.
Proof using All. unfold ksys_open. repeat (case_match; simplify_eq/=; try done); intros Hrf; not_refused. Qed.

Lemma close_refusal fd : let '(k', r) := ksys_close k fd in refusal r -> k' = k.
Proof using All. unfold ksys_close. repeat (case_match; simplify_eq/=; try done); intros Hrf; not_refused. Qed.

Lemma cwd_refusal a n : is_u32 a -> is_u32 n -> let '(k', r) := ksys_getcwd k a n in refusal r -> k' = k.
Proof using All.
  intros Ha Hn. unfold ksys_getcwd. destruct (_ || _) eqn:E0; [done|].
  destruct (validate_user_ptr k a n) eqn:E; cbn [negb]; [|done].
  set (path := vfs_get_cwd_path _ _ _) in *.
  pose proof (cwd_path_len (vfs_of k) (cwd_or_root k) (ki_vfs _ Hi)) as Hp. fold path in Hp.
  rewrite str_len_spec in *. destruct (n <? _); intros Hrf; [not_refused|]. exfalso.
  eapply count_small; [|exact Hrf]. unfold INT_MAX. lia.
Qed.

Lemma small_refusals num a1 a2 a3 k' r :
  num <> 0 -> num <> 1 -> num <> 2 -> num <> 3 -> num <> 183 ->
  syscall_entry k num a1 a2 a3 = Some (k', r) -> refusal r -> k' = k.
Proof using All.
  intros H0' H1' H2' H3' H4'. unfold syscall_entry.
  rewrite (proj2 (Z.eqb_neq num 0)), (proj2 (Z.eqb_neq num 1)), (proj2 (Z.eqb_neq num 2)),
    (proj2 (Z.eqb_neq num 3)), (proj2 (Z.eqb_neq num 183)) by done.
  unfold ksys_mkdir, ksys_list, ksys_systeminfo, ksys_ps, ksys_meminfo, ksys_ipc_send, ksys_ipc_recv,
    ksys_ipc_reply, ksys_service_register, ksys_service_lookup, ksys_stat, ksys_fstat.
  intros Hc Hrf.
  repeat (destruct (num =? _); [no_trace|]). no_trace.
Qed.

Lemma call_refusal num a1 a2 a3 k' r :
  is_u32 a1 -> is_u32 a2 -> is_u32 a3 ->
  syscall_entry k num a1 a2 a3 = Some (k', r) -> refusal r -> k' = k.
Proof using All.
  intros H1 H2 H3 Hc Hrf.
  destruct (decide (num = 0)) as [->|]; [exact (read_refusal (s32 a1) a2 a3 k' r H2 H3 Hc Hrf)|].
  destruct (decide (num = 1)) as [->|].
  { pose proof (write_refusal (s32 a1) a2 a3 H2 H3) as Hw. change (syscall_entry _ _ _ _ _) with (Some (ksys_write k (s32 a1) a2 a3)) in Hc.
    destruct (ksys_write _ _ _ _). simplify_eq. by apply Hw. }
  destruct (decide (num = 2)) as [->|].
  { pose proof (open_refusal a1 a2) as Hw. change (syscall_entry _ _ _ _ _) with (Some (ksys_open k a1 a2)) in Hc.
    destruct (ksys_open _ _ _). simplify_eq. by apply Hw. }
  destruct (decide (num = 3)) as [->|].
  { pose proof (close_refusal (s32 a1)) as Hw. change (syscall_entry _ _ _ _ _) with (Some (ksys_close k (s32 a1))) in Hc.
    destruct (ksys_close _ _). simplify_eq. by apply Hw. }
  destruct (decide (num = 183)) as [->|]; [|by eapply small_refusals].
  pose proof (cwd_refusal a1 a2 H1 H2) as Hw. change (syscall_entry _ _ _ _ _) with (Some (ksys_getcwd k a1 a2)) in Hc.
  destruct (ksys_getcwd _ _ _). simplify_eq. by apply Hw.
Qed.

End running.

End errors.

(** ** The property *)

Section property.
Context `{Linker} `{MountFs}.

(** C8: every argument that a system call cannot use has its error number, and a
    refused call leaves no trace: a number that is no call, memory that is not
    the program's, a string that runs out of it, a null pointer, a descriptor
    that is not open give -1, -14, -14, -22 or -9 with the whole kernel as it
    was; and whenever any call of a program answers -14 or -9, nothing at all
    has changed. *)
Theorem bad_calls_refused k :
  kernel_inv k -> ring3_active k = true ->
  (forall num a1 a2 a3 e, is_u32 a1 -> is_u32 a2 -> is_u32 a3 ->
     refused k num a1 a2 a3 e -> syscall_entry k num a1 a2 a3 = Some (k, e)) /\
  (forall num a1 a2 a3 k' r, is_u32 a1 -> is_u32 a2 -> is_u32 a3 ->
     syscall_entry k num a1 a2 a3 = Some (k', r) -> refusal r -> k' = k).
Proof using All.
  intros Hi Hr. split; intros num a1 a2 a3.
  - intros e. by apply refused_call.
  - intros k' r. by apply call_refusal.
Qed.

End property.

(** The demo program asks to write the word before its image, and to open a path
    there. *)
Lemma bad_calls_refused_witness :
  @syscall_entry demo_linker no_mount demo_kernel 1 5 0x2FFFFC 4 = Some (demo_kernel, ERR_FAULT) /\
  @syscall_entry demo_linker no_mount demo_kernel 249 0x2FFFFC 0 0 = Some (demo_kernel, ERR_FAULT) /\
  @syscall_entry demo_linker no_mount demo_kernel 199 0 0 0 = Some (demo_kernel, -1).
Proof.
  destruct (@bad_calls_refused demo_linker no_mount demo_kernel demo_kernel_inv eq_refl) as [Hb _].
  split; [|split]; apply Hb; try (unfold is_u32; lia).
  - apply write_foreign; [done|reflexivity].
  - apply name_foreign; [by left|done|]. exists 0%nat. split; [lia|]. split; [reflexivity|lia].
  - apply bad_number. apply (bool_decide_unpack _). vm_compute. exact I.
Defined.
