(* ===== verification/Files.v ===== *)
(** * Files: open files as a program sees them

    An abstract [file] is its contents and a position.  Reading and writing
    through a descriptor (Syscall.v) is reading and writing the abstract file;
    opening gives the file the tree has, closing gives the tree the file that was
    written.  Other descriptors, of whatever process, keep their files. *)
From S2P Require Import Prelude KernelH Util Memory Heap Proc Sched Iface Service Elf Core Ipc Storage IsoFs Vfs VfsTree Syscall FdTable Kernel.
Local Open Scope Z_scope.
Local Open Scope slop_scope.

(** ** The abstract file *)

Record file := { contents : list Z; pos : nat }.

Definition file_read (n : nat) (f : file) : list Z * file :=
  let out := take n (drop (pos f) (contents f)) in
  (out, {| contents := contents f; pos := pos f + length out |}).

Definition file_write (bs : list Z) (f : file) : file :=
  {| contents := splice (pos f) bs (contents f); pos := pos f + length bs |}.

Definition file_of (k : kernel) (e : fd_entry) : file :=
  {| contents := fd_bytes k e; pos := Z.to_nat (fd_offset e) |}.

(** The entry behind descriptor [fd] of process [pid], and its file. *)
Definition entry_for (k : kernel) (pid fd : Z) : option fd_entry :=
  slot ← fd_lookup (fd_table k) fd pid; fd_table k !! slot.
Definition open_file (k : kernel) (pid fd : Z) : option file := file_of k <$> entry_for k pid fd.

Lemma fd_lookup_iff fds fd pid slot :
  fd_lookup fds fd pid = Some slot <->
  3 <= fd < 16 /\ slot = Z.to_nat fd /\ exists e, fds !! slot = Some e /\ fd_used e = true /\ fd_pid e = pid.
Proof.
  unfold fd_lookup, FD_MAX. destruct (_ || _) eqn:E0; zify_bool; [split; [done|intros (? & _); apply orb_true_iff in E0 as [E0|E0]; zify_bool; lia]|].
  destruct (fds !! Z.to_nat fd) as [e|] eqn:Ee; cbn [mbind option_bind].
  - destruct (_ || _) eqn:E1; zify_bool.
    + split; [done|]. intros (_ & -> & e' & He & Hu & Hp). simplify_eq.
      apply orb_true_iff in E1 as [E1|E1]; [by rewrite Hu in E1|zify_bool; lia].
    + split; [intros [= <-]|by intros (_ & -> & _)]. split_and!; [lia|lia|done|].
      exists e. split_and!; [done|done|lia].
  - split; [done|]. intros (_ & -> & e & He & _). congruence.
Qed.

Lemma entry_for_iff k pid fd e :
  entry_for k pid fd = Some e <->
  3 <= fd < 16 /\ fd_table k !! Z.to_nat fd = Some e /\ fd_used e = true /\ fd_pid e = pid.
Proof.
  unfold entry_for. destruct (fd_lookup _ _ _) as [slot|] eqn:El; cbn [mbind option_bind].
  - apply fd_lookup_iff in El as (Hr & -> & e' & He & Hu & Hp). rewrite He.
    split; [intros [= <-]; done|]. intros (_ & ? & _). congruence.
  - split; [done|]. intros (Hr & He & Hu & Hp).
    assert (fd_lookup (fd_table k) fd pid = Some (Z.to_nat fd)) by (apply fd_lookup_iff; split; [done|]; by eauto). congruence.
Qed.

Section files.
Context `{Linker}.
Implicit Types (k : kernel).

Lemma fd_bytes_frame k k' e :
  kernel_inv k -> fd_ok (k_heap k) e -> fd_used e = true ->
  (forall x, h_start (k_heap k) <= x < h_current (k_heap k) -> fd_data e <= x < fd_data e + fd_size e ->
     k_mem k' x = k_mem k x) ->
  fd_bytes k' e = fd_bytes k e.
Proof.
  intros Hi He Hu Hm. pose proof (vi_heap _ (ki_vfs _ Hi)) as Hh. cbn [vheap vfs_of] in Hh.
  destruct (fd_source_size _ e Hh He Hu) as (_ & _ & Ho & Hb).
  pose proof (hi_start _ Hh). pose proof (hi_current _ Hh). pose proof (hi_limit _ Hh).
  unfold fd_bytes. destruct (decide (0 < fd_size e)) as [Hpos|Hz].
  - destruct (Hb Hpos) as [? ?]. apply load_bytes_ext; [split; lia|]. intros x Hx. apply Hm; lia.
  - replace (fd_size e) with 0 by lia. done.
Qed.

(** After a change of one entry and of memory, the other files are the same. *)
Lemma other_files k k' slot e e2 :
  kernel_inv k -> fd_table k !! slot = Some e -> fd_used e = true ->
  fd_used e2 = true -> fd_pid e2 = fd_pid e -> fd_table k' = <[slot := e2]> (fd_table k) ->
  (forall x, h_start (k_heap k) <= x < h_current (k_heap k) -> k_mem k' x = k_mem k x \/
     writable e = true /\ write_buf e <= x < write_buf e + write_capacity e) ->
  forall pid fd, (pid, fd) <> (fd_pid e, Z.of_nat slot) -> open_file k' pid fd = open_file k pid fd.
Proof.
  intros Hi He Hu Hu2 Hp2 Hf Hm pid fd Hne. unfold open_file.
  destruct (entry_for k pid fd) as [e0|] eqn:E0.
  - apply entry_for_iff in E0 as (Hr & He0 & Hu0 & Hp0).
    assert (Z.to_nat fd <> slot) as Hs by (intros <-; apply Hne; f_equal; [congruence|lia]).
    assert (entry_for k' pid fd = Some e0) as ->.
    { apply entry_for_iff. rewrite Hf, list_lookup_insert_ne by done. done. }
    cbn [fmap option_fmap option_map]. unfold file_of. do 2 f_equal.
    pose proof (Forall_lookup_1 _ _ _ _ (fi_ok _ _ (ki_fds _ Hi)) He0) as Hok0.
    apply fd_bytes_frame; try done. intros x Hx Hd.
    destruct (Hm x Hx) as [?|(Hw & Hwx)]; [done|exfalso].
    pose proof (fi_fds _ _ (ki_fds _ Hi) _ _ He0 Hu0 slot e ltac:(done) He Hu Hw) as Hap.
    unfold fd_block in Hap. destruct (writable e0) eqn:Hw0; cbn [fst snd] in Hap.
    + destruct (fo_write _ _ Hok0 Hu0 Hw0) as (_ & ? & ? & ?). destruct Hap; lia.
    + destruct Hap; lia.
  - assert (entry_for k' pid fd = None) as ->; [|done].
    apply eq_None_not_Some. intros [e1 H1]. apply entry_for_iff in H1 as (Hr & H1 & Hu1 & Hp1).
    rewrite Hf in H1. apply list_lookup_insert_Some in H1 as [(Hs & <- & _)|[Hs H1]].
    + apply Hne. f_equal; [congruence|lia].
    + assert (entry_for k pid fd = Some e1) by (by apply entry_for_iff). congruence.
Qed.

(** The file behind a changed entry. *)
Lemma changed_file k k' fd e e2 :
  entry_for k (fd_pid e) fd = Some e -> fd_used e2 = true -> fd_pid e2 = fd_pid e ->
  fd_table k' = <[Z.to_nat fd := e2]> (fd_table k) ->
  open_file k' (fd_pid e) fd = Some (file_of k' e2).
Proof.
  intros (Hr & He & Hu & _)%entry_for_iff Hu2 Hp2 Hf. unfold open_file.
  assert (entry_for k' (fd_pid e) fd = Some e2) as ->; [|done].
  apply entry_for_iff. split; [done|]. split; [|done]. rewrite Hf.
  apply list_lookup_insert_eq. by apply lookup_lt_Some in He.
Qed.

(** ** Reading and writing *)

(** A write through a descriptor, down to the table entry. *)
Lemma write_entry k fd buf len e :
  kernel_inv k -> ring3_active k = true -> is_u32 buf -> is_u32 len -> buf <> 0 ->
  validate_user_ptr k buf (if len =? 0 then 1 else len) = true ->
  entry_for k (k_pid k) fd = Some e -> writable e = true ->
  ksys_write k fd buf len = (k, ERR_INVAL) \/
  exists k' e2, ksys_write k fd buf len = (k', len) /\
    write_effect k (Z.to_nat fd) e (load_bytes (k_mem k) buf (Z.to_nat len)) k' e2 /\
    file_of k' e2 = file_write (load_bytes (k_mem k) buf (Z.to_nat len)) (file_of k e) /\
    forall pid fd', (pid, fd') <> (k_pid k, fd) -> open_file k' pid fd' = open_file k pid fd'.
Proof.
  intros Hi Hr Hb Hl Hz Hv Hen Hw. pose proof Hen as (Hrange & He & Hu & Hp)%entry_for_iff.
  assert (fd_lookup (fd_table k) fd (k_pid k) = Some (Z.to_nat fd)) as Hs by (apply fd_lookup_iff; split; [done|]; by eauto).
  destruct (write_open_spec k fd buf len _ e Hi Hr Hb Hl Hz Hv Hs He Hw) as [?|(k' & e2 & Hk' & Heff)];
    [by left|right].
  exists k', e2. split; [done|]. split; [done|].
  destruct Heff as [Hc Hf (Hu2 & Hp2 & _ & Hw2 & _) (Hsz2 & Ho2) Hby Hm _].
  pose proof (fo_offset _ _ (Forall_lookup_1 _ _ _ _ (fi_ok _ _ (ki_fds _ Hi)) He) Hu). split.
  - unfold file_of, file_write. cbn [pos contents]. rewrite Hby, Ho2. f_equal. lia.
  - intros pid fd' Hne. apply (other_files k k' (Z.to_nat fd) e e2); try done.
    + intros x Hx. destruct (Hm x) as [?|[?|?]]; [by left|by right|lia].
    + rewrite Hp, Z2Nat.id by lia. done.
Qed.


Lemma take_load m a n j : (j <= n)%nat -> take j (load_bytes m a n) = load_bytes m a j.
Proof.
  revert a n. induction j as [|j IH]; intros a [|n] Hj; cbn [load_bytes take]; [done..|lia|].
  by rewrite IH by lia.
Qed.

Lemma drop_load m a n j : drop j (load_bytes m a n) = load_bytes m (a + Z.of_nat j) (n - j).
Proof.
  revert a n. induction j as [|j IH]; intros a n; [cbn; by rewrite Z.add_0_r, Nat.sub_0_r|].
  destruct n as [|n]; [done|]. cbn [load_bytes drop Nat.sub]. rewrite IH. f_equal. lia.
Qed.

(** A read through a descriptor, down to the table entry. *)
Lemma read_entry k fd buf len e :
  kernel_inv k -> ring3_active k = true -> is_u32 buf -> is_u32 len ->
  validate_user_ptr k buf (if len =? 0 then 1 else len) = true ->
  entry_for k (k_pid k) fd = Some e -> readable e = true ->
  let '(out, f') := file_read (Z.to_nat len) (file_of k e) in
  exists k', ksys_read k fd buf len = Some (k', Z.of_nat (length out)) /\ kernel_inv k' /\
    load_bytes (k_mem k') buf (length out) = out /\
    fd_table k' = <[Z.to_nat fd := set_offset (Z.of_nat (pos f')) e]> (fd_table k) /\
    file_of k' (set_offset (Z.of_nat (pos f')) e) = f' /\
    (forall x, ~ buf <= x < buf + len -> k_mem k' x = k_mem k x) /\
    forall pid fd', (pid, fd') <> (k_pid k, fd) -> open_file k' pid fd' = open_file k pid fd'.
Proof.
  intros Hi Hr Hb Hl Hv Hen Hrd. pose proof Hen as (Hrange & He & Hu & Hp)%entry_for_iff.
  assert (fd_lookup (fd_table k) fd (k_pid k) = Some (Z.to_nat fd)) as Hs by (apply fd_lookup_iff; split; [done|]; by eauto).
  pose proof (vi_heap _ (ki_vfs _ Hi)) as Hh. cbn [vheap vfs_of] in Hh.
  pose proof (Forall_lookup_1 _ _ _ _ (fi_ok _ _ (ki_fds _ Hi)) He) as Hok. cbn [vheap vfs_of] in Hok.
  destruct (fd_source_size _ e Hh Hok Hu) as (Hsz & Hsrc & Ho & Hblk).
  destruct (user_buffer k buf len Hi Hr Hb Hl Hv) as (Hf & Hmx & Hap).
  pose proof (hi_start _ Hh). pose proof (hi_current _ Hh). pose proof (hi_limit _ Hh).
  set (n := Z.min len (fd_size e - fd_offset e)).
  set (out := load_bytes (k_mem k) (fd_data e + fd_offset e) (Z.to_nat n)).
  assert (file_read (Z.to_nat len) (file_of k e) =
          (out, {| contents := fd_bytes k e; pos := Z.to_nat (fd_offset e + n) |})) as ->.
  { unfold file_read, file_of, fd_bytes. cbn [pos contents]. unfold is_u32 in *.
    rewrite drop_load, Z2Nat.id by lia.
    assert (take (Z.to_nat len) (load_bytes (k_mem k) (fd_data e + fd_offset e)
              (Z.to_nat (fd_size e) - Z.to_nat (fd_offset e))) = out) as ->.
    { unfold out. destruct (decide (len <= fd_size e - fd_offset e)) as [Hle|Hgt].
      - rewrite take_load by lia. f_equal. lia.
      - rewrite take_ge by (rewrite load_bytes_length; lia). f_equal. lia. }
    do 2 f_equal. unfold out. rewrite load_bytes_length. lia. }
  assert (length out = Z.to_nat n) as Hlen by (unfold out; by rewrite load_bytes_length).
  rewrite Hlen. unfold is_u32 in *. rewrite Z2Nat.id by lia.
  assert (exists k', ksys_read k fd buf len = Some (k', n) /\ kernel_inv k' /\
    fd_table k' = <[Z.to_nat fd := set_offset (fd_offset e + n) e]> (fd_table k) /\
    (forall x, ~ buf <= x < buf + len -> k_mem k' x = k_mem k x) /\
    load_bytes (k_mem k') buf (Z.to_nat n) = out) as (k' & Hk' & Hi' & Hf' & Hm' & Hout).
  { destruct (ksys_read k fd buf len) as [[k' r]|] eqn:Ek.
    2:{ exfalso. revert Ek. unfold ksys_read. rewrite Hv, Hs, He, Hrd. cbn [negb].
        rewrite (proj2 (Z.eqb_neq fd 0)) by lia. destruct (if negb _ then _ else _). by destruct (_ <=? _). }
    pose proof (co_inv _ _ (read_call k fd buf len k' r Hi Hr Hb Hl Ek)) as Hi'.
    revert Ek. unfold ksys_read. rewrite Hv, Hs, He, Hrd. cbn [negb].
    rewrite (proj2 (Z.eqb_neq fd 0)) by lia. fold (fd_source e).
    destruct (fd_source e) as [src size]. cbn [fst snd] in Hsz, Hsrc. subst src size.
    destruct (fd_size e <=? fd_offset e) eqn:Ele; zify_bool.
    - intros [= <- <-]. exists k. assert (n = 0) as Hn0 by lia. unfold out. rewrite Hn0.
      split_and!; try done. symmetry. apply list_insert_id. rewrite He, Z.add_0_r. by destruct e.
    - fold n. rewrite s32_small by (unfold ELF_USER_IMAGE_MAX, INT_MAX in *; lia).
      intros [= <- <-]. destruct (Hblk ltac:(lia)) as [? ?]. destruct Hf. unfold apart in *.
      eexists. split_and!; [done|done|done| |].
      + intros x Hx. apply copy_loop_out; [split; lia|split; lia|lia|lia].
      + apply copy_loop_bytes; [apply Hi|split; lia|split; lia|lia]. }
  assert (0 <= n) as Hn0 by lia. cbn [pos]. rewrite Z2Nat.id by lia.
  exists k'. split_and!; try done.
  - unfold file_of. cbn [fd_offset set_offset]. f_equal.
    apply (fd_bytes_frame k k' e); try done. intros x Hx _. apply Hm'. unfold apart in *. lia.
  - intros pid fd' Hne. apply (other_files k k' (Z.to_nat fd) e (set_offset (fd_offset e + n) e)); try done.
    + intros x Hx. left. apply Hm'. unfold apart in *. lia.
    + rewrite Hp, Z2Nat.id by lia. done.
Qed.

(** C13: [ksys_read] on a descriptor the program opened for reading is the read
    of the abstract file: the bytes from the position on, as many as were asked
    for and are there, arrive in the program's buffer, the position moves behind
    them, and the result is their number, 0 at the end of the file.  It always
    returns, and every other open file is what it was. *)
Theorem fd_read_refines k fd buf len e :
  kernel_inv k -> ring3_active k = true -> is_u32 buf -> is_u32 len ->
  validate_user_ptr k buf (if len =? 0 then 1 else len) = true ->
  entry_for k (k_pid k) fd = Some e -> readable e = true ->
  let '(out, f') := file_read (Z.to_nat len) (file_of k e) in
  exists k', ksys_read k fd buf len = Some (k', Z.of_nat (length out)) /\ kernel_inv k' /\
    load_bytes (k_mem k') buf (length out) = out /\
    open_file k' (k_pid k) fd = Some f' /\
    forall pid fd', (pid, fd') <> (k_pid k, fd) -> open_file k' pid fd' = open_file k pid fd'.
Proof.
  intros Hi Hr Hb Hl Hv Hen Hrd. pose proof (read_entry k fd buf len e Hi Hr Hb Hl Hv Hen Hrd) as H1.
  destruct (file_read _ _) as [out f']. destruct H1 as (k' & Hk' & Hi' & Hout & Hf' & Hfile & _ & Hoth).
  exists k'. split_and!; try done. pose proof Hen as (_ & _ & Hu & Hp)%entry_for_iff. rewrite <- Hp in *.
  by rewrite (changed_file k k' fd e (set_offset (Z.of_nat (pos f')) e)), Hfile.
Qed.

(** ** Opening and closing *)

Context `{MountFsLaws}.

(** A file that is closed. *)
Lemma closed_file k fd slot e :
  entry_for k (k_pid k) fd = Some e -> slot = Z.to_nat fd ->
  forall k', fd_table k' = <[slot := fd_reset e]> (fd_table k) -> open_file k' (k_pid k) fd = None.
Proof using.
  intros (Hr & He & _)%entry_for_iff -> k' Hf. unfold open_file.
  assert (entry_for k' (k_pid k) fd = None) as ->; [|done].
  apply eq_None_not_Some. intros [e1 (_ & He1 & Hu1 & _)%entry_for_iff].
  rewrite Hf, list_lookup_insert_eq in He1 by (by apply lookup_lt_Some in He).
  injection He1 as <-. done.
Qed.

(** Files of entries that stay in the table, when the heap keeps its blocks. *)
Lemma kept_file k k' pid fd :
  kernel_inv k -> fd_table k' !! Z.to_nat fd = fd_table k !! Z.to_nat fd ->
  (forall x, h_start (k_heap k) <= x < h_current (k_heap k) -> k_mem k' x = k_mem k x) ->
  open_file k' pid fd = open_file k pid fd.
Proof using.
  intros Hi Hf Hm. unfold open_file.
  assert (entry_for k' pid fd = entry_for k pid fd) as ->.
  { apply option_eq. intros e. by rewrite !entry_for_iff, Hf. }
  destruct (entry_for k pid fd) as [e|] eqn:E; [|done]. apply entry_for_iff in E as (_ & He & Hu & _).
  cbn. unfold file_of. do 2 f_equal.
  apply fd_bytes_frame; try done; [|intros x Hx _; by apply Hm].
  exact (Forall_lookup_1 _ _ _ _ (fi_ok _ _ (ki_fds _ Hi)) He).
Qed.

(** Memory that only grows keeps the open files and what is outside the heap. *)
Lemma tree_keeps k v :
  kernel_inv k -> heap_inv (vheap v) -> mem_step (k_heap k) (k_mem k) (vheap v) (vmem v) ->
  (forall x, ~ h_current (k_heap k) <= x < h_limit (k_heap k) -> k_mem (with_vfs v k) x = k_mem k x) /\
  forall pid fd e, entry_for k pid fd = Some e ->
    entry_for (with_vfs v k) pid fd = Some e /\ file_of (with_vfs v k) e = file_of k e.
Proof using.
  intros Hi Hh Hst. pose proof (hi_current _ Hh) as Hcur. destruct (ms_ext _ _ _ _ Hst) as [_ Hlim _ _].
  split.
  - intros x Hx. apply (ms_same _ _ _ _ Hst). lia.
  - intros pid fd e He. split; [done|]. unfold file_of. f_equal.
    pose proof He as (_ & He' & Hu & _)%entry_for_iff.
    apply (fd_bytes_frame k); try done; [exact (Forall_lookup_1 _ _ _ _ (fi_ok _ _ (ki_fds _ Hi)) He')|].
    intros x Hx _. apply (ms_same _ _ _ _ Hst). lia.
Qed.

Lemma step_keeps k v :
  kernel_inv k -> vfs_step (vfs_of k) v ->
  kernel_inv (with_vfs v k) /\
  (forall x, ~ h_current (k_heap k) <= x < h_limit (k_heap k) -> k_mem (with_vfs v k) x = k_mem k x) /\
  forall pid fd e, entry_for k pid fd = Some e ->
    entry_for (with_vfs v k) pid fd = Some e /\ file_of (with_vfs v k) e = file_of k e.
Proof using All.
  intros Hi Hst. split; [apply (vfs_step_call k v Hi Hst)|].
  apply tree_keeps; [done|apply (vi_heap _ (vs_inv _ _ Hst))|exact (vs_mem _ _ Hst)].
Qed.

(** What [ksys_close] does, down to the tree and the other entries. *)
Lemma close_gives k fd e :
  kernel_inv k -> entry_for k (k_pid k) fd = Some e ->
  exists k' r, ksys_close k fd = (k', r) /\ kernel_inv k' /\
    (forall x, ~ h_current (k_heap k) <= x < h_limit (k_heap k) -> k_mem k' x = k_mem k x) /\
    (forall pid fd', fd' <> fd -> entry_for k' pid fd' = entry_for k pid fd' /\
       forall e', entry_for k pid fd' = Some e' -> file_of k' e' = file_of k e') /\
    (r = ERR_INVAL /\ writable e && dirty e = true \/
     r = 0 /\ open_file k' (k_pid k) fd = None /\ is_Some (fd_alloc_slot (fd_table k')) /\
     (writable e && dirty e = true ->
        vfs_write_file (vfs_of k) (cwd_or_root k) (fd_path e) (fd_bytes k e) = (vfs_of k', true))).
Proof using All.
  intros Hi Hen. pose proof Hen as (Hrange & He & Hu & Hp)%entry_for_iff.
  pose proof (close_call k fd Hi) as Hcall.
  assert (fd_lookup (fd_table k) fd (k_pid k) = Some (Z.to_nat fd)) as Hs
    by (apply fd_lookup_iff; split; [done|]; by eauto).
  revert Hcall. unfold ksys_close. rewrite Hs, He.
  pose proof (ki_vfs _ Hi) as Hv. pose proof (vi_heap _ Hv) as Hh. cbn [vheap vfs_of] in Hh.
  pose proof (Forall_lookup_1 _ _ _ _ (fi_ok _ _ (ki_fds _ Hi)) He) as Hok. cbn [vheap vfs_of] in Hok.
  pose proof (hi_start _ Hh). pose proof (hi_limit _ Hh). pose proof (hi_current _ Hh).
  destruct (if writable e && dirty e then _ else _) as [v written] eqn:Ew.
  assert (vfs_inv v /\ mem_step (k_heap k) (k_mem k) (vheap v) (vmem v) /\ (writable e && dirty e = false -> v = vfs_of k /\ written = true) /\
          (writable e && dirty e = true ->
           vfs_write_file (vfs_of k) (cwd_or_root k) (fd_path e) (fd_bytes k e) = (v, written))) as (Hv' & Hst & Hclean & Hdirty).
  { destruct (writable e && dirty e) eqn:E; [|injection Ew as <- <-; split; [exact Hv|split; [apply mem_step_refl|by split]]].
    apply andb_true_iff in E as [Hw _]. destruct (fo_write _ _ Hok Hu Hw) as ([? ?] & ? & Hdata & Hsz).
    rewrite (proj2 (Z.eqb_neq (write_buf e) 0)) in Ew by lia. cbn [negb] in Ew.
    assert (load_bytes (k_mem k) (write_buf e) (Z.to_nat (write_size e)) = fd_bytes k e) as Hby
      by (unfold fd_bytes; by rewrite Hdata, Hsz).
    rewrite Hby in Ew.
    destruct (write_file_spec (vfs_of k) (cwd_or_root k) (fd_path e) (fd_bytes k e) v written Hv) as (Hv' & _ & Hst & _);
      [exact (cwd_or_root_node k Hi)| |by apply load_bytes_byte, Hi|exact Ew|by split_and!].
    unfold is_u32, fd_bytes. rewrite load_bytes_length. lia. }
  destruct (tree_keeps k v Hi (vi_heap _ Hv') Hst) as (Hm1 & Hk1).
  assert (fd_reset_slot (fd_table k) (Z.to_nat fd) = <[Z.to_nat fd := fd_reset e]> (fd_table k)) as Hrs.
  { unfold fd_reset_slot, FD_MAX. rewrite (proj2 (Nat.leb_gt _ _)) by lia. by apply alter_known. }
  destruct written; cbn [negb]; intros Hcall; eexists _, _; (split; [done|]).
  - split; [apply Hcall|]. split; [exact Hm1|]. split.
    + intros pid fd' Hne. split; [|intros e' He'; by apply (Hk1 _ _ _ He')].
      apply option_eq. intros e'. rewrite !entry_for_iff. cbn [fd_table with_fds with_vfs]. rewrite Hrs.
      destruct (decide (3 <= fd' < 16)); [|tauto]. by rewrite list_lookup_insert_ne by lia.
    + right. split; [done|]. split; [by apply (closed_file k fd (Z.to_nat fd) e)|]. split.
      * cbn [fd_table with_fds with_vfs]. rewrite Hrs. eapply fd_alloc_free; [|apply list_lookup_insert_eq|done].
        -- lia.
        -- by apply lookup_lt_Some in He.
      * intros Hd. rewrite (Hdirty Hd). f_equal. by destruct v.
  - split; [apply Hcall|]. split; [exact Hm1|]. split; [intros pid fd' _; split; [done|apply Hk1]|]. left. split; [done|].
    destruct (writable e && dirty e); [done|]. by destruct (Hclean eq_refl).
Qed.

(** C14: When [ksys_close] returns 0 for a file the program has written, the file
    tree has the file: reading the path the descriptor was opened with gives
    exactly the contents the descriptor had.  The descriptor is free again, and
    every other open file is what it was. *)
Theorem fd_close_saves k fd e k' :
  kernel_inv k -> entry_for k (k_pid k) fd = Some e -> writable e = true -> dirty e = true ->
  plain_path (fd_path e) -> ksys_close k fd = (k', 0) ->
  let bytes := contents (file_of k e) in
  (exists a, vfs_read_file (vfs_of k') (cwd_or_root k) (fd_path e) =
               (vfs_of k', Some (a, Z.of_nat (length bytes))) /\
             load_bytes (k_mem k') a (length bytes) = bytes) /\
  kernel_inv k' /\ open_file k' (k_pid k) fd = None /\
  forall pid fd', fd' <> fd -> open_file k' pid fd' = open_file k pid fd'.
Proof using All.
  intros Hi Hen Hw Hd Hpl Hc. pose proof Hen as (_ & He & Hu & _)%entry_for_iff.
  destruct (close_gives k fd e Hi Hen) as (k1 & r & Hc1 & Hi1 & _ & Hoth & Hcase).
  rewrite Hc in Hc1. injection Hc1 as <- <-.
  destruct Hcase as [[Hr _]|(_ & Hnone & _ & Hwr)]; [done|]. rewrite Hw, Hd in Hwr. specialize (Hwr eq_refl).
  pose proof (ki_vfs _ Hi) as Hv. pose proof (vi_heap _ Hv) as Hh. cbn [vheap vfs_of] in Hh.
  destruct (fo_write _ _ (Forall_lookup_1 _ _ _ _ (fi_ok _ _ (ki_fds _ Hi)) He) Hu Hw) as ([? ?] & ? & _ & Hsz).
  cbn [vheap vfs_of] in *. pose proof (hi_current _ Hh). pose proof (hi_start _ Hh). pose proof (hi_limit _ Hh).
  assert (is_u32 (Z.of_nat (length (fd_bytes k e)))) as Hlen
    by (unfold is_u32, fd_bytes; rewrite load_bytes_length; lia).
  assert (all_bytes (fd_bytes k e)) as Hby by (apply load_bytes_byte, Hi).
  destruct (written_read _ _ _ _ _ Hv (cwd_or_root_node k Hi) Hpl Hlen Hby Hwr) as (n & _ & Hrd & Hl & _).
  split; [by exists (data n)|]. split; [done|]. split; [done|].
  intros pid fd' Hne. destruct (Hoth pid fd' Hne) as [Heq Hfile]. unfold open_file. rewrite Heq.
  destruct (entry_for k pid fd') as [e'|] eqn:E'; [|done]. cbn. by rewrite (Hfile e').
Qed.

Definition opens_for_write (flags : Z) : bool :=
  (Z.land flags O_ACCMODE =? O_WRONLY) || (Z.land flags O_ACCMODE =? O_RDWR).
Definition flag_set (flags flag : Z) : bool := negb (Z.land flags flag =? 0).

(** The tree after the file was made, if [flags] ask for it. *)
Definition tree_for_open (k : kernel) (full : list Z) (flags : Z) : vfs * bool :=
  if flag_set flags O_CREAT then vfs_touch (vfs_of k) (cwd_or_root k) full else (vfs_of k, true).

(** The file a program gets that opens a file of contents [bytes]. *)
Definition opened_file (bytes : list Z) (flags : Z) : file :=
  let bytes := if opens_for_write flags && flag_set flags O_TRUNC then [] else bytes in
  {| contents := bytes; pos := if flag_set flags O_APPEND then length bytes else 0%nat |}.

(** The table entry [ksys_open] makes for a file read into [(d, size)]. *)
Lemma open_entry k2 slot e0 d size flags full k' r :
  let wr := opens_for_write flags in
  let trunc := flag_set flags O_TRUNC in
  let e := fd_open e0 (k_pid k2) (negb (Z.land flags O_ACCMODE =? O_WRONLY)) wr d size flags full in
  kernel_inv k2 -> fd_table k2 !! slot = Some e0 -> fd_used e0 = false -> 0 <= size ->
  (d = 0 /\ size = 0 \/ block_in (k_heap k2) d (size + 1)) ->
  (if negb wr then (with_fds (<[slot := e]> (fd_table k2)) k2, Z.of_nat slot)
   else match fd_ensure_write_capacity (k_heap k2) (k_mem k2) e ((if trunc then 0 else size) +u 1) with
        | None => (with_fds (<[slot := fd_reset e]> (fd_table k2)) k2, ERR_INVAL)
        | Some (h, m, e) =>
            let '(m, e) := fd_fill m e d (if trunc then 0 else size) trunc in
            (with_fds (<[slot := e]> (fd_table k2)) (with_heap_mem h m k2), Z.of_nat slot)
        end) = (k', r) ->
  (exists e2, fd_table k' = <[slot := e2]> (fd_table k2) /\
     (r = ERR_INVAL /\ wr = true /\ fd_used e2 = false \/
      r = Z.of_nat slot /\ fd_used e2 = true /\ fd_pid e2 = k_pid k2 /\ writable e2 = wr /\
      readable e2 = negb (Z.land flags O_ACCMODE =? O_WRONLY) /\
      dirty e2 = wr && trunc /\ fd_path e2 = str_copy (fd_path (fd_reset e0)) full 128 /\
      file_of k' e2 = opened_file (load_bytes (k_mem k2) d (Z.to_nat size)) flags)) /\
  (forall x, ~ h_current (k_heap k2) <= x < h_limit (k_heap k2) -> k_mem k' x = k_mem k2 x).
Proof using.
  intros wr trunc e Hi He Hu Hs Hb. unfold opened_file. fold wr trunc.
  destruct wr eqn:Ewr; cbn [negb andb].
  - destruct (fd_ensure_write_capacity _ _ _ _) as [[[h m] e1]|] eqn:Een.
    + destruct (fd_fill m e1 d _ trunc) as [m2 e2] eqn:Ef. intros [= <- <-].
      destruct (open_write_call k2 slot e0 _ d size flags full trunc h m e1 m2 e2 Hi He Hu Hs Hb Een Ef)
        as (Hc & (Hu2 & Hp2 & Hr2 & Hw2 & Hsz2 & Ho2 & Hd2 & Hpa2) & Hl & Hm).
      split; [|exact Hm]. exists e2. split; [done|right]. split_and!; try done.
      unfold file_of, fd_bytes. rewrite Hsz2, Ho2. change (k_mem (with_fds _ _)) with m2. rewrite Hl.
      unfold flag_set.
      destruct trunc, (negb (Z.land flags O_APPEND =? 0)); by rewrite ?load_bytes_length.
    + intros [= <- <-]. split; [|done]. eexists. split; [done|left]. done.
  - intros [= <- <-]. split; [|done]. eexists. split; [done|right]. split_and!; try done.
    unfold file_of, fd_bytes. cbn [fd_data fd_size fd_offset e fd_open]. change (k_mem (with_fds _ _)) with (k_mem k2).
    rewrite load_bytes_length. unfold flag_set. by destruct (negb (Z.land flags O_APPEND =? 0)).
Qed.

(** What [ksys_open] does, down to the table entry. *)
Lemma open_gives k path flags p full k' r :
  kernel_inv k -> path <> 0 -> copy_user_cstr k path 128 = Some p ->
  make_abs_path k (cwd_or_root k) p 128 = Some full -> ksys_open k path flags = (k', r) ->
  let '(v1, touched) := tree_for_open k full flags in
  match touched, snd (vfs_read_file v1 (cwd_or_root k) full), fd_alloc_slot (fd_table k) with
  | true, Some (d, size), Some slot =>
      let v2 := fst (vfs_read_file v1 (cwd_or_root k) full) in
      r = ERR_INVAL /\ opens_for_write flags = true \/
      r = Z.of_nat slot /\ entry_for k (k_pid k) r = None /\
      exists e0 e2, length (fd_path e0) = 128%nat /\ entry_for k' (k_pid k) r = Some e2 /\
        writable e2 = opens_for_write flags /\
        readable e2 = negb (Z.land flags O_ACCMODE =? O_WRONLY) /\
        dirty e2 = opens_for_write flags && flag_set flags O_TRUNC /\
        fd_path e2 = str_copy (fd_path (fd_reset e0)) full 128 /\
        file_of k' e2 = opened_file (load_bytes (vmem v2) d (Z.to_nat size)) flags
  | true, Some _, None => r = ERR_NFILE
  | _, _, _ => r = ERR_INVAL
  end /\ kernel_inv k' /\
  (forall x, ~ h_current (k_heap k) <= x < h_limit (k_heap k) -> k_mem k' x = k_mem k x) /\
  forall pid fd e, entry_for k pid fd = Some e ->
    entry_for k' pid fd = Some e /\ file_of k' e = file_of k e.
Proof using All.
  intros Hi Hz Hcp Hab Ho. pose proof (open_call k path flags Hi) as Hcall. rewrite Ho in Hcall. cbn [fst] in Hcall.
  revert Ho. unfold ksys_open. rewrite (proj2 (Z.eqb_neq path 0)), Hcp, Hab by done.
  fold (flag_set flags O_CREAT) (tree_for_open k full flags) (opens_for_write flags) (flag_set flags O_TRUNC).
  destruct (tree_for_open k full flags) as [v1 touched] eqn:Et.
  assert (vfs_step (vfs_of k) v1) as Hs1.
  { unfold tree_for_open in Et. destruct (flag_set _ _) in Et; [|injection Et as <- _; apply vfs_step_refl, Hi].
    by apply (touch_spec _ _ _ _ _ (ki_vfs _ Hi) (cwd_or_root_node k Hi) Et). }
  destruct (step_keeps k v1 Hi Hs1) as (Hi1 & Hm1 & Hk1).
  destruct touched; cbn [negb]; [|intros [= <- <-]; split; [done|]; split; [done|]; by split].
  rewrite (vfs_of_with v1 k).
  assert (cwd_or_root (with_vfs v1 k) = cwd_or_root k) as ->.
  { unfold cwd_or_root. cbn [user_cwd k_root with_vfs]. by rewrite (gr_root _ _ (vs_grows _ _ Hs1)). }
  set (k1 := with_vfs v1 k) in *.
  destruct (vfs_read_file v1 _ full) as [v2 rd] eqn:Er. cbn [fst snd].
  assert (vfs_step v1 v2) as Hs2 by (by eapply read_file_step; [apply Hs1|]).
  assert (vfs_step (vfs_of k1) v2) as Hs2' by (unfold k1; by rewrite vfs_of_with).
  destruct (step_keeps k1 v2 Hi1 Hs2') as (Hi2 & Hm2 & Hk2). set (k2 := with_vfs v2 k1) in *.
  assert (forall x, ~ h_current (k_heap k) <= x < h_limit (k_heap k) -> k_mem k2 x = k_mem k x) as Hmem.
  { destruct (ms_ext _ _ _ _ (vs_mem _ _ Hs1)) as [_ Hlim _ Hcur]. cbn [vheap vfs_of] in Hlim, Hcur.
    intros x Hx. rewrite Hm2 by (cbn [k_heap with_vfs k1]; lia). by apply Hm1. }
  assert (forall pid fd e, entry_for k pid fd = Some e ->
    entry_for k2 pid fd = Some e /\ file_of k2 e = file_of k e) as Hkeep.
  { intros pid fd e He. destruct (Hk1 _ _ _ He) as [He1 Hf1]. destruct (Hk2 _ _ _ He1) as [He2 Hf2].
    split; [done|congruence]. }
  destruct rd as [[d size]|]; [|intros [= <- <-]; split; [done|]; by split].
  destruct (read_file_block _ _ _ _ _ _ (vs_inv _ _ Hs1) Er) as (Hsz & Hb & _).
  change (vheap v2) with (k_heap k2) in Hb. change (fd_table k) with (fd_table k2).
  destruct (fd_alloc_slot (fd_table k2)) as [slot|] eqn:Ea; [|intros [= <- <-]; split; [done|]; by split].
  destruct (fd_alloc_spec _ _ Ea) as (e0 & He0 & Hu0). rewrite He0. intros Hend.
  destruct (open_entry k2 slot e0 d size flags full k' r Hi2 He0 Hu0 Hsz Hb Hend) as [(e2 & Hf & Hcase) Hm].
  assert (3 <= Z.of_nat slot < 16 /\ (slot < length (fd_table k2))%nat) as [Hslot Hlt].
  { pose proof (lookup_lt_Some _ _ _ He0) as Hlt. split; [|done].
    rewrite (fi_len _ _ (ki_fds _ Hi2)) in Hlt. unfold FD_MAX in Hlt.
    unfold fd_alloc_slot in Ea. apply fmap_Some in Ea as (i & _ & ->). lia. }
  assert (h_current (k_heap k) <= h_current (k_heap k2) /\ h_limit (k_heap k2) = h_limit (k_heap k)) as [Hcur Hlim].
  { destruct (ms_ext _ _ _ _ (vs_mem _ _ Hs1)) as [_ Hl1 _ Hc1], (ms_ext _ _ _ _ (vs_mem _ _ Hs2)) as [_ Hl2 _ Hc2].
    cbn [vheap vfs_of] in *. cbn [k_heap with_vfs k2]. lia. }
  split; [|split; [apply Hcall|split]].
  - destruct Hcase as [(-> & ? & _)|(-> & Hu2 & Hp2 & Hw2 & Hr2 & Hd2 & Hpa2 & Hfile)]; [by left|right].
    split; [done|]. split.
    { apply eq_None_not_Some. intros [e (_ & He & Hu & _)%entry_for_iff]. rewrite Nat2Z.id in He.
      change (fd_table k) with (fd_table k2) in He. congruence. }
    exists e0, e2. split; [exact (fo_path _ _ (Forall_lookup_1 _ _ _ _ (fi_ok _ _ (ki_fds _ Hi2)) He0))|].
    split; [|done]. apply entry_for_iff. rewrite Nat2Z.id, Hf.
    split; [done|split; [by apply list_lookup_insert_eq|done]].
  - intros x Hx. rewrite Hm by lia. by apply Hmem.
  - intros pid fd e He. destruct (Hkeep _ _ _ He) as [He2 Hf2].
    pose proof He2 as (Hr & He2' & Hu & Hp)%entry_for_iff.
    assert (Z.to_nat fd <> slot) as Hne by (intros <-; congruence).
    split.
    + apply entry_for_iff. rewrite Hf, list_lookup_insert_ne by done. done.
    + rewrite <- Hf2. unfold file_of. f_equal. apply (fd_bytes_frame k2 k'); try done.
      * exact (Forall_lookup_1 _ _ _ _ (fi_ok _ _ (ki_fds _ Hi2)) He2').
      * intros x Hx _. apply Hm. lia.
Qed.

(** What [ksys_open] returns.  For a path that can be read, the path is made
    absolute from the current directory and the file is read, after it was made
    if O_CREAT asks for that.  If it is there and a descriptor is free, the
    result is that descriptor, now the program's, and behind it is a file with
    exactly the contents of the path (none after O_TRUNC), at its start or, with
    O_APPEND, at its end; without room for the buffer the result is ERR_INVAL.
    If the file is not there the result is ERR_INVAL, if no descriptor is free
    ERR_NFILE.  Every open file is what it was. *)
Theorem fd_open_gives k path flags p full k' r :
  kernel_inv k -> path <> 0 -> copy_user_cstr k path 128 = Some p ->
  make_abs_path k (cwd_or_root k) p 128 = Some full -> ksys_open k path flags = (k', r) ->
  let '(v1, touched) := tree_for_open k full flags in
  match touched, snd (vfs_read_file v1 (cwd_or_root k) full), fd_alloc_slot (fd_table k) with
  | true, Some (d, size), Some slot =>
      let v2 := fst (vfs_read_file v1 (cwd_or_root k) full) in
      r = ERR_INVAL /\ opens_for_write flags = true \/
      r = Z.of_nat slot /\
      open_file k' (k_pid k) r = Some (opened_file (load_bytes (vmem v2) d (Z.to_nat size)) flags)
  | true, Some _, None => r = ERR_NFILE
  | _, _, _ => r = ERR_INVAL
  end /\ kernel_inv k' /\
  forall pid fd f, open_file k pid fd = Some f -> open_file k' pid fd = Some f.
Proof using All.
  intros Hi Hz Hcp Hab Ho. pose proof (open_gives k path flags p full k' r Hi Hz Hcp Hab Ho) as Hgives.
  destruct (tree_for_open k full flags) as [v1 touched]. destruct Hgives as (Hcase & Hi' & _ & Hoth). split; [|split; [done|]].
  - destruct touched; [|done]. destruct (snd (vfs_read_file _ _ _)) as [[d size]|]; [|done].
    destruct (fd_alloc_slot _) as [slot|]; [|done].
    destruct Hcase as [?|(-> & _ & e0 & e2 & _ & He & _ & _ & _ & _ & Hf)]; [by left|right].
    split; [done|]. unfold open_file. by rewrite He, <- Hf.
  - intros pid fd f Hf. unfold open_file in *. destruct (entry_for k pid fd) as [e|] eqn:E; [|done].
    destruct (Hoth pid fd e E) as [-> Hfe]. cbn in *. by rewrite Hfe.
Qed.

(** ** Whatever a program does *)

(** A step of the running program: a store to its own memory, or a system call. *)
Inductive program_step k k' : Prop :=
  | program_store m :
      (forall x, m x = k_mem k x \/ user_byte k x) -> mem_ok m -> k' = with_mem m k ->
      program_step k k'
  | program_call num a1 a2 a3 r :
      is_u32 a1 -> is_u32 a2 -> is_u32 a3 -> syscall_entry k num a1 a2 a3 = Some (k', r) ->
      program_step k k'.

(** The image and the stack of a program are outside the heap. *)
Lemma user_byte_range k x :
  kernel_inv k -> user_byte k x -> x < kernel_end \/ USER_IMAGE_RESERVED_BASE <= x.
Proof using.
  intros Hi (image & Him & Hld & Hor).
  pose proof (ck_images _ (ki_core _ Hi) _ _ Him Hld) as Hio.
  destruct (image_ranges _ Hio) as (? & ? & ? & ? & ? & ? & ? & ? & ?).
  unfold in_image, in_stack in Hor. lia.
Qed.

Lemma program_step_ok k k' :
  kernel_inv k -> ring3_active k = true -> program_step k k' -> call_ok k k'.
Proof using All.
  intros Hi Hr [m Hm Hok -> |num a1 a2 a3 r Ha1 Ha2 Ha3 Hs].
  - pose proof (ki_heap _ Hi). pose proof (ki_limit _ Hi).
    pose proof (hi_current _ (vi_heap _ (ki_vfs _ Hi))) as Hcur. cbn [vheap vfs_of] in Hcur.
    assert (kernel_inv (with_mem m k)) as Hi'.
    { apply set_mem_inv; [done|done|]. intros x Hx.
      destruct (Hm x) as [?|Hu]; [done|]. destruct (user_byte_range k x Hi Hu); lia. }
    constructor; try done.
    + intros x. destruct (Hm x); auto.
    + constructor; [done|]. intros a n Hn. by exists n.
  - exact (syscall_ok _ _ _ _ _ _ _ Hi Hr Ha1 Ha2 Ha3 Hs).
Qed.

Lemma program_run_ok k k' :
  kernel_inv k -> ring3_active k = true -> rtc program_step k k' ->
  kernel_inv k' /\ ring3_active k' = true /\ k_pid k' = k_pid k /\
  (forall i e, fd_table k !! i = Some e -> fd_used e = true -> fd_pid e <> k_pid k ->
     fd_table k' !! i = Some e) /\
  heap_ext (k_heap k) (k_heap k') /\ grows (vfs_of k) (vfs_of k').
Proof using All.
  intros Hi Hr Hrun. induction Hrun as [k|k k1 k' Hs _ IH].
  - split_and!; try done. apply grows_refl.
  - destruct (program_step_ok k k1 Hi Hr Hs) as [Hi1 _ Hf1 Hh1 Hg1 (Hr1 & Hp1 & _)].
    rewrite Hr in Hr1. destruct (IH Hi1 Hr1) as (? & ? & Hp & Hf & Hh & Hg).
    assert (k_pid k1 = k_pid k) as Hpid by (unfold k_pid; by rewrite Hp1).
    split; [done|]. split; [done|]. split; [congruence|].
    split; [|split; [by etransitivity|by eapply grows_trans]].
    intros i e He Hu Hne. apply Hf; [by apply Hf1|done|by rewrite Hpid].
Qed.


(** No descriptor is free. *)
Lemma open_table_full k path flags :
  fd_alloc_slot (fd_table k) = None -> snd (ksys_open k path flags) < 0.
Proof using.
  intros Hn. unfold ksys_open, ERR_INVAL, ERR_FAULT, ERR_NFILE.
  destruct (path =? 0); [done|]. destruct (copy_user_cstr k path 128) as [p|]; [|done].
  destruct (make_abs_path _ _ p 128) as [full|]; [|done].
  destruct (if negb (Z.land flags O_CREAT =? 0) then _ else _) as [v1 [|]]; cbn [negb]; [|done].
  destruct (vfs_read_file _ _ full) as [v2 [[d size]|]]; [|done].
  change (fd_table (with_vfs v2 (with_vfs v1 k))) with (fd_table k). by rewrite Hn.
Qed.

(** Nothing but [ksys_close] by the process itself frees a descriptor, so
    the descriptors of a process that has ended stay taken: once the thirteen of
    the table belong to processes that no longer run, every [ksys_open] of every
    other program fails, whatever the program does before. *)
Theorem fd_leak k k' path flags :
  kernel_inv k -> ring3_active k = true ->
  (forall i, (3 <= i < FD_MAX)%nat ->
     exists e, fd_table k !! i = Some e /\ fd_used e = true /\ fd_pid e <> k_pid k) ->
  rtc program_step k k' -> snd (ksys_open k' path flags) < 0.
Proof using All.
  intros Hi Hr Hfull Hrun. destruct (program_run_ok k k' Hi Hr Hrun) as (Hi' & _ & _ & Hf & _).
  apply open_table_full. unfold fd_alloc_slot. apply fmap_None, first_slot_None.
  intros i e He. rewrite lookup_drop in He.
  pose proof (lookup_lt_Some _ _ _ He) as Hlt. rewrite (fi_len _ _ (ki_fds _ Hi')) in Hlt.
  destruct (Hfull (3 + i)%nat ltac:(lia)) as (e' & He' & Hu & Hp).
  rewrite (Hf _ _ He' Hu Hp) in He. injection He as <-. by rewrite Hu.
Qed.

End files.

(** ** A program that writes a file and reads it back *)

Definition demo_entry : fd_entry := {|
  fd_used := true; fd_pid := 1; readable := true; writable := true; fd_data := 1573456; fd_size := 0;
  fd_offset := 0; fd_path := [47; 102] ++ replicate 126 0; write_buf := 1573456; write_size := 0;
  write_capacity := 256; dirty := false |}.

Lemma demo_entry_at : entry_for demo_opened 1 3 = Some demo_entry.
Proof. vm_compute. reflexivity. Qed.

#[local] Existing Instances no_mount no_mount_laws.

Definition demo_written : kernel := fst (ksys_write demo_opened 3 0x300003 2).
Definition demo_closed : kernel := fst (ksys_close demo_written 3).
Definition demo_reopened : kernel := fst (ksys_open demo_closed 0x300000 0).

Definition demo_entry_written : fd_entry := {|
  fd_used := true; fd_pid := 1; readable := true; writable := true; fd_data := 1573456; fd_size := 2;
  fd_offset := 2; fd_path := [47; 102] ++ replicate 126 0; write_buf := 1573456; write_size := 2;
  write_capacity := 256; dirty := true |}.
Definition demo_entry_reopened : fd_entry := {|
  fd_used := true; fd_pid := 1; readable := true; writable := false; fd_data := 1573712; fd_size := 2;
  fd_offset := 0; fd_path := [47; 102] ++ replicate 126 0; write_buf := 0; write_size := 0;
  write_capacity := 0; dirty := false |}.

Lemma demo_opened_runs : ring3_active demo_opened = true /\ k_pid demo_opened = 1 /\
  validate_user_ptr demo_opened 0x300003 2 = true.
Proof. vm_compute. split_and!; reflexivity. Qed.

Lemma demo_written_inv : kernel_inv (H := demo_linker) demo_written.
Proof.
  apply (co_inv (H := demo_linker) demo_opened).
  apply (write_call (H := demo_linker) demo_opened 3 0x300003 2 demo_opened_inv);
    [apply demo_opened_runs|unfold is_u32; lia..].
Qed.

Lemma demo_written_at : entry_for demo_written 1 3 = Some demo_entry_written /\ k_pid demo_written = 1.
Proof. vm_compute. split; reflexivity. Qed.

Lemma demo_closed_inv : kernel_inv (H := demo_linker) demo_closed.
Proof. exact (co_inv (H := demo_linker) _ _ (close_call (H := demo_linker) demo_written 3 demo_written_inv)). Qed.

Lemma demo_reopened_inv : kernel_inv (H := demo_linker) demo_reopened.
Proof. exact (co_inv (H := demo_linker) _ _ (open_call (H := demo_linker) demo_closed 0x300000 0 demo_closed_inv)). Qed.

Lemma demo_reopened_at : entry_for demo_reopened 1 3 = Some demo_entry_reopened /\ k_pid demo_reopened = 1 /\
  ring3_active demo_reopened = true /\ validate_user_ptr demo_reopened 0x300010 8 = true /\
  file_of demo_reopened demo_entry_reopened = {| contents := [104; 105]; pos := 0 |}.
Proof. vm_compute. split_and!; reflexivity. Qed.


Lemma fd_close_saves_witness :
  exists k', ksys_close demo_written 3 = (k', 0) /\ open_file k' 1 3 = None /\
    exists a, vfs_read_file (vfs_of k') (cwd_or_root demo_written) (lit "/f" ++ replicate 126 0) =
      (vfs_of k', Some (a, 2)).
Proof.
  destruct demo_written_at as [He Hp]. rewrite <- Hp in He.
  assert (length (contents (file_of demo_written demo_entry_written)) = 2%nat) as Hl by (vm_compute; reflexivity).
  assert (snd (ksys_close demo_written 3) = 0) as Hs by (vm_compute; reflexivity).
  destruct (ksys_close demo_written 3) as [k' r] eqn:E. cbn [snd] in Hs. subst r. exists k'.
  split; [reflexivity|].
  assert (plain_path (fd_path demo_entry_written)) as Hpl by (left; change (cstr (fd_path demo_entry_written)) with [47; 102]; constructor).
  destruct (fd_close_saves (H := demo_linker) demo_written 3 demo_entry_written k' demo_written_inv He
    eq_refl eq_refl Hpl E) as ((a & Ha & _) & _ & Ho & _).
  rewrite Hp in Ho. split; [exact Ho|]. exists a. rewrite Hl in Ha. exact Ha.
Defined.

Lemma fd_read_refines_witness :
  exists k', ksys_read demo_reopened 3 0x300010 8 = Some (k', 2) /\
    load_bytes (k_mem k') 0x300010 2 = lit "hi" /\
    open_file k' 1 3 = Some {| contents := lit "hi"; pos := 2 |}.
Proof.
  destruct demo_reopened_at as (He & Hp & Hr & Hv & Hf). rewrite <- Hp in He.
  pose proof (fd_read_refines (H := demo_linker) demo_reopened 3 0x300010 8 demo_entry_reopened
    demo_reopened_inv Hr ltac:(unfold is_u32; lia) ltac:(unfold is_u32; lia) Hv He eq_refl) as Hread.
  rewrite Hf in Hread. destruct Hread as (k' & Hk & _ & Hb & Ho & _).
  exists k'. split; [exact Hk|]. split; [exact Hb|]. rewrite <- Hp. exact Ho.
Defined.

Lemma fd_open_gives_witness :
  kernel_inv (H := demo_linker) demo_reopened /\
  snd (ksys_open demo_closed 0x300000 0) = 3 /\ open_file demo_reopened 1 3 = Some {| contents := lit "hi"; pos := 0 |}.
Proof.
  assert (copy_user_cstr demo_closed 0x300000 128 = Some (lit "/f" ++ [0])) as Hc by (vm_compute; reflexivity).
  assert (make_abs_path demo_closed (cwd_or_root demo_closed) (lit "/f" ++ [0]) 128 = Some (lit "/f")) as Ha
    by (vm_compute; reflexivity).
  pose proof (fd_open_gives (H := demo_linker) demo_closed 0x300000 0 _ _ demo_reopened
    (snd (ksys_open demo_closed 0x300000 0)) demo_closed_inv ltac:(lia) Hc Ha (surjective_pairing _)) as Ho.
  destruct (tree_for_open demo_closed (lit "/f") 0) as [v touched]. destruct Ho as (_ & Hi & _).
  split; [exact Hi|]. split; vm_compute; reflexivity.
Defined.


(** All descriptors belong to process 9, which is gone. *)
Definition fd_left : fd_entry := {|
  fd_used := true; fd_pid := 9; readable := true; writable := false; fd_data := 0; fd_size := 0;
  fd_offset := 0; fd_path := replicate 128 0; write_buf := 0; write_size := 0; write_capacity := 0;
  dirty := false |}.
Definition fds_left : list fd_entry := replicate 3 fd_boot ++ replicate 13 fd_left.

Lemma fds_left_inv v : fds_inv v fds_left.
Proof.
  assert (Forall (fun e => e = fd_boot \/ e = fd_left) fds_left) as Hall.
  { unfold fds_left. apply Forall_app; split; apply Forall_replicate; auto. }
  assert (forall i e, fds_left !! i = Some e -> writable e = false) as Hw.
  { intros i e He. by destruct (Forall_lookup_1 _ _ _ _ Hall He) as [-> | ->]. }
  constructor; [done| | |].
  - revert Hall. apply Forall_impl. intros e [-> | ->]; constructor; try done. intros _ _. split_and!; auto.
  - intros i e _ _ j e' _ He' _ Hwr. by rewrite (Hw _ _ He') in Hwr.
  - intros i e c n He _ Hwr. by rewrite (Hw _ _ He) in Hwr.
Qed.

Lemma with_fds_inv `{Linker} k fds :
  kernel_inv k -> fds_inv (vfs_of k) fds -> kernel_inv (with_fds fds k).
Proof. intros [] Hf. by constructor. Qed.

Lemma fd_leak_witness : snd (ksys_open (with_fds fds_left demo_kernel) 0x300000 0x42) < 0.
Proof.
  apply (fd_leak (H := demo_linker) (with_fds fds_left demo_kernel) (with_fds fds_left demo_kernel)).
  - exact (with_fds_inv (H := demo_linker) demo_kernel fds_left demo_kernel_inv (fds_left_inv _)).
  - reflexivity.
  - intros i Hi. exists fd_left. split; [|split; [reflexivity|discriminate]].
    change (fds_left !! i = Some fd_left). unfold fds_left, FD_MAX in *.
    rewrite lookup_app_r, lookup_replicate, length_replicate by (rewrite length_replicate; lia).
    split; [reflexivity|lia].
  - apply rtc_refl.
Defined.
