(* ===== verification/Usys.v ===== *)
(** * Usys: the system calls as a program makes them

    [src/user/sys.h] wraps [int 0x80], [slop_io.h] adds the loops the C library
    writes with.  What the machine does between the [int 0x80] of a program and
    the next instruction of that program is the class [UserOs]; the library and
    the programs are defined against it.  [UserOsLaws] says what they may rely
    on; UKernel.v proves it of the kernel. *)
From S2P Require Import Prelude KernelH Util Memory Heap Proc Sched Iface Service Elf Core Ipc Storage IsoFs Vfs VfsTree Syscall FdTable Kernel Files.
Local Open Scope Z_scope.
Local Open Scope slop_scope.

(** A state of the machine as the running program sees it: its memory, and
    [int 0x80] with eax, ebx, ecx and edx, which gives the state in which the
    program goes on and its eax.  [None] when the program never goes on. *)
Class UserOs (K : Type) := {
  umem : K -> mem;
  set_umem : mem -> K -> K;
  int80 : K -> Z -> Z -> Z -> Z -> option (K * Z)
}.

(** ** The wrappers of [sys.h] *)

Section sys.
Context {K : Type} `{!UserOs K}.

(** [int ret; asm("int $0x80" : "=a"(ret) : ..)].  A register a wrapper does
    not load is one its call does not look at; it is 0 here. *)
Definition sys_call (k : K) (nr b c d : Z) : option (K * Z) :=
  '(k, eax) ← int80 k nr b c d; Some (k, s32 eax).

Definition sys_read (k : K) (fd buf len : Z) := sys_call k 0 (u32 fd) buf len.
Definition sys_write (k : K) (fd buf len : Z) := sys_call k 1 (u32 fd) buf len.
Definition sys_open (k : K) (path flags : Z) := sys_call k 2 path flags 0.
Definition sys_close (k : K) (fd : Z) := sys_call k 3 (u32 fd) 0 0.
Definition sys_mkdir (k : K) (path : Z) := sys_call k 83 path 0 0.
Definition sys_getcwd (k : K) (buf len : Z) := sys_call k 183 buf len 0.
Definition sys_getpid (k : K) := sys_call k 20 0 0 0.
Definition sys_list (k : K) (path : Z) := sys_call k 241 path 0 0.
Definition sys_systeminfo (k : K) := sys_call k 242 0 0 0.
Definition sys_ps (k : K) := sys_call k 243 0 0 0.
Definition sys_meminfo (k : K) (info : Z) := sys_call k 244 info 0 0.
Definition sys_ipc_send (k : K) (msg : Z) := sys_call k 245 msg 0 0.
Definition sys_ipc_recv (k : K) (msg : Z) := sys_call k 246 msg 0 0.
Definition sys_ipc_reply (k : K) (msg : Z) := sys_call k 247 msg 0 0.
Definition sys_yield (k : K) := sys_call k 248 0 0 0.
Definition sys_service_register (k : K) (name : Z) := sys_call k 249 name 0 0.
Definition sys_service_lookup (k : K) (name : Z) := sys_call k 250 name 0 0.
Definition sys_stat (k : K) (path st : Z) := sys_call k 251 path st 0.
Definition sys_fstat (k : K) (fd st : Z) := sys_call k 252 (u32 fd) st 0.

(** [exit] and [abort] of stdlib.h: behind the call there is an endless loop, so
    that nothing follows if the call should come back. *)
Definition exit (k : K) (code : Z) : option K := '(_, _) ← int80 k 60 (u32 code) 0 0; None.
Definition abort (k : K) : option K := exit k 1.

(** [while (s[n] != '\0') ++n;] with [n] turns left. *)
Fixpoint cstr_len_loop (turns : nat) (m : mem) (s n : Z) : option Z :=
  match turns with
  | O => None
  | S turns => if load m (s + n) =? 0 then Some n else cstr_len_loop turns m s (n +u 1)
  end.

(** A string of a program lies in its image or on its stack, so it is shorter
    than the window for images; without a terminator there the program reads
    memory that is not its own, and there is no result. *)
Definition cstr_len (m : mem) (s : Z) : option Z :=
  if s =? 0 then Some 0 else cstr_len_loop (Z.to_nat ELF_USER_IMAGE_MAX) m s 0.

(** ** [slop_io.h] *)

Definition SLOP_O_WRONLY : Z := 0x1.
Definition SLOP_O_RDWR : Z := 0x2.
Definition SLOP_O_CREAT : Z := 0x40.
Definition SLOP_O_TRUNC : Z := 0x200.
Definition SLOP_O_APPEND : Z := 0x400.

Definition slop_open_read (k : K) (path : Z) := sys_open k path 0.
Definition slop_open_write_trunc (k : K) (path : Z) :=
  sys_open k path (Z.lor (Z.lor SLOP_O_WRONLY SLOP_O_CREAT) SLOP_O_TRUNC).
Definition slop_open_readwrite (k : K) (path : Z) :=
  sys_open k path (Z.lor SLOP_O_RDWR SLOP_O_CREAT).

(** [while (off < len)].  Every turn but the last writes a byte, so that
    [len + 1] turns are enough. *)
Fixpoint write_all_loop (turns : nat) (k : K) (fd buf off len : Z) : option (K * Z) :=
  match turns with
  | O => None
  | S turns =>
      if off <? len then
        '(k, rc) ← sys_write k fd (buf +u off) (len -u off);
        if rc <=? 0 then Some (k, -1) else write_all_loop turns k fd buf (off +u rc) len
      else Some (k, 0)
  end.

Definition slop_write_all (k : K) (fd buf len : Z) : option (K * Z) :=
  write_all_loop (S (Z.to_nat len)) k fd buf 0 len.

Definition slop_write_cstr (k : K) (s : Z) : option (K * Z) :=
  n ← cstr_len (umem k) s; slop_write_all k 1 s n.

End sys.

(** ** What a program may rely on *)

(** An open file: its contents and position, how it was opened, whether closing
    saves it, and its absolute path. *)
Record ufile := {
  uf_file : file; uf_read : bool; uf_write : bool; uf_dirty : bool; uf_path : list Z
}.

Definition with_file (f' : file) (f : ufile) : ufile := {|
  uf_file := f'; uf_read := uf_read f; uf_write := uf_write f; uf_dirty := uf_dirty f;
  uf_path := uf_path f |}.
Definition with_written (f' : file) (f : ufile) : ufile := {|
  uf_file := f'; uf_read := uf_read f; uf_write := uf_write f; uf_dirty := true;
  uf_path := uf_path f |}.

Class OsView (K : Type) := {
  os_ok : K -> Prop;
  (** [n > 0] bytes of the program's own memory *)
  user_range : K -> Z -> Z -> Prop;
  console_text : K -> list Z;
  write_max : Z;
  fd_file : K -> Z -> option ufile;
  (** what opening a path for reading gives, if a descriptor is free *)
  path_file : K -> list Z -> option (list Z);
  fd_free : K -> bool;
  cwd_text : K -> list Z
}.

(** The bytes of a C string at an address, and what the program owns of it. *)
Definition string_at {K} `{!UserOs K} `{!OsView K} (k : K) (a : Z) (s : list Z) : Prop :=
  bytes_at (umem k) a (s ++ [0]) /\ no_nul s /\ user_range k a (Z.of_nat (length s) + 1).

(** What a step leaves alone: the program's memory but for [touched], the other
    open files; and what it prints. *)
Record os_step {K} `{!UserOs K} `{!OsView K} (touched : Z -> Prop) (fd0 : option Z)
    (out : list Z) (k k' : K) : Prop := {
  st_ok : os_ok k';
  st_range a n : user_range k' a n <-> user_range k a n;
  st_mem x : user_range k x 1 -> ~ touched x -> umem k' x = umem k x;
  st_bytes : mem_ok (umem k');
  st_out : console_text k' = console_text k ++ out;
  st_fds fd f : Some fd <> fd0 -> fd_file k fd = Some f -> fd_file k' fd = Some f
}.

Definition nothing : Z -> Prop := fun _ => False.
Definition in_buf (a n : Z) : Z -> Prop := fun x => a <= x < a + n.

Class UserOsLaws (K : Type) `{!UserOs K} `{!OsView K} : Prop := {
  ol_bytes (k : K) : os_ok k -> mem_ok (umem k);
  ol_range (k : K) a n : os_ok k -> user_range k a n ->
    0 < a /\ 0 < n <= ELF_USER_IMAGE_MAX /\ a + n <= 4294967296;
  ol_sub (k : K) a n b m : os_ok k -> user_range k a n -> a <= b -> 0 < m -> b + m <= a + n -> user_range k b m;
  ol_max : 512 <= write_max;
  ol_get (k : K) m : umem (set_umem m k) = m;
  (** the program stores into its own memory *)
  ol_store (k : K) m a n :
    os_ok k -> user_range k a n -> same_outside a n (umem k) m -> mem_ok m ->
    os_step (in_buf a n) None [] k (set_umem m k);
  (** writing to the console *)
  ol_print (k : K) fd a n :
    os_ok k -> fd = 1 \/ fd = 2 -> user_range k a n ->
    exists k', sys_write k fd a n = Some (k', Z.min write_max n) /\
      os_step nothing None (load_bytes (umem k) a (Z.to_nat (Z.min write_max n))) k k' /\
      forall p, path_file k' p = path_file k p;
  (** reading an open file *)
  ol_read (k : K) fd a n f :
    os_ok k -> fd_file k fd = Some f -> uf_read f = true -> user_range k a n ->
    let '(out, f') := file_read (Z.to_nat n) (uf_file f) in
    exists k', sys_read k fd a n = Some (k', Z.of_nat (length out)) /\
      os_step (in_buf a n) (Some fd) [] k k' /\
      load_bytes (umem k') a (length out) = out /\
      fd_file k' fd = Some (with_file f' f);
  (** writing an open file: all of it, or nothing when memory is short *)
  ol_write (k : K) fd a n f :
    os_ok k -> fd_file k fd = Some f -> uf_write f = true -> user_range k a n -> n <= INT_MAX ->
    exists k' r, sys_write k fd a n = Some (k', r) /\ os_step nothing (Some fd) [] k k' /\
      (r < 0 /\ fd_file k' fd = Some f \/
       r = n /\ fd_file k' fd =
         Some (with_written (file_write (load_bytes (umem k) a (Z.to_nat n)) (uf_file f)) f));
  (** opening for reading *)
  ol_open_read (k : K) a p :
    os_ok k -> string_at k a p -> Z.of_nat (length p) < 128 ->
    exists k' r, sys_open k a 0 = Some (k', r) /\ os_step nothing None [] k k' /\
      match path_file k p, fd_free k with
      | Some bytes, true => 3 <= r <= INT_MAX /\ fd_file k r = None /\
          exists path, fd_file k' r = Some {| uf_file := {| contents := bytes; pos := 0 |};
            uf_read := true; uf_write := false; uf_dirty := false; uf_path := path |}
      | _, _ => r < 0
      end;
  (** opening an absolute path for writing, made or emptied *)
  ol_open_write (k : K) a p :
    os_ok k -> string_at k a p -> Z.of_nat (length p) < 128 -> chr p = 47 ->
    exists k' r, sys_open k a (Z.lor (Z.lor SLOP_O_WRONLY SLOP_O_CREAT) SLOP_O_TRUNC) = Some (k', r) /\
      os_step nothing None [] k k' /\
      (r < 0 \/ 3 <= r <= INT_MAX /\ fd_file k r = None /\
        exists path, cstr path = p /\ fd_file k' r = Some {| uf_file := {| contents := []; pos := 0 |};
          uf_read := false; uf_write := true; uf_dirty := true; uf_path := path |});
  (** closing *)
  ol_close_read (k : K) fd f :
    os_ok k -> fd_file k fd = Some f -> uf_write f = false ->
    exists k', sys_close k fd = Some (k', 0) /\ os_step nothing (Some fd) [] k k' /\ fd_file k' fd = None;
  ol_close_write (k : K) fd f :
    os_ok k -> fd_file k fd = Some f -> uf_write f = true -> chr (uf_path f) = 47 ->
    Z.of_nat (length (cstr (uf_path f))) < 128 ->
    exists k' r, sys_close k fd = Some (k', r) /\ os_step nothing (Some fd) [] k k' /\
      (r < 0 \/ r = 0 /\ fd_file k' fd = None /\ fd_free k' = true /\
        (uf_dirty f = true -> path_file k' (cstr (uf_path f)) = Some (contents (uf_file f))));
  (** the current directory, when the buffer has room for it *)
  ol_getcwd (k : K) a n :
    os_ok k -> user_range k a n -> Z.of_nat (length (cwd_text k)) < n ->
    exists k', sys_getcwd k a n = Some (k', Z.of_nat (length (cwd_text k))) /\
      os_step (in_buf a n) None [] k k' /\ load_bytes (umem k') a (length (cwd_text k)) = cwd_text k
}.
