(* ===== verification/UStdio.v ===== *)
(** * UStdio: the streams of the programs' C library, [slop_stdio.c]

    A stream is a structure in the memory of the program; [ufiles] holds the
    structures by their addresses.  A stream of kind FD passes everything to the
    kernel; one of kind MEM, made by [tmpfile], is a growing block of the
    allocator.  A null pointer is 0.  A result [None] means that the call does
    not come back to the program, or that C gives its behaviour no meaning: a
    pointer to no stream, signed overflow, a formatted text that overruns the
    buffer of [slop_vfprintf] (UFormat.v). *)
From S2P Require Import Prelude KernelH Util Memory Varargs UString UAlloc UFormat Usys.
Local Open Scope Z_scope.
Local Open Scope slop_scope.

Record slop_file := {
  f_fd : Z;
  f_kind : Z;
  f_eof : Z;
  f_err : Z;
  f_owned : Z;
  f_pos : Z;
  f_size : Z;
  f_capacity : Z;
  f_mem : Z
}.

Definition SLOP_FILE_KIND_FD : Z := 1.
Definition SLOP_FILE_KIND_MEM : Z := 2.
Definition SLOP_FILE_BYTES : Z := 36.

Definition set_eof (v : Z) (f : slop_file) : slop_file := {|
  f_fd := f_fd f; f_kind := f_kind f; f_eof := v; f_err := f_err f; f_owned := f_owned f;
  f_pos := f_pos f; f_size := f_size f; f_capacity := f_capacity f; f_mem := f_mem f |}.
Definition set_err (v : Z) (f : slop_file) : slop_file := {|
  f_fd := f_fd f; f_kind := f_kind f; f_eof := f_eof f; f_err := v; f_owned := f_owned f;
  f_pos := f_pos f; f_size := f_size f; f_capacity := f_capacity f; f_mem := f_mem f |}.
Definition set_pos (v : Z) (f : slop_file) : slop_file := {|
  f_fd := f_fd f; f_kind := f_kind f; f_eof := f_eof f; f_err := f_err f; f_owned := f_owned f;
  f_pos := v; f_size := f_size f; f_capacity := f_capacity f; f_mem := f_mem f |}.
Definition set_size (v : Z) (f : slop_file) : slop_file := {|
  f_fd := f_fd f; f_kind := f_kind f; f_eof := f_eof f; f_err := f_err f; f_owned := f_owned f;
  f_pos := f_pos f; f_size := v; f_capacity := f_capacity f; f_mem := f_mem f |}.
Definition set_block (capacity m : Z) (f : slop_file) : slop_file := {|
  f_fd := f_fd f; f_kind := f_kind f; f_eof := f_eof f; f_err := f_err f; f_owned := f_owned f;
  f_pos := f_pos f; f_size := f_size f; f_capacity := capacity; f_mem := m |}.

(** Where the linker and the compiler put what the library keeps: the three
    standard streams, and the local buffer of the function that runs. *)
Class UserPlaces := {
  slop_stdin : Z;
  slop_stdout : Z;
  slop_stderr : Z;
  local_buf : Z;
  places_distinct : NoDup [0; slop_stdin; slop_stdout; slop_stderr]
}.

(** The process: the machine, [slop_alloc_used], and its streams. *)
Record ulib (K : Type) := { uos : K; uused : Z; ufiles : gmap Z slop_file }.
Arguments uos {_}.
Arguments uused {_}.
Arguments ufiles {_}.

Definition std_file (fd : Z) : slop_file := {|
  f_fd := fd; f_kind := 0; f_eof := 0; f_err := 0; f_owned := 0; f_pos := 0; f_size := 0;
  f_capacity := 0; f_mem := 0 |}.

(** The streams a program starts with. *)
Definition slop_std_files `{UserPlaces} : gmap Z slop_file :=
  {[ slop_stdin := std_file 0; slop_stdout := std_file 1; slop_stderr := std_file 2 ]}.

Fixpoint slop_streq (a b : list Z) : bool :=
  match a with
  | [] => 0 =? chr b
  | c :: a' => if negb (c =? 0) && negb (chr b =? 0)
               then if negb (c =? chr b) then false else slop_streq a' (tl b)
               else c =? chr b
  end.

(** [while (capacity < needed) capacity *= 2u;], [None] when it never ends. *)
Fixpoint double_capacity (turns : nat) (capacity needed : Z) : option Z :=
  if capacity <? needed then
    match turns with
    | O => None
    | S turns => double_capacity turns (capacity *u 2) needed
    end
  else Some capacity.

(** The flags of a mode string. *)
Definition mode_flags (mode : list Z) : option Z :=
  if slop_streq mode (lit "r") then Some 0
  else if slop_streq mode (lit "w") then Some (Z.lor (Z.lor SLOP_O_WRONLY SLOP_O_CREAT) SLOP_O_TRUNC)
  else if slop_streq mode (lit "a") then Some (Z.lor (Z.lor SLOP_O_WRONLY SLOP_O_CREAT) SLOP_O_APPEND)
  else if slop_streq mode (lit "r+") then Some SLOP_O_RDWR
  else if slop_streq mode (lit "w+") then Some (Z.lor (Z.lor SLOP_O_RDWR SLOP_O_CREAT) SLOP_O_TRUNC)
  else if slop_streq mode (lit "a+") then Some (Z.lor (Z.lor SLOP_O_RDWR SLOP_O_CREAT) SLOP_O_APPEND)
  else None.

(** [new_mem[i] = 0] for [i = from .. from + n - 1]. *)
Fixpoint zero_from (n : nat) (m : mem) (a : Z) : mem :=
  match n with
  | O => m
  | S n => zero_from n (store m a 0) (a +u 1)
  end.

Section stdio.
Context {K : Type} `{!UserOs K} `{!UserArena} `{!UserPlaces}.

Definition lib_mem (s : ulib K) : mem := umem (uos s).
Definition with_os (k : K) (s : ulib K) : ulib K :=
  {| uos := k; uused := uused s; ufiles := ufiles s |}.
Definition with_umem (m : mem) (s : ulib K) : ulib K := with_os (set_umem m (uos s)) s.
Definition put_file (fp : Z) (f : slop_file) (s : ulib K) : ulib K :=
  {| uos := uos s; uused := uused s; ufiles := <[fp := f]> (ufiles s) |}.

Definition lib_alloc (s : ulib K) : ualloc := {| slop_alloc_used := uused s; amem := lib_mem s |}.
Definition with_alloc (a : ualloc) (s : ulib K) : ulib K :=
  {| uos := set_umem (amem a) (uos s); uused := slop_alloc_used a; ufiles := ufiles s |}.

(** Whether the stream has room for [needed] bytes now; it is made to grow by
    doubling, and 33 turns either reach [needed] or never will
    ([double_capacity_stuck]). *)
Definition slop_ensure_mem_capacity (s : ulib K) (fp needed : Z) : option (ulib K * bool) :=
  if fp =? 0 then Some (s, false)
  else
    f ← ufiles s !! fp;
    if needed <=? f_capacity f then Some (s, true)
    else
      capacity ← double_capacity 33 (if f_capacity f =? 0 then 256 else f_capacity f) needed;
      let '(a, new_mem) := slop_realloc (lib_alloc s) (f_mem f) capacity in
      let s := with_alloc a s in
      if new_mem =? 0 then Some (s, false)
      else
        let m := zero_from (Z.to_nat (capacity - f_capacity f)) (lib_mem s) (new_mem + f_capacity f) in
        Some (put_file fp (set_block capacity new_mem f) (with_umem m s), true).

Definition fd_stream (fd : Z) : slop_file := {|
  f_fd := fd; f_kind := SLOP_FILE_KIND_FD; f_eof := 0; f_err := 0; f_owned := 1; f_pos := 0;
  f_size := 0; f_capacity := 0; f_mem := 0 |}.

(** [path] is an address, [mode] a string constant of the caller. *)
Definition slop_fopen (s : ulib K) (path : Z) (mode : option (list Z)) : option (ulib K * Z) :=
  match mode with
  | None => Some (s, 0)
  | Some mode =>
      if path =? 0 then Some (s, 0)
      else
        match mode_flags mode with
        | None => Some (s, 0)
        | Some flags =>
            '(k, fd) ← sys_open (uos s) path flags;
            let s := with_os k s in
            if fd <? 0 then Some (s, 0)
            else
              let '(a, fp) := slop_malloc (lib_alloc s) SLOP_FILE_BYTES in
              let s := with_alloc a s in
              if fp =? 0 then '(k, _) ← sys_close (uos s) fd; Some (with_os k s, 0)
              else Some (put_file fp (fd_stream fd) s, fp)
        end
  end.

(** [slop_free], called on the structure, does nothing. *)
Definition slop_fclose (s : ulib K) (fp : Z) : option (ulib K * Z) :=
  if fp =? 0 then Some (s, -1)
  else
    f ← ufiles s !! fp;
    '(s, rc) ← (if (f_kind f =? SLOP_FILE_KIND_FD) && negb (f_owned f =? 0)
                then '(k, rc) ← sys_close (uos s) (f_fd f); Some (with_os k s, rc)
                else Some (s, 0));
    Some (s, if rc <? 0 then -1 else 0).

Definition slop_fflush (s : ulib K) (fp : Z) : option (ulib K * Z) := Some (s, 0).
Definition slop_setvbuf (s : ulib K) (fp buf mode size : Z) : option (ulib K * Z) := Some (s, 0).

(** A read that failed sets [eof] or [err]. *)
Definition set_read_end (rc : Z) (f : slop_file) : slop_file :=
  set_err (if rc <? 0 then 1 else 0) (set_eof (if rc =? 0 then 1 else 0) f).

Definition slop_fgetc (s : ulib K) (fp : Z) : option (ulib K * Z) :=
  if fp =? 0 then Some (s, -1)
  else
    f ← ufiles s !! fp;
    if f_kind f =? SLOP_FILE_KIND_MEM then
      if f_size f <=? f_pos f then Some (put_file fp (set_eof 1 f) s, -1)
      else Some (put_file fp (set_pos (f_pos f +u 1) f) s, u8 (load (lib_mem s) (f_mem f + f_pos f)))
    else
      '(k, rc) ← sys_read (uos s) (f_fd f) local_buf 1;
      let s := with_os k s in
      if rc <=? 0 then Some (put_file fp (set_read_end rc f) s, -1)
      else Some (s, u8 (load (lib_mem s) local_buf)).

Definition slop_getchar (s : ulib K) : option (ulib K * Z) := slop_fgetc s slop_stdin.

(** A byte of the program's memory, and the whole of it again. *)
Definition poke (a v : Z) (s : ulib K) : ulib K := with_umem (store (lib_mem s) a v) s.

(** [if (fp->pos > fp->size) fp->size = fp->pos;] *)
Definition bump_size (f : slop_file) : slop_file :=
  if f_size f <? f_pos f then set_size (f_pos f) f else f.

Definition slop_fputc (s : ulib K) (ch fp : Z) : option (ulib K * Z) :=
  let c := u8 ch in
  if fp =? 0 then Some (s, -1)
  else
    f ← ufiles s !! fp;
    if f_kind f =? SLOP_FILE_KIND_MEM then
      '(s, room) ← slop_ensure_mem_capacity s fp (f_pos f +u 2);
      f ← ufiles s !! fp;
      if negb room then Some (put_file fp (set_err 1 f) s, -1)
      else
        let s := poke (f_mem f + f_pos f) c s in
        let f := bump_size (set_pos (f_pos f +u 1) f) in
        Some (put_file fp f (poke (f_mem f + f_size f) 0 s), c)
    else
      let s := poke local_buf c s in
      '(k, rc) ← sys_write (uos s) (f_fd f) local_buf 1;
      let s := with_os k s in
      if negb (rc =? 1) then Some (put_file fp (set_err 1 f) s, -1) else Some (s, c).

Definition slop_putchar (s : ulib K) (ch : Z) : option (ulib K * Z) := slop_fputc s ch slop_stdout.

(** [while (got < total)] of [slop_fread]. *)
Fixpoint read_all_loop (turns : nat) (k : K) (f : slop_file) (ptr got total : Z)
    : option (K * slop_file * Z) :=
  match turns with
  | O => None
  | S turns =>
      if got <? total then
        '(k, rc) ← sys_read k (f_fd f) (ptr +u got) (total -u got);
        if rc <=? 0 then Some (k, set_read_end rc f, got)
        else read_all_loop turns k f ptr (got +u rc) total
      else Some (k, f, got)
  end.

Definition slop_fread (s : ulib K) (ptr size nmemb fp : Z) : option (ulib K * Z) :=
  if (ptr =? 0) || (fp =? 0) || (size =? 0) || (nmemb =? 0) then Some (s, 0)
  else
    f ← ufiles s !! fp;
    if f_kind f =? SLOP_FILE_KIND_MEM then
      let available := if f_pos f <? f_size f then f_size f - f_pos f else 0 in
      let want := size *u nmemb in
      let take := if want <? available then want else available in
      let s := with_umem (memcpy (lib_mem s) ptr (f_mem f + f_pos f) (Z.to_nat take)) s in
      let f := set_pos (f_pos f +u take) f in
      let f := if take <? want then set_eof 1 f else f in
      Some (put_file fp f s, take / size)
    else
      let total := size *u nmemb in
      '(k, f, got) ← read_all_loop (S (Z.to_nat total)) (uos s) f ptr 0 total;
      Some (put_file fp f (with_os k s), got / size).

(** [while (off < total)] of [slop_fwrite]. *)
Fixpoint fwrite_loop (turns : nat) (k : K) (f : slop_file) (ptr off total : Z)
    : option (K * slop_file * Z) :=
  match turns with
  | O => None
  | S turns =>
      if off <? total then
        '(k, rc) ← sys_write k (f_fd f) (ptr +u off) (total -u off);
        if rc <=? 0 then Some (k, set_err 1 f, off)
        else fwrite_loop turns k f ptr (off +u rc) total
      else Some (k, f, off)
  end.

Definition slop_fwrite (s : ulib K) (ptr size nmemb fp : Z) : option (ulib K * Z) :=
  if (ptr =? 0) || (fp =? 0) || (size =? 0) || (nmemb =? 0) then Some (s, 0)
  else
    f ← ufiles s !! fp;
    if f_kind f =? SLOP_FILE_KIND_MEM then
      let total := size *u nmemb in
      '(s, room) ← slop_ensure_mem_capacity s fp (f_pos f + total +u 1);
      f ← ufiles s !! fp;
      if negb room then Some (put_file fp (set_err 1 f) s, 0)
      else
        let s := with_umem (memcpy (lib_mem s) (f_mem f + f_pos f) ptr (Z.to_nat total)) s in
        let f := bump_size (set_pos (f_pos f +u total) f) in
        Some (put_file fp f (poke (f_mem f + f_size f) 0 s), nmemb)
    else
      let total := size *u nmemb in
      '(k, f, off) ← fwrite_loop (S (Z.to_nat total)) (uos s) f ptr 0 total;
      Some (put_file fp f (with_os k s), off / size).

(** It writes to [fp->fd], whatever the kind of the stream. *)
Definition slop_fputs (s : ulib K) (str fp : Z) : option (ulib K * Z) :=
  if (str =? 0) || (fp =? 0) then Some (s, -1)
  else
    f ← ufiles s !! fp;
    n ← cstr_len (lib_mem s) str;
    '(k, rc) ← slop_write_all (uos s) (f_fd f) str n;
    Some (with_os k s, if rc =? 0 then 0 else -1).

Definition slop_puts (s : ulib K) (str : Z) : option (ulib K * Z) :=
  '(s, rc) ← slop_fputs s str slop_stdout;
  if rc <? 0 then Some (s, -1) else slop_fputc s 10 slop_stdout.

(** [while (i < size - 1)]: the state and [i]. *)
Fixpoint fgets_loop (n : nat) (s : ulib K) (buf fp i : Z) : option (ulib K * Z) :=
  match n with
  | O => Some (s, i)
  | S n =>
      '(s, ch) ← slop_fgetc s fp;
      if ch <? 0 then Some (s, i)
      else
        let s := poke (buf + i) ch s in
        if ch =? 10 then Some (s, i + 1) else fgets_loop n s buf fp (i + 1)
  end.

Definition slop_fgets (s : ulib K) (buf size fp : Z) : option (ulib K * Z) :=
  if (buf =? 0) || (fp =? 0) || (size <=? 1) then Some (s, 0)
  else
    '(s, i) ← fgets_loop (Z.to_nat (size - 1)) s buf fp 0;
    if i =? 0 then Some (s, 0) else Some (poke (buf + i) 0 s, buf).

Definition slop_fseek (s : ulib K) (fp offset whence : Z) : option (ulib K * Z) :=
  if fp =? 0 then Some (s, -1)
  else
    f ← ufiles s !! fp;
    let fail := Some (put_file fp (set_err 1 f) s, -1) in
    if negb (f_kind f =? SLOP_FILE_KIND_MEM) then fail
    else
      match (if whence =? 0 then Some 0 else if whence =? 1 then Some (s32 (f_pos f))
             else if whence =? 2 then Some (s32 (f_size f)) else None) with
      | None => fail
      | Some base =>
          let pos := base + offset in
          if (pos <? - 2147483648) || (INT_MAX <? pos) then None
          else if pos <? 0 then fail
          else Some (put_file fp (set_eof 0 (set_pos (u32 pos) f)) s, 0)
      end.

Definition slop_ftell (s : ulib K) (fp : Z) : option Z :=
  if fp =? 0 then Some (-1) else f ← ufiles s !! fp; Some (s32 (f_pos f)).
Definition slop_feof (s : ulib K) (fp : Z) : option Z :=
  if fp =? 0 then Some 1 else f ← ufiles s !! fp; Some (f_eof f).
Definition slop_ferror (s : ulib K) (fp : Z) : option Z :=
  if fp =? 0 then Some 1 else f ← ufiles s !! fp; Some (f_err f).
Definition slop_clearerr (s : ulib K) (fp : Z) : option (ulib K) :=
  if fp =? 0 then Some s
  else f ← ufiles s !! fp; Some (put_file fp (set_err 0 (set_eof 0 f)) s).

Definition mem_stream : slop_file := {|
  f_fd := -1; f_kind := SLOP_FILE_KIND_MEM; f_eof := 0; f_err := 0; f_owned := 1; f_pos := 0;
  f_size := 0; f_capacity := 0; f_mem := 0 |}.

Definition slop_tmpfile (s : ulib K) : option (ulib K * Z) :=
  let '(a, fp) := slop_malloc (lib_alloc s) SLOP_FILE_BYTES in
  let s := with_alloc a s in
  if fp =? 0 then Some (s, 0) else Some (put_file fp mem_stream s, fp).

(** [fmt] is a string constant, the strings among [args] are texts.  [out] is
    the local buffer. *)
Definition slop_vfprintf (s : ulib K) (fp : Z) (fmt : option (list Z)) (args : list va)
    : option (ulib K * Z) :=
  match fmt with
  | None => Some (s, -1)
  | Some fmt =>
      if fp =? 0 then Some (s, -1)
      else
        f ← ufiles s !! fp;
        out ← slop_format fmt args;
        let off := Z.of_nat (length out) in
        if OUT_SIZE <=? off then None
        else
          let s := with_umem (store_bytes (lib_mem s) local_buf (out ++ [0])) s in
          '(k, rc) ← slop_write_all (uos s) (f_fd f) local_buf off;
          Some (with_os k s, if rc =? 0 then off else -1)
  end.

Definition slop_fprintf := slop_vfprintf.
Definition slop_printf (s : ulib K) (fmt : option (list Z)) (args : list va) : option (ulib K * Z) :=
  slop_vfprintf s slop_stdout fmt args.

(** ** [compat_stdio.c]: the names of [stdio.h] *)

Definition fopen := slop_fopen.
Definition fclose := slop_fclose.
Definition fflush := slop_fflush.
Definition setvbuf := slop_setvbuf.
Definition fgetc := slop_fgetc.
Definition getc := slop_fgetc.
Definition getchar := slop_getchar.
Definition fputc := slop_fputc.
Definition putc := slop_fputc.
Definition putchar := slop_putchar.
Definition fread := slop_fread.
Definition fwrite := slop_fwrite.
Definition fputs := slop_fputs.
Definition puts := slop_puts.
Definition fgets := slop_fgets.
Definition fseek := slop_fseek.
Definition ftell := slop_ftell.
Definition feof := slop_feof.
Definition ferror := slop_ferror.
Definition clearerr := slop_clearerr.
Definition tmpfile := slop_tmpfile.
Definition popen (s : ulib K) (command mode : Z) : option (ulib K * Z) := Some (s, 0).
Definition pclose (s : ulib K) (fp : Z) : option (ulib K * Z) := Some (s, -1).
Definition printf (s : ulib K) := slop_vfprintf s slop_stdout.
Definition fprintf := slop_vfprintf.

End stdio.
