(* ===== verification/UMemStream.v ===== *)
(** * UMemStream: the streams that [tmpfile] makes

    A stream of kind MEM is a growing block of the allocator.  Its operations in
    UStdio.v are those of an abstract file of Files.v, whose contents are padded
    with zeros when it is written behind its end. *)
From S2P Require Import Prelude KernelH Util Memory FdTable Files Varargs UString UAlloc UFormat Usys UStdio.
Local Open Scope Z_scope.
Local Open Scope slop_scope.

(** ** The abstract stream *)

Definition pad_to (n : nat) (l : list Z) : list Z := l ++ replicate (n - length l) 0.

Definition stream_write (bs : list Z) (F : file) : file :=
  {| contents := splice (pos F) bs (pad_to (pos F) (contents F)); pos := pos F + length bs |}.

Definition seek_base (F : file) (whence : Z) : option Z :=
  if whence =? 0 then Some 0 else if whence =? 1 then Some (Z.of_nat (pos F))
  else if whence =? 2 then Some (Z.of_nat (length (contents F))) else None.

Inductive stream_op :=
  | Tmpfile
  | Putc (fp ch : Z)
  | Write (fp ptr n : Z)
  | Getc (fp : Z)
  | Read (fp ptr n : Z)
  | Seek (fp offset whence : Z).

(** What an operation does to the streams [M], given the bytes [bs] of its
    buffer: the streams, the result, and the bytes it delivers. *)
Definition stream_step (M : gmap Z file) (bs : list Z) (op : stream_op) (fresh : Z)
    : gmap Z file * Z * list Z :=
  let file_of fp := default {| contents := []; pos := 0 |} (M !! fp) in
  match op with
  | Tmpfile => (<[fresh := {| contents := []; pos := 0 |}]> M, fresh, [])
  | Putc fp ch => (<[fp := stream_write [u8 ch] (file_of fp)]> M, u8 ch, [])
  | Write fp _ n => (<[fp := stream_write bs (file_of fp)]> M, n, [])
  | Getc fp =>
      let '(out, F) := file_read 1 (file_of fp) in
      (<[fp := F]> M, match out with c :: _ => c | [] => -1 end, [])
  | Read fp _ n =>
      let '(out, F) := file_read (Z.to_nat n) (file_of fp) in
      (<[fp := F]> M, Z.of_nat (length out), out)
  | Seek fp offset whence =>
      match seek_base (file_of fp) whence with
      | Some base =>
          if base + offset <? 0 then (M, -1, [])
          else (<[fp := {| contents := contents (file_of fp); pos := Z.to_nat (base + offset) |}]> M, 0, [])
      | None => (M, -1, [])
      end
  end.

(** Which operations need memory, and what they give without it. *)
Definition no_room (op : stream_op) : option Z :=
  match op with Tmpfile => Some 0 | Putc _ _ => Some (-1) | Write _ _ _ => Some 0 | _ => None end.

(** ** Lists *)

Lemma pad_to_length n l : length (pad_to n l) = Nat.max n (length l).
Proof. unfold pad_to. rewrite length_app, length_replicate. lia. Qed.

(** A write into a block whose unused rest is zero. *)
Lemma splice_zeros p bs l cap :
  (length l <= cap)%nat -> (p + length bs <= cap)%nat ->
  splice p bs (l ++ replicate (cap - length l) 0) =
  splice p bs (pad_to p l) ++ replicate (cap - Nat.max (length l) (p + length bs)) 0.
Proof.
  intros Hl Hp. apply list_eq. intros i.
  assert (length (l ++ replicate (cap - length l) 0) = cap) as Hc by (rewrite length_app, length_replicate; lia).
  rewrite splice_lookup by lia.
  assert (length (splice p bs (pad_to p l)) = Nat.max (length l) (p + length bs)) as Hs
    by (rewrite splice_length; rewrite pad_to_length; lia).
  destruct (decide (i < Nat.max (length l) (p + length bs))%nat) as [Hi|Hi].
  - rewrite (lookup_app_l (splice _ _ _)) by lia. rewrite splice_lookup by (rewrite pad_to_length; lia).
    destruct (_ && _) eqn:E; [done|]. unfold pad_to.
    destruct (decide (i < length l)%nat); [by rewrite !lookup_app_l by lia|].
    rewrite !lookup_app_r by lia.
    apply andb_false_iff in E. rewrite Nat.leb_gt, Nat.ltb_ge in E.
    by rewrite !lookup_replicate_2 by lia.
  - rewrite (lookup_app_r (splice _ _ _)) by lia. rewrite Hs. rewrite (proj2 (Nat.leb_le p i)), (proj2 (Nat.ltb_ge i _)) by lia.
    cbn [andb]. rewrite lookup_app_r by lia.
    destruct (decide (i < cap)%nat).
    + by rewrite !lookup_replicate_2 by lia.
    + rewrite !lookup_ge_None_2; rewrite ?length_replicate; done || lia.
Qed.

Lemma take_of_take (l : list Z) j : take (length (take j l)) l = take j l.
Proof.
  rewrite length_take. destruct (Nat.min_spec j (length l)) as [[? ->]|[? ->]]; [done|].
  by rewrite !take_ge by lia.
Qed.

(** ** Growing *)

Lemma double_capacity_spec turns c needed :
  0 < c -> 0 < needed <= 1073741824 -> needed <= c * 2 ^ Z.of_nat turns ->
  exists c', double_capacity turns c needed = Some c' /\ needed <= c' /\ c <= c' /\
    (c' = c \/ c' < 2 * needed).
Proof.
  revert c. induction turns as [|n IH]; intros c Hc Hn Hp.
  - cbn [double_capacity]. rewrite Z.pow_0_r in Hp. rewrite (proj2 (Z.ltb_ge _ _)) by lia.
    exists c. split_and!; auto; lia.
  - cbn [double_capacity]. destruct (c <? needed) eqn:E; zify_bool; [|exists c; split_and!; auto; lia].
    rewrite u32_small by lia. rewrite Nat2Z.inj_succ, Z.pow_succ_r in Hp by lia.
    destruct (IH (c * 2)) as (c' & -> & ? & ? & Hlt); [lia|lia|nia|].
    exists c'. split_and!; [done|lia|lia|right; lia].
Qed.

(** More than 2 GiB are never reached: the product wraps around to 0 and stays
    there, and the call does not return. *)
Lemma double_capacity_zero turns needed : 0 < needed -> double_capacity turns 0 needed = None.
Proof.
  intros Hn. induction turns as [|n IH]; cbn [double_capacity]; rewrite (proj2 (Z.ltb_lt _ _)) by lia; [done|].
  exact IH.
Qed.

Lemma double_capacity_stuck turns needed :
  2147483648 < needed -> double_capacity turns 256 needed = None.
Proof.
  intros Hn.
  assert (forall j t, (j <= 24)%nat -> double_capacity t (u32 (256 * 2 ^ Z.of_nat (24 - j))) needed = None) as H.
  { induction j as [|j IH]; intros t Hj.
    - apply double_capacity_zero. lia.
    - assert (0 < 256 * 2 ^ Z.of_nat (24 - S j) <= 2147483648) as Hr.
      { pose proof (Z.pow_pos_nonneg 2 (Z.of_nat (24 - S j))).
        pose proof (Z.pow_le_mono_r 2 (Z.of_nat (24 - S j)) 23). lia. }
      rewrite u32_small by lia. destruct t as [|t]; cbn [double_capacity]; rewrite (proj2 (Z.ltb_lt _ _)) by lia; [done|].
      rewrite <- (IH t) by lia. f_equal. f_equal. replace (Z.of_nat (24 - j)) with (Z.of_nat (24 - S j) + 1) by lia.
      rewrite Z.pow_add_r by lia. lia. }
  exact (H 24%nat turns ltac:(lia)).
Qed.

(** ** What a stream is in memory *)

Record stream_rep (m : mem) (blocks : list (Z * Z)) (f : slop_file) (F : file) : Prop := {
  sr_kind : f_kind f = SLOP_FILE_KIND_MEM;
  sr_pos : f_pos f = Z.of_nat (pos F) /\ f_pos f <= INT_MAX;
  sr_size : f_size f = Z.of_nat (length (contents F));
  sr_block : (f_capacity f = 0 /\ f_mem f = 0 /\ contents F = []) \/
    (In (f_mem f, f_capacity f) blocks /\ f_size f < f_capacity f /\
     load_bytes m (f_mem f) (Z.to_nat (f_capacity f)) =
       contents F ++ replicate (Z.to_nat (f_capacity f) - length (contents F)) 0)
}.

(** ** Memory *)

Lemma bytes_at_of_load m a l : fits a (Z.of_nat (length l)) -> load_bytes m a (length l) = l -> bytes_at m a l.
Proof using.
  intros [Ha Hf] Hl i b Hi. pose proof (lookup_lt_Some _ _ _ Hi) as Hlt.
  rewrite <- Hl, load_bytes_lookup in Hi by done. injection Hi as <-.
  unfold load. by rewrite u32_small by lia.
Qed.

(** Overwriting part of a range. *)
Lemma load_splice m m' a cap p bs :
  fits a (Z.of_nat cap) -> (p + length bs <= cap)%nat ->
  same_outside (a + Z.of_nat p) (Z.of_nat (length bs)) m m' -> bytes_at m' (a + Z.of_nat p) bs ->
  load_bytes m' a cap = splice p bs (load_bytes m a cap).
Proof using.
  intros [Ha Hf] Hp Ho Hb. apply list_eq. intros i.
  rewrite splice_lookup by (rewrite load_bytes_length; lia).
  destruct (decide (i < cap)%nat) as [Hi|Hi].
  - rewrite !load_bytes_lookup by done. unfold load. rewrite !u32_small by lia.
    destruct (Nat.leb_spec p i), (Nat.ltb_spec i (p + length bs)); cbn [andb].
    + destruct (lookup_lt_is_Some_2 bs (i - p)) as [b Hbi]; [lia|]. rewrite Hbi. f_equal.
      rewrite <- (Hb _ _ Hbi). f_equal. lia.
    + f_equal. apply Ho. lia.
    + f_equal. apply Ho. lia.
    + f_equal. apply Ho. lia.
  - rewrite !(proj2 (lookup_ge_None (load_bytes _ _ _) _)) by (rewrite load_bytes_length; lia).
    destruct (_ && _) eqn:E; [|done]. apply andb_true_iff in E as [E1%Nat.leb_le E2%Nat.ltb_lt]. lia.
Qed.

Lemma zero_from_spec n m a :
  fits a (Z.of_nat n) ->
  same_outside a (Z.of_nat n) m (zero_from n m a) /\
  (forall x, a <= x < a + Z.of_nat n -> zero_from n m a x = 0) /\
  (mem_ok m -> mem_ok (zero_from n m a)).
Proof using.
  revert m a. induction n as [|n IH]; intros m a [Ha Hf]; cbn [zero_from].
  { split_and!; [apply same_outside_refl|lia|done]. }
  assert (forall x, store m a 0 x = if x =? a then 0 else m x) as Hst
    by (intros x; unfold store; by rewrite u32_small by lia).
  destruct n as [|n].
  { cbn [zero_from]. split_and!; [intros x Hx; rewrite Hst, (proj2 (Z.eqb_neq x a)) by lia; done| |apply store_ok].
    intros x Hx. rewrite Hst, (proj2 (Z.eqb_eq x a)) by lia. done. }
  destruct (IH (store m a 0) (a +u 1)) as (H1 & H2 & H3); rewrite u32_small in * by lia; [split; lia|].
  split_and!.
  - intros x Hx. rewrite H1, Hst, (proj2 (Z.eqb_neq x a)) by lia. done.
  - intros x Hx. destruct (decide (x = a)) as [->|Hne]; [|apply H2; lia].
    rewrite H1, Hst, Z.eqb_refl by lia. done.
  - intros Hm. by apply H3, store_ok.
Qed.

Section streams.
Context {K : Type} `{!UserOs K} `{!UserArena} `{!UserPlaces}.
Hypothesis umem_set : forall (k : K) m, umem (set_umem m k) = m.
Implicit Types (s : ulib K).

Record streams_ok s (blocks : list (Z * Z)) (M : gmap Z file) : Prop := {
  so_alloc : alloc_inv (lib_alloc s) blocks;
  so_bytes : mem_ok (lib_mem s);
  so_rep fp F : M !! fp = Some F -> In (fp, SLOP_FILE_BYTES) blocks /\
    exists f, ufiles s !! fp = Some f /\ stream_rep (lib_mem s) blocks f F;
  so_apart fp fp' f f' :
    is_Some (M !! fp) -> is_Some (M !! fp') -> fp <> fp' -> ufiles s !! fp = Some f ->
    ufiles s !! fp' = Some f' -> f_capacity f <> 0 -> f_capacity f' <> 0 -> f_mem f <> f_mem f'
}.

(** [a .. a + n - 1] is outside the arena. *)
Definition off_arena (a n : Z) : Prop :=
  fits a n /\ (a + n <= slop_alloc_arena \/ slop_alloc_arena + SLOP_ALLOC_ARENA_SIZE <= a).

Definition op_buffer (op : stream_op) : Z * Z :=
  match op with Write _ ptr n => (ptr, n) | Read _ ptr n => (ptr, n) | _ => (0, 0) end.

(** The stream exists, the buffer is the program's own and not in the arena, a
    write ends below 2^30, and a seek does not overflow. *)
Definition op_ok (M : gmap Z file) (op : stream_op) : Prop :=
  match op with
  | Tmpfile => True
  | Putc fp _ => exists F, M !! fp = Some F /\ Z.of_nat (pos F) + 2 <= 1073741824
  | Write fp ptr n => exists F, M !! fp = Some F /\ ptr <> 0 /\ 0 < n /\ off_arena ptr n /\
                        Z.of_nat (pos F) + n + 1 <= 1073741824
  | Getc fp => is_Some (M !! fp)
  | Read fp ptr n => is_Some (M !! fp) /\ ptr <> 0 /\ 0 < n /\ off_arena ptr n
  | Seek fp offset whence => exists F, M !! fp = Some F /\
      forall base, seek_base F whence = Some base -> - 2147483648 <= base + offset <= INT_MAX
  end.

Definition stream_do s (op : stream_op) : option (ulib K * Z) :=
  match op with
  | Tmpfile => slop_tmpfile s
  | Putc fp ch => slop_fputc s ch fp
  | Write fp ptr n => slop_fwrite s ptr 1 n fp
  | Getc fp => slop_fgetc s fp
  | Read fp ptr n => slop_fread s ptr 1 n fp
  | Seek fp offset whence => slop_fseek s fp offset whence
  end.

(** *** Blocks *)

Lemma in_block a blocks p n :
  alloc_inv a blocks -> In (p, n) blocks ->
  0 < n /\ slop_alloc_arena + 4 <= p /\ p + n <= slop_alloc_arena + slop_alloc_used a /\
  p + n <= slop_alloc_arena + SLOP_ALLOC_ARENA_SIZE /\ 0 < p /\ p + n <= 4294967296.
Proof using.
  intros Hi Hin. destruct (blocks_below_in _ _ _ _ (ai_blocks _ _ Hi) Hin) as (? & ? & ? & _).
  pose proof (ai_used _ _ Hi). pose proof arena_fits. split_and!; lia.
Qed.

Lemma blocks_apart a blocks p n q k :
  alloc_inv a blocks -> In (p, n) blocks -> In (q, k) blocks -> p <> q ->
  p + n <= q - 4 \/ q + k <= p - 4.
Proof using.
  intros Hi Hp Hq Hne. apply list_elem_of_In, list_elem_of_lookup_1 in Hp as [i Hp].
  apply list_elem_of_In, list_elem_of_lookup_1 in Hq as [j Hq].
  destruct (Nat.lt_trichotomy i j) as [Hij|[->|Hij]].
  - right. by eapply blocks_below_apart; [apply Hi|exact Hij|..].
  - rewrite Hp in Hq. injection Hq as -> ->. done.
  - left. by eapply blocks_below_apart; [apply Hi|exact Hij|..].
Qed.

(** A block's pointer determines it. *)
Lemma block_unique a blocks p n k :
  alloc_inv a blocks -> In (p, n) blocks -> In (p, k) blocks -> n = k.
Proof using.
  intros Hi Hp Hk. rewrite <- (block_header a blocks p n) by done. by apply (block_header a blocks).
Qed.

Lemma rep_frame m m' a blocks blocks' f F :
  alloc_inv a blocks -> stream_rep m blocks f F -> (forall b, In b blocks -> In b blocks') ->
  (f_capacity f <> 0 -> forall x, f_mem f <= x < f_mem f + f_capacity f -> m' x = m x) ->
  stream_rep m' blocks' f F.
Proof using.
  intros Hi [Hk Hp Hs Hb] Hin Hm. constructor; try done.
  destruct Hb as [Hb|(Hb & Hlt & Hl)]; [by left|right].
  destruct (in_block _ _ _ _ Hi Hb) as (? & ? & ? & ? & ? & ?).
  split_and!; [by apply Hin|done|]. rewrite <- Hl. apply load_bytes_ext; [split; lia|].
  intros x Hx. apply Hm; lia.
Qed.

(** One stream changes; the others keep their structures and their blocks. *)
Lemma streams_update s s' blocks blocks' M fp f' F' :
  streams_ok s blocks M -> In (fp, SLOP_FILE_BYTES) blocks' ->
  alloc_inv (lib_alloc s') blocks' -> mem_ok (lib_mem s') ->
  (forall b, In b blocks -> In b blocks') ->
  ufiles s' = <[fp := f']> (ufiles s) -> stream_rep (lib_mem s') blocks' f' F' ->
  (forall fp2 f2, fp2 <> fp -> is_Some (M !! fp2) -> ufiles s !! fp2 = Some f2 -> f_capacity f2 <> 0 ->
     (f_capacity f' <> 0 -> f_mem f' <> f_mem f2) /\
     forall x, f_mem f2 <= x < f_mem f2 + f_capacity f2 -> lib_mem s' x = lib_mem s x) ->
  streams_ok s' blocks' (<[fp := F']> M).
Proof using.
  intros [Ha Hb Hr Hap] Hfp Ha' Hb' Hin Hf Hrep Hoth. constructor; [done|done| |].
  - intros fp2 F2 H2. apply lookup_insert_Some in H2 as [[<- <-]|[Hne H2]].
    + split; [done|]. exists f'. by rewrite Hf, lookup_insert_eq.
    + destruct (Hr fp2 F2 H2) as (Hin2 & f2 & Hf2 & Hrep2). split; [by apply Hin|]. exists f2.
      rewrite Hf, lookup_insert_ne by done. split; [done|].
      eapply rep_frame; [exact Ha|done|done|]. intros Hc. by eapply Hoth.
  - intros p q f g Hp Hq Hne. rewrite Hf. intros Hpf Hqg Hcf Hcg.
    assert (forall r, r <> fp -> is_Some (<[fp := F']> M !! r) -> is_Some (M !! r)) as Hback
      by (intros r Hr'; by rewrite lookup_insert_ne).
    destruct (decide (p = fp)) as [->|Hpf'], (decide (q = fp)) as [->|Hqf']; [done|..].
    + rewrite lookup_insert_eq in Hpf. rewrite lookup_insert_ne in Hqg by done. injection Hpf as <-.
      by destruct (Hoth q g Hqf' (Hback _ Hqf' Hq) Hqg Hcg) as [Hno _]; apply Hno.
    + rewrite lookup_insert_eq in Hqg. rewrite lookup_insert_ne in Hpf by done. injection Hqg as <-.
      destruct (Hoth p f Hpf' (Hback _ Hpf' Hp) Hpf Hcf) as [Hno _]. intros Heq. by apply Hno.
    + rewrite lookup_insert_ne in Hpf, Hqg by done. apply (Hap p q f g); auto.
Qed.

(** *** Growing a stream *)

Lemma realloc_bytes a p size :
  mem_ok (amem a) -> mem_ok (amem (fst (slop_realloc a p size))).
Proof using.
  intros Hm. assert (forall n, mem_ok (amem (fst (slop_malloc a n)))) as Hma.
  { intros n. unfold slop_malloc. destruct (_ =? 0); [done|]. destruct (_ <? _); [done|].
    by apply store_bytes_ok. }
  unfold slop_realloc. destruct (p =? 0); [apply Hma|]. destruct (size =? 0); [done|].
  destruct (size <=? _); [done|]. pose proof (Hma size) as Hs. destruct (slop_malloc a size) as [a1 q].
  cbn [fst] in Hs. destruct (q =? 0); [done|]. cbn. by apply copy_loop_ok.
Qed.

(** The stream's block of [n] bytes, or none, grows to [size] bytes. *)
Lemma realloc_grow a blocks p n size :
  alloc_inv a blocks -> mem_ok (amem a) -> (p = 0 /\ n = 0 \/ In (p, n) blocks) -> n < size <= 2147483648 ->
  let '(a', q) := slop_realloc a p size in
  (a' = a /\ q = 0) \/
  (alloc_inv a' ((q, size) :: blocks) /\ q <> 0 /\ slop_alloc_arena + slop_alloc_used a + 4 <= q /\
   load_bytes (amem a') q (Z.to_nat n) = load_bytes (amem a) p (Z.to_nat n) /\
   same_outside (q - 4) (4 + size) (amem a) (amem a')).
Proof using.
  intros Hi Hm Hp Hs. pose proof (ai_used _ _ Hi) as Hu. pose proof arena_fits as [Hf1 Hf2].
  assert (small_request size) as Hsm.
  { unfold small_request. destruct Hp as [[-> ->]|Hin]; [lia|].
    destruct (in_block _ _ _ _ Hi Hin) as (? & _). lia. }
  destruct Hp as [[-> ->]|Hin].
  - change (slop_realloc a 0 size) with (slop_malloc a size).
    pose proof (slop_malloc_spec a blocks size Hi Hsm) as Hx. destruct (slop_malloc a size) as [a' q].
    destruct (_ || _); [by left|right]. destruct Hx as (Hq & Hi' & Ho & _).
    split_and!; [done|lia|lia|done|].
    intros x Hx. apply Ho. lia.
  - destruct (in_block _ _ _ _ Hi Hin) as (? & ? & ? & ? & ? & ?).
    pose proof (slop_realloc_spec a blocks p n size Hi Hin Hsm ltac:(lia)) as Hx.
    destruct (slop_realloc a p size) as [a' q]. rewrite (proj2 (Z.leb_gt size n)) in Hx by lia.
    destruct (_ <? _); [by left|right]. destruct Hx as (Hq & Hi' & Hl & Ho).
    split_and!; [done|lia|lia|by apply Hl|done].
Qed.

(** Memory outside the arena stays. *)
Definition off_same s s' : Prop :=
  forall x, ~ slop_alloc_arena <= x < slop_alloc_arena + SLOP_ALLOC_ARENA_SIZE ->
    lib_mem s' x = lib_mem s x.

Lemma lib_mem_set m s : lib_mem (with_umem m s) = m.
Proof using umem_set. apply umem_set. Qed.

Lemma lib_mem_put fp f s : lib_mem (put_file fp f s) = lib_mem s.
Proof using. done. Qed.

Lemma lib_alloc_with a s : lib_alloc (with_alloc a s) = a.
Proof using umem_set.
  unfold lib_alloc, with_alloc, lib_mem. cbn [uos uused]. rewrite umem_set. by destruct a.
Qed.

(** The same allocator state again. *)
Lemma with_alloc_same s blocks M :
  streams_ok s blocks M -> streams_ok (with_alloc (lib_alloc s) s) blocks M.
Proof using umem_set.
  intros [Ha Hb Hr Hap].
  assert (lib_mem (with_alloc (lib_alloc s) s) = lib_mem s) as Hm by apply umem_set.
  constructor; rewrite ?Hm, ?lib_alloc_with; done.
Qed.

Lemma ensure_room s blocks M fp F f needed :
  streams_ok s blocks M -> M !! fp = Some F -> ufiles s !! fp = Some f -> 0 < needed <= 1073741824 ->
  exists s' b blocks', slop_ensure_mem_capacity s fp needed = Some (s', b) /\ off_same s s' /\
    streams_ok s' blocks' M /\
    exists f', ufiles s' !! fp = Some f' /\ f_pos f' = f_pos f /\
      (b = true -> needed <= f_capacity f').
Proof using umem_set.
  intros Hok HM Hf Hn. pose proof Hok as [Ha Hb Hr Hap].
  destruct (Hr fp F HM) as (Hin & f0 & Hf0 & Hrep). rewrite Hf in Hf0. injection Hf0 as <-.
  destruct (in_block _ _ _ _ Ha Hin) as (? & ? & ? & ? & ? & ?).
  unfold slop_ensure_mem_capacity. rewrite (proj2 (Z.eqb_neq fp 0)), Hf by lia. cbn [mbind option_bind].
  destruct (needed <=? f_capacity f) eqn:En; zify_bool.
  { exists s, true, blocks. split_and!; try done. by exists f. }
  pose proof arena_fits as [Har1 Har2]. pose proof (ai_used _ _ Ha) as Hu.
  assert (0 <= f_capacity f /\ (f_mem f = 0 /\ f_capacity f = 0 \/ In (f_mem f, f_capacity f) blocks)) as [Hc0 Hblk].
  { destruct (sr_block _ _ _ _ Hrep) as [(-> & -> & _)|(Hi & _)]; [by split; [|left]|].
    destruct (in_block _ _ _ _ Ha Hi). split; [lia|by right]. }
  assert (2 ^ Z.of_nat 33 = 8589934592) as H33 by done.
  destruct (double_capacity_spec 33 (if f_capacity f =? 0 then 256 else f_capacity f) needed) as
    (cap & Hcap & Hge & Hle & Hlt); [split_if; lia|lia|rewrite H33; split_if; lia|].
  rewrite Hcap. cbn [mbind option_bind].
  assert (f_capacity f < cap <= 2147483648) as Hcap2.
  { split; [lia|]. destruct Hlt as [->|Hlt]; [|lia]. destruct (f_capacity f =? 0); lia. }
  pose proof (realloc_grow (lib_alloc s) blocks (f_mem f) (f_capacity f) cap Ha Hb Hblk Hcap2) as Hx.
  pose proof (realloc_bytes (lib_alloc s) (f_mem f) cap Hb) as Hby.
  destruct (slop_realloc (lib_alloc s) (f_mem f) cap) as [a q]. cbn [fst] in Hby.
  destruct Hx as [[-> ->]|(Ha' & Hq0 & Hq & Hl & Ho)].
  { rewrite Z.eqb_refl. exists (with_alloc (lib_alloc s) s), false, blocks.
    split; [done|]. split; [intros x _; unfold lib_mem; cbn; by rewrite umem_set|].
    split; [by apply with_alloc_same|]. by exists f. }
  rewrite (proj2 (Z.eqb_neq q 0)) by done.
  destruct (in_block _ _ _ _ Ha' ltac:(by left)) as (_ & Hqa & _ & Hqe & _ & Hqw).
  set (n := Z.to_nat (cap - f_capacity f)).
  assert (Z.of_nat n = cap - f_capacity f) as Hnn by (unfold n; lia).
  destruct (zero_from_spec n (amem a) (q + f_capacity f)) as (Hz1 & Hz2 & Hz3); [split; lia|].
  set (m := zero_from n (amem a) (q + f_capacity f)) in *.
  assert (lib_mem (with_alloc a s) = amem a) as Hma by apply umem_set. rewrite Hma. fold m.
  set (s' := put_file fp (set_block cap q f) (with_umem m (with_alloc a s))).
  assert (lib_mem s' = m) as Hms by apply umem_set.
  assert (same_outside (q - 4) (4 + cap) (lib_mem s) m) as Hsm.
  { intros x Hx. rewrite Hz1 by lia. apply Ho. lia. }
  assert (alloc_inv (lib_alloc s') ((q, cap) :: blocks)) as Ha''.
  { unfold lib_alloc. rewrite Hms. eapply (alloc_inv_write a _ q cap); [done|by left|].
    intros x Hx. apply Hz1. lia. }
  exists s', true, ((q, cap) :: blocks). split; [done|]. split; [|split].
  - intros x Hx. rewrite Hms. apply Hsm. lia.
  - rewrite <- (insert_id M fp F HM).
    apply (streams_update s s' blocks _ M fp (set_block cap q f) F); try done; try (rewrite Hms; by apply Hz3).
    + by right.
    + intros b Hbin. by right.
    + destruct Hrep as [Hk Hp Hs Hbl]. constructor; try done. right. cbn [f_mem f_capacity f_size set_block].
      rewrite Hms. split; [by left|].
      assert (f_size f <= f_capacity f) as Hsc.
      { destruct Hbl as [(Hc & _ & Hnil)|(_ & ? & _)]; [rewrite Hs, Hnil; cbn; lia|lia]. }
      split; [lia|].
      assert (load_bytes m q (Z.to_nat (f_capacity f)) =
              contents F ++ replicate (Z.to_nat (f_capacity f) - length (contents F)) 0) as Hfirst.
      { transitivity (load_bytes (amem a) q (Z.to_nat (f_capacity f))).
        - apply load_bytes_ext; [split; lia|]. intros x Hx. apply Hz1. lia.
        - rewrite Hl. destruct Hbl as [(Hc & _ & ->)|(_ & _ & Hlb)]; [by rewrite Hc|exact Hlb]. }
      replace (Z.to_nat cap) with (Z.to_nat (f_capacity f) + n)%nat by lia.
      rewrite load_bytes_add, Hfirst, <- app_assoc. f_equal. rewrite Z2Nat.id by lia.
      assert (load_bytes m (q + f_capacity f) n = replicate n 0) as ->.
      { apply list_eq. intros i. destruct (decide (i < n)%nat).
        - rewrite load_bytes_lookup, lookup_replicate_2 by done. unfold load. rewrite u32_small by lia.
          f_equal. apply Hz2. lia.
        - rewrite !lookup_ge_None_2; rewrite ?load_bytes_length, ?length_replicate; done || lia. }
      rewrite <- replicate_add. f_equal. lia.
    + intros fp2 f2 Hne [F2 HM2] Hf2 Hc2.
      destruct (Hr fp2 F2 HM2) as (_ & f2' & Hf2' & Hrep2). rewrite Hf2 in Hf2'. injection Hf2' as <-.
      destruct (sr_block _ _ _ _ Hrep2) as [(? & _)|(Hin2 & _)]; [done|].
      destruct (in_block _ _ _ _ Ha Hin2) as (? & ? & ? & _). cbn [f_mem f_capacity set_block lib_alloc slop_alloc_used] in *.
      split; [lia|]. intros x Hx. rewrite Hms. apply Hsm. lia.
  - exists (set_block cap q f). split; [apply lookup_insert_eq|]. done.
Qed.

(** *** Writing *)

Lemma write_stream s blocks M fp F f bs m1 :
  streams_ok s blocks M -> M !! fp = Some F -> ufiles s !! fp = Some f -> bs <> [] ->
  Z.of_nat (pos F) + Z.of_nat (length bs) + 1 <= f_capacity f <= 2147483648 ->
  Z.of_nat (pos F) + Z.of_nat (length bs) <= INT_MAX ->
  same_outside (f_mem f + Z.of_nat (pos F)) (Z.of_nat (length bs)) (lib_mem s) m1 ->
  bytes_at m1 (f_mem f + Z.of_nat (pos F)) bs -> mem_ok m1 ->
  let f2 := bump_size (set_pos (f_pos f +u Z.of_nat (length bs)) f) in
  let s2 := put_file fp f2 (poke (f_mem f2 + f_size f2) 0 (with_umem m1 s)) in
  streams_ok s2 blocks (<[fp := stream_write bs F]> M) /\ off_same s s2.
Proof using umem_set.
  intros Hok HM Hf Hbs Hcap Hmax Ho Hby Hm1. pose proof Hok as [Ha Hb Hr Hap].
  destruct (Hr fp F HM) as (Hin & f0 & Hf0 & Hrep). rewrite Hf in Hf0. injection Hf0 as <-.
  destruct Hrep as [Hk [Hp Hpx] Hs Hbl].
  destruct Hbl as [(? & _)|(Hblk & Hlt & Hl)]; [lia|].
  destruct (in_block _ _ _ _ Ha Hblk) as (? & ? & ? & ? & ? & ?).
  set (cap := Z.to_nat (f_capacity f)) in *. assert (Z.of_nat cap = f_capacity f) as Hcapn by lia.
  set (size := Nat.max (length (contents F)) (pos F + length bs)).
  cbv zeta. set (f2 := bump_size _).
  assert (f_pos f2 = Z.of_nat (pos F + length bs) /\ f_size f2 = Z.of_nat size /\ f_mem f2 = f_mem f /\
          f_capacity f2 = f_capacity f /\ f_kind f2 = f_kind f) as (Hp2 & Hs2 & Hm2 & Hc2 & Hk2).
  { unfold f2, bump_size. cbn [f_size f_pos set_pos]. rewrite Hp, u32_small by (unfold INT_MAX in *; lia).
    rewrite Hs. destruct (_ <? _) eqn:E; zify_bool; cbn [f_pos f_size f_mem f_capacity f_kind set_size set_pos];
      unfold size; split_and!; done || lia. }
  assert (load_bytes m1 (f_mem f) cap =
    splice (pos F) bs (pad_to (pos F) (contents F)) ++ replicate (cap - size) 0) as Hl1.
  { rewrite (load_splice (lib_mem s) m1 (f_mem f) cap (pos F) bs) by (done || lia || (split; lia)).
    rewrite Hl, splice_zeros by lia. done. }
  assert (length (splice (pos F) bs (pad_to (pos F) (contents F))) = size) as Hsl.
  { rewrite splice_length; rewrite pad_to_length; unfold size; lia. }
  assert (m1 (f_mem f + Z.of_nat size) = 0) as Hend.
  { assert (load_bytes m1 (f_mem f) cap !! size = Some 0) as Hat.
    { rewrite Hl1, lookup_app_r by (rewrite Hsl; lia). rewrite Hsl, lookup_replicate_2 by lia. done. }
    rewrite load_bytes_lookup in Hat by lia. injection Hat as Hat. unfold load in Hat.
    by rewrite u32_small in Hat by lia. }
  set (s2 := put_file fp f2 _).
  assert (forall x, lib_mem s2 x = m1 x) as Hms.
  { intros x. unfold s2, poke. rewrite lib_mem_put, !lib_mem_set. unfold store.
    rewrite Hm2, Hs2, u32_small by lia. split_if; [by subst|done]. }
  assert (forall x, ~ f_mem f <= x < f_mem f + f_capacity f -> lib_mem s2 x = lib_mem s x) as Hout.
  { intros x Hx. rewrite Hms. apply Ho. lia. }
  split.
  - apply (streams_update s s2 blocks blocks M fp f2); try done.
    + apply (alloc_inv_write (lib_alloc s) blocks (f_mem f) (f_capacity f) (lib_mem s2)); done.
    + intros x. rewrite Hms. apply Hm1.
    + constructor.
      * by rewrite Hk2.
      * rewrite Hp2. cbn [pos stream_write]. lia.
      * rewrite Hs2. cbn [contents stream_write]. by rewrite Hsl.
      * right. rewrite Hm2, Hc2, Hs2. split; [done|]. split; [lia|].
        cbn [contents stream_write]. rewrite Hsl. fold cap. rewrite <- Hl1.
        apply load_bytes_ext; [split; lia|]. intros x _. apply Hms.
    + intros fp2 g Hne [F2 HM2] Hg Hcg.
      destruct (Hr fp2 F2 HM2) as (_ & g' & Hg' & Hrep2). rewrite Hg in Hg'. injection Hg' as <-.
      destruct (sr_block _ _ _ _ Hrep2) as [(? & _)|(Hin2 & _)]; [done|].
      assert (f_mem f <> f_mem g) as Hapart by (apply (Hap fp fp2 f g); try done; by eexists || lia).
      destruct (blocks_apart _ _ _ _ _ _ Ha Hblk Hin2 Hapart);
        (split; [by rewrite Hm2|intros x Hx; apply Hout; lia]).
  - intros x Hx. apply Hout. lia.
Qed.

(** *** Reading and moving *)

Lemma move_stream s s' blocks M fp F f f' p :
  streams_ok s blocks M -> M !! fp = Some F -> ufiles s !! fp = Some f ->
  f_kind f' = f_kind f -> f_size f' = f_size f -> f_capacity f' = f_capacity f -> f_mem f' = f_mem f ->
  f_pos f' = Z.of_nat p -> Z.of_nat p <= INT_MAX ->
  uused s' = uused s -> ufiles s' = <[fp := f']> (ufiles s) -> mem_ok (lib_mem s') ->
  (forall x, slop_alloc_arena <= x < slop_alloc_arena + SLOP_ALLOC_ARENA_SIZE -> lib_mem s' x = lib_mem s x) ->
  streams_ok s' blocks (<[fp := {| contents := contents F; pos := p |}]> M).
Proof using umem_set.
  intros Hok HM Hf Hk Hs Hc Hm Hp Hpx Hu Hfs Hb' Hsame. pose proof Hok as [Ha Hb Hr Hap].
  destruct (Hr fp F HM) as (Hin & f0 & Hf0 & Hrep). rewrite Hf in Hf0. injection Hf0 as <-.
  assert (alloc_inv (lib_alloc s') blocks) as Ha'.
  { destruct Ha as [H1 H2 H3 H4]. unfold lib_alloc. constructor; cbn [slop_alloc_used amem] in *; rewrite ?Hu; try done.
    intros q n Hq. destruct (H4 q n Hq) as [Hby Hn]. split; [|done].
    destruct (blocks_below_in _ _ _ _ H3 Hq) as (? & ? & ? & _).
    intros i b Hi. rewrite Hsame; [by apply Hby|]. pose proof (lookup_lt_Some _ _ _ Hi) as Hl. cbn in Hl. lia. }
  apply (streams_update s s' blocks blocks M fp f'); try done.
  - destruct Hrep as [Hk0 Hp0 Hs0 Hbl]. constructor; [congruence|rewrite Hp; cbn; lia|cbn; congruence|].
    rewrite Hc, Hm, Hs. destruct Hbl as [Hbl|(Hi & Hlt & Hl)]; [by left|right].
    split; [done|]. split; [done|]. cbn [contents]. rewrite <- Hl.
    destruct (in_block _ _ _ _ Ha Hi) as (? & ? & ? & ? & ? & ?).
    apply load_bytes_ext; [split; lia|]. intros x Hx. apply Hsame. lia.
  - intros fp2 g Hne [F2 HM2] Hg Hcg. rewrite Hc, Hm. split; [intros Hcf; apply (Hap fp fp2 f g); try done; by eexists|].
    destruct (Hr fp2 F2 HM2) as (_ & g' & Hg' & Hrep2). rewrite Hg in Hg'. injection Hg' as <-.
    destruct (sr_block _ _ _ _ Hrep2) as [(? & _)|(Hin2 & _)]; [done|].
    destruct (in_block _ _ _ _ Ha Hin2) as (? & ? & ? & ? & ? & ?).
    intros x Hx. apply Hsame. lia.
Qed.

(** The bytes of a stream from its position on. *)
Lemma stream_bytes m a blocks f F n :
  alloc_inv a blocks -> stream_rep m blocks f F ->
  (n <> 0 -> pos F + n <= length (contents F))%nat ->
  load_bytes m (f_mem f + f_pos f) n = take n (drop (pos F) (contents F)) /\
  (n <> 0%nat -> slop_alloc_arena <= f_mem f + f_pos f /\
    f_mem f + f_pos f + Z.of_nat n <= slop_alloc_arena + SLOP_ALLOC_ARENA_SIZE).
Proof using.
  intros Ha [Hk [Hp _] Hs Hbl] Hn. rewrite Hp.
  destruct (decide (n = 0%nat)) as [->|Hn0]; [by rewrite take_0|]. specialize (Hn Hn0).
  destruct Hbl as [(_ & _ & Hnil)|(Hi & Hlt & Hl)]; [rewrite Hnil in Hn; cbn in Hn; lia|].
  destruct (in_block _ _ _ _ Ha Hi) as (? & ? & ? & ? & ? & ?).
  split; [|lia].
  set (rest := replicate (Z.to_nat (f_capacity f) - length (contents F)) 0) in Hl.
  transitivity (take n (drop (pos F) (contents F ++ rest))).
  - rewrite <- Hl, drop_load, take_load by lia. done.
  - rewrite drop_app_le by lia. rewrite take_app_le by (rewrite length_drop; lia). done.
Qed.

(** *** The operations *)

Lemma tmpfile_ok s blocks M :
  streams_ok s blocks M ->
  exists s' r blocks', slop_tmpfile s = Some (s', r) /\ off_same s s' /\
    (r = 0 /\ streams_ok s' blocks M \/
     M !! r = None /\ streams_ok s' blocks' (<[r := {| contents := []; pos := 0 |}]> M)).
Proof using umem_set.
  intros Hok. pose proof Hok as [Ha Hb Hr Hap]. unfold slop_tmpfile.
  pose proof (slop_malloc_spec (lib_alloc s) blocks SLOP_FILE_BYTES Ha ltac:(unfold small_request; done)) as Hx.
  assert (mem_ok (amem (fst (slop_malloc (lib_alloc s) SLOP_FILE_BYTES)))) as Hby
    by exact (realloc_bytes (lib_alloc s) 0 SLOP_FILE_BYTES Hb).
  destruct (slop_malloc (lib_alloc s) SLOP_FILE_BYTES) as [a p]. cbn [fst] in Hby.
  pose proof (ai_used _ _ Ha) as Hu. pose proof arena_fits as [Har1 Har2].
  change (SLOP_FILE_BYTES =? 0) with false in Hx. cbn [orb] in Hx. destruct (_ <? _) in Hx.
  { destruct Hx as [-> ->]. exists (with_alloc (lib_alloc s) s), 0, blocks. split; [done|].
    split; [intros x _; unfold lib_mem; cbn; by rewrite umem_set|]. left. split; [done|]. by apply with_alloc_same. }
  destruct Hx as (Hp & Ha' & Ho & Hend). cbn [lib_alloc slop_alloc_used] in *.
  destruct (in_block _ _ _ _ Ha' ltac:(by left)) as (_ & ? & _ & ? & ? & _).
  rewrite (proj2 (Z.eqb_neq p 0)) by lia.
  exists (put_file p mem_stream (with_alloc a s)), p, ((p, SLOP_FILE_BYTES) :: blocks).
  assert (lib_mem (put_file p mem_stream (with_alloc a s)) = amem a) as Hm by apply umem_set.
  split; [done|]. split; [intros x Hx; rewrite Hm; apply Ho; unfold SLOP_FILE_BYTES in *; lia|]. right.
  split.
  - apply eq_None_not_Some. intros [F HM]. destruct (Hr p F HM) as (Hin & _).
    destruct (in_block _ _ _ _ Ha Hin) as (? & ? & ? & _). cbn [lib_alloc slop_alloc_used] in *.
    unfold SLOP_FILE_BYTES in *. lia.
  - apply (streams_update s _ blocks _ M p mem_stream); try done.
    + by left.
    + unfold lib_alloc. rewrite Hm. by destruct a.
    + by rewrite Hm.
    + intros b Hbin. by right.
    + constructor; try done. by left.
    + intros fp2 f2 Hne [F2 HM2] Hf2 Hc2. split; [done|].
      destruct (Hr fp2 F2 HM2) as (_ & f2' & Hf2' & Hrep2). rewrite Hf2 in Hf2'. injection Hf2' as <-.
      destruct (sr_block _ _ _ _ Hrep2) as [(? & _)|(Hin2 & _)]; [done|].
      destruct (in_block _ _ _ _ Ha Hin2) as (? & ? & ? & _). cbn [lib_alloc slop_alloc_used] in *.
      intros x Hx. rewrite Hm. apply Ho. lia.
Qed.

(** The two writes: growing, copying, terminating. *)
Lemma grow_write s blocks M fp F f needed :
  streams_ok s blocks M -> M !! fp = Some F -> ufiles s !! fp = Some f -> 0 < needed <= 1073741824 ->
  exists s1 room blocks' f1, slop_ensure_mem_capacity s fp needed = Some (s1, room) /\
    ufiles s1 !! fp = Some f1 /\ off_same s s1 /\ streams_ok s1 blocks' M /\
    f_pos f1 = Z.of_nat (pos F) /\
    streams_ok (put_file fp (set_err 1 f1) s1) blocks' M /\
    (room = true -> needed <= f_capacity f1 /\ In (f_mem f1, f_capacity f1) blocks').
Proof using umem_set.
  intros Hok HM Hf Hn.
  destruct (ensure_room s blocks M fp F f needed Hok HM Hf Hn) as (s1 & b & bl & He & Hoff & Hok1 & f1 & Hf1 & Hp1 & Hroom).
  destruct (so_rep _ _ _ Hok fp F HM) as (_ & f0 & Hf0 & Hrep0). rewrite Hf in Hf0. injection Hf0 as <-.
  destruct (so_rep _ _ _ Hok1 fp F HM) as (_ & f0 & Hf0 & Hrep1). rewrite Hf1 in Hf0. injection Hf0 as <-.
  exists s1, b, bl, f1. split; [done|]. split; [done|]. split; [done|]. split; [done|].
  split; [apply Hrep1|]. split.
  - assert (M = <[fp := {| contents := contents F; pos := pos F |}]> M) as HMF
      by (symmetry; apply insert_id; rewrite HM; by destruct F).
    rewrite HMF. apply (move_stream s1 _ bl M fp F f1 (set_err 1 f1)); try done; try apply Hrep1; [|apply Hok1].
    destruct (sr_pos _ _ _ _ Hrep1). lia.
  - intros ->. specialize (Hroom eq_refl). split; [done|].
    destruct (sr_block _ _ _ _ Hrep1) as [(? & _)|(? & _)]; [lia|done].
Qed.

Lemma stream_small s blocks M fp F :
  streams_ok s blocks M -> M !! fp = Some F -> Z.of_nat (length (contents F)) <= 32768.
Proof using.
  intros Hok HM. destruct (so_rep _ _ _ Hok fp F HM) as (_ & f & _ & Hrep).
  destruct (sr_block _ _ _ _ Hrep) as [(_ & _ & ->)|(Hi & Hlt & _)]; [by cbn|].
  destruct (in_block _ _ _ _ (so_alloc _ _ _ Hok) Hi) as (? & ? & ? & ? & ? & ?).
  rewrite (sr_size _ _ _ _ Hrep) in Hlt. unfold SLOP_ALLOC_ARENA_SIZE in *. lia.
Qed.

Definition in_arena (x : Z) : Prop := slop_alloc_arena <= x < slop_alloc_arena + SLOP_ALLOC_ARENA_SIZE.

(** A write of [bs] by [slop_fputc] or [slop_fwrite], the memory [m1] once the
    bytes are in place, and the streams afterwards. *)
Lemma put_bytes s blocks M fp F f bs m1 :
  streams_ok s blocks M -> M !! fp = Some F -> ufiles s !! fp = Some f -> f_pos f = Z.of_nat (pos F) ->
  In (f_mem f, f_capacity f) blocks -> bs <> [] -> all_bytes bs ->
  Z.of_nat (pos F) + Z.of_nat (length bs) + 1 <= f_capacity f ->
  same_outside (f_mem f + Z.of_nat (pos F)) (Z.of_nat (length bs)) (lib_mem s) m1 ->
  load_bytes m1 (f_mem f + Z.of_nat (pos F)) (length bs) = bs -> mem_ok m1 ->
  let f2 := bump_size (set_pos (f_pos f +u Z.of_nat (length bs)) f) in
  let s2 := put_file fp f2 (poke (f_mem f2 + f_size f2) 0 (with_umem m1 s)) in
  streams_ok s2 blocks (<[fp := stream_write bs F]> M) /\ off_same s s2.
Proof using umem_set.
  intros Hok HM Hf Hp Hin Hne Hbs Hcap Ho Hl Hm1.
  destruct (in_block _ _ _ _ (so_alloc _ _ _ Hok) Hin) as (? & ? & ? & Hend & ? & ?).
  pose proof arena_fits as [? ?]. unfold SLOP_ALLOC_ARENA_SIZE in *.
  apply write_stream; try done; [lia|unfold INT_MAX; lia|].
  apply bytes_at_of_load; [split; lia|done].
Qed.

(** What an operation comes to. *)
Definition op_done s M op : Prop :=
  let '(ptr, n) := op_buffer op in
  let bs := load_bytes (lib_mem s) ptr (Z.to_nat n) in
  exists s' r blocks', stream_do s op = Some (s', r) /\
    (forall x, ~ in_arena x -> ~ ptr <= x < ptr + n -> lib_mem s' x = lib_mem s x) /\
    ((op = Tmpfile -> M !! r = None) /\
     (exists M' out, stream_step M bs op r = (M', r, out) /\ streams_ok s' blocks' M' /\
        load_bytes (lib_mem s') ptr (length out) = out) \/
     no_room op = Some r /\ streams_ok s' blocks' M).

Lemma stream_at s blocks M fp F :
  streams_ok s blocks M -> M !! fp = Some F ->
  fp <> 0 /\ exists f, ufiles s !! fp = Some f /\ stream_rep (lib_mem s) blocks f F.
Proof using.
  intros Hok HM. destruct (so_rep _ _ _ Hok fp F HM) as (Hin & f & Hf & Hrep).
  destruct (in_block _ _ _ _ (so_alloc _ _ _ Hok) Hin). split; [lia|by exists f].
Qed.

Lemma tmpfile_done s blocks M : streams_ok s blocks M -> op_ok M Tmpfile -> op_done s M Tmpfile.
Proof using umem_set.
  intros Hok Hop. pose proof Hok as [Ha Hb _ _]. pose proof arena_fits as [Har1 Har2].
  unfold op_done. cbn [op_buffer stream_do op_ok] in *.
  destruct (tmpfile_ok s blocks M Hok) as (s' & r & bl & -> & Hoff & Hcase). destruct Hcase as [[-> ?]|[Hno ?]].
  + exists s', 0, blocks. split; [done|]. split; [intros x Hx _; by apply Hoff|]. by right.
  + exists s', r, bl. split; [done|]. split; [intros x Hx _; by apply Hoff|]. left. split; [done|].
    eexists _, []. done.
Qed.

Lemma putc_done s blocks M fp ch : streams_ok s blocks M -> op_ok M (Putc fp ch) -> op_done s M (Putc fp ch).
Proof using umem_set.
  intros Hok Hop. pose proof Hok as [Ha Hb _ _]. pose proof arena_fits as [Har1 Har2].
  unfold op_done. cbn [op_buffer stream_do op_ok] in *.
  destruct Hop as (F & HM & Hpos). destruct (stream_at _ _ _ _ _ Hok HM) as (Hfp0 & f & Hf & Hrep).
  unfold slop_fputc. rewrite (proj2 (Z.eqb_neq fp 0)) by done. rewrite Hf. cbn [mbind option_bind].
  rewrite (sr_kind _ _ _ _ Hrep), Z.eqb_refl. destruct (sr_pos _ _ _ _ Hrep) as [Hp _].
  rewrite Hp, u32_small by lia.
  destruct (grow_write s blocks M fp F f (Z.of_nat (pos F) + 2) Hok HM Hf ltac:(lia))
    as (s1 & room & bl & f1 & -> & Hf1 & Hoff & Hok1 & Hp1 & Herr & Hroom).
  cbn [mbind option_bind]. rewrite Hf1. destruct room; cbn [negb].
  2:{ exists (put_file fp (set_err 1 f1) s1), (-1), bl. split; [done|].
      split; [intros x Hx _; by apply Hoff|]. by right. }
  destruct (Hroom eq_refl) as [Hcap Hin1].
  destruct (in_block _ _ _ _ (so_alloc _ _ _ Hok1) Hin1) as (? & ? & ? & ? & ? & ?).
  destruct (put_bytes s1 bl M fp F f1 [u8 ch] (store (lib_mem s1) (f_mem f1 + f_pos f1) (u8 ch))) as [Hok2 Hoff2];
    try done.
  + repeat constructor; apply u8_is_byte.
  + cbn. lia.
  + rewrite Hp1. apply (same_outside_store _ _ [u8 ch]). cbn. split; lia.
  + rewrite Hp1. apply (load_store_bytes (lib_mem s1) _ [u8 ch]); [cbn; split; lia|].
    repeat constructor; apply u8_is_byte.
  + apply store_ok, Hok1.
  + eexists _, (u8 ch), bl. split; [done|]. split; [intros x Hx _; rewrite Hoff2 by done; by apply Hoff|].
    left. split; [done|]. eexists _, []. split; [by cbn [stream_step]; rewrite HM|]. by split.
Qed.

Lemma write_done s blocks M fp ptr n : streams_ok s blocks M -> op_ok M (Write fp ptr n) -> op_done s M (Write fp ptr n).
Proof using umem_set.
  intros Hok Hop. pose proof Hok as [Ha Hb _ _]. pose proof arena_fits as [Har1 Har2].
  unfold op_done. cbn [op_buffer stream_do op_ok] in *.
  destruct Hop as (F & HM & Hptr & Hn & [Hfit Hoffb] & Hpos). destruct (stream_at _ _ _ _ _ Hok HM) as (Hfp0 & f & Hf & Hrep).
  unfold slop_fwrite. rewrite (proj2 (Z.eqb_neq ptr 0)), (proj2 (Z.eqb_neq fp 0)), (proj2 (Z.eqb_neq n 0))
    by (done || lia).
  cbn [orb]. rewrite Hf. cbn [mbind option_bind].
  rewrite (sr_kind _ _ _ _ Hrep), Z.eqb_refl. destruct (sr_pos _ _ _ _ Hrep) as [Hp _].
  rewrite Hp, Z.mul_1_l, (u32_small n) by lia. rewrite u32_small by lia.
  destruct (grow_write s blocks M fp F f (Z.of_nat (pos F) + n + 1) Hok HM Hf ltac:(lia))
    as (s1 & room & bl & f1 & -> & Hf1 & Hoff & Hok1 & Hp1 & Herr & Hroom).
  cbn [mbind option_bind]. rewrite Hf1. destruct room; cbn [negb].
  2:{ exists (put_file fp (set_err 1 f1) s1), 0, bl. split; [done|].
      split; [intros x Hx _; by apply Hoff|]. by right. }
  destruct (Hroom eq_refl) as [Hcap Hin1]. set (bs := load_bytes (lib_mem s) ptr (Z.to_nat n)).
  assert (length bs = Z.to_nat n) as Hbl by apply load_bytes_length.
  destruct (in_block _ _ _ _ (so_alloc _ _ _ Hok1) Hin1) as (? & ? & ? & ? & ? & ?).
  assert (load_bytes (lib_mem s1) ptr (Z.to_nat n) = bs) as Hsrc.
  { apply load_bytes_ext; [rewrite Z2Nat.id by lia; exact Hfit|]. intros x Hx. apply Hoff. lia. }
  destruct (put_bytes s1 bl M fp F f1 bs (memcpy (lib_mem s1) (f_mem f1 + f_pos f1) ptr (Z.to_nat n)))
    as [Hok2 Hoff2]; try done.
  + intros Hnil. rewrite Hnil in Hbl. cbn in Hbl. lia.
  + by apply load_bytes_byte.
  + lia.
  + rewrite Hp1, Hbl. intros x Hx. unfold memcpy. destruct Hfit.
    apply copy_loop_out; [split; lia|split; lia|lia|lia].
  + rewrite Hp1, Hbl, <- Hsrc. destruct Hfit. apply copy_loop_bytes; [apply Hok1|split; lia|split; lia|lia].
  + apply copy_loop_ok, Hok1.
  + rewrite Hbl, Z2Nat.id in Hok2, Hoff2 by lia.
    eexists _, n, bl. split; [done|]. split; [intros x Hx _; rewrite Hoff2 by done; by apply Hoff|].
    left. split; [done|]. eexists _, []. split; [by cbn [stream_step]; rewrite HM|]. by split.
Qed.

Lemma getc_done s blocks M fp : streams_ok s blocks M -> op_ok M (Getc fp) -> op_done s M (Getc fp).
Proof using umem_set.
  intros Hok Hop. pose proof Hok as [Ha Hb _ _]. pose proof arena_fits as [Har1 Har2].
  unfold op_done. cbn [op_buffer stream_do op_ok] in *.
  destruct Hop as [F HM]. destruct (stream_at _ _ _ _ _ Hok HM) as (Hfp0 & f & Hf & Hrep).
  unfold slop_fgetc. rewrite (proj2 (Z.eqb_neq fp 0)) by done. rewrite Hf. cbn [mbind option_bind].
  rewrite (sr_kind _ _ _ _ Hrep), Z.eqb_refl. destruct (sr_pos _ _ _ _ Hrep) as [Hp Hpx].
  rewrite (sr_size _ _ _ _ Hrep). rewrite Hp.
  destruct (Z.of_nat (length (contents F)) <=? Z.of_nat (pos F)) eqn:E; zify_bool.
  + eexists _, (-1), blocks. split; [done|]. split; [done|]. left. split; [done|].
    eexists _, []. cbn [stream_step]. rewrite HM. cbn [from_option id]. unfold file_read.
    rewrite drop_ge by lia. rewrite take_nil. cbn [length]. split; [done|]. split; [|done].
    rewrite Nat.add_0_r. apply (move_stream s _ blocks M fp F f (set_eof 1 f)); try done; lia.
  + destruct (stream_bytes (lib_mem s) _ blocks f F 1 Ha Hrep) as [Hby Hin2]; [lia|].
    destruct (drop (pos F) (contents F)) as [|c rest] eqn:Ed;
      [apply (f_equal length) in Ed; rewrite length_drop in Ed; cbn in Ed; lia|].
    cbn [load_bytes take] in Hby. injection Hby as Hby. rewrite Hp in Hby.
    assert (is_byte c) as Hc by (rewrite <- Hby; by apply load_byte).
    eexists _, c, blocks. split; [by rewrite Hby, u8_byte by done|]. split; [done|]. left. split; [done|].
    eexists _, []. cbn [stream_step]. rewrite HM. cbn [from_option id]. unfold file_read. rewrite Ed.
    cbn [take length]. split; [done|]. split; [|done].
    pose proof (stream_small _ _ _ _ _ Hok HM). rewrite u32_small, take_0 by lia. cbn [length].
    apply (move_stream s _ blocks M fp F f (set_pos (Z.of_nat (pos F) + 1) f)); try done; cbn [f_pos set_pos];
      unfold INT_MAX; lia.
Qed.

Lemma read_done s blocks M fp ptr n : streams_ok s blocks M -> op_ok M (Read fp ptr n) -> op_done s M (Read fp ptr n).
Proof using umem_set.
  intros Hok Hop. pose proof Hok as [Ha Hb _ _]. pose proof arena_fits as [Har1 Har2].
  unfold op_done. cbn [op_buffer stream_do op_ok] in *.
  destruct Hop as ([F HM] & Hptr & Hn & [Hfit Hoffb]). destruct (stream_at _ _ _ _ _ Hok HM) as (Hfp0 & f & Hf & Hrep).
  unfold slop_fread. rewrite (proj2 (Z.eqb_neq ptr 0)), (proj2 (Z.eqb_neq fp 0)), (proj2 (Z.eqb_neq n 0))
    by (done || lia).
  cbn [orb]. rewrite Hf. cbn [mbind option_bind].
  rewrite (sr_kind _ _ _ _ Hrep), Z.eqb_refl. destruct (sr_pos _ _ _ _ Hrep) as [Hp Hpx].
  pose proof (stream_small _ _ _ _ _ Hok HM) as Hsmall.
  destruct Hfit as [Hf1 Hf2]. rewrite Z.mul_1_l, (u32_small n) by lia.
  rewrite (sr_size _ _ _ _ Hrep).
  set (avail := if f_pos f <? _ then _ else 0). set (take_ := if n <? avail then n else avail).
  unfold file_read. set (out := take (Z.to_nat n) (drop (pos F) (contents F))).
  assert (avail = Z.of_nat (length (contents F) - pos F)) as Hav by (unfold avail; rewrite Hp; split_if; lia).
  assert (Z.of_nat (length out) = take_) as Hlen
    by (unfold out, take_; rewrite length_take, length_drop; split_if; lia).
  destruct (stream_bytes (lib_mem s) _ blocks f F (length out) Ha Hrep) as [Hby Hin2].
  { intros Hne. unfold out in *. rewrite length_take, length_drop in *. lia. }
  assert (off_arena ptr take_ /\ 0 <= take_ <= n /\ f_pos f + take_ <= INT_MAX) as (Hob & Htn & Hpt).
  { unfold off_arena, take_, INT_MAX in *. split_and!; try split; split_if; try lia. }
  assert (forall m x, m = memcpy (lib_mem s) ptr (f_mem f + f_pos f) (Z.to_nat take_) ->
    ~ ptr <= x < ptr + take_ -> m x = lib_mem s x) as Hout.
  { intros m x -> Hx. unfold memcpy. rewrite <- Hlen in *. rewrite Nat2Z.id.
    destruct (decide (length out = 0%nat)) as [->|Hne]; [done|]. specialize (Hin2 Hne). destruct Hob as [[? ?] ?].
    apply copy_loop_out; [split; lia|split; lia|lia|lia]. }
  set (m := memcpy _ _ _ _) in *.
  exists (put_file fp (if take_ <? n then set_eof 1 (set_pos (f_pos f +u take_) f) else set_pos (f_pos f +u take_) f)
            (with_umem m s)), take_, blocks.
  split; [by rewrite Z.div_1_r|]. rewrite lib_mem_put, lib_mem_set.
  split; [intros x _ Hx; apply Hout; [done|lia]|]. left. split; [done|].
  eexists _, out. cbn [stream_step]. rewrite HM. cbn [from_option id]. unfold file_read. fold out.
  split; [by rewrite Hlen|]. split.
  + assert (mem_ok m) as Hm by (apply copy_loop_ok, Hok).
    apply (move_stream s _ blocks M fp F f (if take_ <? n then set_eof 1 (set_pos (f_pos f +u take_) f)
                                            else set_pos (f_pos f +u take_) f)); try done.
    1-4: by destruct (take_ <? n).
    * rewrite u32_small by (unfold INT_MAX in *; lia). destruct (take_ <? n); cbn [f_pos set_eof set_pos]; lia.
    * lia.
    * by rewrite lib_mem_put, lib_mem_set.
    * intros x Hx. rewrite lib_mem_put, lib_mem_set. apply Hout; [done|].
      destruct Hob as [? [?|?]]; lia.
  + assert (take (length out) (drop (pos F) (contents F)) = out) as Hto
      by apply take_of_take.
    rewrite Hto in Hby. transitivity (load_bytes (lib_mem s) (f_mem f + f_pos f) (length out)); [|exact Hby].
    unfold m, memcpy. rewrite <- Hlen, Nat2Z.id.
    destruct (decide (length out = 0%nat)) as [->|Hne]; [done|]. specialize (Hin2 Hne).
    rewrite <- Hlen in Hob. destruct Hob as [[? ?] ?].
    apply copy_loop_bytes; [done|split; lia|split; lia|lia].
Qed.

Lemma seek_done s blocks M fp offset whence : streams_ok s blocks M -> op_ok M (Seek fp offset whence) -> op_done s M (Seek fp offset whence).
Proof using umem_set.
  intros Hok Hop. pose proof Hok as [Ha Hb _ _]. pose proof arena_fits as [Har1 Har2].
  unfold op_done. cbn [op_buffer stream_do op_ok] in *.
  destruct Hop as (F & HM & Hbase). destruct (stream_at _ _ _ _ _ Hok HM) as (Hfp0 & f & Hf & Hrep).
  destruct (sr_pos _ _ _ _ Hrep) as [Hp Hpx]. pose proof (stream_small _ _ _ _ _ Hok HM) as Hsmall.
  unfold slop_fseek. rewrite (proj2 (Z.eqb_neq fp 0)) by done. rewrite Hf. cbn [mbind option_bind].
  rewrite (sr_kind _ _ _ _ Hrep), Z.eqb_refl. cbn [negb].
  rewrite (sr_size _ _ _ _ Hrep), !s32_small by (unfold INT_MAX in *; lia). rewrite Hp.
  fold (seek_base F whence).
  assert (streams_ok (put_file fp (set_err 1 f) s) blocks M) as Hfail.
  { assert (M = <[fp := {| contents := contents F; pos := pos F |}]> M) as HMF
      by (symmetry; apply insert_id; rewrite HM; by destruct F).
    rewrite HMF. apply (move_stream s _ blocks M fp F f (set_err 1 f)); try done. lia. }
  destruct (seek_base F whence) as [base|] eqn:Eb.
  2:{ eexists _, (-1), blocks. split; [done|]. split; [done|]. left. split; [done|].
      eexists M, []. split; [|by split]. cbn [stream_step]. rewrite HM. cbn [from_option id]. by rewrite Eb. }
  specialize (Hbase _ eq_refl). rewrite (proj2 (Z.ltb_ge (base + offset) _)), (proj2 (Z.ltb_ge INT_MAX _)) by lia.
  cbn [orb]. destruct (base + offset <? 0) eqn:En; zify_bool.
  + eexists _, (-1), blocks. split; [done|]. split; [done|]. left. split; [done|].
    eexists M, []. split; [|by split]. cbn [stream_step]. rewrite HM. cbn [from_option id].
    by rewrite Eb, (proj2 (Z.ltb_lt _ _)) by lia.
  + eexists _, 0, blocks. split; [done|]. split; [done|]. left. split; [done|].
    eexists _, []. cbn [stream_step]. rewrite HM. cbn [from_option id].
    rewrite Eb, (proj2 (Z.ltb_ge (base + offset) 0)) by lia. split; [done|]. split; [|done].
    rewrite u32_small by (unfold INT_MAX in *; lia).
    apply (move_stream s _ blocks M fp F f (set_eof 0 (set_pos (base + offset) f))); try done; cbn [f_pos set_eof set_pos]; lia.
Qed.


End streams.

(** ** A machine that is only memory *)

#[local] Existing Instance demo_arena.

#[local] Instance mem_os : UserOs mem :=
  {| umem m := m; set_umem m _ := m; int80 _ _ _ _ _ := None |}.

#[local] Instance demo_places : UserPlaces.
Proof.
  refine {| slop_stdin := 0x310000; slop_stdout := 0x310040; slop_stderr := 0x310080; local_buf := 0x310100 |}.
  apply (bool_decide_unpack _). by vm_compute.
Defined.

Definition bare_lib : ulib mem := {| uos := mem_empty; uused := 0; ufiles := slop_std_files |}.

Lemma bare_set (k : mem) m : umem (set_umem m k) = m.
Proof. done. Qed.

Lemma bare_ok : streams_ok bare_lib [] ∅.
Proof.
  constructor.
  - exact (alloc_run_inv _ _ (run_start mem_empty)).
  - intros x. change (is_byte 0). unfold is_byte. lia.
  - intros fp F HM. by rewrite lookup_empty in HM.
  - intros fp fp' f f' [F HM]. by rewrite lookup_empty in HM.
Qed.

(** A stream with the text "slop" in it. *)
Definition one_stream : option (ulib mem * Z) :=
  '(s, fp) ← slop_tmpfile bare_lib;
  '(s, _) ← slop_fwrite (with_umem (store_bytes (lib_mem s) 0x300 (lit "slop")) s) 0x300 1 4 fp;
  '(s, _) ← slop_fseek s fp 6 0;
  '(s, _) ← slop_fputc s 33 fp;
  '(s, _) ← slop_fseek s fp (-7) 1;
  '(s, n) ← slop_fread s 0x400 1 16 fp;
  Some (s, n).

(** Writing, seeking behind the end, writing and reading everything again. *)
Lemma one_stream_reads :
  (fun r => (snd r, load_bytes (lib_mem (fst r)) 0x400 7)) <$> one_stream =
  Some (7, lit "slop" ++ [0; 0; 33]).
Proof. vm_compute. reflexivity. Qed.

