(* ===== verification/UPrograms.v ===== *)
(** * UPrograms: the programs under [src/user]

    One [main] per program, over [UserOs].  [argv] is the address of the
    argument vector.  A result is the state and what [main] returns; there is
    none when the program never ends.  The programs carry copies of the same
    helpers ([write_str], [write_u32], the wrappers of [sys.h]); each helper is
    one definition here.  A program that ends in [for (;;)] has a number of turns
    as an argument. *)
From S2P Require Import Prelude KernelH Util Memory Ipc Varargs UAlloc UFormat UStdlib FdTable Files Usys UStdio.
Local Open Scope Z_scope.
Local Open Scope slop_scope.

(** Where the compiler puts the string constants, the array or structure that
    is local to [main], and the [char c] of [write_u32]. *)
Class ProgPlaces := {
  text_at : list Z -> Z;
  main_buf : Z;
  char_at : Z
}.

Section programs.
Context {K : Type} `{!UserOs K} `{!ProgPlaces}.
Implicit Types k : K.

(** [argv[i]] *)
Definition arg k (argv i : Z) : Z := load_u32 (umem k) (argv + 4 * i).

(** ** Printing *)

Definition write_str k (s : Z) : option K :=
  n ← cstr_len (umem k) s; '(k, _) ← sys_write k 1 s n; Some k.

(** [write_str] of a string constant. *)
Definition say k (text : list Z) : option K := write_str k (text_at text).

(** [char c = ..; (void)sys_write(1, &c, 1u);] *)
Definition write_char k (c : Z) : option K :=
  '(k, _) ← sys_write (set_umem (store (umem k) char_at c) k) 1 char_at 1; Some k.

(** [while (i > 0u)], with [buf] the digits from the last one on. *)
Fixpoint write_digits (i : nat) k (buf : list Z) : option K :=
  match i with
  | O => Some k
  | S i => k ← write_char k (nth i buf 0); write_digits i k buf
  end.

Definition write_u32 k (value : Z) : option K :=
  if value =? 0 then '(k, _) ← sys_write k 1 (text_at (lit "0")) 1; Some k
  else let buf := dec_digits_rev 10 value in write_digits (length buf) k buf.

(** [write_str] and a result. *)
Definition fail_with k (text : list Z) : option (K * Z) := k ← say k text; Some (k, 1).

(** ** [hello.c], [ls.c], [mkdir.c], [pwd.c], [ps.c], [yieldtest.c] *)

Definition hello_main k : option (K * Z) :=
  '(k, _) ← sys_write k 1 (text_at (line "hello from /bin/hello.elf (user mode)")) 38; Some (k, 42).

Definition ls_main k (argc argv : Z) : option (K * Z) :=
  let path := if 2 <=? argc then arg k argv 1 else 0 in
  '(k, rc) ← sys_list k path; Some (k, if rc <? 0 then 1 else 0).

Definition mkdir_main k (argc argv : Z) : option (K * Z) :=
  if argc <? 2 then fail_with k (line "mkdir: usage mkdir PATH")
  else
    '(k, rc) ← sys_mkdir k (arg k argv 1);
    if rc <? 0 then fail_with k (line "mkdir: failed") else Some (k, 0).

Definition pwd_main k : option (K * Z) :=
  '(k, n) ← sys_getcwd k main_buf 128;
  if n <? 0 then fail_with k (line "pwd: failed")
  else
    '(k, _) ← sys_write k 1 main_buf (u32 n);
    '(k, _) ← sys_write k 1 (text_at [10]) 1;
    Some (k, 0).

Definition ps_main k : option (K * Z) :=
  '(k, rc) ← sys_ps k; Some (k, if rc <? 0 then 1 else 0).

Definition yieldtest_main k : option (K * Z) :=
  k ← say k (line "yieldtest: before yield");
  '(k, _) ← sys_yield k;
  k ← say k (line "yieldtest: after yield");
  Some (k, 0).

(** ** [cat.c], [touch.c], [writetest.c] *)

(** [for (;;)] around [sys_read]. *)
Fixpoint cat_loop (turns : nat) k (fd : Z) : option K :=
  match turns with
  | O => None
  | S turns =>
      '(k, n) ← sys_read k fd main_buf 128;
      if n <=? 0 then Some k
      else '(k, _) ← sys_write k 1 main_buf (u32 n); cat_loop turns k fd
  end.

Definition cat_main (turns : nat) k (argc argv : Z) : option (K * Z) :=
  if argc <? 2 then fail_with k (line "cat: usage cat PATH")
  else
    '(k, fd) ← sys_open k (arg k argv 1) 0;
    if fd <? 0 then fail_with k (line "cat: no such file")
    else
      k ← cat_loop turns k fd;
      '(k, _) ← sys_close k fd;
      '(k, _) ← sys_write k 1 (text_at [10]) 1;
      Some (k, 0).

Definition touch_main k (argc argv : Z) : option (K * Z) :=
  if argc <? 2 then fail_with k (line "touch: usage touch PATH")
  else
    '(k, fd) ← sys_open k (arg k argv 1) 0x40;
    if fd <? 0 then fail_with k (line "touch: failed")
    else '(k, _) ← sys_close k fd; Some (k, 0).

Definition writetest_main k (argc argv : Z) : option (K * Z) :=
  if argc <? 3 then fail_with k (line "writetest: usage writetest PATH TEXT")
  else
    '(k, fd) ← sys_open k (arg k argv 1) (Z.lor (Z.lor SLOP_O_WRONLY SLOP_O_CREAT) SLOP_O_TRUNC);
    if fd <? 0 then fail_with k (line "writetest: open failed")
    else
      let text := arg k argv 2 in
      n ← cstr_len (umem k) text;
      '(k, rc) ← sys_write k fd text n;
      if rc <? 0 then
        k ← say k (line "writetest: write failed");
        '(k, _) ← sys_close k fd;
        Some (k, 1)
      else
        '(k, rc) ← sys_close k fd;
        if rc <? 0 then fail_with k (line "writetest: close failed")
        else k ← say k (line "writetest: ok"); Some (k, 0).

(** ** [free.c] *)

(** [while (count-- > 0u)] *)
Fixpoint write_spaces k (count : nat) : option K :=
  match count with
  | O => Some k
  | S count => '(k, _) ← sys_write k 1 (text_at (lit " ")) 1; write_spaces k count
  end.

(** A number at the right end of a column. *)
Definition write_cell k (value width : Z) : option K :=
  let buf := if value =? 0 then [] else dec_digits_rev 10 value in
  let digits := if value =? 0 then 1 else Z.of_nat (length buf) in
  k ← (if digits <? width then write_spaces k (Z.to_nat (width - digits)) else Some k);
  if value =? 0 then '(k, _) ← sys_write k 1 (text_at (lit "0")) 1; Some k
  else write_digits (length buf) k buf.

Definition write_sep k : option K := say k (lit " ").
Definition write_bar_sep k : option K := say k (lit " | ").

Definition write_kib_line k (label : list Z) (value : Z) : option K :=
  k ← say k label; k ← write_u32 k value; say k (line " KiB").

(** The lines, and where their numbers are in [struct mem_info]. *)
Definition kib_lines : list (list Z) :=
  [lit "MemTotal:      "; lit "MemUsed:       "; lit "MemFree:       "; lit "MemShared:     ";
   lit "BuffersCache:  "; lit "MemAvailable:  "; lit "SwapTotal:     "; lit "SwapUsed:      ";
   lit "SwapFree:      "].

Fixpoint write_kib_lines k (labels : list (list Z)) (info : Z) : option K :=
  match labels with
  | [] => Some k
  | label :: labels =>
      k ← write_kib_line k label (load_u32 (umem k) info); write_kib_lines k labels (info + 4)
  end.

Definition free_main k : option (K * Z) :=
  k ← say k (line "free format v2");
  '(k, rc) ← sys_meminfo k main_buf;
  if rc <? 0 then fail_with k (line "free: meminfo unavailable")
  else k ← write_kib_lines k kib_lines main_buf; Some (k, 0).

(** ** The name service: [svc_lookup.c], [svc_reg.c] *)

Definition svc_lookup_main k (argc argv : Z) : option (K * Z) :=
  if argc <? 2 then fail_with k (line "svc_lookup: usage svc_lookup NAME")
  else
    '(k, pid) ← sys_service_lookup k (arg k argv 1);
    if pid <? 0 then fail_with k (line "svc_lookup: not found")
    else
      k ← say k (lit "svc_lookup: pid=");
      k ← write_u32 k (u32 pid);
      k ← say k (line "");
      Some (k, 0).

Definition svc_reg_main k (argc argv : Z) : option (K * Z) :=
  if argc <? 2 then fail_with k (line "svc_reg: usage svc_reg NAME")
  else
    '(k, rc) ← sys_service_register k (arg k argv 1);
    if rc <? 0 then fail_with k (line "svc_reg: register failed")
    else
      '(k, pid) ← sys_getpid k;
      k ← say k (lit "svc_reg: registered pid=");
      k ← write_u32 k (u32 pid);
      k ← say k (lit " name=");
      k ← write_str k (arg k argv 1);
      k ← say k (line "");
      k ← say k (line "svc_reg: waiting for ipc");
      '(k, rc) ← sys_ipc_recv k main_buf;
      if rc <? 0 then fail_with k (line "svc_reg: receive failed")
      else k ← say k (line "svc_reg: got ipc, exiting"); Some (k, 0).

(** ** Messages: [ipc_recv.c], [ipc_send.c], [ipc_selftest.c] *)

(** The message in [main_buf]. *)
Definition put_msg (msg : ipc_message) k : K :=
  set_umem (store_words (umem k) main_buf (msg_words msg)) k.
Definition msg_field k (i : Z) : Z := load_u32 (umem k) (main_buf + 4 * i).

Definition plain_msg (dst type_ a1 a2 : Z) : ipc_message := {|
  src_pid := 0; dst_pid := dst; type := type_; arg1 := a1; arg2 := a2; arg3 := 0; arg4 := 0 |}.

(** The lines that end [ipc_recv] and [ipc_selftest]. *)
Definition write_msg k (title : list Z) : option K :=
  k ← say k title; k ← write_u32 k (msg_field k 0);
  k ← say k (lit " type="); k ← write_u32 k (msg_field k 2);
  k ← say k (lit " arg1="); k ← write_u32 k (msg_field k 3);
  k ← say k (lit " arg2="); k ← write_u32 k (msg_field k 4);
  say k (line "").

Definition ipc_recv_main k : option (K * Z) :=
  '(k, pid) ← sys_getpid k;
  k ← say k (lit "ipc_recv pid=");
  k ← write_u32 k (u32 pid);
  k ← say k (line "");
  k ← say k (line "ipc_recv waiting...");
  '(k, rc) ← sys_ipc_recv k main_buf;
  if rc <? 0 then fail_with k (line "ipc_recv: receive failed")
  else k ← write_msg k (lit "ipc_recv got message: src="); Some (k, 0).

(** [while (s[i] != '\0')] of [parse_u32], on the text of [s]. *)
Fixpoint parse_u32_digits (s : list Z) (value : Z) : option Z :=
  match s with
  | [] => Some value
  | c :: s => if (c <? 48) || (57 <? c) then None else parse_u32_digits s ((value *u 10) +u (c - 48))
  end.

Definition parse_u32 k (s : Z) : option (option Z) :=
  if (s =? 0) || (load (umem k) s =? 0) then Some None
  else n ← cstr_len (umem k) s; Some (parse_u32_digits (load_bytes (umem k) s (Z.to_nat n)) 0).

(** [argc >= i + 1 && !parse_u32(argv[i], &v)], with the value before. *)
Definition optional_u32 k (argc argv i v : Z) : option (option Z) :=
  if argc <? i + 1 then Some (Some v) else parse_u32 k (arg k argv i).

Definition ipc_send_main k (argc argv : Z) : option (K * Z) :=
  dst ← (if argc <? 2 then Some None else parse_u32 k (arg k argv 1));
  match dst with
  | None => fail_with k (line "ipc_send: usage ipc_send PID [TYPE] [ARG1] [ARG2]")
  | Some dst =>
      type_ ← optional_u32 k argc argv 2 1;
      match type_ with
      | None => fail_with k (line "ipc_send: bad TYPE")
      | Some type_ =>
          a1 ← optional_u32 k argc argv 3 111;
          match a1 with
          | None => fail_with k (line "ipc_send: bad ARG1")
          | Some a1 =>
              a2 ← optional_u32 k argc argv 4 222;
              match a2 with
              | None => fail_with k (line "ipc_send: bad ARG2")
              | Some a2 =>
                  '(k, rc) ← sys_ipc_send (put_msg (plain_msg (s32 dst) type_ a1 a2) k) main_buf;
                  if rc <? 0 then fail_with k (line "ipc_send: send failed")
                  else k ← say k (line "ipc_send: sent"); Some (k, 0)
              end
          end
      end
  end.

Definition ipc_selftest_main k : option (K * Z) :=
  '(k, pid) ← sys_getpid k;
  let k := put_msg (plain_msg pid 7 123 456) k in
  k ← say k (lit "ipc_selftest pid=");
  k ← write_u32 k (u32 pid);
  k ← say k (line "");
  '(k, rc) ← sys_ipc_send k main_buf;
  if rc <? 0 then fail_with k (line "ipc_selftest: send failed")
  else
    '(k, rc) ← sys_ipc_recv k main_buf;
    if rc <? 0 then fail_with k (line "ipc_selftest: recv failed")
    else k ← write_msg k (lit "ipc_selftest ok: src="); Some (k, 0).

(** ** The system information service: [sysinfod.c], [systeminfo.c] *)

Definition SYSINFO_SERVICE : list Z := lit "sysinfo".
Definition SYSINFO_MSG_REQUEST : Z := 1.

Fixpoint sysinfod_loop (turns : nat) k : option (K * Z) :=
  match turns with
  | O => None
  | S turns =>
      '(k, rc) ← sys_ipc_recv k main_buf;
      if rc <? 0 then fail_with k (line "sysinfod: receive failed")
      else if msg_field k 2 =? SYSINFO_MSG_REQUEST
      then '(k, _) ← sys_systeminfo k; sysinfod_loop turns k
      else sysinfod_loop turns k
  end.

Definition sysinfod_main (turns : nat) k : option (K * Z) :=
  '(k, pid) ← sys_getpid k;
  '(k, rc) ← sys_service_register k (text_at SYSINFO_SERVICE);
  if rc <? 0 then fail_with k (line "sysinfod: register failed")
  else
    k ← say k (lit "sysinfod: registered pid=");
    k ← write_u32 k (u32 pid);
    k ← say k (lit " name=");
    k ← say k SYSINFO_SERVICE;
    k ← say k (line "");
    sysinfod_loop turns k.

Definition systeminfo_main k : option (K * Z) :=
  '(k, service_pid) ← sys_service_lookup k (text_at SYSINFO_SERVICE);
  if service_pid <? 0 then
    k ← say k (line "systeminfo: sysinfo service not found");
    fail_with k (line "systeminfo: start sysinfod first")
  else
    '(k, rc) ← sys_ipc_send (put_msg (plain_msg service_pid SYSINFO_MSG_REQUEST 0 0) k) main_buf;
    if rc <? 0 then fail_with k (line "systeminfo: request failed") else Some (k, 0).

(** ** [stdiotest.c] *)

(** A string argument of a format function, given its address. *)
Definition text_of (m : mem) (s : Z) : option (option (list Z)) :=
  if s =? 0 then Some None else n ← cstr_len m s; Some (Some (load_bytes m s (Z.to_nat n))).

(** [slop_puts] of a string constant, and a result. *)
Definition stop_with `{!UserArena} `{!UserPlaces} (s : ulib K) (text : list Z) : option (ulib K * Z) :=
  '(s, _) ← slop_puts s (text_at text); Some (s, 1).

(** From the second [slop_fopen] on. *)
Definition stdiotest_read_back `{!UserArena} `{!UserPlaces} (s : ulib K) (argv : Z) : option (ulib K * Z) :=
  '(s, fp) ← slop_fopen s (arg (uos s) argv 1) (Some (lit "r"));
  if fp =? 0 then stop_with s (lit "stdiotest: fopen(r) failed")
  else
    '(s, got) ← slop_fgets s main_buf 64 fp;
    if got =? 0 then
      '(s, _) ← slop_puts s (text_at (lit "stdiotest: fgets failed"));
      '(s, _) ← slop_fclose s fp;
      Some (s, 1)
    else
      '(s, _) ← slop_fclose s fp;
      text ← text_of (lib_mem s) main_buf;
      '(s, _) ← slop_printf s (Some (lit "stdiotest: read back: %s")) [VStr text];
      Some (s, 0).

(** Behind the first one. *)
Definition stdiotest_save `{!UserArena} `{!UserPlaces} (s : ulib K) (argv fp : Z) : option (ulib K * Z) :=
  text ← text_of (lib_mem s) (arg (uos s) argv 2);
  '(s, rc) ← slop_fprintf s fp (Some (line "value=%s")) [VStr text];
  if rc <? 0 then
    '(s, _) ← slop_puts s (text_at (lit "stdiotest: fprintf failed"));
    '(s, _) ← slop_fclose s fp;
    Some (s, 1)
  else
    '(s, rc) ← slop_fclose s fp;
    if rc <? 0 then stop_with s (lit "stdiotest: fclose failed") else stdiotest_read_back s argv.

Definition stdiotest_main `{!UserArena} `{!UserPlaces} (s : ulib K) (argc argv : Z) : option (ulib K * Z) :=
  if argc <? 3 then stop_with s (lit "stdiotest: usage stdiotest PATH TEXT")
  else
    '(s, fp) ← slop_fopen s (arg (uos s) argv 1) (Some (lit "w"));
    if fp =? 0 then stop_with s (lit "stdiotest: fopen(w) failed") else stdiotest_save s argv fp.

(** ** [compat_unistd.c] *)

Definition _PC_PATH_MAX : Z := 1.

(** What [errno] becomes is returned with the result; [None] leaves it. *)
Definition fstat `{!UserPlaces} k (fd st : Z) : option (K * Z * option Z) :=
  if st =? 0 then Some (k, -1, Some EINVAL)
  else
    '(k, rc) ← sys_fstat k fd local_buf;
    if rc <? 0 then Some (k, -1, Some EINVAL)
    else
      let m := store_u32 (umem k) st (load_u32 (umem k) local_buf) in
      Some (set_umem (store_u32 m (st + 4) (load_u32 m (local_buf + 4))) k, 0, None).

Definition stat `{!UserPlaces} k (path st : Z) : option (K * Z * option Z) :=
  if (path =? 0) || (st =? 0) then Some (k, -1, Some EINVAL)
  else
    '(k, rc) ← sys_stat k path local_buf;
    if rc <? 0 then Some (k, -1, Some ENOENT)
    else
      let m := store_u32 (umem k) st (load_u32 (umem k) local_buf) in
      Some (set_umem (store_u32 m (st + 4) (load_u32 m (local_buf + 4))) k, 0, None).

(** [S_ISCHR] *)
Definition S_ISCHR (m : Z) : bool := Z.land m 61440 =? 8192.

(** Its [struct stat] is at [main_buf]. *)
Definition isatty `{!UserPlaces} k (fd : Z) : option (K * Z * option Z) :=
  '(k, rc, err) ← fstat k fd main_buf;
  Some (k, if rc <? 0 then 0 else if S_ISCHR (load_u32 (umem k) main_buf) then 1 else 0, err).

Definition getpid k : option (K * Z) := sys_getpid k.
Definition pathconf (name : Z) : Z * option Z :=
  if name =? _PC_PATH_MAX then (256, None) else (-1, Some EINVAL).
Definition unlink : Z * option Z := (-1, Some EINVAL).
Definition remove : Z * option Z := unlink.

End programs.
