(* ===== verification/Protection.v ===== *)
(** * Protection: the segments and the task state segment

    [src/kernel/arch/i386/protection.c].  The processor reads the six
    descriptors of the table through [desc_base] and the functions after it;
    [gdt_flush] and [tss_flush] of protection_low.asm load its registers. *)
From S2P Require Import Prelude.
Local Open Scope Z_scope.
Local Open Scope slop_scope.

Record gdt_entry := {
  limit_low : Z;
  base_low : Z;
  base_mid : Z;
  access : Z;
  gran : Z;
  base_high : Z
}.

Record gdt_ptr := { limit : Z; base : Z }.

Record tss_entry := {
  prev_tss : Z;
  esp0 : Z;
  ss0 : Z;
  esp1 : Z;
  ss1 : Z;
  esp2 : Z;
  ss2 : Z;
  cr3 : Z;
  eip : Z;
  eflags : Z;
  general : list Z;
  es : Z;
  cs : Z;
  ss : Z;
  ds : Z;
  fs : Z;
  gs : Z;
  ldt : Z;
  trap : Z;
  iomap_base : Z
}.

(** [eax .. edi], in the order of the structure, are [general]. *)
Definition tss_zero : tss_entry := {|
  prev_tss := 0; esp0 := 0; ss0 := 0; esp1 := 0; ss1 := 0; esp2 := 0; ss2 := 0; cr3 := 0; eip := 0;
  eflags := 0; general := replicate 8 0; es := 0; cs := 0; ss := 0; ds := 0; fs := 0; gs := 0; ldt := 0;
  trap := 0; iomap_base := 0 |}.

(** [25] words and two half words. *)
Definition sizeof_tss : Z := 104.
Definition sizeof_gdt_entry : Z := 8.

Definition gdt_entry_zero : gdt_entry := {|
  limit_low := 0; base_low := 0; base_mid := 0; access := 0; gran := 0; base_high := 0 |}.

(** The variables of the file, and what [gdt_flush] and [tss_flush] loaded: the
    table, the selector of the data segments, and of the task register. *)
Record prot := {
  gdt : list gdt_entry;
  gdtr : gdt_ptr;
  tss : tss_entry;
  ring3_kernel_stack_top : Z;
  loaded_gdt : gdt_ptr;
  loaded_data : Z;
  loaded_task : Z
}.

(** Where the linker puts [gdt], [tss] and [ring3_kernel_stack]. *)
Class ProtPlaces := { gdt_at : Z; tss_at : Z; ring3_kernel_stack : Z }.

Definition gdt_set_gate (gdt : list gdt_entry) (i : nat) (base limit access gran : Z) : list gdt_entry :=
  <[i := {|
    base_low := Z.land base 0xFFFF;
    base_mid := Z.land (Z.shiftr base 16) 0xFF;
    base_high := Z.land (Z.shiftr base 24) 0xFF;
    limit_low := Z.land limit 0xFFFF;
    gran := Z.lor (Z.land (Z.shiftr limit 16) 0x0F) (Z.land gran 0xF0);
    access := access |}]> gdt.

Definition with_esp0 (v : Z) (t : tss_entry) : tss_entry := {|
  prev_tss := prev_tss t; esp0 := v; ss0 := ss0 t; esp1 := esp1 t; ss1 := ss1 t; esp2 := esp2 t;
  ss2 := ss2 t; cr3 := cr3 t; eip := eip t; eflags := eflags t; general := general t; es := es t; cs := cs t;
  ss := ss t; ds := ds t; fs := fs t; gs := gs t; ldt := ldt t; trap := trap t; iomap_base := iomap_base t |}.

Definition tss_set_kernel_stack (v : Z) (s : prot) : prot := {|
  gdt := gdt s; gdtr := gdtr s; tss := with_esp0 v (tss s);
  ring3_kernel_stack_top := ring3_kernel_stack_top s; loaded_gdt := loaded_gdt s;
  loaded_data := loaded_data s; loaded_task := loaded_task s |}.

Section init.
Context `{ProtPlaces}.

(** The six gates. *)
Definition init_gates : list gdt_entry :=
  let gdt := replicate 6 gdt_entry_zero in
  let gdt := gdt_set_gate gdt 0 0 0 0 0 in
  let gdt := gdt_set_gate gdt 1 0 0xFFFFF 0x9A 0xCF in
  let gdt := gdt_set_gate gdt 2 0 0xFFFFF 0x92 0xCF in
  let gdt := gdt_set_gate gdt 3 0 0xFFFFF 0xFA 0xCF in
  let gdt := gdt_set_gate gdt 4 0 0xFFFFF 0xF2 0xCF in
  gdt_set_gate gdt 5 tss_at (sizeof_tss - 1) 0x89 0x00.

(** [s], the values before, is overwritten. *)
Definition protection_init (s : prot) : prot :=
  let top := ring3_kernel_stack +u 32768 in
  let table := {| limit := 6 * sizeof_gdt_entry - 1; base := gdt_at |} in
  {| gdt := init_gates; gdtr := table;
     tss := {|
       prev_tss := 0; esp0 := top; ss0 := 0x10; esp1 := 0; ss1 := 0; esp2 := 0; ss2 := 0; cr3 := 0;
       eip := 0; eflags := 0; general := replicate 8 0; es := 0x23; cs := 0x1B; ss := 0x23; ds := 0x23;
       fs := 0x23; gs := 0x23; ldt := 0; trap := 0; iomap_base := sizeof_tss |};
     ring3_kernel_stack_top := top;
     loaded_gdt := table; loaded_data := 0x10; loaded_task := 0x28 |}.

End init.

(** ** What the processor reads *)

Definition desc_base (e : gdt_entry) : Z :=
  base_low e + 65536 * base_mid e + 16777216 * base_high e.

(** The limit in bytes: bit 7 of [gran] counts it in pages. *)
Definition desc_limit (e : gdt_entry) : Z :=
  let l := limit_low e + 65536 * (gran e `mod` 16) in
  if Z.testbit (gran e) 7 then l * 4096 + 4095 else l.

Definition desc_present (e : gdt_entry) : bool := Z.testbit (access e) 7.
Definition desc_level (e : gdt_entry) : Z := Z.shiftr (access e) 5 `mod` 4.

Inductive desc_kind := CodeSegment | DataSegment | TaskSegment | OtherSegment.

(** Bit 4 tells segments of memory from those of the system, bit 3 code from
    data; 1001 is a 32-bit task state segment. *)
Definition desc_type (e : gdt_entry) : desc_kind :=
  if Z.testbit (access e) 4 then if Z.testbit (access e) 3 then CodeSegment else DataSegment
  else if access e `mod` 16 =? 9 then TaskSegment else OtherSegment.

(** The descriptor a selector names; its two low bits are a privilege level. *)
Definition selected (gdt : list gdt_entry) (sel : Z) : option gdt_entry := gdt !! Z.to_nat (sel / 8).

Lemma land_ones_mod a n : 0 <= n -> Z.land a (2 ^ n - 1) = a `mod` 2 ^ n.
Proof. intros Hn. rewrite <- Z.land_ones by done. by rewrite Z.ones_equiv, Z.sub_1_r. Qed.

(** A descriptor holds the base, and the limit when it has 20 bits. *)
Lemma gate_decodes gdt i base limit access gran e :
  is_u32 base -> 0 <= limit < 1048576 -> is_byte gran ->
  gdt_set_gate gdt i base limit access gran !! i = Some e ->
  desc_base e = base /\
  desc_limit e = (if Z.testbit gran 7 then limit * 4096 + 4095 else limit).
Proof.
  intros Hb Hl Hg He. unfold gdt_set_gate in He.
  apply list_lookup_insert_Some in He as [(_ & <- & _)|[? _]]; [|done].
  unfold desc_base, desc_limit. cbn [base_low base_mid base_high limit_low Protection.gran]. unfold is_u32, is_byte in *.
  change 0xFFFF with (2 ^ 16 - 1). change 0xFF with (2 ^ 8 - 1). change 0x0F with (2 ^ 4 - 1).
  rewrite !land_ones_mod, !Z.shiftr_div_pow2 by lia.
  assert (Z.testbit (Z.lor ((limit / 2 ^ 16) `mod` 2 ^ 4) (Z.land gran 0xF0)) 7 = Z.testbit gran 7) as ->.
  { rewrite Z.lor_spec, Z.land_spec, Z.mod_pow2_bits_high by lia. by rewrite andb_true_r. }
  assert (Z.lor ((limit / 2 ^ 16) `mod` 2 ^ 4) (Z.land gran 0xF0) `mod` 16 = limit / 2 ^ 16) as ->.
  { change 16 with (2 ^ 4) at 2. rewrite <- Z.land_ones, Z.land_lor_distr_l by lia.
    rewrite <- Z.land_assoc. change (Z.land 0xF0 (Z.ones 4)) with 0. rewrite Z.land_0_r, Z.lor_0_r.
    rewrite Z.land_ones, Z.mod_mod by lia. apply Z.mod_small. split; [apply Z.div_pos; lia|].
    apply Z.div_lt_upper_bound; lia. }
  change (2 ^ 16) with 65536. change (2 ^ 24) with 16777216. change (2 ^ 8) with 256.
  split; [|split_if]; mlia.
Qed.

(** The segments after [protection_init]: the selectors the kernel loads and
    those a program runs with name present segments of their privilege level,
    which all start at 0 and span the whole 4 GiB, so that nothing but the
    checks of the system calls keeps a program out of the memory of the kernel;
    the task register names the task state segment, exactly its bytes, which
    sends an interrupt in ring 3 to the top of the 32 KiB stack, and which ends
    before its map of ports, so that a program is refused every port. *)
Theorem protection_segments `{ProtPlaces} s :
  is_u32 tss_at -> is_u32 (ring3_kernel_stack + 32768) ->
  let s' := protection_init s in
  (forall sel kind, In (sel, kind) [(0x08, CodeSegment); (0x10, DataSegment); (0x1B, CodeSegment); (0x23, DataSegment)] ->
     exists e, selected (gdt s') sel = Some e /\ desc_present e = true /\ desc_type e = kind /\
       desc_level e = sel `mod` 4 /\ desc_base e = 0 /\ desc_limit e = 4294967295) /\
  (exists e, selected (gdt s') (loaded_task s') = Some e /\ desc_present e = true /\
     desc_type e = TaskSegment /\ desc_base e = tss_at /\ desc_limit e = sizeof_tss - 1 /\
     desc_limit e < iomap_base (tss s')) /\
  loaded_data s' = ss0 (tss s') /\ cs (tss s') = 0x1B /\ ss (tss s') = 0x23 /\
  esp0 (tss s') = ring3_kernel_stack + 32768 /\ ring3_kernel_stack_top s' = esp0 (tss s') /\
  loaded_gdt s' = {| limit := 47; base := gdt_at |}.
Proof.
  intros Ht Hst s'. split; [|split].
  - intros sel kind Hin. cbn [In] in Hin.
    destruct Hin as [[= <- <-]|[[= <- <-]|[[= <- <-]|[[= <- <-]|[]]]]]; eexists; (split; [reflexivity|]);
      vm_compute; by split_and!.
  - assert (gdt s' !! 5%nat = Some (nth 5 (gdt s') gdt_entry_zero)) as H5 by done.
    destruct (gate_decodes _ 5 tss_at (sizeof_tss - 1) 0x89 0x00 _ Ht ltac:(unfold sizeof_tss; lia) ltac:(unfold is_byte; lia) H5)
      as [Hb Hl].
    exists (nth 5 (gdt s') gdt_entry_zero). split; [done|]. split; [done|]. split; [done|]. split; [done|].
    rewrite Hl. by split.
  - cbn. rewrite u32_small by done. by split_and!.
Qed.

#[local] Instance demo_prot : ProtPlaces := {| gdt_at := 0x110000; tss_at := 0x110040; ring3_kernel_stack := 0x118000 |}.

Definition prot_boot : prot := {|
  gdt := replicate 6 gdt_entry_zero; gdtr := {| limit := 0; base := 0 |}; tss := tss_zero;
  ring3_kernel_stack_top := 0; loaded_gdt := {| limit := 0; base := 0 |}; loaded_data := 0; loaded_task := 0 |}.

Lemma protection_segments_witness :
  exists e, selected (gdt (protection_init prot_boot)) (loaded_task (protection_init prot_boot)) = Some e /\
    desc_base e = 0x110040.
Proof.
  destruct (protection_segments prot_boot) as (_ & (e & He & _ & _ & Hb & _) & _);
    [unfold is_u32; cbn; lia|unfold is_u32; cbn; lia|]. by exists e.
Defined.
