(* ===== verification/Interrupts.v ===== *)
(** * Interrupts: descriptors, the timer and the keyboard of [src/kernel/arch/i386/interrupts.c]

    The interrupt descriptor table, the masks of the two interrupt controllers,
    the dispatch of interrupts to the scheduler and the keyboard, the keyboard's
    ring of characters and the decoder of scan codes.

    The ports are hardware: [inb] stands for what a read of a port returns, which
    may depend on the writes made before.  A function that writes to ports
    returns the list of the writes, in order, as pairs of port and value. *)
From S2P Require Import Prelude KernelH Util Proc Sched.
Local Open Scope Z_scope.
Local Open Scope slop_scope.

Definition IDT_ENTRIES : nat := 256.
Definition PIC1_COMMAND : Z := 0x20.
Definition PIC1_DATA : Z := 0x21.
Definition PIC2_COMMAND : Z := 0xA0.
Definition PIC2_DATA : Z := 0xA1.
Definition PIC_EOI : Z := 0x20.
Definition IRQ_BASE : Z := 0x20.
Definition KEYBOARD_QUEUE_SIZE : nat := 64.

Record idt_entry := {
  offset_low : Z;
  selector : Z;
  zero : Z;
  type_attr : Z;
  offset_high : Z
}.

Record irq_st := {
  idt : list idt_entry;
  tick_count : Z;
  keyboard_queue : list Z;
  keyboard_head : nat;
  keyboard_tail : nat;
  shift_down : bool;
  code_selector : Z
}.

Definition with_idt (l : list idt_entry) (s : irq_st) : irq_st := {|
  idt := l; tick_count := tick_count s; keyboard_queue := keyboard_queue s;
  keyboard_head := keyboard_head s; keyboard_tail := keyboard_tail s;
  shift_down := shift_down s; code_selector := code_selector s |}.
Definition with_queue (q : list Z) (head tail : nat) (s : irq_st) : irq_st := {|
  idt := idt s; tick_count := tick_count s; keyboard_queue := q;
  keyboard_head := head; keyboard_tail := tail;
  shift_down := shift_down s; code_selector := code_selector s |}.
Definition with_shift (b : bool) (s : irq_st) : irq_st := {|
  idt := idt s; tick_count := tick_count s; keyboard_queue := keyboard_queue s;
  keyboard_head := keyboard_head s; keyboard_tail := keyboard_tail s;
  shift_down := b; code_selector := code_selector s |}.
Definition with_ticks (n : Z) (s : irq_st) : irq_st := {|
  idt := idt s; tick_count := n; keyboard_queue := keyboard_queue s;
  keyboard_head := keyboard_head s; keyboard_tail := keyboard_tail s;
  shift_down := shift_down s; code_selector := code_selector s |}.
Definition with_selector (cs : Z) (s : irq_st) : irq_st := {|
  idt := idt s; tick_count := tick_count s; keyboard_queue := keyboard_queue s;
  keyboard_head := keyboard_head s; keyboard_tail := keyboard_tail s;
  shift_down := shift_down s; code_selector := cs |}.

(** ** The interrupt controllers *)

Definition port_write : Type := Z * Z.

Definition pic_send_eoi (irq : Z) : list port_write :=
  (if 8 <=? irq then [(PIC2_COMMAND, PIC_EOI)] else []) ++ [(PIC1_COMMAND, PIC_EOI)].

Section ports.
(** [inb writes port]: the value read from [port] after [writes]. *)
Context (inb : list port_write -> Z -> Z).

Definition io_wait : list port_write := [(0x80, 0)].

Definition pic_remap (w : list port_write) : list port_write :=
  let pic1_mask := inb w PIC1_DATA in
  let pic2_mask := inb w PIC2_DATA in
  w ++ [(PIC1_COMMAND, 0x11)] ++ io_wait ++ [(PIC2_COMMAND, 0x11)] ++ io_wait ++
  [(PIC1_DATA, IRQ_BASE)] ++ io_wait ++ [(PIC2_DATA, IRQ_BASE + 8)] ++ io_wait ++
  [(PIC1_DATA, 4)] ++ io_wait ++ [(PIC2_DATA, 2)] ++ io_wait ++
  [(PIC1_DATA, 0x01)] ++ io_wait ++ [(PIC2_DATA, 0x01)] ++ io_wait ++
  [(PIC1_DATA, pic1_mask); (PIC2_DATA, pic2_mask)].

Definition pic_set_mask (w : list port_write) (irq : Z) (masked : bool) : list port_write :=
  let '(port, irq) := if irq <? 8 then (PIC1_DATA, irq) else (PIC2_DATA, u8 (irq - 8)) in
  let value := inb w port in
  let value := if masked then u8 (Z.lor value (Z.shiftl 1 irq))
               else u8 (Z.land value (u32 (Z.lnot (Z.shiftl 1 irq)))) in
  w ++ [(port, value)].

(** The sixteen calls of [interrupts_init]. *)
Definition irq_masks : list (Z * bool) :=
  [(0, false); (1, true); (2, true); (3, true); (4, true); (5, true); (6, true); (7, true);
   (8, true); (9, true); (10, true); (11, true); (12, true); (13, true); (14, true); (15, true)].

Definition pic_init (w : list port_write) : list port_write :=
  fold_left (fun w '(irq, masked) => pic_set_mask w irq masked) irq_masks (pic_remap w).

End ports.

(** ** The descriptor table *)

Definition gate (cs attr offset : Z) : idt_entry := {|
  offset_low := Z.land offset 0xFFFF; selector := cs; zero := 0; type_attr := attr;
  offset_high := Z.land (Z.shiftr offset 16) 0xFFFF |}.

Definition idt_set_gate (vector handler : Z) (s : irq_st) : irq_st :=
  with_idt (<[Z.to_nat (u8 vector) := gate (code_selector s) 0x8E handler]> (idt s)) s.
Definition idt_set_gate_user (vector handler : Z) (s : irq_st) : irq_st :=
  with_idt (<[Z.to_nat (u8 vector) := gate (code_selector s) 0xEE handler]> (idt s)) s.

(** The addresses of the assembly entry points. *)
Record stubs := {
  irq0_stub : Z; irq1_stub : Z; irq_default_stub : Z; syscall_stub : Z;
  ex6_stub : Z; ex13_stub : Z; ex14_stub : Z
}.

(** [idt_init], [cs] being the code segment register; loading the table into
    the processor is left out. *)
Definition idt_init (st : stubs) (cs : Z) (s : irq_st) : irq_st :=
  let s := with_selector cs s in
  let s := fold_left (fun s i => idt_set_gate (u8 (Z.of_nat i)) (irq_default_stub st) s)
                     (seq 0 IDT_ENTRIES) s in
  let s := idt_set_gate (IRQ_BASE + 0) (irq0_stub st) s in
  let s := idt_set_gate (IRQ_BASE + 1) (irq1_stub st) s in
  let s := idt_set_gate 6 (ex6_stub st) s in
  let s := idt_set_gate 13 (ex13_stub st) s in
  let s := idt_set_gate 14 (ex14_stub st) s in
  idt_set_gate_user 0x80 (syscall_stub st) s.

(** [interrupts_init]: the state and the writes to the ports. *)
Definition interrupts_init (inb : list port_write -> Z -> Z) (st : stubs) (cs : Z)
    (w : list port_write) (s : irq_st) : irq_st * list port_write :=
  (idt_init st cs s, pic_init inb w).

Definition interrupts_get_gate80 (s : irq_st) : option (Z * Z * Z) :=
  e ← idt s !! 0x80%nat;
  Some (selector e, type_attr e, Z.lor (u32 (Z.shiftl (offset_high e) 16)) (offset_low e)).

(** ** The keyboard *)

Definition keyboard_queue_push (c : Z) (s : irq_st) : irq_st :=
  let next := ((keyboard_head s + 1) `mod` KEYBOARD_QUEUE_SIZE)%nat in
  if (next =? keyboard_tail s)%nat then s
  else with_queue (<[keyboard_head s := c]> (keyboard_queue s)) next (keyboard_tail s) s.

Definition keyboard_queue_pop (s : irq_st) : irq_st * option Z :=
  if (keyboard_head s =? keyboard_tail s)%nat then (s, None)
  else (with_queue (keyboard_queue s) (keyboard_head s)
          ((keyboard_tail s + 1) `mod` KEYBOARD_QUEUE_SIZE)%nat s,
        keyboard_queue s !! keyboard_tail s).

Definition normal : list Z :=
  [0; 27] ++ lit "1234567890-=" ++ [8; 9] ++ lit "qwertyuiop[]" ++ [10; 0] ++ lit "asdfghjkl;'`" ++
  [0] ++ lit "\zxcvbnm,./" ++ [0; 42; 0; 32; 0] ++ replicate 69 0.
Definition shifted : list Z :=
  [0; 27] ++ lit "!@#$%^&*()_+" ++ [8; 9] ++ lit "QWERTYUIOP{}" ++ [10; 0] ++ lit "ASDFGHJKL:" ++
  [34; 126; 0] ++ lit "|ZXCVBNM<>?" ++ [0; 42; 0; 32; 0] ++ replicate 69 0.

Definition decode_scancode (scancode : Z) (s : irq_st) : irq_st * Z :=
  if (scancode =? 0x2A) || (scancode =? 0x36) then (with_shift true s, 0)
  else if (scancode =? 0xAA) || (scancode =? 0xB6) then (with_shift false s, 0)
  else if negb (Z.land scancode 0x80 =? 0) || (128 <=? scancode) then (s, 0)
  else (s, nth (Z.to_nat scancode) (if shift_down s then shifted else normal) 0).

(** [keyboard_try_read_char]: [status] and [code] are what the ports 0x64 and
    0x60 give. *)
Definition keyboard_try_read_char (status code : Z) (s : irq_st) : irq_st * option Z :=
  if Z.land status 1 =? 0 then (s, None)
  else
    let '(s, c) := decode_scancode code s in
    if (c =? 0) || (c =? 9) then (s, None) else (s, Some c).

(** [keyboard_read_char_blocking] over the values the two ports give, one pair
    after the other; [None] while no character came. *)
Fixpoint keyboard_read_char_blocking (ports : list (Z * Z)) (s : irq_st) : irq_st * option Z :=
  match ports with
  | [] => (s, None)
  | (status, code) :: ports =>
      match keyboard_try_read_char status code s with
      | (s, Some c) => (s, Some c)
      | (s, None) => keyboard_read_char_blocking ports s
      end
  end.

(** ** Dispatch *)

(** [interrupt_dispatch], [code] being what port 0x60 gives; [None] is the panic
    on a processor exception, which does not return. *)
Definition interrupt_dispatch (vector code : Z) (s : irq_st) (st : sched)
    : option (irq_st * sched * list port_write) :=
  if vector <? 32 then None
  else if (vector <? IRQ_BASE) || (IRQ_BASE + 16 <=? vector) then Some (s, st, [])
  else
    let irq := u8 (vector - IRQ_BASE) in
    let '(s, st) :=
      if irq =? 0 then (with_ticks (tick_count s +u 1) s, scheduler_on_timer_tick st)
      else if irq =? 1 then
        let '(s, c) := decode_scancode code s in
        (if negb (c =? 0) && negb (c =? 9) then keyboard_queue_push c s else s, st)
      else (s, st) in
    Some (s, st, pic_send_eoi irq).

Definition timer_ticks (s : irq_st) : Z := tick_count s.

(** ** The ring of characters *)

Record ring_ok (s : irq_st) : Prop := {
  ro_len : length (keyboard_queue s) = KEYBOARD_QUEUE_SIZE;
  ro_head : (keyboard_head s < KEYBOARD_QUEUE_SIZE)%nat;
  ro_tail : (keyboard_tail s < KEYBOARD_QUEUE_SIZE)%nat
}.

(** The characters waiting in the ring, oldest first. *)
Definition ring_len (s : irq_st) : nat :=
  ((keyboard_head s + KEYBOARD_QUEUE_SIZE - keyboard_tail s) `mod` KEYBOARD_QUEUE_SIZE)%nat.
Definition ring_slot (s : irq_st) (i : nat) : nat := ((keyboard_tail s + i) `mod` KEYBOARD_QUEUE_SIZE)%nat.
Definition queued (s : irq_st) : list Z :=
  map (fun i => nth (ring_slot s i) (keyboard_queue s) 0) (seq 0 (ring_len s)).

Lemma queued_length s : length (queued s) = ring_len s.
Proof. unfold queued. by rewrite length_map, length_seq. Qed.

(** The modulus of a number below twice the size. *)
Lemma mod_ring a : (a < 2 * KEYBOARD_QUEUE_SIZE)%nat ->
  (a `mod` KEYBOARD_QUEUE_SIZE = if a <? KEYBOARD_QUEUE_SIZE then a else a - KEYBOARD_QUEUE_SIZE)%nat.
Proof.
  intros Ha. unfold KEYBOARD_QUEUE_SIZE in *. destruct (Nat.ltb_spec a 64).
  - by apply Nat.mod_small.
  - replace a with ((a - 64) + 1 * 64)%nat at 1 by lia. rewrite Nat.Div0.mod_add. apply Nat.mod_small. lia.
Qed.

Lemma ring_push_spec s c :
  ring_ok s ->
  ring_ok (keyboard_queue_push c s) /\
  queued (keyboard_queue_push c s) = if (length (queued s) <? 63)%nat then queued s ++ [c] else queued s.
Proof.
  intros [Hl Hh Ht]. unfold keyboard_queue_push. rewrite queued_length.
  pose proof (mod_ring (keyboard_head s + 1) ltac:(lia)) as Hm.
  pose proof (mod_ring (keyboard_head s + KEYBOARD_QUEUE_SIZE - keyboard_tail s) ltac:(lia)) as Hr.
  fold (ring_len s) in Hr. unfold KEYBOARD_QUEUE_SIZE in Hm, Hr, Hh, Ht, Hl.
  set (next := (_ `mod` _)%nat) in *.
  destruct (Nat.eqb_spec next (keyboard_tail s)) as [Hfull|Hroom].
  { split; [by constructor|]. rewrite (proj2 (Nat.ltb_ge _ _)); [done|].
    destruct (Nat.ltb_spec (keyboard_head s + 1) 64), (Nat.ltb_spec (keyboard_head s + 64 - keyboard_tail s) 64); lia. }
  assert (ring_len s < 63)%nat as Hlt.
  { destruct (Nat.ltb_spec (keyboard_head s + 1) 64), (Nat.ltb_spec (keyboard_head s + 64 - keyboard_tail s) 64); lia. }
  rewrite (proj2 (Nat.ltb_lt _ _)) by done.
  assert (next < 64)%nat as Hn by (destruct (Nat.ltb_spec (keyboard_head s + 1) 64); lia).
  set (s' := with_queue _ _ _ _).
  assert (ring_len s' = S (ring_len s)) as Hlen.
  { unfold ring_len at 1. cbn [keyboard_head keyboard_tail s' with_queue]. rewrite mod_ring by (unfold KEYBOARD_QUEUE_SIZE; lia).
    unfold KEYBOARD_QUEUE_SIZE.
    destruct (Nat.ltb_spec (keyboard_head s + 1) 64), (Nat.ltb_spec (keyboard_head s + 64 - keyboard_tail s) 64),
      (Nat.ltb_spec (next + 64 - keyboard_tail s) 64); lia. }
  assert (forall i, (i <= ring_len s)%nat -> ring_slot s i = if (i =? ring_len s)%nat then keyboard_head s else ring_slot s i) as Hslot.
  { intros i Hi. destruct (Nat.eqb_spec i (ring_len s)) as [-> |]; [|done].
    unfold ring_slot. rewrite mod_ring by (unfold KEYBOARD_QUEUE_SIZE; lia). unfold KEYBOARD_QUEUE_SIZE.
    destruct (Nat.ltb_spec (keyboard_head s + 64 - keyboard_tail s) 64),
      (Nat.ltb_spec (keyboard_tail s + ring_len s) 64); lia. }
  split; [constructor; cbn [keyboard_queue keyboard_head keyboard_tail s' with_queue]; [by rewrite length_insert|done|done]|].
  unfold queued. rewrite Hlen, seq_S, map_app. cbn [map Nat.add].
  change (ring_slot s') with (ring_slot s). cbn [keyboard_queue s' with_queue].
  f_equal.
  - apply map_ext_in. intros i Hi%in_seq. rewrite !nth_lookup. f_equal. apply list_lookup_insert_ne.
    unfold ring_slot. rewrite mod_ring by (unfold KEYBOARD_QUEUE_SIZE; lia). unfold KEYBOARD_QUEUE_SIZE.
    destruct (Nat.ltb_spec (keyboard_head s + 64 - keyboard_tail s) 64), (Nat.ltb_spec (keyboard_tail s + i) 64); lia.
  - f_equal. rewrite Hslot, Nat.eqb_refl by lia. rewrite nth_lookup, list_lookup_insert_eq by lia. done.
Qed.

Lemma ring_pop_spec s :
  ring_ok s ->
  let '(s', r) := keyboard_queue_pop s in
  ring_ok s' /\ r = head (queued s) /\ queued s' = tail (queued s).
Proof.
  intros [Hl Hh Ht]. unfold keyboard_queue_pop.
  pose proof (mod_ring (keyboard_head s + KEYBOARD_QUEUE_SIZE - keyboard_tail s) ltac:(lia)) as Hr.
  fold (ring_len s) in Hr.
  destruct (Nat.eqb_spec (keyboard_head s) (keyboard_tail s)) as [He|Hne].
  { assert (ring_len s = 0)%nat as Hz.
    { rewrite Hr, He. unfold KEYBOARD_QUEUE_SIZE. destruct (Nat.ltb_spec (keyboard_tail s + 64 - keyboard_tail s) 64); lia. }
    unfold queued. rewrite Hz. split_and!; by try constructor. }
  pose proof (mod_ring (keyboard_tail s + 1) ltac:(lia)) as Hm. unfold KEYBOARD_QUEUE_SIZE in Hm, Hr, Hh, Ht, Hl.
  set (next := (_ `mod` _)%nat) in *. set (s' := with_queue _ _ _ _).
  assert (ring_len s = S (ring_len s')) as Hlen.
  { unfold ring_len at 2. cbn [keyboard_head keyboard_tail s' with_queue].
    rewrite mod_ring by (unfold KEYBOARD_QUEUE_SIZE; destruct (Nat.ltb_spec (keyboard_tail s + 1) 64); lia).
    unfold KEYBOARD_QUEUE_SIZE.
    destruct (Nat.ltb_spec (keyboard_tail s + 1) 64), (Nat.ltb_spec (keyboard_head s + 64 - keyboard_tail s) 64),
      (Nat.ltb_spec (keyboard_head s + 64 - next) 64); lia. }
  split; [constructor; cbn [keyboard_queue keyboard_head keyboard_tail s' with_queue]; [done|done|]|].
  { destruct (Nat.ltb_spec (keyboard_tail s + 1) 64); unfold KEYBOARD_QUEUE_SIZE; lia. }
  unfold queued. rewrite Hlen. cbn [seq map head tail].
  unfold ring_slot at 1. rewrite Nat.add_0_r, (Nat.mod_small (keyboard_tail s)) by done. split.
  - destruct (lookup_lt_is_Some_2 (keyboard_queue s) (keyboard_tail s)) as [c Hc]; [lia|].
    by rewrite nth_lookup, Hc.
  - rewrite <- seq_shift, map_map. apply map_ext. intros i. cbn [keyboard_queue s' with_queue]. f_equal.
    unfold ring_slot. cbn [keyboard_tail s' with_queue]. unfold next.
    rewrite Nat.Div0.add_mod_idemp_l. f_equal. lia.
Qed.

(** An operation on the ring, and what it gives for a pop. *)
Inductive key_op := KPush (c : Z) | KPop.

Definition key_do (op : key_op) (s : irq_st) : irq_st * option Z :=
  match op with
  | KPush c => (keyboard_queue_push c s, None)
  | KPop => keyboard_queue_pop s
  end.
(** The same on a list that holds at most 63 characters. *)
Definition key_spec (op : key_op) (l : list Z) : list Z * option Z :=
  match op with
  | KPush c => (if (length l <? 63)%nat then l ++ [c] else l, None)
  | KPop => (tail l, head l)
  end.

Fixpoint key_run {S} (step : key_op -> S -> S * option Z) (ops : list key_op) (s : S) : list (option Z) :=
  match ops with
  | [] => []
  | op :: ops => let '(s, r) := step op s in r :: key_run step ops s
  end.

(** The ring of the keyboard is a queue of at most 63 characters: any sequence
    of pushes and pops gives what the same sequence on a list gives, a push into
    a full ring being lost, and no access leaves the array. *)
Theorem keyboard_ring_fifo s ops :
  ring_ok s -> key_run key_do ops s = key_run key_spec ops (queued s).
Proof.
  revert s. induction ops as [|op ops IH]; intros s Hs; [done|]. destruct op as [c|]; cbn [key_run key_do key_spec].
  - destruct (ring_push_spec s c Hs) as [Hs' <-]. f_equal. by apply IH.
  - pose proof (ring_pop_spec s Hs) as Hp. destruct (keyboard_queue_pop s) as [s' r].
    destruct Hp as (Hs' & -> & <-). f_equal. by apply IH.
Qed.

Definition irq_boot : irq_st := {|
  idt := replicate 256 (gate 0 0 0); tick_count := 0; keyboard_queue := replicate 64 0;
  keyboard_head := 0; keyboard_tail := 0; shift_down := false; code_selector := 0 |}.

Lemma keyboard_ring_fifo_witness :
  key_run key_do [KPush 97; KPush 98; KPop; KPop; KPop] irq_boot = [None; None; Some 97; Some 98; None].
Proof. exact (keyboard_ring_fifo irq_boot [KPush 97; KPush 98; KPop; KPop; KPop] ltac:(constructor; cbv; lia)). Defined.

(** ** The decoder *)

(** The key that types a character, and whether shift is held. *)
Definition key_of (c : Z) : option (Z * bool) :=
  match first_slot (fun x => x =? c) (take 128 normal) with
  | Some i => Some (Z.of_nat i, false)
  | None => (fun i => (Z.of_nat i, true)) <$> first_slot (fun x => x =? c) shifted
  end.

(** Press or release shift as needed, then press the key. *)
Definition type_char (c : Z) (s : irq_st) : option (irq_st * Z) :=
  '(code, shift) ← key_of c;
  let '(s, _) := decode_scancode (if (shift : bool) then 0x2A else 0xAA) s in
  Some (decode_scancode code s).

Definition key_char (c : Z) : bool :=
  (c =? 0) || (c =? 8) || (c =? 9) || (c =? 10) || (c =? 27) || ((32 <=? c) && (c <=? 126)).

Lemma decode_table (b : bool) code :
  key_char (nth (Z.to_nat code) (if b then shifted else normal) 0) = true.
Proof.
  assert (forall b : bool, forallb key_char (if b then shifted else normal) = true) as Hall
    by (intros []; vm_compute; reflexivity).
  destruct (le_lt_dec (length (if b then shifted else normal)) (Z.to_nat code)) as [Hge|Hlt].
  - by rewrite nth_overflow.
  - specialize (Hall b). rewrite forallb_forall in Hall. apply Hall, nth_In. lia.
Qed.

Lemma printable_typed c s :
  32 <= c <= 126 -> exists s', type_char c s = Some (s', c).
Proof.
  intros Hc.
  assert (forall n, (n < 95)%nat -> match key_of (32 + Z.of_nat n) with
    | Some (code, sh) => (0 <=? code) && (code <? 128) && negb (code =? 0x2A) && negb (code =? 0x36) &&
        (Z.land code 0x80 =? 0) && (nth (Z.to_nat code) (if (sh : bool) then shifted else normal) 0 =? 32 + Z.of_nat n)
    | None => false end = true) as Hall.
  { intros n Hn. assert (forallb (fun n => match key_of (32 + Z.of_nat n) with
    | Some (code, sh) => (0 <=? code) && (code <? 128) && negb (code =? 0x2A) && negb (code =? 0x36) &&
        (Z.land code 0x80 =? 0) && (nth (Z.to_nat code) (if (sh : bool) then shifted else normal) 0 =? 32 + Z.of_nat n)
    | None => false end) (seq 0 95) = true) as Hf by (vm_compute; reflexivity).
    rewrite forallb_forall in Hf. apply Hf. apply in_seq. lia. }
  specialize (Hall (Z.to_nat (c - 32)) ltac:(lia)).
  replace (32 + Z.of_nat (Z.to_nat (c - 32))) with c in Hall by lia. unfold type_char.
  destruct (key_of c) as [[code sh]|]; [|done]. cbn [mbind option_bind].
  repeat (apply andb_true_iff in Hall as [Hall ?]). zify_bool.
  assert (forall s, shift_down s = sh -> decode_scancode code s = (s, c)) as Hd.
  { intros s0 Hs. unfold decode_scancode.
    rewrite (proj2 (Z.eqb_neq code 0x2A)), (proj2 (Z.eqb_neq code 0x36)), (proj2 (Z.eqb_neq code 0xAA)),
      (proj2 (Z.eqb_neq code 0xB6)), (proj2 (Z.leb_gt 128 code)) by lia.
    rewrite (proj2 (Z.eqb_eq (Z.land code 128) 0)) by done. cbn. rewrite Hs. by f_equal. }
  assert (decode_scancode (if sh then 0x2A else 0xAA) s = (with_shift sh s, 0)) as Hshift by (by destruct sh).
  rewrite Hshift. exists (with_shift sh s). f_equal. by apply Hd.
Qed.

(** The decoder gives one of the characters of the keyboard for every code,
    depends only on whether a shift key is down, which the codes 0x2A, 0x36 set
    and 0xAA, 0xB6 clear, and every printable character can be typed from every
    state. *)
Theorem decode_scancode_complete s code :
  (let '(s', c) := decode_scancode code s in
   key_char c = true /\
   s' = with_shift (if (code =? 0x2A) || (code =? 0x36) then true
                    else if (code =? 0xAA) || (code =? 0xB6) then false else shift_down s) s /\
   (128 <= code -> c = 0)) /\
  (forall c, 32 <= c <= 126 -> exists s', type_char c s = Some (s', c)).
Proof.
  split; [|intros c; apply printable_typed]. unfold decode_scancode.
  destruct (_ || _) eqn:E1; [by split_and!|]. destruct ((code =? 0xAA) || _) eqn:E2; [by split_and!|].
  assert (s = with_shift (shift_down s) s) as Hs by (by destruct s).
  destruct (negb _ || _) eqn:E3; [by split_and!|]. apply orb_false_iff in E3 as [_ E3%Z.leb_gt].
  split_and!; [apply decode_table|done|lia].
Qed.

(** ** The descriptors *)

Lemma gates_above (st : stubs) n s :
  (n <= 256)%nat -> length (idt s) = 256%nat ->
  let s' := fold_left (fun s i => idt_set_gate (u8 (Z.of_nat i)) (irq_default_stub st) s) (seq 0 n) s in
  code_selector s' = code_selector s /\ length (idt s') = 256%nat /\
  forall i, (i < n)%nat -> idt s' !! i = Some (gate (code_selector s) 0x8E (irq_default_stub st)).
Proof.
  induction n as [|n IH]; intros Hn Hl; [by split_and!; [| |intros; lia]|].
  cbv zeta. rewrite seq_S, fold_left_app. cbn [fold_left Nat.add].
  destruct (IH ltac:(lia) Hl) as (Hc & Hl' & Hi). set (s' := fold_left _ _ _) in *.
  unfold idt_set_gate. cbn [idt code_selector with_idt]. rewrite length_insert.
  split_and!; [done|done|]. intros i Hin.
  assert (Z.to_nat (u8 (u8 (Z.of_nat n))) = n) as -> by (assert (u8 (Z.of_nat n) = Z.of_nat n) as Hu by (apply Z.mod_small; lia); by rewrite !Hu, Nat2Z.id).
  destruct (decide (i = n)) as [-> |]; [rewrite list_lookup_insert_eq by lia; by rewrite Hc|].
  rewrite list_lookup_insert_ne by lia. apply Hi. lia.
Qed.

(** What entry [i] of the table holds once the kernel has set it up. *)
Definition handler_of (st : stubs) (i : nat) : Z :=
  match i with
  | 0x20 => irq0_stub st | 0x21 => irq1_stub st
  | 6 => ex6_stub st | 13 => ex13_stub st | 14 => ex14_stub st
  | 0x80 => syscall_stub st | _ => irq_default_stub st
  end%nat.

Lemma idt_init_spec (st : stubs) cs s i :
  length (idt s) = 256%nat -> (i < 256)%nat ->
  idt (idt_init st cs s) !! i =
    Some (gate cs (if (i =? 0x80)%nat then 0xEE else 0x8E) (handler_of st i)).
Proof.
  intros Hl Hi. unfold idt_init.
  destruct (gates_above st 256 (with_selector cs s) ltac:(lia) Hl) as (Hc & Hl' & Hg).
  change IDT_ENTRIES with 256%nat. set (s' := fold_left _ _ _) in *.
  unfold idt_set_gate, idt_set_gate_user. cbn [idt code_selector with_idt]. rewrite Hc.
  change (code_selector (with_selector cs s)) with cs in *.
  change (Z.to_nat (u8 (IRQ_BASE + 0))) with 32%nat. change (Z.to_nat (u8 (IRQ_BASE + 1))) with 33%nat.
  change (Z.to_nat (u8 6)) with 6%nat. change (Z.to_nat (u8 13)) with 13%nat.
  change (Z.to_nat (u8 14)) with 14%nat. change (Z.to_nat (u8 0x80)) with 128%nat.
  specialize (Hg i Hi).
  assert (forall (l : list idt_entry) k e, length l = 256%nat -> (k < 256)%nat ->
    <[k:=e]> l !! i = if (i =? k)%nat then Some e else l !! i) as Hins.
  { intros l k e Hn Hk. destruct (Nat.eqb_spec i k) as [-> |]; [by apply list_lookup_insert_eq; lia|].
    by apply list_lookup_insert_ne. }
  rewrite !Hins, Hg by (rewrite ?length_insert; lia). unfold handler_of.
  do 129 (destruct i as [|i]; [reflexivity|]). reflexivity.
Qed.

Lemma gate_offset v :
  Z.lor (Z.shiftl (Z.land (Z.shiftr v 16) 0xFFFF) 16) (Z.land v 0xFFFF) = Z.land v 0xFFFFFFFF.
Proof.
  apply Z.bits_inj'. intros n Hn.
  change 0xFFFFFFFF with (Z.ones 32). change 0xFFFF with (Z.ones 16).
  rewrite Z.lor_spec, Z.shiftl_spec by done. destruct (Z.ltb_spec n 16) as [Hlt|Hge].
  - rewrite Z.testbit_neg_r, !Z.land_spec, !Z.testbit_ones_nonneg by lia.
    by rewrite (proj2 (Z.ltb_lt n 16)), (proj2 (Z.ltb_lt n 32)) by lia.
  - rewrite !Z.land_spec, Z.shiftr_spec, !Z.testbit_ones_nonneg by lia.
    rewrite (proj2 (Z.ltb_ge n 16)), andb_false_r, orb_false_r by lia.
    replace (n - 16 + 16) with n by lia. f_equal.
    destruct (Z.ltb_spec (n - 16) 16), (Z.ltb_spec n 32); lia.
Qed.

Lemma gate_offset32 v :
  0 <= v < 2 ^ 32 ->
  Z.lor (u32 (Z.shiftl (Z.land (Z.shiftr v 16) 0xFFFF) 16)) (Z.land v 0xFFFF) = v.
Proof.
  intros Hv. unfold u32. rewrite Z.mod_small.
  - rewrite gate_offset. change 0xFFFFFFFF with (Z.ones 32). rewrite Z.land_ones by lia. by apply Z.mod_small.
  - change 0xFFFF with (Z.ones 16). rewrite Z.land_ones, Z.shiftl_mul_pow2 by lia.
    pose proof (Z.mod_pos_bound (Z.shiftr v 16) (2 ^ 16) ltac:(lia)). lia.
Qed.

(** *** The masks *)

Definition data_port (p : Z) : Prop := p = PIC1_DATA \/ p = PIC2_DATA.

(** Once [pic_remap] has initialised the controllers, after the writes [w], the
    two data ports are registers: a read gives what was last written. *)
Definition masks_kept (inb : list port_write -> Z -> Z) (w : list port_write) : Prop :=
  (forall w port, 0 <= inb w port < 256) /\
  forall l p x port, Forall (fun q => data_port (fst q)) l -> data_port p -> data_port port -> 0 <= x < 256 ->
    inb (w ++ l ++ [(p, x)]) port = if p =? port then x else inb (w ++ l) port.

Definition mask_step (v : Z * Z) (m : Z * bool) : Z * Z :=
  let new v irq := if snd m then u8 (Z.lor v (Z.shiftl 1 irq))
                   else u8 (Z.land v (u32 (Z.lnot (Z.shiftl 1 irq)))) in
  if fst m <? 8 then (new (fst v) (fst m), snd v) else (fst v, new (snd v) (u8 (fst m - 8))).

Lemma set_masks_spec inb w ms k :
  masks_kept inb w -> Forall (fun q => data_port (fst q)) k ->
  let w' := fold_left (fun w '(irq, masked) => pic_set_mask inb w irq masked) ms (w ++ k) in
  (inb w' PIC1_DATA, inb w' PIC2_DATA) =
    fold_left mask_step ms (inb (w ++ k) PIC1_DATA, inb (w ++ k) PIC2_DATA).
Proof.
  intros [_ Hreg]. revert k. induction ms as [|[irq masked] ms IH]; intros k Hk; [done|].
  cbv zeta in *. cbn [fold_left]. unfold pic_set_mask at 2 4, mask_step at 2. cbn [fst snd].
  pose proof (fun p x port => Hreg k p x port Hk) as Hw.
  destruct (irq <? 8); rewrite <- app_assoc;
    (rewrite IH by (apply Forall_app_2; [done|]; constructor; [unfold data_port; tauto|done]));
    rewrite !Hw by (unfold data_port, u8; first [tauto|destruct masked; apply Z.mod_pos_bound; lia]); by destruct masked.
Qed.

(** A fact about every byte, checked one by one. *)
Lemma all_bytes (P : Z -> bool) :
  forallb (fun n => P (Z.of_nat n)) (seq 0 256) = true -> forall v, 0 <= v < 256 -> P v = true.
Proof.
  intros Hall v Hv. rewrite forallb_forall in Hall.
  specialize (Hall (Z.to_nat v) ltac:(apply in_seq; lia)). by rewrite Z2Nat.id in Hall by lia.
Qed.

Lemma irq_masks_result v1 v2 :
  0 <= v1 < 256 -> 0 <= v2 < 256 -> fold_left mask_step irq_masks (v1, v2) = (0xFE, 0xFF).
Proof.
  intros H1 H2.
  assert (forall v, 0 <= v < 256 -> (fst (fold_left mask_step irq_masks (v, v2)) =? 0xFE) = true) as Hfst
    by (apply (all_bytes (fun v => fst (fold_left mask_step irq_masks (v, v2)) =? 0xFE)); vm_compute; reflexivity).
  assert (forall v, 0 <= v < 256 -> (snd (fold_left mask_step irq_masks (v1, v)) =? 0xFF) = true) as Hsnd
    by (apply (all_bytes (fun v => snd (fold_left mask_step irq_masks (v1, v)) =? 0xFF)); vm_compute; reflexivity).
  specialize (Hfst v1 H1). specialize (Hsnd v2 H2). apply Z.eqb_eq in Hfst, Hsnd.
  destruct (fold_left mask_step irq_masks (v1, v2)). by f_equal.
Qed.

(** After [interrupts_init] a program in ring 3 can enter the kernel by
    interrupt 0x80 only: that gate has privilege level 3, the code segment and
    the address of [syscall_stub], which [interrupts_get_gate80] reports, and
    each of the 255 others has privilege level 0 and its handler.  Of the
    sixteen interrupt lines only the timer is enabled, the keyboard's being
    masked, whatever the firmware had enabled before. *)
Theorem interrupts_init_gates inb (st : stubs) cs w s :
  length (idt s) = 256%nat -> 0 <= syscall_stub st < 2 ^ 32 -> masks_kept inb (pic_remap inb w) ->
  let '(s', w') := interrupts_init inb st cs w s in
  (forall i, (i < 256)%nat -> exists e, idt s' !! i = Some e /\ selector e = cs /\
     type_attr e = (if (i =? 0x80)%nat then 0xEE else 0x8E) /\
     Z.lor (Z.shiftl (offset_high e) 16) (offset_low e) = Z.land (handler_of st i) 0xFFFFFFFF) /\
  interrupts_get_gate80 s' = Some (cs, 0xEE, syscall_stub st) /\
  inb w' PIC1_DATA = 0xFE /\ inb w' PIC2_DATA = 0xFF.
Proof.
  intros Hl Hst Hkept. unfold interrupts_init. split; [|split].
  - intros i Hi. rewrite idt_init_spec by done. eexists. split; [reflexivity|].
    split_and!; [done|done|]. apply gate_offset.
  - unfold interrupts_get_gate80. rewrite idt_init_spec by (done || lia).
    cbn [mbind option_bind Nat.eqb selector type_attr gate offset_high offset_low handler_of].
    rewrite gate_offset32 by done. done.
  - unfold pic_init. pose proof (set_masks_spec inb _ irq_masks [] Hkept ltac:(done)) as Hm.
    cbv zeta in Hm. rewrite !app_nil_r in Hm. destruct Hkept as [Hr _].
    rewrite irq_masks_result in Hm by apply Hr. by injection Hm.
Qed.

(** The ports of a machine whose controllers were all masked, each data port
    giving what was last written to it. *)
Definition demo_inb (w : list port_write) (port : Z) : Z :=
  u8 (fold_left (fun v '(p, x) => if p =? port then x else v) w 0xFF).

Lemma demo_masks_kept w : masks_kept demo_inb w.
Proof.
  split; [intros w' port; apply Z.mod_pos_bound; lia|].
  intros l p x port _ _ _ Hx. unfold demo_inb. rewrite app_assoc, fold_left_app. cbn [fold_left].
  destruct (p =? port); [by apply Z.mod_small|done].
Qed.

Definition demo_stubs : stubs := {|
  irq0_stub := 0x101000; irq1_stub := 0x101020; irq_default_stub := 0x101040; syscall_stub := 0x101060;
  ex6_stub := 0x101080; ex13_stub := 0x1010A0; ex14_stub := 0x1010C0 |}.

Lemma interrupts_init_gates_witness :
  let '(s', w') := interrupts_init demo_inb demo_stubs 8 [] irq_boot in
  interrupts_get_gate80 s' = Some (8, 0xEE, 0x101060) /\ demo_inb w' PIC1_DATA = 0xFE.
Proof.
  pose proof (interrupts_init_gates demo_inb demo_stubs 8 [] irq_boot eq_refl ltac:(cbn; lia)
    (demo_masks_kept _)) as H.
  destruct H as (_ & Hg & Hm & _). exact (conj Hg Hm).
Defined.

(** ** Runs of interrupts *)

(** An interrupt: its vector and what the keyboard's port would give. *)
Fixpoint interrupt_run (evs : list (Z * Z)) (s : irq_st) (st : sched) (w : list port_write)
    : option (irq_st * sched * list port_write) :=
  match evs with
  | [] => Some (s, st, w)
  | (vector, code) :: evs =>
      '(s, st, w') ← interrupt_dispatch vector code s st;
      interrupt_run evs s st (w ++ w')
  end.

(** The characters scan codes stand for, [shift] telling whether shift is down
    before the first. *)
Fixpoint typed (shift : bool) (codes : list Z) : list Z :=
  match codes with
  | [] => []
  | code :: codes =>
      let '(s, c) := decode_scancode code (with_shift shift irq_boot) in
      (if negb (c =? 0) && negb (c =? 9) then [c] else []) ++ typed (shift_down s) codes
  end.

Definition key_codes (evs : list (Z * Z)) : list Z := map snd (filter (fun e => fst e = 0x21) evs).
Definition timer_count (evs : list (Z * Z)) : nat := length (filter (fun e => fst e = 0x20) evs).
(** The acknowledgements of the interrupts of the two controllers. *)
Definition acks (evs : list (Z * Z)) : list port_write :=
  concat (map (fun e => if (0x20 <=? fst e) && (fst e <? 0x28) then [(PIC1_COMMAND, PIC_EOI)]
                        else if (0x28 <=? fst e) && (fst e <? 0x30)
                        then [(PIC2_COMMAND, PIC_EOI); (PIC1_COMMAND, PIC_EOI)] else []) evs).

Lemma decode_shift code s :
  decode_scancode code s =
    (with_shift (shift_down (fst (decode_scancode code (with_shift (shift_down s) irq_boot)))) s,
     snd (decode_scancode code (with_shift (shift_down s) irq_boot))).
Proof.
  assert (with_shift (shift_down s) s = s) as Hs by (by destruct s).
  unfold decode_scancode. destruct (_ || _); [done|]. destruct ((code =? 0xAA) || _); [done|].
  destruct (_ || _); cbn [fst snd shift_down with_shift]; by rewrite Hs.
Qed.

Lemma take_again {A} n (a b : list A) : take n (take n a ++ b) = take n (a ++ b).
Proof. rewrite !take_app, take_take, length_take, Nat.min_id. f_equal. f_equal. lia. Qed.

Lemma queued_short s : take 63 (queued s) = queued s.
Proof.
  apply take_ge. rewrite queued_length. unfold ring_len, KEYBOARD_QUEUE_SIZE.
  pose proof (Nat.mod_upper_bound (keyboard_head s + 64 - keyboard_tail s) 64). lia.
Qed.

Lemma push_queued c s :
  ring_ok s -> ring_ok (keyboard_queue_push c s) /\ queued (keyboard_queue_push c s) = take 63 (queued s ++ [c]).
Proof.
  intros Hs. destruct (ring_push_spec s c Hs) as [Hok ->]. split; [done|].
  pose proof (queued_short s) as Hq. apply (f_equal length) in Hq. rewrite length_take in Hq.
  destruct (Nat.ltb_spec (length (queued s)) 63).
  - by rewrite take_ge by (rewrite last_length; lia).
  - by rewrite take_app_le, queued_short by lia.
Qed.

Lemma push_other c s :
  tick_count (keyboard_queue_push c s) = tick_count s /\ shift_down (keyboard_queue_push c s) = shift_down s /\
  idt (keyboard_queue_push c s) = idt s.
Proof. unfold keyboard_queue_push. by destruct (_ =? _)%nat. Qed.

Lemma ring_shift b s : ring_ok s -> ring_ok (with_shift b s) /\ queued (with_shift b s) = queued s.
Proof. intros [Hl Hh Ht]. split; [by constructor|done]. Qed.

Lemma timer_count_cons e evs : timer_count (e :: evs) = (timer_count evs + timer_count [e])%nat.
Proof.
  unfold timer_count. rewrite !filter_cons, filter_nil. destruct (decide _); cbn [length]; lia.
Qed.

Lemma dispatch_step vector code s st :
  32 <= vector < 256 -> ring_ok s -> 0 <= tick_count s < 2 ^ 32 ->
  exists s', interrupt_dispatch vector code s st =
      Some (s', Nat.iter (timer_count [(vector, code)]) scheduler_on_timer_tick st, acks [(vector, code)]) /\
    tick_count s' = (tick_count s + Z.of_nat (timer_count [(vector, code)])) mod 2 ^ 32 /\ ring_ok s' /\
    queued s' = take 63 (queued s ++ typed (shift_down s) (key_codes [(vector, code)])) /\ idt s' = idt s /\
    (forall evs, typed (shift_down s) (key_codes ((vector, code) :: evs)) =
       typed (shift_down s) (key_codes [(vector, code)]) ++ typed (shift_down s') (key_codes evs)).
Proof.
  intros Hv Hs Ht. unfold interrupt_dispatch, acks, timer_count, key_codes, IRQ_BASE.
  rewrite (proj2 (Z.ltb_ge vector 32)) by lia.
  replace (u8 (vector - 32)) with (vector - 32) by (symmetry; apply Z.mod_small; lia).
  rewrite orb_false_l. cbn [map fst snd concat].
  assert (tick_count s = tick_count s mod 2 ^ 32) as Hmod by (by rewrite Z.mod_small).
  destruct (decide (vector = 32)) as [-> |H32]; [|destruct (decide (vector = 33)) as [-> |H33]].
  - exists (with_ticks (tick_count s +u 1) s). split_and!; try done.
    + by destruct Hs.
    + cbn [filter list_filter decide decide_rel]. rewrite app_nil_r, <- queued_short. done.
  - pose proof (decode_shift code s) as Hdec. cbn [Z.leb Z.eqb Z.sub Z.ltb Z.compare].
    set (r := decode_scancode code (with_shift (shift_down s) irq_boot)) in *.
    change (filter (fun e : Z * Z => e.1 = 33) [(33, code)]) with [(33, code)].
    change (32 + 16 <=? 33) with false. change (33 - 32 =? 0) with false. change (33 - 32 =? 1) with true.
    cbv iota. rewrite Hdec. cbn [map snd typed]. fold r. rewrite app_nil_r.
    destruct (ring_shift (shift_down (fst r)) s Hs) as [Hs1 Hq1].
    destruct r as [s1 c] eqn:Er. cbn [fst snd] in *.
    assert (forall evs, typed (shift_down s) (map snd (filter (fun e : Z * Z => e.1 = 33) ((33, code) :: evs))) =
      (if negb (c =? 0) && negb (c =? 9) then [c] else []) ++
      typed (shift_down s1) (map snd (filter (fun e : Z * Z => e.1 = 33) evs))) as Hstep.
    { intros evs. change (filter (fun e : Z * Z => e.1 = 33) ((33, code) :: evs))
        with ((33, code) :: filter (fun e : Z * Z => e.1 = 33) evs). cbn [map snd typed]. fold r. by rewrite Er. }
    destruct (negb (c =? 0) && negb (c =? 9)); eexists.
    + destruct (push_queued c _ Hs1) as [Hok Hq]. rewrite Hq1 in Hq.
      destruct (push_other c (with_shift (shift_down s1) s)) as (Hpt & Hps & Hpi).
      split_and!; [reflexivity|by rewrite Hpt, Z.add_0_r|done|done|done|].
      intros evs. by rewrite Hps, Hstep.
    + split_and!; [reflexivity|by rewrite Z.add_0_r|done| |done|].
      * by rewrite !app_nil_r, queued_short.
      * intros evs. by rewrite Hstep.
  - exists s. rewrite !filter_cons, !decide_False, !filter_nil by (cbn; done). cbn [map length typed snd].
    rewrite Z.add_0_r, !app_nil_r, queued_short. split_and!; try done.
    + unfold pic_send_eoi. destruct (Z.leb_spec (32 + 16) vector), (Z.ltb_spec vector 40), (Z.leb_spec 32 vector), (Z.leb_spec 40 vector), (Z.ltb_spec vector 48), (Z.leb_spec 8 (vector - 32)); try lia; try done; rewrite (proj2 (Z.eqb_neq (vector - 32) 0)), (proj2 (Z.eqb_neq (vector - 32) 1)) by lia; done.
    + intros evs. by rewrite filter_cons, decide_False by done.
Qed.

(** C32: Whatever interrupts come, none of them a processor exception: the handler
    returns from each; the tick count grows by one for each timer interrupt,
    modulo 2^32, and the scheduler sees exactly these; the ring of the keyboard
    stays well formed and gains the typed characters in order, those beyond 63
    being lost; each interrupt of a controller is acknowledged, to the second
    controller too when it came from there, and the others are ignored. *)
Theorem interrupt_run_effect evs s st w :
  Forall (fun e => 32 <= fst e < 256) evs -> ring_ok s -> 0 <= tick_count s < 2 ^ 32 ->
  exists s', interrupt_run evs s st w = Some (s', Nat.iter (timer_count evs) scheduler_on_timer_tick st, w ++ acks evs) /\
    timer_ticks s' = (tick_count s + Z.of_nat (timer_count evs)) mod 2 ^ 32 /\
    ring_ok s' /\ queued s' = take 63 (queued s ++ typed (shift_down s) (key_codes evs)) /\ idt s' = idt s.
Proof.
  revert s st w. induction evs as [|[vector code] evs IH]; intros s st w Hv Hs Ht.
  - exists s. unfold timer_ticks. cbn [acks map concat key_codes filter list_filter typed]. 
    rewrite !app_nil_r, queued_short, Z.add_0_r, Z.mod_small by done. done.
  - inversion Hv as [|? ? He Hr]; subst.
    destruct (dispatch_step vector code s st He Hs Ht) as (s1 & Hd & Hn & Hok & Hq & Hi & Hty).
    cbn [interrupt_run]. rewrite Hd. cbn [mbind option_bind].
    edestruct (IH s1) as (s' & -> & Hn' & Hok' & Hq' & Hi');
      [done|done|rewrite Hn; apply Z.mod_pos_bound; lia|].
    exists s'. split_and!.
    + rewrite <- app_assoc, <- Nat.iter_add, (timer_count_cons _ evs). cbn [acks map concat].
      by rewrite app_nil_r.
    + rewrite Hn', Hn, Zplus_mod_idemp_l, (timer_count_cons _ evs). f_equal. lia.
    + done.
    + by rewrite Hq', Hq, take_again, (Hty evs), app_assoc.
    + by rewrite Hi'.
Qed.

Lemma interrupt_run_effect_witness :
  exists s', interrupt_run [(0x20, 0); (0x21, 0x2A); (0x21, 0x1E); (0x21, 0xAA); (0x21, 0x30); (0x28, 0)] irq_boot kmain_tasks [] =
      Some (s', scheduler_on_timer_tick kmain_tasks, acks [(0x20, 0); (0x21, 0x2A); (0x21, 0x1E); (0x21, 0xAA); (0x21, 0x30); (0x28, 0)]) /\
    timer_ticks s' = 1 /\ queued s' = lit "Ab".
Proof.
  destruct (interrupt_run_effect [(0x20, 0); (0x21, 0x2A); (0x21, 0x1E); (0x21, 0xAA); (0x21, 0x30); (0x28, 0)]
    irq_boot kmain_tasks []) as (s' & Hr & Ht & _ & Hq & _);
    [repeat (apply Forall_cons; [cbn; lia|]); apply Forall_nil|constructor; cbv; lia|cbn; lia|].
  exists s'. split; [exact Hr|]. split; [rewrite Ht; reflexivity|rewrite Hq; reflexivity].
Defined.

(** ** Reading a character *)

(** [keyboard_read_char_blocking] returns as soon as the keyboard has given the
    code of a character, and gives the first of the characters the codes it has
    seen stand for; it waits for as long as there is none, and a tab or a key
    without a character never ends the wait. *)
Theorem read_char_first ports s :
  snd (keyboard_read_char_blocking ports s) =
    head (typed (shift_down s) (map snd (filter (fun p => Z.land (fst p) 1 <> 0) ports))).
Proof.
  revert s. induction ports as [|[status code] ports IH]; intros s; [done|].
  cbn [keyboard_read_char_blocking]. unfold keyboard_try_read_char. rewrite filter_cons. cbn [fst].
  destruct (Z.eqb_spec (Z.land status 1) 0) as [Hz|Hz]; [rewrite decide_False by tauto; apply IH|].
  rewrite decide_True by done. cbn [map snd typed]. rewrite decode_shift.
  destruct (decode_scancode code _) as [s1 c]. cbn [fst snd].
  destruct (c =? 0), (c =? 9); cbn [orb negb andb app]; try done; by rewrite IH.
Qed.
