(* ===== verification/Keep.v ===== *)
(** * Keep: what lasts while programs run

    System calls, timer interrupts and the runner of task.c change the states
    of tasks and processes, and the saved registers of images.  [table_kept]
    and [core_kept] say what they leave alone: which slots hold which task,
    which processes exist, where their images are and which slot of the ELF
    loader is theirs. *)
From S2P Require Import Prelude KernelH Util Memory Heap Proc Sched Iface Elf Core Ipc.
Local Open Scope Z_scope.
Local Open Scope slop_scope.

(** The same task, in some other state of life. *)
Definition same_task (t t' : task_info) : Prop :=
  ti_pid t' = ti_pid t /\ (ti_state t' = TASK_UNUSED <-> ti_state t = TASK_UNUSED).

(** The same image, with other saved registers. *)
Record image_like (i j : proc_image) : Prop := {
  il_loaded : loaded j = loaded i;
  il_entry : entry j = entry i;
  il_base : image_base j = image_base i;
  il_size : image_size j = image_size i;
  il_stack : user_stack_base j = user_stack_base i;
  il_stack_size : user_stack_size j = user_stack_size i;
  il_cwd : img_cwd j = img_cwd i;
  il_output : output j = output i
}.

Record table_kept (st st' : sched) : Prop := {
  tk_inv : sched_inv st';
  tk_tasks : Forall2 same_task (tasks st) (tasks st');
  tk_images : forall q, option_Forall2 image_like (proc_get_image (sprocs st) q) (proc_get_image (sprocs st') q)
}.

#[export] Instance same_task_preorder : PreOrder same_task.
Proof.
  split; [done|]. intros t1 t2 t3 [H1 H2] [H3 H4]. split; [congruence|tauto].
Qed.

#[export] Instance image_like_preorder : PreOrder image_like.
Proof.
  split; [done|]. intros i j k [] []. constructor; congruence.
Qed.

Lemma table_kept_refl st : sched_inv st -> table_kept st st.
Proof. intros Hi. by constructor. Qed.

Lemma table_kept_trans st1 st2 st3 : table_kept st1 st2 -> table_kept st2 st3 -> table_kept st1 st3.
Proof.
  intros [_ Ht1 Hi1] [Hv Ht2 Hi2]. constructor; [done|by etransitivity|].
  intros q. by etransitivity; [apply Hi1|].
Qed.

(** ** The parts of an operation *)

Lemma alter_same_task (f : task_info -> task_info) i l :
  (forall t, l !! i = Some t -> same_task t (f t)) -> Forall2 same_task l (alter f i l).
Proof.
  intros Hf. apply Forall2_same_length_lookup_2; [by rewrite length_alter|].
  intros j x y Hx Hy. destruct (decide (j = i)) as [-> |Hne].
  - rewrite list_lookup_alter_eq, Hx in Hy. injection Hy as <-. by apply Hf.
  - rewrite list_lookup_alter_ne in Hy by done. by simplify_eq.
Qed.

Lemma put_state_same i s st :
  s <> TASK_UNUSED -> (forall t, tasks st !! i = Some t -> ti_state t <> TASK_UNUSED) ->
  Forall2 same_task (tasks st) (tasks (put_state i s st)).
Proof.
  intros Hs Hl. apply alter_same_task. intros t Ht. specialize (Hl t Ht). split; [done|]. cbn. tauto.
Qed.

Lemma image_pid ps pid i : proc_inv ps -> proc_get_image ps pid = Some i -> 0 <= pid < INT_MAX.
Proof.
  intros Hi Him. unfold proc_get_image in Him. destruct (find_slot_by_pid _ pid) as [sl|] eqn:Hf; [|done].
  apply find_slot_inv in Hf as (p & Hp0 & Hl & <- & _).
  pose proof (pv_pids _ Hi _ _ Hp0 Hl). pose proof (pv_next _ Hi). lia.
Qed.

(** Process states that change, one after the other. *)
Inductive procs_moved : proc_st -> proc_st -> Prop :=
  | moved_refl ps : procs_moved ps ps
  | moved_set ps ps' pid s :
      s <> PROC_UNUSED -> procs_moved ps ps' -> procs_moved ps (proc_set_state ps' pid s).

Lemma moved_images ps ps' q :
  proc_inv ps -> procs_moved ps ps' -> proc_inv ps' /\ proc_get_image ps' q = proc_get_image ps q.
Proof.
  intros Hi. induction 1 as [|ps ps' pid s Hs Hm IH]; [done|]. destruct (IH Hi) as [Hi' He].
  split; [by apply proc_set_state_inv|]. rewrite <- He.
  exact (@set_image proc_st _ proc_st_laws ps' pid s q Hi' Hs).
Qed.

Lemma kept_moved st st' :
  sched_inv st -> sched_inv st' -> Forall2 same_task (tasks st) (tasks st') ->
  procs_moved (sprocs st) (sprocs st') -> table_kept st st'.
Proof.
  intros [Hw _] Hi' Ht Hm. constructor; [done|done|]. intros q.
  destruct (moved_images _ _ q (sv_procs _ Hw) Hm) as [_ ->]. by destruct (proc_get_image _ q); constructor.
Qed.

Lemma demote_kept slot st :
  Forall2 same_task (tasks st) (tasks (demote_current slot st)) /\
  procs_moved (sprocs st) (sprocs (demote_current slot st)).
Proof.
  unfold demote_current. destruct (current_index st) as [c|]; [|by split; [|constructor]].
  destruct (tasks st !! c) as [t|] eqn:Et; [|by split; [|constructor]].
  destruct (_ && _) eqn:E; [|by split; [|constructor]].
  apply andb_true_iff in E as [_ Hr%is_state_true]. split.
  - apply (put_state_same c TASK_READY (put_proc (ti_pid t) PROC_READY st)); [done|].
    intros t' Ht'. change (tasks st !! c = Some t') in Ht'. simplify_eq. congruence.
  - by constructor; [|constructor].
Qed.

(** Tasks that stay the same are live as before. *)
Lemma same_live l l' i t' :
  Forall2 same_task l l' -> (forall t, l !! i = Some t -> ti_state t <> TASK_UNUSED) ->
  l' !! i = Some t' -> ti_state t' <> TASK_UNUSED.
Proof.
  intros Hf Hl Ht'. destruct (Forall2_lookup_r _ _ _ _ _ Hf Ht') as (t & Ht & _ & Hs).
  specialize (Hl t Ht). tauto.
Qed.

Lemma set_state_moved st pid s : procs_moved (sprocs st) (sprocs (task_set_state st pid s)).
Proof.
  unfold task_set_state. destruct (task_find_slot_by_pid st pid) as [slot|]; [|constructor].
  destruct (demote_kept slot st) as [_ Hm]. case_bool_decide; [by constructor|constructor].
Qed.

Lemma set_state_kept st pid s :
  sched_inv st -> s <> TASK_UNUSED -> (pid = 0 -> s <> TASK_ZOMBIE) ->
  table_kept st (task_set_state st pid s).
Proof.
  intros Hi Hs Hz. apply kept_moved; [done|by apply task_set_state_inv| |apply set_state_moved].
  unfold task_set_state. destruct (task_find_slot_by_pid st pid) as [slot|] eqn:Hf; [|done].
  destruct (find_task_inv _ _ _ Hf) as (t & Ht & Hl & _).
  destruct (demote_kept slot st) as [Hd Hm]. case_bool_decide.
  - etransitivity; [exact Hd|]. apply (put_state_same slot s (demote_current slot st)); [done|].
    intros t' Ht'. apply (same_live _ _ _ _ Hd) in Ht'; [done|]. intros t0 Ht0. congruence.
  - apply (put_state_same slot s st); [done|]. intros t' Ht'. congruence.
Qed.

Lemma return_moved st :
  Forall2 same_task (tasks st) (tasks (task_return_to_kernel_main st)) /\
  procs_moved (sprocs st) (sprocs (task_return_to_kernel_main st)).
Proof.
  unfold task_return_to_kernel_main. destruct (task_find_slot_by_pid st 0) as [slot|] eqn:Hf;
    [|by split; [|constructor]].
  destruct (find_task_inv _ _ _ Hf) as (t & Ht & Hl & _).
  destruct (demote_kept slot st) as [Hd Hm]. split.
  - etransitivity; [exact Hd|].
    etransitivity; [apply (put_state_same slot TASK_RUNNING (demote_current slot st)); [done|]|].
    + intros t' Ht'. apply (same_live _ _ _ _ Hd) in Ht'; [done|]. intros t0 Ht0. congruence.
    + by case_opt.
  - case_opt; [|done]. by constructor.
Qed.

Lemma return_kept st : sched_inv st -> table_kept st (task_return_to_kernel_main st).
Proof.
  intros Hi. destruct (return_moved st). apply kept_moved; [done|by apply return_to_kernel_inv|done|done].
Qed.

Lemma tick_kept st : sched_inv st -> table_kept st (scheduler_on_timer_tick st).
Proof.
  intros Hi. pose proof (tick_inv st Hi) as Hi'. revert Hi'.
  unfold scheduler_on_timer_tick. destruct (sv_current _ (proj1 Hi)) as (c & -> & t & Ht & Hl). rewrite Ht.
  set (st1 := if is_state TASK_RUNNING t then _ else st).
  assert (Forall2 same_task (tasks st) (tasks st1) /\ sprocs st1 = sprocs st) as [H1 Hps].
  { unfold st1. destruct (is_state TASK_RUNNING t); [|done]. split; [|done]. by apply alter_same_task. }
  assert (forall t', tasks st1 !! c = Some t' -> ti_state t' <> TASK_UNUSED) as Hl1.
  { intros t' Ht'. apply (same_live _ _ _ _ H1) in Ht'; [done|]. intros. congruence. }
  assert (sched_inv st1 -> table_kept st st1) as Hstop.
  { intros Hv. apply kept_moved; [done|done|done|]. rewrite Hps. constructor. }
  destruct (tasks_used st1 <=? 1); [done|]. destruct (slice_ticks st1 <? _); [done|].
  destruct (pick_next _ _ _ _) as [next|] eqn:Hp; [|done].
  destruct (pick_next_spec _ _ _ _ _ Hp) as (k & tn & _ & _ & Hn & Hs & _).
  intros Hv. apply kept_moved; [done|done| |].
  - etransitivity; [exact H1|]. etransitivity; [by apply (put_state_same c TASK_READY st1)|].
    apply (put_state_same next TASK_RUNNING (put_state c TASK_READY st1)); [done|].
    intros t' Ht'. destruct (decide (next = c)) as [-> |Hne].
    + unfold put_state in Ht'. cbn in Ht'. rewrite list_lookup_alter_eq in Ht'.
      destruct (tasks st1 !! c); [|done]. cbn in Ht'. by injection Ht' as <-.
    + unfold put_state in Ht'. cbn in Ht'. rewrite list_lookup_alter_ne in Ht' by done. congruence.
  - cbn. rewrite Hps. by do 2 (constructor; [done|]); constructor.
Qed.

(** ** Everything a program can reach *)

Section core.
Context `{Linker}.
Implicit Types (c : core).

(** The slots of the ELF loader that processes own stay theirs. *)
Record core_kept c c' : Prop := {
  kt_tables : table_kept (c_sched c) (c_sched c');
  kt_slots : slots_ok (c_elf c');
  kt_owners : forall i o, 0 <= o -> owners (c_elf c) !! i = Some o -> is_Some (image_of c o) ->
                owners (c_elf c') !! i = Some o
}.

Lemma kept_alive c c' q : core_kept c c' -> is_Some (image_of c q) -> is_Some (image_of c' q).
Proof.
  intros [Ht _ _] [i Hi]. pose proof (tk_images _ _ Ht q) as Hq. cbn in Hi. unfold c_procs in Hi.
  rewrite Hi in Hq. inversion Hq as [? j ? Hj|]; subst. by exists j.
Qed.

Lemma core_kept_trans c1 c2 c3 : core_kept c1 c2 -> core_kept c2 c3 -> core_kept c1 c3.
Proof.
  intros H1 H2. constructor.
  - by eapply table_kept_trans; [apply H1|apply H2].
  - apply H2.
  - intros i o Ho Hi Hs. apply H2; [done|by apply H1|by apply (kept_alive c1)].
Qed.

(** Only the tables move. *)
Lemma core_kept_tables c c' :
  slots_ok (c_elf c) -> c_elf c' = c_elf c -> table_kept (c_sched c) (c_sched c') -> core_kept c c'.
Proof. intros Hs He Ht. constructor; [done|by rewrite He|]. intros i o _. by rewrite He. Qed.

Lemma core_kept_refl c : sched_inv (c_sched c) -> slots_ok (c_elf c) -> core_kept c c.
Proof. intros Hi Hs. apply core_kept_tables; [done|done|by apply table_kept_refl]. Qed.

(** Only memory and the slots move. *)
Lemma core_kept_elf c es m :
  sched_inv (c_sched c) -> slots_ok es ->
  (forall i o, 0 <= o -> owners (c_elf c) !! i = Some o -> is_Some (image_of c o) -> owners es !! i = Some o) ->
  core_kept c (with_c_elf es m c).
Proof. intros Hi Hs Ho. constructor; [by apply table_kept_refl|done|done]. Qed.

Lemma slot_for_kept c pid es r :
  core_ok c -> 0 <= pid -> elf_slot_for_pid (c_procs c) (c_elf c) pid = (es, r) ->
  slots_ok es /\
  forall i o, 0 <= o -> owners (c_elf c) !! i = Some o -> is_Some (image_of c o) -> owners es !! i = Some o.
Proof.
  intros Hc Hp Hs. destruct (elf_slot_spec _ _ _ _ _ (ck_slots _ Hc) Hp Hs) as [Hok Hr].
  split; [done|]. intros i o Ho Hi Hl. destruct r as [j|].
  - destruct Hr as (-> & Hlt & Hown). destruct (decide (j = i)) as [-> |Hne]; [|by rewrite list_lookup_insert_ne].
    assert (o = pid) as ->; [|by apply list_lookup_insert_eq; eapply lookup_lt_Some].
    destruct Hown as [Hown|(o' & Ho' & Hdead)]; [congruence|]. rewrite Hi in Ho'. injection Ho' as <-.
    destruct Hdead as [?|Hdead]; [lia|]. exfalso.
    by apply (@image_live proc_st _ proc_st_laws (c_procs c) o (ck_procs _ Hc)) in Hl.
  - destruct Hr as [-> _]. done.
Qed.

Lemma write_task_kept c pid dst l c' b :
  core_ok c -> sched_inv (c_sched c) -> 0 <= pid -> write_task c pid dst l = (c', b) -> core_kept c c'.
Proof.
  intros Hc Hi Hp. cbn [write_task core_task_ops].
  destruct (elf_write_to_task_memory _ _ _ _ _ _ _) as [[es m] b'] eqn:E. intros [= <- <-].
  assert (es = c_elf c \/ exists r, elf_slot_for_pid (c_procs c) (c_elf c) pid = (es, r)) as Hes.
  { unfold elf_write_to_task_memory in E. destruct (_ || _); [left; by simplify_eq|].
    destruct (image_of (c_procs c) pid) as [i|]; [|left; by simplify_eq].
    destruct (negb (loaded i)); [left; by simplify_eq|].
    destruct (elf_slot_for_pid (c_procs c) (c_elf c) pid) as [es1 [slot|]]; right;
      [|by simplify_eq; eexists]. repeat split_if; simplify_eq; by eexists. }
  destruct Hes as [-> |[r Hr]].
  - apply core_kept_elf; [done|apply Hc|done].
  - destruct (slot_for_kept c pid es r Hc Hp Hr). by apply core_kept_elf.
Qed.

(** A process gets its image with other saved registers. *)
Lemma bind_kept st pid i j :
  sched_inv st -> proc_get_image (sprocs st) pid = Some i -> image_like i j ->
  table_kept st (with_procs (fst (proc_bind_image (sprocs st) pid j)) st).
Proof.
  intros Hi Him Hl. pose proof (sv_procs _ (proj1 Hi)) as Hp. constructor.
  - apply (sched_do_inv (SProc (PBind pid j)) st) in Hi; [|done]. cbn in Hi.
    by destruct (proc_bind_image (sprocs st) pid j).
  - done.
  - intros q. cbn [sprocs with_procs].
    assert (state_of (sprocs st) pid <> PROC_UNUSED) as Hlive.
    { apply (@image_live proc_st _ proc_st_laws (sprocs st) pid Hp). cbn. by eexists. }
    pose proof (@bind_image_of proc_st _ proc_st_laws (sprocs st) pid j q Hp Hlive) as Hq.
    cbn [image_of bind_image proc_st_ops] in Hq. rewrite Hq.
    destruct (decide (q = pid)) as [-> |]; [by rewrite Him; constructor|].
    cbn. by destruct (proc_get_image (sprocs st) q); constructor.
Qed.

Lemma proc_set_kept st pid s :
  sched_inv st -> s <> PROC_UNUSED -> table_kept st (with_procs (proc_set_state (sprocs st) pid s) st).
Proof.
  intros Hi Hs. apply kept_moved; [done|by apply put_proc_inv|done|]. constructor; [done|constructor].
Qed.

Lemma wake_kept c pid image :
  core_ok c -> sched_inv (c_sched c) -> image_of c pid = Some image -> core_kept c (wake c pid image).
Proof.
  intros Hc Hi Him. apply core_kept_tables; [apply Hc|..]; unfold wake;
    cbn [bind_image set_tstate set_pstate core_proc_ops core_task_ops];
    destruct (proc_bind_image (c_procs c) pid _) as [ps b] eqn:E; [done|].
  assert (table_kept (c_sched c) (with_procs ps (c_sched c))) as H1.
  { change ps with (fst (ps, b)). rewrite <- E. by apply (bind_kept _ _ image). }
  pose proof (set_state_kept _ pid TASK_READY (tk_inv _ _ H1) ltac:(done) ltac:(done)) as H2.
  eapply table_kept_trans; [exact H1|]. eapply table_kept_trans; [exact H2|].
  by apply proc_set_kept; [apply H2|].
Qed.

Lemma send_kept c q src dst msg c' q' b :
  core_ok c -> sched_inv (c_sched c) -> ipc_inv q -> ipc_send c q src dst msg = (c', q', b) -> core_kept c c'.
Proof.
  intros Hc Hi Hq. unfold ipc_send. pose proof (core_kept_refl c Hi (ck_slots _ Hc)) as Hrefl.
  destruct (dst <? 0) eqn:E0; zify_bool; cbn [orb]; [by intros [= <- _ _]|].
  case_bool_decide; [by intros [= <- _ _]|].
  assert (core_kept c (fst (fst (ipc_unblock_deliver c q dst (stamp src dst msg))))) as Hd.
  { unfold ipc_unblock_deliver. rewrite (proj2 (Z.ltb_ge dst 0)) by done.
    destruct (ipc_find_waiter q dst) as [slot|] eqn:Ef; [|done]. case_bool_decide; [done|].
    destruct (find_waiter_entry _ _ _ Ef) as (w & Hw & _). rewrite Hw. cbn [from_option].
    destruct (write_task c dst _ _) as [c1 wr] eqn:Ew.
    pose proof (write_task_kept _ _ _ _ _ _ Hc Hi E0 Ew) as Hk1.
    destruct wr; cbn [negb fst]; [|done].
    destruct (image_of c1 dst) as [i|] eqn:Ei; [|done]. destruct (_ || _); [done|]. cbn [fst].
    eapply core_kept_trans; [exact Hk1|]. apply wake_kept; [|apply Hk1|done].
    apply (core_write_ok c dst (user_msg_ptr w) (msg_bytes (stamp src dst msg)) c1 true Hc E0); [|unfold msg_bytes; rewrite words_bytes_length; cbn; lia|apply words_bytes_byte|exact Ew].
    apply (Forall_lookup_1 _ _ _ _ (iv_ptrs _ Hq) Hw). }
  destruct (ipc_unblock_deliver _ _ _ _) as [[c1 q1] d]. cbn [fst] in Hd.
  destruct d; [by intros [= <- _ _]|].
  destruct (match ipc_find_slot q1 dst with Some slot => _ | None => _ end) as [q2 [slot|]];
    [destruct (from_option _ _ _)|]; by intros [= <- _ _].
Qed.

Lemma image_ok_like i j : image_ok user_stacks i -> image_like i j -> image_ok user_stacks j.
Proof.
  intros [] [Hl He Hb Hs Hst Hss _ _]. constructor; by rewrite ?Hl, ?Hb, ?Hs, ?Hst, ?Hss.
Qed.

Lemma core_ok_kept c c' : core_ok c -> core_kept c c' -> core_ok c'.
Proof.
  intros Hc [Ht Hs _]. constructor; [apply (tk_inv _ _ Ht)|done|].
  intros q j Hj Hld. pose proof (tk_images _ _ Ht q) as Hq. unfold c_procs in Hj.
  rewrite Hj in Hq. inversion Hq as [i ? Hl Hi Heq|]; subst.
  apply (image_ok_like i); [|done]. apply (ck_images _ Hc q); [done|]. by rewrite <- (il_loaded _ _ Hl).
Qed.

Lemma kept_image c c' q i :
  core_kept c c' -> proc_get_image (c_procs c) q = Some i ->
  exists j, proc_get_image (c_procs c') q = Some j /\ image_like i j.
Proof.
  intros [Ht _ _] Hi. pose proof (tk_images _ _ Ht q) as Hq. unfold c_procs in *.
  rewrite Hi in Hq. inversion Hq as [? j ? Heq|]; subst. by exists j.
Qed.

End core.

(** ** The states a program is left in *)

Definition task_state_of (st : sched) (pid : Z) : option task_state :=
  slot ← task_find_slot_by_pid st pid; ti_state <$> tasks st !! slot.

Lemma find_same st st' pid :
  Forall2 same_task (tasks st) (tasks st') -> task_find_slot_by_pid st' pid = task_find_slot_by_pid st pid.
Proof.
  unfold task_find_slot_by_pid. induction 1 as [|t t' l l' [Hp Hs] _ IH]; [done|]. cbn [first_slot].
  assert (is_state TASK_UNUSED t' = is_state TASK_UNUSED t) as ->.
  { destruct (is_state TASK_UNUSED t) eqn:E; [apply is_state_true; apply is_state_true in E; tauto|].
    apply is_state_false. apply is_state_false in E. tauto. }
  rewrite Hp, IH. done.
Qed.

Lemma proc_set_state_other ps pid s q :
  proc_inv ps -> s <> PROC_UNUSED -> q <> pid -> proc_state_of (proc_set_state ps pid s) q = proc_state_of ps q.
Proof.
  intros Hi Hs Hq. destruct (decide (proc_state_of ps pid = PROC_UNUSED)) as [Hd|Hl].
  - unfold proc_set_state. destruct (find_slot_by_pid ps pid) as [slot|] eqn:Hf; [|done].
    exfalso. apply (proj1 (find_slot_live ps pid)); [by rewrite Hf|done].
  - pose proof (@set_state proc_st _ proc_st_laws ps pid s q Hi Hs Hl) as He. cbn in He.
    by rewrite He, decide_False.
Qed.

(** Demoting the current task leaves the tasks that do not run alone. *)
Lemma demote_other slot st i t :
  sched_inv st -> tasks st !! i = Some t -> ti_state t <> TASK_RUNNING -> ti_state t <> TASK_UNUSED ->
  tasks (demote_current slot st) !! i = Some t /\
  proc_state_of (sprocs (demote_current slot st)) (ti_pid t) = proc_state_of (sprocs st) (ti_pid t).
Proof.
  intros Hi Ht Hr Hl. unfold demote_current. destruct (current_index st) as [c|]; [|done].
  destruct (tasks st !! c) as [u|] eqn:Eu; [|done]. destruct (_ && _) eqn:E; [|done].
  apply andb_true_iff in E as [_ Hru%is_state_true].
  assert (i <> c) as Hne by (intros ->; congruence). split.
  - unfold put_state. cbn. by rewrite list_lookup_alter_ne.
  - cbn [sprocs put_state with_tasks put_proc with_procs].
    apply proc_set_state_other; [apply (proj1 Hi)|done|]. intros Hpid. apply Hne.
    apply (sv_uniq _ (proj1 Hi) i c t u Ht Eu); [by apply live_task|apply live_task; congruence|done].
Qed.

(** The task that is put to rest keeps the state it is given, whoever was
    current, and the kernel's own task runs. *)
Lemma settle_states st pid ts ps :
  sched_inv st -> 0 < pid -> is_Some (task_find_slot_by_pid st pid) ->
  proc_state_of (sprocs st) pid <> PROC_UNUSED ->
  ts <> TASK_UNUSED -> ts <> TASK_RUNNING -> ps <> PROC_UNUSED ->
  let st1 := task_set_state st pid ts in
  let st' := task_return_to_kernel_main (with_procs (proc_set_state (sprocs st1) pid ps) st1) in
  task_state_of st' pid = Some ts /\ proc_state_of (sprocs st') pid = ps /\ task_current_pid st' = 0.
Proof.
  intros Hi Hp [slot Hf] Hlive Hts Hrun Hps st1.
  destruct (find_task_inv _ _ _ Hf) as (t & Ht & Hl & Htp).
  assert (st1 = put_state slot ts st) as Hst1.
  { unfold st1, task_set_state. rewrite Hf. by rewrite !bool_decide_false. }
  pose proof (set_state_kept st pid ts Hi Hts ltac:(lia)) as Hk1. fold st1 in Hk1.
  set (st2 := with_procs (proc_set_state (sprocs st1) pid ps) st1).
  assert (table_kept st1 st2) as Hk2 by (by apply proc_set_kept; [apply Hk1|]).
  cbv zeta. set (st3 := task_return_to_kernel_main st2).
  assert (table_kept st2 st3) as Hk3 by (apply return_kept, Hk2).
  assert (tasks st2 !! slot = Some (set_ti_state ts t)) as Ht2.
  { unfold st2. cbn. rewrite Hst1. unfold put_state. cbn. by rewrite list_lookup_alter_eq, Ht. }
  assert (proc_state_of (sprocs st2) pid = ps) as Hps2.
  { unfold st2. cbn [sprocs with_procs]. rewrite Hst1. cbn [sprocs put_state with_tasks].
    pose proof (@set_state proc_st _ proc_st_laws (sprocs st) pid ps pid (sv_procs _ (proj1 Hi)) Hps Hlive) as He.
    cbn in He. by rewrite He, decide_True. }
  assert (slot <> 0%nat) as Hs0.
  { intros ->. destruct (sv_kernel _ (proj1 Hi)) as (k0 & Hk0 & Hz & _). simplify_eq. lia. }
  destruct (demote_other 0 st2 slot _ (tk_inv _ _ Hk2) Ht2 Hrun Hts) as [Hd Hpd].
  change (ti_pid (set_ti_state ts t)) with (ti_pid t) in Hpd. rewrite Htp in Hpd.
  assert (tasks st3 !! slot = Some (set_ti_state ts t) /\ proc_state_of (sprocs st3) pid = ps /\
          task_current_pid st3 = 0) as (Ht3 & Hp3 & Hc3).
  { destruct (sv_kernel _ (proj1 (tk_inv _ _ Hk2))) as (k0 & Hk0 & Hz & Hlk & _).
    destruct (demote_kept 0 st2) as [Hdt Hdm].
    destruct (Forall2_lookup_l _ _ _ _ _ Hdt Hk0) as (k1 & Hk1' & Hz1 & _).
    destruct (moved_images _ _ 0 (sv_procs _ (proj1 (tk_inv _ _ Hk2))) Hdm) as [Hpi _].
    unfold st3, task_return_to_kernel_main. rewrite (find_kernel st2) by apply Hk2.
    cbn [tasks put_state with_tasks with_current]. rewrite list_lookup_alter_eq, Hk1'.
    cbn [fmap option_map option_fmap tasks sprocs put_state with_tasks with_current put_proc with_procs with_slice
      current_index ti_pid set_ti_state task_current_pid].
    rewrite list_lookup_alter_ne, list_lookup_alter_eq, Hk1' by done. cbn.
    split_and!; [done| |congruence]. rewrite proc_set_state_other; [congruence|done|done|lia]. }
  split_and!; [|done|done].
  unfold task_state_of. rewrite (find_same st2 st3 pid) by apply Hk3.
  rewrite (find_same st1 st2 pid) by apply Hk2. rewrite (find_same st st1 pid) by apply Hk1.
  rewrite Hf. cbn. by rewrite Ht3.
Qed.

(** Putting a task to rest changes no image. *)
Lemma settle_images st pid ts ps q :
  sched_inv st -> 0 < pid -> ts <> TASK_UNUSED -> ts <> TASK_RUNNING -> ps <> PROC_UNUSED ->
  let st1 := task_set_state st pid ts in
  proc_get_image (sprocs (task_return_to_kernel_main (with_procs (proc_set_state (sprocs st1) pid ps) st1))) q =
  proc_get_image (sprocs st) q.
Proof.
  intros Hi Hp Hts Hrun Hps st1. set (st2 := with_procs (proc_set_state (sprocs st1) pid ps) st1).
  assert (sprocs st1 = sprocs st) as Hs1.
  { unfold st1, task_set_state. destruct (task_find_slot_by_pid st pid); [|done]. by rewrite !bool_decide_false. }
  assert (table_kept st1 st2) as Hk2.
  { apply proc_set_kept; [|done]. by apply set_state_kept; [| |lia]. }
  destruct (moved_images _ _ q (sv_procs _ (proj1 (tk_inv _ _ Hk2))) (proj2 (return_moved st2))) as [_ ->].
  unfold st2. cbn [sprocs with_procs]. rewrite Hs1.
  exact (@set_image proc_st _ proc_st_laws (sprocs st) pid ps q (sv_procs _ (proj1 Hi)) Hps).
Qed.

(** ** The end of a process *)

Lemma first_slot_put {A} (f : A -> bool) (l : list A) i x y :
  l !! i = Some x -> f x = f y -> first_slot f (<[i := y]> l) = first_slot f l.
Proof.
  revert i. induction l as [|z l IH]; intros [|i] Hi Hf; simplify_eq/=; [by rewrite Hf|].
  by rewrite (IH i).
Qed.

Lemma end_process ps pid code :
  proc_inv ps ->
  let ps' := fst (proc_reap_pid (fst (proc_exit ps pid code)) pid) in
  proc_inv ps' /\ next_pid ps' = next_pid ps /\ proc_get_image ps' pid = None /\
  (forall q, q <> pid -> proc_get_image ps' q = proc_get_image ps q /\ proc_state_of ps' q = proc_state_of ps q).
Proof.
  intros Hi. destruct (find_slot_by_pid ps pid) as [slot|] eqn:Hf.
  2:{ unfold proc_exit. rewrite Hf. cbn [fst]. unfold proc_reap_pid. rewrite Hf. cbn [fst].
      split_and!; [done|done| |done]. unfold proc_get_image. by rewrite Hf. }
  destruct (find_slot_inv _ _ _ Hf) as (p & Hp & Hl & Hpid & _).
  set (z := set_exit_code code (set_pi_state PROC_ZOMBIE p)).
  set (ps1 := {| procs := <[slot := z]> (procs ps); images := images ps; used := used ps; next_pid := next_pid ps |}).
  assert (fst (proc_exit ps pid code) = ps1) as ->.
  { unfold proc_exit. rewrite Hf. cbn [fst]. by rewrite (alter_known _ _ _ _ Hp). }
  assert (proc_inv ps1) as Hi1.
  { destruct (proc_exit ps pid code) as [ps0 b] eqn:E.
    destruct (proc_do_refines (PExit pid code) ps ps0 (RBool b) Hi I) as [Hi0 _]; [cbn; by rewrite E|].
    unfold proc_exit in E. rewrite Hf, (alter_known _ _ _ _ Hp) in E. by injection E as <- _. }
  assert (forall q, find_slot_by_pid ps1 q = find_slot_by_pid ps q) as Hf1.
  { intros q. by apply (find_slot_put _ _ _ _ _ p). }
  assert (procs ps1 !! slot = Some z) as Hz.
  { apply list_lookup_insert_eq. by eapply lookup_lt_Some. }
  assert (fst (proc_reap_pid ps1 pid) = proc_recycle ps1 slot) as ->.
  { unfold proc_reap_pid. rewrite Hf1, Hf, Hz. by rewrite bool_decide_true. }
  destruct (proc_recycle_spec ps1 slot z Hi1 Hz ltac:(done)) as [Hi2 Hm2].
  assert (forall q, q <> pid -> find_slot_by_pid (proc_recycle ps1 slot) q = find_slot_by_pid ps q) as Hf2.
  { intros q Hq. rewrite <- Hf1. unfold find_slot_by_pid, proc_recycle. cbn [procs].
    rewrite (alter_known _ _ _ _ Hz). apply (first_slot_put _ _ _ z); [done|].
    cbn. rewrite Hpid. by rewrite (proj2 (Z.eqb_neq pid q)) by congruence. }
  assert (forall q s, q <> pid -> find_slot_by_pid ps q = Some s -> s <> slot) as Hne.
  { intros q s Hq Hs ->. apply Hq. symmetry. by apply (find_slot_inj ps pid q slot). }
  split_and!; [done|done| |].
  - unfold proc_get_image. rewrite (proj2 (find_slot_none (proc_recycle ps1 slot) pid)); [done|].
    rewrite Hm2. change (pi_pid z) with (pi_pid p). rewrite Hpid. apply lookup_delete_eq.
  - intros q Hq. unfold proc_get_image, proc_state_of. rewrite (Hf2 q Hq).
    destruct (find_slot_by_pid ps q) as [s|] eqn:Hs; [|done]. pose proof (Hne q s Hq Hs) as Hsne.
    unfold proc_recycle. cbn [procs images mbind option_bind].
    rewrite list_lookup_insert_ne by congruence. rewrite (alter_known _ _ _ _ Hz). cbn [ps1 procs images].
    by rewrite !list_lookup_insert_ne by congruence.
Qed.

(** ** The start of a process *)

Lemma spawn_process ps name ppid ps' pid :
  proc_inv ps -> next_pid ps < INT_MAX -> proc_spawn_kernel ps name ppid = (ps', pid) ->
  proc_inv ps' /\
  (pid < 0 /\ ps' = ps \/
   pid = next_pid ps /\ next_pid ps' = pid + 1 /\ proc_get_image ps' pid = Some image_reset /\
   proc_get_image ps pid = None /\
   forall q, q <> pid -> proc_get_image ps' q = proc_get_image ps q /\ proc_state_of ps' q = proc_state_of ps q).
Proof.
  intros Hi Hn Hsp. destruct (proc_spawn_inv _ _ _ _ _ Hi Hn Hsp) as (Hi' & _ & Hpid).
  split; [done|]. unfold proc_spawn_kernel in Hsp.
  destruct (alloc_slot ps) as [slot|] eqn:Ha; [|injection Hsp as <- <-; by left].
  destruct (alloc_slot_inv _ _ Ha) as (p & Hp & Hl). pose proof (pv_next _ Hi) as Hnx.
  destruct Hpid as [Hneg|[Hpid Hnext]]; [injection Hsp as _ <-; lia|]. right.
  rewrite (alter_known _ _ _ _ Hp) in Hsp.
  set (y := {| pi_pid := next_pid ps; pi_ppid := ppid; pi_state := PROC_READY; exit_code := 0;
               pi_name := str_copy (pi_name p) (default (lit "kproc") name) 16 |}) in *.
  injection Hsp as Hps' _. pose proof (lookup_lt_Some _ _ _ Hp) as Hlt.
  assert (find_slot_by_pid ps' pid = Some slot) as Hf.
  { rewrite find_slot_hit. apply (find_Some _ _ _ y); [apply Hi'|subst ps'; by apply list_lookup_insert_eq|done|done]. }
  assert (find_slot_by_pid ps pid = None) as Hf0.
  { rewrite find_slot_hit. apply find_None. intros i u Hu Hlu. pose proof (pv_pids _ Hi i u Hu Hlu). cbn. lia. }
  assert (forall q, q <> pid -> find_slot_by_pid ps' q = find_slot_by_pid ps q) as Hf2.
  { intros q Hq. subst ps'. unfold find_slot_by_pid. cbn [procs]. apply (first_slot_put _ _ _ p); [done|].
    cbn in Hl |- *. apply negb_false_iff in Hl. rewrite Hl. cbn.
    by rewrite (proj2 (Z.eqb_neq (next_pid ps) q)) by congruence. }
  assert (forall q s, find_slot_by_pid ps q = Some s -> s <> slot) as Hne.
  { intros q s Hs ->. destruct (find_slot_inv _ _ _ Hs) as (u & Hu & Hlu & _). simplify_eq. congruence. }
  split_and!; [done|done| | |].
  - unfold proc_get_image. rewrite Hf. subst ps'. cbn. apply list_lookup_insert_eq.
    rewrite (pv_images _ Hi). rewrite <- (pv_procs _ Hi). done.
  - unfold proc_get_image. by rewrite Hf0.
  - intros q Hq. unfold proc_get_image, proc_state_of. rewrite (Hf2 q Hq).
    destruct (find_slot_by_pid ps q) as [s|] eqn:Hs; [|done]. pose proof (Hne q s Hs).
    subst ps'. cbn. by rewrite !list_lookup_insert_ne.
Qed.

(** [task_spawn] makes a READY task for the process it makes. *)
Lemma spawn_task dflt st name ppid st' pid :
  sched_inv st -> next_pid (sprocs st) < INT_MAX -> task_spawn dflt st name ppid = (st', pid) ->
  sched_inv st' /\ proc_inv (sprocs st') /\
  (pid < 0 /\ sprocs st' = sprocs st \/
   pid = next_pid (sprocs st) /\ is_Some (task_find_slot_by_pid st' pid) /\
   exists name', proc_spawn_kernel (sprocs st) name' ppid = (sprocs st', pid)).
Proof.
  intros Hi Hn Hsp. pose proof (task_spawn_inv dflt st name ppid Hi Hn) as Hi'. rewrite Hsp in Hi'. cbn [fst] in Hi'.
  split; [done|]. split; [apply Hi'|]. unfold task_spawn in Hsp.
  destruct (task_alloc_slot st) as [slot|] eqn:Ha; [|injection Hsp as <- <-; by left].
  destruct (task_alloc_inv _ _ Ha) as (t & Ht & _).
  destruct (proc_spawn_kernel (sprocs st) name ppid) as [ps p] eqn:Ep.
  destruct (spawn_process _ _ _ _ _ (sv_procs _ (proj1 Hi)) Hn Ep) as [_ Hcase].
  destruct (p <? 0) eqn:E0; zify_bool.
  { injection Hsp as <- <-. left. split; [done|]. destruct Hcase as [[_ ->]|(? & _)]; [done|].
    pose proof (pv_next _ (sv_procs _ (proj1 Hi))). lia. }
  destruct Hcase as [[? _]|(Hp & _)]; [lia|]. right. injection Hsp as <- <-.
  split; [done|]. split; [|by exists name]. exists slot.
  match goal with |- task_find_slot_by_pid ?st _ = _ => change (first_slot (hit p) (tasks st) = Some slot) end.
  apply (find_Some _ _ _ {| ti_pid := p; ti_ppid := ppid; ti_state := TASK_READY; runtime_ticks := 0;
           ti_name := str_copy (ti_name t) (default dflt name) 16 |}); [apply Hi'| |done|done].
  cbn. by rewrite list_lookup_alter_eq, Ht.
Qed.

(** [task_reap_pid] takes the task out of the table. *)
Lemma task_reap_spec st pid :
  sched_inv st -> 0 < pid ->
  procs_moved (sprocs st) (sprocs (fst (task_reap_pid st pid))) /\
  task_find_slot_by_pid (fst (task_reap_pid st pid)) pid = None.
Proof.
  intros Hi Hp. pose proof (task_reap_inv st pid Hi Hp) as Hi'. revert Hi'. unfold task_reap_pid.
  destruct (task_find_slot_by_pid st pid) as [slot|] eqn:Hf; [|by split; [constructor|]].
  destruct (find_task_inv _ _ _ Hf) as (t & Ht & Hl & Htp).
  set (st1 := with_tasks _ st). set (st2 := if 0 <? tasks_used st1 then _ else st1).
  assert (tasks st2 = <[slot := task_reset t]> (tasks st) /\ sprocs st2 = sprocs st) as [Ht2 Hp2].
  { unfold st2, st1. rewrite (alter_known _ _ _ _ Ht). by split_if. }
  assert (forall st3, Forall2 same_task (tasks st2) (tasks st3) -> task_find_slot_by_pid st3 pid = None) as Hnone.
  { intros st3 Hst3. rewrite (find_same st2 st3 pid Hst3).
    change (first_slot (hit pid) (tasks st2) = None). rewrite Ht2. apply find_None.
    intros i u Hu Hlu Hku. apply list_lookup_insert_Some in Hu as [(<- & <- & _)|[Hne Hu]].
    - cbn in Hlu. unfold is_state in Hlu. by rewrite bool_decide_true in Hlu.
    - apply Hne. symmetry. apply (sv_uniq _ (proj1 Hi) i slot u t Hu Ht Hlu); [by apply live_task|].
      cbn in Hku |- *. congruence. }
  case_bool_decide; cbn [fst]; intros Hi'.
  2:{ rewrite Hp2. split; [constructor|by apply Hnone]. }
  destruct (return_moved st2) as [Hrt Hrm]. split; [by rewrite <- Hp2|by apply Hnone].
Qed.
