(* ===== verification/User.v ===== *)
(** * User: programs in ring 3

    What happens between [enter_user_mode] or [resume_user_mode] and the return
    to the kernel: the running program stores into its memory, timer interrupts
    come, and it makes system calls through the stub of
    [src/kernel/arch/i386/syscall_stubs.asm], some of which end its run.

    The code of a program is not part of the kernel.  [Programs] stands for it:
    given where a run starts and the state of the machine, the events of that
    run, in order.  Nothing protects the memory of the kernel from a program;
    the model follows programs that store only into their own image and stack,
    and has no result for the others. *)
From S2P Require Import Prelude KernelH Util Memory Heap Proc Sched Iface Service Elf Core Ipc Vfs VfsTree Syscall FdTable Kernel Files Keep.
Local Open Scope Z_scope.
Local Open Scope slop_scope.

(** What a program does, and what interrupts it. *)
Inductive user_event :=
  (** it stores bytes at an address *)
  | UStore (a : Z) (bytes : list Z)
  (** it executes [int 0x80]; the 13 words the processor and [pushad] push *)
  | UCall (frame : list Z)
  (** the timer interrupts it *)
  | UTick.

(** Where a run starts: [enter_user_mode(entry, user_sp)], or
    [resume_user_mode(context)]. *)
Inductive user_start :=
  | Enter (entry user_sp : Z)
  | Resume (ctx : user_context).

Definition with_ring (b : bool) (pid : Z) (k : kernel) : kernel := {|
  k_core := k_core k; k_ipc := k_ipc k; k_services := k_services k; k_nodes := k_nodes k;
  k_root := k_root k; k_heap := k_heap k; fd_table := fd_table k; user_cwd := user_cwd k;
  user_boot_mbi := user_boot_mbi k; user_boot_magic := user_boot_magic k;
  ring3_active := b; ring3_current_pid := pid; k_keys := k_keys k; k_out := k_out k |}.

Class Programs := { program : user_start -> kernel -> list user_event }.

(** Registers and addresses have 32 bits, a stored unit is a byte. *)
Definition event_ok (e : user_event) : Prop :=
  match e with
  | UStore a bytes => is_u32 a /\ Z.of_nat (length bytes) < 4294967296 /\ all_bytes bytes
  | UCall frame => length frame = 13%nat /\ Forall is_u32 frame
  | UTick => True
  end.

Class ProgramsLaws `{Programs} := { program_ok start k : Forall event_ok (program start k) }.

Section user.
Context `{Linker} `{MountFs}.

(** How the stub ends: back to the program with a result in eax, or back to
    the kernel with an exit code and a [ring3_stop_reason]. *)
Inductive stub_result :=
  | Back (k : kernel) (eax : Z)
  | Stop (k : kernel) (code reason : Z).

(** The label [.return_to_kernel]. *)
Definition return_to_kernel (k : kernel) : kernel := with_ring false 0 k.

(** [syscall_stub] entered from ring 3: the number is in eax, the arguments in
    ebx, ecx and edx.  [None] when the call does not return. *)
Definition syscall_stub (k : kernel) (frame : list Z) : option stub_result :=
  let reg i := nth i frame 0 in
  let num := reg 7%nat in
  if num =? 60 then Some (Stop (return_to_kernel k) (s32 (reg 4%nat)) 0)
  else if num =? 240 then Some (Stop (return_to_kernel k) 0 2)
  else if num =? 248
  then Some (Stop (return_to_kernel (syscall_save_yield_context k (Some frame))) 0 1)
  else
    '(k, r) ← syscall_entry k num (reg 4%nat) (reg 6%nat) (reg 5%nat);
    if r =? ERR_BLOCKED
    then Some (Stop (return_to_kernel (syscall_save_yield_context k (Some frame))) 0 3)
    else Some (Back k r).

Definition timer_tick (k : kernel) : kernel :=
  with_core (with_c_sched (scheduler_on_timer_tick (c_sched (k_core k))) (k_core k)) k.

(** A run of a program up to its return to the kernel: the state, the exit code
    and the stop reason.  [None] when it does not return. *)
Fixpoint user_run (evs : list user_event) (k : kernel) : option (kernel * Z * Z) :=
  match evs with
  | [] => None
  | UStore a bytes :: evs =>
      if validate_user_ptr k a (Z.of_nat (length bytes))
      then user_run evs (with_mem (store_bytes (k_mem k) a bytes) k) else None
  | UTick :: evs => user_run evs (timer_tick k)
  | UCall frame :: evs =>
      match syscall_stub k frame with
      | Some (Back k _) => user_run evs k
      | Some (Stop k code reason) => Some (k, code, reason)
      | None => None
      end
  end.

Context `{Programs}.

(** [ring3_current_pid = pid; rc = enter_user_mode(...); ring3_current_pid = 0],
    or the same with [resume_user_mode]. *)
Definition run_ring3 (start : user_start) (pid : Z) (k : kernel) : option (kernel * Z * Z) :=
  let k := with_ring true (u32 pid) k in
  '(k, rc, reason) ← user_run (program start k) k;
  Some (with_ring (ring3_active k) 0 k, rc, reason).

(** [elf_execute_image] and [elf_resume_image]: the exit code and the stop
    reason, or [None] when they return 0. *)
Definition elf_execute_image (k : kernel) (image : proc_image) (pid argc : Z)
    (argv : list (option (list Z))) (target : console_target) : option (kernel * option (Z * Z)) :=
  match elf_execute_prepare (k_mem k) image pid argc argv with
  | (m, inl e) => Some (print target e (with_mem m k), None)
  | (m, inr (entry, user_sp)) =>
      '(k, rc, reason) ← run_ring3 (Enter entry user_sp) pid (with_mem m k);
      Some (k, Some (rc, reason))
  end.

Definition elf_resume_image (k : kernel) (image : proc_image) (pid : Z) (target : console_target)
    : option (kernel * option (Z * Z)) :=
  match elf_resume_prepare user_images (c_procs (k_core k)) (c_elf (k_core k)) (k_mem k) image pid with
  | (es, m, inl e) => Some (print target e (with_core (with_c_elf es m (k_core k)) k), None)
  | (es, m, inr ctx) =>
      '(k, rc, reason) ← run_ring3 (Resume ctx) pid (with_core (with_c_elf es m (k_core k)) k);
      Some (k, Some (rc, reason))
  end.

End user.

(** ** What a run keeps *)

(** The invariant of the whole kernel. *)
Record os_inv `{Linker} (k : kernel) : Prop := {
  oi_kernel : kernel_inv k;
  oi_sched : sched_inv (c_sched (k_core k));
  oi_cwds : forall pid i, proc_get_image (c_procs (k_core k)) pid = Some i ->
              img_cwd i = 0 \/ is_dir_node (vfs_of k) (img_cwd i);
  oi_slots : forall pid i, proc_get_image (c_procs (k_core k)) pid = Some i -> loaded i = true ->
               exists slot, owners (c_elf (k_core k)) !! slot = Some pid
}.

Section kept.
Context `{Linker} `{MountFs} `{!MountFsLaws}.

(** The calls that touch neither the tables of tasks and processes nor the
    slots of the loader. *)
Definition same_tables (k k' : kernel) : Prop :=
  c_sched (k_core k') = c_sched (k_core k) /\ c_elf (k_core k') = c_elf (k_core k).

Lemma open_tables k path fl : same_tables k (fst (ksys_open k path fl)).
Proof using. unfold ksys_open. repeat case_match; by split. Qed.

Lemma write_tables k fd buf len : same_tables k (fst (ksys_write k fd buf len)).
Proof using. unfold ksys_write. repeat case_match; by split. Qed.

Lemma close_tables k fd : same_tables k (fst (ksys_close k fd)).
Proof using. unfold ksys_close. repeat case_match; by split. Qed.

Lemma read_tables k fd buf len k' r : ksys_read k fd buf len = Some (k', r) -> same_tables k k'.
Proof using.
  unfold ksys_read. intros Hr. repeat case_match; simplify_eq/=; try by split.
  all: destruct (read_keys _ _ _ _ _) as [[[? ?] ?]|]; simplify_eq/=; by split.
Qed.

Lemma recv_tables k msg : same_tables k (fst (ksys_ipc_recv k msg)).
Proof using. unfold ksys_ipc_recv. repeat case_match; by split. Qed.

Lemma syscall_kept k num a1 a2 a3 k' r :
  os_inv k -> num <> 60 -> syscall_entry k num a1 a2 a3 = Some (k', r) ->
  core_kept (k_core k) (k_core k').
Proof using.
  intros [Hk Hs _ _] Hnum Hcall.
  assert (forall k', same_tables k k' -> core_kept (k_core k) (k_core k')) as Hsame.
  { intros k1 [Hsc Hel]. apply core_kept_tables; [apply Hk|done|]. rewrite Hsc. by apply table_kept_refl. }
  assert (forall msg, core_kept (k_core k) (k_core (fst (ksys_ipc_send k msg)))) as Hsend.
  { intros msg. unfold ksys_ipc_send. case_match; [by apply Hsame|].
    destruct (ipc_send _ _ _ _ _) as [[c q] ok] eqn:E. by eapply send_kept; [apply Hk|done|apply Hk|]. }
  unfold syscall_entry in Hcall. destruct (num =? 0); [by eapply Hsame, read_tables|].
  injection Hcall as Hcall. apply (f_equal fst) in Hcall. cbn [fst] in Hcall. subst k'.
  rewrite (proj2 (Z.eqb_neq num 60) Hnum).
  destruct (num =? 1); [apply Hsame, write_tables|].
  destruct (num =? 2); [apply Hsame, open_tables|].
  destruct (num =? 3); [apply Hsame, close_tables|].
  destruct (num =? 20); [by apply Hsame|].
  destruct (num =? 83); [apply Hsame; unfold ksys_mkdir; repeat case_match; by split|].
  destruct (num =? 183); [apply Hsame; unfold ksys_getcwd; repeat case_match; by split|].
  destruct (num =? 241); [apply Hsame; unfold ksys_list; repeat case_match; by split|].
  destruct (num =? 242); [apply Hsame; unfold ksys_systeminfo; repeat case_match; by split|].
  destruct (num =? 243); [by apply Hsame|].
  destruct (num =? 244); [apply Hsame; unfold ksys_meminfo; repeat case_match; by split|].
  destruct (num =? 245); [apply Hsend|].
  destruct (num =? 246); [apply Hsame, recv_tables|].
  destruct (num =? 247); [apply Hsend|].
  destruct (num =? 248); [by apply Hsame|].
  destruct (num =? 249); [apply Hsame; unfold ksys_service_register; repeat case_match; by split|].
  destruct (num =? 250); [apply Hsame; unfold ksys_service_lookup; repeat case_match; by split|].
  destruct (num =? 251); [apply Hsame; unfold ksys_stat; repeat case_match; by split|].
  destruct (num =? 252); [apply Hsame; unfold ksys_fstat; repeat case_match; by split|].
  by destruct (num =? 240); apply Hsame.
Qed.

Lemma os_inv_step k k' :
  os_inv k -> kernel_inv k' -> core_kept (k_core k) (k_core k') -> grows (vfs_of k) (vfs_of k') -> os_inv k'.
Proof using.
  intros Hi Hk Hc Hg.
  assert (forall pid j, proc_get_image (c_procs (k_core k')) pid = Some j -> exists i,
    proc_get_image (c_procs (k_core k)) pid = Some i /\ image_like i j) as Hback.
  { intros pid j Hj. pose proof (tk_images _ _ (kt_tables _ _ Hc) pid) as Hq. unfold c_procs in *. rewrite Hj in Hq.
    inversion Hq as [i ? Hl Heq|]; subst. by exists i. }
  constructor; [done|apply Hc|intros pid j (i & Hi' & Hl)%Hback|intros pid j (i & Hi' & Hl)%Hback Hld].
  - rewrite (il_cwd _ _ Hl).
    destruct (oi_cwds _ Hi pid i) as [?|?]; [done|by left|right]. by apply (grows_dir (vfs_of k)).
  - rewrite (il_loaded _ _ Hl) in Hld. destruct (oi_slots _ Hi pid i Hi' Hld) as [slot Hs]. exists slot.
    apply Hc; [|done|cbn; by eexists].
    by apply (image_pid _ _ _ (ck_procs _ (ki_core _ (oi_kernel _ Hi))) Hi').
Qed.

(** What is left of the rest of the kernel after a run of the program [pid]. *)
Record run_kept (pid : Z) (k k' : kernel) : Prop := {
  rk_inv : os_inv k';
  rk_core : core_kept (k_core k) (k_core k');
  rk_fds : forall i e, fd_table k !! i = Some e -> fd_used e = true -> fd_pid e <> pid ->
             fd_table k' !! i = Some e;
  rk_heap : heap_ext (k_heap k) (k_heap k');
  rk_tree : grows (vfs_of k) (vfs_of k')
}.

Lemma run_kept_trans pid k1 k2 k3 : run_kept pid k1 k2 -> run_kept pid k2 k3 -> run_kept pid k1 k3.
Proof using.
  intros [_ Hc1 Hf1 Hh1 Ht1] [Hi2 Hc2 Hf2 Hh2 Ht2]. constructor; [done| | | |].
  - by eapply core_kept_trans.
  - intros i e He Hu Hne. apply Hf2; [by apply Hf1|done|done].
  - by etransitivity.
  - by eapply grows_trans.
Qed.

(** Changes of the tables only. *)
Lemma tables_kept pid k c :
  os_inv k -> core_kept (k_core k) c -> c_mem c = k_mem k -> run_kept pid k (with_core c k).
Proof using.
  intros Hi Hc Hm. assert (vfs_of (with_core c k) = vfs_of k) as Hv.
  { unfold vfs_of. f_equal. exact Hm. }
  assert (grows (vfs_of k) (vfs_of (with_core c k))) as Hg by (rewrite Hv; apply grows_refl).
  constructor; [apply (os_inv_step k); try done|done|done|done|done].
  pose proof (core_ok_kept _ _ (ki_core _ (oi_kernel _ Hi)) Hc).
  destruct (oi_kernel _ Hi). constructor; rewrite ?Hv; try done. unfold k_mem. cbn. by rewrite Hm.
Qed.

Lemma run_kept_refl pid k : os_inv k -> run_kept pid k k.
Proof using.
  intros Hi. assert (k = with_core (k_core k) k) as Hk by (by destruct k). rewrite Hk at 2.
  apply tables_kept; [done| |done]. apply core_kept_refl; [apply Hi|]. apply Hi.
Qed.

Lemma call_kept k k' :
  os_inv k -> call_ok k k' -> core_kept (k_core k) (k_core k') -> run_kept (k_pid k) k k' /\ k_pid k' = k_pid k /\
  ring3_active k' = ring3_active k.
Proof using.
  intros Hos [Hi _ Hf Hh Hg (Hr & Hp & _)] Hc. split; [constructor; try done; by apply (os_inv_step k)|].
  split; [unfold k_pid; by rewrite Hp|done].
Qed.

(** *** The events *)

Lemma frame_u32 frame i : Forall is_u32 frame -> is_u32 (nth i frame 0).
Proof using.
  intros Hf. destruct (le_lt_dec (length frame) i) as [Hge|Hlt].
  - rewrite nth_overflow by done. unfold is_u32. lia.
  - rewrite Forall_nth in Hf. by apply Hf.
Qed.

Lemma store_kept k a bytes :
  os_inv k -> ring3_active k = true -> event_ok (UStore a bytes) ->
  validate_user_ptr k a (Z.of_nat (length bytes)) = true ->
  run_kept (k_pid k) k (with_mem (store_bytes (k_mem k) a bytes) k).
Proof using.
  intros Hi Hr (Ha & Hl & Hb) Hv. pose proof (oi_kernel _ Hi) as Hk. assert (is_u32 (Z.of_nat (length bytes))) as Hlen by (unfold is_u32; lia).
  destruct (validate_range k a _ (ki_core _ Hk) Hr Ha Hlen Hv) as ([? ?] & _).
  apply call_kept; [done|..].
  - apply (user_store_ok k a (Z.of_nat (length bytes))); try done.
    + intros x Hx. apply store_bytes_out; [split; lia|lia].
    + apply store_bytes_ok, Hk.
  - apply core_kept_tables; [apply Hk|done|by apply table_kept_refl, Hi].
Qed.

Lemma tick_run_kept pid k : os_inv k -> run_kept pid k (timer_tick k).
Proof using.
  intros Hi. apply tables_kept; [done| |done].
  apply core_kept_tables; [apply Hi|done|apply tick_kept, Hi].
Qed.

(** The registers a program will be resumed with. *)
Definition frame_context (frame : list Z) : user_context :=
  let f i := nth i frame 0 in
  {| edi := f 0%nat; esi := f 1%nat; ebp := f 2%nat; esp_dummy := f 3%nat;
     ebx := f 4%nat; edx := f 5%nat; ecx := f 6%nat; eax := 0;
     eip := f 8%nat; cs := f 9%nat; eflags := f 10%nat; user_esp := f 11%nat; user_ss := f 12%nat |}.

Definition save_registers (frame : list Z) (i : proc_image) : proc_image := {|
  loaded := loaded i; entry := entry i; image_base := image_base i; image_size := image_size i;
  user_stack_base := user_stack_base i; user_stack_size := user_stack_size i; img_cwd := img_cwd i;
  output := output i; context_valid := true; context := frame_context frame |}.

Lemma save_context_spec k frame image :
  os_inv k -> 0 < k_pid k -> proc_get_image (c_procs (k_core k)) (k_pid k) = Some image ->
  loaded image = true ->
  run_kept (k_pid k) k (syscall_save_yield_context k (Some frame)) /\
  k_mem (syscall_save_yield_context k (Some frame)) = k_mem k /\
  proc_get_image (c_procs (k_core (syscall_save_yield_context k (Some frame)))) (k_pid k) =
    Some (save_registers frame image).
Proof using.
  intros Hi Hp Him Hl. unfold syscall_save_yield_context. rewrite Him.
  assert ((k_pid k <=? 0) || negb (loaded image) = false) as ->
    by (rewrite Hl; by apply orb_false_iff; split; [apply Z.leb_gt|]).
  change (bind_image (k_core k) (k_pid k) _) with (bind_image (k_core k) (k_pid k) (save_registers frame image)).
  pose proof (ck_procs _ (ki_core _ (oi_kernel _ Hi))) as Hps.
  cbn [bind_image core_proc_ops].
  assert (core_kept (k_core k) (with_c_procs (fst (proc_bind_image (c_procs (k_core k)) (k_pid k)
            (save_registers frame image))) (k_core k))) as Hc.
  { apply core_kept_tables; [apply Hi|done|]. apply (bind_kept _ _ image); [apply Hi|done|by constructor]. }
  assert (state_of (c_procs (k_core k)) (k_pid k) <> PROC_UNUSED) as Hlive.
  { apply (@image_live proc_st _ proc_st_laws (c_procs (k_core k)) (k_pid k) Hps). cbn. by eexists. }
  pose proof (@bind_image_of proc_st _ proc_st_laws (c_procs (k_core k)) (k_pid k)
    (save_registers frame image) (k_pid k) Hps Hlive) as Hq.
  cbn [image_of bind_image proc_st_ops] in Hq. rewrite decide_True in Hq by done.
  destruct (proc_bind_image _ _ _) as [ps b]. cbn [fst] in *.
  split; [by apply tables_kept|done].
Qed.

(** *** The run *)

(** How a run can end: the exit code, the reason, and the saved registers of a
    program that will be resumed. *)
Definition run_end (k' : kernel) (pid code reason : Z) : Prop :=
  ring3_active k' = false /\ ring3_current_pid k' = 0 /\
  (reason = 0 \/ (code = 0 /\ reason = 2) \/
   (code = 0 /\ (reason = 1 \/ reason = 3) /\
    exists frame i, Forall is_u32 frame /\
      proc_get_image (c_procs (k_core k')) pid = Some (save_registers frame i))).

Lemma ring_kept pid k b p : os_inv k -> run_kept pid k (with_ring b p k).
Proof using.
  intros Hi. destruct (run_kept_refl pid k Hi) as [_ Hc Hf Hh Hg]. constructor; try done.
  destruct Hi as [Hk Hs Hcw Hsl]. split; [by destruct Hk|done|done|done].
Qed.

(** The program of a run exists and is loaded. *)
Definition running (k : kernel) (pid : Z) : Prop :=
  k_pid k = pid /\ ring3_active k = true /\ 0 < pid /\
  exists image, proc_get_image (c_procs (k_core k)) pid = Some image /\ loaded image = true.

Lemma running_kept k k' pid :
  running k pid -> run_kept pid k k' -> k_pid k' = k_pid k -> ring3_active k' = ring3_active k -> running k' pid.
Proof using.
  intros (Hp & Hr & H0' & image & Hi & Hl) Hk Hp' Hr'.
  destruct (kept_image _ _ _ _ (rk_core _ _ _ Hk) Hi) as (j & Hj & Hij).
  split_and!; [congruence|congruence|done|]. exists j. split; [done|]. by rewrite (il_loaded _ _ Hij).
Qed.

Lemma stop_saved k frame pid reason :
  os_inv k -> running k pid -> Forall is_u32 frame -> reason = 1 \/ reason = 3 ->
  let k' := return_to_kernel (syscall_save_yield_context k (Some frame)) in
  run_kept pid k k' /\ run_end k' pid 0 reason.
Proof using.
  intros Hi (Hp & Hr & H0' & image & Him & Hl) Hf Hre. subst pid.
  destruct (save_context_spec k frame image Hi H0' Him Hl) as (Hk & _ & Him').
  split.
  - destruct Hk as [Hi' Hc Hfd Hh Hg]. destruct (ring_kept (k_pid k) _ false 0 Hi') as [Hi2 _ _ _ _]. by constructor.
  - split; [done|]. split; [done|]. do 2 right. split; [done|]. split; [done|].
    by exists frame, image.
Qed.

Lemma user_run_kept evs k pid k' code reason :
  os_inv k -> running k pid -> Forall event_ok evs -> user_run evs k = Some (k', code, reason) ->
  run_kept pid k k' /\ run_end k' pid code reason.
Proof using All.
  revert k. induction evs as [|e evs IH]; intros k Hi Hrun Hok Hres; [done|].
  apply Forall_cons_iff in Hok as [He Hok].
  assert (forall k1, run_kept pid k k1 -> k_pid k1 = k_pid k -> ring3_active k1 = ring3_active k ->
    user_run evs k1 = Some (k', code, reason) -> run_kept pid k k' /\ run_end k' pid code reason) as Hgo.
  { intros k1 Hk1 Hp1 Hr1 Hres1.
    destruct (IH k1 (rk_inv _ _ _ Hk1) (running_kept _ _ _ Hrun Hk1 Hp1 Hr1) Hok Hres1) as [Hk Hend].
    split; [|done]. by apply (run_kept_trans pid k k1). }
  pose proof Hrun as (<- & Hr & _).
  destruct e as [a bytes|frame|]; cbn [user_run] in Hres.
  - destruct (validate_user_ptr k a _) eqn:Ev; [|done].
    destruct (store_kept k a bytes Hi Hr He Ev) as [Hk1 [? ?]]; by eapply Hgo.
  - destruct He as [_ Hf]. unfold syscall_stub in Hres. cbn beta zeta in Hres.
    destruct (Z.eqb_spec (nth 7 frame 0) 60) as [|Hn60].
    { simplify_eq. split; [by apply ring_kept|]. split; [done|]. split; [done|by left]. }
    destruct (nth 7 frame 0 =? 240).
    { simplify_eq. split; [by apply ring_kept|]. split; [done|]. split; [done|by right; left]. }
    destruct (nth 7 frame 0 =? 248).
    { simplify_eq. apply stop_saved; auto. }
    destruct (syscall_entry k _ _ _ _) as [[k1 r]|] eqn:Es; [|done]. cbn [mbind option_bind] in Hres.
    pose proof (syscall_ok _ _ _ _ _ _ _ (oi_kernel _ Hi) Hr (frame_u32 frame 4 Hf) (frame_u32 frame 6 Hf)
      (frame_u32 frame 5 Hf) Es) as Hcall.
    destruct (call_kept k k1 Hi Hcall (syscall_kept _ _ _ _ _ _ _ Hi Hn60 Es)) as (Hk1 & Hp1 & Hr1).
    destruct (r =? ERR_BLOCKED); [|by eapply Hgo]. simplify_eq.
    destruct (stop_saved k1 frame (k_pid k) 3 (rk_inv _ _ _ Hk1) (running_kept _ _ _ Hrun Hk1 Hp1 Hr1) Hf ltac:(auto))
      as [Hk2 Hend].
    split; [by apply (run_kept_trans _ k k1)|done].
  - by eapply Hgo; [apply tick_run_kept|..].
Qed.

End kept.
