(* ===== verification/KernelCalls.v ===== *)
(** * KernelCalls: system calls that the kernel itself makes

    [syscall_stub] of User.v is what the stub does for a program.  Here is the
    whole stub of [src/kernel/arch/i386/syscall_stubs.asm], which looks at the
    privilege level in the saved cs and at [ring3_active], and on top of it the
    wrappers at the end of syscall.c, through which code of the kernel can raise
    [int 0x80].  [call_stub_ring3]: from ring 3 the stub is the one of User.v.
    [kernel_calls_return]: outside the run of a program the kernel gets the
    answer of the handler from every call, also from those that would end the
    run of a program.  [kernel_recv_lost]: there is one exception. *)
From S2P Require Import Prelude KernelH Util Memory Heap Proc Sched Iface Service Elf Core Ipc Vfs VfsTree Syscall FdTable Kernel User.
Local Open Scope Z_scope.
Local Open Scope slop_scope.

Section stub.
Context `{Linker} `{MountFs}.

(** [syscall_stub] with the 13 words at its stack pointer; the tenth is cs.  From
    ring 0 the processor pushes no stack pointer: the last two words are then
    whatever lies above the frame. *)
Definition call_stub (k : kernel) (frame : list Z) : option stub_result :=
  let reg i := nth i frame 0 in
  let num := reg 7%nat in
  let stops := (Z.land (reg 9%nat) 3 =? 3) || ring3_active k in
  if (num =? 60) && stops then Some (Stop (return_to_kernel k) (s32 (reg 4%nat)) 0)
  else if (num =? 240) && stops then Some (Stop (return_to_kernel k) 0 2)
  else if (num =? 248) && stops
  then Some (Stop (return_to_kernel (syscall_save_yield_context k (Some frame))) 0 1)
  else
    '(k, r) ← syscall_entry k num (reg 4%nat) (reg 6%nat) (reg 5%nat);
    if r =? ERR_BLOCKED
    then Some (Stop (return_to_kernel (syscall_save_yield_context k (Some frame))) 0 3)
    else Some (Back k r).

Lemma call_stub_ring3 k frame : Z.land (nth 9 frame 0) 3 = 3 -> call_stub k frame = syscall_stub k frame.
Proof using.
  intros E. unfold call_stub, syscall_stub. rewrite E. change (3 =? 3) with true. cbn [orb].
  by rewrite !andb_true_r.
Qed.

(** The frame of a call of the kernel, whose code segment is 0x08. *)
Definition kernel_frame (eax ebx ecx edx : Z) : list Z :=
  [0; 0; 0; 0; ebx; edx; ecx; eax; 0; 0x08; 0; 0; 0].

(** [int 0x80] in the kernel: the state behind it and eax, or [None] when the
    stub does not come back to the caller. *)
Definition kernel_int80 (k : kernel) (nr b c d : Z) : option (kernel * Z) :=
  match call_stub k (kernel_frame nr b c d) with
  | Some (Back k r) => Some (k, s32 r)
  | _ => None
  end.

(** ** The wrappers *)

Definition sys_write (k : kernel) (fd buf len : Z) := kernel_int80 k 1 (u32 fd) buf len.
Definition sys_read (k : kernel) (fd buf len : Z) := kernel_int80 k 0 (u32 fd) buf len.
Definition sys_open (k : kernel) (path flags : Z) := kernel_int80 k 2 path flags 0.
Definition sys_close (k : kernel) (fd : Z) := kernel_int80 k 3 (u32 fd) 0 0.
Definition sys_getpid (k : kernel) := kernel_int80 k 20 0 0 0.
Definition sys_meminfo (k : kernel) (info : Z) := kernel_int80 k 244 info 0 0.
Definition sys_ipc_send (k : kernel) (msg : Z) := kernel_int80 k 245 msg 0 0.
Definition sys_ipc_recv (k : kernel) (msg : Z) := kernel_int80 k 246 msg 0 0.
Definition sys_ipc_reply (k : kernel) (msg : Z) := kernel_int80 k 247 msg 0 0.
Definition sys_yield (k : kernel) := kernel_int80 k 248 0 0 0.
Definition sys_service_register (k : kernel) (name : Z) := kernel_int80 k 249 name 0 0.
Definition sys_service_lookup (k : kernel) (name : Z) := kernel_int80 k 250 name 0 0.
Definition sys_stat (k : kernel) (path st : Z) := kernel_int80 k 251 path st 0.
Definition sys_fstat (k : kernel) (fd st : Z) := kernel_int80 k 252 (u32 fd) st 0.
Definition sys_exit (k : kernel) (code : Z) : option kernel := fst <$> kernel_int80 k 60 (u32 code) 0 0.

(** ** What the kernel gets *)

(** Outside the run of a program. *)
Definition in_kernel (k : kernel) : Prop := ring3_active k = false.

Lemma kernel_stub k nr b c d :
  in_kernel k ->
  call_stub k (kernel_frame nr b c d) =
  '(k1, r) ← syscall_entry k nr b c d;
  if r =? ERR_BLOCKED
  then Some (Stop (return_to_kernel (syscall_save_yield_context k1 (Some (kernel_frame nr b c d)))) 0 3)
  else Some (Back k1 r).
Proof using.
  intros Hk. unfold call_stub. cbn [nth kernel_frame]. change (Z.land 8 3 =? 3) with false.
  rewrite Hk. cbn [orb]. by rewrite !andb_false_r.
Qed.

Lemma kernel_int80_answer k nr b c d k' r :
  in_kernel k -> syscall_entry k nr b c d = Some (k', r) -> r <> ERR_BLOCKED ->
  kernel_int80 k nr b c d = Some (k', s32 r).
Proof using.
  intros Hk He Hr. unfold kernel_int80. rewrite kernel_stub, He by done. cbn [mbind option_bind].
  by rewrite (proj2 (Z.eqb_neq r ERR_BLOCKED)).
Qed.

(** No address is refused to the kernel. *)
Lemma kernel_ptr k a n : in_kernel k -> validate_user_ptr k a n = true.
Proof using. intros Hk. unfold validate_user_ptr. by rewrite Hk. Qed.

(** The kernel can make any call but a receive and go on: [sys_yield] and
    [sys_exit] come back to it, the latter having ended the current task's
    process; what it writes to the screen is printed whatever the address; and a
    structure it asks for is stored. *)
Theorem kernel_calls_return k :
  in_kernel k ->
  sys_yield k = Some (k, 0) /\
  (forall code, sys_exit k code = Some (ksys_exit k (s32 (u32 code)))) /\
  (forall buf len, is_u32 len -> buf <> 0 ->
     sys_write k 1 buf len =
       Some (print CONSOLE_VGA (load_bytes (k_mem k) buf (Z.to_nat (Z.min len SYSCALL_WRITE_MAX))) k,
             Z.min len SYSCALL_WRITE_MAX)) /\
  (forall info, info <> 0 ->
     sys_meminfo k info =
       Some (with_mem (store_words (k_mem k) info
               (mem_info_words (meminfo_of (k_heap k) (user_boot_mbi k) (user_boot_magic k)))) k, 0)) /\
  (forall st, st <> 0 ->
     sys_fstat k 1 st = Some (with_mem (store_stat (k_mem k) st {| st_mode := S_IFCHR; st_size := 0 |}) k, 0)).
Proof using All.
  intros Hk. split_and!.
  - by apply (kernel_int80_answer k 248 0 0 0 k 0).
  - intros code. unfold sys_exit.
    by rewrite (kernel_int80_answer k 60 (u32 code) 0 0 (ksys_exit k (s32 (u32 code))) 0).
  - intros buf len Hlen Hb.
    assert (forall n, 0 <= n <= SYSCALL_WRITE_MAX -> n <> ERR_BLOCKED /\ s32 n = n) as Hn.
    { unfold SYSCALL_WRITE_MAX, ERR_BLOCKED. intros n Hn. split; [lia|]. apply s32_small. unfold INT_MAX. lia. }
    assert (0 <= Z.min len SYSCALL_WRITE_MAX <= SYSCALL_WRITE_MAX) as Hm.
    { unfold is_u32, SYSCALL_WRITE_MAX in *. lia. }
    destruct (Hn _ Hm) as [Hne Hs]. unfold sys_write.
    set (k1 := print _ _ _). rewrite (kernel_int80_answer k 1 (u32 1) buf len k1 (Z.min len SYSCALL_WRITE_MAX)); [by rewrite Hs|done| |done].
    change (syscall_entry k 1 (u32 1) buf len) with (Some (ksys_write k (s32 (u32 1)) buf len)).
    unfold ksys_write. rewrite (proj2 (Z.eqb_neq buf 0)), kernel_ptr by done. cbn [negb].
    change ((s32 (u32 1) =? 1) || (s32 (u32 1) =? 2)) with true. cbn iota.
    replace (if SYSCALL_WRITE_MAX <? len then SYSCALL_WRITE_MAX else len) with (Z.min len SYSCALL_WRITE_MAX)
      by (destruct (SYSCALL_WRITE_MAX <? len) eqn:E; zify_bool; lia).
    by rewrite Hs.
  - intros info Hi. apply (kernel_int80_answer k 244 info 0 0 _ 0); [done| |done].
    change (syscall_entry k 244 info 0 0) with (Some (ksys_meminfo k info)). unfold ksys_meminfo.
    by rewrite (proj2 (Z.eqb_neq info 0)), kernel_ptr by done.
  - intros st Hs. apply (kernel_int80_answer k 252 (u32 1) st 0 _ 0); [done| |done].
    change (syscall_entry k 252 (u32 1) st 0) with (Some (ksys_fstat k (s32 (u32 1)) st)). unfold ksys_fstat.
    by rewrite (proj2 (Z.eqb_neq st 0)), kernel_ptr by done.
Qed.

Lemma recv_none q dst : ipc_inv q -> 0 <= dst -> pending q dst = None -> ipc_recv q dst = (q, None).
Proof using.
  intros Hi Hd Hn. destruct (ipc_recv q dst) as [q' o] eqn:Er.
  destruct (ipc_recv_spec _ _ _ _ Hi Er) as (_ & Ho & _). rewrite (proj2 (Z.ltb_ge dst 0)), Hn in Ho by lia.
  subst o. unfold ipc_recv in Er. repeat case_match; by simplify_eq.
Qed.

Lemma save_ipc k frame : k_ipc (syscall_save_yield_context k frame) = k_ipc k.
Proof using. unfold syscall_save_yield_context. by repeat case_match. Qed.

(** A receive of the kernel with an empty mailbox does not come back: the kernel
    counts as a process that can wait, and the stub resumes the code that last
    started a program, on the stack it had then. *)
Theorem kernel_recv_lost k msg :
  kernel_inv k -> in_kernel k -> is_u32 msg -> msg <> 0 ->
  0 <= k_pid k -> proc_state_of (c_procs (k_core k)) (k_pid k) <> PROC_UNUSED ->
  pending (k_ipc k) (k_pid k) = None ->
  is_Some (first_slot (fun w => negb (active w)) (waiters (k_ipc k))) ->
  sys_ipc_recv k msg = None /\
  exists k', call_stub k (kernel_frame 246 msg 0 0) = Some (Stop k' 0 3) /\
    waiting (k_ipc k') (k_pid k) = Some msg.
Proof using All.
  intros Hi Hk Hu Hm Hp Hs Hn Hw.
  assert (exists k', ksys_ipc_recv k msg = (k', ERR_BLOCKED) /\ waiting (k_ipc k') (k_pid k) = Some msg)
    as (k' & Hr & Hwait).
  { unfold ksys_ipc_recv. rewrite (proj2 (Z.eqb_neq msg 0)), kernel_ptr by done. cbn [negb orb].
    rewrite (recv_none _ _ (ki_ipc _ Hi) Hp Hn).
    destruct (ipc_block_recv (k_core k) (k_ipc k) (k_pid k) msg) as [q ok] eqn:Eb.
    destruct (ipc_block_recv_spec _ _ _ _ _ _ (ki_ipc _ Hi) Hu Eb) as (_ & _ & Hwt & _ & Hok).
    specialize (Hok Hp Hs). rewrite (bool_decide_true (is_Some (first_slot _ _))), orb_true_r in Hok by done.
    subst ok. exists (with_ipc q k). split; [done|]. cbn [k_ipc with_ipc]. rewrite Hwt. cbn [andb].
    by rewrite bool_decide_true. }
  assert (exists k1, call_stub k (kernel_frame 246 msg 0 0) = Some (Stop k1 0 3) /\
            waiting (k_ipc k1) (k_pid k) = Some msg) as (k1 & Hc & Hw1).
  { rewrite kernel_stub by done. change (syscall_entry k 246 msg 0 0) with (Some (ksys_ipc_recv k msg)).
    rewrite Hr. cbn [mbind option_bind]. change (ERR_BLOCKED =? ERR_BLOCKED) with true. cbn iota.
    eexists. split; [reflexivity|]. cbn [return_to_kernel with_ring k_ipc].
    by rewrite save_ipc. }
  split; [|by exists k1]. unfold sys_ipc_recv, kernel_int80. by rewrite Hc.
Qed.

End stub.

(** The machine between two programs, where the kernel itself is process 0. *)
Definition demo_idle : kernel := with_ring false 0 demo_kernel.

Lemma kernel_calls_return_witness :
  @sys_yield demo_linker no_mount demo_idle = Some (demo_idle, 0) /\
  @sys_exit demo_linker no_mount demo_idle 0 = Some (ksys_exit demo_idle 0).
Proof.
  destruct (@kernel_calls_return demo_linker no_mount demo_idle eq_refl) as (Hy & He & _).
  split; [exact Hy|exact (He 0)].
Defined.

Lemma kernel_recv_lost_witness : @sys_ipc_recv demo_linker no_mount demo_idle 0x300000 = None.
Proof.
  refine (proj1 (@kernel_recv_lost demo_linker no_mount demo_idle 0x300000 _ eq_refl _ _ _ _ _ _)).
  - destruct demo_kernel_inv. by constructor.
  - unfold is_u32. lia.
  - discriminate.
  - discriminate.
  - vm_compute. discriminate.
  - vm_compute. reflexivity.
  - vm_compute. eexists. reflexivity.
Defined.
