(* ===== verification/UKernel.v ===== *)
(** * UKernel: the kernel as the programs' machine

    The instance of [UserOs] for the kernel: [int 0x80] enters the stub of
    User.v.  [UserOsLaws] is proved from the theorems about the system calls, so
    that what is proved of the library and of the programs holds on the kernel. *)
From S2P Require Import Prelude KernelH Util Memory Heap Proc Sched Iface Service Elf Core Ipc Storage IsoFs Vfs VfsTree Syscall FdTable Kernel Files User Usys.
Local Open Scope Z_scope.
Local Open Scope slop_scope.

(** The words on the kernel stack when a program executes [int 0x80]; the stub
    looks at eax, ebx, ecx and edx. *)
Definition call_frame (eax ebx ecx edx : Z) : list Z :=
  [0; 0; 0; 0; ebx; edx; ecx; eax; 0; 0; 0; 0; 0].

(** What was printed on the screen. *)
Definition screen_text (out : list out_event) : list Z :=
  concat (map (fun e => match e with
                        | Text CONSOLE_SERIAL _ => []
                        | Text _ t => t
                        | _ => []
                        end) out).

Section kernel_os.
Context `{Linker} `{MountFs}.

#[export] Instance kernel_os : UserOs kernel := {|
  umem := k_mem;
  set_umem m k := with_mem m k;
  int80 k a b c d := match syscall_stub k (call_frame a b c d) with
                     | Some (Back k r) => Some (k, r)
                     | _ => None
                     end |}.

Definition ufile_of (k : kernel) (e : fd_entry) : ufile := {|
  uf_file := file_of k e; uf_read := readable e; uf_write := writable e; uf_dirty := dirty e;
  uf_path := fd_path e |}.

#[export] Instance kernel_view : OsView kernel := {|
  os_ok k := kernel_inv k /\ ring3_active k = true;
  user_range k a n := 0 < a /\ 0 < n /\ a + n <= 4294967296 /\ validate_user_ptr k a n = true;
  console_text k := screen_text (k_out k);
  write_max := SYSCALL_WRITE_MAX;
  fd_file k fd := ufile_of k <$> entry_for k (k_pid k) fd;
  path_file k p :=
    full ← make_abs_path k (cwd_or_root k) (p ++ [0]) 128;
    let '(v, r) := vfs_read_file (vfs_of k) (cwd_or_root k) full in
    '(d, size) ← r; Some (load_bytes (vmem v) d (Z.to_nat size));
  fd_free k := bool_decide (is_Some (fd_alloc_slot (fd_table k)));
  cwd_text k := map u8 (cstr (vfs_get_cwd_path (vfs_of k) (cwd_or_root k) 128)) |}.

(** ** Steps *)

(** What decides which memory is the program's, and what was printed. *)
Definition same_user (k k' : kernel) : Prop :=
  ring3_active k' = ring3_active k /\ ring3_current_pid k' = ring3_current_pid k /\
  c_procs (k_core k') = c_procs (k_core k).

Lemma same_user_ptr k k' a n : same_user k k' -> validate_user_ptr k' a n = validate_user_ptr k a n.
Proof using. intros (Hr & Hp & Hc). unfold validate_user_ptr, k_pid. by rewrite Hr, Hp, Hc. Qed.

Lemma range_user k a n :
  kernel_inv k -> ring3_active k = true -> user_range k a n ->
  is_u32 a /\ is_u32 n /\ Z.max 1 n = n /\ (if n =? 0 then 1 else n) = n /\ n <= ELF_USER_IMAGE_MAX /\
  validate_user_ptr k a n = true /\
  (a + n <= h_start (k_heap k) \/ h_limit (k_heap k) <= a).
Proof using.
  intros Hi Hr (Ha & Hn & Hw & Hv).
  assert (is_u32 a /\ is_u32 n) as [Hau Hnu] by (unfold is_u32; lia).
  destruct (validate_range k a n (ki_core _ Hi) Hr Hau Hnu Hv) as (_ & _ & Hor & Hmx).
  pose proof (ki_heap _ Hi). pose proof (ki_limit _ Hi).
  rewrite (proj2 (Z.eqb_neq n 0)) by lia. rewrite Z.max_r in * by lia.
  split_and!; try done. lia.
Qed.

Lemma step_of k k' touched fd0 out :
  kernel_inv k -> ring3_active k = true -> same_user k k' -> kernel_inv k' ->
  (forall x, (x < h_start (k_heap k) \/ h_limit (k_heap k) <= x) -> ~ touched x -> k_mem k' x = k_mem k x) ->
  screen_text (k_out k') = screen_text (k_out k) ++ out ->
  (forall fd e, Some fd <> fd0 -> entry_for k (k_pid k) fd = Some e ->
     entry_for k' (k_pid k) fd = Some e /\ file_of k' e = file_of k e) ->
  os_step touched fd0 out k k'.
Proof using.
  intros Hi Hr Hs Hi' Hm Ho Hf. pose proof Hs as (Hr' & Hp & _).
  assert (k_pid k' = k_pid k) as Hpid by (unfold k_pid; by rewrite Hp).
  constructor.
  - split; [done|congruence].
  - intros a n. cbn. by rewrite (same_user_ptr k k').
  - intros x Hx Ht. cbn. apply Hm; [|done].
    destruct (range_user k x 1 Hi Hr Hx) as (_ & _ & _ & _ & _ & _ & Hor). lia.
  - apply Hi'.
  - exact Ho.
  - intros fd f Hne Hfd. cbn in *. rewrite Hpid. destruct (entry_for k (k_pid k) fd) as [e|] eqn:E; [|done].
    destruct (Hf fd e Hne E) as [-> Hfe]. cbn in *. unfold ufile_of in *. by rewrite Hfe.
Qed.

(** The calls that come back. *)
Lemma stub_call k nr b c d k' r :
  nr <> 60 -> nr <> 240 -> nr <> 248 -> syscall_entry k nr b c d = Some (k', r) -> r <> ERR_BLOCKED ->
  sys_call k nr b c d = Some (k', s32 r).
Proof using.
  intros H1' H2' H3' He Hr. unfold sys_call. cbn [int80 kernel_os]. unfold syscall_stub. cbn [nth call_frame].
  rewrite !(proj2 (Z.eqb_neq nr _)) by done. rewrite He. cbn [mbind option_bind].
  by rewrite (proj2 (Z.eqb_neq r ERR_BLOCKED)).
Qed.

(** [exit] ends the run of the program with its code. *)
Lemma exit_stops k code :
  - INT_MAX - 1 <= code <= INT_MAX ->
  exit k code = None /\ syscall_stub k (call_frame 60 (u32 code) 0 0) = Some (Stop (return_to_kernel k) code 0).
Proof using.
  intros Hc. split; [reflexivity|]. unfold syscall_stub. cbn [nth call_frame]. change (60 =? 60) with true. cbn iota.
  do 2 f_equal. unfold s32, u32, INT_MAX in *. destruct (_ <=? _) eqn:E; zify_bool; mlia.
Qed.

Lemma small_fd fd : 0 <= fd <= INT_MAX -> s32 (u32 fd) = fd.
Proof using. intros Hf. unfold INT_MAX in *. rewrite u32_small by lia. apply s32_small. unfold INT_MAX. lia. Qed.

Lemma entry_write k b c d : syscall_entry k 1 b c d = Some (ksys_write k (s32 b) c d).
Proof using. done. Qed.
Lemma entry_read k b c d : syscall_entry k 0 b c d = ksys_read k (s32 b) c d.
Proof using. done. Qed.
Lemma entry_open k b c d : syscall_entry k 2 b c d = Some (ksys_open k b c).
Proof using. done. Qed.
Lemma entry_close k b c d : syscall_entry k 3 b c d = Some (ksys_close k (s32 b)).
Proof using. done. Qed.

(** The four calls leave what belongs to the process alone, and print nothing
    but on the console's descriptors. *)
Lemma write_user k fd a n : same_user k (fst (ksys_write k fd a n)).
Proof using. unfold ksys_write. repeat case_match; by split. Qed.
Lemma write_out k fd a n : 3 <= fd -> k_out (fst (ksys_write k fd a n)) = k_out k.
Proof using.
  intros Hf. unfold ksys_write. rewrite !(proj2 (Z.eqb_neq fd _)) by lia. cbn [orb]. by repeat case_match.
Qed.
Lemma read_user k fd a n k' r : 3 <= fd -> ksys_read k fd a n = Some (k', r) -> same_user k k' /\ k_out k' = k_out k.
Proof using.
  intros Hf. unfold ksys_read. rewrite (proj2 (Z.eqb_neq fd 0)) by lia. intros Hr.
  repeat case_match; by simplify_eq/=.
Qed.
Lemma open_user k a fl : same_user k (fst (ksys_open k a fl)) /\ k_out (fst (ksys_open k a fl)) = k_out k.
Proof using. unfold ksys_open. repeat case_match; by repeat split. Qed.
Lemma close_user k fd :
  same_user k (fst (ksys_close k fd)) /\ k_out (fst (ksys_close k fd)) = k_out k /\
  user_cwd (fst (ksys_close k fd)) = user_cwd k.
Proof using. unfold ksys_close. repeat case_match; by repeat split. Qed.

(** A result that is an error number, a descriptor or a length. *)
Lemma small_result r : -512 < r <= INT_MAX -> s32 r = r /\ r <> ERR_BLOCKED.
Proof using.
  intros Hr. unfold INT_MAX, ERR_BLOCKED in *. split; [|lia].
  destruct (decide (0 <= r)); [apply s32_small; unfold INT_MAX; lia|].
  unfold s32, u32. replace (r `mod` 4294967296) with (r + 4294967296) by mlia.
  unfold INT_MAX. split_if; lia.
Qed.

Lemma fd_reset_path_length e : length (fd_path (fd_reset e)) = length (fd_path e).
Proof using. cbn. by destruct (fd_path e). Qed.

(** ** Memory *)

Lemma user_sub k a n b m :
  kernel_inv k -> ring3_active k = true -> user_range k a n -> a <= b -> 0 < m -> b + m <= a + n ->
  user_range k b m.
Proof using.
  intros Hi Hr (Ha & Hn & Hw & Hv) Hab Hm Hbm. split_and!; try lia.
  apply validate_spec in Hv as (Hp & image & Him & Hl & Hor); [|apply Hi|done|unfold is_u32; lia|unfold is_u32; lia].
  apply validate_spec; [apply Hi|done|unfold is_u32; lia|unfold is_u32; lia|].
  split; [done|]. exists image. split; [done|]. split; [done|]. rewrite Z.max_r in * by lia.
  unfold in_image, in_stack in *. destruct Hor; [left|right]; lia.
Qed.

Lemma store_law k m a n :
  kernel_inv k -> ring3_active k = true -> user_range k a n -> same_outside a n (k_mem k) m -> mem_ok m ->
  os_step (in_buf a n) None [] k (set_umem m k).
Proof using.
  intros Hi Hr Hur Hm Hok. destruct (range_user k a n Hi Hr Hur) as (Hau & Hnu & Hmx & _ & _ & Hv & Hor).
  pose proof (hi_current _ (vi_heap _ (ki_vfs _ Hi))) as Hcur. cbn [vheap vfs_of] in Hcur.
  assert (forall x, h_start (k_heap k) <= x < h_current (k_heap k) -> m x = k_mem k x) as Hheap.
  { intros x Hx. apply Hm. destruct Hur. lia. }
  apply (step_of k); [done|done|done| | | |].
  - by apply set_mem_inv.
  - intros x _ Hx. by apply Hm.
  - symmetry. apply app_nil_r.
  - intros fd e _ He. split; [done|]. unfold file_of. f_equal.
    pose proof He as (_ & He' & Hu & _)%entry_for_iff.
    apply (fd_bytes_frame k); try done; [exact (Forall_lookup_1 _ _ _ _ (fi_ok _ _ (ki_fds _ Hi)) He')|].
    intros x Hx _. by apply Hheap.
Qed.

(** ** Writing *)

Lemma print_law k fd a n :
  kernel_inv k -> ring3_active k = true -> fd = 1 \/ fd = 2 -> user_range k a n ->
  exists k', sys_write k fd a n = Some (k', Z.min SYSCALL_WRITE_MAX n) /\
    os_step nothing None (load_bytes (k_mem k) a (Z.to_nat (Z.min SYSCALL_WRITE_MAX n))) k k' /\
    forall p, path_file k' p = path_file k p.
Proof using.
  intros Hi Hr Hfd Hur. destruct (range_user k a n Hi Hr Hur) as (Hau & Hnu & Hmx & Hif & _ & Hv & _).
  destruct Hur as (Ha & Hn & _). set (len := Z.min SYSCALL_WRITE_MAX n).
  assert (0 <= len <= INT_MAX) as Hlen by (unfold len, SYSCALL_WRITE_MAX, INT_MAX; lia).
  assert (ksys_write k fd a n = (print CONSOLE_VGA (load_bytes (k_mem k) a (Z.to_nat len)) k, len)) as Hw.
  { unfold ksys_write. rewrite (proj2 (Z.eqb_neq a 0)), Hif, Hv by lia. cbn [negb].
    assert ((fd =? 1) || (fd =? 2) = true) as -> by (destruct Hfd as [-> | ->]; done).
    assert ((if SYSCALL_WRITE_MAX <? n then SYSCALL_WRITE_MAX else n) = len) as -> by (unfold len; split_if; lia).
    by rewrite s32_small. }
  assert (s32 (u32 fd) = fd) as Hs by (apply small_fd; unfold INT_MAX; lia).
  exists (print CONSOLE_VGA (load_bytes (k_mem k) a (Z.to_nat len)) k). split.
  - unfold sys_write. destruct (small_result len) as [Hs32 Hnb]; [lia|].
    erewrite stub_call; [by rewrite Hs32|done|done|done|rewrite entry_write, Hs; by rewrite Hw|done].
  - split; [|done]. apply (step_of k); [done|done|done|by destruct Hi|done| |done].
    unfold screen_text. cbn [k_out print with_io]. rewrite map_app, concat_app. cbn [map concat]. by rewrite app_nil_r.
Qed.

Lemma write_law k fd a n f :
  kernel_inv k -> ring3_active k = true -> fd_file k fd = Some f -> uf_write f = true ->
  user_range k a n -> n <= INT_MAX ->
  exists k' r, sys_write k fd a n = Some (k', r) /\ os_step nothing (Some fd) [] k k' /\
    (r < 0 /\ fd_file k' fd = Some f \/
     r = n /\ fd_file k' fd =
       Some (with_written (file_write (load_bytes (k_mem k) a (Z.to_nat n)) (uf_file f)) f)).
Proof using.
  intros Hi Hr Hf Hw Hur Hmax. destruct (range_user k a n Hi Hr Hur) as (Hau & Hnu & Hmx & Hif & _ & Hv & Hor).
  destruct Hur as (Ha & Hn & _). cbn in Hf. destruct (entry_for k (k_pid k) fd) as [e|] eqn:E; [|done].
  injection Hf as <-. cbn in Hw. pose proof E as (Hrange & He & Hu & Hp)%entry_for_iff.
  assert (s32 (u32 fd) = fd) as Hs by (apply small_fd; unfold INT_MAX; lia).
  assert (forall k' r, ksys_write k fd a n = (k', r) -> - 512 < r <= INT_MAX ->
            sys_write k fd a n = Some (k', r)) as Hsys.
  { intros k' r Hk [Hs32 Hnb]%small_result. unfold sys_write.
    erewrite stub_call; [by rewrite Hs32|done|done|done|rewrite entry_write, Hs; by rewrite Hk|done]. }
  pose proof (write_user k fd a n) as Hsu. pose proof (write_out k fd a n ltac:(lia)) as Hout.
  destruct (write_entry k fd a n e Hi Hr Hau Hnu ltac:(lia) ltac:(by rewrite Hif) E Hw)
    as [Hfull|(k' & e2 & Hk' & Heff & Hfile & Hoth)].
  - exists k, ERR_INVAL. split; [by apply Hsys|]. split.
    + apply (step_of k); try done. symmetry. apply app_nil_r.
    + left. split; [done|]. cbn. by rewrite E.
  - exists k', n. split; [apply Hsys; [done|lia]|]. rewrite Hk' in Hsu, Hout. cbn [fst] in Hsu, Hout.
    destruct Heff as [Hc Hfds (Hu2 & Hp2 & Hr2 & Hw2 & Hpa2 & Hd2) _ _ Hmem _].
    pose proof (vi_heap _ (ki_vfs _ Hi)) as Hh. cbn [vheap vfs_of] in Hh. pose proof (hi_current _ Hh).
    destruct (fo_write _ _ (Forall_lookup_1 _ _ _ _ (fi_ok _ _ (ki_fds _ Hi)) He) Hu Hw) as ([? ?] & _).
    cbn [vheap vfs_of] in *. split.
    + apply (step_of k); try done; [apply Hc| | |].
      * intros x Hx _. destruct (Hmem x) as [?|[?|?]]; [done|lia|lia].
      * rewrite Hout. symmetry. apply app_nil_r.
      * intros fd' e' Hne He'. assert (fd' <> fd) as Hne' by congruence.
        assert (entry_for k' (k_pid k) fd' = Some e') as He2.
        { apply entry_for_iff. rewrite Hfds. pose proof He' as (? & ? & ? & ?)%entry_for_iff.
          by rewrite list_lookup_insert_ne by lia. }
        split; [done|]. assert ((k_pid k, fd') <> (k_pid k, fd)) as Hpair by congruence.
        specialize (Hoth _ _ Hpair). unfold open_file in Hoth. rewrite He2, He' in Hoth. cbn in Hoth. congruence.
    + right. split; [done|]. cbn.
      assert (k_pid k' = k_pid k) as -> by (unfold k_pid; by destruct Hsu as (_ & -> & _)).
      assert (entry_for k' (k_pid k) fd = Some e2) as ->.
      { apply entry_for_iff. rewrite Hfds, <- Hp, Hp2. split; [done|]. split; [|done].
        apply list_lookup_insert_eq. by apply lookup_lt_Some in He. }
      cbn. unfold ufile_of, with_written. cbn. by rewrite Hfile, Hr2, Hw2, Hd2, Hpa2, Hw.
Qed.

(** ** Reading *)

Lemma read_law k fd a n f :
  kernel_inv k -> ring3_active k = true -> fd_file k fd = Some f -> uf_read f = true -> user_range k a n ->
  let '(out, f') := file_read (Z.to_nat n) (uf_file f) in
  exists k', sys_read k fd a n = Some (k', Z.of_nat (length out)) /\
    os_step (in_buf a n) (Some fd) [] k k' /\
    load_bytes (k_mem k') a (length out) = out /\ fd_file k' fd = Some (with_file f' f).
Proof using.
  intros Hi Hr Hf Hrd Hur. destruct (range_user k a n Hi Hr Hur) as (Hau & Hnu & Hmx & Hif & Hn & Hv & Hor).
  cbn in Hf. destruct (entry_for k (k_pid k) fd) as [e|] eqn:E; [|done].
  injection Hf as <-. cbn in Hrd. pose proof E as (Hrange & He & Hu & Hp)%entry_for_iff.
  assert (s32 (u32 fd) = fd) as Hs by (apply small_fd; unfold INT_MAX; lia).
  pose proof (read_entry k fd a n e Hi Hr Hau Hnu ltac:(by rewrite Hif) E Hrd) as Hread. cbn [uf_file ufile_of].
  assert (length (fst (file_read (Z.to_nat n) (file_of k e))) <= Z.to_nat n)%nat as Hlen
    by (cbn [fst file_read]; rewrite length_take; lia).
  destruct (file_read (Z.to_nat n) (file_of k e)) as [out f']. cbn [fst] in Hlen.
  destruct Hread as (k' & Hk' & Hi' & Hout & Hfds & Hfile & Hm & Hoth).
  destruct (small_result (Z.of_nat (length out))) as [Hs32 Hnb];
    [unfold INT_MAX, ELF_USER_IMAGE_MAX in *; lia|].
  destruct (read_user k fd a n k' _ ltac:(lia) Hk') as [Hsu Ho].
  exists k'. split; [|split; [|split; [done|]]].
  - unfold sys_read. erewrite stub_call; [by rewrite Hs32|done|done|done|by rewrite entry_read, Hs, Hk'|done].
  - apply (step_of k); try done.
    + intros x _ Hx. by apply Hm.
    + rewrite Ho. symmetry. apply app_nil_r.
    + intros fd' e' Hne He'. assert (fd' <> fd) as Hne' by congruence.
      assert (entry_for k' (k_pid k) fd' = Some e') as He2.
      { apply entry_for_iff. rewrite Hfds. pose proof He' as (? & ? & ? & ?)%entry_for_iff.
        by rewrite list_lookup_insert_ne by lia. }
      split; [done|]. assert ((k_pid k, fd') <> (k_pid k, fd)) as Hpair by congruence.
      specialize (Hoth _ _ Hpair). unfold open_file in Hoth. rewrite He2, He' in Hoth. cbn in Hoth. congruence.
  - cbn. assert (k_pid k' = k_pid k) as -> by (unfold k_pid; by destruct Hsu as (_ & -> & _)).
    assert (entry_for k' (k_pid k) fd = Some (set_offset (Z.of_nat (pos f')) e)) as ->.
    { apply entry_for_iff. rewrite Hfds. split; [done|]. split; [|done].
      apply list_lookup_insert_eq. by apply lookup_lt_Some in He. }
    cbn. unfold ufile_of, with_file. by rewrite Hfile.
Qed.

(** ** The current directory *)

Lemma entry_getcwd k b c d : syscall_entry k 183 b c d = Some (ksys_getcwd k b c).
Proof using. done. Qed.

Lemma getcwd_law k a n :
  kernel_inv k -> ring3_active k = true -> user_range k a n -> Z.of_nat (length (cwd_text k)) < n ->
  exists k', sys_getcwd k a n = Some (k', Z.of_nat (length (cwd_text k))) /\
    os_step (in_buf a n) None [] k k' /\ load_bytes (umem k') a (length (cwd_text k)) = cwd_text k.
Proof using.
  intros Hi Hr Hur. destruct (range_user k a n Hi Hr Hur) as (Hau & Hnu & Hmx & Hif & Hn & Hv & Hor).
  destruct Hur as (Ha & Hn0 & Hw & _). cbn [cwd_text kernel_view]. rewrite length_map. intros Hlen.
  set (path := vfs_get_cwd_path _ _ _) in *.
  set (m := store_bytes (k_mem k) a (cstr path ++ [0])).
  assert (Z.of_nat (length (cstr path)) <= INT_MAX) as Hsm by (unfold INT_MAX, ELF_USER_IMAGE_MAX in *; lia).
  exists (set_umem m k).
  destruct (small_result (Z.of_nat (length (cstr path)))) as [Hs32 Hnb]; [lia|].
  assert (ksys_getcwd k a n = (set_umem m k, Z.of_nat (length (cstr path)))) as Hk.
  { unfold ksys_getcwd. fold path. rewrite !(proj2 (Z.eqb_neq _ 0)), Hv by lia. cbn [orb negb].
    rewrite str_len_spec, u32_small by (unfold is_u32; unfold INT_MAX in *; lia).
    rewrite (proj2 (Z.ltb_ge _ _)) by lia. rewrite Hs32. done. }
  split; [|split].
  - unfold sys_getcwd. erewrite stub_call; [by rewrite Hs32|done|done|done|by rewrite entry_getcwd, Hk|done].
  - assert (fits a (Z.of_nat (length (cstr path ++ [0])))) as Hfit by (rewrite length_app; cbn; split; lia).
    apply store_law; [done|done|by split_and!| |by apply store_bytes_ok, Hi].
    intros x Hx. apply store_bytes_out; [done|]. rewrite length_app in *. cbn. lia.
  - change (umem (set_umem m k)) with m. rewrite <- (length_map u8 (cstr path)).
    apply bytes_at_load; [rewrite length_map; split; lia|]. intros i b Hb. rewrite list_lookup_fmap in Hb.
    destruct (cstr path !! i) as [c|] eqn:E; [|done]. injection Hb as <-. unfold m.
    apply store_bytes_in; [rewrite length_app; cbn; split; lia|].
    rewrite lookup_app_l by (by apply lookup_lt_Some in E). done.
Qed.

(** ** Opening *)

Context `{!MountFsLaws}.

Lemma copy_chars_string k n : forall a s,
  user_range k a (Z.of_nat (length s) + 1) -> kernel_inv k -> ring3_active k = true ->
  bytes_at (k_mem k) a (s ++ [0]) -> no_nul s -> (length s <= n)%nat -> copy_chars k a n = Some (s ++ [0]).
Proof using.
  induction n as [|n IH]; intros a s Hur Hi Hr Hb Hs Hn; [by destruct s; cbn in Hn; [|lia]|]. cbn [copy_chars].
  assert (user_range k a 1) as Hur1 by (apply (user_sub k a (Z.of_nat (length s) + 1)); try done; lia).
  destruct (range_user k a 1 Hi Hr Hur1) as (Hau & _ & _ & _ & _ & Hv & _). rewrite Hv. cbn [negb].
  unfold load. rewrite u32_small by done. destruct s as [|c s]; cbn [app] in *.
  - pose proof (Hb 0%nat 0 eq_refl) as H1'. rewrite Z.add_0_r in H1'. by rewrite H1'.
  - pose proof (Hb 0%nat c eq_refl) as H1'. rewrite Z.add_0_r in H1'. rewrite H1'.
    inversion Hs; subst. rewrite (proj2 (Z.eqb_neq _ 0)) by done. cbn [length] in *.
    destruct Hur as (? & ? & ? & Hvr).
    rewrite u32_small by lia. rewrite (IH (a + 1) s); [done| |done|done| |done|lia].
    + apply (user_sub k a (Z.of_nat (S (length s)) + 1)); try done; try lia.
    + intros i b Hib. replace (a + 1 + Z.of_nat i) with (a + Z.of_nat (S i)) by lia. by apply Hb.
Qed.

Lemma string_copied k a p :
  kernel_inv k -> ring3_active k = true -> string_at k a p -> Z.of_nat (length p) < 128 ->
  a <> 0 /\ copy_user_cstr k a 128 = Some (p ++ [0]).
Proof using.
  intros Hi Hr (Hb & Hn & Hur) Hl. destruct (range_user k a _ Hi Hr Hur) as (Hau & _).
  assert (0 < a) as Ha by apply Hur. split; [lia|]. unfold copy_user_cstr.
  rewrite (proj2 (Z.eqb_neq a 0)) by lia. change (128 =? 0) with false. cbn [orb].
  apply copy_chars_string; try done. lia.
Qed.

(** Every open of a string the kernel can copy, as a step. *)
Lemma open_step k a flags p k' r :
  kernel_inv k -> ring3_active k = true -> string_at k a p -> Z.of_nat (length p) < 128 ->
  ksys_open k a flags = (k', r) ->
  os_step nothing None [] k k' /\ - 512 < r <= INT_MAX /\
  match make_abs_path k (cwd_or_root k) (p ++ [0]) 128 with
  | None => r = ERR_INVAL
  | Some full =>
      let '(v1, touched) := tree_for_open k full flags in
      match touched, snd (vfs_read_file v1 (cwd_or_root k) full), fd_alloc_slot (fd_table k) with
      | true, Some (d, size), Some slot =>
          let v2 := fst (vfs_read_file v1 (cwd_or_root k) full) in
          r = ERR_INVAL /\ opens_for_write flags = true \/
          3 <= r /\ fd_file k r = None /\
          exists path, cstr path = take 127 (cstr full) /\
            fd_file k' r = Some {| uf_file := opened_file (load_bytes (vmem v2) d (Z.to_nat size)) flags;
              uf_read := negb (Z.land flags O_ACCMODE =? O_WRONLY); uf_write := opens_for_write flags;
              uf_dirty := opens_for_write flags && flag_set flags O_TRUNC; uf_path := path |}
      | true, Some _, None => r = ERR_NFILE
      | _, _, _ => r = ERR_INVAL
      end
  end.
Proof using All.
  intros Hi Hr Hs Hl Ho. destruct (string_copied k a p Hi Hr Hs Hl) as [Ha Hcp].
  destruct (open_user k a flags) as [Hsu Hout]. rewrite Ho in Hsu, Hout. cbn [fst] in Hsu, Hout.
  destruct (make_abs_path k (cwd_or_root k) (p ++ [0]) 128) as [full|] eqn:Ef.
  2:{ revert Ho. unfold ksys_open. rewrite (proj2 (Z.eqb_neq a 0)), Hcp, Ef by done. intros [= <- <-].
      split; [|done]. apply (step_of k); try done. symmetry. apply app_nil_r. }
  pose proof (open_gives k a flags _ full k' r Hi Ha Hcp Ef Ho) as Hg.
  destruct (tree_for_open k full flags) as [v1 touched]. destruct Hg as (Hcase & Hi' & Hm & Hoth).
  pose proof (hi_current _ (vi_heap _ (ki_vfs _ Hi))) as Hcur. cbn [vheap vfs_of] in Hcur.
  assert (k_pid k' = k_pid k) as Hpid by (unfold k_pid; by destruct Hsu as (_ & -> & _)).
  split; [|].
  { apply (step_of k); try done.
    - intros x Hx _. apply Hm. lia.
    - rewrite Hout. symmetry. apply app_nil_r.
    - intros fd e _ He. by apply Hoth. }
  destruct touched; [|by rewrite Hcase].
  destruct (snd (vfs_read_file v1 _ full)) as [[d size]|]; [|by rewrite Hcase].
  destruct (fd_alloc_slot (fd_table k)) as [slot|] eqn:Ea; [|by rewrite Hcase].
  destruct Hcase as [(-> & Hw)|(-> & Hno & e0 & e2 & Hl0 & He2 & Hw2 & Hr2 & Hd2 & Hp2 & Hfile)]; [by split; [|left]|].
  pose proof He2 as (Hrange & _)%entry_for_iff. split; [unfold INT_MAX; lia|]. right. split; [lia|].
  split; [cbn; by rewrite Hno|]. exists (fd_path e2). split.
  - rewrite Hp2, str_copy_cstr; [done|]. rewrite fd_reset_path_length. lia.
  - cbn. rewrite Hpid, He2. cbn. unfold ufile_of. by rewrite Hfile, Hr2, Hw2, Hd2.
Qed.

Lemma open_returns k a flags k' r :
  ksys_open k a flags = (k', r) -> - 512 < r <= INT_MAX -> sys_open k a flags = Some (k', r).
Proof using.
  intros Ho [Hs32 Hnb]%small_result. unfold sys_open.
  erewrite stub_call; [by rewrite Hs32|done|done|done|rewrite entry_open; by rewrite Ho|done].
Qed.

Lemma open_read_law k a p :
  kernel_inv k -> ring3_active k = true -> string_at k a p -> Z.of_nat (length p) < 128 ->
  exists k' r, sys_open k a 0 = Some (k', r) /\ os_step nothing None [] k k' /\
    match path_file k p, fd_free k with
    | Some bytes, true => 3 <= r <= INT_MAX /\ fd_file k r = None /\
        exists path, fd_file k' r = Some {| uf_file := {| contents := bytes; pos := 0 |};
          uf_read := true; uf_write := false; uf_dirty := false; uf_path := path |}
    | _, _ => r < 0
    end.
Proof using All.
  intros Hi Hr Hs Hl. destruct (ksys_open k a 0) as [k' r] eqn:Ho.
  destruct (open_step k a 0 p k' r Hi Hr Hs Hl Ho) as (Hst & Hrange & Hcase).
  exists k', r. split; [by apply open_returns|]. split; [done|].
  cbn [path_file kernel_view fd_free].
  destruct (make_abs_path k (cwd_or_root k) (p ++ [0]) 128) as [full|]; cbn [mbind option_bind]; [|by rewrite Hcase].
  change (tree_for_open k full 0) with (vfs_of k, true) in Hcase. cbn beta iota zeta in Hcase.
  destruct (vfs_read_file (vfs_of k) (cwd_or_root k) full) as [v2 rd]. cbn [fst snd] in Hcase.
  destruct rd as [[d size]|]; cbn [mbind option_bind]; [|by rewrite Hcase].
  destruct (fd_alloc_slot (fd_table k)) as [slot|]; [|by rewrite bool_decide_eq_false_2, Hcase by (intros [? ?]; done)].
  rewrite bool_decide_eq_true_2 by (by eexists).
  destruct Hcase as [[_ ?]|(Hr3 & Hno & path & _ & Hf)]; [done|].
  split; [lia|]. split; [done|]. by exists path.
Qed.

Lemma open_write_law k a p :
  kernel_inv k -> ring3_active k = true -> string_at k a p -> Z.of_nat (length p) < 128 -> chr p = 47 ->
  exists k' r, sys_open k a (Z.lor (Z.lor SLOP_O_WRONLY SLOP_O_CREAT) SLOP_O_TRUNC) = Some (k', r) /\
    os_step nothing None [] k k' /\
    (r < 0 \/ 3 <= r <= INT_MAX /\ fd_file k r = None /\
      exists path, cstr path = p /\ fd_file k' r = Some {| uf_file := {| contents := []; pos := 0 |};
        uf_read := false; uf_write := true; uf_dirty := true; uf_path := path |}).
Proof using All.
  intros Hi Hr Hs Hl Habs. set (flags := Z.lor _ _). destruct (ksys_open k a flags) as [k' r] eqn:Ho.
  destruct (open_step k a flags p k' r Hi Hr Hs Hl Ho) as (Hst & Hrange & Hcase).
  exists k', r. split; [by apply open_returns|]. split; [done|].
  destruct Hs as (_ & Hnul & _).
  assert (cstr (p ++ [0]) = p) as Hcp by (by apply cstr_app_nul).
  assert (make_abs_path k (cwd_or_root k) (p ++ [0]) 128 = Some p) as Hfull.
  { unfold make_abs_path. assert (chr (p ++ [0]) = 47) as -> by (by destruct p).
    change (128 =? 0) with false. change (47 =? 47) with true. cbn iota.
    rewrite str_copy_fresh, Hcp, take_ge by lia. done. }
  rewrite Hfull in Hcase.
  destruct (tree_for_open k p flags) as [v1 touched].
  assert (r = ERR_INVAL \/ r = ERR_NFILE -> r < 0) as Herr by (unfold ERR_INVAL, ERR_NFILE; lia).
  destruct touched; [|left; auto].
  destruct (snd (vfs_read_file v1 _ p)) as [[d size]|]; [|left; auto].
  destruct (fd_alloc_slot (fd_table k)) as [slot|]; [|left; auto].
  destruct Hcase as [[? _]|(Hr3 & Hno & path & Hpath & Hf)]; [left; auto|right].
  split; [lia|]. split; [done|]. exists path. split; [|exact Hf].
  rewrite Hpath, cstr_id, take_ge by (done || lia). done.
Qed.

(** ** Closing *)

Lemma close_step k fd e :
  kernel_inv k -> ring3_active k = true -> entry_for k (k_pid k) fd = Some e ->
  exists k' r, sys_close k fd = Some (k', r) /\ os_step nothing (Some fd) [] k k' /\
    (r = ERR_INVAL /\ writable e && dirty e = true \/
     r = 0 /\ fd_file k' fd = None /\ fd_free k' = true /\
     (writable e && dirty e = true -> chr (fd_path e) = 47 -> Z.of_nat (length (cstr (fd_path e))) < 128 ->
        path_file k' (cstr (fd_path e)) = Some (fd_bytes k e))).
Proof using All.
  intros Hi Hr E. pose proof E as (Hrange & He & Hu & Hp)%entry_for_iff.
  assert (s32 (u32 fd) = fd) as Hs by (apply small_fd; unfold INT_MAX; lia).
  destruct (close_gives k fd e Hi E) as (k' & r & Hc & Hi' & Hm & Hoth & Hcase).
  destruct (close_user k fd) as (Hsu & Hout & Hcw). rewrite Hc in Hsu, Hout, Hcw. cbn [fst] in Hsu, Hout, Hcw.
  assert (- 512 < r <= INT_MAX) as [Hs32 Hnb]%small_result
    by (unfold ERR_INVAL, INT_MAX in *; destruct Hcase as [[-> _]|[-> _]]; lia).
  pose proof (hi_current _ (vi_heap _ (ki_vfs _ Hi))) as Hcur. cbn [vheap vfs_of] in Hcur.
  assert (k_pid k' = k_pid k) as Hpid by (unfold k_pid; by destruct Hsu as (_ & -> & _)).
  exists k', r. split; [|split].
  - unfold sys_close. erewrite stub_call; [by rewrite Hs32|done|done|done|rewrite entry_close, Hs; by rewrite Hc|done].
  - apply (step_of k); try done.
    + intros x Hx _. apply Hm. lia.
    + rewrite Hout. symmetry. apply app_nil_r.
    + intros fd' e' Hne He'. destruct (Hoth (k_pid k) fd') as [Heq Hf]; [congruence|]. rewrite Heq. split; [done|by apply Hf].
  - destruct Hcase as [?|(-> & Hno & Hfree & Hwr)]; [by left|right]. split; [done|]. split.
    { cbn. rewrite Hpid. unfold open_file in Hno. by destruct (entry_for k' _ fd). }
    split; [by apply bool_decide_eq_true_2|]. intros Hd Habs Hlen. specialize (Hwr Hd).
    apply andb_true_iff in Hd as [Hw _].
    pose proof (ki_vfs _ Hi) as Hv. pose proof (vi_heap _ Hv) as Hh. cbn [vheap vfs_of] in Hh.
    destruct (fo_write _ _ (Forall_lookup_1 _ _ _ _ (fi_ok _ _ (ki_fds _ Hi)) He) Hu Hw) as ([? ?] & ? & _ & Hsz).
    cbn [vheap vfs_of] in *. pose proof (hi_start _ Hh). pose proof (hi_limit _ Hh).
    assert (is_u32 (Z.of_nat (length (fd_bytes k e)))) as Hlu
      by (unfold is_u32, fd_bytes; rewrite load_bytes_length; lia).
    assert (all_bytes (fd_bytes k e)) as Hby by (apply load_bytes_byte, Hi).
    assert (plain_path (fd_path e)) as Hpl.
    { left. destruct (fd_path e) as [|c t]; [done|]. cbn in Habs. subst c. cbn. constructor. }
    pose proof (cwd_or_root_node k Hi) as Hcwd.
    destruct (write_file_spec _ _ _ _ _ _ Hv Hcwd Hlu Hby Hwr) as (_ & Hg & _ & _ & Hmnt).
    destruct (Hmnt eq_refl) as [Hnm _]. unfold abs_check in Hnm. rewrite Habs in Hnm. cbn in Hnm.
    destruct (written_read _ _ _ _ _ Hv Hcwd Hpl Hlu Hby Hwr) as (n & _ & Hrd & Hl & _).
    assert (cwd_or_root k' = cwd_or_root k) as Hcr.
    { unfold cwd_or_root. rewrite Hcw. by rewrite (gr_root _ _ Hg : k_root k' = k_root k). }
    assert (make_abs_path k' (cwd_or_root k') (cstr (fd_path e) ++ [0]) 128 = Some (cstr (fd_path e))) as Hmk.
    { unfold make_abs_path. assert (chr (cstr (fd_path e) ++ [0]) = 47) as ->
        by (rewrite <- chr_cstr in Habs; by destruct (cstr (fd_path e))).
      change (128 =? 0) with false. change (47 =? 47) with true. cbn iota.
      rewrite str_copy_fresh, cstr_app_nul, take_ge by (apply cstr_no_nul || lia). done. }
    cbn [path_file kernel_view]. rewrite Hmk. cbn [mbind option_bind].
    pose proof (cwd_or_root_node k' Hi') as Hcwd'.
    destruct Hcwd' as [nc Hnc]. pose proof (node_nonzero _ _ _ (ki_vfs _ Hi') Hnc).
    destruct (vi_root _ (ki_vfs _ Hi')) as (nr & Hnr & _). pose proof (node_nonzero _ _ _ (ki_vfs _ Hi') Hnr).
    rewrite <- read_file_cstr by done.
    rewrite Hcr, Hrd. cbn [mbind option_bind]. by rewrite Nat2Z.id, Hl.
Qed.

Lemma close_read_law k fd f :
  kernel_inv k -> ring3_active k = true -> fd_file k fd = Some f -> uf_write f = false ->
  exists k', sys_close k fd = Some (k', 0) /\ os_step nothing (Some fd) [] k k' /\ fd_file k' fd = None.
Proof using All.
  intros Hi Hr Hf Hw. cbn in Hf. destruct (entry_for k (k_pid k) fd) as [e|] eqn:E; [|done].
  injection Hf as <-. cbn in Hw.
  destruct (close_step k fd e Hi Hr E) as (k' & r & Hc & Hst & [[_ Hd]|(-> & Hno & _)]);
    [by rewrite Hw in Hd|by exists k'].
Qed.

Lemma close_write_law k fd f :
  kernel_inv k -> ring3_active k = true -> fd_file k fd = Some f -> uf_write f = true -> chr (uf_path f) = 47 ->
  Z.of_nat (length (cstr (uf_path f))) < 128 ->
  exists k' r, sys_close k fd = Some (k', r) /\ os_step nothing (Some fd) [] k k' /\
    (r < 0 \/ r = 0 /\ fd_file k' fd = None /\ fd_free k' = true /\
      (uf_dirty f = true -> path_file k' (cstr (uf_path f)) = Some (contents (uf_file f)))).
Proof using All.
  intros Hi Hr Hf Hw Habs Hlen. cbn in Hf. destruct (entry_for k (k_pid k) fd) as [e|] eqn:E; [|done].
  injection Hf as <-. cbn [uf_write uf_path ufile_of] in *.
  destruct (close_step k fd e Hi Hr E) as (k' & r & Hc & Hst & [[-> _]|(-> & Hno & Hfree & Hp)]);
    exists k'; [exists ERR_INVAL|exists 0]; (split; [done|split; [done|]]); [by left|right].
  split; [done|]. split; [done|]. split; [done|]. cbn [uf_dirty uf_file ufile_of contents file_of].
  intros Hd. apply Hp; [by rewrite Hw, Hd|done|done].
Qed.

(** The kernel keeps the promises of Usys.v. *)
#[export] Instance kernel_laws : UserOsLaws kernel.
Proof using All.
  constructor.
  - intros k [Hi _]. apply Hi.
  - intros k a n [Hi Hr] Hur. destruct (range_user k a n Hi Hr Hur) as (_ & _ & _ & _ & ? & _). destruct Hur. lia.
  - intros k a n b m [Hi Hr]. by apply user_sub.
  - done.
  - done.
  - intros k m a n [Hi Hr]. by apply store_law.
  - intros k fd a n [Hi Hr]. by apply print_law.
  - intros k fd a n f [Hi Hr]. by apply read_law.
  - intros k fd a n f [Hi Hr]. by apply write_law.
  - intros k a p [Hi Hr]. by apply open_read_law.
  - intros k a p [Hi Hr]. by apply open_write_law.
  - intros k fd f [Hi Hr]. by apply close_read_law.
  - intros k fd f [Hi Hr]. by apply close_write_law.
  - intros k a n [Hi Hr]. by apply getcwd_law.
Qed.

(** C4: The kernel behaves to a program as Usys.v promises: through [int 0x80]
    and the stub, with any Linker and any mounted file system, printing sends
    the bytes to the screen; reading and writing an open descriptor are reading
    and writing an abstract file at its position; opening gives the contents of
    the path, or an empty file, on a descriptor that was free; closing a written
    file leaves exactly its contents at its path; a store of the program into its
    own memory is only that.  Every such step keeps the invariant of the kernel,
    the program's memory outside the buffer of the call, and its other files. *)
Theorem kernel_user_os : @UserOsLaws kernel kernel_os kernel_view.
Proof using All. exact kernel_laws. Qed.

End kernel_os.
