(* ===== verification/UProgSpec.v ===== *)
(** * UProgSpec: what the programs print and what they leave in files

    The programs of UPrograms.v against [UserOsLaws]: [cat] prints a file,
    [pwd] the current directory, [writetest] saves its text, and the helpers
    print strings and numbers. *)
From S2P Require Import Prelude KernelH Util Memory Varargs Elf Vfs VfsTree FdTable Files Usys UPrograms.
Local Open Scope Z_scope.
Local Open Scope slop_scope.

Section steps.
Context {K : Type} `{!UserOs K} `{!OsView K}.
Implicit Types k : K.

(** ** Steps *)

Lemma step_trans t1 t2 fd o1 o2 k k1 k2 :
  os_step t1 fd o1 k k1 -> os_step t2 fd o2 k1 k2 ->
  os_step (fun x => t1 x \/ t2 x) fd (o1 ++ o2) k k2.
Proof using.
  intros [Hok1 Hr1 Hm1 Hb1 Ho1 Hf1] [Hok2 Hr2 Hm2 Hb2 Ho2 Hf2]. constructor; try done.
  - intros a n. by rewrite Hr2, Hr1.
  - intros x Hx Ht. rewrite Hm2; [apply Hm1|apply Hr1|]; tauto.
  - by rewrite Ho2, Ho1, app_assoc.
  - intros fd' f Hne Hf. auto.
Qed.

Lemma step_weaken t t' fd fd' o k k' :
  os_step t fd o k k' -> (forall x, t x -> t' x) -> (fd = None \/ fd = fd') -> os_step t' fd' o k k'.
Proof using.
  intros [Hok Hr Hm Hb Ho Hf] Ht Hfd. constructor; try done.
  - intros x Hx Hn. apply Hm; auto.
  - intros fd2 f Hne Hff. apply Hf; [|done]. destruct Hfd as [-> | ->]; done.
Qed.

(** A second step behind the first, both within [t]. *)
Lemma step_then t t1 t2 fd fd1 fd2 o1 o2 k k1 k2 :
  os_step t1 fd1 o1 k k1 -> os_step t2 fd2 o2 k1 k2 ->
  (forall x, t1 x -> t x) -> (forall x, t2 x -> t x) ->
  (fd1 = None \/ fd1 = fd) -> (fd2 = None \/ fd2 = fd) -> os_step t fd (o1 ++ o2) k k2.
Proof using.
  intros H1' H2' Ht1 Ht2 Hf1 Hf2.
  apply (step_weaken (fun x => t x \/ t x) t fd fd); [|tauto|by right].
  eapply step_trans; [eapply (step_weaken t1)|eapply (step_weaken t2)]; eauto.
Qed.

End steps.

(** Joins two steps, each within the third's limits. *)
Ltac step_side := first [by left | by right | by intros ? [] | by intros].
Ltac step_join H1 H2 := eapply (step_then _ _ _ _ _ _ _ _ _ _ _ H1 H2); step_side.

Section laws.
Context {K : Type} `{!UserOs K} `{!OsView K} `{!UserOsLaws K}.
Implicit Types k : K.

Lemma step_refl k : os_ok k -> os_step nothing None [] k k.
Proof using UserOsLaws0.
  intros Hok. constructor; try done; [by apply ol_bytes|symmetry; apply app_nil_r].
Qed.

Lemma step_range t fd o k k' a n : os_step t fd o k k' -> user_range k a n -> user_range k' a n.
Proof using. intros Hs Hr. by apply (st_range _ _ _ _ _ Hs). Qed.

(** What a step does not touch keeps its bytes. *)
Lemma step_bytes t fd o k k' a n :
  os_ok k -> os_step t fd o k k' -> user_range k a n -> (forall x, a <= x < a + n -> ~ t x) ->
  forall x, a <= x < a + n -> umem k' x = umem k x.
Proof using UserOsLaws0.
  intros Hok Hs Hr Ht x Hx. apply (st_mem _ _ _ _ _ Hs); [|by apply Ht].
  eapply ol_sub; [done|exact Hr|lia..].
Qed.

Lemma step_bytes_at t fd o k k' a l :
  os_ok k -> os_step t fd o k k' -> user_range k a (Z.of_nat (length l)) ->
  (forall x, a <= x < a + Z.of_nat (length l) -> ~ t x) ->
  bytes_at (umem k) a l -> bytes_at (umem k') a l.
Proof using UserOsLaws0.
  intros Hok Hs Hr Ht Hb i b Hi. pose proof (lookup_lt_Some _ _ _ Hi).
  destruct (ol_range k a _ Hok Hr) as (? & ? & ?). rewrite <- (Hb i b Hi).
  eapply step_bytes; [done|exact Hs|exact Hr|exact Ht|lia].
Qed.

Lemma step_load_bytes t fd o k k' a n :
  os_ok k -> os_step t fd o k k' -> user_range k a (Z.of_nat n) ->
  (forall x, a <= x < a + Z.of_nat n -> ~ t x) ->
  load_bytes (umem k') a n = load_bytes (umem k) a n.
Proof using UserOsLaws0.
  intros Hok Hs Hr Ht. destruct (ol_range k a _ Hok Hr) as (? & ? & ?).
  apply load_bytes_ext; [split; lia|]. intros x Hx. eapply step_bytes; [done|exact Hs|exact Hr|exact Ht|lia].
Qed.

(** A string stays where it is when the step leaves its bytes alone. *)
Definition spares (t : Z -> Prop) (a n : Z) : Prop := forall x, a <= x < a + n -> ~ t x.

Lemma spares_nothing a n : spares nothing a n.
Proof using. intros x _ []. Qed.

Lemma spares_buf b m a n : (a + n <= b \/ b + m <= a) -> spares (in_buf b m) a n.
Proof using. unfold spares, in_buf. lia. Qed.

Lemma spares_sub t a n b m : spares t a n -> a <= b -> b + m <= a + n -> spares t b m.
Proof using. unfold spares. intros Hs Hab Hbm x Hx. apply Hs. lia. Qed.

Lemma step_string t fd o k k' a s :
  os_ok k -> os_step t fd o k k' -> spares t a (Z.of_nat (length s) + 1) ->
  string_at k a s -> string_at k' a s.
Proof using UserOsLaws0.
  intros Hok Hs Ht (Hb & Hn & Hr). split; [|split; [done|by eapply step_range]].
  assert (Z.of_nat (length (s ++ [0])) = Z.of_nat (length s) + 1) as Hl by (rewrite length_app; cbn; lia).
  eapply step_bytes_at; [done|exact Hs|by rewrite Hl| |done]. rewrite Hl. exact Ht.
Qed.

(** ** Strings *)

Lemma cstr_len_at k a s : os_ok k -> string_at k a s -> cstr_len (umem k) a = Some (Z.of_nat (length s)).
Proof using UserOsLaws0.
  intros Hok (Hb & Hn & Hr). destruct (ol_range k a _ Hok Hr) as (Ha & Hmx & Hf).
  unfold cstr_len. rewrite (proj2 (Z.eqb_neq a 0)) by lia.
  assert (forall turns i, (i <= length s)%nat -> (length s - i < turns)%nat ->
    cstr_len_loop turns (umem k) a (Z.of_nat i) = Some (Z.of_nat (length s))) as Hloop.
  { induction turns as [|turns IH]; intros i Hi Ht; [lia|]. cbn [cstr_len_loop].
    unfold load. rewrite (u32_small (a + _)) by (unfold is_u32; lia).
    destruct (decide (i = length s)) as [->|Hne].
    - rewrite (Hb (length s) 0) by (by rewrite lookup_app_r, Nat.sub_diag by lia). done.
    - destruct (lookup_lt_is_Some_2 s i) as [c Hc]; [lia|].
      rewrite (Hb i c) by (by rewrite lookup_app_l by lia).
      rewrite (proj2 (Z.eqb_neq c 0)) by (by apply (Forall_lookup_1 _ _ _ _ Hn Hc)).
      rewrite u32_small by lia. replace (Z.of_nat i + 1) with (Z.of_nat (S i)) by lia.
      apply IH; lia. }
  apply (Hloop _ 0%nat); lia.
Qed.

Lemma string_bytes k a s : os_ok k -> string_at k a s -> load_bytes (umem k) a (length s) = s.
Proof using UserOsLaws0.
  intros Hok (Hb & _ & Hr). destruct (ol_range k a _ Hok Hr) as (Ha & Hmx & Hf).
  apply bytes_at_load; [split; lia|]. by apply bytes_at_app in Hb as [Hb _].
Qed.

Lemma string_range k a s :
  os_ok k -> string_at k a s -> s <> [] -> user_range k a (Z.of_nat (length s)).
Proof using UserOsLaws0.
  intros Hok (_ & _ & Hr) Hs. eapply ol_sub; [done|exact Hr|lia| |lia]. destruct s; cbn; [done|lia].
Qed.

(** ** Printing *)

(** One [sys_write] to the console, of no more than it takes at once. *)
Lemma print_bytes k fd a n :
  os_ok k -> fd = 1 \/ fd = 2 -> user_range k a n -> n <= write_max ->
  exists k', sys_write k fd a n = Some (k', n) /\
    os_step nothing None (load_bytes (umem k) a (Z.to_nat n)) k k' /\
    forall p, path_file k' p = path_file k p.
Proof using UserOsLaws0.
  intros Hok Hfd Hr Hn. destruct (ol_print k fd a n Hok Hfd Hr) as (k' & Hw & Hs & Hp).
  exists k'. rewrite Z.min_r in Hw, Hs by done. done.
Qed.

(** [slop_write_all] to the console prints everything, in as many calls as it
    takes. *)
Lemma write_all_prints k fd a n :
  os_ok k -> fd = 1 \/ fd = 2 -> user_range k a n ->
  exists k', slop_write_all k fd a n = Some (k', 0) /\
    os_step nothing None (load_bytes (umem k) a (Z.to_nat n)) k k'.
Proof using UserOsLaws0.
  intros Hok Hfd Hr. destruct (ol_range k a n Hok Hr) as (Ha & Hmx & Hf).
  assert (forall turns k1 off, 0 <= off <= n -> n - off < Z.of_nat turns ->
    os_step nothing None (load_bytes (umem k) a (Z.to_nat off)) k k1 ->
    exists k', write_all_loop turns k1 fd a off n = Some (k', 0) /\
      os_step nothing None (load_bytes (umem k) a (Z.to_nat n)) k k') as Hloop.
  { induction turns as [|turns IH]; intros k1 off Hoff Ht Hs; [lia|]. cbn [write_all_loop].
    destruct (off <? n) eqn:E; zify_bool; [|assert (off = n) as -> by lia; by exists k1].
    rewrite !u32_small by (unfold is_u32, ELF_USER_IMAGE_MAX in *; lia).
    assert (user_range k (a + off) (n - off)) as Hr1 by (eapply ol_sub; [done|exact Hr|lia..]).
    pose proof (st_ok _ _ _ _ _ Hs) as Hok1.
    destruct (ol_print k1 fd (a + off) (n - off) Hok1 Hfd) as (k2 & -> & Hs2 & _); [by eapply step_range|].
    cbn [mbind option_bind]. pose proof (ol_max (K := K)) as Hwm. set (rc := Z.min _ _) in *.
    rewrite (proj2 (Z.leb_gt rc 0)) by lia. rewrite u32_small by (unfold is_u32, ELF_USER_IMAGE_MAX in *; lia).
    apply IH; [lia|lia|].
    assert (load_bytes (umem k1) (a + off) (Z.to_nat rc) = load_bytes (umem k) (a + off) (Z.to_nat rc)) as Hl.
    { eapply step_load_bytes; [done|exact Hs| |apply spares_nothing].
      eapply ol_sub; [done|exact Hr1|lia..]. }
    rewrite Hl in Hs2. replace (Z.to_nat (off + rc)) with (Z.to_nat off + Z.to_nat rc)%nat by lia.
    assert (load_bytes (umem k) a (Z.to_nat off + Z.to_nat rc) =
            load_bytes (umem k) a (Z.to_nat off) ++ load_bytes (umem k) (a + off) (Z.to_nat rc)) as ->.
    { rewrite load_bytes_add, Z2Nat.id by lia. done. }
    step_join Hs Hs2. }
  unfold slop_write_all. apply Hloop; [lia|lia|].
  exact (step_refl k Hok).
Qed.

(** A step that only changes a descriptor that was free. *)
Lemma step_fresh t fd o k k' : os_step t (Some fd) o k k' -> fd_file k fd = None -> os_step t None o k k'.
Proof using.
  intros [Hok Hr Hm Hb Ho Hf] Hno. constructor; try done.
  intros fd' f _ Hff. apply Hf; [|done]. intros [= ->]. congruence.
Qed.

Lemma write_str_prints k a s :
  os_ok k -> string_at k a s -> s <> [] -> Z.of_nat (length s) <= 512 ->
  exists k', write_str k a = Some k' /\ os_step nothing None s k k' /\
    forall p, path_file k' p = path_file k p.
Proof using UserOsLaws0.
  intros Hok Hs Hne Hl. pose proof (ol_max (K := K)).
  unfold write_str. rewrite (cstr_len_at k a s Hok Hs). cbn [mbind option_bind].
  destruct (print_bytes k 1 a (Z.of_nat (length s)) Hok) as (k' & -> & Hst & Hp);
    [by left|by apply string_range|lia|].
  exists k'. split; [done|]. split; [|done]. by rewrite Nat2Z.id, string_bytes in Hst.
Qed.

End laws.

Section programs.
Context {K : Type} `{!UserOs K} `{!OsView K} `{!UserOsLaws K} `{!ProgPlaces}.
Implicit Types k : K.

(** The string constants are where the compiler put them, and a step that
    spares them keeps them. *)
Definition text_in k (t : list Z) : Prop := string_at k (text_at t) t.
Definition text_spared (T : Z -> Prop) (t : list Z) : Prop :=
  spares T (text_at t) (Z.of_nat (length t) + 1).

Lemma step_text T fd o k k' t :
  os_ok k -> os_step T fd o k k' -> text_spared T t -> text_in k t -> text_in k' t.
Proof using UserOsLaws0. intros. eapply step_string; eauto. Qed.

(** A step that spares an argument keeps it. *)
Lemma step_arg T fd o k k' argv i :
  os_ok k -> os_step T fd o k k' -> user_range k (argv + 4 * i) 4 -> spares T (argv + 4 * i) 4 ->
  arg k' argv i = arg k argv i.
Proof using UserOsLaws0.
  intros Hok Hs Hr Hsp. destruct (ol_range k _ _ Hok Hr) as (? & ? & ?).
  unfold arg, load_u32, load. rewrite !u32_small by lia.
  by rewrite !(step_bytes _ _ _ _ _ _ _ Hok Hs Hr Hsp) by lia.
Qed.

Lemma say_prints k t :
  os_ok k -> text_in k t -> t <> [] -> Z.of_nat (length t) <= 512 ->
  exists k', say k t = Some k' /\ os_step nothing None t k k' /\
    forall p, path_file k' p = path_file k p.
Proof using UserOsLaws0. intros. by apply write_str_prints. Qed.

Lemma fail_prints k t :
  os_ok k -> text_in k t -> t <> [] -> Z.of_nat (length t) <= 512 ->
  exists k', fail_with k t = Some (k', 1) /\ os_step nothing None t k k'.
Proof using UserOsLaws0.
  intros. destruct (say_prints k t) as (k' & Hk & Hs & _); [done..|]. exists k'. split; [|done].
  unfold fail_with. by rewrite Hk.
Qed.

(** [sys_write(1, "\n", 1u)] *)
Lemma newline_prints k :
  os_ok k -> text_in k [10] ->
  exists k', sys_write k 1 (text_at [10]) 1 = Some (k', 1) /\ os_step nothing None [10] k k'.
Proof using UserOsLaws0.
  intros Hok Ht. pose proof (ol_max (K := K)).
  destruct (print_bytes k 1 (text_at [10]) 1 Hok) as (k' & Hw & Hs & _);
    [by left|by apply (string_range k _ [10])|lia|].
  exists k'. split; [done|]. pose proof (string_bytes k _ [10] Hok Ht) as Hb.
  change (Z.to_nat 1) with (length [10]) in Hs. by rewrite Hb in Hs.
Qed.

(** ** Numbers *)

Lemma write_char_prints k c :
  os_ok k -> user_range k char_at 1 -> is_byte c ->
  exists k', write_char k c = Some k' /\ os_step (in_buf char_at 1) None [c] k k'.
Proof using UserOsLaws0.
  intros Hok Hr Hc. pose proof (ol_max (K := K)). destruct (ol_range k _ _ Hok Hr) as (? & ? & ?).
  unfold write_char. set (m := store (umem k) char_at c).
  assert (os_step (in_buf char_at 1) None [] k (set_umem m k)) as Hs1.
  { apply ol_store; [done|done| |by apply store_ok, ol_bytes].
    apply (same_outside_store _ _ [c]). cbn. split; lia. }
  pose proof (st_ok _ _ _ _ _ Hs1) as Hok1.
  destruct (print_bytes (set_umem m k) 1 char_at 1 Hok1) as (k' & -> & Hs2 & _);
    [by left|by eapply step_range|lia|].
  exists k'. split; [done|]. rewrite ol_get in Hs2.
  assert (load_bytes m char_at (Z.to_nat 1) = [c]) as Hb
    by (apply (load_store_bytes (umem k) char_at [c]); [cbn; split; lia|by constructor]).
  rewrite Hb in Hs2. change [c] with ([] ++ [c]). step_join Hs1 Hs2.
Qed.

Lemma write_digits_prints buf i : forall k,
  os_ok k -> user_range k char_at 1 -> all_bytes buf -> (i <= length buf)%nat ->
  exists k', write_digits i k buf = Some k' /\ os_step (in_buf char_at 1) None (rev (take i buf)) k k'.
Proof using UserOsLaws0.
  induction i as [|i IH]; intros k Hok Hr Hb Hi; cbn [write_digits].
  { exists k. split; [done|]. eapply step_weaken; [by apply step_refl|by intros ? []|by left]. }
  destruct (lookup_lt_is_Some_2 buf i Hi) as [c Hc].
  rewrite (nth_lookup_Some buf i 0 c Hc), (take_S_r _ _ _ Hc), rev_app_distr. cbn [rev app].
  destruct (write_char_prints k c Hok Hr) as (k1 & -> & Hs1); [exact (Forall_lookup_1 _ _ _ _ Hb Hc)|].
  destruct (IH k1) as (k2 & Hk2 & Hs2); [apply Hs1|by eapply step_range|done|lia|].
  exists k2. split; [exact Hk2|]. rewrite <- (app_nil_l (rev _)), app_comm_cons. step_join Hs1 Hs2.
Qed.

(** [write_u32] prints the decimal number. *)
Lemma write_u32_prints k v :
  os_ok k -> user_range k char_at 1 -> text_in k (lit "0") -> is_u32 v ->
  exists k', write_u32 k v = Some k' /\ os_step (in_buf char_at 1) None (u32_text v) k k'.
Proof using UserOsLaws0.
  intros Hok Hr Ht Hv. unfold write_u32, u32_text, console_print_u32_dec.
  destruct (v =? 0).
  - pose proof (ol_max (K := K)).
    destruct (print_bytes k 1 (text_at (lit "0")) 1 Hok) as (k' & -> & Hs & _);
      [by left|by apply (string_range k _ (lit "0"))|lia|].
    exists k'. split; [done|]. pose proof (string_bytes k _ _ Hok Ht) as Hb.
    change (Z.to_nat 1) with (length (lit "0")) in Hs. rewrite Hb in Hs.
    eapply step_weaken; [exact Hs|by intros ? []|by left].
  - set (buf := dec_digits_rev 10 v).
    destruct (write_digits_prints buf (length buf) k Hok Hr) as (k' & -> & Hs); [|lia|].
    { unfold is_u32 in Hv. pose proof (dec_digits_digit 10 v ltac:(lia)) as Hd. fold buf in Hd.
      revert Hd. apply Forall_impl. intros c. unfold is_digit, is_byte. lia. }
    exists k'. split; [done|]. by rewrite take_ge in Hs.
Qed.

(** [write_cell] prints it at the right end of a column; a number that is too
    wide is printed whole. *)
Lemma write_spaces_prints n : forall k,
  os_ok k -> text_in k (lit " ") ->
  exists k', write_spaces k n = Some k' /\ os_step nothing None (replicate n 32) k k'.
Proof using UserOsLaws0.
  induction n as [|n IH]; intros k Hok Ht; cbn [write_spaces].
  { exists k. split; [done|by apply step_refl]. }
  pose proof (ol_max (K := K)).
  destruct (print_bytes k 1 (text_at (lit " ")) 1 Hok) as (k1 & -> & Hs & _);
    [by left|by apply (string_range k _ (lit " "))|lia|].
  change (Z.to_nat 1) with (length (lit " ")) in Hs. rewrite (string_bytes k _ _ Hok Ht) in Hs.
  cbn [mbind option_bind].
  destruct (IH k1) as (k2 & Hk2 & Hs2); [apply Hs|eapply step_text; [done|exact Hs|apply spares_nothing|done]|].
  exists k2. split; [exact Hk2|]. change (replicate (S n) 32) with (lit " " ++ replicate n 32). step_join Hs Hs2.
Qed.

Lemma write_cell_prints k v width :
  os_ok k -> user_range k char_at 1 -> text_in k (lit "0") -> text_in k (lit " ") -> is_u32 v ->
  exists k', write_cell k v width = Some k' /\
    os_step (in_buf char_at 1) None
      (replicate (Z.to_nat (width - Z.of_nat (length (u32_text v)))) 32 ++ u32_text v) k k'.
Proof using UserOsLaws0.
  intros Hok Hr H0 Hsp Hv.
  set (pad := Z.to_nat (width - Z.of_nat (length (u32_text v)))).
  assert (write_cell k v width = k ← write_spaces k pad; write_u32 k v) as ->.
  { unfold write_cell, pad, write_u32, u32_text, console_print_u32_dec. destruct (v =? 0) eqn:E.
    - change (Z.of_nat (length [48])) with 1. destruct (1 <? width) eqn:Ew; zify_bool; [done|].
      by replace (Z.to_nat (width - 1)) with 0%nat by lia.
    - rewrite length_rev. destruct (_ <? width) eqn:Ew; zify_bool; [done|].
      by replace (Z.to_nat (width - _)) with 0%nat by lia. }
  destruct (write_spaces_prints pad k Hok Hsp) as (k1 & -> & Hs1). cbn [mbind option_bind].
  destruct (write_u32_prints k1 v) as (k2 & Hk2 & Hs2); [apply Hs1|by eapply step_range| |done|].
  { eapply step_text; [done|exact Hs1|apply spares_nothing|done]. }
  exists k2. split; [exact Hk2|]. step_join Hs1 Hs2.
Qed.

(** ** [cat] *)

Definition rest_of (f : file) : list Z := drop (pos f) (contents f).

Lemma cat_loop_prints turns : forall k fd f,
  os_ok k -> user_range k main_buf 128 -> fd_file k fd = Some f -> uf_read f = true ->
  Z.of_nat (length (rest_of (uf_file f))) + 128 <= 128 * Z.of_nat turns ->
  exists k' f', cat_loop turns k fd = Some k' /\
    os_step (in_buf main_buf 128) (Some fd) (rest_of (uf_file f)) k k' /\
    fd_file k' fd = Some f' /\ uf_write f' = uf_write f.
Proof using UserOsLaws0.
  induction turns as [|turns IH]; intros k fd f Hok Hbuf Hf Hr Ht; [lia|]. cbn [cat_loop].
  pose proof (ol_read k fd main_buf 128 f Hok Hf Hr Hbuf) as Hread.
  unfold file_read in Hread. fold (rest_of (uf_file f)) in Hread.
  set (out := take (Z.to_nat 128) (rest_of (uf_file f))) in *.
  destruct Hread as (k1 & -> & Hs1 & Hl & Hf1). cbn [mbind option_bind].
  assert (length out = Nat.min 128 (length (rest_of (uf_file f)))) as Hlen by apply length_take.
  destruct (Z.of_nat (length out) <=? 0) eqn:E; zify_bool.
  { assert (rest_of (uf_file f) = []) as -> by (apply nil_length_inv; lia).
    eexists k1, _. split; [done|]. split; [done|]. split; [exact Hf1|done]. }
  rewrite u32_small by lia. pose proof (ol_max (K := K)).
  pose proof (st_ok _ _ _ _ _ Hs1) as Hok1.
  assert (user_range k1 main_buf 128) as Hbuf1 by (by eapply step_range).
  destruct (print_bytes k1 1 main_buf (Z.of_nat (length out)) Hok1) as (k2 & -> & Hs2 & _);
    [by left|eapply ol_sub; [done|exact Hbuf1|lia..]|lia|].
  cbn [mbind option_bind]. rewrite Nat2Z.id, Hl in Hs2.
  destruct (IH k2 fd (with_file {| contents := contents (uf_file f); pos := pos (uf_file f) + length out |} f))
    as (k' & f' & Hc & Hs3 & Hf3 & Hw3).
  - apply Hs2.
  - by eapply step_range.
  - by apply (st_fds _ _ _ _ _ Hs2).
  - done.
  - cbn. unfold rest_of in *. cbn. rewrite length_drop in *. lia.
  - exists k', f'. split; [done|]. split; [|by split].
    assert (rest_of (uf_file f) = [] ++ out ++ rest_of {| contents := contents (uf_file f); pos := pos (uf_file f) + length out |}) as ->.
    { unfold out, rest_of. cbn. rewrite <- (take_drop 128 (drop (pos (uf_file f)) (contents (uf_file f)))) at 1.
      f_equal. rewrite drop_drop, length_take, length_drop. unfold rest_of in *.
      rewrite length_drop in *.
      destruct (decide (length (contents (uf_file f)) - pos (uf_file f) <= 128)%nat).
      - by rewrite !drop_ge by lia.
      - f_equal. lia. }
    assert (os_step (in_buf main_buf 128) (Some fd) (out ++ rest_of {| contents := contents (uf_file f); pos := pos (uf_file f) + length out |}) k1 k')
      as Hs23 by step_join Hs2 Hs3.
    step_join Hs1 Hs23.
Qed.

(** What [cat] prints, and what it returns. *)
Definition cat_says k (argc : Z) (p : list Z) : list Z * Z :=
  if argc <? 2 then (line "cat: usage cat PATH", 1)
  else match path_file k p, fd_free k with
       | Some bytes, true => (bytes ++ [10], 0)
       | _, _ => (line "cat: no such file", 1)
       end.

(** C7: [cat PATH] ends, and it prints exactly the bytes of the file and a
    newline, whatever the file's length; without an argument it prints its
    usage, without such a file (or without a free descriptor) that there is none.
    It leaves the other open files alone and changes nothing of the program's
    memory but its buffer. *)
Theorem cat_prints turns k argc argv p :
  os_ok k -> user_range k main_buf 128 -> text_spared (in_buf main_buf 128) [10] ->
  Forall (text_in k) [[10]; line "cat: usage cat PATH"; line "cat: no such file"] ->
  (2 <= argc -> string_at k (arg k argv 1) p /\ Z.of_nat (length p) < 128) ->
  (forall bytes, path_file k p = Some bytes -> Z.of_nat (length bytes) + 128 <= 128 * Z.of_nat turns) ->
  exists k', cat_main turns k argc argv = Some (k', snd (cat_says k argc p)) /\
    os_step (in_buf main_buf 128) None (fst (cat_says k argc p)) k k'.
Proof using UserOsLaws0.
  intros Hok Hbuf Hsp Hts Harg Hturns. unfold cat_main, cat_says.
  apply Forall_cons_iff in Hts as [Hnl [Hus [Hnf _]%Forall_cons_iff]%Forall_cons_iff].
  assert (forall t, text_in k t -> t <> [] -> Z.of_nat (length t) <= 512 ->
    forall k1, os_step nothing None [] k k1 ->
    exists k', fail_with k1 t = Some (k', 1) /\ os_step (in_buf main_buf 128) None t k k') as Hfail.
  { intros t Ht Hne Hl k1 Hs1. destruct (fail_prints k1 t) as (k' & Hk & Hs); try done.
    - apply Hs1.
    - eapply step_text; [done|exact Hs1|apply spares_nothing|done].
    - exists k'. split; [done|]. change t with ([] ++ t). step_join Hs1 Hs. }
  destruct (argc <? 2) eqn:Ea; zify_bool.
  { apply Hfail; try done. by apply step_refl. }
  destruct (Harg ltac:(lia)) as [Hstr Hlen].
  destruct (ol_open_read k _ p Hok Hstr Hlen) as (k1 & fd & -> & Hs1 & Hcase). cbn [mbind option_bind].
  assert (fd < 0 -> exists k', (if fd <? 0 then fail_with k1 (line "cat: no such file") else
      k' ← cat_loop turns k1 fd; '(k', _) ← sys_close k' fd; '(k', _) ← sys_write k' 1 (text_at [10]) 1; Some (k', 0)) = Some (k', 1) /\
      os_step (in_buf main_buf 128) None (line "cat: no such file") k k') as Hneg.
  { intros Hfd. rewrite (proj2 (Z.ltb_lt fd 0)) by lia. by apply Hfail. }
  destruct (path_file k p) as [bytes|]; [|by apply Hneg].
  destruct (fd_free k); [|by apply Hneg].
  destruct Hcase as (Hfd & Hno & path & Hf). rewrite (proj2 (Z.ltb_ge fd 0)) by lia.
  pose proof (st_ok _ _ _ _ _ Hs1) as Hok1.
  destruct (cat_loop_prints turns k1 fd _ Hok1 (step_range _ _ _ _ _ _ _ Hs1 Hbuf) Hf eq_refl)
    as (k2 & f' & -> & Hs2 & Hf2 & Hw2); [cbn; unfold rest_of; cbn; by apply Hturns|].
  cbn [mbind option_bind fst snd]. cbn [uf_file uf_write] in *. unfold rest_of in Hs2. cbn [drop pos contents] in Hs2.
  destruct (ol_close_read k2 fd f') as (k3 & -> & Hs3 & _); [apply Hs2|done|done|]. cbn [mbind option_bind].
  destruct (newline_prints k3) as (k4 & -> & Hs4); [apply Hs3| |].
  { eapply step_text; [apply Hs2|exact Hs3|apply spares_nothing|].
    eapply step_text; [exact Hok1|exact Hs2|done|].
    eapply step_text; [exact Hok|exact Hs1|apply spares_nothing|done]. }
  exists k4. split; [done|]. apply (step_fresh _ fd); [|done].
  assert (os_step (in_buf main_buf 128) (Some fd) ([] ++ bytes) k k2) as Hs12 by step_join Hs1 Hs2.
  assert (os_step (in_buf main_buf 128) (Some fd) (([] ++ bytes) ++ []) k k3) as Hs13 by step_join Hs12 Hs3.
  rewrite app_nil_r in Hs13. cbn [app] in Hs13. step_join Hs13 Hs4.
Qed.

(** ** [pwd] *)

(** [pwd] prints the current directory and a newline. *)
Theorem pwd_prints k :
  os_ok k -> user_range k main_buf 128 -> text_spared (in_buf main_buf 128) [10] -> text_in k [10] ->
  0 < Z.of_nat (length (cwd_text k)) < 128 ->
  exists k', pwd_main k = Some (k', 0) /\
    os_step (in_buf main_buf 128) None (cwd_text k ++ [10]) k k'.
Proof using UserOsLaws0.
  intros Hok Hbuf Hsp Hnl Hlen. unfold pwd_main. pose proof (ol_max (K := K)).
  destruct (ol_getcwd k main_buf 128 Hok Hbuf ltac:(lia)) as (k1 & -> & Hs1 & Hl). cbn [mbind option_bind].
  rewrite (proj2 (Z.ltb_ge _ 0)), u32_small by lia. pose proof (st_ok _ _ _ _ _ Hs1) as Hok1.
  destruct (print_bytes k1 1 main_buf (Z.of_nat (length (cwd_text k))) Hok1) as (k2 & -> & Hs2 & _);
    [by left|eapply ol_sub; [done|by eapply step_range|lia..]|lia|].
  rewrite Nat2Z.id, Hl in Hs2. cbn [mbind option_bind].
  destruct (newline_prints k2) as (k3 & -> & Hs3); [apply Hs2| |].
  { eapply step_text; [exact Hok1|exact Hs2|apply spares_nothing|].
    eapply step_text; [exact Hok|exact Hs1|done|done]. }
  exists k3. split; [done|].
  assert (os_step (in_buf main_buf 128) None ([] ++ cwd_text k) k k2) as Hs12 by step_join Hs1 Hs2.
  step_join Hs12 Hs3.
Qed.

(** ** [writetest] *)

Definition writetest_failures : list (list Z) :=
  [line "writetest: open failed"; line "writetest: write failed"; line "writetest: close failed"].

(** [writetest PATH TEXT] with an absolute path ends in one of two ways: it
    prints that it succeeded and PATH then holds exactly TEXT, or it prints which
    call failed and returns 1.  Nothing of the program's memory changes, and no
    other open file. *)
Theorem writetest_saves k argc argv p t :
  os_ok k -> 3 <= argc -> Forall (text_in k) (line "writetest: ok" :: writetest_failures) ->
  string_at k (arg k argv 1) p -> Z.of_nat (length p) < 128 -> chr p = 47 ->
  user_range k (argv + 4 * 2) 4 ->
  string_at k (arg k argv 2) t -> t <> [] ->
  exists k', os_step nothing None (line "writetest: ok") k k' /\
      writetest_main k argc argv = Some (k', 0) /\ path_file k' p = Some t \/
    exists msg, In msg writetest_failures /\ os_step nothing None msg k k' /\
      writetest_main k argc argv = Some (k', 1).
Proof using UserOsLaws0.
  intros Hok Hargc Hts Hp Hlen Habs Harg Ht Hne. unfold writetest_main.
  rewrite (proj2 (Z.ltb_ge argc 3)) by lia.
  assert (forall msg k1, In msg (line "writetest: ok" :: writetest_failures) -> os_step nothing None [] k k1 ->
    exists k', say k1 msg = Some k' /\ os_step nothing None msg k k' /\ os_step nothing None msg k1 k' /\
      forall p, path_file k' p = path_file k1 p) as Hsay.
  { intros msg k1 Hin Hs1. rewrite Forall_forall in Hts.
    assert (msg <> [] /\ Z.of_nat (length msg) <= 512) as [? ?].
    { cbn [In writetest_failures] in Hin. by destruct Hin as [<-|[<-|[<-|[<-|[]]]]]. }
    destruct (say_prints k1 msg) as (k' & Hk & Hs & Hpf); try done.
    - apply Hs1.
    - eapply step_text; [exact Hok|exact Hs1|apply spares_nothing|]. by apply Hts.
    - exists k'. split; [done|]. split; [|done]. change msg with ([] ++ msg). step_join Hs1 Hs. }
  destruct (ol_open_write k _ p Hok Hp Hlen Habs) as (k1 & fd & -> & Hs1 & Hcase). cbn [mbind option_bind].
  destruct Hcase as [Hfd|(Hfd & Hno & path & Hpath & Hf)].
  { rewrite (proj2 (Z.ltb_lt fd 0)) by lia.
    destruct (Hsay (line "writetest: open failed") k1) as (k' & Hk & Hs & _); [cbn; tauto|done|].
    exists k'. right. eexists. split; [by left|]. split; [exact Hs|]. unfold fail_with. by rewrite Hk. }
  rewrite (proj2 (Z.ltb_ge fd 0)) by lia. rewrite (step_arg _ _ _ k k1 argv 2 Hok Hs1 Harg) by apply spares_nothing.
  pose proof (st_ok _ _ _ _ _ Hs1) as Hok1.
  assert (string_at k1 (arg k argv 2) t) as Ht1
    by (eapply step_string; [exact Hok|exact Hs1|apply spares_nothing|done]).
  rewrite (cstr_len_at k1 _ t Hok1 Ht1). cbn [mbind option_bind].
  destruct (ol_range k1 _ _ Hok1 (string_range k1 _ t Hok1 Ht1 Hne)) as (_ & Htn & _).
  destruct (ol_write k1 fd (arg k argv 2) (Z.of_nat (length t)) _ Hok1 Hf eq_refl) as (k2 & r & -> & Hs2 & Hcase);
    [by apply string_range|unfold INT_MAX, ELF_USER_IMAGE_MAX in *; lia|].
  cbn [mbind option_bind].
  assert (os_step nothing (Some fd) ([] ++ []) k k2) as Hs12 by step_join Hs1 Hs2.
  assert (forall k2 o f, os_step nothing (Some fd) o k k2 -> fd_file k2 fd = Some f ->
    uf_write f = true -> uf_path f = path ->
    exists k3 r3, sys_close k2 fd = Some (k3, r3) /\ os_step nothing None o k k3 /\
      (r3 < 0 \/ r3 = 0 /\ (uf_dirty f = true -> path_file k3 p = Some (contents (uf_file f))))) as Hclose.
  { intros k3 o f Hs3 Hf3 Hw3 Hp3. destruct (ol_close_write k3 fd f) as (k4 & r4 & Hc & Hs4 & Hr4);
      [apply Hs3|done|done|by rewrite Hp3, <- (chr_cstr path), Hpath|by rewrite Hp3, Hpath|].
    exists k4, r4. split; [done|]. split.
    - apply (step_fresh _ fd); [|done]. rewrite <- (app_nil_r o). step_join Hs3 Hs4.
    - destruct Hr4 as [?|(-> & _ & _ & Hd)]; [by left|right]. by rewrite Hp3, Hpath in Hd. }
  destruct Hcase as [[Hr Hf2]|[-> Hf2]].
  - rewrite (proj2 (Z.ltb_lt r 0)) by lia.
    destruct (Hsay (line "writetest: write failed") k2) as (k3 & Hk3 & Hs3 & Hs23 & _);
      [cbn; tauto|by apply (step_fresh _ fd)|]. rewrite Hk3. cbn [mbind option_bind].
    assert (os_step nothing (Some fd) (line "writetest: write failed") k k3) as Hs13
      by (eapply step_weaken; [exact Hs3|done|by left]).
    destruct (Hclose k3 _ _ Hs13 (st_fds _ _ _ _ _ Hs23 _ _ ltac:(done) Hf2) eq_refl eq_refl) as (k4 & r4 & -> & Hs4 & _).
    exists k4. right. eexists. split; [by right; left|]. by split.
  - rewrite (proj2 (Z.ltb_ge _ 0)) by lia.
    destruct (Hclose k2 _ _ Hs12 Hf2 eq_refl eq_refl) as (k3 & r3 & -> & Hs3 & Hr3). cbn [mbind option_bind].
    destruct Hr3 as [Hr3|[-> Hd]].
    + rewrite (proj2 (Z.ltb_lt r3 0)) by lia.
      destruct (Hsay (line "writetest: close failed") k3) as (k' & Hk & Hs & _); [cbn; tauto|done|].
      exists k'. right. eexists. split; [by right; right; left|]. split; [exact Hs|]. unfold fail_with. by rewrite Hk.
    + rewrite (proj2 (Z.ltb_ge 0 0)) by lia.
      destruct (Hsay (line "writetest: ok") k3) as (k' & -> & Hs & _ & Hpf); [cbn; tauto|done|].
      exists k'. left. split; [done|]. split; [done|]. rewrite Hpf, Hd by done.
      rewrite Nat2Z.id, (string_bytes k1 _ t Hok1 Ht1).
      cbn. unfold splice. by rewrite drop_nil, app_nil_r.
Qed.

End programs.
