(* ===== verification/UServices.v ===== *)
(** * UServices: the programs that talk to the kernel and to one another

    [OsServices] is what a program sees of its process, its messages, the name
    service and the memory report, [ServiceLaws] what the calls behind them
    promise.  Against them: [svc_lookup] prints what the name service knows,
    [free] prints the report, [ipc_recv] prints the message that arrived,
    [svc_reg] makes its name lead to itself, and [ipc_selftest] receives what it
    sent to itself. *)
From S2P Require Import Prelude KernelH Util Memory Ipc Varargs Elf Vfs VfsTree FdTable Files Usys UPrograms UProgSpec.
Local Open Scope Z_scope.
Local Open Scope slop_scope.

Class OsServices (K : Type) := {
  os_pid : K -> Z;
  (** the message that waits for the program *)
  inbox : K -> option ipc_message;
  (** a message to the program can be queued: there is a mailbox for it *)
  inbox_room : K -> bool;
  (** the program is the one that runs, not one that is blocked in a receive *)
  listening : K -> Prop;
  (** who answers to a name *)
  found : K -> list Z -> option Z;
  (** the nine numbers of [struct mem_info] *)
  mem_report : K -> list Z
}.

Record services_same {K} `{!OsServices K} (k k' : K) : Prop := {
  ss_pid : os_pid k' = os_pid k;
  ss_inbox : inbox k' = inbox k;
  ss_room : inbox_room k' = inbox_room k;
  ss_listening : listening k -> listening k';
  ss_found name : found k' name = found k name;
  ss_report : mem_report k' = mem_report k
}.

(** The words of a structure at an address. *)
Definition words_at (m : mem) (a : Z) (ws : list Z) : Prop := bytes_at m a (words_bytes ws).

Definition message_ok (msg : ipc_message) : Prop :=
  Forall is_u32 (msg_words msg) /\ s32 (u32 (src_pid msg)) = src_pid msg /\ s32 (u32 (dst_pid msg)) = dst_pid msg.

Class ServiceLaws (K : Type) `{!UserOs K} `{!OsView K} `{!OsServices K} : Prop := {
  sl_print (k : K) fd a n k' r :
    fd = 1 \/ fd = 2 -> sys_write k fd a n = Some (k', r) -> services_same k k';
  sl_store (k : K) m : services_same k (set_umem m k);
  sl_getpid (k : K) a n :
    os_ok k -> listening k -> user_range k a n ->
    0 <= os_pid k <= INT_MAX /\ sys_getpid k = Some (k, os_pid k);
  (** a message to oneself is queued, or refused *)
  sl_send_self (k : K) a msg :
    os_ok k -> listening k -> user_range k a 28 -> message_ok msg -> dst_pid msg = os_pid k ->
    words_at (umem k) a (msg_words msg) ->
    exists k' r, sys_ipc_send k a = Some (k', r) /\ os_step nothing None [] k k' /\
      os_pid k' = os_pid k /\
      if inbox_room k && bool_decide (inbox k = None)
      then r = 0 /\ inbox k' = Some (stamp (os_pid k) (os_pid k) msg)
      else r < 0 /\ inbox k' = inbox k;
  (** a message that waits is taken, once *)
  sl_recv (k : K) a msg :
    os_ok k -> user_range k a 28 -> inbox k = Some msg ->
    exists k', sys_ipc_recv k a = Some (k', 0) /\ os_step (in_buf a 28) None [] k k' /\
      words_at (umem k') a (msg_words msg) /\ inbox k' = None /\ os_pid k' = os_pid k /\
      forall name, found k' name = found k name;
  sl_lookup (k : K) a name :
    os_ok k -> string_at k a name -> Z.of_nat (length name) < 32 ->
    exists k' r, sys_service_lookup k a = Some (k', r) /\ os_step nothing None [] k k' /\
      match found k name with Some pid => r = pid /\ 0 <= pid <= INT_MAX | None => r < 0 end /\
      forall other, found k' other = found k other;
  sl_register (k : K) a name :
    os_ok k -> string_at k a name -> Z.of_nat (length name) < 32 ->
    exists k' r, sys_service_register k a = Some (k', r) /\ os_step nothing None [] k k' /\
      os_pid k' = os_pid k /\ inbox k' = inbox k /\ (listening k -> listening k') /\
      (r < 0 /\ (forall other, found k' other = found k other) \/
       r = 0 /\ found k' name = Some (os_pid k) /\
         forall other, other <> name -> no_nul other -> found k' other = found k other);
  sl_meminfo (k : K) a :
    os_ok k -> user_range k a 36 ->
    exists k', sys_meminfo k a = Some (k', 0) /\ os_step (in_buf a 36) None [] k k' /\
      words_at (umem k') a (mem_report k);
  sl_report (k : K) : length (mem_report k) = 9%nat /\ Forall is_u32 (mem_report k)
}.

Section services.
Context {K : Type} `{!UserOs K} `{!OsView K} `{!UserOsLaws K} `{!OsServices K} `{!ServiceLaws K} `{!ProgPlaces}.
Implicit Types k : K.

Lemma same_trans k1 k2 k3 : services_same k1 k2 -> services_same k2 k3 -> services_same k1 k3.
Proof using.
  intros [] []. constructor; [congruence..|tauto| |congruence]. intros name. congruence.
Qed.

(** ** Printing changes no service *)

Lemma write_str_same k a k' : write_str k a = Some k' -> services_same k k'.
Proof using ServiceLaws0.
  unfold write_str. destruct (cstr_len _ _) as [n|]; [|done]. cbn [mbind option_bind].
  destruct (sys_write k 1 a n) as [[k1 r]|] eqn:E; [|done]. intros [= <-].
  eapply sl_print; [by left|exact E].
Qed.

Lemma write_char_same k c k' : write_char k c = Some k' -> services_same k k'.
Proof using ServiceLaws0.
  unfold write_char. destruct (sys_write _ _ _ _) as [[k1 r]|] eqn:E; [|done]. intros [= <-].
  eapply same_trans; [apply sl_store|]. eapply sl_print; [by left|exact E].
Qed.

Lemma write_digits_same i : forall k buf k', write_digits i k buf = Some k' -> services_same k k'.
Proof using ServiceLaws0.
  induction i as [|i IH]; intros k buf k'; cbn [write_digits]; [by intros [= <-]|].
  destruct (write_char k _) as [k1|] eqn:E; [|done]. cbn [mbind option_bind]. intros Hd.
  eapply same_trans; [by eapply write_char_same|by eapply IH].
Qed.

Lemma write_u32_same k v k' : write_u32 k v = Some k' -> services_same k k'.
Proof using ServiceLaws0.
  unfold write_u32. destruct (v =? 0); [|apply write_digits_same].
  destruct (sys_write _ _ _ _) as [[k1 r]|] eqn:E; [|done]. intros [= <-].
  eapply sl_print; [by left|exact E].
Qed.

(** Runs one printing step and names what it leaves. *)
Ltac print_step lem k' W :=
  destruct lem as (k' & -> & W);
  [.. | cbn [mbind option_bind]];
  try match goal with Hts : incl _ _ |- In _ _ => by apply Hts; cbn; tauto end.

(** ** Runs of a program that keeps to its two variables *)

Definition work : Z -> Prop := fun x => in_buf main_buf 36 x \/ in_buf char_at 1 x.

Section texts.
Context (ts : list (list Z)) (Hspared : Forall (text_spared work) ts)
  (Hshort : Forall (fun t => t <> [] /\ Z.of_nat (length t) <= 512) ts)
  (Hapart : spares (in_buf char_at 1) main_buf 36).

(** The program's variables and constants are its own. *)
Record ready k : Prop := {
  rd_ok : os_ok k;
  rd_buf : user_range k main_buf 36;
  rd_char : user_range k char_at 1;
  rd_texts : Forall (text_in k) ts
}.

Record went (out : list Z) k k' : Prop := {
  wn_step : os_step work None out k k';
  wn_ready : ready k'
}.

(** A run that also leaves the buffer and the services as they were. *)
Record wrote (out : list Z) k k' : Prop := {
  wr_went : went out k k';
  wr_same : services_same k k';
  wr_buf x : main_buf <= x < main_buf + 36 -> umem k' x = umem k x
}.

Lemma ready_after k k' out : ready k -> os_step work None out k k' -> ready k'.
Proof using Hspared UserOsLaws0.
  intros [Hok Hb Hc Ht] Hs. constructor; [apply Hs|by eapply step_range..|].
  rewrite Forall_forall in Ht, Hspared |- *. intros t Hin. eapply step_text; [done|exact Hs|auto|auto].
Qed.

Lemma went_step k k' T out :
  ready k -> os_step T None out k k' -> (forall x, T x -> work x) -> went out k k'.
Proof using Hspared UserOsLaws0.
  intros Hr Hs HT. assert (os_step work None out k k') as Hs' by (eapply step_weaken; [exact Hs|exact HT|by left]).
  constructor; [done|by eapply ready_after].
Qed.

Lemma went_trans o1 o2 k1 k2 k3 : went o1 k1 k2 -> went o2 k2 k3 -> went (o1 ++ o2) k1 k3.
Proof using. intros [Hs1 _] [Hs2 Hr]. constructor; [step_join Hs1 Hs2|done]. Qed.

Lemma wrote_trans o1 o2 k1 k2 k3 : wrote o1 k1 k2 -> wrote o2 k2 k3 -> wrote (o1 ++ o2) k1 k3.
Proof using.
  intros [Hw1 Hs1 Hb1] [Hw2 Hs2 Hb2]. constructor; [by eapply went_trans|by eapply same_trans|].
  intros x Hx. rewrite Hb2, Hb1; done.
Qed.

Lemma say_wrote k t : ready k -> In t ts -> exists k', say k t = Some k' /\ wrote t k k'.
Proof using Hspared Hshort ServiceLaws0 UserOsLaws0.
  intros Hr Hin. rewrite Forall_forall in Hshort. destruct (Hshort t Hin) as [Hne Hl].
  pose proof (rd_texts _ Hr) as Ht. rewrite Forall_forall in Ht.
  destruct (say_prints k t (rd_ok _ Hr) (Ht t Hin) Hne Hl) as (k' & Hk & Hs & _).
  exists k'. split; [done|]. constructor.
  - eapply went_step; [done|exact Hs|by intros ? []].
  - by eapply write_str_same.
  - eapply step_bytes; [apply Hr|exact Hs|apply Hr|apply spares_nothing].
Qed.

Lemma u32_wrote k v : ready k -> In (lit "0") ts -> is_u32 v -> exists k', write_u32 k v = Some k' /\ wrote (u32_text v) k k'.
Proof using All.
  intros Hr Hin Hv. pose proof (rd_texts _ Hr) as Ht. rewrite Forall_forall in Ht.
  destruct (write_u32_prints k v (rd_ok _ Hr) (rd_char _ Hr) (Ht _ Hin) Hv) as (k' & Hk & Hs).
  exists k'. split; [done|]. constructor.
  - eapply went_step; [done|exact Hs|by right].
  - by eapply write_u32_same.
  - eapply step_bytes; [apply Hr|exact Hs|apply Hr|exact Hapart].
Qed.

Lemma fail_wrote k t : ready k -> In t ts -> exists k', fail_with k t = Some (k', 1) /\ wrote t k k'.
Proof using Hspared Hshort ServiceLaws0 UserOsLaws0.
  intros Hr Hin. destruct (say_wrote k t Hr Hin) as (k' & Hk & Hw). exists k'. split; [|done].
  unfold fail_with. by rewrite Hk.
Qed.

(** The steps below, one after the other. *)
Lemma wrote_ready o k k' : wrote o k k' -> ready k'.
Proof using. intros Hw. apply Hw. Qed.

(** ** [svc_lookup] *)

Definition svc_lookup_texts : list (list Z) :=
  [line "svc_lookup: usage svc_lookup NAME"; line "svc_lookup: not found"; lit "svc_lookup: pid="; lit "0"; line ""].

Definition svc_lookup_says k (argc : Z) (name : list Z) : list Z * Z :=
  if argc <? 2 then (line "svc_lookup: usage svc_lookup NAME", 1)
  else match found k name with
       | Some pid => (lit "svc_lookup: pid=" ++ u32_text pid ++ line "", 0)
       | None => (line "svc_lookup: not found", 1)
       end.

Theorem svc_lookup_prints k argc argv name :
  ready k -> incl svc_lookup_texts ts ->
  (2 <= argc -> string_at k (arg k argv 1) name /\ Z.of_nat (length name) < 32) ->
  exists k', svc_lookup_main k argc argv = Some (k', snd (svc_lookup_says k argc name)) /\
    went (fst (svc_lookup_says k argc name)) k k'.
Proof using All.
  intros Hr Hts Harg. unfold svc_lookup_main, svc_lookup_says.
  destruct (argc <? 2) eqn:E; zify_bool.
  { destruct (fail_wrote k (line "svc_lookup: usage svc_lookup NAME") Hr) as (k' & -> & Hw);
      [apply Hts; cbn; tauto|]. exists k'. split; [done|apply Hw]. }
  destruct (Harg ltac:(lia)) as [Hs Hl].
  destruct (sl_lookup k _ name (rd_ok _ Hr) Hs Hl) as (k1 & r & -> & Hs1 & Hres & _). cbn [mbind option_bind].
  assert (went [] k k1) as W1 by (eapply went_step; [done|exact Hs1|by intros ? []]).
  pose proof (wn_ready _ _ _ W1) as Hr1.
  destruct (found k name) as [pid|].
  2:{ rewrite (proj2 (Z.ltb_lt r 0)) by done.
      destruct (fail_wrote k1 (line "svc_lookup: not found") Hr1) as (k' & -> & Hw); [apply Hts; cbn; tauto|].
      exists k'. split; [done|]. exact (went_trans [] _ _ _ _ W1 (wr_went _ _ _ Hw)). }
  destruct Hres as [-> Hp]. rewrite (proj2 (Z.ltb_ge pid 0)) by lia. unfold INT_MAX in *.
  rewrite u32_small by lia.
  print_step (say_wrote k1 (lit "svc_lookup: pid=") Hr1) k2 W2.
  print_step (u32_wrote k2 pid (wrote_ready _ _ _ W2)) k3 W3; [unfold is_u32; lia|].
  print_step (say_wrote k3 (line "") (wrote_ready _ _ _ W3)) k4 W4.
  exists k4. split; [done|]. apply (went_trans [] _ _ _ _ W1). apply wr_went.
  exact (wrote_trans _ _ _ _ _ W2 (wrote_trans _ _ _ _ _ W3 W4)).
Qed.

(** ** [free] *)

Lemma words_at_cons m a w ws : words_at m a (w :: ws) <-> bytes_at m a (le32 w) /\ words_at m (a + 4) ws.
Proof using. exact (bytes_at_app m a (le32 w) (words_bytes ws)). Qed.

Lemma words_at_ext m m' a ws :
  (forall x, a <= x < a + 4 * Z.of_nat (length ws) -> m' x = m x) -> words_at m a ws -> words_at m' a ws.
Proof using.
  intros He Hw i b Hi. pose proof (lookup_lt_Some _ _ _ Hi) as Hlt. rewrite words_bytes_length in Hlt.
  rewrite He by lia. by apply Hw.
Qed.

Lemma buf_word k a w ws :
  ready k -> main_buf <= a -> a + 4 <= main_buf + 36 -> is_u32 w -> words_at (umem k) a (w :: ws) ->
  load_u32 (umem k) a = w.
Proof using UserOsLaws0.
  intros Hr Ha Hb Hw [Hl _]%words_at_cons. destruct (ol_range k _ _ (rd_ok _ Hr) (rd_buf _ Hr)) as (? & ? & ?).
  apply load_u32_bytes_at; [split; lia|done|done].
Qed.

Fixpoint kib_text (labels : list (list Z)) (nums : list Z) : list Z :=
  match labels, nums with
  | label :: labels, v :: nums => (label ++ u32_text v ++ line " KiB") ++ kib_text labels nums
  | _, _ => []
  end.

Definition free_texts : list (list Z) :=
  [line "free format v2"; line "free: meminfo unavailable"; lit "0"; line " KiB"] ++ kib_lines.

Lemma kib_lines_wrote labels : forall k info nums,
  ready k -> incl free_texts ts -> incl labels ts -> length nums = length labels -> Forall is_u32 nums ->
  main_buf <= info -> info + 4 * Z.of_nat (length labels) <= main_buf + 36 ->
  words_at (umem k) info nums ->
  exists k', write_kib_lines k labels info = Some k' /\ went (kib_text labels nums) k k'.
Proof using All.
  induction labels as [|label labels IH]; intros k info [|v nums] Hr Hts Hls Hlen Hu Hlo Hhi Hw; try done; cbn [write_kib_lines].
  { exists k. split; [done|]. eapply went_step; [done|by apply step_refl, Hr|by intros ? []]. }
  cbn [length] in *. apply Forall_cons_iff in Hu as [Hv Hu]. rewrite (buf_word k info v nums) by (done || lia).
  unfold write_kib_line. apply incl_cons_inv in Hls as [Hl Hls].
  print_step (say_wrote k label Hr) k1 W1; [done|].
  print_step (u32_wrote k1 v (wrote_ready _ _ _ W1)) k2 W2; [done|].
  print_step (say_wrote k2 (line " KiB") (wrote_ready _ _ _ W2)) k3 W3.
  pose proof (wrote_trans _ _ _ _ _ W1 (wrote_trans _ _ _ _ _ W2 W3)) as W.
  destruct (IH k3 (info + 4) nums) as (k4 & Hk4 & W4); try done; try lia; [apply W| |].
  - apply words_at_cons in Hw as [_ Hw]. eapply words_at_ext; [|exact Hw]. intros x Hx. apply (wr_buf _ _ _ W). lia.
  - exists k4. split; [exact Hk4|]. exact (went_trans _ _ _ _ _ (wr_went _ _ _ W) W4).
Qed.

(** [free] prints the report of the kernel, line by line: each label with its
    own number. *)
Theorem free_prints k :
  ready k -> incl free_texts ts ->
  exists k', free_main k = Some (k', 0) /\
    went (line "free format v2" ++ kib_text kib_lines (mem_report k)) k k'.
Proof using All.
  intros Hr Hts. unfold free_main. destruct (sl_report k) as [Hlen Hu].
  print_step (say_wrote k (line "free format v2") Hr) k1 W1.
  pose proof (wrote_ready _ _ _ W1) as Hr1.
  destruct (sl_meminfo k1 main_buf (rd_ok _ Hr1) (rd_buf _ Hr1)) as (k2 & -> & Hs2 & Hw). cbn [mbind option_bind].
  assert (went [] k1 k2) as W2 by (eapply went_step; [done|exact Hs2|by left]).
  rewrite (ss_report _ _ (wr_same _ _ _ W1)) in Hw. change (0 <? 0) with false. cbn iota.
  destruct (kib_lines_wrote kib_lines k2 main_buf (mem_report k)) as (k3 & -> & W3);
    try done; [apply W2| |].
  - intros t Ht. apply Hts. unfold free_texts. apply in_app_iff. by right.
  - exists k3. split; [done|].
    exact (went_trans _ _ _ _ _ (wr_went _ _ _ W1) (went_trans [] _ _ _ _ W2 W3)).
Qed.

(** ** Messages *)

Definition message_line (title : list Z) (msg : ipc_message) : list Z :=
  title ++ u32_text (u32 (src_pid msg)) ++ lit " type=" ++ u32_text (type msg) ++
  lit " arg1=" ++ u32_text (arg1 msg) ++ lit " arg2=" ++ u32_text (arg2 msg) ++ line "".

Definition msg_texts : list (list Z) := [lit "0"; lit " type="; lit " arg1="; lit " arg2="; line ""].

(** The fields of the message in the buffer. *)
Lemma msg_fields k msg :
  ready k -> Forall is_u32 (msg_words msg) -> words_at (umem k) main_buf (msg_words msg) ->
  msg_field k 0 = u32 (src_pid msg) /\ msg_field k 2 = type msg /\ msg_field k 3 = arg1 msg /\
  msg_field k 4 = arg2 msg.
Proof using UserOsLaws0.
  intros Hr Hu Hw. unfold msg_words in *. rewrite !Forall_cons_iff in Hu.
  destruct Hu as (U0 & U1 & U2 & U3 & U4 & _).
  pose proof (proj1 (words_at_cons _ _ _ _) Hw) as [_ Hw1].
  pose proof (proj1 (words_at_cons _ _ _ _) Hw1) as [_ Hw2].
  pose proof (proj1 (words_at_cons _ _ _ _) Hw2) as [_ Hw3].
  pose proof (proj1 (words_at_cons _ _ _ _) Hw3) as [_ Hw4].
  replace (main_buf + 4 + 4) with (main_buf + 4 * 2) in * by lia.
  replace (main_buf + 4 * 2 + 4) with (main_buf + 4 * 3) in * by lia.
  replace (main_buf + 4 * 3 + 4) with (main_buf + 4 * 4) in * by lia.
  replace main_buf with (main_buf + 4 * 0) in Hw at 1 by lia.
  unfold msg_field. split_and!; (eapply buf_word; [done|lia|lia|done|eassumption]).
Qed.

Lemma write_msg_wrote k title msg :
  ready k -> incl msg_texts ts -> In title ts -> Forall is_u32 (msg_words msg) ->
  words_at (umem k) main_buf (msg_words msg) ->
  exists k', write_msg k title = Some k' /\ wrote (message_line title msg) k k'.
Proof using All.
  intros Hr Hts Hin Hu Hw. unfold write_msg.
  assert (forall o k1, wrote o k k1 -> words_at (umem k1) main_buf (msg_words msg)) as Hkeep.
  { intros o k1 W. eapply words_at_ext; [|exact Hw]. intros x Hx. apply (wr_buf _ _ _ W). cbn in Hx. lia. }
  pose proof Hu as Hu'. unfold msg_words in Hu'. rewrite !Forall_cons_iff in Hu'. destruct Hu' as (U0 & _ & U2 & U3 & U4 & _).
  print_step (say_wrote k title Hr) k1 W1; [done|].
  rewrite (proj1 (msg_fields k1 msg (wrote_ready _ _ _ W1) Hu (Hkeep _ _ W1))).
  print_step (u32_wrote k1 (u32 (src_pid msg)) (wrote_ready _ _ _ W1)) k2 V2; [done|]. pose proof (wrote_trans _ _ _ _ _ W1 V2) as W2.
  print_step (say_wrote k2 (lit " type=") (wrote_ready _ _ _ W2)) k3 V3. pose proof (wrote_trans _ _ _ _ _ W2 V3) as W3.
  rewrite (proj1 (proj2 (msg_fields k3 msg (wrote_ready _ _ _ W3) Hu (Hkeep _ _ W3)))).
  print_step (u32_wrote k3 (type msg) (wrote_ready _ _ _ W3)) k4 V4; [done|]. pose proof (wrote_trans _ _ _ _ _ W3 V4) as W4.
  print_step (say_wrote k4 (lit " arg1=") (wrote_ready _ _ _ W4)) k5 V5. pose proof (wrote_trans _ _ _ _ _ W4 V5) as W5.
  rewrite (proj1 (proj2 (proj2 (msg_fields k5 msg (wrote_ready _ _ _ W5) Hu (Hkeep _ _ W5))))).
  print_step (u32_wrote k5 (arg1 msg) (wrote_ready _ _ _ W5)) k6 V6; [done|]. pose proof (wrote_trans _ _ _ _ _ W5 V6) as W6.
  print_step (say_wrote k6 (lit " arg2=") (wrote_ready _ _ _ W6)) k7 V7. pose proof (wrote_trans _ _ _ _ _ W6 V7) as W7.
  rewrite (proj2 (proj2 (proj2 (msg_fields k7 msg (wrote_ready _ _ _ W7) Hu (Hkeep _ _ W7))))).
  print_step (u32_wrote k7 (arg2 msg) (wrote_ready _ _ _ W7)) k8 V8; [done|]. pose proof (wrote_trans _ _ _ _ _ W7 V8) as W8.
  destruct (say_wrote k8 (line "") (wrote_ready _ _ _ W8)) as (k9 & -> & V9); [apply Hts; cbn; tauto|].
  exists k9. split; [done|]. unfold message_line. rewrite !app_assoc. exact (wrote_trans _ _ _ _ _ W8 V9).
Qed.

(** The first lines of [ipc_recv] and [ipc_selftest]. *)
Definition pid_line (title : list Z) k : list Z := title ++ u32_text (os_pid k) ++ line "".

Lemma pid_line_wrote k title :
  ready k -> incl [lit "0"; line ""] ts -> In title ts -> is_u32 (os_pid k) ->
  exists k1 k2 k3, say k title = Some k1 /\ write_u32 k1 (os_pid k) = Some k2 /\ say k2 (line "") = Some k3 /\
    wrote (pid_line title k) k k3.
Proof using All.
  intros Hr Hts Hin Hp.
  destruct (say_wrote k title Hr Hin) as (k1 & E1 & W1).
  destruct (u32_wrote k1 (os_pid k) (wrote_ready _ _ _ W1)) as (k2 & E2 & W2); [apply Hts; cbn; tauto|done|].
  destruct (say_wrote k2 (line "") (wrote_ready _ _ _ W2)) as (k3 & E3 & W3); [apply Hts; cbn; tauto|].
  exists k1, k2, k3. split_and!; try done.
  exact (wrote_trans _ _ _ _ _ W1 (wrote_trans _ _ _ _ _ W2 W3)).
Qed.

(** Taking the message that waits. *)
Lemma recv_went k msg :
  ready k -> inbox k = Some msg ->
  exists k', sys_ipc_recv k main_buf = Some (k', 0) /\ went [] k k' /\
    words_at (umem k') main_buf (msg_words msg) /\ inbox k' = None /\ forall name, found k' name = found k name.
Proof using All.
  intros Hr Hm. assert (user_range k main_buf 28) as Hb
    by (eapply ol_sub; [apply Hr|apply (rd_buf _ Hr)|lia..]).
  destruct (sl_recv k main_buf msg (rd_ok _ Hr) Hb Hm) as (k' & Hk & Hs & Hw & Hi & _ & Hf).
  exists k'. split_and!; try done. eapply went_step; [done|exact Hs|].
  intros x. unfold work, in_buf. lia.
Qed.

Definition ipc_recv_texts : list (list Z) :=
  msg_texts ++ [lit "ipc_recv pid="; line "ipc_recv waiting..."; lit "ipc_recv got message: src="].

(** [ipc_recv] prints its pid and the message that waits for it, and takes it. *)
Theorem ipc_recv_prints k msg :
  ready k -> incl ipc_recv_texts ts -> listening k -> inbox k = Some msg -> Forall is_u32 (msg_words msg) ->
  exists k', ipc_recv_main k = Some (k', 0) /\ inbox k' = None /\
    went (pid_line (lit "ipc_recv pid=") k ++ line "ipc_recv waiting..." ++
          message_line (lit "ipc_recv got message: src=") msg) k k'.
Proof using All.
  intros Hr Hts Hl Hm Hu. unfold ipc_recv_main.
  destruct (sl_getpid k _ _ (rd_ok _ Hr) Hl (rd_buf _ Hr)) as [Hp ->]. cbn [mbind option_bind]. unfold INT_MAX in Hp.
  rewrite u32_small by lia.
  destruct (pid_line_wrote k (lit "ipc_recv pid=") Hr) as (k1 & k2 & k3 & -> & E2 & E3 & W3);
    [intros t [<-|[<-|[]]]; apply Hts; cbn; tauto|apply Hts; cbn; tauto|unfold is_u32; lia|].
  cbn [mbind option_bind]. rewrite E2. cbn [mbind option_bind]. rewrite E3. cbn [mbind option_bind].
  print_step (say_wrote k3 (line "ipc_recv waiting...") (wrote_ready _ _ _ W3)) k4 V4.
  pose proof (wrote_trans _ _ _ _ _ W3 V4) as W4.
  destruct (recv_went k4 msg (wrote_ready _ _ _ W4)) as (k5 & -> & W5 & Hw & Hi5 & _);
    [by rewrite (ss_inbox _ _ (wr_same _ _ _ W4))|]. cbn [mbind option_bind]. change (0 <? 0) with false. cbn iota.
  destruct (write_msg_wrote k5 (lit "ipc_recv got message: src=") msg) as (k6 & -> & W6);
    [apply W5|by intros t Ht; apply Hts, in_app_iff; left|apply Hts; cbn; tauto|done|done|].
  exists k6. split; [done|]. split; [by rewrite (ss_inbox _ _ (wr_same _ _ _ W6))|].
  rewrite app_assoc. exact (went_trans _ _ _ _ _ (wr_went _ _ _ W4) (went_trans [] _ _ _ _ W5 (wr_went _ _ _ W6))).
Qed.

(** ** [svc_reg] *)

(** The first argument and its string are none of the program's variables. *)
Record name_arg k (argv : Z) (name : list Z) : Prop := {
  na_slot : user_range k (argv + 4 * 1) 4;
  na_slot_spared : spares work (argv + 4 * 1) 4;
  na_string : string_at k (arg k argv 1) name;
  na_string_spared : spares work (arg k argv 1) (Z.of_nat (length name) + 1);
  na_short : name <> [] /\ Z.of_nat (length name) < 32
}.

Lemma name_arg_went o k k' argv name : ready k -> went o k k' -> name_arg k argv name -> name_arg k' argv name.
Proof using UserOsLaws0.
  intros Hr [Hs _] [Hslot Hsp Hstr Hssp Hl]. pose proof (rd_ok _ Hr) as Hok.
  assert (arg k' argv 1 = arg k argv 1) as Ea by (by eapply step_arg).
  constructor; rewrite ?Ea; try done; [by eapply step_range|by eapply step_string].
Qed.

Lemma name_wrote k argv name :
  ready k -> name_arg k argv name -> exists k', write_str k (arg k argv 1) = Some k' /\ wrote name k k'.
Proof using Hspared ServiceLaws0 UserOsLaws0.
  intros Hr Hn. destruct (na_short _ _ _ Hn) as [Hne Hl].
  destruct (write_str_prints k _ name (rd_ok _ Hr) (na_string _ _ _ Hn) Hne ltac:(lia)) as (k' & Hk & Hs & _).
  exists k'. split; [done|]. constructor.
  - eapply went_step; [done|exact Hs|by intros ? []].
  - by eapply write_str_same.
  - eapply step_bytes; [apply Hr|exact Hs|apply Hr|apply spares_nothing].
Qed.

Definition svc_reg_texts : list (list Z) :=
  [line "svc_reg: register failed"; lit "svc_reg: registered pid="; lit "0"; lit " name="; line "";
   line "svc_reg: waiting for ipc"; line "svc_reg: got ipc, exiting"].

Definition svc_reg_says k (name : list Z) : list Z :=
  lit "svc_reg: registered pid=" ++ u32_text (os_pid k) ++ lit " name=" ++ name ++ line "" ++
  line "svc_reg: waiting for ipc" ++ line "svc_reg: got ipc, exiting".

(** [svc_reg] with a message waiting: the name then leads to the program, the
    message is taken, and the other names lead where they did; or the name
    service refuses, and nothing has changed. *)
Theorem svc_reg_registers k argc argv name msg :
  ready k -> incl svc_reg_texts ts -> 2 <= argc -> name_arg k argv name ->
  listening k -> inbox k = Some msg ->
  exists k',
    svc_reg_main k argc argv = Some (k', 1) /\ went (line "svc_reg: register failed") k k' /\
      inbox k' = inbox k /\ (forall other, found k' other = found k other) \/
    svc_reg_main k argc argv = Some (k', 0) /\ went (svc_reg_says k name) k k' /\
      inbox k' = None /\ found k' name = Some (os_pid k) /\
      (forall other, other <> name -> no_nul other -> found k' other = found k other).
Proof using All.
  intros Hr Hts Harg Hn Hl Hm. unfold svc_reg_main. rewrite (proj2 (Z.ltb_ge argc 2)) by lia.
  destruct (sl_register k _ name (rd_ok _ Hr) (na_string _ _ _ Hn) (proj2 (na_short _ _ _ Hn)))
    as (k1 & r & -> & Hs1 & Hp1 & Hi1 & Hl1 & Hcase). cbn [mbind option_bind].
  assert (went [] k k1) as W1 by (eapply went_step; [done|exact Hs1|by intros ? []]).
  pose proof (wn_ready _ _ _ W1) as Hr1. destruct Hcase as [[Hneg Hf1]|(-> & Hf1 & Ho1)].
  { rewrite (proj2 (Z.ltb_lt r 0)) by done.
    destruct (fail_wrote k1 (line "svc_reg: register failed") Hr1) as (k2 & -> & W2); [apply Hts; cbn; tauto|].
    exists k2. left. split; [done|]. split; [exact (went_trans [] _ _ _ _ W1 (wr_went _ _ _ W2))|].
    split; [by rewrite (ss_inbox _ _ (wr_same _ _ _ W2))|]. intros other.
    by rewrite (ss_found _ _ (wr_same _ _ _ W2)). }
  change (0 <? 0) with false. cbn iota.
  destruct (sl_getpid k1 _ _ (rd_ok _ Hr1) (Hl1 Hl) (rd_buf _ Hr1)) as [Hp ->]. cbn [mbind option_bind].
  rewrite Hp1 in *. unfold INT_MAX in Hp. rewrite u32_small by lia.
  print_step (say_wrote k1 (lit "svc_reg: registered pid=") Hr1) k2 W2.
  print_step (u32_wrote k2 (os_pid k) (wrote_ready _ _ _ W2)) k3 V3; [unfold is_u32; lia|].
  pose proof (wrote_trans _ _ _ _ _ W2 V3) as W3.
  print_step (say_wrote k3 (lit " name=") (wrote_ready _ _ _ W3)) k4 V4. pose proof (wrote_trans _ _ _ _ _ W3 V4) as W4.
  destruct (name_wrote k4 argv name (wrote_ready _ _ _ W4)) as (k5 & -> & V5).
  { exact (name_arg_went _ _ _ _ _ Hr1 (wr_went _ _ _ W4) (name_arg_went _ _ _ _ _ Hr W1 Hn)). }
  cbn [mbind option_bind]. pose proof (wrote_trans _ _ _ _ _ W4 V5) as W5.
  print_step (say_wrote k5 (line "") (wrote_ready _ _ _ W5)) k6 V6. pose proof (wrote_trans _ _ _ _ _ W5 V6) as W6.
  print_step (say_wrote k6 (line "svc_reg: waiting for ipc") (wrote_ready _ _ _ W6)) k7 V7.
  pose proof (wrote_trans _ _ _ _ _ W6 V7) as W7.
  destruct (recv_went k7 msg (wrote_ready _ _ _ W7)) as (k8 & -> & W8 & _ & Hi8 & Hf8);
    [by rewrite (ss_inbox _ _ (wr_same _ _ _ W7)), Hi1|]. cbn [mbind option_bind]. change (0 <? 0) with false. cbn iota.
  print_step (say_wrote k8 (line "svc_reg: got ipc, exiting") (wn_ready _ _ _ W8)) k9 W9.
  assert (forall other, found k9 other = found k1 other) as Hf.
  { intros other. by rewrite (ss_found _ _ (wr_same _ _ _ W9)), Hf8, (ss_found _ _ (wr_same _ _ _ W7)). }
  exists k9. right. split; [done|]. split; [|split; [|split; [by rewrite Hf|intros; rewrite Hf; by apply Ho1]]].
  - pose proof (went_trans _ _ _ _ _ (wr_went _ _ _ W7) (went_trans [] _ _ _ _ W8 (wr_went _ _ _ W9))) as W.
    pose proof (went_trans [] _ _ _ _ W1 W) as W0. unfold svc_reg_says. rewrite <- !app_assoc in W0. exact W0.
  - by rewrite (ss_inbox _ _ (wr_same _ _ _ W9)).
Qed.

(** ** [ipc_selftest] *)

(** [put_msg] puts the message into the buffer. *)
Lemma put_msg_went k msg :
  ready k ->
  went [] k (put_msg msg k) /\ services_same k (put_msg msg k) /\
  words_at (umem (put_msg msg k)) main_buf (msg_words msg).
Proof using Hspared ServiceLaws0 UserOsLaws0.
  intros Hr. destruct (ol_range k _ _ (rd_ok _ Hr) (rd_buf _ Hr)) as (Ha & _ & Hf).
  assert (fits main_buf (Z.of_nat (length (words_bytes (msg_words msg))))) as Hfit
    by (rewrite words_bytes_length; cbn; split; lia).
  unfold put_msg. rewrite store_words_eq. split; [|split; [apply sl_store|]].
  - eapply went_step; [done| |by left].
    apply (ol_store k _ main_buf 36); [apply Hr|apply Hr| |apply store_bytes_ok, ol_bytes, Hr].
    intros x Hx. apply store_bytes_out; [done|]. rewrite words_bytes_length. cbn. lia.
  - rewrite ol_get. apply bytes_at_store; [done|apply words_bytes_byte].
Qed.

Definition ipc_selftest_texts : list (list Z) :=
  msg_texts ++ [lit "ipc_selftest pid="; line "ipc_selftest: send failed"; lit "ipc_selftest ok: src="].

(** What the program sends to itself, and what it prints in the end. *)
Definition selftest_msg k : ipc_message := plain_msg (os_pid k) 7 123 456.

Definition selftest_says k : list Z * Z :=
  if inbox_room k && bool_decide (inbox k = None)
  then (message_line (lit "ipc_selftest ok: src=") (stamp (os_pid k) (os_pid k) (selftest_msg k)), 0)
  else (line "ipc_selftest: send failed", 1).

Lemma selftest_msg_ok k : 0 <= os_pid k <= INT_MAX -> message_ok (selftest_msg k).
Proof using.
  unfold INT_MAX. intros Hp. split; [|split; [done|]].
  - unfold msg_words. cbn. repeat (constructor; [first [apply u32_range|unfold is_u32; lia]|]). constructor.
  - cbn. rewrite u32_small by lia. apply s32_small. unfold INT_MAX. lia.
Qed.

(** What is left after the message was sent with the result [r]. *)
Definition selftest_rest k (r : Z) : option (K * Z) :=
  if r <? 0 then fail_with k (line "ipc_selftest: send failed")
  else
    '(k, rc) ← sys_ipc_recv k main_buf;
    if rc <? 0 then fail_with k (line "ipc_selftest: recv failed")
    else k ← write_msg k (lit "ipc_selftest ok: src="); Some (k, 0).

Lemma selftest_sends k :
  ready k -> incl ipc_selftest_texts ts -> listening k ->
  exists k' r, ipc_selftest_main k = selftest_rest k' r /\
    went (pid_line (lit "ipc_selftest pid=") k) k k' /\
    if inbox_room k && bool_decide (inbox k = None)
    then r = 0 /\ inbox k' = Some (stamp (os_pid k) (os_pid k) (selftest_msg k))
    else r < 0 /\ inbox k' = inbox k.
Proof using All.
  intros Hr Hts Hl. unfold ipc_selftest_main.
  destruct (sl_getpid k _ _ (rd_ok _ Hr) Hl (rd_buf _ Hr)) as [Hp ->]. cbn [mbind option_bind].
  fold (selftest_msg k). set (msg := selftest_msg k). pose proof (selftest_msg_ok k Hp) as Hmsg. fold msg in Hmsg.
  unfold INT_MAX in Hp. rewrite u32_small by lia.
  destruct (put_msg_went k msg Hr) as (W0 & S0 & Hw0). set (k0 := put_msg msg k) in *. clearbody k0.
  pose proof (ss_pid _ _ S0) as Ep.
  destruct (pid_line_wrote k0 (lit "ipc_selftest pid=") (wn_ready _ _ _ W0)) as (k1 & k2 & k3 & -> & E2 & E3 & W3);
    [intros t [<-|[<-|[]]]; apply Hts; cbn; tauto|apply Hts; cbn; tauto|unfold is_u32; lia|].
  unfold pid_line in *. rewrite Ep in *.
  cbn [mbind option_bind]. rewrite E2. cbn [mbind option_bind]. rewrite E3. cbn [mbind option_bind].
  pose proof (wrote_ready _ _ _ W3) as Hr3. pose proof (same_trans _ _ _ S0 (wr_same _ _ _ W3)) as S3.
  assert (user_range k3 main_buf 28) as Hb by (eapply ol_sub; [apply Hr3|apply (rd_buf _ Hr3)|lia..]).
  destruct (sl_send_self k3 main_buf msg) as (k4 & r & -> & Hs4 & Hp4 & Hres);
    [apply Hr3|by apply (ss_listening _ _ S3)|done|done|by rewrite (ss_pid _ _ S3)| |].
  { eapply words_at_ext; [|exact Hw0]. intros x Hx. apply (wr_buf _ _ _ W3). cbn in Hx. lia. }
  cbn [mbind option_bind].
  assert (went [] k3 k4) as W4 by (eapply went_step; [done|exact Hs4|by intros ? []]).
  pose proof (went_trans [] _ _ _ _ W0 (went_trans _ _ _ _ _ (wr_went _ _ _ W3) W4)) as W.
  cbn [app] in W. rewrite app_nil_r in W.
  rewrite (ss_room _ _ S3), (ss_inbox _ _ S3), (ss_pid _ _ S3) in Hres. by exists k4, r.
Qed.

(** C9: [ipc_selftest] receives exactly the message it sent to itself, with its
    own pid stamped in as the sender, prints it and returns 0, and its queue is
    empty again; when a message already waits, or there is no mailbox for it, it
    says that the send failed and the message that waits is still there. *)
Theorem ipc_selftest_prints k :
  ready k -> incl ipc_selftest_texts ts -> listening k ->
  exists k', ipc_selftest_main k = Some (k', snd (selftest_says k)) /\
    went (pid_line (lit "ipc_selftest pid=") k ++ fst (selftest_says k)) k k' /\
    inbox k' = if inbox_room k && bool_decide (inbox k = None) then None else inbox k.
Proof using All.
  intros Hr Hts Hl. destruct (selftest_sends k Hr Hts Hl) as (k4 & r & -> & W & Hres).
  assert (0 <= os_pid k <= INT_MAX) as Hp by apply (sl_getpid k _ _ (rd_ok _ Hr) Hl (rd_buf _ Hr)).
  pose proof (wn_ready _ _ _ W) as Hr4. unfold selftest_rest, selftest_says.
  destruct (inbox_room k && bool_decide (inbox k = None)); destruct Hres as [Hrr Hi]; cbn [fst snd].
  2:{ rewrite (proj2 (Z.ltb_lt r 0)) by done.
      destruct (fail_wrote k4 (line "ipc_selftest: send failed") Hr4) as (k5 & -> & W5); [apply Hts; cbn; tauto|].
      exists k5. split; [done|]. split; [exact (went_trans _ _ _ _ _ W (wr_went _ _ _ W5))|].
      by rewrite (ss_inbox _ _ (wr_same _ _ _ W5)). }
  subst r. change (0 <? 0) with false. cbn iota.
  destruct (recv_went k4 _ Hr4 Hi) as (k5 & -> & W5 & Hw & Hi5 & _). cbn [mbind option_bind].
  change (0 <? 0) with false. cbn iota.
  destruct (write_msg_wrote k5 (lit "ipc_selftest ok: src=") (stamp (os_pid k) (os_pid k) (selftest_msg k)))
    as (k6 & -> & W6); [apply W5|by intros t Ht; apply Hts, in_app_iff; left|apply Hts; cbn; tauto| |done|].
  - pose proof (proj1 (selftest_msg_ok k Hp)) as Hu. unfold msg_words in *. rewrite !Forall_cons_iff in *.
    split_and!; try apply Hu; apply u32_range.
  - exists k6. split; [done|]. split; [|by rewrite (ss_inbox _ _ (wr_same _ _ _ W6))].
    exact (went_trans _ _ _ _ _ W (went_trans [] _ _ _ _ W5 (wr_went _ _ _ W6))).
Qed.

End texts.
End services.
