(* ===== verification/UKernelSvc.v ===== *)
(** * UKernelSvc: the kernel behind the calls of UServices.v

    [ServiceLaws] proved of the kernel, from the theorems about the message
    queues and the name service. *)
From S2P Require Import Prelude KernelH Util Memory Heap Proc Sched Iface Service Elf Core Ipc Storage IsoFs Vfs VfsTree Syscall FdTable Kernel Files User Usys UPrograms UProgSpec UServices UKernel.
Local Open Scope Z_scope.
Local Open Scope slop_scope.

Lemma words_bytes_lookup ws : forall i j w b,
  ws !! i = Some w -> le32 w !! j = Some b -> words_bytes ws !! (4 * i + j)%nat = Some b.
Proof.
  induction ws as [|v ws IH]; intros [|i] j w b Hi Hj; try done;
    change (words_bytes (v :: ws)) with (le32 v ++ words_bytes ws).
  - injection Hi as ->. rewrite lookup_app_l by (by apply lookup_lt_Some in Hj). done.
  - rewrite lookup_app_r by (cbn; lia). replace (4 * S i + j - length (le32 v))%nat with (4 * i + j)%nat by (cbn; lia).
    by eapply IH.
Qed.

Section kernel_services.
Context `{Linker} `{MountFs}.

#[export] Instance kernel_svc : OsServices kernel := {|
  os_pid := k_pid;
  inbox k := pending (k_ipc k) (k_pid k);
  inbox_room k := mailbox_room (k_ipc k) (k_pid k);
  listening k := waiting (k_ipc k) (k_pid k) = None /\ is_u32 (ring3_current_pid k);
  found k name := if bool_decide (name = []) then None
                  else svc_view (k_core k) (k_services k) (name ++ [0]);
  mem_report k := mem_info_words (meminfo_of (k_heap k) (user_boot_mbi k) (user_boot_magic k)) |}.

Lemma same_services k k' :
  k_ipc k' = k_ipc k -> ring3_current_pid k' = ring3_current_pid k -> c_procs (k_core k') = c_procs (k_core k) ->
  k_services k' = k_services k -> k_heap k' = k_heap k -> user_boot_mbi k' = user_boot_mbi k ->
  user_boot_magic k' = user_boot_magic k -> services_same k k'.
Proof using.
  intros E1 E2 E3 E4 E5 E6 E7. assert (k_pid k' = k_pid k) as Ep by (unfold k_pid; by rewrite E2).
  constructor; cbn; rewrite ?Ep, ?E1, ?E2, ?E4, ?E5, ?E6, ?E7; try done.
  intros name. case_bool_decide; [done|]. unfold svc_view. cbn [state_of core_proc_ops]. by rewrite E3.
Qed.

(** Every call that comes back has run its handler. *)
Lemma call_back k nr b c d k' r :
  sys_call k nr b c d = Some (k', r) -> nr <> 60 -> nr <> 240 -> nr <> 248 ->
  exists r0, syscall_entry k nr b c d = Some (k', r0) /\ r = s32 r0.
Proof using.
  unfold sys_call. cbn [int80 kernel_os]. unfold syscall_stub. cbn [nth call_frame]. intros Hc H1' H2' H3'.
  rewrite !(proj2 (Z.eqb_neq nr _)) in Hc by done.
  destruct (syscall_entry k nr b c d) as [[k1 r1]|] eqn:E; [|done]. cbn [mbind option_bind] in Hc.
  destruct (r1 =? ERR_BLOCKED); [done|]. cbn in Hc. simplify_eq. by exists r1.
Qed.

Lemma print_services k fd a n k' r :
  fd = 1 \/ fd = 2 -> sys_write k fd a n = Some (k', r) -> services_same k k'.
Proof using.
  intros Hfd Hw. apply call_back in Hw as (r0 & He & _); [|done..]. rewrite entry_write in He.
  rewrite small_fd in He by (unfold INT_MAX; lia). unfold ksys_write in He.
  assert ((fd =? 1) || (fd =? 2) = true) as E by (destruct Hfd as [-> | ->]; done). rewrite E in He.
  repeat case_match; simplify_eq; by apply same_services.
Qed.

(** A call with one argument comes back with what its handler gives. *)
Lemma called k nr a k' r :
  243 < nr -> syscall_entry k nr a 0 0 = Some (k', r) -> nr <> 248 /\ r <> ERR_BLOCKED ->
  sys_call k nr a 0 0 = Some (k', s32 r).
Proof using. intros Hn He [H1' H2']. apply stub_call; try done; lia. Qed.

(** A program that owns memory has a process. *)
Lemma user_process k a n :
  user_range k a n -> ring3_active k = true ->
  0 < k_pid k /\ exists image, proc_get_image (c_procs (k_core k)) (k_pid k) = Some image.
Proof using.
  intros (_ & _ & _ & Hv) Hr. unfold validate_user_ptr in Hv. rewrite Hr in Hv. cbn [negb] in Hv.
  destruct (proc_get_image _ _) as [image|]; [|done].
  destruct (k_pid k <=? 0) eqn:E; cbn [orb] in Hv; [done|]. zify_bool. split; [done|by exists image].
Qed.

Lemma getpid_law k a n :
  kernel_inv k -> ring3_active k = true -> listening k -> user_range k a n ->
  0 <= k_pid k <= INT_MAX /\ sys_getpid k = Some (k, k_pid k).
Proof using.
  intros Hi Hr [_ Hu] Hur. destruct (user_process k a n Hur Hr) as [Hp _].
  assert (0 <= k_pid k <= INT_MAX) as Hb.
  { split; [lia|]. unfold k_pid, s32. pose proof (u32_range (ring3_current_pid k)).
    destruct (_ <=? _) eqn:E; zify_bool; unfold INT_MAX in *; lia. }
  split; [done|]. unfold sys_getpid.
  assert (ksys_getpid k = k_pid k) as Hg.
  { unfold ksys_getpid. rewrite Hr. destruct (0 <? ring3_current_pid k) eqn:E; [done|]. zify_bool.
    assert (ring3_current_pid k = 0) as E0 by (unfold is_u32 in Hu; lia). unfold k_pid in Hp. rewrite E0 in Hp. done. }
  destruct (small_result (k_pid k)) as [Hs Hnb]; [lia|].
  erewrite stub_call; [by rewrite Hs|done|done|done| |done].
  change (syscall_entry k 20 0 0 0) with (Some (k, ksys_getpid k)). by rewrite Hg.
Qed.

(** ** Messages *)

(** A message to a process that is not blocked goes into its mailbox. *)
Lemma send_unblocked s q src dst msg s' q' b :
  ipc_inv q -> 0 <= dst -> state_of s dst <> PROC_UNUSED -> waiting q dst = None ->
  ipc_send (S := core) s q src dst msg = (s', q', b) ->
  s' = s /\ b = mailbox_room q dst && bool_decide (pending q dst = None) /\
  pending q' dst = if b then Some (stamp src dst msg) else pending q dst.
Proof using.
  intros Hi Hd Hst Hw. unfold ipc_send. rewrite (proj2 (Z.ltb_ge dst 0)), bool_decide_false by done. cbn [orb].
  unfold ipc_unblock_deliver. rewrite (proj2 (Z.ltb_ge dst 0)), (proj2 (find_waiter_none q dst) Hw) by done.
  cbn iota beta. fold (open_mailbox q dst). destruct (open_mailbox q dst) as [q2 o] eqn:Eo.
  destruct (open_mailbox_spec _ _ _ _ Hi Eo) as (Hi2 & Hpe & _ & Ho).
  destruct o as [slot|].
  2:{ destruct Ho as [-> ->]. by intros [= <- <- <-]. }
  destruct Ho as (-> & x & Hx & Hu & Hk & Hpend). rewrite Hx. cbn [from_option andb].
  destruct (has_message x) eqn:Em.
  { intros [= <- <- <-]. rewrite Hpend, bool_decide_false by done. by rewrite Hpe, Hpend. }
  intros [= <- <- <-]. rewrite Hpend, bool_decide_true by done. split_and!; [done|done|].
  rewrite (alter_known _ _ _ _ Hx).
  set (y := {| mb_used := mb_used x; mb_pid := mb_pid x; has_message := true; message := stamp src dst msg |}).
  destruct (mailbox_put q2 slot x y) as (_ & Hp3 & _);
    [done|done|by apply (key_free_same _ _ x); [apply Hi2| | |]|].
  rewrite Hp3. cbn [hit mailbox_table mb_used mb_pid y has_message message]. by rewrite Hu, Hk, Z.eqb_refl.
Qed.

(** The message in memory is the one that is sent. *)
Lemma read_msg_words m a msg :
  fits a 28 -> message_ok msg -> words_at m a (msg_words msg) -> read_msg m a = msg.
Proof using.
  intros Hf (Hu & Hs & Hd) Hw.
  assert (forall i w, msg_words msg !! i = Some w -> load_u32 m (a + 4 * Z.of_nat i) = w) as Hl.
  { intros i w Hi. pose proof (lookup_lt_Some _ _ _ Hi) as Hlt. cbn in Hlt. destruct Hf.
    apply load_u32_bytes_at; [split; lia|exact (Forall_lookup_1 _ _ _ _ Hu Hi)|].
    intros j b Hj. pose proof (lookup_lt_Some _ _ _ Hj) as Hj4. cbn in Hj4.
    replace (a + 4 * Z.of_nat i + Z.of_nat j) with (a + Z.of_nat (4 * i + j)) by lia. apply Hw.
    by apply words_bytes_lookup with w. }
  unfold read_msg.
  pose proof (Hl 0%nat _ eq_refl) as L0. rewrite Z.add_0_r in L0.
  pose proof (Hl 1%nat _ eq_refl : load_u32 m (a + 4) = _) as L1.
  pose proof (Hl 2%nat _ eq_refl : load_u32 m (a + 8) = _) as L2.
  pose proof (Hl 3%nat _ eq_refl : load_u32 m (a + 12) = _) as L3.
  pose proof (Hl 4%nat _ eq_refl : load_u32 m (a + 16) = _) as L4.
  pose proof (Hl 5%nat _ eq_refl : load_u32 m (a + 20) = _) as L5.
  pose proof (Hl 6%nat _ eq_refl : load_u32 m (a + 24) = _) as L6.
  rewrite L0, L1, L2, L3, L4, L5, L6. cbn. rewrite Hs, Hd. by destruct msg.
Qed.

Lemma user_live k a n :
  kernel_inv k -> ring3_active k = true -> user_range k a n ->
  0 < k_pid k /\ state_of (k_core k) (k_pid k) <> PROC_UNUSED.
Proof using.
  intros Hi Hr Hur. destruct (user_process k a n Hur Hr) as [Hp [image Him]]. split; [done|].
  cbn [state_of core_proc_ops]. rewrite <- find_slot_live.
  unfold proc_get_image in Him. by destruct (find_slot_by_pid _ _).
Qed.

(** A change of the queues only. *)
Lemma queue_step k q :
  kernel_inv k -> ring3_active k = true -> ipc_inv q ->
  os_step nothing None [] k (with_ipc q (with_core (k_core k) k)).
Proof using.
  intros Hi Hr Hq. apply (step_of k); try done.
  - destruct Hi. by constructor.
  - symmetry. apply app_nil_r.
Qed.

Lemma send_law k a msg :
  kernel_inv k -> ring3_active k = true -> listening k -> user_range k a 28 -> message_ok msg ->
  dst_pid msg = k_pid k -> words_at (k_mem k) a (msg_words msg) ->
  exists k' r, sys_ipc_send k a = Some (k', r) /\ os_step nothing None [] k k' /\ k_pid k' = k_pid k /\
    if inbox_room k && bool_decide (inbox k = None)
    then r = 0 /\ inbox k' = Some (stamp (k_pid k) (k_pid k) msg)
    else r < 0 /\ inbox k' = inbox k.
Proof using.
  intros Hi Hr [Hl Hu] Hur Hm Hd Hw. destruct (range_user k a 28 Hi Hr Hur) as (Hau & _ & _ & _ & _ & Hv & _).
  destruct (user_live k a 28 Hi Hr Hur) as [Hp Hst]. destruct Hur as (Ha & _ & Hf & _).
  destruct (ipc_send (k_core k) (k_ipc k) (k_pid k) (k_pid k) msg) as [[c q] b] eqn:Es.
  pose proof (ipc_send_spec _ _ _ _ _ _ _ _ (ki_core _ Hi) (ki_ipc _ Hi) Es) as (_ & Hq & _).
  destruct (send_unblocked _ _ _ _ _ _ _ _ (ki_ipc _ Hi) (Z.lt_le_incl _ _ Hp) Hst Hl Es) as (-> & Hb & Hpend).
  set (k' := with_ipc q (with_core (k_core k) k)).
  assert (syscall_entry k 245 a 0 0 = Some (k', if b then 0 else ERR_AGAIN)) as He.
  { change (syscall_entry k 245 a 0 0) with (Some (ksys_ipc_send k a)). unfold ksys_ipc_send.
    rewrite (proj2 (Z.eqb_neq a 0)), Hv by lia. cbn [negb orb].
    rewrite (read_msg_words _ _ msg) by (done || split; lia). by rewrite Hd, Es. }
  exists k', (if b then 0 else ERR_AGAIN). split; [|split; [by apply queue_step|split; [done|]]].
  - destruct b; [apply (called k 245 a _ 0)|apply (called k 245 a _ ERR_AGAIN)]; done.
  - cbn [inbox_room inbox kernel_svc]. rewrite <- Hb. change (k_pid k') with (k_pid k). cbn [k_ipc k' with_ipc].
    destruct b; split; done.
Qed.

Lemma recv_law k a msg :
  kernel_inv k -> ring3_active k = true -> user_range k a 28 -> inbox k = Some msg ->
  exists k', sys_ipc_recv k a = Some (k', 0) /\ os_step (in_buf a 28) None [] k k' /\
    words_at (k_mem k') a (msg_words msg) /\ inbox k' = None /\ k_pid k' = k_pid k /\
    forall name, found k' name = found k name.
Proof using.
  intros Hi Hr Hur Hm. destruct (range_user k a 28 Hi Hr Hur) as (Hau & _ & _ & _ & _ & Hv & _).
  destruct (user_live k a 28 Hi Hr Hur) as [Hp _]. pose proof Hur as (Ha & _ & Hf & _).
  destruct (ipc_recv (k_ipc k) (k_pid k)) as [q o] eqn:Er.
  destruct (ipc_recv_spec _ _ _ _ (ki_ipc _ Hi) Er) as (Hq & -> & _ & Hpend).
  rewrite (proj2 (Z.ltb_ge (k_pid k) 0)) in Er by lia. cbn [inbox kernel_svc] in Hm. rewrite Hm in Er.
  set (m := store_words (k_mem k) a (msg_words msg)). set (k1 := with_ipc q (with_core (k_core k) k)).
  assert (fits a (Z.of_nat (length (words_bytes (msg_words msg))))) as Hfit
    by (rewrite words_bytes_length; cbn; split; lia).
  assert (os_step (in_buf a 28) None [] k1 (set_umem m k1)) as Hs2.
  { pose proof (st_ok _ _ _ _ _ (queue_step k q Hi Hr Hq)) as [Hi1 Hr1].
    apply store_law; [exact Hi1|exact Hr1|exact Hur| |].
    - intros x Hx. unfold m. rewrite store_words_eq. apply store_bytes_out; [done|].
      rewrite words_bytes_length. cbn. lia.
    - unfold m. rewrite store_words_eq. apply store_bytes_ok, Hi. }
  exists (set_umem m k1). split_and!.
  - assert (syscall_entry k 246 a 0 0 = Some (set_umem m k1, 0)) as He.
    { change (syscall_entry k 246 a 0 0) with (Some (ksys_ipc_recv k a)). unfold ksys_ipc_recv.
      rewrite (proj2 (Z.eqb_neq a 0)), Hv by lia. cbn [negb orb]. by rewrite Er. }
    apply (called k 246 a _ 0); [done|exact He|done].
  - pose proof (queue_step k q Hi Hr Hq) as Hs1. step_join Hs1 Hs2.
  - change (k_mem (set_umem m k1)) with m. unfold m. rewrite store_words_eq.
    apply bytes_at_store; [done|apply words_bytes_byte].
  - cbn [inbox kernel_svc]. change (k_pid (set_umem m k1)) with (k_pid k). change (k_ipc (set_umem m k1)) with q.
    rewrite Hpend. by rewrite decide_True by lia.
  - done.
  - done.
Qed.

(** ** The name service *)

Lemma name_copied k a name :
  kernel_inv k -> ring3_active k = true -> string_at k a name -> Z.of_nat (length name) < 32 ->
  a <> 0 /\ copy_user_cstr k a 32 = Some (name ++ [0]).
Proof using.
  intros Hi Hr (Hb & Hn & Hur) Hl. assert (0 < a) as Ha by apply Hur. split; [lia|]. unfold copy_user_cstr.
  rewrite (proj2 (Z.eqb_neq a 0)) by lia. change (32 =? 0) with false. cbn [orb].
  apply copy_chars_string; try done. lia.
Qed.

(** A change of the table of names only. *)
Lemma names_step k sv :
  kernel_inv k -> ring3_active k = true -> svc_inv sv -> os_step nothing None [] k (with_services sv k).
Proof using.
  intros Hi Hr Hsv. apply (step_of k); try done.
  - destruct Hi. by constructor.
  - symmetry. apply app_nil_r.
Qed.

Lemma cstr_name name : no_nul name -> cstr (name ++ [0]) = name.
Proof using. intros Hn. exact (cstr_app_nul name [] Hn). Qed.

(** Live processes have small numbers. *)
Lemma live_pid k pid : kernel_inv k -> state_of (k_core k) pid <> PROC_UNUSED -> 0 <= pid <= INT_MAX.
Proof using.
  intros Hi Hst. cbn [state_of core_proc_ops] in Hst. rewrite <- find_slot_live in Hst. destruct Hst as [slot Hf].
  apply find_slot_inv in Hf as (p & Hp & Hl & <- & _).
  pose proof (ck_procs _ (ki_core _ Hi)) as Hpi. pose proof (pv_pids _ Hpi _ _ Hp Hl). pose proof (pv_next _ Hpi). lia.
Qed.

Lemma found_live k name pid :
  kernel_inv k -> found k name = Some pid -> 0 <= pid <= INT_MAX.
Proof using.
  intros Hi. cbn [found kernel_svc]. case_bool_decide; [done|]. unfold svc_view.
  destruct (svc_map _ !! _) as [e|]; [|done]. cbn [mbind option_bind]. case_bool_decide; [done|].
  intros [= <-]. by apply (live_pid k).
Qed.

Lemma found_names k k' :
  c_procs (k_core k') = c_procs (k_core k) ->
  (forall n, svc_view (k_core k) (k_services k') n = svc_view (k_core k) (k_services k) n) ->
  forall name, found k' name = found k name.
Proof using.
  intros Hc Hv name. cbn [found kernel_svc]. case_bool_decide; [done|]. rewrite <- Hv.
  unfold svc_view. cbn [state_of core_proc_ops]. by rewrite Hc.
Qed.

Lemma lookup_law k a name :
  kernel_inv k -> ring3_active k = true -> string_at k a name -> Z.of_nat (length name) < 32 ->
  exists k' r, sys_service_lookup k a = Some (k', r) /\ os_step nothing None [] k k' /\
    match found k name with Some pid => r = pid /\ 0 <= pid <= INT_MAX | None => r < 0 end /\
    forall other, found k' other = found k other.
Proof using.
  intros Hi Hr Hs Hl. destruct (name_copied k a name Hi Hr Hs Hl) as [Ha Hc]. destruct Hs as (_ & Hn & _).
  destruct (service_lookup (k_core k) (k_services k) (Some (name ++ [0]))) as [sv v] eqn:El.
  destruct (proj2 (service_view_laws (k_core k) (k_services k) (name ++ [0]) 0 (ki_services _ Hi)) sv v El)
    as (Hsv & Hv & Hother). rewrite cstr_name in Hv by done.
  set (r := if v <? 0 then ERR_INVAL else v).
  assert (syscall_entry k 250 a 0 0 = Some (with_services sv k, r)) as He.
  { change (syscall_entry k 250 a 0 0) with (Some (ksys_service_lookup k a)). unfold ksys_service_lookup.
    by rewrite (proj2 (Z.eqb_neq a 0)), Hc, El by done. }
  pose proof (found_live k name) as Hlive.
  assert (match found k name with Some pid => r = pid /\ 0 <= pid <= INT_MAX | None => r = ERR_INVAL end) as Hres.
  { cbn [found kernel_svc] in *. unfold r. case_bool_decide as Hne; [by rewrite Hv, decide_True|].
    rewrite decide_False in Hv by done. destruct (svc_view _ _ _) as [pid|]; cbn in Hv; subst v; [|done].
    pose proof (Hlive pid Hi eq_refl). by rewrite (proj2 (Z.ltb_ge pid 0)) by lia. }
  exists (with_services sv k), (s32 r). split; [|split; [by apply names_step|split; [|by apply found_names]]].
  - apply (called k 250 a); [done|exact He|].
    destruct (found k name); [destruct Hres as [-> ?]; unfold ERR_BLOCKED; lia|by rewrite Hres].
  - destruct (found k name); [destruct Hres as [-> ?]; by rewrite s32_small|by rewrite Hres].
Qed.

Lemma register_law k a name :
  kernel_inv k -> ring3_active k = true -> string_at k a name -> Z.of_nat (length name) < 32 ->
  exists k' r, sys_service_register k a = Some (k', r) /\ os_step nothing None [] k k' /\ k_pid k' = k_pid k /\
    inbox k' = inbox k /\ (listening k -> listening k') /\
    (r < 0 /\ (forall other, found k' other = found k other) \/
     r = 0 /\ found k' name = Some (k_pid k) /\ forall other, other <> name -> no_nul other -> found k' other = found k other).
Proof using.
  intros Hi Hr Hs Hl. destruct (name_copied k a name Hi Hr Hs Hl) as [Ha Hc]. destruct Hs as (_ & Hn & _).
  destruct (service_register (k_core k) (k_services k) (Some (name ++ [0])) (k_pid k)) as [sv b] eqn:Es.
  destruct (proj1 (service_view_laws (k_core k) (k_services k) (name ++ [0]) (k_pid k) (ki_services _ Hi)) sv b Es)
    as (Hsv & Hb & Hno & Hyes). rewrite cstr_name in Hyes by done.
  assert (syscall_entry k 249 a 0 0 = Some (with_services sv k, if b then 0 else ERR_INVAL)) as He.
  { change (syscall_entry k 249 a 0 0) with (Some (ksys_service_register k a)). unfold ksys_service_register.
    by rewrite (proj2 (Z.eqb_neq a 0)), Hc, Es by done. }
  exists (with_services sv k), (if b then 0 else ERR_INVAL).
  split; [|split; [by apply names_step|do 3 (split; [done|])]].
  { destruct b; [apply (called k 249 a _ 0)|apply (called k 249 a _ ERR_INVAL)]; done. }
  destruct b; [right|left].
  - destruct (proj1 Hb eq_refl) as [Hvalid _]. specialize (Hyes eq_refl).
    assert (name <> []) as Hne.
    { intros ->. by destruct Hvalid. }
    split; [done|]. split.
    + cbn [found kernel_svc k_core k_services with_services]. rewrite bool_decide_false by done.
      rewrite Hyes, cstr_name by done. by rewrite decide_True.
    + intros other Ho Hon. cbn [found kernel_svc k_core k_services with_services]. case_bool_decide; [done|].
      rewrite Hyes, cstr_name by done. by rewrite decide_False.
  - split; [done|]. rewrite (Hno eq_refl). by apply found_names.
Qed.

(** ** The memory report *)

Lemma meminfo_words h mbi magic :
  length (mem_info_words (meminfo_of h mbi magic)) = 9%nat /\
  Forall is_u32 (mem_info_words (meminfo_of h mbi magic)).
Proof using.
  split; [done|]. unfold meminfo_of, mem_info_words. set (total := match mbi with Some _ => _ | None => 0 end).
  assert (is_u32 total) as Ht.
  { unfold total. destruct mbi as [i|]; [|done]. destruct (_ && _); [apply u32_range|done]. }
  set (ub := if heap_is_ready h then _ else _).
  assert (0 <= snd ub < 4294967296) as Hf.
  { unfold ub, heap_bytes_free. destruct (heap_is_ready h); [apply u32_range|]. cbn [snd].
    destruct (1024 <? total); [|lia]. destruct (_ <? _); [apply u32_range|lia]. }
  destruct ub as [used free]. cbn [snd] in Hf. pose proof (u32_range (used + 1023)) as Hu.
  cbn [mem_total_kib mem_used_kib mem_free_kib mem_shared_kib mem_buff_cache_kib mem_available_kib
       swap_total_kib swap_used_kib swap_free_kib].
  unfold is_u32 in *.
  repeat (constructor; [repeat case_match; zify_bool; mlia|]). constructor.
Qed.

Lemma meminfo_law k a :
  kernel_inv k -> ring3_active k = true -> user_range k a 36 ->
  exists k', sys_meminfo k a = Some (k', 0) /\ os_step (in_buf a 36) None [] k k' /\
    words_at (k_mem k') a (mem_report k).
Proof using.
  intros Hi Hr Hur. destruct (range_user k a 36 Hi Hr Hur) as (Hau & _ & _ & _ & _ & Hv & _).
  pose proof Hur as (Ha & _ & Hf & _). cbn [mem_report kernel_svc].
  set (ws := mem_info_words _). assert (length ws = 9%nat) as Hlen by done.
  assert (fits a (Z.of_nat (length (words_bytes ws)))) as Hfit by (rewrite words_bytes_length, Hlen; split; lia).
  exists (set_umem (store_words (k_mem k) a ws) k). split_and!.
  - apply (called k 244 a _ 0); [done| |done].
    change (syscall_entry k 244 a 0 0) with (Some (ksys_meminfo k a)). unfold ksys_meminfo.
    rewrite (proj2 (Z.eqb_neq a 0)), Hv by lia. done.
  - apply store_law; try done; rewrite store_words_eq.
    + intros x Hx. apply store_bytes_out; [done|]. rewrite words_bytes_length, Hlen. lia.
    + apply store_bytes_ok, Hi.
  - change (k_mem (set_umem ?m k)) with m. rewrite store_words_eq.
    apply bytes_at_store; [done|apply words_bytes_byte].
Qed.

#[export] Instance kernel_svc_laws : ServiceLaws kernel.
Proof using.
  constructor.
  - apply print_services.
  - intros k m. by apply same_services.
  - intros k a n [Hi Hr]. by apply getpid_law.
  - intros k a msg [Hi Hr]. by apply send_law.
  - intros k a msg [Hi Hr]. by apply recv_law.
  - intros k a name [Hi Hr]. by apply lookup_law.
  - intros k a name [Hi Hr]. by apply register_law.
  - intros k a [Hi Hr]. by apply meminfo_law.
  - intros k. apply meminfo_words.
Qed.


End kernel_services.
