(* ===== verification/UStdioTest.v ===== *)
(** * UStdioTest: a program that uses the streams of files

    The streams of kind FD of UStdio.v against [UserOsLaws], and [stdiotest]:
    what it prints through a stream into a file is what it reads back. *)
From S2P Require Import Prelude KernelH Util Memory Varargs Elf Vfs VfsTree FdTable Files UAlloc UFormat Usys UStdio UPrograms UProgSpec.
Local Open Scope Z_scope.
Local Open Scope slop_scope.

Section streams.
Context {K : Type} `{!UserOs K} `{!OsView K} `{!UserOsLaws K} `{!UserArena} `{!UserPlaces} `{!ProgPlaces}.
Implicit Types s : ulib K.

(** The memory the library and the program write: the local buffers, and the
    blocks of two stream structures. *)
Definition scratch (x : Z) : Prop :=
  in_buf local_buf 512 x \/ in_buf main_buf 64 x \/ in_buf slop_alloc_arena 80 x.

Record ready s : Prop := {
  rd_ok : os_ok (uos s);
  rd_local : user_range (uos s) local_buf 512;
  rd_main : user_range (uos s) main_buf 64;
  rd_arena : user_range (uos s) slop_alloc_arena 80;
  rd_stdout : ufiles s !! slop_stdout = Some (std_file 1)
}.

(** The library goes from [s] to [s'] within the scratch memory, with the same
    streams and allocator. *)
Record lib_step (fd : option Z) (out : list Z) s s' : Prop := {
  ls_os : os_step scratch fd out (uos s) (uos s');
  ls_used : uused s' = uused s;
  ls_files : ufiles s' = ufiles s
}.

Lemma ready_step fd out s k' :
  ready s -> os_step scratch fd out (uos s) k' -> ready (with_os k' s).
Proof using.
  intros [Hok Hl Hm Ha Ho] Hs. constructor; cbn; try done; [apply Hs|by eapply step_range..].
Qed.

Lemma stdout_nonzero : slop_stdout <> 0.
Proof using.
  pose proof places_distinct as Hd. intros Hz. rewrite Hz in Hd.
  inversion Hd as [|? ? Hn _]. apply Hn. clear. set_solver.
Qed.

(** A store of the program. *)
Lemma poke_step s a v n b :
  os_ok (uos s) -> user_range (uos s) b n -> b <= a < b + n ->
  os_step (in_buf b n) None [] (uos s) (uos (poke a v s)).
Proof using UserOsLaws0.
  intros Hok Hr Ha. destruct (ol_range _ _ _ Hok Hr) as (? & ? & ?).
  apply ol_store; [done|done| |by apply store_ok, ol_bytes].
  intros x Hx. unfold store. rewrite u32_small by lia. by rewrite (proj2 (Z.eqb_neq x a)) by lia.
Qed.

Lemma poke_mem s a v : lib_mem (poke a v s) = store (lib_mem s) a v.
Proof using UserOsLaws0. apply ol_get. Qed.

Lemma lib_step_of fd out s k' : os_step scratch fd out (uos s) k' -> lib_step fd out s (with_os k' s).
Proof using. intros Hs. by constructor. Qed.

Lemma lib_step_ready fd out s s' : ready s -> lib_step fd out s s' -> ready s'.
Proof using.
  intros Hr [Hs _ Hf]. destruct (ready_step fd out s (uos s') Hr Hs) as [? ? ? ? ?].
  constructor; try done. rewrite Hf. apply Hr.
Qed.

Lemma scratch_local a n : local_buf <= a -> a + n <= local_buf + 512 -> forall x, in_buf a n x -> scratch x.
Proof using. intros Ha Hn x Hx. left. unfold in_buf in *. lia. Qed.

(** ** The console *)

Lemma fputc_prints s c :
  ready s -> is_byte c ->
  exists s', slop_fputc s c slop_stdout = Some (s', c) /\ lib_step None [c] s s'.
Proof using UserOsLaws0.
  intros Hr Hc. pose proof Hr as [Hok Hl _ _ Ho]. pose proof (ol_max (K := K)).
  unfold slop_fputc. rewrite (proj2 (Z.eqb_neq _ 0)), Ho, (u8_byte c) by (done || apply stdout_nonzero).
  cbn [mbind option_bind]. change (f_kind (std_file 1) =? SLOP_FILE_KIND_MEM) with false.
  change (f_fd (std_file 1)) with 1. cbn iota.
  pose proof (poke_step s local_buf c 512 local_buf Hok Hl (conj (Z.le_refl _) (Z.lt_add_pos_r 512 _ eq_refl))) as Hs1.
  pose proof (st_ok _ _ _ _ _ Hs1) as Hok1.
  destruct (print_bytes (uos (poke local_buf c s)) 1 local_buf 1 Hok1) as (k2 & -> & Hs2 & _);
    [by left| |lia|].
  { eapply ol_sub; [exact Hok1|eapply step_range; [exact Hs1|exact Hl]|lia..]. }
  cbn [mbind option_bind]. change (negb (1 =? 1)) with false. cbn iota.
  assert (load_bytes (lib_mem (poke local_buf c s)) local_buf (Z.to_nat 1) = [c]) as Hb.
  { destruct (ol_range _ _ _ Hok Hl) as (? & ? & ?).
    rewrite poke_mem. apply (load_store_bytes (lib_mem s) local_buf [c]); [cbn; split; lia|by constructor]. }
  change (umem (uos (poke local_buf c s))) with (lib_mem (poke local_buf c s)) in Hs2. rewrite Hb in Hs2.
  eexists. split; [done|]. constructor; [|done|done].
  change [c] with ([] ++ [c]). step_join Hs1 Hs2.
Qed.

Lemma puts_prints s a t :
  ready s -> string_at (uos s) a t -> t <> [] ->
  exists s', slop_puts s a = Some (s', 10) /\ lib_step None (t ++ [10]) s s'.
Proof using UserOsLaws0.
  intros Hr Ht Hne. pose proof Hr as [Hok Hl _ _ Ho].
  pose proof (string_range _ _ _ Hok Ht Hne) as Hrt. destruct (ol_range _ _ _ Hok Hrt) as (? & ? & ?).
  unfold slop_puts, slop_fputs. rewrite !(proj2 (Z.eqb_neq _ 0)) by (apply stdout_nonzero || lia). cbn [orb].
  rewrite Ho. cbn [mbind option_bind]. unfold lib_mem. rewrite (cstr_len_at _ _ _ Hok Ht). cbn [mbind option_bind].
  destruct (write_all_prints (uos s) 1 a (Z.of_nat (length t)) Hok) as (k1 & Hw & Hs1); [by left|done|].
  change (f_fd (std_file 1)) with 1. rewrite Hw. cbn [mbind option_bind].
  change (0 =? 0) with true. change (0 <? 0) with false. cbn iota.
  rewrite Nat2Z.id, string_bytes in Hs1 by done.
  assert (os_step scratch None t (uos s) k1) as Hs1' by (eapply step_weaken; [exact Hs1|by intros ? []|by left]).
  destruct (fputc_prints (with_os k1 s) 10) as (s' & Hp & [Hs2 Hu Hf]); [by eapply ready_step|by unfold is_byte|].
  exists s'. split; [exact Hp|]. constructor; [|done|done]. cbn [uos with_os] in Hs2. step_join Hs1' Hs2.
Qed.

(** The local buffer of [slop_vfprintf] with a text in it. *)
Lemma fill_local s out :
  ready s -> Z.of_nat (length out) < 512 -> all_bytes out ->
  let s1 := with_umem (store_bytes (lib_mem s) local_buf (out ++ [0])) s in
  os_step scratch None [] (uos s) (uos s1) /\ load_bytes (lib_mem s1) local_buf (length out) = out.
Proof using UserOsLaws0.
  intros [Hok Hl _ _ _] Hlen Hby s1. destruct (ol_range _ _ _ Hok Hl) as (Hl0 & _ & Hl1).
  assert (fits local_buf (Z.of_nat (length (out ++ [0])))) as Hfit by (rewrite length_app; cbn; split; lia).
  split.
  - eapply (step_weaken (in_buf local_buf 512)); [|by left|by left].
    apply ol_store; [done|done| |by apply store_bytes_ok, ol_bytes].
    intros x Hx. apply store_bytes_out; [done|]. rewrite length_app. cbn. lia.
  - assert (lib_mem s1 = store_bytes (lib_mem s) local_buf (out ++ [0])) as -> by apply ol_get.
    apply bytes_at_load; [split; lia|].
    apply (bytes_at_app _ _ out [0]), bytes_at_store; [done|].
    apply Forall_app. split; [done|]. repeat constructor; unfold is_byte; lia.
Qed.

(** [slop_printf] of a text that fits the buffer. *)
Lemma printf_prints s fmt args out :
  ready s -> slop_format fmt args = Some out -> out <> [] -> Z.of_nat (length out) < 512 -> all_bytes out ->
  exists s', slop_printf s (Some fmt) args = Some (s', Z.of_nat (length out)) /\ lib_step None out s s'.
Proof using UserOsLaws0.
  intros Hr Hfmt Hne Hlen Hby. pose proof Hr as [Hok Hl _ _ Ho].
  unfold slop_printf, slop_vfprintf. rewrite (proj2 (Z.eqb_neq _ 0)), Ho by apply stdout_nonzero.
  cbn [mbind option_bind]. rewrite Hfmt. cbn [mbind option_bind]. unfold OUT_SIZE.
  rewrite (proj2 (Z.leb_gt _ _)) by lia. change (f_fd (std_file 1)) with 1.
  destruct (fill_local s out Hr Hlen Hby) as [Hs1 Hload]. set (s1 := with_umem _ s) in *.
  pose proof (st_ok _ _ _ _ _ Hs1) as Hok1.
  destruct (write_all_prints (uos s1) 1 local_buf (Z.of_nat (length out)) Hok1) as (k2 & -> & Hs2); [by left| |].
  { eapply ol_sub; [exact Hok1|eapply step_range; [exact Hs1|exact Hl]|lia| |lia].
    destruct out; [done|cbn; lia]. }
  cbn [mbind option_bind]. change (0 =? 0) with true. cbn iota.
  rewrite Nat2Z.id in Hs2. change (umem (uos s1)) with (lib_mem s1) in Hs2. rewrite Hload in Hs2.
  eexists. split; [done|]. constructor; [|done|done]. step_join Hs1 Hs2.
Qed.

(** ** Streams of files *)

(** [slop_write_all] to a file writes everything in one call, or nothing. *)
Lemma write_all_file k fd a n f :
  os_ok k -> fd_file k fd = Some f -> uf_write f = true -> user_range k a n ->
  exists k' r, slop_write_all k fd a n = Some (k', r) /\ os_step nothing (Some fd) [] k k' /\
    (r = -1 /\ fd_file k' fd = Some f \/
     r = 0 /\ fd_file k' fd =
       Some (with_written (file_write (load_bytes (umem k) a (Z.to_nat n)) (uf_file f)) f)).
Proof using UserOsLaws0.
  intros Hok Hf Hw Hr. destruct (ol_range k a n Hok Hr) as (Ha & Hmx & Hfit).
  unfold ELF_USER_IMAGE_MAX in Hmx.
  destruct (ol_write k fd a n f Hok Hf Hw Hr) as (k' & r & Hk & Hs & Hcase); [unfold INT_MAX; lia|].
  unfold slop_write_all. cbn [write_all_loop]. rewrite (proj2 (Z.ltb_lt 0 n)) by lia.
  rewrite Z.add_0_r, Z.sub_0_r, !u32_small by lia. rewrite Hk. cbn [mbind option_bind].
  exists k'. destruct Hcase as [[Hneg Hf']|[-> Hf']].
  - rewrite (proj2 (Z.leb_le r 0)) by lia. exists (-1). split; [done|]. split; [done|by left].
  - rewrite (proj2 (Z.leb_gt n 0)), Z.add_0_l, u32_small by lia. exists 0.
    destruct (Z.to_nat n) as [|m] eqn:E; [lia|]. cbn [write_all_loop].
    rewrite (proj2 (Z.ltb_ge n n)) by lia. split; [done|]. split; [done|by right].
Qed.

Lemma fprintf_writes s fp fd f fmt args out :
  ready s -> fp <> 0 -> ufiles s !! fp = Some (fd_stream fd) -> fd_file (uos s) fd = Some f ->
  uf_write f = true -> slop_format fmt args = Some out -> out <> [] -> Z.of_nat (length out) < 512 ->
  all_bytes out ->
  exists s' r, slop_fprintf s fp (Some fmt) args = Some (s', r) /\ lib_step (Some fd) [] s s' /\
    (r = -1 /\ fd_file (uos s') fd = Some f \/
     r = Z.of_nat (length out) /\ fd_file (uos s') fd = Some (with_written (file_write out (uf_file f)) f)).
Proof using UserOsLaws0.
  intros Hr Hfp Hst Hf Hw Hfmt Hne Hlen Hby. pose proof Hr as [Hok Hl _ _ _].
  unfold slop_fprintf, slop_vfprintf. rewrite (proj2 (Z.eqb_neq _ 0)), Hst by done.
  cbn [mbind option_bind]. rewrite Hfmt. cbn [mbind option_bind]. unfold OUT_SIZE.
  rewrite (proj2 (Z.leb_gt _ _)) by lia. change (f_fd (fd_stream fd)) with fd.
  destruct (fill_local s out Hr Hlen Hby) as [Hs1 Hload]. set (s1 := with_umem _ s) in *.
  pose proof (st_ok _ _ _ _ _ Hs1) as Hok1.
  destruct (write_all_file (uos s1) fd local_buf (Z.of_nat (length out)) f Hok1) as (k2 & r & -> & Hs2 & Hcase);
    [by apply (st_fds _ _ _ _ _ Hs1)|done| |].
  { eapply ol_sub; [exact Hok1|eapply step_range; [exact Hs1|exact Hl]|lia| |lia].
    destruct out; [done|cbn; lia]. }
  cbn [mbind option_bind].
  assert (lib_step (Some fd) [] s (with_os k2 s1)) as Hst2.
  { constructor; [|done|done]. change (@nil Z) with (@nil Z ++ []). step_join Hs1 Hs2. }
  rewrite Nat2Z.id in Hcase. change (umem (uos s1)) with (lib_mem s1) in Hcase. rewrite Hload in Hcase.
  eexists _, _. split; [done|]. split; [exact Hst2|]. destruct Hcase as [[-> Hf']|[-> Hf']]; [left|right]; by split.
Qed.

(** The first two structures the allocator gives out. *)
Lemma malloc_file s :
  uused s = 0 \/ uused s = 40 ->
  slop_malloc (lib_alloc s) SLOP_FILE_BYTES =
    ({| slop_alloc_used := uused s + 40; amem := store_u32 (lib_mem s) (slop_alloc_arena + uused s) SLOP_FILE_BYTES |},
     slop_alloc_arena + uused s + 4).
Proof using.
  intros Hu. unfold slop_malloc, lib_alloc. cbn [slop_alloc_used amem].
  by destruct Hu as [-> | ->].
Qed.

Lemma fopen_gives s path mode flags k1 fd :
  ready s -> ~ in_buf slop_alloc_arena 80 slop_stdout -> uused s = 0 \/ uused s = 40 ->
  mode_flags mode = Some flags -> path <> 0 -> sys_open (uos s) path flags = Some (k1, fd) ->
  os_step nothing None [] (uos s) k1 -> 0 <= fd ->
  let fp := slop_alloc_arena + uused s + 4 in
  exists s', slop_fopen s path (Some mode) = Some (s', fp) /\ fp <> 0 /\ ready s' /\
    os_step scratch None [] (uos s) (uos s') /\ uused s' = uused s + 40 /\
    ufiles s' = <[fp := fd_stream fd]> (ufiles s) /\
    forall fd' f, fd_file k1 fd' = Some f -> fd_file (uos s') fd' = Some f.
Proof using UserOsLaws0.
  intros Hr Hout Hu Hm Hp Ho Hs1 Hfd fp. pose proof Hr as [Hok Hl _ Ha _].
  destruct (ol_range _ _ _ Hok Ha) as (Ha0 & _ & Ha1).
  unfold slop_fopen. rewrite (proj2 (Z.eqb_neq path 0)), Hm, Ho by done. cbn [mbind option_bind].
  rewrite (proj2 (Z.ltb_ge fd 0)) by done.
  rewrite (malloc_file (with_os k1 s)) by done. cbn [uused with_os]. fold fp.
  rewrite (proj2 (Z.eqb_neq fp 0)) by lia.
  set (s' := put_file fp _ _). pose proof (st_ok _ _ _ _ _ Hs1) as Hok1.
  assert (os_step (in_buf slop_alloc_arena 80) None [] k1 (uos s')) as Hs2.
  { apply ol_store; [done|by eapply step_range| |by apply store_bytes_ok, ol_bytes].
    intros x Hx. unfold store_u32. apply store_bytes_out; cbn [length le32]; [split; lia|lia]. }
  assert (os_step scratch None [] (uos s) (uos s')) as Hs12.
  { change (@nil Z) with (@nil Z ++ []). eapply (step_then _ _ _ _ _ _ _ _ _ _ _ Hs1 Hs2); try step_side.
    intros x Hx. by right; right. }
  exists s'. split; [done|]. split; [lia|]. split; [|split; [done|split; [done|split; [done|]]]].
  - destruct (ready_step _ _ _ _ Hr Hs12) as [? ? ? ? Hso]. constructor; try done.
    cbn [ufiles with_os s' put_file with_alloc] in *. rewrite lookup_insert_ne; [done|].
    intros Heq. apply Hout. rewrite <- Heq. unfold in_buf, fp. lia.
  - intros fd' f Hf. by apply (st_fds _ _ _ _ _ Hs2).
Qed.

Lemma fopen_fails s path mode flags k1 fd :
  mode_flags mode = Some flags -> path <> 0 -> sys_open (uos s) path flags = Some (k1, fd) -> fd < 0 ->
  slop_fopen s path (Some mode) = Some (with_os k1 s, 0).
Proof using.
  intros Hm Hp Ho Hfd. unfold slop_fopen. rewrite (proj2 (Z.eqb_neq path 0)), Hm, Ho by done.
  cbn [mbind option_bind]. by rewrite (proj2 (Z.ltb_lt fd 0)).
Qed.

Lemma fclose_does s fp fd k1 r :
  fp <> 0 -> ufiles s !! fp = Some (fd_stream fd) -> sys_close (uos s) fd = Some (k1, r) ->
  slop_fclose s fp = Some (with_os k1 s, if r <? 0 then -1 else 0).
Proof using.
  intros Hfp Hf Hc. unfold slop_fclose. rewrite (proj2 (Z.eqb_neq fp 0)), Hf by done. cbn [mbind option_bind].
  change ((f_kind (fd_stream fd) =? SLOP_FILE_KIND_FD) && negb (f_owned (fd_stream fd) =? 0)) with true.
  change (f_fd (fd_stream fd)) with fd. cbn iota. by rewrite Hc.
Qed.

(** ** Reading a line *)

(** An open stream whose file has [rest] ahead. *)
Definition reads s fp fd (rest : list Z) : Prop :=
  ufiles s !! fp = Some (fd_stream fd) /\
  exists f, fd_file (uos s) fd = Some f /\ uf_read f = true /\ uf_write f = false /\ rest_of (uf_file f) = rest.

Hypothesis main_apart : main_buf + 64 <= local_buf \/ local_buf + 512 <= main_buf.

Lemma fgetc_gives s fp fd c rest :
  ready s -> fp <> 0 -> reads s fp fd (c :: rest) ->
  exists s', slop_fgetc s fp = Some (s', c) /\ lib_step (Some fd) [] s s' /\ reads s' fp fd rest /\
    is_byte c /\ forall x, main_buf <= x < main_buf + 64 -> lib_mem s' x = lib_mem s x.
Proof using UserOsLaws0 main_apart.
  intros Hr Hfp (Hst & f & Hf & Hrd & Hwr & Hrest). pose proof Hr as [Hok Hl Hm _ _].
  assert (user_range (uos s) local_buf 1) as Hl1 by (eapply ol_sub; [exact Hok|exact Hl|lia..]).
  unfold slop_fgetc. rewrite (proj2 (Z.eqb_neq fp 0)), Hst by done. cbn [mbind option_bind].
  change (f_kind (fd_stream fd) =? SLOP_FILE_KIND_MEM) with false.
  change (f_fd (fd_stream fd)) with fd. cbn iota.
  pose proof (ol_read (uos s) fd local_buf 1 f Hok Hf Hrd Hl1) as Hread. unfold file_read in Hread.
  unfold rest_of in Hrest. rewrite Hrest in Hread. change (Z.to_nat 1) with 1%nat in Hread. cbn [take length] in Hread.
  rewrite take_0 in Hread. cbn [length] in Hread.
  destruct Hread as (k1 & -> & Hs1 & Hb & Hf1). cbn [mbind option_bind].
  change (Z.of_nat 1 <=? 0) with false. cbn iota. cbn [load_bytes] in Hb. injection Hb as Hb.
  assert (is_byte c) as Hc by (rewrite <- Hb; by apply load_byte, (st_bytes _ _ _ _ _ Hs1)).
  exists (with_os k1 s). change (lib_mem (with_os k1 s)) with (umem k1).
  rewrite Hb, u8_byte by done. split; [done|]. split.
  { apply lib_step_of. eapply step_weaken; [exact Hs1| |by right]. by apply scratch_local; lia. }
  split; [|split; [done|]].
  - split; [done|]. eexists. split; [exact Hf1|]. split; [done|]. split; [done|].
    unfold rest_of. cbn. by rewrite <- drop_drop, Hrest.
  - intros x Hx. eapply (step_bytes _ _ _ (uos s) k1 main_buf 64); [exact Hok|exact Hs1|exact Hm| |done].
    apply spares_buf. lia.
Qed.

Lemma fgets_loop_line n : forall s fp fd body rest i,
  ready s -> fp <> 0 -> reads s fp fd (body ++ 10 :: rest) -> Forall (fun c => c <> 10) body ->
  (length body < n)%nat -> 0 <= i -> i + Z.of_nat (length body) + 1 <= 64 ->
  exists s', fgets_loop n s main_buf fp i = Some (s', i + Z.of_nat (length body) + 1) /\
    lib_step (Some fd) [] s s' /\ reads s' fp fd rest /\
    load_bytes (lib_mem s') (main_buf + i) (S (length body)) = body ++ [10] /\
    forall x, main_buf <= x < main_buf + i -> lib_mem s' x = lib_mem s x.
Proof using UserOsLaws0 main_apart.
  induction n as [|n IH]; intros s fp fd body rest i Hr Hfp Hrd Hb Hn Hi Hlen; [lia|].
  cbn [fgets_loop].
  set (c := hd 10 body). assert (exists rest1, body ++ 10 :: rest = c :: rest1 /\
    rest1 = match body with [] => rest | _ :: body' => body' ++ 10 :: rest end) as (rest1 & Ec & Er)
    by (destruct body; by eexists).
  rewrite Ec in Hrd. destruct (fgetc_gives s fp fd c rest1 Hr Hfp Hrd) as (s1 & -> & Hs1 & Hrd1 & Hc & Hmain).
  cbn [mbind option_bind]. rewrite (proj2 (Z.ltb_ge c 0)) by (unfold is_byte in Hc; lia).
  pose proof (lib_step_ready _ _ _ _ Hr Hs1) as Hr1. pose proof Hr1 as [Hok1 _ Hm1 _ _].
  destruct (ol_range _ _ _ Hok1 Hm1) as (Hm0 & _ & Hmx).
  assert (lib_step None [] s1 (poke (main_buf + i) c s1)) as Hs2.
  { constructor; [|done|done].
    eapply (step_weaken (in_buf main_buf 64)); [apply poke_step; [done|done|lia]| |by left].
    intros x Hx. by right; left. }
  assert (forall x, lib_mem (poke (main_buf + i) c s1) x = if x =? main_buf + i then c else lib_mem s1 x) as Hpoke.
  { intros x. rewrite poke_mem. unfold store. rewrite u32_small, u8_byte by (done || lia). done. }
  pose proof (lib_step_ready _ _ _ _ Hr1 Hs2) as Hr2.
  assert (reads (poke (main_buf + i) c s1) fp fd rest1) as Hrd2.
  { destruct Hrd1 as (? & f & Hf & ?). split; [done|]. exists f. split; [|done].
    by apply (st_fds _ _ _ _ _ (ls_os _ _ _ _ Hs2)). }
  assert (lib_step (Some fd) [] s (poke (main_buf + i) c s1)) as Hs12.
  { constructor; [|by rewrite (ls_used _ _ _ _ Hs2), (ls_used _ _ _ _ Hs1)|by rewrite (ls_files _ _ _ _ Hs2), (ls_files _ _ _ _ Hs1)].
    pose proof (ls_os _ _ _ _ Hs1) as H1'. pose proof (ls_os _ _ _ _ Hs2) as H2'.
    change (@nil Z) with (@nil Z ++ []). step_join H1' H2'. }
  destruct body as [|c' body]; cbn [hd] in c; subst c rest1.
  - change (10 =? 10) with true. cbn iota. eexists. split; [cbn [length]; f_equal; f_equal; lia|].
    split; [exact Hs12|]. split; [done|]. split.
    + cbn [load_bytes length]. unfold load. rewrite u32_small, Hpoke, Z.eqb_refl by lia. done.
    + intros x Hx. rewrite Hpoke, (proj2 (Z.eqb_neq x _)) by lia. apply Hmain. lia.
  - apply Forall_cons_iff in Hb as [Hc10 Hb]. rewrite (proj2 (Z.eqb_neq c' 10)) by done.
    cbn [length] in *.
    destruct (IH (poke (main_buf + i) c' s1) fp fd body rest (i + 1) Hr2 Hfp Hrd2 Hb) as (s' & -> & Hs3 & Hrd3 & Hl3 & Hm3);
      [lia..|].
    exists s'. split; [f_equal; f_equal; lia|]. split; [|split; [done|split]].
    + constructor; [|by rewrite (ls_used _ _ _ _ Hs3), (ls_used _ _ _ _ Hs12)|by rewrite (ls_files _ _ _ _ Hs3), (ls_files _ _ _ _ Hs12)].
      pose proof (ls_os _ _ _ _ Hs12) as H1'. pose proof (ls_os _ _ _ _ Hs3) as H2'.
      change (@nil Z) with (@nil Z ++ []). step_join H1' H2'.
    + change (S (S (length body))) with (1 + S (length body))%nat. rewrite load_bytes_add.
      replace (main_buf + i + Z.of_nat 1) with (main_buf + (i + 1)) by lia. rewrite Hl3.
      cbn [load_bytes app]. unfold load. rewrite u32_small by lia.
      rewrite Hm3, Hpoke, Z.eqb_refl by lia. done.
    + intros x Hx. rewrite Hm3, Hpoke, (proj2 (Z.eqb_neq x _)) by lia. apply Hmain. lia.
Qed.

Lemma fgets_line s fp fd body rest :
  ready s -> fp <> 0 -> reads s fp fd (body ++ 10 :: rest) -> Forall (fun c => c <> 10) body ->
  no_nul body -> Z.of_nat (length body) <= 62 ->
  exists s', slop_fgets s main_buf 64 fp = Some (s', main_buf) /\ lib_step (Some fd) [] s s' /\
    reads s' fp fd rest /\ string_at (uos s') main_buf (body ++ [10]).
Proof using UserOsLaws0 main_apart.
  intros Hr Hfp Hrd Hb Hnn Hlen. pose proof Hr as [Hok _ Hm _ _].
  destruct (ol_range _ _ _ Hok Hm) as (Hm0 & _ & Hmx).
  unfold slop_fgets. rewrite !(proj2 (Z.eqb_neq _ 0)) by (done || lia). change (64 <=? 1) with false. cbn [orb].
  change (Z.to_nat (64 - 1)) with 63%nat.
  destruct (fgets_loop_line 63 s fp fd body rest 0 Hr Hfp Hrd Hb) as (s1 & -> & Hs1 & Hrd1 & Hl1 & _); [lia..|].
  cbn [mbind option_bind]. rewrite (proj2 (Z.eqb_neq _ 0)) by lia. rewrite Z.add_0_l, Z.add_0_r in *.
  pose proof (lib_step_ready _ _ _ _ Hr Hs1) as [Hok1 _ Hm1 _ _].
  set (a := main_buf + (Z.of_nat (length body) + 1)).
  assert (os_step (in_buf main_buf 64) None [] (uos s1) (uos (poke a 0 s1))) as Hs2
    by (apply poke_step; [done|done|unfold a; lia]).
  eexists. split; [done|]. split; [|split].
  - constructor; [|apply (ls_used _ _ _ _ Hs1)|apply (ls_files _ _ _ _ Hs1)].
    pose proof (ls_os _ _ _ _ Hs1) as H1'. change (@nil Z) with (@nil Z ++ []).
    eapply (step_then _ _ _ _ _ _ _ _ _ _ _ H1' Hs2); try step_side. intros x Hx. by right; left.
  - destruct Hrd1 as (? & f & Hf & ?). split; [done|]. exists f. split; [|done]. by apply (st_fds _ _ _ _ _ Hs2).
  - assert (length (body ++ [10]) = S (length body)) as Hl by (rewrite length_app; cbn; lia). split; [|split].
    + change (umem (uos (poke a 0 s1))) with (lib_mem (poke a 0 s1)). rewrite poke_mem.
      apply bytes_at_app. split.
      * intros i b Hi. pose proof (lookup_lt_Some _ _ _ Hi). unfold store. rewrite u32_small by (unfold a; lia).
        rewrite (proj2 (Z.eqb_neq _ _)) by (unfold a; lia).
        rewrite <- Hl1 in Hi. rewrite load_bytes_lookup in Hi by lia. injection Hi as <-.
        unfold load. by rewrite u32_small by lia.
      * intros i b Hi. destruct i as [|i]; [|done]. cbn in Hi. injection Hi as <-. unfold store, a.
        rewrite u32_small by lia. by rewrite (proj2 (Z.eqb_eq _ _)) by lia.
    + apply Forall_app. split; [done|]. by repeat constructor.
    + apply (step_range _ _ _ _ _ _ _ Hs2). eapply ol_sub; [exact Hok1|exact Hm1|lia..].
Qed.

(** ** [stdiotest] *)

Definition stdiotest_failures : list (list Z) :=
  [lit "stdiotest: fopen(w) failed"; lit "stdiotest: fprintf failed"; lit "stdiotest: fclose failed"].

(** What the program is given: its place in memory, and arguments that its own
    stores leave alone. *)
Record stdio_start s (argv : Z) (p t : list Z) : Prop := {
  ss_ready : ready s;
  ss_fresh : uused s = 0;
  ss_stdout : ~ in_buf slop_alloc_arena 80 slop_stdout;
  ss_texts : Forall (text_in (uos s)) stdiotest_failures;
  ss_spared : Forall (text_spared scratch) stdiotest_failures;
  ss_argv i : i = 1 \/ i = 2 -> user_range (uos s) (argv + 4 * i) 4 /\ spares scratch (argv + 4 * i) 4;
  ss_path : string_at (uos s) (arg (uos s) argv 1) p /\
            spares scratch (arg (uos s) argv 1) (Z.of_nat (length p) + 1);
  ss_text : string_at (uos s) (arg (uos s) argv 2) t /\
            spares scratch (arg (uos s) argv 2) (Z.of_nat (length t) + 1)
}.

Lemma urender_plain l ps args r :
  urender ps args = Some r -> urender (map UPlain l ++ ps) args = Some (l ++ r).
Proof using.
  intros Hr. induction l as [|c l IH]; [done|]. cbn [map app urender upiece_text mbind option_bind].
  by rewrite IH.
Qed.

Lemma value_format t :
  no_nul t -> Z.of_nat (length t) <= 400 ->
  slop_format (line "value=%s") [VStr (Some t)] = Some (lit "value=" ++ t ++ [10]).
Proof using.
  intros Hn Hl. unfold slop_format.
  rewrite (slop_format_loop_exact _ _ _ _ (lit "value=" ++ t ++ [10])); [done|lia| |].
  - assert (upieces (cstr (line "value=%s")) = map UPlain (lit "value=") ++ [UConv 115; UPlain 10]) as -> by reflexivity.
    apply urender_plain. cbn. by rewrite cstr_id.
  - rewrite !length_app. cbn. lia.
Qed.

Lemma back_format t :
  no_nul t -> Z.of_nat (length t) <= 400 ->
  slop_format (lit "stdiotest: read back: %s") [VStr (Some t)] = Some (lit "stdiotest: read back: " ++ t).
Proof using.
  intros Hn Hl. unfold slop_format.
  rewrite (slop_format_loop_exact _ _ _ _ (lit "stdiotest: read back: " ++ t)); [done|lia| |].
  - assert (upieces (cstr (lit "stdiotest: read back: %s")) = map UPlain (lit "stdiotest: read back: ") ++ [UConv 115])
      as -> by reflexivity.
    apply urender_plain. cbn. rewrite cstr_id by done.
    change (115 =? 115) with true. cbn. by rewrite app_nil_r.
  - rewrite !length_app. cbn. lia.
Qed.

Lemma text_of_at k a t : os_ok k -> string_at k a t -> text_of (umem k) a = Some (Some t).
Proof using UserOsLaws0.
  intros Hok Ht. unfold text_of. pose proof Ht as (_ & _ & Hr). destruct (ol_range _ _ _ Hok Hr) as (? & ? & ?).
  rewrite (proj2 (Z.eqb_neq a 0)) by lia. rewrite (cstr_len_at _ _ _ Hok Ht). cbn [mbind option_bind].
  by rewrite Nat2Z.id, string_bytes.
Qed.

Lemma line_bytes k a t : os_ok k -> string_at k a t -> all_bytes t.
Proof using UserOsLaws0.
  intros Hok Ht. rewrite <- (string_bytes k a t Hok Ht). apply load_bytes_byte, ol_bytes, Hok.
Qed.

Lemma read_back_prints s argv p body :
  ready s -> uused s = 0 \/ uused s = 40 -> ~ in_buf slop_alloc_arena 80 slop_stdout ->
  string_at (uos s) (arg (uos s) argv 1) p -> Z.of_nat (length p) < 128 ->
  path_file (uos s) p = Some (body ++ [10]) -> fd_free (uos s) = true ->
  Forall (fun c => c <> 10) body -> no_nul body -> Z.of_nat (length body) <= 62 ->
  exists s', stdiotest_read_back s argv = Some (s', 0) /\
    os_step scratch None (lit "stdiotest: read back: " ++ body ++ [10]) (uos s) (uos s').
Proof using UserOsLaws0 main_apart.
  intros Hr Hu Hout Hp Hlen Hfile Hfree H10 Hnn Hl. pose proof Hr as [Hok _ _ _ _].
  pose proof Hp as (_ & _ & Hrp). destruct (ol_range _ _ _ Hok Hrp) as (Hp0 & _).
  destruct (ol_open_read (uos s) _ p Hok Hp Hlen) as (k1 & fd & Ho & Hs1 & Hcase).
  rewrite Hfile, Hfree in Hcase. destruct Hcase as (Hfd & Hno & path & Hf1).
  unfold stdiotest_read_back. assert (arg (uos s) argv 1 <> 0) as Hpn by lia. assert (0 <= fd) as Hfd0 by lia.
  destruct (fopen_gives s _ (lit "r") 0 k1 fd Hr Hout Hu eq_refl Hpn Ho Hs1 Hfd0)
    as (s1 & -> & Hfp & Hr1 & Hs01 & _ & Hfs & Hfds). cbn [mbind option_bind].
  rewrite (proj2 (Z.eqb_neq _ 0)) by done. set (fp := slop_alloc_arena + uused s + 4) in *.
  destruct (fgets_line s1 fp fd body [] Hr1 Hfp) as (s2 & -> & Hs2 & Hrd2 & Hline); try done.
  { split; [by rewrite Hfs, lookup_insert_eq|]. eexists. split; [by apply Hfds|]. by repeat split. }
  cbn [mbind option_bind]. pose proof (lib_step_ready _ _ _ _ Hr1 Hs2) as Hr2. pose proof Hr2 as [Hok2 _ Hm2 _ _].
  destruct (ol_range _ _ _ Hok2 Hm2) as (? & _). rewrite (proj2 (Z.eqb_neq main_buf 0)) by lia.
  destruct Hrd2 as (Hst2 & f2 & Hf2 & _ & Hw2 & _).
  destruct (ol_close_read (uos s2) fd f2 Hok2 Hf2 Hw2) as (k3 & Hc & Hs3 & _).
  rewrite (fclose_does s2 fp fd k3 0 Hfp Hst2 Hc). cbn [mbind option_bind].
  assert (os_step scratch (Some fd) [] (uos s2) k3) as Hs3' by (eapply step_weaken; [exact Hs3|by intros ? []|by right]).
  pose proof (ready_step _ _ _ _ Hr2 Hs3') as Hr3.
  assert (string_at k3 main_buf (body ++ [10])) as Hline3
    by (eapply step_string; [exact Hok2|exact Hs3|apply spares_nothing|done]).
  change (lib_mem (with_os k3 s2)) with (umem k3).
  rewrite (text_of_at k3 _ _ (rd_ok _ Hr3) Hline3). cbn [mbind option_bind].
  destruct (printf_prints (with_os k3 s2) (lit "stdiotest: read back: %s") [VStr (Some (body ++ [10]))]
    (lit "stdiotest: read back: " ++ body ++ [10])) as (s4 & -> & Hs4); [done| | | |..].
  - apply back_format; [apply Hline|]. rewrite length_app. cbn. lia.
  - done.
  - rewrite !length_app. cbn. lia.
  - apply Forall_app. split; [unfold is_byte; apply (bool_decide_unpack _); by vm_compute|].
    exact (line_bytes k3 _ _ (rd_ok _ Hr3) Hline3).
  - cbn [mbind option_bind]. exists s4. split; [done|]. apply (step_fresh _ fd); [|done].
    pose proof (ls_os _ _ _ _ Hs2) as H2'. pose proof (ls_os _ _ _ _ Hs4) as H4'. cbn [uos with_os] in H4'.
    assert (os_step scratch (Some fd) ([] ++ []) (uos s) (uos s2)) as H12 by step_join Hs01 H2'.
    assert (os_step scratch (Some fd) (([] ++ []) ++ []) (uos s) k3) as H13 by step_join H12 Hs3'.
    step_join H13 H4'.
Qed.

Lemma stop_prints s t :
  ready s -> text_in (uos s) t -> t <> [] ->
  exists s', stop_with s t = Some (s', 1) /\ lib_step None (t ++ [10]) s s'.
Proof using UserOsLaws0.
  intros Hr Ht Hne. destruct (puts_prints s (text_at t) t Hr Ht Hne) as (s' & Hp & Hs).
  exists s'. split; [|done]. unfold stop_with. by rewrite Hp.
Qed.

(** The messages stay where they are. *)
Definition texts_ready (k : K) : Prop :=
  Forall (text_in k) stdiotest_failures /\ Forall (text_spared scratch) stdiotest_failures.

Lemma texts_ready_step fd o k k' :
  os_ok k -> os_step scratch fd o k k' -> texts_ready k -> texts_ready k'.
Proof using UserOsLaws0.
  intros Hok Hs [Hts Hsp]. split; [|done]. rewrite Forall_forall in *. intros t Ht.
  eapply step_text; [exact Hok|exact Hs|by apply Hsp|by apply Hts].
Qed.

Lemma fail_message k msg : texts_ready k -> In msg stdiotest_failures -> text_in k msg /\ msg <> [].
Proof using.
  intros [Hts _] Hin. split; [rewrite Forall_forall in Hts; by apply Hts|].
  cbn [In stdiotest_failures] in Hin. by destruct Hin as [<-|[<-|[<-|[]]]].
Qed.

(** How the program may end from a state on. *)
Definition ends_well (fd : option Z) (t : list Z) s (r : option (ulib K * Z)) : Prop :=
  exists s', os_step scratch fd (lit "stdiotest: read back: value=" ++ t ++ [10]) (uos s) (uos s') /\ r = Some (s', 0) \/
    exists msg, In msg stdiotest_failures /\ os_step scratch fd (msg ++ [10]) (uos s) (uos s') /\ r = Some (s', 1).

Lemma stop_ends fd t msg s s1 :
  ready s1 -> texts_ready (uos s1) -> In msg stdiotest_failures -> os_step scratch fd [] (uos s) (uos s1) ->
  ends_well fd t s (stop_with s1 msg).
Proof using UserOsLaws0.
  intros Hr Hts Hin Hs1. destruct (fail_message _ _ Hts Hin) as [Hti Hne].
  destruct (stop_prints s1 msg Hr Hti Hne) as (s' & -> & Hs). exists s'. right. exists msg. split; [done|].
  split; [|done]. pose proof (ls_os _ _ _ _ Hs) as Hs'. rewrite <- (app_nil_l (msg ++ [10])). step_join Hs1 Hs'.
Qed.

(** Closing a stream that was written. *)
Lemma close_written s1 fp fd f p :
  os_ok (uos s1) -> fp <> 0 -> ufiles s1 !! fp = Some (fd_stream fd) -> fd_file (uos s1) fd = Some f ->
  uf_write f = true -> cstr (uf_path f) = p -> chr p = 47 -> Z.of_nat (length p) < 128 ->
  exists k r, slop_fclose s1 fp = Some (with_os k s1, r) /\ os_step nothing (Some fd) [] (uos s1) k /\
    (r = -1 \/ r = 0 /\ fd_free k = true /\ (uf_dirty f = true -> path_file k p = Some (contents (uf_file f)))).
Proof using UserOsLaws0.
  intros Hok Hfp Hst Hf Hw Hpf Habs Hlen.
  destruct (ol_close_write (uos s1) fd f) as (k & r & Hc & Hs & Hr);
    [done|done|done|by rewrite <- chr_cstr, Hpf|by rewrite Hpf|].
  rewrite (fclose_does s1 fp fd k r Hfp Hst Hc). exists k. rewrite Hpf in Hr. destruct Hr as [Hr|(-> & _ & ? & ?)].
  - exists (-1). rewrite (proj2 (Z.ltb_lt r 0)) by lia. split; [done|]. split; [done|by left].
  - exists 0. split; [done|]. split; [done|by right].
Qed.

Lemma write_failed_ends t s s2 fp fd f p :
  ready s2 -> texts_ready (uos s2) -> os_step scratch (Some fd) [] (uos s) (uos s2) -> fp <> 0 ->
  ufiles s2 !! fp = Some (fd_stream fd) -> fd_file (uos s2) fd = Some f -> uf_write f = true ->
  cstr (uf_path f) = p -> chr p = 47 -> Z.of_nat (length p) < 128 ->
  ends_well (Some fd) t s
    ('(s, _) ← slop_puts s2 (text_at (lit "stdiotest: fprintf failed"));
     '(s, _) ← slop_fclose s fp; Some (s, 1)).
Proof using UserOsLaws0.
  intros Hr2 Hts2 Hs2 Hfp Hfp2 Hf2 Hw Hpf Habs Hlen. set (msg := lit "stdiotest: fprintf failed").
  destruct (fail_message _ msg Hts2) as [Hti Hne]; [by right; left|].
  destruct (puts_prints s2 (text_at msg) _ Hr2 Hti Hne) as (s3 & -> & Hs3).
  cbn [mbind option_bind]. pose proof (ls_os _ _ _ _ Hs3) as H3'.
  destruct (close_written s3 fp fd f p (st_ok _ _ _ _ _ H3') Hfp) as (k4 & r4 & -> & Hs4 & _);
    [by rewrite (ls_files _ _ _ _ Hs3)|by apply (st_fds _ _ _ _ _ H3')|done..|].
  eexists. right. exists msg. split; [by right; left|]. split; [|done].
  assert (os_step scratch (Some fd) ([] ++ msg ++ [10]) (uos s) (uos s3)) as H13 by step_join Hs2 H3'.
  rewrite <- (app_nil_r (msg ++ [10])). step_join H13 Hs4.
Qed.

(** From the first open on. *)
Lemma save_ends s argv p t fp fd path :
  ready s -> uused s = 40 -> ~ in_buf slop_alloc_arena 80 slop_stdout -> texts_ready (uos s) -> fp <> 0 ->
  ufiles s !! fp = Some (fd_stream fd) ->
  fd_file (uos s) fd = Some {| uf_file := {| contents := []; pos := 0 |}; uf_read := false; uf_write := true;
                               uf_dirty := true; uf_path := path |} ->
  cstr path = p -> chr p = 47 -> Z.of_nat (length p) < 128 ->
  (user_range (uos s) (argv + 4 * 1) 4 /\ spares scratch (argv + 4 * 1) 4) ->
  (string_at (uos s) (arg (uos s) argv 1) p /\ spares scratch (arg (uos s) argv 1) (Z.of_nat (length p) + 1)) ->
  string_at (uos s) (arg (uos s) argv 2) t ->
  Forall (fun c => c <> 10) t -> Z.of_nat (length t) <= 56 ->
  ends_well (Some fd) t s (stdiotest_save s argv fp).
Proof using UserOsLaws0 main_apart.
  intros Hr Hu Hout Hts Hfp Hst Hf Hpath Habs Hlen [Ha Hsa] [Hp Hsp] Ht H10 Hl.
  pose proof Hr as [Hok _ _ _ _]. pose proof Ht as (_ & Hnt & _). unfold stdiotest_save.
  unfold lib_mem at 1. rewrite (text_of_at _ _ _ Hok Ht). cbn [mbind option_bind].
  destruct (fprintf_writes s fp fd _ (line "value=%s") [VStr (Some t)] (lit "value=" ++ t ++ [10]) Hr Hfp Hst Hf eq_refl)
    as (s2 & r & -> & Hst2 & Hcase); [by apply value_format; [|lia]|done|rewrite !length_app; cbn; lia| |].
  { apply Forall_app. split; [apply (bool_decide_unpack _); by vm_compute|].
    apply Forall_app. split; [exact (line_bytes _ _ _ Hok Ht)|]. by repeat constructor. }
  cbn [mbind option_bind]. pose proof (ls_os _ _ _ _ Hst2) as Hs2.
  pose proof (lib_step_ready _ _ _ _ Hr Hst2) as Hr2. pose proof (texts_ready_step _ _ _ _ Hok Hs2 Hts) as Hts2.
  assert (ufiles s2 !! fp = Some (fd_stream fd)) as Hfp2 by by rewrite (ls_files _ _ _ _ Hst2).
  destruct Hcase as [[-> Hf2]|[-> Hf2]].
  { change (-1 <? 0) with true. cbn iota. by eapply write_failed_ends. }
  rewrite (proj2 (Z.ltb_ge _ 0)) by lia.
  destruct (close_written s2 fp fd _ p (rd_ok _ Hr2) Hfp Hfp2 Hf2) as (k3 & r3 & -> & Hs3 & Hr3); try done.
  cbn [mbind option_bind].
  assert (os_step scratch (Some fd) ([] ++ []) (uos s) k3) as Hs03 by step_join Hs2 Hs3. cbn [app] in Hs03.
  pose proof (texts_ready_step _ _ _ _ Hok Hs03 Hts) as Hts3.
  assert (ready (with_os k3 s2)) as Hready3 by (eapply ready_step; [exact Hr2|eapply step_weaken; [exact Hs3|by intros ? []|by right]]).
  destruct Hr3 as [->|(-> & Hfree & Hfile)].
  { change (-1 <? 0) with true. cbn iota. apply stop_ends; [done|done|cbn; tauto|done]. }
  change (0 <? 0) with false. cbn iota.
  assert (arg (uos (with_os k3 s2)) argv 1 = arg (uos s) argv 1) as Harg
    by exact (step_arg _ _ _ _ _ argv 1 Hok Hs03 Ha Hsa).
  destruct (read_back_prints (with_os k3 s2) argv p (lit "value=" ++ t)) as (s' & Hk & Hs); try done.
  - right. cbn. by rewrite (ls_used _ _ _ _ Hst2).
  - rewrite Harg. by eapply step_string.
  - cbn [uos with_os]. rewrite Hfile by done. cbn [contents uf_file with_written file_write pos]. unfold splice.
    by rewrite take_0, drop_nil, app_nil_r, <- app_assoc.
  - apply Forall_app. split; [apply (bool_decide_unpack _); by vm_compute|done].
  - apply Forall_app. split; [apply (bool_decide_unpack _); by vm_compute|done].
  - rewrite length_app. cbn. lia.
  - exists s'. left. split; [|exact Hk]. rewrite <- app_assoc in Hs. cbn [uos with_os] in Hs.
    change (lit "stdiotest: read back: value=" ++ t ++ [10]) with
      ([] ++ lit "stdiotest: read back: " ++ lit "value=" ++ t ++ [10]).
    step_join Hs03 Hs.
Qed.


End streams.
