(* ===== verification/UProgDemo.v ===== *)
(** * UProgDemo: the programs on a small machine

    The kernel of Kernel.v's demonstration, with the file "/f" on its disk, and
    with the string constants and the arguments of a program on its stack: the
    theorems of UProgSpec.v hold there. *)
From S2P Require Import Prelude KernelH Util Memory Heap Elf Core Ipc Vfs VfsTree Syscall FdTable Kernel Files Usys UAlloc UStdio UMemStream UPrograms UKernel UProgSpec UServices UStdioTest.
Local Open Scope Z_scope.
Local Open Scope slop_scope.

#[local] Existing Instance demo_linker.
#[local] Existing Instances no_mount no_mount_laws.

(** The constants of the programs, 64 bytes for each. *)
Definition demo_texts : list (list Z) :=
  [[10]; line "cat: usage cat PATH"; line "cat: no such file"; line "writetest: ok"] ++ writetest_failures ++ stdiotest_failures ++
  ipc_selftest_texts ++ free_texts.

Fixpoint index_of (t : list Z) (ts : list (list Z)) : Z :=
  match ts with
  | [] => 0
  | t' :: ts => if bool_decide (t = t') then 0 else 1 + index_of t ts
  end.

#[local] Instance stack_places : ProgPlaces := {|
  text_at t := 0x20400 + 64 * index_of t demo_texts; main_buf := 0x20000; char_at := 0x20080 |}.

(** The memory a program starts with: its constants, and the argument vector at
    0x20090 with the path "/f" and the text "hi" of the program's image. *)
Definition start_stores : list (Z * list Z) :=
  map (fun t => (text_at t, t ++ [0])) demo_texts ++
  [(0x20090, words_bytes [0; 0x300000; 0x300003])].
Definition start_mem (m : mem) : mem := fold_left (fun m s => store_bytes m (fst s) (snd s)) start_stores m.

Lemma stores_out a n l : forall m,
  Forall (fun s : Z * list Z => fits (fst s) (Z.of_nat (length (snd s))) /\
                    a <= fst s /\ fst s + Z.of_nat (length (snd s)) <= a + n) l ->
  same_outside a n m (fold_left (fun m s => store_bytes m (fst s) (snd s)) l m).
Proof.
  induction l as [|[b bs] l IH]; intros m Hl; cbn [fold_left]; [apply same_outside_refl|].
  apply Forall_cons_iff in Hl as [(Hf & Ha & Hn) Hl]. cbn [fst snd] in *.
  intros x Hx. rewrite (IH _ Hl) by done. apply store_bytes_out; [done|lia].
Qed.

Lemma stores_ok l : forall m, mem_ok m -> mem_ok (fold_left (fun m s => store_bytes m (fst s) (snd s)) l m).
Proof. induction l as [|s l IH]; intros m Hm; cbn [fold_left]; [done|]. by apply IH, store_bytes_ok. Qed.

(** A program with the file "/f", which holds "hi", and one that has yet to
    write it. *)
Definition demo_reader : kernel := with_mem (start_mem (k_mem demo_closed)) demo_closed.
Definition demo_writer : kernel := with_mem (start_mem (k_mem demo_kernel)) demo_kernel.

Lemma start_ok k :
  kernel_inv k -> ring3_active k = true -> h_start (k_heap k) = h_start (k_heap demo_kernel) ->
  os_ok (with_mem (start_mem (k_mem k)) k).
Proof.
  intros Hi Hr Hs. split; [|done]. apply set_mem_inv; [done|apply stores_ok, Hi|].
  intros x Hx. apply (stores_out 0x20000 0x1000).
  - apply (bool_decide_unpack _). vm_compute. exact I.
  - rewrite Hs in Hx. assert (0x21000 <= h_start (k_heap demo_kernel)) by (vm_compute; discriminate). lia.
Qed.

Lemma demo_reader_ok : os_ok demo_reader.
Proof. apply start_ok; [exact demo_closed_inv|vm_compute; reflexivity..]. Qed.
Lemma demo_writer_ok : os_ok demo_writer.
Proof. apply start_ok; [exact demo_kernel_inv|vm_compute; reflexivity..]. Qed.

(** Decides [string_at]. *)
Definition string_check (k : kernel) (a : Z) (s : list Z) : bool :=
  let n := Z.of_nat (length s) + 1 in
  (0 <? a) && (a + n <=? 4294967296) && validate_user_ptr k a n &&
  bool_decide (load_bytes (k_mem k) a (length (s ++ [0])) = s ++ [0]) && bool_decide (no_nul s).

Lemma string_checked k a s : string_check k a s = true -> string_at k a s.
Proof.
  unfold string_check. rewrite !andb_true_iff, !bool_decide_eq_true. intros ((((Ha & Hf) & Hv) & Hl) & Hn).
  zify_bool. split; [|split; [done|]].
  - apply bytes_at_of_load; [|done]. rewrite length_app. cbn [length]. split; lia.
  - cbn. split_and!; [lia|lia|lia|done].
Qed.

Lemma texts_checked k ts :
  forallb (fun t => string_check k (text_at t) t) ts = true -> Forall (text_in k) ts.
Proof.
  induction ts as [|t ts IH]; [done|]. cbn [forallb]. intros [Ht Hts]%andb_true_iff.
  constructor; [by apply string_checked|by apply IH].
Qed.

(** Decides [user_range]. *)
Definition range_check (k : kernel) (a n : Z) : bool :=
  (0 <? a) && (0 <? n) && (a + n <=? 4294967296) && validate_user_ptr k a n.

Lemma range_checked k a n : range_check k a n = true -> user_range k a n.
Proof. unfold range_check. rewrite !andb_true_iff. intros (((Ha & Hn) & Hf) & Hv). zify_bool. by split_and!. Qed.

Lemma reader_buf : user_range demo_reader main_buf 128.
Proof. apply range_checked. vm_compute. reflexivity. Qed.
Lemma newline_spared : text_spared (in_buf main_buf 128) [10].
Proof. apply spares_buf. vm_compute. right. discriminate. Qed.
Lemma reader_texts : Forall (text_in demo_reader) [[10]; line "cat: usage cat PATH"; line "cat: no such file"].
Proof. apply texts_checked. vm_compute. reflexivity. Qed.
Lemma reader_path : string_at demo_reader (arg demo_reader 0x20090 1) (lit "/f").
Proof. apply string_checked. vm_compute. reflexivity. Qed.
Lemma reader_file : path_file demo_reader (lit "/f") = Some (lit "hi").
Proof. vm_compute. reflexivity. Qed.
Lemma reader_cat : cat_says demo_reader 2 (lit "/f") = (lit "hi" ++ [10], 0).
Proof. unfold cat_says. rewrite reader_file. vm_compute. reflexivity. Qed.
Lemma reader_cwd : cwd_text demo_reader = lit "/".
Proof. vm_compute. reflexivity. Qed.

Lemma writer_texts : Forall (text_in demo_writer) (line "writetest: ok" :: writetest_failures).
Proof. apply texts_checked. vm_compute. reflexivity. Qed.
Lemma writer_path : string_at demo_writer (arg demo_writer 0x20090 1) (lit "/f").
Proof. apply string_checked. vm_compute. reflexivity. Qed.
Lemma writer_text : string_at demo_writer (arg demo_writer 0x20090 2) (lit "hi").
Proof. apply string_checked. vm_compute. reflexivity. Qed.
Lemma writer_args : user_range demo_writer (0x20090 + 4 * 2) 4.
Proof. apply range_checked. vm_compute. reflexivity. Qed.

Lemma cat_prints_witness :
  exists k', cat_main 3 demo_reader 2 0x20090 = Some (k', 0) /\
    console_text k' = console_text demo_reader ++ lit "hi" ++ [10].
Proof.
  destruct (cat_prints 3 demo_reader 2 0x20090 (lit "/f") demo_reader_ok reader_buf newline_spared reader_texts)
    as (k' & Hk & Hs).
  - intros _. split; [exact reader_path|reflexivity].
  - intros bytes. rewrite reader_file. intros [= <-]. discriminate.
  - exists k'. rewrite reader_cat in Hk, Hs. split; [exact Hk|]. exact (st_out _ _ _ _ _ Hs).
Defined.

Lemma pwd_prints_witness :
  exists k', pwd_main demo_reader = Some (k', 0) /\
    console_text k' = console_text demo_reader ++ lit "/" ++ [10].
Proof.
  pose proof reader_texts as [Hnl _]%Forall_cons_iff.
  destruct (pwd_prints demo_reader demo_reader_ok reader_buf newline_spared Hnl) as (k' & Hk & Hs).
  - rewrite reader_cwd. split; reflexivity.
  - rewrite reader_cwd in Hs. exists k'. split; [exact Hk|]. exact (st_out _ _ _ _ _ Hs).
Defined.

Lemma writetest_saves_witness :
  exists k', os_step nothing None (line "writetest: ok") demo_writer k' /\
      writetest_main demo_writer 3 0x20090 = Some (k', 0) /\ path_file k' (lit "/f") = Some (lit "hi") \/
    exists msg, In msg writetest_failures /\ os_step nothing None msg demo_writer k' /\
      writetest_main demo_writer 3 0x20090 = Some (k', 1).
Proof.
  apply (writetest_saves demo_writer 3 0x20090 (lit "/f") (lit "hi") demo_writer_ok);
    [discriminate|exact writer_texts|exact writer_path|reflexivity|reflexivity|exact writer_args|
     exact writer_text|discriminate].
Defined.

(** The promises of the kernel at a system call of a running program. *)
Lemma kernel_user_os_witness :
  exists k' r, sys_open demo_reader (arg demo_reader 0x20090 1) 0 = Some (k', r) /\ 3 <= r.
Proof.
  destruct (@ol_open_read kernel _ _ kernel_user_os demo_reader (arg demo_reader 0x20090 1) (lit "/f")
    demo_reader_ok reader_path) as (k' & r & Hk & _ & Hcase); [reflexivity|].
  exists k', r. split; [exact Hk|]. rewrite reader_file in Hcase.
  assert (fd_free demo_reader = true) as Hf by (vm_compute; reflexivity).
  rewrite Hf in Hcase. apply Hcase.
Defined.

(** ** [stdiotest] *)

#[local] Instance stack_arena : UserArena.
Proof. refine {| slop_alloc_arena := 0x20300 |}. split; vm_compute; congruence. Defined.

#[local] Instance stack_stdio : UserPlaces.
Proof.
  refine {| slop_stdin := 0x300080; slop_stdout := 0x3000a0; slop_stderr := 0x3000c0; local_buf := 0x20100 |}.
  apply (bool_decide_unpack _). by vm_compute.
Defined.

Definition demo_lib : ulib kernel := {| uos := demo_writer; uused := 0; ufiles := slop_std_files |}.

Definition apart (a n b m : Z) : bool := (a + n <=? b) || (b + m <=? a).

Definition spared_check (a n : Z) : bool :=
  apart a n local_buf 512 && apart a n main_buf 64 && apart a n slop_alloc_arena 80.

Lemma spared_checked a n : spared_check a n = true -> spares scratch a n.
Proof.
  unfold spared_check, apart. rewrite !andb_true_iff, !orb_true_iff. intros ((H1 & H2) & H3). zify_bool.
  intros x Hx [Hs|[Hs|Hs]]; revert Hs; [apply (spares_buf local_buf 512 a n)|apply (spares_buf main_buf 64 a n)|
    apply (spares_buf slop_alloc_arena 80 a n)]; lia.
Qed.

Lemma stdio_texts : Forall (text_in demo_writer) stdiotest_failures.
Proof. apply texts_checked. vm_compute. reflexivity. Qed.

Lemma stdio_spared : Forall (text_spared scratch) stdiotest_failures.
Proof. repeat constructor; apply spared_checked; vm_compute; reflexivity. Qed.

Lemma writer_arg i : i = 1 \/ i = 2 -> user_range demo_writer (0x20090 + 4 * i) 4 /\ spares scratch (0x20090 + 4 * i) 4.
Proof.
  intros [-> | ->]; (split; [apply range_checked; vm_compute; reflexivity|apply spared_checked; vm_compute; reflexivity]).
Qed.

Lemma writer_spares :
  spares scratch (arg demo_writer 0x20090 1) (Z.of_nat (length (lit "/f")) + 1) /\
  spares scratch (arg demo_writer 0x20090 2) (Z.of_nat (length (lit "hi")) + 1).
Proof. split; apply spared_checked; vm_compute; reflexivity. Qed.

Lemma demo_lib_ready : ready demo_lib.
Proof.
  constructor; cbn [uos demo_lib]; [exact demo_writer_ok|apply range_checked; vm_compute; reflexivity..|].
  vm_compute. reflexivity.
Qed.

Lemma demo_lib_start : stdio_start demo_lib 0x20090 (lit "/f") (lit "hi").
Proof.
  constructor; cbn [uos uused demo_lib].
  - exact demo_lib_ready.
  - reflexivity.
  - unfold in_buf. cbn. lia.
  - exact stdio_texts.
  - exact stdio_spared.
  - exact writer_arg.
  - split; [exact writer_path|exact (proj1 writer_spares)].
  - split; [exact writer_text|exact (proj2 writer_spares)].
Qed.


(** The kernel runs it to its end. *)
Lemma stdiotest_runs :
  (fun r => (snd r, console_text (uos (fst r)))) <$> stdiotest_main demo_lib 3 0x20090 =
  Some (0, line "stdiotest: read back: value=hi").
Proof. vm_compute. reflexivity. Qed.
