(* ===== verification/USvcDemo.v ===== *)
(** * USvcDemo: the programs of UServices.v on a small machine

    [ipc_selftest], [free] and [ipc_recv] on the machine of UProgDemo.v: the
    kernel of the demonstration keeps what [ServiceLaws] promises, and the
    theorems hold there. *)
From S2P Require Import Prelude KernelH Util Memory Heap Elf Core Ipc Vfs VfsTree Syscall FdTable Kernel Files Usys UPrograms UKernel UProgSpec UServices UKernelSvc UProgDemo.
Local Open Scope Z_scope.
Local Open Scope slop_scope.

#[local] Existing Instance demo_linker.
#[local] Existing Instances no_mount no_mount_laws.
#[local] Existing Instance stack_places.

Definition svc_texts : list (list Z) := ipc_selftest_texts ++ free_texts.

(** Decides [text_spared work]. *)
Lemma work_spared a n :
  (main_buf + 36 <=? a) || (a + n <=? main_buf) = true -> (char_at + 1 <=? a) || (a + n <=? char_at) = true ->
  spares work a n.
Proof.
  rewrite !orb_true_iff, !Z.leb_le. intros H1 H2 x Hx [H|H]; revert H;
    [apply (spares_buf main_buf 36 a n)|apply (spares_buf char_at 1 a n)]; lia.
Qed.

Lemma svc_texts_spared : Forall (text_spared work) svc_texts.
Proof. repeat constructor; (apply work_spared; vm_compute; reflexivity). Qed.

Lemma svc_texts_short : Forall (fun t => t <> [] /\ Z.of_nat (length t) <= 512) svc_texts.
Proof. apply (bool_decide_unpack _). vm_compute. exact I. Qed.

Lemma char_apart : spares (in_buf char_at 1) main_buf 36.
Proof. apply spares_buf. vm_compute. left. discriminate. Qed.

Lemma svc_ready : ready svc_texts demo_writer.
Proof.
  constructor; [exact demo_writer_ok|apply range_checked; vm_compute; reflexivity..|].
  apply texts_checked. vm_compute. reflexivity.
Qed.

Lemma svc_listening : listening demo_writer.
Proof. split; [vm_compute; reflexivity|]. split; vm_compute; congruence. Qed.

Lemma svc_says : selftest_says demo_writer = (line "ipc_selftest ok: src=1 type=7 arg1=123 arg2=456", 0).
Proof. vm_compute. reflexivity. Qed.

Lemma svc_mailbox : inbox demo_writer = None.
Proof. vm_compute. reflexivity. Qed.

Lemma svc_pid : os_pid demo_writer = 1.
Proof. vm_compute. reflexivity. Qed.

(** The program with the pid 1 prints what it received from itself. *)
Lemma ipc_selftest_prints_witness :
  exists k', ipc_selftest_main demo_writer = Some (k', 0) /\ inbox k' = None /\
    console_text k' = line "ipc_selftest pid=1" ++ line "ipc_selftest ok: src=1 type=7 arg1=123 arg2=456".
Proof.
  destruct (ipc_selftest_prints svc_texts svc_texts_spared svc_texts_short char_apart demo_writer svc_ready)
    as (k' & Hk & Hw & Hi); [apply incl_appl, incl_refl|exact svc_listening|].
  rewrite svc_says in Hk, Hw. rewrite svc_mailbox in Hi. exists k'.
  split; [exact Hk|]. split; [rewrite Hi; destruct (_ && _); reflexivity|]. rewrite (st_out _ _ _ _ _ (wn_step _ _ _ _ Hw)). vm_compute. reflexivity.
Defined.

(** The machine has no map of its memory, and one block on its heap. *)
Lemma free_prints_witness :
  exists k', free_main demo_writer = Some (k', 0) /\
    console_text k' = line "free format v2" ++ kib_text kib_lines [0; 513; 0; 0; 0; 0; 0; 0; 0].
Proof.
  destruct (free_prints svc_texts svc_texts_spared svc_texts_short char_apart demo_writer svc_ready)
    as (k' & Hk & Hw); [apply incl_appr, incl_refl|].
  exists k'. split; [exact Hk|]. rewrite (st_out _ _ _ _ _ (wn_step _ _ _ _ Hw)). vm_compute. reflexivity.
Defined.


(** The kernel runs the program to its end. *)
Lemma selftest_runs :
  (fun r => (snd r, console_text (fst r))) <$> ipc_selftest_main demo_writer =
  Some (0, line "ipc_selftest pid=1" ++ line "ipc_selftest ok: src=1 type=7 arg1=123 arg2=456").
Proof. vm_compute. reflexivity. Qed.
