(* ===== verification/Exec.v ===== *)
(** * Exec: running programs, [src/kernel/exec.c] and the runner of [src/kernel/task.c]

    [task_run_user_until_stop] and [task_resume_next_ready_user] of task.c, the
    search for a program and its life from load to reap of exec.c.  Every
    function returns [None] when a program it runs does not return to the
    kernel. *)
From S2P Require Import Prelude KernelH Util Memory Heap Proc Sched Iface Service Elf Core Ipc Vfs VfsTree Syscall FdTable Kernel Files Keep User.
Local Open Scope Z_scope.
Local Open Scope slop_scope.

(** [ec_cwd] is the directory the pointer [cwd] points to. *)
Record exec_context := {
  ec_output : console_target;
  ec_cwd : Z;
  ec_mbi : option multiboot_info;
  ec_magic : Z
}.

Section exec.
Context `{Linker} `{MountFs} `{Programs}.

(** ** task.c *)

Definition set_states (pid : Z) (ts : task_state) (ps : proc_state) (k : kernel) : kernel :=
  let c := with_c_sched (task_set_state (c_sched (k_core k)) pid ts) (k_core k) in
  with_core (with_c_procs (proc_set_state (c_procs c) pid ps) c) k.

Definition to_kernel_main (k : kernel) : kernel :=
  with_core (with_c_sched (task_return_to_kernel_main (c_sched (k_core k))) (k_core k)) k.

(** The blocks for the stop reasons 1 and 3. *)
Definition stop_program (k : kernel) (pid : Z) (ts : task_state) (ps : proc_state)
    (why : exec_stop_reason) : kernel * option (Z * exec_stop_reason) :=
  match proc_get_image (c_procs (k_core k)) pid with
  | None => (k, None)
  | Some image =>
      let '(es, m, ok) := elf_snapshot_image user_images (c_procs (k_core k)) (c_elf (k_core k))
                            (k_mem k) pid image in
      let k := with_core (with_c_elf es m (k_core k)) k in
      if negb ok then (k, None)
      else (to_kernel_main (set_states pid ts ps k), Some (0, why))
  end.

(** What follows the return from ring 3. *)
Definition task_stopped (k : kernel) (pid rc reason : Z) : kernel * option (Z * exec_stop_reason) :=
  if reason =? 1 then stop_program k pid TASK_READY PROC_READY EXEC_STOP_YIELDED
  else if reason =? 3 then stop_program k pid TASK_BLOCKED PROC_BLOCKED EXEC_STOP_BLOCKED
  else (to_kernel_main (set_states pid TASK_ZOMBIE PROC_ZOMBIE k), Some (rc, EXEC_STOP_EXITED)).

(** The exit code and the stop reason; [None] inside when it returns 0. *)
Definition task_run_user_until_stop (k : kernel) (pid argc : Z) (argv : list (option (list Z)))
    (ctx : exec_context) : option (kernel * option (Z * exec_stop_reason)) :=
  match proc_get_image (c_procs (k_core k)) pid with
  | None => Some (k, None)
  | Some image =>
      if (pid <=? 0) || negb (loaded image) then Some (k, None)
      else
        let k := syscall_set_user_cwd (if negb (img_cwd image =? 0) then img_cwd image else ec_cwd ctx) k in
        let k := syscall_set_bootinfo (ec_mbi ctx) (ec_magic ctx) k in
        let k := set_states pid TASK_RUNNING PROC_RUNNING k in
        '(k, r) ← (if context_valid image then elf_resume_image k image pid (output image)
                   else elf_execute_image k image pid argc argv (output image));
        match r with
        | None => Some (k, None)
        | Some (rc, reason) => Some (task_stopped k pid rc reason)
        end
  end.

(** [proc_exit(pid, rc); proc_reap_pid(pid, 0); task_reap_pid(pid)] *)
Definition end_program (pid rc : Z) (k : kernel) : kernel :=
  let c := k_core k in
  let c := with_c_procs (fst (proc_exit (c_procs c) pid rc)) c in
  let c := with_c_procs (fst (proc_reap_pid (c_procs c) pid)) c in
  with_core (with_c_sched (fst (task_reap_pid (c_sched c) pid)) c) k.

Definition resumable (k : kernel) (t : task_info) : option proc_image :=
  if negb (bool_decide (ti_state t = TASK_READY)) || (ti_pid t <=? 0) then None
  else
    image ← proc_get_image (c_procs (k_core k)) (ti_pid t);
    if negb (loaded image) || negb (context_valid image) then None else Some image.

(** The loop over the slots from [i] on, of which [n] are left. *)
Fixpoint resume_from (k : kernel) (mbi : option multiboot_info) (magic : Z) (i n : nat)
    : option (kernel * bool) :=
  match n with
  | O => Some (k, false)
  | S n' =>
      match tasks (c_sched (k_core k)) !! i with
      | None => Some (k, false)
      | Some t =>
          match resumable k t with
          | None => resume_from k mbi magic (S i) n'
          | Some image =>
              let ctx := {| ec_output := output image; ec_cwd := img_cwd image;
                            ec_mbi := mbi; ec_magic := magic |} in
              '(k, r) ← task_run_user_until_stop k (ti_pid t) 0 [] ctx;
              match r with
              | None => Some (k, false)
              | Some (exit_code, EXEC_STOP_EXITED) =>
                  (* [tasks[i].pid], read again for each of the three calls *)
                  let pid := from_option ti_pid 0 (tasks (c_sched (k_core k)) !! i) in
                  Some (end_program pid exit_code k, true)
              | Some _ => Some (k, true)
              end
          end
      end
  end.

Definition task_resume_next_ready_user (k : kernel) (mbi : option multiboot_info) (magic : Z)
    : option (kernel * bool) :=
  resume_from k mbi magic 0 MAX_TASKS.

(** ** exec.c *)

Definition ends_with_at (s suffix : list Z) (from : Z) : bool :=
  forallb (fun i => nth (Z.to_nat from + i) s 0 =? nth i suffix 0) (seq 0 (Z.to_nat (str_len suffix))).

Definition exec_has_suffix (s suffix : list Z) : bool :=
  let s_len := str_len s in
  let suf_len := str_len suffix in
  if s_len <? suf_len then false else ends_with_at s suffix (s_len - suf_len).

(** [vfs_read_file(cwd, path, &data, &size)] on the tree of the kernel. *)
Definition read_file (k : kernel) (cwd : Z) (path : list Z) : kernel * option (Z * Z) :=
  let '(v, r) := vfs_read_file (vfs_of k) cwd path in (with_vfs v k, r).

Definition exec_is_elf_path (k : kernel) (cwd : Z) (path : list Z) : kernel * bool :=
  let '(k, r) := read_file k cwd path in
  match r with
  | None => (k, false)
  | Some (data, size) =>
      (k, negb (data =? 0) && negb (size <? 4) &&
          (load (k_mem k) data =? 0x7F) && (load (k_mem k) (data + 1) =? 69) &&
          (load (k_mem k) (data + 2) =? 76) && (load (k_mem k) (data + 3) =? 70))
  end.

(** The loop over the path: the last component that is not empty. *)
Fixpoint last_component (path name : list Z) : list Z :=
  match path with
  | [] => name
  | c :: path' =>
      if c =? 0 then name
      else last_component path' (if (c =? 47) && negb (chr path' =? 0) then path' else name)
  end.

(** The string left in [out]. *)
Definition exec_program_name_from_path (path : list Z) (out_size : Z) : list Z :=
  if chr path =? 0 then cstr (str_copy (replicate (Z.to_nat out_size) 0) (lit "userprog") out_size)
  else
    let name := cstr (last_component path path) in
    let len := str_len name in
    let len := if (4 <? len) && ends_with_at name (lit ".elf") (len - 4) then len - 4 else len in
    if len =? 0 then cstr (str_copy (replicate (Z.to_nat out_size) 0) (lit "userprog") out_size)
    else
      let len := if out_size <? len + 1 then out_size - 1 else len in
      take (Z.to_nat len) name.

(** The part of [exec_run_elf_path] up to the load plan: the file and its plan,
    or what is printed. *)
Definition exec_plan (k : kernel) (cwd : Z) (path : list Z)
    : kernel * (list Z + Z * Z * exec_load_plan) :=
  let '(k, file) := read_file k cwd path in
  match file with
  | None => (k, inl (line "run: file not found"))
  | Some (data, size) =>
      if data =? 0 then (k, inl (line "run: file not found"))
      else
        let '(k, file) := read_file k cwd path in
        match elf_prepare_load_plan (k_mem k) file with
        | inl e => (k, inl e)
        | inr plan => (k, inr (data, size, plan))
        end
  end.

(** [image.cwd = *ctx->cwd; image.output = ctx->output] *)
Definition set_place (cwd : Z) (out : console_target) (i : proc_image) : proc_image := {|
  loaded := loaded i; entry := entry i; image_base := image_base i; image_size := image_size i;
  user_stack_base := user_stack_base i; user_stack_size := user_stack_size i; img_cwd := cwd;
  output := out; context_valid := context_valid i; context := context i |}.

Definition print_stopped (ctx : exec_context) (verb : list Z) (pid : Z) (k : kernel) : kernel :=
  print (ec_output ctx) (verb ++ console_print_u32_dec (u32 pid) ++ [10]) k.

(** What follows [task_run_user_until_stop] when a program stopped. *)
Definition after_stop (ctx : exec_context) (who : list Z) (pid rc : Z) (why : exec_stop_reason)
    (k : kernel) : kernel :=
  match why with
  | EXEC_STOP_YIELDED => print_stopped ctx (who ++ lit ": yielded pid ") pid k
  | EXEC_STOP_BLOCKED => print_stopped ctx (who ++ lit ": blocked pid ") pid k
  | _ => end_program pid rc k
  end.

Definition exec_run_elf_path (k : kernel) (path : list Z) (argc : Z) (argv : list (option (list Z)))
    (ctx : exec_context) : option (kernel * bool) :=
  let ppid := task_current_pid (c_sched (k_core k)) in
  let ppid := if ppid <? 0 then 0 else ppid in
  match exec_plan k (ec_cwd ctx) path with
  | (k, inl e) => Some (print (ec_output ctx) e k, false)
  | (k, inr (file_data, file_size, plan)) =>
      let prog_name := exec_program_name_from_path path 16 in
      let '(st, pid) := task_spawn_user (c_sched (k_core k)) (Some prog_name) ppid in
      let k := with_core (with_c_sched st (k_core k)) k in
      if pid <? 0 then Some (print (ec_output ctx) (line "run: failed to allocate process") k, false)
      else
        let c := k_core k in
        match elf_load_from_plan user_stacks (c_procs c) (c_elf c) (c_mem c) pid plan file_data file_size with
        | (es, m, inl e) =>
            Some (end_program pid (-1) (print (ec_output ctx) e (with_core (with_c_elf es m c) k)), false)
        | (es, m, inr image) =>
            let image := set_place (ec_cwd ctx) (ec_output ctx) image in
            let k := with_core (fst (bind_image (with_c_elf es m c) pid image)) k in
            '(k, r) ← task_run_user_until_stop k pid argc argv ctx;
            match r with
            | None => Some (end_program pid (-1) k, false)
            | Some (rc, why) => Some (after_stop ctx (lit "run") pid rc why k, true)
            end
        end
  end.

(** [ring3_test] of ring3.c with [ring3_user_stub], which asks for the return
    to the kernel at once. *)
Definition ring3_user_stub : list user_event := [UCall [0; 0; 0; 0; 0; 0; 0; 240; 0; 0; 0; 0; 0]].

Definition ring3_test (target : console_target) (k : kernel) : option kernel :=
  let k := print target (line "ring3: enter test") k in
  '(k, _, _) ← user_run ring3_user_stub (with_ring true (ring3_current_pid k) k);
  Some (print target (line "ring3: returned to kernel") k).

(** The table [programs] and the entry called. *)
Definition builtin (path : list Z) (ctx : exec_context) (k : kernel) : option (option kernel) :=
  if str_eq path (lit "/bin/mounts") then Some (Some (print (ec_output ctx) fs_mounts k))
  else if str_eq path (lit "/bin/ring3test") then Some (ring3_test (ec_output ctx) k)
  else None.

Definition exec_seed_programs : Z := 0.

(** [alt_path[j++] = '.'; ...] *)
Definition add_elf (alt_path : list Z) : option (list Z) :=
  if (str_len alt_path + 4 <? 128) then Some (alt_path ++ lit ".elf") else None.

Definition run_elf (k : kernel) (path : list Z) (argc : Z) (argv : list (option (list Z)))
    (ctx : exec_context) : option (kernel * Z) :=
  '(k, ok) ← exec_run_elf_path k path argc argv ctx; Some (k, if (ok : bool) then 1 else -1).

(** [if (exec_is_elf_path(cwd, path)) { return exec_run_elf_path(...) ? 1 : -1; }]
    and what follows it. *)
Definition try_elf (k : kernel) (path : list Z) (argc : Z) (argv : list (option (list Z)))
    (ctx : exec_context) (next : kernel -> option (kernel * Z)) : option (kernel * Z) :=
  let '(k, is_elf) := exec_is_elf_path k (ec_cwd ctx) path in
  if (is_elf : bool) then run_elf k path argc argv ctx else next k.

Definition exec_run_path (k : kernel) (path : list Z) (argc : Z) (argv : list (option (list Z)))
    (ctx : exec_context) : option (kernel * Z) :=
  match builtin path ctx k with
  | Some r => k ← r; Some (k, 1)
  | None =>
      try_elf k path argc argv ctx (fun k =>
      let disc k :=
        if str_startswith path (lit "/bin/") then
          let alt_path := lit "/mount/cdrom" ++ take 115 (cstr path) in
          try_elf k alt_path argc argv ctx (fun k =>
            if negb (exec_has_suffix alt_path (lit ".elf")) then
              match add_elf alt_path with
              | Some alt_path => try_elf k alt_path argc argv ctx (fun k => Some (k, 0))
              | None => Some (k, 0)
              end
            else Some (k, 0))
        else Some (k, 0) in
      if negb (exec_has_suffix path (lit ".elf")) then
        match add_elf (cstr (str_copy [] path 128)) with
        | Some alt_path => try_elf k alt_path argc argv ctx disc
        | None => disc k
        end
      else disc k)
  end.

Definition exec_resume_pid (k : kernel) (pid : Z) (ctx : exec_context) : option (kernel * bool) :=
  let refuse := Some (print (ec_output ctx) (line "resume: pid not resumable") k, false) in
  if pid <=? 0 then Some (k, false)
  else
    match proc_get_image (c_procs (k_core k)) pid with
    | None => refuse
    | Some image =>
        if negb (loaded image) || negb (context_valid image) then refuse
        else
          '(k, r) ← task_run_user_until_stop k pid 0 [] ctx;
          match r with
          | None => Some (print (ec_output ctx) (line "resume: failed") k, false)
          | Some (rc, why) => Some (after_stop ctx (lit "resume") pid rc why k, true)
          end
    end.

End exec.

(** ** What the runner keeps *)

Lemma push_args_mem_ok image argv n m sp addrs :
  mem_ok m -> mem_ok (fst (push_args m image argv n sp addrs)).
Proof.
  revert m sp addrs. induction n as [|n IH]; intros m sp addrs Hm; cbn [push_args]; [done|].
  split_if; [done|]. split_if; [done|]. by apply IH, store_bytes_ok.
Qed.

Lemma store_words_ok m a l : mem_ok m -> mem_ok (store_words m a l).
Proof. rewrite store_words_eq. apply store_bytes_ok. Qed.

Lemma execute_prepare_mem_ok m image pid argc argv :
  mem_ok m -> mem_ok (fst (elf_execute_prepare m image pid argc argv)).
Proof.
  intros Hm. unfold elf_execute_prepare. split_if; [done|]. split_if; [done|]. split_if; [done|].
  pose proof (push_args_mem_ok image argv (Z.to_nat (clamp_argc argc)) m
    (user_stack_base image +u user_stack_size image) [] Hm) as Hp.
  destruct (push_args _ _ _ _ _ _) as [m1 [e|[sp au]]]; [done|].
  split_if; [done|]. split_if; by repeat apply store_words_ok.
Qed.

Section kept.
Context `{Linker} `{MountFs} `{!MountFsLaws}.

(** Changes of the slots and of memory outside the heap. *)
Lemma mem_elf_kept pid k es m :
  os_inv k -> slots_ok es ->
  (forall i o, 0 <= o -> owners (c_elf (k_core k)) !! i = Some o -> is_Some (image_of (k_core k) o) ->
     owners es !! i = Some o) ->
  mem_ok m -> (forall x, kernel_end <= x < USER_IMAGE_RESERVED_BASE -> m x = k_mem k x) ->
  run_kept pid k (with_core (with_c_elf es m (k_core k)) k).
Proof using.
  intros Hi Hs Ho Hm Hx. pose proof (oi_kernel _ Hi) as Hk.
  assert (kernel_inv (with_mem m k)) as Hk1.
  { apply set_mem_inv; [done|done|]. intros x Hr. apply Hx.
    pose proof (ki_heap _ Hk). pose proof (ki_limit _ Hk).
    pose proof (hi_current _ (vi_heap _ (ki_vfs _ Hk))) as Hcur. cbn [vheap vfs_of] in Hcur. lia. }
  assert (core_kept (k_core k) (with_c_elf es m (k_core k))) as Hc by (apply core_kept_elf; [apply Hi|done|done]).
  assert (grows (vfs_of k) (vfs_of (with_core (with_c_elf es m (k_core k)) k))) as Hg.
  { constructor; [done|]. intros a n Hn. by exists n. }
  constructor; [apply (os_inv_step k); try done|done|done|done|done].
  pose proof (core_ok_kept _ _ (ki_core _ Hk) Hc). destruct Hk1. by constructor.
Qed.

(** A program that is in the tables and has a slot. *)
Record program_at (k : kernel) (pid : Z) (image : proc_image) (slot : nat) : Prop := {
  pa_pid : 0 < pid;
  pa_image : proc_get_image (c_procs (k_core k)) pid = Some image;
  pa_loaded : loaded image = true;
  pa_slot : owners (c_elf (k_core k)) !! slot = Some pid
}.

Definition has_task (k : kernel) (pid : Z) : Prop :=
  is_Some (task_find_slot_by_pid (c_sched (k_core k)) pid).

Lemma find_kept st st' pid :
  table_kept st st' -> task_find_slot_by_pid st' pid = task_find_slot_by_pid st pid.
Proof using. intros Ht. by apply find_same, Ht. Qed.

Lemma task_kept pid q k k' : run_kept pid k k' -> has_task k q -> has_task k' q.
Proof using.
  intros Hk. unfold has_task. rewrite (find_kept (c_sched (k_core k)) (c_sched (k_core k'))); [done|apply Hk].
Qed.

Lemma program_kept pid k k' image slot :
  os_inv k -> run_kept pid k k' -> program_at k pid image slot ->
  exists image', program_at k' pid image' slot /\ image_like image image'.
Proof using.
  intros Hi Hk [Hp Him Hl Hs]. destruct (kept_image _ _ _ _ (rk_core _ _ _ Hk) Him) as (j & Hj & Hij).
  exists j. split; [|done]. constructor; try done.
  - by rewrite (il_loaded _ _ Hij).
  - apply (rk_core _ _ _ Hk); [lia|done|]. cbn. by eexists.
Qed.

Lemma program_image_ok k pid image slot : os_inv k -> program_at k pid image slot -> image_ok user_stacks image.
Proof using.
  intros Hi [_ Him Hl _]. by apply (ck_images _ (ki_core _ (oi_kernel _ Hi)) pid).
Qed.

Lemma program_slot k pid image slot :
  os_inv k -> program_at k pid image slot ->
  (slot < ELF_PROC_SLOTS)%nat /\
  exists es, elf_slot_for_pid (c_procs (k_core k)) (c_elf (k_core k)) pid = (es, Some slot) /\
    slots_ok es /\ forall i o, 0 <= o -> owners (c_elf (k_core k)) !! i = Some o ->
      is_Some (image_of (k_core k) o) -> owners es !! i = Some o.
Proof using.
  intros Hi [Hp Him Hl Hs]. pose proof (ki_core _ (oi_kernel _ Hi)) as Hc. split.
  - rewrite <- (so_len _ (ck_slots _ Hc)). by eapply lookup_lt_Some.
  - destruct (elf_slot_owned (c_procs (k_core k)) (c_elf (k_core k)) pid slot (ck_slots _ Hc) ltac:(lia) Hs)
      as (es & Hes & _).
    exists es. split; [done|]. by eapply slot_for_kept; [done| |exact Hes]; lia.
Qed.

Lemma set_states_kept pid k p ts ps :
  os_inv k -> 0 < p -> ts <> TASK_UNUSED -> ps <> PROC_UNUSED -> run_kept pid k (set_states p ts ps k).
Proof using.
  intros Hi Hp Ht Hs. apply tables_kept; [done| |done].
  pose proof (set_state_kept (c_sched (k_core k)) p ts (oi_sched _ Hi) Ht ltac:(lia)) as Hset.
  apply core_kept_tables; [apply Hi|done|]. eapply table_kept_trans; [exact Hset|].
  by apply proc_set_kept; [apply Hset|].
Qed.

Lemma set_states_images k p ts ps q :
  os_inv k -> 0 < p -> ts <> TASK_UNUSED -> ps <> PROC_UNUSED ->
  proc_get_image (c_procs (k_core (set_states p ts ps k))) q = proc_get_image (c_procs (k_core k)) q.
Proof using.
  intros Hi Hp Ht Hs. pose proof (oi_sched _ Hi) as Hsc.
  destruct (moved_images _ _ q (sv_procs _ (proj1 Hsc)) (set_state_moved (c_sched (k_core k)) p ts)) as [Hi' He].
  transitivity (proc_get_image (sprocs (task_set_state (c_sched (k_core k)) p ts)) q); [|exact He].
  exact (@set_image proc_st _ proc_st_laws _ p ps q Hi' Hs).
Qed.

Lemma main_kept pid k : os_inv k -> run_kept pid k (to_kernel_main k).
Proof using.
  intros Hi. apply tables_kept; [done| |done]. apply core_kept_tables; [apply Hi|done|apply return_kept, Hi].
Qed.

(** The directory and the boot information do not touch the invariants. *)
Lemma place_kept pid k cwd mbi magic :
  os_inv k -> cwd = 0 \/ is_dir_node (vfs_of k) cwd ->
  run_kept pid k (syscall_set_bootinfo mbi magic (syscall_set_user_cwd cwd k)).
Proof using.
  intros Hi Hcwd. destruct (run_kept_refl pid k Hi) as [_ Hc Hf Hh Hg]. constructor; try done.
  destruct Hi as [Hk Hs Hcw Hsl]. constructor; try done. destruct Hk. by constructor.
Qed.

Lemma print_kept pid k t s : os_inv k -> run_kept pid k (print t s k).
Proof using.
  intros Hi. destruct (run_kept_refl pid k Hi) as [_ Hc Hf Hh Hg]. constructor; try done.
  destruct Hi as [Hk Hs Hcw Hsl]. constructor; try done. destruct Hk. by constructor.
Qed.

Lemma pid_range k pid i :
  os_inv k -> proc_get_image (c_procs (k_core k)) pid = Some i -> 0 <= pid < INT_MAX.
Proof using. intros Hi. apply image_pid, (ki_core _ (oi_kernel _ Hi)). Qed.

Context `{Programs} `{!ProgramsLaws}.

Lemma run_ring3_kept k pid image slot start k' rc reason :
  os_inv k -> program_at k pid image slot -> run_ring3 start pid k = Some (k', rc, reason) ->
  run_kept pid k k' /\ run_end k' pid rc reason.
Proof using All.
  intros Hi Ha. unfold run_ring3. pose proof (pid_range _ _ _ Hi (pa_image _ _ _ _ Ha)) as Hr.
  destruct (user_run _ _) as [[[k1 rc1] re1]|] eqn:Er; [|done]. cbn [mbind option_bind]. intros [= <- <- <-].
  pose proof (ring_kept pid k true (u32 pid) Hi) as Hk0.
  apply (user_run_kept _ _ pid) in Er as [Hk1 (Ha1 & Hp1 & He1)]; [|apply Hk0| |apply program_ok].
  - split; [|by split; [|split]]. eapply run_kept_trans; [exact Hk0|].
    eapply run_kept_trans; [exact Hk1|]. apply ring_kept, Hk1.
  - split_and!; [|done|apply Ha|by exists image; split; apply Ha].
    unfold k_pid. cbn. unfold INT_MAX in Hr. rewrite u32_small by lia. apply s32_small. unfold INT_MAX. lia.
Qed.

(** The end of a run started by one of the two entry points: it came back from
    ring 3, or the program could not be started. *)
Definition run_result (k k' : kernel) (pid : Z) (r : option (Z * Z)) : Prop :=
  run_kept pid k k' /\
  match r with
  | Some (rc, reason) => run_end k' pid rc reason
  | None => ring3_active k' = ring3_active k /\ ring3_current_pid k' = ring3_current_pid k
  end.

Lemma stack_outside_heap k pid image slot x :
  os_inv k -> program_at k pid image slot -> kernel_end <= x < USER_IMAGE_RESERVED_BASE ->
  ~ user_stack_base image <= x < user_stack_base image + user_stack_size image.
Proof using.
  intros Hi Ha Hx. destruct (image_ranges _ (program_image_ok _ _ _ _ Hi Ha)) as (_ & _ & _ & _ & _ & ? & _).
  lia.
Qed.

(** The program can be started with these arguments. *)
Definition startable (image : proc_image) (argc : Z) (argv : list (option (list Z))) : Prop :=
  image_base image <= entry image < image_base image + image_size image /\
  args_total argv (Z.to_nat (clamp_argc argc)) <= ELF_STACK_SIZE - 128.

Lemma execute_kept k pid image slot argc argv t k' r :
  os_inv k -> program_at k pid image slot -> args_ok argv ->
  elf_execute_image k image pid argc argv t = Some (k', r) ->
  run_result k k' pid r /\ (startable image argc argv -> is_Some r).
Proof using All.
  intros Hi Ha Hargs. unfold elf_execute_image.
  destruct (elf_execute_prepare (k_mem k) image pid argc argv) as [m r0] eqn:Ep.
  pose proof (execute_prepare_mem_ok (k_mem k) image pid argc argv (ki_mem _ (oi_kernel _ Hi))) as Hm.
  rewrite Ep in Hm. cbn [fst] in Hm. pose proof (pa_pid _ _ _ _ Ha) as Hp. assert (0 <= pid) as Hp0 by lia.
  destruct (elf_execute_prepare_spec user_stacks user_images _ _ _ _ _ _ _ linker_layout
    (program_image_ok _ _ _ _ Hi Ha) Hargs Hp0 Ep) as (Hso & Hstart & _).
  assert (run_kept pid k (with_mem m k)) as Hk1.
  { apply (mem_elf_kept pid k (c_elf (k_core k)) m Hi); [apply Hi|done|done|].
    intros x Hx. apply Hso. by eapply stack_outside_heap. }
  destruct r0 as [e|[eip sp]].
  - intros [= <- <-]. split; [split; [|done]|].
    + eapply run_kept_trans; [exact Hk1|]. apply print_kept, Hk1.
    + intros [He Hargs']. by destruct (Hstart He Hargs').
  - destruct (program_kept _ _ _ _ _ Hi Hk1 Ha) as (i1 & Ha1 & _).
    destruct (run_ring3 _ _ _) as [[[k2 rc] re]|] eqn:Er; [|done]. intros [= <- <-].
    destruct (run_ring3_kept _ _ _ _ _ _ _ _ (rk_inv _ _ _ Hk1) Ha1 Er).
    split; [|by eexists]. split; [|done]. by eapply run_kept_trans.
Qed.

Lemma resume_kept k pid image slot t k' r :
  os_inv k -> program_at k pid image slot -> context_valid image = true ->
  elf_resume_image k image pid t = Some (k', r) -> run_result k k' pid r /\ is_Some r.
Proof using All.
  intros Hi Ha Hcv. pose proof (program_image_ok _ _ _ _ Hi Ha) as Hio.
  destruct (program_slot _ _ _ _ Hi Ha) as (Hlt & es & Hes & Hsok & Hown).
  pose proof (ki_mem _ (oi_kernel _ Hi)) as Hm. pose proof (pa_pid _ _ _ _ Ha) as Hp.
  assert (0 <= pid) as Hp0 by lia.
  destruct (elf_resume_spec _ _ linker_layout (c_procs (k_core k)) (c_elf (k_core k)) (k_mem k) pid image es slot
    Hm Hp0 Hio Hcv Hes Hlt) as (m & Hr & Hx).
  unfold elf_resume_image, k_mem in *. rewrite Hr.
  set (k1 := with_core (with_c_elf es m (k_core k)) k).
  assert (run_kept pid k k1) as Hk1.
  { apply mem_elf_kept; [done|done|done| |].
    - intros x. rewrite Hx. repeat case_match; [apply Hm|done|apply Hm].
    - intros x Hr'. rewrite Hx. destruct Hio.
      assert (in_range (image_base image) (image_size image) x = false) as ->
        by (apply in_range_false; unfold USER_IMAGE_RESERVED_BASE, ELF_USER_IMAGE_BASE in *; lia).
      destruct (window x) eqn:Ew; [|done]. apply window_spec in Ew.
      unfold USER_IMAGE_RESERVED_BASE, ELF_USER_IMAGE_BASE in *. lia. }
  destruct (program_kept _ _ _ _ _ Hi Hk1 Ha) as (i1 & Ha1 & _).
  destruct (run_ring3 _ _ _) as [[[k2 rc] re]|] eqn:Er; [|done]. intros [= <- <-].
  destruct (run_ring3_kept _ _ _ _ _ _ _ _ (rk_inv _ _ _ Hk1) Ha1 Er). split; [|by eexists]. split; [|done].
  by eapply run_kept_trans.
Qed.

(** The state a program has been put in. *)
Definition rests (k : kernel) (pid : Z) (ts : task_state) (ps : proc_state) : Prop :=
  task_state_of (c_sched (k_core k)) pid = Some ts /\ proc_state_of (c_procs (k_core k)) pid = ps /\
  task_current_pid (c_sched (k_core k)) = 0.

Lemma settle_kept k pid image slot ts ps :
  os_inv k -> program_at k pid image slot ->
  ts <> TASK_UNUSED -> ts <> TASK_RUNNING -> ps <> PROC_UNUSED ->
  run_kept pid k (to_kernel_main (set_states pid ts ps k)) /\
  (has_task k pid -> rests (to_kernel_main (set_states pid ts ps k)) pid ts ps).
Proof using.
  intros Hi [Hp Him Hl Hs] Hts Hru Hps.
  pose proof (set_states_kept pid k pid ts ps Hi Hp Hts Hps) as Hk1. split.
  - eapply run_kept_trans; [exact Hk1|]. apply main_kept, Hk1.
  - intros Ht. apply settle_states; try done; [apply Hi|].
    apply (@image_live proc_st _ proc_st_laws (c_procs (k_core k)) pid (ck_procs _ (ki_core _ (oi_kernel _ Hi)))).
    cbn. by eexists.
Qed.

(** A program that stops and stays: its image is copied to its slot. *)
Lemma stop_spec k pid image slot ts ps why :
  os_inv k -> program_at k pid image slot ->
  ts <> TASK_UNUSED -> ts <> TASK_RUNNING -> ps <> PROC_UNUSED ->
  exists k', stop_program k pid ts ps why = (k', Some (0, why)) /\
    run_kept pid k k' /\ (has_task k pid -> rests k' pid ts ps) /\
    ring3_active k' = ring3_active k /\ ring3_current_pid k' = ring3_current_pid k /\
    proc_get_image (c_procs (k_core k')) pid = Some image /\
    forall x, k_mem k' x = if in_range (shadow_addr user_images slot) (image_size image) x
                           then k_mem k (image_base image + (x - shadow_addr user_images slot)) else k_mem k x.
Proof using.
  intros Hi Ha Hts Hru Hps. pose proof (program_image_ok _ _ _ _ Hi Ha) as Hio.
  destruct (program_slot _ _ _ _ Hi Ha) as (Hlt & es & Hes & Hsok & Hown).
  pose proof (ki_mem _ (oi_kernel _ Hi)) as Hm. pose proof (pa_pid _ _ _ _ Ha) as Hp.
  assert (0 <= pid) as Hp0 by lia.
  destruct (elf_snapshot_spec _ _ linker_layout (c_procs (k_core k)) (c_elf (k_core k)) (k_mem k) pid image es slot
    Hm Hp0 Hio Hes Hlt) as (m & Hr & Hmok & Hx).
  unfold stop_program. rewrite (pa_image _ _ _ _ Ha), Hr. cbn [negb].
  set (k1 := with_core (with_c_elf es m (k_core k)) k).
  assert (run_kept pid k k1) as Hk1.
  { apply mem_elf_kept; [done|done|done|done|].
    intros x Hr'. rewrite Hx. rewrite (proj2 (in_range_false _ _ _)); [done|].
    destruct (shadow_addr_range _ _ linker_layout slot Hlt) as [_ _]. destruct linker_arrays as [_ Harr].
    destruct (image_ranges _ Hio) as (_ & _ & _ & _ & _ & _ & _ & ? & _).
    unfold shadow_addr, ELF_USER_IMAGE_MAX, ELF_PROC_SLOTS in *. lia. }
  assert (program_at k1 pid image slot) as Ha1.
  { destruct (program_kept _ _ _ _ _ Hi Hk1 Ha) as (i1 & Hai & _).
    pose proof (pa_image _ _ _ _ Hai) as E1. change (c_procs (k_core k1)) with (c_procs (k_core k)) in E1.
    rewrite (pa_image _ _ _ _ Ha) in E1. by injection E1 as <-. }
  destruct (settle_kept k1 pid image slot ts ps (rk_inv _ _ _ Hk1) Ha1 Hts Hru Hps) as [Hk2 Hres].
  eexists. split; [reflexivity|]. split; [by eapply run_kept_trans|]. split; [done|].
  split; [done|]. split; [done|]. split; [|exact Hx].
  rewrite <- (pa_image _ _ _ _ Ha1). by apply settle_images; [apply Hk1|..].
Qed.

(** The program of [pid] waits in its slot: the registers it goes on with, and
    every byte of its image. *)
Definition saved (k : kernel) (pid : Z) (slot : nat) : Prop :=
  exists frame i, Forall is_u32 frame /\
    proc_get_image (c_procs (k_core k)) pid = Some (save_registers frame i) /\
    forall x, image_base i <= x < image_base i + image_size i ->
      k_mem k (shadow_addr user_images slot + (x - image_base i)) = k_mem k x.

Definition task_run_end (k k' : kernel) (pid : Z) (slot : nat) (r : option (Z * exec_stop_reason)) : Prop :=
  run_kept pid k k' /\ ring3_active k' = false /\ ring3_current_pid k' = 0 /\
  match r with
  | None => True
  | Some (rc, EXEC_STOP_YIELDED) => rc = 0 /\ rests k' pid TASK_READY PROC_READY /\ saved k' pid slot
  | Some (rc, EXEC_STOP_BLOCKED) => rc = 0 /\ rests k' pid TASK_BLOCKED PROC_BLOCKED /\ saved k' pid slot
  | Some (rc, EXEC_STOP_EXITED) => rests k' pid TASK_ZOMBIE PROC_ZOMBIE
  | Some (_, EXEC_STOP_NONE) => False
  end.

(** A stop that keeps the program. *)
Lemma stop_end k k1 pid image slot ts ps why :
  run_kept pid k k1 -> program_at k1 pid image slot ->
  ts <> TASK_UNUSED -> ts <> TASK_RUNNING -> ps <> PROC_UNUSED ->
  ring3_active k1 = false -> ring3_current_pid k1 = 0 ->
  (exists frame i, Forall is_u32 frame /\ image = save_registers frame i) ->
  exists k', stop_program k1 pid ts ps why = (k', Some (0, why)) /\
    run_kept pid k k' /\ ring3_active k' = false /\ ring3_current_pid k' = 0 /\
    (has_task k pid -> rests k' pid ts ps) /\ saved k' pid slot.
Proof using.
  intros Hk1 Ha Hts Hru Hps Hr Hp (frame & i & Hf & ->).
  destruct (stop_spec k1 pid _ slot ts ps why (rk_inv _ _ _ Hk1) Ha Hts Hru Hps)
    as (k' & -> & Hk' & Hres & Hr' & Hp' & Him & Hx).
  exists k'. split; [done|]. split; [by eapply run_kept_trans|]. split_and!; [congruence|congruence|by intros ?%(task_kept _ _ _ _ Hk1)%Hres|].
  exists frame, i. split_and!; [done|done|]. intros x Hi. rewrite !Hx.
  pose proof (program_image_ok _ _ _ _ (rk_inv _ _ _ Hk1) Ha) as Hio.
  destruct (program_slot _ _ _ _ (rk_inv _ _ _ Hk1) Ha) as (Hlt & _).
  pose proof (shadow_addr_range _ _ linker_layout slot Hlt) as [_ ?].
  destruct Hio as [_ Hb _ He _ _]. cbn [image_base image_size save_registers] in *.
  unfold ELF_USER_IMAGE_BASE, ELF_USER_IMAGE_MAX in *.
  rewrite (proj2 (in_range_spec _ _ _)), (proj2 (in_range_false _ _ x)) by lia. f_equal. lia.
Qed.

(** The program of [pid] before its run: its directory, the boot information and
    the states RUNNING. *)
Definition make_current (k : kernel) (pid : Z) (image : proc_image) (ctx : exec_context) : kernel :=
  set_states pid TASK_RUNNING PROC_RUNNING
    (syscall_set_bootinfo (ec_mbi ctx) (ec_magic ctx)
      (syscall_set_user_cwd (if negb (img_cwd image =? 0) then img_cwd image else ec_cwd ctx) k)).

Lemma made_current k pid image slot ctx :
  os_inv k -> program_at k pid image slot -> ec_cwd ctx = 0 \/ is_dir_node (vfs_of k) (ec_cwd ctx) ->
  run_kept pid k (make_current k pid image ctx) /\ program_at (make_current k pid image ctx) pid image slot.
Proof using.
  intros Hi Ha Hcwd. unfold make_current. pose proof (pa_pid _ _ _ _ Ha) as Hp.
  set (cwd := if negb (img_cwd image =? 0) then img_cwd image else ec_cwd ctx).
  assert (cwd = 0 \/ is_dir_node (vfs_of k) cwd) as Hcwd'.
  { unfold cwd. destruct (img_cwd image =? 0) eqn:E; cbn [negb]; [done|]. zify_bool.
    destruct (oi_cwds _ Hi pid image (pa_image _ _ _ _ Ha)); [lia|by right]. }
  pose proof (place_kept pid k cwd (ec_mbi ctx) (ec_magic ctx) Hi Hcwd') as Hk1.
  set (k1 := syscall_set_bootinfo _ _ _) in *.
  pose proof (set_states_kept pid k1 pid TASK_RUNNING PROC_RUNNING (rk_inv _ _ _ Hk1) Hp ltac:(done) ltac:(done)) as Hk2.
  set (k2 := set_states _ _ _ k1) in *.
  assert (run_kept pid k k2) as Hk by (by eapply run_kept_trans).
  assert (program_at k2 pid image slot) as Ha2.
  { destruct (program_kept _ _ _ _ _ Hi Hk Ha) as (i2 & Ha2 & _).
    pose proof (pa_image _ _ _ _ Ha2) as E. unfold k2 in E.
    rewrite set_states_images in E by (done || apply Hk1).
    change (c_procs (k_core k1)) with (c_procs (k_core k)) in E. rewrite (pa_image _ _ _ _ Ha) in E.
    by injection E as <-. }
  done.
Qed.

(** No program counts as running. *)
Definition idle (k : kernel) : Prop := ring3_active k = false /\ ring3_current_pid k = 0.

Lemma task_run_spec k pid image slot argc argv ctx k' r :
  os_inv k -> program_at k pid image slot -> args_ok argv ->
  ec_cwd ctx = 0 \/ is_dir_node (vfs_of k) (ec_cwd ctx) ->
  ring3_active k = false -> ring3_current_pid k = 0 ->
  task_run_user_until_stop k pid argc argv ctx = Some (k', r) ->
  run_kept pid k k' /\ idle k' /\ (has_task k pid -> task_run_end k k' pid slot r) /\
  (context_valid image = true \/ startable image argc argv -> is_Some r).
Proof using All.
  intros Hi Ha Hargs Hcwd Hra Hrp. unfold task_run_user_until_stop.
  pose proof (pa_pid _ _ _ _ Ha) as Hp.
  rewrite (pa_image _ _ _ _ Ha), (pa_loaded _ _ _ _ Ha), (proj2 (Z.leb_gt pid 0) Hp). cbn [negb orb].
  destruct (made_current k pid image slot ctx Hi Ha Hcwd) as [Hk Ha2].
  unfold make_current in Hk, Ha2. set (k2 := set_states _ _ _ _) in *.
  assert (forall k3 r3, run_result k2 k3 pid r3 -> ring3_active k3 = false /\ ring3_current_pid k3 = 0) as Hring.
  { intros k3 r3 [_ Hr3]. destruct r3 as [[rc re]|]; [by destruct Hr3 as (? & ? & _)|].
    destruct Hr3 as [-> ->]. done. }
  destruct (if context_valid image then _ else _) as [[k3 r3]|] eqn:Erun; [|done]. cbn [mbind option_bind].
  assert (run_result k2 k3 pid r3 /\ (context_valid image = true \/ startable image argc argv -> is_Some r3))
    as [Hrr Hsome].
  { destruct (context_valid image) eqn:Ecv.
    - destruct (resume_kept _ _ _ _ _ _ _ (rk_inv _ _ _ Hk) Ha2 Ecv Erun). done.
    - destruct (execute_kept _ _ _ _ _ _ _ _ _ (rk_inv _ _ _ Hk) Ha2 Hargs Erun) as [? Hst].
      split; [done|]. intros [?|?]; [done|by apply Hst]. }
  destruct (Hring k3 r3 Hrr) as [Hr3 Hp3]. destruct Hrr as [Hk3 Hend].
  assert (run_kept pid k k3) as Hk03 by (by eapply run_kept_trans).
  destruct r3 as [[rc reason]|].
  2:{ intros [= <- <-]. split; [done|]. split; [done|]. split; [done|]. intros Hc. by destruct (Hsome Hc). }
  destruct (program_kept _ _ _ _ _ (rk_inv _ _ _ Hk) Hk3 Ha2) as (i3 & Ha3 & _).
  destruct Hend as (_ & _ & Hend).
  assert (reason = 1 \/ reason = 3 -> exists frame i, Forall is_u32 frame /\ i3 = save_registers frame i) as Hsv.
  { intros Hre. destruct Hend as [->|[[_ ->]|(_ & _ & frame & i & Hf & Him)]]; [lia|lia|].
    exists frame, i. split; [done|]. pose proof (pa_image _ _ _ _ Ha3). congruence. }
  unfold task_stopped.
  destruct (Z.eqb_spec reason 1) as [E1|E1]; [|destruct (Z.eqb_spec reason 3) as [E3|E3]].
  - destruct (stop_end k k3 pid i3 slot TASK_READY PROC_READY EXEC_STOP_YIELDED Hk03 Ha3)
      as (k4 & -> & Hk4 & Hr4 & Hp4 & Hres & Hsave); try done; [by apply Hsv; left|]. intros [= <- <-].
    split; [done|]. split; [by split|]. split; [|by eexists]. intros Ht. split_and!; try done. by apply Hres.
  - destruct (stop_end k k3 pid i3 slot TASK_BLOCKED PROC_BLOCKED EXEC_STOP_BLOCKED Hk03 Ha3)
      as (k4 & -> & Hk4 & Hr4 & Hp4 & Hres & Hsave); try done; [by apply Hsv; right|]. intros [= <- <-].
    split; [done|]. split; [by split|]. split; [|by eexists]. intros Ht. split_and!; try done. by apply Hres.
  - intros [= <- <-].
    destruct (settle_kept k3 pid i3 slot TASK_ZOMBIE PROC_ZOMBIE (rk_inv _ _ _ Hk3) Ha3) as [Hk4 Hres]; try done.
    assert (run_kept pid k (to_kernel_main (set_states pid TASK_ZOMBIE PROC_ZOMBIE k3))) as Hkz by (by eapply run_kept_trans).
    split; [done|]. split; [by split|]. split; [|by eexists]. intros Ht. split_and!; try done.
    apply Hres, (task_kept _ _ _ _ Hk3), (task_kept _ _ _ _ (proj1 (made_current k pid image slot ctx Hi Ha Hcwd))), Ht.
Qed.

(** *** Starting and ending a program *)

(** What is left of everything else while the process [pid] comes and goes. *)
Record others_kept (pid : Z) (k k' : kernel) : Prop := {
  ok_inv : os_inv k';
  ok_images : forall q, q <> pid ->
    option_Forall2 image_like (proc_get_image (c_procs (k_core k)) q) (proc_get_image (c_procs (k_core k')) q);
  ok_owners : forall i o, o <> pid -> 0 <= o -> owners (c_elf (k_core k)) !! i = Some o ->
    is_Some (image_of (k_core k) o) -> owners (c_elf (k_core k')) !! i = Some o;
  ok_fds : forall i e, fd_table k !! i = Some e -> fd_used e = true -> fd_pid e <> pid ->
    fd_table k' !! i = Some e;
  ok_heap : heap_ext (k_heap k) (k_heap k');
  ok_tree : grows (vfs_of k) (vfs_of k')
}.

Lemma others_run pid k k' : run_kept pid k k' -> others_kept pid k k'.
Proof using.
  intros [Hi Hc Hf Hh Hg]. constructor; try done.
  - intros q _. apply (tk_images _ _ (kt_tables _ _ Hc) q).
  - intros i o _. apply Hc.
Qed.

Lemma others_trans pid k1 k2 k3 : others_kept pid k1 k2 -> others_kept pid k2 k3 -> others_kept pid k1 k3.
Proof using.
  intros [Hi1 Him1 Ho1 Hf1 Hh1 Hg1] [Hi2 Him2 Ho2 Hf2 Hh2 Hg2]. constructor; [done| | | | |].
  - intros q Hq. by etransitivity; [apply Him1|apply Him2].
  - intros i o Hne Hz Ho Hs. apply Ho2; [done|done|by apply Ho1|].
    pose proof (Him1 o Hne) as Hq. cbn in Hs |- *. destruct Hs as [x Hx]. unfold c_procs in *. rewrite Hx in Hq.
    inversion Hq as [? j ? Heq|]; subst. by exists j.
  - intros i e He Hu Hne. apply Hf2; [by apply Hf1|done|done].
  - by etransitivity.
  - by eapply grows_trans.
Qed.

(** A change of the tables that concerns [pid]. *)
Lemma tables_others pid k c :
  os_inv k -> sched_inv (c_sched c) -> c_elf c = c_elf (k_core k) -> c_mem c = k_mem k ->
  (forall q, q <> pid -> proc_get_image (c_procs c) q = proc_get_image (c_procs (k_core k)) q) ->
  (forall i, proc_get_image (c_procs c) pid = Some i ->
     (loaded i = true -> image_ok user_stacks i /\ exists slot, owners (c_elf (k_core k)) !! slot = Some pid) /\
     (img_cwd i = 0 \/ is_dir_node (vfs_of k) (img_cwd i))) ->
  others_kept pid k (with_core c k).
Proof using.
  intros Hi Hs He Hm Hq Hpid. assert (vfs_of (with_core c k) = vfs_of k) as Hv.
  { unfold vfs_of. f_equal. exact Hm. }
  pose proof (ki_core _ (oi_kernel _ Hi)) as Hc.
  assert (core_ok c) as Hc'.
  { constructor; [apply (proj1 Hs)|rewrite He; apply Hc|]. intros q i Hqi Hl.
    destruct (decide (q = pid)) as [-> |Hne]; [by apply Hpid|]. rewrite Hq in Hqi by done.
    by apply (ck_images _ Hc q). }
  constructor.
  - constructor; [|done| |].
    + destruct (oi_kernel _ Hi). constructor; rewrite ?Hv; try done. unfold k_mem. cbn. by rewrite Hm.
    + intros q i Hqi. rewrite Hv. cbn [k_core with_core] in Hqi.
      destruct (decide (q = pid)) as [-> |Hne]; [by apply Hpid|]. rewrite Hq in Hqi by done.
      by apply (oi_cwds _ Hi q).
    + intros q i Hqi Hl. cbn [k_core with_core] in *. rewrite He.
      destruct (decide (q = pid)) as [-> |Hne]; [by apply (Hpid i)|]. rewrite Hq in Hqi by done.
      by apply (oi_slots _ Hi q i).
  - intros q Hne. cbn [k_core with_core]. rewrite Hq by done.
    by destruct (proc_get_image _ q); constructor.
  - intros i o _ _. cbn [k_core with_core]. by rewrite He.
  - done.
  - done.
  - rewrite Hv. apply grows_refl.
Qed.

(** After [end_program] the process, its image and its task are gone. *)
Definition gone (k : kernel) (pid : Z) : Prop :=
  proc_get_image (c_procs (k_core k)) pid = None /\ proc_state_of (c_procs (k_core k)) pid = PROC_UNUSED /\
  task_find_slot_by_pid (c_sched (k_core k)) pid = None.

Lemma end_others pid k rc :
  os_inv k -> 0 < pid -> others_kept pid k (end_program pid rc k) /\ gone (end_program pid rc k) pid.
Proof using.
  intros Hi Hp. pose proof (oi_sched _ Hi) as Hs.
  destruct (end_process (c_procs (k_core k)) pid rc (sv_procs _ (proj1 Hs))) as (Hp2 & Hn2 & Hnone & Hoth).
  set (ps2 := fst (proc_reap_pid (fst (proc_exit (c_procs (k_core k)) pid rc)) pid)) in *.
  set (st2 := with_procs ps2 (c_sched (k_core k))).
  assert (sched_inv st2) as Hs2 by (apply with_procs_inv; [done|done|unfold c_procs in *; lia]).
  set (st3 := fst (task_reap_pid st2 pid)).
  assert (end_program pid rc k = with_core (with_c_sched st3 (k_core k)) k) as -> by (by destruct k as [[]]).
  pose proof (task_reap_inv st2 pid Hs2 Hp) as Hs3. fold st3 in Hs3.
  assert (procs_moved ps2 (sprocs st3) /\ task_find_slot_by_pid st3 pid = None) as [Hm Hfn].
  { exact (task_reap_spec st2 pid Hs2 Hp). }
  assert (forall q, proc_get_image (sprocs st3) q = proc_get_image ps2 q) as Him
    by (intros q; by apply moved_images).
  split.
  - apply tables_others; try done.
    + intros q Hq. unfold c_procs. cbn [c_sched with_c_sched]. rewrite Him. by apply Hoth.
    + intros i. unfold c_procs. cbn [c_sched with_c_sched]. by rewrite Him, Hnone.
  - assert (proc_get_image (sprocs st3) pid = None) as Hnone3 by (by rewrite Him).
    split; [done|]. split; [|done].
    destruct (decide (proc_state_of (sprocs st3) pid = PROC_UNUSED)) as [?|Hl]; [done|].
    apply (@image_live proc_st _ proc_st_laws (sprocs st3) pid (sv_procs _ (proj1 Hs3))) in Hl. cbn in Hl.
    rewrite Hnone3 in Hl. by destruct Hl.
Qed.

Lemma segs_byte_ok m fd segs x : mem_ok m -> is_byte (segs_byte m fd segs 0 x).
Proof using.
  intros Hm. unfold segs_byte. assert (is_byte 0) as H00 by done. revert H00. generalize 0.
  induction segs as [|s l IH]; intros b Hb; [done|]. cbn [fold_left]. apply IH.
  destruct (in_range _ _ x); [apply Hm|done].
Qed.

(** *** Reading a program *)

(** Reads change the heap and memory above it only. *)
Record only_read (k k' : kernel) : Prop := {
  or_kept : forall pid, run_kept pid k k';
  or_core : c_sched (k_core k') = c_sched (k_core k) /\ c_elf (k_core k') = c_elf (k_core k);
  or_idle : idle k -> idle k'
}.

Lemma only_read_trans k1 k2 k3 : only_read k1 k2 -> only_read k2 k3 -> only_read k1 k3.
Proof using.
  intros [Hk1 [Hs1 He1] Hi1] [Hk2 [Hs2 He2] Hi2]. constructor; [|split; congruence|auto].
  intros pid. by eapply run_kept_trans.
Qed.

Lemma only_read_refl k : os_inv k -> only_read k k.
Proof using. intros Hi. constructor; [|done|done]. intros pid. by apply run_kept_refl. Qed.

(** Changes of the file tree. *)
Lemma tree_kept pid k v :
  os_inv k -> vfs_inv v -> grows (vfs_of k) v ->
  mem_step (k_heap k) (k_mem k) (vheap v) (vmem v) -> data_fresh (vfs_of k) v -> run_kept pid k (with_vfs v k).
Proof using.
  intros Hi Hv Hg Hm Hd. pose proof (vfs_step_ok k v (oi_kernel _ Hi) Hv Hg Hm Hd) as Hcall.
  assert (core_kept (k_core k) (k_core (with_vfs v k))) as Hc.
  { apply core_kept_tables; [apply Hi|done|by apply table_kept_refl, Hi]. }
  destruct (call_kept k _ Hi Hcall Hc) as ([Hi' _ _ Hh Hg'] & _). by constructor.
Qed.

Lemma write_file_kept pid k cwd path bytes :
  os_inv k -> is_dir_node (vfs_of k) cwd -> is_u32 (Z.of_nat (length bytes)) -> all_bytes bytes ->
  run_kept pid k (with_vfs (fst (vfs_write_file (vfs_of k) cwd path bytes)) k).
Proof using.
  intros Hi Hd Hl Hb. destruct (vfs_write_file (vfs_of k) cwd path bytes) as [v b] eqn:E.
  assert (is_Some (node_at (vfs_of k) cwd)) as Hn by (destruct Hd as (n & Hn & _); by eexists).
  destruct (write_file_spec _ _ _ _ _ _ (ki_vfs _ (oi_kernel _ Hi)) Hn Hl Hb E) as (Hv & Hg & Hm & Hf & _).
  by apply tree_kept.
Qed.

Lemma read_file_kept k cwd path k' r :
  os_inv k -> read_file k cwd path = (k', r) ->
  only_read k k' /\
  forall data size, r = Some (data, size) -> data <> 0 -> file_outside data size.
Proof using All.
  intros Hi. unfold read_file. destruct (vfs_read_file (vfs_of k) cwd path) as [v r0] eqn:E. intros [= <- <-].
  pose proof (ki_vfs _ (oi_kernel _ Hi)) as Hv. pose proof (read_file_step _ _ _ _ _ Hv E) as [Hsi Hsg _ Hsm Hsd].
  assert (forall pid, run_kept pid k (with_vfs v k)) as Hk by (intros pid; by apply tree_kept).
  pose proof (rk_inv _ _ _ (Hk 0)) as Hi'. split.
  - by constructor.
  - intros data size -> Hd. destruct (read_file_block _ _ _ _ _ _ Hv E) as (Hsz & [[? _]|[Hb1 Hb2]] & _); [done|].
    pose proof (ki_vfs _ (oi_kernel _ Hi')) as Hv'. pose proof (hi_current _ (vi_heap _ Hv')) as Hcur.
    pose proof (hi_start _ (vi_heap _ Hv')) as Hst0. pose proof (ki_limit _ (oi_kernel _ Hi')) as Hlim.
    cbn [vheap vfs_of k_heap with_vfs] in *. unfold USER_IMAGE_RESERVED_BASE, file_outside, ELF_USER_IMAGE_BASE in *.
    split_and!; [lia|lia|left; lia].
Qed.

Lemma exec_plan_kept k cwd path k' r :
  os_inv k -> exec_plan k cwd path = (k', r) ->
  only_read k k' /\
  forall data size plan, r = inr (data, size, plan) ->
    data <> 0 /\ file_outside data size /\ plan_valid plan = true /\ 0 < plan_image_size plan /\
    ELF_USER_IMAGE_BASE <= plan_image_base plan /\
    plan_image_base plan + plan_image_size plan <= ELF_USER_IMAGE_BASE + ELF_USER_IMAGE_MAX.
Proof using All.
  intros Hi. unfold exec_plan. destruct (read_file k cwd path) as [k1 r1] eqn:E1.
  destruct (read_file_kept _ _ _ _ _ Hi E1) as [H1' Hf1].
  destruct r1 as [[data size]|]; [|intros [= <- <-]; done].
  destruct (data =? 0) eqn:E0; [intros [= <- <-]; done|]. zify_bool.
  pose proof (rk_inv _ _ _ (or_kept _ _ H1' 0)) as Hi1.
  destruct (read_file k1 cwd path) as [k2 r2] eqn:E2.
  destruct (read_file_kept _ _ _ _ _ Hi1 E2) as [H2' Hf2].
  pose proof (only_read_trans _ _ _ H1' H2') as H12.
  pose proof (rk_inv _ _ _ (or_kept _ _ H12 0)) as Hi2.
  destruct (elf_prepare_load_plan (k_mem k2) r2) as [e|plan] eqn:Ep; intros [= <- <-]; (split; [done|]); [done|].
  intros d s p [= <- <- <-]. split; [done|]. split; [by apply Hf1|].
  destruct r2 as [[d2 s2]|]; [|done].
  destruct (elf_plan_checked _ _ _ _ (ki_mem _ (oi_kernel _ Hi2)) Ep) as (? & _ & ? & _ & ? & ? & _).
  done.
Qed.

Lemma fresh_gone k pid : os_inv k -> next_pid (c_procs (k_core k)) <= pid -> gone k pid.
Proof using.
  intros Hi Hn. pose proof (proj1 (oi_sched _ Hi)) as Hw. pose proof (sv_procs _ Hw) as Hp.
  assert (find_slot_by_pid (c_procs (k_core k)) pid = None) as Hf.
  { destruct (find_slot_by_pid _ pid) as [sl|] eqn:Hf; [|done].
    apply find_slot_inv in Hf as (p & Hp0 & Hl & <- & _). pose proof (pv_pids _ Hp _ _ Hp0 Hl).
    unfold c_procs in *. lia. }
  unfold gone, proc_get_image, proc_state_of. rewrite Hf. split_and!; [done|done|].
  destruct (task_find_slot_by_pid _ pid) as [sl|] eqn:Ht; [|done].
  destruct (find_task_inv _ _ _ Ht) as (t & Ht0 & Hl & <-). pose proof (sv_pids _ Hw _ _ Ht0 Hl).
  unfold c_procs in *. lia.
Qed.

(** What is left of the program [pid] after it was run. *)
Definition program_left (k : kernel) (pid : Z) (ok : bool) : Prop :=
  gone k pid \/
  ok = true /\ exists slot, saved k pid slot /\
    (rests k pid TASK_READY PROC_READY \/ rests k pid TASK_BLOCKED PROC_BLOCKED).

Lemma same_machine_left k k' pid ok :
  k_core k' = k_core k -> program_left k pid ok -> program_left k' pid ok.
Proof using.
  intros Hc. unfold program_left, gone, saved, rests, k_mem. by rewrite Hc.
Qed.

Lemma after_stop_spec k k' pid slot r ctx who rc why :
  0 < pid -> has_task k pid -> run_kept pid k k' -> idle k' ->
  (has_task k pid -> task_run_end k k' pid slot r) -> r = Some (rc, why) ->
  others_kept pid k (after_stop ctx who pid rc why k') /\
  idle (after_stop ctx who pid rc why k') /\ program_left (after_stop ctx who pid rc why k') pid true.
Proof using.
  intros Hp Htask _ _ Hend' ->. destruct (Hend' Htask) as (Hk & Hr & Hc & Hend). pose proof (others_run _ _ _ Hk) as Ho.
  assert (forall s, others_kept pid k (print (ec_output ctx) s k')) as Hprint.
  { intros s. eapply others_trans; [exact Ho|]. by apply others_run, print_kept, Hk. }
  destruct why; cbn [after_stop]; [done| | |].
  - destruct Hend as (_ & Hres & Hsv). split_and!; [apply Hprint|done|].
    apply (same_machine_left k'); [done|]. right. split; [done|]. exists slot. auto.
  - destruct (end_others pid k' rc (rk_inv _ _ _ Hk) Hp) as [He Hg].
    split_and!; [by eapply others_trans|done|by left].
  - destruct Hend as (_ & Hres & Hsv). split_and!; [apply Hprint|done|].
    apply (same_machine_left k'); [done|]. right. split; [done|]. exists slot. auto.
Qed.

(** The plan a path gives has no segment that wraps around the address space. *)
Definition plan_inside (k : kernel) (cwd : Z) (path : list Z) : Prop :=
  forall k1 data size plan, exec_plan k cwd path = (k1, inr (data, size, plan)) ->
    Forall (seg_inside size ELF_USER_IMAGE_BASE (ELF_USER_IMAGE_BASE + ELF_USER_IMAGE_MAX)) (segments plan).

Definition ctx_ok (k : kernel) (ctx : exec_context) : Prop :=
  ec_cwd ctx = 0 \/ is_dir_node (vfs_of k) (ec_cwd ctx).

Lemma set_place_ok cwd out i : image_ok user_stacks i -> image_ok user_stacks (set_place cwd out i).
Proof using. intros []. by constructor. Qed.

(** A process that has been spawned, before it has an image. *)
Lemma spawned k name ppid st pid :
  os_inv k -> next_pid (c_procs (k_core k)) < INT_MAX ->
  task_spawn_user (c_sched (k_core k)) name ppid = (st, pid) ->
  let k1 := with_core (with_c_sched st (k_core k)) k in
  others_kept (next_pid (c_procs (k_core k))) k k1 /\
  (pid < 0 /\ gone k1 (next_pid (c_procs (k_core k))) \/
   pid = next_pid (c_procs (k_core k)) /\ 0 < pid /\
   is_Some (task_find_slot_by_pid st pid) /\ proc_get_image (c_procs (k_core k1)) pid = Some image_reset).
Proof using.
  intros Hi Hn Hsp k1. set (p := next_pid (c_procs (k_core k))) in *.
  destruct (spawn_task _ _ _ _ _ _ (oi_sched _ Hi) Hn Hsp) as (Hs & Hps & Hcase).
  pose proof (sv_procs _ (proj1 (oi_sched _ Hi))) as Hps0.
  assert (0 < p) as Hp0 by (pose proof (pv_next _ Hps0); unfold p, c_procs; lia).
  assert (pid < 0 /\ c_procs (k_core k1) = c_procs (k_core k) \/
    pid = p /\ is_Some (task_find_slot_by_pid st pid) /\ proc_get_image (c_procs (k_core k1)) p = Some image_reset /\
    forall q, q <> p -> proc_get_image (c_procs (k_core k1)) q = proc_get_image (c_procs (k_core k)) q) as Hc.
  { destruct Hcase as [[? He]|(Hpid & Ht & name' & Hpr)]; [left; by split|right].
    destruct (spawn_process _ _ _ _ _ Hps0 Hn Hpr) as [_ [[? _]|(_ & _ & Hnew & _ & Hoth)]].
    { unfold p, c_procs in *. lia. }
    rewrite Hpid in Hnew, Hoth. split_and!; [done|done|exact Hnew|]. intros q Hq. by apply Hoth. }
  assert (others_kept p k k1) as Ho.
  { apply tables_others; try done.
    - intros q Hq. destruct Hc as [[_ Hc]|(_ & _ & _ & Hc)]; [|by apply Hc].
      change (c_procs (with_c_sched st (k_core k))) with (c_procs (k_core k1)). by rewrite Hc.
    - intros i Hgi. change (c_procs (with_c_sched st (k_core k))) with (c_procs (k_core k1)) in Hgi.
      destruct Hc as [[_ Hc]|(_ & _ & Hc & _)].
      + rewrite Hc in Hgi. destruct (fresh_gone k p Hi ltac:(done)) as [Hnone _]. congruence.
      + rewrite Hgi in Hc. injection Hc as ->. split; [done|by left]. }
  split; [done|]. destruct Hc as [[? Hc]|(-> & Ht & Him & _)]; [left|right; by split_and!].
  split; [done|]. apply fresh_gone; [apply Ho|]. by rewrite Hc.
Qed.

(** Giving a process the image it was loaded with. *)
Lemma bind_others k pid j slot :
  os_inv k -> 0 < pid -> is_Some (proc_get_image (c_procs (k_core k)) pid) ->
  owners (c_elf (k_core k)) !! slot = Some pid -> image_ok user_stacks j -> img_cwd j = 0 \/ is_dir_node (vfs_of k) (img_cwd j) ->
  let k2 := with_core (fst (bind_image (k_core k) pid j)) k in
  others_kept pid k k2 /\ program_at k2 pid j slot.
Proof using.
  intros Hi Hp Him Hown Hio Hcwd k2. pose proof (ki_core _ (oi_kernel _ Hi)) as Hc.
  set (c := k_core k) in *.
  assert (state_of (c_procs c) pid <> PROC_UNUSED) as Hlive.
  { apply (@image_live proc_st _ proc_st_laws (c_procs c) pid (ck_procs _ Hc)). exact Him. }
  assert (c_elf (fst (bind_image c pid j)) = c_elf c /\ c_mem (fst (bind_image c pid j)) = c_mem c /\
    c_sched (fst (bind_image c pid j)) = with_procs (fst (proc_bind_image (c_procs c) pid j)) (c_sched c))
    as (Hce & Hcm & Hcs).
  { cbn [bind_image core_proc_ops]. by destruct (proc_bind_image (c_procs c) pid j). }
  assert (forall q, proc_get_image (c_procs (fst (bind_image c pid j))) q =
            if decide (q = pid) then Some j else proc_get_image (c_procs c) q) as Hgi.
  { intros q. unfold c_procs at 1. rewrite Hcs. cbn [sprocs with_procs].
    exact (@bind_image_of proc_st _ proc_st_laws (c_procs c) pid j q (ck_procs _ Hc) Hlive). }
  split.
  - apply tables_others; try done.
    + fold c. rewrite Hcs. pose proof (sched_do_inv (SProc (PBind pid j)) (c_sched c) (oi_sched _ Hi) I) as Hs.
      cbn [sched_do proc_do] in Hs. unfold c_procs in *. by destruct (proc_bind_image (sprocs _) pid j).
    + intros q Hq. fold c. rewrite Hgi. by rewrite decide_False.
    + intros i0. fold c. rewrite Hgi, decide_True by done. intros [= <-]. split; [|done]. intros _. split; [done|by exists slot].
  - constructor; unfold k2; cbn [k_core with_core]; [done|by rewrite Hgi, decide_True|apply Hio|].
    by rewrite Hce.
Qed.

(** What a plan must be for [elf_load_from_plan] to load it exactly. *)
Record loadable (data size : Z) (plan : exec_load_plan) : Prop := {
  la_data : data <> 0;
  la_file : file_outside data size;
  la_valid : plan_valid plan = true;
  la_size : 0 < plan_image_size plan;
  la_base : ELF_USER_IMAGE_BASE <= plan_image_base plan;
  la_end : plan_image_base plan + plan_image_size plan <= ELF_USER_IMAGE_BASE + ELF_USER_IMAGE_MAX;
  la_segs : Forall (seg_inside size ELF_USER_IMAGE_BASE (ELF_USER_IMAGE_BASE + ELF_USER_IMAGE_MAX)) (segments plan)
}.

Lemma load_kept k pid plan data size es m r :
  os_inv k -> 0 <= pid -> loadable data size plan ->
  elf_load_from_plan user_stacks (c_procs (k_core k)) (c_elf (k_core k)) (c_mem (k_core k)) pid plan data size
    = (es, m, r) ->
  run_kept pid k (with_core (with_c_elf es m (k_core k)) k) /\
  forall image, r = inr image -> image_ok user_stacks image /\ exists slot, owners es !! slot = Some pid.
Proof using.
  intros Hi Hp0 [Hd Hfo Hv Hsz Hb He Hsegs] Hload.
  pose proof (ki_core _ (oi_kernel _ Hi)) as Hc. pose proof (ki_mem _ (oi_kernel _ Hi)) as Hm.
  assert (0 <= plan_image_size plan) as Hsz0 by lia.
  destruct (elf_slot_for_pid (c_procs (k_core k)) (c_elf (k_core k)) pid) as [es1 [slot|]] eqn:Hslot;
    destruct (slot_for_kept _ _ _ _ Hc Hp0 Hslot) as [Hsok Hown].
  2:{ unfold elf_load_from_plan in Hload. rewrite Hv, (proj2 (Z.eqb_neq data 0) Hd), (proj2 (Z.ltb_ge pid 0) Hp0) in Hload.
      cbn [negb orb] in Hload. rewrite outside_window_exact in Hload
        by (unfold ELF_USER_IMAGE_BASE, ELF_USER_IMAGE_MAX in *; lia).
      rewrite (proj2 (Z.ltb_ge _ _) He), Hslot in Hload. injection Hload as <- <- <-.
      split; [|done]. by apply (mem_elf_kept pid k es1 (k_mem k)). }
  destruct (elf_slot_spec _ _ _ _ _ (ck_slots _ Hc) Hp0 Hslot) as [_ (Ho & Hlt & _)].
  destruct (elf_load_spec _ _ linker_layout (c_procs (k_core k)) (c_elf (k_core k)) (k_mem k) pid plan data size es1 slot
    Hm Hv Hp0 Hd Hfo Hb Hsz0 He Hsegs Hslot Hlt) as (m1 & image & Hl & Hio & _ & _ & _ & _ & _ & Hx).
  unfold k_mem in Hl. rewrite Hl in Hload. injection Hload as <- <- <-. split.
  - apply mem_elf_kept; [done|done|done| |].
    + intros x. rewrite Hx. destruct (window x); [|apply Hm]. by apply segs_byte_ok.
    + intros x Hr. rewrite Hx. destruct (window x) eqn:Ew; [|done]. apply window_spec in Ew.
      unfold USER_IMAGE_RESERVED_BASE, ELF_USER_IMAGE_BASE in *. lia.
  - intros i [= <-]. split; [done|]. exists slot. rewrite Ho. apply list_lookup_insert_eq.
    by rewrite (so_len _ (ck_slots _ Hc)).
Qed.

(** Running an ELF file, from the load to the end or to the rest of the
    program. *)
Lemma exec_run_elf_spec k path argc argv ctx k' ok :
  os_inv k -> idle k -> ctx_ok k ctx -> args_ok argv -> next_pid (c_procs (k_core k)) < INT_MAX ->
  plan_inside k (ec_cwd ctx) path ->
  exec_run_elf_path k path argc argv ctx = Some (k', ok) ->
  others_kept (next_pid (c_procs (k_core k))) k k' /\ idle k' /\
  program_left k' (next_pid (c_procs (k_core k))) ok.
Proof using All.
  intros Hi Hidle Hctx Hargs Hn Hin. unfold exec_run_elf_path.
  set (p := next_pid (c_procs (k_core k))) in *.
  destruct (exec_plan k (ec_cwd ctx) path) as [k1 r1] eqn:Eplan.
  destruct (exec_plan_kept _ _ _ _ _ Hi Eplan) as [Hread Hplan].
  pose proof (or_kept _ _ Hread p) as Hk1. pose proof (rk_inv _ _ _ Hk1) as Hi1.
  pose proof (or_idle _ _ Hread Hidle) as Hid1.
  assert (next_pid (c_procs (k_core k1)) = p) as Hp1 by (unfold p, c_procs; by rewrite (proj1 (or_core _ _ Hread))).
  destruct r1 as [e|[[data size] plan]].
  { intros [= <- <-]. split; [|split; [done|]].
    - apply others_run. eapply run_kept_trans; [exact Hk1|]. by apply print_kept.
    - left. apply (fresh_gone (print (ec_output ctx) e k1)); [by apply (print_kept p)|]. cbn. lia. }
  destruct (Hplan _ _ _ eq_refl) as (Hd & Hfo & Hv & Hsz & Hb & He).
  pose proof (Hin _ _ _ _ Eplan) as Hsegs.
  destruct (task_spawn_user (c_sched (k_core k1)) _ _) as [st pid] eqn:Esp.
  destruct (spawned k1 _ _ _ _ Hi1 ltac:(lia) Esp) as [Hk2 Hcase]. rewrite Hp1 in Hk2, Hcase.
  set (k2 := with_core (with_c_sched st (k_core k1)) k1) in *.
  pose proof (others_trans _ _ _ _ (others_run _ _ _ Hk1) Hk2) as Hk02.
  destruct Hcase as [[Hneg Hgone]|(-> & Hpos & Htask & Him)].
  { rewrite (proj2 (Z.ltb_lt pid 0) Hneg). intros [= <- <-]. split; [|split; [done|by left]].
    eapply others_trans; [exact Hk02|]. apply others_run, print_kept, Hk2. }
  rewrite (proj2 (Z.ltb_ge p 0)) by lia. pose proof (ok_inv _ _ _ Hk2) as Hi2.
  destruct (elf_load_from_plan _ _ _ _ _ _ _ _) as [[es m] r3] eqn:Eload.
  destruct (load_kept k2 p plan data size es m r3 Hi2 ltac:(lia) ltac:(by constructor) Eload) as [Hk3 Himage].
  set (k3 := with_core (with_c_elf es m (k_core k2)) k2) in *.
  pose proof (others_trans _ _ _ _ Hk02 (others_run _ _ _ Hk3)) as Hk03.
  destruct r3 as [e|image].
  { intros [= <- <-]. pose proof (print_kept p k3 (ec_output ctx) e (ok_inv _ _ _ Hk03)) as Hpr.
    destruct (end_others p _ (-1) (rk_inv _ _ _ Hpr) Hpos) as [Hend Hgone].
    split; [|split; [done|by left]]. eapply others_trans; [exact Hk03|].
    eapply others_trans; [by apply others_run|done]. }
  destruct (Himage _ eq_refl) as [Hio [slot Hslot]].
  assert (ctx_ok k3 ctx) as Hctx3.
  { destruct Hctx as [?|?]; [by left|right]. by apply (grows_dir (vfs_of k)); [apply (ok_tree _ _ _ Hk03)|]. }
  set (j := set_place (ec_cwd ctx) (ec_output ctx) image).
  destruct (bind_others k3 p j slot (ok_inv _ _ _ Hk03) Hpos) as [Hk4 Ha]; try done;
    [by apply set_place_ok|].
  set (k4 := with_core (fst (bind_image (k_core k3) p j)) k3) in *.
  change (with_core (fst (bind_image (with_c_elf es m (k_core k2)) p j)) k2) with k4.
  destruct (task_run_user_until_stop k4 p argc argv ctx) as [[k5 r5]|] eqn:Erun; [|done].
  cbn [mbind option_bind].
  pose proof (others_trans _ _ _ _ Hk03 Hk4) as Hk04.
  assert (ctx_ok k4 ctx) as Hctx4.
  { destruct Hctx as [?|?]; [by left|right]. by apply (grows_dir (vfs_of k)); [apply (ok_tree _ _ _ Hk04)|]. }
  destruct (task_run_spec k4 p j slot argc argv ctx k5 r5 (ok_inv _ _ _ Hk4) Ha Hargs Hctx4
    (proj1 Hid1) (proj2 Hid1) Erun) as (Hk5 & Hid5 & Hend & _).
  assert (has_task k4 p) as Htask4.
  { assert (has_task k3 p) as [i Ht3] by (by apply (task_kept p p k2); [|exact Htask]).
    exists i. revert Ht3. unfold k4, has_task. cbn [bind_image core_proc_ops].
    by destruct (proc_bind_image (c_procs (k_core k3)) p j). }
  destruct r5 as [[rc why]|]; intros [= <- <-].
  - destruct (after_stop_spec k4 k5 p slot _ ctx (lit "run") rc why Hpos Htask4 Hk5 Hid5 Hend eq_refl) as (Ho & Hid & Hl).
    split; [by eapply others_trans|]. by split.
  - destruct (end_others p k5 (-1) (rk_inv _ _ _ Hk5) Hpos) as [He5 Hgone].
    split; [|split; [done|by left]]. eapply others_trans; [exact Hk04|].
    eapply others_trans; [by apply others_run|done].
Qed.

(** ** The search for a program *)

(** The names [exec_run_path] tries, in order. *)
Definition exec_candidates (path : list Z) : list (list Z) :=
  let with_elf full short :=
    if exec_has_suffix full (lit ".elf") then [] else option_list (add_elf short) in
  let disc := lit "/mount/cdrom" ++ take 115 (cstr path) in
  path :: with_elf path (cstr (str_copy [] path 128)) ++
  (if str_startswith path (lit "/bin/") then disc :: with_elf disc disc else []).

(** The first of them that is an ELF file. *)
Fixpoint exec_search (k : kernel) (cwd : Z) (l : list (list Z)) : kernel * option (list Z) :=
  match l with
  | [] => (k, None)
  | p :: l => let '(k, is_elf) := exec_is_elf_path k cwd p in
              if (is_elf : bool) then (k, Some p) else exec_search k cwd l
  end.

Lemma search_first k cwd p l (run : kernel -> list Z -> option (kernel * Z)) :
  (let '(k, found) := exec_search k cwd (p :: l) in
   match found with Some p => run k p | None => Some (k, 0) end) =
  let '(k1, is_elf) := exec_is_elf_path k cwd p in
  if (is_elf : bool) then run k1 p
  else let '(k, found) := exec_search k1 cwd l in
       match found with Some p => run k p | None => Some (k, 0) end.
Proof using. cbn [exec_search]. by destruct (exec_is_elf_path k cwd p) as [k1 [|]]. Qed.

Lemma exec_run_path_eq k path argc argv ctx :
  exec_run_path k path argc argv ctx =
  match builtin path ctx k with
  | Some r => k ← r; Some (k, 1)
  | None =>
      let '(k, found) := exec_search k (ec_cwd ctx) (exec_candidates path) in
      match found with
      | Some p => run_elf k p argc argv ctx
      | None => Some (k, 0)
      end
  end.
Proof using.
  unfold exec_run_path. destruct (builtin path ctx k); [done|].
  set (run k p := run_elf k p argc argv ctx). unfold exec_candidates.
  assert (forall k p l next, (forall k, next k =
      let '(k, found) := exec_search k (ec_cwd ctx) l in match found with Some p => run k p | None => Some (k, 0) end) ->
    try_elf k p argc argv ctx next =
      let '(k, found) := exec_search k (ec_cwd ctx) (p :: l) in match found with Some p => run k p | None => Some (k, 0) end)
    as Htry.
  { intros k0 p l next Hn. rewrite search_first. unfold try_elf.
    destruct (exec_is_elf_path k0 (ec_cwd ctx) p) as [k1 [|]]; [done|apply Hn]. }
  change (run_elf ?k ?p argc argv ctx) with (run k p).
  set (disc := lit "/mount/cdrom" ++ take 115 (cstr path)).
  assert (forall k, (if str_startswith path (lit "/bin/") then
      try_elf k disc argc argv ctx (fun k =>
        if negb (exec_has_suffix disc (lit ".elf")) then
          match add_elf disc with
          | Some alt_path => try_elf k alt_path argc argv ctx (fun k => Some (k, 0))
          | None => Some (k, 0)
          end
        else Some (k, 0))
    else Some (k, 0)) =
    let '(k, found) := exec_search k (ec_cwd ctx)
      (if str_startswith path (lit "/bin/")
       then disc :: (if exec_has_suffix disc (lit ".elf") then [] else option_list (add_elf disc)) else []) in
    match found with Some p => run k p | None => Some (k, 0) end) as Hdisc.
  { intros k0. destruct (str_startswith path _); [|done]. apply Htry. intros k1.
    destruct (exec_has_suffix disc _); cbn [negb]; [done|]. destruct (add_elf disc); [|done]. by apply Htry. }
  apply Htry. intros k1. destruct (exec_has_suffix path _); cbn [negb app]; [apply Hdisc|].
  destruct (add_elf (cstr _)); cbn [option_list app]; [|apply Hdisc]. by apply Htry.
Qed.

Lemma is_elf_read k cwd path k' b :
  os_inv k -> exec_is_elf_path k cwd path = (k', b) -> only_read k k'.
Proof using All.
  intros Hi. unfold exec_is_elf_path. destruct (read_file k cwd path) as [k1 r] eqn:E.
  destruct (read_file_kept _ _ _ _ _ Hi E) as [Hr _]. by destruct r as [[? ?]|]; intros [= <- _].
Qed.

Lemma search_read k cwd l k' r : os_inv k -> exec_search k cwd l = (k', r) -> only_read k k'.
Proof using All.
  revert k. induction l as [|p l IH]; intros k Hi; cbn [exec_search].
  { intros [= <- _]. by apply only_read_refl. }
  destruct (exec_is_elf_path k cwd p) as [k1 [|]] eqn:E; pose proof (is_elf_read _ _ _ _ _ Hi E) as Hr;
    [by intros [= <- _]|].
  intros Hs. eapply only_read_trans; [exact Hr|]. apply IH; [apply (or_kept _ _ Hr 0)|done].
Qed.

Lemma ring3_test_result t k :
  ring3_test t k = Some (print t (line "ring3: returned to kernel")
    (return_to_kernel (with_ring true (ring3_current_pid k) (print t (line "ring3: enter test") k)))).
Proof using. reflexivity. Qed.

Lemma builtin_kept pid path ctx k r :
  os_inv k -> idle k -> builtin path ctx k = Some r ->
  exists k', r = Some k' /\ run_kept pid k k' /\ idle k'.
Proof using.
  intros Hi Hid. unfold builtin. destruct (str_eq path _); [|destruct (str_eq path _); [|done]].
  - intros [= <-]. eexists. split; [reflexivity|]. split; [by apply print_kept|done].
  - rewrite ring3_test_result. intros [= <-]. eexists. split; [reflexivity|]. split; [|done].
    pose proof (print_kept pid k (ec_output ctx) (line "ring3: enter test") Hi) as Hk1.
    pose proof (ring_kept pid _ true (ring3_current_pid k) (rk_inv _ _ _ Hk1)) as Hk2.
    pose proof (ring_kept pid _ false 0 (rk_inv _ _ _ Hk2)) as Hk3.
    eapply run_kept_trans; [exact Hk1|]. eapply run_kept_trans; [exact Hk2|].
    eapply run_kept_trans; [exact Hk3|]. apply print_kept, Hk3.
Qed.

(** The file the search finds has a plan without wrap-around. *)
Definition found_inside (k : kernel) (path : list Z) (ctx : exec_context) : Prop :=
  forall k1 p, exec_search k (ec_cwd ctx) (exec_candidates path) = (k1, Some p) -> plan_inside k1 (ec_cwd ctx) p.

Lemma exec_run_path_spec k path argc argv ctx k' n :
  os_inv k -> idle k -> ctx_ok k ctx -> args_ok argv -> next_pid (c_procs (k_core k)) < INT_MAX ->
  found_inside k path ctx -> exec_run_path k path argc argv ctx = Some (k', n) ->
  others_kept (next_pid (c_procs (k_core k))) k k' /\ idle k' /\
  program_left k' (next_pid (c_procs (k_core k))) (n =? 1).
Proof using All.
  intros Hi Hid Hctx Hargs Hn Hin. rewrite exec_run_path_eq. set (p := next_pid (c_procs (k_core k))) in *.
  destruct (builtin path ctx k) as [r|] eqn:Eb.
  { destruct (builtin_kept p _ _ _ _ Hi Hid Eb) as (k1 & -> & Hk1 & Hid1). intros [= <- <-].
    split; [by apply others_run|]. split; [done|]. left.
    unfold builtin in Eb. apply fresh_gone; [apply Hk1|].
    destruct (str_eq path _); [injection Eb as <-; cbn; lia|].
    destruct (str_eq path _); [|done]. rewrite ring3_test_result in Eb. injection Eb as <-. cbn. lia. }
  destruct (exec_search _ _ _) as [k1 [cand|]] eqn:Es; pose proof (search_read _ _ _ _ _ Hi Es) as Hr;
    pose proof (or_kept _ _ Hr p) as Hk1;
    assert (next_pid (c_procs (k_core k1)) = p) as Hp1 by (unfold p, c_procs; by rewrite (proj1 (or_core _ _ Hr))).
  2:{ intros [= <- <-]. split; [by apply others_run|]. split; [by apply (or_idle _ _ Hr)|]. left.
      apply fresh_gone; [apply Hk1|lia]. }
  unfold run_elf. destruct (exec_run_elf_path k1 cand argc argv ctx) as [[k2 ok]|] eqn:Erun; [|done].
  intros [= <- <-].
  assert (ctx_ok k1 ctx) as Hctx1.
  { destruct Hctx as [?|?]; [by left|right]. by apply (grows_dir (vfs_of k)); [apply (rk_tree _ _ _ Hk1)|]. }
  destruct (exec_run_elf_spec k1 cand argc argv ctx k2 ok (rk_inv _ _ _ Hk1) (or_idle _ _ Hr Hid) Hctx1 Hargs
    ltac:(lia) (Hin _ _ Es) Erun) as (Ho & Hid2 & Hleft). rewrite Hp1 in Ho, Hleft.
  split; [by eapply others_trans; [apply others_run|]|]. split; [done|]. by destruct ok.
Qed.

(** ** Resuming *)

Lemma resumable_program k i t image :
  os_inv k -> tasks (c_sched (k_core k)) !! i = Some t -> resumable k t = Some image ->
  (exists slot, program_at k (ti_pid t) image slot) /\ has_task k (ti_pid t) /\ context_valid image = true.
Proof using.
  intros Hi Ht. unfold resumable. destruct (_ || _) eqn:E; [done|]. apply orb_false_iff in E as [E1 E2].
  apply Z.leb_gt in E2. apply negb_false_iff, bool_decide_eq_true in E1.
  destruct (proc_get_image _ _) as [im|] eqn:Eim; [|done]. cbn [mbind option_bind].
  destruct (negb (loaded im) || negb (context_valid im)) eqn:E3; [done|]. intros [= <-].
  apply orb_false_iff in E3 as [El%negb_false_iff Ec%negb_false_iff].
  destruct (oi_slots _ Hi _ _ Eim El) as [slot Hs]. split; [by exists slot|]. split; [|done].
  exists i. change (first_slot (hit (ti_pid t)) (tasks (c_sched (k_core k))) = Some i).
  apply (find_Some _ _ _ t); [apply (oi_sched _ Hi)|done|apply live_task; congruence|done].
Qed.

(** The slot of the program that is resumed next. *)
Definition next_ready (k : kernel) : option nat :=
  first_slot (fun t => bool_decide (is_Some (resumable k t))) (tasks (c_sched (k_core k))).

Lemma task_pid_kept k k' pid i t :
  run_kept pid k k' -> tasks (c_sched (k_core k)) !! i = Some t ->
  from_option ti_pid 0 (tasks (c_sched (k_core k')) !! i) = ti_pid t.
Proof using.
  intros Hk Ht. destruct (Forall2_lookup_l _ _ _ _ _ (tk_tasks _ _ (kt_tables _ _ (rk_core _ _ _ Hk))) Ht)
    as (t' & Ht' & Hp & _). by rewrite Ht'.
Qed.

Lemma resume_one k i t image mbi magic k' b :
  os_inv k -> idle k -> tasks (c_sched (k_core k)) !! i = Some t -> resumable k t = Some image ->
  ('(k, r) ← task_run_user_until_stop k (ti_pid t) 0 []
       {| ec_output := output image; ec_cwd := img_cwd image; ec_mbi := mbi; ec_magic := magic |};
   match r with
   | None => Some (k, false)
   | Some (exit_code, EXEC_STOP_EXITED) =>
       Some (end_program (from_option ti_pid 0 (tasks (c_sched (k_core k)) !! i)) exit_code k, true)
   | Some _ => Some (k, true)
   end) = Some (k', b) ->
  b = true /\ others_kept (ti_pid t) k k' /\ idle k' /\ program_left k' (ti_pid t) true.
Proof using All.
  intros Hi Hid Ht Hres. destruct (resumable_program _ _ _ _ Hi Ht Hres) as ([slot Ha] & Htask & Hcv).
  set (ctx := {| ec_output := output image; ec_cwd := img_cwd image; ec_mbi := mbi; ec_magic := magic |}).
  destruct (task_run_user_until_stop _ _ _ _ _) as [[k1 r]|] eqn:Erun; [|done]. cbn [mbind option_bind].
  destruct (task_run_spec k (ti_pid t) image slot 0 [] ctx k1 r Hi Ha) as (_ & _ & Hend & Hsome); try done; try apply Hid.
  { intros j. unfold arg_string. rewrite lookup_nil. split; [constructor|]. cbn. lia. }
  { apply (oi_cwds _ Hi _ _ (pa_image _ _ _ _ Ha)). }
  destruct (Hsome (or_introl Hcv)) as [[rc why] ->].
  pose proof (pa_pid _ _ _ _ Ha) as Hp. destruct (Hend Htask) as (Hk & Hr & Hc & Hend').
  destruct why; [done| | |]; intros [= <- <-].
  - split; [done|]. split; [by apply others_run|]. split; [done|]. right. split; [done|].
    exists slot. destruct Hend' as (_ & ? & ?). auto.
  - rewrite (task_pid_kept _ _ _ _ _ Hk Ht).
    destruct (end_others (ti_pid t) k1 rc (rk_inv _ _ _ Hk) Hp) as [He Hg].
    split; [done|]. split; [by eapply others_trans; [apply others_run|]|]. split; [done|by left].
  - split; [done|]. split; [by apply others_run|]. split; [done|]. right. split; [done|].
    exists slot. destruct Hend' as (_ & ? & ?). auto.
Qed.

Lemma resume_from_first k mbi magic n i :
  (i + n = length (tasks (c_sched (k_core k))))%nat ->
  match first_slot (fun t => bool_decide (is_Some (resumable k t))) (drop i (tasks (c_sched (k_core k)))) with
  | None => resume_from k mbi magic i n = Some (k, false)
  | Some j => exists t image m, tasks (c_sched (k_core k)) !! (i + j)%nat = Some t /\
      resumable k t = Some image /\ resume_from k mbi magic i n = resume_from k mbi magic (i + j) (S m)
  end.
Proof using.
  revert i. induction n as [|n IH]; intros i Hn.
  { rewrite drop_ge by lia. done. }
  destruct (lookup_lt_is_Some_2 (tasks (c_sched (k_core k))) i) as [t Ht]; [lia|].
  rewrite (drop_S _ _ _ Ht). cbn [first_slot]. case_bool_decide as Hr.
  - destruct Hr as [image Hr]. exists t, image, n. by rewrite Nat.add_0_r.
  - specialize (IH (S i) ltac:(lia)).
    assert (resume_from k mbi magic i (S n) = resume_from k mbi magic (S i) n) as ->.
    { cbn [resume_from]. rewrite Ht. destruct (resumable k t); [by destruct Hr|done]. }
    destruct (first_slot _ _) as [j|]; cbn [fmap option_map option_fmap]; [|done].
    destruct IH as (t' & image & m & ? & ? & ?). exists t', image, m. by rewrite Nat.add_succ_r.
Qed.

Lemma resume_next_kept k mbi magic k' b :
  os_inv k -> idle k -> task_resume_next_ready_user k mbi magic = Some (k', b) ->
  exists pid, others_kept pid k k' /\ idle k'.
Proof using All.
  intros Hi Hid. unfold task_resume_next_ready_user.
  pose proof (resume_from_first k mbi magic MAX_TASKS 0) as Hf. rewrite drop_0 in Hf.
  rewrite (sv_len _ (proj1 (oi_sched _ Hi))) in Hf. specialize (Hf eq_refl).
  destruct (first_slot _ _) as [i|].
  - destruct Hf as (t & image & m & Ht & Hr & ->). cbn [resume_from Nat.add]. cbn [Nat.add] in Ht. rewrite Ht, Hr.
    intros Hrun. exists (ti_pid t). by destruct (resume_one k i t image mbi magic k' b Hi Hid Ht Hr Hrun) as (_ & ? & ? & _).
  - rewrite Hf. intros [= <- _]. exists 0. split; [|done]. by apply others_run, run_kept_refl.
Qed.

(** The command that resumes one program, which may have lost its task. *)
Lemma exec_resume_pid_spec k pid ctx k' b :
  os_inv k -> idle k -> ctx_ok k ctx -> exec_resume_pid k pid ctx = Some (k', b) ->
  others_kept pid k k' /\ idle k' /\ (b = false -> k_core k' = k_core k).
Proof using All.
  intros Hi Hid Hctx. unfold exec_resume_pid.
  set (refuse := print (ec_output ctx) (line "resume: pid not resumable") k).
  assert (others_kept pid k refuse) as Href by (by apply others_run, print_kept).
  destruct (pid <=? 0) eqn:Ep; zify_bool.
  { intros [= <- <-]. split; [by apply others_run, run_kept_refl|done]. }
  destruct (proc_get_image _ _) as [image|] eqn:Eim; [|by intros [= <- <-]].
  destruct (negb (loaded image) || negb (context_valid image)) eqn:El; [by intros [= <- <-]|].
  apply orb_false_iff in El as [El%negb_false_iff Ec%negb_false_iff].
  destruct (oi_slots _ Hi _ _ Eim El) as [slot Hs].
  destruct (task_run_user_until_stop k pid 0 [] ctx) as [[k1 r]|] eqn:Erun; [|done]. cbn [mbind option_bind].
  destruct (task_run_spec k pid image slot 0 [] ctx k1 r Hi) as (Hk & Hid1 & _ & Hsome); try done; try apply Hid.
  { intros j. unfold arg_string. rewrite lookup_nil. split; [constructor|]. cbn. lia. }
  destruct (Hsome (or_introl Ec)) as [[rc why] ->]. intros [= <- <-].
  pose proof (others_run _ _ _ Hk) as Ho.
  assert (forall s, others_kept pid k (print_stopped ctx s pid k1)) as Hprint.
  { intros s. eapply others_trans; [exact Ho|]. by apply others_run, print_kept, Hk. }
  destruct (end_others pid k1 rc (rk_inv _ _ _ Hk) Ep) as [He _].
  split; [|split; [by destruct why|done]].
  destruct why; cbn [after_stop]; try apply Hprint; by eapply others_trans.
Qed.

(** Which registers and memory a resumed program gets. *)
Lemma resume_run k pid image slot argc argv ctx :
  os_inv k -> program_at k pid image slot -> ctx_ok k ctx -> context_valid image = true ->
  exists k2, ring3_active k2 = true /\ k_pid k2 = pid /\
    (forall x, image_base image <= x < image_base image + image_size image ->
       k_mem k2 x = k_mem k (shadow_addr user_images slot + (x - image_base image))) /\
    task_run_user_until_stop k pid argc argv ctx =
      '(k3, rc, reason) ← user_run (program (Resume (context image)) k2) k2;
      Some (task_stopped (with_ring (ring3_active k3) 0 k3) pid rc reason).
Proof using.
  intros Hi Ha Hctx Hcv. destruct (made_current k pid image slot ctx Hi Ha Hctx) as [Hk1 Ha1].
  pose proof (pa_pid _ _ _ _ Ha) as Hp. unfold task_run_user_until_stop.
  rewrite (pa_image _ _ _ _ Ha), (pa_loaded _ _ _ _ Ha), (proj2 (Z.leb_gt pid 0) Hp), Hcv. cbn [negb orb].
  unfold make_current in Hk1, Ha1. set (k1 := set_states _ _ _ _) in *.
  pose proof (rk_inv _ _ _ Hk1) as Hi1. pose proof (program_image_ok _ _ _ _ Hi1 Ha1) as Hio.
  destruct (program_slot _ _ _ _ Hi1 Ha1) as (Hlt & es & Hes & _). assert (0 <= pid) as Hp0 by lia.
  destruct (elf_resume_spec _ _ linker_layout (c_procs (k_core k1)) (c_elf (k_core k1)) (k_mem k1) pid image es slot
    (ki_mem _ (oi_kernel _ Hi1)) Hp0 Hio Hcv Hes Hlt) as (m & Hr & Hx).
  exists (with_ring true (u32 pid) (with_core (with_c_elf es m (k_core k1)) k1)).
  split; [done|]. split.
  { pose proof (pid_range _ _ _ Hi (pa_image _ _ _ _ Ha)) as Hr0.
    unfold k_pid. cbn. unfold INT_MAX in Hr0. rewrite u32_small by lia. apply s32_small. unfold INT_MAX. lia. }
  split.
  { intros x Hxr. change (m x = k_mem k (shadow_addr user_images slot + (x - image_base image))).
    rewrite Hx. by rewrite (proj2 (in_range_spec _ _ _)). }
  unfold elf_resume_image, k_mem in *. rewrite Hr. unfold run_ring3.
  by destruct (user_run _ _) as [[[k3 rc] re]|].
Qed.

End kept.

(** *** The kernel itself always comes back *)

Section returns.
Context `{Linker} `{MountFs} `{Programs}.

(** Every run of a program ends. *)
Definition programs_return : Prop := forall start k, is_Some (user_run (program start k) k).

Context (Hret : programs_return).

Lemma run_ring3_returns start pid k : is_Some (run_ring3 start pid k).
Proof using All.
  unfold run_ring3. destruct (Hret start (with_ring true (u32 pid) k)) as [[[k' rc] reason] ->]. by eexists.
Qed.

Lemma task_run_returns k pid argc argv ctx : is_Some (task_run_user_until_stop k pid argc argv ctx).
Proof using All.
  unfold task_run_user_until_stop. destruct (proc_get_image _ _) as [image|]; [|by eexists].
  destruct (_ || _); [by eexists|]. cbv zeta. set (k1 := set_states _ _ _ _).
  assert (is_Some (if context_valid image then elf_resume_image k1 image pid (output image)
                   else elf_execute_image k1 image pid argc argv (output image))) as [[k2 r] ->].
  { destruct (context_valid image); unfold elf_resume_image, elf_execute_image.
    - destruct (elf_resume_prepare _ _ _ _ _ _) as [[es m] [e|c]]; [by eexists|].
      destruct (run_ring3_returns (Resume c) pid (with_core (with_c_elf es m (k_core k1)) k1)) as [[[? ?] ?] ->].
      by eexists.
    - destruct (elf_execute_prepare _ _ _ _ _) as [m [e|[en sp]]]; [by eexists|].
      destruct (run_ring3_returns (Enter en sp) pid (with_mem m k1)) as [[[? ?] ?] ->]. by eexists. }
  cbn [mbind option_bind]. destruct r as [[rc reason]|]; by eexists.
Qed.

Lemma resume_from_returns k mbi magic i n : is_Some (resume_from k mbi magic i n).
Proof using All.
  revert i. induction n as [|n IH]; intros i; cbn [resume_from]; [by eexists|].
  destruct (tasks _ !! i) as [t|]; [|by eexists]. destruct (resumable k t) as [image|]; [|apply IH].
  destruct (task_run_returns k (ti_pid t) 0 [] {| ec_output := output image; ec_cwd := img_cwd image;
    ec_mbi := mbi; ec_magic := magic |}) as [[k1 r] ->].
  cbn [mbind option_bind]. destruct r as [[? []]|]; by eexists.
Qed.

Lemma run_elf_returns k path argc argv ctx : is_Some (run_elf k path argc argv ctx).
Proof using All.
  unfold run_elf, exec_run_elf_path. destruct (exec_plan _ _ _) as [k1 [e|[[data size] plan]]]; [by eexists|].
  destruct (task_spawn_user _ _ _) as [st pid]. destruct (pid <? 0); [by eexists|].
  destruct (elf_load_from_plan _ _ _ _ _ _ _ _) as [[es m] [e|image]]; [by eexists|]. cbv zeta.
  match goal with |- context [task_run_user_until_stop ?k2 ?p ?a ?b ?c] =>
    destruct (task_run_returns k2 p a b c) as [[k3 r] ->] end.
  cbn [mbind option_bind]. destruct r as [[? ?]|]; by eexists.
Qed.

Lemma exec_run_path_returns k path argc argv ctx : is_Some (exec_run_path k path argc argv ctx).
Proof using All.
  rewrite exec_run_path_eq. destruct (builtin path ctx k) as [r|] eqn:Eb.
  - unfold builtin in Eb. destruct (str_eq path _); [injection Eb as <-; by eexists|].
    destruct (str_eq path _); [|done]. injection Eb as <-. rewrite ring3_test_result. by eexists.
  - destruct (exec_search _ _ _) as [k1 [p|]]; [apply run_elf_returns|by eexists].
Qed.

Lemma exec_resume_pid_returns k pid ctx : is_Some (exec_resume_pid k pid ctx).
Proof using All.
  unfold exec_resume_pid. destruct (pid <=? 0); [by eexists|].
  destruct (proc_get_image _ _) as [image|]; [|by eexists]. destruct (_ || _); [by eexists|].
  destruct (task_run_returns k pid 0 [] ctx) as [[k1 r] ->]. cbn [mbind option_bind].
  destruct r as [[? ?]|]; by eexists.
Qed.

End returns.

(** ** Theorems *)

Section theorems.
Context `{Linker} `{MountFs} `{!MountFsLaws} `{Programs} `{!ProgramsLaws}.


(** [exec_run_path] runs the first ELF file among the names it derives from the
    path, in this order: the path; the path with ".elf"; for a path under /bin,
    the path on the disc and that with ".elf"; each name cut to the buffer it
    is made in.  A path with a built-in program never reaches the file system. *)
Theorem exec_run_path_search k path argc argv ctx :
  exec_run_path k path argc argv ctx =
  match builtin path ctx k with
  | Some r => k ← r; Some (k, 1)
  | None =>
      let '(k, found) := exec_search k (ec_cwd ctx) (exec_candidates path) in
      match found with
      | Some p => run_elf k p argc argv ctx
      | None => Some (k, 0)
      end
  end.
Proof using. apply exec_run_path_eq. Qed.


(** [task_resume_next_ready_user] runs the waiting program in the lowest slot,
    every time, and fails only when there is none: a program that yields again
    goes before every program in a higher slot. *)
Theorem resume_next_lowest k mbi magic :
  os_inv k -> idle k ->
  match next_ready k with
  | None => task_resume_next_ready_user k mbi magic = Some (k, false)
  | Some i => exists t, tasks (c_sched (k_core k)) !! i = Some t /\ is_Some (resumable k t) /\
      (forall j u, (j < i)%nat -> tasks (c_sched (k_core k)) !! j = Some u -> resumable k u = None) /\
      forall k' b, task_resume_next_ready_user k mbi magic = Some (k', b) ->
        b = true /\ others_kept (ti_pid t) k k' /\ idle k' /\ program_left k' (ti_pid t) true
  end.
Proof using All.
  intros Hi Hid. unfold next_ready, task_resume_next_ready_user.
  pose proof (resume_from_first k mbi magic MAX_TASKS 0) as Hf. rewrite drop_0 in Hf.
  rewrite (sv_len _ (proj1 (oi_sched _ Hi))) in Hf. specialize (Hf eq_refl).
  destruct (first_slot _ _) as [i|] eqn:Ei; [|done]. destruct Hf as (t & image & m & Ht & Hr & Heq).
  exists t. split; [done|]. split; [by eexists|]. split.
  - intros j u Hj Hu. apply first_slot_Some in Ei as [_ Hmin]. specialize (Hmin j u Hj Hu).
    apply bool_decide_eq_false in Hmin. destruct (resumable k u); [by destruct Hmin|done].
  - intros k' b. rewrite Heq. cbn [resume_from Nat.add]. cbn [Nat.add] in Ht. rewrite Ht, Hr. by apply resume_one with (image := image).
Qed.


(** The kernel waits for nothing but a program.  If every run of a program comes
    back to the kernel, so do the three operations that run programs, in every
    state of the kernel. *)
Theorem running_terminates :
  programs_return ->
  (forall k path argc argv ctx, is_Some (exec_run_path k path argc argv ctx)) /\
  (forall k mbi magic, is_Some (task_resume_next_ready_user k mbi magic)) /\
  (forall k pid ctx, is_Some (exec_resume_pid k pid ctx)).
Proof using.
  intros Hret. split_and!; intros.
  - by apply exec_run_path_returns.
  - by apply resume_from_returns.
  - by apply exec_resume_pid_returns.
Qed.

End theorems.
