(* ===== verification/Boot.v ===== *)
(** * Boot: [kmain] of [src/kernel/kmain.c]

    The state in which [shell_loop] is called.  It satisfies every invariant of
    the kernel, whatever the arrays that the components initialise held
    before. *)
From S2P Require Import Prelude KernelH Util Memory Heap Proc Sched Iface Service Elf Core Ipc Storage IsoFs Vfs VfsTree Mount Syscall FdTable Kernel Files Keep User Exec.
Local Open Scope Z_scope.
Local Open Scope slop_scope.

Definition with_heap_state (h : heap_state) (k : kernel) : kernel := {|
  k_core := k_core k; k_ipc := k_ipc k; k_services := k_services k; k_nodes := k_nodes k;
  k_root := k_root k; k_heap := h; fd_table := fd_table k; user_cwd := user_cwd k;
  user_boot_mbi := user_boot_mbi k; user_boot_magic := user_boot_magic k;
  ring3_active := ring3_active k; ring3_current_pid := ring3_current_pid k;
  k_keys := k_keys k; k_out := k_out k |}.

(** [term_print] *)
Definition term_print (text : list Z) (k : kernel) : kernel := print CONSOLE_BOTH text k.

Definition on_sched (f : sched -> sched) (k : kernel) : kernel :=
  with_core (with_c_sched (f (c_sched (k_core k))) (k_core k)) k.

Definition proc_init_k (k : kernel) : kernel :=
  on_sched (fun st => with_procs (proc_init (sprocs st)) st) k.

(** [tasking_init] and the two spawns. *)
Definition tasking (k : kernel) : kernel :=
  on_sched (fun st =>
    let st := tasking_init st in
    let st := fst (task_spawn_kernel st (Some (lit "shell-vga")) 0) in
    fst (task_spawn_kernel st (Some (lit "shell-serial")) 0)) k.

Section boot.
Context `{Linker}.

(** [kmain(magic, mbi)] up to [shell_loop], from the variables [k] of the kernel
    image; [devs] are the devices [storage_init] finds, [mt] is the table of
    mounts before [fs_init]. *)
Definition kmain (magic : Z) (mbi : option multiboot_info) (devs : device_table)
    (mt : mount_table) (k : kernel) : kernel :=
  let k := term_print (line "kmain: console ok") k in
  let k := term_print (line "kmain: protection ok") k in
  let k := with_heap_state (heap_init kernel_end mbi magic) k in
  let k := term_print (line "kmain: heap ok") k in
  let k := proc_init_k k in
  let k := term_print (line "kmain: proc ok") k in
  let k := with_ipc (ipc_init (k_ipc k)) k in
  let k := term_print (line "kmain: ipc ok") k in
  let k := with_services (service_init (k_services k)) k in
  let k := term_print (line "kmain: services ok") k in
  let k := tasking k in
  let k := term_print (line "kmain: tasking ok") k in
  let k := term_print (line "kmain: irq timer on") k in
  let k := term_print (line "kmain: storage ok") k in
  let k := term_print (lit "kmain: cd0 ") k in
  let k := term_print (match storage_find_device devs (lit "cd0") with
                       | Some _ => line "detected" | None => line "missing" end) k in
  let k := term_print (line "kmain: fs ok") k in
  let k := term_print (lit "kmain: mounts=") k in
  let k := term_print (console_print_u32_dec (fs_mount_count (fs_init devs mt))) k in
  let k := term_print [10] k in
  let k := with_vfs (vfs_init (vfs_of k)) k in
  let k := term_print (line "kmain: vfs ok") k in
  let k := term_print (lit "kmain: imported /bin programs=") k in
  let k := term_print (console_print_u32_dec (if exec_seed_programs <? 0 then 0 else u32 exec_seed_programs)) k in
  let k := term_print [10] k in
  let k := term_print (line "kmain: exec stubs ok") k in
  term_print (line "kmain: entering shell") k.

(** The variables the boot loader leaves: those with an initial value or none
    in C have it, the arrays have their sizes. *)
Record kernel_image (k : kernel) : Prop := {
  ki0_procs : proc_boot (c_procs (k_core k));
  ki0_tasks : length (tasks (c_sched (k_core k))) = MAX_TASKS;
  ki0_names : Forall (fun t => length (ti_name t) = 16%nat) (tasks (c_sched (k_core k)));
  ki0_elf : c_elf (k_core k) = slots_boot;
  ki0_ipc : length (mailboxes (k_ipc k)) = IPC_MAILBOX_MAX /\ length (waiters (k_ipc k)) = IPC_MAILBOX_MAX;
  ki0_services : length (k_services k) = MAX_SERVICES /\
                 Forall (fun e => length (svc_name e) = 16%nat) (k_services k);
  ki0_tree : k_nodes k = ∅ /\ k_root k = 0;
  ki0_fds : fd_table k = replicate 16 fd_boot;
  ki0_cwd : user_cwd k = 0;
  ki0_ring : ring3_active k = false /\ ring3_current_pid k = 0;
  ki0_mem : mem_ok (k_mem k)
}.

(** *** The tables *)

(** No process has an image yet. *)
Definition no_images (ps : proc_st) : Prop := Forall (eq image_reset) (images ps).

Lemma no_images_get ps pid i : no_images ps -> proc_get_image ps pid = Some i -> i = image_reset.
Proof.
  intros Hn Hi. unfold proc_get_image in Hi. apply bind_Some in Hi as (slot & _ & Hi).
  by rewrite (Forall_lookup_1 _ _ _ _ Hn Hi).
Qed.

Lemma init_no_images ps : no_images (proc_init ps).
Proof.
  assert (Forall (eq image_reset) (map (fun _ => image_reset) (images ps))) as Hf.
  { apply Forall_map, Forall_forall. done. }
  unfold no_images, proc_init. by destruct (alloc_slot _).
Qed.

Lemma spawn_boot dflt st name ppid :
  sched_inv st -> no_images (sprocs st) -> next_pid (sprocs st) < INT_MAX ->
  let st' := fst (task_spawn dflt st name ppid) in
  sched_inv st' /\ no_images (sprocs st') /\ next_pid (sprocs st') <= next_pid (sprocs st) + 1.
Proof.
  intros Hi Hn Hlt st'. split; [by apply task_spawn_inv|]. unfold st', task_spawn.
  destruct (task_alloc_slot st) as [slot|]; [|cbn; split; [done|lia]].
  unfold proc_spawn_kernel. destruct (alloc_slot (sprocs st)) as [ps|].
  - pose proof (pv_next _ (sv_procs _ (proj1 Hi))) as Hp.
    rewrite (proj2 (Z.ltb_ge _ 0)) by lia. cbn. split; [by apply Forall_insert|].
    rewrite s32_small by lia. lia.
  - change (-1 <? 0) with true. cbn. split; [done|lia].
Qed.

Lemma init_next_pid ps : next_pid (proc_init ps) = 1.
Proof. unfold proc_init. by destruct (alloc_slot _). Qed.

Lemma tasking_sprocs st : sprocs (tasking_init st) = sprocs st.
Proof. unfold tasking_init. by destruct (tasks st). Qed.

(** The task tables that [kmain] leaves. *)
Lemma tasking_ok st ps :
  proc_boot ps -> length (tasks st) = MAX_TASKS -> Forall (fun t => length (ti_name t) = 16%nat) (tasks st) ->
  let st' := fst (task_spawn_kernel (fst (task_spawn_kernel (tasking_init (with_procs (proc_init ps) st))
               (Some (lit "shell-vga")) 0)) (Some (lit "shell-serial")) 0) in
  sched_inv st' /\ no_images (sprocs st') /\ next_pid (sprocs st') <= 3.
Proof.
  intros Hb Hl Hn. cbv zeta. unfold task_spawn_kernel.
  set (st0 := tasking_init _).
  assert (sched_inv st0) as Hi.
  { apply tasking_init_inv. split; [done|]. split; [done|]. by exists ps. }
  assert (sprocs st0 = proc_init ps) as Hp by apply tasking_sprocs.
  pose proof (init_next_pid ps) as Hnp. rewrite <- Hp in Hnp.
  destruct (spawn_boot (lit "kproc") st0 (Some (lit "shell-vga")) 0 Hi) as (Hi1 & Hn1 & Hp1).
  { rewrite Hp. apply init_no_images. }
  { unfold INT_MAX. lia. }
  destruct (spawn_boot (lit "kproc") _ (Some (lit "shell-serial")) 0 Hi1 Hn1) as (Hi2 & Hn2 & Hp2).
  { unfold INT_MAX. lia. }
  split_and!; [done|done|lia].
Qed.

(** *** The kernel *)

(** A part of the state after a chain of changes of others. *)
Local Ltac project :=
  cbn [k_nodes k_root k_heap k_mem k_core k_ipc k_services fd_table user_cwd ring3_active ring3_current_pid
       k_keys k_out c_elf c_sched c_mem term_print print with_io with_vfs with_services with_ipc with_core
       with_c_mem with_c_sched with_heap_state tasking proc_init_k on_sched].

(** What [kmain] makes of each part. *)
Record booted (magic : Z) (mbi : option multiboot_info) (k k' : kernel) : Prop := {
  bt_tree : vfs_of k' = vfs_init (vfs_blank (heap_init kernel_end mbi magic) (k_mem k));
  bt_elf : c_elf (k_core k') = c_elf (k_core k);
  bt_sched : c_sched (k_core k') = fst (task_spawn_kernel (fst (task_spawn_kernel (tasking_init
    (with_procs (proc_init (c_procs (k_core k))) (c_sched (k_core k)))) (Some (lit "shell-vga")) 0))
    (Some (lit "shell-serial")) 0);
  bt_ipc : k_ipc k' = ipc_init (k_ipc k);
  bt_services : k_services k' = service_init (k_services k);
  bt_fds : fd_table k' = fd_table k;
  bt_cwd : user_cwd k' = user_cwd k;
  bt_ring : ring3_active k' = ring3_active k /\ ring3_current_pid k' = ring3_current_pid k
}.

Lemma kmain_booted magic mbi devs mt k :
  k_nodes k = ∅ -> k_root k = 0 -> booted magic mbi k (kmain magic mbi devs mt k).
Proof.
  intros Hn Hr.
  unfold kmain. cbv zeta.
  match goal with |- context [vfs_init (vfs_of ?k1)] =>
    assert (vfs_of k1 = vfs_blank (heap_init kernel_end mbi magic) (k_mem k)) as ->
      by (unfold vfs_of, vfs_blank; project; by rewrite Hn, Hr)
  end.
  constructor; unfold vfs_of; project; try done. by destruct (vfs_init _).
Qed.

Lemma booted_ok magic mbi k k' :
  kernel_image k -> kmalloc_fits (heap_init kernel_end mbi magic) sizeof_node = true ->
  booted magic mbi k k' ->
  os_inv k' /\ idle k' /\ is_dir_node (vfs_of k') (k_root k') /\
  (forall pid i, proc_get_image (c_procs (k_core k')) pid = Some i -> loaded i = false) /\
  next_pid (c_procs (k_core k')) <= 3 /\
  forall x, x < kernel_end -> k_mem k' x = k_mem k x.
Proof.
  intros [Hps Htl Htn He [Hq1 Hq2] [Hs1 Hs2] [Hn Hr] Hf Hcw [Hra Hrp] Hm] Hfit
    [Hv He' Hs' Hq' Hsv' Hf' Hcw' [Hra' Hrp']].
  destruct linker_kernel as [Hks Hke].
  assert (heap_inv (heap_init kernel_end mbi magic)) as Hh by (apply heap_init_inv; lia).
  destruct (vfs_init_ok _ (k_mem k) Hh Hfit) as (Hvi & Hvr & Hst). rewrite <- Hv in Hvi, Hvr, Hst.
  destruct (tasking_ok (c_sched (k_core k)) (c_procs (k_core k)) Hps Htl Htn) as (Hti & Htm & Htp).
  rewrite <- Hs' in Hti, Htm, Htp. set (v := vfs_of k') in *.
  pose proof (ms_ext _ _ _ _ Hst) as Hx.
  assert (h_start (heap_init kernel_end mbi magic) = align_up kernel_end 16) as Hhs.
  { unfold heap_init. cbv zeta. repeat case_match; done. }
  pose proof (align_up_spec kernel_end (Z.lt_le_incl _ _ (Z.lt_le_trans _ _ _ (proj1 Hks) (proj2 Hks))) Hke) as (Hal & _).
  assert (forall pid i, proc_get_image (c_procs (k_core k')) pid = Some i -> i = image_reset) as Hnone.
  { intros pid i. apply no_images_get, Htm. }
  split_and!; try done.
  - constructor; [constructor|done| |].
    + constructor; [by apply Hti|rewrite He', He; exact slots_boot_ok|].
      intros pid i Hpi Hl. by rewrite (Hnone pid i Hpi) in Hl.
    + rewrite Hq'. by apply ipc_init_inv.
    + rewrite Hsv'. by apply service_init_inv.
    + done.
    + rewrite Hf', Hf. apply fds_boot_inv.
    + left. congruence.
    + change (k_heap k') with (vheap v). rewrite (he_start _ _ Hx), Hhs. lia.
    + change (k_heap k') with (vheap v). rewrite (he_limit _ _ Hx). apply Hh. unfold kmalloc_fits in Hfit.
      destruct (h_ready (heap_init kernel_end mbi magic)); [done|discriminate].
    + by apply Hst.
    + intros pid i ->%Hnone. by left.
    + intros pid i ->%Hnone. done.
  - split; congruence.
  - by apply (root_dir v).
  - intros pid i ->%Hnone. done.
  - intros x Hlt. apply Hst. rewrite heap_init_current. lia.
Qed.

(** The boot.  On any machine whose memory has room for the root of the file
    tree [kmain] reaches the shell in a state with every invariant of the
    kernel: no program exists or is running and the file tree has its root.
    Nothing in the kernel's own part of memory has changed. *)
Theorem kmain_inv magic mbi devs mt k :
  kernel_image k -> kmalloc_fits (heap_init kernel_end mbi magic) sizeof_node = true ->
  let k' := kmain magic mbi devs mt k in
  os_inv k' /\ idle k' /\ is_dir_node (vfs_of k') (k_root k') /\
  (forall pid i, proc_get_image (c_procs (k_core k')) pid = Some i -> loaded i = false) /\
  next_pid (c_procs (k_core k')) <= 3 /\
  forall x, x < kernel_end -> k_mem k' x = k_mem k x.
Proof.
  intros Hk Hfit. apply (booted_ok magic mbi k); [done|done|]. apply kmain_booted; apply Hk.
Qed.

End boot.
