(* ===== verification/Platform.v ===== *)
(** * Platform: the processor and the last screens

    [src/kernel/arch/i386/platform.c] ([cpuid], the restart, the listing of
    [systeminfo]) and [src/kernel/panic.c].  The instructions in line are the
    operations of [Cpu].  [halt_forever] does not return: the result of a
    function that ends in it is the state in which the processor stops. *)
From S2P Require Import Prelude KernelH Util Memory Heap Proc Sched Iface Service Elf Core Ipc Storage IsoFs Vfs VfsTree Syscall FdTable Kernel Interrupts Varargs Ports Console ConsoleText ConsolePrint.
Local Open Scope Z_scope.
Local Open Scope slop_scope.

(** ** The processor *)

(** The flags register, and [ebx], [ecx] and [edx] after [cpuid] with 0 in
    [eax]. *)
Class Cpu (C : Type) := {
  pushf : C -> Z;
  popf : C -> Z -> C;
  cpuid : C -> Z * Z * Z
}.

Section cpu.
Context {C : Type} `{!Cpu C}.

Definition cpu_has_cpuid (c : C) : C * bool :=
  let before := pushf c in
  let toggled := Z.lxor before (Z.shiftl 1 21) in
  let c := popf c toggled in
  let after := pushf c in
  let c := popf c before in
  (c, negb (Z.land (Z.lxor before after) (Z.shiftl 1 21) =? 0)).

(** The 13 characters of [out]. *)
Definition cpu_vendor (c : C) : list Z :=
  let '(ebx, ecx, edx) := cpuid c in
  [Z.land ebx 0xFF; Z.land (Z.shiftr ebx 8) 0xFF; Z.land (Z.shiftr ebx 16) 0xFF; Z.land (Z.shiftr ebx 24) 0xFF;
   Z.land edx 0xFF; Z.land (Z.shiftr edx 8) 0xFF; Z.land (Z.shiftr edx 16) 0xFF; Z.land (Z.shiftr edx 24) 0xFF;
   Z.land ecx 0xFF; Z.land (Z.shiftr ecx 8) 0xFF; Z.land (Z.shiftr ecx 16) 0xFF; Z.land (Z.shiftr ecx 24) 0xFF;
   0].

End cpu.

(** A processor of which the flags in [mask] can be written, and the others do
    not move. *)
Class CpuLaws (C : Type) `{!Cpu C} (mask : Z) : Prop :=
  flags_written c v : pushf (popf c v) = Z.lor (Z.land v mask) (Z.ldiff (pushf c) mask).

(** ** The restart *)

(** [try_reboot]: [None] while the keyboard controller was busy [fuel] times;
    else the machine as it is when the pulse has been sent. *)
Fixpoint try_reboot {D : Type} `{!Ports D} (fuel : nat) (d : D) : option D :=
  match fuel with
  | O => None
  | S fuel =>
      let '(d, status) := inb d 0x64 in
      if negb (Z.land status 0x02 =? 0) then try_reboot fuel d else Some (outb d 0x64 0xFE)
  end.

(** ** The listing of [systeminfo] *)

Section systeminfo.
Context `{Linker} {C D : Type} `{!Cpu C} `{!Ports D}.

Definition print_ram (mbi : option multiboot_info) (magic : Z) (s : console D) : console D :=
  match mbi with
  | Some mbi =>
      if (magic =? MULTIBOOT_MAGIC) && negb (Z.land (flags mbi) 1 =? 0) then
        let s := term_print s (lit "  Conventional RAM: ") in
        let s := term_print_u32_dec s (mem_lower mbi) in
        let s := term_print s (line " KiB") in
        let s := term_print s (lit "  Extended RAM:     ") in
        let s := term_print_u32_dec s (mem_upper mbi) in
        let s := term_print s (line " KiB") in
        let s := term_print s (lit "  Usable total:     ") in
        let s := term_print_u32_dec s (mem_lower mbi +u mem_upper mbi) in
        term_print s (line " KiB")
      else term_print s (line "  RAM info: unavailable from multiboot")
  | None => term_print s (line "  RAM info: unavailable from multiboot")
  end.

Definition print_cpu (c : C) (s : console D) : C * console D :=
  let s := term_print s (lit "  CPU:              ") in
  let '(c, has_cpuid) := cpu_has_cpuid c in
  let s :=
    if has_cpuid : bool
    then let vendor := cpu_vendor c in term_print (term_print s (lit "CPUID vendor: ")) vendor
    else term_print s (lit "80486-class (no CPUID)") in
  (c, term_print s [10]).

Definition print_backend (s : console D) : console D :=
  let s := term_print s (lit "  Console backend:  ") in
  if console_has_framebuffer s then
    let s := term_print s (lit "framebuffer ") in
    let s := term_print_u32_dec s (console_width s) in
    let s := term_print s (lit "x") in
    let s := term_print_u32_dec s (console_height s) in
    term_print s [10]
  else term_print s (line "VGA text mode").

Definition print_heap (h : heap_state) (s : console D) : console D :=
  let s := term_print s (lit "  Heap state:       ") in
  if heap_is_ready h then
    let s := term_print_u32_dec s (heap_bytes_used h) in
    let s := term_print s (lit " / ") in
    let s := term_print_u32_dec s (heap_bytes_total h) in
    term_print s (line " bytes used")
  else term_print s (line "unavailable").

Definition print_number (label : list Z) (v : Z) (rest : list Z) (s : console D) : console D :=
  term_print (term_print_u32_dec (term_print s label) v) rest.

(** The rest of the kernel is [k], with its devices [devs], its mounts [mt] and
    the interrupt state [irq]. *)
Definition print_systeminfo (mbi : option multiboot_info) (magic : Z) (k : kernel)
    (devs : device_table) (mt : mount_table) (irq : irq_st) (c : C) (s : console D) : C * console D :=
  let s := term_print s (line "System Information") in
  let s := print_ram mbi magic s in
  let '(c, s) := print_cpu c s in
  let s := print_number (lit "  Kernel image:     ") (kernel_end -u kernel_start) (line " bytes") s in
  let s := print_backend s in
  let s := print_number (lit "  Timer ticks:      ") (timer_ticks irq) (line " (IRQ0 preemption)") s in
  let s := print_heap (k_heap k) s in
  let s := print_number (lit "  Block devices:    ") (storage_device_count devs) [10] s in
  let s := print_number (lit "  Mount entries:    ") (fs_mount_count mt) [10] s in
  let s := print_number (lit "  Tasks:            ") (task_count (c_sched (k_core k))) [10] s in
  let s := print_number (lit "  Processes:        ") (proc_count (c_procs (k_core k))) [10] s in
  let s := print_number (lit "  Sched switches:   ") (scheduler_switch_count (c_sched (k_core k))) [10] s in
  (c, term_putchar s 10).

End systeminfo.

(** ** The panic screen *)

(** What the stub of an exception leaves on the stack. *)
Record interrupt_frame := {
  gs : Z;
  fs : Z;
  es : Z;
  ds : Z;
  edi : Z;
  esi : Z;
  ebp : Z;
  esp : Z;
  ebx : Z;
  edx : Z;
  ecx : Z;
  eax : Z;
  vector : Z;
  error_code : Z;
  eip : Z;
  cs : Z;
  eflags : Z
}.

Section panic.
Context {D : Type} `{!Ports D}.

Definition panic_header (s : console D) : console D :=
  let s := term_set_color 15 4 s in
  let s := term_clear s in
  let s := term_print s (line "A problem has been detected and SLOP OS has been shut down") in
  term_print s (line "to prevent damage to your computer." ++ [10]).

Definition kernel_panic_exception (frame : interrupt_frame) (s : console D) : console D :=
  let s := panic_header s in
  let s := term_print s (line "EXCEPTION DETAILS") in
  let s := term_print s (lit "  vector:  ") in
  let s := term_print_u32_dec s (vector frame) in
  let s := term_print s (10 :: lit "  error:   ") in
  let s := term_print_hex_u32 s (error_code frame) in
  let s := term_print s (10 :: lit "  eip:     ") in
  let s := term_print_hex_u32 s (eip frame) in
  let s := term_print s (10 :: lit "  cs:      ") in
  let s := term_print_hex_u32 s (cs frame) in
  let s := term_print s (10 :: lit "  eflags:  ") in
  let s := term_print_hex_u32 s (eflags frame) in
  term_print s [10].

(** [None] is the null pointer. *)
Definition kernel_panic_message (message : option (list Z)) (s : console D) : console D :=
  let s := panic_header s in
  let s := term_print s (line "EXCEPTION DETAILS") in
  let s := term_print s (lit "  manual panic requested") in
  let s :=
    match message with
    | Some m => if negb (chr m =? 0) then term_print (term_print s (lit ": ")) m else s
    | None => s
    end in
  term_print s [10].

End panic.

(** ** What the processor says *)

(** Whether bit 21 of the flags can be written decides; the flags are as before. *)
Lemma cpu_has_cpuid_spec {C} `{!Cpu C} mask `{!CpuLaws C mask} (c : C) :
  let '(c', b) := cpu_has_cpuid c in
  pushf c' = pushf c /\ b = Z.testbit mask 21.
Proof.
  unfold cpu_has_cpuid. set (v := Z.lxor _ _). split.
  - rewrite !flags_written. apply Z.bits_inj'. intros n _. repeat rewrite ?Z.lor_spec, ?Z.land_spec, ?Z.ldiff_spec.
    by destruct (Z.testbit (pushf c) n), (Z.testbit mask n), (Z.testbit v n).
  - rewrite flags_written. unfold v.
    assert (Z.land (Z.lxor (pushf c)
      (Z.lor (Z.land (Z.lxor (pushf c) (Z.shiftl 1 21)) mask) (Z.ldiff (pushf c) mask))) (Z.shiftl 1 21) =
      if Z.testbit mask 21 then Z.shiftl 1 21 else 0) as ->.
    { apply Z.bits_inj'. intros n Hn. rewrite Z.land_spec, Z.lxor_spec, Z.lor_spec, Z.land_spec, Z.lxor_spec, Z.ldiff_spec.
      destruct (decide (n = 21)) as [->|Hne].
      - change (Z.testbit (Z.shiftl 1 21) 21) with true.
        destruct (Z.testbit (pushf c) 21), (Z.testbit mask 21); done.
      - assert (Z.testbit (Z.shiftl 1 21) n = false) as Hb.
        { rewrite Z.shiftl_1_l. apply Z.pow2_bits_false. done. }
        rewrite Hb, andb_false_r. destruct (Z.testbit mask 21); [done|by rewrite Z.bits_0]. }
    by destruct (Z.testbit mask 21).
Qed.

(** Four characters in a register, the first one lowest. *)
Definition packed (a b c d : Z) : Z := a + 256 * b + 65536 * c + 16777216 * d.

Lemma packed_bytes a b c d :
  is_byte a -> is_byte b -> is_byte c -> is_byte d ->
  Z.land (packed a b c d) 0xFF = a /\ Z.land (Z.shiftr (packed a b c d) 8) 0xFF = b /\
  Z.land (Z.shiftr (packed a b c d) 16) 0xFF = c /\ Z.land (Z.shiftr (packed a b c d) 24) 0xFF = d.
Proof.
  unfold is_byte. intros Ha Hb Hc Hd. change 0xFF with (Z.ones 8).
  rewrite !Z.land_ones, !Z.shiftr_div_pow2 by lia. unfold packed.
  change (2 ^ 8) with 256. change (2 ^ 16) with 65536. change (2 ^ 24) with 16777216.
  split_and!; mlia.
Qed.

(** The vendor's name is the twelve characters of ebx, edx and ecx, in that
    order, and a terminator. *)
Lemma cpu_vendor_text {C} `{!Cpu C} (c : C) b0 b1 b2 b3 d0 d1 d2 d3 e0 e1 e2 e3 :
  cpuid c = (packed b0 b1 b2 b3, packed e0 e1 e2 e3, packed d0 d1 d2 d3) ->
  Forall is_byte [b0; b1; b2; b3; d0; d1; d2; d3; e0; e1; e2; e3] ->
  cpu_vendor c = [b0; b1; b2; b3; d0; d1; d2; d3; e0; e1; e2; e3; 0].
Proof.
  intros Hc Hb. unfold cpu_vendor. rewrite Hc. rewrite !Forall_cons_iff in Hb.
  destruct Hb as (?&?&?&?&?&?&?&?&?&?&?&?&_).
  destruct (packed_bytes b0 b1 b2 b3) as (-> & -> & -> & ->); [done..|].
  destruct (packed_bytes d0 d1 d2 d3) as (-> & -> & -> & ->); [done..|].
  by destruct (packed_bytes e0 e1 e2 e3) as (-> & -> & -> & ->).
Qed.

(** ** The texts *)

Abbreviation dec := Util.console_print_u32_dec.

Section texts.
Context `{Linker} {C D : Type} `{!Cpu C} `{!Ports D}.
Implicit Types st : console D.

Definition ram_text (mbi : option multiboot_info) (magic : Z) : list Z :=
  match mbi with
  | Some mbi =>
      if (magic =? MULTIBOOT_MAGIC) && negb (Z.land (flags mbi) 1 =? 0)
      then lit "  Conventional RAM: " ++ dec (mem_lower mbi) ++ line " KiB" ++
           lit "  Extended RAM:     " ++ dec (mem_upper mbi) ++ line " KiB" ++
           lit "  Usable total:     " ++ dec (mem_lower mbi +u mem_upper mbi) ++ line " KiB"
      else line "  RAM info: unavailable from multiboot"
  | None => line "  RAM info: unavailable from multiboot"
  end.

Definition cpu_text (c : C) : list Z :=
  let '(c, has_cpuid) := cpu_has_cpuid c in
  lit "  CPU:              " ++
  (if has_cpuid : bool then lit "CPUID vendor: " ++ cstr (cpu_vendor c) else lit "80486-class (no CPUID)") ++ [10].

Definition backend_text st : list Z :=
  lit "  Console backend:  " ++
  (if framebuffer st then lit "framebuffer " ++ dec (width (fb st)) ++ lit "x" ++ dec (height (fb st)) ++ [10]
   else line "VGA text mode").

Definition heap_text (h : heap_state) : list Z :=
  lit "  Heap state:       " ++
  (if h_ready h then dec (heap_bytes_used h) ++ lit " / " ++ dec (heap_bytes_total h) ++ line " bytes used"
   else line "unavailable").

Definition systeminfo_text (mbi : option multiboot_info) (magic : Z) (k : kernel) (devs : device_table)
    (mt : mount_table) (irq : irq_st) (c : C) st : list Z :=
  line "System Information" ++ ram_text mbi magic ++ cpu_text c ++
  lit "  Kernel image:     " ++ dec (kernel_end - kernel_start) ++ line " bytes" ++
  backend_text st ++
  lit "  Timer ticks:      " ++ dec (tick_count irq) ++ line " (IRQ0 preemption)" ++
  heap_text (k_heap k) ++
  lit "  Block devices:    " ++ dec (Z.of_nat (length devs)) ++ [10] ++
  lit "  Mount entries:    " ++ dec (mounts_used mt) ++ [10] ++
  lit "  Tasks:            " ++ dec (tasks_used (c_sched (k_core k))) ++ [10] ++
  lit "  Processes:        " ++ dec (used (c_procs (k_core k))) ++ [10] ++
  lit "  Sched switches:   " ++ dec (switches (c_sched (k_core k))) ++ [10] ++ [10].

Lemma term_print_put st s : term_print st s = put_all CONSOLE_BOTH st (cstr s).
Proof. apply console_print_put. Qed.
Lemma term_dec_put st v : term_print_u32_dec st v = put_all CONSOLE_BOTH st (dec v).
Proof. apply print_u32_put. Qed.
Lemma term_hex_put st v : is_u32 v -> term_print_hex_u32 st v = put_all CONSOLE_BOTH st (hex_text v).
Proof. intros Hv. apply print_hex_put. unfold is_u32 in Hv. lia. Qed.
End texts.

(** Prints one after the other are one text. *)
Ltac put_texts :=
  rewrite ?term_print_put, ?term_dec_put, ?term_hex_put by done;
  repeat match goal with
  | |- context [cstr (lit ?x)] => change (cstr (lit x)) with (lit x)
  | |- context [cstr (line ?x)] => change (cstr (line x)) with (line x)
  | |- context [cstr (10 :: lit ?x)] => change (cstr (10 :: lit x)) with ([10] ++ lit x)
  | |- context [cstr (line ?x ++ [10])] => change (cstr (line x ++ [10])) with (line x ++ [10])
  | |- context [cstr [10]] => change (cstr [10]) with [10]
  end;
  with_strategy opaque [lit line Util.console_print_u32_dec cstr cpu_vendor hex_text] (rewrite ?put_all_app; reflexivity).

(** ** [systeminfo] *)

Section systeminfo_spec.
Context `{Linker} {C D : Type} `{!Cpu C} `{!Ports D}.
Implicit Types st : console D.

Lemma print_ram_put mbi magic st : print_ram mbi magic st = put_all CONSOLE_BOTH st (ram_text mbi magic).
Proof using.
  unfold print_ram, ram_text. destruct mbi as [mbi|]; [destruct (_ && _)|].
  all: put_texts.
Qed.

Lemma print_cpu_put (c : C) st :
  print_cpu c st = (fst (cpu_has_cpuid c), put_all CONSOLE_BOTH st (cpu_text c)).
Proof using.
  unfold print_cpu, cpu_text. destruct (cpu_has_cpuid c) as [c' []]; cbn [fst]; apply (f_equal (pair c')).
  all: put_texts.
Qed.

Lemma mode_put_all target st l :
  framebuffer (put_all target st l) = framebuffer st /\
  console_width (put_all target st l) = console_width st /\
  console_height (put_all target st l) = console_height st.
Proof using.
  destruct (put_all_mode target st l) as [Hb Hf].
  unfold console_width, console_height, framebuffer. by rewrite Hb, Hf.
Qed.

Lemma print_backend_put st : print_backend st = put_all CONSOLE_BOTH st (backend_text st).
Proof using.
  unfold print_backend, backend_text, console_has_framebuffer.
  rewrite ?term_print_put, ?term_dec_put, (proj1 (mode_put_all _ _ _)).
  destruct (framebuffer st) eqn:E; [|put_texts].
  rewrite !(proj1 (proj2 (mode_put_all _ _ _))), !(proj2 (proj2 (mode_put_all _ _ _))).
  unfold console_width, console_height. rewrite E. put_texts.
Qed.

Lemma print_heap_put h st : print_heap h st = put_all CONSOLE_BOTH st (heap_text h).
Proof using. unfold print_heap, heap_text, heap_is_ready. destruct (h_ready h); put_texts. Qed.

Lemma print_number_put label v rest st :
  print_number label v rest st = put_all CONSOLE_BOTH st (cstr label ++ dec v ++ cstr rest).
Proof using. unfold print_number. put_texts. Qed.

Lemma backend_text_put target st l : backend_text (put_all target st l) = backend_text st.
Proof using.
  unfold backend_text. destruct (put_all_mode target st l) as [_ ->]. by rewrite (proj1 (mode_put_all _ _ _)).
Qed.

Lemma print_systeminfo_put mbi magic k devs mt irq (c : C) st :
  print_systeminfo mbi magic k devs mt irq c st =
    (fst (cpu_has_cpuid c), put_all CONSOLE_BOTH st (systeminfo_text mbi magic k devs mt irq c st)).
Proof using.
  unfold print_systeminfo, systeminfo_text. rewrite print_ram_put, print_cpu_put.
  apply (f_equal (pair _)).
  rewrite !print_number_put, print_heap_put, print_backend_put, term_print_put, !backend_text_put.
  unfold term_putchar. change (console_putchar CONSOLE_BOTH ?s 10) with (put_all CONSOLE_BOTH s [10]).
  assert (kernel_end -u kernel_start = kernel_end - kernel_start) as ->
    by (apply u32_small; pose proof linker_kernel; lia).
  unfold timer_ticks, storage_device_count, fs_mount_count, task_count, proc_count, scheduler_switch_count.
  put_texts.
Qed.
End systeminfo_spec.

Lemma vendor_bytes {C} `{!Cpu C} (c : C) : Memory.all_bytes (cpu_vendor c).
Proof.
  unfold cpu_vendor. destruct (cpuid c) as [[ebx ecx] edx]. change 0xFF with (Z.ones 8).
  rewrite !Z.land_ones by lia. repeat (constructor; [first [by apply Z.mod_pos_bound|done]|]). constructor.
Qed.

#[local] Hint Resolve vendor_bytes : text_bytes.

Section reports.
Context `{Linker} {C D : Type} `{!Cpu C} `{!Ports D} `{!SerialLine D} `{!SerialLaws D} `{!CursorQuiet (D := D)}.
Implicit Types st : console D.

(** A text that was printed: the screen has it, and the line. *)
Definition reported (text : list Z) st st' : Prop :=
  (forall s, term_ok (tm st) -> shows (tm st) s ->
     term_ok (tm st') /\
     shows (tm st')
       (screen_text (text_rows (tm st)) (text_cols (tm st)) (current_fg (tm st)) (current_bg (tm st)) text s)) /\
  (forall l, serial_ready st = true -> sent (hw st) l -> sent (hw st') (l ++ with_returns text)).

Lemma put_all_reported text st : Memory.all_bytes text -> reported text st (put_all CONSOLE_BOTH st text).
Proof using All.
  intros Hb. split.
  - intros s Hok Hs. by destruct (put_all_screen st s text Hok Hs) as (? & _ & ?).
  - intros l Hr Hl. by apply put_all_sent.
Qed.

Lemma systeminfo_bytes mbi magic k devs mt irq (c : C) st :
  Memory.all_bytes (systeminfo_text mbi magic k devs mt irq c st).
Proof using.
  unfold systeminfo_text, ram_text, cpu_text, backend_text, heap_text. text_pieces.
Qed.

(** [systeminfo] reports the state of the kernel: one text with the memory
    the loader found, the processor, the size of the kernel, the screen, the
    heap, and the number of devices, mounts, tasks, processes, ticks and
    switches appears on the screen and arrives on the serial line; asking for
    [cpuid] leaves the flags of the processor as they were. *)
Theorem systeminfo_reports mask `{!CpuLaws C mask} mbi magic k devs mt irq (c : C) st :
  let '(c', st') := print_systeminfo mbi magic k devs mt irq c st in
  reported (systeminfo_text mbi magic k devs mt irq c st) st st' /\
  pushf c' = pushf c /\
  snd (cpu_has_cpuid c) = Z.testbit mask 21.
Proof using All.
  rewrite print_systeminfo_put. pose proof (cpu_has_cpuid_spec mask c) as Hc.
  destruct (cpu_has_cpuid c) as [c' b]. cbn [fst snd]. split; [|done].
  apply put_all_reported, systeminfo_bytes.
Qed.

End reports.

(** ** Panic *)

Definition panic_title : list Z :=
  line "A problem has been detected and SLOP OS has been shut down" ++
  line "to prevent damage to your computer." ++ [10] ++ line "EXCEPTION DETAILS".

Definition exception_text (f : interrupt_frame) : list Z :=
  panic_title ++
  lit "  vector:  " ++ dec (vector f) ++ [10] ++ lit "  error:   " ++ hex_text (error_code f) ++
  [10] ++ lit "  eip:     " ++ hex_text (eip f) ++ [10] ++ lit "  cs:      " ++ hex_text (cs f) ++
  [10] ++ lit "  eflags:  " ++ hex_text (eflags f) ++ [10].

Definition message_text (message : option (list Z)) : list Z :=
  panic_title ++ lit "  manual panic requested" ++
  match message with
  | Some m => if chr m =? 0 then [] else lit ": " ++ cstr m
  | None => []
  end ++ [10].

Section panic_spec.
Context {D : Type} `{!Ports D}.
Implicit Types st : console D.

(** The cleared screen, white on red. *)
Definition panic_screen st : console D := term_clear (term_set_color 15 4 st).

Lemma panic_header_put st :
  panic_header st = put_all CONSOLE_BOTH (panic_screen st)
    (line "A problem has been detected and SLOP OS has been shut down" ++
     line "to prevent damage to your computer." ++ [10]).
Proof. unfold panic_header. fold (panic_screen st). put_texts. Qed.

Lemma panic_exception_put f st :
  is_u32 (error_code f) -> is_u32 (eip f) -> is_u32 (cs f) -> is_u32 (eflags f) ->
  kernel_panic_exception f st = put_all CONSOLE_BOTH (panic_screen st) (exception_text f).
Proof.
  intros H1 H2 H3 H4. unfold kernel_panic_exception, exception_text, panic_title. rewrite panic_header_put.
  put_texts.
Qed.

Lemma panic_message_put message st :
  kernel_panic_message message st = put_all CONSOLE_BOTH (panic_screen st) (message_text message).
Proof.
  unfold kernel_panic_message, message_text, panic_title. rewrite panic_header_put.
  destruct message as [m|]; [destruct (chr m =? 0); cbn [negb]|].
  all: change ([] ++ [10]) with [10]; put_texts.
Qed.

Lemma panic_screen_shows st :
  grid_ok (tm st) ->
  let t := tm (panic_screen st) in
  term_ok t /\
  shows t {| s_cell _ _ := (32, 15, 4); s_row := 0; s_col := 0 |} /\
  text_rows t = text_rows (tm st) /\ text_cols t = text_cols (tm st) /\
  current_fg t = 15 /\ current_bg t = 4.
Proof.
  intros Hg. destruct (term_clear_shows (term_set_color 15 4 st) Hg) as (Hok & Hs & E1 & E2 & E3 & E4).
  by split_and!.
Qed.

Lemma term_clear_outside st :
  outside (term_clear st) = outside st \/
  exists st1, outside st1 = outside st /\ outside (term_clear st) = outside (term_update_hw_cursor st1).
Proof.
  unfold term_clear. change (framebuffer (with_tm ?t st)) with (framebuffer st).
  destruct (framebuffer st) eqn:E;
    change (framebuffer (with_tm ?t (with_vmem ?m (with_tm ?u st)))) with (framebuffer st); rewrite E;
    [by left|right].
  eexists. split; [|reflexivity]. reflexivity.
Qed.

Lemma panic_screen_outside st :
  outside (panic_screen st) = outside st \/
  exists st1, outside st1 = outside st /\ outside (panic_screen st) = outside (term_update_hw_cursor st1).
Proof. exact (term_clear_outside (term_set_color 15 4 st)). Qed.

End panic_spec.

(** Why the kernel gives up. *)
Inductive panic_cause :=
  | Exception (frame : interrupt_frame)
  | Manual (message : option (list Z)).

Definition panic {D : Type} `{!Ports D} (why : panic_cause) : console D -> console D :=
  match why with Exception frame => kernel_panic_exception frame | Manual m => kernel_panic_message m end.

Definition panic_text (why : panic_cause) : list Z :=
  match why with Exception frame => exception_text frame | Manual m => message_text m end.

(** What the processor pushes are words, what C gives are bytes. *)
Definition panic_ok (why : panic_cause) : Prop :=
  match why with
  | Exception f => is_u32 (vector f) /\ is_u32 (error_code f) /\ is_u32 (eip f) /\ is_u32 (cs f) /\ is_u32 (eflags f)
  | Manual m => from_option Memory.all_bytes True m
  end.

Lemma panic_text_bytes why : panic_ok why -> Memory.all_bytes (panic_text why).
Proof.
  unfold panic_ok, panic_text, exception_text, message_text, panic_title. destruct why as [f|[m|]].
  - intros (? & H1 & H2 & H3 & H4). unfold is_u32 in *.
    repeat first [apply lit_bytes | apply bytes_line | apply hex_bytes; lia | apply dec_bytes | apply newline_bytes
                 | apply app_bytes].
  - intros Hm. text_pieces.
  - intros _. text_pieces.
Qed.

Section panic_report.
Context {D : Type} `{!Ports D} `{!SerialLine D} `{!SerialLaws D} `{!CursorQuiet (D := D)}.
Implicit Types st : console D.

Lemma panic_screen_sent st l :
  sent (hw st) l -> sent (hw (panic_screen st)) l.
Proof using All.
  intros Hl. destruct (panic_screen_outside st) as [[= -> _ _]|(st1 & [= Hh _ _] & [= -> _ _])]; [done|].
  apply cursor_sent. by rewrite Hh.
Qed.

Lemma panic_put why st :
  panic_ok why -> panic why st = put_all CONSOLE_BOTH (panic_screen st) (panic_text why).
Proof using.
  destruct why as [f|m]; unfold panic, panic_text.
  - intros (_ & ? & ? & ? & ?). by apply panic_exception_put.
  - intros _. apply panic_message_put.
Qed.

(** C33: a processor exception, or a panic that the kernel asks for, is reported
    whatever the screen was like before: the screen is cleared and shows the
    whole report in white on red, with the cursor on the screen; the serial line
    gets the same text. *)
Theorem panic_reports why st :
  grid_ok (tm st) -> panic_ok why ->
  let st' := panic why st in
  term_ok (tm st') /\ current_fg (tm st') = 15 /\ current_bg (tm st') = 4 /\
  shows (tm st')
    (screen_text (text_rows (tm st)) (text_cols (tm st)) 15 4 (panic_text why)
       {| s_cell _ _ := (32, 15, 4); s_row := 0; s_col := 0 |}) /\
  forall l, serial_ready st = true -> sent (hw st) l -> sent (hw st') (l ++ with_returns (panic_text why)).
Proof using All.
  intros Hg Hw st'. unfold st'. rewrite panic_put by done.
  destruct (panic_screen_shows st Hg) as (Hok & Hs & E1 & E2 & E3 & E4).
  destruct (put_all_screen (panic_screen st) _ (panic_text why) Hok Hs) as (Hok' & (_ & _ & F3 & F4) & Hs').
  rewrite E1, E2, E3, E4 in Hs'. split_and!; [done|congruence|congruence|done|].
  intros l Hr Hl. apply put_all_sent; [|by apply panic_screen_sent|by apply panic_text_bytes].
  by destruct (panic_screen_outside st) as [[= _ -> _]|(st1 & [= _ Hh _] & [= _ -> _])]; [|cbn; rewrite Hh].
Qed.

End panic_report.

(** The numbers of the report can be read back. *)
Lemma exception_number v : is_u32 v -> hex_value (drop 2 (hex_text v)) = v.
Proof. apply hex_value_text. Qed.

(** ** Restart *)

Definition not_busy (status : Z) : option bool := if Z.land status 0x02 =? 0 then Some true else None.

(** The pulse is sent as soon as the controller takes it, and not before. *)
Lemma try_reboot_pulse {D} `{!Ports D} (P : D -> Prop) n d :
  answers 0x64 not_busy P n d -> exists d', P d' /\ try_reboot n d = Some (outb d' 0x64 0xFE).
Proof.
  induction 1 as [n d d' s Hi Hs HP|n d d' s Hi Hs _ (d1 & HP & IH)]; cbn [try_reboot]; rewrite Hi;
    unfold not_busy in Hs; destruct (Z.land s 0x02 =? 0); simplify_eq/=; eauto.
Qed.

(** While it stays busy the kernel waits. *)
Lemma try_reboot_waits {D} `{!Ports D} (P : D -> Prop) n d :
  (forall d, P d -> P (fst (inb d 0x64)) /\ not_busy (snd (inb d 0x64)) = None) ->
  P d -> try_reboot n d = None.
Proof.
  intros Hk. revert d. induction n as [|n IH]; intros d Hd; [done|]. cbn [try_reboot].
  destruct (Hk d Hd) as [Hd' Hs]. destruct (inb d 0x64) as [d' s]. unfold not_busy in Hs. cbn in *.
  destruct (Z.land s 0x02 =? 0); [done|]. by apply IH.
Qed.

(** ** A processor with every flag but the lowest, and a screen with a line *)

#[local] Instance demo_cpu : Cpu Z := {
  pushf c := c;
  popf c v := Z.lor (Z.land v 0x3F7FD4) (Z.ldiff c 0x3F7FD4);
  cpuid _ := (packed 71 101 110 117, packed 110 116 101 108, packed 105 110 101 73)
}.
#[local] Instance demo_cpu_laws : CpuLaws Z 0x3F7FD4.
Proof. by intros c v. Qed.
#[local] Existing Instances slow_ports slow_serial slow_laws.

#[local] Instance slow_quiet : CursorQuiet (D := slow_line).
Proof. by intros d l p v [-> | ->] Hl. Qed.

Definition line_console : console slow_line := {|
  tm := raw_term; backend := DISPLAY_VGA_TEXT; fb := raw_fb; vmem := mem_empty;
  hw := {| line_out := []; line_wait := 0 |}; serial_ready := true |}.

Lemma demo_vendor : cpu_vendor 0x202 = lit "GenuineIntel" ++ [0].
Proof. reflexivity. Qed.

Lemma panic_reports_witness :
  let why := Exception {| gs := 35; fs := 35; es := 35; ds := 35; edi := 0; esi := 0; ebp := 0; esp := 0x9000;
    ebx := 0; edx := 0; ecx := 0; eax := 0; vector := 13; error_code := 0; eip := 0x1000F0; cs := 8; eflags := 0x10202 |} in
  sent (hw (panic why line_console)) (with_returns (panic_text why)) /\
  current_bg (tm (panic why line_console)) = 4.
Proof.
  intros why. destruct (panic_reports why line_console) as (_ & _ & Hb & _ & Hl).
  - exact raw_grid.
  - cbn. unfold is_u32. lia.
  - split; [|exact Hb]. apply (Hl []); [reflexivity|]. split; [reflexivity|]. cbn. lia.
Defined.

#[local] Existing Instance demo_linker.

(** A machine with 64 MB and no drive, asked after 25 ticks. *)
Lemma systeminfo_reports_witness :
  let text := systeminfo_text (Some (text_mode_mbi 640 65536)) MULTIBOOT_MAGIC demo_kernel [] mounts_boot
                (with_ticks 25 irq_boot) 0x202 line_console in
  let '(c', st') := print_systeminfo (Some (text_mode_mbi 640 65536)) MULTIBOOT_MAGIC demo_kernel [] mounts_boot
                      (with_ticks 25 irq_boot) 0x202 line_console in
  sent (hw st') (with_returns text) /\ c' = 0x202 /\
  cpu_text 0x202 = lit "  CPU:              CPUID vendor: GenuineIntel" ++ [10].
Proof.
  pose proof (systeminfo_reports 0x3F7FD4 (Some (text_mode_mbi 640 65536)) MULTIBOOT_MAGIC demo_kernel [] mounts_boot
                (with_ticks 25 irq_boot) (0x202 : Z) line_console) as Hw.
  destruct (print_systeminfo _ _ _ _ _ _ _ _) as [c' st']. destruct Hw as ([_ Hl] & Hc & _).
  split; [|split; [exact Hc|reflexivity]].
  apply (Hl []); [reflexivity|]. split; [reflexivity|]. cbn. lia.
Defined.
