(* ===== verification/Shell.v ===== *)
(** * Shell: the two command shells of [src/kernel/shell.c]

    The line editor, the splitting of a line into arguments in place, the
    commands, and the loop that serves the keyboard and the serial line and
    resumes waiting programs.  A command that does not return (panic, reboot,
    halt, a program that never comes back) has no result. *)
From S2P Require Import Prelude KernelH Util Memory Heap Proc Sched Iface Service Elf Core Ipc Storage IsoFs Vfs VfsTree Mount Syscall FdTable Kernel Files Keep User Exec Boot.
Local Open Scope Z_scope.
Local Open Scope slop_scope.

Definition SHELL_INPUT_MAX : nat := 127.
Definition SHELL_ARG_MAX : nat := 16.
Definition SHELL_ECHO_MAX : nat := 128.

(** [input] is the whole array; [sh_cwd] is what the pointer [cwd] points to. *)
Record shell_context := {
  sh_output : console_target;
  input : list Z;
  sh_len : nat;
  sh_cwd : Z
}.

Definition with_input (s : list Z) (n : nat) (c : shell_context) : shell_context :=
  {| sh_output := sh_output c; input := s; sh_len := n; sh_cwd := sh_cwd c |}.
Definition with_cwd (cwd : Z) (c : shell_context) : shell_context :=
  {| sh_output := sh_output c; input := input c; sh_len := sh_len c; sh_cwd := cwd |}.

(** ** Arguments *)

(** How many spaces [skip_spaces] steps over. *)
Fixpoint spaces (s : list Z) : nat :=
  match s with
  | c :: s' => if c =? 32 then S (spaces s') else O
  | [] => O
  end.

Definition skip_spaces (s : list Z) : list Z := drop (spaces s) s.

(** An element of [argv]: the literal ">" or a pointer into the line. *)
Inductive arg := Redirect | Word (off : nat).

(** The string an argument is, in the line [buf] as it is now. *)
Definition arg_str (buf : list Z) (a : arg) : list Z :=
  match a with
  | Redirect => lit ">"
  | Word off => cstr (drop off buf)
  end.

(** The loop over the characters [s] of a word: how many it steps over, and
    whether it stopped at a ">". *)
Fixpoint word_end (s : list Z) : nat * bool :=
  match s with
  | c :: s' =>
      if (c =? 0) || (c =? 32) then (O, false)
      else if c =? 62 then (O, true)
      else let '(n, r) := word_end s' in (S n, r)
  | [] => (O, false)
  end.

(** The loop of [shell_split_args], at the offset [p] of the line; every
    iteration moves [p] on, except one that ends the line there. *)
Fixpoint split_loop (fuel : nat) (buf : list Z) (p max_args : nat) (argv : list arg) : list Z * list arg :=
  match fuel with
  | O => (buf, argv)
  | S f =>
      if (chr (drop p buf) =? 0) || (max_args <=? length argv)%nat then (buf, argv)
      else
        let p := (p + spaces (drop p buf))%nat in
        if chr (drop p buf) =? 0 then (buf, argv)
        else if chr (drop p buf) =? 62 then split_loop f buf (S p) max_args (argv ++ [Redirect])
        else
          let argv := argv ++ [Word p] in
          let '(n, split_on_redirect) := word_end (drop p buf) in
          let p := (p + n)%nat in
          if split_on_redirect : bool then split_loop f (<[p := 0]> buf) p max_args argv
          else if chr (drop p buf) =? 0 then split_loop f buf p max_args argv
          else split_loop f (<[p := 0]> buf) (S p) max_args argv
  end.

(** [shell_split_args(line, argv, max_args)] for the line at the offset [p]: the
    line and the arguments. *)
Definition shell_split_args (buf : list Z) (p max_args : nat) : list Z * list arg :=
  split_loop (S (length buf)) buf p max_args [].

(** ** Output *)

Definition term_clear (k : kernel) : kernel := with_io (k_keys k) (k_out k ++ [Clear]) k.

Definition console_print_hex_nibble (value : Z) : Z := if value <? 10 then 48 + value else 65 + (value - 10).

Definition console_print_hex_u32 (value : Z) : list Z :=
  lit "0x" ++ map (fun shift => console_print_hex_nibble (Z.land (Z.shiftr value shift) 15))
                  [28; 24; 20; 16; 12; 8; 4; 0].

(** Prints one text after the other. *)
Definition print_lines (t : console_target) (texts : list (list Z)) (k : kernel) : kernel :=
  fold_left (fun k s => print t s k) texts k.

Definition help_lines : list (list Z) :=
  [line "Commands:"; line "  help       - list commands"; line "  clear      - clear screen";
   line "  cd PATH    - change directory (shell builtin)";
   line "  dir [PATH] - list directory (shell builtin)";
   line "  file PATH  - inspect file header (shell builtin)";
   line "  resume PID - resume yielded user task";
   line "  alloc N    - allocate N bytes from kernel heap";
   line "  panic      - trigger kernel panic screen"; line "  reboot     - reset machine";
   line "  halt       - stop CPU"; line "Program-style commands (/bin/*):";
   line "  ls [PATH], pwd, mkdir PATH, touch PATH";
   line "  cat PATH, writetest PATH TEXT, stdiotest PATH TEXT";
   line "  systeminfo, sysinfod, ps, free"; line "  ipc_recv, ipc_send PID [TYPE] [ARG1] [ARG2]";
   line "  ipc_selftest, yieldtest"; line "  svc_reg NAME, svc_lookup NAME";
   line "    svc_reg keeps a live service task waiting on IPC"; line "  mounts, ring3test";
   line "  tip: try ls /mount/cdrom and cat /mount/cdrom/..."; line "Shell builtins:";
   line "  echo TEXT, echo TEXT > PATH"].

Definition shell_print_help (t : console_target) (k : kernel) : kernel := print_lines t help_lines k.

Definition shell_print_heap_summary (t : console_target) (k : kernel) : kernel :=
  if negb (heap_is_ready (k_heap k))
  then print t (line "Heap is unavailable. Multiboot memory info was not provided.") k
  else print_lines t [lit "Heap usage: "; console_print_u32_dec (heap_bytes_used (k_heap k)); lit " / ";
                      console_print_u32_dec (heap_bytes_total (k_heap k)); lit " bytes, free ";
                      console_print_u32_dec (heap_bytes_free (k_heap k)); [10]] k.

(** The prompt; the colours are not modelled. *)
Definition shell_print_prompt (c : shell_context) (k : kernel) : kernel :=
  print (sh_output c) (cstr (vfs_get_cwd_path (vfs_of k) (sh_cwd c) VFS_PATH_MAX) ++ lit "> ") k.

(** The word help in quotation marks. *)
Definition quoted_help : list Z := [34] ++ lit "help" ++ [34].

(** ** Commands *)

(** The string built by the loop of [shell_handle_echo] from the arguments. *)
Fixpoint echo_text (parts : list (list Z)) (out : list Z) : list Z :=
  match parts with
  | [] => out
  | part :: parts' =>
      if (negb (length out =? 0) && (SHELL_ECHO_MAX <=? length out + 1))%nat then out
      else
        let out := if (length out =? 0)%nat then out else out ++ [32] in
        echo_text parts' (out ++ take (SHELL_ECHO_MAX - 1 - length out) part)
  end.

(** The first argument from the second on that is ">". *)
Definition echo_redir (args : list (list Z)) : option nat :=
  S <$> first_slot (fun s => str_eq s (lit ">")) (tl args).

Section shell.
Context `{Linker} `{MountFs}.

Definition shell_handle_alloc (t : console_target) (arg : list Z) (k : kernel) : kernel :=
  let '(size, ok) := parse_u32_dec arg in
  if negb ok || (size =? 0) then print t (line "Usage: alloc N") k
  else
    let '(h, ptr) := kmalloc (k_heap k) size in
    let k := with_heap_state h k in
    if ptr =? 0 then print t (line "Allocation failed.") k
    else print_lines t [lit "Allocated "; console_print_u32_dec size; lit " bytes at ";
                        console_print_hex_u32 ptr; [10]] k.

Definition shell_handle_cd (c : shell_context) (arg : list Z) (k : kernel) : kernel * shell_context :=
  let arg := skip_spaces arg in
  if chr arg =? 0 then (print (sh_output c) (line "Usage: cd PATH") k, c)
  else
    let '(v, r) := vfs_change_dir (vfs_of k) (sh_cwd c) arg in
    let k := with_vfs v k in
    match r with
    | None => (print (sh_output c) (line "cd: no such directory") k, c)
    | Some cwd => (k, with_cwd cwd c)
    end.

Definition shell_handle_dir (c : shell_context) (arg : list Z) (k : kernel) : kernel :=
  let arg := skip_spaces arg in
  print (sh_output c) (vfs_list (vfs_of k) (sh_cwd c) (Some (if chr arg =? 0 then [] else arg))) k.

Definition shell_handle_file (c : shell_context) (arg : list Z) (k : kernel) : kernel :=
  let arg := skip_spaces arg in
  if chr arg =? 0 then print (sh_output c) (line "Usage: file PATH") k
  else
    let '(k, r) := read_file k (sh_cwd c) arg in
    match r with
    | None => print (sh_output c) (line "file: no such file") k
    | Some (data, size) =>
        if data =? 0 then print (sh_output c) (line "file: no such file") k
        else
          let byte i := load (k_mem k) (data + i) in
          print_lines (sh_output c)
            ([lit "size="; console_print_u32_dec size] ++
             (if 4 <=? size
              then [lit " magic=";
                    console_print_hex_u32 (Z.lor (Z.lor (Z.lor (byte 0) (Z.shiftl (byte 1) 8))
                      (Z.shiftl (byte 2) 16)) (Z.shiftl (byte 3) 24))]
              else []) ++ [[10]]) k
    end.

Definition shell_handle_echo (c : shell_context) (buf : list Z) (p : nat) (k : kernel)
    : kernel * list Z :=
  let '(buf, argv) := shell_split_args buf p SHELL_ARG_MAX in
  let args := map (arg_str buf) argv in
  if (length args <? 2)%nat then (print (sh_output c) [10] k, buf)
  else
    match echo_redir args with
    | Some redir =>
        if (redir =? 1)%nat then (print (sh_output c) (line "echo: missing text") k, buf)
        else if (length args <=? redir + 1)%nat
        then (print (sh_output c) (line "echo: missing redirect path") k, buf)
        else
          let out := echo_text (take (redir - 1) (tl args)) [] in
          let '(v, ok) := vfs_write_file (vfs_of k) (sh_cwd c) (nth (redir + 1) args []) out in
          let k := with_vfs v k in
          (if ok : bool then k else print (sh_output c) (line "echo: write failed") k, buf)
    | None => (print_lines (sh_output c) [echo_text (tl args) []; [10]] k, buf)
    end.

Context `{Programs}.

Definition shell_ctx (c : shell_context) (mbi : option multiboot_info) (magic : Z) : exec_context :=
  {| ec_output := sh_output c; ec_cwd := sh_cwd c; ec_mbi := mbi; ec_magic := magic |}.

Definition shell_handle_resume (c : shell_context) (mbi : option multiboot_info) (magic : Z)
    (arg : list Z) (k : kernel) : option kernel :=
  let arg := skip_spaces arg in
  if chr arg =? 0 then Some (print (sh_output c) (line "Usage: resume PID") k)
  else
    let '(pid, ok) := parse_u32_dec arg in
    if negb ok || (pid =? 0) then Some (print (sh_output c) (line "resume: invalid pid") k)
    else fst <$> exec_resume_pid k (s32 pid) (shell_ctx c mbi magic).

(** The path of the program a first argument names. *)
Definition program_path (arg0 : list Z) : list Z :=
  if chr arg0 =? 47 then cstr (str_copy [] arg0 64) else lit "/bin/" ++ take 58 arg0.

(** [argv[0]] after "about" was replaced. *)
Definition alias_args (args : list (list Z)) : list (list Z) :=
  match args with
  | a :: l => (if str_eq a (lit "about") then lit "systeminfo" else a) :: l
  | [] => []
  end.

Definition shell_run_program (c : shell_context) (mbi : option multiboot_info) (magic : Z)
    (buf : list Z) (p : nat) (k : kernel) : option (kernel * list Z * Z) :=
  let '(buf, argv) := shell_split_args buf p SHELL_ARG_MAX in
  match alias_args (map (arg_str buf) argv) with
  | [] => Some (k, buf, 1)
  | arg0 :: rest =>
      '(k, r) ← exec_run_path k (program_path arg0) (Z.of_nat (length argv)) (map Some (arg0 :: rest))
                  (shell_ctx c mbi magic);
      Some (k, buf, r)
  end.

(** The line is in [input c].  The state, the context with the changed line and
    directory. *)
Definition shell_execute_line (c : shell_context) (mbi : option multiboot_info) (magic : Z)
    (k : kernel) : option (kernel * shell_context) :=
  let p := spaces (input c) in
  let trimmed := drop p (input c) in
  let t := sh_output c in
  if chr trimmed =? 0 then Some (k, c)
  else if str_eq trimmed (lit "help") then Some (shell_print_help t k, c)
  else if str_eq trimmed (lit "clear")
  then Some (match t with CONSOLE_VGA => term_clear k | _ => print t [10] k end, c)
  else if str_eq trimmed (lit "heap") then Some (shell_print_heap_summary t k, c)
  else if str_startswith trimmed (lit "alloc ") then Some (shell_handle_alloc t (drop 6 trimmed) k, c)
  else if str_eq trimmed (lit "dir") then Some (shell_handle_dir c [] k, c)
  else if str_startswith trimmed (lit "dir ") then Some (shell_handle_dir c (drop 4 trimmed) k, c)
  else if str_startswith trimmed (lit "file ") then Some (shell_handle_file c (drop 5 trimmed) k, c)
  else if str_startswith trimmed (lit "resume ")
  then k ← shell_handle_resume c mbi magic (drop 7 trimmed) k; Some (k, c)
  else if str_startswith trimmed (lit "cd ") then Some (shell_handle_cd c (drop 3 trimmed) k)
  else if str_eq trimmed (lit "panic") then None
  else if str_eq trimmed (lit "reboot") then None
  else if str_eq trimmed (lit "halt") then None
  else if str_eq trimmed (lit "echo") || str_startswith trimmed (lit "echo ")
  then let '(k, buf) := shell_handle_echo c (input c) p k in Some (k, with_input buf (sh_len c) c)
  else
    '(k, buf, r) ← shell_run_program c mbi magic (input c) p k;
    Some (if r =? 0 then print t (lit "Unknown command/program. Type " ++ quoted_help ++ line ".") k else k,
          with_input buf (sh_len c) c).

(** ** The line editor and the loop *)

(** A carriage return counts as the end of the line. *)
Definition line_end (ch : Z) : bool := (ch =? 13) || (ch =? 10).

Definition shell_process_char (mbi : option multiboot_info) (magic ch : Z) (k : kernel) (c : shell_context)
    : option (kernel * shell_context) :=
  if line_end ch then
    let c := with_input (<[sh_len c := 0]> (input c)) (sh_len c) c in
    let k := print (sh_output c) [10] k in
    '(k, c) ← shell_execute_line c mbi magic k;
    let c := with_input (input c) 0 c in
    Some (shell_print_prompt c k, c)
  else if (ch =? 8) || (ch =? 127) then
    if (0 <? sh_len c)%nat
    then Some (print (sh_output c) [8] k, with_input (input c) (pred (sh_len c)) c)
    else Some (k, c)
  else if (32 <=? ch) && (ch <=? 126) && (sh_len c <? SHELL_INPUT_MAX)%nat
  then Some (print (sh_output c) [ch] k, with_input (<[sh_len c := ch]> (input c)) (S (sh_len c)) c)
  else Some (k, c).

(** The kernel and the variables of [shell_loop]. *)
Record machine := {
  m_kernel : kernel;
  vga_shell : shell_context;
  serial_shell : shell_context
}.

(** Before the loop; [input] is not initialised. *)
Definition shell_start (serial_ready : bool) (in1 in2 : list Z) (k : kernel) : machine :=
  let vga := {| sh_output := CONSOLE_VGA; input := in1; sh_len := 0; sh_cwd := k_root k |} in
  let serial := {| sh_output := CONSOLE_SERIAL; input := in2; sh_len := 0; sh_cwd := k_root k |} in
  let k := print CONSOLE_VGA (line "SLOP OS (microkernel bootstrap)") k in
  let k := print CONSOLE_VGA (lit "Type " ++ quoted_help ++ lit " for commands." ++ [10; 10]) k in
  let k := shell_print_prompt vga k in
  let k := if serial_ready then
             let k := print CONSOLE_SERIAL (line "SLOP serial console") k in
             let k := print CONSOLE_SERIAL (lit "Type " ++ quoted_help ++ lit " for commands." ++ [10; 10]) k in
             shell_print_prompt serial k
           else k in
  {| m_kernel := k; vga_shell := vga; serial_shell := serial |}.

(** [keyboard_try_read_char]: the next character, when it is there already. *)
Definition try_key (there : bool) (k : kernel) : kernel * option Z :=
  match k_keys k with
  | ch :: keys => if there then (with_io keys (k_out k) k, Some ch) else (k, None)
  | [] => (k, None)
  end.

(** The keyboard's part of one iteration: the kernel, the context and whether
    there was a key. *)
Definition serve_key (mbi : option multiboot_info) (magic : Z) (there : bool) (s : machine)
    : option (kernel * shell_context * bool) :=
  match try_key there (m_kernel s) with
  | (k, Some ch) => '(k, vga) ← shell_process_char mbi magic ch k (vga_shell s); Some (k, vga, true)
  | (k, None) => Some (k, vga_shell s, false)
  end.

(** One iteration of the loop.  [there] says whether a key was pressed,
    [serial] is what the serial line has received. *)
Definition shell_iteration (mbi : option multiboot_info) (magic : Z) (serial_ready there : bool)
    (serial : option Z) (s : machine) : option machine :=
  '(k, vga, handled_input) ← serve_key mbi magic there s;
  match (if serial_ready then serial else None) with
  | Some ch =>
      '(k, ser) ← shell_process_char mbi magic ch k (serial_shell s);
      Some {| m_kernel := k; vga_shell := vga; serial_shell := ser |}
  | None =>
      k ← (if handled_input : bool then Some k else fst <$> task_resume_next_ready_user k mbi magic);
      Some {| m_kernel := k; vga_shell := vga; serial_shell := serial_shell s |}
  end.

End shell.

(** ** The arguments of a line *)

(** What a line means: words are separated by spaces and by ">", which is an
    argument of its own. *)
Definition flush (word : list Z) : list (list Z) := match word with [] => [] | _ => [word] end.

Fixpoint words (word s : list Z) : list (list Z) :=
  match s with
  | [] => flush word
  | c :: s' =>
      if c =? 32 then flush word ++ words [] s'
      else if c =? 62 then flush word ++ lit ">" :: words [] s'
      else words (word ++ [c]) s'
  end.

(** The line up to the first ">" that follows a word without a space. *)
Fixpoint cut_glued (in_word : bool) (s : list Z) : list Z :=
  match s with
  | [] => []
  | c :: s' =>
      if c =? 62 then if in_word then [] else c :: cut_glued false s'
      else c :: cut_glued (negb (c =? 32)) s'
  end.

Definition line_args (s : list Z) : list (list Z) := words [] (cut_glued false (cstr s)).

Lemma line_args_spaces s : line_args (skip_spaces s) = line_args s.
Proof.
  unfold line_args, skip_spaces. induction s as [|c s IH]; [done|]. cbn [spaces].
  destruct (Z.eqb_spec c 32) as [-> |]; [|done]. cbn [drop]. exact IH.
Qed.

Lemma line_args_redirect s : chr s = 62 -> line_args s = lit ">" :: line_args (tl s).
Proof. destruct s as [|c s]; cbn [chr hd]; [done|]. by intros ->. Qed.

(** The characters of a word, and what ends it. *)
Lemma word_end_spec s n r :
  word_end s = (n, r) ->
  (n <= length s)%nat /\ Forall (fun c => c <> 0) (take n s) /\
  (if r then chr (drop n s) = 62 else chr (drop n s) = 0 \/ chr (drop n s) = 32).
Proof.
  revert n r. induction s as [|c s IH]; intros n r; cbn [word_end]; [intros [= <- <-]; auto with lia|].
  destruct ((c =? 0) || (c =? 32)) eqn:E.
  { intros [= <- <-]. zify_bool. cbn. split_and!; [lia|constructor|lia]. }
  destruct (Z.eqb_spec c 62) as [-> |Hn].
  { intros [= <- <-]. cbn. split_and!; [lia|constructor|done]. }
  destruct (word_end s) as [m q] eqn:Ew. intros [= <- <-]. destruct (IH _ _ eq_refl) as (Hl & Hf & He).
  cbn [take drop length]. split_and!; [lia| |done]. constructor; [zify_bool; lia|done].
Qed.

Lemma words_word s n r word :
  word_end s = (n, r) -> word <> [] ->
  words word (cut_glued true (cstr s)) =
  (word ++ take n s) :: (if r || (chr (drop n s) =? 0) then [] else line_args (drop (S n) s)).
Proof.
  revert n r word. induction s as [|c s IH]; intros n r word; cbn [word_end].
  { intros [= <- <-] Hw. rewrite app_nil_r. by destruct word. }
  destruct (Z.eqb_spec c 0) as [-> |H0]; cbn [orb].
  { intros [= <- <-] Hw. cbn. rewrite app_nil_r. by destruct word. }
  assert (cstr (c :: s) = c :: cstr s) as -> by (cbn; by rewrite (proj2 (Z.eqb_neq c 0) H0)).
  destruct (Z.eqb_spec c 32) as [-> |H32].
  { intros [= <- <-] Hw. cbn. rewrite app_nil_r. by destruct word. }
  destruct (Z.eqb_spec c 62) as [-> |H62].
  { intros [= <- <-] Hw. cbn. rewrite app_nil_r. by destruct word. }
  destruct (word_end s) as [m q] eqn:Ew. intros [= <- <-] Hw. cbn [cut_glued take drop].
  rewrite (proj2 (Z.eqb_neq c 62) H62), (proj2 (Z.eqb_neq c 32) H32). cbn [negb words].
  rewrite (proj2 (Z.eqb_neq c 62) H62), (proj2 (Z.eqb_neq c 32) H32).
  rewrite (IH m q (word ++ [c]) eq_refl) by (by destruct word). by rewrite <- app_assoc.
Qed.

Lemma line_args_word s n r :
  chr s <> 0 -> chr s <> 32 -> chr s <> 62 -> word_end s = (n, r) ->
  line_args s = take n s :: (if r || (chr (drop n s) =? 0) then [] else line_args (drop (S n) s)).
Proof.
  destruct s as [|c s]; [done|]. cbn [chr hd]. intros H0 H32 H62. cbn [word_end].
  rewrite (proj2 (Z.eqb_neq c 0) H0), (proj2 (Z.eqb_neq c 32) H32), (proj2 (Z.eqb_neq c 62) H62). cbn [orb].
  destruct (word_end s) as [m q] eqn:Ew. intros [= <- <-].
  assert (line_args (c :: s) = words [c] (cut_glued true (cstr s))) as ->.
  { unfold line_args. cbn. rewrite (proj2 (Z.eqb_neq c 0) H0). cbn [cut_glued].
    rewrite (proj2 (Z.eqb_neq c 62) H62), (proj2 (Z.eqb_neq c 32) H32). cbn [negb words].
    by rewrite (proj2 (Z.eqb_neq c 62) H62), (proj2 (Z.eqb_neq c 32) H32). }
  by rewrite (words_word s m q [c] Ew).
Qed.

(** *** Words in the line *)

(** A string that ends before [p] is not changed by writing at [p] or after. *)
Definition ends_before (buf : list Z) (p : nat) (a : arg) : Prop :=
  match a with
  | Redirect => True
  | Word off => (off + length (cstr (drop off buf)) < p)%nat /\
                buf !! (off + length (cstr (drop off buf)))%nat = Some 0
  end.

Lemma cstr_same s t n :
  length (cstr s) = n -> s !! n = Some 0 -> (forall i, (i <= n)%nat -> t !! i = s !! i) -> cstr t = cstr s.
Proof.
  revert t n. induction s as [|c s IH]; intros t n Hn Hs Ht; [done|].
  pose proof (Ht 0%nat ltac:(lia)) as H0. destruct t as [|d t]; [done|]. injection H0 as ->. cbn in *.
  destruct (Z.eqb_spec c 0) as [|Hc]; [done|]. f_equal. cbn in Hn. subst n.
  apply (IH t (length (cstr s))); [done|done|]. intros i Hi. apply (Ht (S i)). lia.
Qed.

Lemma arg_str_kept buf buf' p a :
  ends_before buf p a -> (forall i, (i < p)%nat -> buf' !! i = buf !! i) ->
  arg_str buf' a = arg_str buf a /\ ends_before buf' p a.
Proof.
  destruct a as [|off]; [done|]. cbn [arg_str ends_before]. intros [Hlt Hz] Hb.
  assert (cstr (drop off buf') = cstr (drop off buf)) as Heq.
  { apply (cstr_same _ _ (length (cstr (drop off buf)))); [done|by rewrite lookup_drop|].
    intros i Hi. rewrite !lookup_drop. apply Hb. lia. }
  rewrite Heq. split_and!; [done|done|]. by rewrite Hb.
Qed.

Lemma args_kept buf buf' p argv :
  Forall (ends_before buf p) argv -> (forall i, (i < p)%nat -> buf' !! i = buf !! i) ->
  map (arg_str buf') argv = map (arg_str buf) argv /\ Forall (ends_before buf' p) argv.
Proof.
  intros Hf Hb. induction Hf as [|a l Ha _ [IH1 IH2]]; [done|]. cbn [map].
  destruct (arg_str_kept buf buf' p a Ha Hb) as [-> ?]. rewrite IH1. by split; [|constructor].
Qed.

Lemma ends_before_mono buf p q argv :
  (p <= q)%nat -> Forall (ends_before buf p) argv -> Forall (ends_before buf q) argv.
Proof.
  intros Hle. apply Forall_impl. intros [|off]; cbn; [done|]. intros [? ?]. split; [lia|done].
Qed.

Lemma cstr_word s n : Forall (fun c => c <> 0) (take n s) -> (n <= length s)%nat -> chr (drop n s) = 0 -> cstr s = take n s.
Proof.
  revert n. induction s as [|c s IH]; intros n Hf Hn Hc; [by destruct n|]. destruct n as [|n].
  - cbn in Hc. subst c. done.
  - cbn [take] in *. apply Forall_cons_iff in Hf as [H0 Hf]. cbn. rewrite (proj2 (Z.eqb_neq c 0) H0).
    f_equal. apply IH; [done|cbn in Hn; lia|done].
Qed.

Lemma split_loop_end fuel buf p m argv : chr (drop p buf) = 0 -> split_loop fuel buf p m argv = (buf, argv).
Proof. intros Hc. destruct fuel as [|f]; [done|]. cbn [split_loop]. by rewrite Hc. Qed.

Lemma chr_drop_lookup buf p c : c <> 0 -> chr (drop p buf) = c -> buf !! p = Some c /\ (p < length buf)%nat.
Proof.
  intros Hc Hp. destruct (buf !! p) as [d|] eqn:E.
  - split; [|by eapply lookup_lt_Some]. rewrite (drop_S _ _ _ E) in Hp. cbn in Hp. by subst.
  - apply lookup_ge_None in E. rewrite drop_ge in Hp by done. by subst.
Qed.

(** A word that was closed by a NUL at its end. *)
Lemma closed_word buf p n :
  (p + n < length buf)%nat -> Forall (fun c => c <> 0) (take n (drop p buf)) ->
  cstr (drop p (<[(p + n)%nat := 0]> buf)) = take n (drop p buf) /\
  length (take n (drop p buf)) = n.
Proof.
  intros Hlt Hf. assert (length (take n (drop p buf)) = n) as Hl by (rewrite length_take, length_drop; lia).
  split; [|done]. assert (take n (drop p (<[(p + n)%nat := 0]> buf)) = take n (drop p buf)) as Ht.
  { rewrite drop_insert_ge by lia. by rewrite take_insert_ge by lia. }
  rewrite <- Ht. apply cstr_word; [by rewrite Ht|rewrite length_drop, length_insert; lia|].
  rewrite drop_drop. rewrite (drop_S _ 0); [done|]. by apply list_lookup_insert_eq.
Qed.

Lemma skip_spaces_chr buf p : chr (drop (p + spaces (drop p buf)) buf) <> 32.
Proof.
  rewrite <- drop_drop. induction (drop p buf) as [|c s IH]; [done|]. cbn [spaces].
  destruct (Z.eqb_spec c 32) as [|Hc]; [exact IH|exact Hc].
Qed.

Lemma split_loop_spec fuel buf p m argv :
  (length buf - p < fuel)%nat -> Forall (ends_before buf p) argv ->
  let '(buf', argv') := split_loop fuel buf p m argv in
  length buf' = length buf /\
  map (arg_str buf') argv' = map (arg_str buf) argv ++ take (m - length argv) (line_args (drop p buf)).
Proof.
  revert buf p argv. induction fuel as [|f IH]; intros buf p argv Hf Ha; [lia|]. cbn [split_loop].
  destruct (Z.eqb_spec (chr (drop p buf)) 0) as [H0|H0]; cbn [orb].
  { split; [done|]. assert (line_args (drop p buf) = []) as ->; [|by rewrite take_nil, app_nil_r].
    unfold line_args. destruct (drop p buf) as [|c s]; [done|]. cbn in H0. by subst. }
  destruct (Nat.leb_spec m (length argv)) as [Hm|Hm].
  { split; [done|]. replace (m - length argv)%nat with 0%nat by lia. by rewrite app_nil_r. }
  rewrite <- line_args_spaces. unfold skip_spaces. rewrite drop_drop.
  set (q := (p + spaces (drop p buf))%nat).
  apply (ends_before_mono _ _ q) in Ha; [|lia].
  destruct (Z.eqb_spec (chr (drop q buf)) 0) as [H1|H1].
  { split; [done|]. assert (line_args (drop q buf) = []) as ->; [|by rewrite take_nil, app_nil_r].
    unfold line_args. destruct (drop q buf) as [|c s]; [done|]. cbn in H1. by subst. }
  destruct (Z.eqb_spec (chr (drop q buf)) 62) as [H2|H2].
  { destruct (chr_drop_lookup buf q 62) as [_ Hq]; [done|done|].
    specialize (IH buf (S q) (argv ++ [Redirect]) ltac:(lia)). destruct (split_loop _ _ _ _ _) as [buf' argv'].
    destruct IH as [Hl IH]. { apply Forall_app. split; [by apply (ends_before_mono _ q); [lia|]|by constructor]. }
    split; [done|]. rewrite IH, map_app, <- app_assoc. f_equal. rewrite (line_args_redirect _ H2).
    rewrite length_app. cbn [length map arg_str app].
    replace (m - length argv)%nat with (S (m - (length argv + 1)))%nat by lia. cbn [take]. do 3 f_equal.
    rewrite <- Nat.add_1_r, <- drop_drop. by destruct (drop q buf). }
  assert (chr (drop q buf) <> 32) as H3 by apply skip_spaces_chr.
  destruct (word_end (drop q buf)) as [n r] eqn:Ew.
  destruct (word_end_spec _ _ _ Ew) as (Hn & Hw & He). rewrite drop_drop in He.
  rewrite (line_args_word _ n r H1 H3 H2 Ew), !drop_drop. rewrite length_drop in Hn.
  replace (m - length argv)%nat with (S (m - (length argv + 1)))%nat by lia. cbn [take].
  destruct (chr_drop_lookup buf q _ H1 eq_refl) as [_ Hq].
  set (ok := fun buf1 => (q + n < length buf)%nat /\ buf1 = <[(q + n)%nat := 0]> buf).
  assert (forall buf1, ok buf1 -> length buf1 = length buf /\
    map (arg_str buf1) (argv ++ [Word q]) = map (arg_str buf) argv ++ [take n (drop q buf)] /\
    Forall (ends_before buf1 (S (q + n))) (argv ++ [Word q])) as Hok.
  { intros buf1 [Hlt ->]. split; [apply length_insert|].
    destruct (closed_word buf q n Hlt Hw) as [Hc Hcl].
    destruct (args_kept buf (<[(q + n)%nat := 0]> buf) q argv Ha) as [Hm' Ha'].
    { intros i Hi. apply list_lookup_insert_ne. lia. }
    rewrite map_app, Hm'. cbn [map arg_str]. rewrite Hc. split; [done|].
    apply Forall_app. split; [by apply (ends_before_mono _ q); [lia|]|]. constructor; [|done].
    cbn [ends_before]. rewrite Hc, Hcl. split; [lia|]. by apply list_lookup_insert_eq. }
  destruct r; cbn [orb].
  - destruct (chr_drop_lookup buf (q + n) 62 ltac:(done) He) as [_ Hlt].
    destruct (Hok (<[(q + n)%nat := 0]> buf)) as (Hl & Hm' & _); [by split|].
    rewrite split_loop_end. { split; [done|]. by rewrite Hm', take_nil. }
    rewrite (drop_S _ 0); [done|]. by apply list_lookup_insert_eq.
  - destruct (Z.eqb_spec (chr (drop (q + n) buf)) 0) as [H4|H4].
    { rewrite split_loop_end by done. split; [done|]. rewrite map_app, take_nil. cbn [map arg_str].
      rewrite (cstr_word _ n Hw); [done|rewrite length_drop; lia|by rewrite drop_drop]. }
    destruct He as [He|He]; [done|]. destruct (chr_drop_lookup buf (q + n) 32 ltac:(done) He) as [_ Hlt].
    destruct (Hok (<[(q + n)%nat := 0]> buf)) as (Hl & Hm' & Ha'); [by split|].
    specialize (IH (<[(q + n)%nat := 0]> buf) (S (q + n)) (argv ++ [Word q]) ltac:(rewrite Hl; lia) Ha').
    destruct (split_loop _ _ _ _ _) as [buf' argv']. destruct IH as [Hl' ->]. split; [by rewrite Hl'|].
    rewrite Hm', <- app_assoc, length_app. cbn [length app]. rewrite drop_insert_lt by lia.
    by rewrite (Nat.add_succ_r q n).
Qed.

(** ** The text of echo *)

Definition joined (parts : list (list Z)) : list Z :=
  match parts with
  | [] => []
  | part :: parts => part ++ concat (map (cons 32) parts)
  end.

Lemma take_trunc {A} n (a b c : list A) :
  (length a <= n)%nat -> take n ((a ++ take (n - length a) b) ++ c) = take n (a ++ b ++ c).
Proof.
  intros Ha. rewrite <- !app_assoc, !take_app. f_equal.
  rewrite take_take, Nat.min_id. f_equal.
  destruct (le_lt_dec (length b) (n - length a)) as [Hb|Hb].
  - rewrite length_take. do 2 f_equal. lia.
  - rewrite length_take. replace (n - length a - Nat.min (n - length a) (length b))%nat with 0%nat by lia.
    by replace (n - length a - length b)%nat with 0%nat by lia.
Qed.

Lemma echo_text_more parts out :
  (0 < length out < SHELL_ECHO_MAX)%nat ->
  echo_text parts out = take 127 (out ++ concat (map (cons 32) parts)).
Proof.
  unfold SHELL_ECHO_MAX. revert out. induction parts as [|part parts IH]; intros out Ho; cbn [echo_text map concat].
  { rewrite app_nil_r, take_ge by lia. done. }
  rewrite (proj2 (Nat.eqb_neq (length out) 0)) by lia. cbn [negb andb].
  unfold SHELL_ECHO_MAX. destruct (Nat.leb_spec 128 (length out + 1)) as [Hl|Hl].
  { rewrite take_app_le by lia. by rewrite take_ge by lia. }
  rewrite length_app. cbn [length]. rewrite IH.
  2:{ rewrite !length_app, length_take. cbn [length]. lia. }
  assert ((length (out ++ [32%Z]) <= 127)%nat) as Hle by (rewrite length_app; cbn [length]; lia).
  pose proof (take_trunc 127 (out ++ [32]) part (concat (map (cons 32) parts)) Hle) as Ht.
  rewrite length_app in Ht. cbn [length] in Ht. etransitivity; [exact Ht|]. by rewrite <- app_assoc.
Qed.

(** echo prints, or writes, its arguments with a space between them, up to 127
    characters. *)
Lemma echo_text_spec parts :
  Forall (fun p => p <> []) parts -> echo_text parts [] = take 127 (joined parts).
Proof.
  intros Hf. destruct Hf as [|part parts Hp _]; [done|]. cbn [echo_text length Nat.eqb negb andb app joined].
  change (SHELL_ECHO_MAX - 1 - 0)%nat with 127%nat.
  rewrite echo_text_more; [|rewrite length_take; unfold SHELL_ECHO_MAX; destruct part; [done|cbn [length]; lia]].
  exact (take_trunc 127 [] part _ (Nat.le_0_l _)).
Qed.

Lemma words_nonempty word s : Forall (fun p => p <> []) (words word s).
Proof.
  assert (forall w, Forall (fun p => p <> []) (flush w)) as Hfl by (intros [|? ?]; repeat constructor; done).
  revert word. induction s as [|c s IH]; intros word; cbn [words]; [apply Hfl|].
  destruct (c =? 32); [|destruct (c =? 62)]; [apply Forall_app; by split| |apply IH].
  apply Forall_app. split; [done|]. by constructor.
Qed.

(** What the splitting does for the commands. *)
Lemma split_args_spec buf p :
  let '(buf', argv) := shell_split_args buf p SHELL_ARG_MAX in
  length buf' = length buf /\
  map (arg_str buf') argv = take SHELL_ARG_MAX (line_args (drop p buf)).
Proof.
  unfold shell_split_args. pose proof (split_loop_spec (S (length buf)) buf p SHELL_ARG_MAX []) as Hs.
  destruct (split_loop _ _ _ _ _) as [buf' argv']. destruct Hs as [Hl Hm]; [lia|constructor|].
  split; [done|]. by rewrite Hm.
Qed.

(** ** The line editor *)

(** The line as a list: a character goes to its end, if there is room, and the
    backspace takes the last one away. *)
Definition edit_char (text : list Z) (ch : Z) : list Z :=
  if (ch =? 8) || (ch =? 127) then take (pred (length text)) text
  else if (32 <=? ch) && (ch <=? 126) && (length text <? SHELL_INPUT_MAX)%nat then text ++ [ch]
  else text.

(** The array holds the line [text]. *)
Record holds (c : shell_context) (text : list Z) : Prop := {
  ho_size : length (input c) = S SHELL_INPUT_MAX;
  ho_len : sh_len c = length text;
  ho_max : (length text <= SHELL_INPUT_MAX)%nat;
  ho_text : take (length text) (input c) = text;
  ho_chars : Forall (fun ch => 32 <= ch <= 126) text
}.

Lemma holds_line c text : holds c text -> cstr (<[sh_len c := 0]> (input c)) = text.
Proof.
  intros [Hs Hl Hm Ht Hc]. rewrite Hl. rewrite <- (take_drop (length text) (input c)), Ht at 1.
  assert (exists y rest, drop (length text) (input c) = y :: rest) as (y & rest & ->).
  { destruct (drop _ _) as [|y rest] eqn:E; [|by exists y, rest].
    apply (f_equal length) in E. rewrite length_drop, Hs in E. cbn in E. lia. }
  rewrite insert_app_r_alt, Nat.sub_diag by lia. cbn. apply cstr_app_nul.
  revert Hc. apply Forall_impl. lia.
Qed.

Section editor.
Context `{Linker} `{MountFs} `{Programs}.

Fixpoint type_chars (mbi : option multiboot_info) (magic : Z) (chs : list Z) (k : kernel) (c : shell_context)
    : option (kernel * shell_context) :=
  match chs with
  | [] => Some (k, c)
  | ch :: chs => '(k, c) ← shell_process_char mbi magic ch k c; type_chars mbi magic chs k c
  end.

Lemma edit_step mbi magic ch k c text :
  line_end ch = false -> holds c text ->
  exists out c', shell_process_char mbi magic ch k c = Some (with_io (k_keys k) out k, c') /\
    holds c' (edit_char text ch) /\ sh_cwd c' = sh_cwd c.
Proof.
  intros He Hh. pose proof Hh as [Hs Hl Hm Ht Hc]. unfold shell_process_char, edit_char. rewrite He, Hl.
  assert (k = with_io (k_keys k) (k_out k) k) as Hk by (by destruct k).
  destruct ((ch =? 8) || (ch =? 127)) eqn:Ed.
  - destruct (Nat.ltb_spec 0 (length text)) as [Hp|Hp].
    + eexists _, _. split; [reflexivity|]. split; [|done]. constructor; cbn [with_input input sh_len].
      * done.
      * rewrite length_take. lia.
      * rewrite length_take. lia.
      * rewrite length_take, Nat.min_l by lia.
        transitivity (take (pred (length text)) (take (length text) (input c))); [|by rewrite Ht].
        rewrite take_take. f_equal. lia.
      * by apply Forall_take.
    + exists (k_out k), c. rewrite <- Hk. split; [done|]. split; [|done]. destruct text; [done|cbn in Hp; lia].
  - destruct ((32 <=? ch) && (ch <=? 126) && (length text <? SHELL_INPUT_MAX)%nat) eqn:Ec.
    + apply andb_true_iff in Ec as [Ec El%Nat.ltb_lt]. zify_bool.
      eexists _, _. split; [reflexivity|]. split; [|done]. constructor; cbn [with_input input sh_len].
      * by rewrite length_insert.
      * rewrite length_app. cbn [length]. lia.
      * rewrite length_app. cbn [length]. lia.
      * rewrite length_app. cbn [length]. rewrite Nat.add_1_r, (take_S_r _ _ ch), take_insert_ge, Ht; [done|done|].
        apply list_lookup_insert_eq. lia.
      * apply Forall_app. split; [done|]. by constructor.
    + exists (k_out k), c. rewrite <- Hk. by split.
Qed.

(** The line editor.  Whatever is typed before Enter, the line that is executed
    is what a list that takes a character at its end and gives it up for a
    backspace holds, the characters over the 127th being ignored, and the array
    is never left; nothing but the output has changed. *)
Theorem line_editor mbi magic chs k c :
  length (input c) = S SHELL_INPUT_MAX -> sh_len c = 0%nat -> Forall (fun ch => line_end ch = false) chs ->
  let text := fold_left edit_char chs [] in
  exists out c', type_chars mbi magic chs k c = Some (with_io (k_keys k) out k, c') /\
    (sh_len c' <= SHELL_INPUT_MAX)%nat /\ cstr (<[sh_len c' := 0]> (input c')) = text /\ sh_cwd c' = sh_cwd c.
Proof.
  intros Hs Hl Hf.
  assert (holds c []) as Hh by (by constructor; cbn; try lia).
  clear Hs Hl. revert k c Hh. generalize (@nil Z). induction Hf as [|ch chs He _ IH]; intros text k c Hh; cbn [type_chars fold_left].
  - exists (k_out k), c. split; [by destruct k|]. rewrite (ho_len _ _ Hh). split; [apply Hh|]. split; [|done].
    rewrite <- (ho_len _ _ Hh). by apply holds_line.
  - destruct (edit_step mbi magic ch k c text He Hh) as (out & c1 & -> & Hh1 & Hc1). cbn [mbind option_bind].
    destruct (IH _ (with_io (k_keys k) out k) c1 Hh1) as (out2 & c2 & Ht & Hlen & Hcs & Hcw).
    exists out2, c2. split; [exact Ht|]. by rewrite <- Hc1.
Qed.

End editor.

(** ** What the commands keep *)

(** What a program search finds depends on the file tree and memory only. *)
Section search.
Context `{Linker} `{MountFs}.

Lemma read_file_same k1 k2 cwd path :
  vfs_of k1 = vfs_of k2 ->
  vfs_of (fst (read_file k1 cwd path)) = vfs_of (fst (read_file k2 cwd path)) /\
  snd (read_file k1 cwd path) = snd (read_file k2 cwd path).
Proof.
  intros Hv. unfold read_file. rewrite Hv. destruct (vfs_read_file _ _ _) as [v r].
  split; [|done]. by destruct v.
Qed.

Lemma same_mem k1 k2 : vfs_of k1 = vfs_of k2 -> k_mem k1 = k_mem k2.
Proof. by intros Hv%(f_equal vmem). Qed.

Lemma is_elf_same k1 k2 cwd path :
  vfs_of k1 = vfs_of k2 ->
  vfs_of (fst (exec_is_elf_path k1 cwd path)) = vfs_of (fst (exec_is_elf_path k2 cwd path)) /\
  snd (exec_is_elf_path k1 cwd path) = snd (exec_is_elf_path k2 cwd path).
Proof.
  intros Hv. destruct (read_file_same k1 k2 cwd path Hv) as [Hv' Hr]. unfold exec_is_elf_path.
  destruct (read_file k1 cwd path) as [k1' r], (read_file k2 cwd path) as [k2' r2]. cbn [fst snd] in *. subst r2.
  destruct r as [[data size]|]; [|done]. by rewrite (same_mem k1' k2').
Qed.

Lemma search_same cwd l k1 k2 :
  vfs_of k1 = vfs_of k2 ->
  vfs_of (fst (exec_search k1 cwd l)) = vfs_of (fst (exec_search k2 cwd l)) /\
  snd (exec_search k1 cwd l) = snd (exec_search k2 cwd l).
Proof.
  revert k1 k2. induction l as [|p l IH]; intros k1 k2 Hv; cbn [exec_search]; [done|].
  destruct (is_elf_same k1 k2 cwd p Hv) as [Hv' Hb].
  destruct (exec_is_elf_path k1 cwd p) as [k1' b], (exec_is_elf_path k2 cwd p) as [k2' b2]. cbn [fst snd] in *.
  subst b2. destruct b; [done|]. by apply IH.
Qed.

Lemma plan_same k1 k2 cwd path :
  vfs_of k1 = vfs_of k2 -> snd (exec_plan k1 cwd path) = snd (exec_plan k2 cwd path).
Proof.
  intros Hv. unfold exec_plan. destruct (read_file_same k1 k2 cwd path Hv) as [Hv' Hr].
  destruct (read_file k1 cwd path) as [k1' r], (read_file k2 cwd path) as [k2' r2]. cbn [fst snd] in *. subst r2.
  destruct r as [[data size]|]; [|done]. destruct (data =? 0); [done|].
  destruct (read_file_same k1' k2' cwd path Hv') as [Hv2 Hr].
  destruct (read_file k1' cwd path) as [k1'' r], (read_file k2' cwd path) as [k2'' r2]. cbn [fst snd] in *. subst r2.
  rewrite (same_mem k1'' k2'' Hv2). by destruct (elf_prepare_load_plan _ _).
Qed.

Lemma found_inside_same k1 k2 path ctx :
  vfs_of k1 = vfs_of k2 -> found_inside k1 path ctx -> found_inside k2 path ctx.
Proof.
  intros Hv Hf k p Hs k' data size plan Hp.
  destruct (search_same (ec_cwd ctx) (exec_candidates path) k1 k2 Hv) as [Hv' Hr].
  destruct (exec_search k1 _ _) as [k3 r] eqn:E. rewrite Hs in Hv', Hr. cbn [fst snd] in *. subst r.
  pose proof (plan_same k3 k (ec_cwd ctx) p Hv') as Hpl. rewrite Hp in Hpl.
  destruct (exec_plan k3 (ec_cwd ctx) p) as [k4 r] eqn:E4. cbn [snd] in Hpl. subst r.
  exact (Hf k3 p E k4 data size plan E4).
Qed.

(** There are pids left, and no program to be found has a load plan that wraps
    around the address space. *)
Definition inside (k : kernel) : Prop :=
  next_pid (c_procs (k_core k)) < INT_MAX /\ forall path ctx, found_inside k path ctx.

Lemma inside_same k1 k2 : k_core k1 = k_core k2 -> vfs_of k1 = vfs_of k2 -> inside k1 -> inside k2.
Proof.
  intros Hc Hv [Hn Hf]. split; [by rewrite <- Hc|]. intros path ctx. by apply (found_inside_same k1).
Qed.

End search.

Lemma parse_u32_range s : is_u32 (fst (parse_u32_dec s)).
Proof.
  assert (forall s v, is_u32 v -> is_u32 (fst (parse_u32_loop s v))) as Hl.
  { clear s. induction s as [|c s IH]; intros v Hv; cbn [parse_u32_loop]; [done|].
    destruct (c =? 0); [done|]. destruct (_ || _); [split; cbn; lia|]. apply IH. apply u32_range. }
  unfold parse_u32_dec. destruct (_ =? 0); [split; cbn; lia|]. apply Hl. split; lia.
Qed.

Section kept.
Context `{Linker} `{MountFs} `{!MountFsLaws} `{Programs} `{!ProgramsLaws}.

Record shell_kept (k k' : kernel) : Prop := {
  sk_inv : os_inv k';
  sk_idle : idle k';
  sk_tree : grows (vfs_of k) (vfs_of k')
}.

Lemma shell_kept_refl k : os_inv k -> idle k -> shell_kept k k.
Proof using. intros Hi Hid. constructor; [done|done|apply grows_refl]. Qed.

Lemma shell_kept_trans k1 k2 k3 : shell_kept k1 k2 -> shell_kept k2 k3 -> shell_kept k1 k3.
Proof using. intros [_ _ Hg1] [Hi Hid Hg2]. constructor; [done|done|by eapply grows_trans]. Qed.

Lemma run_shell pid k k' : run_kept pid k k' -> idle k' -> shell_kept k k'.
Proof using. intros Hk Hid. constructor; [apply Hk|done|apply Hk]. Qed.

Lemma others_shell pid k k' : others_kept pid k k' -> idle k' -> shell_kept k k'.
Proof using. intros Hk Hid. constructor; [apply Hk|done|apply Hk]. Qed.

Lemma print_shell t s k : os_inv k -> idle k -> shell_kept k (print t s k).
Proof using. intros Hi Hid. by apply (run_shell 0); [apply print_kept|]. Qed.

Lemma print_lines_shell t l k : os_inv k -> idle k -> shell_kept k (print_lines t l k).
Proof using.
  unfold print_lines. revert k. induction l as [|s l IH]; intros k Hi Hid; cbn [fold_left]; [by apply shell_kept_refl|].
  pose proof (print_shell t s k Hi Hid) as Hk. eapply shell_kept_trans; [exact Hk|]. apply IH; apply Hk.
Qed.

Lemma io_shell keys out k : os_inv k -> idle k -> shell_kept k (with_io keys out k).
Proof using.
  intros Hi Hid. constructor; [|done|apply grows_refl].
  destruct Hi as [Hk Hs Hcw Hsl]. constructor; try done. destruct Hk. by constructor.
Qed.

Lemma tree_shell k v : os_inv k -> idle k -> vfs_step (vfs_of k) v -> shell_kept k (with_vfs v k).
Proof using. intros Hi Hid [? ? _ ? ?]. by apply (run_shell 0); [apply tree_kept|]. Qed.

Lemma heap_shell k h p size :
  os_inv k -> idle k -> is_u32 size -> kmalloc (k_heap k) size = (h, p) -> shell_kept k (with_heap_state h k).
Proof using.
  intros Hi Hid Hs Hk. pose proof (ki_vfs _ (oi_kernel _ Hi)) as Hv. pose proof (vi_heap _ Hv) as Hh. cbn [vheap vfs_of] in Hh.
  assert (heap_inv h) as Hh' by (replace h with (fst (kmalloc (k_heap k) size)) by (by rewrite Hk); by apply kmalloc_inv).
  assert (mem_step (k_heap k) (k_mem k) h (k_mem k)) as Hm.
  { destruct (Z.eq_dec p 0) as [-> |Hp].
    - apply kmalloc_None in Hk as ->; [|done..]. apply mem_step_refl.
    - by apply (kmalloc_step _ _ _ _ _ _ Hh Hs Hk Hp). }
  assert (with_heap_state h k = with_vfs (with_heap h (k_mem k) (vfs_of k)) k) as -> by (by destruct k as [[]]).
  destruct (with_heap_inv (vfs_of k) h (k_mem k) Hv Hh' Hm) as [Hv' Hg].
  apply (run_shell 0); [|done]. apply tree_kept; try done. by apply data_fresh_refl.
Qed.

Lemma alloc_shell t arg k : os_inv k -> idle k -> shell_kept k (shell_handle_alloc t arg k).
Proof using.
  intros Hi Hid. unfold shell_handle_alloc. pose proof (parse_u32_range arg) as Hr.
  destruct (parse_u32_dec arg) as [size ok]. destruct (_ || _); [by apply print_shell|].
  destruct (kmalloc (k_heap k) size) as [h p] eqn:E. pose proof (heap_shell k h p size Hi Hid Hr E) as Hk.
  destruct (p =? 0); (eapply shell_kept_trans; [exact Hk|]); [apply print_shell|apply print_lines_shell]; apply Hk.
Qed.

Lemma cd_shell c arg k :
  os_inv k -> idle k -> is_dir_node (vfs_of k) (sh_cwd c) ->
  let '(k', c') := shell_handle_cd c arg k in
  shell_kept k k' /\ is_dir_node (vfs_of k') (sh_cwd c') /\ input c' = input c /\ sh_len c' = sh_len c.
Proof using All.
  intros Hi Hid Hd. unfold shell_handle_cd.
  destruct (_ =? 0); [split; [by apply print_shell|done]|].
  destruct (vfs_change_dir _ _ _) as [v r] eqn:E.
  destruct (change_dir_step _ _ _ _ _ (ki_vfs _ (oi_kernel _ Hi)) E) as [Hst Hr].
  pose proof (tree_shell k v Hi Hid Hst) as Hk.
  assert (vfs_of (with_vfs v k) = v) as Hv by (by destruct v).
  destruct r as [cwd|].
  - split; [done|]. rewrite Hv. split; [by apply Hr|done].
  - split; [eapply shell_kept_trans; [exact Hk|]; apply print_shell; apply Hk|].
    split; [|done]. apply (grows_dir (vfs_of k)); [apply Hk|done].
Qed.

Lemma file_shell c arg k : os_inv k -> idle k -> shell_kept k (shell_handle_file c arg k).
Proof using All.
  intros Hi Hid. unfold shell_handle_file. destruct (_ =? 0); [by apply print_shell|].
  destruct (read_file k _ _) as [k1 r] eqn:E. destruct (read_file_kept _ _ _ _ _ Hi E) as [[Hk _ Hid1] _].
  pose proof (run_shell 0 _ _ (Hk 0) (Hid1 Hid)) as Hk1.
  destruct r as [[data size]|]; [destruct (data =? 0)|]; (eapply shell_kept_trans; [exact Hk1|]);
    try apply print_shell; try apply print_lines_shell; apply Hk1.
Qed.

(** *** Arguments are strings of bytes *)

(** A literal list of bytes. *)
Local Ltac bytes := unfold all_bytes; repeat (constructor; [unfold is_byte; lia|]); constructor.

Lemma cstr_all_bytes s : all_bytes s -> all_bytes (cstr s).
Proof using.
  unfold all_bytes. induction s as [|c s IH]; cbn [cstr]; [done|]. intros [Hc Hs]%Forall_cons_iff.
  destruct (c =? 0); [constructor|]. by constructor; [|apply IH].
Qed.

Lemma cstr_le s : (length (cstr s) <= length s)%nat.
Proof using. induction s as [|c s IH]; cbn [cstr length]; [lia|]. destruct (c =? 0); cbn [length]; lia. Qed.

Lemma split_bytes fuel buf p m argv :
  all_bytes buf -> all_bytes (fst (split_loop fuel buf p m argv)).
Proof using.
  revert buf p argv. induction fuel as [|f IH]; intros buf p argv Hb; cbn [split_loop]; [done|].
  assert (forall q, all_bytes (<[q := 0]> buf)) as Hz.
  { intros q. apply Forall_insert; [done|]. unfold is_byte. lia. }
  destruct (_ || _); [done|]. destruct (_ =? 0); [done|]. destruct (_ =? 62); [by apply IH|].
  destruct (word_end _) as [n []]; [by apply IH|]. destruct (_ =? 0); by apply IH.
Qed.

(** A string of a line. *)
Definition line_string (s : list Z) : Prop := all_bytes s /\ (length s <= 128)%nat.

Lemma arg_str_string buf a : all_bytes buf -> (length buf <= 128)%nat -> line_string (arg_str buf a).
Proof using.
  intros Hb Hl. destruct a as [|off]; cbn [arg_str].
  - split; [change (lit ">") with [62]; bytes|cbn; lia].
  - split; [by apply cstr_all_bytes, Forall_drop|].
    pose proof (cstr_le (drop off buf)) as Hc. rewrite length_drop in Hc. lia.
Qed.

Lemma args_strings buf argv :
  all_bytes buf -> (length buf <= 128)%nat -> Forall line_string (map (arg_str buf) argv).
Proof using. intros Hb Hl. apply Forall_map, Forall_true. intros a. by apply arg_str_string. Qed.

Lemma strings_args_ok args : Forall line_string args -> args_ok (map Some args).
Proof using.
  intros Hf i. unfold arg_string. rewrite list_lookup_fmap. destruct (args !! i) as [s|] eqn:E; cbn [fmap option_map option_fmap].
  - destruct (Forall_lookup_1 _ _ _ _ Hf E) as [Hb Hl]. split; [by apply cstr_all_bytes|].
    rewrite str_len_spec. pose proof (cstr_le s). lia.
  - split; [constructor|cbn; lia].
Qed.

Lemma echo_text_bytes parts out :
  Forall line_string parts -> all_bytes out -> (length out < 128)%nat ->
  all_bytes (echo_text parts out) /\ (length (echo_text parts out) < 128)%nat.
Proof using.
  intros Hf. revert out. induction Hf as [|part parts [Hp _] _ IH]; intros out Hb Hl; cbn [echo_text]; [done|].
  unfold SHELL_ECHO_MAX in *. destruct (_ && _) eqn:E; [done|].
  set (out' := if (length out =? 0)%nat then out else out ++ [32]).
  assert (all_bytes out' /\ (length out' <= 127)%nat) as [Hb' Hl'].
  { unfold out'. destruct (Nat.eqb_spec (length out) 0) as [|Hn]; [split; [done|lia]|].
    cbn [negb andb] in E. apply Nat.leb_gt in E. split.
    - apply Forall_app. split; [done|bytes].
    - rewrite length_app. cbn [length]. lia. }
  apply IH.
  - apply Forall_app. split; [done|]. by apply Forall_take.
  - rewrite length_app, length_take. lia.
Qed.

(** The context between two commands. *)
Record context_ok (k : kernel) (c : shell_context) : Prop := {
  cx_cwd : is_dir_node (vfs_of k) (sh_cwd c);
  cx_size : length (input c) = S SHELL_INPUT_MAX;
  cx_bytes : all_bytes (input c);
  cx_len : (sh_len c <= SHELL_INPUT_MAX)%nat
}.

Lemma context_kept k k' c : shell_kept k k' -> context_ok k c -> context_ok k' c.
Proof using. intros Hk []. constructor; try done. by apply (grows_dir (vfs_of k)); [apply Hk|]. Qed.

Lemma context_input k c buf n :
  context_ok k c -> length buf = length (input c) -> all_bytes buf -> (n <= SHELL_INPUT_MAX)%nat ->
  context_ok k (with_input buf n c).
Proof using. intros [] Hl Hb Hn. constructor; cbn [with_input input sh_len]; [done|congruence|done|done]. Qed.

Lemma split_context k c p :
  context_ok k c ->
  let '(buf, argv) := shell_split_args (input c) p SHELL_ARG_MAX in
  context_ok k (with_input buf (sh_len c) c) /\ Forall line_string (map (arg_str buf) argv).
Proof using.
  intros Hc. pose proof (split_args_spec (input c) p) as Hs.
  pose proof (split_bytes (S (length (input c))) (input c) p SHELL_ARG_MAX [] (cx_bytes _ _ Hc)) as Hb.
  unfold shell_split_args in *. destruct (split_loop _ _ _ _ _) as [buf argv]. destruct Hs as [Hl _]. cbn [fst] in Hb.
  split; [apply context_input; try done; apply Hc|]. apply args_strings; [done|].
  rewrite Hl, (cx_size _ _ Hc). unfold SHELL_INPUT_MAX. lia.
Qed.

(** *** The commands on strings and programs *)

Lemma echo_shell c p k :
  os_inv k -> idle k -> context_ok k c ->
  let '(k', buf) := shell_handle_echo c (input c) p k in
  shell_kept k k' /\ context_ok k' (with_input buf (sh_len c) c).
Proof using All.
  intros Hi Hid Hc. unfold shell_handle_echo. pose proof (split_context k c p Hc) as Hs.
  destruct (shell_split_args _ _ _) as [buf argv]. destruct Hs as [Hc' Hf]. set (args := map (arg_str buf) argv) in *.
  assert (forall k', shell_kept k k' -> shell_kept k k' /\ context_ok k' (with_input buf (sh_len c) c)) as Hgo.
  { intros k' Hk. split; [done|]. by apply (context_kept k). }
  assert (forall t s, shell_kept k (print t s k)) as Hprint by (intros; by apply print_shell).
  assert (forall n, Forall line_string (take n (tl args))) as Htl.
  { intros n. apply Forall_take. by destruct Hf. }
  destruct (length args <? 2)%nat; [apply Hgo, Hprint|]. destruct (echo_redir args) as [redir|].
  2:{ apply Hgo. by apply print_lines_shell. }
  destruct (redir =? 1)%nat; [apply Hgo, Hprint|]. destruct (_ <=? _)%nat; [apply Hgo, Hprint|].
  set (out := echo_text _ _). destruct (echo_text_bytes (take (redir - 1) (tl args)) [] (Htl _)) as [Hob Hol];
    [constructor|cbn; lia|]. fold out in Hob, Hol.
  pose proof (write_file_kept 0 k (sh_cwd c) (nth (redir + 1) args []) out Hi (cx_cwd _ _ Hc) ltac:(unfold is_u32; lia) Hob) as Hw.
  destruct (vfs_write_file _ _ _ _) as [v ok]. cbn [fst] in Hw. pose proof (run_shell 0 _ _ Hw Hid) as Hk.
  apply Hgo. destruct ok; [done|]. eapply shell_kept_trans; [exact Hk|]. apply print_shell; apply Hk.
Qed.

Lemma shell_ctx_ok k c mbi magic : context_ok k c -> ctx_ok k (shell_ctx c mbi magic).
Proof using. intros Hc. right. apply Hc. Qed.

Lemma resume_shell c mbi magic arg k k' :
  os_inv k -> idle k -> context_ok k c -> shell_handle_resume c mbi magic arg k = Some k' -> shell_kept k k'.
Proof using All.
  intros Hi Hid Hc. unfold shell_handle_resume.
  destruct (_ =? 0); [intros [= <-]; by apply print_shell|].
  destruct (parse_u32_dec _) as [pid ok]. destruct (_ || _); [intros [= <-]; by apply print_shell|].
  destruct (exec_resume_pid _ _ _) as [[k1 b]|] eqn:E; [|done]. intros [= <-].
  destruct (exec_resume_pid_spec _ _ _ _ _ Hi Hid (shell_ctx_ok _ _ mbi magic Hc) E) as (Ho & Hid1 & _).
  by eapply others_shell.
Qed.

Lemma run_program_shell c mbi magic p k k' buf r :
  os_inv k -> idle k -> context_ok k c -> inside k ->
  shell_run_program c mbi magic (input c) p k = Some (k', buf, r) ->
  shell_kept k k' /\ context_ok k' (with_input buf (sh_len c) c).
Proof using All.
  intros Hi Hid Hc [Hn Hin]. unfold shell_run_program. pose proof (split_context k c p Hc) as Hs.
  destruct (shell_split_args _ _ _) as [buf0 argv]. destruct Hs as [Hc' Hf].
  assert (Forall line_string (alias_args (map (arg_str buf0) argv))) as Ha.
  { destruct Hf as [|a l Ha Hl]; [constructor|]. cbn [alias_args]. constructor; [|done].
    destruct (str_eq _ _); [|done]. split; [|cbn; lia]. change (lit "systeminfo") with [115; 121; 115; 116; 101; 109; 105; 110; 102; 111].
    bytes. }
  destruct (alias_args _) as [|arg0 rest] eqn:Eal.
  { intros [= <- <- _]. split; [by apply shell_kept_refl|done]. }
  destruct (exec_run_path _ _ _ _ _) as [[k1 r1]|] eqn:E; [|done]. intros [= <- <- _].
  destruct (exec_run_path_spec _ _ _ _ _ _ _ Hi Hid (shell_ctx_ok _ _ mbi magic Hc) (strings_args_ok _ Ha) Hn (Hin _ _) E)
    as (Ho & Hid1 & _).
  pose proof (others_shell _ _ _ Ho Hid1) as Hk. split; [done|]. by apply (context_kept k).
Qed.

(** *** A line, a character, an iteration *)

Lemma execute_line_shell c mbi magic k k' c' :
  os_inv k -> idle k -> context_ok k c -> inside k ->
  shell_execute_line c mbi magic k = Some (k', c') -> shell_kept k k' /\ context_ok k' c'.
Proof using All.
  intros Hi Hid Hc Hin. unfold shell_execute_line. cbv zeta.
  set (p := spaces (input c)). set (trimmed := drop p (input c)).
  assert (forall k1 c1, Some (k1, c) = Some (k', c') -> shell_kept k k1 -> c1 = c -> shell_kept k k' /\ context_ok k' c') as Hgo.
  { intros k1 c1 [= -> ->] Hk _. split; [done|]. by apply (context_kept k). }
  destruct (chr trimmed =? 0); [intros Hr; by apply (Hgo k c); [|apply shell_kept_refl|]|].
  destruct (str_eq trimmed (lit "help")); [intros Hr; eapply Hgo; [exact Hr|by apply print_lines_shell|done]|].
  destruct (str_eq trimmed (lit "clear")).
  { intros Hr. eapply Hgo; [exact Hr| |done]. by destruct (sh_output c); [apply io_shell|apply print_shell|apply print_shell]. }
  destruct (str_eq trimmed (lit "heap")).
  { intros Hr. eapply Hgo; [exact Hr| |done]. unfold shell_print_heap_summary.
    by destruct (negb _); [apply print_shell|apply print_lines_shell]. }
  destruct (str_startswith trimmed (lit "alloc ")); [intros Hr; eapply Hgo; [exact Hr|by apply alloc_shell|done]|].
  destruct (str_eq trimmed (lit "dir")); [intros Hr; eapply Hgo; [exact Hr|by apply print_shell|done]|].
  destruct (str_startswith trimmed (lit "dir ")); [intros Hr; eapply Hgo; [exact Hr|by apply print_shell|done]|].
  destruct (str_startswith trimmed (lit "file ")); [intros Hr; eapply Hgo; [exact Hr|by apply file_shell|done]|].
  destruct (str_startswith trimmed (lit "resume ")).
  { destruct (shell_handle_resume _ _ _ _ _) as [k1|] eqn:E; [|done]. intros Hr.
    eapply Hgo; [exact Hr|by eapply resume_shell|done]. }
  destruct (str_startswith trimmed (lit "cd ")).
  { intros [= Hr]. pose proof (cd_shell c (drop 3 trimmed) k Hi Hid (cx_cwd _ _ Hc)) as Hcd. rewrite Hr in Hcd.
    destruct Hcd as (Hk & Hd & Hinp & Hlen). split; [done|]. destruct Hc. constructor; [done|congruence|congruence|congruence]. }
  destruct (str_eq trimmed (lit "panic")); [done|]. destruct (str_eq trimmed (lit "reboot")); [done|].
  destruct (str_eq trimmed (lit "halt")); [done|].
  destruct (str_eq trimmed (lit "echo") || str_startswith trimmed (lit "echo ")).
  { pose proof (echo_shell c p k Hi Hid Hc) as He. destruct (shell_handle_echo _ _ _ _) as [k1 buf].
    by intros [= <- <-]. }
  destruct (shell_run_program _ _ _ _ _ _) as [[[k1 buf] r]|] eqn:E; [|done]. intros [= <- <-].
  destruct (run_program_shell _ _ _ _ _ _ _ _ Hi Hid Hc Hin E) as [Hk Hc']. destruct (r =? 0); [|done].
  pose proof (print_shell (sh_output c) (lit "Unknown command/program. Type " ++ quoted_help ++ line ".") k1
    (sk_inv _ _ Hk) (sk_idle _ _ Hk)) as Hk2.
  split; [by eapply shell_kept_trans|]. by apply (context_kept k1).
Qed.

Lemma process_char_shell mbi magic ch k c k' c' :
  os_inv k -> idle k -> context_ok k c -> inside k ->
  shell_process_char mbi magic ch k c = Some (k', c') -> shell_kept k k' /\ context_ok k' c'.
Proof using All.
  intros Hi Hid Hc Hin. unfold shell_process_char.
  assert (forall s, shell_kept k (print (sh_output c) s k)) as Hprint by (intros; by apply print_shell).
  pose proof (cx_size _ _ Hc) as Hsz. pose proof (cx_len _ _ Hc) as Hlen.
  destruct (line_end ch).
  - set (c1 := with_input (<[sh_len c := 0]> (input c)) (sh_len c) c). set (k1 := print (sh_output c1) [10] k).
    assert (context_ok k c1) as Hc1.
    { apply context_input; [done|by rewrite length_insert| |done]. apply Forall_insert; [apply Hc|unfold is_byte; lia]. }
    pose proof (Hprint [10] : shell_kept k k1) as Hk1.
    destruct (shell_execute_line c1 mbi magic k1) as [[k2 c2]|] eqn:E; [|done]. intros [= <- <-].
    destruct (execute_line_shell _ _ _ _ _ _ (sk_inv _ _ Hk1) (sk_idle _ _ Hk1) (context_kept _ _ _ Hk1 Hc1)
      (inside_same k k1 eq_refl eq_refl Hin) E) as [Hk2 Hc2].
    pose proof (print_shell (sh_output (with_input (input c2) 0 c2))
      (cstr (vfs_get_cwd_path (vfs_of k2) (sh_cwd (with_input (input c2) 0 c2)) VFS_PATH_MAX) ++ lit "> ") k2
      (sk_inv _ _ Hk2) (sk_idle _ _ Hk2)) as Hk3.
    split; [eapply shell_kept_trans; [exact Hk1|]; by eapply shell_kept_trans|].
    apply (context_kept k2); [exact Hk3|]. by apply context_input; [|done|apply Hc2|unfold SHELL_INPUT_MAX; lia].
  - destruct (_ || _).
    + destruct (0 <? sh_len c)%nat; intros [= <- <-].
      * split; [done|]. apply (context_kept k); [done|]. by apply context_input; [|done|apply Hc|lia].
      * split; [by apply shell_kept_refl|done].
    + destruct ((32 <=? ch) && (ch <=? 126) && _) eqn:E; intros [= <- <-].
      * apply andb_true_iff in E as [E El%Nat.ltb_lt]. zify_bool.
        split; [done|]. apply (context_kept k); [done|]. apply context_input; [done|by rewrite length_insert| |lia].
        apply Forall_insert; [apply Hc|unfold is_byte; lia].
      * split; [by apply shell_kept_refl|done].
Qed.

(** The invariant of the loop. *)
Record machine_inv (s : machine) : Prop := {
  mi_os : os_inv (m_kernel s);
  mi_idle : idle (m_kernel s);
  mi_vga : context_ok (m_kernel s) (vga_shell s);
  mi_serial : context_ok (m_kernel s) (serial_shell s)
}.

Lemma serve_key_shell mbi magic there s k vga b :
  machine_inv s -> inside (m_kernel s) -> serve_key mbi magic there s = Some (k, vga, b) ->
  shell_kept (m_kernel s) k /\ context_ok k vga.
Proof using All.
  intros [Hi Hid Hv _] Hin. unfold serve_key, try_key.
  assert (shell_kept (m_kernel s) (m_kernel s)) as Hrefl by (by apply shell_kept_refl).
  destruct (k_keys (m_kernel s)) as [|ch keys]; [by intros [= <- <- _]|].
  destruct there; [|by intros [= <- <- _]].
  set (k1 := with_io keys (k_out (m_kernel s)) (m_kernel s)).
  pose proof (io_shell keys (k_out (m_kernel s)) (m_kernel s) Hi Hid : shell_kept (m_kernel s) k1) as Hk1.
  destruct (shell_process_char _ _ _ _ _) as [[k2 c2]|] eqn:E; [|done]. intros [= <- <- _].
  destruct (process_char_shell _ _ _ _ _ _ _ (sk_inv _ _ Hk1) (sk_idle _ _ Hk1) (context_kept _ _ _ Hk1 Hv)
    (inside_same (m_kernel s) k1 eq_refl eq_refl Hin) E) as [Hk2 Hc2].
  split; [by eapply shell_kept_trans|done].
Qed.

Lemma iteration_inv mbi magic ready there serial s s' :
  machine_inv s -> inside (m_kernel s) ->
  (forall k vga b, serve_key mbi magic there s = Some (k, vga, b) -> inside k) ->
  shell_iteration mbi magic ready there serial s = Some s' -> machine_inv s'.
Proof using All.
  intros Hm Hin Hin2. unfold shell_iteration.
  destruct (serve_key mbi magic there s) as [[[k vga] b]|] eqn:E; [|done]. cbn [mbind option_bind].
  destruct (serve_key_shell _ _ _ _ _ _ _ Hm Hin E) as [Hk Hv].
  pose proof (context_kept _ _ _ Hk (mi_serial _ Hm)) as Hs.
  destruct (if ready then serial else None) as [ch|].
  - destruct (shell_process_char _ _ _ _ _) as [[k2 c2]|] eqn:Ep; [|done]. intros [= <-].
    destruct (process_char_shell _ _ _ _ _ _ _ (sk_inv _ _ Hk) (sk_idle _ _ Hk) Hs (Hin2 _ _ _ eq_refl) Ep) as [Hk2 Hc2].
    constructor; cbn [m_kernel vga_shell serial_shell]; [apply Hk2|apply Hk2|by apply (context_kept k)|done].
  - destruct b; [intros [= <-]; constructor; cbn [m_kernel vga_shell serial_shell]; try done; apply Hk|].
    destruct (task_resume_next_ready_user k mbi magic) as [[k2 b2]|] eqn:Er; [|done]. intros [= <-].
    destruct (resume_next_kept _ _ _ _ _ (sk_inv _ _ Hk) (sk_idle _ _ Hk) Er) as (pid & Ho & Hid2).
    pose proof (others_shell _ _ _ Ho Hid2) as Hk2.
    constructor; cbn [m_kernel vga_shell serial_shell]; [apply Hk2|apply Hk2|by apply (context_kept k)..].
Qed.

End kept.

(** ** The loop *)

Section loop.
Context `{Linker} `{MountFs} `{Programs}.

Definition tick_machine (s : machine) : machine :=
  {| m_kernel := timer_tick (m_kernel s); vga_shell := vga_shell s; serial_shell := serial_shell s |}.

(** The states the loop goes through, from the kernel [k0] that [kmain] leaves:
    iterations with any input, and timer interrupts between them.  Before a
    command runs no program with a plan that wraps around may be on the file
    system. *)
Inductive shell_reach (mbi : option multiboot_info) (magic : Z) (serial_ready : bool) (k0 : kernel) : machine -> Prop :=
  | reach_start in1 in2 :
      line_string in1 -> length in1 = 128%nat -> line_string in2 -> length in2 = 128%nat ->
      shell_reach mbi magic serial_ready k0 (shell_start serial_ready in1 in2 k0)
  | reach_tick s :
      shell_reach mbi magic serial_ready k0 s -> shell_reach mbi magic serial_ready k0 (tick_machine s)
  | reach_iteration s there serial s' :
      shell_reach mbi magic serial_ready k0 s -> inside (m_kernel s) ->
      (forall k vga b, serve_key mbi magic there s = Some (k, vga, b) -> inside k) ->
      shell_iteration mbi magic serial_ready there serial s = Some s' ->
      shell_reach mbi magic serial_ready k0 s'.

End loop.

Section theorems.
Context `{Linker} `{MountFs} `{!MountFsLaws} `{Programs} `{!ProgramsLaws}.

Lemma start_inv ready in1 in2 k :
  os_inv k -> idle k -> is_dir_node (vfs_of k) (k_root k) ->
  line_string in1 -> length in1 = 128%nat -> line_string in2 -> length in2 = 128%nat ->
  machine_inv (shell_start ready in1 in2 k).
Proof using.
  intros Hi Hid Hr [Hb1 _] Hl1 [Hb2 _] Hl2.
  assert (forall k1 t s, shell_kept k k1 -> shell_kept k (print t s k1)) as Hprint.
  { intros k1 t s Hk. eapply shell_kept_trans; [exact Hk|]. apply print_shell; apply Hk. }
  assert (shell_kept k (m_kernel (shell_start ready in1 in2 k))) as Hk.
  { cbn [shell_start m_kernel]. destruct ready; unfold shell_print_prompt; repeat apply Hprint; by apply shell_kept_refl. }
  constructor; [apply Hk|apply Hk|apply (context_kept k); [exact Hk|]..];
    constructor; cbn [vga_shell serial_shell shell_start sh_cwd input sh_len]; try done; unfold SHELL_INPUT_MAX; lia.
Qed.

Lemma reach_inv mbi magic ready k0 s :
  os_inv k0 -> idle k0 -> is_dir_node (vfs_of k0) (k_root k0) ->
  shell_reach mbi magic ready k0 s -> machine_inv s.
Proof using All.
  intros Hi Hid Hr. induction 1 as [in1 in2|s _ IH|s there serial s' _ IH Hin Hin2 Hrun].
  - by apply start_inv.
  - destruct IH as [Hs Hd Hv Hser]. pose proof (run_shell 0 _ _ (tick_run_kept 0 _ Hs) Hd) as Hk.
    constructor; [apply Hk|apply Hk|by apply (context_kept (m_kernel s))..].
  - by eapply iteration_inv.
Qed.


(** A line always comes to its end, if the programs do, unless it is "panic",
    "reboot" or "halt". *)
Theorem shell_line_ends mbi magic k c :
  programs_return -> shell_execute_line c mbi magic k = None ->
  let trimmed := skip_spaces (input c) in
  str_eq trimmed (lit "panic") = true \/ str_eq trimmed (lit "reboot") = true \/ str_eq trimmed (lit "halt") = true.
Proof using.
  intros Hret. unfold shell_execute_line. cbv zeta. fold (skip_spaces (input c)). set (trimmed := skip_spaces (input c)).
  assert (forall arg, is_Some (shell_handle_resume c mbi magic arg k)) as Hres.
  { intros arg. unfold shell_handle_resume. destruct (_ =? 0); [by eexists|].
    destruct (parse_u32_dec _) as [pid ok]. destruct (_ || _); [by eexists|].
    destruct (exec_resume_pid_returns Hret k (s32 pid) (shell_ctx c mbi magic)) as [x ->]. by eexists. }
  assert (is_Some (shell_run_program c mbi magic (input c) (spaces (input c)) k)) as Hrun.
  { unfold shell_run_program. destruct (shell_split_args _ _ _) as [buf argv].
    destruct (alias_args _) as [|arg0 rest]; [by eexists|].
    destruct (exec_run_path_returns Hret k (program_path arg0) (Z.of_nat (length argv)) (map Some (arg0 :: rest))
      (shell_ctx c mbi magic)) as [[k1 r] ->]. by eexists. }
  destruct (chr trimmed =? 0); [done|].
  destruct (str_eq trimmed (lit "help")); [done|]. destruct (str_eq trimmed (lit "clear")); [done|].
  destruct (str_eq trimmed (lit "heap")); [done|]. destruct (str_startswith trimmed (lit "alloc ")); [done|].
  destruct (str_eq trimmed (lit "dir")); [done|]. destruct (str_startswith trimmed (lit "dir ")); [done|].
  destruct (str_startswith trimmed (lit "file ")); [done|].
  destruct (str_startswith trimmed (lit "resume ")).
  { by destruct (Hres (drop 7 trimmed)) as [k1 ->]. }
  destruct (str_startswith trimmed (lit "cd ")); [done|].
  destruct (str_eq trimmed (lit "panic")); [auto|]. destruct (str_eq trimmed (lit "reboot")); [auto|].
  destruct (str_eq trimmed (lit "halt")); [auto|].
  destruct (_ || _); [by destruct (shell_handle_echo _ _ _ _)|].
  by destruct Hrun as [[[k1 buf] r] ->].
Qed.

(** C30: The arguments.  [shell_split_args], which cuts the line up in place, gives
    the first [max_args] words of the line up to a ">" that follows a word
    without a space; every ">" is an argument of its own.  The line keeps its
    length: nothing is written behind it. *)
Theorem split_args_words buf p max_args :
  let '(buf', argv) := shell_split_args buf p max_args in
  length buf' = length buf /\ map (arg_str buf') argv = take max_args (line_args (drop p buf)).
Proof using.
  unfold shell_split_args. pose proof (split_loop_spec (S (length buf)) buf p max_args []) as Hs.
  destruct (split_loop _ _ _ _ _) as [buf' argv']. destruct Hs as [Hl Hm]; [lia|constructor|].
  split; [done|]. rewrite Hm. cbn [map app length]. by rewrite Nat.sub_0_r.
Qed.

Lemma redir_found arg0 texts rest :
  Forall (fun s => str_eq s (lit ">") = false) texts ->
  echo_redir (arg0 :: texts ++ lit ">" :: rest) = Some (S (length texts)).
Proof using.
  intros Hf. unfold echo_redir. cbn [tl]. induction Hf as [|s l Hs _ IH]; [done|].
  cbn [app first_slot length]. rewrite Hs. destruct (first_slot _ _) as [i|]; cbn in *; [|done].
  injection IH as ->. done.
Qed.


(** A ">" directly after a word ends the line instead of starting a redirection:
    "echo a>b" prints "a" and writes no file. *)
Theorem glued_redirect_lost mbi magic k rest out cwd :
  let c := {| sh_output := out; input := lit "echo a>b" ++ 0 :: rest; sh_len := 8; sh_cwd := cwd |} in
  exists c', shell_execute_line c mbi magic k = Some (print_lines out [lit "a"; [10]] k, c').
Proof using. eexists. reflexivity. Qed.

End theorems.
