(* ===== verification/Demo.v ===== *)
(** * Demo: a small machine

    The state after the boot of a machine with 64 MB, the same with a program
    that waits to be resumed and with an ELF file, and the uses of the theorems
    of Exec.v, Boot.v and Shell.v there. *)
From S2P Require Import Prelude KernelH Util Memory Heap Proc Sched Iface Service Elf Core Ipc Storage IsoFs Vfs VfsTree Mount Syscall FdTable Kernel Files Keep User Exec Boot Shell.
Local Open Scope Z_scope.
Local Open Scope slop_scope.

#[export] Existing Instance demo_linker.
#[export] Existing Instances no_mount no_mount_laws.

(** Every program yields at once. *)
Definition yield_frame : list Z := [1; 2; 3; 4; 5; 6; 7; 248; 0x00300000; 27; 514; 0x21000; 35].
#[export] Instance demo_programs : Programs := { program := fun _ _ => [UTick; UCall yield_frame] }.

#[export] Instance demo_programs_laws : ProgramsLaws.
Proof.
  constructor. intros start k. constructor; [done|]. constructor; [|done]. split; [done|].
  repeat constructor; unfold is_u32; lia.
Qed.

Lemma demo_programs_return : programs_return.
Proof. intros start k. by eexists. Qed.

Definition mbi_64m : multiboot_info := text_mode_mbi 640 65536.

(** The variables of the kernel before the boot. *)
Definition image_zero : kernel := {|
  k_core := {| c_sched := with_procs proc_boot_zero sched_boot_zero; c_elf := slots_boot; c_mem := mem_empty |};
  k_ipc := ipc_boot; k_services := service_boot; k_nodes := ∅; k_root := 0;
  k_heap := {| h_start := 0; h_current := 0; h_limit := 0; h_ready := false |};
  fd_table := replicate 16 fd_boot; user_cwd := 0; user_boot_mbi := None; user_boot_magic := 0;
  ring3_active := false; ring3_current_pid := 0; k_keys := [112]; k_out := [] |}.

Lemma image_zero_ok : kernel_image image_zero.
Proof.
  constructor; try done.
  - exact proc_boot_zero_ok.
  - exact (proj1 (proj2 sched_boot_zero_ok)).
  - split; [done|]. by repeat constructor.
Qed.

Definition demo_booted : kernel := kmain MULTIBOOT_MAGIC (Some mbi_64m) [] mounts_boot image_zero.

Lemma heap_fits_root : kmalloc_fits (heap_init kernel_end (Some mbi_64m) MULTIBOOT_MAGIC) sizeof_node = true.
Proof. vm_compute. reflexivity. Qed.

Lemma kmain_inv_witness : os_inv demo_booted /\ idle demo_booted.
Proof.
  destruct (kmain_inv MULTIBOOT_MAGIC (Some mbi_64m) [] mounts_boot image_zero image_zero_ok heap_fits_root)
    as (Hi & Hid & _).
  split; [exact Hi|exact Hid].
Defined.

Lemma demo_booted_is : booted MULTIBOOT_MAGIC (Some mbi_64m) image_zero demo_booted.
Proof. by apply kmain_booted. Qed.

Lemma demo_booted_ok :
  os_inv demo_booted /\ idle demo_booted /\ is_dir_node (vfs_of demo_booted) (k_root demo_booted) /\
  next_pid (c_procs (k_core demo_booted)) <= 3.
Proof.
  destruct (booted_ok MULTIBOOT_MAGIC (Some mbi_64m) image_zero demo_booted image_zero_ok heap_fits_root
    demo_booted_is) as (? & ? & ? & _ & ? & _).
  done.
Qed.

(** ** A program that waits to be resumed *)

Definition demo_spawned : kernel :=
  with_core (with_c_sched (fst (task_spawn_user (c_sched (k_core demo_booted)) None 0)) (k_core demo_booted))
    demo_booted.

Definition demo_loaded : kernel :=
  with_core (with_c_elf (fst (elf_slot_for_pid (c_procs (k_core demo_spawned)) (c_elf (k_core demo_spawned)) 3))
    (k_mem demo_spawned) (k_core demo_spawned)) demo_spawned.

(** Process 3, with the 200 bytes of [demo_image] in slot 0. *)
Definition demo_waiting : kernel := with_core (fst (bind_image (k_core demo_loaded) 3 demo_image)) demo_loaded.

Lemma demo_next_pid : next_pid (c_procs (k_core demo_booted)) = 3.
Proof. vm_compute. reflexivity. Qed.

Lemma demo_spawn_pid : snd (task_spawn_user (c_sched (k_core demo_booted)) None 0) = 3.
Proof. vm_compute. reflexivity. Qed.

Lemma demo_spawned_ok :
  os_inv demo_spawned /\ has_task demo_spawned 3 /\
  proc_get_image (c_procs (k_core demo_spawned)) 3 = Some image_reset.
Proof.
  destruct demo_booted_ok as (Hi & _).
  destruct (task_spawn_user (c_sched (k_core demo_booted)) None 0) as [st pid] eqn:E.
  destruct (spawned demo_booted None 0 st pid Hi) as [Ho [[Hneg _]|(Hp & _ & Ht & Him)]]; [|exact E|..].
  - rewrite demo_next_pid. unfold INT_MAX. lia.
  - pose proof demo_spawn_pid as Hp. rewrite E in Hp. cbn in Hp. lia.
  - rewrite demo_next_pid in Hp. subst pid. unfold demo_spawned. rewrite E.
    split; [apply Ho|]. by split.
Qed.

Lemma demo_slot :
  owners (fst (elf_slot_for_pid (c_procs (k_core demo_spawned)) (c_elf (k_core demo_spawned)) 3)) !! 0%nat = Some 3.
Proof. vm_compute. reflexivity. Qed.

Lemma demo_loaded_kept : run_kept 3 demo_spawned demo_loaded.
Proof.
  destruct demo_spawned_ok as (Hi & _). unfold demo_loaded.
  destruct (elf_slot_for_pid (c_procs (k_core demo_spawned)) (c_elf (k_core demo_spawned)) 3) as [es r] eqn:E.
  destruct (slot_for_kept (k_core demo_spawned) 3 es r (ki_core _ (oi_kernel _ Hi)) ltac:(lia) E).
  apply mem_elf_kept; [done|done|done|apply Hi|done].
Qed.

Lemma demo_waiting_ok :
  os_inv demo_waiting /\ idle demo_waiting /\ has_task demo_waiting 3 /\ program_at demo_waiting 3 demo_image 0.
Proof.
  destruct demo_spawned_ok as (Hi & Ht & Him). pose proof demo_loaded_kept as Hk.
  destruct (kept_image _ _ _ _ (rk_core _ _ _ Hk) Him) as (i & Hi3 & _).
  destruct (bind_others demo_loaded 3 demo_image 0 (rk_inv _ _ _ Hk)) as [Ho Ha].
  - lia.
  - by exists i.
  - exact demo_slot.
  - exact demo_image_ok.
  - by left.
  - split; [apply Ho|]. split; [split; vm_compute; reflexivity|]. split; [|exact Ha].
    eexists. vm_compute. reflexivity.
Qed.

Definition demo_ctx : exec_context :=
  {| ec_output := CONSOLE_VGA; ec_cwd := 0; ec_mbi := Some mbi_64m; ec_magic := MULTIBOOT_MAGIC |}.

Lemma demo_ctx_ok k : ctx_ok k demo_ctx.
Proof. by left. Qed.

Lemma no_args_ok : args_ok [].
Proof. intros j. unfold arg_string. rewrite lookup_nil. split; [constructor|]. cbn. lia. Qed.

(** The program of process 3 is resumed and yields again. *)
Lemma demo_resumed :
  exists k', task_run_user_until_stop demo_waiting 3 0 [] demo_ctx = Some (k', Some (0, EXEC_STOP_YIELDED)).
Proof.
  destruct demo_waiting_ok as (Hi & Hid & _ & Ha).
  destruct (resume_run demo_waiting 3 demo_image 0 0 [] demo_ctx Hi Ha (demo_ctx_ok _) eq_refl)
    as (k2 & _ & _ & _ & Heq).
  assert (exists k3, user_run (program (Resume (context demo_image)) k2) k2 = Some (k3, 0, 1)) as [k3 Hu]
    by (eexists; reflexivity).
  rewrite Hu in Heq. cbn [mbind option_bind] in Heq.
  destruct (task_stopped (with_ring (ring3_active k3) 0 k3) 3 0 1) as [k4 r] eqn:Es.
  destruct (task_run_spec _ _ _ _ _ _ _ _ _ Hi Ha no_args_ok (demo_ctx_ok _) (proj1 Hid) (proj2 Hid) Heq)
    as (_ & _ & _ & Hsome).
  exists k4. rewrite Heq. clear Heq Ha Hid Hi Hu.
  destruct (Hsome (or_introl eq_refl)) as [x ->]. clear Hsome.
  revert Es. generalize (with_ring (ring3_active k3) 0 k3). intros k5 Es. unfold task_stopped, stop_program in Es.
  change (1 =? 1) with true in Es. cbv iota in Es.
  destruct (proc_get_image _ 3) as [im|]; [|done]. destruct (elf_snapshot_image _ _ _ _ _ _) as [[es m] ok].
  by destruct ok; cbn in Es; simplify_eq.
Qed.



Lemma resume_next_lowest_witness :
  exists k', task_resume_next_ready_user demo_waiting None 0 = Some (k', true).
Proof.
  destruct demo_waiting_ok as (Hi & Hid & _). pose proof (resume_next_lowest demo_waiting None 0 Hi Hid) as Hn.
  assert (next_ready demo_waiting = Some 3%nat) as Hnr by (vm_compute; reflexivity). rewrite Hnr in Hn.
  destruct Hn as (t & _ & _ & _ & Hrun).
  destruct (resume_from_returns demo_programs_return demo_waiting None 0 0 MAX_TASKS) as [[k' b] Hr].
  exists k'. destruct (Hrun k' b Hr) as (Hb & _). rewrite <- Hb. exact Hr.
Defined.

Lemma running_terminates_witness :
  is_Some (task_resume_next_ready_user demo_waiting None 0) /\
  is_Some (exec_run_path demo_booted (lit "/bin/ls") 0 [] demo_ctx).
Proof.
  destruct (running_terminates demo_programs_return) as (Hp & Hn & _).
  split; [apply Hn|apply Hp].
Defined.

(** ** A program on the file system *)

Definition demo_file : kernel :=
  with_vfs (fst (vfs_write_file (vfs_of demo_booted) (k_root demo_booted) (lit "/a.elf") good_elf)) demo_booted.

Lemma demo_file_kept : run_kept 0 demo_booted demo_file.
Proof.
  destruct demo_booted_ok as (Hi & _ & Hroot & _).
  apply write_file_kept; [exact Hi|exact Hroot|split; vm_compute; done|].
  unfold all_bytes. repeat constructor; done.
Qed.

Lemma demo_found_inside : found_inside demo_file (lit "/a") demo_ctx.
Proof.
  intros k1 p Hs k2 data size plan Hp.
  assert (snd (exec_search demo_file 0 (exec_candidates (lit "/a"))) = Some (lit "/a.elf")) as H1
    by (vm_compute; reflexivity).
  assert (snd (exec_plan (fst (exec_search demo_file 0 (exec_candidates (lit "/a")))) 0 (lit "/a.elf")) =
    inr (1573456, 84, good_plan)) as H2 by (vm_compute; reflexivity).
  change (ec_cwd demo_ctx) with 0 in Hs, Hp. rewrite Hs in H1, H2. cbn [fst snd] in H1, H2.
  injection H1 as ->. rewrite Hp in H2. cbn [snd] in H2. injection H2 as -> -> ->.
  repeat constructor; unfold ELF_USER_IMAGE_BASE, ELF_USER_IMAGE_MAX; cbn; lia.
Qed.


(** ** The shell *)

(** The plan the loader makes for one file stays inside the window. *)
Definition file_inside (m : mem) (n : vfs_node) : bool :=
  match elf_prepare_load_plan m (Some (data n, size_ n)) with
  | inr plan => forallb (fun s => (0 <=? file_offset s) && (0 <=? file_size s) && (file_size s <=? mem_size s) &&
                  (file_offset s + file_size s <=? size_ n) && (ELF_USER_IMAGE_BASE <=? vaddr s) &&
                  (vaddr s + mem_size s <=? ELF_USER_IMAGE_BASE + ELF_USER_IMAGE_MAX)) (segments plan)
  | inl _ => true
  end.

(** Without a disc, reading changes nothing and gives the data of a node. *)
Lemma read_file_tree (k : kernel) cwd path :
  exists r, read_file k cwd path = (with_vfs (vfs_of k) k, r) /\
    forall a n, r = Some (a, n) -> exists c nd, node_at (vfs_of k) c = Some nd /\ a = data nd /\ n = size_ nd.
Proof.
  unfold read_file, vfs_read_file. set (v := vfs_of k).
  assert (with_heap (vheap v) (vmem v) v = v) as Hv by reflexivity.
  destruct (vfs_is_cdrom_mount_path _) as [s|]; [cbn [fs_read no_mount]; rewrite Hv; by eexists|].
  destruct (vfs_is_bin_alias_path _) as [s|]; [cbn [fs_read no_mount]; rewrite Hv; by eexists|].
  destruct (node_at v _) as [nd|] eqn:E; [|by eexists]. destruct (_ || _); [by eexists|].
  eexists. split; [reflexivity|]. intros a n [= <- <-]. by eexists _, nd.
Qed.

Lemma tree_inside (k : kernel) :
  next_pid (c_procs (k_core k)) < INT_MAX ->
  (forall c nd, node_at (vfs_of k) c = Some nd -> file_inside (k_mem k) nd = true) -> inside k.
Proof.
  intros Hn Hf. split; [done|]. intros path ctx k1 p Hs k2 a n plan Hp.
  assert (forall l k0, vfs_of k0 = vfs_of k -> vfs_of (fst (exec_search k0 (ec_cwd ctx) l)) = vfs_of k) as Hsearch.
  { induction l as [|q l IH]; intros k0 Hk0; cbn [exec_search]; [done|]. unfold exec_is_elf_path.
    destruct (read_file_tree k0 (ec_cwd ctx) q) as (r & -> & _).
    assert (vfs_of (with_vfs (vfs_of k0) k0) = vfs_of k) as Hk1 by (rewrite <- Hk0; by destruct k0 as [[]]).
    destruct r as [[a0 n0]|]; [|by apply IH]. destruct (_ && _); [done|by apply IH]. }
  specialize (Hsearch (exec_candidates path) k eq_refl). rewrite Hs in Hsearch. cbn [fst] in Hsearch.
  assert (forall k0, vfs_of (with_vfs (vfs_of k0) k0) = vfs_of k0) as Hsame by (intros [[] ]; done).
  unfold exec_plan in Hp. destruct (read_file_tree k1 (ec_cwd ctx) p) as (r & Hr & _). rewrite Hr in Hp.
  destruct r as [[a0 n0]|]; [|done]. destruct (a0 =? 0); [done|].
  destruct (read_file_tree (with_vfs (vfs_of k1) k1) (ec_cwd ctx) p) as (r2 & Hr2 & Hnode). rewrite Hr2 in Hp.
  rewrite Hsame, Hsearch in Hnode.
  assert (r2 = Some (a0, n0)) as ->.
  { destruct (read_file_same (with_vfs (vfs_of k1) k1) k1 (ec_cwd ctx) p (Hsame k1)) as [_ Hq].
    rewrite Hr2, Hr in Hq. exact Hq. }
  destruct (Hnode _ _ eq_refl) as (c & nd & Hnd & -> & ->). specialize (Hf c nd Hnd). unfold file_inside in Hf.
  assert (k_mem (with_vfs (vfs_of (with_vfs (vfs_of k1) k1)) (with_vfs (vfs_of k1) k1)) = k_mem k) as Hm.
  { apply same_mem. by rewrite !Hsame. }
  rewrite Hm in Hp. destruct (elf_prepare_load_plan _ _) as [e|pl]; [done|]. injection Hp as _ <- <- <-.
  apply Forall_forall. intros s Hs'. rewrite forallb_forall in Hf.
  specialize (Hf s Hs'). zify_bool. constructor; lia.
Qed.

Lemma nodes_checked (k : kernel) :
  forallb (fun '(_, nd) => file_inside (k_mem k) nd) (map_to_list (k_nodes k)) = true ->
  forall c nd, node_at (vfs_of k) c = Some nd -> file_inside (k_mem k) nd = true.
Proof.
  intros Hall c nd Hnd. rewrite forallb_forall in Hall.
  apply (Hall (c, nd)). apply list_elem_of_In. by apply elem_of_map_to_list.
Qed.

Lemma demo_inside : inside demo_booted.
Proof.
  apply tree_inside; [rewrite demo_next_pid; unfold INT_MAX; lia|].
  apply nodes_checked. vm_compute. reflexivity.
Qed.

Definition demo_line : list Z := replicate 128 0.

Lemma demo_line_ok : line_string demo_line /\ length demo_line = 128%nat.
Proof. split; [split|done]; [by apply Forall_replicate|done]. Qed.

Definition demo_start : machine := shell_start true demo_line demo_line demo_booted.

Lemma start_same ready in1 in2 (k : kernel) :
  let k' := m_kernel (shell_start ready in1 in2 k) in
  k_core k' = k_core k /\ vfs_of k' = vfs_of k /\ k_keys k' = k_keys k.
Proof. by destruct ready. Qed.

Lemma demo_start_inside : inside (m_kernel demo_start).
Proof.
  destruct (start_same true demo_line demo_line demo_booted) as (Hc & Hv & _).
  by apply (inside_same demo_booted); [symmetry..|exact demo_inside].
Qed.

Lemma demo_key : k_keys (m_kernel demo_start) = [112].
Proof.
  destruct (start_same true demo_line demo_line demo_booted) as (_ & _ & Hk). unfold demo_start. rewrite Hk.
  vm_compute. reflexivity.
Qed.

(** Typing "p" into an empty line. *)
Lemma serve_p mbi magic (s : machine) :
  k_keys (m_kernel s) = [112] -> sh_len (vga_shell s) = 0%nat ->
  exists k vga, serve_key mbi magic true s = Some (k, vga, true) /\
    k_core k = k_core (m_kernel s) /\ vfs_of k = vfs_of (m_kernel s) /\ sh_len vga = 1%nat.
Proof.
  intros Hk Hl. unfold serve_key, try_key. rewrite Hk. unfold shell_process_char. cbn [line_end]. rewrite Hl.
  eexists _, _. split; [reflexivity|]. done.
Qed.


Definition typing (s : list Z) : shell_context := {|
  sh_output := CONSOLE_VGA; input := s ++ replicate (128 - length s) 0; sh_len := length s;
  sh_cwd := k_root demo_booted |}.

(** Two characters, one of them taken back, and a third one. *)
Lemma line_editor_witness :
  exists out c', type_chars None 0 [108; 100; 8; 115] demo_booted (with_input demo_line 0 (typing [])) =
      Some (with_io (k_keys demo_booted) out demo_booted, c') /\
    cstr (<[sh_len c' := 0]> (input c')) = lit "ls".
Proof.
  destruct (line_editor None 0 [108; 100; 8; 115] demo_booted (with_input demo_line 0 (typing [])))
    as (out & c' & Hrun & _ & Hline & _).
  - reflexivity.
  - reflexivity.
  - repeat constructor.
  - exists out, c'. split; [exact Hrun|exact Hline].
Defined.

Lemma shell_line_ends_witness :
  str_eq (skip_spaces (lit " halt")) (lit "panic") = true \/ str_eq (skip_spaces (lit " halt")) (lit "reboot") = true \/
  str_eq (skip_spaces (lit " halt")) (lit "halt") = true.
Proof.
  exact (shell_line_ends None 0 demo_booted
    {| sh_output := CONSOLE_VGA; input := lit " halt"; sh_len := 5; sh_cwd := 0 |} demo_programs_return eq_refl).
Defined.

Definition echo_line : list Z := lit "echo hi  there > /t".

Lemma echo_context_ok : context_ok demo_booted (typing echo_line).
Proof.
  destruct demo_booted_ok as (_ & _ & Hr & _). constructor; [exact Hr|reflexivity| |].
  - change (input (typing echo_line)) with (echo_line ++ replicate 109 0). apply Forall_app. split; [|by apply Forall_replicate].
    assert (forallb (fun x => (0 <=? x) && (x <? 256)) echo_line = true) as Hb by (vm_compute; reflexivity).
    rewrite forallb_forall in Hb. apply Forall_forall. intros x Hx. specialize (Hb x Hx). zify_bool. unfold is_byte. lia.
  - change (sh_len (typing echo_line)) with 19%nat. unfold SHELL_INPUT_MAX. lia.
Qed.

Definition demo_echoed : kernel :=
  fst (shell_handle_echo (typing echo_line) (input (typing echo_line)) 0 demo_booted).

Lemma demo_echoed_is :
  demo_echoed = fst (shell_handle_echo (typing echo_line) (input (typing echo_line)) 0 demo_booted).
Proof. unfold demo_echoed. reflexivity. Qed.

Lemma same_length_no_more {A} (l l' : list A) (x : A) : length l' = length l -> l' = l ++ [x] -> False.
Proof. intros Hl ->. rewrite length_app in Hl. cbn [length] in Hl. lia. Qed.

Lemma demo_echo_quiet : length (k_out demo_echoed) = length (k_out demo_booted).
Proof. vm_compute. reflexivity. Qed.

